(* ===== verification/_CoqProject ===== *)
-Q . S2P
Prelude.v
Mem.v
Blend.v
Renderer.v
Transform.v
EmitLine.v
Blit.v
Routines.v
Paint.v
JRenderer.v
FillRect.v
SurfaceRGB.v
FillMask.v
LensKeys.v
LensState.v
LensList.v
LensWM.v
LensSafe.v
LensRequests.v
LensBehaviour.v
LensRuns.v
Bytes.v
FlvParser.v
GArray.v
FlvMetadata.v
FlvScript.v
FlvAmf.v
FlvIndex.v
ByteQueue.v
GstSegment.v
FlvDemux.v
GstAdapter.v
FileCache.v
Threads.v
ProgressBuffer.v
PbFlow.v
PbLive.v
PbPull.v
PbRuns.v
HlsBuffer.v
HlsFlow.v
HlsLive.v
HlsRuns.v
FlvRuns.v
FlvDrain.v
FlvPlay.v
FlvSeek.v
FlvDemuxRuns.v
PbFlv.v
PbFlvRuns.v
Sse2.v
ColorSse2.v
ColorC.v
ColorBlocks.v
ColorPicture.v
ColorPlain.v
ColorConvert.v
GstVideoFrame.v
VideoConvert.v
VideoSwap.v
ColorRuns.v
