(* ===== verification/Prelude.v ===== *)
(** * Rendering, windows and media in JavaFX: a verification library

    The library covers five parts of OpenJFX 8 that are written in C and C++:

    - Pisces, the software renderer under
      src/modules/graphics/src/main/native-prism-sw/;
    - Lens, the window manager for devices without a window system, under
      src/modules/graphics/src/main/native-glass/lens/;
    - the support for FLV files of the media player, under
      src/modules/media/src/main/native/gstreamer/plugins/vp6/, with what it uses of
      GLib and GStreamer;
    - the buffers of downloads and of live streams of the media player, under
      src/modules/media/src/main/native/gstreamer/plugins/progressbuffer/;
    - the conversion of the frames of a film to pixels, under
      src/modules/media/src/main/native/jfxmedia/ (Utils/ColorConverter.c,
      platform/gstreamer/GstVideoFrame.cpp, PipelineManagement/VideoFrame.cpp).

    The first three meet only in Java, which asks Lens for windows and events, Pisces
    for pixels and the player for sound and pictures; the buffer feeds the
    demultiplexer for FLV files, and what a decoder makes of its packets comes to
    Java as frames.  Each is a library of its own on top of this file.

    ** Pisces

    Java creates a renderer for a surface, an image in an array of Java, sets
    its colour or paint, composite rule, clip and mask, and calls an operation
    such as [fillRect].  A setter only marks what it invalidates.  An operation
    pins the array, brings the pointers to the routines for the current settings
    up to date, cuts its shape into batches of scan lines, has the paint
    generated for a batch if it is not a flat colour, and calls the routine that
    blends the batch into the image.

    - Mem: arrays with bounds, loops, rasters (no source of its own).
    - Blend: pixel arithmetic (PiscesBlit.c, blend...).
    - Renderer: the structures (PiscesRenderer.h, PiscesSurface.h).
    - Transform: affine transforms in fixed point, with the inverse in single
      precision (PiscesTransform.c).
    - EmitLine, Blit: the routines for batches (PiscesBlit.c, emitLine...,
      blit..., clearRect8888, initGammaArrays).
    - Routines: the settings and the choice of routines (PiscesRenderer.inl).
    - Paint: gradients and textures (PiscesPaint.c).
    - JRenderer: the functions that Java calls (JPiscesRenderer.c), acquiring and
      releasing a surface (JJavaSurface.c), the error flag (PiscesSysutils.c).
    - FillRect, FillMask: [fillRect] and [fillAlphaMask] as a whole.
    - SurfaceRGB: copying pixels in and out (JAbstractSurface.c,
      PiscesSurface.inl) with the checks of AbstractSurface.java.

    The theorems, from the bottom up.  Blending a pixel is the Porter-Duff rule up
    to a stated rounding, keeps channels bytes and colours premultiplied.  Each of
    the routines for a batch stays in its buffers, changes the pixels of the batch
    only and computes the blend for the coverage that it is given; a batch is
    described by [raster], the image with a rectangle of pixels rewritten.  The
    generators of paint end and fill the buffer, without leaving the image they
    read.  The cached pointers to routines refine a look-up by the settings, for
    every sequence of settings and validations.  On top of these the operations
    are described from end to end, for flat colours: [fillRect] blends exactly the
    pixels the rectangle touches, each by the product of its coverages, and
    [fillAlphaMask] those of the mask; both leave a state that can be used again,
    also when memory is short.  Pixels written by setRGB are read back by getRGB.

    A result is [None] for undefined behaviour of C: an access outside an array,
    a call of a null pointer, a conversion of a float that does not fit, or a loop
    that does not end.  So a theorem that a function gives [Some] is one of memory
    safety and of termination.  Loops have fuel where their bound is not a counter:
    the pixels of a line in EmitLine, one unit for each pixel, and the batches of
    [fillRect], one unit for each line that is left, a batch having at least one.
    Floats are IEEE binary32, rounded after each operation (no
    fused operations).  The allocator, [pow] and the success of pinning an array
    are parameters.  The array that a call gets and the array of the surface are
    distinct objects, and a surface has one renderer at a time.

    ** Lens

    Java creates windows and views, moves, shows, hides, focuses and closes them;
    the drivers of the input devices report motion, buttons, touches and keys.
    Lens keeps the windows in a list in Z order, decides which window an event is
    for, and sends notifications to Java, where they are queued.

    - LensKeys: the table of keys and the modifiers (LensInputEvents.c).
    - LensState: the structures (LensCommon.h), the variables of the window
      manager, a monad of computations over them, and the functions that notify
      Java (LensApplication.c).
    - LensList: the linked list of windows (LensWindow.c).
    - LensWM: the window manager (wm/LensWindowManager.c) and the functions that
      Java calls (LensWindow.c, LensView.c).
    - LensSafe: the invariant, and rules that prove that it is kept.
    - LensRequests: every request to the window manager, its contract, and the
      state machine that they form.
    - LensBehaviour: what the main operations do.
    - LensRuns: concrete runs.

    The theorems.  The pointers of the list implement add, remove, to front and to
    back on a list.  In every reachable state a request that respects its contract
    runs without following a dangling pointer and keeps the invariant; the focus
    notifications follow their protocol, and only the focused window has the grab.
    A point belongs to the topmost window that can get it.  Restoring a window
    undoes minimizing, maximizing and full screen.  Closing one sends exactly the
    notifications it should.  The limits of a size are respected.  The modifiers
    count presses and releases; the table of keys is read back consistently.

    A computation gives [None] for undefined behaviour, as above.  The fuel of a
    loop over the list is one more than the number of allocated windows, which a
    list without cycles does not use up ([zorder_fuel]).  Functions run one at a
    time: the mutexes, and races between the thread of Java and the threads of
    devices, are left out.
    The platform is that of headlessScreen.c.  The results of the allocator and of
    the virtual machine and the key codes of the kernel are parameters.

    ** FLV files

    A file is a header and tags, each with a prefix and a body: a packet of audio,
    a packet of video, or script data with the properties of the file.  The
    demultiplexer, an element of a GStreamer pipeline, is given the bytes in buffers
    of any size, which it keeps in an adapter, or pulls them from a source.  It takes
    the bytes in blocks of the size that the parser asks for, pushes the packets to a
    pad for each stream, and keeps an index of key frames, from script data and from
    the packets, for seeking.

    - Bytes: big-endian numbers in buffers (gstutils.h, flvparser.h).
    - FlvParser: the parser of blocks (flvparser.c).
    - GArray: the growing arrays of GLib (garray.c).
    - FlvMetadata: the reader of script data (flvmetadata.c), as a monad over the
      position and the properties; FlvScript: it is safe and ends; FlvAmf: it reads
      what a writer of the Action Message Format writes.
    - FlvIndex: the index (flvdemux.c, with glist.c of GLib).
    - ByteQueue: the interface of a queue of bytes, a class of operations with their
      laws; GstAdapter: the adapter (gstadapter.c), its instance.
    - GstSegment: segments, seeks and results of the flow of data (gstsegment.c).
    - FlvDemux: the demultiplexer (flvdemux.c), as a monad over its structure and the
      events that it sends.
    - FlvDrain: it is safe, and does the same however the bytes arrive, over any
      instance of the interface; FlvPlay: it plays a file of packets; FlvSeek:
      indexing and seeking.
    - FlvRuns, FlvDemuxRuns: concrete runs.

    The theorems.  Each operation of the parser stays in its buffer and gives the
    answer that its state and arguments determine.  Script data of any bytes is read
    to an end, within the block, but for three kinds of fault that the values cause;
    script data as a writer writes it is read back.  The index stays sorted, and a
    look-up finds the last key frame that is not after a time.  The adapter refines a
    list of bytes.  On top of these: a buffer of any bytes leaves the demultiplexer in
    a state that can go on; cutting a file into buffers makes no difference, nor does
    pulling it instead; a file of packets plays; indexing adds the key frames of the
    file; a seek goes to the key frame that it should.

    A computation ends in a fault for undefined behaviour, with its kind, and in
    [OutOfFuel] for a loop that does not end.  The loops over script data have a unit
    of fuel for each byte that is left, and nested values one for each level, with as
    many levels as bytes; the loop over the blocks one for each byte of the adapter, a
    block having at least four; indexing as many as its caller wants, and as many as
    there are tags are enough.  Sizes have their 32 or 64 bits: the queue holds less
    than 2 ^ 31 bytes.  What the rest of the pipeline answers is a parameter ([Pads]),
    which may depend on all that was sent before; so are the validation of UTF-8
    ([g_utf8_validate]), memory that was not written ([junk], [garbage]), whether two
    buffers are parts of one ([gst_buffer_is_span_fast]) and whether GStreamer checks
    its arguments ([g_checks]).  Buffers of the pipeline are values: that they share
    memory is left out, and so are locks and the thread of the task.

    ** Downloads

    A source, for which Java reads a stream, gives its bytes to the buffer, which
    writes them to a cache, a temporary file.  In push mode a task reads the cache and
    pushes buffers downstream; a seek moves the position in the cache or asks the
    source to restart elsewhere.  In pull mode downstream requests ranges; one that
    has not arrived is refused, and a thread reports it when it has.

    - FileCache: the interface of the cache (cache.h), a class of operations with their
      laws, and both implementations (posix/filecache.c, win32/filecache.c) as its
      instances, on a system that completes its calls.
    - Threads: computations over the structure of an element, and rules for them.
    - ProgressBuffer: the element (progressbuffer.c), as a monad over its structure and
      the events that it sends, over any cache.  A step of a thread is what it does from
      one release of the lock to the next, with the calls that it makes out of the lock.
    - PbFlow: the invariant, for every interleaving of the steps of source, seeks and
      task; PbLive: the push mode; PbPull: the pull mode.
    - PbFlv: the demultiplexer behind the buffer, in both modes.
    - PbRuns, PbFlvRuns: concrete runs.
    - HlsBuffer: the buffer of a live stream (hlsprogressbuffer.c), which keeps segments in
      a ring of three caches; HlsFlow: its invariant, the ring as a queue of segments;
      HlsLive: what passes it and when it stops; HlsRuns: concrete runs.

    The theorems.  Whatever the interleaving, and whatever downstream answers, downstream
    gets the content from where the last segment said, without a gap.  A content that
    was received is pushed to its end, in at most two steps for each byte and three
    more.  A range gets exactly its bytes or is refused; a refused one is reported
    when it has arrived, and then served.  A film comes to the same in both modes.
    The segments of a live stream come out in order; every step of its threads reduces the
    work that is left, and they stop at the end of the stream or where the source has missed
    a signal.

    The system calls, the rest of the pipeline, timers and threads are parameters
    ([Sys], [Env]).  Waiting for the condition is a step that changes nothing, so that a
    thread that is woken late or early is a special case; where the condition is
    signalled is in the list of events, and for live streams so is where a thread begins to
    wait.  Sizes are below 2 ^ 62 in pull mode and 2 ^ 63
    in push mode.

    ** Frames of films

    A decoder gives buffers with planes of luma (Y), chroma (U and V) and alpha, or with
    packed pixels, and caps that say where they are.  A frame keeps the buffer and reads
    the caps; for a display that needs pixels Java asks it for a conversion, which
    allocates a picture, has ColorConverter.c fill it and makes a new frame of it.

    - Sse2: the registers and instructions for vectors (emmintrin.h of the compiler), and
      numbers in memory.
    - ColorSse2: the functions with SSE2: a definition for each of the sixteen blocks that
      the four functions have, which computes on registers, and the loops around them.
    - ColorC: the functions in plain C, with their tables.
    - ColorBlocks: each block computes the pixels of a format, an instance of the class
      [Computes]; ColorPicture: the loops, for any such blocks; ColorPlain: the functions in
      plain C; ColorConvert: the theorems on both.
    - GstVideoFrame: frames, caps (gststructure.c) and the conversions that Java calls;
      VideoConvert: from planes to pixels; VideoSwap: between the orders of bytes.
    - ColorRuns: concrete runs.

    The theorems.  The functions give the picture that is defined pixel by pixel,
    [picture], change nothing else, and access nothing outside the arrays or, with
    instructions that fault there, at an address that is not aligned.  The colours are
    close to the exact ones, and the two builds differ by one level at most.  The frames
    provide what the functions need, and describe what they made.  Swapping the bytes of
    pixels twice gives them back.

    A result is [None] for undefined behaviour, as for Pisces.  The loop over the blocks of
    16 columns has as much fuel as there are columns, the loop over the pixels of a swapped
    buffer as much as there are bytes.  The allocators and whether the build has SSE2 are
    parameters ([Env]); pictures are below 4 GB, which the code does not check.  The planes
    and the new picture are distinct arrays.  Of the counts of references only those to the
    new buffer are modelled, and the time of a frame is kept in nanoseconds, not as a
    floating-point number of seconds.

    ** What the code gets wrong

    Beside the theorems about what the code does right there are lemmas about runs
    that go wrong: a clear rule without a line routine, an interpolated image of
    one column read past its end, alpha that wraps, a check of array bounds that
    overflows, mask routines that are missing; a window closed while it is dragged
    from, a release sent to the wrong window, a modifier that sticks, a failed
    creation that frees twice; arrays of key frames written past their end, a seek
    that restarts the file; an end of a stream that is lost, a range read from the wrong
    place after a restart, a signal that is missed; chroma planes that are swapped twice,
    pictures that leak when a conversion is refused, rows of pixels looked for at four times
    their distance, and others.

    ** Not modelled

    Of Pisces: surfaces in native memory, Java objects for transforms, and the
    tables of PiscesMath.c, which nothing here calls; the end-to-end theorems are
    for flat colours.  Of Lens: painting, screens, cursors, the input devices, the
    remote frame buffer, starting and stopping.  Of the media player: the decoders
    and the sources, which are other elements and adapters of libraries, and the rest
    of the player, which is C++ around GStreamer and the virtual machine.  Of the rest
    of the repository: the path rasterizer under native-prism (curves in floating
    point), the pipelines for OpenGL and Direct3D, the toolkits of the desktop
    platforms, fonts, image decoding, effects and the launchers; these call the
    platform, are written in other languages or are third-party code.  The web engine,
    GStreamer and GLib are third-party code, but for the few functions named above.

    This file holds what all others share: machine integers, bits, lists. *)

From stdpp Require Export base list option numbers tactics.
From Stdlib Require Export ZArith Lia.

#[export] Set Default Proof Using "Type".
Declare Scope pisces_scope.
Delimit Scope pisces_scope with pisces.
Open Scope Z_scope.

(** ** Machine integers

    [jint] and [jlong] are two's complement integers of 32 and 64 bits.  An
    expression of C is written over [Z] and wrapped to its type where its value
    is observed (stored, compared, divided, shifted right or used as an index);
    wrapping only there gives the same value as wrapping after every addition,
    subtraction, multiplication or left shift. *)

Definition i32 (z : Z) : Z := (z + 2147483648) mod 4294967296 - 2147483648.

Definition i64 (z : Z) : Z :=
  (z + 9223372036854775808) mod 18446744073709551616 - 9223372036854775808.

Definition u32 (z : Z) : Z := z mod 4294967296.

Definition u64 (z : Z) : Z := z mod 18446744073709551616.

Definition is_i32 (z : Z) : Prop := -2147483648 <= z <= 2147483647.
Definition is_i64 (z : Z) : Prop :=
  -9223372036854775808 <= z <= 9223372036854775807.
Definition is_u32 (z : Z) : Prop := 0 <= z < 4294967296.
Definition is_u64 (z : Z) : Prop := 0 <= z < 18446744073709551616.
Definition is_byte (z : Z) : Prop := 0 <= z <= 255.

#[export] Instance is_i32_dec z : Decision (is_i32 z).
Proof. unfold is_i32. apply _. Defined.
#[export] Instance is_i64_dec z : Decision (is_i64 z).
Proof. unfold is_i64. apply _. Defined.
#[export] Instance is_u32_dec z : Decision (is_u32 z).
Proof. unfold is_u32. apply _. Defined.
#[export] Instance is_u64_dec z : Decision (is_u64 z).
Proof. unfold is_u64. apply _. Defined.
#[export] Instance is_byte_dec z : Decision (is_byte z).
Proof. unfold is_byte. apply _. Defined.

(** C's [>>], [<<], [&] and [|] on two's complement integers. *)
Infix ">>" := Z.shiftr (at level 51, left associativity) : pisces_scope.
Infix "<<" := Z.shiftl (at level 51, left associativity) : pisces_scope.
Infix ".&" := Z.land (at level 52, left associativity) : pisces_scope.
Infix ".|" := Z.lor (at level 53, left associativity) : pisces_scope.
(** Assignments in sequence. *)
Notation "r |> f" := (f r) (at level 62, left associativity, only parsing) : pisces_scope.
Open Scope pisces_scope.

(** An integer used as a condition. *)
Definition truth (z : Z) : bool := negb (z =? 0).

(** The conditional [c ? a : b] of C, so that index arithmetic reads like the source. *)
Definition cond {A} (c : bool) (a b : A) : A := if c then a else b.

(** ** Tactics *)

(** Linear arithmetic over division and modulo by positive constants. *)
Ltac zlia := Z.div_mod_to_equations; lia.
Ltac znia := Z.div_mod_to_equations; nia.

(** Case analysis on the boolean comparisons of [Z] in the goal. *)
Ltac zcase :=
  repeat match goal with
  | |- context [Z.eqb ?a ?b] => destruct (Z.eqb_spec a b)
  | |- context [Z.ltb ?a ?b] => destruct (Z.ltb_spec a b)
  | |- context [Z.leb ?a ?b] => destruct (Z.leb_spec a b)
  end; simpl andb; simpl orb; simpl negb; cbv iota.

(** ** Lemmas on wrap-around *)

Lemma i32_id z : is_i32 z -> i32 z = z.
Proof. unfold is_i32, i32. intros. rewrite Z.mod_small; lia. Qed.

Lemma i64_id z : is_i64 z -> i64 z = z.
Proof. unfold is_i64, i64. intros. rewrite Z.mod_small; lia. Qed.

Lemma i32_range z : is_i32 (i32 z).
Proof.
  unfold is_i32, i32.
  pose proof (Z.mod_pos_bound (z + 2147483648) 4294967296). lia.
Qed.

Lemma i64_range z : is_i64 (i64 z).
Proof.
  unfold is_i64, i64.
  pose proof (Z.mod_pos_bound (z + 9223372036854775808) 18446744073709551616). lia.
Qed.

(** Adding to a wrapped sum is adding to the sum: the loop counters that the
    code increments once per iteration have the closed form one expects. *)
Lemma i32_add_l a b : i32 (i32 a + b) = i32 (a + b).
Proof.
  unfold i32. f_equal.
  replace ((a + 2147483648) mod 4294967296 - 2147483648 + b + 2147483648)
    with ((a + 2147483648) mod 4294967296 + b) by lia.
  rewrite Zplus_mod_idemp_l. f_equal. lia.
Qed.

Lemma i64_add_l a b : i64 (i64 a + b) = i64 (a + b).
Proof.
  unfold i64. f_equal.
  match goal with |- (?m - ?k + b + ?k) mod _ = _ =>
    replace (m - k + b + k) with (m + b) by lia end.
  rewrite Zplus_mod_idemp_l. f_equal. lia.
Qed.

Lemma u32_id z : is_u32 z -> u32 z = z.
Proof. unfold is_u32, u32. intros. rewrite Z.mod_small; lia. Qed.

Lemma u64_id z : is_u64 z -> u64 z = z.
Proof. unfold is_u64, u64. intros. rewrite Z.mod_small; lia. Qed.

Lemma u32_range z : is_u32 (u32 z).
Proof. unfold is_u32, u32. apply Z.mod_pos_bound. lia. Qed.

Lemma u64_range z : is_u64 (u64 z).
Proof. unfold is_u64, u64. apply Z.mod_pos_bound. lia. Qed.

Lemma u64_add_l a b : u64 (u64 a + b) = u64 (a + b).
Proof. unfold u64. apply Zplus_mod_idemp_l. Qed.

Lemma i32_i32 a : i32 (i32 a) = i32 a.
Proof. apply i32_id, i32_range. Qed.

(** ** Bit fields as division and modulo *)

Lemma land_ff z : z .& 255 = z mod 256.
Proof. change 255 with (Z.ones 8). by rewrite Z.land_ones. Qed.

Lemma land_ffff z : z .& 65535 = z mod 65536.
Proof. change 65535 with (Z.ones 16). by rewrite Z.land_ones. Qed.

Lemma land_1ffff z : z .& 131071 = z mod 131072.
Proof. change 131071 with (Z.ones 17). by rewrite Z.land_ones. Qed.

Lemma shr8 z : z >> 8 = z / 256.
Proof. by rewrite Z.shiftr_div_pow2. Qed.

Lemma shr16 z : z >> 16 = z / 65536.
Proof. by rewrite Z.shiftr_div_pow2. Qed.

Lemma shr24 z : z >> 24 = z / 16777216.
Proof. by rewrite Z.shiftr_div_pow2. Qed.

Lemma shl8 z : z << 8 = z * 256.
Proof. by rewrite Z.shiftl_mul_pow2. Qed.

Lemma shl16 z : z << 16 = z * 65536.
Proof. by rewrite Z.shiftl_mul_pow2. Qed.

Lemma shl24 z : z << 24 = z * 16777216.
Proof. by rewrite Z.shiftl_mul_pow2. Qed.

Create HintDb pisces discriminated.
Create Rewrite HintDb pisces_bits.
Create Rewrite HintDb pisces_len.
#[export] Hint Rewrite land_ff land_ffff land_1ffff shr8 shr16 shr24 shl8 shl16 shl24
  : pisces_bits.
#[export] Hint Resolve i32_range i64_range u32_range u64_range : pisces.

(** Turn the shifts and masks of the code into division and modulo. *)
Ltac bits := autorewrite with pisces_bits in *.

(** A disjoint [|] is an addition. *)
Lemma lor_add_low a b n :
  0 <= n -> 0 <= b < 2 ^ n -> (a * 2 ^ n) .| b = a * 2 ^ n + b.
Proof.
  intros Hn Hb. rewrite <- Z.shiftl_mul_pow2 by done. apply Z.bits_inj'. intros i Hi.
  rewrite Z.lor_spec. destruct (Z.lt_ge_cases i n) as [Hlt|Hge].
  - rewrite Z.shiftl_spec_low by done. simpl.
    rewrite Z.shiftl_mul_pow2 by done.
    rewrite <- (Z.mod_pow2_bits_low (a * 2 ^ n + b) n i) by lia.
    rewrite Z.add_comm, Z_mod_plus_full, Z.mod_small by done. done.
  - rewrite Z.shiftl_spec by done.
    assert (Z.testbit b i = false) as ->.
    { rewrite <- (Z.mod_small b (2 ^ n)) by done. by apply Z.mod_pow2_bits_high. }
    rewrite orb_false_r, Z.shiftl_mul_pow2 by done.
    replace i with ((i - n) + n) at 2 by lia.
    rewrite <- Z.shiftr_spec, Z.shiftr_div_pow2, Z.div_add_l by lia.
    rewrite (Z.div_small b) by done. f_equal. lia.
Qed.
