(* ===== verification/Mem.v ===== *)
(** * Arrays, loops and rasters

    What the routines of the renderer share: bounds-checked array accesses, the
    loops of C, the three things a blitting routine does to a pixel, and the
    closed form of an image in which a rectangle of pixels was rewritten.

    A result of type [option] is [None] exactly when the C code would have
    undefined behaviour: an access outside an array, a call through a null
    pointer, or a loop that does not end. *)

From S2P Require Import Prelude.

(** ** Array accesses *)

(** [a[i]] as a value; [None] outside the array. *)
Definition ld (a : list Z) (i : Z) : option Z :=
  if 0 <=? i then a !! Z.to_nat i else None.

(** [a[i] = v]; [None] outside the array. *)
Definition st (a : list Z) (i v : Z) : option (list Z) :=
  if (0 <=? i) && (i <? Z.of_nat (length a)) then Some (<[Z.to_nat i := v]> a) else None.

(** [memcpy(dst + di, src + si, n * sizeof(jint))] between distinct arrays. *)
Definition copy (dst : list Z) (di : Z) (src : list Z) (si n : Z) : option (list Z) :=
  if n <=? 0 then Some dst
  else if (0 <=? di) && (di + n <=? Z.of_nat (length dst)) && (0 <=? si)
          && (si + n <=? Z.of_nat (length src))
  then Some (take (Z.to_nat di) dst ++ take (Z.to_nat n) (drop (Z.to_nat si) src)
             ++ drop (Z.to_nat (di + n)) dst)
  else None.

Definition alen (a : list Z) : Z := Z.of_nat (length a).

(** ** Loops *)

(** [for (j = 0; j < n; j++) body]: the body run [n] times on its state. *)
Fixpoint for_ {S} (n : nat) (body : S -> option S) (s : S) : option S :=
  match n with
  | O => Some s
  | S n' => s' ← body s; for_ n' body s'
  end.

(** [while (c) body] with at most [fuel] iterations. *)
Fixpoint while_ {S} (fuel : nat) (c : S -> bool) (body : S -> option S) (s : S)
    : option S :=
  if c s then
    match fuel with
    | O => None
    | S f => s' ← body s; while_ f c body s'
    end
  else Some s.

(** ** Pixels *)

(** What a routine does to a destination pixel: nothing, a store, or a read
    followed by a store. *)
Inductive px :=
| Keep
| Put (c : Z)
| Mix (g : Z -> Z).

Definition px_fun (p : px) (v : Z) : Z :=
  match p with Keep => v | Put c => c | Mix g => g v end.

Definition px_apply (d : list Z) (i : Z) (p : px) : option (list Z) :=
  match p with
  | Keep => Some d
  | Put c => st d i c
  | Mix g => v ← ld d i; st d i (g v)
  end.

(** ** Rasters: the closed form of what a routine does to an image *)

(** The pixels [base .. base + w - 1] rewritten, the [k]-th by [g k]. *)
Definition row (base w : Z) (g : Z -> Z -> Z) (d : list Z) : list Z :=
  imap (fun i v => let k := Z.of_nat i - base in
                   if (0 <=? k) && (k <? w) then g k v else v) d.

(** The rectangle of [h] rows of [w] pixels whose first pixel is at
    [off + minX], rows [stride] pixels apart; pixel [k] of row [j] is rewritten
    by [f j k]. *)
Definition raster (off stride minX w h : Z) (f : Z -> Z -> Z -> Z) (d : list Z) : list Z :=
  imap (fun i v => let p := Z.of_nat i - off in
                   let j := p / stride in let k := p mod stride - minX in
                   if (0 <=? j) && (j <? h) && (0 <=? k) && (k <? w) then f j k v else v) d.

(** ** Lemmas: accesses *)

Lemma alen_app (a b : list Z) : alen (a ++ b) = alen a + alen b.
Proof. unfold alen. rewrite length_app. lia. Qed.

Lemma ld_Some a i v : ld a i = Some v -> 0 <= i < alen a.
Proof.
  unfold ld, alen. zcase; [|done]. intros ?%lookup_lt_Some. lia.
Qed.

Lemma ld_in a i : 0 <= i < alen a -> exists v, ld a i = Some v.
Proof.
  unfold ld, alen. intros. zcase; [|lia].
  destruct (lookup_lt_is_Some_2 a (Z.to_nat i)) as [v Hv]; [lia|eauto].
Qed.

Lemma st_in a i v : 0 <= i < alen a -> st a i v = Some (<[Z.to_nat i := v]> a).
Proof. unfold st, alen. intros. zcase; first done; lia. Qed.

Lemma st_None a i v : ~ (0 <= i < alen a) -> st a i v = None.
Proof. unfold st, alen. intros. zcase; first lia; done. Qed.

Lemma length_px_apply d i p d' : px_apply d i p = Some d' -> length d' = length d.
Proof.
  destruct p; simpl; [congruence| |].
  - unfold st. case_match; intros; simplify_eq. apply length_insert.
  - intros (v & _ & H)%bind_Some. unfold st in H. case_match; simplify_eq.
    apply length_insert.
Qed.

(** ** Lemmas: rows and rasters *)

Lemma length_row base w g d : length (row base w g d) = length d.
Proof. apply length_imap. Qed.

Lemma length_raster off stride minX w h f d :
  length (raster off stride minX w h f d) = length d.
Proof. apply length_imap. Qed.

Lemma lookup_row base w g d i :
  row base w g d !! i =
  (fun v => if (0 <=? Z.of_nat i - base) && (Z.of_nat i - base <? w)
            then g (Z.of_nat i - base) v else v) <$> d !! i.
Proof. unfold row. by rewrite list_lookup_imap. Qed.

Lemma lookup_raster off stride minX w h f d i :
  raster off stride minX w h f d !! i =
  (fun v => let p := Z.of_nat i - off in
            let j := p / stride in let k := p mod stride - minX in
            if (0 <=? j) && (j <? h) && (0 <=? k) && (k <? w) then f j k v else v) <$> d !! i.
Proof. unfold raster. by rewrite list_lookup_imap. Qed.

(** Two lists are equal when they are the same pixelwise image of a list. *)
Ltac pixelwise :=
  apply list_eq; intros i;
  rewrite ?lookup_row, ?lookup_raster, ?lookup_row;
  match goal with |- context [?d !! i] => destruct (d !! i) eqn:? end;
  simpl; [f_equal|done].

Lemma row_0 base w g d : w <= 0 -> row base w g d = d.
Proof. intros. pixelwise. zcase; done || lia. Qed.

Lemma row_ext base w g g' d :
  (forall k v, 0 <= k < w -> g k v = g' k v) -> row base w g d = row base w g' d.
Proof. intros. pixelwise. zcase; eauto. Qed.

(** One more pixel. *)
Lemma row_snoc base w g d :
  0 <= w -> 0 <= base ->
  row base (w + 1) g d = alter (g w) (Z.to_nat (base + w)) (row base w g d).
Proof.
  intros. apply list_eq; intros i. rewrite lookup_row.
  destruct (decide (i = Z.to_nat (base + w))) as [->|Hne].
  - rewrite list_lookup_alter_eq, lookup_row.
    destruct (d !! _); simpl; [f_equal|done].
    replace (Z.of_nat (Z.to_nat (base + w)) - base) with w by lia.
    zcase; done || lia.
  - rewrite list_lookup_alter_ne, lookup_row by done.
    destruct (d !! i); simpl; [f_equal|done]. zcase; done || lia.
Qed.

(** Two adjacent spans. *)
Lemma row_app base w1 w2 g1 g2 d :
  0 <= w1 -> 0 <= w2 ->
  row (base + w1) w2 g2 (row base w1 g1 d) =
  row base (w1 + w2) (fun k => if k <? w1 then g1 k else g2 (k - w1)) d.
Proof.
  intros. pixelwise.
  replace (Z.of_nat i - (base + w1)) with (Z.of_nat i - base - w1) by lia.
  zcase; done || lia.
Qed.

Lemma raster_0 off stride minX w h f d : h <= 0 -> raster off stride minX w h f d = d.
Proof. intros. pixelwise. zcase; done || lia. Qed.

Lemma raster_w0 off stride minX w h f d : w <= 0 -> raster off stride minX w h f d = d.
Proof. intros. pixelwise. zcase; done || lia. Qed.

Lemma raster_ext off stride minX w h f f' d :
  (forall j k v, 0 <= j < h -> 0 <= k < w -> f j k v = f' j k v) ->
  raster off stride minX w h f d = raster off stride minX w h f' d.
Proof. intros. pixelwise. zcase; eauto. Qed.

(** The geometry under which rows do not overlap and stay in the array. *)
Record fits (off stride minX w h len : Z) : Prop := {
  fits_off : 0 <= off;
  fits_minX : 0 <= minX;
  fits_w : 0 <= w;
  fits_stride : minX + w <= stride;
  fits_pos : 0 < stride;
  fits_len : off + h * stride <= len;
  fits_max : len <= 2147483647;
}.
#[export] Instance fits_dec off stride minX w h len :
  Decision (fits off stride minX w h len).
Proof.
  refine (cast_if (decide (0 <= off /\ 0 <= minX /\ 0 <= w /\ minX + w <= stride
    /\ 0 < stride /\ off + h * stride <= len /\ len <= 2147483647))).
  - abstract (destruct_and!; split; lia).
  - abstract (intros []; lia).
Defined.

(** One more row. *)
Lemma raster_snoc off stride minX w h f d :
  0 <= h -> 0 <= minX -> 0 <= w -> minX + w <= stride -> 0 < stride ->
  raster off stride minX w (h + 1) f d =
  row (off + h * stride + minX) w (f h) (raster off stride minX w h f d).
Proof.
  intros. pixelwise.
  set (p := Z.of_nat i - off).
  replace (Z.of_nat i - (off + h * stride + minX)) with (p - h * stride - minX) by lia.
  pose proof (Z.div_mod p stride). pose proof (Z.mod_pos_bound p stride).
  set (q := p / stride) in *. set (r := p mod stride) in *.
  destruct (Z.lt_trichotomy q h) as [Hq|[Hq|Hq]].
  - assert (q * stride + stride <= h * stride) by nia. zcase; done || lia.
  - replace (p - h * stride - minX) with (r - minX) by lia. rewrite Hq.
    zcase; done || lia.
  - assert (h * stride + stride <= q * stride) by nia. zcase; done || lia.
Qed.

(** Rows rendered in two batches. *)
Lemma raster_app off stride minX w h1 h2 f d :
  0 <= h1 -> 0 <= h2 -> 0 < stride ->
  raster (off + h1 * stride) stride minX w h2 (fun j => f (h1 + j))
    (raster off stride minX w h1 f d) = raster off stride minX w (h1 + h2) f d.
Proof.
  intros. pixelwise. set (p := Z.of_nat i - off).
  replace (Z.of_nat i - (off + h1 * stride)) with (p + (- h1) * stride) by lia.
  rewrite Z.div_add, Z_mod_plus_full by lia.
  replace (h1 + (p / stride + - h1)) with (p / stride) by lia.
  zcase; done || lia.
Qed.

(** ** Lemmas: pixels *)

Lemma px_apply_in d i p :
  0 <= i < alen d -> px_apply d i p = Some (alter (px_fun p) (Z.to_nat i) d).
Proof.
  intros Hi. destruct p; simpl.
  - f_equal. symmetry. apply list_eq. intros j.
    destruct (decide (j = Z.to_nat i)) as [->|].
    + rewrite list_lookup_alter_eq. by destruct (d !! _).
    + by rewrite list_lookup_alter_ne.
  - rewrite st_in by done. f_equal. symmetry. apply list_eq. intros j.
    unfold alen in Hi. destruct (decide (j = Z.to_nat i)) as [->|].
    + rewrite list_lookup_alter_eq, list_lookup_insert_eq by lia.
      destruct (lookup_lt_is_Some_2 d (Z.to_nat i)) as [v ->]; [lia|done].
    + by rewrite list_lookup_alter_ne, list_lookup_insert_ne.
  - destruct (ld_in d i) as [v Hv]; [done|]. rewrite Hv. simpl.
    rewrite st_in by done. f_equal. unfold ld in Hv. revert Hv. zcase; [|done].
    intros Hv. symmetry. apply list_eq. intros j.
    unfold alen in Hi. destruct (decide (j = Z.to_nat i)) as [->|].
    + by rewrite list_lookup_alter_eq, list_lookup_insert_eq, Hv by lia.
    + by rewrite list_lookup_alter_ne, list_lookup_insert_ne.
Qed.

(** ** Lemmas: loops *)

(** The rule for a loop that runs to the end: an invariant indexed by the
    number of iterations done. *)
Lemma for_inv {S} (I : nat -> S -> Prop) n body s :
  I O s ->
  (forall k s, (k < n)%nat -> I k s -> exists s', body s = Some s' /\ I (Datatypes.S k) s') ->
  exists s', for_ n body s = Some s' /\ I n s'.
Proof.
  revert I s. induction n as [|n IH]; intros I s H0 Hstep; simpl; [eauto|].
  destruct (Hstep O s) as (s1 & -> & H1); [lia|done|]. simpl.
  apply (IH (fun k => I (Datatypes.S k))); [done|].
  intros k s' ? ?. apply Hstep; [lia|done].
Qed.

(** The functional form: the state after [k] iterations is [F k]. *)
Lemma for_eq {S} (F : nat -> S) n body :
  (forall k, (k < n)%nat -> body (F k) = Some (F (Datatypes.S k))) ->
  for_ n body (F O) = Some (F n).
Proof.
  intros Hstep.
  destruct (for_inv (fun k s => s = F k) n body (F O)) as (s' & Hs & ->); [done| |done].
  intros k s Hk ->. eauto.
Qed.

Lemma while_eq {S} (F : nat -> S) (n fuel : nat) c body :
  (n <= fuel)%nat ->
  (forall k, (k < n)%nat -> c (F k) = true /\ body (F k) = Some (F (Datatypes.S k))) ->
  c (F n) = false ->
  while_ fuel c body (F O) = Some (F n).
Proof.
  revert F n. induction fuel as [|fuel IH]; intros F n Hle Hstep Hend.
  - assert (n = O) as -> by lia. simpl. by rewrite Hend.
  - destruct n as [|n]; [simpl; by rewrite Hend|].
    destruct (Hstep O) as [Hc Hb]; [lia|]. simpl. rewrite Hc, Hb. simpl.
    apply (IH (fun k => F (Datatypes.S k)) n); [lia| |done].
    intros k Hk. apply (Hstep (Datatypes.S k)). lia.
Qed.

#[export] Hint Rewrite length_row length_raster : pisces_len.

(** ** Frames *)

(** The pixel at index [i] is inside the rectangle. *)
Definition inside (off stride minX w h i : Z) : Prop :=
  let p := i - off in
  0 <= p / stride < h /\ minX <= p mod stride < minX + w.
#[export] Instance inside_dec off stride minX w h i : Decision (inside off stride minX w h i).
Proof. unfold inside. apply _. Defined.

(** [d'] is [d] but for pixels of the rectangle. *)
Definition only_inside (off stride minX w h : Z) (d d' : list Z) : Prop :=
  length d' = length d /\
  forall i : nat, ~ inside off stride minX w h (Z.of_nat i) -> d' !! i = d !! i.

Lemma raster_only_inside off stride minX w w' h f d :
  w <= w' -> only_inside off stride minX w' h d (raster off stride minX w h f d).
Proof.
  intros Hw. split; [apply length_raster|]. intros i Hi. rewrite lookup_raster.
  destruct (d !! i); simpl; [f_equal|done]. unfold inside in Hi. zcase; try done. lia.
Qed.

(** The pixel at column [minX + k] of row [j]. *)
Lemma lookup_raster_at off stride minX w h f d j k v :
  0 <= j < h -> 0 <= k < w -> 0 <= off -> 0 <= minX -> minX + w <= stride ->
  ld d (off + j * stride + minX + k) = Some v ->
  ld (raster off stride minX w h f d) (off + j * stride + minX + k) = Some (f j k v).
Proof.
  intros Hj Hk Ho Hx Hs. unfold ld. zcase; [|done]. intros Hv. rewrite lookup_raster, Hv. simpl.
  rewrite Z2Nat.id by done.
  replace (off + j * stride + minX + k - off) with (minX + k + j * stride) by lia.
  rewrite Z.div_add, Z_mod_plus_full, Z.div_small, Z.mod_small by lia.
  replace (minX + k - minX) with k by lia. zcase; done || lia.
Qed.

Lemma fits_le off stride minX w w' h len :
  fits off stride minX w' h len -> 0 <= w <= w' -> fits off stride minX w h len.
Proof. intros [] ?. split; lia. Qed.

(** A property of pixels that every rewritten pixel keeps. *)
Lemma raster_Forall (P : Z -> Prop) off stride minX w h f d :
  (forall j k v, 0 <= j < h -> 0 <= k < w -> P v -> P (f j k v)) ->
  Forall P d -> Forall P (raster off stride minX w h f d).
Proof.
  intros Hf Hd. apply Forall_lookup. intros i v. rewrite lookup_raster.
  destruct (d !! i) as [u|] eqn:E; simpl; [|done]. intros [= <-].
  pose proof (Forall_lookup_1 _ _ _ _ Hd E). zcase; try done. apply Hf; lia || done.
Qed.
