(* ===== verification/Blend.v ===== *)
(** * Pixel arithmetic (PiscesBlit.c)

    The channel accessors, [div255] and the blending functions of PiscesBlit.c.
    A pixel is a [jint] holding alpha, red, green and blue from the high byte
    down.  A blending function of the source takes a pointer to the destination
    pixel; here it takes the old value of the pixel and gives the new one. *)

From S2P Require Import Prelude Mem.

Definition MAX_ALPHA : Z := 255.
Definition HALF_1_SHIFT_23 : Z := 8388608.

(** ** Channels *)
Module Argb.
Definition A (x : Z) : Z := (x >> 24) .& 255.
Definition R (x : Z) : Z := (x >> 16) .& 255.
Definition G (x : Z) : Z := (x >> 8) .& 255.
Definition B (x : Z) : Z := x .& 255.
End Argb.

(** [(a << 24) | (r << 16) | (g << 8) | b] *)
Definition argb (a r g b : Z) : Z :=
  i32 ((a << 24) .| (r << 16) .| (g << 8) .| b).

Definition div255 (x : Z) : Z := i32 (x * 257 + 257) >> 16.

(** [((a + 1) * b) >> 8]: a channel or an alpha [b] scaled by the byte [a]. *)
Definition scale8 (a b : Z) : Z := i32 ((a + 1) * b) >> 8.

(** A pixel whose colour channels do not exceed its alpha. *)
Definition premul (v : Z) : Prop :=
  Argb.R v <= Argb.A v /\ Argb.G v <= Argb.A v /\ Argb.B v <= Argb.A v.
#[export] Instance premul_dec v : Decision (premul v).
Proof. unfold premul. apply _. Defined.

(** ** Blending functions *)

Definition blendSrcOver8888 (aval sred sgreen sblue : Z) (ival : Z) : Z :=
  let dalpha := (ival >> 24) .& 255 in
  let dred := (ival >> 16) .& 255 in
  let dgreen := (ival >> 8) .& 255 in
  let dblue := ival .& 255 in
  let denom := i32 (255 * dalpha + aval * (255 - dalpha)) in
  if denom =? 0 then 0
  else
    let recip := Z.quot 16581375 denom in
    let fa := i64 (i32 ((255 - aval) * dalpha) * recip) in
    let fb := i64 (i32 (255 * aval) * recip) in
    let oalpha := Z.quot denom 255 in
    let ored := i32 (Z.quot (i64 (fa * dred + fb * sred + HALF_1_SHIFT_23)) 16581375) in
    let ogreen := i32 (Z.quot (i64 (fa * dgreen + fb * sgreen + HALF_1_SHIFT_23)) 16581375) in
    let oblue := i32 (Z.quot (i64 (fa * dblue + fb * sblue + HALF_1_SHIFT_23)) 16581375) in
    argb oalpha ored ogreen oblue.

Definition blendSrcOver8888_pre (aval sred sgreen sblue : Z) (ival : Z) : Z :=
  let dalpha := (ival >> 24) .& 255 in
  let dred := (ival >> 16) .& 255 in
  let dgreen := (ival >> 8) .& 255 in
  let dblue := ival .& 255 in
  let oneminusaval := 255 - aval in
  let oalpha := div255 (255 * aval + oneminusaval * dalpha) in
  let ored := div255 (sred * aval + oneminusaval * dred) in
  let ogreen := div255 (sgreen * aval + oneminusaval * dgreen) in
  let oblue := div255 (sblue * aval + oneminusaval * dblue) in
  argb oalpha ored ogreen oblue.

Definition blendSrcOver8888_pre_pre (frac aval sred sgreen sblue : Z) (ival : Z) : Z :=
  let dalpha := (ival >> 24) .& 255 in
  let dred := (ival >> 16) .& 255 in
  let dgreen := (ival >> 8) .& 255 in
  let dblue := ival .& 255 in
  let aval2 := i32 (aval * frac) >> 8 in
  let oneminusaval := 255 - aval2 in
  let oalpha := aval2 + div255 (oneminusaval * dalpha) in
  let ored := (i32 (sred * frac) >> 8) + div255 (oneminusaval * dred) in
  let ogreen := (i32 (sgreen * frac) >> 8) + div255 (oneminusaval * dgreen) in
  let oblue := (i32 (sblue * frac) >> 8) + div255 (oneminusaval * dblue) in
  argb oalpha ored ogreen oblue.

Definition blendSrcOver8888_pre_pre_fullFrac (aval sred sgreen sblue : Z) (ival : Z) : Z :=
  let dalpha := (ival >> 24) .& 255 in
  let dred := (ival >> 16) .& 255 in
  let dgreen := (ival >> 8) .& 255 in
  let dblue := ival .& 255 in
  let oneminusaval := 255 - aval in
  let oalpha := aval + div255 (oneminusaval * dalpha) in
  let ored := sred + div255 (oneminusaval * dred) in
  let ogreen := sgreen + div255 (oneminusaval * dgreen) in
  let oblue := sblue + div255 (oneminusaval * dblue) in
  argb oalpha ored ogreen oblue.

(** The gamma tables are read with a channel as index; [None] is a read
    outside a table. *)
Definition blendLCDSrcOver8888_pre (gammaArray invGammaArray : list Z)
    (ared agreen ablue sred sgreen sblue : Z) (ival : Z) : option Z :=
  let dred := (ival >> 16) .& 255 in
  let dgreen := (ival >> 8) .& 255 in
  let dblue := ival .& 255 in
  dred ← ld invGammaArray dred;
  dgreen ← ld invGammaArray dgreen;
  dblue ← ld invGammaArray dblue;
  let ored := div255 (ared * sred + (255 - ared) * dred) in
  let ogreen := div255 (agreen * sgreen + (255 - agreen) * dgreen) in
  let oblue := div255 (ablue * sblue + (255 - ablue) * dblue) in
  ored ← ld gammaArray ored;
  ogreen ← ld gammaArray ogreen;
  oblue ← ld gammaArray oblue;
  Some (argb 255 ored ogreen oblue).

Definition blendSrc8888 (aval raaval sred sgreen sblue : Z) (ival : Z) : Z :=
  let dalpha := (ival >> 24) .& 255 in
  let dred := (ival >> 16) .& 255 in
  let dgreen := (ival >> 8) .& 255 in
  let dblue := ival .& 255 in
  let denom := i32 (255 * aval + dalpha * raaval) in
  if denom =? 0 then 0
  else
    let recip := Z.quot 16581375 denom in
    let fa := i64 (i32 (raaval * dalpha) * recip) in
    let fb := i64 (i32 (255 * aval) * recip) in
    let oalpha := Z.quot denom 255 in
    let ored := i32 (Z.quot (i64 (fa * dred + fb * sred)) 16581375) in
    let ogreen := i32 (Z.quot (i64 (fa * dgreen + fb * sgreen)) 16581375) in
    let oblue := i32 (Z.quot (i64 (fa * dblue + fb * sblue)) 16581375) in
    argb oalpha ored ogreen oblue.

Definition blendSrc8888_pre (aval raaval sred sgreen sblue : Z) (ival : Z) : Z :=
  let dalpha := (ival >> 24) .& 255 in
  let dred := (ival >> 16) .& 255 in
  let dgreen := (ival >> 8) .& 255 in
  let dblue := ival .& 255 in
  let denom := i32 (255 * aval + dalpha * raaval) in
  if denom =? 0 then 0
  else
    let oalpha := div255 denom in
    let ored := div255 (aval * sred + raaval * dred) in
    let ogreen := div255 (aval * sgreen + raaval * dgreen) in
    let oblue := div255 (aval * sblue + raaval * dblue) in
    argb oalpha ored ogreen oblue.

Definition blendSrc8888_pre_pre (aval raaval sred sgreen sblue : Z) (ival : Z) : Z :=
  let dalpha := (ival >> 24) .& 255 in
  let dred := (ival >> 16) .& 255 in
  let dgreen := (ival >> 8) .& 255 in
  let dblue := ival .& 255 in
  let denom := i32 (255 * aval + dalpha * raaval) in
  if denom =? 0 then 0
  else
    let oalpha := div255 denom in
    let ored := sred + div255 (raaval * dred) in
    let ogreen := sgreen + div255 (raaval * dgreen) in
    let oblue := sblue + div255 (raaval * dblue) in
    argb oalpha ored ogreen oblue.

(** ** Gamma tables

    [initGammaArrays] fills two tables with [(jint)(255 * pow(i/255.0, g))] for
    [g = gamma] and [g = 1/gamma].  The C library's [pow] is a parameter:
    [gamma_entry g i] is the value of that expression, [feq] is the [==] of
    [jfloat] and [inverse g] is [1.0f / g]. *)
Section Gamma.
Context {F : Type}.
Variable feq : F -> F -> bool.
Variable gamma_entry : F -> Z -> Z.
Variable inverse : F -> F.
Variable minus_one : F.

Record gamma_state := {
  currentGamma : F;
  gammaArray : list Z;
  invGammaArray : list Z;
}.

Definition gamma_initial : gamma_state :=
  {| currentGamma := minus_one;
     gammaArray := replicate 256 0; invGammaArray := replicate 256 0 |}.

Definition initGammaArrays (gamma : F) (s : gamma_state) : gamma_state :=
  if negb (feq (currentGamma s) gamma) then
    let invgamma := inverse gamma in
    {| currentGamma := gamma;
       gammaArray := map (fun i => gamma_entry gamma (Z.of_nat i)) (seq 0 256);
       invGammaArray := map (fun i => gamma_entry invgamma (Z.of_nat i)) (seq 0 256) |}
  else s.
End Gamma.
Arguments gamma_state : clear implicits.

(** ** Lemmas: channels *)

Lemma A_byte x : is_byte (Argb.A x).
Proof. unfold is_byte, Argb.A. bits. zlia. Qed.
Lemma R_byte x : is_byte (Argb.R x).
Proof. unfold is_byte, Argb.R. bits. zlia. Qed.
Lemma G_byte x : is_byte (Argb.G x).
Proof. unfold is_byte, Argb.G. bits. zlia. Qed.
Lemma B_byte x : is_byte (Argb.B x).
Proof. unfold is_byte, Argb.B. bits. zlia. Qed.
#[export] Hint Resolve A_byte R_byte G_byte B_byte : pisces.

(** A packed pixel as a sum. *)
Lemma argb_sum a r g b :
  is_byte r -> is_byte g -> is_byte b ->
  argb a r g b = i32 (a * 16777216 + r * 65536 + g * 256 + b).
Proof.
  unfold is_byte, argb. intros. bits. f_equal.
  replace ((a * 16777216) .| (r * 65536)) with (a * 2 ^ 24 .| r * 65536) by (f_equal; lia).
  rewrite lor_add_low by lia.
  replace (a * 2 ^ 24 + r * 65536) with ((a * 256 + r) * 2 ^ 16) by lia.
  rewrite lor_add_low by lia.
  replace ((a * 256 + r) * 2 ^ 16 + g * 256) with ((a * 65536 + r * 256 + g) * 2 ^ 8) by lia.
  rewrite lor_add_low by lia. lia.
Qed.

Lemma argb_is_i32 a r g b : is_i32 (argb a r g b).
Proof. apply i32_range. Qed.

(** [i32] keeps the bytes of its argument. *)
Lemma i32_mod z : i32 z mod 4294967296 = z mod 4294967296.
Proof.
  unfold i32.
  rewrite Zminus_mod_idemp_l. f_equal. lia.
Qed.

Lemma argb_A a r g b :
  is_byte r -> is_byte g -> is_byte b -> Argb.A (argb a r g b) = a mod 256.
Proof.
  intros. rewrite argb_sum by done. unfold Argb.A. bits. unfold is_byte in *.
  pose proof (i32_mod (a * 16777216 + r * 65536 + g * 256 + b)) as E.
  set (z := i32 _) in *. clearbody z. zlia.
Qed.
Lemma argb_R a r g b :
  is_byte r -> is_byte g -> is_byte b -> Argb.R (argb a r g b) = r.
Proof.
  intros. rewrite argb_sum by done. unfold Argb.R. bits. unfold is_byte in *.
  pose proof (i32_mod (a * 16777216 + r * 65536 + g * 256 + b)) as E.
  set (z := i32 _) in *. clearbody z. zlia.
Qed.
Lemma argb_G a r g b :
  is_byte r -> is_byte g -> is_byte b -> Argb.G (argb a r g b) = g.
Proof.
  intros. rewrite argb_sum by done. unfold Argb.G. bits. unfold is_byte in *.
  pose proof (i32_mod (a * 16777216 + r * 65536 + g * 256 + b)) as E.
  set (z := i32 _) in *. clearbody z. zlia.
Qed.
Lemma argb_B a r g b :
  is_byte r -> is_byte g -> is_byte b -> Argb.B (argb a r g b) = b.
Proof.
  intros. rewrite argb_sum by done. unfold Argb.B. bits. unfold is_byte in *.
  pose proof (i32_mod (a * 16777216 + r * 65536 + g * 256 + b)) as E.
  set (z := i32 _) in *. clearbody z. zlia.
Qed.

Lemma argb_channels_id v :
  is_i32 v -> argb (Argb.A v) (Argb.R v) (Argb.G v) (Argb.B v) = v.
Proof.
  intros Hv. rewrite argb_sum by auto with pisces. unfold Argb.A, Argb.R, Argb.G, Argb.B. bits.
  rewrite <- (i32_id v Hv) at 5. unfold i32. f_equal. unfold is_i32 in Hv. zlia.
Qed.

(** Read the channels of a packed pixel whose colours are bytes. *)
Ltac channels := rewrite ?argb_A, ?argb_R, ?argb_G, ?argb_B by (unfold is_byte in *; lia).

Lemma byte_small z : is_byte z -> z mod 256 = z.
Proof. unfold is_byte. intros. apply Z.mod_small. lia. Qed.

(** ** div255 *)

Lemma div255_div x : 0 <= x <= 65789 -> div255 x = x / 255.
Proof.
  intros. unfold div255. rewrite i32_id by (unfold is_i32; lia). bits. zlia.
Qed.

(** A mean of two bytes with weights that sum to at most 255 is a byte. *)
Lemma weighted_le (u v a b m : Z) :
  0 <= u -> 0 <= v -> u + v <= 255 -> 0 <= a <= m -> 0 <= b <= m ->
  0 <= u * a + v * b <= 255 * m.
Proof. intros. nia. Qed.

Lemma weighted_byte (u v a b : Z) :
  0 <= u -> 0 <= v -> u + v <= 255 -> is_byte a -> is_byte b ->
  is_byte (div255 (u * a + v * b)).
Proof.
  unfold is_byte. intros. pose proof (weighted_le u v a b 255).
  rewrite div255_div by lia. zlia.
Qed.

Lemma div255_mono x y : 0 <= x <= y -> y <= 65789 -> div255 x <= div255 y.
Proof. intros. rewrite !div255_div by lia. apply Z.div_le_mono; lia. Qed.

(** The scaling of a byte by a byte never exceeds the first. *)
Lemma scale8_bound a b : is_byte a -> is_byte b -> 0 <= scale8 a b <= a.
Proof.
  unfold is_byte, scale8. intros.
  rewrite i32_id by (unfold is_i32; nia). bits. split; [apply Z.div_pos; nia|].
  apply Z.lt_succ_r, Z.div_lt_upper_bound; nia.
Qed.

Lemma scale8_full b : is_byte b -> scale8 255 b = b.
Proof.
  unfold is_byte, scale8. intros.
  rewrite i32_id by (unfold is_i32; lia). bits. zlia.
Qed.

Lemma scale8_byte a b : is_byte a -> is_byte b -> is_byte (scale8 a b).
Proof. intros Ha Hb. pose proof (scale8_bound a b Ha Hb). unfold is_byte in *. lia. Qed.
#[export] Hint Resolve scale8_byte weighted_byte : pisces.

(** ** Premultiplied destinations *)

(** The four channels of [blendSrcOver8888_pre]. *)
Lemma blendSrcOver8888_pre_channels aval sr sg sb v :
  is_byte aval -> is_byte sr -> is_byte sg -> is_byte sb ->
  let o := blendSrcOver8888_pre aval sr sg sb v in
  Argb.A o = (aval * 255 + (255 - aval) * Argb.A v) / 255 /\
  Argb.R o = (aval * sr + (255 - aval) * Argb.R v) / 255 /\
  Argb.G o = (aval * sg + (255 - aval) * Argb.G v) / 255 /\
  Argb.B o = (aval * sb + (255 - aval) * Argb.B v) / 255.
Proof.
  intros Ha Hr Hg Hb. unfold blendSrcOver8888_pre.
  change ((v >> 24) .& 255) with (Argb.A v). change ((v >> 16) .& 255) with (Argb.R v).
  change ((v >> 8) .& 255) with (Argb.G v). change (v .& 255) with (Argb.B v).
  rewrite (Z.mul_comm 255), (Z.mul_comm sr), (Z.mul_comm sg), (Z.mul_comm sb).
  assert (forall s d, is_byte s -> is_byte d ->
    is_byte (div255 (aval * s + (255 - aval) * d)) /\
    div255 (aval * s + (255 - aval) * d) = (aval * s + (255 - aval) * d) / 255) as Hw.
  { intros s d Hs Hd. unfold is_byte in *. split; [apply weighted_byte; unfold is_byte; lia|].
    apply div255_div. pose proof (weighted_le aval (255 - aval) s d 255). lia. }
  pose proof (Hw 255 (Argb.A v)) as [? E0]; [unfold is_byte; lia|auto with pisces|].
  pose proof (Hw sr (Argb.R v)) as [? E1]; [done|auto with pisces|].
  pose proof (Hw sg (Argb.G v)) as [? E2]; [done|auto with pisces|].
  pose proof (Hw sb (Argb.B v)) as [? E3]; [done|auto with pisces|].
  channels. rewrite byte_small by done. by rewrite E0, E1, E2, E3.
Qed.

Lemma blendSrcOver8888_pre_premul aval sr sg sb v :
  is_byte aval -> is_byte sr -> is_byte sg -> is_byte sb -> premul v ->
  premul (blendSrcOver8888_pre aval sr sg sb v).
Proof.
  intros Ha Hr Hg Hb (H1 & H2 & H3).
  destruct (blendSrcOver8888_pre_channels aval sr sg sb v) as (E0 & E1 & E2 & E3); [done..|].
  unfold premul. rewrite E0, E1, E2, E3. unfold is_byte in *.
  repeat split; apply Z.div_le_mono; nia.
Qed.

(** [div255] is the integer division by 255 on the whole range of values the
    blending functions give it (and up to 65789), with no 32-bit overflow. *)
Lemma div255_exact x : 0 <= x <= 65789 -> div255 x = x / 255.
Proof. apply div255_div. Qed.


(** Packing four bytes and reading the channels back gives the four bytes,
    and packing the channels of any pixel gives the pixel. *)
Lemma argb_roundtrip a r g b v :
  is_byte a -> is_byte r -> is_byte g -> is_byte b -> is_i32 v ->
  Argb.A (argb a r g b) = a /\ Argb.R (argb a r g b) = r /\
  Argb.G (argb a r g b) = g /\ Argb.B (argb a r g b) = b /\
  argb (Argb.A v) (Argb.R v) (Argb.G v) (Argb.B v) = v.
Proof.
  intros Ha Hr Hg Hb Hv. channels. repeat split; try done; [by apply byte_small|].
  by apply argb_channels_id.
Qed.


(** C33. [blendSrcOver8888_pre] computes Porter-Duff source-over exactly, each
    channel being the floor of the weighted mean, and its result is a
    premultiplied pixel whenever the destination was one. *)
Theorem blendSrcOver8888_pre_correct aval sr sg sb v :
  is_byte aval -> is_byte sr -> is_byte sg -> is_byte sb -> premul v ->
  let o := blendSrcOver8888_pre aval sr sg sb v in
  Argb.A o = (255 * aval + (255 - aval) * Argb.A v) / 255 /\
  Argb.R o = (sr * aval + (255 - aval) * Argb.R v) / 255 /\
  Argb.G o = (sg * aval + (255 - aval) * Argb.G v) / 255 /\
  Argb.B o = (sb * aval + (255 - aval) * Argb.B v) / 255 /\ premul o.
Proof.
  intros Ha Hr Hg Hb Hv o.
  destruct (blendSrcOver8888_pre_channels aval sr sg sb v) as (E0 & E1 & E2 & E3); [done..|].
  fold o in E0, E1, E2, E3. rewrite E0, E1, E2, E3.
  rewrite (Z.mul_comm 255), (Z.mul_comm sr), (Z.mul_comm sg), (Z.mul_comm sb).
  do 4 (split; [reflexivity|]). by apply blendSrcOver8888_pre_premul.
Qed.

Lemma blendSrcOver8888_pre_correct_witness :
  premul (argb 128 100 20 128) /\
  premul (blendSrcOver8888_pre 77 255 0 13 (argb 128 100 20 128)).
Proof.
  split; [vm_compute; intuition discriminate|].
  apply (blendSrcOver8888_pre_correct 77 255 0 13); try (unfold is_byte; lia).
  vm_compute. intuition discriminate.
Defined.

(** ** Premultiplied sources *)

(** A premultiplied source over a premultiplied destination, [a] being the
    source alpha that the destination is attenuated by. *)
Lemma over_pre_pre a s d da :
  is_byte a -> 0 <= s <= a -> is_byte da -> 0 <= d <= da ->
  let o := s + div255 ((255 - a) * d) in
  is_byte o /\ o <= a + div255 ((255 - a) * da).
Proof.
  unfold is_byte. intros.
  pose proof (div255_mono ((255 - a) * d) ((255 - a) * da)).
  pose proof (div255_div ((255 - a) * d)). pose proof (div255_div ((255 - a) * da)).
  assert (0 <= (255 - a) * d <= (255 - a) * da) by nia.
  assert ((255 - a) * da <= (255 - a) * 255) by nia.
  assert (((255 - a) * da) / 255 <= 255 - a) by (apply Z.div_le_upper_bound; lia).
  assert (0 <= ((255 - a) * d) / 255) by (apply Z.div_pos; lia).
  cbv zeta. lia.
Qed.

Lemma scaled_le s a frac :
  is_byte a -> 0 <= s <= a -> 0 <= frac <= 256 ->
  0 <= (i32 (s * frac) >> 8) <= i32 (a * frac) >> 8 /\ (i32 (a * frac) >> 8) <= a.
Proof.
  unfold is_byte. intros. rewrite !i32_id by (unfold is_i32; nia). bits.
  repeat split; [apply Z.div_pos; nia|apply Z.div_le_mono; nia|].
  apply Z.div_le_upper_bound; nia.
Qed.

(** [blendSrcOver8888_pre_pre] keeps premultiplied pixels premultiplied: with
    a premultiplied source scaled by a coverage of at most 256/256 every channel
    is a byte (nothing carries into the neighbouring channel) and no colour
    exceeds the resulting alpha. *)
Lemma blendSrcOver8888_pre_pre_premul frac aval sr sg sb v :
  0 <= frac <= 256 -> is_byte aval ->
  0 <= sr <= aval -> 0 <= sg <= aval -> 0 <= sb <= aval -> premul v ->
  let o := blendSrcOver8888_pre_pre frac aval sr sg sb v in
  let a2 := (aval * frac) / 256 in
  Argb.A o = a2 + ((255 - a2) * Argb.A v) / 255 /\
  Argb.R o = (sr * frac) / 256 + ((255 - a2) * Argb.R v) / 255 /\
  premul o.
Proof.
  intros Hf Ha Hr Hg Hb (H1 & H2 & H3). unfold blendSrcOver8888_pre_pre.
  change ((v >> 24) .& 255) with (Argb.A v). change ((v >> 16) .& 255) with (Argb.R v).
  change ((v >> 8) .& 255) with (Argb.G v). change (v .& 255) with (Argb.B v).
  pose proof (scaled_le sr aval frac Ha Hr Hf). pose proof (scaled_le sg aval frac Ha Hg Hf).
  pose proof (scaled_le sb aval frac Ha Hb Hf).
  assert (i32 (aval * frac) >> 8 = (aval * frac) / 256) as Ea.
  { unfold is_byte in Ha. rewrite i32_id by (unfold is_i32; nia). by bits. }
  assert (i32 (sr * frac) >> 8 = (sr * frac) / 256) as Er.
  { unfold is_byte in Ha. rewrite i32_id by (unfold is_i32; nia). by bits. }
  set (a2 := i32 (aval * frac) >> 8) in *.
  pose proof (A_byte v). pose proof (R_byte v). pose proof (G_byte v). pose proof (B_byte v).
  assert (is_byte a2) by (unfold is_byte in *; lia). unfold is_byte in *.
  destruct (over_pre_pre a2 a2 (Argb.A v) (Argb.A v)) as [Ba _]; [unfold is_byte; lia..|].
  destruct (over_pre_pre a2 (i32 (sr * frac) >> 8) (Argb.R v) (Argb.A v)) as [Br Lr]; [unfold is_byte; lia..|].
  destruct (over_pre_pre a2 (i32 (sg * frac) >> 8) (Argb.G v) (Argb.A v)) as [Bg Lg]; [unfold is_byte; lia..|].
  destruct (over_pre_pre a2 (i32 (sb * frac) >> 8) (Argb.B v) (Argb.A v)) as [Bb Lb]; [unfold is_byte; lia..|].
  cbv zeta. unfold premul. channels. rewrite byte_small by done.
  rewrite <- Ea, <- Er. fold a2. rewrite <- !div255_div by nia. repeat split; lia.
Qed.


(** [blendSrcOver8888_pre_pre_fullFrac], the variant without a coverage that the
    loops use for whole pixels, is [blendSrcOver8888_pre_pre] at full coverage. *)
Lemma fullFrac_is_frac_256 aval sr sg sb v :
  is_byte aval -> is_byte sr -> is_byte sg -> is_byte sb ->
  blendSrcOver8888_pre_pre_fullFrac aval sr sg sb v =
  blendSrcOver8888_pre_pre 256 aval sr sg sb v.
Proof.
  unfold is_byte. intros. unfold blendSrcOver8888_pre_pre, blendSrcOver8888_pre_pre_fullFrac.
  rewrite !i32_id by (unfold is_i32; lia). bits. by rewrite !Z.div_mul.
Qed.


(** ** Source rule *)

(** The four channels of [blendSrc8888_pre] when the weights of the source and
    of the destination sum to at most 255. *)
Lemma blendSrc8888_pre_channels aval raaval sr sg sb v :
  is_byte aval -> is_byte raaval -> aval + raaval <= 255 ->
  is_byte sr -> is_byte sg -> is_byte sb ->
  (255 * aval + Argb.A v * raaval = 0 /\ blendSrc8888_pre aval raaval sr sg sb v = 0) \/
  (let o := blendSrc8888_pre aval raaval sr sg sb v in
   Argb.A o = (aval * 255 + raaval * Argb.A v) / 255 /\
   Argb.R o = (aval * sr + raaval * Argb.R v) / 255 /\
   Argb.G o = (aval * sg + raaval * Argb.G v) / 255 /\
   Argb.B o = (aval * sb + raaval * Argb.B v) / 255).
Proof.
  intros Ha Hra Hsum Hr Hg Hb. unfold blendSrc8888_pre.
  change ((v >> 24) .& 255) with (Argb.A v). change ((v >> 16) .& 255) with (Argb.R v).
  change ((v >> 8) .& 255) with (Argb.G v). change (v .& 255) with (Argb.B v).
  rewrite (Z.mul_comm 255), (Z.mul_comm (Argb.A v)).
  assert (forall s d, is_byte s -> is_byte d ->
    0 <= aval * s + raaval * d <= 65025 /\ is_byte (div255 (aval * s + raaval * d)) /\
    div255 (aval * s + raaval * d) = (aval * s + raaval * d) / 255) as Hw.
  { intros s d Hs Hd. unfold is_byte in *.
    pose proof (weighted_le aval raaval s d 255).
    repeat split; try lia; [apply weighted_byte; unfold is_byte; lia..|].
    apply div255_div. lia. }
  destruct (Hw 255 (Argb.A v)) as (L & ? & E0); [unfold is_byte; lia|auto with pisces|].
  destruct (Hw sr (Argb.R v)) as (_ & ? & E1); [done|auto with pisces|].
  destruct (Hw sg (Argb.G v)) as (_ & ? & E2); [done|auto with pisces|].
  destruct (Hw sb (Argb.B v)) as (_ & ? & E3); [done|auto with pisces|].
  rewrite i32_id by (unfold is_i32; lia). zcase; [by left|right].
  cbv zeta. channels. rewrite byte_small by done. by rewrite E0, E1, E2, E3.
Qed.

(** With coverage-scaled weights ([aval + raaval <= 255], which is what the
    blitting loops pass) [blendSrc8888_pre] interpolates between destination and
    source: each channel is the floor of the weighted mean, no channel
    overflows into its neighbour, and premultiplied pixels stay premultiplied. *)
Lemma blendSrc8888_pre_correct aval raaval sr sg sb v :
  is_byte aval -> is_byte raaval -> aval + raaval <= 255 ->
  is_byte sr -> is_byte sg -> is_byte sb -> premul v ->
  let o := blendSrc8888_pre aval raaval sr sg sb v in
  Argb.A o = (255 * aval + raaval * Argb.A v) / 255 /\
  Argb.R o = (if 255 * aval + raaval * Argb.A v =? 0 then 0
              else (aval * sr + raaval * Argb.R v) / 255) /\ premul o.
Proof.
  intros Ha Hra Hs Hr Hg Hb (H1 & H2 & H3) o.
  destruct (blendSrc8888_pre_channels aval raaval sr sg sb v) as [[E0 E]|(E0 & E1 & E2 & E3)];
    [done..| |]; fold o in E || fold o in E0, E1, E2, E3.
  - rewrite E, (Z.mul_comm raaval), E0. repeat split; vm_compute; done.
  - pose proof (A_byte v). pose proof (R_byte v). unfold is_byte in *.
    rewrite E0, E1. rewrite (Z.mul_comm 255). split; [done|]. split.
    + zcase; [|done]. assert (aval = 0) as -> by nia. apply Z.div_small. nia.
    + unfold premul. rewrite E0, E1, E2, E3. repeat split; apply Z.div_le_mono; nia.
Qed.


(** ** Non-premultiplied destinations *)

(** The reciprocal that both functions multiply by. *)
Lemma recip_spec denom :
  0 < denom <= 65025 ->
  let recip := Z.quot 16581375 denom in
  16581375 - denom < recip * denom <= 16581375 /\ 255 <= recip.
Proof.
  intros Hd. cbv zeta. rewrite Z.quot_div_nonneg by lia.
  pose proof (Z.mul_div_le 16581375 denom). pose proof (Z.mul_succ_div_gt 16581375 denom).
  assert (255 <= 16581375 / denom) by (apply Z.div_le_lower_bound; lia). lia.
Qed.

(** A colour channel computed through the reciprocal: [x] and [y] are the
    weights of destination and source, [h] the rounding constant. *)
Lemma recip_channel x y d s h :
  0 <= x -> 0 <= y -> 0 < x + y <= 65025 -> is_byte d -> is_byte s -> 0 <= h <= 8388608 ->
  let recip := Z.quot 16581375 (x + y) in
  let o := i32 (Z.quot (i64 (i64 (i32 x * recip) * d + i64 (i32 y * recip) * s + h)) 16581375) in
  is_byte o /\
  o * (x + y) < x * d + y * s + (x + y) /\ x * d + y * s < (o + 2) * (x + y) /\
  (h = 0 -> o * (x + y) <= x * d + y * s).
Proof.
  intros Hx Hy Hden Hd Hs Hh recip. unfold is_byte in *.
  destruct (recip_spec (x + y) Hden) as [[L U] L2]. fold recip in L, U, L2.
  assert (recip <= 16581375) by nia.
  rewrite (i32_id x), (i32_id y) by (unfold is_i32; lia).
  assert (0 <= x * recip <= 16581375) by nia. assert (0 <= y * recip <= 16581375) by nia.
  rewrite (i64_id (x * recip)), (i64_id (y * recip)) by (unfold is_i64; lia).
  set (N := x * d + y * s).
  replace (x * recip * d + y * recip * s + h) with (N * recip + h) by (unfold N; nia).
  assert (0 <= N <= 255 * (x + y)) by (unfold N; nia).
  assert (0 <= N * recip <= 4228250625) by nia.
  rewrite i64_id by (unfold is_i64; lia). rewrite Z.quot_div_nonneg by lia.
  set (q := (N * recip + h) / 16581375).
  assert (16581375 * q <= N * recip + h < 16581375 * q + 16581375) as Hq by (unfold q; zlia).
  assert (0 <= q <= 255) by lia.
  rewrite i32_id by (unfold is_i32; lia). cbv zeta.
  assert (N * recip * (x + y) <= N * 16581375) by nia.
  assert (N * (16581375 - (x + y)) <= N * recip * (x + y)) by nia.
  assert (N * (x + y) <= 16581375 * (x + y)) by (apply Z.mul_le_mono_nonneg_r; lia).
  assert (0 <= h * (x + y) <= 8388608 * (x + y)) by (split; [nia|apply Z.mul_le_mono_nonneg_r; lia]).
  assert (16581375 * q * (x + y) <= (N * recip + h) * (x + y))
    by (apply Z.mul_le_mono_nonneg_r; lia).
  assert ((N * recip + h) * (x + y) < (16581375 * q + 16581375) * (x + y))
    by (apply Z.mul_lt_mono_pos_r; lia).
  split; [lia|]. split; [lia|]. split; [lia|]. intros ->. lia.
Qed.

(** [blendSrcOver8888] (a colour of alpha [aval] over a non-premultiplied
    pixel) gives four byte channels; its alpha is the floor of the exact alpha,
    and each colour [o] lies within one above and two below the exact quotient
    [N / denom] of the Porter-Duff formula, stated without division. *)
Lemma blendSrcOver8888_accuracy aval sr sg sb v :
  is_byte aval -> is_byte sr -> is_byte sg -> is_byte sb ->
  0 < 255 * Argb.A v + aval * (255 - Argb.A v) ->
  let o := blendSrcOver8888 aval sr sg sb v in
  let denom := 255 * Argb.A v + aval * (255 - Argb.A v) in
  let N d s := (255 - aval) * Argb.A v * d + 255 * aval * s in
  Argb.A o = denom / 255 /\
  Argb.R o * denom < N (Argb.R v) sr + denom /\ N (Argb.R v) sr < (Argb.R o + 2) * denom /\
  Argb.G o * denom < N (Argb.G v) sg + denom /\ N (Argb.G v) sg < (Argb.G o + 2) * denom /\
  Argb.B o * denom < N (Argb.B v) sb + denom /\ N (Argb.B v) sb < (Argb.B o + 2) * denom.
Proof.
  intros Ha Hr Hg Hb Hpos. unfold blendSrcOver8888, HALF_1_SHIFT_23.
  change ((v >> 24) .& 255) with (Argb.A v). change ((v >> 16) .& 255) with (Argb.R v).
  change ((v >> 8) .& 255) with (Argb.G v). change (v .& 255) with (Argb.B v).
  pose proof (A_byte v). pose proof (R_byte v). pose proof (G_byte v). pose proof (B_byte v).
  set (x := (255 - aval) * Argb.A v). set (y := 255 * aval).
  assert (255 * Argb.A v + aval * (255 - Argb.A v) = x + y) as -> by (unfold x, y; lia).
  assert (0 <= x /\ 0 <= y /\ 0 < x + y <= 65025) as (Hx & Hy & Hxy)
    by (unfold x, y, is_byte in *; nia).
  rewrite (i32_id (x + y)) by (unfold is_i32; lia). zcase; [lia|].
  destruct (recip_channel x y (Argb.R v) sr 8388608) as (Br & Ur & Lr & _); [done..|lia|].
  destruct (recip_channel x y (Argb.G v) sg 8388608) as (Bg & Ug & Lg & _); [done..|lia|].
  destruct (recip_channel x y (Argb.B v) sb 8388608) as (Bb & Ub & Lb & _); [done..|lia|].
  cbv zeta in *. channels. rewrite Z.quot_div_nonneg by lia.
  rewrite byte_small by (unfold is_byte; split; [apply Z.div_pos|apply Z.div_le_upper_bound]; lia).
  repeat split; done || lia.
Qed.


(** With coverage-scaled weights [blendSrc8888] gives byte channels, rounding down. *)
Lemma blendSrc8888_channels aval raaval sr sg sb v :
  is_byte aval -> is_byte raaval -> aval + raaval <= 255 ->
  is_byte sr -> is_byte sg -> is_byte sb ->
  0 < 255 * aval + Argb.A v * raaval ->
  let o := blendSrc8888 aval raaval sr sg sb v in
  let denom := 255 * aval + Argb.A v * raaval in
  let N d s := raaval * Argb.A v * d + 255 * aval * s in
  Argb.A o = denom / 255 /\
  Argb.R o * denom <= N (Argb.R v) sr < (Argb.R o + 2) * denom /\
  Argb.G o * denom <= N (Argb.G v) sg < (Argb.G o + 2) * denom /\
  Argb.B o * denom <= N (Argb.B v) sb < (Argb.B o + 2) * denom.
Proof.
  intros Ha Hra Hsum Hr Hg Hb Hpos. unfold blendSrc8888.
  change ((v >> 24) .& 255) with (Argb.A v). change ((v >> 16) .& 255) with (Argb.R v).
  change ((v >> 8) .& 255) with (Argb.G v). change (v .& 255) with (Argb.B v).
  pose proof (A_byte v). pose proof (R_byte v). pose proof (G_byte v). pose proof (B_byte v).
  rewrite (Z.add_comm (255 * aval)), (Z.mul_comm (Argb.A v)) in *.
  set (x := raaval * Argb.A v) in *. set (y := 255 * aval) in *.
  assert (0 <= x /\ 0 <= y /\ 0 < x + y <= 65025) as (Hx & Hy & Hxy)
    by (unfold x, y, is_byte in *; nia).
  rewrite (i32_id (x + y)) by (unfold is_i32; lia). zcase; [lia|].
  destruct (recip_channel x y (Argb.R v) sr 0) as (Br & _ & Lr & Ur); [done..|lia|].
  destruct (recip_channel x y (Argb.G v) sg 0) as (Bg & _ & Lg & Ug); [done..|lia|].
  destruct (recip_channel x y (Argb.B v) sb 0) as (Bb & _ & Lb & Ub); [done..|lia|].
  cbv zeta in *. rewrite !Z.add_0_r in *. channels. rewrite Z.quot_div_nonneg by lia.
  rewrite byte_small by (unfold is_byte; split; [apply Z.div_pos|apply Z.div_le_upper_bound]; lia).
  repeat split; done || auto with lia.
Qed.

(** ** Opaque sources *)

(** An opaque colour replaces the pixel: storing the solid pixel is blending. *)
Lemma blendSrcOver8888_pre_opaque r g b v :
  is_byte r -> is_byte g -> is_byte b ->
  blendSrcOver8888_pre 255 r g b v = argb 255 r g b.
Proof.
  unfold is_byte. intros. unfold blendSrcOver8888_pre. cbv zeta.
  rewrite !Z.sub_diag, !Z.mul_0_l, !Z.add_0_r, !div255_div by lia.
  by rewrite !Z.div_mul.
Qed.

Lemma blendSrcOver8888_opaque r g b v :
  is_byte r -> is_byte g -> is_byte b ->
  blendSrcOver8888 255 r g b v = argb 255 r g b.
Proof.
  unfold is_byte. intros. unfold blendSrcOver8888, HALF_1_SHIFT_23.
  pose proof (A_byte v) as Ha. unfold is_byte, Argb.A in Ha. set (da := (v >> 24) .& 255) in *.
  replace (255 * da + 255 * (255 - da)) with 65025 by lia.
  rewrite Z.sub_diag, Z.mul_0_l.
  change (i32 65025) with 65025. change (65025 =? 0) with false. cbv iota zeta.
  change (i64 (i32 0 * Z.quot 16581375 65025)) with 0.
  change (i64 (i32 (255 * 255) * Z.quot 16581375 65025)) with 16581375.
  change (Z.quot 65025 255) with 255. rewrite !Z.mul_0_l, !Z.add_0_l.
  rewrite !i64_id by (unfold is_i64; lia).
  rewrite !(Z.mul_comm 16581375), !Z.quot_div_nonneg, !Z.div_add_l by lia.
  change (8388608 / 16581375) with 0. rewrite !Z.add_0_r, !i32_id by (unfold is_i32; lia). done.
Qed.

(** A colour channel is a byte whatever the weights are. *)
Lemma recip_channel_byte x y d s :
  0 <= x -> 0 <= y -> 0 < x + y <= 16581375 -> is_byte d -> is_byte s ->
  let recip := Z.quot 16581375 (x + y) in
  is_byte (i32 (Z.quot (i64 (i64 (i32 x * recip) * d + i64 (i32 y * recip) * s)) 16581375)).
Proof.
  intros Hx Hy Hden Hd Hs recip. unfold is_byte in *.
  assert (0 <= recip /\ recip * (x + y) <= 16581375) as [L U].
  { unfold recip. rewrite Z.quot_div_nonneg by lia. split; [apply Z.div_pos; lia|].
    rewrite Z.mul_comm. apply Z.mul_div_le. lia. }
  rewrite (i32_id x), (i32_id y) by (unfold is_i32; lia).
  assert (0 <= x * recip <= 16581375) by nia. assert (0 <= y * recip <= 16581375) by nia.
  rewrite (i64_id (x * recip)), (i64_id (y * recip)) by (unfold is_i64; lia).
  assert (0 <= x * recip * d + y * recip * s <= 255 * 16581375).
  { pose proof (Z.mul_le_mono_nonneg_l d 255 (x * recip)).
    pose proof (Z.mul_le_mono_nonneg_l s 255 (y * recip)). nia. }
  rewrite i64_id by (unfold is_i64; lia). rewrite Z.quot_div_nonneg by lia.
  rewrite i32_id by (unfold is_i32; zlia). zlia.
Qed.

(** A transparent colour leaves the pixel as it was. *)
Lemma blendSrcOver8888_pre_transparent r g b v :
  is_i32 v -> blendSrcOver8888_pre 0 r g b v = v.
Proof.
  intros Hv. unfold blendSrcOver8888_pre.
  change ((v >> 24) .& 255) with (Argb.A v). change ((v >> 16) .& 255) with (Argb.R v).
  change ((v >> 8) .& 255) with (Argb.G v). change (v .& 255) with (Argb.B v).
  pose proof (A_byte v). pose proof (R_byte v). pose proof (G_byte v). pose proof (B_byte v).
  unfold is_byte in *. rewrite !Z.mul_0_r, !Z.add_0_l, !Z.sub_0_r, !(Z.mul_comm 255).
  rewrite !div255_div, !Z.div_mul by lia. by apply argb_channels_id.
Qed.

(** The table lookups of the LCD blend stay inside tables of 256 bytes. *)
Lemma blendLCDSrcOver8888_pre_ok ga iga ar ag ab sr sg sb v :
  length ga = 256%nat -> length iga = 256%nat -> Forall is_byte ga -> Forall is_byte iga ->
  is_byte ar -> is_byte ag -> is_byte ab -> is_byte sr -> is_byte sg -> is_byte sb ->
  exists o, blendLCDSrcOver8888_pre ga iga ar ag ab sr sg sb v = Some o /\ Argb.A o = 255 /\ is_i32 o.
Proof.
  intros Lg Li Fg Fi Har Hag Hab Hsr Hsg Hsb.
  assert (forall t c, length t = 256%nat -> Forall is_byte t -> is_byte c ->
            exists x, ld t c = Some x /\ is_byte x) as Htab.
  { intros t c Lt Ft Hc. destruct (ld_in t c) as [x Hx]; [unfold alen, is_byte in *; lia|].
    exists x. split; [done|]. unfold ld in Hx. case_match; [|done].
    by eapply (Forall_lookup_1 _ _ _ _ Ft). }
  assert (forall a s x, is_byte a -> is_byte s -> is_byte x ->
            is_byte (div255 (a * s + (255 - a) * x))) as Hmix.
  { intros a s x Ha Hs Hx. apply weighted_byte; try done; unfold is_byte in *; lia. }
  unfold blendLCDSrcOver8888_pre.
  change ((v >> 16) .& 255) with (Argb.R v). change ((v >> 8) .& 255) with (Argb.G v).
  change (v .& 255) with (Argb.B v).
  destruct (Htab iga (Argb.R v)) as (dr & -> & ?); [done|done|apply R_byte|]. cbn [mbind option_bind].
  destruct (Htab iga (Argb.G v)) as (dg & -> & ?); [done|done|apply G_byte|]. cbn [mbind option_bind].
  destruct (Htab iga (Argb.B v)) as (db & -> & ?); [done|done|apply B_byte|]. cbn [mbind option_bind].
  destruct (Htab ga (div255 (ar * sr + (255 - ar) * dr))) as (or & -> & ?); [done|done|by apply Hmix|]. cbn [mbind option_bind].
  destruct (Htab ga (div255 (ag * sg + (255 - ag) * dg))) as (og & -> & ?); [done|done|by apply Hmix|]. cbn [mbind option_bind].
  destruct (Htab ga (div255 (ab * sb + (255 - ab) * db))) as (ob & -> & ?); [done|done|by apply Hmix|]. cbn [mbind option_bind].
  eexists. split; [done|]. rewrite argb_A by done. split; [done|apply argb_is_i32].
Qed.
