(* ===== verification/Renderer.v ===== *)
(** * The renderer's state (PiscesRenderer.h, PiscesSurface.h)

    The structures [Surface] and [Renderer] as records, one field per member
    that the code reads.  A pointer member is an [option] ([None] is [NULL]);
    a pointer into an array is the array, with the offset where the code moves
    it; a pointer to a routine is a value of an enumeration of the routines.

    The members for pointers to routines, for gradients and for textures are
    grouped in records of their own; the C structure is flat. *)

From S2P Require Import Prelude Mem.
From Stdlib Require Import SpecFloat.

(** ** Constants *)
Definition COMPOSITE_CLEAR := 0.
Definition COMPOSITE_SRC := 1.
Definition COMPOSITE_SRC_OVER := 2.
Definition TYPE_INT_ARGB := 1.
Definition TYPE_INT_ARGB_PRE := 2.
Definition PAINT_FLAT_COLOR := 0.
Definition PAINT_LINEAR_GRADIENT := 1.
Definition PAINT_RADIAL_GRADIENT := 2.
Definition PAINT_TEXTURE8888 := 4.
Definition PAINT_TEXTURE8888_MULTIPLY := 5.
Definition IMAGE_MODE_NORMAL := 1.
Definition IMAGE_MODE_MULTIPLY := 2.
Definition IMAGE_FRAC_EDGE_KEEP := 0.
Definition IMAGE_FRAC_EDGE_PAD := 1.
Definition IMAGE_FRAC_EDGE_TRIM := 2.
Definition LG_GRADIENT_MAP_SIZE := 8.
Definition GRADIENT_MAP_SIZE := 256.
Definition NUM_ALPHA_ROWS := 8.
Definition CYCLE_NONE := 0.
Definition CYCLE_REPEAT := 1.
Definition CYCLE_REFLECT := 2.
Definition NO_MASK := 0.
Definition ALPHA_MASK := 1.
Definition LCD_ALPHA_MASK := 2.
Definition TEXTURE_TRANSFORM_IDENTITY := 1.
Definition TEXTURE_TRANSFORM_TRANSLATE := 2.
Definition TEXTURE_TRANSFORM_SCALE_TRANSLATE := 3.
Definition TEXTURE_TRANSFORM_GENERIC := 4.

(** The bits of [_rendererState]. *)
Definition INVALID_COLOR_ALPHA_MAP := 1.
Definition INVALID_PAINT_ALPHA_MAP := 2.
Definition INVALID_INTERNAL_COLOR := 8.
Definition INVALID_RENDERER_SURFACE := 16.
Definition INVALID_COMPOSITE_DEPENDED_ROUTINES := 32.
Definition INVALID_PAINT_DEPENDED_ROUTINES := 64.
Definition INVALID_MASK_DEPENDED_ROUTINES := 128.
Definition INVALID_BLITTING_MASK :=
  INVALID_INTERNAL_COLOR .| INVALID_RENDERER_SURFACE .|
  INVALID_COMPOSITE_DEPENDED_ROUTINES .| INVALID_PAINT_DEPENDED_ROUTINES .|
  INVALID_MASK_DEPENDED_ROUTINES.
Definition INVALID_ALL :=
  INVALID_COLOR_ALPHA_MAP .| INVALID_PAINT_ALPHA_MAP .| INVALID_BLITTING_MASK.

(** ** Pointers to routines *)

(** Routines of type [void (Renderer *, jint height)] of PiscesBlit.c. *)
Inductive BlitFn :=
| BlitSrc8888 | BlitPTSrc8888 | BlitSrcOver8888 | BlitPTSrcOver8888
| BlitSrc8888_pre | BlitPTSrc8888_pre | BlitSrcOver8888_pre | BlitPTSrcOver8888_pre
| BlitSrcMask8888_pre | BlitPTSrcMask8888_pre
| BlitSrcOverMask8888_pre | BlitPTSrcOverMask8888_pre
| BlitSrcOverLCDMask8888_pre.

(** Routines of type [void (Renderer *, jint height, jint frac)]. *)
Inductive EmitFn :=
| EmitLineSource8888 | EmitLineSourceOver8888
| EmitLinePTSource8888 | EmitLinePTSourceOver8888
| EmitLineSource8888_pre | EmitLineSourceOver8888_pre
| EmitLinePTSource8888_pre | EmitLinePTSourceOver8888_pre.

(** Routines of PiscesPaint.c. *)
Inductive PaintFn :=
| GenLinearGradientPaint | GenRadialGradientPaint
| GenTexturePaint | GenTexturePaintMultiply.

(** [clearRect8888] is the only routine of its type. *)
Inductive ClearFn := ClearRect8888.

#[export] Instance BlitFn_eq_dec : EqDecision BlitFn.
Proof. solve_decision. Defined.
#[export] Instance EmitFn_eq_dec : EqDecision EmitFn.
Proof. solve_decision. Defined.
#[export] Instance PaintFn_eq_dec : EqDecision PaintFn.
Proof. solve_decision. Defined.
#[export] Instance ClearFn_eq_dec : EqDecision ClearFn.
Proof. solve_decision. Defined.

(** The members chosen by the surface type. *)
Record SurfaceFns := {
  _bl_SourceOverMask : option BlitFn; _bl_PT_SourceOverMask : option BlitFn;
  _bl_SourceMask : option BlitFn; _bl_PT_SourceMask : option BlitFn;
  _bl_SourceOverLCDMask : option BlitFn; _bl_PT_SourceOverLCDMask : option BlitFn;
  _bl_SourceLCDMask : option BlitFn; _bl_PT_SourceLCDMask : option BlitFn;
  _bl_SourceOverNoMask : option BlitFn; _bl_PT_SourceOverNoMask : option BlitFn;
  _bl_SourceNoMask : option BlitFn; _bl_PT_SourceNoMask : option BlitFn;
  _el_Source : option EmitFn; _el_SourceOver : option EmitFn;
  _el_PT_Source : option EmitFn; _el_PT_SourceOver : option EmitFn;
  _bl_Clear : option BlitFn; _bl_PT_Clear : option BlitFn;
  _clearRect : option ClearFn;
}.

(** The members chosen by the mask. *)
Record MaskFns := {
  _bl_SourceOver : option BlitFn; _bl_PT_SourceOver : option BlitFn;
  _bl_Source : option BlitFn; _bl_PT_Source : option BlitFn;
}.

(** The members chosen by the composite rule. *)
Record CompositeFns := {
  _bl : option BlitFn; _bl_PT : option BlitFn;
  _el : option EmitFn; _el_PT : option EmitFn;
}.

(** The members chosen by the paint mode: the ones that are called. *)
Record PaintFns := {
  _emitRows : option BlitFn;
  _emitLine : option EmitFn;
  _genPaint : option PaintFn;
}.

(** ** Surfaces *)
Record Surface := {
  width : Z; height : Z; offset : Z; scanlineStride : Z; pixelStride : Z;
  imageType : Z;
  data : option (list Z);
}.

(** ** Transforms (PiscesTransform.h) *)
Record Transform6 := { m00 : Z; m01 : Z; m10 : Z; m11 : Z; m02 : Z; m12 : Z }.

#[export] Instance Transform6_eq_dec : EqDecision Transform6.
Proof. solve_decision. Defined.

(** A [jfloat]: an IEEE binary32 number. *)
Abbreviation jfloat := spec_float.

Record Gradient := {
  _gradient_transform : Transform6; _gradient_inverse_transform : Transform6;
  _lg_mx : jfloat; _lg_my : jfloat; _lg_b : jfloat;
  _rg_a00 : jfloat; _rg_a01 : jfloat; _rg_a02 : jfloat;
  _rg_a10 : jfloat; _rg_a11 : jfloat; _rg_a12 : jfloat;
  _rg_cx : jfloat; _rg_cy : jfloat; _rg_fx : jfloat; _rg_fy : jfloat;
  _rg_r : jfloat; _rg_rsq : jfloat;
  _rg_a00a00 : jfloat; _rg_a10a10 : jfloat; _rg_a00a10 : jfloat;
  _gradient_colors : list Z;
  _gradient_cycleMethod : Z;
}.

(** [_texture_intData] is an array and the offset of the pointer in it. *)
Record Texture := {
  _texture_intData : option (list Z * Z);
  _texture_hasAlpha : bool;
  _texture_imageWidth : Z; _texture_imageHeight : Z; _texture_stride : Z;
  _texture_txMin : Z; _texture_tyMin : Z; _texture_txMax : Z; _texture_tyMax : Z;
  _texture_repeat : bool;
  _texture_m00 : Z; _texture_m01 : Z; _texture_m02 : Z;
  _texture_m10 : Z; _texture_m11 : Z; _texture_m12 : Z;
  _texture_interpolate : bool;
  _texture_transformType : Z;
  _texture_free : bool;
}.

(** ** The renderer *)
Record Renderer := {
  _paintMode : Z; _prevPaintMode : Z;
  _cred : Z; _cgreen : Z; _cblue : Z; _calpha : Z;
  _compositeRule : Z;
  _surface : Surface;
  _data : option (list Z);
  _width : Z; _height : Z; _imageOffset : Z;
  _imageScanlineStride : Z; _imagePixelStride : Z; _imageType : Z;
  _surfaceFns : SurfaceFns; _maskFns : MaskFns;
  _compositeFns : CompositeFns; _paintFns : PaintFns;
  _rowNum : Z; _alphaWidth : Z; _minTouched : Z; _maxTouched : Z;
  _currX : Z; _currY : Z; _currImageOffset : Z;
  alphaMap : option (list Z); _rowAAInt : option (list Z);
  _rectX : Z; _rectY : Z;
  _mask_free : bool; _maskType : Z; _mask_byteData : option (list Z);
  _maskOffset : Z; _mask_width : Z; _mask_height : Z;
  _paint : option (list Z); _paint_length : Z;
  _paint_transform : Transform6;
  _gradient : Gradient; _texture : Texture;
  _clip_bbMinX : Z; _clip_bbMinY : Z; _clip_bbMaxX : Z; _clip_bbMaxY : Z;
  _el_lfrac : Z; _el_rfrac : Z;
  _rendererState : Z;
}.

(** ** Assignments to members *)

(** Every member of the record, spelled out once; a setter abstracts one of them. *)
Definition Renderer_eta (r : Renderer) : Renderer :=
  {| _paintMode := _paintMode r; _prevPaintMode := _prevPaintMode r; _cred := _cred r; 
     _cgreen := _cgreen r; _cblue := _cblue r; _calpha := _calpha r; 
     _compositeRule := _compositeRule r; _surface := _surface r; _data := _data r; 
     _width := _width r; _height := _height r; _imageOffset := _imageOffset r; 
     _imageScanlineStride := _imageScanlineStride r; 
     _imagePixelStride := _imagePixelStride r; _imageType := _imageType r; 
     _surfaceFns := _surfaceFns r; _maskFns := _maskFns r; 
     _compositeFns := _compositeFns r; _paintFns := _paintFns r; _rowNum := _rowNum r; 
     _alphaWidth := _alphaWidth r; _minTouched := _minTouched r; 
     _maxTouched := _maxTouched r; _currX := _currX r; _currY := _currY r; 
     _currImageOffset := _currImageOffset r; alphaMap := alphaMap r; 
     _rowAAInt := _rowAAInt r; _rectX := _rectX r; _rectY := _rectY r; 
     _mask_free := _mask_free r; _maskType := _maskType r; 
     _mask_byteData := _mask_byteData r; _maskOffset := _maskOffset r; 
     _mask_width := _mask_width r; _mask_height := _mask_height r; _paint := _paint r; 
     _paint_length := _paint_length r; _paint_transform := _paint_transform r; 
     _gradient := _gradient r; _texture := _texture r; _clip_bbMinX := _clip_bbMinX r; 
     _clip_bbMinY := _clip_bbMinY r; _clip_bbMaxX := _clip_bbMaxX r; 
     _clip_bbMaxY := _clip_bbMaxY r; _el_lfrac := _el_lfrac r; _el_rfrac := _el_rfrac r; 
     _rendererState := _rendererState r |}.

Definition Texture_eta (r : Texture) : Texture :=
  {| _texture_intData := _texture_intData r; _texture_hasAlpha := _texture_hasAlpha r; 
     _texture_imageWidth := _texture_imageWidth r; 
     _texture_imageHeight := _texture_imageHeight r; _texture_stride := _texture_stride r; 
     _texture_txMin := _texture_txMin r; _texture_tyMin := _texture_tyMin r; 
     _texture_txMax := _texture_txMax r; _texture_tyMax := _texture_tyMax r; 
     _texture_repeat := _texture_repeat r; _texture_m00 := _texture_m00 r; 
     _texture_m01 := _texture_m01 r; _texture_m02 := _texture_m02 r; 
     _texture_m10 := _texture_m10 r; _texture_m11 := _texture_m11 r; 
     _texture_m12 := _texture_m12 r; _texture_interpolate := _texture_interpolate r; 
     _texture_transformType := _texture_transformType r; _texture_free := _texture_free r |}.

Definition Gradient_eta (r : Gradient) : Gradient :=
  {| _gradient_transform := _gradient_transform r; 
     _gradient_inverse_transform := _gradient_inverse_transform r; _lg_mx := _lg_mx r; 
     _lg_my := _lg_my r; _lg_b := _lg_b r; _rg_a00 := _rg_a00 r; _rg_a01 := _rg_a01 r; 
     _rg_a02 := _rg_a02 r; _rg_a10 := _rg_a10 r; _rg_a11 := _rg_a11 r; 
     _rg_a12 := _rg_a12 r; _rg_cx := _rg_cx r; _rg_cy := _rg_cy r; _rg_fx := _rg_fx r; 
     _rg_fy := _rg_fy r; _rg_r := _rg_r r; _rg_rsq := _rg_rsq r; 
     _rg_a00a00 := _rg_a00a00 r; _rg_a10a10 := _rg_a10a10 r; _rg_a00a10 := _rg_a00a10 r; 
     _gradient_colors := _gradient_colors r; 
     _gradient_cycleMethod := _gradient_cycleMethod r |}.

Ltac build_setter eta proj v r :=
  let e := eval cbv beta delta [eta] in (eta r) in
  let p := eval pattern (proj r) in e in
  match p with ?f _ => let b := eval cbv beta in (f v) in exact b end.

Definition set_paintMode (v : Z) (r : Renderer) : Renderer :=
  ltac:(build_setter Renderer_eta _paintMode v r).
Definition set_prevPaintMode (v : Z) (r : Renderer) : Renderer :=
  ltac:(build_setter Renderer_eta _prevPaintMode v r).
Definition set_cred (v : Z) (r : Renderer) : Renderer :=
  ltac:(build_setter Renderer_eta _cred v r).
Definition set_cgreen (v : Z) (r : Renderer) : Renderer :=
  ltac:(build_setter Renderer_eta _cgreen v r).
Definition set_cblue (v : Z) (r : Renderer) : Renderer :=
  ltac:(build_setter Renderer_eta _cblue v r).
Definition set_calpha (v : Z) (r : Renderer) : Renderer :=
  ltac:(build_setter Renderer_eta _calpha v r).
Definition set_compositeRule (v : Z) (r : Renderer) : Renderer :=
  ltac:(build_setter Renderer_eta _compositeRule v r).
Definition set_surface (v : Surface) (r : Renderer) : Renderer :=
  ltac:(build_setter Renderer_eta _surface v r).
Definition set_data (v : option (list Z)) (r : Renderer) : Renderer :=
  ltac:(build_setter Renderer_eta _data v r).
Definition set_width (v : Z) (r : Renderer) : Renderer :=
  ltac:(build_setter Renderer_eta _width v r).
Definition set_height (v : Z) (r : Renderer) : Renderer :=
  ltac:(build_setter Renderer_eta _height v r).
Definition set_imageOffset (v : Z) (r : Renderer) : Renderer :=
  ltac:(build_setter Renderer_eta _imageOffset v r).
Definition set_imageScanlineStride (v : Z) (r : Renderer) : Renderer :=
  ltac:(build_setter Renderer_eta _imageScanlineStride v r).
Definition set_imagePixelStride (v : Z) (r : Renderer) : Renderer :=
  ltac:(build_setter Renderer_eta _imagePixelStride v r).
Definition set_imageType (v : Z) (r : Renderer) : Renderer :=
  ltac:(build_setter Renderer_eta _imageType v r).
Definition set_surfaceFns (v : SurfaceFns) (r : Renderer) : Renderer :=
  ltac:(build_setter Renderer_eta _surfaceFns v r).
Definition set_maskFns (v : MaskFns) (r : Renderer) : Renderer :=
  ltac:(build_setter Renderer_eta _maskFns v r).
Definition set_compositeFns (v : CompositeFns) (r : Renderer) : Renderer :=
  ltac:(build_setter Renderer_eta _compositeFns v r).
Definition set_paintFns (v : PaintFns) (r : Renderer) : Renderer :=
  ltac:(build_setter Renderer_eta _paintFns v r).
Definition set_rowNum (v : Z) (r : Renderer) : Renderer :=
  ltac:(build_setter Renderer_eta _rowNum v r).
Definition set_alphaWidth (v : Z) (r : Renderer) : Renderer :=
  ltac:(build_setter Renderer_eta _alphaWidth v r).
Definition set_minTouched (v : Z) (r : Renderer) : Renderer :=
  ltac:(build_setter Renderer_eta _minTouched v r).
Definition set_maxTouched (v : Z) (r : Renderer) : Renderer :=
  ltac:(build_setter Renderer_eta _maxTouched v r).
Definition set_currX (v : Z) (r : Renderer) : Renderer :=
  ltac:(build_setter Renderer_eta _currX v r).
Definition set_currY (v : Z) (r : Renderer) : Renderer :=
  ltac:(build_setter Renderer_eta _currY v r).
Definition set_currImageOffset (v : Z) (r : Renderer) : Renderer :=
  ltac:(build_setter Renderer_eta _currImageOffset v r).
Definition set_alphaMap (v : option (list Z)) (r : Renderer) : Renderer :=
  ltac:(build_setter Renderer_eta alphaMap v r).
Definition set_rowAAInt (v : option (list Z)) (r : Renderer) : Renderer :=
  ltac:(build_setter Renderer_eta _rowAAInt v r).
Definition set_rectX (v : Z) (r : Renderer) : Renderer :=
  ltac:(build_setter Renderer_eta _rectX v r).
Definition set_rectY (v : Z) (r : Renderer) : Renderer :=
  ltac:(build_setter Renderer_eta _rectY v r).
Definition set_mask_free (v : bool) (r : Renderer) : Renderer :=
  ltac:(build_setter Renderer_eta _mask_free v r).
Definition set_maskType (v : Z) (r : Renderer) : Renderer :=
  ltac:(build_setter Renderer_eta _maskType v r).
Definition set_mask_byteData (v : option (list Z)) (r : Renderer) : Renderer :=
  ltac:(build_setter Renderer_eta _mask_byteData v r).
Definition set_maskOffset (v : Z) (r : Renderer) : Renderer :=
  ltac:(build_setter Renderer_eta _maskOffset v r).
Definition set_mask_width (v : Z) (r : Renderer) : Renderer :=
  ltac:(build_setter Renderer_eta _mask_width v r).
Definition set_mask_height (v : Z) (r : Renderer) : Renderer :=
  ltac:(build_setter Renderer_eta _mask_height v r).
Definition set_paint (v : option (list Z)) (r : Renderer) : Renderer :=
  ltac:(build_setter Renderer_eta _paint v r).
Definition set_paint_length (v : Z) (r : Renderer) : Renderer :=
  ltac:(build_setter Renderer_eta _paint_length v r).
Definition set_paint_transform (v : Transform6) (r : Renderer) : Renderer :=
  ltac:(build_setter Renderer_eta _paint_transform v r).
Definition set_gradient (v : Gradient) (r : Renderer) : Renderer :=
  ltac:(build_setter Renderer_eta _gradient v r).
Definition set_texture (v : Texture) (r : Renderer) : Renderer :=
  ltac:(build_setter Renderer_eta _texture v r).
Definition set_clip_bbMinX (v : Z) (r : Renderer) : Renderer :=
  ltac:(build_setter Renderer_eta _clip_bbMinX v r).
Definition set_clip_bbMinY (v : Z) (r : Renderer) : Renderer :=
  ltac:(build_setter Renderer_eta _clip_bbMinY v r).
Definition set_clip_bbMaxX (v : Z) (r : Renderer) : Renderer :=
  ltac:(build_setter Renderer_eta _clip_bbMaxX v r).
Definition set_clip_bbMaxY (v : Z) (r : Renderer) : Renderer :=
  ltac:(build_setter Renderer_eta _clip_bbMaxY v r).
Definition set_el_lfrac (v : Z) (r : Renderer) : Renderer :=
  ltac:(build_setter Renderer_eta _el_lfrac v r).
Definition set_el_rfrac (v : Z) (r : Renderer) : Renderer :=
  ltac:(build_setter Renderer_eta _el_rfrac v r).
Definition set_rendererState (v : Z) (r : Renderer) : Renderer :=
  ltac:(build_setter Renderer_eta _rendererState v r).

Definition settex_intData (v : option (list Z * Z)) (r : Texture) : Texture :=
  ltac:(build_setter Texture_eta _texture_intData v r).

Definition setgrad_transform (v : Transform6) (r : Gradient) : Gradient :=
  ltac:(build_setter Gradient_eta _gradient_transform v r).
Definition setgrad_inverse_transform (v : Transform6) (r : Gradient) : Gradient :=
  ltac:(build_setter Gradient_eta _gradient_inverse_transform v r).
Definition setgrad_lg_mx (v : jfloat) (r : Gradient) : Gradient :=
  ltac:(build_setter Gradient_eta _lg_mx v r).
Definition setgrad_lg_my (v : jfloat) (r : Gradient) : Gradient :=
  ltac:(build_setter Gradient_eta _lg_my v r).
Definition setgrad_lg_b (v : jfloat) (r : Gradient) : Gradient :=
  ltac:(build_setter Gradient_eta _lg_b v r).
Definition setgrad_rg_a00 (v : jfloat) (r : Gradient) : Gradient :=
  ltac:(build_setter Gradient_eta _rg_a00 v r).
Definition setgrad_rg_a01 (v : jfloat) (r : Gradient) : Gradient :=
  ltac:(build_setter Gradient_eta _rg_a01 v r).
Definition setgrad_rg_a02 (v : jfloat) (r : Gradient) : Gradient :=
  ltac:(build_setter Gradient_eta _rg_a02 v r).
Definition setgrad_rg_a10 (v : jfloat) (r : Gradient) : Gradient :=
  ltac:(build_setter Gradient_eta _rg_a10 v r).
Definition setgrad_rg_a11 (v : jfloat) (r : Gradient) : Gradient :=
  ltac:(build_setter Gradient_eta _rg_a11 v r).
Definition setgrad_rg_a12 (v : jfloat) (r : Gradient) : Gradient :=
  ltac:(build_setter Gradient_eta _rg_a12 v r).
Definition setgrad_rg_cx (v : jfloat) (r : Gradient) : Gradient :=
  ltac:(build_setter Gradient_eta _rg_cx v r).
Definition setgrad_rg_cy (v : jfloat) (r : Gradient) : Gradient :=
  ltac:(build_setter Gradient_eta _rg_cy v r).
Definition setgrad_rg_fx (v : jfloat) (r : Gradient) : Gradient :=
  ltac:(build_setter Gradient_eta _rg_fx v r).
Definition setgrad_rg_fy (v : jfloat) (r : Gradient) : Gradient :=
  ltac:(build_setter Gradient_eta _rg_fy v r).
Definition setgrad_rg_r (v : jfloat) (r : Gradient) : Gradient :=
  ltac:(build_setter Gradient_eta _rg_r v r).
Definition setgrad_rg_rsq (v : jfloat) (r : Gradient) : Gradient :=
  ltac:(build_setter Gradient_eta _rg_rsq v r).
Definition setgrad_rg_a00a00 (v : jfloat) (r : Gradient) : Gradient :=
  ltac:(build_setter Gradient_eta _rg_a00a00 v r).
Definition setgrad_rg_a10a10 (v : jfloat) (r : Gradient) : Gradient :=
  ltac:(build_setter Gradient_eta _rg_a10a10 v r).
Definition setgrad_rg_a00a10 (v : jfloat) (r : Gradient) : Gradient :=
  ltac:(build_setter Gradient_eta _rg_a00a10 v r).
Definition setgrad_colors (v : list Z) (r : Gradient) : Gradient :=
  ltac:(build_setter Gradient_eta _gradient_colors v r).
Definition setgrad_cycleMethod (v : Z) (r : Gradient) : Gradient :=
  ltac:(build_setter Gradient_eta _gradient_cycleMethod v r).

(** ** A structure fresh from [calloc]: every member zero *)

Definition zero_surfaceFns : SurfaceFns :=
  Build_SurfaceFns None None None None None None None None None None None None
    None None None None None None None.
Definition zero_maskFns : MaskFns := Build_MaskFns None None None None.
Definition zero_compositeFns : CompositeFns := Build_CompositeFns None None None None.
Definition zero_paintFns : PaintFns := Build_PaintFns None None None.
Definition zero_transform : Transform6 := Build_Transform6 0 0 0 0 0 0.
Definition fzero : jfloat := S754_zero false.

Definition zero_gradient : Gradient :=
  Build_Gradient zero_transform zero_transform fzero fzero fzero fzero fzero fzero fzero
    fzero fzero fzero fzero fzero fzero fzero fzero fzero fzero fzero (replicate 256 0) 0.

Definition zero_texture : Texture :=
  Build_Texture None false 0 0 0 0 0 0 0 false 0 0 0 0 0 0 false 0 false.

Definition zero_renderer (surface : Surface) : Renderer :=
  {| _paintMode := 0; _prevPaintMode := 0;
     _cred := 0; _cgreen := 0; _cblue := 0; _calpha := 0;
     _compositeRule := 0; _surface := surface; _data := None;
     _width := 0; _height := 0; _imageOffset := 0;
     _imageScanlineStride := 0; _imagePixelStride := 0; _imageType := 0;
     _surfaceFns := zero_surfaceFns; _maskFns := zero_maskFns;
     _compositeFns := zero_compositeFns; _paintFns := zero_paintFns;
     _rowNum := 0; _alphaWidth := 0; _minTouched := 0; _maxTouched := 0;
     _currX := 0; _currY := 0; _currImageOffset := 0;
     alphaMap := None; _rowAAInt := None; _rectX := 0; _rectY := 0;
     _mask_free := false; _maskType := 0; _mask_byteData := None;
     _maskOffset := 0; _mask_width := 0; _mask_height := 0;
     _paint := None; _paint_length := 0; _paint_transform := zero_transform;
     _gradient := zero_gradient; _texture := zero_texture;
     _clip_bbMinX := 0; _clip_bbMinY := 0; _clip_bbMaxX := 0; _clip_bbMaxY := 0;
     _el_lfrac := 0; _el_rfrac := 0; _rendererState := 0 |}.

(** The paint buffer holds at least [n] colours. *)
Definition paint_holds (r : Renderer) (n : Z) : Prop :=
  exists paint, _paint r = Some paint /\ n <= alen paint <= 2147483647.
