(* ===== verification/EmitLine.v ===== *)
(** * Spans with fractional ends (PiscesBlit.c, emitLine...)

    The routines that [fillRect] calls for a batch of scan lines.  A line has a
    left pixel of coverage [_el_lfrac], full pixels, and a right pixel of
    coverage [_el_rfrac]; [frac] is the vertical coverage of the whole batch,
    in 1/65536.  The eight routines share one loop; they differ in what they do
    to the left, the middle and the right pixels. *)

From S2P Require Import Prelude Mem Blend Renderer.

Definition IS_TEXTURE_PAINT (x : Z) : bool := truth (x .& PAINT_TEXTURE8888).

(** ** The loop *)

(** One scan line.  [a] is the index of the first pixel in the image and [aidx]
    the index of its colour in the paint buffer. *)
Definition emit_row (ps w : Z) (l : option (Z -> option px)) (m : Z -> option px)
    (r : option (Z -> option px)) (aidx a : Z) (d : list Z) : option (list Z) :=
  '(d, a, aidx) ← match l with
    | Some src => p ← src aidx; d ← px_apply d a p; Some (d, a + ps, aidx + 1)
    | None => Some (d, a, aidx)
    end;
  let am := a + w in
  '(d, a, aidx) ← while_ (Z.to_nat w) (fun '(_, a, _) => a <? am)
    (fun '(d, a, aidx) => p ← m aidx; d ← px_apply d a p; Some (d, a + ps, aidx + 1))
    (d, a, aidx);
  match r with
  | Some src => p ← src aidx; px_apply d a p
  | None => Some d
  end.

(** [height] scan lines. *)
Definition emit_rows (rdr : Renderer) (height w paint_stride : Z)
    (l : option (Z -> option px)) (m : Z -> option px) (r : option (Z -> option px))
    : option Renderer :=
  intData ← _data rdr;
  let imageScanlineStride := _imageScanlineStride rdr in
  let imagePixelStride := _imagePixelStride rdr in
  let minX := _minTouched rdr in
  '(d, _, _) ← for_ (Z.to_nat height)
    (fun '(d, imageOffset, paint_offset) =>
       let iidx := i32 (imageOffset + minX * imagePixelStride) in
       d ← emit_row imagePixelStride w l m r paint_offset iidx d;
       Some (d, i32 (imageOffset + imageScanlineStride), i32 (paint_offset + paint_stride)))
    (intData, _currImageOffset rdr, 0);
  Some (set_data (Some d) rdr).

(** A pixel treated only when its coverage [f] is not zero: with a fixed action,
    or with an action on the colour read from the paint buffer. *)
Definition edge (f : Z) (p : px) : option (Z -> option px) :=
  if truth f then Some (fun _ => Some p) else None.

Definition paint_px (paint : list Z) (g : Z -> px) (aidx : Z) : option px :=
  cval ← ld paint aidx; Some (g cval).

Definition paint_edge (f : Z) (paint : list Z) (g : Z -> px) : option (Z -> option px) :=
  if truth f then Some (paint_px paint g) else None.

(** [w] after [w -= (lfrac) ? 1 : 0; w -= (rfrac) ? 1 : 0;] *)
Definition inner_width (rdr : Renderer) (lfrac rfrac : Z) : Z :=
  _alphaWidth rdr - cond (truth lfrac) 1 0 - cond (truth rfrac) 1 0.

(** The vertical coverage times the coverage of an end, both in 1/65536:
    [llfrac = lfrac * (jlong)frac; lfrac = (jint)(llfrac >> 16);] *)
Definition scaled_frac (f frac : Z) : Z := i32 (i64 (f * frac) >> 16).

(** ** Flat colour *)

Definition emitLineSource8888 (rdr : Renderer) (height frac : Z) : option Renderer :=
  let calpha := _calpha rdr in let cred := _cred rdr in
  let cgreen := _cgreen rdr in let cblue := _cblue rdr in
  let lfrac := _el_lfrac rdr in let rfrac := _el_rfrac rdr in
  let w := inner_width rdr lfrac rfrac in
  let blend raaval := Mix (blendSrc8888 calpha raaval cred cgreen cblue) in
  if frac =? 65536 then
    let pixel := argb calpha cred cgreen cblue in
    emit_rows rdr height w 0
      (edge lfrac (blend (255 - (lfrac >> 8))))
      (fun _ => Some (Put pixel))
      (edge rfrac (blend (255 - (rfrac >> 8))))
  else
    let comp_frac := 255 - (frac >> 8) in
    let lfrac := scaled_frac lfrac frac in
    let rfrac := scaled_frac rfrac frac in
    emit_rows rdr height w 0
      (edge lfrac (blend (255 - (lfrac >> 8))))
      (fun _ => Some (blend comp_frac))
      (edge rfrac (blend (255 - (rfrac >> 8)))).

Definition emitLineSourceOver8888 (rdr : Renderer) (height frac : Z) : option Renderer :=
  let calpha := _calpha rdr in let cred := _cred rdr in
  let cgreen := _cgreen rdr in let cblue := _cblue rdr in
  let alpha := i32 (calpha * frac) >> 16 in
  let lfrac := _el_lfrac rdr in let rfrac := _el_rfrac rdr in
  let w := inner_width rdr lfrac rfrac in
  let blend aval := Mix (blendSrcOver8888 aval cred cgreen cblue) in
  if alpha =? MAX_ALPHA then
    let solid_pixel := argb 255 cred cgreen cblue in
    emit_rows rdr height w 0
      (edge lfrac (blend (lfrac >> 8)))
      (fun _ => Some (Put solid_pixel))
      (edge rfrac (blend (rfrac >> 8)))
  else
    let lalpha := i32 (lfrac * alpha) >> 16 in
    let ralpha := i32 (rfrac * alpha) >> 16 in
    emit_rows rdr height w 0
      (edge lfrac (blend lalpha))
      (fun _ => Some (blend alpha))
      (edge rfrac (blend ralpha)).

Definition emitLineSource8888_pre (rdr : Renderer) (height frac : Z) : option Renderer :=
  let calpha := _calpha rdr in let cred := _cred rdr in
  let cgreen := _cgreen rdr in let cblue := _cblue rdr in
  let lfrac := _el_lfrac rdr in let rfrac := _el_rfrac rdr in
  let w := inner_width rdr lfrac rfrac in
  let blend raaval := Mix (blendSrc8888_pre calpha raaval cred cgreen cblue) in
  if frac =? 65536 then
    let pre_red := scale8 calpha cred in
    let pre_green := scale8 calpha cgreen in
    let pre_blue := scale8 calpha cblue in
    let pixel := argb calpha pre_red pre_green pre_blue in
    emit_rows rdr height w 0
      (edge lfrac (blend (255 - (lfrac >> 8))))
      (fun _ => Some (Put pixel))
      (edge rfrac (blend (255 - (rfrac >> 8))))
  else
    let comp_frac := 255 - (frac >> 8) in
    let lfrac := scaled_frac lfrac frac in
    let rfrac := scaled_frac rfrac frac in
    emit_rows rdr height w 0
      (edge lfrac (blend (255 - (lfrac >> 8))))
      (fun _ => Some (blend comp_frac))
      (edge rfrac (blend (255 - (rfrac >> 8)))).

Definition emitLineSourceOver8888_pre (rdr : Renderer) (height frac : Z) : option Renderer :=
  let calpha := _calpha rdr in let cred := _cred rdr in
  let cgreen := _cgreen rdr in let cblue := _cblue rdr in
  let alpha := i32 (calpha * frac) >> 16 in
  let lfrac := _el_lfrac rdr in let rfrac := _el_rfrac rdr in
  let w := inner_width rdr lfrac rfrac in
  let blend aval := Mix (blendSrcOver8888_pre aval cred cgreen cblue) in
  if alpha =? MAX_ALPHA then
    let solid_pixel := argb 255 cred cgreen cblue in
    emit_rows rdr height w 0
      (edge lfrac (blend (lfrac >> 8)))
      (fun _ => Some (Put solid_pixel))
      (edge rfrac (blend (rfrac >> 8)))
  else
    let lalpha := i32 (lfrac * alpha) >> 16 in
    let ralpha := i32 (rfrac * alpha) >> 16 in
    emit_rows rdr height w 0
      (edge lfrac (blend lalpha))
      (fun _ => Some (blend alpha))
      (edge rfrac (blend ralpha)).

(** ** Paint buffer *)

Definition emitLinePTSource8888 (rdr : Renderer) (height frac : Z) : option Renderer :=
  paint ← _paint rdr;
  let comp_frac := 255 - (frac >> 8) in
  let lfrac := scaled_frac (_el_lfrac rdr) frac in
  let rfrac := scaled_frac (_el_rfrac rdr) frac in
  let paint_stride := _alphaWidth rdr in
  let w := inner_width rdr lfrac rfrac in
  let blend raaval cval :=
    Mix (blendSrc8888 (Argb.A cval) raaval (Argb.R cval) (Argb.G cval) (Argb.B cval)) in
  emit_rows rdr height w paint_stride
    (paint_edge lfrac paint (blend (255 - (lfrac >> 8))))
    (paint_px paint (fun cval => if frac =? 65536 then Put cval else blend comp_frac cval))
    (paint_edge rfrac paint (blend (255 - (rfrac >> 8)))).

Definition emitLinePTSourceOver8888 (rdr : Renderer) (height frac : Z) : option Renderer :=
  paint ← _paint rdr;
  let lfrac := scaled_frac (_el_lfrac rdr) frac in
  let rfrac := scaled_frac (_el_rfrac rdr) frac in
  let paint_stride := _alphaWidth rdr in
  let w := inner_width rdr lfrac rfrac in
  let blend palpha cval :=
    Mix (blendSrcOver8888 palpha (Argb.R cval) (Argb.G cval) (Argb.B cval)) in
  emit_rows rdr height w paint_stride
    (paint_edge lfrac paint (fun cval => blend (i32 (lfrac * Argb.A cval) >> 16) cval))
    (paint_px paint (fun cval =>
       if frac =? 65536 then
         let palpha := Argb.A cval in
         if palpha =? 0 then Keep
         else if palpha =? MAX_ALPHA then Put cval
         else blend palpha cval
       else blend (i32 (frac * Argb.A cval) >> 16) cval))
    (paint_edge rfrac paint (fun cval => blend (i32 (rfrac * Argb.A cval) >> 16) cval)).

Definition emitLinePTSource8888_pre (rdr : Renderer) (height frac : Z) : option Renderer :=
  paint ← _paint rdr;
  let paintMode := _paintMode rdr in
  let comp_frac := 255 - (frac >> 8) in
  let lfrac := scaled_frac (_el_lfrac rdr) frac in
  let rfrac := scaled_frac (_el_rfrac rdr) frac in
  let paint_stride := _alphaWidth rdr in
  let w := inner_width rdr lfrac rfrac in
  let blend raaval cval :=
    if IS_TEXTURE_PAINT paintMode
    then Mix (blendSrc8888_pre_pre (Argb.A cval) raaval (Argb.R cval) (Argb.G cval) (Argb.B cval))
    else Mix (blendSrc8888_pre (Argb.A cval) raaval (Argb.R cval) (Argb.G cval) (Argb.B cval)) in
  emit_rows rdr height w paint_stride
    (paint_edge lfrac paint (blend (255 - (lfrac >> 8))))
    (paint_px paint (fun cval => if frac =? 65536 then Put cval else blend comp_frac cval))
    (paint_edge rfrac paint (blend (255 - (rfrac >> 8)))).

Definition emitLinePTSourceOver8888_pre (rdr : Renderer) (height frac : Z) : option Renderer :=
  paint ← _paint rdr;
  let paintMode := _paintMode rdr in
  let lfrac := scaled_frac (_el_lfrac rdr) frac in
  let rfrac := scaled_frac (_el_rfrac rdr) frac in
  let paint_stride := _alphaWidth rdr in
  let w := inner_width rdr lfrac rfrac in
  (* a pixel of partial coverage [f] in 1/65536 *)
  let partial f cval :=
    if IS_TEXTURE_PAINT paintMode
    then Mix (blendSrcOver8888_pre_pre (f >> 8) (Argb.A cval) (Argb.R cval) (Argb.G cval)
                (Argb.B cval))
    else let palpha := i32 (f * Argb.A cval) >> 16 in
         Mix (blendSrcOver8888_pre palpha (Argb.R cval) (Argb.G cval) (Argb.B cval)) in
  let full cval :=
    let palpha := Argb.A cval in
    if palpha =? 0 then Keep
    else if palpha =? MAX_ALPHA then Put cval
    else if IS_TEXTURE_PAINT paintMode
    then Mix (blendSrcOver8888_pre_pre_fullFrac palpha (Argb.R cval) (Argb.G cval) (Argb.B cval))
    else Mix (blendSrcOver8888_pre palpha (Argb.R cval) (Argb.G cval) (Argb.B cval)) in
  emit_rows rdr height w paint_stride
    (paint_edge lfrac paint (partial lfrac))
    (paint_px paint (fun cval => if frac =? 65536 then full cval else partial frac cval))
    (paint_edge rfrac paint (partial rfrac)).

(** A call through a pointer to one of the routines. *)
Definition run_emit (f : EmitFn) : Renderer -> Z -> Z -> option Renderer :=
  match f with
  | EmitLineSource8888 => emitLineSource8888
  | EmitLineSourceOver8888 => emitLineSourceOver8888
  | EmitLinePTSource8888 => emitLinePTSource8888
  | EmitLinePTSourceOver8888 => emitLinePTSourceOver8888
  | EmitLineSource8888_pre => emitLineSource8888_pre
  | EmitLineSourceOver8888_pre => emitLineSourceOver8888_pre
  | EmitLinePTSource8888_pre => emitLinePTSource8888_pre
  | EmitLinePTSourceOver8888_pre => emitLinePTSourceOver8888_pre
  end.

(** ** Lemmas: one scan line *)

(** The action on pixel [k] of a line whose left end is treated when [lb] holds:
    [lp], [mp] and [rp] give the actions by index in the paint buffer. *)
Definition span_px (lb : bool) (w : Z) (lp mp rp : Z -> px) (aidx k : Z) : px :=
  if k <? Z.b2z lb then lp (aidx + k)
  else if k <? Z.b2z lb + w then mp (aidx + k) else rp (aidx + k).

(** The number of pixels of a line. *)
Definition span_width (lb rb : bool) (w : Z) : Z := Z.b2z lb + w + Z.b2z rb.

(** [l], [m] and [r] read the colours [lo .. hi - 1] without a fault. *)
Definition sources_ok (lo hi : Z) (l m r : Z -> option px) (lp mp rp : Z -> px) : Prop :=
  forall i, lo <= i < hi -> l i = Some (lp i) /\ m i = Some (mp i) /\ r i = Some (rp i).

Lemma row_1 a g d : 0 <= a -> row a 1 g d = alter (g 0) (Z.to_nat a) d.
Proof.
  intros. rewrite (row_snoc a 0) by lia. rewrite row_0 by lia. by rewrite Z.add_0_r.
Qed.

(** The middle of a line. *)
Lemma emit_mid w (m : Z -> option px) mp aidx a d :
  0 <= a -> a + w <= alen d -> 0 <= w ->
  (forall i, aidx <= i < aidx + w -> m i = Some (mp i)) ->
  while_ (Z.to_nat w) (fun '(_, a', _) => a' <? a + w)
    (fun '(d, a, aidx) => p ← m aidx; d ← px_apply d a p; Some (d, a + 1, aidx + 1))
    (d, a, aidx) =
  Some (row a w (fun k => px_fun (mp (aidx + k))) d, a + w, aidx + w).
Proof.
  intros Ha Hlen Hw Hm.
  set (F := fun k : nat => (row a (Z.of_nat k) (fun k => px_fun (mp (aidx + k))) d,
                            a + Z.of_nat k, aidx + Z.of_nat k)).
  replace (d, a, aidx) with (F O) by (unfold F; rewrite row_0 by lia; f_equal; [f_equal|]; lia).
  rewrite (while_eq F (Z.to_nat w)).
  - unfold F. by rewrite Z2Nat.id by done.
  - done.
  - intros k Hk. unfold F at 1 2 3. split; [apply Z.ltb_lt; lia|].
    rewrite Hm by lia. simpl. rewrite px_apply_in by (unfold alen in *; autorewrite with pisces_len; lia).
    simpl. unfold F. rewrite Nat2Z.inj_succ. unfold Z.succ.
    rewrite row_snoc by lia. do 2 f_equal; [f_equal|]; lia.
  - unfold F. apply Z.ltb_ge. lia.
Qed.

Lemma emit_row_eq lb rb w l m r lp mp rp aidx a d :
  0 <= w -> 0 <= a -> a + span_width lb rb w <= alen d ->
  sources_ok aidx (aidx + span_width lb rb w) l m r lp mp rp ->
  emit_row 1 w (if lb then Some l else None) m (if rb then Some r else None) aidx a d =
  Some (row a (span_width lb rb w) (fun k => px_fun (span_px lb w lp mp rp aidx k)) d).
Proof.
  intros Hw Ha Hlen Hok. unfold span_width in *.
  assert (0 <= Z.b2z lb <= 1 /\ 0 <= Z.b2z rb <= 1) as [Hlb Hrb] by (destruct lb, rb; simpl; lia).
  set (dl := row a (Z.b2z lb) (fun k => px_fun (lp (aidx + k))) d).
  assert (match (if lb then Some l else None) with
          | Some src => p ← src aidx; d ← px_apply d a p; Some (d, a + 1, aidx + 1)
          | None => Some (d, a, aidx) end = Some (dl, a + Z.b2z lb, aidx + Z.b2z lb)) as El.
  { unfold dl. destruct lb; simpl in *.
    - destruct (Hok aidx) as (-> & _); [lia|]. simpl. rewrite px_apply_in by lia.
      simpl. rewrite row_1 by lia. by rewrite Z.add_0_r.
    - rewrite row_0, !Z.add_0_r by lia. done. }
  unfold emit_row. rewrite El. simpl. clear El.
  set (g := fun k => px_fun (mp (aidx + Z.b2z lb + k))).
  rewrite (emit_mid w m mp (aidx + Z.b2z lb) (a + Z.b2z lb) dl);
    [|lia|unfold dl, alen in *; rewrite length_row; destruct lb, rb; simpl in *; lia|done|].
  2:{ intros i Hi. apply (Hok i). destruct lb, rb; simpl in *; lia. }
  simpl. fold g. set (dm := row (a + Z.b2z lb) w g dl).
  assert (dm = row a (Z.b2z lb + w) (fun k => px_fun (span_px lb w lp mp rp aidx k)) d) as Edm.
  { unfold dm, dl. rewrite row_app by (destruct lb; simpl; lia). apply row_ext.
    intros k v Hk. unfold span_px, g. zcase; try done; try lia.
    by replace (aidx + Z.b2z lb + (k - Z.b2z lb)) with (aidx + k) by lia. }
  destruct rb; simpl.
  - destruct (Hok (aidx + Z.b2z lb + w)) as (_ & _ & ->); [destruct lb; simpl in *; lia|].
    simpl. rewrite px_apply_in by (unfold dm, dl, alen in *; autorewrite with pisces_len; destruct lb; simpl in *; lia).
    rewrite Edm, row_snoc by (destruct lb; simpl; lia). f_equal. unfold span_px at 2.
    rewrite Z.ltb_irrefl. zcase; [lia|]. f_equal; [|lia].
    by rewrite Z.add_assoc.
  - rewrite Edm, Z.add_0_r. done.
Qed.

(** ** Lemmas: a batch of scan lines *)

(** What the loop needs of the renderer: an image whose rows lie in the array,
    one [jint] per pixel. *)
Record emit_ready (rdr : Renderer) (h w : Z) (d : list Z) : Prop := {
  er_data : _data rdr = Some d;
  er_stride : _imagePixelStride rdr = 1;
  er_fits : fits (_currImageOffset rdr) (_imageScanlineStride rdr) (_minTouched rdr) w h (alen d);
}.

Lemma emit_rows_eq rdr h w ps lb rb l m r lp mp rp d hi :
  emit_ready rdr h (span_width lb rb w) d -> 0 <= w -> 0 <= h -> 0 <= ps ->
  (h - 1) * ps + span_width lb rb w <= hi -> hi <= 2147483647 ->
  sources_ok 0 hi l m r lp mp rp ->
  emit_rows rdr h w ps (if lb then Some l else None) m (if rb then Some r else None) =
  Some (set_data (Some (raster (_currImageOffset rdr) (_imageScanlineStride rdr)
          (_minTouched rdr) (span_width lb rb w) h
          (fun j k => px_fun (span_px lb w lp mp rp (j * ps) k)) d)) rdr).
Proof.
  intros [Hd Hps [H1 H2 H3 H4 H5 H6 H7]] Hw Hh Hp Hhi Hmax Hok.
  unfold emit_rows. rewrite Hd, Hps. simpl.
  set (off := _currImageOffset rdr) in *. set (stride := _imageScanlineStride rdr) in *.
  set (minX := _minTouched rdr) in *. set (W := span_width lb rb w) in *.
  set (f := fun j k => px_fun (span_px lb w lp mp rp (j * ps) k)).
  set (F := fun n : nat => (raster off stride minX W (Z.of_nat n) f d,
              i32 (off + Z.of_nat n * stride), i32 (Z.of_nat n * ps))).
  assert ((d, off, 0) = F O) as ->.
  { unfold F. destruct (Z.eq_dec h 0) as [->|]; rewrite raster_0 by lia;
      rewrite !i32_id by (unfold is_i32; nia); repeat f_equal; lia. }
  rewrite (for_eq F).
  { unfold F. simpl. by rewrite Z2Nat.id by done. }
  intros k Hk. unfold F at 1. cbv beta iota.
  assert (0 <= Z.of_nat k * stride /\ Z.of_nat k * stride + stride <= h * stride) as [K1 K2] by nia.
  assert (0 <= Z.of_nat k * ps /\ Z.of_nat k * ps <= (h - 1) * ps) as [K3 K4] by nia.
  rewrite !i32_add_l, Z.mul_1_r. rewrite (i32_id (off + _ + minX)) by (unfold is_i32; lia).
  rewrite (i32_id (Z.of_nat k * ps)) by (unfold is_i32; lia).
  unfold W. rewrite (emit_row_eq lb rb w l m r lp mp rp); fold W; [|lia..| |].
  - simpl. unfold F. rewrite Nat2Z.inj_succ. unfold Z.succ.
    rewrite raster_snoc, !Z.mul_add_distr_r, !Z.mul_1_l, Z.add_assoc by lia. done.
  - unfold alen in *. rewrite length_raster. lia.
  - intros i Hi. apply Hok. lia.
Qed.

(** Actions that read the paint buffer do not fault below its length. *)
Lemma paint_sources_ok paint p q r :
  sources_ok 0 (alen paint) (paint_px paint p) (paint_px paint q) (paint_px paint r)
    (fun i => p (default 0 (ld paint i))) (fun i => q (default 0 (ld paint i)))
    (fun i => r (default 0 (ld paint i))).
Proof.
  intros i Hi. destruct (ld_in paint i Hi) as [v Hv]. unfold paint_px. by rewrite Hv.
Qed.

Lemma emit_flat rdr h w lf rf p q r d :
  emit_ready rdr h (span_width (truth lf) (truth rf) w) d -> 0 <= w -> 0 <= h ->
  emit_rows rdr h w 0 (edge lf p) (fun _ => Some q) (edge rf r) =
  Some (set_data (Some (raster (_currImageOffset rdr) (_imageScanlineStride rdr)
          (_minTouched rdr) (span_width (truth lf) (truth rf) w) h
          (fun _ k => px_fun (span_px (truth lf) w (fun _ => p) (fun _ => q) (fun _ => r) 0 k))
          d)) rdr).
Proof.
  intros Hr Hw Hh. unfold edge. pose proof Hr as [_ _ [_ Hx Hsw Hst _ _ Hmax]].
  destruct (Z.eq_dec h 0) as [->|Hne].
  { unfold emit_rows. rewrite (er_data _ _ _ _ Hr). simpl. by rewrite raster_0. }
  assert (_imageScanlineStride rdr <= alen d) by (destruct Hr as [_ _ []]; nia).
  rewrite (emit_rows_eq rdr h w 0 (truth lf) (truth rf) (fun _ => Some p) (fun _ => Some q)
    (fun _ => Some r) (fun _ => p) (fun _ => q) (fun _ => r) d
    (span_width (truth lf) (truth rf) w)); try done; try lia.
Qed.

Lemma emit_paint rdr h w lf rf paint p q r d :
  emit_ready rdr h (span_width (truth lf) (truth rf) w) d -> 0 <= w -> 0 <= h ->
  0 <= _alphaWidth rdr -> span_width (truth lf) (truth rf) w <= _alphaWidth rdr ->
  h * _alphaWidth rdr <= alen paint -> alen paint <= 2147483647 ->
  emit_rows rdr h w (_alphaWidth rdr) (paint_edge lf paint p) (paint_px paint q)
    (paint_edge rf paint r) =
  Some (set_data (Some (raster (_currImageOffset rdr) (_imageScanlineStride rdr)
          (_minTouched rdr) (span_width (truth lf) (truth rf) w) h
          (fun j k => let src i := default 0 (ld paint i) in
             px_fun (span_px (truth lf) w (fun i => p (src i)) (fun i => q (src i))
                       (fun i => r (src i)) (j * _alphaWidth rdr) k)) d)) rdr).
Proof.
  intros Hr Hw Hh Ha Hsw Hp Hmax. unfold paint_edge.
  destruct (Z.eq_dec h 0) as [->|Hne].
  { unfold emit_rows. rewrite (er_data _ _ _ _ Hr). simpl. by rewrite raster_0. }
  apply (emit_rows_eq rdr h w (_alphaWidth rdr) (truth lf) (truth rf) _ _ _ _ _ _ d (alen paint));
    try done; try nia. apply paint_sources_ok.
Qed.

(** ** Properties of the routines *)

(** The routines that read the paint buffer. *)
Definition emit_paints (f : EmitFn) : bool :=
  match f with
  | EmitLinePTSource8888 | EmitLinePTSourceOver8888
  | EmitLinePTSource8888_pre | EmitLinePTSourceOver8888_pre => true
  | _ => false
  end.

(** What [fillRect] establishes before it calls a routine: the image and the
    coverages. *)
Record emit_pre (rdr : Renderer) (h frac : Z) (d : list Z) : Prop := {
  ep_ready : emit_ready rdr h (_alphaWidth rdr) d;
  ep_h : 0 <= h;
  ep_frac : 0 <= frac <= 65536;
  ep_lfrac : 0 <= _el_lfrac rdr <= 65535;
  ep_rfrac : 0 <= _el_rfrac rdr <= 65535;
  ep_width : Z.b2z (truth (_el_lfrac rdr)) + Z.b2z (truth (_el_rfrac rdr)) <= _alphaWidth rdr;
}.

Lemma truth_b2z z : cond (truth z) 1 0 = Z.b2z (truth z).
Proof. by destruct (truth z). Qed.

(** The coverage of an end is not increased by the vertical coverage. *)
Lemma scaled_frac_spec f frac :
  0 <= f <= 65535 -> 0 <= frac <= 65536 ->
  scaled_frac f frac = f * frac / 65536 /\ 0 <= scaled_frac f frac <= f /\
  Z.b2z (truth (scaled_frac f frac)) <= Z.b2z (truth f).
Proof.
  intros. unfold scaled_frac.
  rewrite i64_id by (unfold is_i64; nia). bits.
  assert (0 <= f * frac / 65536 <= f).
  { split; [apply Z.div_pos; nia|apply Z.div_le_upper_bound; nia]. }
  rewrite i32_id by (unfold is_i32; lia). repeat split; try lia.
  unfold truth. zcase; simpl; lia.
Qed.

Lemma emit_ready_le rdr h w w' d :
  emit_ready rdr h w' d -> 0 <= w <= w' -> emit_ready rdr h w d.
Proof. intros [] ?. split; [done..|]. by eapply fits_le. Qed.

Lemma b2z_bound b : 0 <= Z.b2z b <= 1.
Proof. destruct b; simpl; lia. Qed.

(** Both forms of a batch rewrite a raster no wider than the batch when the ends
    that are treated are among those that the inner width leaves out. *)
Section Batch.
Context (rdr : Renderer) (h lf0 rf0 lf rf : Z) (d : list Z).
Hypothesis Hr : emit_ready rdr h (_alphaWidth rdr) d.
Hypothesis Hh : 0 <= h.
Hypothesis Hw : Z.b2z (truth lf0) + Z.b2z (truth rf0) <= _alphaWidth rdr.
Hypothesis Hl : Z.b2z (truth lf) <= Z.b2z (truth lf0).
Hypothesis Hrf : Z.b2z (truth rf) <= Z.b2z (truth rf0).

Definition batch_raster (o : option Renderer) : Prop :=
  exists W g, 0 <= W <= _alphaWidth rdr /\
    o = Some (set_data (Some (raster (_currImageOffset rdr)
      (_imageScanlineStride rdr) (_minTouched rdr) W h g d)) rdr).

Lemma inner_width_bound :
  0 <= inner_width rdr lf0 rf0 /\
  0 <= span_width (truth lf) (truth rf) (inner_width rdr lf0 rf0) <= _alphaWidth rdr.
Proof using Hw Hl Hrf.
  clear Hr Hh. unfold inner_width, span_width. rewrite !truth_b2z.
  pose proof (b2z_bound (truth lf)). pose proof (b2z_bound (truth rf)). lia.
Qed.

Lemma emit_flat_raster p q r :
  batch_raster (emit_rows rdr h (inner_width rdr lf0 rf0) 0 (edge lf p) (fun _ => Some q) (edge rf r)).
Proof using Hr Hh Hw Hl Hrf.
  destruct inner_width_bound as [H1 H2]. eexists _, _. split; [exact H2|].
  apply emit_flat; [|done..]. by eapply emit_ready_le.
Qed.

Lemma emit_paint_raster paint p q r :
  h * _alphaWidth rdr <= alen paint <= 2147483647 ->
  batch_raster (emit_rows rdr h (inner_width rdr lf0 rf0) (_alphaWidth rdr)
    (paint_edge lf paint p) (paint_px paint q) (paint_edge rf paint r)).
Proof using Hr Hh Hw Hl Hrf.
  destruct inner_width_bound as [H1 H2]. eexists _, _. split; [exact H2|].
  apply emit_paint; [|lia..]. by eapply emit_ready_le.
Qed.
End Batch.

(** Every routine rewrites a raster no wider than the batch and nothing else. *)
Lemma run_emit_raster f rdr h frac d :
  emit_pre rdr h frac d ->
  (emit_paints f = true -> paint_holds rdr (h * _alphaWidth rdr)) ->
  batch_raster rdr h d (run_emit f rdr h frac).
Proof.
  intros [Hr Hh Hf Hl Hrf Hw] Hpaint.
  destruct (scaled_frac_spec (_el_lfrac rdr) frac Hl Hf) as (_ & _ & Sl).
  destruct (scaled_frac_spec (_el_rfrac rdr) frac Hrf Hf) as (_ & _ & Sr).
  destruct f; unfold run_emit, emitLineSource8888, emitLineSourceOver8888,
    emitLineSource8888_pre, emitLineSourceOver8888_pre, emitLinePTSource8888,
    emitLinePTSourceOver8888, emitLinePTSource8888_pre, emitLinePTSourceOver8888_pre;
  cbv zeta.
  1, 2, 5, 6: case_match; apply emit_flat_raster; done || lia.
  all: destruct (Hpaint eq_refl) as (paint & Hp & Hlen); rewrite Hp; cbn [mbind option_bind];
    apply emit_paint_raster; try done; lia.
Qed.

(** C31. Each of the eight [emitLine...] routines, on any batch that [fillRect]
    prepares, runs without leaving its arrays, changes no member of the
    renderer but the image, and changes no pixel of the image outside the batch. *)
Theorem emitLine_safe f rdr h frac d :
  emit_pre rdr h frac d ->
  (emit_paints f = true -> paint_holds rdr (h * _alphaWidth rdr)) ->
  exists d', run_emit f rdr h frac = Some (set_data (Some d') rdr) /\
    only_inside (_currImageOffset rdr) (_imageScanlineStride rdr) (_minTouched rdr)
      (_alphaWidth rdr) h d d'.
Proof.
  intros Hpre Hp. destruct (run_emit_raster f rdr h frac d Hpre Hp) as (W & g & HW & ->).
  eexists. split; [done|]. apply raster_only_inside. lia.
Qed.

(** ** Source-over with a flat colour *)

(** The alpha that pixel [k] of a line is blended with, from the coverage of
    the pixel, the vertical coverage and the alpha of the colour. *)
Definition line_alpha (rdr : Renderer) (frac k : Z) : Z :=
  let alpha := _calpha rdr * frac / 65536 in
  let partial f := if alpha =? 255 then f / 256 else f * alpha / 65536 in
  if truth (_el_lfrac rdr) && (k =? 0) then partial (_el_lfrac rdr)
  else if truth (_el_rfrac rdr) && (k =? _alphaWidth rdr - 1) then partial (_el_rfrac rdr)
  else alpha.

Definition color_ok (rdr : Renderer) : Prop :=
  is_byte (_calpha rdr) /\ is_byte (_cred rdr) /\ is_byte (_cgreen rdr) /\ is_byte (_cblue rdr).

Lemma line_alpha_byte rdr frac k :
  is_byte (_calpha rdr) -> 0 <= frac <= 65536 -> 0 <= _el_lfrac rdr <= 65535 ->
  0 <= _el_rfrac rdr <= 65535 -> is_byte (line_alpha rdr frac k).
Proof.
  unfold is_byte. intros. unfold line_alpha.
  assert (0 <= _calpha rdr * frac / 65536 <= 255) as Ha.
  { split; [apply Z.div_pos; nia|apply Z.div_le_upper_bound; nia]. }
  set (alpha := _calpha rdr * frac / 65536) in *. clearbody alpha.
  assert (forall f, 0 <= f <= 65535 ->
    0 <= (if alpha =? 255 then f / 256 else f * alpha / 65536) <= 255) as Hp.
  { intros f Hf. zcase; [zlia|]. split; [apply Z.div_pos; nia|apply Z.div_le_upper_bound; nia]. }
  repeat case_match; auto.
Qed.

(** A batch whose ends are blended with [lalpha] and [ralpha] and whose middle is
    blended with [alpha], or stored when that is the same. *)
Lemma over_batch (bl : Z -> Z -> Z) rdr h frac d q :
  emit_pre rdr h frac d -> is_byte (_calpha rdr) ->
  let alpha := _calpha rdr * frac / 65536 in
  let partial f := if alpha =? 255 then f / 256 else f * alpha / 65536 in
  (forall v, px_fun q v = bl alpha v) ->
  emit_rows rdr h (inner_width rdr (_el_lfrac rdr) (_el_rfrac rdr)) 0
    (edge (_el_lfrac rdr) (Mix (bl (partial (_el_lfrac rdr))))) (fun _ => Some q)
    (edge (_el_rfrac rdr) (Mix (bl (partial (_el_rfrac rdr))))) =
  Some (set_data (Some (raster (_currImageOffset rdr) (_imageScanlineStride rdr)
    (_minTouched rdr) (_alphaWidth rdr) h (fun _ k => bl (line_alpha rdr frac k)) d)) rdr).
Proof.
  intros [Hr Hh Hf Hl Hrf Hw] Hc alpha partial Hq.
  assert (span_width (truth (_el_lfrac rdr)) (truth (_el_rfrac rdr))
            (inner_width rdr (_el_lfrac rdr) (_el_rfrac rdr)) = _alphaWidth rdr) as Ew.
  { unfold span_width, inner_width. rewrite !truth_b2z. lia. }
  rewrite (emit_flat _ _ _ _ _ _ _ _ d); rewrite ?Ew; try done;
    [|unfold inner_width; rewrite !truth_b2z; lia].
  do 3 f_equal. apply raster_ext. intros j k v _ Hk.
  unfold span_px, line_alpha, inner_width. fold alpha. fold (partial (_el_lfrac rdr)).
  fold (partial (_el_rfrac rdr)). rewrite !truth_b2z.
  destruct (truth (_el_lfrac rdr)), (truth (_el_rfrac rdr)); simpl Z.b2z; simpl andb;
    zcase; simpl; rewrite ?Hq; done || lia.
Qed.

(** The two ways to write the alphas of the ends. *)
Lemma over_alphas rdr frac :
  is_byte (_calpha rdr) -> 0 <= frac <= 65536 -> 0 <= _el_lfrac rdr <= 65535 ->
  0 <= _el_rfrac rdr <= 65535 ->
  let alpha := _calpha rdr * frac / 65536 in
  i32 (_calpha rdr * frac) >> 16 = alpha /\
  (forall f, 0 <= f <= 65535 -> i32 (f * alpha) >> 16 = f * alpha / 65536 /\ f >> 8 = f / 256).
Proof.
  unfold is_byte. intros. cbv zeta.
  assert (0 <= _calpha rdr * frac / 65536 <= 255).
  { split; [apply Z.div_pos; nia|apply Z.div_le_upper_bound; nia]. }
  set (alpha := _calpha rdr * frac / 65536) in *.
  split; [|intros f Hf; split]; rewrite ?i32_id by (unfold is_i32; nia); by bits.
Qed.

(** The image after a batch in source-over. *)
Definition over_batch_raster (bl : Z -> Z -> Z -> Z -> Z -> Z) (rdr : Renderer) (h frac : Z) (d : list Z)
    : list Z :=
  raster (_currImageOffset rdr) (_imageScanlineStride rdr) (_minTouched rdr) (_alphaWidth rdr) h
    (fun _ k => bl (line_alpha rdr frac k) (_cred rdr) (_cgreen rdr) (_cblue rdr)) d.

Lemma emit_over_pre rdr h frac d :
  emit_pre rdr h frac d -> color_ok rdr ->
  emitLineSourceOver8888_pre rdr h frac
    = Some (set_data (Some (over_batch_raster blendSrcOver8888_pre rdr h frac d)) rdr).
Proof.
  intros Hpre (Ha & Hr & Hg & Hb). pose proof Hpre as [? ? Hf Hl Hrf ?].
  destruct (over_alphas rdr frac Ha Hf Hl Hrf) as [Ea Ep]. unfold over_batch_raster.
  unfold emitLineSourceOver8888_pre. rewrite Ea. cbv zeta. unfold MAX_ALPHA.
  destruct (Ep _ Hl) as [-> ->]. destruct (Ep _ Hrf) as [-> ->].
  destruct (_calpha rdr * frac / 65536 =? 255) eqn:E.
  - rewrite <- (over_batch (fun a => blendSrcOver8888_pre a (_cred rdr) (_cgreen rdr) (_cblue rdr))
      rdr h frac d (Put (argb 255 (_cred rdr) (_cgreen rdr) (_cblue rdr)))); rewrite ?E; try done.
    intros v. apply Z.eqb_eq in E. rewrite E. symmetry. by apply blendSrcOver8888_pre_opaque.
  - rewrite <- (over_batch (fun a => blendSrcOver8888_pre a (_cred rdr) (_cgreen rdr) (_cblue rdr))
      rdr h frac d (Mix (blendSrcOver8888_pre (_calpha rdr * frac / 65536)
         (_cred rdr) (_cgreen rdr) (_cblue rdr)))); rewrite ?E; done.
Qed.

(** [emitLineSourceOver8888_pre] is source-over with the coverage of each
    pixel: the result is the image in which every pixel of the batch is blended
    with [line_alpha] and all others are as before (the solid store it uses for
    an opaque colour is the same function), and a premultiplied image stays
    premultiplied. *)
Lemma emitLineSourceOver8888_pre_spec rdr h frac d :
  emit_pre rdr h frac d -> color_ok rdr ->
  let d' := raster (_currImageOffset rdr) (_imageScanlineStride rdr) (_minTouched rdr)
              (_alphaWidth rdr) h
              (fun _ k => blendSrcOver8888_pre (line_alpha rdr frac k)
                            (_cred rdr) (_cgreen rdr) (_cblue rdr)) d in
  emitLineSourceOver8888_pre rdr h frac = Some (set_data (Some d') rdr) /\
  (Forall premul d -> Forall premul d').
Proof.
  intros Hpre Hc. split; [by apply emit_over_pre|].
  destruct Hpre as [? ? Hf Hl Hrf ?], Hc as (Ha & Hr & Hg & Hb).
  apply raster_Forall. intros j k v _ _ Hv.
  pose proof (line_alpha_byte rdr frac k Ha Hf Hl Hrf). by apply blendSrcOver8888_pre_premul.
Qed.

Lemma emit_over rdr h frac d :
  emit_pre rdr h frac d -> color_ok rdr ->
  emitLineSourceOver8888 rdr h frac
    = Some (set_data (Some (over_batch_raster blendSrcOver8888 rdr h frac d)) rdr).
Proof.
  intros Hpre (Ha & Hr & Hg & Hb). pose proof Hpre as [? ? Hf Hl Hrf ?].
  destruct (over_alphas rdr frac Ha Hf Hl Hrf) as [Ea Ep]. unfold over_batch_raster.
  unfold emitLineSourceOver8888. rewrite Ea. cbv zeta. unfold MAX_ALPHA.
  destruct (Ep _ Hl) as [-> ->]. destruct (Ep _ Hrf) as [-> ->].
  destruct (_calpha rdr * frac / 65536 =? 255) eqn:E.
  - rewrite <- (over_batch (fun a => blendSrcOver8888 a (_cred rdr) (_cgreen rdr) (_cblue rdr))
      rdr h frac d (Put (argb 255 (_cred rdr) (_cgreen rdr) (_cblue rdr)))); rewrite ?E; try done.
    intros v. apply Z.eqb_eq in E. rewrite E. symmetry. by apply blendSrcOver8888_opaque.
  - rewrite <- (over_batch (fun a => blendSrcOver8888 a (_cred rdr) (_cgreen rdr) (_cblue rdr))
      rdr h frac d (Mix (blendSrcOver8888 (_calpha rdr * frac / 65536)
         (_cred rdr) (_cgreen rdr) (_cblue rdr)))); rewrite ?E; done.
Qed.

(** The same for [emitLineSourceOver8888] on a non-premultiplied image. *)
Lemma emitLineSourceOver8888_spec rdr h frac d :
  emit_pre rdr h frac d -> color_ok rdr ->
  emitLineSourceOver8888 rdr h frac =
  Some (set_data (Some (raster (_currImageOffset rdr) (_imageScanlineStride rdr)
    (_minTouched rdr) (_alphaWidth rdr) h
    (fun _ k => blendSrcOver8888 (line_alpha rdr frac k)
                  (_cred rdr) (_cgreen rdr) (_cblue rdr)) d)) rdr).
Proof. intros. by apply emit_over. Qed.

(** ** The source rule *)

(** The [emitLine...Source...] routines pass [blendSrc8888] the alpha of the
    colour unscaled by the coverage [c] (in 1/256) together with the weight
    [255 - c] of the destination; the alpha of the result then wraps: an opaque
    colour that partly covers an opaque pixel leaves a pixel of alpha
    [254 - c], not an opaque one. *)
Lemma blendSrc_partial_alpha_wraps c sr sg sb v :
  0 <= c <= 254 -> is_byte sr -> is_byte sg -> is_byte sb -> Argb.A v = 255 ->
  Argb.A (blendSrc8888 255 (255 - c) sr sg sb v) = 254 - c.
Proof.
  intros Hc Hr Hg Hb Ha. unfold blendSrc8888.
  change ((v >> 24) .& 255) with (Argb.A v). change ((v >> 16) .& 255) with (Argb.R v).
  change ((v >> 8) .& 255) with (Argb.G v). change (v .& 255) with (Argb.B v).
  rewrite Ha, (Z.add_comm (255 * 255)), (Z.mul_comm 255 (255 - c)).
  set (x := (255 - c) * 255). set (y := 255 * 255).
  rewrite (i32_id (x + y)) by (unfold is_i32; lia). zcase; [lia|]. cbv zeta.
  rewrite argb_A by (apply recip_channel_byte; auto with pisces; lia).
  rewrite Z.quot_div_nonneg by lia. unfold x, y. zlia.
Qed.

(** When the coverage of the left end vanishes by the vertical coverage
    ([0 < lfrac], [lfrac * frac < 65536]), [emitLineSource8888] still leaves the
    left pixel out of the width but does not step over it: it rewrites
    [_alphaWidth - 1] pixels from the left end, with the coverage of the middle,
    and never touches the last pixel of the line. *)
Lemma emitLineSource8888_shifts rdr h frac d :
  emit_pre rdr h frac d -> 0 < _el_lfrac rdr -> _el_lfrac rdr * frac < 65536 ->
  _el_rfrac rdr = 0 ->
  emitLineSource8888 rdr h frac =
  Some (set_data (Some (raster (_currImageOffset rdr) (_imageScanlineStride rdr)
    (_minTouched rdr) (_alphaWidth rdr - 1) h
    (fun _ _ => blendSrc8888 (_calpha rdr) (255 - frac / 256)
                  (_cred rdr) (_cgreen rdr) (_cblue rdr)) d)) rdr).
Proof.
  intros [Hr Hh Hf Hl Hrf Hw] Hlpos Hsmall Hr0.
  destruct (scaled_frac_spec (_el_lfrac rdr) frac Hl Hf) as (El & _ & _).
  rewrite Z.div_small in El by nia.
  unfold emitLineSource8888. zcase; [nia|]. cbv zeta. rewrite Hr0 in *. rewrite El.
  assert (truth (_el_lfrac rdr) = true) as Et by (unfold truth; zcase; done || lia).
  assert (inner_width rdr (_el_lfrac rdr) 0 = _alphaWidth rdr - 1) as Ew.
  { unfold inner_width. rewrite Et. simpl. lia. }
  rewrite Ew. rewrite Et in Hw. change (scaled_frac 0 frac) with 0. change (truth 0) with false in Hw. simpl in Hw.
  rewrite (emit_flat _ _ _ _ _ _ _ _ d); [|change (truth 0) with false; unfold span_width; simpl;
    eapply emit_ready_le; [done|lia]|lia|done].
  change (truth 0) with false. unfold span_width. simpl Z.b2z.
  replace (0 + (_alphaWidth rdr - 1) + 0) with (_alphaWidth rdr - 1) by lia.
  do 3 f_equal. apply raster_ext. intros j k v _ Hk. unfold span_px. simpl Z.b2z.
  zcase; try lia. simpl. by bits.
Qed.

(** ** Witnesses: a 4x3 image, a batch of one line over its columns 1 to 3 *)

Definition demo_image : list Z :=
  replicate 12 (argb 255 10 20 30).

Definition demo_emit : Renderer :=
  zero_renderer (Build_Surface 4 3 0 4 1 TYPE_INT_ARGB_PRE None)
  |> set_data (Some demo_image) |> set_imageScanlineStride 4 |> set_imagePixelStride 1
  |> set_minTouched 1 |> set_maxTouched 3 |> set_alphaWidth 3 |> set_currImageOffset 4
  |> set_calpha 200 |> set_cred 255 |> set_cgreen 128 |> set_cblue 7
  |> set_el_lfrac 1 |> set_el_rfrac 0
  |> set_paint (Some (replicate 3 (argb 90 80 70 60))) |> set_paint_length 3.

Lemma demo_emit_pre :
  emit_pre demo_emit 1 32768 demo_image.
Proof.
  repeat split; vm_compute; intuition discriminate.
Qed.

Lemma demo_color_ok : color_ok demo_emit.
Proof. vm_compute. intuition discriminate. Qed.

Lemma emitLine_safe_witness :
  exists d', run_emit EmitLinePTSourceOver8888_pre demo_emit 1 32768
             = Some (set_data (Some d') demo_emit) /\ only_inside 4 4 1 3 1 demo_image d'.
Proof.
  apply (emitLine_safe EmitLinePTSourceOver8888_pre demo_emit 1 32768 demo_image demo_emit_pre).
  exists (replicate 3 (argb 90 80 70 60)). vm_compute. intuition discriminate.
Defined.

