(* ===== verification/Blit.v ===== *)
(** * Blitting routines (PiscesBlit.c, blit... and clearRect8888)

    The routines behind [_emitRows] and [_clearRect].  They come in three
    families with one loop each: coverage from a row of antialiasing deltas
    ([_rowAAInt], whose running sum indexes [alphaMap] and which is cleared as it
    is read), coverage from a byte mask, and coverage from a mask with three
    bytes per pixel.  Within a family the routines differ in what they do to a
    pixel of a given coverage. *)

From S2P Require Import Prelude Mem Blend Renderer.

(** [w = (maxX >= minX) ? (maxX - minX + 1) : 0] *)
Definition touched_width (rdr : Renderer) : Z :=
  cond (_minTouched rdr <=? _maxTouched rdr)
    (i32 (_maxTouched rdr - _minTouched rdr + 1)) 0.

(** ** Actions on a pixel *)

(** Source rule: coverage [acoverage] of a colour with alpha [alpha]. *)
Definition src_px (blend : Z -> Z -> Z -> Z) (alpha solid acoverage : Z) : px :=
  if acoverage =? MAX_ALPHA then Put solid
  else if 0 <? acoverage then Mix (blend (scale8 acoverage alpha) (255 - acoverage))
  else Keep.

(** Source-over rule. *)
Definition over_px (blend : Z -> Z -> Z) (alpha solid acoverage : Z) : px :=
  let aval := scale8 acoverage alpha in
  if aval =? MAX_ALPHA then Put solid
  else if 0 <? aval then Mix (blend aval)
  else Keep.

(** ** Antialiased rows *)

(** One row.  [act] gives the action from [aval_relative] and the index of the
    colour in the paint buffer. *)
Definition aa_row (ps w : Z) (act : Z -> Z -> option px) (iidx : Z) (alpha d : list Z)
    : option (list Z * list Z) :=
  '(alpha, d, _, _, _) ← for_ (Z.to_nat w)
    (fun '(alpha, d, a, iidx, aval_relative) =>
       x ← ld alpha a;
       let aval_relative := i32 (aval_relative + x) in
       alpha ← st alpha a 0;
       p ← act aval_relative a;
       d ← px_apply d iidx p;
       Some (alpha, d, a + 1, i32 (iidx + ps), aval_relative))
    (alpha, d, 0, iidx, 0);
  Some (alpha, d).

Definition aa_rows (rdr : Renderer) (height : Z) (act : Z -> Z -> option px)
    : option Renderer :=
  intData ← _data rdr;
  alpha ← _rowAAInt rdr;
  let minX := _minTouched rdr in
  let w := touched_width rdr in
  '(alpha, d, _) ← for_ (Z.to_nat height)
    (fun '(alpha, d, imageOffset) =>
       let iidx := i32 (imageOffset + minX * _imagePixelStride rdr) in
       '(alpha, d) ← aa_row (_imagePixelStride rdr) w act iidx alpha d;
       Some (alpha, d, i32 (imageOffset + _imageScanlineStride rdr)))
    (alpha, intData, _currImageOffset rdr);
  Some (rdr |> set_data (Some d) |> set_rowAAInt (Some alpha)).

(** [alphaMap[aval_relative] & 0xff] *)
Definition coverage_of (rdr : Renderer) (aval_relative : Z) : option Z :=
  m ← alphaMap rdr; c ← ld m aval_relative; Some (c .& 255).

(** The colour of the renderer as a pixel. *)
Definition flat_pixel (rdr : Renderer) : Z :=
  argb (_calpha rdr) (_cred rdr) (_cgreen rdr) (_cblue rdr).

Definition blitSrc8888_pre (rdr : Renderer) (height : Z) : option Renderer :=
  aa_rows rdr height (fun aval_relative _ =>
    acoverage ← coverage_of rdr aval_relative;
    Some (src_px (fun aval raaval =>
            blendSrc8888_pre aval raaval (_cred rdr) (_cgreen rdr) (_cblue rdr))
          (_calpha rdr) (flat_pixel rdr) acoverage)).

Definition blitSrc8888 (rdr : Renderer) (height : Z) : option Renderer :=
  aa_rows rdr height (fun aval_relative _ =>
    acoverage ← coverage_of rdr aval_relative;
    Some (src_px (fun aval raaval =>
            blendSrc8888 aval raaval (_cred rdr) (_cgreen rdr) (_cblue rdr))
          (_calpha rdr) (flat_pixel rdr) acoverage)).

Definition blitPTSrc8888 (rdr : Renderer) (height : Z) : option Renderer :=
  paint ← _paint rdr;
  aa_rows rdr height (fun aval_relative aidx =>
    cval ← ld paint aidx;
    acoverage ← coverage_of rdr aval_relative;
    Some (src_px (fun aval raaval =>
            blendSrc8888 aval raaval (Argb.R cval) (Argb.G cval) (Argb.B cval))
          (Argb.A cval) cval acoverage)).

Definition blitPTSrc8888_pre (rdr : Renderer) (height : Z) : option Renderer :=
  paint ← _paint rdr;
  aa_rows rdr height (fun aval_relative aidx =>
    cval ← ld paint aidx;
    acoverage ← coverage_of rdr aval_relative;
    Some (src_px (fun aval raaval =>
            blendSrc8888_pre aval raaval (Argb.R cval) (Argb.G cval) (Argb.B cval))
          (Argb.A cval) cval acoverage)).

Definition blitSrcOver8888 (rdr : Renderer) (height : Z) : option Renderer :=
  aa_rows rdr height (fun aval_relative _ =>
    aval ← coverage_of rdr aval_relative;
    Some (over_px (fun aval => blendSrcOver8888 aval (_cred rdr) (_cgreen rdr) (_cblue rdr))
          (_calpha rdr) (flat_pixel rdr) aval)).

Definition blitSrcOver8888_pre (rdr : Renderer) (height : Z) : option Renderer :=
  aa_rows rdr height (fun aval_relative _ =>
    if truth aval_relative then
      aval ← coverage_of rdr aval_relative;
      Some (over_px (fun aval =>
              blendSrcOver8888_pre aval (_cred rdr) (_cgreen rdr) (_cblue rdr))
            (_calpha rdr) (argb 255 (_cred rdr) (_cgreen rdr) (_cblue rdr)) aval)
    else Some Keep).

Definition blitPTSrcOver8888 (rdr : Renderer) (height : Z) : option Renderer :=
  paint ← _paint rdr;
  aa_rows rdr height (fun aval_relative aidx =>
    cval ← ld paint aidx;
    aval ← coverage_of rdr aval_relative;
    Some (over_px (fun aval =>
            blendSrcOver8888 aval (Argb.R cval) (Argb.G cval) (Argb.B cval))
          (Argb.A cval) cval aval)).

Definition blitPTSrcOver8888_pre (rdr : Renderer) (height : Z) : option Renderer :=
  paint ← _paint rdr;
  aa_rows rdr height (fun aval_relative aidx =>
    cval ← ld paint aidx;
    if truth aval_relative then
      aval ← coverage_of rdr aval_relative;
      Some (over_px (fun aval =>
              blendSrcOver8888_pre aval (Argb.R cval) (Argb.G cval) (Argb.B cval))
            (Argb.A cval) cval aval)
    else Some Keep).

(** ** Byte masks *)

(** One row; [act] gives the action from the mask byte and the index of the
    colour in the paint buffer. *)
Definition mask_row (ps w : Z) (mask : list Z) (act : Z -> Z -> option px) (iidx a : Z)
    (d : list Z) : option (list Z) :=
  '(d, _, _, _) ← for_ (Z.to_nat w)
    (fun '(d, a, iidx, aidx) =>
       x ← ld mask a;
       p ← act x aidx;
       d ← px_apply d iidx p;
       Some (d, a + 1, i32 (iidx + ps), aidx + 1))
    (d, a, iidx, 0);
  Some d.

(** The rows; the mask offset moves by [alphaStride] from row to row. *)
Definition mask_rows (rdr : Renderer) (height alphaStride : Z) (act : Z -> Z -> option px)
    : option Renderer :=
  intData ← _data rdr;
  mask ← _mask_byteData rdr;
  let minX := _minTouched rdr in
  let w := touched_width rdr in
  '(d, _, _) ← for_ (Z.to_nat height)
    (fun '(d, imageOffset, alphaOffset) =>
       let iidx := i32 (imageOffset + minX * _imagePixelStride rdr) in
       d ← mask_row (_imagePixelStride rdr) w mask act iidx alphaOffset d;
       Some (d, i32 (imageOffset + _imageScanlineStride rdr), i32 (alphaOffset + alphaStride)))
    (intData, _currImageOffset rdr, _maskOffset rdr);
  Some (set_data (Some d) rdr).

Definition blitSrcMask8888_pre (rdr : Renderer) (height : Z) : option Renderer :=
  mask_rows rdr height (_alphaWidth rdr) (fun x _ =>
    let acoverage := x .& 255 in
    Some (src_px (fun aval raaval =>
            blendSrc8888_pre aval raaval (_cred rdr) (_cgreen rdr) (_cblue rdr))
          (_calpha rdr) (flat_pixel rdr) acoverage)).

(** The two routines with a paint buffer do not move the mask offset. *)
Definition blitPTSrcMask8888_pre (rdr : Renderer) (height : Z) : option Renderer :=
  paint ← _paint rdr;
  mask_rows rdr height 0 (fun x aidx =>
    cval ← ld paint aidx;
    let acoverage := x .& 255 in
    Some (src_px (fun aval raaval =>
            blendSrc8888_pre aval raaval (Argb.R cval) (Argb.G cval) (Argb.B cval))
          (Argb.A cval) cval acoverage)).

Definition blitSrcOverMask8888_pre (rdr : Renderer) (height : Z) : option Renderer :=
  mask_rows rdr height (_alphaWidth rdr) (fun x _ =>
    if truth x then
      Some (over_px (fun aval =>
              blendSrcOver8888_pre aval (_cred rdr) (_cgreen rdr) (_cblue rdr))
            (_calpha rdr) (argb 255 (_cred rdr) (_cgreen rdr) (_cblue rdr)) (x .& 255))
    else Some Keep).

Definition blitPTSrcOverMask8888_pre (rdr : Renderer) (height : Z) : option Renderer :=
  paint ← _paint rdr;
  mask_rows rdr height 0 (fun x aidx =>
    if truth x then
      cval ← ld paint aidx;
      Some (over_px (fun aval =>
              blendSrcOver8888_pre aval (Argb.R cval) (Argb.G cval) (Argb.B cval))
            (Argb.A cval) cval (x .& 255))
    else Some Keep).

(** ** Masks with a coverage per colour channel *)

Section LCD.
Context (gammaArray invGammaArray : list Z).

(** The store of one pixel. *)
Definition lcd_px (calpha cred cgreen cblue : Z) (ared agreen ablue : Z) (d : list Z) (iidx : Z)
    : option (list Z) :=
  let ared := cond (calpha <? MAX_ALPHA) (scale8 ared calpha) ared in
  let agreen := cond (calpha <? MAX_ALPHA) (scale8 agreen calpha) agreen in
  let ablue := cond (calpha <? MAX_ALPHA) (scale8 ablue calpha) ablue in
  let aval_ismax := ared .& agreen .& ablue in
  if aval_ismax =? MAX_ALPHA then st d iidx (argb 255 cred cgreen cblue)
  else
    v ← ld d iidx;
    o ← blendLCDSrcOver8888_pre gammaArray invGammaArray ared agreen ablue cred cgreen cblue v;
    st d iidx o.

Definition blitSrcOverLCDMask8888_pre (rdr : Renderer) (height : Z) : option Renderer :=
  intData ← _data rdr;
  alpha ← _mask_byteData rdr;
  calpha ← ld invGammaArray (_calpha rdr);
  cred ← ld invGammaArray (_cred rdr);
  cgreen ← ld invGammaArray (_cgreen rdr);
  cblue ← ld invGammaArray (_cblue rdr);
  let minX := _minTouched rdr in
  let w := touched_width rdr in
  '(d, _, _) ← for_ (Z.to_nat height)
    (fun '(d, imageOffset, alphaOffset) =>
       let iidx := i32 (imageOffset + minX * _imagePixelStride rdr) in
       '(d, _, _) ← for_ (Z.to_nat w)
         (fun '(d, a, iidx) =>
            x0 ← ld alpha a; x1 ← ld alpha (a + 1); x2 ← ld alpha (a + 2);
            d ← lcd_px calpha cred cgreen cblue (x0 .& 255) (x1 .& 255) (x2 .& 255) d iidx;
            Some (d, a + 3, i32 (iidx + _imagePixelStride rdr)))
         (d, alphaOffset, iidx);
       Some (d, i32 (imageOffset + _imageScanlineStride rdr),
             i32 (alphaOffset + _alphaWidth rdr)))
    (intData, _currImageOffset rdr, _maskOffset rdr);
  Some (set_data (Some d) rdr).

(** A call through a pointer to one of the routines. *)
Definition run_blit (f : BlitFn) : Renderer -> Z -> option Renderer :=
  match f with
  | BlitSrc8888 => blitSrc8888
  | BlitPTSrc8888 => blitPTSrc8888
  | BlitSrcOver8888 => blitSrcOver8888
  | BlitPTSrcOver8888 => blitPTSrcOver8888
  | BlitSrc8888_pre => blitSrc8888_pre
  | BlitPTSrc8888_pre => blitPTSrc8888_pre
  | BlitSrcOver8888_pre => blitSrcOver8888_pre
  | BlitPTSrcOver8888_pre => blitPTSrcOver8888_pre
  | BlitSrcMask8888_pre => blitSrcMask8888_pre
  | BlitPTSrcMask8888_pre => blitPTSrcMask8888_pre
  | BlitSrcOverMask8888_pre => blitSrcOverMask8888_pre
  | BlitPTSrcOverMask8888_pre => blitPTSrcOverMask8888_pre
  | BlitSrcOverLCDMask8888_pre => blitSrcOverLCDMask8888_pre
  end.
End LCD.

(** ** Clearing a rectangle *)

(** [memset(d + i, 0, size)] and [memcpy(d + di, d + si, size)] with a size in
    bytes, an [int] that is converted to [size_t]. *)
Definition memset0 (d : list Z) (i size : Z) : option (list Z) :=
  if size <? 0 then None else copy d i (replicate (Z.to_nat (size / 4)) 0) 0 (size / 4).

Definition memcpy_row (d : list Z) (di si size : Z) : option (list Z) :=
  if size <? 0 then None else copy d di d si (size / 4).

Definition clearRect8888 (rdr : Renderer) (x y w h : Z) : option Renderer :=
  d ← _data rdr;
  let cval := flat_pixel rdr in
  let pixelStride := _imagePixelStride rdr in
  let intData := _imageOffset rdr + i32 (y * _imageScanlineStride rdr)
                 + i32 (x * pixelStride) in
  let size := i32 (4 * w) in
  if cval =? 0 then
    if (x =? 0) && (w =? _width rdr) then
      d ← memset0 d intData (i32 (size * h));
      Some (set_data (Some d) rdr)
    else
      '(d, _) ← for_ (Z.to_nat h)
        (fun '(d, intData) =>
           d ← memset0 d intData size; Some (d, intData + _imageScanlineStride rdr))
        (d, intData);
      Some (set_data (Some d) rdr)
  else
    (* the first scan line *)
    '(d, _) ← for_ (Z.to_nat w)
      (fun '(d, intData2) => d ← st d intData2 cval; Some (d, intData2 + 1))
      (d, intData);
    (* the others are copies of it *)
    '(d, _) ← for_ (Z.to_nat (h - 1))
      (fun '(d, dst) =>
         d ← memcpy_row d dst intData size; Some (d, dst + _imageScanlineStride rdr))
      (d, intData + _imageScanlineStride rdr);
    Some (set_data (Some d) rdr).

(** ** Lemmas: running sums and the cleared row *)

(** [aval_relative] before pixel [k]: the wrapped sum of the first [k] deltas. *)
Definition psum (alpha : list Z) (k : nat) : Z :=
  foldl (fun s x => i32 (s + x)) 0 (take k alpha).

(** The row after its first [k] entries were cleared. *)
Definition cleared (alpha : list Z) (k : nat) : list Z := replicate k 0 ++ drop k alpha.

Lemma psum_S alpha k x : alpha !! k = Some x -> psum alpha (S k) = i32 (psum alpha k + x).
Proof.
  intros Hx. unfold psum. by rewrite (take_S_r _ _ _ Hx), foldl_app.
Qed.

Lemma cleared_lookup alpha k : (k <= length alpha)%nat -> cleared alpha k !! k = alpha !! k.
Proof.
  intros. unfold cleared. rewrite lookup_app_r by (rewrite length_replicate; lia).
  rewrite length_replicate, lookup_drop. f_equal. lia.
Qed.

Lemma length_cleared alpha k : (k <= length alpha)%nat -> length (cleared alpha k) = length alpha.
Proof. intros. unfold cleared. rewrite length_app, length_replicate, length_drop. lia. Qed.

Lemma cleared_S alpha k :
  (k < length alpha)%nat -> <[k := 0]> (cleared alpha k) = cleared alpha (S k).
Proof.
  intros. unfold cleared. rewrite insert_app_r_alt by (rewrite length_replicate; lia).
  rewrite length_replicate, Nat.sub_diag.
  destruct (lookup_lt_is_Some_2 alpha k) as [x Hx]; [done|].
  by rewrite (drop_S _ _ _ Hx), (replicate_S_end k 0), <- app_assoc.
Qed.

(** A second row reads zeros. *)
Lemma psum_cleared alpha w k : (k <= w)%nat -> psum (cleared alpha w) k = 0.
Proof.
  intros. unfold psum, cleared. rewrite take_app_le by (rewrite length_replicate; lia).
  rewrite take_replicate, Nat.min_l by lia.
  induction k as [|k IH]; [done|]. rewrite replicate_S_end, foldl_app. simpl. rewrite IH by lia. done.
Qed.

Lemma cleared_cleared alpha w : (w <= length alpha)%nat -> cleared (cleared alpha w) w = cleared alpha w.
Proof.
  intros. unfold cleared at 1. unfold cleared at 1. rewrite drop_app_length'; [done|].
  by rewrite length_replicate.
Qed.

(** ** Lemmas: an antialiased row *)

Lemma aa_row_eq w act q iidx alpha d :
  0 <= w -> w <= alen alpha -> 0 <= iidx -> iidx + w <= alen d -> alen d <= 2147483647 ->
  (forall k, 0 <= k < w -> act (psum alpha (S (Z.to_nat k))) k = Some (q k)) ->
  aa_row 1 w act iidx alpha d =
  Some (cleared alpha (Z.to_nat w), row iidx w (fun k => px_fun (q k)) d).
Proof.
  intros Hw Ha Hi Hlen Hmax Hact. unfold aa_row, alen in *.
  set (F := fun k : nat => (cleared alpha k, row iidx (Z.of_nat k) (fun k => px_fun (q k)) d,
              Z.of_nat k, i32 (iidx + Z.of_nat k), psum alpha k)).
  assert ((alpha, d, 0, iidx, 0) = F O) as ->.
  { unfold F. rewrite row_0 by lia. rewrite Z.add_0_r, i32_id by (unfold is_i32; lia). done. }
  rewrite (for_eq F).
  { unfold F. simpl. by rewrite Z2Nat.id by done. }
  intros k Hk. unfold F at 1.
  destruct (lookup_lt_is_Some_2 alpha k) as [x Hx]; [lia|].
  unfold ld at 1. zcase; [|lia]. rewrite Nat2Z.id, cleared_lookup, Hx by lia. simpl.
  rewrite <- (psum_S _ _ _ Hx).
  rewrite st_in by (unfold alen; rewrite length_cleared; lia). simpl.
  rewrite Nat2Z.id, cleared_S by lia.
  pose proof (Hact (Z.of_nat k)) as Hk'. rewrite Nat2Z.id in Hk'. rewrite Hk' by lia. simpl.
  rewrite (i32_id (iidx + _)) by (unfold is_i32; lia).
  rewrite px_apply_in by (unfold alen; rewrite length_row; lia). simpl.
  unfold F. rewrite Nat2Z.inj_succ. unfold Z.succ. rewrite row_snoc by lia.
  by rewrite Z.add_assoc.
Qed.

(** ** Lemmas: a batch of antialiased rows *)

(** What the loops need of the renderer: the image in its array. *)
Record blit_ready (rdr : Renderer) (h : Z) (d : list Z) : Prop := {
  br_data : _data rdr = Some d;
  br_stride : _imagePixelStride rdr = 1;
  br_h : 0 <= h;
  br_touched : _minTouched rdr <= _maxTouched rdr;
  br_fits : fits (_currImageOffset rdr) (_imageScanlineStride rdr) (_minTouched rdr)
              (_maxTouched rdr - _minTouched rdr + 1) h (alen d);
}.

Lemma touched_width_eq rdr h d :
  blit_ready rdr h d -> 0 < h -> touched_width rdr = _maxTouched rdr - _minTouched rdr + 1.
Proof.
  intros [_ _ Hh Ht []] ?. unfold touched_width, cond. zcase; [|lia].
  apply i32_id. unfold is_i32. nia.
Qed.

(** [aval_relative] at pixel [k] of row [j]. *)
Definition rel_at (alpha : list Z) (j k : Z) : Z :=
  if j =? 0 then psum alpha (S (Z.to_nat k)) else 0.

Lemma aa_rows_eq rdr h act q alpha d :
  let w := _maxTouched rdr - _minTouched rdr + 1 in
  blit_ready rdr h d -> 0 < h -> _rowAAInt rdr = Some alpha -> w <= alen alpha ->
  (forall j k, 0 <= j < h -> 0 <= k < w -> act (rel_at alpha j k) k = Some (q j k)) ->
  aa_rows rdr h act =
  Some (rdr |> set_data (Some (raster (_currImageOffset rdr) (_imageScanlineStride rdr)
                          (_minTouched rdr) w h (fun j k => px_fun (q j k)) d))
            |> set_rowAAInt (Some (cleared alpha (Z.to_nat w)))).
Proof.
  intros w Hr Hh Halpha Hwa Hact. pose proof (touched_width_eq _ _ _ Hr Hh) as Ew.
  destruct Hr as [Hd Hps Hh0 Ht [H1 H2 H3 H4 H5 H6 H7]]. fold w in Ew, H3, H4, H6.
  unfold aa_rows. rewrite Hd, Halpha, Hps, Ew. simpl.
  set (off := _currImageOffset rdr) in *. set (stride := _imageScanlineStride rdr) in *.
  set (minX := _minTouched rdr) in *.
  set (F := fun n : nat => (match n with O => alpha | S _ => cleared alpha (Z.to_nat w) end,
      raster off stride minX w (Z.of_nat n) (fun j k => px_fun (q j k)) d,
      i32 (off + Z.of_nat n * stride))).
  assert ((alpha, d, off) = F O) as ->.
  { unfold F. rewrite raster_0, Z.mul_0_l, Z.add_0_r, i32_id by (unfold is_i32; nia || lia). done. }
  rewrite (for_eq F).
  { unfold F. rewrite Z2Nat.id by done. destruct (Z.to_nat h) eqn:E; [lia|]. done. }
  intros n Hn. unfold F at 1. cbv beta iota.
  assert (0 <= Z.of_nat n * stride /\ Z.of_nat n * stride + stride <= h * stride) as [K1 K2] by nia.
  rewrite !i32_add_l, Z.mul_1_r. rewrite (i32_id (off + _ + minX)) by (unfold is_i32; lia).
  unfold alen in *.
  rewrite (aa_row_eq w act (q (Z.of_nat n)));
    [|unfold alen; rewrite ?length_raster, ?length_cleared by lia;
      destruct n; rewrite ?length_cleared; lia..|].
  - simpl. unfold F. rewrite Nat2Z.inj_succ. unfold Z.succ.
    rewrite raster_snoc, Z.mul_add_distr_r, Z.mul_1_l, Z.add_assoc by lia.
    destruct n; [done|]. rewrite cleared_cleared by lia. done.
  - intros k Hk. rewrite <- (Hact (Z.of_nat n)) by lia. f_equal. unfold rel_at.
    destruct n; [done|]. zcase; [lia|]. apply psum_cleared. lia.
Qed.

(** ** Lemmas: masks *)

(** The mask byte of pixel [k] of row [j]. *)
Definition mask_at (mask : list Z) (moff mstride j k : Z) : Z :=
  default 0 (ld mask (moff + j * mstride + k)).

Lemma mask_row_eq w mask act q iidx a d :
  0 <= w -> 0 <= a -> a + w <= alen mask -> 0 <= iidx -> iidx + w <= alen d ->
  alen d <= 2147483647 ->
  (forall k, 0 <= k < w -> act (default 0 (ld mask (a + k))) k = Some (q k)) ->
  mask_row 1 w mask act iidx a d = Some (row iidx w (fun k => px_fun (q k)) d).
Proof.
  intros Hw Ha Hm Hi Hlen Hmax Hact. unfold mask_row.
  set (F := fun k : nat => (row iidx (Z.of_nat k) (fun k => px_fun (q k)) d,
              a + Z.of_nat k, i32 (iidx + Z.of_nat k), Z.of_nat k)).
  assert ((d, a, iidx, 0) = F O) as ->.
  { unfold F, alen in *. rewrite row_0 by lia. rewrite !Z.add_0_r, i32_id by (unfold is_i32; lia). done. }
  rewrite (for_eq F).
  { unfold F. simpl. by rewrite Z2Nat.id by done. }
  intros k Hk. unfold F at 1. destruct (ld_in mask (a + Z.of_nat k)) as [x Hx]; [lia|].
  rewrite Hx. simpl. pose proof (Hact (Z.of_nat k)) as E. rewrite Hx in E. simpl in E.
  rewrite E by lia. simpl. unfold alen in *.
  rewrite (i32_id (iidx + _)) by (unfold is_i32; lia).
  rewrite px_apply_in by (unfold alen; rewrite length_row; lia). simpl.
  unfold F. rewrite Nat2Z.inj_succ. unfold Z.succ. rewrite row_snoc by lia.
  by rewrite !Z.add_assoc.
Qed.

Lemma mask_rows_eq rdr h mstride act q mask d :
  let w := _maxTouched rdr - _minTouched rdr + 1 in
  blit_ready rdr h d -> 0 < h -> _mask_byteData rdr = Some mask -> 0 <= mstride ->
  0 <= _maskOffset rdr -> _maskOffset rdr + (h - 1) * mstride + w <= alen mask ->
  alen mask <= 2147483647 ->
  (forall j k, 0 <= j < h -> 0 <= k < w ->
     act (mask_at mask (_maskOffset rdr) mstride j k) k = Some (q j k)) ->
  mask_rows rdr h mstride act =
  Some (set_data (Some (raster (_currImageOffset rdr) (_imageScanlineStride rdr)
          (_minTouched rdr) w h (fun j k => px_fun (q j k)) d)) rdr).
Proof.
  intros w Hr Hh Hmask Hms Hmo Hml Hmm Hact. pose proof (touched_width_eq _ _ _ Hr Hh) as Ew.
  destruct Hr as [Hd Hps Hh0 Ht [H1 H2 H3 H4 H5 H6 H7]]. fold w in Ew, H3, H4, H6.
  unfold mask_rows. rewrite Hd, Hmask, Hps, Ew. simpl.
  set (off := _currImageOffset rdr) in *. set (stride := _imageScanlineStride rdr) in *.
  set (minX := _minTouched rdr) in *. set (moff := _maskOffset rdr) in *.
  set (F := fun n : nat => (
      raster off stride minX w (Z.of_nat n) (fun j k => px_fun (q j k)) d,
      i32 (off + Z.of_nat n * stride), i32 (moff + Z.of_nat n * mstride))).
  assert ((d, off, moff) = F O) as ->.
  { unfold F. rewrite raster_0, !Z.mul_0_l, !Z.add_0_r, !i32_id by (unfold is_i32; nia || lia). done. }
  rewrite (for_eq F).
  { unfold F. by rewrite Z2Nat.id by done. }
  intros n Hn. unfold F at 1. cbv beta iota.
  assert (0 <= Z.of_nat n * stride /\ Z.of_nat n * stride + stride <= h * stride) as [K1 K2] by nia.
  assert (0 <= Z.of_nat n * mstride /\ Z.of_nat n * mstride <= (h - 1) * mstride) as [K3 K4] by nia.
  rewrite !i32_add_l, Z.mul_1_r. rewrite (i32_id (off + _ + minX)) by (unfold is_i32; lia).
  rewrite (i32_id (moff + _)) by (unfold is_i32; lia). unfold alen in *.
  rewrite (mask_row_eq w mask act (q (Z.of_nat n)));
    [|unfold alen; rewrite ?length_raster; lia..|].
  - simpl. unfold F. rewrite Nat2Z.inj_succ. unfold Z.succ.
    rewrite raster_snoc, !Z.mul_add_distr_r, !Z.mul_1_l, !Z.add_assoc by lia. done.
  - intros k Hk. apply (Hact (Z.of_nat n)); lia.
Qed.

(** ** Preconditions *)

Definition is_LCD (f : BlitFn) : bool :=
  match f with BlitSrcOverLCDMask8888_pre => true | _ => false end.

Definition is_mask (f : BlitFn) : bool :=
  match f with
  | BlitSrcMask8888_pre | BlitPTSrcMask8888_pre | BlitSrcOverMask8888_pre
  | BlitPTSrcOverMask8888_pre => true
  | _ => false
  end.

(** The routines that read the paint buffer. *)
Definition blit_paints (f : BlitFn) : bool :=
  match f with
  | BlitPTSrc8888 | BlitPTSrcOver8888 | BlitPTSrc8888_pre | BlitPTSrcOver8888_pre
  | BlitPTSrcMask8888_pre | BlitPTSrcOverMask8888_pre => true
  | _ => false
  end.

Definition blit_width (rdr : Renderer) : Z := _maxTouched rdr - _minTouched rdr + 1.

(** The antialiasing buffers: a delta for every pixel of a row, and a map that
    has an entry for every running sum of the deltas. *)
Record aa_pre (rdr : Renderer) (alpha map : list Z) : Prop := {
  ap_alpha : _rowAAInt rdr = Some alpha;
  ap_alphalen : blit_width rdr <= alen alpha;
  ap_map : alphaMap rdr = Some map;
  ap_map0 : 0 < alen map;
  ap_rel : forall k, 0 <= k < blit_width rdr -> 0 <= psum alpha (S (Z.to_nat k)) < alen map;
}.

(** The mask: [bpp] bytes for every pixel of the batch. *)
Record mask_pre (rdr : Renderer) (h bpp : Z) (mask : list Z) : Prop := {
  mp_mask : _mask_byteData rdr = Some mask;
  mp_aw : _alphaWidth rdr = blit_width rdr;
  mp_moff : 0 <= _maskOffset rdr;
  mp_masklen : _maskOffset rdr + (h - 1) * _alphaWidth rdr + bpp * blit_width rdr <= alen mask;
  mp_maskmax : alen mask <= 2147483647;
}.

Section Run.
Context (rdr : Renderer) (alpha map : list Z).
Hypothesis Hpre : aa_pre rdr alpha map.

Lemma coverage_of_in j k :
  0 <= j -> 0 <= k < blit_width rdr ->
  exists c, coverage_of rdr (rel_at alpha j k) = Some c /\ is_byte c.
Proof using Hpre.
  intros Hj Hk. destruct Hpre as [_ _ Hm Hm0 Hrel].
  destruct (ld_in map (rel_at alpha j k)) as [x Hx].
  { unfold rel_at. zcase; [by apply Hrel|lia]. }
  unfold coverage_of. rewrite Hm. simpl. rewrite Hx. simpl.
  eexists. split; [done|]. unfold is_byte. bits. zlia.
Qed.

(** The coverage of a pixel in the map. *)
Definition cov (j k : Z) : Z := default 0 (coverage_of rdr (rel_at alpha j k)).

Lemma coverage_of_cov j k :
  0 <= j -> 0 <= k < blit_width rdr ->
  coverage_of rdr (rel_at alpha j k) = Some (cov j k) /\ is_byte (cov j k).
Proof using Hpre.
  intros Hj Hk. unfold cov. by destruct (coverage_of_in j k Hj Hk) as (c & -> & ?).
Qed.
End Run.

(** The colour of the paint buffer for pixel [k]. *)
Definition paint_at (rdr : Renderer) (k : Z) : Z := default 0 (ld (default [] (_paint rdr)) k).

Lemma paint_at_in rdr w paint k :
  paint_holds rdr w -> _paint rdr = Some paint -> 0 <= k < w -> ld paint k = Some (paint_at rdr k).
Proof.
  intros (p & Hp & Hl) Hp' Hk. assert (p = paint) as -> by congruence. unfold paint_at. rewrite Hp. simpl.
  destruct (ld_in paint k) as [v ->]; [lia|done].
Qed.

(** The action of each routine of the first family as a total function of the
    paint colour, of [aval_relative] and of the coverage. *)
Definition aa_px (f : BlitFn) (rdr : Renderer) (cval rel c : Z) : px :=
  let r := _cred rdr in let g := _cgreen rdr in let b := _cblue rdr in
  let pr := Argb.R cval in let pg := Argb.G cval in let pb := Argb.B cval in
  match f with
  | BlitSrc8888 => src_px (fun a ra => blendSrc8888 a ra r g b) (_calpha rdr) (flat_pixel rdr) c
  | BlitSrc8888_pre =>
      src_px (fun a ra => blendSrc8888_pre a ra r g b) (_calpha rdr) (flat_pixel rdr) c
  | BlitPTSrc8888 => src_px (fun a ra => blendSrc8888 a ra pr pg pb) (Argb.A cval) cval c
  | BlitPTSrc8888_pre => src_px (fun a ra => blendSrc8888_pre a ra pr pg pb) (Argb.A cval) cval c
  | BlitSrcOver8888 => over_px (fun a => blendSrcOver8888 a r g b) (_calpha rdr) (flat_pixel rdr) c
  | BlitSrcOver8888_pre =>
      if truth rel
      then over_px (fun a => blendSrcOver8888_pre a r g b) (_calpha rdr) (argb 255 r g b) c
      else Keep
  | BlitPTSrcOver8888 => over_px (fun a => blendSrcOver8888 a pr pg pb) (Argb.A cval) cval c
  | BlitPTSrcOver8888_pre =>
      if truth rel
      then over_px (fun a => blendSrcOver8888_pre a pr pg pb) (Argb.A cval) cval c
      else Keep
  | _ => Keep
  end.

(** The same for the second family, of the mask byte. *)
Definition mask_px (f : BlitFn) (rdr : Renderer) (cval x : Z) : px :=
  let r := _cred rdr in let g := _cgreen rdr in let b := _cblue rdr in
  let pr := Argb.R cval in let pg := Argb.G cval in let pb := Argb.B cval in
  match f with
  | BlitSrcMask8888_pre =>
      src_px (fun a ra => blendSrc8888_pre a ra r g b) (_calpha rdr) (flat_pixel rdr) (x .& 255)
  | BlitPTSrcMask8888_pre =>
      src_px (fun a ra => blendSrc8888_pre a ra pr pg pb) (Argb.A cval) cval (x .& 255)
  | BlitSrcOverMask8888_pre =>
      if truth x
      then over_px (fun a => blendSrcOver8888_pre a r g b) (_calpha rdr) (argb 255 r g b) (x .& 255)
      else Keep
  | BlitPTSrcOverMask8888_pre =>
      if truth x
      then over_px (fun a => blendSrcOver8888_pre a pr pg pb) (Argb.A cval) cval (x .& 255)
      else Keep
  | _ => Keep
  end.

(** The offset from a row of the mask to the next. *)
Definition mask_step (f : BlitFn) (rdr : Renderer) : Z :=
  match f with
  | BlitPTSrcMask8888_pre | BlitPTSrcOverMask8888_pre => 0
  | _ => _alphaWidth rdr
  end.

Lemma run_blit_aa ga iga f rdr h d alpha map :
  blit_ready rdr h d -> 0 < h -> aa_pre rdr alpha map -> is_mask f = false -> is_LCD f = false ->
  (blit_paints f = true -> paint_holds rdr (blit_width rdr)) ->
  run_blit ga iga f rdr h =
  Some (rdr |> set_data (Some (raster (_currImageOffset rdr) (_imageScanlineStride rdr)
           (_minTouched rdr) (blit_width rdr) h
           (fun j k => px_fun (aa_px f rdr (paint_at rdr k) (rel_at alpha j k)
                                 (cov rdr alpha j k))) d))
        |> set_rowAAInt (Some (cleared alpha (Z.to_nat (blit_width rdr))))).
Proof.
  intros Hr Hh Hpre Hm Hl Hp. pose proof Hpre as [Ha Hal _ _ _].
  pose proof (coverage_of_cov _ _ _ Hpre) as Hc.
  pose proof (fun act => aa_rows_eq rdr h act (fun j k => aa_px f rdr (paint_at rdr k)
    (rel_at alpha j k) (cov rdr alpha j k)) alpha d Hr Hh Ha Hal) as key. cbv zeta in key.
  assert (blit_paints f = true -> exists paint, _paint rdr = Some paint /\
    forall k, 0 <= k < blit_width rdr -> ld paint k = Some (paint_at rdr k)) as Hpt.
  { intros Hf. pose proof (Hp Hf) as (paint & Hpaint & Hlen). exists paint. split; [done|].
    intros k Hk. by eapply paint_at_in; [apply Hp|..]. }
  destruct f; try discriminate Hm; try discriminate Hl; unfold run_blit, blitSrc8888, blitPTSrc8888,
    blitSrcOver8888, blitPTSrcOver8888, blitSrc8888_pre, blitPTSrc8888_pre, blitSrcOver8888_pre,
    blitPTSrcOver8888_pre; try (destruct (Hpt eq_refl) as (paint & -> & Hpk));
  cbn [mbind option_bind]; apply key; clear key;
  intros j k Hj Hk; try rewrite (Hpk k Hk); cbn [mbind option_bind];
  rewrite (proj1 (Hc j k ltac:(lia) Hk));
  unfold aa_px; cbn [mbind option_bind]; try done; by destruct (truth _).
Qed.

Lemma run_blit_mask ga iga f rdr h d mask :
  blit_ready rdr h d -> 0 < h -> mask_pre rdr h 1 mask -> is_mask f = true ->
  (blit_paints f = true -> paint_holds rdr (blit_width rdr)) ->
  run_blit ga iga f rdr h =
  Some (set_data (Some (raster (_currImageOffset rdr) (_imageScanlineStride rdr)
           (_minTouched rdr) (blit_width rdr) h
           (fun j k => px_fun (mask_px f rdr (paint_at rdr k)
              (mask_at mask (_maskOffset rdr) (mask_step f rdr) j k))) d)) rdr).
Proof.
  intros Hr Hh [Hmask Haw Hmo Hml Hmm] Hm Hp.
  pose proof (fits_w _ _ _ _ _ _ (br_fits _ _ _ Hr)) as Hw0. fold (blit_width rdr) in Hw0.
  pose proof (fun act => mask_rows_eq rdr h (mask_step f rdr) act
    (fun j k => mask_px f rdr (paint_at rdr k)
       (mask_at mask (_maskOffset rdr) (mask_step f rdr) j k)) mask d Hr Hh Hmask) as key.
  cbv zeta in key. fold (blit_width rdr) in key.
  assert (blit_paints f = true -> exists paint, _paint rdr = Some paint /\
    forall k, 0 <= k < blit_width rdr -> ld paint k = Some (paint_at rdr k)) as Hpt.
  { intros Hf. pose proof (Hp Hf) as (paint & Hpaint & Hlen). exists paint. split; [done|].
    intros k Hk. by eapply paint_at_in; [apply Hp|..]. }
  destruct f; try discriminate Hm; unfold run_blit, blitSrcMask8888_pre, blitPTSrcMask8888_pre,
    blitSrcOverMask8888_pre, blitPTSrcOverMask8888_pre;
  try (destruct (Hpt eq_refl) as (paint & -> & Hpk)); cbn [mbind option_bind];
  unfold mask_step in *; apply key; clear key; try nia;
  intros j k Hj Hk; try rewrite (Hpk k Hk); unfold mask_px; cbn [mbind option_bind]; try done;
  by destruct (truth _).
Qed.

(** ** Lemmas: masks with a coverage per colour channel *)

(** The two tables of 256 bytes. *)
Definition gamma_ok (ga iga : list Z) : Prop :=
  length ga = 256%nat /\ length iga = 256%nat /\ Forall is_byte ga /\ Forall is_byte iga.

Definition flat_ok (rdr : Renderer) : Prop :=
  is_byte (_calpha rdr) /\ is_byte (_cred rdr) /\ is_byte (_cgreen rdr) /\ is_byte (_cblue rdr).

Lemma gamma_ld (t : list Z) c :
  length t = 256%nat -> Forall is_byte t -> is_byte c -> exists x, ld t c = Some x /\ is_byte x.
Proof.
  intros Lt Ft Hc. destruct (ld_in t c) as [x Hx]; [unfold alen, is_byte in *; lia|].
  exists x. split; [done|]. unfold ld in Hx. case_match; [|done].
  by eapply (Forall_lookup_1 _ _ _ _ Ft).
Qed.

(** [lcd_px] stores an opaque pixel that depends on the old one. *)
Lemma lcd_px_ok ga iga al r g b ar ag ab :
  gamma_ok ga iga -> is_byte al -> is_byte r -> is_byte g -> is_byte b ->
  is_byte ar -> is_byte ag -> is_byte ab ->
  exists f, (forall v, Argb.A (f v) = 255) /\
    forall d i, 0 <= i < alen d ->
      lcd_px ga iga al r g b ar ag ab d i = px_apply d i (Mix f).
Proof.
  intros (Lg & Li & Fg & Fi) Hal Hr Hg Hb Har Hag Hab.
  assert (forall x, is_byte x -> is_byte (cond (al <? MAX_ALPHA) (scale8 x al) x)) as Hs.
  { intros x Hx. unfold cond. case_match; [by apply scale8_byte|done]. }
  pose proof (Hs _ Har). pose proof (Hs _ Hag). pose proof (Hs _ Hab). unfold lcd_px.
  set (ar' := cond _ (scale8 ar al) ar) in *. set (ag' := cond _ (scale8 ag al) ag) in *.
  set (ab' := cond _ (scale8 ab al) ab) in *. clearbody ar' ag' ab'.
  destruct (ar' .& ag' .& ab' =? MAX_ALPHA).
  - exists (fun _ => argb 255 r g b). split.
    + intros _. apply argb_A; unfold is_byte in *; lia.
    + intros d i Hi. rewrite px_apply_in by done. simpl. rewrite st_in by done.
      f_equal. unfold alen in *. apply list_eq. intros j.
      destruct (decide (j = Z.to_nat i)) as [->|].
      * rewrite list_lookup_alter_eq, list_lookup_insert_eq by lia.
        destruct (lookup_lt_is_Some_2 d (Z.to_nat i)) as [v ->]; [lia|done].
      * by rewrite list_lookup_alter_ne, list_lookup_insert_ne.
  - pose proof (fun v => blendLCDSrcOver8888_pre_ok ga iga ar' ag' ab' r g b v) as Hok.
    exists (fun v => default 0 (blendLCDSrcOver8888_pre ga iga ar' ag' ab' r g b v)). split.
    + intros v. by destruct (Hok v) as (o & -> & Ho & _).
    + intros d i Hi. unfold px_apply. destruct (ld_in d i Hi) as [v ->].
      cbn [mbind option_bind].
      by destruct (Hok v) as (o & -> & _).
Qed.

(** The three mask bytes of a pixel. *)
Definition lcd_at (mask : list Z) (a : Z) : Z := default 0 (ld mask a) .& 255.

Lemma lcd_at_byte mask a : is_byte (lcd_at mask a).
Proof. unfold lcd_at, is_byte. bits. zlia. Qed.

Section LCDLoop.
Context (ga iga : list Z) (rdr : Renderer) (h : Z) (d mask : list Z).
Hypothesis Hg : gamma_ok ga iga.
Hypothesis Hf : flat_ok rdr.
Hypothesis Hr : blit_ready rdr h d.
Hypothesis Hh : 0 < h.
Hypothesis Hm : mask_pre rdr h 3 mask.

(** Some choice of opaque results for the pixels is what one row of the loop stores. *)
Lemma lcd_row_ok al r g b a iidx dd (w : nat) :
  is_byte al -> is_byte r -> is_byte g -> is_byte b ->
  0 <= a -> a + 3 * Z.of_nat w <= alen mask ->
  0 <= iidx -> iidx + Z.of_nat w <= alen dd -> alen dd <= 2147483647 ->
  exists q, (forall k v, Argb.A (q k v) = 255) /\
    for_ w (fun '(d, a, iidx) =>
      x0 ← ld mask a; x1 ← ld mask (a + 1); x2 ← ld mask (a + 2);
      d ← lcd_px ga iga al r g b (x0 .& 255) (x1 .& 255) (x2 .& 255) d iidx;
      Some (d, a + 3, i32 (iidx + 1))) (dd, a, iidx) =
    Some (row iidx (Z.of_nat w) q dd, a + 3 * Z.of_nat w, i32 (iidx + Z.of_nat w)).
Proof using Hg.
  intros Hal Hrb Hgb Hbb Ha Hal2 Hi Hil Hmax.
  destruct (for_inv (fun n s => exists q, (forall k v, Argb.A (q k v) = 255) /\
    s = (row iidx (Z.of_nat n) q dd, a + 3 * Z.of_nat n, i32 (iidx + Z.of_nat n))) w
    (fun '(d, a, iidx) =>
      x0 ← ld mask a; x1 ← ld mask (a + 1); x2 ← ld mask (a + 2);
      d ← lcd_px ga iga al r g b (x0 .& 255) (x1 .& 255) (x2 .& 255) d iidx;
      Some (d, a + 3, i32 (iidx + 1))) (dd, a, iidx)) as (s & -> & q & Hq & ->).
  - exists (fun _ _ => argb 255 0 0 0). split; [done|].
    rewrite row_0, Z.mul_0_r, !Z.add_0_r, i32_id by (unfold is_i32; lia). done.
  - intros k s Hk (q & Hq & ->).
    destruct (ld_in mask (a + 3 * Z.of_nat k)) as [x0 E0]; [lia|].
    destruct (ld_in mask (a + 3 * Z.of_nat k + 1)) as [x1 E1]; [lia|].
    destruct (ld_in mask (a + 3 * Z.of_nat k + 2)) as [x2 E2]; [lia|].
    rewrite E0, E1, E2. simpl. rewrite (i32_id (iidx + _)) by (unfold is_i32; lia).
    assert (forall x, is_byte (x .& 255)) as Hand by (intros; unfold is_byte; bits; zlia).
    destruct (lcd_px_ok ga iga al r g b (x0 .& 255) (x1 .& 255) (x2 .& 255)) as (f & Hfa & Hfd); auto.
    rewrite Hfd, px_apply_in by (unfold alen in *; rewrite length_row; lia). simpl.
    eexists. split; [done|]. exists (fun j v => if j =? Z.of_nat k then f v else q j v). split.
    { intros j v. by case_match. }
    rewrite Nat2Z.inj_succ. unfold Z.succ. rewrite row_snoc, Z.eqb_refl by lia.
    rewrite (row_ext _ _ (fun j v => if j =? Z.of_nat k then f v else q j v) q).
    + replace (a + 3 * (Z.of_nat k + 1)) with (a + 3 * Z.of_nat k + 3) by lia.
      by rewrite Z.add_assoc.
    + intros j v Hj. zcase; [lia|done].
  - eauto.
Qed.

Lemma run_blit_lcd :
  exists q, (forall j k v, Argb.A (q j k v) = 255) /\
    blitSrcOverLCDMask8888_pre ga iga rdr h =
    Some (set_data (Some (raster (_currImageOffset rdr) (_imageScanlineStride rdr)
           (_minTouched rdr) (blit_width rdr) h q d)) rdr).
Proof using Hg Hf Hr Hh Hm.
  pose proof (touched_width_eq _ _ _ Hr Hh) as Ew. fold (blit_width rdr) in Ew.
  destruct Hm as [Emask Haw Hmo Hml Hmm].
  destruct Hr as [Hd Hps Hh0 Ht [H1 H2 H3 H4 H5 H6 H7]]. fold (blit_width rdr) in *.
  destruct Hf as (Ha & Hre & Hgr & Hbl). pose proof Hg as (Lg & Li & Fg & Fi).
  unfold blitSrcOverLCDMask8888_pre. rewrite Hd, Emask, Hps, Ew. simpl.
  destruct (gamma_ld iga _ Li Fi Ha) as (al & -> & Hal). simpl.
  destruct (gamma_ld iga _ Li Fi Hre) as (r & -> & Hrb). simpl.
  destruct (gamma_ld iga _ Li Fi Hgr) as (g & -> & Hgb). simpl.
  destruct (gamma_ld iga _ Li Fi Hbl) as (b & -> & Hbb). simpl.
  set (off := _currImageOffset rdr) in *. set (stride := _imageScanlineStride rdr) in *.
  set (minX := _minTouched rdr) in *. set (w := blit_width rdr) in *.
  set (moff := _maskOffset rdr) in *. set (aw := _alphaWidth rdr) in *.
  match goal with |- context [for_ (Z.to_nat h) ?body ?s0] =>
    destruct (for_inv (fun n s => exists q, (forall j k v, Argb.A (q j k v) = 255) /\
      s = (raster off stride minX w (Z.of_nat n) q d, i32 (off + Z.of_nat n * stride),
           i32 (moff + Z.of_nat n * aw))) (Z.to_nat h) body s0) as (s & Es & q & Hq & ->) end.
  - exists (fun _ _ _ => argb 255 0 0 0). split; [done|].
    rewrite raster_0, !Z.mul_0_l, !Z.add_0_r, !i32_id by (unfold is_i32; nia). done.
  - intros n s Hn (q & Hq & ->). cbv beta iota.
    assert (0 <= Z.of_nat n * stride /\ Z.of_nat n * stride + stride <= h * stride) as [K1 K2] by nia.
    assert (0 <= Z.of_nat n * aw /\ Z.of_nat n * aw <= (h - 1) * aw) as [K3 K4] by nia.
    rewrite !i32_add_l, Z.mul_1_r. rewrite (i32_id (off + _ + minX)) by (unfold is_i32; lia).
    rewrite (i32_id (moff + Z.of_nat n * aw)) by (unfold is_i32; nia).
    destruct (lcd_row_ok al r g b (moff + Z.of_nat n * aw) (off + Z.of_nat n * stride + minX)
      (raster off stride minX w (Z.of_nat n) q d) (Z.to_nat w)) as (qr & Hqr & Er); try done;
      try (unfold alen in *; rewrite ?length_raster; lia).
    rewrite Er. simpl. eexists. split; [done|].
    exists (fun j => if j =? Z.of_nat n then qr else q j). split.
    { intros j k v. by case_match. }
    rewrite Nat2Z.inj_succ. unfold Z.succ.
    rewrite raster_snoc, Z.eqb_refl, !Z.mul_add_distr_r, !Z.mul_1_l, !Z.add_assoc by lia.
    rewrite Z2Nat.id by lia. do 3 f_equal. apply raster_ext. intros j k v Hj Hk. zcase; [lia|done].
  - rewrite Es. simpl. exists q. split; [done|]. by rewrite Z2Nat.id by lia.
Qed.
End LCDLoop.

(** ** Properties of the routines *)

(** What a routine needs to run on a batch of [h] rows. *)
Record blit_pre (ga iga : list Z) (f : BlitFn) (rdr : Renderer) (h : Z) (d : list Z) : Prop := {
  bp_ready : blit_ready rdr h d;
  bp_h : 0 < h;
  bp_buffers :
    if is_LCD f then gamma_ok ga iga /\ flat_ok rdr /\ exists mask, mask_pre rdr h 3 mask
    else if is_mask f then exists mask, mask_pre rdr h 1 mask
    else exists alpha map, aa_pre rdr alpha map;
  bp_paint : blit_paints f = true -> paint_holds rdr (blit_width rdr);
}.

(** The row of deltas after the routine: zero over the batch when it was read. *)
Definition row_after (f : BlitFn) (rdr : Renderer) : option (list Z) :=
  if is_LCD f || is_mask f then _rowAAInt rdr
  else (fun alpha => cleared alpha (Z.to_nat (blit_width rdr))) <$> _rowAAInt rdr.

Lemma blit_runs ga iga f rdr h d :
  blit_pre ga iga f rdr h d ->
  exists q, run_blit ga iga f rdr h =
    Some (rdr |> set_data (Some (raster (_currImageOffset rdr) (_imageScanlineStride rdr)
                   (_minTouched rdr) (blit_width rdr) h q d))
              |> set_rowAAInt (row_after f rdr)).
Proof.
  intros [Hr Hh Hb Hp]. unfold row_after. destruct (is_LCD f) eqn:El; simpl orb.
  { destruct f; try discriminate El. destruct Hb as (Hg & Hf & mask & Hm).
    destruct (run_blit_lcd ga iga rdr h d mask Hg Hf Hr Hh Hm) as (q & _ & E).
    exists q. simpl run_blit. rewrite E. by destruct rdr. }
  destruct (is_mask f) eqn:Em.
  - destruct Hb as (mask & Hm). rewrite (run_blit_mask _ _ _ _ _ _ _ Hr Hh Hm Em Hp).
    eexists. destruct rdr. done.
  - destruct Hb as (alpha & map & Ha). rewrite (run_blit_aa _ _ _ _ _ _ _ _ Hr Hh Ha Em El Hp).
    eexists. rewrite (ap_alpha _ _ _ Ha). done.
Qed.

(** C18. Every one of the thirteen blitting routines, given buffers that cover its
    batch, runs without leaving them, changes only pixels of the batch, and
    changes no other member of the renderer but, in the antialiased routines,
    the row of deltas, which is left zero over the batch, ready for the next row. *)
Theorem blit_safe ga iga f rdr h d :
  blit_pre ga iga f rdr h d ->
  exists d', run_blit ga iga f rdr h
             = Some (rdr |> set_data (Some d') |> set_rowAAInt (row_after f rdr)) /\
    only_inside (_currImageOffset rdr) (_imageScanlineStride rdr) (_minTouched rdr)
      (blit_width rdr) h d d'.
Proof.
  intros Hpre. destruct (blit_runs _ _ _ _ _ _ Hpre) as (q & ->).
  eexists. split; [done|]. by apply raster_only_inside.
Qed.

(** ** Source-over *)

Lemma over_px_blend r g b alpha c v :
  is_byte alpha -> is_byte c -> is_byte r -> is_byte g -> is_byte b -> is_i32 v ->
  px_fun (over_px (fun a => blendSrcOver8888_pre a r g b) alpha (argb 255 r g b) c) v =
  blendSrcOver8888_pre (scale8 c alpha) r g b v.
Proof.
  intros Ha Hc Hr Hg Hb Hv. pose proof (scale8_byte c alpha Hc Ha) as Hs.
  unfold over_px, MAX_ALPHA. cbv zeta. zcase; simpl.
  - symmetry. rewrite e. by apply blendSrcOver8888_pre_opaque.
  - done.
  - assert (scale8 c alpha = 0) as -> by (unfold is_byte in Hs; lia).
    symmetry. by apply blendSrcOver8888_pre_transparent.
Qed.

Lemma scale8_0 alpha : is_byte alpha -> scale8 0 alpha = 0.
Proof. intros. pose proof (scale8_bound 0 alpha). unfold is_byte in *. lia. Qed.

(** Rows of one routine: blending with a coverage [c] that is zero where the
    routine skips the pixel. *)
Lemma over_raster rdr h d (skip : Z -> Z -> bool) (c : Z -> Z -> Z) :
  flat_ok rdr -> Forall is_i32 d ->
  (forall j k, 0 <= j < h -> 0 <= k < blit_width rdr -> is_byte (c j k)) ->
  raster (_currImageOffset rdr) (_imageScanlineStride rdr) (_minTouched rdr) (blit_width rdr) h
    (fun j k => px_fun (if skip j k
       then over_px (fun a => blendSrcOver8888_pre a (_cred rdr) (_cgreen rdr) (_cblue rdr))
              (_calpha rdr) (argb 255 (_cred rdr) (_cgreen rdr) (_cblue rdr)) (c j k)
       else Keep)) d =
  raster (_currImageOffset rdr) (_imageScanlineStride rdr) (_minTouched rdr) (blit_width rdr) h
    (fun j k => blendSrcOver8888_pre
       (scale8 (if skip j k then c j k else 0) (_calpha rdr)) (_cred rdr) (_cgreen rdr) (_cblue rdr)) d.
Proof.
  intros (Ha & Hr & Hg & Hb) Hd Hc. apply list_eq. intros i. rewrite !lookup_raster.
  destruct (d !! i) as [v|] eqn:E; simpl; [f_equal|done].
  pose proof (Forall_lookup_1 _ _ _ _ Hd E) as Hv. zcase; try done.
  destruct (skip _ _); [apply over_px_blend; auto; by apply Hc|].
  by rewrite scale8_0, blendSrcOver8888_pre_transparent.
Qed.

Lemma over_raster_premul rdr h d (c : Z -> Z -> Z) :
  flat_ok rdr -> Forall premul d ->
  (forall j k, 0 <= j < h -> 0 <= k < blit_width rdr -> is_byte (c j k)) ->
  Forall premul (raster (_currImageOffset rdr) (_imageScanlineStride rdr) (_minTouched rdr)
    (blit_width rdr) h (fun j k => blendSrcOver8888_pre (scale8 (c j k) (_calpha rdr))
       (_cred rdr) (_cgreen rdr) (_cblue rdr)) d).
Proof.
  intros (Ha & Hr & Hg & Hb) Hd Hc. apply raster_Forall; [|done]. intros j k v Hj Hk Hv.
  apply blendSrcOver8888_pre_premul; auto. by apply scale8_byte; [apply Hc|].
Qed.

(** The row of deltas and the map as a coverage: no coverage where the running
    sum of the deltas is zero, the map's entry elsewhere. *)
Definition aa_coverage (rdr : Renderer) (alpha : list Z) (j k : Z) : Z :=
  if truth (rel_at alpha j k) then cov rdr alpha j k else 0.

(** [blitSrcOver8888_pre] composites the flat colour over every pixel of the
    batch with the alpha of the colour scaled by the antialiasing coverage; its
    special cases (no coverage, fully opaque) are instances of the one
    blending function, and premultiplied images stay premultiplied. *)
Lemma blitSrcOver8888_pre_spec rdr h d alpha map :
  blit_ready rdr h d -> 0 < h -> aa_pre rdr alpha map -> flat_ok rdr -> Forall is_i32 d ->
  let d' := raster (_currImageOffset rdr) (_imageScanlineStride rdr)
      (_minTouched rdr) (blit_width rdr) h
      (fun j k => blendSrcOver8888_pre (scale8 (aa_coverage rdr alpha j k) (_calpha rdr))
                    (_cred rdr) (_cgreen rdr) (_cblue rdr)) d in
  blitSrcOver8888_pre rdr h =
    Some (rdr |> set_data (Some d')
              |> set_rowAAInt (Some (cleared alpha (Z.to_nat (blit_width rdr))))) /\
  (Forall premul d -> Forall premul d').
Proof.
  intros Hr Hh Ha Hf Hd d'. pose proof (coverage_of_cov _ _ _ Ha) as Hc. split.
  - change blitSrcOver8888_pre with (run_blit [] [] BlitSrcOver8888_pre).
    rewrite (run_blit_aa [] [] _ _ _ _ _ _ Hr Hh Ha); try done. unfold aa_px, d'.
    rewrite (over_raster rdr h d (fun j k => truth (rel_at alpha j k))); try done.
    intros j k Hj Hk. apply Hc; lia.
  - intros Hp. apply over_raster_premul; try done. intros j k Hj Hk. unfold aa_coverage.
    case_match; [apply Hc; lia|done].
Qed.

(** The image after [blitSrcOverMask8888_pre]. *)
Definition mask_blend (rdr : Renderer) (h : Z) (mask d : list Z) : list Z :=
  raster (_currImageOffset rdr) (_imageScanlineStride rdr) (_minTouched rdr) (blit_width rdr) h
    (fun j k => blendSrcOver8888_pre
       (scale8 (mask_at mask (_maskOffset rdr) (_alphaWidth rdr) j k .& 255) (_calpha rdr))
       (_cred rdr) (_cgreen rdr) (_cblue rdr)) d.

Lemma blit_over_mask rdr h d mask :
  blit_ready rdr h d -> 0 < h -> mask_pre rdr h 1 mask -> flat_ok rdr -> Forall is_i32 d ->
  blitSrcOverMask8888_pre rdr h = Some (set_data (Some (mask_blend rdr h mask d)) rdr).
Proof.
  intros Hr Hh Hm Hf Hd.
  assert (forall x, is_byte (x .& 255)) as Hand by (intros; unfold is_byte; bits; zlia).
  change blitSrcOverMask8888_pre with (run_blit [] [] BlitSrcOverMask8888_pre).
  rewrite (run_blit_mask [] [] _ _ _ _ _ Hr Hh Hm); try done. unfold mask_px, mask_step, mask_blend.
  rewrite (over_raster rdr h d (fun j k => truth (mask_at mask _ _ j k))); try done.
  do 3 f_equal. apply raster_ext. intros j k v Hj Hk. unfold truth. zcase; [|done].
  by rewrite e.
Qed.

(** The same for [blitSrcOverMask8888_pre], with the coverage read from the
    byte mask. *)
Lemma blitSrcOverMask8888_pre_spec rdr h d mask :
  blit_ready rdr h d -> 0 < h -> mask_pre rdr h 1 mask -> flat_ok rdr -> Forall is_i32 d ->
  let d' := raster (_currImageOffset rdr) (_imageScanlineStride rdr)
      (_minTouched rdr) (blit_width rdr) h
      (fun j k => blendSrcOver8888_pre
         (scale8 (mask_at mask (_maskOffset rdr) (_alphaWidth rdr) j k .& 255) (_calpha rdr))
         (_cred rdr) (_cgreen rdr) (_cblue rdr)) d in
  blitSrcOverMask8888_pre rdr h = Some (set_data (Some d') rdr) /\
  (Forall premul d -> Forall premul d').
Proof.
  intros Hr Hh Hm Hf Hd d'. split; [by apply blit_over_mask|]. intros Hp.
  apply over_raster_premul; try done. intros. unfold is_byte. bits. zlia.
Qed.

(** [blitSrcOverLCDMask8888_pre] needs nothing but tables of 256 bytes, a
    colour of four bytes and three mask bytes per pixel: it then runs without
    a fault, changes only pixels of the batch, and makes every one of them opaque. *)
Lemma blitSrcOverLCDMask8888_pre_opaque ga iga rdr h d mask :
  gamma_ok ga iga -> flat_ok rdr -> blit_ready rdr h d -> 0 < h -> mask_pre rdr h 3 mask ->
  exists d', blitSrcOverLCDMask8888_pre ga iga rdr h = Some (set_data (Some d') rdr) /\
    only_inside (_currImageOffset rdr) (_imageScanlineStride rdr) (_minTouched rdr)
      (blit_width rdr) h d d' /\
    forall j k, 0 <= j < h -> 0 <= k < blit_width rdr -> exists v,
      ld d' (_currImageOffset rdr + j * _imageScanlineStride rdr + _minTouched rdr + k) = Some v /\
      Argb.A v = 255.
Proof.
  intros Hg Hf Hr Hh Hm. destruct (run_blit_lcd ga iga rdr h d mask Hg Hf Hr Hh Hm) as (q & Hq & ->).
  eexists. split; [done|]. split; [by apply raster_only_inside|]. intros j k Hj Hk.
  destruct Hr as [_ _ _ _ []]. fold (blit_width rdr) in *.
  destruct (ld_in d (_currImageOffset rdr + j * _imageScanlineStride rdr + _minTouched rdr + k))
    as [v Hv]; [nia|].
  exists (q j k v). split; [|done]. by apply lookup_raster_at.
Qed.

(** ** The source rule *)

(** Where the coverage is full, [blitSrc8888_pre] stores the colour of the
    renderer as it is, although the image is premultiplied and the colour is not
    (partial coverage goes through [blendSrc8888_pre], which multiplies): a
    colour with a channel above its alpha leaves a pixel that is not
    premultiplied. *)
Lemma blitSrc8888_pre_not_premul rdr h d alpha map v :
  blit_ready rdr h d -> 0 < h -> aa_pre rdr alpha map -> flat_ok rdr ->
  cov rdr alpha 0 0 = 255 -> _calpha rdr < _cred rdr ->
  ld d (_currImageOffset rdr + _minTouched rdr) = Some v ->
  exists rdr' d', blitSrc8888_pre rdr h = Some rdr' /\ _data rdr' = Some d' /\
    ld d' (_currImageOffset rdr + _minTouched rdr) = Some (flat_pixel rdr) /\
    ~ premul (flat_pixel rdr).
Proof.
  intros Hr Hh Ha (Hal & Hre & Hgr & Hbl) Hc Hlt Hv. eexists _, _. split; [|split; [|split]].
  - change blitSrc8888_pre with (run_blit [] [] BlitSrc8888_pre).
    by apply (run_blit_aa [] [] _ _ _ _ _ _ Hr Hh Ha).
  - done.
  - destruct Hr as [_ _ _ Ht []].
    assert (_currImageOffset rdr + _minTouched rdr =
      _currImageOffset rdr + 0 * _imageScanlineStride rdr + _minTouched rdr + 0) as E by lia.
    rewrite E in Hv |- *. rewrite (lookup_raster_at _ _ _ _ _ _ _ 0 0 v);
      try done; try (unfold blit_width; lia). simpl. by rewrite Hc.
  - unfold premul, flat_pixel. rewrite argb_A, argb_R by done. intros (H & _). rewrite ?byte_small in H by done. lia.
Qed.

(** At full coverage of all three channels the LCD routine takes a short cut:
    it stores the colour after the inverse gamma table only.  The general path
    on the same input also applies the gamma table, so the two paths agree only
    where the tables are inverse to each other trivially. *)
Lemma lcd_fast_path_skips_gamma ga iga r g b gr gg gb d i v :
  gamma_ok ga iga -> is_byte r -> is_byte g -> is_byte b ->
  ld ga r = Some gr -> ld ga g = Some gg -> ld ga b = Some gb -> ld d i = Some v ->
  lcd_px ga iga 255 r g b 255 255 255 d i = st d i (argb 255 r g b) /\
  blendLCDSrcOver8888_pre ga iga 255 255 255 r g b v = Some (argb 255 gr gg gb).
Proof.
  intros (Lg & Li & Fg & Fi) Hr Hg Hb Er Eg Eb Hv. split; [done|].
  unfold blendLCDSrcOver8888_pre.
  change ((v >> 16) .& 255) with (Argb.R v). change ((v >> 8) .& 255) with (Argb.G v).
  change (v .& 255) with (Argb.B v).
  destruct (gamma_ld iga _ Li Fi (R_byte v)) as (x & -> & _). cbn [mbind option_bind].
  destruct (gamma_ld iga _ Li Fi (G_byte v)) as (y & -> & _). cbn [mbind option_bind].
  destruct (gamma_ld iga _ Li Fi (B_byte v)) as (z & -> & _). cbn [mbind option_bind].
  rewrite !Z.sub_diag, !Z.mul_0_l, !Z.add_0_r. unfold is_byte in *.
  rewrite !div255_div by lia. rewrite !(Z.mul_comm 255), !Z.div_mul by lia.
  by rewrite Er, Eg, Eb.
Qed.

(** ** Clearing *)

(** A block copy whose source is constant. *)
Lemma copy_const d di src si n c :
  0 <= n -> 0 <= di -> di + n <= alen d -> 0 <= si -> si + n <= alen src ->
  (forall k, 0 <= k < n -> src !! Z.to_nat (si + k) = Some c) ->
  copy d di src si n = Some (row di n (fun _ _ => c) d).
Proof.
  unfold alen. intros Hn Hdi Hdl Hsi Hsl Hc. unfold copy. destruct (Z.leb_spec n 0).
  { by rewrite row_0. }
  zcase; try lia. f_equal. apply list_eq. intros i. rewrite lookup_row.
  destruct (lt_dec i (Z.to_nat di)).
  { rewrite lookup_app_l by (rewrite length_take; lia). rewrite lookup_take_lt by lia.
    destruct (d !! i); simpl; [f_equal|done]. zcase; done || lia. }
  rewrite lookup_app_r by (rewrite length_take; lia). rewrite length_take, Nat.min_l by lia.
  destruct (lt_dec (i - Z.to_nat di) (Z.to_nat n)).
  - rewrite lookup_app_l by (rewrite length_take, length_drop; lia).
    rewrite lookup_take_lt, lookup_drop by lia.
    pose proof (Hc (Z.of_nat (i - Z.to_nat di))) as Hk.
    replace (Z.to_nat (si + Z.of_nat (i - Z.to_nat di)))
      with (Z.to_nat si + (i - Z.to_nat di))%nat in Hk by lia.
    rewrite Hk by lia. destruct (lookup_lt_is_Some_2 d i) as [v ->]; [lia|]. simpl. f_equal.
    zcase; done || lia.
  - rewrite lookup_app_r by (rewrite length_take, length_drop; lia).
    rewrite length_take, length_drop, lookup_drop, Nat.min_l by lia.
    replace (Z.to_nat (di + n) + (i - Z.to_nat di - Z.to_nat n))%nat with i by lia.
    destruct (d !! i); simpl; [f_equal|done]. zcase; done || lia.
Qed.

Lemma memset0_row d i n :
  0 <= n -> 0 <= i -> i + n <= alen d -> memset0 d i (4 * n) = Some (row i n (fun _ _ => 0) d).
Proof.
  intros. unfold memset0. destruct (Z.ltb_spec (4 * n) 0); [lia|].
  replace (4 * n / 4) with n by zlia. unfold alen in *.
  apply copy_const; unfold alen; rewrite ?length_replicate; try lia.
  intros k Hk. apply lookup_replicate. lia.
Qed.

Lemma memcpy_row_const d di si n c :
  0 <= n -> 0 <= di -> di + n <= alen d -> 0 <= si -> si + n <= alen d ->
  (forall k, 0 <= k < n -> d !! Z.to_nat (si + k) = Some c) ->
  memcpy_row d di si (4 * n) = Some (row di n (fun _ _ => c) d).
Proof.
  intros. unfold memcpy_row. destruct (Z.ltb_spec (4 * n) 0); [lia|].
  replace (4 * n / 4) with n by zlia. by apply copy_const.
Qed.

(** Rows as wide as the image are one block. *)
Lemma raster_full off s h g d :
  0 < s -> raster off s 0 s h (fun _ _ => g) d = row off (s * h) (fun _ => g) d.
Proof.
  intros Hs. pixelwise. set (p := Z.of_nat i - off).
  pose proof (Z.div_mod p s). pose proof (Z.mod_pos_bound p s).
  set (q := p / s) in *. set (r := p mod s) in *.
  destruct (Z.lt_ge_cases q 0); [zcase; done || nia|].
  destruct (Z.lt_ge_cases q h); zcase; done || nia.
Qed.

(** Rows written one at a time, by a step that keeps the rows before it. *)
Lemma rows_by_step off stride x w (n : nat) (step : list Z -> Z -> option (list Z)) c d :
  0 <= x -> 0 <= w -> x + w <= stride -> 0 < stride ->
  (forall k, (k < n)%nat ->
     step (raster off stride x w (Z.of_nat k) (fun _ _ _ => c) d) (off + Z.of_nat k * stride + x)
     = Some (row (off + Z.of_nat k * stride + x) w (fun _ _ => c)
               (raster off stride x w (Z.of_nat k) (fun _ _ _ => c) d))) ->
  for_ n (fun '(d, p) => d ← step d p; Some (d, p + stride)) (d, off + x) =
  Some (raster off stride x w (Z.of_nat n) (fun _ _ _ => c) d, off + x + Z.of_nat n * stride).
Proof.
  intros Hx Hw Hs Hs0 Hstep.
  set (F := fun k : nat => (raster off stride x w (Z.of_nat k) (fun _ _ _ => c) d,
                            off + x + Z.of_nat k * stride)).
  assert ((d, off + x) = F O) as ->.
  { unfold F. rewrite raster_0 by lia. f_equal. lia. }
  apply (for_eq F). intros k Hk. unfold F at 1. cbv beta iota.
  replace (off + x + Z.of_nat k * stride) with (off + Z.of_nat k * stride + x) by lia.
  rewrite Hstep by done. simpl. unfold F. rewrite Nat2Z.inj_succ. unfold Z.succ.
  rewrite raster_snoc by lia. do 2 f_equal. lia.
Qed.

Record clear_pre (rdr : Renderer) (x y w h : Z) (d : list Z) : Prop := {
  cp_data : _data rdr = Some d;
  cp_ps : _imagePixelStride rdr = 1;
  cp_w : 0 < w;
  cp_h : 0 < h;
  cp_y : 0 <= y;
  cp_off : 0 <= _imageOffset rdr;
  cp_fits : fits (_imageOffset rdr + y * _imageScanlineStride rdr) (_imageScanlineStride rdr)
              x w h (alen d);
  cp_full : x = 0 -> w = _width rdr -> _imageScanlineStride rdr = _width rdr;
  cp_size : alen d <= 536870911;
}.

(** The first row of a raster that stores [c]. *)
Lemma raster_first_row off stride x w n c d k :
  fits off stride x w (Z.of_nat n) (alen d) -> (0 < n)%nat -> 0 <= k < w ->
  raster off stride x w (Z.of_nat n) (fun _ _ _ => c) d !! Z.to_nat (off + x + k) = Some c.
Proof.
  intros [] Hn Hk. destruct (ld_in d (off + 0 * stride + x + k)) as [v Hv]; [nia|].
  pose proof (lookup_raster_at off stride x w (Z.of_nat n) (fun _ _ _ => c) d 0 k v) as Hat.
  rewrite Z.mul_0_l, Z.add_0_r in *. unfold ld in Hat at 2. revert Hat. zcase; [|lia].
  intros Hat. apply Hat; lia || done.
Qed.

(** The rectangle as one raster, for both ways [clearRect8888] writes it. *)
Lemma clear_zero rdr x y w h d :
  clear_pre rdr x y w h d -> flat_pixel rdr = 0 ->
  clearRect8888 rdr x y w h =
  Some (set_data (Some (raster (_imageOffset rdr + y * _imageScanlineStride rdr)
    (_imageScanlineStride rdr) x w h (fun _ _ _ => 0) d)) rdr).
Proof.
  intros [Hd Hps Hw Hh Hy Hof Hfit Hfull Hsz] Hc. pose proof Hfit as [F1 F2 F3 F4 F5 F6 F7].
  unfold clearRect8888. rewrite Hd, Hps, Hc. simpl. rewrite Z.mul_1_r.
  set (stride := _imageScanlineStride rdr) in *. set (off := _imageOffset rdr) in *.
  assert (w <= h * stride /\ w * h <= h * stride) as [W1 W2] by nia.
  rewrite (i32_id (y * stride)), (i32_id x), (i32_id (4 * w)) by (unfold is_i32; nia).
  destruct ((x =? 0) && (w =? _width rdr)) eqn:E.
  - apply andb_true_iff in E as [->%Z.eqb_eq ->%Z.eqb_eq].
    rewrite Hfull in * by done. rewrite i32_id by (unfold is_i32; lia).
    rewrite <- (Z.mul_assoc 4), Z.add_0_r, memset0_row, raster_full by (nia || done). done.
  - rewrite (rows_by_step (off + y * stride) stride x w (Z.to_nat h)
      (fun d p => memset0 d p (4 * w)) 0 d) by (try lia; intros k Hk; apply memset0_row;
        unfold alen in *; rewrite ?length_raster; nia).
    simpl. by rewrite Z2Nat.id by lia.
Qed.

Lemma fill_row cval d p (w : nat) :
  0 <= p -> p + Z.of_nat w <= alen d ->
  for_ w (fun '(d, q) => d ← st d q cval; Some (d, q + 1)) (d, p) =
  Some (row p (Z.of_nat w) (fun _ _ => cval) d, p + Z.of_nat w).
Proof.
  intros Hp Hl. set (F := fun k : nat => (row p (Z.of_nat k) (fun _ _ => cval) d, p + Z.of_nat k)).
  assert ((d, p) = F O) as ->. { unfold F. rewrite row_0 by lia. f_equal. lia. }
  apply (for_eq F). intros k Hk. unfold F at 1. cbv beta iota.
  change (st ?d ?i cval) with (px_apply d i (Put cval)).
  rewrite px_apply_in by (unfold alen in *; rewrite length_row; lia). simpl.
  unfold F. rewrite Nat2Z.inj_succ. unfold Z.succ. rewrite row_snoc, Z.add_assoc by lia. done.
Qed.

Lemma clear_color rdr x y w h d :
  clear_pre rdr x y w h d -> flat_pixel rdr <> 0 ->
  clearRect8888 rdr x y w h =
  Some (set_data (Some (raster (_imageOffset rdr + y * _imageScanlineStride rdr)
    (_imageScanlineStride rdr) x w h (fun _ _ _ => flat_pixel rdr) d)) rdr).
Proof.
  intros [Hd Hps Hw Hh Hy Hof Hfit Hfull Hsz] Hc. pose proof Hfit as [F1 F2 F3 F4 F5 F6 F7].
  unfold clearRect8888. rewrite Hd, Hps. simpl. destruct (Z.eqb_spec (flat_pixel rdr) 0); [done|].
  rewrite Z.mul_1_r. set (c := flat_pixel rdr) in *.
  set (stride := _imageScanlineStride rdr) in *. set (off := _imageOffset rdr + y * stride) in *.
  assert (w <= h * stride) as W1 by nia.
  rewrite (i32_id (y * stride)), (i32_id x), (i32_id (4 * w)) by (unfold is_i32; nia). fold off.
  rewrite fill_row by nia. simpl. rewrite Z2Nat.id by lia.
  (* the state before the copies is that of the raster of one row *)
  assert (row (off + x) w (fun _ _ => c) d = raster off stride x w 1 (fun _ _ _ => c) d) as ->.
  { change 1 with (0 + 1). rewrite raster_snoc, raster_0 by lia. f_equal. lia. }
  set (F := fun k : nat => (raster off stride x w (Z.of_nat (S k)) (fun _ _ _ => c) d,
              off + x + stride + Z.of_nat k * stride)).
  assert ((raster off stride x w 1 (fun _ _ _ => c) d, off + x + stride) = F O) as ->.
  { unfold F. f_equal. lia. }
  rewrite (for_eq F).
  { unfold F. simpl. do 4 f_equal. lia. }
  intros k Hk. unfold F at 1. cbv beta iota.
  rewrite (memcpy_row_const _ _ _ _ c); try (unfold alen in *; rewrite ?length_raster; nia).
  - simpl. unfold F. rewrite (Nat2Z.inj_succ (S k)). unfold Z.succ.
    rewrite raster_snoc by lia.
    replace (off + Z.of_nat (S k) * stride + x) with (off + x + stride + Z.of_nat k * stride) by lia.
    do 2 f_equal. lia.
  - intros i Hi. apply raster_first_row; [|lia|done]. split; try done. nia.
Qed.

(** [clearRect8888] stores the colour of the renderer in every pixel of the
    rectangle and changes no other, in each of its three implementations (one
    [memset] of whole rows, a [memset] per row, a first row that is copied). *)
Lemma clearRect8888_spec rdr x y w h d :
  clear_pre rdr x y w h d ->
  clearRect8888 rdr x y w h =
  Some (set_data (Some (raster (_imageOffset rdr + y * _imageScanlineStride rdr)
    (_imageScanlineStride rdr) x w h (fun _ _ _ => flat_pixel rdr) d)) rdr).
Proof.
  intros H. destruct (Z.eq_dec (flat_pixel rdr) 0) as [E|E].
  - rewrite E. by apply clear_zero.
  - by apply clear_color.
Qed.

(** ** Witnesses: a 4x3 image, a row over its columns 1 to 3 *)

Definition demo_pixels : list Z := replicate 12 (argb 255 10 20 30).

Definition demo_blit : Renderer :=
  zero_renderer (Build_Surface 4 3 0 4 1 TYPE_INT_ARGB_PRE None)
  |> set_data (Some demo_pixels) |> set_imageScanlineStride 4 |> set_imagePixelStride 1
  |> set_width 4 |> set_height 3
  |> set_minTouched 1 |> set_maxTouched 3 |> set_alphaWidth 3 |> set_currImageOffset 4
  |> set_calpha 200 |> set_cred 255 |> set_cgreen 128 |> set_cblue 7
  |> set_rowAAInt (Some [2; -1; 0]) |> set_alphaMap (Some [0; 128; 255])
  |> set_mask_byteData (Some [0; 255; 7; 30; 60; 90; 255; 255; 255])
  |> set_paint (Some (replicate 3 (argb 90 80 70 60))) |> set_paint_length 3.

Lemma demo_ready : blit_ready demo_blit 1 demo_pixels.
Proof. repeat split; vm_compute; intuition discriminate. Qed.

Lemma demo_aa : aa_pre demo_blit [2; -1; 0] [0; 128; 255].
Proof.
  split; [done..|]. intros k Hk. assert (k = 0 \/ k = 1 \/ k = 2) as [->|[->| ->]].
  { unfold blit_width in Hk. simpl in Hk. lia. }
  all: vm_compute; intuition discriminate.
Qed.

Lemma demo_mask bpp :
  1 <= bpp <= 3 -> mask_pre demo_blit 1 bpp [0; 255; 7; 30; 60; 90; 255; 255; 255].
Proof. intros. split; try done. unfold alen, blit_width. simpl. lia. Qed.

Lemma demo_flat : flat_ok demo_blit.
Proof. vm_compute. intuition discriminate. Qed.

Lemma demo_pixels_i32 : Forall is_i32 demo_pixels.
Proof. apply Forall_replicate. vm_compute. intuition discriminate. Qed.

Definition ramp256 : list Z := map Z.of_nat (seq 0 256).

Lemma ramp_gamma : gamma_ok ramp256 ramp256.
Proof.
  assert (Forall is_byte ramp256).
  { apply Forall_fmap, Forall_seq. intros. unfold is_byte. simpl. lia. }
  split; [done|]. split; [done|]. by split.
Qed.

Lemma blit_safe_witness :
  exists d', run_blit [] [] BlitPTSrcOver8888 demo_blit 1
             = Some (demo_blit |> set_data (Some d') |> set_rowAAInt (Some [0; 0; 0])) /\
    only_inside 4 4 1 3 1 demo_pixels d'.
Proof.
  apply (blit_safe [] [] BlitPTSrcOver8888 demo_blit 1 demo_pixels). split; [apply demo_ready|done| |].
  - exists [2; -1; 0], [0; 128; 255]. apply demo_aa.
  - exists (replicate 3 (argb 90 80 70 60)). vm_compute. intuition discriminate.
Defined.

Lemma blitSrcOver8888_pre_spec_witness :
  exists d', blitSrcOver8888_pre demo_blit 1
             = Some (demo_blit |> set_data (Some d') |> set_rowAAInt (Some [0; 0; 0])) /\
    (Forall premul demo_pixels -> Forall premul d').
Proof.
  eexists. apply (blitSrcOver8888_pre_spec demo_blit 1 demo_pixels [2; -1; 0] [0; 128; 255]
    demo_ready eq_refl demo_aa demo_flat demo_pixels_i32).
Defined.



(** Tables for gamma 2 and the colour 100. *)
Definition square256 : list Z := map (fun i => Z.of_nat i * Z.of_nat i / 255) (seq 0 256).

Lemma square_gamma : gamma_ok square256 ramp256.
Proof.
  assert (Forall is_byte square256).
  { apply Forall_fmap, Forall_seq. intros i Hi. unfold is_byte. simpl.
    split; [apply Z.div_pos; lia|apply Z.div_le_upper_bound; nia]. }
  pose proof ramp_gamma as (? & ? & ? & ?). repeat split; done.
Qed.


Lemma clearRect8888_spec_witness :
  clearRect8888 demo_blit 1 0 2 3 =
  Some (set_data (Some (raster 0 4 1 2 3 (fun _ _ _ => argb 200 255 128 7) demo_pixels)) demo_blit).
Proof.
  apply (clearRect8888_spec demo_blit 1 0 2 3 demo_pixels).
  split; try done; vm_compute; repeat split; intuition discriminate.
Defined.
