(* ===== verification/Routines.v ===== *)
(** * The renderer's settings and the choice of routines (PiscesRenderer.inl)

    The renderer caches pointers to the routines that fit its surface, mask,
    composite rule and paint mode.  A setter only marks what it invalidates in
    [_rendererState]; [VALIDATE_BLITTING] brings the cached pointers up to date
    before a rendering operation calls through them.

    The functions are translated one by one; then the state machine they form is
    shown to implement the obvious specification: after a validation the
    pointers are the ones a direct look-up by the four settings gives. *)

From stdpp Require Import relations.
From Stdlib Require Import SpecFloat.
From S2P Require Import Prelude Mem Renderer Transform.
#[local] Open Scope Z_scope.

Definition truth_and (state mask : Z) : bool := truth (state .& mask).
Definition set_bits (mask : Z) (rdr : Renderer) : Renderer :=
  set_rendererState (_rendererState rdr .| mask) rdr.
Definition clear_bits (mask : Z) (rdr : Renderer) : Renderer :=
  set_rendererState (_rendererState rdr .& Z.lnot mask) rdr.

Definition INVALIDATE_RENDERER_SURFACE : Renderer -> Renderer :=
  set_bits INVALID_RENDERER_SURFACE.

(** ** Updates of the cached pointers *)

Definition updatePaintDependedRoutines (rdr : Renderer) : Renderer :=
  let c := _compositeFns rdr in
  let paint g := Build_PaintFns (_bl_PT c) (_el_PT c) (Some g) in
  let m := _paintMode rdr in
  rdr |> set_paintFns
    (if m =? PAINT_LINEAR_GRADIENT then paint GenLinearGradientPaint
     else if m =? PAINT_RADIAL_GRADIENT then paint GenRadialGradientPaint
     else if m =? PAINT_TEXTURE8888 then paint GenTexturePaint
     else if m =? PAINT_TEXTURE8888_MULTIPLY then paint GenTexturePaintMultiply
     else if m =? PAINT_FLAT_COLOR then Build_PaintFns (_bl c) (_el c) None
     else _paintFns rdr)
  |> clear_bits INVALID_PAINT_DEPENDED_ROUTINES.

Definition updateCompositeDependedRoutines (rdr : Renderer) : Renderer :=
  let s := _surfaceFns rdr in let m := _maskFns rdr in let c := _compositeFns rdr in
  let rule := _compositeRule rdr in
  rdr |> set_compositeFns
    (if rule =? COMPOSITE_SRC_OVER then
       Build_CompositeFns (_bl_SourceOver m) (_bl_PT_SourceOver m) (_el_SourceOver s) (_el_PT_SourceOver s)
     else if rule =? COMPOSITE_SRC then
       Build_CompositeFns (_bl_Source m) (_bl_PT_Source m) (_el_Source s) (_el_PT_Source s)
     else if rule =? COMPOSITE_CLEAR then
       Build_CompositeFns (_bl_Clear s) (_bl_PT_Clear s) (_el c) (_el_PT c)
     else c)
  |> updatePaintDependedRoutines
  |> clear_bits INVALID_COMPOSITE_DEPENDED_ROUTINES.

Definition updateMaskDependedRoutines (rdr : Renderer) : Renderer :=
  let s := _surfaceFns rdr in
  let t := _maskType rdr in
  rdr |> set_maskFns
    (if t =? NO_MASK then
       Build_MaskFns (_bl_SourceOverNoMask s) (_bl_PT_SourceOverNoMask s)
         (_bl_SourceNoMask s) (_bl_PT_SourceNoMask s)
     else if t =? ALPHA_MASK then
       Build_MaskFns (_bl_SourceOverMask s) (_bl_PT_SourceOverMask s)
         (_bl_SourceMask s) (_bl_PT_SourceMask s)
     else if t =? LCD_ALPHA_MASK then
       Build_MaskFns (_bl_SourceOverLCDMask s) (_bl_PT_SourceOverLCDMask s)
         (_bl_SourceLCDMask s) (_bl_PT_SourceLCDMask s)
     else _maskFns rdr)
  |> updateCompositeDependedRoutines
  |> clear_bits INVALID_MASK_DEPENDED_ROUTINES.

(** The [switch] of [updateSurfaceDependedRoutines]; [old] are the pointers
    before it. *)
Definition surface_fns (t : Z) (old : SurfaceFns) : SurfaceFns :=
  if t =? TYPE_INT_ARGB then
    {| _bl_SourceOverNoMask := Some BlitSrcOver8888;
       _bl_PT_SourceOverNoMask := Some BlitPTSrcOver8888;
       _bl_SourceNoMask := Some BlitSrc8888;
       _bl_PT_SourceNoMask := Some BlitPTSrc8888;
       _bl_SourceOverMask := None; _bl_PT_SourceOverMask := None;
       _bl_SourceMask := None; _bl_PT_SourceMask := None;
       _bl_SourceOverLCDMask := None; _bl_PT_SourceOverLCDMask := None;
       _bl_SourceLCDMask := None; _bl_PT_SourceLCDMask := None;
       _bl_Clear := Some BlitSrc8888; _bl_PT_Clear := Some BlitSrc8888;
       _clearRect := Some ClearRect8888;
       _el_Source := Some EmitLineSource8888;
       _el_SourceOver := Some EmitLineSourceOver8888;
       _el_PT_Source := Some EmitLinePTSource8888;
       _el_PT_SourceOver := Some EmitLinePTSourceOver8888 |}
  else if t =? TYPE_INT_ARGB_PRE then
    {| _bl_SourceOverNoMask := Some BlitSrcOver8888_pre;
       _bl_PT_SourceOverNoMask := Some BlitPTSrcOver8888_pre;
       _bl_SourceNoMask := Some BlitSrc8888_pre;
       _bl_PT_SourceNoMask := Some BlitPTSrc8888_pre;
       _bl_SourceOverMask := Some BlitSrcOverMask8888_pre;
       _bl_PT_SourceOverMask := Some BlitPTSrcOverMask8888_pre;
       _bl_SourceMask := Some BlitSrcMask8888_pre;
       _bl_PT_SourceMask := Some BlitPTSrcMask8888_pre;
       _bl_SourceOverLCDMask := Some BlitSrcOverLCDMask8888_pre;
       _bl_PT_SourceOverLCDMask := None;
       _bl_SourceLCDMask := None; _bl_PT_SourceLCDMask := None;
       _bl_Clear := Some BlitSrc8888_pre; _bl_PT_Clear := Some BlitSrc8888_pre;
       _clearRect := Some ClearRect8888;
       _el_Source := Some EmitLineSource8888_pre;
       _el_SourceOver := Some EmitLineSourceOver8888_pre;
       _el_PT_Source := Some EmitLinePTSource8888_pre;
       _el_PT_SourceOver := Some EmitLinePTSourceOver8888_pre |}
  else old.

Definition updateSurfaceDependedRoutines (rdr : Renderer) : Renderer :=
  rdr |> set_surfaceFns (surface_fns (_imageType rdr) (_surfaceFns rdr))
      |> updateMaskDependedRoutines.

Definition updateRendererSurface (rdr : Renderer) : Renderer :=
  let surface := _surface rdr in
  let rdr := rdr |> set_width (width surface) |> set_height (height surface)
    |> set_data (data surface) |> set_imageOffset (offset surface)
    |> set_imageScanlineStride (scanlineStride surface)
    |> set_imagePixelStride (pixelStride surface) in
  let rdr :=
    if negb (_imageType rdr =? imageType surface) then
      let rdr :=
        if negb (_compositeRule rdr =? COMPOSITE_SRC_OVER) &&
           ((imageType surface =? TYPE_INT_ARGB) || (imageType surface =? TYPE_INT_ARGB_PRE))
        then set_bits (INVALID_COLOR_ALPHA_MAP .| INVALID_PAINT_ALPHA_MAP) rdr else rdr in
      rdr |> set_imageType (imageType surface) |> updateSurfaceDependedRoutines
    else rdr in
  clear_bits INVALID_RENDERER_SURFACE rdr.

Definition updateInternalColor (rdr : Renderer) : Renderer :=
  let rdr := if _compositeRule rdr =? COMPOSITE_CLEAR
             then rdr |> set_cred 0 |> set_cgreen 0 |> set_cblue 0 |> set_calpha 0 else rdr in
  clear_bits INVALID_INTERNAL_COLOR rdr.

Definition VALIDATE_BLITTING (rdr : Renderer) : Renderer :=
  if truth_and (_rendererState rdr) INVALID_BLITTING_MASK then
    let __state := _rendererState rdr in
    let rdr := if truth_and __state INVALID_RENDERER_SURFACE
               then updateRendererSurface rdr else rdr in
    let rdr := if truth_and __state INVALID_INTERNAL_COLOR then updateInternalColor rdr else rdr in
    if truth_and __state INVALID_MASK_DEPENDED_ROUTINES then updateMaskDependedRoutines rdr
    else if truth_and __state INVALID_COMPOSITE_DEPENDED_ROUTINES
    then updateCompositeDependedRoutines rdr
    else if truth_and __state INVALID_PAINT_DEPENDED_ROUTINES
    then updatePaintDependedRoutines rdr
    else rdr
  else rdr.

(** ** Creation and setters *)

Definition createCommon (surface : Surface) : Renderer :=
  zero_renderer surface
  |> set_imageType (-1)
  |> set_compositeRule COMPOSITE_SRC_OVER
  |> set_maskType NO_MASK
  |> set_paintMode PAINT_FLAT_COLOR
  |> set_clip_bbMinX 0 |> set_clip_bbMinY 0
  |> set_clip_bbMaxX (i32 (width surface - 1)) |> set_clip_bbMaxY (i32 (height surface - 1))
  |> set_rendererState INVALID_ALL.

Definition renderer_setClip (minX minY width height : Z) (rdr : Renderer) : Renderer :=
  rdr |> set_clip_bbMinX minX |> set_clip_bbMinY minY
      |> set_clip_bbMaxX (i32 (minX + width - 1)) |> set_clip_bbMaxY (i32 (minY + height - 1)).

(** The buffer of a texture is freed here when the renderer owns it; what is
    modelled is that the member no longer points to it. *)
Definition setPaintMode (newPaintMode : Z) (rdr : Renderer) : Renderer :=
  if negb (_paintMode rdr =? newPaintMode) then
    rdr |> set_texture (settex_intData None (_texture rdr))
        |> set_bits INVALID_PAINT_DEPENDED_ROUTINES
        |> set_prevPaintMode (_paintMode rdr)
        |> set_paintMode newPaintMode
  else rdr.

Definition renderer_setColor (red green blue alpha : Z) (rdr : Renderer) : Renderer :=
  let rdr :=
    if negb (_cred rdr =? red) || negb (_cgreen rdr =? green) ||
       negb (_cblue rdr =? blue) || negb (_calpha rdr =? alpha) then
      let rdr := set_bits INVALID_INTERNAL_COLOR rdr in
      let rdr := if negb (_calpha rdr =? alpha)
                 then set_bits (INVALID_COLOR_ALPHA_MAP .| INVALID_PAINT_ALPHA_MAP) rdr else rdr in
      rdr |> set_cred red |> set_cgreen green |> set_cblue blue |> set_calpha alpha
    else rdr in
  setPaintMode PAINT_FLAT_COLOR rdr.

Definition renderer_setCompositeRule (compositeRule : Z) (rdr : Renderer) : Renderer :=
  if negb (_compositeRule rdr =? compositeRule) then
    let rdr := set_bits (INVALID_INTERNAL_COLOR .| INVALID_COMPOSITE_DEPENDED_ROUTINES) rdr in
    let rdr :=
      if (compositeRule =? COMPOSITE_SRC_OVER) ||
         (((compositeRule =? COMPOSITE_CLEAR) || (compositeRule =? COMPOSITE_SRC)) &&
          ((_imageType rdr =? TYPE_INT_ARGB) || (_imageType rdr =? TYPE_INT_ARGB_PRE)))
      then set_bits (INVALID_COLOR_ALPHA_MAP .| INVALID_PAINT_ALPHA_MAP) rdr else rdr in
    set_compositeRule compositeRule rdr
  else rdr.

Definition renderer_setMask (maskType : Z) (data : option (list Z)) (width height : Z)
    (freeData : bool) (rdr : Renderer) : Renderer :=
  rdr |> set_mask_free freeData |> set_maskType maskType |> set_mask_byteData data
      |> set_mask_width width |> set_mask_height height
      |> set_bits (INVALID_BLITTING_MASK .| INVALID_MASK_DEPENDED_ROUTINES).

Definition renderer_removeMask (rdr : Renderer) : Renderer :=
  rdr |> set_maskType NO_MASK |> set_mask_byteData None
      |> set_bits (INVALID_BLITTING_MASK .| INVALID_MASK_DEPENDED_ROUTINES).

(** ** Paints *)

(** The transform to image space, for interpolation shifted by half a pixel. *)
Definition texture_shift (smooth : bool) (t : Transform6) : Transform6 :=
  if smooth then
    {| m00 := m00 t; m01 := m01 t; m10 := m10 t; m11 := m11 t;
       m02 := i32 (m02 t + ((m00 t >> 1) + (m01 t >> 1) - 32768));
       m12 := i32 (m12 t + ((m10 t >> 1) + (m11 t >> 1) - 32768)) |}
  else t.

(** The kind of the transform, and whether interpolation is still needed. *)
Definition texture_kind (smooth : bool) (t : Transform6) : Z * bool :=
  if (m00 t =? 65536) && (m11 t =? 65536) && (m01 t =? 0) && (m10 t =? 0) then
    if (m02 t =? 0) && (m12 t =? 0) then (TEXTURE_TRANSFORM_IDENTITY, smooth)
    else (TEXTURE_TRANSFORM_TRANSLATE,
          if (m02 t .& 65535 =? 0) && (m12 t .& 65535 =? 0) then false else smooth)
  else if (m01 t =? 0) && (m10 t =? 0) then (TEXTURE_TRANSFORM_SCALE_TRANSLATE, smooth)
  else (TEXTURE_TRANSFORM_GENERIC, smooth).

Definition renderer_setTexture (renderMode : Z) (data : option (list Z * Z))
    (width height stride : Z) (repeat smooth : bool) (transform : Transform6)
    (freeData textureHasAlpha : bool) (txMin tyMin txMax tyMax : Z) (rdr : Renderer)
    : option Renderer :=
  let rdr := set_paint_transform (pisces_transform_assign transform) rdr in
  compoundTransform ← pisces_transform_invert (pisces_transform_assign transform);
  let rdr := setPaintMode (if renderMode =? IMAGE_MODE_NORMAL then PAINT_TEXTURE8888
                           else PAINT_TEXTURE8888_MULTIPLY) rdr in
  let t := texture_shift smooth compoundTransform in
  let '(transformType, interpolate) := texture_kind smooth t in
  Some (set_texture
    {| _texture_intData := data;
       _texture_hasAlpha := textureHasAlpha;
       _texture_imageWidth := width; _texture_imageHeight := height; _texture_stride := stride;
       _texture_txMin := txMin; _texture_tyMin := tyMin;
       _texture_txMax := txMax; _texture_tyMax := tyMax;
       _texture_repeat := repeat;
       _texture_m00 := m00 t; _texture_m01 := m01 t; _texture_m02 := m02 t;
       _texture_m10 := m10 t; _texture_m11 := m11 t; _texture_m12 := m12 t;
       _texture_interpolate := interpolate;
       _texture_transformType := transformType;
       _texture_free := freeData |} rdr).

(** [memcpy(rdr->_gradient_colors, colors, GRADIENT_MAP_SIZE * sizeof(jint))] *)
Definition copy_colors (colors : list Z) (g : Gradient) : option Gradient :=
  c ← copy (_gradient_colors g) 0 colors 0 GRADIENT_MAP_SIZE; Some (setgrad_colors c g).

Definition renderer_setLinearGradient (x0 y0 x1 y1 : Z) (colors : list Z)
    (transform : Transform6) (rdr : Renderer) : option Renderer :=
  inverse ← pisces_transform_invert (pisces_transform_assign transform);
  let g := _gradient rdr |> setgrad_transform (pisces_transform_assign transform)
                         |> setgrad_inverse_transform inverse in
  let a00 := F32.of_Z (m00 inverse) in
  let a01 := F32.of_Z (m01 inverse) in
  let a02 := from_fixed (m02 inverse) in
  let a10 := F32.of_Z (m10 inverse) in
  let a11 := F32.of_Z (m11 inverse) in
  let a12 := from_fixed (m12 inverse) in
  let fx0 := from_fixed x0 in let fx1 := from_fixed x1 in
  let fy0 := from_fixed y0 in let fy1 := from_fixed y1 in
  let fdx := F32.sub fx1 fx0 in let fdy := F32.sub fy1 fy0 in
  let flensq := F32.add (F32.mul fdx fdx) (F32.mul fdy fdy) in
  let t := F32.add (F32.mul fdx fx0) (F32.mul fdy fy0) in
  let g := g
    |> setgrad_lg_mx (F32.div (F32.add (F32.mul a00 fdx) (F32.mul a10 fdy)) flensq)
    |> setgrad_lg_my (F32.div (F32.add (F32.mul a01 fdx) (F32.mul a11 fdy)) flensq)
    |> setgrad_lg_b (F32.div (F32.mul (F32.of_Z 65536)
         (F32.sub (F32.add (F32.mul a02 fdx) (F32.mul a12 fdy)) t)) flensq) in
  g ← copy_colors colors g;
  Some (rdr |> setPaintMode PAINT_LINEAR_GRADIENT |> set_gradient g).

(** [(jfloat) PISCESsqrt(x)]: the square root is taken in double precision. *)
Definition sqrt_via_double (x : jfloat) : jfloat :=
  let widen := match x with
    | S754_finite s m e => binary_normalize 53 1024 (if s then Zneg m else Zpos m) e s
    | x => x end in
  match SFsqrt 53 1024 widen with
  | S754_finite s m e => binary_normalize F32.prec F32.emax (if s then Zneg m else Zpos m) e s
  | x => x
  end.

Definition renderer_setRadialGradient (cx cy fx fy radius : Z) (colors : list Z)
    (transform : Transform6) (rdr : Renderer) : option Renderer :=
  inverse ← pisces_transform_invert (pisces_transform_assign transform);
  let a00 := from_fixed (m00 inverse) in let a01 := from_fixed (m01 inverse) in
  let a02 := from_fixed (m02 inverse) in let a10 := from_fixed (m10 inverse) in
  let a11 := from_fixed (m11 inverse) in let a12 := from_fixed (m12 inverse) in
  let _cx := from_fixed cx in let _cy := from_fixed cy in
  let _fx := from_fixed fx in let _fy := from_fixed fy in
  let r := from_fixed radius in
  let rsq := F32.mul r r in
  let fcx := F32.sub _fx _cx in
  let fcy := F32.sub _fy _cy in
  let dsq := F32.add (F32.mul fcx fcx) (F32.mul fcy fcy) in
  let '(_fx, _fy) :=
    if F32.lt (F32.mul rsq (F32.lit 94 2)) dsq then
      let f := F32.div (F32.mul r (F32.lit 97 2)) (sqrt_via_double dsq) in
      (F32.add _cx (F32.mul f fcx), F32.add _cy (F32.mul f fcy))
    else (_fx, _fy) in
  let g := _gradient rdr
    |> setgrad_transform (pisces_transform_assign transform)
    |> setgrad_inverse_transform inverse
    |> setgrad_rg_a00 a00 |> setgrad_rg_a01 a01 |> setgrad_rg_a02 a02
    |> setgrad_rg_a10 a10 |> setgrad_rg_a11 a11 |> setgrad_rg_a12 a12
    |> setgrad_rg_a00a00 (F32.mul a00 a00) |> setgrad_rg_a10a10 (F32.mul a10 a10)
    |> setgrad_rg_a00a10 (F32.mul a00 a10)
    |> setgrad_rg_r r |> setgrad_rg_rsq rsq
    |> setgrad_rg_cx _cx |> setgrad_rg_cy _cy |> setgrad_rg_fx _fx |> setgrad_rg_fy _fy in
  g ← copy_colors colors g;
  Some (rdr |> setPaintMode PAINT_RADIAL_GRADIENT |> set_gradient g).

(** ** Specification: the routine for each combination of settings *)

(** [_emitRows]: by surface type, mask, composite rule and paint mode. *)
Definition rows_for (imageType maskType rule paintMode : Z) : option BlitFn :=
  let pre := imageType =? TYPE_INT_ARGB_PRE in
  let flat := paintMode =? PAINT_FLAT_COLOR in
  let over := rule =? COMPOSITE_SRC_OVER in
  if rule =? COMPOSITE_CLEAR then Some (if pre then BlitSrc8888_pre else BlitSrc8888)
  else if maskType =? NO_MASK then
    Some match pre, over, flat with
         | true, true, true => BlitSrcOver8888_pre
         | true, true, false => BlitPTSrcOver8888_pre
         | true, false, true => BlitSrc8888_pre
         | true, false, false => BlitPTSrc8888_pre
         | false, true, true => BlitSrcOver8888
         | false, true, false => BlitPTSrcOver8888
         | false, false, true => BlitSrc8888
         | false, false, false => BlitPTSrc8888
         end
  else if negb pre then None
  else if maskType =? ALPHA_MASK then
    Some match over, flat with
         | true, true => BlitSrcOverMask8888_pre
         | true, false => BlitPTSrcOverMask8888_pre
         | false, true => BlitSrcMask8888_pre
         | false, false => BlitPTSrcMask8888_pre
         end
  else if over && flat then Some BlitSrcOverLCDMask8888_pre
  else None.

(** [_emitLine], for the two rules that set it. *)
Definition line_for (imageType rule paintMode : Z) : option EmitFn :=
  Some match imageType =? TYPE_INT_ARGB_PRE, rule =? COMPOSITE_SRC_OVER,
             paintMode =? PAINT_FLAT_COLOR with
       | true, true, true => EmitLineSourceOver8888_pre
       | true, true, false => EmitLinePTSourceOver8888_pre
       | true, false, true => EmitLineSource8888_pre
       | true, false, false => EmitLinePTSource8888_pre
       | false, true, true => EmitLineSourceOver8888
       | false, true, false => EmitLinePTSourceOver8888
       | false, false, true => EmitLineSource8888
       | false, false, false => EmitLinePTSource8888
       end.

(** [_genPaint] *)
Definition paint_for (paintMode : Z) : option PaintFn :=
  if paintMode =? PAINT_LINEAR_GRADIENT then Some GenLinearGradientPaint
  else if paintMode =? PAINT_RADIAL_GRADIENT then Some GenRadialGradientPaint
  else if paintMode =? PAINT_TEXTURE8888 then Some GenTexturePaint
  else if paintMode =? PAINT_TEXTURE8888_MULTIPLY then Some GenTexturePaintMultiply
  else None.

(** ** The state machine *)

(** The part of the renderer that the choice of routines depends on. *)
Definition settings (r : Renderer) :=
  (_paintMode r, _compositeRule r, _maskType r, _imageType r, imageType (_surface r),
   (_surfaceFns r, _maskFns r, _compositeFns r, _paintFns r), _rendererState r,
   (_cred r, _cgreen r, _cblue r, _calpha r)).

Definition is_rule (z : Z) : Prop :=
  z = COMPOSITE_CLEAR \/ z = COMPOSITE_SRC \/ z = COMPOSITE_SRC_OVER.
Definition is_maskType (z : Z) : Prop := z = NO_MASK \/ z = ALPHA_MASK \/ z = LCD_ALPHA_MASK.
Definition is_imageType (z : Z) : Prop := z = TYPE_INT_ARGB \/ z = TYPE_INT_ARGB_PRE.
Definition is_paintMode (z : Z) : Prop :=
  z = PAINT_FLAT_COLOR \/ z = PAINT_LINEAR_GRADIENT \/ z = PAINT_RADIAL_GRADIENT \/
  z = PAINT_TEXTURE8888 \/ z = PAINT_TEXTURE8888_MULTIPLY.

(** What can happen to a renderer: calls of the setters with arguments that the
    Java side admits, validations, and rendering, which does not touch the
    settings. *)
Inductive step : Renderer -> Renderer -> Prop :=
| step_setClip r x y w h : step r (renderer_setClip x y w h r)
| step_setColor r red green blue alpha : step r (renderer_setColor red green blue alpha r)
| step_setCompositeRule r rule : is_rule rule -> step r (renderer_setCompositeRule rule r)
| step_setMask r t d w h f :
    t = ALPHA_MASK \/ t = LCD_ALPHA_MASK -> step r (renderer_setMask t d w h f r)
| step_removeMask r : step r (renderer_removeMask r)
| step_setLinearGradient r x0 y0 x1 y1 c t r' :
    renderer_setLinearGradient x0 y0 x1 y1 c t r = Some r' -> step r r'
| step_setRadialGradient r cx cy fx fy rad c t r' :
    renderer_setRadialGradient cx cy fx fy rad c t r = Some r' -> step r r'
| step_setTexture r mode d w h s rep smooth t f a x0 y0 x1 y1 r' :
    renderer_setTexture mode d w h s rep smooth t f a x0 y0 x1 y1 r = Some r' -> step r r'
| step_invalidate r : step r (INVALIDATE_RENDERER_SURFACE r)
| step_validate r : step r (VALIDATE_BLITTING r)
| step_render r r' : settings r = settings r' -> step r r'.

(** A renderer that was created on a surface of a supported type and used. *)
Definition reachable (r : Renderer) : Prop :=
  exists s, is_imageType (imageType s) /\ rtc step (createCommon s) r.

(** ** The invariant *)

(** A bit of [_rendererState]: 3 colour, 4 surface, 5 composite rule, 6 paint,
    7 mask. *)
Definition invalid (n : Z) (r : Renderer) : bool := Z.testbit (_rendererState r) n.

Definition masks_ok (r : Renderer) : Prop :=
  let f rule mode := rows_for (imageType (_surface r)) (_maskType r) rule mode in
  _maskFns r = Build_MaskFns
    (f COMPOSITE_SRC_OVER PAINT_FLAT_COLOR) (f COMPOSITE_SRC_OVER PAINT_TEXTURE8888)
    (f COMPOSITE_SRC PAINT_FLAT_COLOR) (f COMPOSITE_SRC PAINT_TEXTURE8888).

Definition composite_ok (r : Renderer) : Prop :=
  let it := imageType (_surface r) in let rule := _compositeRule r in
  let c := _compositeFns r in
  _bl c = rows_for it (_maskType r) rule PAINT_FLAT_COLOR /\
  _bl_PT c = (if rule =? COMPOSITE_CLEAR then _bl c
              else rows_for it (_maskType r) rule PAINT_TEXTURE8888) /\
  (rule <> COMPOSITE_CLEAR ->
   _el c = line_for it rule PAINT_FLAT_COLOR /\ _el_PT c = line_for it rule PAINT_TEXTURE8888).

Definition paints_ok (r : Renderer) : Prop :=
  let it := imageType (_surface r) in let rule := _compositeRule r in
  let p := _paintFns r in
  _emitRows p = rows_for it (_maskType r) rule (_paintMode r) /\
  _genPaint p = paint_for (_paintMode r) /\
  (rule <> COMPOSITE_CLEAR -> _emitLine p = line_for it rule (_paintMode r)).

Definition surface_ok (r : Renderer) : Prop :=
  _imageType r = imageType (_surface r) /\
  _surfaceFns r = surface_fns (imageType (_surface r)) zero_surfaceFns.

Definition color_cleared (r : Renderer) : Prop :=
  _compositeRule r = COMPOSITE_CLEAR ->
  _cred r = 0 /\ _cgreen r = 0 /\ _cblue r = 0 /\ _calpha r = 0.

(** A bit that is clear vouches for the pointers it guards. *)
Record coherent (r : Renderer) : Prop := {
  co_image : is_imageType (imageType (_surface r));
  co_rule : is_rule (_compositeRule r);
  co_mask : is_maskType (_maskType r);
  co_mode : is_paintMode (_paintMode r);
  co_surface : surface_ok r \/ _imageType r = -1 /\ invalid 4 r = true;
  co_masks : invalid 7 r = false -> masks_ok r;
  co_composite : invalid 7 r = false -> invalid 5 r = false -> composite_ok r;
  co_paints : invalid 7 r = false -> invalid 5 r = false -> invalid 6 r = false -> paints_ok r;
  co_color : invalid 3 r = false -> color_cleared r;
}.

(** ** Lemmas: bits *)

Lemma truth_and_pow2 s n : 0 <= n -> truth_and s (2 ^ n) = Z.testbit s n.
Proof.
  intros Hn. unfold truth_and, truth. destruct (Z.testbit s n) eqn:E.
  - apply negb_true_iff, Z.eqb_neq. intros H0.
    assert (Z.testbit (s .& 2 ^ n) n = true) as H1 by (by rewrite Z.land_spec, E, Z.pow2_bits_true).
    by rewrite H0, Z.bits_0 in H1.
  - apply negb_false_iff, Z.eqb_eq, Z.bits_inj'. intros i Hi.
    rewrite Z.land_spec, Z.bits_0. destruct (Z.eq_dec i n) as [->|].
    + by rewrite E.
    + rewrite Z.pow2_bits_false by done. by rewrite andb_false_r.
Qed.

Lemma truth_and_surface s : truth_and s INVALID_RENDERER_SURFACE = Z.testbit s 4.
Proof. by apply (truth_and_pow2 s 4). Qed.
Lemma truth_and_color s : truth_and s INVALID_INTERNAL_COLOR = Z.testbit s 3.
Proof. by apply (truth_and_pow2 s 3). Qed.
Lemma truth_and_composite s : truth_and s INVALID_COMPOSITE_DEPENDED_ROUTINES = Z.testbit s 5.
Proof. by apply (truth_and_pow2 s 5). Qed.
Lemma truth_and_paint s : truth_and s INVALID_PAINT_DEPENDED_ROUTINES = Z.testbit s 6.
Proof. by apply (truth_and_pow2 s 6). Qed.
Lemma truth_and_mask s : truth_and s INVALID_MASK_DEPENDED_ROUTINES = Z.testbit s 7.
Proof. by apply (truth_and_pow2 s 7). Qed.

Lemma truth_and_lor s a b : truth_and s (a .| b) = truth_and s a || truth_and s b.
Proof.
  unfold truth_and, truth. rewrite Z.land_lor_distr_r.
  destruct (Z.eqb_spec (s .& a) 0) as [->|Ha], (Z.eqb_spec (s .& b) 0) as [Hb|Hb];
    rewrite ?Hb, ?Z.lor_0_l, ?Z.lor_0_r; simpl.
  1: done.
  all: apply negb_true_iff, Z.eqb_neq; rewrite ?Z.lor_eq_0_iff; tauto.
Qed.

Lemma truth_and_blitting s :
  truth_and s INVALID_BLITTING_MASK =
  Z.testbit s 3 || Z.testbit s 4 || Z.testbit s 5 || Z.testbit s 6 || Z.testbit s 7.
Proof.
  unfold INVALID_BLITTING_MASK. rewrite !truth_and_lor.
  by rewrite truth_and_color, truth_and_surface, truth_and_composite, truth_and_paint, truth_and_mask.
Qed.

Lemma invalid_set_bits n m r : 0 <= n -> invalid n (set_bits m r) = invalid n r || Z.testbit m n.
Proof. intros. unfold invalid, set_bits. simpl. apply Z.lor_spec. Qed.

Lemma invalid_clear_bits n m r :
  0 <= n -> invalid n (clear_bits m r) = invalid n r && negb (Z.testbit m n).
Proof. intros. unfold invalid, clear_bits. simpl. by rewrite Z.land_spec, Z.lnot_spec. Qed.

Create Rewrite HintDb pisces_state.
#[export] Hint Rewrite truth_and_surface truth_and_color truth_and_composite truth_and_paint
  truth_and_mask truth_and_blitting : pisces_state.

(** ** Lemmas: the updates *)

Definition supported (r : Renderer) : Prop :=
  is_imageType (imageType (_surface r)) /\ is_rule (_compositeRule r) /\
  is_maskType (_maskType r) /\ is_paintMode (_paintMode r).

(** What no update of pointers touches. *)
Definition frame (r : Renderer) :=
  (_paintMode r, _compositeRule r, _maskType r, _imageType r, _surface r,
   (_cred r, _cgreen r, _cblue r, _calpha r)).

Lemma updatePaint_bits n r :
  0 <= n -> invalid n (updatePaintDependedRoutines r) = invalid n r && negb (6 =? n).
Proof.
  intros. unfold updatePaintDependedRoutines. rewrite invalid_clear_bits by done.
  by rewrite <- (Z.pow2_bits_eqb 6) by done.
Qed.

Lemma updateComposite_bits n r :
  0 <= n -> invalid n (updateCompositeDependedRoutines r) =
            invalid n r && negb (6 =? n) && negb (5 =? n).
Proof.
  intros. unfold updateCompositeDependedRoutines.
  rewrite invalid_clear_bits, updatePaint_bits by done. by rewrite <- (Z.pow2_bits_eqb 5) by done.
Qed.

Lemma updateMask_bits n r :
  0 <= n -> invalid n (updateMaskDependedRoutines r) =
            invalid n r && negb (6 =? n) && negb (5 =? n) && negb (7 =? n).
Proof.
  intros. unfold updateMaskDependedRoutines.
  rewrite invalid_clear_bits, updateComposite_bits by done. by rewrite <- (Z.pow2_bits_eqb 7) by done.
Qed.

Lemma updatePaint_ok r :
  is_paintMode (_paintMode r) -> composite_ok r -> paints_ok (updatePaintDependedRoutines r).
Proof.
  intros Hm (E1 & E2 & E3). unfold paints_ok.
  change (_surface (updatePaintDependedRoutines r)) with (_surface r).
  change (_compositeRule (updatePaintDependedRoutines r)) with (_compositeRule r).
  change (_maskType (updatePaintDependedRoutines r)) with (_maskType r).
  change (_paintMode (updatePaintDependedRoutines r)) with (_paintMode r).
  assert (forall b, b = (_paintMode r =? PAINT_FLAT_COLOR) ->
    rows_for (imageType (_surface r)) (_maskType r) (_compositeRule r) (_paintMode r) =
    (if b then _bl (_compositeFns r) else _bl_PT (_compositeFns r)) /\
    (_compositeRule r <> COMPOSITE_CLEAR ->
     (if b then _el (_compositeFns r) else _el_PT (_compositeFns r)) =
     line_for (imageType (_surface r)) (_compositeRule r) (_paintMode r))) as Hb.
  { intros b ->. split.
    - rewrite E2, E1. unfold rows_for. destruct Hm as [->|[->|[->|[->| ->]]]]; simpl;
        destruct (_compositeRule r =? COMPOSITE_CLEAR); done.
    - intros Hne. destruct (E3 Hne) as [-> ->]. unfold line_for.
      by destruct Hm as [->|[->|[->|[->| ->]]]]. }
  unfold updatePaintDependedRoutines. simpl.
  destruct Hm as [Hm|[Hm|[Hm|[Hm|Hm]]]]; rewrite Hm in *;
    (destruct (Hb _ eq_refl) as [-> Hl]; repeat split; exact Hl).
Qed.


Lemma composite_ok_clear_bits m r : composite_ok (clear_bits m r) = composite_ok r.
Proof. reflexivity. Qed.
Lemma paints_ok_clear_bits m r : paints_ok (clear_bits m r) = paints_ok r.
Proof. reflexivity. Qed.
Lemma masks_ok_clear_bits m r : masks_ok (clear_bits m r) = masks_ok r.
Proof. reflexivity. Qed.
Lemma surface_ok_clear_bits m r : surface_ok (clear_bits m r) = surface_ok r.
Proof. reflexivity. Qed.

Lemma masks_ok_updateComposite r : masks_ok (updateCompositeDependedRoutines r) = masks_ok r.
Proof. reflexivity. Qed.

Lemma updateComposite_ok r :
  supported r -> surface_ok r -> masks_ok r ->
  composite_ok (updateCompositeDependedRoutines r) /\ paints_ok (updateCompositeDependedRoutines r).
Proof.
  intros (Hi & Hr & Hk & Hm) [Es Ef] Hmk. unfold updateCompositeDependedRoutines.
  set (c := if _compositeRule r =? COMPOSITE_SRC_OVER then _ else _).
  assert (composite_ok (set_compositeFns c r)) as Hc.
  { unfold composite_ok, c. unfold masks_ok in Hmk. cbn. rewrite Hmk, Ef.
    unfold surface_fns.
    destruct Hr as [-> |[-> | ->]], Hi as [-> | ->]; repeat split; done. }
  rewrite composite_ok_clear_bits, paints_ok_clear_bits.
  split; [exact Hc|exact (updatePaint_ok (set_compositeFns c r) Hm Hc)].
Qed.

Lemma updateMask_ok r :
  supported r -> surface_ok r ->
  masks_ok (updateMaskDependedRoutines r) /\ composite_ok (updateMaskDependedRoutines r) /\
  paints_ok (updateMaskDependedRoutines r).
Proof.
  intros Hs Hsf. pose proof Hs as (Hi & Hr & Hk & Hm). pose proof Hsf as [Es Ef].
  unfold updateMaskDependedRoutines.
  set (f := if _maskType r =? NO_MASK then _ else _).
  assert (masks_ok (set_maskFns f r)) as Hmk.
  { unfold masks_ok, f. cbn. rewrite Ef. unfold surface_fns.
    destruct Hk as [-> |[-> | ->]], Hi as [-> | ->]; done. }
  rewrite masks_ok_clear_bits, composite_ok_clear_bits, paints_ok_clear_bits,
    masks_ok_updateComposite. clearbody f.
  split; [exact Hmk|]. apply updateComposite_ok; [exact Hs|exact Hsf|exact Hmk].
Qed.

(** All pointers are up to date. *)
Definition up_to_date (r : Renderer) : Prop :=
  surface_ok r /\ masks_ok r /\ composite_ok r /\ paints_ok r.

Lemma updateSurface_ok r :
  supported r -> _imageType r = imageType (_surface r) ->
  up_to_date (updateSurfaceDependedRoutines r).
Proof.
  intros Hs Ht. unfold updateSurfaceDependedRoutines.
  set (f := surface_fns _ _).
  assert (surface_ok (set_surfaceFns f r)) as Hsf.
  { split; [done|]. unfold f, surface_fns. cbn. rewrite Ht.
    destruct Hs as ([-> | ->] & _); done. }
  destruct (updateMask_ok (set_surfaceFns f r) Hs Hsf) as (H1 & H2 & H3).
  split; [exact Hsf|]. by split.
Qed.

(** ** Lemmas: validation *)

(** The frame and the supported settings are unaffected by what an update does. *)
Lemma supported_frame r r' : frame r = frame r' -> supported r -> supported r'.
Proof. unfold frame, supported. intros [= -> -> -> _ -> _ _ _ _]. done. Qed.

Lemma coherent_supported r : coherent r -> supported r.
Proof. intros []. by repeat split. Qed.

(** A renderer with current pointers is coherent whatever its bits say. *)
Lemma up_to_date_coherent r : supported r -> up_to_date r -> color_cleared r -> coherent r.
Proof.
  intros (? & ? & ? & ?) (Hs & ? & ? & ?) ?. split; try done. by left.
Qed.

(** [r'] is a coherent renderer with the same settings as [r], and in which
    nothing became invalid. *)
Record improves (r r' : Renderer) : Prop := {
  im_coherent : coherent r';
  im_mode : _paintMode r' = _paintMode r;
  im_rule : _compositeRule r' = _compositeRule r;
  im_mask : _maskType r' = _maskType r;
  im_surface : _surface r' = _surface r;
  im_bits : forall n, 3 <= n -> invalid n r' = true -> invalid n r = true;
}.

Lemma improves_refl r : coherent r -> improves r r.
Proof. by split. Qed.

Lemma improves_trans r1 r2 r3 : improves r1 r2 -> improves r2 r3 -> improves r1 r3.
Proof. intros [] []. split; try congruence; auto. Qed.

(** The geometry of the surface, copied. *)
Definition copy_geometry (r : Renderer) : Renderer :=
  let surface := _surface r in
  r |> set_width (width surface) |> set_height (height surface)
    |> set_data (data surface) |> set_imageOffset (offset surface)
    |> set_imageScanlineStride (scanlineStride surface)
    |> set_imagePixelStride (pixelStride surface).

Lemma updateRendererSurface_ok r :
  coherent r -> improves r (updateRendererSurface r) /\ surface_ok (updateRendererSurface r) /\
  invalid 4 (updateRendererSurface r) = false.
Proof.
  intros H. pose proof (coherent_supported _ H) as Hsup. unfold updateRendererSurface. cbv zeta.
  fold (copy_geometry r). change (_imageType (copy_geometry r)) with (_imageType r).
  destruct (Z.eqb_spec (_imageType r) (imageType (_surface r))) as [E|E]; simpl negb; cbv iota.
  - assert (surface_ok r) as Hs.
    { destruct (co_surface _ H) as [Hs|[E' _]]; [done|].
      destruct (co_image _ H) as [Ht|Ht]; rewrite E', Ht in E; discriminate E. }
    rewrite surface_ok_clear_bits, invalid_clear_bits by done.
    split; [|split; [exact Hs|by rewrite andb_false_r]].
    split; try reflexivity.
    + destruct H as [H1 H2 H3 H4 _ H6 H7 H8 H9].
      split; rewrite ?masks_ok_clear_bits, ?composite_ok_clear_bits, ?paints_ok_clear_bits,
        ?surface_ok_clear_bits, ?invalid_clear_bits by done; rewrite ?andb_true_r; auto.
    + intros n Hn. rewrite invalid_clear_bits by lia. by intros [? _]%andb_true_iff.
  - set (r0 := if negb _ && _ then _ else copy_geometry r).
    assert (frame r0 = frame r) as Ef by (unfold r0; destruct (negb _ && _); done).
    assert (forall n, 3 <= n -> invalid n r0 = invalid n r) as Eb.
    { intros n Hn. unfold r0. destruct (negb _ && _); [|done]. rewrite invalid_set_bits by lia.
      change (INVALID_COLOR_ALPHA_MAP .| INVALID_PAINT_ALPHA_MAP) with 3.
      rewrite (Z.bits_above_log2 3) by (simpl; lia). apply orb_false_r. }
    assert (color_cleared r0 = color_cleared r) as Ec by (unfold r0; destruct (negb _ && _); done).
    clearbody r0. set (r1 := set_imageType _ r0).
    assert (supported r1) as Hs1 by exact (supported_frame r r0 (eq_sym Ef) Hsup).
    injection Ef as E1 E2 E3 E4 E5 _ _ _ _.
    destruct (updateSurface_ok r1 Hs1) as (U1 & U2 & U3 & U4); [simpl; by rewrite E5|].
    assert (forall n, 3 <= n -> invalid n (updateSurfaceDependedRoutines r1) =
      invalid n r && negb (6 =? n) && negb (5 =? n) && negb (7 =? n)) as B.
    { intros n Hn. rewrite <- Eb by done. unfold updateSurfaceDependedRoutines.
      rewrite updateMask_bits by lia. reflexivity. }
    rewrite surface_ok_clear_bits, invalid_clear_bits by done.
    split; [|split; [exact U1|by rewrite andb_false_r]].
    split; [|exact E1|exact E2|exact E3|exact E5|].
    + destruct Hs1 as (S1 & S2 & S3 & S4).
      split; rewrite ?masks_ok_clear_bits, ?composite_ok_clear_bits, ?paints_ok_clear_bits,
        ?surface_ok_clear_bits; [exact S1|exact S2|exact S3|exact S4|left; exact U1|
        intros _; exact U2|intros _ _; exact U3|intros _ _ _; exact U4|].
      rewrite invalid_clear_bits, B by done. rewrite !andb_true_r. intros Hb3.
      change (color_cleared r0). rewrite Ec. by apply (co_color _ H).
    + intros n Hn. rewrite invalid_clear_bits, B by lia.
      intros [[[[? _]%andb_true_iff _]%andb_true_iff _]%andb_true_iff _]%andb_true_iff. done.
Qed.

Lemma updateInternalColor_ok r :
  coherent r -> improves r (updateInternalColor r) /\ invalid 3 (updateInternalColor r) = false /\
  (surface_ok r -> surface_ok (updateInternalColor r)).
Proof.
  intros H. unfold updateInternalColor.
  set (r0 := if _compositeRule r =? COMPOSITE_CLEAR then _ else r).
  assert (color_cleared r0) as Hc.
  { unfold color_cleared, r0. destruct (Z.eqb_spec (_compositeRule r) COMPOSITE_CLEAR); done. }
  assert (r0 = r \/ r0 = (r |> set_cred 0 |> set_cgreen 0 |> set_cblue 0 |> set_calpha 0)) as Hr0
    by (unfold r0; case_match; auto).
  clearbody r0. rewrite invalid_clear_bits, surface_ok_clear_bits by done.
  split; [|split; [by rewrite andb_false_r|destruct Hr0 as [-> | ->]; exact id]].
  destruct H as [H1 H2 H3 H4 H5 H6 H7 H8 H9].
  split; try (destruct Hr0 as [-> | ->]; reflexivity).
  - split; rewrite ?masks_ok_clear_bits, ?composite_ok_clear_bits, ?paints_ok_clear_bits,
      ?surface_ok_clear_bits, ?invalid_clear_bits by done; rewrite ?andb_true_r;
      try exact (fun _ => Hc); destruct Hr0 as [-> | ->]; assumption.
  - intros n Hn. rewrite invalid_clear_bits by lia. intros [Hb _]%andb_true_iff.
    by destruct Hr0 as [-> | ->].
Qed.

(** The last part of a validation: the most general update that a bit asks for. *)
Definition update_pointers (state : Z) (r : Renderer) : Renderer :=
  if truth_and state INVALID_MASK_DEPENDED_ROUTINES then updateMaskDependedRoutines r
  else if truth_and state INVALID_COMPOSITE_DEPENDED_ROUTINES then updateCompositeDependedRoutines r
  else if truth_and state INVALID_PAINT_DEPENDED_ROUTINES then updatePaintDependedRoutines r
  else r.

Lemma update_pointers_ok state r :
  coherent r -> surface_ok r ->
  (forall n, 5 <= n -> invalid n r = true -> Z.testbit state n = true) ->
  up_to_date (update_pointers state r) /\
  (forall n, 5 <= n <= 7 -> invalid n (update_pointers state r) = false) /\
  frame (update_pointers state r) = frame r /\
  (forall n, 0 <= n -> invalid n (update_pointers state r) = true -> invalid n r = true).
Proof.
  intros H Hs Hle. pose proof (coherent_supported _ H) as Hsup.
  unfold update_pointers. autorewrite with pisces_state.
  assert (forall n, 5 <= n -> Z.testbit state n = false -> invalid n r = false) as Hf.
  { intros n Hn E. destruct (invalid n r) eqn:E'; [|done]. by rewrite Hle in E. }
  destruct (Z.testbit state 7) eqn:E7; [|destruct (Z.testbit state 5) eqn:E5;
    [|destruct (Z.testbit state 6) eqn:E6]].
  - destruct (updateMask_ok r Hsup Hs) as (U1 & U2 & U3).
    split; [repeat (split; [assumption|]); assumption|]. split; [|split; [reflexivity|]].
    + intros n Hn. rewrite updateMask_bits by lia. zcase; rewrite ?andb_false_r; done || lia.
    + intros n Hn. rewrite updateMask_bits by done. by destruct (invalid n r).
  - assert (masks_ok r) as Hm by (apply (co_masks _ H), Hf; done).
    destruct (updateComposite_ok r Hsup Hs Hm) as (U1 & U2).
    split; [repeat (split; [assumption|]); assumption|]. split; [|split; [reflexivity|]].
    + intros n Hn. rewrite updateComposite_bits by lia.
      destruct (Z.eq_dec n 7) as [-> |]; [by rewrite (Hf 7) by done|].
      zcase; rewrite ?andb_false_r; done || lia.
    + intros n Hn. rewrite updateComposite_bits by done. by destruct (invalid n r).
  - assert (masks_ok r) as Hm by (apply (co_masks _ H), Hf; done).
    assert (composite_ok r) as Hc by (apply (co_composite _ H); apply Hf; done).
    pose proof (updatePaint_ok r (co_mode _ H) Hc) as U.
    split; [repeat (split; [assumption|]); assumption|]. split; [|split; [reflexivity|]].
    + intros n Hn. rewrite updatePaint_bits by lia.
      destruct (Z.eq_dec n 7) as [-> |]; [by rewrite (Hf 7) by done|].
      destruct (Z.eq_dec n 5) as [-> |]; [by rewrite (Hf 5) by done|].
      zcase; rewrite ?andb_false_r; done || lia.
    + intros n Hn. rewrite updatePaint_bits by done. by destruct (invalid n r).
  - split; [|split; [|done]].
    + split; [done|]. split; [apply (co_masks _ H); by apply Hf|].
      split; [apply (co_composite _ H)|apply (co_paints _ H)]; by apply Hf.
    + intros n Hn. apply Hf; [lia|].
      assert (n = 5 \/ n = 6 \/ n = 7) as [-> |[-> | ->]] by lia; done.
Qed.

(** What a validation establishes. *)
Record validated (r r' : Renderer) : Prop := {
  va_up : up_to_date r';
  va_color : color_cleared r';
  va_bits : forall n, 3 <= n <= 7 -> invalid n r' = false;
  va_improves : improves r r';
}.

Lemma VALIDATE_BLITTING_ok r : coherent r -> validated r (VALIDATE_BLITTING r).
Proof.
  intros H. unfold VALIDATE_BLITTING. cbv zeta.
  destruct (truth_and (_rendererState r) INVALID_BLITTING_MASK) eqn:E.
  - fold (update_pointers (_rendererState r)
      (if truth_and (_rendererState r) INVALID_INTERNAL_COLOR
       then updateInternalColor (if truth_and (_rendererState r) INVALID_RENDERER_SURFACE
                                 then updateRendererSurface r else r)
       else if truth_and (_rendererState r) INVALID_RENDERER_SURFACE
            then updateRendererSurface r else r)).
    autorewrite with pisces_state in *. clear E. fold (invalid 4 r). fold (invalid 3 r).
    set (r1 := if invalid 4 r then updateRendererSurface r else r).
    assert (improves r r1 /\ surface_ok r1 /\ invalid 4 r1 = false) as (I1 & S1 & B1).
    { unfold r1. destruct (invalid 4 r) eqn:E4; [by apply updateRendererSurface_ok|].
      split; [by apply improves_refl|]. split; [|done].
      destruct (co_surface _ H) as [?|[_ E]]; [done|by rewrite E4 in E]. }
    clearbody r1.
    set (r2 := if invalid 3 r then updateInternalColor r1 else r1).
    assert (improves r1 r2 /\ surface_ok r2 /\ invalid 3 r2 = false) as (I2 & S2 & B2).
    { unfold r2. pose proof (im_coherent _ _ I1) as H1. destruct (invalid 3 r) eqn:E3.
      - destruct (updateInternalColor_ok r1 H1) as (? & ? & ?). auto.
      - split; [by apply improves_refl|]. split; [done|].
        destruct (invalid 3 r1) eqn:E; [|done]. by rewrite (im_bits _ _ I1) in E3. }
    clearbody r2. pose proof (improves_trans _ _ _ I1 I2) as I.
    pose proof (im_coherent _ _ I2) as H2.
    destruct (update_pointers_ok (_rendererState r) r2 H2 S2) as (U & B & F & M).
    { intros n Hn. apply (im_bits _ _ I). lia. }
    set (r3 := update_pointers (_rendererState r) r2) in *. clearbody r3.
    assert (color_cleared r3) as C3.
    { pose proof (co_color _ H2 B2) as C. unfold color_cleared in *.
      injection F as _ -> _ _ _ -> -> -> ->. exact C. }
    assert (supported r3) as Sup by
      exact (supported_frame _ _ (eq_sym F) (coherent_supported _ H2)).
    split; [exact U|exact C3| |].
    + intros n Hn. destruct (decide (5 <= n)); [apply B; lia|].
      destruct (invalid n r3) eqn:E; [|done]. apply M in E; [|lia].
      assert (n = 3 \/ n = 4) as [-> | ->] by lia; [by rewrite B2 in E|].
      rewrite (im_bits _ _ I2) in B1; done.
    + injection F as F1 F2 F3 _ F5 _ _ _ _. destruct I as [_ I3 I4 I5 I6 I7].
      split; [by apply up_to_date_coherent|congruence..|].
      intros n Hn En. apply I7, M; [lia..|done].
  - autorewrite with pisces_state in E.
    fold (invalid 3 r) (invalid 4 r) (invalid 5 r) (invalid 6 r) (invalid 7 r) in E.
    apply orb_false_iff in E as [[[[E3 E4]%orb_false_iff E5]%orb_false_iff E6]%orb_false_iff E7].
    pose proof H as [H1 H2 H3 H4 H5 H6 H7 H8 H9].
    split; [|by apply H9| |by apply improves_refl].
    + split; [destruct H5 as [?|[_ E]]; [done|by rewrite E4 in E]|]. auto.
    + intros n Hn. assert (n = 3 \/ n = 4 \/ n = 5 \/ n = 6 \/ n = 7) as K by lia.
      by repeat destruct K as [-> |K]; subst.
Qed.

(** ** Lemmas: the setters *)

Definition pointers (r : Renderer) :=
  (_surfaceFns r, _maskFns r, _compositeFns r, _paintFns r, _imageType r, imageType (_surface r)).

(** A setter keeps the invariant when it marks, by the bits of [m], all that
    depends on what it changes. *)
Lemma coherent_change r r' m :
  coherent r -> pointers r' = pointers r -> supported r' ->
  (forall n, 3 <= n <= 7 -> invalid n r' = invalid n r || Z.testbit m n) ->
  (_maskType r' = _maskType r \/ Z.testbit m 7 = true) ->
  (_compositeRule r' = _compositeRule r \/ Z.testbit m 5 = true /\ Z.testbit m 3 = true) ->
  (_paintMode r' = _paintMode r \/ Z.testbit m 6 = true) ->
  ((_cred r', _cgreen r', _cblue r', _calpha r') = (_cred r, _cgreen r, _cblue r, _calpha r)
   \/ Z.testbit m 3 = true) ->
  coherent r'.
Proof.
  intros [H1 H2 H3 H4 H5 H6 H7 H8 H9] [= P1 P2 P3 P4 P5 P6] (S1 & S2 & S3 & S4) B Km Kr Kp Kc.
  assert (forall n, 3 <= n <= 7 -> invalid n r' = false ->
            invalid n r = false /\ Z.testbit m n = false) as Bf.
  { intros n Hn E. rewrite B in E by done. by apply orb_false_iff in E. }
  split; try done.
  - destruct H5 as [[E1 E2]|[E1 E2]]; [left; split|right; split]; try congruence.
    rewrite B, E2 by lia. done.
  - intros [E7 M7]%Bf; [|lia]. destruct Km as [Km|Km]; [|congruence].
    unfold masks_ok in *. rewrite P2, P6, Km. auto.
  - intros [E7 M7]%Bf [E5 M5]%Bf; [|lia..]. destruct Km as [Km|Km]; [|congruence].
    destruct Kr as [Kr|[Kr _]]; [|congruence].
    unfold composite_ok in *. rewrite P3, P6, Km, Kr. auto.
  - intros [E7 M7]%Bf [E5 M5]%Bf [E6 M6]%Bf; [|lia..]. destruct Km as [Km|Km]; [|congruence].
    destruct Kr as [Kr|[Kr _]]; [|congruence]. destruct Kp as [Kp|Kp]; [|congruence].
    unfold paints_ok in *. rewrite P4, P6, Km, Kr, Kp. auto.
  - intros [E3 M3]%Bf; [|lia]. destruct Kr as [Kr|[_ Kr]]; [|congruence].
    destruct Kc as [[= K1 K2 K3 K4]|Kc]; [|congruence].
    unfold color_cleared in *. rewrite Kr, K1, K2, K3, K4. auto.
Qed.

Lemma coherent_settings r r' : settings r = settings r' -> coherent r -> coherent r'.
Proof.
  intros E H. injection E as E1 E2 E3 E4 E5 E6 E7 E8 E9 E10 E11 E12 E13 E14.
  apply (coherent_change r r' 0 H); try (left; congruence).
  - unfold pointers. congruence.
  - destruct H. unfold supported. rewrite <- E5, <- E2, <- E3, <- E1. auto.
  - intros n Hn. rewrite Z.bits_0, orb_false_r. unfold invalid. by rewrite E10.
Qed.

Lemma setPaintMode_coherent mode r :
  is_paintMode mode -> coherent r -> coherent (setPaintMode mode r).
Proof.
  intros Hm H. unfold setPaintMode. destruct (Z.eqb_spec (_paintMode r) mode) as [_|_]; simpl negb; [done|].
  apply (coherent_change r _ INVALID_PAINT_DEPENDED_ROUTINES H); try done; try (by left);
    [by destruct H| |by right].
  intros n Hn. by apply (invalid_set_bits n INVALID_PAINT_DEPENDED_ROUTINES r); lia.
Qed.

Lemma setColor_coherent red green blue alpha r :
  coherent r -> coherent (renderer_setColor red green blue alpha r).
Proof.
  intros H. unfold renderer_setColor. cbv zeta. apply setPaintMode_coherent; [by left|].
  destruct (negb _ || _ || _ || _); [|done].
  apply (coherent_change r _ INVALID_INTERNAL_COLOR H); try (by destruct (negb _)).
  - destruct (negb _); by destruct H.
  - intros n Hn. pose proof (invalid_set_bits n INVALID_INTERNAL_COLOR r ltac:(lia)) as E.
    destruct (negb _); [|exact E].
    etransitivity; [|exact E].
    etransitivity; [exact (invalid_set_bits n 3 (set_bits INVALID_INTERNAL_COLOR r) ltac:(lia))|].
    rewrite (Z.bits_above_log2 3) by (simpl; lia). apply orb_false_r.
  - left. by destruct (negb _).
  - left. by destruct (negb _).
  - left. by destruct (negb _).
  - by right.
Qed.

Lemma setCompositeRule_coherent rule r :
  is_rule rule -> coherent r -> coherent (renderer_setCompositeRule rule r).
Proof.
  intros Hr H. unfold renderer_setCompositeRule. destruct (negb _); [|done]. cbv zeta.
  set (m := INVALID_INTERNAL_COLOR .| INVALID_COMPOSITE_DEPENDED_ROUTINES).
  destruct ((rule =? _) || _).
  all: apply (coherent_change r _ m H); try (by left); try (by right); try reflexivity;
    try (destruct H; by repeat split).
  all: intros n Hn; pose proof (invalid_set_bits n m r ltac:(lia)) as E; try exact E.
  etransitivity; [|exact E].
  etransitivity; [exact (invalid_set_bits n 3 (set_bits m r) ltac:(lia))|].
  rewrite (Z.bits_above_log2 3) by (simpl; lia). apply orb_false_r.
Qed.

Lemma mask_bits_coherent t r r' :
  is_maskType t -> coherent r -> pointers r' = pointers r -> _maskType r' = t ->
  _compositeRule r' = _compositeRule r -> _paintMode r' = _paintMode r ->
  (_cred r', _cgreen r', _cblue r', _calpha r') = (_cred r, _cgreen r, _cblue r, _calpha r) ->
  _rendererState r' = _rendererState r .| (INVALID_BLITTING_MASK .| INVALID_MASK_DEPENDED_ROUTINES) ->
  coherent r'.
Proof.
  intros Ht H P Et Er Ep Ec Es.
  apply (coherent_change r _ (INVALID_BLITTING_MASK .| INVALID_MASK_DEPENDED_ROUTINES) H); auto.
  - injection P as _ _ _ _ _ E. destruct H. unfold supported. rewrite E, Er, Ep, Et. auto.
  - intros n Hn. unfold invalid. rewrite Es. apply Z.lor_spec.
Qed.

Lemma step_coherent r r' : step r r' -> coherent r -> coherent r'.
Proof.
  intros Hst H.
  destruct Hst as [r x y w h|r a b c d|r rule Hr|r t d w h f Ht|r|r x0 y0 x1 y1 c t r' E
    |r cx cy fx fy rad c t r' E|r mode d w h s rep smooth t f a x0 y0 x1 y1 r' E|r|r|r r' E].
  - by apply (coherent_settings r).
  - by apply setColor_coherent.
  - by apply setCompositeRule_coherent.
  - apply (mask_bits_coherent t r); try done. by right.
  - apply (mask_bits_coherent NO_MASK r); try done. by left.
  - unfold renderer_setLinearGradient in E. apply bind_Some in E as (inv & _ & E). cbv zeta in E.
    apply bind_Some in E as (g & _ & [= <-]).
    eapply coherent_settings; [|apply (setPaintMode_coherent PAINT_LINEAR_GRADIENT r); [|done]];
      [done|]. right; by left.
  - unfold renderer_setRadialGradient in E. apply bind_Some in E as (inv & _ & E). cbv zeta in E.
    destruct (if F32.lt _ _ then _ else _) in E. apply bind_Some in E as (g & _ & [= <-]).
    eapply coherent_settings; [|apply (setPaintMode_coherent PAINT_RADIAL_GRADIENT r); [|done]];
      [done|]. right; right; by left.
  - unfold renderer_setTexture in E. apply bind_Some in E as (inv & _ & E). cbv zeta in E.
    destruct (texture_kind _ _) as [k i]. injection E as <-.
    eapply coherent_settings; [|apply (setPaintMode_coherent
      (if mode =? IMAGE_MODE_NORMAL then PAINT_TEXTURE8888 else PAINT_TEXTURE8888_MULTIPLY)
      (set_paint_transform (pisces_transform_assign t) r))].
    + done.
    + unfold is_paintMode. case_match; auto.
    + by apply (coherent_settings r).
  - apply (coherent_change r _ INVALID_RENDERER_SURFACE H); try done; try (by left);
      [by destruct H|]. intros n Hn. by apply invalid_set_bits; lia.
  - apply (va_improves _ _ (VALIDATE_BLITTING_ok r H)).
  - by apply (coherent_settings r).
Qed.

Lemma createCommon_coherent s : is_imageType (imageType s) -> coherent (createCommon s).
Proof.
  intros Hs. split; try done; [by right; right|by left|by left|by right].
Qed.

Lemma reachable_coherent r : reachable r -> coherent r.
Proof.
  intros (s & Hs & Hr). pose proof (createCommon_coherent s Hs) as H. revert H.
  induction Hr as [r|r1 r2 r3 Hst _ IH]; [done|]. intros H. by apply IH, (step_coherent r1).
Qed.

(** ** Properties *)

(** C2. The cached pointers implement the look-up by settings: in any renderer
    obtained from [createCommon] by setters, validations and rendering, a
    [VALIDATE_BLITTING] leaves no invalid bit (the assertion at its end), keeps
    the settings, and makes [_emitRows], [_genPaint] and, unless the rule is
    [COMPOSITE_CLEAR], [_emitLine] the routines that the surface type, the mask,
    the composite rule and the paint mode select. *)
Theorem validate_selects r :
  reachable r ->
  let r' := VALIDATE_BLITTING r in
  let it := imageType (_surface r) in
  _rendererState r' .& INVALID_BLITTING_MASK = 0 /\
  (_paintMode r', _compositeRule r', _maskType r', _surface r') =
    (_paintMode r, _compositeRule r, _maskType r, _surface r) /\
  _emitRows (_paintFns r') = rows_for it (_maskType r) (_compositeRule r) (_paintMode r) /\
  _genPaint (_paintFns r') = paint_for (_paintMode r) /\
  (_compositeRule r <> COMPOSITE_CLEAR ->
   _emitLine (_paintFns r') = line_for it (_compositeRule r) (_paintMode r)) /\
  (_compositeRule r = COMPOSITE_CLEAR ->
   _cred r' = 0 /\ _cgreen r' = 0 /\ _cblue r' = 0 /\ _calpha r' = 0).
Proof.
  intros Hr. cbv zeta.
  destruct (VALIDATE_BLITTING_ok r (reachable_coherent r Hr)) as [(_ & _ & _ & P) C B I].
  destruct I as [_ E1 E2 E3 E4 _]. set (r' := VALIDATE_BLITTING r) in *. clearbody r'.
  unfold paints_ok, color_cleared in *. rewrite E1, E2, E3, E4 in *. destruct P as (P1 & P2 & P3).
  split; [|split; [reflexivity|]; split; [exact P1|]; split; [exact P2|]; by split].
  pose proof (truth_and_blitting (_rendererState r')) as T. unfold truth_and, truth in T.
  fold (invalid 3 r') (invalid 4 r') (invalid 5 r') (invalid 6 r') (invalid 7 r') in T.
  rewrite !B in T by lia. simpl in T. by apply negb_false_iff, Z.eqb_eq in T.
Qed.

Lemma validate_bits r : (forall n, 3 <= n <= 7 -> invalid n r = false) -> VALIDATE_BLITTING r = r.
Proof.
  intros B. unfold VALIDATE_BLITTING. rewrite truth_and_blitting.
  fold (invalid 3 r) (invalid 4 r) (invalid 5 r) (invalid 6 r) (invalid 7 r).
  by rewrite !B by lia.
Qed.

(** The pointers of the validation of a renderer of which only the colour and
    the composite rule are invalid. *)
Lemma validate_composite r :
  invalid 3 r = true -> invalid 4 r = false -> invalid 5 r = true -> invalid 7 r = false ->
  VALIDATE_BLITTING r = updateCompositeDependedRoutines (updateInternalColor r).
Proof.
  intros E3 E4 E5 E7. unfold VALIDATE_BLITTING. cbv zeta. autorewrite with pisces_state.
  fold (invalid 3 r) (invalid 4 r) (invalid 5 r) (invalid 6 r) (invalid 7 r).
  by rewrite E3, E4, E5, E7.
Qed.

(** [updateCompositeDependedRoutines] has no line routine for
    [COMPOSITE_CLEAR]: after a switch to that rule, [_emitLine] is still the
    routine of the rule before, so that [fillRect] composites the (cleared)
    colour by the old rule instead of clearing; on a fresh renderer it is [NULL]. *)
Lemma composite_clear_keeps_line r s :
  reachable r -> _compositeRule r <> COMPOSITE_CLEAR -> is_imageType (imageType s) ->
  let r1 := VALIDATE_BLITTING r in
  let r2 := VALIDATE_BLITTING (renderer_setCompositeRule COMPOSITE_CLEAR r1) in
  _emitLine (_paintFns r2)
    = line_for (imageType (_surface r)) (_compositeRule r) (_paintMode r) /\
  _emitLine (_paintFns (VALIDATE_BLITTING
     (renderer_setCompositeRule COMPOSITE_CLEAR (createCommon s)))) = None.
Proof.
  intros Hr Hne Hs. cbv zeta. split.
  - destruct (VALIDATE_BLITTING_ok r (reachable_coherent r Hr)) as [(_ & _ & C & _) _ B I].
    destruct I as [H E1 E2 E3 E4 _]. set (r' := VALIDATE_BLITTING r) in *. clearbody r'.
    rewrite <- E2 in *. destruct C as (_ & _ & C). destruct (C Hne) as [C1 C2]. clear C.
    set (r2 := renderer_setCompositeRule COMPOSITE_CLEAR r').
    assert (r2 = set_compositeRule COMPOSITE_CLEAR (set_rendererState (_rendererState r2) r') /\
      forall n, 3 <= n -> invalid n r2 = invalid n r' || Z.testbit 40 n) as [E B2].
    { unfold r2, renderer_setCompositeRule. destruct (Z.eqb_spec (_compositeRule r') COMPOSITE_CLEAR);
        [done|]. simpl negb. cbv iota zeta. destruct (_ || _ && _); split; try done; intros n' Hn'.
      - etransitivity; [exact (invalid_set_bits n' 3 (set_bits 40 r') ltac:(lia))|].
        rewrite (Z.bits_above_log2 3), orb_false_r by (simpl; lia).
        apply (invalid_set_bits n' 40 r'). lia.
      - apply (invalid_set_bits n' 40 r'). lia. }
    rewrite validate_composite by (rewrite B2, B by lia; done). rewrite E. clearbody r2.
    rewrite <- E1, <- E4. destruct (co_mode _ H) as [M|[M|[M|[M|M]]]];
      unfold updateCompositeDependedRoutines, updatePaintDependedRoutines, updateInternalColor;
      cbn; rewrite M; cbn; (exact C1 || exact C2).
  - destruct s as [w h o ss ps t d]. simpl in Hs. by destruct Hs as [-> | ->].
Qed.

(** ** Witnesses *)

Definition demo_surface : Surface :=
  Build_Surface 4 3 0 4 1 TYPE_INT_ARGB_PRE (Some (replicate 12 0)).

(** A renderer with a texture and a mask. *)
Definition demo_state : Renderer :=
  createCommon demo_surface |> renderer_setColor 10 20 30 40
  |> renderer_setMask ALPHA_MASK (Some [255]) 1 1 false.

Lemma demo_reachable : reachable demo_state.
Proof.
  exists demo_surface. split; [by right|].
  eapply rtc_l; [apply (step_setColor _ 10 20 30 40)|].
  eapply rtc_l; [|apply rtc_refl]. apply step_setMask. by left.
Qed.

Lemma validate_selects_witness :
  _emitRows (_paintFns (VALIDATE_BLITTING demo_state)) = Some BlitSrcOverMask8888_pre.
Proof.
  destruct (validate_selects demo_state demo_reachable) as (_ & _ & H & _). exact H.
Defined.

