(* ===== verification/Paint.v ===== *)
(** * Paint generation (PiscesPaint.c)

    The routines behind [_genPaint]: they fill the paint buffer with one colour
    for every pixel of a batch, from a linear gradient, from a radial gradient,
    or from an image under a transform.  Coordinates in the image are [jlong]s
    with 16 fractional bits. *)

From stdpp Require Import base.
From Stdlib Require Import SpecFloat.
From S2P Require Import Prelude Mem Blend Renderer Transform.
#[local] Open Scope Z_scope.

(** ** Arithmetic *)

(** [None] is a division by zero. *)
Definition lmod (x y : Z) : option Z :=
  if y =? 0 then None
  else let x := Z.rem x y in
       Some (if x <? 0 then i64 (x + y) else x).

Definition interp (x0 x1 frac : Z) : Z := i32 ((x0 << 16) + (x1 - x0) * frac + 32768) >> 16.

Definition pad (ifrac cycleMethod : Z) : Z :=
  if cycleMethod =? CYCLE_NONE then
    if ifrac <? 0 then 0 else if 65535 <? ifrac then 65535 else ifrac
  else if cycleMethod =? CYCLE_REPEAT then ifrac .& 65535
  else if cycleMethod =? CYCLE_REFLECT then
    let ifrac := if ifrac <? 0 then i32 (- ifrac) else ifrac in
    let ifrac := ifrac .& 131071 in
    if 65535 <? ifrac then 131071 - ifrac else ifrac
  else ifrac.

(** ** Gradients *)

(** [colors[pad((jint)frac, cycleMethod) >> (16 - LG_GRADIENT_MAP_SIZE)]] *)
Definition gradient_color (colors : list Z) (cycleMethod ifrac : Z) : option Z :=
  ld colors (pad ifrac cycleMethod >> (16 - LG_GRADIENT_MAP_SIZE)).

Definition genLinearGradientPaint (rdr : Renderer) (height : Z) : option Renderer :=
  let width := _alphaWidth rdr in
  let cycleMethod := _gradient_cycleMethod (_gradient rdr) in
  let mx := _lg_mx (_gradient rdr) in
  let my := _lg_my (_gradient rdr) in
  let b := _lg_b (_gradient rdr) in
  let colors := _gradient_colors (_gradient rdr) in
  paint ← _paint rdr;
  '(paint, _, _) ← for_ (Z.to_nat height)
    (fun '(paint, paintOffset, y) =>
       let x := _currX rdr in
       let frac := F32.add (F32.add (F32.mul (F32.of_Z x) mx) (F32.mul (F32.of_Z y) my)) b in
       '(paint, _, _) ← for_ (Z.to_nat width)
         (fun '(paint, pidx, frac) =>
            ifrac ← F32.to_jint frac;
            c ← gradient_color colors cycleMethod ifrac;
            paint ← st paint pidx c;
            Some (paint, i32 (pidx + 1), F32.add frac mx))
         (paint, paintOffset, frac);
       Some (paint, i32 (paintOffset + width), i32 (y + 1)))
    (paint, 0, _currY rdr);
  Some (set_paint (Some paint) rdr).

(** [(jint)(U + PISCESsqrt(V))]: the square root and the sum are taken in double
    precision. *)
Definition widen (x : jfloat) : spec_float :=
  match x with
  | S754_finite s m e => binary_normalize 53 1024 (if s then Zneg m else Zpos m) e s
  | x => x
  end.

Definition radial_index (U V : jfloat) : option Z :=
  F32.to_jint (SFadd 53 1024 (widen U) (SFsqrt 53 1024 (widen V))).

(** The values that a row of the radial gradient starts from:
    [U], [V], [dU], [dV] and [ddV]. *)
Definition radial_row (rdr : Renderer) (x y : Z) : jfloat * jfloat * jfloat * jfloat * jfloat :=
  let g := _gradient rdr in
  let a00 := _rg_a00 g in let a01 := _rg_a01 g in let a02 := _rg_a02 g in
  let a10 := _rg_a10 g in let a11 := _rg_a11 g in let a12 := _rg_a12 g in
  let a00a00 := _rg_a00a00 g in let a10a10 := _rg_a10a10 g in let a00a10 := _rg_a00a10 g in
  let cx := _rg_cx g in let cy := _rg_cy g in let fx := _rg_fx g in let fy := _rg_fy g in
  let rsq := _rg_rsq g in
  let two := F32.of_Z 2 in let one := F32.of_Z 1 in let k := F32.of_Z 65536 in
  let txx := F32.add (F32.add (F32.mul (F32.of_Z x) a00) (F32.mul (F32.of_Z y) a01)) a02 in
  let tyy := F32.add (F32.add (F32.mul (F32.of_Z x) a10) (F32.mul (F32.of_Z y) a11)) a12 in
  let fxx := F32.sub fx txx in
  let fyy := F32.sub fy tyy in
  let A := F32.add (F32.mul fxx fxx) (F32.mul fyy fyy) in
  let cfx := F32.sub cx fx in
  let cfy := F32.sub cy fy in
  let cfxcfx := F32.mul cfx cfx in
  let cfycfy := F32.mul cfy cfy in
  let cfxcfy := F32.mul cfx cfy in
  let B := F32.add (F32.mul cfx fxx) (F32.mul cfy fyy) in
  let B2 := F32.mul (F32.opp B) two in
  let C := F32.sub (F32.add cfxcfx cfycfy) rsq in
  let C2 := F32.mul two C in
  let _C := F32.div one C in
  let _Csq := F32.mul _C _C in
  let U := F32.mul (F32.opp B) _C in
  let dU := F32.mul (F32.add (F32.mul a00 cfx) (F32.mul a10 cfy)) _C in
  let V := F32.mul (F32.sub (F32.mul B B) (F32.mul A C)) _Csq in
  let sube := F32.mul (F32.mul two a00a10) cfxcfy in
  let dV := F32.mul
    (F32.add
       (F32.add sube
          (F32.add (F32.mul a00a00 (F32.sub cfxcfx C))
                   (F32.mul a00 (F32.add (F32.mul B2 cfx) (F32.mul C2 fxx)))))
       (F32.add (F32.mul a10a10 (F32.sub cfycfy C))
                (F32.mul a10 (F32.add (F32.mul B2 cfy) (F32.mul C2 fyy)))))
    _Csq in
  let tmp := F32.add (F32.sub (F32.mul a00a00 cfycfy) sube) (F32.mul a10a10 cfxcfx) in
  let ddV := F32.mul (F32.mul two (F32.sub (F32.mul (F32.add a00a00 a10a10) rsq) tmp)) _Csq in
  let kk := F32.mul k k in
  (F32.mul k U, F32.mul kk V, F32.mul k dU, F32.mul kk dV, F32.mul kk ddV).

Definition genRadialGradientPaint (rdr : Renderer) (height : Z) : option Renderer :=
  let width := _alphaWidth rdr in
  let cycleMethod := _gradient_cycleMethod (_gradient rdr) in
  let colors := _gradient_colors (_gradient rdr) in
  paint ← _paint rdr;
  '(paint, _, _) ← for_ (Z.to_nat height)
    (fun '(paint, paintOffset, y) =>
       let '(U, V, dU, dV, ddV) := radial_row rdr (_currX rdr) y in
       '(paint, _, _, _, _) ← for_ (Z.to_nat width)
         (fun '(paint, pidx, U, V, dV) =>
            let V := if F32.lt V (S754_zero false) then S754_zero false else V in
            ifrac ← radial_index U V;
            c ← gradient_color colors cycleMethod ifrac;
            paint ← st paint pidx c;
            Some (paint, i32 (pidx + 1), F32.add U dU, F32.add V dV, F32.add dV ddV))
         (paint, paintOffset, U, V, dV);
       Some (paint, i32 (paintOffset + width), i32 (y + 1)))
    (paint, 0, _currY rdr);
  Some (set_paint (Some paint) rdr).

(** ** Interpolation *)

Definition interpolate2points (p0 p1 frac : Z) : Z :=
  argb (interp (Argb.A p0) (Argb.A p1) frac) (interp (Argb.R p0) (Argb.R p1) frac)
       (interp (Argb.G p0) (Argb.G p1) frac) (interp (Argb.B p0) (Argb.B p1) frac).

Definition interp4 (c00 c01 c10 c11 hfrac vfrac : Z) : Z :=
  interp (interp c00 c01 hfrac) (interp c10 c11 hfrac) vfrac.

Definition interpolate4points (p00 p01 p10 p11 hfrac vfrac : Z) : Z :=
  let ch f := interp4 (f p00) (f p01) (f p10) (f p11) hfrac vfrac in
  argb (ch Argb.A) (ch Argb.R) (ch Argb.G) (ch Argb.B).

Definition interpolate2pointsNoAlpha (p0 p1 frac : Z) : Z :=
  argb 255 (interp (Argb.R p0) (Argb.R p1) frac)
       (interp (Argb.G p0) (Argb.G p1) frac) (interp (Argb.B p0) (Argb.B p1) frac).

Definition interpolate4pointsNoAlpha (p00 p01 p10 p11 hfrac vfrac : Z) : Z :=
  let ch f := interp4 (f p00) (f p01) (f p10) (f p11) hfrac vfrac in
  argb 255 (ch Argb.R) (ch Argb.G) (ch Argb.B).

(** ** Bounds of the image *)

Definition isInBoundsNoRepeat (a mn mx : Z) : bool := negb ((a <? mn) || (mx <? a)).

(** The new [*a] and [*la]. *)
Definition checkBoundsRepeat (a la mn mx : Z) : option (Z * Z) :=
  if (a <? mn) || (mx <? a) then
    if 0 <=? mx then
      la ← lmod la (i32 ((mx + 1) << 16));
      Some (i32 (la >> 16), la)
    else Some (0, 0)
  else Some (a, la).

Definition checkBoundsNoRepeat (a mn mx : Z) : Z :=
  if a <? mn then mn else if mx <? a then mx else a.

(** The image: an array and the offset of [txtData] in it. *)
Definition tld (txt : list Z * Z) (i : Z) : option Z := ld txt.1 (txt.2 + i).

Definition getPointsToInterpolate (txt : list Z * Z) (sidx stride p00 tx txMax ty tyMax : Z)
    : option (Z * Z * Z) :=
  let sidx2 := if tyMax <=? ty then sidx else i32 (sidx + stride) in
  let isXin := tx <? txMax in
  p0 ← if isXin then tld txt (sidx + 1) else Some p00;
  p1 ← tld txt sidx2;
  p2 ← if isXin then tld txt (sidx2 + 1) else tld txt sidx2;
  Some (p0, p1, p2).

Definition getPointsToInterpolateRepeat (txt : list Z * Z) (sidx stride p00 tx txMax ty tyMax : Z)
    : option (Z * Z * Z) :=
  let sidx2 := if tyMax <=? ty then Z.max tx 0 else i32 (sidx + stride) in
  let isXin := tx <? txMax in
  p0 ← if isXin then tld txt (sidx + 1) else tld txt (sidx - Z.max tx 0);
  p1 ← tld txt sidx2;
  p2 ← if isXin then tld txt (sidx2 + 1) else tld txt (sidx2 - Z.max tx 0);
  Some (p0, p1, p2).

(** ** The colour at a position in the image *)

Inductive Mode :=
| NO_REPEAT_NO_INTERPOLATE | REPEAT_NO_INTERPOLATE
| NO_REPEAT_INTERPOLATE_NO_ALPHA | NO_REPEAT_INTERPOLATE_ALPHA
| REPEAT_INTERPOLATE_NO_ALPHA | REPEAT_INTERPOLATE_ALPHA.

Definition repeatInterpolateMode (t : Texture) : Mode :=
  if _texture_interpolate t then
    if _texture_hasAlpha t then
      if _texture_repeat t then REPEAT_INTERPOLATE_ALPHA else NO_REPEAT_INTERPOLATE_ALPHA
    else
      if _texture_repeat t then REPEAT_INTERPOLATE_NO_ALPHA else NO_REPEAT_INTERPOLATE_NO_ALPHA
  else if _texture_repeat t then REPEAT_NO_INTERPOLATE else NO_REPEAT_NO_INTERPOLATE.

Definition mode_repeats (m : Mode) : bool :=
  match m with
  | REPEAT_NO_INTERPOLATE | REPEAT_INTERPOLATE_NO_ALPHA | REPEAT_INTERPOLATE_ALPHA => true
  | _ => false
  end.

(** [cval] from the four neighbours. *)
Definition blend_points (alpha : bool) (p00 : Z) (pts : Z * Z * Z) (hfrac vfrac : Z) : Z :=
  let '(p0, p1, p2) := pts in
  if truth hfrac && truth vfrac then
    (if alpha then interpolate4points else interpolate4pointsNoAlpha) p00 p0 p1 p2 hfrac vfrac
  else if truth hfrac then
    (if alpha then interpolate2points else interpolate2pointsNoAlpha) p00 p0 hfrac
  else if truth vfrac then
    (if alpha then interpolate2points else interpolate2pointsNoAlpha) p00 p1 vfrac
  else p00.

(** What the loops do with [tx] and [ty] after the bounds check. *)
Definition texel (m : Mode) (t : Texture) (txt : list Z * Z) (tx ty hfrac vfrac : Z) : option Z :=
  let stride := _texture_stride t in
  let w1 := i32 (_texture_imageWidth t - 1) in
  let h1 := i32 (_texture_imageHeight t - 1) in
  let sidx := i32 (Z.max 0 ty * stride + Z.max 0 tx) in
  p00 ← tld txt sidx;
  match m with
  | NO_REPEAT_NO_INTERPOLATE | REPEAT_NO_INTERPOLATE => Some p00
  | NO_REPEAT_INTERPOLATE_ALPHA =>
      pts ← getPointsToInterpolate txt sidx stride p00 tx w1 ty h1;
      Some (blend_points true p00 pts hfrac vfrac)
  | NO_REPEAT_INTERPOLATE_NO_ALPHA =>
      pts ← getPointsToInterpolate txt sidx stride p00 tx w1 ty h1;
      Some (blend_points false p00 pts hfrac vfrac)
  | REPEAT_INTERPOLATE_ALPHA =>
      pts ← getPointsToInterpolateRepeat txt sidx stride p00 tx w1 ty h1;
      Some (blend_points true p00 pts hfrac vfrac)
  | REPEAT_INTERPOLATE_NO_ALPHA =>
      pts ← getPointsToInterpolateRepeat txt sidx stride p00 tx w1 ty h1;
      Some (blend_points false p00 pts hfrac vfrac)
  end.

(** ** The four kinds of transform *)

(** One row by the identity transform with repetition. *)
Definition identity_row (txt : list Z * Z) (tStart t txtWidth d n : Z) (paint : list Z)
    : option (list Z) :=
  let tEnd := tStart + txtWidth in
  '(paint, _, _) ← for_ (Z.to_nat n)
    (fun '(paint, d, t) =>
       v ← tld txt t;
       paint ← st paint d v;
       let t := t + 1 in
       Some (paint, d + 1, if t =? tEnd then tStart else t))
    (paint, d, t);
  Some paint.

Definition texture_identity (rdr : Renderer) (txt : list Z * Z) (height : Z) (paint : list Z)
    : option (list Z) :=
  let t := _texture rdr in
  let paintStride := _alphaWidth rdr in
  let txtStride := _texture_stride t in
  if _texture_repeat t then
    if (_texture_imageWidth t =? 0) || (_texture_imageHeight t =? 0) then None else
    let txtOffsetRepeat := Z.rem (_currX rdr) (_texture_imageWidth t) in
    let txtRowNumRepeat := Z.rem (_currY rdr) (_texture_imageHeight t) in
    '(paint, _, _) ← for_ (Z.to_nat height)
      (fun '(paint, j, row) =>
         let tStart := i32 (txtStride * row) in
         paint ← identity_row txt tStart (tStart + txtOffsetRepeat) (_texture_imageWidth t)
                   (i32 (paintStride * j)) paintStride paint;
         let row := i32 (row + 1) in
         Some (paint, j + 1, if row =? _texture_imageHeight t then 0 else row))
      (paint, 0, txtRowNumRepeat);
    Some paint
  else
    let minX := Z.max (_rectX rdr) (_clip_bbMinX rdr) in
    let minY := Z.max (_rectY rdr) (_clip_bbMinY rdr) in
    let clipOffset := i32 ((minY - _rectY rdr) * txtStride + minX - _rectX rdr) in
    if paintStride <? 0 then None else
    '(paint, _) ← for_ (Z.to_nat height)
      (fun '(paint, j) =>
         paint ← copy paint (i32 (paintStride * j)) txt.1
           (txt.2 + clipOffset + i32 (txtStride * (_rowNum rdr + j))) paintStride;
         Some (paint, j + 1))
      (paint, 0);
    Some paint.

(** One pixel of a row by a translation; [ty], [hfrac] and [vfrac] are those of
    the row. *)
Definition translate_px (m : Mode) (t : Texture) (txt : list Z * Z) (ty hfrac vfrac ltx : Z)
    : option (Z * Z) :=
  let tx := i32 (ltx >> 16) in
  let mn := i32 (_texture_txMin t - 1) in let mx := _texture_txMax t in
  '(tx, ltx) ← if mode_repeats m then checkBoundsRepeat tx ltx mn mx
               else Some (checkBoundsNoRepeat tx mn mx, ltx);
  cval ← texel m t txt tx ty hfrac vfrac;
  Some (cval, i64 (ltx + 65536)).

Definition texture_translate (rdr : Renderer) (txt : list Z * Z) (height : Z) (paint : list Z)
    : option (list Z) :=
  let t := _texture rdr in
  let paintStride := _alphaWidth rdr in
  let m := repeatInterpolateMode t in
  '(paint, _, _) ← for_ (Z.to_nat height)
    (fun '(paint, paintOffset, y) =>
       let ltx := i32 ((_currX rdr << 16) + _texture_m02 t) in
       let lty := i32 ((y << 16) + _texture_m12 t) in
       let ty := i32 (lty >> 16) in
       let hfrac := ltx .& 65535 in
       let vfrac := lty .& 65535 in
       let mn := i32 (_texture_tyMin t - 1) in let mx := _texture_tyMax t in
       '(ty, _) ← if _texture_repeat t then checkBoundsRepeat ty lty mn mx
                  else Some (checkBoundsNoRepeat ty mn mx, lty);
       '(paint, _, _) ← for_ (Z.to_nat paintStride)
         (fun '(paint, pidx, ltx) =>
            '(cval, ltx) ← translate_px m t txt ty hfrac vfrac ltx;
            paint ← st paint pidx cval;
            Some (paint, i32 (pidx + 1), ltx))
         (paint, paintOffset, ltx);
       Some (paint, i32 (paintOffset + paintStride), i32 (y + 1)))
    (paint, 0, _currY rdr);
  Some paint.

(** One pixel of a row by a scale ([generic = false]) or by any transform: the
    colour and the new position. *)
Definition affine_px (generic : bool) (m : Mode) (t : Texture) (txt : list Z * Z) (ltx lty : Z)
    : option (Z * Z * Z) :=
  let tx := i32 (ltx >> 16) in
  let ty := i32 (lty >> 16) in
  let hfrac := ltx .& 65535 in
  let vfrac := lty .& 65535 in
  let xmn := i32 (_texture_txMin t - 1) in let xmx := _texture_txMax t in
  let ymn := i32 (_texture_tyMin t - 1) in let ymx := _texture_tyMax t in
  '(cval, ltx, lty) ←
    if mode_repeats m then
      '(tx, ltx) ← checkBoundsRepeat tx ltx xmn xmx;
      '(ty, lty) ← checkBoundsRepeat ty lty ymn ymx;
      cval ← texel m t txt tx ty hfrac vfrac;
      Some (cval, ltx, lty)
    else if generic then
      if isInBoundsNoRepeat tx xmn xmx && isInBoundsNoRepeat ty ymn ymx then
        cval ← texel m t txt tx ty hfrac vfrac;
        Some (cval, ltx, lty)
      else Some (0, ltx, lty)
    else
      let tx := checkBoundsNoRepeat tx xmn xmx in
      let ty := checkBoundsNoRepeat ty ymn ymx in
      cval ← texel m t txt tx ty hfrac vfrac;
      Some (cval, ltx, lty);
  Some (cval, i64 (ltx + _texture_m00 t), i64 (lty + _texture_m10 t)).

Definition texture_affine (generic : bool) (rdr : Renderer) (txt : list Z * Z) (height : Z)
    (paint : list Z) : option (list Z) :=
  let t := _texture rdr in
  let paintStride := _alphaWidth rdr in
  let m := repeatInterpolateMode t in
  '(paint, _, _) ← for_ (Z.to_nat height)
    (fun '(paint, paintOffset, y) =>
       let x := _currX rdr in
       let ltx := i32 (x * _texture_m00 t + y * _texture_m01 t + _texture_m02 t) in
       let lty := i32 (x * _texture_m10 t + y * _texture_m11 t + _texture_m12 t) in
       '(paint, _, _, _) ← for_ (Z.to_nat paintStride)
         (fun '(paint, pidx, ltx, lty) =>
            '(cval, ltx, lty) ← affine_px generic m t txt ltx lty;
            paint ← st paint pidx cval;
            Some (paint, i32 (pidx + 1), ltx, lty))
         (paint, paintOffset, ltx, lty);
       Some (paint, i32 (paintOffset + paintStride), i32 (y + 1)))
    (paint, 0, _currY rdr);
  Some paint.

Definition texture_scale_translate := texture_affine false.
Definition texture_generic := texture_affine true.

Definition genTexturePaintTarget (rdr : Renderer) (paint : list Z) (height : Z)
    : option (list Z) :=
  let t := _texture rdr in
  let k := _texture_transformType t in
  if k =? TEXTURE_TRANSFORM_IDENTITY then
    txt ← _texture_intData t; texture_identity rdr txt height paint
  else if k =? TEXTURE_TRANSFORM_TRANSLATE then
    txt ← _texture_intData t; texture_translate rdr txt height paint
  else if k =? TEXTURE_TRANSFORM_SCALE_TRANSLATE then
    txt ← _texture_intData t; texture_scale_translate rdr txt height paint
  else if k =? TEXTURE_TRANSFORM_GENERIC then
    txt ← _texture_intData t; texture_generic rdr txt height paint
  else Some paint.

Definition genTexturePaint (rdr : Renderer) (height : Z) : option Renderer :=
  paint ← _paint rdr;
  paint ← genTexturePaintTarget rdr paint height;
  Some (set_paint (Some paint) rdr).

(** ** An image times another paint *)

(** The image pixel [tval] scaled by an alpha. *)
Definition mul_alpha (palpha tval : Z) : Z :=
  let palpha_1 := palpha + 1 in
  argb (i32 (palpha_1 * Argb.A tval) >> 8) (i32 (palpha_1 * Argb.R tval) >> 8)
       (i32 (palpha_1 * Argb.G tval) >> 8) (i32 (palpha_1 * Argb.B tval) >> 8).

(** The image pixel [tval] multiplied by a colour. *)
Definition mul_color (palpha pred pgreen pblue tval : Z) : Z :=
  let palpha_1 := palpha + 1 in
  let ch p t := i32 ((i32 ((p + 1) * t) >> 8) * palpha_1) >> 8 in
  argb (i32 (palpha_1 * Argb.A tval) >> 8) (ch pred (Argb.R tval)) (ch pgreen (Argb.G tval))
       (ch pblue (Argb.B tval)).

(** Every entry of [height] rows of [w] colours, rows [stride] apart, rewritten
    by [f] from its index. *)
Definition map_paint (height w stride : Z) (f : list Z -> Z -> option Z) (paint : list Z)
    : option (list Z) :=
  '(paint, _) ← for_ (Z.to_nat height)
    (fun '(paint, i) =>
       let idx := i32 (i * stride) in
       '(paint, _) ← for_ (Z.to_nat w)
         (fun '(paint, j) =>
            v ← f paint (idx + j);
            paint ← st paint (idx + j) v;
            Some (paint, j + 1))
         (paint, 0);
       Some (paint, i + 1))
    (paint, 0);
  Some paint.

(** [alloc n] is the result of [my_malloc(jint, n)]: [None] when it fails. *)
Definition genTexturePaintMultiply (alloc : Z -> option (list Z)) (rdr : Renderer) (height : Z)
    : option Renderer :=
  let w := i32 (_maxTouched rdr - _minTouched rdr + 1) in
  let paintStride := _alphaWidth rdr in
  let calpha := _calpha rdr in let cred := _cred rdr in
  let cgreen := _cgreen rdr in let cblue := _cblue rdr in
  let mode := _prevPaintMode rdr in
  if mode =? PAINT_FLAT_COLOR then
    paint ← _paint rdr;
    paint ← genTexturePaintTarget rdr paint height;
    paint ←
      if (cred =? 255) && (cgreen =? 255) && (cblue =? 255) then
        if calpha <? 255 then
          map_paint height w paintStride (fun p i => tval ← ld p i; Some (mul_alpha calpha tval)) paint
        else Some paint
      else
        map_paint height w paintStride
          (fun p i => tval ← ld p i; Some (mul_color calpha cred cgreen cblue tval)) paint;
    Some (set_paint (Some paint) rdr)
  else if (mode =? PAINT_LINEAR_GRADIENT) || (mode =? PAINT_RADIAL_GRADIENT) then
    match alloc (i32 (w * height)) with
    | Some imagePaint =>
        rdr ← if mode =? PAINT_LINEAR_GRADIENT then genLinearGradientPaint rdr height
              else genRadialGradientPaint rdr height;
        paint ← _paint rdr;
        imagePaint ← genTexturePaintTarget rdr imagePaint height;
        paint ← map_paint height w paintStride
          (fun p i => pval ← ld p i; tval ← ld imagePaint i;
             Some (mul_color (Argb.A pval) (Argb.R pval) (Argb.G pval) (Argb.B pval) tval)) paint;
        Some (set_paint (Some paint) rdr)
    | None => Some rdr
    end
  else Some rdr.

(** A call through a pointer to one of the routines. *)
Definition run_paint (alloc : Z -> option (list Z)) (f : PaintFn)
    : Renderer -> Z -> option Renderer :=
  match f with
  | GenLinearGradientPaint => genLinearGradientPaint
  | GenRadialGradientPaint => genRadialGradientPaint
  | GenTexturePaint => genTexturePaint
  | GenTexturePaintMultiply => genTexturePaintMultiply alloc
  end.

(** ** Lemmas: arithmetic *)

Lemma lmod_mod x y : 0 < y <= 2147483647 -> lmod x y = Some (x mod y).
Proof.
  intros Hy. unfold lmod. destruct (Z.eqb_spec y 0); [lia|]. cbv zeta.
  destruct (Z.ltb_spec (Z.rem x y) 0); f_equal.
  - pose proof (Z.rem_bound_pos_neg x y) as Hb. pose proof (Z.quot_rem' x y) as Hq.
    assert (x < 0). { destruct (Z.lt_ge_cases x 0); [done|]. pose proof (Z.rem_bound_pos x y). lia. }
    rewrite i64_id by (unfold is_i64; lia).
    apply (Z.mod_unique_pos _ _ (Z.quot x y - 1)); [lia|]. nia.
  - pose proof (Z.quot_rem' x y) as Hq.
    apply (Z.mod_unique_pos _ _ (Z.quot x y)); [|lia]. split; [done|].
    destruct (Z.lt_ge_cases x 0).
    + pose proof (Z.rem_bound_pos_neg x y). lia.
    + pose proof (Z.rem_bound_pos x y). lia.
Qed.

(** A fraction in 1/65536 below one. *)
Definition is_frac (f : Z) : Prop := 0 <= f <= 65535.

Lemma land_frac z : is_frac (z .& 65535).
Proof. unfold is_frac. bits. zlia. Qed.

Lemma interp_eq x0 x1 f :
  is_byte x0 -> is_byte x1 -> is_frac f ->
  interp x0 x1 f = (x0 * 65536 + (x1 - x0) * f + 32768) / 65536.
Proof.
  unfold is_byte, is_frac. intros. unfold interp. rewrite shl16.
  rewrite i32_id by (unfold is_i32; nia). by bits.
Qed.

Lemma interp_mono x0 x1 y0 y1 f :
  is_byte x0 -> is_byte x1 -> is_byte y0 -> is_byte y1 -> is_frac f ->
  x0 <= y0 -> x1 <= y1 -> interp x0 x1 f <= interp y0 y1 f.
Proof.
  intros. rewrite !interp_eq by done. unfold is_frac in *. apply Z.div_le_mono; [lia|]. nia.
Qed.

Lemma interp_same x f : is_byte x -> is_frac f -> interp x x f = x.
Proof. intros. rewrite interp_eq by done. rewrite Z.sub_diag. zlia. Qed.

Lemma interp_byte x0 x1 f : is_byte x0 -> is_byte x1 -> is_frac f -> is_byte (interp x0 x1 f).
Proof.
  intros H0 H1 Hf. assert (is_byte 0 /\ is_byte 255) as [? ?] by (unfold is_byte; lia).
  pose proof (interp_same 0 f). pose proof (interp_same 255 f).
  pose proof (interp_mono 0 0 x0 x1 f). pose proof (interp_mono x0 x1 255 255 f).
  unfold is_byte, is_frac in *. lia.
Qed.

(** ** Lemmas: interpolated pixels *)

Lemma argb_premul a r g b :
  is_byte a -> is_byte r -> is_byte g -> is_byte b -> r <= a -> g <= a -> b <= a ->
  premul (argb a r g b) /\ is_i32 (argb a r g b).
Proof.
  intros. split; [|apply argb_is_i32]. unfold premul.
  rewrite argb_A, argb_R, argb_G, argb_B by done. rewrite !byte_small by done. done.
Qed.

(** What a pixel of the image and of the paint buffer is: premultiplied. *)
Definition pixel_ok (c : Z) : Prop := premul c /\ is_i32 c.

(** Channels are bytes, and so is all that is interpolated from bytes; the
    lemma is chosen by the head of the goal. *)
Ltac channel :=
  match goal with
  | |- is_byte (Argb.A _) => apply A_byte
  | |- is_byte (Argb.R _) => apply R_byte
  | |- is_byte (Argb.G _) => apply G_byte
  | |- is_byte (Argb.B _) => apply B_byte
  | |- is_byte (interp _ _ _) => apply interp_byte; channel
  | |- is_byte (interp4 _ _ _ _ _ _) => unfold interp4; channel
  | |- interp4 _ _ _ _ _ _ <= interp4 _ _ _ _ _ _ => unfold interp4; channel
  | |- interp _ _ _ <= interp _ _ _ => apply interp_mono; channel
  | |- is_byte 255 => unfold is_byte; lia
  | |- ?x <= 255 => assert (is_byte x) by channel; unfold is_byte in *; lia
  | _ => assumption
  end.

Lemma interpolate2points_ok p q f :
  is_frac f -> premul p -> premul q -> pixel_ok (interpolate2points p q f).
Proof.
  intros Hf (? & ? & ?) (? & ? & ?). unfold interpolate2points, pixel_ok. apply argb_premul; channel.
Qed.

Lemma interpolate2pointsNoAlpha_ok p q f :
  is_frac f -> pixel_ok (interpolate2pointsNoAlpha p q f).
Proof.
  intros Hf. unfold interpolate2pointsNoAlpha, pixel_ok.
  apply argb_premul; channel.
Qed.

Lemma interpolate4points_ok p q r s h v :
  is_frac h -> is_frac v -> premul p -> premul q -> premul r -> premul s ->
  pixel_ok (interpolate4points p q r s h v).
Proof.
  intros Hh Hv (? & ? & ?) (? & ? & ?) (? & ? & ?) (? & ? & ?). unfold interpolate4points, pixel_ok.
  apply argb_premul; channel.
Qed.

Lemma interpolate4pointsNoAlpha_ok p q r s h v :
  is_frac h -> is_frac v -> pixel_ok (interpolate4pointsNoAlpha p q r s h v).
Proof.
  intros Hh Hv. unfold interpolate4pointsNoAlpha, pixel_ok.
  apply argb_premul; channel.
Qed.

Lemma blend_points_ok alpha p00 p0 p1 p2 h v :
  is_frac h -> is_frac v -> pixel_ok p00 -> premul p0 -> premul p1 -> premul p2 ->
  pixel_ok (blend_points alpha p00 (p0, p1, p2) h v).
Proof.
  intros Hh Hv [Hp Hi] H0 H1 H2. unfold blend_points.
  destruct (truth h && truth v); [|destruct (truth h); [|destruct (truth v)]].
  - destruct alpha; [by apply interpolate4points_ok|by apply interpolate4pointsNoAlpha_ok].
  - destruct alpha; [by apply interpolate2points_ok|by apply interpolate2pointsNoAlpha_ok].
  - destruct alpha; [by apply interpolate2points_ok|by apply interpolate2pointsNoAlpha_ok].
  - by split.
Qed.

(** [interp] is linear interpolation rounded to the nearest integer, never
    outside its end points, for byte channels and 16-bit fractions: there is
    no overflow in its 32-bit arithmetic. *)
Lemma interp_correct x0 x1 f :
  is_byte x0 -> is_byte x1 -> is_frac f ->
  Z.abs (65536 * interp x0 x1 f - ((65536 - f) * x0 + f * x1)) <= 32768 /\
  Z.min x0 x1 <= interp x0 x1 f <= Z.max x0 x1.
Proof.
  intros H0 H1 Hf. split.
  - rewrite interp_eq by done. unfold is_frac in *. zlia.
  - pose proof (interp_mono x0 x1 (Z.max x0 x1) (Z.max x0 x1) f).
    pose proof (interp_mono (Z.min x0 x1) (Z.min x0 x1) x0 x1 f).
    pose proof (interp_same (Z.max x0 x1) f). pose proof (interp_same (Z.min x0 x1) f).
    unfold is_byte, is_frac in *. lia.
Qed.


(** [pad] brings every [jint] into the gradient's range: it clamps, repeats
    with period 65536, or reflects with period 131072, by the cycle method, so
    that the shifted result is always an index of the 256 colours. *)
Lemma pad_correct ifrac m :
  is_i32 ifrac -> m = CYCLE_NONE \/ m = CYCLE_REPEAT \/ m = CYCLE_REFLECT ->
  is_frac (pad ifrac m) /\ 0 <= pad ifrac m >> 8 < GRADIENT_MAP_SIZE /\
  (m = CYCLE_NONE -> pad ifrac m = Z.max 0 (Z.min ifrac 65535)) /\
  (m = CYCLE_REPEAT -> pad ifrac m = ifrac mod 65536) /\
  (m = CYCLE_REFLECT -> ifrac <> -2147483648 ->
   let k := Z.abs ifrac mod 131072 in pad ifrac m = Z.min k (131071 - k)).
Proof.
  intros Hi Hm. assert (is_frac (pad ifrac m)) as Hp.
  { unfold pad, is_frac. destruct Hm as [-> |[-> | ->]]; simpl; bits; repeat case_match; zlia. }
  split; [done|]. split; [unfold is_frac, GRADIENT_MAP_SIZE in *; bits; zlia|].
  split; [|split].
  - intros ->. unfold pad. simpl. zcase; lia.
  - intros ->. unfold pad. simpl. by bits.
  - intros -> Hne. unfold pad, is_i32 in *. simpl. bits.
    destruct (Z.ltb_spec ifrac 0).
    + rewrite i32_id by (unfold is_i32; lia). replace (Z.abs ifrac) with (- ifrac) by lia. zcase; zlia.
    + replace (Z.abs ifrac) with ifrac by lia. zcase; zlia.
Qed.


(** ** Lemmas: positions in the image *)

(** An image whose rows lie in its array, with the bounds of the part to draw
    inside it; an image that is interpolated has at least two rows and columns. *)
Record texture_ok (t : Texture) (txt : list Z * Z) : Prop := {
  tk_off : 0 <= txt.2;
  tk_w : 1 <= _texture_imageWidth t <= 32767;
  tk_h : 1 <= _texture_imageHeight t <= 32767;
  tk_stride : _texture_imageWidth t <= _texture_stride t;
  tk_len : txt.2 + (_texture_imageHeight t - 1) * _texture_stride t + _texture_imageWidth t
           <= alen txt.1;
  tk_max : alen txt.1 <= 2147483647;
  tk_x : 0 <= _texture_txMin t <= _texture_txMax t + 1;
  tk_x' : _texture_txMax t <= _texture_imageWidth t - 1;
  tk_y : 0 <= _texture_tyMin t <= _texture_tyMax t + 1;
  tk_y' : _texture_tyMax t <= _texture_imageHeight t - 1;
  tk_pixels : Forall pixel_ok txt.1;
  tk_smooth : _texture_interpolate t = true ->
              2 <= _texture_imageWidth t /\ 2 <= _texture_imageHeight t;
}.

Definition mode_smooth (m : Mode) : bool :=
  match m with NO_REPEAT_NO_INTERPOLATE | REPEAT_NO_INTERPOLATE => false | _ => true end.

Lemma mode_smooth_eq t : mode_smooth (repeatInterpolateMode t) = _texture_interpolate t.
Proof. unfold repeatInterpolateMode. by repeat case_match. Qed.

Lemma mode_repeats_eq t : mode_repeats (repeatInterpolateMode t) = _texture_repeat t.
Proof. unfold repeatInterpolateMode. by repeat case_match. Qed.

(** A position that the bounds checks let pass: one column or row before the
    first is possible. *)
Definition pos_ok (n a : Z) : Prop := -1 <= a <= n - 1.

Lemma checkBoundsRepeat_ok a la mn mx n :
  1 <= n <= 32767 -> -1 <= mn -> mx <= n - 1 ->
  exists a' la', checkBoundsRepeat a la mn mx = Some (a', la') /\ pos_ok n a'.
Proof.
  intros Hn Hmn Hmx. unfold checkBoundsRepeat, pos_ok.
  destruct ((a <? mn) || (mx <? a)) eqn:E.
  - destruct (Z.leb_spec 0 mx); [|eexists _, _; split; [done|lia]].
    rewrite shl16, i32_id by (unfold is_i32; lia). rewrite lmod_mod by lia. simpl.
    eexists _, _. split; [done|]. bits. rewrite i32_id by (unfold is_i32; zlia). zlia.
  - apply orb_false_iff in E as [?%Z.ltb_ge ?%Z.ltb_ge]. eexists _, _. split; [done|]. lia.
Qed.

Lemma checkBoundsNoRepeat_ok a mn mx n :
  -1 <= mn -> mx <= n - 1 -> mn <= mx -> pos_ok n (checkBoundsNoRepeat a mn mx).
Proof. intros. unfold checkBoundsNoRepeat, pos_ok. zcase; lia. Qed.

Section Texel.
Context (t : Texture) (txt : list Z * Z).
Hypothesis Hok : texture_ok t txt.

(** The texel at a column and a row of the image. *)
Lemma tld_in r c :
  0 <= r < _texture_imageHeight t -> 0 <= c < _texture_imageWidth t ->
  exists p, tld txt (r * _texture_stride t + c) = Some p /\ pixel_ok p.
Proof using Hok.
  intros Hr Hc. destruct Hok. unfold tld.
  destruct (ld_in txt.1 (txt.2 + (r * _texture_stride t + c))) as [p Hp]; [nia|].
  exists p. split; [done|]. unfold ld in Hp. case_match; [|done].
  by eapply (Forall_lookup_1 _ _ _ _ tk_pixels0).
Qed.

Lemma sidx_eq r c :
  0 <= r < _texture_imageHeight t -> 0 <= c < _texture_imageWidth t ->
  i32 (r * _texture_stride t + c) = r * _texture_stride t + c.
Proof using Hok. intros. destruct Hok. apply i32_id. unfold is_i32. nia. Qed.

(** The neighbours that the two routines read are in the image. *)
Lemma getPoints_ok tx ty p00 (rep : bool) :
  _texture_interpolate t = true ->
  pos_ok (_texture_imageWidth t) tx -> pos_ok (_texture_imageHeight t) ty -> pixel_ok p00 ->
  let w1 := _texture_imageWidth t - 1 in let h1 := _texture_imageHeight t - 1 in
  let sidx := Z.max 0 ty * _texture_stride t + Z.max 0 tx in
  exists p0 p1 p2,
    (if rep then getPointsToInterpolateRepeat txt sidx (_texture_stride t) p00 tx w1 ty h1
     else getPointsToInterpolate txt sidx (_texture_stride t) p00 tx w1 ty h1) = Some (p0, p1, p2) /\
    premul p0 /\ premul p1 /\ premul p2.
Proof using Hok.
  intros Hs Hx Hy Hp. cbv zeta. destruct (tk_smooth _ _ Hok Hs) as [W2 H2].
  unfold pos_ok in *. set (r := Z.max 0 ty) in *. set (c := Z.max 0 tx) in *.
  set (s := _texture_stride t) in *.
  assert (forall r c, 0 <= r < _texture_imageHeight t -> 0 <= c < _texture_imageWidth t ->
            exists p, tld txt (r * s + c) = Some p /\ premul p) as Hat.
  { intros r' c' Hr Hc. destruct (tld_in r' c' Hr Hc) as (p & E & [Hpm _]). by exists p. }
  set (r2 := if _texture_imageHeight t - 1 <=? ty then (if rep then 0 else r) else r + 1).
  assert (0 <= r2 < _texture_imageHeight t) as Hr2 by (unfold r2, r; destruct rep; zcase; lia).
  set (c2 := if tx <? _texture_imageWidth t - 1 then c + 1 else if rep then 0 else c).
  assert (0 <= c2 < _texture_imageWidth t) as Hc2 by (unfold c2, c; destruct rep; zcase; lia).
  assert ((if _texture_imageHeight t - 1 <=? ty then (if rep then Z.max tx 0 else r * s + c)
           else i32 (r * s + c + s)) = r2 * s + c) as E2.
  { unfold r2. zcase; [destruct rep; unfold c; lia|].
    replace (r * s + c + s) with ((r + 1) * s + c) by lia. apply sidx_eq; unfold r, c; lia. }
  destruct (Hat r c2) as (p0 & E0 & P0); [unfold r; lia|done|].
  destruct (Hat r2 c) as (p1 & E1 & P1); [done|unfold c; lia|].
  destruct (Hat r2 c2) as (p2 & E3 & P2); [done..|].
  destruct rep; unfold getPointsToInterpolateRepeat, getPointsToInterpolate; rewrite E2;
    unfold c2 in *; destruct (tx <? _texture_imageWidth t - 1).
  1, 3: rewrite <- !Z.add_assoc; rewrite E0, E1, E3; eauto 10.
  - replace (r * s + c - Z.max tx 0) with (r * s + 0) by (unfold c; lia).
    replace (r2 * s + c - Z.max tx 0) with (r2 * s + 0) by (unfold c; lia).
    rewrite E0, E1, E3. eauto 10.
  - rewrite E1. destruct Hp. simpl. eauto 10.
Qed.

(** Every position that the checks let pass has a colour. *)
Lemma texel_ok tx ty h v :
  pos_ok (_texture_imageWidth t) tx -> pos_ok (_texture_imageHeight t) ty ->
  is_frac h -> is_frac v ->
  exists c, texel (repeatInterpolateMode t) t txt tx ty h v = Some c /\ pixel_ok c.
Proof using Hok.
  intros Hx Hy Hh Hv. unfold texel. cbv zeta.
  assert (0 <= Z.max 0 ty < _texture_imageHeight t) as Br.
  { pose proof (tk_h _ _ Hok). unfold pos_ok in *. lia. }
  assert (0 <= Z.max 0 tx < _texture_imageWidth t) as Bc.
  { pose proof (tk_w _ _ Hok). unfold pos_ok in *. lia. }
  rewrite sidx_eq by done.
  destruct (tld_in _ _ Br Bc) as (p00 & -> & Hp). cbn [mbind option_bind].
  rewrite !(i32_id (_ - 1)) by (destruct Hok; unfold is_i32; lia).
  pose proof (mode_smooth_eq t) as Em.
  pose proof (fun rep Hs => getPoints_ok tx ty p00 rep Hs Hx Hy Hp) as Hg. cbv zeta in Hg.
  destruct (repeatInterpolateMode t); simpl in Em;
    try (exists p00; split; [done|exact Hp]).
  1, 2: destruct (Hg false (eq_sym Em)) as (p0 & p1 & p2 & -> & P0 & P1 & P2); cbn [mbind option_bind];
        eexists; split; [done|]; by apply blend_points_ok.
  1, 2: destruct (Hg true (eq_sym Em)) as (p0 & p1 & p2 & -> & P0 & P1 & P2); cbn [mbind option_bind];
        eexists; split; [done|]; by apply blend_points_ok.
Qed.

Lemma bounds_x : -1 <= i32 (_texture_txMin t - 1) <= _texture_txMax t.
Proof using Hok. destruct Hok. rewrite i32_id by (unfold is_i32; lia). lia. Qed.

Lemma bounds_y : -1 <= i32 (_texture_tyMin t - 1) <= _texture_tyMax t.
Proof using Hok. destruct Hok. rewrite i32_id by (unfold is_i32; lia). lia. Qed.

Lemma translate_px_ok ty h v ltx :
  pos_ok (_texture_imageHeight t) ty -> is_frac h -> is_frac v ->
  exists c ltx', translate_px (repeatInterpolateMode t) t txt ty h v ltx = Some (c, ltx') /\ pixel_ok c.
Proof using Hok.
  intros Hy Hh Hv. unfold translate_px. cbv zeta. pose proof bounds_x as Bx.
  destruct Hok as [_ Hw _ _ _ _ _ Hx' _ _ _ _].
  destruct (mode_repeats _).
  - destruct (checkBoundsRepeat_ok (i32 (ltx >> 16)) ltx (i32 (_texture_txMin t - 1))
      (_texture_txMax t) (_texture_imageWidth t)) as (a & la & -> & Ha); [lia..|].
    cbn [mbind option_bind]. destruct (texel_ok a ty h v) as (c & -> & Hc); [done..|]. eauto.
  - cbn [mbind option_bind].
    destruct (texel_ok (checkBoundsNoRepeat (i32 (ltx >> 16)) (i32 (_texture_txMin t - 1))
      (_texture_txMax t)) ty h v) as (c & -> & Hc); [|done..|eauto].
    apply checkBoundsNoRepeat_ok; lia.
Qed.

Lemma affine_px_ok generic ltx lty :
  exists c ltx' lty', affine_px generic (repeatInterpolateMode t) t txt ltx lty
                      = Some (c, ltx', lty') /\ pixel_ok c.
Proof using Hok.
  unfold affine_px. cbv zeta. pose proof bounds_x as Bx. pose proof bounds_y as By.
  pose proof (land_frac ltx) as Fx. pose proof (land_frac lty) as Fy.
  pose proof (tk_w _ _ Hok). pose proof (tk_h _ _ Hok).
  pose proof (tk_x' _ _ Hok). pose proof (tk_y' _ _ Hok).
  destruct (mode_repeats _); [|destruct generic].
  - destruct (checkBoundsRepeat_ok (i32 (ltx >> 16)) ltx (i32 (_texture_txMin t - 1))
      (_texture_txMax t) (_texture_imageWidth t)) as (a & la & -> & Ha); [lia..|].
    destruct (checkBoundsRepeat_ok (i32 (lty >> 16)) lty (i32 (_texture_tyMin t - 1))
      (_texture_tyMax t) (_texture_imageHeight t)) as (b & lb & -> & Hb); [lia..|].
    cbn [mbind option_bind]. destruct (texel_ok a b _ _ Ha Hb Fx Fy) as (c & -> & Hc).
    cbn [mbind option_bind]. eauto.
  - destruct (isInBoundsNoRepeat _ _ _ && _) eqn:E.
    + apply andb_true_iff in E as [E1 E2]. unfold isInBoundsNoRepeat in E1, E2.
      apply negb_true_iff, orb_false_iff in E1 as [?%Z.ltb_ge ?%Z.ltb_ge].
      apply negb_true_iff, orb_false_iff in E2 as [?%Z.ltb_ge ?%Z.ltb_ge].
      destruct (texel_ok (i32 (ltx >> 16)) (i32 (lty >> 16)) (ltx .& 65535) (lty .& 65535))
        as (c & -> & Hc); [unfold pos_ok; lia..|done|done|]. cbn [mbind option_bind]. eauto.
    + cbn [mbind option_bind]. eexists _, _, _. split; [done|]. by split; [vm_compute; intuition discriminate|].
  - destruct (texel_ok (checkBoundsNoRepeat (i32 (ltx >> 16)) (i32 (_texture_txMin t - 1)) (_texture_txMax t))
      (checkBoundsNoRepeat (i32 (lty >> 16)) (i32 (_texture_tyMin t - 1)) (_texture_tyMax t))
      (ltx .& 65535) (lty .& 65535)) as (c & -> & Hc); [apply checkBoundsNoRepeat_ok; lia..|done|done|].
    cbn [mbind option_bind]. eauto.
Qed.
End Texel.

(** ** Lemmas: filling the paint buffer *)

(** The first [n] entries hold colours with a property, the others are as before. *)
Definition painted (P : Z -> Z -> Prop) (n : Z) (before after : list Z) : Prop :=
  length after = length before /\
  (forall i, 0 <= i < n -> exists c, ld after i = Some c /\ P i c) /\
  (forall i, n <= i -> ld after i = ld before i).

Lemma painted_0 P before : painted P 0 before before.
Proof. split; [done|]. split; [lia|done]. Qed.

Lemma ld_insert l (i j : Z) c :
  0 <= i < alen l -> ld (<[Z.to_nat i := c]> l) j = if j =? i then Some c else ld l j.
Proof.
  intros Hi. unfold ld, alen in *. destruct (Z.eqb_spec j i) as [-> |].
  - zcase; [|lia]. by rewrite list_lookup_insert_eq by lia.
  - zcase; [|done]. by rewrite list_lookup_insert_ne by lia.
Qed.

(** One more colour. *)
Lemma painted_snoc P n before after c :
  painted P n before after -> 0 <= n < alen before -> P n c ->
  exists after', st after n c = Some after' /\ painted P (n + 1) before after'.
Proof.
  intros (L & H1 & H2) Hn HP. unfold alen in *.
  rewrite st_in by (unfold alen; lia). eexists. split; [done|]. split; [by rewrite length_insert|].
  split; intros i Hi; rewrite ld_insert by (unfold alen; lia); destruct (Z.eqb_spec i n) as [-> |].
  - eauto.
  - apply H1. lia.
  - lia.
  - apply H2. lia.
Qed.

(** The loop over a row of [w] pixels from position [p].  It carries along a [T],
    from which [px] computes a colour and the next [T]; [emb] is the shape of
    the loop's state, and [R] relates what is carried to the pixel's index. *)
Lemma row_fill {S T} (emb : list Z -> Z -> T -> S) (px : T -> option (Z * T))
    (P : Z -> Z -> Prop) (R : Z -> T -> Prop) body before p w t0 paint :
  (forall a i t, 0 <= i < 2147483647 ->
     body (emb a i t) = '(c, t') ← px t; a ← st a i c; Some (emb a (i + 1) t')) ->
  0 <= w -> 0 <= p -> p + w <= alen before -> alen before <= 2147483647 ->
  painted P p before paint -> R 0 t0 ->
  (forall k t, 0 <= k < w -> R k t -> exists c t', px t = Some (c, t') /\ P (p + k) c /\ R (k + 1) t') ->
  exists a t, for_ (Z.to_nat w) body (emb paint p t0) = Some (emb a (p + w) t) /\
    painted P (p + w) before a.
Proof.
  intros Hbody Hw Hp Hl Hm Ha HR0 Hstep.
  destruct (for_inv (fun n s => exists a t, s = emb a (p + Z.of_nat n) t /\
     painted P (p + Z.of_nat n) before a /\ R (Z.of_nat n) t) (Z.to_nat w) body (emb paint p t0))
    as (s & Es & a & t & -> & Hpa & _).
  - exists paint, t0. rewrite Z.add_0_r. done.
  - intros k s Hk (a & t & -> & Hpa & HR). rewrite Hbody by lia.
    destruct (Hstep (Z.of_nat k) t) as (c & t' & -> & HP & HR'); [lia|done|]. cbn [mbind option_bind].
    destruct (painted_snoc P (p + Z.of_nat k) before a c) as (a' & -> & Hpa'); [done|lia|done|].
    cbn [mbind option_bind]. eexists. split; [done|]. exists a', t'.
    replace (p + Z.of_nat (Datatypes.S k)) with (p + Z.of_nat k + 1) by lia.
    replace (Z.of_nat (Datatypes.S k)) with (Z.of_nat k + 1) by lia. done.
  - rewrite Z2Nat.id in * by done. eauto.
Qed.

(** The loop over the rows. *)
Lemma rows_fill (P : Z -> Z -> Prop) body before h w y0 :
  0 <= h -> 0 <= w -> h * w <= alen before -> alen before <= 2147483647 -> is_i32 y0 ->
  (forall j a, 0 <= j < h -> painted P (j * w) before a -> exists a',
     body (a, j * w, i32 (y0 + j)) = Some (a', i32 (j * w + w), i32 (i32 (y0 + j) + 1)) /\
     painted P (j * w + w) before a') ->
  exists a o y, for_ (Z.to_nat h) body (before, 0, y0) = Some (a, o, y) /\
    painted P (h * w) before a.
Proof.
  intros Hh Hw Hl Hm Hy Hrow.
  destruct (for_inv (fun n s => exists a, s = (a, Z.of_nat n * w, i32 (y0 + Z.of_nat n)) /\
     painted P (Z.of_nat n * w) before a) (Z.to_nat h) body (before, 0, y0))
    as (s & Es & a & -> & Hpa).
  - exists before. rewrite Z.mul_0_l, Z.add_0_r, i32_id by done. split; [done|apply painted_0].
  - intros j s Hj (a & -> & Hpa).
    destruct (Hrow (Z.of_nat j) a) as (a' & -> & Hpa'); [lia|done|].
    assert (0 <= Z.of_nat j * w /\ Z.of_nat j * w + w <= h * w) by nia.
    eexists. split; [done|]. exists a'.
    rewrite i32_add_l, (i32_id (Z.of_nat j * w + w)) by (unfold is_i32; lia).
    replace (Z.of_nat (Datatypes.S j) * w) with (Z.of_nat j * w + w) by lia.
    replace (y0 + Z.of_nat (Datatypes.S j)) with (y0 + Z.of_nat j + 1) by lia. done.
  - rewrite Z2Nat.id in * by done. eauto.
Qed.

(** ** Lemmas: the texture routines *)

(** What a paint routine needs of the renderer for a batch of [h] rows. *)
Record paint_pre (rdr : Renderer) (h : Z) (paint : list Z) : Prop := {
  pp_h : 0 <= h;
  pp_w : 0 <= _alphaWidth rdr;
  pp_len : h * _alphaWidth rdr <= alen paint;
  pp_max : alen paint <= 2147483647;
  pp_x : is_i32 (_currX rdr);
  pp_y : is_i32 (_currY rdr);
}.

Definition any_pixel (_ c : Z) : Prop := pixel_ok c.

Lemma texture_translate_ok rdr h txt paint :
  paint_pre rdr h paint -> texture_ok (_texture rdr) txt ->
  exists a, texture_translate rdr txt h paint = Some a /\
    painted any_pixel (h * _alphaWidth rdr) paint a.
Proof.
  intros [Hh Hw Hl Hm _ Hy] Hok. unfold texture_translate. cbv zeta.
  set (t := _texture rdr) in *. set (w := _alphaWidth rdr) in *.
  match goal with |- context [for_ (Z.to_nat h) ?b _] =>
    destruct (rows_fill any_pixel b paint h w (_currY rdr)) as (a & o & y & -> & Hp) end;
    try done; [|cbn [mbind option_bind]; eauto].
  intros j a Hj Hpa. cbv beta iota zeta. set (lty := i32 ((i32 (_currY rdr + j) << 16) + _texture_m12 t)).
  set (ltx := i32 ((_currX rdr << 16) + _texture_m02 t)).
  assert (exists ty lty', (if _texture_repeat t
      then checkBoundsRepeat (i32 (lty >> 16)) lty (i32 (_texture_tyMin t - 1)) (_texture_tyMax t)
      else Some (checkBoundsNoRepeat (i32 (lty >> 16)) (i32 (_texture_tyMin t - 1)) (_texture_tyMax t), lty))
      = Some (ty, lty') /\ pos_ok (_texture_imageHeight t) ty) as (ty & lty' & -> & Hty).
  { pose proof (bounds_y _ _ Hok). pose proof (tk_h _ _ Hok). pose proof (tk_y' _ _ Hok).
    case_match; [apply checkBoundsRepeat_ok; lia|].
    eexists _, _. split; [done|]. apply checkBoundsNoRepeat_ok; lia. }
  cbn [mbind option_bind].
  match goal with |- context [for_ (Z.to_nat w) ?b _] =>
    destruct (row_fill (fun a i (l : Z) => (a, i, l))
      (translate_px (repeatInterpolateMode t) t txt ty (ltx .& 65535) (lty .& 65535)) any_pixel
      (fun _ _ => True) b paint (j * w) w ltx a) as (a' & l & -> & Hpa') end; try done; try nia.
  - intros a0 i x Hi. destruct (translate_px _ _ _ _ _ _ x) as [[c x']|]; [|done].
    by rewrite i32_id by (unfold is_i32; lia).
  - intros k l Hk _. destruct (translate_px_ok t txt Hok ty (ltx .& 65535) (lty .& 65535) l)
      as (c & l' & -> & Hc); eauto using land_frac.
  - cbn [mbind option_bind]. eauto.
Qed.

Lemma texture_affine_ok generic rdr h txt paint :
  paint_pre rdr h paint -> texture_ok (_texture rdr) txt ->
  exists a, texture_affine generic rdr txt h paint = Some a /\
    painted any_pixel (h * _alphaWidth rdr) paint a.
Proof.
  intros [Hh Hw Hl Hm _ Hy] Hok. unfold texture_affine. cbv zeta.
  set (t := _texture rdr) in *. set (w := _alphaWidth rdr) in *.
  match goal with |- context [for_ (Z.to_nat h) ?b _] =>
    destruct (rows_fill any_pixel b paint h w (_currY rdr)) as (a & o & y & -> & Hp) end;
    try done; [|cbn [mbind option_bind]; eauto].
  intros j a Hj Hpa. cbv beta iota zeta.
  set (ltx := i32 (_currX rdr * _texture_m00 t + _ + _)). set (lty := i32 (_currX rdr * _texture_m10 t + _ + _)).
  match goal with |- context [for_ (Z.to_nat w) ?b _] =>
    destruct (row_fill (fun a i '(x, y) => (a, i, x, y))
      (fun '(x, y) => '(c, x, y) ← affine_px generic (repeatInterpolateMode t) t txt x y; Some (c, (x, y)))
      any_pixel (fun _ _ => True) b paint (j * w) w (ltx, lty) a) as (a' & l & -> & Hpa') end;
    try done; try nia.
  - intros a0 i [x y] Hi. destruct (affine_px _ _ _ _ x y) as [[[c x'] y']|]; [|done].
    by rewrite i32_id by (unfold is_i32; lia).
  - intros k [x y] Hk _. destruct (affine_px_ok t txt Hok generic x y) as (c & x' & y' & -> & Hc).
    cbn [mbind option_bind]. eauto.
  - destruct l as [x y]. cbn [mbind option_bind]. eauto.
Qed.

(** The identity transform with repetition: a torus. *)
Definition torus (t : Texture) (txt : list Z * Z) (x y : Z) : Z :=
  default 0 (tld txt ((y mod _texture_imageHeight t) * _texture_stride t
                      + x mod _texture_imageWidth t)).

Lemma torus_in t txt x y :
  texture_ok t txt ->
  tld txt ((y mod _texture_imageHeight t) * _texture_stride t + x mod _texture_imageWidth t)
    = Some (torus t txt x y) /\ pixel_ok (torus t txt x y).
Proof.
  intros Hok. unfold torus.
  destruct (tld_in t txt Hok (y mod _texture_imageHeight t) (x mod _texture_imageWidth t))
    as (p & -> & Hp); [| |done]; destruct Hok; apply Z.mod_pos_bound; lia.
Qed.

Lemma mod_next x n : 0 < n -> (x + 1) mod n = if x mod n + 1 =? n then 0 else x mod n + 1.
Proof. intros Hn. zcase; [|]; pose proof (Z.mod_pos_bound x n);
  pose proof (Z.div_mod x n); symmetry.
  - apply (Z.mod_unique_pos _ _ (x / n + 1)); lia || nia.
  - apply (Z.mod_unique_pos _ _ (x / n)); lia || nia.
Qed.

Lemma identity_row_ok t txt x y p w (P : Z -> Z -> Prop) before paint :
  texture_ok t txt -> 0 <= w -> 0 <= p -> p + w <= alen before -> alen before <= 2147483647 ->
  painted P p before paint -> (forall k, 0 <= k < w -> P (p + k) (torus t txt (x + k) y)) ->
  let tStart := (y mod _texture_imageHeight t) * _texture_stride t in
  exists a, identity_row txt tStart (tStart + x mod _texture_imageWidth t)
              (_texture_imageWidth t) p w paint = Some a /\ painted P (p + w) before a.
Proof.
  intros Hok Hw Hp Hl Hm Hpa HP. cbv zeta. unfold identity_row. cbv zeta.
  set (tStart := y mod _ * _). set (W := _texture_imageWidth t) in *.
  pose proof (tk_w _ _ Hok) as HW. fold W in HW.
  match goal with |- context [for_ (Z.to_nat w) ?b _] =>
    destruct (row_fill (fun a i (l : Z) => (a, i, l))
      (fun l => v ← tld txt l; Some (v, if l + 1 =? tStart + W then tStart else l + 1)) P
      (fun k l => l = tStart + (x + k) mod W) b before p w (tStart + x mod W) paint)
      as (a' & l & -> & Hpa') end; try done.
  - intros a i l Hi. destruct (tld txt l); done.
  - by rewrite Z.add_0_r.
  - intros k l Hk ->. destruct (torus_in t txt (x + k) y Hok) as [E _]. fold W tStart in E.
    rewrite E. cbn [mbind option_bind]. eexists _, _. split; [done|]. split; [by apply HP|].
    rewrite (Z.add_assoc x k 1), mod_next by lia. zcase; lia.
  - cbn [mbind option_bind]. eauto.
Qed.

Lemma texture_identity_repeat_ok rdr h txt paint :
  paint_pre rdr h paint -> texture_ok (_texture rdr) txt -> _texture_repeat (_texture rdr) = true ->
  0 <= _currX rdr -> 0 <= _currY rdr ->
  exists a, texture_identity rdr txt h paint = Some a /\
    painted (fun i c => exists j k, 0 <= j < h /\ 0 <= k < _alphaWidth rdr /\
               i = j * _alphaWidth rdr + k /\
               c = torus (_texture rdr) txt (_currX rdr + k) (_currY rdr + j))
      (h * _alphaWidth rdr) paint a.
Proof.
  intros [Hh Hw Hl Hm _ Hy] Hok Hrep Hx0 Hy0. unfold texture_identity. cbv zeta. rewrite Hrep.
  set (t := _texture rdr) in *. set (w := _alphaWidth rdr) in *. set (P := fun i c => _).
  pose proof (tk_w _ _ Hok) as HW. pose proof (tk_h _ _ Hok) as HH.
  destruct (Z.eqb_spec (_texture_imageWidth t) 0); [lia|].
  destruct (Z.eqb_spec (_texture_imageHeight t) 0); [lia|]. simpl orb. cbv iota.
  rewrite !Z.rem_mod_nonneg by lia.
  match goal with |- context [for_ (Z.to_nat h) ?b _] => destruct (for_inv (fun n s => exists a,
    s = (a, Z.of_nat n, (_currY rdr + Z.of_nat n) mod _texture_imageHeight t) /\
    painted P (Z.of_nat n * w) paint a) (Z.to_nat h) b
    (paint, 0, _currY rdr mod _texture_imageHeight t)) as (s & -> & a & -> & Hpa) end.
  - exists paint. rewrite Z.add_0_r, Z.mul_0_l. split; [done|apply painted_0].
  - intros j s Hj (a & -> & Hpa). cbv beta iota.
    pose proof (Z.mod_pos_bound (_currY rdr + Z.of_nat j) (_texture_imageHeight t)).
    assert (0 <= Z.of_nat j * w /\ Z.of_nat j * w + w <= h * w) by nia.
    rewrite (Z.mul_comm (_texture_stride t)), (i32_id (_ * _texture_stride t)) by
      (destruct Hok; unfold is_i32; nia).
    rewrite (Z.mul_comm w), (i32_id (Z.of_nat j * w)) by (unfold is_i32; lia).
    destruct (identity_row_ok t txt (_currX rdr) (_currY rdr + Z.of_nat j) (Z.of_nat j * w) w P paint a)
      as (a' & -> & Hpa'); try done; try lia.
    { intros k Hk. exists (Z.of_nat j), k. split; [lia|]. done. }
    cbn [mbind option_bind]. eexists. split; [done|]. exists a'. rewrite Nat2Z.inj_succ. unfold Z.succ.
    rewrite Z.add_assoc, mod_next, i32_id by (unfold is_i32; lia).
    split; [by zcase|]. by replace ((Z.of_nat j + 1) * w) with (Z.of_nat j * w + w) by lia.
  - cbn [mbind option_bind]. rewrite Z2Nat.id in Hpa by done. eauto.
Qed.

(** A block copy, entry by entry. *)
Lemma ld_copy dst di src si n out i :
  copy dst di src si n = Some out -> 0 < n ->
  length out = length dst /\
  ld out i = if (di <=? i) && (i <? di + n) then ld src (si + (i - di)) else ld dst i.
Proof.
  unfold copy. destruct (Z.leb_spec n 0); [lia|]. intros E _. case_match; [|done].
  injection E as <-. repeat (apply andb_true_iff in H0 as [H0 ?]). rewrite !Z.leb_le in *.
  rewrite !length_app, !length_take, !length_drop. split; [lia|].
  unfold ld. destruct (Z.leb_spec 0 i).
  2: { destruct (Z.leb_spec di i); [lia|]. done. }
  destruct (Z.leb_spec di i); simpl andb; cbv iota.
  2: { rewrite lookup_app_l by (rewrite length_take; lia). by rewrite lookup_take_lt by lia. }
  rewrite lookup_app_r by (rewrite length_take; lia). rewrite length_take.
  destruct (Z.ltb_spec i (di + n)).
  - rewrite lookup_app_l by (rewrite length_take, length_drop; lia).
    rewrite lookup_take_lt, lookup_drop by lia. destruct (Z.leb_spec 0 (si + (i - di))); [|lia].
    f_equal. lia.
  - rewrite lookup_app_r by (rewrite length_take, length_drop; lia).
    rewrite length_take, length_drop, lookup_drop. f_equal. lia.
Qed.

Lemma copy_painted P before paint p src si w :
  0 <= w -> 0 <= p -> p + w <= alen before -> 0 <= si -> si + w <= alen src ->
  painted P p before paint ->
  (forall k c, 0 <= k < w -> ld src (si + k) = Some c -> P (p + k) c) ->
  exists a, copy paint p src si w = Some a /\ painted P (p + w) before a.
Proof.
  intros Hw Hp Hl Hs Hsl (L & H1 & H2) HP. unfold alen in *.
  destruct (Z.eq_dec w 0) as [-> |Hw0].
  { unfold copy. simpl. rewrite Z.add_0_r. eexists. split; [done|]. by split. }
  destruct (copy paint p src si w) as [a|] eqn:E.
  2: { unfold copy in E. destruct (Z.leb_spec w 0); [lia|]. revert E. zcase; try lia; done. }
  exists a. split; [done|]. pose proof (fun i => ld_copy _ _ _ _ _ _ i E ltac:(lia)) as Hc.
  split; [rewrite (proj1 (Hc 0)); done|]. split; intros i Hi; rewrite (proj2 (Hc i)).
  - destruct (Z.leb_spec p i); simpl.
    + destruct (Z.ltb_spec i (p + w)); [|lia].
      destruct (ld_in src (si + (i - p))) as [c Hsc]; [unfold alen; lia|]. exists c. split; [done|].
      replace i with (p + (i - p)) by lia. apply HP; [lia|done].
    + apply H1. lia.
  - destruct (Z.ltb_spec i (p + w)); [lia|]. rewrite andb_false_r. apply H2. lia.
Qed.

(** Where the identity transform without repetition reads. *)
Record identity_place (rdr : Renderer) (h : Z) : Prop := {
  ip_x : Z.max (_rectX rdr) (_clip_bbMinX rdr) - _rectX rdr + _alphaWidth rdr
         <= _texture_imageWidth (_texture rdr);
  ip_row : 0 <= _rowNum rdr;
  ip_y : Z.max (_rectY rdr) (_clip_bbMinY rdr) - _rectY rdr + _rowNum rdr + h
         <= _texture_imageHeight (_texture rdr);
}.

Lemma texture_identity_copy_ok rdr h txt paint :
  paint_pre rdr h paint -> texture_ok (_texture rdr) txt -> _texture_repeat (_texture rdr) = false ->
  identity_place rdr h ->
  exists a, texture_identity rdr txt h paint = Some a /\
    painted any_pixel (h * _alphaWidth rdr) paint a.
Proof.
  intros [Hh Hw Hl Hm _ Hy] Hok Hrep [Px Pr Py]. unfold texture_identity. cbv zeta. rewrite Hrep.
  set (t := _texture rdr) in *. set (w := _alphaWidth rdr) in *.
  destruct (Z.ltb_spec w 0); [lia|].
  set (cx := Z.max (_rectX rdr) (_clip_bbMinX rdr) - _rectX rdr) in *.
  set (cy := Z.max (_rectY rdr) (_clip_bbMinY rdr) - _rectY rdr) in *.
  assert (0 <= cx /\ 0 <= cy) as [Cx Cy] by (unfold cx, cy; lia).
  destruct Hok as [K1 K2 K3 K4 K5 K6 _ _ _ _ K11 _]. set (s := _texture_stride t) in *.
  match goal with |- context [for_ (Z.to_nat h) ?b _] => destruct (for_inv (fun n st => exists a,
    st = (a, Z.of_nat n) /\ painted any_pixel (Z.of_nat n * w) paint a) (Z.to_nat h) b
    (paint, 0)) as (st & -> & a & -> & Hpa) end.
  - exists paint. rewrite Z.mul_0_l. split; [done|apply painted_0].
  - intros j st Hj (a & -> & Hpa). cbv beta iota.
    assert (0 <= Z.of_nat j * w /\ Z.of_nat j * w + w <= h * w) by nia.
    assert (0 <= cy * s /\ 0 <= s * (_rowNum rdr + Z.of_nat j) /\
      cy * s + s * (_rowNum rdr + Z.of_nat j) <= (_texture_imageHeight t - 1) * s) by nia.
    rewrite (Z.mul_comm w), (i32_id (Z.of_nat j * w)) by (unfold is_i32; lia).
    rewrite !i32_id by (unfold is_i32; lia).
    destruct (copy_painted any_pixel paint a (Z.of_nat j * w) txt.1
      (txt.2 + (cy * s + Z.max (_rectX rdr) (_clip_bbMinX rdr) - _rectX rdr)
       + s * (_rowNum rdr + Z.of_nat j)) w) as (a' & -> & Hpa'); try done; try lia.
    { intros k c Hk Hc. unfold ld in Hc. case_match; [|done].
      by apply (Forall_lookup_1 _ _ _ _ K11 Hc). }
    cbn [mbind option_bind]. eexists. split; [done|]. exists a'. rewrite Nat2Z.inj_succ. unfold Z.succ.
    split; [done|]. by replace ((Z.of_nat j + 1) * w) with (Z.of_nat j * w + w) by lia.
  - cbn [mbind option_bind]. rewrite Z2Nat.id in Hpa by done. eauto.
Qed.

(** ** Properties of the texture routines *)

(** What the identity transform needs in addition. *)
Definition identity_ok (rdr : Renderer) (h : Z) : Prop :=
  if _texture_repeat (_texture rdr) then 0 <= _currX rdr /\ 0 <= _currY rdr
  else identity_place rdr h.

Lemma painted_weaken (P Q : Z -> Z -> Prop) n before after :
  (forall i c, 0 <= i < n -> P i c -> Q i c) -> painted P n before after -> painted Q n before after.
Proof.
  intros H (H1 & H2 & H3). split; [done|]. split; [|done].
  intros i Hi. destruct (H2 i Hi) as (c & Hc & HP). eauto.
Qed.

Lemma genTexturePaintTarget_ok rdr h txt paint :
  paint_pre rdr h paint -> texture_ok (_texture rdr) txt -> _texture_intData (_texture rdr) = Some txt ->
  TEXTURE_TRANSFORM_IDENTITY <= _texture_transformType (_texture rdr) <= TEXTURE_TRANSFORM_GENERIC ->
  (_texture_transformType (_texture rdr) = TEXTURE_TRANSFORM_IDENTITY -> identity_ok rdr h) ->
  exists a, genTexturePaintTarget rdr paint h = Some a /\
    painted any_pixel (h * _alphaWidth rdr) paint a.
Proof.
  intros Hpre Hok Htxt Hk Hid. unfold genTexturePaintTarget. cbv zeta. rewrite Htxt.
  cbn [mbind option_bind].
  unfold TEXTURE_TRANSFORM_IDENTITY, TEXTURE_TRANSFORM_GENERIC, TEXTURE_TRANSFORM_TRANSLATE,
    TEXTURE_TRANSFORM_SCALE_TRANSLATE in *.
  destruct (Z.eqb_spec (_texture_transformType (_texture rdr)) 1) as [E|].
  { specialize (Hid E). unfold identity_ok in Hid. destruct (_texture_repeat (_texture rdr)) eqn:Er.
    - destruct Hid. destruct (texture_identity_repeat_ok rdr h txt paint) as (a & -> & Ha); try done.
      exists a. split; [done|]. eapply painted_weaken; [|exact Ha].
      intros i c _ (j & k & _ & _ & _ & ->). by apply torus_in.
    - by apply texture_identity_copy_ok. }
  destruct (Z.eqb_spec (_texture_transformType (_texture rdr)) 2); [by apply texture_translate_ok|].
  destruct (Z.eqb_spec (_texture_transformType (_texture rdr)) 3); [by apply texture_affine_ok|].
  destruct (Z.eqb_spec (_texture_transformType (_texture rdr)) 4); [by apply texture_affine_ok|lia].
Qed.


(** With the identity transform and repetition the paint buffer is the image
    tiled over the plane: pixel [(x, y)] of the batch gets the image's pixel at
    [x mod width], [y mod height]. *)
Lemma identity_repeat_tiles rdr h txt paint :
  paint_pre rdr h paint -> texture_ok (_texture rdr) txt -> _texture_intData (_texture rdr) = Some txt ->
  _texture_transformType (_texture rdr) = TEXTURE_TRANSFORM_IDENTITY ->
  _texture_repeat (_texture rdr) = true -> 0 <= _currX rdr -> 0 <= _currY rdr ->
  exists a, genTexturePaintTarget rdr paint h = Some a /\ length a = length paint /\
    forall j k, 0 <= j < h -> 0 <= k < _alphaWidth rdr ->
      ld a (j * _alphaWidth rdr + k) =
      tld txt (((_currY rdr + j) mod _texture_imageHeight (_texture rdr)) * _texture_stride (_texture rdr)
               + (_currX rdr + k) mod _texture_imageWidth (_texture rdr)).
Proof.
  intros Hpre Hok Htxt Hk Hrep Hx Hy. unfold genTexturePaintTarget. rewrite Hk, Htxt.
  cbn [mbind option_bind].
  destruct (texture_identity_repeat_ok rdr h txt paint) as (a & Ea & L & H1 & _); try done.
  exists a. split; [exact Ea|]. split; [done|]. intros j k Hj Hkk.
  destruct (H1 (j * _alphaWidth rdr + k)) as (c & -> & j' & k' & Hj' & Hk' & E & ->); [nia|].
  assert (j' = j /\ k' = k) as [-> ->].
  { assert (j' = j) by nia. subst. split; lia. }
  symmetry. by apply torus_in.
Qed.

(** Between the column before the first and the first one the colour is not
    that of the border: position [-1 + h] of an interpolated image gets the
    colour of position [h], because the neighbours are chosen after the column
    was clamped to 0 while the fraction was not. *)
Lemma texel_left_border m t txt ty h v :
  2 <= _texture_imageWidth t <= 32767 -> texel m t txt (-1) ty h v = texel m t txt 0 ty h v.
Proof.
  intros Hw. unfold texel. cbv zeta. simpl (Z.max 0 (-1)). simpl (Z.max 0 0).
  destruct (tld txt _); [|done]. cbn [mbind option_bind].
  unfold getPointsToInterpolate, getPointsToInterpolateRepeat. simpl (Z.max (-1) 0). simpl (Z.max 0 0).
  rewrite (i32_id (_texture_imageWidth t - 1)) by (unfold is_i32; lia).
  destruct (Z.ltb_spec (-1) (_texture_imageWidth t - 1)); [|lia].
  destruct (Z.ltb_spec 0 (_texture_imageWidth t - 1)); [|lia]. done.
Qed.

(** An image one pixel wide that is interpolated is read past its end: at the
    column before the first, the code takes the right neighbour of column 0. *)
Lemma narrow_texture_overread m t txt h v :
  mode_smooth m = true -> _texture_imageWidth t = 1 -> _texture_stride t = 1 ->
  1 <= _texture_imageHeight t <= 32767 -> 0 <= txt.2 ->
  alen txt.1 = txt.2 + _texture_imageHeight t ->
  texel m t txt (-1) (_texture_imageHeight t - 1) h v = None.
Proof.
  intros Hm Hw Hs Hh Ho Hl. unfold texel. cbv zeta. rewrite Hw, Hs.
  simpl (Z.max 0 (-1)). rewrite Z.mul_1_r, Z.add_0_r, Z.max_r by lia.
  rewrite !i32_id by (unfold is_i32; lia).
  assert (tld txt (_texture_imageHeight t - 1 + 1) = None) as E.
  { unfold tld, ld. case_match; [|done]. apply lookup_ge_None. unfold alen in Hl. lia. }
  destruct (tld txt (_texture_imageHeight t - 1)); [|done]. cbn [mbind option_bind].
  destruct m; try discriminate Hm; unfold getPointsToInterpolate, getPointsToInterpolateRepeat;
    simpl (_ <? _); cbv iota; by rewrite E.
Qed.

(** ** Properties of the gradients *)

(** The position on the gradient of pixel [k] of row [j] of a batch, as the code
    accumulates it. *)
Definition linear_frac (rdr : Renderer) (j k : Z) : jfloat :=
  let g := _gradient rdr in
  Nat.iter (Z.to_nat k) (fun f => F32.add f (_lg_mx g))
    (F32.add (F32.add (F32.mul (F32.of_Z (_currX rdr)) (_lg_mx g))
                      (F32.mul (F32.of_Z (i32 (_currY rdr + j))) (_lg_my g))) (_lg_b g)).

Lemma gradient_color_in colors m z :
  alen colors = GRADIENT_MAP_SIZE -> m = CYCLE_NONE \/ m = CYCLE_REPEAT \/ m = CYCLE_REFLECT ->
  is_i32 z -> exists c, gradient_color colors m z = Some c /\ c ∈ colors.
Proof.
  intros Hl Hm Hz. unfold gradient_color. simpl (16 - LG_GRADIENT_MAP_SIZE).
  assert (0 <= pad z m <= 65535) as Hp.
  { unfold pad. destruct Hm as [-> |[-> | ->]]; simpl; bits; repeat case_match; zlia. }
  destruct (ld_in colors (pad z m >> 8)) as [c Hc].
  { unfold GRADIENT_MAP_SIZE in Hl. rewrite Hl. bits. zlia. }
  exists c. split; [done|]. unfold ld in Hc. case_match; [|done]. by eapply list_elem_of_lookup_2.
Qed.


(** What a row of the radial gradient carries along: [U], [V] and [dV] at pixel
    [k] of row [j]. *)
Definition radial_next (dU ddV : jfloat) (s : jfloat * jfloat * jfloat) : jfloat * jfloat * jfloat :=
  let '(U, V, dV) := s in
  let V := if F32.lt V (S754_zero false) then S754_zero false else V in
  (F32.add U dU, F32.add V dV, F32.add dV ddV).

Definition radial_at (rdr : Renderer) (j k : Z) : jfloat * jfloat * jfloat :=
  let '(U, V, dU, dV, ddV) := radial_row rdr (_currX rdr) (i32 (_currY rdr + j)) in
  Nat.iter (Z.to_nat k) (radial_next dU ddV) (U, V, dV).

(** The position on the gradient: the root of a negative [V] is taken of zero. *)
Definition radial_frac (s : jfloat * jfloat * jfloat) : option Z :=
  let '(U, V, _) := s in
  radial_index U (if F32.lt V (S754_zero false) then S754_zero false else V).

(** The same for [genRadialGradientPaint], whose position is the sum of a
    linear term and the root of a quadratic one, both accumulated. *)
Lemma genRadialGradientPaint_spec rdr h paint :
  let g := _gradient rdr in
  paint_pre rdr h paint -> _paint rdr = Some paint ->
  alen (_gradient_colors g) = GRADIENT_MAP_SIZE ->
  (_gradient_cycleMethod g = CYCLE_NONE \/ _gradient_cycleMethod g = CYCLE_REPEAT \/
   _gradient_cycleMethod g = CYCLE_REFLECT) ->
  (forall j k, 0 <= j < h -> 0 <= k < _alphaWidth rdr ->
     exists z, radial_frac (radial_at rdr j k) = Some z) ->
  exists a, genRadialGradientPaint rdr h = Some (set_paint (Some a) rdr) /\
    painted (fun i c => c ∈ _gradient_colors g /\
       exists j k z, i = j * _alphaWidth rdr + k /\ 0 <= k < _alphaWidth rdr /\
         radial_frac (radial_at rdr j k) = Some z /\
         gradient_color (_gradient_colors g) (_gradient_cycleMethod g) z = Some c)
      (h * _alphaWidth rdr) paint a.
Proof.
  intros g [Hh Hw Hl Hm _ Hy] Hp Hc Hcy Hz. unfold genRadialGradientPaint. fold g. cbv zeta.
  rewrite Hp. cbn [mbind option_bind]. set (w := _alphaWidth rdr) in *. set (P := fun i c => _).
  match goal with |- context [for_ (Z.to_nat h) ?b _] =>
    destruct (rows_fill P b paint h w (_currY rdr)) as (a & o & y & -> & Hpa) end;
    try done; [|cbn [mbind option_bind]; eauto].
  intros j a Hj Hpa. specialize (Hz j). unfold radial_at in Hz. cbv beta iota.
  destruct (radial_row rdr (_currX rdr) (i32 (_currY rdr + j))) as [[[[U V] dU] dV] ddV] eqn:Er.
  match goal with |- context [for_ (Z.to_nat w) ?b _] =>
    destruct (row_fill (fun a i '(U, V, dV) => (a, i, U, V, dV))
      (fun s => z ← radial_frac s; c ← gradient_color (_gradient_colors g) (_gradient_cycleMethod g) z;
                Some (c, radial_next dU ddV s)) P
      (fun k s => s = Nat.iter (Z.to_nat k) (radial_next dU ddV) (U, V, dV)) b paint (j * w) w (U, V, dV) a)
      as (a' & l & -> & Hpa') end; try done; try nia.
  - intros a0 i [[U0 V0] dV0] Hi. unfold radial_frac. destruct (radial_index _ _); [|done].
    cbn [mbind option_bind]. destruct (gradient_color _ _ _); [|done]. cbn [mbind option_bind].
    by rewrite i32_id by (unfold is_i32; lia).
  - intros k s Hk ->. destruct (Hz k Hj Hk) as [z Ez]. rewrite Ez. cbn [mbind option_bind].
    destruct (gradient_color_in (_gradient_colors g) (_gradient_cycleMethod g) z) as (c & E & Hin); [done..| |].
    { revert Ez. destruct (Nat.iter _ _ _) as [[? ?] ?]. apply to_jint_i32. }
    rewrite E. cbn [mbind option_bind]. eexists _, _. split; [done|]. split.
    { split; [done|]. exists j, k, z. unfold radial_at. by rewrite Er. }
    by rewrite Z2Nat.inj_add, Nat.add_comm by lia.
  - destruct l as [[? ?] ?]. cbn [mbind option_bind]. eauto.
Qed.

(** ** An image times a colour *)

Lemma scaled_channel p t : is_byte p -> is_byte t -> 0 <= i32 ((p + 1) * t) >> 8 <= t.
Proof.
  unfold is_byte. intros. rewrite i32_id by (unfold is_i32; nia). bits.
  split; [apply Z.div_pos; nia|apply Z.div_le_upper_bound; nia].
Qed.

Lemma scaled_channel_255 t : is_byte t -> i32 ((255 + 1) * t) >> 8 = t.
Proof.
  unfold is_byte. intros. rewrite i32_id by (unfold is_i32; nia). bits.
  by rewrite (Z.mul_comm (255 + 1)), Z.div_mul.
Qed.

Lemma scaled_channel_mono p t u : is_byte p -> is_byte t -> is_byte u -> t <= u ->
  i32 ((p + 1) * t) >> 8 <= i32 ((p + 1) * u) >> 8.
Proof.
  unfold is_byte. intros. rewrite !i32_id by (unfold is_i32; nia). bits. apply Z.div_le_mono; nia.
Qed.

(** The two short cuts for white are instances of the product. *)
Lemma mul_color_white a v : mul_color a 255 255 255 v = mul_alpha a v.
Proof.
  unfold mul_color, mul_alpha. cbv zeta.
  rewrite !scaled_channel_255 by channel.
  by rewrite !(Z.mul_comm _ (a + 1)).
Qed.

Lemma mul_alpha_opaque v : is_i32 v -> mul_alpha 255 v = v.
Proof.
  intros Hv. unfold mul_alpha. cbv zeta.
  rewrite !scaled_channel_255 by channel.
  by apply argb_channels_id.
Qed.

Lemma mul_color_ok a r g b v :
  is_byte a -> is_byte r -> is_byte g -> is_byte b -> premul v -> pixel_ok (mul_color a r g b v).
Proof.
  intros Ha Hr Hg Hb (H1 & H2 & H3). unfold mul_color, pixel_ok. cbv zeta.
  pose proof (A_byte v) as BA. pose proof (R_byte v) as BR.
  pose proof (G_byte v) as BG. pose proof (B_byte v) as BB.
  assert (forall p t, is_byte p -> is_byte t -> t <= Argb.A v ->
    is_byte (i32 ((i32 ((p + 1) * t) >> 8) * (a + 1)) >> 8) /\
    i32 ((i32 ((p + 1) * t) >> 8) * (a + 1)) >> 8 <= i32 ((a + 1) * Argb.A v) >> 8) as Hch.
  { intros p t Hp Ht Hle. pose proof (scaled_channel p t Hp Ht) as Hs.
    set (u := i32 ((p + 1) * t) >> 8) in *. assert (is_byte u) as Hu by (unfold is_byte in *; lia).
    rewrite (Z.mul_comm u). pose proof (scaled_channel a u Ha Hu).
    pose proof (scaled_channel_mono a u (Argb.A v) Ha Hu BA). unfold is_byte in *. lia. }
  pose proof (scaled_channel a (Argb.A v) Ha BA) as Hal.
  destruct (Hch r (Argb.R v)) as [? ?]; [done..|]. destruct (Hch g (Argb.G v)) as [? ?]; [done..|].
  destruct (Hch b (Argb.B v)) as [? ?]; [done..|].
  apply argb_premul; try done. unfold is_byte in *. lia.
Qed.

(** [map_paint] over a contiguous batch applies its function to every entry. *)
Lemma map_paint_ok h w f g paint :
  0 <= h -> 0 <= w -> h * w <= alen paint -> alen paint <= 2147483647 ->
  (forall p i, f p i = v ← ld p i; g i v) ->
  (forall i v, 0 <= i < h * w -> ld paint i = Some v -> exists c, g i v = Some c) ->
  exists a, map_paint h w w f paint = Some a /\
    painted (fun i c => exists v, ld paint i = Some v /\ g i v = Some c) (h * w) paint a.
Proof.
  intros Hh Hw Hl Hm Hf Hg. unfold map_paint. set (P := fun i c => _).
  match goal with |- context [for_ (Z.to_nat h) ?b _] => destruct (for_inv (fun n st => exists a,
    st = (a, Z.of_nat n) /\ painted P (Z.of_nat n * w) paint a) (Z.to_nat h) b
    (paint, 0)) as (st & -> & a & -> & Hpa) end.
  - exists paint. rewrite Z.mul_0_l. split; [done|apply painted_0].
  - intros j st Hj (a & -> & Hpa). cbv beta iota zeta.
    assert (0 <= Z.of_nat j * w /\ Z.of_nat j * w + w <= h * w) by nia.
    rewrite i32_id by (unfold is_i32; lia).
    match goal with |- context [for_ (Z.to_nat w) ?b _] => destruct (for_inv (fun n st => exists a,
      st = (a, Z.of_nat n) /\ painted P (Z.of_nat j * w + Z.of_nat n) paint a) (Z.to_nat w) b
      (a, 0)) as (st & -> & a' & -> & Hpa') end.
    + exists a. by rewrite Z.add_0_r.
    + intros k st Hk (a1 & -> & Ha1). cbv beta iota. rewrite Hf.
      set (i := Z.of_nat j * w + Z.of_nat k) in *.
      destruct (ld_in paint i) as [v Hv]; [lia|].
      assert (ld a1 i = Some v) as -> by (rewrite (proj2 (proj2 Ha1)); [done|lia]).
      cbn [mbind option_bind]. destruct (Hg i v) as [c Hc]; [lia|done|]. rewrite Hc.
      cbn [mbind option_bind].
      destruct (painted_snoc P i paint a1 c) as (a2 & -> & Ha2); [done|lia|by exists v|].
      cbn [mbind option_bind]. eexists. split; [done|]. exists a2.
      rewrite Nat2Z.inj_succ. unfold Z.succ. by rewrite Z.add_assoc.
    + cbn [mbind option_bind]. eexists. split; [done|]. exists a'. rewrite Nat2Z.inj_succ. unfold Z.succ.
      split; [done|]. rewrite Z2Nat.id in Hpa' by done.
      by replace ((Z.of_nat j + 1) * w) with (Z.of_nat j * w + w) by lia.
  - cbn [mbind option_bind]. rewrite Z2Nat.id in Hpa by done. eauto.
Qed.

(** [genTexturePaintMultiply] after a flat colour multiplies every colour of the
    image by that colour; its short cuts for white (scale by alpha only) and for
    opaque white (nothing to do) are the same function, and the result is
    premultiplied when the image is. *)
Lemma genTexturePaintMultiply_flat alloc rdr h txt paint :
  paint_pre rdr h paint -> _paint rdr = Some paint -> _prevPaintMode rdr = PAINT_FLAT_COLOR ->
  texture_ok (_texture rdr) txt -> _texture_intData (_texture rdr) = Some txt ->
  TEXTURE_TRANSFORM_IDENTITY <= _texture_transformType (_texture rdr) <= TEXTURE_TRANSFORM_GENERIC ->
  (_texture_transformType (_texture rdr) = TEXTURE_TRANSFORM_IDENTITY -> identity_ok rdr h) ->
  is_byte (_calpha rdr) -> is_byte (_cred rdr) -> is_byte (_cgreen rdr) -> is_byte (_cblue rdr) ->
  i32 (_maxTouched rdr - _minTouched rdr + 1) = _alphaWidth rdr ->
  exists tex a, genTexturePaintTarget rdr paint h = Some tex /\
    genTexturePaintMultiply alloc rdr h = Some (set_paint (Some a) rdr) /\
    forall i, 0 <= i < h * _alphaWidth rdr -> exists v, ld tex i = Some v /\
      ld a i = Some (mul_color (_calpha rdr) (_cred rdr) (_cgreen rdr) (_cblue rdr) v) /\
      premul (mul_color (_calpha rdr) (_cred rdr) (_cgreen rdr) (_cblue rdr) v).
Proof.
  intros Hpre Hp Hmode Hok Htxt Hk Hid Ha Hr Hg Hb Hw.
  destruct (genTexturePaintTarget_ok rdr h txt paint) as (tex & Et & Htex); try done.
  pose proof Hpre as [P1 P2 P3 P4 _ _]. destruct Htex as (L & T1 & _).
  assert (alen tex = alen paint) as Lt by (unfold alen; by rewrite L).
  set (mul := mul_color _ _ _ _).
  assert (exists a, (if (_cred rdr =? 255) && (_cgreen rdr =? 255) && (_cblue rdr =? 255) then
      if _calpha rdr <? 255 then map_paint h (_alphaWidth rdr) (_alphaWidth rdr)
        (fun p i => tval ← ld p i; Some (mul_alpha (_calpha rdr) tval)) tex else Some tex
    else map_paint h (_alphaWidth rdr) (_alphaWidth rdr)
        (fun p i => tval ← ld p i; Some (mul tval)) tex) = Some a /\
    forall i, 0 <= i < h * _alphaWidth rdr -> exists v, ld tex i = Some v /\ ld a i = Some (mul v))
    as (a & Ea & Hai).
  { pose proof (fun g => map_paint_ok h (_alphaWidth rdr) (fun p i => v ← ld p i; Some (g v))
      (fun _ v => Some (g v)) tex P1 P2 ltac:(lia) ltac:(lia)) as Hmap.
    destruct ((_cred rdr =? 255) && _ && _) eqn:E.
    - apply andb_true_iff in E as [[E1%Z.eqb_eq E2%Z.eqb_eq]%andb_true_iff E3%Z.eqb_eq].
      destruct (Z.ltb_spec (_calpha rdr) 255).
      + destruct (Hmap (mul_alpha (_calpha rdr))) as (a & -> & _ & Ha1 & _); [done|eauto|].
        exists a. split; [done|]. intros i Hi. destruct (Ha1 i Hi) as (c & -> & v & Hv & [= <-]).
        exists v. split; [done|]. unfold mul. by rewrite E1, E2, E3, mul_color_white.
      + exists tex. split; [done|]. intros i Hi. destruct (T1 i Hi) as (v & Hv & _ & Hvi).
        exists v. split; [done|]. unfold mul. rewrite E1, E2, E3, mul_color_white.
        replace (_calpha rdr) with 255 by (unfold is_byte in *; lia). by rewrite mul_alpha_opaque.
    - destruct (Hmap mul) as (a & -> & _ & Ha1 & _); [done|eauto|].
      exists a. split; [done|]. intros i Hi. destruct (Ha1 i Hi) as (c & -> & v & Hv & [= <-]). eauto. }
  exists tex, a. split; [done|]. split.
  - unfold genTexturePaintMultiply. cbv zeta. rewrite Hmode, Hp, Hw. cbn [mbind option_bind].
    simpl (PAINT_FLAT_COLOR =? _). cbv iota. rewrite Et. cbn [mbind option_bind].
    fold mul. by rewrite Ea.
  - intros i Hi. destruct (Hai i Hi) as (v & Hv & Hai'). exists v. split; [done|]. split; [done|].
    destruct (T1 i Hi) as (v' & Hv' & Hpv & _). simplify_eq. by apply mul_color_ok.
Qed.

(** ** Witnesses: a 2x2 image in a 4x1 batch *)

Definition demo_texture (kind : Z) (repeat smooth : bool) : Texture :=
  {| _texture_intData := Some ([argb 255 1 2 3; argb 128 4 5 6; argb 10 7 8 9; argb 64 10 11 12], 0);
     _texture_hasAlpha := true;
     _texture_imageWidth := 2; _texture_imageHeight := 2; _texture_stride := 2;
     _texture_txMin := 0; _texture_tyMin := 0; _texture_txMax := 1; _texture_tyMax := 1;
     _texture_repeat := repeat;
     _texture_m00 := 32768; _texture_m01 := 0; _texture_m02 := -16384;
     _texture_m10 := 0; _texture_m11 := 32768; _texture_m12 := -16384;
     _texture_interpolate := smooth;
     _texture_transformType := kind;
     _texture_free := false |}.

Definition demo_gradient : Gradient :=
  zero_gradient |> setgrad_lg_mx (F32.of_Z 4096) |> setgrad_lg_my (F32.of_Z 256)
  |> setgrad_lg_b (F32.of_Z 100)
  |> setgrad_rg_a00 (F32.of_Z 1) |> setgrad_rg_a11 (F32.of_Z 1) |> setgrad_rg_a00a00 (F32.of_Z 1)
  |> setgrad_rg_r (F32.of_Z 8) |> setgrad_rg_rsq (F32.of_Z 64).

Definition demo_paint (t : Texture) : Renderer :=
  zero_renderer (Build_Surface 4 3 0 4 1 TYPE_INT_ARGB_PRE None)
  |> set_texture t |> set_gradient demo_gradient |> set_alphaWidth 4 |> set_maxTouched 3
  |> set_paint (Some (replicate 4 0)) |> set_paint_length 4
  |> set_calpha 200 |> set_cred 255 |> set_cgreen 128 |> set_cblue 7.

Lemma demo_paint_pre t : paint_pre (demo_paint t) 1 (replicate 4 0).
Proof. split; vm_compute; intuition discriminate. Qed.

Lemma demo_texture_ok k r s : texture_ok (demo_texture k r s)
  ([argb 255 1 2 3; argb 128 4 5 6; argb 10 7 8 9; argb 64 10 11 12], 0).
Proof.
  split; [vm_compute; intuition discriminate .. | |vm_compute; intuition discriminate].
  cbv [fst].
  repeat (apply Forall_cons_2; [unfold pixel_ok; apply argb_premul; unfold is_byte; lia|]).
  apply Forall_nil_2.
Qed.



Definition demo_narrow : Texture :=
  {| _texture_intData := Some ([argb 255 1 2 3], 0); _texture_hasAlpha := true;
     _texture_imageWidth := 1; _texture_imageHeight := 1; _texture_stride := 1;
     _texture_txMin := 0; _texture_tyMin := 0; _texture_txMax := 0; _texture_tyMax := 0;
     _texture_repeat := false;
     _texture_m00 := 32768; _texture_m01 := 0; _texture_m02 := -16384;
     _texture_m10 := 0; _texture_m11 := 32768; _texture_m12 := -16384;
     _texture_interpolate := true;
     _texture_transformType := TEXTURE_TRANSFORM_SCALE_TRANSLATE;
     _texture_free := false |}.


(** The indices of a batch of one row of four. *)
Lemma below_4 k : 0 <= k < 4 -> k = 0 \/ k = 1 \/ k = 2 \/ k = 3.
Proof. lia. Qed.


