(* ===== verification/JRenderer.v ===== *)
(** * The entry points (JPiscesRenderer.c, JJavaSurface.c, PiscesSysutils.c)

    The functions that Java calls.  The [World] is what they share: the renderer,
    the Java array behind its surface, the flag for failed allocations, the
    pending exception, and the results that the virtual machine will give to the
    next requests for the address of an array ([pins]: [false] is a null
    pointer; an empty list stands for success).

    While the surface is acquired its pixels are in the renderer's [_data], which
    points into the array; they are the array's again when it is released.  The
    allocator is a parameter: [alloc n] is the result of [calloc] for [n] pixels. *)

From stdpp Require Import base relations.
From S2P Require Import Prelude Mem Blend Renderer Transform EmitLine Blit Routines Paint.
#[local] Open Scope Z_scope.

Inductive Exn := OutOfMemoryError | IllegalStateException.

Record World := {
  renderer : Renderer;
  dataInt : list Z;
  memErrorFlag : bool;
  thrown : option Exn;
  pins : list bool;
}.

Definition set_renderer (r : Renderer) (w : World) : World :=
  {| renderer := r; dataInt := dataInt w; memErrorFlag := memErrorFlag w;
     thrown := thrown w; pins := pins w |}.
Definition set_dataInt (d : list Z) (w : World) : World :=
  {| renderer := renderer w; dataInt := d; memErrorFlag := memErrorFlag w;
     thrown := thrown w; pins := pins w |}.

(** ** Errors (PiscesSysutils.c) *)

Definition setMemErrorFlag (w : World) : World :=
  {| renderer := renderer w; dataInt := dataInt w; memErrorFlag := true;
     thrown := thrown w; pins := pins w |}.

Definition readMemErrorFlag (w : World) : bool := memErrorFlag w.

Definition readAndClearMemErrorFlag (w : World) : bool * World :=
  if memErrorFlag w then
    (true, {| renderer := renderer w; dataInt := dataInt w; memErrorFlag := false;
              thrown := thrown w; pins := pins w |})
  else (false, w).

Definition JNI_ThrowNew (e : Exn) (w : World) : World :=
  {| renderer := renderer w; dataInt := dataInt w; memErrorFlag := memErrorFlag w;
     thrown := Some e; pins := pins w |}.

(** The end of every entry point. *)
Definition throw_on_error (w : World) : World :=
  let '(b, w) := readAndClearMemErrorFlag w in
  if b then JNI_ThrowNew OutOfMemoryError w else w.

(** [GetPrimitiveArrayCritical] for an array of contents [a]. *)
Definition pin {A} (a : A) (w : World) : option A * World :=
  match pins w with
  | [] => (Some a, w)
  | b :: bs => (if b then Some a else None,
      {| renderer := renderer w; dataInt := dataInt w; memErrorFlag := memErrorFlag w;
         thrown := thrown w; pins := bs |})
  end.

(** ** Surfaces (JJavaSurface.c) *)

(** [Java_com_sun_pisces_JavaSurface_initialize] *)
Definition JavaSurface_initialize (dataType w h : Z) : Surface :=
  {| width := w; height := h; offset := 0; scanlineStride := w; pixelStride := 1;
     imageType := dataType; data := None |}.

Definition with_data (d : option (list Z)) (s : Surface) : Surface :=
  {| width := width s; height := height s; offset := offset s;
     scanlineStride := scanlineStride s; pixelStride := pixelStride s;
     imageType := imageType s; data := d |}.

Definition surface_acquire (w : World) : World :=
  let '(d, w) := pin (dataInt w) w in
  let w := set_renderer (set_surface (with_data d (_surface (renderer w))) (renderer w)) w in
  match d with None => setMemErrorFlag w | Some _ => w end.

(** [d] are the pixels at the address that is released. *)
Definition surface_release (d : list Z) (w : World) : World := set_dataInt d w.

(** [ACQUIRE_SURFACE], [body], [RELEASE_SURFACE]; the body ends with the renderer
    and the pixels. *)
Definition with_surface (body : World -> option (World * list Z)) (w : World) : option World :=
  let w := surface_acquire w in
  if readMemErrorFlag w then Some w
  else '(w, d) ← body w; Some (surface_release d w).

(** ** Setters *)

Definition lift (f : Renderer -> Renderer) (w : World) : World :=
  throw_on_error (set_renderer (f (renderer w)) w).

Definition setClipImpl (minX minY w h : Z) : World -> World :=
  lift (renderer_setClip minX minY w h).
Definition setColorImpl (red green blue alpha : Z) : World -> World :=
  lift (renderer_setColor red green blue alpha).
Definition setCompositeRuleImpl (compositeRule : Z) : World -> World :=
  lift (renderer_setCompositeRule compositeRule).

Definition set_cycleMethod (m : Z) (r : Renderer) : Renderer :=
  set_gradient (setgrad_cycleMethod m (_gradient r)) r.

(** The shape of the two gradient setters; [GetIntArrayElements] can fail like
    the other requests for an array. *)
Definition with_ramp (cycleMethod : Z) (jramp : list Z)
    (set : list Z -> Renderer -> option Renderer) (w : World) : option World :=
  let '(ramp, w) := pin jramp w in
  w ← match ramp with
      | Some ramp => r ← set ramp (set_cycleMethod cycleMethod (renderer w)); Some (set_renderer r w)
      | None => Some (setMemErrorFlag w)
      end;
  Some (throw_on_error w).

Definition setLinearGradientImpl (x0 y0 x1 y1 : Z) (jramp : list Z) (cycleMethod : Z)
    (jTransform : Transform6) : World -> option World :=
  with_ramp cycleMethod jramp (fun ramp => renderer_setLinearGradient x0 y0 x1 y1 ramp jTransform).

Definition setRadialGradientImpl (cx cy fx fy radius : Z) (jramp : list Z) (cycleMethod : Z)
    (jTransform : Transform6) : World -> option World :=
  with_ramp cycleMethod jramp (fun ramp => renderer_setRadialGradient cx cy fx fy radius ramp jTransform).

Section Alloc.
Context (alloc : Z -> option (list Z)).

(** The image is copied, without the gap between its rows. *)
Definition setTextureImpl (dataArray : list Z) (w h stride : Z) (jTransform : Transform6)
    (repeat hasAlpha : bool) (wd : World) : option World :=
  let '(data, wd) := pin dataArray wd in
  wd ← match data with
    | Some data =>
        match alloc (i32 (w * h)) with
        | Some alloc_data =>
            alloc_data ←
              if stride =? w then
                if (w <? 0) || (h <? 0) then None else copy alloc_data 0 data 0 (w * h)
              else
                '(a, _) ← for_ (Z.to_nat h)
                  (fun '(a, i) =>
                     a ← (if w <? 0 then None else copy a (i32 (i * w)) data (i32 (i * stride)) w);
                     Some (a, i + 1))
                  (alloc_data, 0);
                Some a;
            r ← renderer_setTexture IMAGE_MODE_NORMAL (Some (alloc_data, 0)) w h w repeat true
                  jTransform true hasAlpha 0 0 (i32 (w - 1)) (i32 (h - 1)) (renderer wd);
            Some (set_renderer r wd)
        | None => Some (setMemErrorFlag wd)
        end
    | None => Some (setMemErrorFlag wd)
    end;
  Some (throw_on_error wd).

(** ** Clearing *)

Definition renderer_clearRect (x y w h : Z) (r : Renderer) : option Renderer :=
  let maxX := i32 (x + w - 1) in
  let maxY := i32 (y + h - 1) in
  let r := VALIDATE_BLITTING r in
  let x := Z.max (Z.max x 0) (_clip_bbMinX r) in
  let y := Z.max (Z.max y 0) (_clip_bbMinY r) in
  let maxX := Z.min (Z.min maxX (_width r - 1)) (_clip_bbMaxX r) in
  let maxY := Z.min (Z.min maxY (_height r - 1)) (_clip_bbMaxY r) in
  if (x <=? maxX) && (y <=? maxY) then
    _ ← _clearRect (_surfaceFns r);
    clearRect8888 r x y (i32 (maxX - x + 1)) (i32 (maxY - y + 1))
  else Some r.

Definition clearRectImpl (x y w h : Z) (wd : World) : option World :=
  wd ← with_surface (fun wd =>
    let r := INVALIDATE_RENDERER_SURFACE (renderer wd) in
    let r := r |> set_imagePixelStride 1 |> set_imageScanlineStride (width (_surface r)) in
    r ← renderer_clearRect x y w h r;
    d ← _data r;
    Some (set_renderer r wd, d)) wd;
  Some (throw_on_error wd).

(** ** Filling rectangles *)

(** [ALLOC3(rdr->_paint, jint, l)] *)
Definition ALLOC3_paint (l : Z) (r : Renderer) : Renderer :=
  let fresh := r |> set_paint (alloc l) |> set_paint_length l in
  match _paint r with
  | None => fresh
  | Some _ => if _paint_length r <? l then fresh else r
  end.

(** [if (rdr->_genPaint) ...] *)
Definition gen_paint (w rows : Z) (r : Renderer) : option Renderer :=
  match _genPaint (_paintFns r) with
  | Some g => run_paint alloc g (ALLOC3_paint (i32 (w * rows)) r) rows
  | None => Some r
  end.

(** A batch of lines: its paint, then [_emitLine]. *)
Definition emit_lines (w rows frac : Z) (r : Renderer) : option Renderer :=
  r ← gen_paint w rows r;
  f ← _emitLine (_paintFns r);
  run_emit f r rows frac.

(** The step to the next batch. *)
Definition next_lines (x_from sw rows : Z) (r : Renderer) : Renderer :=
  let y := i32 (_currY r + rows) in
  r |> set_currX x_from |> set_currY y |> set_currImageOffset (i32 (y * sw))
    |> set_rowNum (i32 (_rowNum r + rows)).

(** The lines of a rectangle of [rows] whole lines between a top and a bottom line
    of partial coverage, where [tfrac] and [bfrac] are not zero. *)
Definition emit_rectangle (x_from w sw rows tfrac bfrac : Z) (r : Renderer) : option Renderer :=
  let rows := if truth bfrac then rows - 1 else rows in
  '(r, rows) ←
    if truth tfrac then
      r ← emit_lines w 1 tfrac r; Some (next_lines x_from sw 1 r, rows - 1)
    else Some (r, rows);
  '(r, _) ← while_ (Z.to_nat rows) (fun '(_, rows) => 0 <? rows)
    (fun '(r, rows) =>
       let n := Z.min rows NUM_ALPHA_ROWS in
       r ← emit_lines w n 65536 r;
       Some (next_lines x_from sw n r, rows - n))
    (r, rows);
  if truth bfrac then emit_lines w 1 bfrac r else Some r.

(** [switch (lEdge)] and [switch (rEdge)]: the first or last pixel, and its coverage. *)
Definition low_edge (edge from frac : Z) : Z * Z :=
  if edge =? IMAGE_FRAC_EDGE_PAD then (from, 0)
  else if edge =? IMAGE_FRAC_EDGE_TRIM then (if truth frac then i32 (from + 1) else from, 0)
  else (from, frac).

Definition high_edge (edge to frac : Z) : Z * Z :=
  if edge =? IMAGE_FRAC_EDGE_PAD then (to, 0)
  else if edge =? IMAGE_FRAC_EDGE_TRIM then (if truth frac then i32 (to - 1) else to, 0)
  else (to, frac).

(** One axis: the pixels from [x] to [x + w] in S15.16, with the coverage of the
    first and of the last, clipped. *)
Definition axis (x w lEdge rEdge clipMin clipMax : Z) : Z * Z * Z * Z :=
  let lfrac := (65536 - (x .& 65535)) .& 65535 in
  let rfrac := (x + w) .& 65535 in
  let x_from := x >> 16 in
  let x_to := i32 (x + w) in
  let x_to := if truth rfrac then x_to >> 16 else (x_to >> 16) - 1 in
  let '(x_from, lfrac) := low_edge lEdge x_from lfrac in
  let '(x_to, rfrac) := high_edge rEdge x_to rfrac in
  let '(x_from, lfrac) := if x_from <? clipMin then (clipMin, 0) else (x_from, lfrac) in
  let '(x_to, rfrac) := if clipMax <? x_to then (clipMax, 0) else (x_to, rfrac) in
  (x_from, x_to, lfrac, rfrac).

(** A single pixel with two coverages has the coverage of their overlap. *)
Definition single (from to lfrac rfrac : Z) : Z * Z :=
  if (from =? to) && truth (lfrac .| rfrac) then ((rfrac - 65536 + lfrac) .& 65535, 0)
  else (lfrac, rfrac).

Definition fillRect (x y w h lEdge rEdge tEdge bEdge : Z) (wd : World) : option World :=
  let r := renderer wd |> set_rectX (x >> 16) |> set_rectY (y >> 16) in
  let wd := set_renderer r wd in
  let '(x_from, x_to, lfrac, rfrac) := axis x w lEdge rEdge (_clip_bbMinX r) (_clip_bbMaxX r) in
  let '(y_from, y_to, tfrac, bfrac) := axis y h tEdge bEdge (_clip_bbMinY r) (_clip_bbMaxY r) in
  if (x_from <=? x_to) && (y_from <=? y_to) then
    wd ← with_surface (fun wd =>
      let sw := width (_surface (renderer wd)) in
      let r := VALIDATE_BLITTING (INVALIDATE_RENDERER_SURFACE (renderer wd)) in
      let aw := i32 (x_to - x_from + 1) in
      let '(tfrac, bfrac) := single y_from y_to tfrac bfrac in
      let '(lfrac, rfrac) := single x_from x_to lfrac rfrac in
      let r := r |> set_minTouched x_from |> set_maxTouched x_to
                 |> set_currX x_from |> set_currY y_from |> set_alphaWidth aw
                 |> set_currImageOffset (i32 (y_from * sw))
                 |> set_imageScanlineStride sw |> set_imagePixelStride 1 |> set_rowNum 0
                 |> set_el_lfrac lfrac |> set_el_rfrac rfrac in
      r ← emit_rectangle x_from aw sw (i32 (y_to - y_from + 1)) tfrac bfrac r;
      d ← _data r;
      Some (set_renderer r wd, d)) wd;
    Some (throw_on_error wd)
  else Some wd.

Definition fillRectImpl (x y w h : Z) : World -> option World :=
  fillRect x y w h IMAGE_FRAC_EDGE_KEEP IMAGE_FRAC_EDGE_KEEP IMAGE_FRAC_EDGE_KEEP IMAGE_FRAC_EDGE_KEEP.

(** ** Images *)

Definition drawImageImpl (imageMode : Z) (dataArray : list Z) (w h offset stride : Z)
    (jTransform : Transform6) (repeat : bool) (bboxX bboxY bboxW bboxH : Z)
    (lEdge rEdge tEdge bEdge txMin tyMin txMax tyMax : Z) (hasAlpha : bool) (wd : World)
    : option World :=
  let '(data, wd) := pin dataArray wd in
  wd ← match data with
    | Some data =>
        r ← renderer_setTexture imageMode (Some (data, offset)) w h stride repeat true jTransform
              false hasAlpha txMin tyMin txMax tyMax (renderer wd);
        wd ← fillRect bboxX bboxY bboxW bboxH lEdge rEdge tEdge bEdge (set_renderer r wd);
        let r := renderer wd in
        Some (set_renderer (set_texture (settex_intData None (_texture r)) r) wd)
    | None => Some (setMemErrorFlag wd)
    end;
  Some (throw_on_error wd).

(** ** Antialiased rows and masks *)
Section Gamma.
Context (gammaArray invGammaArray : list Z).

Definition emit_rows_call (r : Renderer) (rows : Z) : option Renderer :=
  f ← _emitRows (_paintFns r); run_blit gammaArray invGammaArray f r rows.

(** The result also has the row of deltas, which Java passes and gets back. *)
Definition emitAndClearAlphaRowImpl (jAlphaMap jAlphaDeltas : list Z) (y x_from x_to rowNum : Z)
    (wd : World) : option (World * list Z) :=
  let wd := surface_acquire wd in
  '(wd, deltas) ←
    if readMemErrorFlag wd then Some (wd, jAlphaDeltas) else
    let sw := width (_surface (renderer wd)) in
    let r := VALIDATE_BLITTING (INVALIDATE_RENDERER_SURFACE (renderer wd)) in
    let wd := set_renderer r wd in
    let '(map, wd) := pin jAlphaMap wd in
    '(wd, deltas) ← match map with
      | None => Some (setMemErrorFlag wd, jAlphaDeltas)
      | Some map =>
          let '(row, wd) := pin jAlphaDeltas wd in
          match row with
          | None => Some (setMemErrorFlag wd, jAlphaDeltas)
          | Some row =>
              let x_from := Z.max x_from (_clip_bbMinX r) in
              let x_to := Z.min x_to (_clip_bbMaxX r) in
              if (x_from <=? x_to) && (_clip_bbMinY r <=? y) && (y <=? _clip_bbMaxY r) then
                let aw := i32 (x_to - x_from + 1) in
                let r := r |> set_minTouched x_from |> set_maxTouched x_to
                           |> set_currX x_from |> set_currY y |> set_rowNum rowNum
                           |> set_alphaMap (Some map) |> set_rowAAInt (Some row)
                           |> set_alphaWidth aw |> set_currImageOffset (i32 (y * sw))
                           |> set_imageScanlineStride sw |> set_imagePixelStride 1 in
                r ← gen_paint aw 1 r;
                r ← emit_rows_call r 1;
                row ← _rowAAInt r;
                Some (set_renderer (set_rowAAInt None r) wd, row)
              else Some (wd, jAlphaDeltas)
          end
      end;
    d ← _data (renderer wd);
    Some (surface_release d wd, deltas);
  Some (throw_on_error wd, deltas).

(** One row of a mask, and the step to the next. *)
Definition mask_line (x width maskWidth sw : Z) (r : Renderer) : option Renderer :=
  let r := set_currImageOffset (i32 (_currY r * sw)) r in
  r ← gen_paint width 1 r;
  r ← emit_rows_call r 1;
  Some (r |> set_maskOffset (i32 (_maskOffset r + maskWidth))
          |> set_rowNum (i32 (_rowNum r + 1))
          |> set_currX x |> set_currY (i32 (_currY r + 1))).

Definition fillAlphaMask (minX minY maxX maxY maskType : Z) (jmask : list Z)
    (x y maskWidth maskHeight offset : Z) (wd : World) : option World :=
  if (minX <=? maxX) && (minY <=? maxY) then
    wd ← with_surface (fun wd =>
      let sw := width (_surface (renderer wd)) in
      let '(mask, wd) := pin jmask wd in
      match mask with
      | Some mask =>
          let width := i32 (maxX - minX + 1) in
          let height := i32 (maxY - minY + 1) in
          let r := renderer_setMask maskType (Some mask) maskWidth maskHeight false (renderer wd) in
          let r := VALIDATE_BLITTING (INVALIDATE_RENDERER_SURFACE r) in
          let r := r |> set_minTouched minX |> set_maxTouched maxX
                     |> set_currX minX |> set_currY minY |> set_alphaWidth width
                     |> set_imageScanlineStride sw |> set_imagePixelStride 1
                     |> set_rowNum 0 |> set_maskOffset offset in
          r ← for_ (Z.to_nat height) (mask_line x width maskWidth sw) r;
          let r := renderer_removeMask r in
          d ← _data r;
          Some (set_renderer r wd, d)
      | None => d ← data (_surface (renderer wd)); Some (setMemErrorFlag wd, d)
      end) wd;
    Some (throw_on_error wd)
  else Some wd.

Definition fillAlphaMaskImpl (jmask : list Z) (x y maskWidth maskHeight offset : Z) (wd : World)
    : option World :=
  let r := renderer wd in
  let minX := Z.max x (_clip_bbMinX r) in
  let minY := Z.max y (_clip_bbMinY r) in
  let maxX := Z.min (i32 (x + maskWidth - 1)) (_clip_bbMaxX r) in
  let maxY := Z.min (i32 (y + maskHeight - 1)) (_clip_bbMaxY r) in
  let maskOffset := i32 (offset + (minY - y) * maskWidth + minX - x) in
  fillAlphaMask minX minY maxX maxY ALPHA_MASK jmask x y maskWidth maskHeight maskOffset wd.

Definition fillLCDAlphaMaskImpl (jmask : list Z) (x y maskWidth maskHeight offset : Z) (wd : World)
    : option World :=
  let r := renderer wd in
  let minX := Z.max x (_clip_bbMinX r) in
  let minY := Z.max y (_clip_bbMinY r) in
  let maxX := Z.min (i32 (x + Z.quot maskWidth 3 - 1)) (_clip_bbMaxX r) in
  let maxY := Z.min (i32 (y + maskHeight - 1)) (_clip_bbMaxY r) in
  let maskOffset := i32 (offset + (minY - y) * maskWidth + (minX - x) * 3) in
  fillAlphaMask minX minY maxX maxY LCD_ALPHA_MASK jmask x y maskWidth maskHeight maskOffset wd.
End Gamma.
End Alloc.

(** ** Coordinates *)

(** A [float] given by its bits to S15.16.  [None] is a shift by 32 bits or more. *)
Definition toPiscesCoords (ff : Z) : option Z :=
  let gg := (ff .& 16777215) .| 8388608 in
  let shift := 134 - ((ff >> 23) .& 255) in
  gg ← if shift <? 0 then (if - shift <? 32 then Some (u32 (gg << (- shift))) else None)
       else (if shift <? 32 then Some (gg >> shift) else None);
  let sign := ff >> 31 in
  let gg := u32 (Z.lxor gg (u32 (- sign)) + sign) in
  let gg := if ff =? 0 then 0 else gg in
  Some (i32 gg).
