(* ===== verification/FillRect.v ===== *)
(** * Filling a rectangle (JPiscesRenderer.c, fillRect)

    [fillRect] splits a rectangle in S15.16 coordinates into a top line, batches of
    at most eight whole lines and a bottom line.  Here: the geometry of one
    axis, the loop over the batches (against an interface that says what a batch
    of lines does, whatever the paint and the composite rule), and the two
    together for flat colours. *)

From stdpp Require Import base relations.
From S2P Require Import Prelude Mem Blend Renderer Transform EmitLine Blit Routines Paint JRenderer.
#[local] Open Scope Z_scope.

(** ** One axis *)

(** The pixels [from .. to] lie in the clip and the coverages are fractions. *)
Record axis_fits (from to l r clipMin clipMax : Z) : Prop := {
  ax_from : clipMin <= from;
  ax_to : to <= clipMax;
  ax_l : is_frac l;
  ax_r : is_frac r;
}.

Lemma axis_ok x w le re clipMin clipMax from to l r :
  axis x w le re clipMin clipMax = (from, to, l, r) -> axis_fits from to l r clipMin clipMax.
Proof.
  intros E. unfold axis in E.
  set (l0 := (65536 - _) .& 65535) in E. set (r0 := (x + w) .& 65535) in E.
  assert (is_frac l0) as Hl0 by apply land_frac. assert (is_frac r0) as Hr0 by apply land_frac.
  clearbody l0 r0. set (t0 := if truth r0 then _ else _) in E. clearbody t0. cbv zeta in E.
  assert (is_frac 0) as H0 by (unfold is_frac; lia).
  assert (exists f1 l1, low_edge le (x >> 16) l0 = (f1, l1) /\ is_frac l1) as (f1 & l1 & E1 & H1).
  { unfold low_edge. repeat case_match; eauto. }
  assert (exists t1 r1, high_edge re t0 r0 = (t1, r1) /\ is_frac r1) as (t1 & r1 & E2 & H2).
  { unfold high_edge. repeat case_match; eauto. }
  rewrite E1, E2 in E. destruct (Z.ltb_spec f1 clipMin), (Z.ltb_spec clipMax t1);
    injection E as <- <- <- <-; split; done || lia.
Qed.

(** After the treatment of single pixels the ends that are treated apart fit in
    the line, and a single line has at most one coverage. *)
Lemma single_ok from to l r l' r' :
  is_frac l -> is_frac r -> from <= to -> single from to l r = (l', r') ->
  is_frac l' /\ is_frac r' /\ Z.b2z (truth l') + Z.b2z (truth r') <= to - from + 1.
Proof.
  intros Hl Hr Hle E. unfold single in E.
  pose proof (b2z_bound (truth l')). pose proof (b2z_bound (truth r')).
  destruct ((from =? to) && truth (l .| r)) eqn:Ec.
  - injection E as <- <-. split; [apply land_frac|]. split; [unfold is_frac; lia|].
    change (truth 0) with false in *. simpl (Z.b2z false) in *. lia.
  - injection E as -> ->. split; [done|]. split; [done|].
    destruct (Z.eqb_spec from to) as [-> |]; [|lia]. simpl in Ec.
    unfold truth in Ec. apply negb_false_iff, Z.eqb_eq, Z.lor_eq_0_iff in Ec as [-> ->].
    change (truth 0) with false. simpl. lia.
Qed.

(** One axis of [fillRect], without clipping and with its ends kept: the pixels
    are exactly those that the interval [x, x + w) touches, and the coverages
    of the first and of the last are the parts of them inside it (0 stands for
    a whole pixel). *)
Lemma axis_covers x w from to l r :
  is_i32 x -> is_i32 (x + w) -> 0 < w ->
  axis x w IMAGE_FRAC_EDGE_KEEP IMAGE_FRAC_EDGE_KEEP (-32768) 32767 = (from, to, l, r) ->
  from * 65536 <= x < (from + 1) * 65536 /\
  to * 65536 < x + w <= (to + 1) * 65536 /\ from <= to /\
  (l = 0 /\ x = from * 65536 \/ 0 < l < 65536 /\ l = (from + 1) * 65536 - x) /\
  (r = 0 /\ x + w = (to + 1) * 65536 \/ 0 < r < 65536 /\ r = x + w - to * 65536).
Proof.
  unfold is_i32. intros Hx Hxw Hw E. unfold axis, low_edge, high_edge in E. simpl in E.
  rewrite (i32_id (x + w)) in E by (unfold is_i32; lia). autorewrite with pisces_bits in E.
  unfold truth in E. destruct (Z.eqb_spec ((x + w) mod 65536) 0) as [Er|Er]; simpl in E.
  all: destruct (Z.ltb_spec (x / 65536) (-32768)); [zlia|].
  all: match type of E with context [32767 <? ?t] => destruct (Z.ltb_spec 32767 t); [zlia|] end.
  all: injection E as <- <- <- <-; repeat split; try zlia.
  all: (left; zlia) || (right; zlia) ||
    (destruct (Z.eq_dec (x mod 65536) 0) as [El|El]; [left|right]; zlia).
Qed.

(** ** Batches of lines *)

(** What the rectangle loop is promised of [emit]: in a state of the renderer [I] at
    line [y] with image [d], a batch of [rows] lines of vertical coverage [frac]
    rewrites the pixels [x .. x + aw - 1] of those lines, each line by an action
    that satisfies [Q frac], and the step to the next batch keeps [I]. *)
Class LineEmitter (emit : Z -> Z -> Renderer -> option Renderer)
    (I : Renderer -> Z -> list Z -> Prop) (x aw sw : Z) (Q : Z -> (Z -> Z -> Z) -> Prop) : Prop := {
  emitter_emits r y d rows frac :
    I r y d -> 0 < rows -> 0 <= frac <= 65536 -> fits (y * sw) sw x aw rows (alen d) ->
    exists q r', emit rows frac r = Some r' /\
      I r' y (raster (y * sw) sw x aw rows q d) /\ forall j, 0 <= j < rows -> Q frac (q j);
  emitter_next r y d rows :
    I r y d -> 0 < rows -> is_i32 (y + rows) -> is_i32 ((y + rows) * sw) ->
    I (next_lines x sw rows r) (y + rows) d;
}.

Lemma raster_join off s x w h1 h2 q1 q2 d :
  0 <= h1 -> 0 <= h2 -> 0 < s ->
  raster (off + h1 * s) s x w h2 q2 (raster off s x w h1 q1 d) =
  raster off s x w (h1 + h2) (fun j => if j <? h1 then q1 j else q2 (j - h1)) d.
Proof.
  intros. rewrite <- raster_app by done.
  rewrite (raster_ext off s x w h1 (fun j => if j <? h1 then q1 j else q2 (j - h1)) q1).
  - apply raster_ext. intros j k v Hj _. destruct (Z.ltb_spec (h1 + j) h1); [lia|].
    by replace (h1 + j - h1) with j by lia.
  - intros j k v Hj _. destruct (Z.ltb_spec j h1); [done|lia].
Qed.

(** The vertical coverage of line [j] of a rectangle of [H] lines. *)
Definition line_frac (H tfrac bfrac j : Z) : Z :=
  if truth tfrac && (j =? 0) then tfrac
  else if truth bfrac && (j =? H - 1) then bfrac
  else 65536.

Section Rectangle.
Context (emit : Z -> Z -> Renderer -> option Renderer) (I : Renderer -> Z -> list Z -> Prop)
  (x aw sw : Z) (Q : Z -> (Z -> Z -> Z) -> Prop).
Context `{HE : !LineEmitter emit I x aw sw Q}.
Context (y0 H tfrac bfrac : Z) (d0 : list Z).
Hypothesis Hfit : fits (y0 * sw) sw x aw H (alen d0).
Hypothesis Hy0 : 0 <= y0.
Hypothesis HH : 0 < H.
Hypothesis Hmax : (y0 + H) * sw <= 2147483647.

(** [n] lines are done. *)
Definition lines_done (n : Z) (d : list Z) : Prop :=
  exists q, d = raster (y0 * sw) sw x aw n q d0 /\
    forall j, 0 <= j < n -> Q (line_frac H tfrac bfrac j) (q j).

(** One more batch, whose lines have the same coverage. *)
Lemma emit_step r n rows frac d :
  I r (y0 + n) d -> lines_done n d -> 0 <= n -> 0 < rows -> n + rows <= H -> 0 <= frac <= 65536 ->
  (forall j, n <= j < n + rows -> line_frac H tfrac bfrac j = frac) ->
  exists r' d', emit rows frac r = Some r' /\ I r' (y0 + n) d' /\ lines_done (n + rows) d' /\
    I (next_lines x sw rows r') (y0 + (n + rows)) d'.
Proof using HE Hfit Hy0 HH Hmax.
  intros HI (q & -> & Hq) Hn Hrows Hle Hf Hfr. destruct Hfit as [F1 F2 F3 F4 F5 F6 F7].
  assert (0 <= (y0 + n) * sw /\ (y0 + n + rows) * sw <= (y0 + H) * sw /\
          (y0 + n) * sw + rows * sw <= y0 * sw + H * sw) as (K1 & K2 & K3) by nia.
  destruct (emitter_emits r (y0 + n) _ rows frac HI Hrows Hf) as (q2 & r' & E & HI' & Hq2).
  { unfold alen in *. rewrite length_raster. split; done || lia. }
  replace ((y0 + n) * sw) with (y0 * sw + n * sw) in HI' by lia.
  rewrite raster_join in HI' by lia.
  eexists r', _. split; [done|]. split; [exact HI'|]. split.
  - eexists. split; [done|]. intros j Hj. cbv beta. destruct (Z.ltb_spec j n); [apply Hq; lia|].
    rewrite Hfr by lia. apply Hq2. lia.
  - replace (y0 + (n + rows)) with (y0 + n + rows) by lia.
    apply emitter_next; [exact HI'|done|unfold is_i32; nia..].
Qed.

(** The loop over whole lines. *)
Lemma whole_lines r n m d (fuel : nat) :
  I r (y0 + n) d -> lines_done n d -> 0 <= n -> 0 <= m -> n + m <= H -> m <= Z.of_nat fuel ->
  (forall j, n <= j < n + m -> line_frac H tfrac bfrac j = 65536) ->
  exists r' d', while_ fuel (fun '(_, rows) => 0 <? rows)
    (fun '(r, rows) => let k := Z.min rows NUM_ALPHA_ROWS in
       r ← emit k 65536 r; Some (next_lines x sw k r, rows - k)) (r, m) = Some (r', 0) /\
    I r' (y0 + (n + m)) d' /\ lines_done (n + m) d'.
Proof using HE Hfit Hy0 HH Hmax.
  revert r n m d. induction fuel as [|fuel IH]; intros r n m d HI Hd Hn Hm Hle Hfuel Hfr.
  - assert (m = 0) as -> by lia. rewrite Z.add_0_r. simpl. eauto.
  - simpl while_. destruct (Z.ltb_spec 0 m).
    2: { assert (m = 0) as -> by lia. rewrite Z.add_0_r. eauto. }
    unfold NUM_ALPHA_ROWS. set (k := Z.min m 8).
    destruct (emit_step r n k 65536 d) as (r1 & d1 & -> & _ & Hd1 & HI1); try done; try lia.
    { intros j Hj. apply Hfr. lia. }
    cbn [mbind option_bind].
    destruct (IH (next_lines x sw k r1) (n + k) (m - k) d1) as (r2 & d2 & E & HI2 & Hd2); try done; try lia.
    { intros j Hj. apply Hfr. lia. }
    replace (n + k + (m - k)) with (n + m) in * by lia. eauto.
Qed.
End Rectangle.

(** The whole rectangle. *)
Lemma emit_rectangle_ok alloc I x aw sw Q y0 H tfrac bfrac d0 r
    `{HE : !LineEmitter (emit_lines alloc aw) I x aw sw Q} :
  fits (y0 * sw) sw x aw H (alen d0) -> 0 <= y0 -> 0 < H -> (y0 + H) * sw <= 2147483647 ->
  is_frac tfrac -> is_frac bfrac -> Z.b2z (truth tfrac) + Z.b2z (truth bfrac) <= H ->
  I r y0 d0 ->
  exists r' y' d', emit_rectangle alloc x aw sw H tfrac bfrac r = Some r' /\ I r' y' d' /\
    lines_done x aw sw Q y0 H tfrac bfrac d0 H d'.
Proof.
  intros Hfit Hy0 HH Hmax Ht Hb Hsum HI. unfold emit_rectangle.
  set (D := lines_done x aw sw Q y0 H tfrac bfrac d0).
  assert (D 0 d0) as H0.
  { exists (fun _ _ v => v). split; [by rewrite raster_0|lia]. }
  set (nt := Z.b2z (truth tfrac)). set (nb := Z.b2z (truth bfrac)).
  pose proof (b2z_bound (truth tfrac)) as Bt. pose proof (b2z_bound (truth bfrac)) as Bb.
  fold nt in Bt. fold nb in Bb. unfold is_frac in *.
  pose proof (emit_step (emit_lines alloc aw) I x aw sw Q y0 H tfrac bfrac d0 Hfit Hy0 HH Hmax) as step.
  pose proof (whole_lines (emit_lines alloc aw) I x aw sw Q y0 H tfrac bfrac d0 Hfit Hy0 HH Hmax) as loop.
  assert (exists r1 d1, (if truth tfrac
      then r ← emit_lines alloc aw 1 tfrac r;
           Some (next_lines x sw 1 r, (if truth bfrac then H - 1 else H) - 1)
      else Some (r, if truth bfrac then H - 1 else H)) = Some (r1, H - nb - nt) /\
    I r1 (y0 + nt) d1 /\ D nt d1) as (r1 & d1 & -> & HI1 & Hd1).
  { unfold nt, nb. destruct (truth tfrac) eqn:Et; simpl Z.b2z.
    - destruct (step r 0 1 tfrac d0) as (r1 & d1 & -> & _ & Hd1 & HI1); try done; try lia.
      + by rewrite Z.add_0_r.
      + intros j Hj. unfold line_frac. rewrite Et. replace j with 0 by lia. done.
      + cbn [mbind option_bind]. eexists _, _. split; [|done].
        do 2 f_equal. destruct (truth bfrac); simpl; lia.
    - rewrite Z.add_0_r. eexists _, _. split; [|done]. do 2 f_equal. destruct (truth bfrac); simpl; lia. }
  match goal with |- context [Some ?p ≫= ?g] => change (Some p ≫= g) with (g p); cbv beta iota end.
  destruct (loop r1 nt (H - nb - nt) d1 (Z.to_nat (H - nb - nt))) as (r2 & d2 & E2 & HI2 & Hd2);
    try done; try lia.
  { intros j Hj. unfold line_frac, nt, nb in *. destruct (truth tfrac), (truth bfrac); simpl in *;
      zcase; done || lia. }
  cbv zeta in E2. rewrite E2.
  match goal with |- context [Some ?p ≫= ?g] => change (Some p ≫= g) with (g p); cbv beta iota end.
  replace (nt + (H - nb - nt)) with (H - nb) in * by lia.
  unfold nb in *. destruct (truth bfrac) eqn:Eb; simpl Z.b2z in *.
  - destruct (step r2 (H - 1) 1 bfrac d2) as (r3 & d3 & E3 & HI3 & Hd3 & _); try done; try lia.
    + intros j Hj. unfold line_frac. rewrite Eb. replace j with (H - 1) by lia.
      rewrite Z.eqb_refl. unfold nt in *. destruct (truth tfrac); simpl in *; zcase; done || lia.
    + eexists _, _, _. split; [exact E3|]. split; [exact HI3|].
      by replace (H - 1 + 1) with H in Hd3 by lia.
  - rewrite Z.sub_0_r in *. eexists _, _, _. split; [done|]. by split; [exact HI2|].
Qed.

(** ** Flat colours *)

(** The members that a batch does not touch. *)
Definition still (r : Renderer) : Renderer :=
  r |> set_data None |> set_currX 0 |> set_currY 0 |> set_currImageOffset 0 |> set_rowNum 0.

(** The renderer of a rectangle in a flat colour, at line [y]. *)
Record flat_lines (r0 : Renderer) (f : EmitFn) (x aw sw : Z) (r : Renderer) (y : Z) (d : list Z)
    : Prop := {
  fl_still : still r = still r0;
  fl_data : _data r = Some d;
  fl_y : _currY r = y;
  fl_off : _currImageOffset r = y * sw;
}.

(** What the rectangle fixes in the renderer. *)
Record flat_setup (r0 : Renderer) (f : EmitFn) (x aw sw : Z) : Prop := {
  fs_fns : _paintFns r0 = Build_PaintFns (_emitRows (_paintFns r0)) (Some f) None;
  fs_flat : emit_paints f = false;
  fs_ps : _imagePixelStride r0 = 1;
  fs_ss : _imageScanlineStride r0 = sw;
  fs_x : _minTouched r0 = x;
  fs_aw : _alphaWidth r0 = aw;
  fs_l : is_frac (_el_lfrac r0);
  fs_r : is_frac (_el_rfrac r0);
  fs_w : Z.b2z (truth (_el_lfrac r0)) + Z.b2z (truth (_el_rfrac r0)) <= aw;
}.

Section Flat.
Context (alloc : Z -> option (list Z)) (r0 : Renderer) (f : EmitFn) (x aw sw : Z).
Hypothesis Hs : flat_setup r0 f x aw sw.

Lemma flat_fields r y d :
  flat_lines r0 f x aw sw r y d ->
  _paintFns r = _paintFns r0 /\ _imagePixelStride r = 1 /\ _imageScanlineStride r = sw /\
  _minTouched r = x /\ _alphaWidth r = aw /\ _el_lfrac r = _el_lfrac r0 /\ _el_rfrac r = _el_rfrac r0 /\
  _calpha r = _calpha r0 /\ _cred r = _cred r0 /\ _cgreen r = _cgreen r0 /\ _cblue r = _cblue r0.
Proof using Hs.
  intros [E _ _ _]. destruct Hs. pose proof (fun A (g : Renderer -> A) => f_equal g E) as F.
  pose proof (F _ _paintFns). pose proof (F _ _imagePixelStride). pose proof (F _ _imageScanlineStride).
  pose proof (F _ _minTouched). pose proof (F _ _alphaWidth). pose proof (F _ _el_lfrac).
  pose proof (F _ _el_rfrac). pose proof (F _ _calpha). pose proof (F _ _cred).
  pose proof (F _ _cgreen). pose proof (F _ _cblue). clear F E.
  unfold still in *. cbn in *. repeat split; congruence.
Qed.

(** A batch is a call of the line routine. *)
Lemma emit_lines_flat r y d rows frac :
  flat_lines r0 f x aw sw r y d -> emit_lines alloc aw rows frac r = run_emit f r rows frac.
Proof using Hs.
  intros H. destruct (flat_fields r y d H) as (E & _). unfold emit_lines, gen_paint.
  rewrite E, (fs_fns _ _ _ _ _ Hs). simpl. by rewrite E, (fs_fns _ _ _ _ _ Hs).
Qed.

Lemma flat_emit_pre r y d rows frac :
  flat_lines r0 f x aw sw r y d -> 0 < rows -> 0 <= frac <= 65536 ->
  fits (y * sw) sw x aw rows (alen d) -> emit_pre r rows frac d.
Proof using Hs.
  intros H Hrows Hf Hfit. destruct (flat_fields r y d H) as (_ & E1 & E2 & E3 & E4 & E5 & E6 & _).
  destruct H as [_ Hd _ Ho]. destruct Hs as [_ _ _ _ _ _ H1 H2 H3]. unfold is_frac in *.
  split; [split; [done..|]|lia|done|rewrite E5; done|rewrite E6; done|rewrite E4, E5, E6; done].
  by rewrite Ho, E2, E3, E4.
Qed.

(** The image and the position change, nothing else. *)
Lemma flat_lines_data r y d d' :
  flat_lines r0 f x aw sw r y d -> flat_lines r0 f x aw sw (set_data (Some d') r) y d'.
Proof using Type. intros [E H1 H2 H3]. split; done. Qed.

Lemma flat_lines_next r y d rows :
  flat_lines r0 f x aw sw r y d -> is_i32 (y + rows) -> is_i32 ((y + rows) * sw) ->
  flat_lines r0 f x aw sw (next_lines x sw rows r) (y + rows) d.
Proof using Type.
  intros [E H1 H2 H3] K1 K2. unfold next_lines. split; try done.
  - cbn. rewrite H2. by apply i32_id.
  - cbn. rewrite H2, !(i32_id (y + rows)), i32_id by done. done.
Qed.

(** A raster no wider than the batch, as one of the width of the batch. *)
Lemma raster_widen off s mx w w' h g d :
  w <= w' -> 0 < s ->
  raster off s mx w h g d = raster off s mx w' h (fun j k v => if k <? w then g j k v else v) d.
Proof.
  intros. pixelwise. zcase; done || lia.
Qed.

#[export] Instance flat_emitter :
  LineEmitter (emit_lines alloc aw) (flat_lines r0 f x aw sw) x aw sw (fun _ _ => True).
Proof using Hs.
  split.
  - intros r y d rows frac H Hrows Hf Hfit. rewrite (emit_lines_flat r y d) by done.
    pose proof (flat_emit_pre r y d rows frac H Hrows Hf Hfit) as Hpre.
    destruct (run_emit_raster f r rows frac d Hpre) as (W & g & HW & ->).
    { rewrite (fs_flat _ _ _ _ _ Hs). done. }
    destruct (flat_fields r y d H) as (_ & E1 & E2 & E3 & E4 & _).
    rewrite E2, E3, (fl_off _ _ _ _ _ _ _ _ H). rewrite E4 in HW.
    rewrite (raster_widen _ _ _ W aw) by (destruct Hfit; lia).
    eexists _, _. split; [done|]. split; [by eapply flat_lines_data|done].
  - intros. by apply flat_lines_next.
Qed.

(** The routines of source-over blend each pixel with its coverage. *)
Lemma over_emitter bl :
  color_ok r0 ->
  (forall r rows frac d, emit_pre r rows frac d -> color_ok r ->
     run_emit f r rows frac = Some (set_data (Some (over_batch_raster bl r rows frac d)) r)) ->
  LineEmitter (emit_lines alloc aw) (flat_lines r0 f x aw sw) x aw sw
    (fun frac q => forall k v,
       q k v = bl (line_alpha r0 frac k) (_cred r0) (_cgreen r0) (_cblue r0) v).
Proof using Hs.
  intros Hc Hbl. split; [|intros; by apply flat_lines_next].
  intros r y d rows frac H Hrows Hf Hfit. rewrite (emit_lines_flat r y d) by done.
  destruct (flat_fields r y d H) as (_ & E1 & E2 & E3 & E4 & E5 & E6 & E7 & E8 & E9 & E10).
  rewrite (Hbl r rows frac d); [|by eapply flat_emit_pre|].
  2: { unfold color_ok in *. by rewrite E7, E8, E9, E10. }
  unfold over_batch_raster. rewrite E2, E3, E4, E8, E9, E10, (fl_off _ _ _ _ _ _ _ _ H).
  eexists _, _. split; [reflexivity|]. split; [by eapply flat_lines_data|].
  intros j _ k v. cbv beta. unfold line_alpha.
  by rewrite E4, E5, E6, E7, (fs_aw _ _ _ _ _ Hs).
Qed.
End Flat.

(** ** Lemmas: what a validation copies from the surface *)

Definition clip (r : Renderer) := (_clip_bbMinX r, _clip_bbMinY r, _clip_bbMaxX r, _clip_bbMaxY r).

Definition color (r : Renderer) := (_calpha r, _cred r, _cgreen r, _cblue r).

Lemma color_fields r r' :
  color r = color r' ->
  _calpha r = _calpha r' /\ _cred r = _cred r' /\ _cgreen r = _cgreen r' /\ _cblue r = _cblue r'.
Proof. by intros [= -> -> -> ->]. Qed.

Definition surface_view (r : Renderer) := (_data r, _width r, _height r, _imageOffset r,
  _imageScanlineStride r, _imagePixelStride r).

(** The buffers of paints and masks. *)
Definition buffers (r : Renderer) := (_mask_byteData r, _rowAAInt r, _paint r, _paint_length r,
  _texture r, _gradient r, _prevPaintMode r, (_rectX r, _rectY r)).

Lemma update_pointers_view s r :
  surface_view (update_pointers s r) = surface_view r /\ clip (update_pointers s r) = clip r /\
  color (update_pointers s r) = color r /\ buffers (update_pointers s r) = buffers r.
Proof. unfold update_pointers. repeat case_match; done. Qed.

Lemma updateInternalColor_view r :
  surface_view (updateInternalColor r) = surface_view r /\ clip (updateInternalColor r) = clip r /\
  (_compositeRule r <> COMPOSITE_CLEAR -> color (updateInternalColor r) = color r) /\
  buffers (updateInternalColor r) = buffers r.
Proof.
  unfold updateInternalColor. destruct (Z.eqb_spec (_compositeRule r) COMPOSITE_CLEAR); done.
Qed.

Lemma updateRendererSurface_view r :
  let s := _surface r in
  surface_view (updateRendererSurface r)
    = (data s, width s, height s, offset s, scanlineStride s, pixelStride s) /\
  clip (updateRendererSurface r) = clip r /\ color (updateRendererSurface r) = color r /\
  _compositeRule (updateRendererSurface r) = _compositeRule r /\
  buffers (updateRendererSurface r) = buffers r.
Proof. unfold updateRendererSurface. repeat case_match; done. Qed.

Lemma validate_view r :
  let s := _surface r in
  let r' := VALIDATE_BLITTING (INVALIDATE_RENDERER_SURFACE r) in
  surface_view r' = (data s, width s, height s, offset s, scanlineStride s, pixelStride s) /\
  clip r' = clip r /\ buffers r' = buffers r /\
  (_compositeRule r <> COMPOSITE_CLEAR -> color r' = color r).
Proof.
  cbv zeta. set (r1 := INVALIDATE_RENDERER_SURFACE r).
  assert (invalid 4 r1 = true) as B.
  { unfold r1, INVALIDATE_RENDERER_SURFACE. rewrite invalid_set_bits by done. apply orb_true_r. }
  change (_surface r) with (_surface r1). change (clip r) with (clip r1).
  change (color r) with (color r1). change (buffers r) with (buffers r1). change (_compositeRule r) with (_compositeRule r1). clearbody r1.
  unfold VALIDATE_BLITTING. cbv zeta. rewrite truth_and_blitting. fold (invalid 4 r1).
  rewrite B, !orb_true_r. simpl orb. cbv iota. rewrite truth_and_surface. fold (invalid 4 r1). rewrite B.
  fold (update_pointers (_rendererState r1)
    (if truth_and (_rendererState r1) INVALID_INTERNAL_COLOR
     then updateInternalColor (updateRendererSurface r1) else updateRendererSurface r1)).
  destruct (updateRendererSurface_view r1) as (V1 & C1 & K1 & R1 & B1).
  destruct (updateInternalColor_view (updateRendererSurface r1)) as (V2 & C2 & K2 & B2).
  match goal with |- surface_view (update_pointers ?s ?x) = _ /\ _ =>
    destruct (update_pointers_view s x) as (-> & -> & -> & ->) end.
  rewrite R1 in K2. split; [|split; [|split; [|intros Hne; specialize (K2 Hne)]]];
    destruct (truth_and _ INVALID_INTERNAL_COLOR); rewrite ?V2, ?C2, ?K2, ?B2; done.
Qed.

(** ** The world between calls *)

(** A renderer in use, on a surface made by [JavaSurface_initialize], with its clip
    inside the surface, and no error pending. *)
Record world_ok (w : World) : Prop := {
  wo_reachable : reachable (renderer w);
  wo_stride : scanlineStride (_surface (renderer w)) = width (_surface (renderer w));
  wo_ps : pixelStride (_surface (renderer w)) = 1;
  wo_w : 0 < width (_surface (renderer w));
  wo_h : 0 < height (_surface (renderer w));
  wo_len : alen (dataInt w) = width (_surface (renderer w)) * height (_surface (renderer w));
  wo_max : alen (dataInt w) <= 2147483647;
  wo_minX : 0 <= _clip_bbMinX (renderer w);
  wo_minY : 0 <= _clip_bbMinY (renderer w);
  wo_maxX : _clip_bbMaxX (renderer w) < width (_surface (renderer w));
  wo_maxY : _clip_bbMaxY (renderer w) < height (_surface (renderer w));
  wo_flag : memErrorFlag w = false;
}.

(** The pixel at index [i] of the surface is inside the clip. *)
Definition in_clip (r : Renderer) (i : Z) : Prop :=
  let sw := width (_surface r) in
  _clip_bbMinX r <= i mod sw <= _clip_bbMaxX r /\ _clip_bbMinY r <= i / sw <= _clip_bbMaxY r.

Lemma reachable_step r r' : reachable r -> step r r' -> reachable r'.
Proof. intros (s & Hs & H) Hst. exists s. split; [done|]. by eapply rtc_r. Qed.

Lemma still_settings r r' : still r = still r' -> settings r = settings r'.
Proof.
  intros E. change (settings (still r) = settings (still r')). by rewrite E.
Qed.

(** The rows [y_from .. y_to] and columns [x_from .. x_to] of the surface. *)
Lemma rect_fits w x_from x_to y_from y_to :
  world_ok w -> _clip_bbMinX (renderer w) <= x_from -> x_from <= x_to ->
  x_to <= _clip_bbMaxX (renderer w) -> _clip_bbMinY (renderer w) <= y_from -> y_from <= y_to ->
  y_to <= _clip_bbMaxY (renderer w) ->
  let sw := width (_surface (renderer w)) in
  fits (y_from * sw) sw x_from (x_to - x_from + 1) (y_to - y_from + 1) (alen (dataInt w)) /\
  (y_from + (y_to - y_from + 1)) * sw <= 2147483647 /\ sw <= 2147483647.
Proof.
  intros [] ? ? ? ? ? ?. cbv zeta.
  set (sw := width (_surface (renderer w))) in *. set (sh := height (_surface (renderer w))) in *.
  assert ((y_to + 1) * sw <= sh * sw) by nia. assert (0 <= y_from * sw) by nia.
  split; [split; nia|]. nia.
Qed.

(** The renderer that [fillRect] prepares. *)
Definition rect_renderer (r : Renderer) (x_from x_to y_from aw sw lfrac rfrac : Z) : Renderer :=
  r |> set_minTouched x_from |> set_maxTouched x_to
    |> set_currX x_from |> set_currY y_from |> set_alphaWidth aw
    |> set_currImageOffset (i32 (y_from * sw))
    |> set_imageScanlineStride sw |> set_imagePixelStride 1 |> set_rowNum 0
    |> set_el_lfrac lfrac |> set_el_rfrac rfrac.

(** The renderer at the first batch: the surface acquired and validated. *)
Definition acquired (wd : World) (x y : Z) : Renderer :=
  let r := renderer wd |> set_rectX (x >> 16) |> set_rectY (y >> 16) in
  VALIDATE_BLITTING (INVALIDATE_RENDERER_SURFACE
    (set_surface (with_data (Some (dataInt wd)) (_surface r)) r)).

Lemma acquired_reachable wd x y : reachable (renderer wd) -> reachable (acquired wd x y).
Proof.
  intros H. unfold acquired. eapply reachable_step; [|apply step_validate].
  eapply reachable_step; [|apply step_invalidate].
  eapply reachable_step; [exact H|by apply step_render].
Qed.

(** What the validation leaves as it was. *)
Lemma acquired_ok wd x y :
  reachable (renderer wd) -> _paintMode (renderer wd) = PAINT_FLAT_COLOR ->
  _compositeRule (renderer wd) <> COMPOSITE_CLEAR ->
  let r := acquired wd x y in let s := _surface (renderer wd) in
  surface_view r = (Some (dataInt wd), width s, height s, offset s, scanlineStride s, pixelStride s) /\
  clip r = clip (renderer wd) /\ color r = color (renderer wd) /\
  _surface r = with_data (Some (dataInt wd)) s /\
  _paintFns r = Build_PaintFns (_emitRows (_paintFns r))
    (line_for (imageType s) (_compositeRule (renderer wd)) PAINT_FLAT_COLOR) None.
Proof.
  intros Hr Hm Hc. cbv zeta. unfold acquired. cbv zeta.
  set (r1 := set_surface _ _).
  assert (reachable (INVALIDATE_RENDERER_SURFACE r1)) as H1.
  { eapply reachable_step; [|apply step_invalidate].
    eapply reachable_step; [exact Hr|by apply step_render]. }
  destruct (VALIDATE_BLITTING_ok _ (reachable_coherent _ H1)) as [(_ & _ & _ & P) _ _ I].
  destruct (validate_view r1) as (V1 & V2 & _ & V3).
  destruct I as [_ E1 E2 E3 E4 _]. cbn in E1, E2, E3, E4.
  set (r := VALIDATE_BLITTING _) in *. clearbody r.
  split; [exact V1|]. split; [exact V2|]. split; [by apply V3|]. split; [exact E4|].
  destruct P as (_ & P2 & P3). rewrite E1, E2, E4, Hm in *. specialize (P3 Hc).
  destruct (_paintFns r). cbn in *. by rewrite P2, P3.
Qed.

(** ** The whole of [fillRect] in a flat colour *)

Section FlatRect.
Context (alloc : Z -> option (list Z)) (wd : World) (x y w h le re te be : Z).
Context (xf xt lf0 rf0 yf yt tf0 bf0 lf rf tf bf : Z).
Let r0 := renderer wd.
Let sw := width (_surface r0).
Hypothesis Hwd : world_ok wd.
Hypothesis Hmode : _paintMode r0 = PAINT_FLAT_COLOR.
Hypothesis Hrule : _compositeRule r0 <> COMPOSITE_CLEAR.
Hypothesis Hpin : default true (head (pins wd)) = true.
Hypothesis Hx : axis x w le re (_clip_bbMinX r0) (_clip_bbMaxX r0) = (xf, xt, lf0, rf0).
Hypothesis Hy : axis y h te be (_clip_bbMinY r0) (_clip_bbMaxY r0) = (yf, yt, tf0, bf0).
Hypothesis Hlr : single xf xt lf0 rf0 = (lf, rf).
Hypothesis Htb : single yf yt tf0 bf0 = (tf, bf).

(** The renderer when the first batch starts. *)
Definition rect_start : Renderer :=
  rect_renderer (acquired wd x y) xf xt yf (xt - xf + 1) sw lf rf.

Lemma rect_start_setup :
  xf <= xt -> yf <= yt ->
  exists f, line_for (imageType (_surface r0)) (_compositeRule r0) PAINT_FLAT_COLOR = Some f /\
    flat_setup rect_start f xf (xt - xf + 1) sw /\
    flat_lines rect_start f xf (xt - xf + 1) sw rect_start yf (dataInt wd) /\
    color rect_start = color r0.
Proof using All.
  intros Hxl Hyl. destruct (axis_ok _ _ _ _ _ _ _ _ _ _ Hx) as [X1 X2 X3 X4].
  destruct (axis_ok _ _ _ _ _ _ _ _ _ _ Hy) as [Y1 Y2 Y3 Y4].
  destruct (single_ok _ _ _ _ _ _ X3 X4 Hxl Hlr) as (L1 & L2 & L3).
  destruct (rect_fits wd xf xt yf yt Hwd) as (F & M & Msw); [assumption..|].
  destruct (acquired_ok wd x y (wo_reachable _ Hwd) Hmode Hrule) as (V & _ & K & _ & P).
  unfold rect_start. revert V K P. generalize (acquired wd x y). intros ra V K P.
  eexists. split; [reflexivity|]. split; [|split; [|exact K]].
  - split; try assumption; try reflexivity.
    destruct (imageType _ =? _), (_ =? COMPOSITE_SRC_OVER); reflexivity.
  - split; try reflexivity; [by injection V|].
    change (i32 (yf * sw) = yf * sw). destruct F as [F1 F2 F3 F4 F5 F6 F7], Hwd. subst sw r0.
    apply i32_id. unfold is_i32. nia.
Qed.

#[local] Opaque VALIDATE_BLITTING INVALIDATE_RENDERER_SURFACE emit_rectangle axis single.
(** [fillRect] is the acquisition, the rectangle and the release. *)
Lemma fillRect_body r' d' :
  i32 (xt - xf + 1) = xt - xf + 1 -> i32 (yt - yf + 1) = yt - yf + 1 -> xf <= xt -> yf <= yt ->
  emit_rectangle alloc xf (xt - xf + 1) sw (yt - yf + 1) tf bf rect_start = Some r' ->
  _data r' = Some d' ->
  fillRect alloc x y w h le re te be wd =
    Some {| renderer := r'; dataInt := d'; memErrorFlag := false; thrown := thrown wd;
            pins := tail (pins wd) |}.
Proof using All.
  intros I1 I2 Hxl Hyl E Hd.
  unfold fillRect. cbv zeta. cbn [_clip_bbMinX _clip_bbMaxX _clip_bbMinY _clip_bbMaxY
    set_rectX set_rectY]. fold r0. rewrite Hx, Hy.
  rewrite (proj2 (Z.leb_le xf xt) Hxl), (proj2 (Z.leb_le yf yt) Hyl). cbn [andb].
  unfold rect_start, acquired in E. fold r0 in E. cbv zeta in E.
  pose proof (wo_flag _ Hwd) as Hflag.
  unfold with_surface, surface_acquire, pin. cbn [pins set_renderer dataInt].
  destruct (pins wd) as [|b bs] eqn:Ep; cbn in Hpin; [|subst b];
    cbn [readMemErrorFlag memErrorFlag set_renderer renderer]; rewrite Hflag, Htb, Hlr, I1, I2;
    match goal with |- context [emit_rectangle ?a ?b ?c ?d ?e ?f ?g ?i] =>
      replace (emit_rectangle a b c d e f g i) with (Some r') by (symmetry; exact E) end;
    cbn [mbind option_bind]; rewrite Hd;
    cbn [mbind option_bind];
    unfold throw_on_error, readAndClearMemErrorFlag, surface_release, set_dataInt, set_renderer;
    cbn [memErrorFlag renderer dataInt thrown pins tail]; rewrite ?Hflag, ?Ep; reflexivity.
Qed.

(** The run, whatever is known ([Q]) of the lines of this colour and rule. *)
Lemma fillRect_flat (Q : Z -> (Z -> Z -> Z) -> Prop) :
  xf <= xt -> yf <= yt ->
  (forall f, line_for (imageType (_surface r0)) (_compositeRule r0) PAINT_FLAT_COLOR = Some f ->
     flat_setup rect_start f xf (xt - xf + 1) sw -> color rect_start = color r0 ->
     LineEmitter (emit_lines alloc (xt - xf + 1)) (flat_lines rect_start f xf (xt - xf + 1) sw)
       xf (xt - xf + 1) sw Q) ->
  exists r' q, fillRect alloc x y w h le re te be wd =
    Some {| renderer := r';
            dataInt := raster (yf * sw) sw xf (xt - xf + 1) (yt - yf + 1) q (dataInt wd);
            memErrorFlag := false; thrown := thrown wd; pins := tail (pins wd) |} /\
    still r' = still rect_start /\
    forall j, 0 <= j < yt - yf + 1 -> Q (line_frac (yt - yf + 1) tf bf j) (q j).
Proof using All.
  intros Hxl Hyl HE. destruct (axis_ok _ _ _ _ _ _ _ _ _ _ Hx) as [X1 X2 X3 X4].
  destruct (axis_ok _ _ _ _ _ _ _ _ _ _ Hy) as [Y1 Y2 Y3 Y4].
  destruct (single_ok _ _ _ _ _ _ Y3 Y4 Hyl Htb) as (T1 & T2 & T3).
  destruct (rect_fits wd xf xt yf yt Hwd) as (F & M & Msw); [assumption..|].
  destruct (rect_start_setup Hxl Hyl) as (f & Hf & Hs & HI & Hk).
  specialize (HE f Hf Hs Hk).
  destruct (emit_rectangle_ok alloc (flat_lines rect_start f xf (xt - xf + 1) sw) xf (xt - xf + 1) sw Q
    yf (yt - yf + 1) tf bf (dataInt wd) rect_start F) as (r' & y' & d' & E & HI' & q & -> & Hq);
    try assumption; [exact (Z.le_trans _ _ _ (wo_minY _ Hwd) Y1)|lia|].
  exists r', q. split; [|by split; [apply (fl_still _ _ _ _ _ _ _ _ HI')|]].
  assert (i32 (xt - xf + 1) = xt - xf + 1 /\ i32 (yt - yf + 1) = yt - yf + 1) as [I1 I2].
  { destruct F as [F1 F2 F3 F4 F5 F6 F7]. pose proof (wo_w _ Hwd).
    pose proof (Z.le_trans _ _ _ (wo_minY _ Hwd) Y1). split; apply i32_id; unfold is_i32; nia. }
  rewrite (fillRect_body r' _ I1 I2 Hxl Hyl E (fl_data _ _ _ _ _ _ _ _ HI')). reflexivity.
Qed.
End FlatRect.

(** ** What a rectangle keeps *)

(** A renderer that differs from an acquired one in what [still] forgets and in
    the members of the rectangle. *)
Lemma rect_world wd x y xf xt yf aw lf rf r' d' t p :
  world_ok wd -> _paintMode (renderer wd) = PAINT_FLAT_COLOR ->
  _compositeRule (renderer wd) <> COMPOSITE_CLEAR ->
  still r' = still (rect_renderer (acquired wd x y) xf xt yf aw (width (_surface (renderer wd))) lf rf) ->
  length d' = length (dataInt wd) ->
  let wd' := {| renderer := r'; dataInt := d'; memErrorFlag := false; thrown := t; pins := p |} in
  world_ok wd' /\ clip r' = clip (renderer wd) /\
  _paintMode r' = _paintMode (acquired wd x y) /\ color r' = color (renderer wd).
Proof.
  intros H Hm Hc E Hl. cbv zeta.
  destruct (acquired_ok wd x y (wo_reachable _ H) Hm Hc) as (_ & V & K & S & _).
  pose proof (acquired_reachable wd x y (wo_reachable _ H)) as Hr. revert E V K S Hr.
  generalize (acquired wd x y). intros ra E V K S Hr.
  pose proof (f_equal _surface E) as E1. pose proof (f_equal clip E) as E2.
  pose proof (still_settings _ _ E) as E3.
  pose proof (f_equal _paintMode E) as E4. pose proof (f_equal color E) as E5.
  cbn in E1. change (clip r' = clip ra) in E2. change (settings r' = settings ra) in E3.
  change (_paintMode r' = _paintMode ra) in E4. change (color r' = color ra) in E5.
  rewrite V in E2. rewrite K in E5. rewrite S in E1. split; [|by repeat split].
  injection E2 as C1 C2 C3 C4. destruct H. unfold alen in *.
  split; cbn; unfold alen; rewrite ?E1, ?C1, ?C2, ?C3, ?C4, ?Hl; cbn; try assumption; [|reflexivity].
  eapply reachable_step; [exact Hr|]. by apply step_render.
Qed.

Lemma inside_clip r xf xt yf yt (i : nat) :
  0 < width (_surface r) ->
  _clip_bbMinX r <= xf -> xt <= _clip_bbMaxX r -> _clip_bbMinY r <= yf -> yt <= _clip_bbMaxY r ->
  let sw := width (_surface r) in
  inside (yf * sw) sw xf (xt - xf + 1) (yt - yf + 1) (Z.of_nat i) -> in_clip r (Z.of_nat i).
Proof.
  intros Hw ? ? ? ?. cbv zeta. unfold inside, in_clip.
  set (sw := width (_surface r)) in *. clearbody sw. intros Hi.
  replace (Z.of_nat i - yf * sw) with (Z.of_nat i + (- yf) * sw) in Hi by lia.
  rewrite Z_div_plus_full, Z_mod_plus_full in Hi by lia. lia.
Qed.

(** A rectangle that the clip leaves nothing of. *)
Lemma fillRect_empty alloc x y w h le re te be wd xf xt lf rf yf yt tf bf :
  axis x w le re (_clip_bbMinX (renderer wd)) (_clip_bbMaxX (renderer wd)) = (xf, xt, lf, rf) ->
  axis y h te be (_clip_bbMinY (renderer wd)) (_clip_bbMaxY (renderer wd)) = (yf, yt, tf, bf) ->
  ~ (xf <= xt /\ yf <= yt) ->
  fillRect alloc x y w h le re te be wd =
    Some (set_renderer (renderer wd |> set_rectX (x >> 16) |> set_rectY (y >> 16)) wd).
Proof.
  intros Hx Hy Hn. unfold fillRect. cbv zeta.
  cbn [_clip_bbMinX _clip_bbMaxX _clip_bbMinY _clip_bbMaxY set_rectX set_rectY]. rewrite Hx, Hy.
  destruct (Z.leb_spec xf xt), (Z.leb_spec yf yt); done || lia.
Qed.

Lemma set_rect_world wd x y :
  world_ok wd -> world_ok (set_renderer (renderer wd |> set_rectX x |> set_rectY y) wd).
Proof.
  intros []. split; try assumption. eapply reachable_step; [eassumption|]. by apply step_render.
Qed.

(** ** Properties *)

(** C17. [fillRect] in a flat colour is safe: for any arguments, on a renderer in use
    whose clip lies in its surface, with the source or the source-over rule, it
    runs without leaving its arrays, throws nothing, changes no pixel outside the
    clip, and ends in a world in which it can run again. *)
Theorem fillRect_safe alloc x y w h le re te be wd :
  world_ok wd -> _paintMode (renderer wd) = PAINT_FLAT_COLOR ->
  _compositeRule (renderer wd) <> COMPOSITE_CLEAR -> default true (head (pins wd)) = true ->
  exists wd', fillRect alloc x y w h le re te be wd = Some wd' /\ world_ok wd' /\
    thrown wd' = thrown wd /\ clip (renderer wd') = clip (renderer wd) /\
    color (renderer wd') = color (renderer wd) /\
    forall i : nat, ~ in_clip (renderer wd) (Z.of_nat i) -> dataInt wd' !! i = dataInt wd !! i.
Proof.
  intros H Hm Hc Hp.
  destruct (axis x w le re (_clip_bbMinX (renderer wd)) (_clip_bbMaxX (renderer wd)))
    as [[[xf xt] lf0] rf0] eqn:Hx.
  destruct (axis y h te be (_clip_bbMinY (renderer wd)) (_clip_bbMaxY (renderer wd)))
    as [[[yf yt] tf0] bf0] eqn:Hy.
  destruct (single xf xt lf0 rf0) as [lf rf] eqn:Hlr, (single yf yt tf0 bf0) as [tf bf] eqn:Htb.
  destruct (decide (xf <= xt /\ yf <= yt)) as [[Hxl Hyl]|Hn].
  - destruct (fillRect_flat alloc wd x y w h le re te be xf xt lf0 rf0 yf yt tf0 bf0 lf rf tf bf
      H Hm Hc Hp Hx Hy Hlr Htb (fun _ _ => True) Hxl Hyl) as (r' & q & -> & Hs & _).
    { intros f _ Hs _. by apply flat_emitter. }
    eexists. split; [reflexivity|].
    destruct (rect_world wd x y xf xt yf (xt - xf + 1) lf rf r' _ (thrown wd) (list.tail (pins wd))
      H Hm Hc Hs (length_raster (yf * width (_surface (renderer wd))) (width (_surface (renderer wd)))
        xf (xt - xf + 1) (yt - yf + 1) q (dataInt wd))) as (W & K1 & _ & K2).
    repeat (split; [assumption || reflexivity|]). intros i Hi.
    destruct (axis_ok _ _ _ _ _ _ _ _ _ _ Hx) as [X1 X2 _ _].
    destruct (axis_ok _ _ _ _ _ _ _ _ _ _ Hy) as [Y1 Y2 _ _].
    cbn [dataInt]. eapply raster_only_inside; [apply Z.le_refl|]. intros Hin. apply Hi.
    by apply (inside_clip (renderer wd) xf xt yf yt i (wo_w _ H)).
  - rewrite (fillRect_empty alloc x y w h le re te be wd _ _ _ _ _ _ _ _ Hx Hy Hn).
    eexists. split; [reflexivity|]. by split; [apply set_rect_world|].
Qed.

(** C32. When the virtual machine does not give the address of the surface's array,
    [fillRect] throws [OutOfMemoryError], whatever the paint and the rule, leaves
    every pixel as it was, and clears the error flag, so that the next call
    starts afresh; a rectangle outside the clip needs no array and throws nothing. *)
Theorem fillRect_out_of_memory alloc x y w h le re te be wd xf xt lf rf yf yt tf bf ps :
  pins wd = false :: ps -> memErrorFlag wd = false ->
  axis x w le re (_clip_bbMinX (renderer wd)) (_clip_bbMaxX (renderer wd)) = (xf, xt, lf, rf) ->
  axis y h te be (_clip_bbMinY (renderer wd)) (_clip_bbMaxY (renderer wd)) = (yf, yt, tf, bf) ->
  exists wd', fillRect alloc x y w h le re te be wd = Some wd' /\
    dataInt wd' = dataInt wd /\ memErrorFlag wd' = false /\
    settings (renderer wd') = settings (renderer wd) /\
    thrown wd' = (if (xf <=? xt) && (yf <=? yt) then Some OutOfMemoryError else thrown wd).
Proof.
  intros Hp Hf Hx Hy. destruct ((xf <=? xt) && (yf <=? yt)) eqn:E.
  - unfold fillRect. cbv zeta.
    cbn [_clip_bbMinX _clip_bbMaxX _clip_bbMinY _clip_bbMaxY set_rectX set_rectY].
    rewrite Hx, Hy, E. unfold with_surface, surface_acquire, pin. cbn. rewrite Hp. cbn.
    eexists. by split.
  - eexists. split; [eapply fillRect_empty; [exact Hx|exact Hy|]|done].
    apply andb_false_iff in E. rewrite !Z.leb_gt in E. lia.
Qed.

(** The blending of source-over on a surface of a type. *)
Definition over_for (imageType : Z) : Z -> Z -> Z -> Z -> Z -> Z :=
  if imageType =? TYPE_INT_ARGB_PRE then blendSrcOver8888_pre else blendSrcOver8888.

Lemma over_for_emits it f r rows frac d :
  line_for it COMPOSITE_SRC_OVER PAINT_FLAT_COLOR = Some f ->
  emit_pre r rows frac d -> color_ok r ->
  run_emit f r rows frac = Some (set_data (Some (over_batch_raster (over_for it) r rows frac d)) r).
Proof.
  unfold line_for, over_for. destruct (it =? TYPE_INT_ARGB_PRE); cbn; intros [= <-] ? ?.
  - by apply emit_over_pre.
  - by apply emit_over.
Qed.

(** The line of [axis] that a rectangle covers, and the alpha of pixel [k] of its
    line [j]: the alpha of the colour by the coverages of the row and the column. *)
Definition rect_alpha (r : Renderer) (xf xt yf yt lf rf tf bf j k : Z) : Z :=
  line_alpha (r |> set_alphaWidth (xt - xf + 1) |> set_el_lfrac lf |> set_el_rfrac rf)
    (line_frac (yt - yf + 1) tf bf j) k.


(** ** Witnesses: a 4x3 surface and a rectangle from (0.5, 0.25) to (2.75, 2) *)

Definition demo_renderer : Renderer :=
  createCommon (JavaSurface_initialize TYPE_INT_ARGB_PRE 4 3)
  |> renderer_setColor 200 100 50 255 |> renderer_setClip 0 0 4 3.

Definition demo_world (ps : list bool) : World :=
  {| renderer := demo_renderer; dataInt := replicate 12 0; memErrorFlag := false;
     thrown := None; pins := ps |}.

Lemma demo_world_ok ps : world_ok (demo_world ps).
Proof.
  split; [|vm_compute; intuition discriminate..].
  exists (JavaSurface_initialize TYPE_INT_ARGB_PRE 4 3). split; [by right|].
  eapply rtc_l; [apply (step_setColor _ 200 100 50 255)|].
  eapply rtc_l; [apply (step_setClip _ 0 0 4 3)|apply rtc_refl].
Qed.

Lemma axis_covers_witness :
  axis 32768 147456 IMAGE_FRAC_EDGE_KEEP IMAGE_FRAC_EDGE_KEEP (-32768) 32767 = (0, 2, 32768, 49152) /\
  32768 = (0 + 1) * 65536 - 32768.
Proof.
  split; [reflexivity|].
  destruct (axis_covers 32768 147456 0 2 32768 49152) as (_ & _ & _ & [[H _]|[_ H]] & _);
    [vm_compute; intuition discriminate..|discriminate H|exact H].
Defined.

Lemma fillRect_safe_witness :
  exists wd', fillRect (fun _ => None) 32768 16384 147456 114688 0 0 0 0 (demo_world [true]) = Some wd' /\
    world_ok wd'.
Proof.
  destruct (fillRect_safe (fun _ => None) 32768 16384 147456 114688 0 0 0 0 (demo_world [true])
    (demo_world_ok _)) as (wd' & E & W & _); [reflexivity|discriminate|reflexivity|].
  exists wd'. split; [exact E|exact W].
Defined.

Lemma fillRect_out_of_memory_witness :
  exists wd', fillRect (fun _ => None) 32768 16384 147456 114688 0 0 0 0 (demo_world [false]) = Some wd' /\
    thrown wd' = Some OutOfMemoryError.
Proof.
  destruct (fillRect_out_of_memory (fun _ => None) 32768 16384 147456 114688 0 0 0 0
    (demo_world [false]) 0 2 32768 49152 0 1 49152 0 []) as (wd' & E & _ & _ & _ & T);
    [reflexivity..|]. exists wd'. split; [exact E|exact T].
Defined.

