(* ===== verification/SurfaceRGB.v ===== *)
(** * Copying pixels in and out of a surface (JAbstractSurface.c, PiscesSurface.inl)

    [getRGBImpl] and [setRGBImpl] copy a rectangle between a surface and an array
    of Java, after [CORRECT_DIMS] has cut it to the surface.  Java calls them
    through a check of its arguments, [rgbCheck] of AbstractSurface.java, which is
    modelled here too: it is the contract that the native code relies on.  The
    array and the array behind the surface are distinct objects. *)

From stdpp Require Import base relations.
From S2P Require Import Prelude Mem Blend Renderer Transform EmitLine Blit Routines Paint JRenderer FillRect.
#[local] Open Scope Z_scope.

(** ** Operations *)

(** One axis of [CORRECT_DIMS]: the position in the surface, the size, and the
    position in the array. *)
Definition correct_axis (size x w x1 : Z) : Z * Z * Z :=
  let '(x, w, x1) := if x <? 0 then (0, i32 (w + x), i32 (x1 - x)) else (x, w, x1) in
  let w := if size <? i32 (x + w) then i32 (size - x) else w in
  (x, w, x1).

(** [setRGB]: the loops over [width] pixels of [height] rows, from index [s] of
    [src] to index [d] of [dst]. *)
Definition setRGB (dst : list Z) (d dstScanLength : Z) (src : list Z) (s srcScanLength : Z)
    (width height : Z) : option (list Z) :=
  let srcScanRest := i32 (srcScanLength - width) in
  let dstScanRest := i32 (dstScanLength - width) in
  '(dst, _, _) ← for_ (Z.to_nat height)
    (fun '(dst, d, s) =>
       '(dst, d, s) ← for_ (Z.to_nat width)
         (fun '(dst, d, s) =>
            v ← ld src s;
            dst ← st dst d v;
            Some (dst, d + 1, s + 1))
         (dst, d, s);
       Some (dst, d + dstScanRest, s + srcScanRest))
    (dst, d, s);
  Some dst.

(** The surface's pixels [d] after [surface_setRGB]. *)
Definition surface_setRGB (surface : Surface) (d : list Z) (x y w h : Z) (src : list Z) (s scanLength : Z)
    : option (list Z) :=
  setRGB d (i32 (y * width surface) + x) (width surface) src s scanLength w h.

(** The result also has the contents of the array of Java. *)
Definition getRGBImpl (array : list Z) (offset scanLength x y w h : Z) (wd : World)
    : option (World * list Z) :=
  let surface := _surface (renderer wd) in
  let '(x, w, dstX) := correct_axis (width surface) x w 0 in
  let '(y, h, dstY) := correct_axis (height surface) y h 0 in
  if (0 <? w) && (0 <? h) then
    let '(dstData, wd) := pin array wd in
    match dstData with
    | Some dst =>
        let wd := surface_acquire wd in
        '(wd, dst) ←
          if readMemErrorFlag wd then Some (wd, dst) else
          src ← data (_surface (renderer wd));
          dst ← setRGB dst (offset + i32 (dstY * scanLength) + dstX) scanLength
                  src (i32 (y * width surface) + x) (width surface) w h;
          Some (surface_release src wd, dst);
        Some (throw_on_error wd, dst)
    | None => Some (JNI_ThrowNew OutOfMemoryError wd, array)
    end
  else Some (wd, array).

Definition setRGBImpl (array : list Z) (offset scanLength x y w h : Z) (wd : World) : option World :=
  let surface := _surface (renderer wd) in
  let '(x, w, srcX) := correct_axis (width surface) x w 0 in
  let '(y, h, srcY) := correct_axis (height surface) y h 0 in
  if (0 <? w) && (0 <? h) then
    let '(srcData, wd) := pin array wd in
    match srcData with
    | Some src =>
        wd ← with_surface (fun wd =>
          d ← data (_surface (renderer wd));
          d ← surface_setRGB surface d x y w h src (offset + i32 (srcY * scanLength) + srcX) scanLength;
          Some (wd, d)) wd;
        Some (throw_on_error wd)
    | None => Some (JNI_ThrowNew OutOfMemoryError wd)
    end
  else Some wd.

(** The number of bits up to the highest one that is set, [32 -
    Integer.numberOfLeadingZeros(z)]; [z] is not negative where it is used. *)
Definition bit_length (z : Z) : Z := if z =? 0 then 0 else Z.log2 z + 1.

(** [rgbCheck]: whether it returns without an [IllegalArgumentException]. *)
Definition rgbCheck (width height arr_length offset scanLength x y w h : Z) : bool :=
  negb ((x <? 0) || (width <=? x)) && negb ((y <? 0) || (height <=? y)) &&
  negb (w <? 0) && negb (h <? 0) &&
  negb (width <? i32 (x + w)) && negb (height <? i32 (y + h)) &&
  negb (offset <? 0) && negb (scanLength <? 0) && negb (scanLength <? w) &&
  negb (31 <? bit_length scanLength + bit_length h) &&
  negb (arr_length <? i32 (offset + scanLength * (h - 1) + w)).

(** ** Lemmas: the copying loops *)

(** Pixel [(j, k)] of the rectangle that starts at [s]. *)
Definition src_at (src : list Z) (s scan : Z) (j k : Z) : Z := default 0 (ld src (s + j * scan + k)).

Lemma alter_const (d : list Z) i v : i < alen d -> 0 <= i ->
  alter (fun _ => v) (Z.to_nat i) d = <[Z.to_nat i := v]> d.
Proof.
  intros Hi H0. unfold alen in *. apply list_eq. intros j.
  destruct (decide (j = Z.to_nat i)) as [->|].
  - rewrite list_lookup_alter_eq, list_lookup_insert_eq by lia.
    destruct (lookup_lt_is_Some_2 d (Z.to_nat i)) as [u ->]; [lia|done].
  - by rewrite list_lookup_alter_ne, list_lookup_insert_ne.
Qed.

Lemma setRGB_row src dst d s w :
  0 <= w -> 0 <= d -> d + w <= alen dst -> 0 <= s -> s + w <= alen src ->
  for_ (Z.to_nat w)
    (fun '(dst, d, s) => v ← ld src s; dst ← st dst d v; Some (dst, d + 1, s + 1)) (dst, d, s) =
  Some (row d w (fun k _ => default 0 (ld src (s + k))) dst, d + w, s + w).
Proof.
  intros Hw Hd Hdl Hs Hsl.
  set (F := fun k : nat => (row d (Z.of_nat k) (fun k _ => default 0 (ld src (s + k))) dst,
    d + Z.of_nat k, s + Z.of_nat k)).
  assert ((dst, d, s) = F O) as ->.
  { unfold F. by rewrite row_0, !Z.add_0_r. }
  assert (Some (row d w (fun k _ => default 0 (ld src (s + k))) dst, d + w, s + w) = Some (F (Z.to_nat w)))
    as -> by (unfold F; by rewrite Z2Nat.id).
  apply for_eq. intros k Hk. unfold F.
  destruct (ld_in src (s + Z.of_nat k)) as [v Hv]; [lia|]. rewrite Hv. cbn [mbind option_bind].
  assert (alen (row d (Z.of_nat k) (fun k _ => default 0 (ld src (s + k))) dst) = alen dst) as El.
  { unfold alen. by rewrite length_row. }
  rewrite st_in by lia. cbn [mbind option_bind].
  rewrite Nat2Z.inj_succ. unfold Z.succ. rewrite row_snoc, Hv by lia. cbn [default].
  rewrite alter_const by lia. by rewrite !Z.add_assoc.
Qed.

(** The copy is a raster of the destination. *)
Lemma setRGB_raster dst d dscan src s sscan w h :
  0 < w -> 0 < h -> w <= dscan -> w <= sscan -> is_i32 dscan -> is_i32 sscan ->
  0 <= d -> d + (h - 1) * dscan + w <= alen dst ->
  0 <= s -> s + (h - 1) * sscan + w <= alen src ->
  setRGB dst d dscan src s sscan w h =
  Some (raster d dscan 0 w h (fun j k _ => src_at src s sscan j k) dst).
Proof.
  unfold is_i32. intros Hw Hh Hdw Hsw Hd32 Hs32 Hd Hdl Hs Hsl. unfold setRGB. cbv zeta.
  rewrite !i32_id by (unfold is_i32; lia).
  set (F := fun j : nat => (raster d dscan 0 w (Z.of_nat j) (fun j k _ => src_at src s sscan j k) dst,
    d + Z.of_nat j * dscan, s + Z.of_nat j * sscan)).
  assert ((dst, d, s) = F O) as ->.
  { unfold F. by rewrite raster_0, !Z.mul_0_l, !Z.add_0_r. }
  rewrite (for_eq F (Z.to_nat h)).
  - unfold F. cbn [mbind option_bind]. by rewrite Z2Nat.id by lia.
  - intros j Hj. unfold F. set (jz := Z.of_nat j).
    assert (0 <= jz <= h - 1) by lia.
    assert (jz * dscan <= (h - 1) * dscan /\ jz * sscan <= (h - 1) * sscan /\
            0 <= jz * dscan /\ 0 <= jz * sscan) as (? & ? & ? & ?) by nia.
    rewrite setRGB_row; [|lia|lia|unfold alen in *; rewrite length_raster; lia|lia|lia].
    cbn [mbind option_bind]. f_equal. rewrite Nat2Z.inj_succ. unfold Z.succ. fold jz.
    rewrite raster_snoc by lia. rewrite Z.add_0_r. f_equal; [f_equal|]; lia.
Qed.

(** A rectangle by the column of its first pixel. *)
Lemma raster_shift off s x w h f d :
  0 <= x -> 0 < w -> x + w <= s ->
  raster (off + x) s 0 w h f d = raster off s x w h f d.
Proof.
  intros Hx Hw Hs. pixelwise. set (p := Z.of_nat i - off).
  replace (Z.of_nat i - (off + x)) with (p - x) by lia.
  pose proof (Z.div_mod p s ltac:(lia)) as E. pose proof (Z.mod_pos_bound p s ltac:(lia)) as B.
  set (q := p / s) in *. set (r := p mod s) in *. clearbody q r.
  destruct (Z.le_gt_cases x r).
  - assert ((p - x) / s = q) as -> by (symmetry; apply (Z.div_unique _ _ _ (r - x)); lia).
    assert ((p - x) mod s = r - x) as -> by (symmetry; apply (Z.mod_unique _ _ q); lia).
    by rewrite Z.sub_0_r.
  - assert ((p - x) mod s = r - x + s) as -> by (symmetry; apply (Z.mod_unique _ _ (q - 1)); lia).
    zcase; done || lia.
Qed.

(** Reading back what was written. *)
Lemma src_at_raster off s x w h f d j k :
  0 <= j < h -> 0 <= k < w -> 0 <= off -> 0 <= x -> x + w <= s -> 0 < s ->
  off + (h - 1) * s + x + w <= alen d ->
  src_at (raster off s x w h (fun j k _ => f j k) d) (off + x) s j k = f j k.
Proof.
  intros Hj Hk Ho Hx Hs Hs0 Hl. unfold src_at.
  replace (off + x + j * s + k) with (off + j * s + x + k) by lia.
  assert (j * s <= (h - 1) * s) by nia.
  destruct (ld_in d (off + j * s + x + k)) as [v Hv]; [nia|].
  by rewrite (lookup_raster_at _ _ _ _ _ _ _ _ _ v).
Qed.

(** ** Lemmas: arguments and pins *)

Definition drop_pin (wd : World) : World :=
  {| renderer := renderer wd; dataInt := dataInt wd; memErrorFlag := memErrorFlag wd;
     thrown := thrown wd; pins := tail (pins wd) |}.

(** The next [n] requests for arrays succeed. *)
Definition pins_ok (n : nat) (wd : World) : Prop := Forall (eq true) (take n (pins wd)).

Lemma pin_ok {A} (a : A) n wd :
  pins_ok (S n) wd -> pin a wd = (Some a, drop_pin wd) /\ pins_ok n (drop_pin wd).
Proof.
  unfold pins_ok, pin, drop_pin. destruct wd as [r d m t [|b bs]]; cbn.
  - intros _. split; [done|]. by rewrite take_nil.
  - intros H. apply Forall_cons_1 in H as [<- H]. by split.
Qed.

Definition surfaceCheck (width height : Z) : bool :=
  negb (width <? 0) && negb (height <? 0) && negb (31 <? bit_length width + bit_length height).

Lemma bit_length_bound a b :
  0 <= a -> 0 < b -> bit_length a + bit_length b <= 31 -> a < 1073741824.
Proof.
  intros Ha Hb. unfold bit_length. zcase; try lia. intros H.
  pose proof (Z.log2_nonneg b). destruct (Z.log2_spec a) as [_ Hlt]; [lia|].
  assert (2 ^ Z.succ (Z.log2 a) <= 2 ^ 30) by (apply Z.pow_le_mono_r; lia). lia.
Qed.

(** What [rgbCheck] and the constructor of the surface guarantee of a call that
    copies something, when the sum in the last test does not overflow. *)
Record rgb_call (sw sh len offset scan x y w h : Z) : Prop := {
  rc_x : 0 <= x; rc_y : 0 <= y; rc_w : 0 < w; rc_h : 0 < h;
  rc_xw : x + w <= sw; rc_yh : y + h <= sh;
  rc_offset : 0 <= offset; rc_scan : w <= scan; rc_scan32 : scan < 1073741824;
  rc_len : offset + scan * (h - 1) + w <= len;
}.

Lemma rgbCheck_call sw sh len offset scan x y w h :
  surfaceCheck sw sh = true -> rgbCheck sw sh len offset scan x y w h = true ->
  0 < w -> 0 < h -> h <= 2147483647 -> offset + scan * (h - 1) + w <= 2147483647 ->
  rgb_call sw sh len offset scan x y w h.
Proof.
  unfold surfaceCheck, rgbCheck. rewrite !andb_true_iff, !negb_true_iff, !orb_false_iff.
  rewrite !Z.ltb_ge, !Z.leb_gt. intros Hs Hc Hw Hh Hh32 Hsum. destruct_and!.
  assert (scan < 1073741824) by (apply (bit_length_bound scan h); lia).
  assert (sw < 1073741824 /\ sh < 1073741824) as [? ?].
  { split; [apply (bit_length_bound sw sh)|apply (bit_length_bound sh sw)]; lia. }
  assert (h < 1073741824) by (apply (bit_length_bound h scan); lia).
  assert (0 <= scan * (h - 1)) by nia.
  assert (i32 (x + w) = x + w) by (apply i32_id; unfold is_i32; lia).
  assert (i32 (y + h) = y + h) by (apply i32_id; unfold is_i32; lia).
  assert (i32 (offset + scan * (h - 1) + w) = offset + scan * (h - 1) + w)
    by (apply i32_id; unfold is_i32; lia).
  split; lia.
Qed.

Lemma correct_axis_id size x w : 0 <= x -> 0 <= w -> x + w <= size -> size <= 2147483647 ->
  correct_axis size x w 0 = (x, w, 0).
Proof.
  intros. unfold correct_axis. destruct (Z.ltb_spec x 0); [lia|].
  rewrite i32_id by (unfold is_i32; lia). zcase; done || lia.
Qed.

(** The surface of the world, acquired. *)
Definition acquired_surface (wd : World) : World :=
  set_renderer (set_surface (with_data (Some (dataInt wd)) (_surface (renderer wd))) (renderer wd)) wd.

Lemma acquire_ok n wd :
  pins_ok (S n) wd -> surface_acquire wd = acquired_surface (drop_pin wd) /\ pins_ok n (drop_pin wd).
Proof.
  intros H. unfold surface_acquire. destruct (pin_ok (dataInt wd) n wd H) as [-> H']. by split.
Qed.

(** Acquiring the surface and replacing its pixels keeps the world usable. *)
Lemma acquired_world wd d :
  world_ok wd -> length d = length (dataInt wd) ->
  world_ok (set_dataInt d (acquired_surface (drop_pin (drop_pin wd)))).
Proof.
  intros [] Hl. unfold alen in *.
  split; cbn; unfold alen; rewrite ?Hl; cbn; try assumption.
  eapply reachable_step; [eassumption|]. by apply step_render.
Qed.

Section Calls.
Context (wd : World) (x y w h : Z).
Let sw := width (_surface (renderer wd)).
Let sh := height (_surface (renderer wd)).
Hypothesis Hwd : world_ok wd.
Hypothesis Hpins : pins_ok 2 wd.

(** [setRGBImpl] on checked arguments. *)
Lemma setRGB_run array offset scan :
  rgb_call sw sh (alen array) offset scan x y w h ->
  let d' := raster (y * sw) sw x w h (fun j k _ => src_at array offset scan j k) (dataInt wd) in
  setRGBImpl array offset scan x y w h wd =
    Some (set_dataInt d' (acquired_surface (drop_pin (drop_pin wd)))).
Proof using Hwd Hpins.
  intros []. cbv zeta. destruct Hwd as [_ _ _ Hw Hh Hl Hm _ _ _ _ Hf].
  fold sw sh in Hw, Hh, Hl. assert (sw <= 2147483647 /\ sh <= 2147483647) as [? ?] by nia.
  unfold setRGBImpl. cbv zeta. fold sw sh. rewrite !correct_axis_id by lia.
  rewrite (proj2 (Z.ltb_lt 0 w)), (proj2 (Z.ltb_lt 0 h)) by done. cbn [andb].
  destruct (pin_ok array 1 wd Hpins) as [-> H1]. unfold with_surface.
  destruct (acquire_ok 0 _ H1) as [-> _]. unfold readMemErrorFlag. cbn [memErrorFlag acquired_surface
    set_renderer drop_pin]. rewrite Hf.
  change (data (_surface (renderer (acquired_surface (drop_pin (drop_pin wd)))))) with (Some (dataInt wd)).
  cbn [mbind option_bind].
  unfold surface_setRGB. fold sw. rewrite Z.mul_0_l. change (i32 0) with 0. rewrite !Z.add_0_r.
  assert (0 <= y * sw /\ (y + h) * sw <= sw * sh /\ y * sw <= (y + h) * sw) as (? & ? & ?) by nia.
  rewrite (i32_id (y * sw)) by (unfold is_i32; lia).
  rewrite setRGB_raster by (unfold is_i32; nia). cbn [mbind option_bind].
  rewrite raster_shift by lia. unfold throw_on_error, readAndClearMemErrorFlag, surface_release, set_dataInt.
  cbn. rewrite Hf. reflexivity.
Qed.

(** [getRGBImpl] on checked arguments. *)
Lemma getRGB_run array offset scan :
  rgb_call sw sh (alen array) offset scan x y w h ->
  getRGBImpl array offset scan x y w h wd =
    Some (set_dataInt (dataInt wd) (acquired_surface (drop_pin (drop_pin wd))),
          raster offset scan 0 w h (fun j k _ => src_at (dataInt wd) (y * sw + x) sw j k) array).
Proof using Hwd Hpins.
  intros []. destruct Hwd as [_ _ _ Hw Hh Hl Hm _ _ _ _ Hf].
  fold sw sh in Hw, Hh, Hl. assert (sw <= 2147483647 /\ sh <= 2147483647) as [? ?] by nia.
  unfold getRGBImpl. cbv zeta. fold sw sh. rewrite !correct_axis_id by lia.
  rewrite (proj2 (Z.ltb_lt 0 w)), (proj2 (Z.ltb_lt 0 h)) by done. cbn [andb].
  destruct (pin_ok array 1 wd Hpins) as [-> H1].
  destruct (acquire_ok 0 _ H1) as [-> _]. unfold readMemErrorFlag. cbn [memErrorFlag acquired_surface
    set_renderer drop_pin]. rewrite Hf.
  change (data (_surface (renderer (acquired_surface (drop_pin (drop_pin wd)))))) with (Some (dataInt wd)).
  cbn [mbind option_bind].
  rewrite Z.mul_0_l. change (i32 0) with 0. rewrite !Z.add_0_r.
  assert (0 <= y * sw /\ (y + h) * sw <= sw * sh /\ y * sw <= (y + h) * sw) as (? & ? & ?) by nia.
  rewrite (i32_id (y * sw)) by (unfold is_i32; lia).
  rewrite setRGB_raster by (unfold is_i32; nia). cbn [mbind option_bind].
  unfold throw_on_error, readAndClearMemErrorFlag, surface_release, set_dataInt.
  cbn. rewrite Hf. reflexivity.
Qed.
End Calls.

(** ** Properties *)

(** C39. What is written by [setRGB] is read back by [getRGB]: on any rectangle that
    passes the checks of Java, with arrays laid out differently, the second array
    gets exactly the pixels of the first in the places its own layout names and
    keeps all others; in between, the surface has the pixels in the rectangle and
    its old pixels elsewhere, nothing is thrown, and the world stays usable.  The
    one condition beyond the checks is that the sums in their last test do not
    overflow. *)
Theorem rgb_roundtrip wd a o1 s1 b o2 s2 x y w h :
  world_ok wd -> pins_ok 4 wd -> 0 < w -> 0 < h <= 2147483647 ->
  let sw := width (_surface (renderer wd)) in
  let sh := height (_surface (renderer wd)) in
  surfaceCheck sw sh = true ->
  rgbCheck sw sh (alen a) o1 s1 x y w h = true -> o1 + s1 * (h - 1) + w <= 2147483647 ->
  rgbCheck sw sh (alen b) o2 s2 x y w h = true -> o2 + s2 * (h - 1) + w <= 2147483647 ->
  exists wd' wd'', setRGBImpl a o1 s1 x y w h wd = Some wd' /\
    dataInt wd' = raster (y * sw) sw x w h (fun j k _ => src_at a o1 s1 j k) (dataInt wd) /\
    getRGBImpl b o2 s2 x y w h wd' =
      Some (wd'', raster o2 s2 0 w h (fun j k _ => src_at a o1 s1 j k) b) /\
    dataInt wd'' = dataInt wd' /\ thrown wd'' = thrown wd /\ world_ok wd''.
Proof.
  intros Hwd Hp Hw [Hh Hh'] sw sh Hs Ha Hao Hb Hbo.
  pose proof (rgbCheck_call _ _ _ _ _ _ _ _ _ Hs Ha Hw Hh Hh' Hao) as Ca.
  pose proof (rgbCheck_call _ _ _ _ _ _ _ _ _ Hs Hb Hw Hh Hh' Hbo) as Cb.
  assert (pins_ok 2 wd /\ pins_ok 2 (drop_pin (drop_pin wd))) as [H2 H4].
  { destruct (pin_ok tt 3 wd Hp) as [_ H3]. destruct (pin_ok tt 2 _ H3) as [_ H4]. split; [|done].
    unfold pins_ok in *. change 2%nat with (2 `min` 4)%nat. rewrite <- take_take. by apply Forall_take. }
  pose proof (setRGB_run wd x y w h Hwd H2 a o1 s1 Ca) as E1. cbv zeta in E1. fold sw in E1.
  set (d' := raster (y * sw) sw x w h (fun j k _ => src_at a o1 s1 j k) (dataInt wd)) in *.
  pose proof (acquired_world wd d' Hwd (length_raster _ _ _ _ _ _ _)) as W1.
  set (wd' := set_dataInt d' (acquired_surface (drop_pin (drop_pin wd)))) in *.
  pose proof (getRGB_run wd' x y w h W1 H4 b o2 s2 Cb) as E2.
  pose proof (acquired_world wd' d' W1 eq_refl) as W2.
  eexists wd', _. split; [exact E1|]. split; [reflexivity|]. split.
  - rewrite E2. change (dataInt wd') with d'. change (width (_surface (renderer wd'))) with sw.
    do 2 f_equal. apply raster_ext. intros j k v Hj Hk. destruct Ca.
    pose proof (wo_len _ Hwd) as Hl. pose proof (wo_w _ Hwd) as Hw0. fold sw sh in Hl, Hw0.
    assert (0 <= y * sw /\ (y + h) * sw <= sw * sh) as [? ?] by nia.
    apply src_at_raster; nia.
  - split; [reflexivity|]. by split.
Qed.

(** The last test of [rgbCheck] overflows: with the greatest offset, a call for
    one pixel passes every test on any surface and any array, and [setRGBImpl] then
    reads past the end of the array. *)
Lemma rgbCheck_overflow wd a :
  world_ok wd -> pins_ok 2 wd -> alen a <= 2147483647 ->
  let sw := width (_surface (renderer wd)) in
  let sh := height (_surface (renderer wd)) in
  rgbCheck sw sh (alen a) 2147483647 1 0 0 1 1 = true /\
  setRGBImpl a 2147483647 1 0 0 1 1 wd = None.
Proof.
  intros Hwd Hp Ha. cbv zeta. destruct Hwd as [_ _ _ Hw Hh Hl Hm _ _ _ _ Hf].
  set (sw := width (_surface (renderer wd))) in *. set (sh := height (_surface (renderer wd))) in *.
  assert (sw <= 2147483647 /\ sh <= 2147483647) as [? ?] by nia. split.
  - unfold rgbCheck. change (i32 (0 + 1)) with 1. change (i32 (2147483647 + 1 * (1 - 1) + 1)) with (-2147483648).
    change (bit_length 1) with 1. unfold alen. zcase; done || lia.
  - unfold setRGBImpl. cbv zeta. fold sw sh. rewrite !correct_axis_id by lia. cbn [Z.ltb Z.compare andb].
    destruct (pin_ok a 1 wd Hp) as [-> H1]. unfold with_surface.
    destruct (acquire_ok 0 _ H1) as [-> _]. unfold readMemErrorFlag.
    cbn [memErrorFlag acquired_surface set_renderer drop_pin]. rewrite Hf.
    change (data (_surface (renderer (acquired_surface (drop_pin (drop_pin wd)))))) with (Some (dataInt wd)).
    cbn [mbind option_bind]. unfold surface_setRGB, setRGB.
    change (Z.to_nat 1) with 1%nat. cbn [for_]. change (2147483647 + i32 (0 * 1) + 0) with 2147483647.
    destruct (ld a 2147483647) eqn:E; [|reflexivity]. apply ld_Some in E. lia.
Qed.

(** ** Witnesses *)

Lemma rgb_roundtrip_witness :
  exists wd'', (wd' ← setRGBImpl [0; 11; 12; 0; 13; 14; 0] 1 3 1 0 2 2 (demo_world []);
    getRGBImpl (replicate 6 9) 0 2 1 0 2 2 wd') = Some (wd'', [11; 12; 13; 14; 9; 9]).
Proof.
  destruct (rgb_roundtrip (demo_world []) [0; 11; 12; 0; 13; 14; 0] 1 3 (replicate 6 9) 0 2 1 0 2 2
    (demo_world_ok _)) as (wd' & wd'' & E1 & _ & E2 & _);
    [apply Forall_nil_2|lia|lia|reflexivity|reflexivity|lia|reflexivity|lia|].
  exists wd''. rewrite E1. cbn [mbind option_bind]. rewrite E2. reflexivity.
Defined.

