(* ===== verification/FillMask.v ===== *)
(** * Filling through a mask (JPiscesRenderer.c, fillAlphaMask)

    [fillAlphaMaskImpl] and [fillLCDAlphaMaskImpl] cut a mask of bytes to the clip
    and blit it row by row.  Here: the loop over the rows, against a rule for one
    row, and the whole call for flat colours; and the calls for which the table of
    routines has no entry. *)

From stdpp Require Import base relations.
From S2P Require Import Prelude Mem Blend Renderer Transform EmitLine.
From S2P Require Import Blit Routines Paint JRenderer FillRect SurfaceRGB.
#[local] Open Scope Z_scope.

(** ** Lemmas: the loop over the rows *)

(** The members that a row does not touch. *)
Definition mask_still (r : Renderer) : Renderer := set_maskOffset 0 (still r).

(** The renderer before the row [y] of the image, whose mask bytes start at [mo]. *)
Record mask_lines (r0 r : Renderer) (y mo : Z) (d : list Z) : Prop := {
  ml_still : mask_still r = mask_still r0;
  ml_data : _data r = Some d;
  ml_y : _currY r = y;
  ml_mo : _maskOffset r = mo;
}.

(** What the call fixes in the renderer. *)
Record mask_setup (r0 : Renderer) (f : BlitFn) (mask : list Z) (minX maxX sw : Z) : Prop := {
  ms_rows : _emitRows (_paintFns r0) = Some f;
  ms_paint : _genPaint (_paintFns r0) = None;
  ms_mask : _mask_byteData r0 = Some mask;
  ms_ps : _imagePixelStride r0 = 1;
  ms_ss : _imageScanlineStride r0 = sw;
  ms_minX : _minTouched r0 = minX;
  ms_maxX : _maxTouched r0 = maxX;
  ms_aw : _alphaWidth r0 = maxX - minX + 1;
}.

Lemma mask_lines_fields r0 r y mo d :
  mask_lines r0 r y mo d ->
  _paintFns r = _paintFns r0 /\ _mask_byteData r = _mask_byteData r0 /\
  _imagePixelStride r = _imagePixelStride r0 /\ _imageScanlineStride r = _imageScanlineStride r0 /\
  _minTouched r = _minTouched r0 /\ _maxTouched r = _maxTouched r0 /\ _alphaWidth r = _alphaWidth r0 /\
  color r = color r0.
Proof.
  intros [E _ _ _]. pose proof (fun A (g : Renderer -> A) => f_equal g E) as F.
  pose proof (F _ _paintFns). pose proof (F _ _mask_byteData). pose proof (F _ _imagePixelStride).
  pose proof (F _ _imageScanlineStride). pose proof (F _ _minTouched). pose proof (F _ _maxTouched).
  pose proof (F _ _alphaWidth). pose proof (F _ color). clear F E. by repeat split.
Qed.

(** A rule for one row: the routine rewrites the row by some [q], of which [Q] is
    known from the place of its mask bytes. *)
Definition row_rule (ga iga : list Z) (r0 : Renderer) (f : BlitFn) (mask : list Z)
    (minX maxX sw bpp : Z) (P : list Z -> Prop) (Q : Z -> (Z -> Z -> Z) -> Prop) : Prop :=
  forall r y mo d,
    mask_lines r0 r y mo d -> _currImageOffset r = y * sw -> P d ->
    fits (y * sw) sw minX (maxX - minX + 1) 1 (alen d) ->
    0 <= mo -> mo + bpp * (maxX - minX + 1) <= alen mask ->
    exists q, run_blit ga iga f r 1 =
      Some (set_data (Some (raster (y * sw) sw minX (maxX - minX + 1) 1 (fun _ => q) d)) r) /\
      Q mo q /\ P (raster (y * sw) sw minX (maxX - minX + 1) 1 (fun _ => q) d).

Section Rows.
Context (alloc : Z -> option (list Z)) (ga iga : list Z).
Context (r0 : Renderer) (f : BlitFn) (mask : list Z) (x minX maxX sw bpp maskWidth : Z).
Context (P : list Z -> Prop) (Q : Z -> (Z -> Z -> Z) -> Prop).
Hypothesis Hs : mask_setup r0 f mask minX maxX sw.
Hypothesis Hrule : row_rule ga iga r0 f mask minX maxX sw bpp P Q.

(** One pass of the loop. *)
Lemma mask_line_ok r y mo d :
  mask_lines r0 r y mo d -> P d -> is_i32 (y * sw) ->
  fits (y * sw) sw minX (maxX - minX + 1) 1 (alen d) ->
  0 <= mo -> mo + bpp * (maxX - minX + 1) <= alen mask ->
  exists q r', mask_line alloc ga iga x (maxX - minX + 1) maskWidth sw r = Some r' /\ Q mo q /\
    P (raster (y * sw) sw minX (maxX - minX + 1) 1 (fun _ => q) d) /\
    mask_lines r0 r' (i32 (y + 1)) (i32 (mo + maskWidth))
      (raster (y * sw) sw minX (maxX - minX + 1) 1 (fun _ => q) d).
Proof using Hs Hrule.
  intros H HP Hy Hfit Hmo Hml. destruct (mask_lines_fields _ _ _ _ _ H) as (E1 & _).
  destruct H as [H1 H2 H3 H4]. unfold mask_line. rewrite H3, i32_id by done.
  set (r1 := set_currImageOffset (y * sw) r).
  assert (mask_lines r0 r1 y mo d) as Hr1 by (split; done).
  destruct (Hrule r1 y mo d Hr1) as (q & E & HQ & HP'); try done.
  unfold gen_paint. change (_paintFns r1) with (_paintFns r). rewrite E1, (ms_paint _ _ _ _ _ _ Hs).
  cbn [mbind option_bind]. unfold emit_rows_call. change (_paintFns r1) with (_paintFns r).
  rewrite E1, (ms_rows _ _ _ _ _ _ Hs). cbn [mbind option_bind]. rewrite E. cbn [mbind option_bind].
  eexists q, _. split; [reflexivity|]. split; [done|]. split; [done|].
  split; [exact H1|reflexivity|cbn; by rewrite H3|cbn; by rewrite H4].
Qed.

(** All rows. *)
Lemma mask_rows_ok minY H mo0 d0 r :
  mask_lines r0 r minY mo0 d0 -> P d0 -> 0 <= minY -> 0 < H ->
  fits (minY * sw) sw minX (maxX - minX + 1) H (alen d0) -> (minY + H) * sw <= 2147483647 ->
  0 <= mo0 -> 0 <= maskWidth -> mo0 + (H - 1) * maskWidth + bpp * (maxX - minX + 1) <= alen mask ->
  0 <= bpp -> alen mask <= 2147483647 ->
  exists q r', for_ (Z.to_nat H) (mask_line alloc ga iga x (maxX - minX + 1) maskWidth sw) r = Some r' /\
    (forall j, 0 <= j < H -> Q (mo0 + j * maskWidth) (q j)) /\
    let d' := raster (minY * sw) sw minX (maxX - minX + 1) H q d0 in
    _data r' = Some d' /\ P d' /\ mask_still r' = mask_still r0.
Proof using Hs Hrule.
  intros HI HP HY HH Hfit Hmax Hmo Hmw Hml Hb Hmm. destruct Hfit as [F1 F2 F3 F4 F5 F6 F7].
  set (w := maxX - minX + 1) in *.
  assert (0 <= (H - 1) * maskWidth /\ 0 <= bpp * w) as [B1 B2] by nia.
  destruct (for_inv (fun (n : nat) r' => exists q,
      (forall j, 0 <= j < Z.of_nat n -> Q (mo0 + j * maskWidth) (q j)) /\
      P (raster (minY * sw) sw minX w (Z.of_nat n) q d0) /\
      mask_lines r0 r' (minY + Z.of_nat n) (i32 (mo0 + Z.of_nat n * maskWidth))
        (raster (minY * sw) sw minX w (Z.of_nat n) q d0))
    (Z.to_nat H) (mask_line alloc ga iga x w maskWidth sw) r) as (r' & E & q & Hq & HP' & HI').
  - exists (fun _ _ v => v). rewrite raster_0, Z.add_0_r, Z.mul_0_l, Z.add_0_r, i32_id by (unfold is_i32; lia).
    split; [lia|]. by split.
  - intros n r1 Hn (q & Hq & HP1 & HI1). set (nz := Z.of_nat n) in *.
    assert (0 <= nz <= H - 1) as Hnz by lia.
    assert (0 <= nz * maskWidth <= (H - 1) * maskWidth) by nia.
    assert (0 <= nz * sw /\ nz * sw + sw <= H * sw) by nia.
    rewrite i32_id in HI1 by (unfold is_i32; lia).
    destruct (mask_line_ok r1 (minY + nz) (mo0 + nz * maskWidth) _ HI1 HP1) as (q1 & r2 & E & HQ & HP2 & HI2).
    + unfold is_i32. nia.
    + unfold alen in *. rewrite length_raster. split; nia.
    + lia.
    + fold w. lia.
    + replace ((minY + nz) * sw) with (minY * sw + nz * sw) in HP2, HI2 by lia.
      fold w in HP2, HI2. rewrite raster_join in HP2, HI2 by lia.
      exists r2. split; [exact E|]. exists (fun j => if j <? nz then q j else q1).
      rewrite Nat2Z.inj_succ. fold nz. unfold Z.succ. split; [|split; [exact HP2|]].
      * intros j Hj. cbv beta. destruct (Z.ltb_spec j nz); [apply Hq; lia|].
        by replace j with nz by lia.
      * replace (minY + (nz + 1)) with (minY + nz + 1) by lia.
        replace (mo0 + (nz + 1) * maskWidth) with (mo0 + nz * maskWidth + maskWidth) by lia.
        rewrite <- (i32_id (minY + nz + 1)); [exact HI2|].
        unfold is_i32. clear - F1 F2 F3 F4 F5 F6 F7 Hmax HY HH Hnz. nia.
  - rewrite Z2Nat.id in * by lia. exists q, r'. split; [exact E|]. split; [exact Hq|].
    cbv zeta. split; [apply (ml_data _ _ _ _ _ HI')|]. split; [exact HP'|apply (ml_still _ _ _ _ _ HI')].
Qed.
End Rows.

(** ** Lemmas: the renderer of a call *)

(** The surface acquired, the mask set, everything validated. *)
Definition masked (wd : World) (maskType : Z) (mask : list Z) (maskWidth maskHeight : Z) : Renderer :=
  VALIDATE_BLITTING (INVALIDATE_RENDERER_SURFACE
    (renderer_setMask maskType (Some mask) maskWidth maskHeight false (renderer (acquired_surface wd)))).

Lemma masked_reachable wd t mask mw mh :
  reachable (renderer wd) -> t = ALPHA_MASK \/ t = LCD_ALPHA_MASK -> reachable (masked wd t mask mw mh).
Proof.
  intros H Ht. eapply reachable_step; [|apply step_validate]. eapply reachable_step; [|apply step_invalidate].
  eapply reachable_step; [|by apply step_setMask]. eapply reachable_step; [exact H|by apply step_render].
Qed.

Lemma masked_ok wd t mask mw mh :
  reachable (renderer wd) -> t = ALPHA_MASK \/ t = LCD_ALPHA_MASK ->
  let r := masked wd t mask mw mh in let r0 := renderer wd in let s := _surface r0 in
  surface_view r = (Some (dataInt wd), width s, height s, offset s, scanlineStride s, pixelStride s) /\
  clip r = clip r0 /\ (_compositeRule r0 <> COMPOSITE_CLEAR -> color r = color r0) /\
  _surface r = with_data (Some (dataInt wd)) s /\ _paintMode r = _paintMode r0 /\
  _compositeRule r = _compositeRule r0 /\
  _mask_byteData r = Some mask /\ _rowAAInt r = _rowAAInt r0 /\
  _emitRows (_paintFns r) = rows_for (imageType s) t (_compositeRule r0) (_paintMode r0) /\
  _genPaint (_paintFns r) = paint_for (_paintMode r0).
Proof.
  intros Hr Ht. cbv zeta. unfold masked.
  set (r1 := renderer_setMask _ _ _ _ _ _).
  assert (reachable (INVALIDATE_RENDERER_SURFACE r1)) as H1.
  { eapply reachable_step; [|apply step_invalidate]. eapply reachable_step; [|by apply step_setMask].
    eapply reachable_step; [exact Hr|by apply step_render]. }
  destruct (VALIDATE_BLITTING_ok _ (reachable_coherent _ H1)) as [(_ & _ & _ & P) _ _ I].
  destruct (validate_view r1) as (V1 & V2 & V3 & V4).
  destruct I as [_ E1 E2 E3 E4 _]. cbn in E1, E2, E3, E4.
  set (r := VALIDATE_BLITTING _) in *. clearbody r.
  destruct P as (P1 & P2 & _). rewrite E1, E2, E3, E4 in P1. rewrite E1 in P2.
  split; [exact V1|]. split; [exact V2|]. split; [exact V4|]. split; [exact E4|].
  split; [exact E1|]. split; [exact E2|].
  injection V3 as B1 B2 _ _ _ _ _ _. split; [exact B1|]. split; [exact B2|]. by split.
Qed.

(** The renderer when the first row starts. *)
Definition mask_renderer (r : Renderer) (minX minY maxX sw mo : Z) : Renderer :=
  r |> set_minTouched minX |> set_maxTouched maxX |> set_currX minX |> set_currY minY
    |> set_alphaWidth (maxX - minX + 1) |> set_imageScanlineStride sw |> set_imagePixelStride 1
    |> set_rowNum 0 |> set_maskOffset mo.

Lemma mask_renderer_setup wd t mask mw mh f minX minY maxX mo :
  reachable (renderer wd) -> t = ALPHA_MASK \/ t = LCD_ALPHA_MASK ->
  _paintMode (renderer wd) = PAINT_FLAT_COLOR -> _compositeRule (renderer wd) <> COMPOSITE_CLEAR ->
  rows_for (imageType (_surface (renderer wd))) t (_compositeRule (renderer wd)) PAINT_FLAT_COLOR = Some f ->
  let sw := width (_surface (renderer wd)) in
  let r0 := mask_renderer (masked wd t mask mw mh) minX minY maxX sw mo in
  mask_setup r0 f mask minX maxX sw /\ mask_lines r0 r0 minY mo (dataInt wd) /\
  color r0 = color (renderer wd).
Proof.
  intros Hr Ht Hm Hc Hf. cbv zeta.
  destruct (masked_ok wd t mask mw mh Hr Ht) as (V & _ & K & _ & _ & _ & B1 & _ & P1 & P2).
  specialize (K Hc). rewrite Hm in P1, P2. rewrite Hf in P1. revert V K B1 P1 P2.
  generalize (masked wd t mask mw mh). intros ra V K B1 P1 P2.
  injection V as V _ _ _ _ _. split; [|split; [|exact K]]; split; (reflexivity || assumption).
Qed.

(** What the call leaves: a usable world, with the mask removed. *)
Lemma mask_world wd t mask mw mh minX minY maxX mo r' d' th ps :
  world_ok wd -> t = ALPHA_MASK \/ t = LCD_ALPHA_MASK -> _compositeRule (renderer wd) <> COMPOSITE_CLEAR ->
  mask_still r' = mask_still (mask_renderer (masked wd t mask mw mh) minX minY maxX
                                (width (_surface (renderer wd))) mo) ->
  length d' = length (dataInt wd) ->
  let r := renderer_removeMask r' in
  world_ok {| renderer := r; dataInt := d'; memErrorFlag := false; thrown := th; pins := ps |} /\
  clip r = clip (renderer wd) /\ color r = color (renderer wd) /\
  _paintMode r = _paintMode (renderer wd) /\ _compositeRule r = _compositeRule (renderer wd).
Proof.
  intros H Ht Hc E Hl. cbv zeta.
  destruct (masked_ok wd t mask mw mh (wo_reachable _ H) Ht) as (_ & V & K & S & M & R & _).
  specialize (K Hc). pose proof (masked_reachable wd t mask mw mh (wo_reachable _ H) Ht) as Hr.
  revert E V K S M R Hr. generalize (masked wd t mask mw mh). intros ra E V K S M R Hr.
  pose proof (f_equal _surface E) as E1. pose proof (f_equal clip E) as E2.
  pose proof (f_equal settings E) as E3. pose proof (f_equal _paintMode E) as E4.
  pose proof (f_equal color E) as E5. pose proof (f_equal _compositeRule E) as E6.
  change (_surface r' = _surface ra) in E1. change (clip r' = clip ra) in E2.
  change (settings r' = settings ra) in E3. change (_paintMode r' = _paintMode ra) in E4.
  change (color r' = color ra) in E5. change (_compositeRule r' = _compositeRule ra) in E6.
  rewrite V in E2. rewrite K in E5. rewrite S in E1. rewrite M in E4. rewrite R in E6.
  split; [|by repeat split].
  injection E2 as C1 C2 C3 C4. destruct H. unfold alen in *.
  split; cbn; unfold alen; rewrite ?E1, ?C1, ?C2, ?C3, ?C4, ?Hl; cbn; try assumption; [|reflexivity].
  eapply reachable_step; [|apply step_removeMask]. eapply reachable_step; [exact Hr|by apply step_render].
Qed.

(** ** The whole call in a flat colour *)

Section Call.
Context (alloc : Z -> option (list Z)) (ga iga : list Z) (wd : World).
Context (t : Z) (mask : list Z) (x y mw mh minX minY maxX maxY mo bpp : Z) (f : BlitFn).
Context (P : list Z -> Prop) (Q : Z -> (Z -> Z -> Z) -> Prop).
Let r0 := renderer wd.
Let sw := width (_surface r0).
Hypothesis Hwd : world_ok wd.
Hypothesis Hpins : pins_ok 2 wd.
Hypothesis Ht : t = ALPHA_MASK \/ t = LCD_ALPHA_MASK.
Hypothesis Hmode : _paintMode r0 = PAINT_FLAT_COLOR.
Hypothesis Hrule : _compositeRule r0 <> COMPOSITE_CLEAR.
Hypothesis Hf : rows_for (imageType (_surface r0)) t (_compositeRule r0) PAINT_FLAT_COLOR = Some f.
Hypothesis HminX : _clip_bbMinX r0 <= minX <= maxX.
Hypothesis HmaxX : maxX <= _clip_bbMaxX r0.
Hypothesis HminY : _clip_bbMinY r0 <= minY <= maxY.
Hypothesis HmaxY : maxY <= _clip_bbMaxY r0.
Hypothesis Hmo : 0 <= mo.
Hypothesis Hmw : 0 <= mw.
Hypothesis Hbpp : 0 <= bpp.
Hypothesis Hmask : mo + (maxY - minY) * mw + bpp * (maxX - minX + 1) <= alen mask.
Hypothesis Hmmax : alen mask <= 2147483647.

#[local] Opaque VALIDATE_BLITTING INVALIDATE_RENDERER_SURFACE renderer_setMask renderer_removeMask.

Definition mask_start : Renderer := mask_renderer (masked wd t mask mw mh) minX minY maxX sw mo.

(** [fillAlphaMask] is the acquisition, the loop, the removal of the mask and the
    release. *)
Lemma fillAlphaMask_body :
  i32 (maxX - minX + 1) = maxX - minX + 1 -> i32 (maxY - minY + 1) = maxY - minY + 1 ->
  minX <= maxX -> minY <= maxY ->
  fillAlphaMask alloc ga iga minX minY maxX maxY t mask x y mw mh mo wd =
    r ← for_ (Z.to_nat (maxY - minY + 1)) (mask_line alloc ga iga x (maxX - minX + 1) mw sw) mask_start;
    d ← _data (renderer_removeMask r);
    Some {| renderer := renderer_removeMask r; dataInt := d; memErrorFlag := false;
            thrown := thrown wd; pins := pins (drop_pin (drop_pin wd)) |}.
Proof using Hwd Hpins.
  intros I1 I2 HX HY. unfold fillAlphaMask.
  rewrite (proj2 (Z.leb_le minX maxX)), (proj2 (Z.leb_le minY maxY)) by done. cbn [andb].
  pose proof (wo_flag _ Hwd) as Hflag. unfold with_surface.
  destruct (acquire_ok 1 wd Hpins) as [-> H1].
  unfold readMemErrorFlag. cbn [memErrorFlag acquired_surface set_renderer drop_pin]. rewrite Hflag.
  destruct (pin_ok mask 0 (acquired_surface (drop_pin wd)) H1) as [Ep _].
  cbv zeta. rewrite Ep. cbv iota beta. rewrite I1, I2.
  match goal with |- context [for_ ?n ?b ?s] =>
    replace (for_ n b s) with (for_ n b mask_start) by reflexivity end.
  match goal with |- context [for_ ?n ?b mask_start] =>
    change (for_ n b mask_start) with (for_ n (mask_line alloc ga iga x (maxX - minX + 1) mw sw) mask_start) end.
  destruct (for_ _ _ mask_start) as [r'|]; [|reflexivity]. cbn [mbind option_bind].
  destruct (_data (renderer_removeMask r')) as [d'|]; [|reflexivity]. cbn [mbind option_bind].
  unfold throw_on_error, readAndClearMemErrorFlag, surface_release, set_dataInt, set_renderer.
  cbn [memErrorFlag renderer dataInt thrown pins drop_pin acquired_surface set_renderer].
  rewrite Hflag. reflexivity.
Qed.

Lemma fillAlphaMask_run :
  P (dataInt wd) -> row_rule ga iga mask_start f mask minX maxX sw bpp P Q ->
  exists wd' q, fillAlphaMask alloc ga iga minX minY maxX maxY t mask x y mw mh mo wd = Some wd' /\
    dataInt wd' = raster (minY * sw) sw minX (maxX - minX + 1) (maxY - minY + 1) q (dataInt wd) /\
    (forall j, 0 <= j < maxY - minY + 1 -> Q (mo + j * mw) (q j)) /\ P (dataInt wd') /\
    world_ok wd' /\ thrown wd' = thrown wd /\ clip (renderer wd') = clip r0 /\
    color (renderer wd') = color r0 /\ _maskType (renderer wd') = NO_MASK.
Proof using All.
  intros HP Hr.
  destruct (rect_fits wd minX maxX minY maxY Hwd (proj1 HminX) (proj2 HminX) HmaxX
    (proj1 HminY) (proj2 HminY) HmaxY) as (F & M & Msw).
  destruct (mask_renderer_setup wd t mask mw mh f minX minY maxX mo (wo_reachable _ Hwd) Ht Hmode Hrule Hf)
    as (Hs & HI & _).
  assert (0 <= minY) as Hy0 by exact (Z.le_trans _ _ _ (wo_minY _ Hwd) (proj1 HminY)).
  destruct (mask_rows_ok alloc ga iga mask_start f mask x minX maxX sw bpp mw P Q Hs Hr
    minY (maxY - minY + 1) mo (dataInt wd) mask_start HI HP Hy0) as (q & r' & E & Hq & Hd & HP' & Hst);
    [lia|exact F|exact M|exact Hmo|exact Hmw|lia|exact Hbpp|exact Hmmax|].
  assert (i32 (maxX - minX + 1) = maxX - minX + 1 /\ i32 (maxY - minY + 1) = maxY - minY + 1) as [I1 I2].
  { destruct F as [F1 F2 F3 F4 F5 F6 F7]. split; apply i32_id; unfold is_i32; nia. }
  eexists _, q. split; [rewrite (fillAlphaMask_body I1 I2 (proj2 HminX) (proj2 HminY)), E; cbn [mbind option_bind];
    change (_data (renderer_removeMask r')) with (_data r'); rewrite Hd; reflexivity|].
  split; [reflexivity|]. split; [exact Hq|]. split; [exact HP'|].
  destruct (mask_world wd t mask mw mh minX minY maxX mo r'
    (raster (minY * sw) sw minX (maxX - minX + 1) (maxY - minY + 1) q (dataInt wd)) (thrown wd)
    (pins (drop_pin (drop_pin wd))) Hwd Ht Hrule Hst (length_raster _ _ _ _ _ _ _))
    as (W & K1 & K2 & _).
  split; [exact W|]. split; [reflexivity|]. split; [exact K1|]. split; [exact K2|reflexivity].
Qed.
End Call.

(** ** Rules for one row *)

Lemma mask_row_pre r0 f mask minX maxX sw bpp r y mo d :
  mask_setup r0 f mask minX maxX sw -> mask_lines r0 r y mo d -> _currImageOffset r = y * sw ->
  fits (y * sw) sw minX (maxX - minX + 1) 1 (alen d) -> minX <= maxX ->
  0 <= mo -> mo + bpp * (maxX - minX + 1) <= alen mask -> alen mask <= 2147483647 ->
  blit_ready r 1 d /\ mask_pre r 1 bpp mask /\ blit_width r = maxX - minX + 1.
Proof.
  intros Hs HI Ho Hfit Hle Hmo Hml Hmm.
  destruct (mask_lines_fields _ _ _ _ _ HI) as (_ & E2 & E3 & E4 & E5 & E6 & E7 & _).
  destruct Hs, HI. unfold blit_width in *.
  assert (_minTouched r = minX) as Em by congruence. assert (_maxTouched r = maxX) as EM by congruence.
  split; [|split; [|lia]].
  - split; [congruence|congruence|lia|lia|]. rewrite Em, EM, Ho, E4, ms_ss0. exact Hfit.
  - split; unfold blit_width; [congruence|congruence|lia| |lia]. rewrite Em, EM. lia.
Qed.

(** Any of the mask routines with a flat colour. *)
Lemma flat_mask_rule ga iga r0 f mask minX maxX sw :
  let bpp := if is_LCD f then 3 else 1 in
  is_LCD f = true \/ is_mask f = true -> blit_paints f = false ->
  (is_LCD f = true -> gamma_ok ga iga /\ flat_ok r0) ->
  mask_setup r0 f mask minX maxX sw -> minX <= maxX -> alen mask <= 2147483647 ->
  row_rule ga iga r0 f mask minX maxX sw bpp (fun _ => True) (fun _ _ => True).
Proof.
  intros bpp Hk Hp Hl Hs Hle Hmm r y mo d HI Ho _ Hfit Hmo Hml.
  destruct (mask_row_pre _ _ _ _ _ _ _ _ _ _ _ Hs HI Ho Hfit Hle Hmo Hml Hmm) as (Hr & Hm & Ew).
  destruct (mask_lines_fields _ _ _ _ _ HI) as (_ & _ & _ & E4 & E5 & _ & _ & E8).
  destruct (blit_runs ga iga f r 1 d) as (q & E).
  { split; [done|lia| |rewrite Hp; done]. unfold bpp in *. destruct (is_LCD f).
    - destruct (Hl eq_refl) as [Hg Hf]. split; [done|]. split; [|by exists mask].
      unfold flat_ok in *.
      destruct (color_fields _ _ E8) as (K1 & K2 & K3 & K4). by rewrite K1, K2, K3, K4.
    - destruct Hk as [Hk|Hk]; [discriminate Hk|]. rewrite Hk. by exists mask. }
  assert (row_after f r = _rowAAInt r) as Era.
  { unfold row_after. destruct Hk as [-> | ->]; [done|]. by rewrite orb_true_r. }
  exists (q 0). split; [|done]. rewrite E, Era. rewrite Ew, Ho, E4, E5, (ms_ss _ _ _ _ _ _ Hs), (ms_minX _ _ _ _ _ _ Hs).
  f_equal. transitivity (set_data (Some (raster (y * sw) sw minX (maxX - minX + 1) 1 q d)) r).
  - by destruct r.
  - do 2 f_equal. apply raster_ext. intros j k v Hj _. by replace j with 0 by lia.
Qed.

(** Source-over with an alpha mask: pixel [k] of the row is blended with the alpha
    of the colour scaled by its mask byte. *)
Definition mask_over (r : Renderer) (mask : list Z) (i v : Z) : Z :=
  blendSrcOver8888_pre (scale8 (default 0 (ld mask i) .& 255) (_calpha r))
    (_cred r) (_cgreen r) (_cblue r) v.

Lemma over_mask_rule ga iga r0 mask minX maxX sw (pm : Prop) :
  mask_setup r0 BlitSrcOverMask8888_pre mask minX maxX sw -> flat_ok r0 ->
  minX <= maxX -> alen mask <= 2147483647 ->
  row_rule ga iga r0 BlitSrcOverMask8888_pre mask minX maxX sw 1
    (fun d => Forall is_i32 d /\ (pm -> Forall premul d))
    (fun mo q => forall k v, q k v = mask_over r0 mask (mo + k) v).
Proof.
  intros Hs Hf Hle Hmm r y mo d HI Ho [Hd Hpm] Hfit Hmo Hml.
  destruct (mask_row_pre _ _ _ _ _ _ _ _ _ _ _ Hs HI Ho Hfit Hle Hmo Hml Hmm) as (Hr & Hm & Ew).
  destruct (mask_lines_fields _ _ _ _ _ HI) as (_ & _ & _ & E4 & E5 & _ & E7 & E8).
  destruct (color_fields _ _ E8) as (K1 & K2 & K3 & K4).
  pose proof Hf as (A1 & A2 & A3 & A4).
  assert (forall z, is_byte (scale8 (z .& 255) (_calpha r0))) as Hsc.
  { intros z. apply scale8_byte; [|done]. unfold is_byte. bits. zlia. }
  exists (fun k v => mask_over r0 mask (mo + k) v). split; [|split; [done|split]].
  - change (run_blit ga iga BlitSrcOverMask8888_pre) with blitSrcOverMask8888_pre.
    rewrite (blit_over_mask r 1 d mask) by (try done; unfold flat_ok; by rewrite K1, K2, K3, K4).
    unfold mask_blend. rewrite Ew, Ho, E4, E5, (ms_ss _ _ _ _ _ _ Hs), (ms_minX _ _ _ _ _ _ Hs).
    do 3 f_equal. apply raster_ext. intros j k v Hj _. replace j with 0 by lia.
    unfold mask_over, mask_at. rewrite K1, K2, K3, K4, (ml_mo _ _ _ _ _ HI), Z.mul_0_l, Z.add_0_r. done.
  - apply raster_Forall; [|done]. intros. apply argb_is_i32.
  - intros Hp. apply raster_Forall; [|exact (Hpm Hp)]. intros j k v _ _ Hv. unfold mask_over.
    apply blendSrcOver8888_pre_premul; [apply Hsc|exact A2|exact A3|exact A4|exact Hv].
Qed.

(** ** The arguments *)

(** What [inputImageCheck] of Java guarantees of a mask of rows of [mw] bytes, and
    what keeps the sums of the clipping from overflowing; [px] is the number of
    pixels of a row. *)
Record mask_args (mask : list Z) (x y mw mh px offset : Z) : Prop := {
  ma_offset : 0 <= offset;
  ma_mw : 0 <= mw;
  ma_mh : 0 <= mh;
  ma_len : offset + mw * mh <= alen mask;
  ma_max : alen mask <= 2147483647;
  ma_x : -2147483648 <= x - 1 /\ x + px <= 2147483647;
  ma_y : -2147483648 <= y - 1 /\ y + mh <= 2147483647;
}.

(** The pixels of the mask that the clip leaves have their bytes in the mask. *)
Lemma mask_args_clip mask x y mw mh px bpp offset minX minY maxX maxY :
  mask_args mask x y mw mh px offset -> 0 <= bpp -> 0 <= px -> bpp * px <= mw ->
  x <= minX <= maxX -> maxX <= x + px - 1 -> y <= minY <= maxY -> maxY <= y + mh - 1 ->
  let mo := offset + (minY - y) * mw + bpp * (minX - x) in
  0 <= mo /\ mo + (maxY - minY) * mw + bpp * (maxX - minX + 1) <= alen mask /\ is_i32 mo.
Proof.
  intros [] Hb Hp Hbp HX HX' HY HY'. cbv zeta.
  assert (0 <= (minY - y) * mw /\ 0 <= bpp * (minX - x)) as [? ?] by nia.
  assert (bpp * (minX - x) + bpp * (maxX - minX + 1) <= bpp * px) by nia.
  assert (0 <= bpp * (maxX - minX + 1)) by nia.
  assert ((minY - y) * mw + (maxY - minY) * mw + mw <= mw * mh) by nia.
  assert (0 <= (maxY - minY) * mw) by nia. unfold is_i32. lia.
Qed.

(** A mask that the clip leaves nothing of. *)
Lemma fillAlphaMask_empty alloc ga iga minX minY maxX maxY t mask x y mw mh mo wd :
  ~ (minX <= maxX /\ minY <= maxY) ->
  fillAlphaMask alloc ga iga minX minY maxX maxY t mask x y mw mh mo wd = Some wd.
Proof.
  intros Hn. unfold fillAlphaMask. destruct (Z.leb_spec minX maxX), (Z.leb_spec minY maxY); done || lia.
Qed.

Lemma mask_start_color wd t mask mw mh f minX minY maxX mo :
  reachable (renderer wd) -> t = ALPHA_MASK \/ t = LCD_ALPHA_MASK ->
  _paintMode (renderer wd) = PAINT_FLAT_COLOR -> _compositeRule (renderer wd) <> COMPOSITE_CLEAR ->
  rows_for (imageType (_surface (renderer wd))) t (_compositeRule (renderer wd)) PAINT_FLAT_COLOR = Some f ->
  flat_ok (renderer wd) ->
  let r0 := mask_start wd t mask mw mh minX minY maxX mo in
  mask_setup r0 f mask minX maxX (width (_surface (renderer wd))) /\ flat_ok r0 /\
  forall i v, mask_over r0 mask i v = mask_over (renderer wd) mask i v.
Proof.
  intros Hr Ht Hm Hc Hf Hk. cbv zeta.
  destruct (mask_renderer_setup wd t mask mw mh f minX minY maxX mo Hr Ht Hm Hc Hf) as (Hs & _ & K).
  destruct (color_fields _ _ K) as (K1 & K2 & K3 & K4).
  split; [exact Hs|]. split.
  - destruct Hk as (A1 & A2 & A3 & A4). split; [exact (eq_ind_r is_byte A1 K1)|].
    split; [exact (eq_ind_r is_byte A2 K2)|]. split; [exact (eq_ind_r is_byte A3 K3)|exact (eq_ind_r is_byte A4 K4)].
  - intros i v. unfold mask_over.
    change (blendSrcOver8888_pre (scale8 (default 0 (ld mask i) .& 255)
      (_calpha (mask_renderer (masked wd t mask mw mh) minX minY maxX (width (_surface (renderer wd))) mo)))
      (_cred (mask_renderer (masked wd t mask mw mh) minX minY maxX (width (_surface (renderer wd))) mo))
      (_cgreen (mask_renderer (masked wd t mask mw mh) minX minY maxX (width (_surface (renderer wd))) mo))
      (_cblue (mask_renderer (masked wd t mask mw mh) minX minY maxX (width (_surface (renderer wd))) mo)) v
      = blendSrcOver8888_pre (scale8 (default 0 (ld mask i) .& 255) (_calpha (renderer wd)))
      (_cred (renderer wd)) (_cgreen (renderer wd)) (_cblue (renderer wd)) v).
    by rewrite K1, K2, K3, K4.
Qed.

(** ** Properties *)

(** C38. [fillAlphaMaskImpl] with the source-over rule and a flat colour, end to end, on
    a premultiplied surface: every pixel of the mask inside the clip is blended with
    the alpha of the colour scaled by its mask byte (row [minY + j - y], column
    [minX + k - x] of the mask), every other pixel is unchanged; the mask is removed,
    nothing is thrown, and premultiplied images stay premultiplied. *)
Theorem fillAlphaMask_blends alloc ga iga mask x y mw mh offset wd :
  world_ok wd -> pins_ok 2 wd -> _paintMode (renderer wd) = PAINT_FLAT_COLOR ->
  _compositeRule (renderer wd) = COMPOSITE_SRC_OVER ->
  imageType (_surface (renderer wd)) = TYPE_INT_ARGB_PRE ->
  flat_ok (renderer wd) -> Forall is_i32 (dataInt wd) -> mask_args mask x y mw mh mw offset ->
  let r := renderer wd in let sw := width (_surface r) in
  let minX := Z.max x (_clip_bbMinX r) in let minY := Z.max y (_clip_bbMinY r) in
  let maxX := Z.min (x + mw - 1) (_clip_bbMaxX r) in let maxY := Z.min (y + mh - 1) (_clip_bbMaxY r) in
  exists wd', fillAlphaMaskImpl alloc ga iga mask x y mw mh offset wd = Some wd' /\
    dataInt wd' = raster (minY * sw) sw minX (maxX - minX + 1) (maxY - minY + 1)
      (fun j k => mask_over r mask (offset + (minY + j - y) * mw + (minX + k - x))) (dataInt wd) /\
    world_ok wd' /\ thrown wd' = thrown wd /\
    (_maskType r = NO_MASK -> _maskType (renderer wd') = NO_MASK) /\
    (Forall premul (dataInt wd) -> Forall premul (dataInt wd')).
Proof.
  intros Hwd Hp Hm Hc Hi Hf Hd Ha. cbv zeta. pose proof Ha as [A1 A2 A3 A4 A5 A6 A7].
  unfold fillAlphaMaskImpl. cbv zeta. rewrite !i32_id by (unfold is_i32; lia).
  set (minX := Z.max x _). set (minY := Z.max y _). set (maxX := Z.min _ _). set (maxY := Z.min _ _).
  destruct (decide (minX <= maxX /\ minY <= maxY)) as [[HX HY]|Hn].
  2: { rewrite fillAlphaMask_empty by done. exists wd. split; [reflexivity|].
    assert (maxX - minX + 1 <= 0 \/ maxY - minY + 1 <= 0) as [K|K] by lia;
      [rewrite raster_w0 by done|rewrite raster_0 by done]; repeat (split; [done|]); exact id. }
  destruct (mask_args_clip mask x y mw mh mw 1 offset minX minY maxX maxY Ha) as (B1 & B2 & B3); [lia..|].
  rewrite Z.mul_1_l, Z.add_sub_assoc in B1, B2, B3. rewrite i32_id by exact B3.
  set (mo := offset + (minY - y) * mw + minX - x) in *.
  assert (_compositeRule (renderer wd) <> COMPOSITE_CLEAR) as Hc' by (rewrite Hc; done).
  assert (rows_for (imageType (_surface (renderer wd))) ALPHA_MASK (_compositeRule (renderer wd))
    PAINT_FLAT_COLOR = Some BlitSrcOverMask8888_pre) as Hrf by (rewrite Hi, Hc; reflexivity).
  destruct (mask_start_color wd ALPHA_MASK mask mw mh _ minX minY maxX mo (wo_reachable _ Hwd)
    ltac:(by left) Hm Hc' Hrf Hf) as (Hs & Hfs & Hov).
  destruct (fillAlphaMask_run alloc ga iga wd ALPHA_MASK mask x y mw mh minX minY maxX maxY mo 1
    BlitSrcOverMask8888_pre (fun d => Forall is_i32 d /\ (Forall premul (dataInt wd) -> Forall premul d))
    (fun m q => forall k v, q k v = mask_over (mask_start wd ALPHA_MASK mask mw mh minX minY maxX mo)
                              mask (m + k) v) Hwd Hp ltac:(by left) Hm Hc' Hrf)
    as (wd' & q & E & Ed & Hq & [_ HP] & W & T & _ & _ & Nm);
    [lia|lia|lia|lia|exact B1|exact A2|lia|lia|exact A5|by split|by apply over_mask_rule|].
  exists wd'. split; [exact E|].
  split; [|split; [exact W|split; [exact T|split; [intros _; exact Nm|exact HP]]]]. rewrite Ed.
  apply raster_ext. intros j k v Hj Hk. rewrite (Hq j Hj), Hov. f_equal. unfold mo. lia.
Qed.

(** [fillLCDAlphaMaskImpl] with the source-over rule and a flat colour on a
    premultiplied surface: with gamma tables of 256 bytes and three mask bytes for
    each pixel it runs without leaving its arrays, changes no pixel outside the
    clip, throws nothing and leaves the world usable, for any position. *)
Lemma fillLCDAlphaMask_safe alloc ga iga mask x y mw mh offset wd :
  world_ok wd -> pins_ok 2 wd -> _paintMode (renderer wd) = PAINT_FLAT_COLOR ->
  _compositeRule (renderer wd) = COMPOSITE_SRC_OVER ->
  imageType (_surface (renderer wd)) = TYPE_INT_ARGB_PRE ->
  flat_ok (renderer wd) -> gamma_ok ga iga -> mask_args mask x y mw mh (Z.quot mw 3) offset ->
  exists wd', fillLCDAlphaMaskImpl alloc ga iga mask x y mw mh offset wd = Some wd' /\
    world_ok wd' /\ thrown wd' = thrown wd /\
    forall i : nat, ~ in_clip (renderer wd) (Z.of_nat i) -> dataInt wd' !! i = dataInt wd !! i.
Proof.
  intros Hwd Hp Hm Hc Hi Hf Hg Ha. pose proof Ha as [A1 A2 A3 A4 A5 A6 A7].
  unfold fillLCDAlphaMaskImpl. cbv zeta. rewrite Z.quot_div_nonneg in * by lia.
  assert (0 <= mw / 3 /\ 3 * (mw / 3) <= mw) as [Q1 Q2] by zlia.
  rewrite (i32_id (x + mw / 3 - 1)), (i32_id (y + mh - 1)) by (unfold is_i32; lia).
  set (minX := Z.max x _). set (minY := Z.max y _). set (maxX := Z.min _ _). set (maxY := Z.min _ _).
  destruct (decide (minX <= maxX /\ minY <= maxY)) as [[HX HY]|Hn].
  2: { rewrite fillAlphaMask_empty by done. exists wd. done. }
  destruct (mask_args_clip mask x y mw mh (mw / 3) 3 offset minX minY maxX maxY Ha) as (B1 & B2 & B3); [lia..|].
  rewrite (Z.mul_comm 3 (minX - x)) in B1, B2, B3. rewrite i32_id by exact B3.
  set (mo := offset + (minY - y) * mw + (minX - x) * 3) in *.
  assert (_compositeRule (renderer wd) <> COMPOSITE_CLEAR) as Hc' by (rewrite Hc; done).
  assert (rows_for (imageType (_surface (renderer wd))) LCD_ALPHA_MASK (_compositeRule (renderer wd))
    PAINT_FLAT_COLOR = Some BlitSrcOverLCDMask8888_pre) as Hrf by (rewrite Hi, Hc; reflexivity).
  destruct (mask_start_color wd LCD_ALPHA_MASK mask mw mh _ minX minY maxX mo (wo_reachable _ Hwd)
    ltac:(by right) Hm Hc' Hrf Hf) as (Hs & Hfs & _).
  destruct (fillAlphaMask_run alloc ga iga wd LCD_ALPHA_MASK mask x y mw mh minX minY maxX maxY mo 3
    BlitSrcOverLCDMask8888_pre (fun _ => True) (fun _ _ => True) Hwd Hp ltac:(by right) Hm Hc' Hrf)
    as (wd' & q & E & Ed & _ & _ & W & T & _ & _ & _);
    [lia|lia|lia|lia|exact B1|exact A2|lia|lia|exact A5|done| |].
  { apply (flat_mask_rule ga iga _ BlitSrcOverLCDMask8888_pre mask minX maxX); try done. by left. }
  exists wd'. split; [exact E|]. split; [exact W|]. split; [exact T|]. intros i Hni. rewrite Ed.
  eapply raster_only_inside; [apply Z.le_refl|]. intros Hin. apply Hni.
  apply (inside_clip (renderer wd) minX maxX minY maxY i (wo_w _ Hwd)); try lia. exact Hin.
Qed.

(** A row for which there is no routine, or that of antialiased rows without a row
    of deltas. *)
Lemma mask_line_none alloc ga iga x w mw sw r :
  _genPaint (_paintFns r) = None ->
  match _emitRows (_paintFns r) with
  | None => True
  | Some f => (f = BlitSrc8888 \/ f = BlitSrc8888_pre) /\ _rowAAInt r = None
  end -> mask_line alloc ga iga x w mw sw r = None.
Proof.
  intros G R. unfold mask_line, gen_paint, emit_rows_call. set (r1 := set_currImageOffset _ r).
  change (_paintFns r) with (_paintFns r1) in *. change (_rowAAInt r) with (_rowAAInt r1) in R.
  clearbody r1. rewrite G. cbn [mbind option_bind].
  destruct (_emitRows (_paintFns r1)) as [f|]; [|reflexivity]. cbn [mbind option_bind].
  destruct R as [[-> | ->] A]; cbn [run_blit]; unfold blitSrc8888, blitSrc8888_pre, aa_rows; rewrite A;
    by destruct (_data r1).
Qed.

Lemma mask_renderer_none alloc ga iga x w mw sw r minX minY maxX mo :
  _genPaint (_paintFns r) = None ->
  match _emitRows (_paintFns r) with
  | None => True
  | Some f => (f = BlitSrc8888 \/ f = BlitSrc8888_pre) /\ _rowAAInt r = None
  end -> mask_line alloc ga iga x w mw sw (mask_renderer r minX minY maxX sw mo) = None.
Proof. intros G R. by apply mask_line_none. Qed.

(** The routine of such a call. *)
Lemma no_routine it t rule A :
  t = ALPHA_MASK \/ t = LCD_ALPHA_MASK ->
  (it = TYPE_INT_ARGB /\ rule <> COMPOSITE_CLEAR) \/ (t = LCD_ALPHA_MASK /\ rule = COMPOSITE_SRC) \/
  (rule = COMPOSITE_CLEAR /\ A) ->
  match rows_for it t rule PAINT_FLAT_COLOR with
  | None => True
  | Some f => (f = BlitSrc8888 \/ f = BlitSrc8888_pre) /\ A
  end.
Proof.
  unfold rows_for. intros Ht [[-> Hc]|[[-> ->]|[-> Hr]]].
  - apply Z.eqb_neq in Hc. rewrite Hc. by destruct Ht as [-> | ->].
  - cbn. by destruct (it =? _).
  - cbn. split; [|done]. destruct (it =? _); auto.
Qed.

(** Where the table of routines has no entry for a mask, the call ends in a null
    pointer instead of an error: every mask on a surface of type [TYPE_INT_ARGB], an
    LCD mask with the source rule, and every mask with [COMPOSITE_CLEAR], which
    selects the routine for antialiased rows while there is no row of deltas. *)
Lemma fillAlphaMask_no_routine alloc ga iga minX minY maxX maxY t mask x y mw mh mo wd :
  world_ok wd -> pins_ok 2 wd -> t = ALPHA_MASK \/ t = LCD_ALPHA_MASK ->
  _paintMode (renderer wd) = PAINT_FLAT_COLOR -> minX <= maxX -> minY <= maxY ->
  is_i32 (maxX - minX + 1) -> is_i32 (maxY - minY + 1) ->
  let r := renderer wd in
  (imageType (_surface r) = TYPE_INT_ARGB /\ _compositeRule r <> COMPOSITE_CLEAR) \/
  (t = LCD_ALPHA_MASK /\ _compositeRule r = COMPOSITE_SRC) \/
  (_compositeRule r = COMPOSITE_CLEAR /\ _rowAAInt r = None) ->
  fillAlphaMask alloc ga iga minX minY maxX maxY t mask x y mw mh mo wd = None.
Proof.
  intros Hwd Hp Ht Hm HX HY HW HH. cbv zeta. intros Hcase.
  rewrite (fillAlphaMask_body alloc ga iga wd t mask x y mw mh minX minY maxX maxY mo Hwd Hp) by
    (done || by apply i32_id).
  destruct (Z.to_nat (maxY - minY + 1)) as [|n] eqn:En; [lia|]. cbn [for_].
  destruct (masked_ok wd t mask mw mh (wo_reachable _ Hwd) Ht) as (_ & _ & _ & _ & _ & _ & _ & A & R & G).
  rewrite Hm in R, G. unfold mask_start. rewrite mask_renderer_none; [reflexivity|exact G|].
  rewrite R, A. by apply no_routine.
Qed.

(** ** Witnesses: a mask of 2x2 bytes at (3, 1), half outside a 4x3 surface *)

Definition demo_mask : list Z := [0; 255; 100; 200; 50; 0; 0; 0; 0; 0; 0; 0; 0].

Lemma demo_mask_args : mask_args demo_mask 3 1 2 2 2 1.
Proof. split; vm_compute; intuition discriminate. Qed.

Lemma demo_flat_ok ps : flat_ok (renderer (demo_world ps)).
Proof. vm_compute. intuition discriminate. Qed.

Lemma fillAlphaMask_blends_witness :
  exists wd', fillAlphaMaskImpl (fun _ => None) [] [] demo_mask 3 1 2 2 1 (demo_world []) = Some wd' /\
    dataInt wd' !! 7%nat = Some (argb 255 200 100 50) /\ dataInt wd' !! 6%nat = Some 0.
Proof.
  destruct (fillAlphaMask_blends (fun _ => None) [] [] demo_mask 3 1 2 2 1 (demo_world [])
    (demo_world_ok _)) as (wd' & E & D & _);
    [apply Forall_nil_2|reflexivity|reflexivity|reflexivity|apply demo_flat_ok|
     apply Forall_replicate; vm_compute; intuition discriminate|apply demo_mask_args|].
  exists wd'. split; [exact E|]. rewrite D. vm_compute. split; reflexivity.
Defined.

Lemma fillLCDAlphaMask_safe_witness :
  exists wd', fillLCDAlphaMaskImpl (fun _ => None) ramp256 ramp256 demo_mask 2 0 6 2 1 (demo_world []) = Some wd' /\
    world_ok wd'.
Proof.
  destruct (fillLCDAlphaMask_safe (fun _ => None) ramp256 ramp256 demo_mask 2 0 6 2 1 (demo_world [])
    (demo_world_ok _)) as (wd' & E & W & _);
    [apply Forall_nil_2|reflexivity|reflexivity|reflexivity|apply demo_flat_ok|apply ramp_gamma|
     split; vm_compute; intuition discriminate|].
  exists wd'. split; [exact E|exact W].
Defined.

