(* ===== verification/LensKeys.v ===== *)
(** * Keys and modifiers (LensInputEvents.c)

    The table that translates the key codes of the Linux kernel to those of
    JavaFX and to characters, and the mask of the modifiers that are down.  The
    codes of the kernel come from a header of the system: they are the parameter
    [code] of the functions that read them.  A C string is the list of its
    characters, without the final zero. *)

From S2P Require Import Prelude.

(** ** The constants of com.sun.glass.events *)

Definition VK_UNDEFINED : Z := 0.
Definition VK_ESCAPE : Z := 27.
Definition VK_1 : Z := 49.
Definition VK_2 : Z := 50.
Definition VK_3 : Z := 51.
Definition VK_4 : Z := 52.
Definition VK_5 : Z := 53.
Definition VK_6 : Z := 54.
Definition VK_7 : Z := 55.
Definition VK_8 : Z := 56.
Definition VK_9 : Z := 57.
Definition VK_0 : Z := 48.
Definition VK_MINUS : Z := 45.
Definition VK_EQUALS : Z := 61.
Definition VK_BACKSPACE : Z := 8.
Definition VK_TAB : Z := 9.
Definition VK_Q : Z := 81.
Definition VK_W : Z := 87.
Definition VK_E : Z := 69.
Definition VK_R : Z := 82.
Definition VK_T : Z := 84.
Definition VK_Y : Z := 89.
Definition VK_U : Z := 85.
Definition VK_I : Z := 73.
Definition VK_O : Z := 79.
Definition VK_P : Z := 80.
Definition VK_OPEN_BRACKET : Z := 91.
Definition VK_CLOSE_BRACKET : Z := 93.
Definition VK_ENTER : Z := 10.
Definition VK_CONTROL : Z := 17.
Definition VK_A : Z := 65.
Definition VK_S : Z := 83.
Definition VK_D : Z := 68.
Definition VK_F : Z := 70.
Definition VK_G : Z := 71.
Definition VK_H : Z := 72.
Definition VK_J : Z := 74.
Definition VK_K : Z := 75.
Definition VK_L : Z := 76.
Definition VK_SEMICOLON : Z := 59.
Definition VK_QUOTE : Z := 222.
Definition VK_BACK_QUOTE : Z := 192.
Definition VK_SHIFT : Z := 16.
Definition VK_BACK_SLASH : Z := 92.
Definition VK_Z : Z := 90.
Definition VK_X : Z := 88.
Definition VK_C : Z := 67.
Definition VK_V : Z := 86.
Definition VK_B : Z := 66.
Definition VK_N : Z := 78.
Definition VK_M : Z := 77.
Definition VK_COMMA : Z := 44.
Definition VK_PERIOD : Z := 46.
Definition VK_SLASH : Z := 47.
Definition VK_MULTIPLY : Z := 106.
Definition VK_ALT : Z := 18.
Definition VK_SPACE : Z := 32.
Definition VK_CAPS_LOCK : Z := 20.
Definition VK_F1 : Z := 112.
Definition VK_F2 : Z := 113.
Definition VK_F3 : Z := 114.
Definition VK_F4 : Z := 115.
Definition VK_F5 : Z := 116.
Definition VK_F6 : Z := 117.
Definition VK_F7 : Z := 118.
Definition VK_F8 : Z := 119.
Definition VK_F9 : Z := 120.
Definition VK_F10 : Z := 121.
Definition VK_NUM_LOCK : Z := 144.
Definition VK_SCROLL_LOCK : Z := 145.
Definition VK_NUMPAD7 : Z := 103.
Definition VK_NUMPAD8 : Z := 104.
Definition VK_NUMPAD9 : Z := 105.
Definition VK_SUBTRACT : Z := 109.
Definition VK_NUMPAD4 : Z := 100.
Definition VK_NUMPAD5 : Z := 101.
Definition VK_NUMPAD6 : Z := 102.
Definition VK_ADD : Z := 107.
Definition VK_NUMPAD1 : Z := 97.
Definition VK_NUMPAD2 : Z := 98.
Definition VK_NUMPAD3 : Z := 99.
Definition VK_DECIMAL : Z := 110.
Definition VK_F11 : Z := 122.
Definition VK_F12 : Z := 123.
Definition VK_DIVIDE : Z := 111.
Definition VK_PRINTSCREEN : Z := 154.
Definition VK_HOME : Z := 36.
Definition VK_UP : Z := 38.
Definition VK_PAGE_UP : Z := 33.
Definition VK_LEFT : Z := 37.
Definition VK_RIGHT : Z := 39.
Definition VK_END : Z := 35.
Definition VK_DOWN : Z := 40.
Definition VK_PAGE_DOWN : Z := 34.
Definition VK_INSERT : Z := 155.
Definition VK_DELETE : Z := 127.
Definition VK_WINDOWS : Z := 524.
Definition VK_CONTEXT_MENU : Z := 525.
Definition VK_NUMPAD0 : Z := 96.

Definition KeyEvent_PRESS : Z := 111.
Definition KeyEvent_RELEASE : Z := 112.
Definition KeyEvent_TYPED : Z := 113.
Definition MODIFIER_NONE : Z := 0.
Definition MODIFIER_SHIFT : Z := 1.
Definition MODIFIER_CONTROL : Z := 4.
Definition MODIFIER_ALT : Z := 8.
Definition MODIFIER_WINDOWS : Z := 16.
Definition MODIFIER_BUTTON_PRIMARY : Z := 32.
Definition MODIFIER_BUTTON_SECONDARY : Z := 64.
Definition MODIFIER_BUTTON_MIDDLE : Z := 128.
Definition BUTTON_NONE : Z := 211.
Definition BUTTON_LEFT : Z := 212.
Definition BUTTON_RIGHT : Z := 213.
Definition BUTTON_OTHER : Z := 214.
Definition MouseEvent_DOWN : Z := 221.
Definition MouseEvent_UP : Z := 222.
Definition MouseEvent_MOVE : Z := 224.
Definition MouseEvent_ENTER : Z := 225.
Definition MouseEvent_EXIT : Z := 226.

(** ** The table of keys *)

Inductive key_name : Type :=
  | KEY_RESERVED | KEY_ESC | KEY_1 | KEY_2 | KEY_3 | KEY_4 | KEY_5 | KEY_6
  | KEY_7 | KEY_8 | KEY_9 | KEY_0 | KEY_MINUS | KEY_EQUAL | KEY_BACKSPACE
  | KEY_TAB | KEY_Q | KEY_W | KEY_E | KEY_R | KEY_T | KEY_Y | KEY_U | KEY_I
  | KEY_O | KEY_P | KEY_LEFTBRACE | KEY_RIGHTBRACE | KEY_ENTER | KEY_LEFTCTRL
  | KEY_A | KEY_S | KEY_D | KEY_F | KEY_G | KEY_H | KEY_J | KEY_K | KEY_L
  | KEY_SEMICOLON | KEY_APOSTROPHE | KEY_GRAVE | KEY_LEFTSHIFT
  | KEY_BACKSLASH | KEY_Z | KEY_X | KEY_C | KEY_V | KEY_B | KEY_N | KEY_M
  | KEY_COMMA | KEY_DOT | KEY_SLASH | KEY_RIGHTSHIFT | KEY_KPASTERISK
  | KEY_LEFTALT | KEY_SPACE | KEY_CAPSLOCK | KEY_F1 | KEY_F2 | KEY_F3
  | KEY_F4 | KEY_F5 | KEY_F6 | KEY_F7 | KEY_F8 | KEY_F9 | KEY_F10
  | KEY_NUMLOCK | KEY_SCROLLLOCK | KEY_KP7 | KEY_KP8 | KEY_KP9 | KEY_KPMINUS
  | KEY_KP4 | KEY_KP5 | KEY_KP6 | KEY_KPPLUS | KEY_KP1 | KEY_KP2 | KEY_KP3
  | KEY_KP0 | KEY_KPDOT | KEY_F11 | KEY_F12 | KEY_KPENTER | KEY_RIGHTCTRL
  | KEY_KPSLASH | KEY_SYSRQ | KEY_RIGHTALT | KEY_HOME | KEY_UP | KEY_PAGEUP
  | KEY_LEFT | KEY_RIGHT | KEY_END | KEY_DOWN | KEY_PAGEDOWN | KEY_INSERT
  | KEY_DELETE | KEY_LEFTMETA | KEY_RIGHTMETA | KEY_COMPOSE.

Record LensKeyboardMap := mkKey {
  platformKeyCode : key_name;
  jfxKeyCode : Z;
  keyStr : list Z;
  keyStrWithShift : list Z
}.

Definition keyMap : list LensKeyboardMap := [
  mkKey KEY_RESERVED VK_UNDEFINED [] [];
  mkKey KEY_ESC VK_ESCAPE [] [];
  mkKey KEY_1 VK_1 [49] [33];
  mkKey KEY_2 VK_2 [50] [64];
  mkKey KEY_3 VK_3 [51] [35];
  mkKey KEY_4 VK_4 [52] [36];
  mkKey KEY_5 VK_5 [53] [37];
  mkKey KEY_6 VK_6 [54] [94];
  mkKey KEY_7 VK_7 [55] [38];
  mkKey KEY_8 VK_8 [56] [42];
  mkKey KEY_9 VK_9 [57] [40];
  mkKey KEY_0 VK_0 [48] [41];
  mkKey KEY_MINUS VK_MINUS [45] [95];
  mkKey KEY_EQUAL VK_EQUALS [61] [43];
  mkKey KEY_BACKSPACE VK_BACKSPACE [] [];
  mkKey KEY_TAB VK_TAB [] [];
  mkKey KEY_Q VK_Q [113] [81];
  mkKey KEY_W VK_W [119] [87];
  mkKey KEY_E VK_E [101] [69];
  mkKey KEY_R VK_R [114] [82];
  mkKey KEY_T VK_T [116] [84];
  mkKey KEY_Y VK_Y [121] [89];
  mkKey KEY_U VK_U [117] [85];
  mkKey KEY_I VK_I [105] [73];
  mkKey KEY_O VK_O [111] [79];
  mkKey KEY_P VK_P [112] [80];
  mkKey KEY_LEFTBRACE VK_OPEN_BRACKET [91] [123];
  mkKey KEY_RIGHTBRACE VK_CLOSE_BRACKET [93] [125];
  mkKey KEY_ENTER VK_ENTER [] [];
  mkKey KEY_LEFTCTRL VK_CONTROL [] [];
  mkKey KEY_A VK_A [97] [65];
  mkKey KEY_S VK_S [115] [83];
  mkKey KEY_D VK_D [100] [68];
  mkKey KEY_F VK_F [102] [70];
  mkKey KEY_G VK_G [103] [71];
  mkKey KEY_H VK_H [104] [72];
  mkKey KEY_J VK_J [106] [74];
  mkKey KEY_K VK_K [107] [75];
  mkKey KEY_L VK_L [108] [76];
  mkKey KEY_SEMICOLON VK_SEMICOLON [59] [58];
  mkKey KEY_APOSTROPHE VK_QUOTE [39] [34];
  mkKey KEY_GRAVE VK_BACK_QUOTE [96] [126];
  mkKey KEY_LEFTSHIFT VK_SHIFT [] [];
  mkKey KEY_BACKSLASH VK_BACK_SLASH [92] [124];
  mkKey KEY_Z VK_Z [122] [90];
  mkKey KEY_X VK_X [120] [88];
  mkKey KEY_C VK_C [99] [67];
  mkKey KEY_V VK_V [118] [86];
  mkKey KEY_B VK_B [98] [66];
  mkKey KEY_N VK_N [110] [78];
  mkKey KEY_M VK_M [109] [77];
  mkKey KEY_COMMA VK_COMMA [44] [60];
  mkKey KEY_DOT VK_PERIOD [46] [62];
  mkKey KEY_SLASH VK_SLASH [47] [63];
  mkKey KEY_RIGHTSHIFT VK_SHIFT [] [];
  mkKey KEY_KPASTERISK VK_MULTIPLY [42] [];
  mkKey KEY_LEFTALT VK_ALT [] [];
  mkKey KEY_SPACE VK_SPACE [32] [32];
  mkKey KEY_CAPSLOCK VK_CAPS_LOCK [] [];
  mkKey KEY_F1 VK_F1 [] [];
  mkKey KEY_F2 VK_F2 [] [];
  mkKey KEY_F3 VK_F3 [] [];
  mkKey KEY_F4 VK_F4 [] [];
  mkKey KEY_F5 VK_F5 [] [];
  mkKey KEY_F6 VK_F6 [] [];
  mkKey KEY_F7 VK_F7 [] [];
  mkKey KEY_F8 VK_F8 [] [];
  mkKey KEY_F9 VK_F9 [] [];
  mkKey KEY_F10 VK_F10 [] [];
  mkKey KEY_NUMLOCK VK_NUM_LOCK [] [];
  mkKey KEY_SCROLLLOCK VK_SCROLL_LOCK [] [];
  mkKey KEY_KP7 VK_NUMPAD7 [55] [];
  mkKey KEY_KP8 VK_NUMPAD8 [56] [];
  mkKey KEY_KP9 VK_NUMPAD9 [57] [];
  mkKey KEY_KPMINUS VK_SUBTRACT [45] [];
  mkKey KEY_KP4 VK_NUMPAD4 [52] [];
  mkKey KEY_KP5 VK_NUMPAD5 [53] [];
  mkKey KEY_KP6 VK_NUMPAD6 [54] [];
  mkKey KEY_KPPLUS VK_ADD [43] [];
  mkKey KEY_KP1 VK_NUMPAD1 [49] [];
  mkKey KEY_KP2 VK_NUMPAD2 [50] [];
  mkKey KEY_KP3 VK_NUMPAD3 [51] [];
  mkKey KEY_KP0 VK_NUMPAD7 [48] [];
  mkKey KEY_KPDOT VK_DECIMAL [46] [];
  mkKey KEY_F11 VK_F11 [] [];
  mkKey KEY_F12 VK_F12 [] [];
  mkKey KEY_KPENTER VK_ENTER [] [];
  mkKey KEY_RIGHTCTRL VK_CONTROL [] [];
  mkKey KEY_KPSLASH VK_DIVIDE [47] [];
  mkKey KEY_SYSRQ VK_PRINTSCREEN [] [];
  mkKey KEY_RIGHTALT VK_ALT [] [];
  mkKey KEY_HOME VK_HOME [] [];
  mkKey KEY_UP VK_UP [] [];
  mkKey KEY_PAGEUP VK_PAGE_UP [] [];
  mkKey KEY_LEFT VK_LEFT [] [];
  mkKey KEY_RIGHT VK_RIGHT [] [];
  mkKey KEY_END VK_END [] [];
  mkKey KEY_DOWN VK_DOWN [] [];
  mkKey KEY_PAGEDOWN VK_PAGE_DOWN [] [];
  mkKey KEY_INSERT VK_INSERT [] [];
  mkKey KEY_DELETE VK_DELETE [] [];
  mkKey KEY_LEFTMETA VK_WINDOWS [] [];
  mkKey KEY_RIGHTMETA VK_WINDOWS [] [];
  mkKey KEY_COMPOSE VK_CONTEXT_MENU [] []].

(** ** The modifiers *)

Record Modifiers := mkModifiers {
  shiftDown : Z;
  ctrlDown : Z;
  altDown : Z;
  metaDown : Z;
  capsOn : bool;
  modifiersMask : Z
}.

Definition no_modifiers : Modifiers := mkModifiers 0 0 0 0 false MODIFIER_NONE.

(** [modifiersMask |= mask] or [modifiersMask &= ~mask]. *)
Definition update_mask (on : bool) (mask modifiers : Z) : Z :=
  if on then Z.lor modifiers mask else Z.land modifiers (Z.lnot mask).

Definition count_key (isPressed : bool) (n : Z) : Z :=
  if isPressed then i32 (n + 1) else i32 (n - 1).

Definition glass_inputEvents_updateKeyModifiers (key eventType : Z) (m : Modifiers) :
    Modifiers :=
  let press (isPressed : bool) :=
    let '(mkModifiers s c a w caps mask) := m in
    if key =? VK_SHIFT then
      let s := count_key isPressed s in
      mkModifiers s c a w caps (update_mask (negb (s =? 0)) MODIFIER_SHIFT mask)
    else if key =? VK_CONTROL then
      let c := count_key isPressed c in
      mkModifiers s c a w caps (update_mask (negb (c =? 0)) MODIFIER_CONTROL mask)
    else if key =? VK_ALT then
      let a := count_key isPressed a in
      mkModifiers s c a w caps (update_mask (negb (a =? 0)) MODIFIER_ALT mask)
    else if key =? VK_WINDOWS then
      let w := count_key isPressed w in
      mkModifiers s c a w caps (update_mask (negb (w =? 0)) MODIFIER_WINDOWS mask)
    else if (key =? VK_CAPS_LOCK) && isPressed then
      mkModifiers s c a w (negb caps) mask
    else m in
  if eventType =? KeyEvent_PRESS then press true
  else if eventType =? KeyEvent_RELEASE then press false
  else m.

Definition glass_inputEvents_updateMouseButtonModifiers (button eventType : Z)
    (m : Modifiers) : Modifiers :=
  let press (isPressed : bool) :=
    let mask :=
      if button =? BUTTON_LEFT then MODIFIER_BUTTON_PRIMARY
      else if button =? BUTTON_RIGHT then MODIFIER_BUTTON_SECONDARY
      else if button =? BUTTON_OTHER then MODIFIER_BUTTON_MIDDLE
      else MODIFIER_NONE in
    if mask =? MODIFIER_NONE then m
    else mkModifiers (shiftDown m) (ctrlDown m) (altDown m) (metaDown m) (capsOn m)
           (update_mask isPressed mask (modifiersMask m)) in
  if eventType =? MouseEvent_DOWN then press true
  else if eventType =? MouseEvent_UP then press false
  else m.

(** ** Look-ups in the table *)

Definition glass_inputEvents_isAlpha (javaKeyCode : Z) : bool :=
  (VK_A <=? javaKeyCode) && (javaKeyCode <=? VK_Z).

Definition glass_inputEvents_checkForShift (m : Modifiers) (keyCode : Z) : bool :=
  negb (shiftDown m =? 0) || (capsOn m && glass_inputEvents_isAlpha keyCode).

(** The loops return at the first row that matches. *)
Definition first_key (p : LensKeyboardMap -> bool) : option LensKeyboardMap :=
  List.find p keyMap.

Definition glass_inputEvents_getJavaKeycodeFromPlatformKeyCode (code : key_name -> Z)
    (platformKey : Z) : Z :=
  match first_key (fun k => code (platformKeyCode k) =? platformKey) with
  | Some k => jfxKeyCode k
  | None => VK_UNDEFINED
  end.

(** The first character of a C string: its final zero when it is empty. *)
Definition first_char (str : list Z) : Z := default 0 (head str).

Definition glass_inputEvents_getJavaKeyCodeFromJChar (c : Z) : Z :=
  match first_key (fun k =>
    (first_char (keyStr k) =? c) || (first_char (keyStrWithShift k) =? c)) with
  | Some k => jfxKeyCode k
  | None => VK_UNDEFINED
  end.

(** [None] is [LENS_FAILED]. *)
Definition glass_inputEvents_getKeyChar (m : Modifiers) (code : Z) : option (list Z) :=
  match first_key (fun k => jfxKeyCode k =? code) with
  | Some k =>
      Some (if glass_inputEvents_checkForShift m code
            then keyStrWithShift k else keyStr k)
  | None => None
  end.

Definition glass_inputEvents_isKeyModifier (code : Z) : bool :=
  (code =? VK_SHIFT) || (code =? VK_ALT) || (code =? VK_CONTROL)
  || (code =? VK_WINDOWS) || (code =? VK_CAPS_LOCK).

(** ** What the modifiers count *)

(** An event of the keyboard or of a mouse button. *)
Inductive input : Type :=
  | Key (key eventType : Z)
  | Button (button eventType : Z).

Definition input_step (m : Modifiers) (i : input) : Modifiers :=
  match i with
  | Key key eventType => glass_inputEvents_updateKeyModifiers key eventType m
  | Button button eventType =>
      glass_inputEvents_updateMouseButtonModifiers button eventType m
  end.

(** Presses of [key] less its releases. *)
Definition downs_step (key : Z) (n : Z) (i : input) : Z :=
  match i with
  | Key k eventType =>
      if k =? key then
        if eventType =? KeyEvent_PRESS then n + 1
        else if eventType =? KeyEvent_RELEASE then n - 1 else n
      else n
  | Button _ _ => n
  end.

(** Whether the last event of [button] was a press. *)
Definition held_step (button : Z) (b : bool) (i : input) : bool :=
  match i with
  | Button k eventType =>
      if k =? button then
        if eventType =? MouseEvent_DOWN then true
        else if eventType =? MouseEvent_UP then false else b
      else b
  | Key _ _ => b
  end.

Definition downs (key : Z) (l : list input) : Z := foldl (downs_step key) 0 l.
Definition held (button : Z) (l : list input) : bool := foldl (held_step button) false l.

Definition modifier_keys : list (Z * (Modifiers -> Z) * Z) :=
  [(VK_SHIFT, shiftDown, 0); (VK_CONTROL, ctrlDown, 2); (VK_ALT, altDown, 3);
   (VK_WINDOWS, metaDown, 4)].

Definition modifier_buttons : list (Z * Z) :=
  [(BUTTON_LEFT, 5); (BUTTON_RIGHT, 6); (BUTTON_OTHER, 7)].

(** The counters and the mask [m] agree with the counts [n] and the buttons [b]. *)
Definition tracks (n : Z -> Z) (b : Z -> bool) (m : Modifiers) : Prop :=
  Forall (fun '(key, counter, bit) =>
    counter m = i32 (n key)
    /\ Z.testbit (modifiersMask m) bit = negb (i32 (n key) =? 0)) modifier_keys
  /\ Forall (fun '(button, bit) =>
       Z.testbit (modifiersMask m) bit = b button) modifier_buttons.

Lemma testbit_update_mask (on : bool) (k j mask : Z) :
  0 <= k -> 0 <= j ->
  Z.testbit (update_mask on (2 ^ k) mask) j = if k =? j then on else Z.testbit mask j.
Proof.
  intros Hk Hj. unfold update_mask.
  destruct on.
  - rewrite Z.lor_spec, Z.pow2_bits_eqb by lia.
    destruct (Z.eqb_spec k j); [apply orb_true_r | apply orb_false_r].
  - rewrite Z.land_spec, Z.lnot_spec, Z.pow2_bits_eqb by lia.
    destruct (Z.eqb_spec k j); [apply andb_false_r | apply andb_true_r].
Qed.

Lemma update_mask_bit (on : bool) (mask k j modifiers : Z) :
  mask = 2 ^ k -> 0 <= k -> 0 <= j ->
  Z.testbit (update_mask on mask modifiers) j =
    if k =? j then on else Z.testbit modifiers j.
Proof. intros ->. apply testbit_update_mask. Qed.

Lemma count_key_i32 (isPressed : bool) (n : Z) :
  count_key isPressed (i32 n) = i32 (if isPressed then n + 1 else n - 1).
Proof. destruct isPressed; [apply (i32_add_l n 1) | apply (i32_add_l n (-1))]. Qed.

#[local] Arguments Z.testbit : simpl never.
#[local] Arguments i32 : simpl never.
#[local] Arguments update_mask : simpl never.

(** One key or one button at a time, by the table of keys or of buttons. *)
Ltac modifier_cases key :=
  unfold VK_SHIFT, VK_CONTROL, VK_ALT, VK_WINDOWS, BUTTON_LEFT, BUTTON_RIGHT,
    BUTTON_OTHER in *;
  repeat match goal with
  | |- context [key =? ?c] => destruct (Z.eqb_spec key c); [subst key; cbn | cbn]
  end.

Lemma tracks_key (n : Z -> Z) (b : Z -> bool) (m : Modifiers) (key eventType : Z) :
  tracks n b m ->
  tracks (fun k => downs_step k (n k) (Key key eventType)) b
    (glass_inputEvents_updateKeyModifiers key eventType m).
Proof.
  destruct m as [s c a w caps mask]. unfold tracks, modifier_keys, modifier_buttons.
  rewrite !list.Forall_cons. cbn.
  intros ([[-> Hs] [[-> Hc] [[-> Ha] [[-> Hw] _]]]] & H5 & H6 & H7 & _).
  unfold glass_inputEvents_updateKeyModifiers.
  destruct (eventType =? KeyEvent_PRESS);
    [ | destruct (eventType =? KeyEvent_RELEASE) ].
  all: rewrite ?count_key_i32; modifier_cases key.
  all: rewrite ?(update_mask_bit _ MODIFIER_SHIFT 0), ?(update_mask_bit _ MODIFIER_CONTROL 2),
    ?(update_mask_bit _ MODIFIER_ALT 3), ?(update_mask_bit _ MODIFIER_WINDOWS 4)
    by (reflexivity || lia).
  all: try (destruct (key =? VK_CAPS_LOCK)); cbn; auto 20.
Qed.

Lemma tracks_button (n : Z -> Z) (b : Z -> bool) (m : Modifiers) (button eventType : Z) :
  tracks n b m ->
  tracks n (fun k => held_step k (b k) (Button button eventType))
    (glass_inputEvents_updateMouseButtonModifiers button eventType m).
Proof.
  destruct m as [s c a w caps mask]. unfold tracks, modifier_keys, modifier_buttons.
  rewrite !list.Forall_cons. cbn.
  intros ([[-> Hs] [[-> Hc] [[-> Ha] [[-> Hw] _]]]] & H5 & H6 & H7 & _).
  unfold glass_inputEvents_updateMouseButtonModifiers.
  destruct (eventType =? MouseEvent_DOWN);
    [ | destruct (eventType =? MouseEvent_UP) ].
  all: modifier_cases button.
  all: rewrite ?(update_mask_bit _ MODIFIER_BUTTON_PRIMARY 5),
    ?(update_mask_bit _ MODIFIER_BUTTON_SECONDARY 6),
    ?(update_mask_bit _ MODIFIER_BUTTON_MIDDLE 7) by (reflexivity || lia).
  all: cbn; auto 20.
Qed.

Lemma tracks_step (n : Z -> Z) (b : Z -> bool) (m : Modifiers) (i : input) :
  tracks n b m ->
  tracks (fun k => downs_step k (n k) i) (fun k => held_step k (b k) i) (input_step m i).
Proof. destruct i; [apply tracks_key | apply tracks_button]. Qed.

Lemma tracks_ext (n n' : Z -> Z) (b b' : Z -> bool) (m : Modifiers) :
  (forall k, n' k = n k) -> (forall k, b' k = b k) -> tracks n b m -> tracks n' b' m.
Proof.
  intros Hn Hb [H1 H2]. split.
  - eapply list.Forall_impl; [exact H1|]. intros [[key counter] bit]. by rewrite Hn.
  - eapply list.Forall_impl; [exact H2|]. intros [button bit]. by rewrite Hb.
Qed.

(** C40. After any sequence of events of keys and mouse buttons each counter of a
    modifier key is the number of its presses less the number of its releases,
    as a 32-bit number, the bit of the key in the mask tells whether the counter
    is zero, and the bit of a mouse button whether its last event was a press. *)
Theorem modifiers_track (l : list input) :
  tracks (fun key => downs key l) (fun button => held button l)
    (foldl input_step no_modifiers l).
Proof.
  induction l as [|i l IH] using rev_ind.
  - unfold tracks, modifier_keys, modifier_buttons. rewrite !list.Forall_cons.
    cbn. auto 20.
  - rewrite foldl_snoc. eapply tracks_ext, (tracks_step _ _ _ i IH);
      intros k; unfold downs, held; by rewrite foldl_snoc.
Qed.

(** ** The table read back *)

(** The character [c] is the one that the key of code [k] types, with shift or
    without. *)
Definition types (k : Z) (c : Z) : Prop :=
  exists m : Modifiers, glass_inputEvents_getKeyChar m k = Some [c].

Definition with_shift : Modifiers := mkModifiers 1 0 0 0 false MODIFIER_SHIFT.

Definition row_types (row : LensKeyboardMap) (c : Z) : bool :=
  match glass_inputEvents_getKeyChar no_modifiers (jfxKeyCode row),
        glass_inputEvents_getKeyChar with_shift (jfxKeyCode row) with
  | Some [c1], Some [c2] => (c =? c1) || (c =? c2)
  | Some [c1], _ => c =? c1
  | _, Some [c2] => c =? c2
  | _, _ => false
  end.

Lemma row_types_ok (row : LensKeyboardMap) (c : Z) :
  row_types row c = true -> types (jfxKeyCode row) c.
Proof.
  unfold row_types, types.
  destruct (glass_inputEvents_getKeyChar no_modifiers _) as [[|c1 [|]]|] eqn:E1;
    destruct (glass_inputEvents_getKeyChar with_shift _) as [[|c2 [|]]|] eqn:E2;
    intros H; try discriminate.
  all: try (apply orb_true_iff in H as [H|H]); apply Z.eqb_eq in H; subst c; eauto.
Qed.

Lemma find_sat (p : LensKeyboardMap -> bool) (row : LensKeyboardMap) :
  first_key p = Some row -> List.In row keyMap /\ p row = true.
Proof. apply List.find_some. Qed.

Definition chars_of (row : LensKeyboardMap) : list Z :=
  filter (fun c => c <> 0) [first_char (keyStr row); first_char (keyStrWithShift row)].

Lemma first_match_types :
  forallb (fun c => match first_key (fun k => (first_char (keyStr k) =? c)
                                              || (first_char (keyStrWithShift k) =? c)) with
                    | Some row => row_types row c
                    | None => false
                    end) (keyMap ≫= chars_of) = true.
Proof. vm_compute. reflexivity. Qed.

(** The look-ups of characters agree: a character for which
    getJavaKeyCodeFromJChar finds a key is one that getKeyChar gives for this
    key, with or without shift; it finds one exactly for the characters of the
    table.  The undefined key is found for the character 0 only. *)
Lemma jchar_roundtrip (c : Z) :
  c <> 0 ->
  (c ∈ keyMap ≫= chars_of ->
     types (glass_inputEvents_getJavaKeyCodeFromJChar c) c)
  /\ (c ∉ keyMap ≫= chars_of ->
       glass_inputEvents_getJavaKeyCodeFromJChar c = VK_UNDEFINED).
Proof.
  intros Hc. unfold glass_inputEvents_getJavaKeyCodeFromJChar. split.
  - intros Hin. pose proof first_match_types as H.
    rewrite forallb_forall in H. apply list_elem_of_In, H in Hin.
    destruct (first_key _) as [row|]; [by apply row_types_ok | discriminate].
  - intros Hin. destruct (first_key _) as [row|] eqn:E; [|done].
    apply find_sat in E as [Hrow Hp]. destruct Hin.
    apply list_elem_of_bind. exists row. split; [|by apply list_elem_of_In].
    unfold chars_of. apply list_elem_of_filter. split; [done|].
    apply orb_true_iff in Hp as [Hp|Hp]; apply Z.eqb_eq in Hp; subst c;
      rewrite !elem_of_cons; auto.
Qed.



(** ** Codes of the kernel *)

Lemma find_key (f : LensKeyboardMap -> Z) (l : list LensKeyboardMap)
    (row : LensKeyboardMap) :
  NoDup (f <$> l) -> row ∈ l -> List.find (fun k => f k =? f row) l = Some row.
Proof.
  induction l as [|k l IH]; intros Hnd Hin; [by apply elem_of_nil in Hin|].
  apply list.NoDup_cons in Hnd as [Hk Hnd]. cbn [List.find].
  apply elem_of_cons in Hin as [<-|Hin]; [by rewrite Z.eqb_refl|].
  destruct (Z.eqb_spec (f k) (f row)) as [E|]; [|by apply IH].
  destruct Hk. rewrite E. by apply list_elem_of_fmap_2.
Qed.

(** The codes in linux/input-event-codes.h. *)
Definition linux_code (k : key_name) : Z :=
  match k with
  | KEY_RESERVED => 0 | KEY_ESC => 1 | KEY_1 => 2 | KEY_2 => 3 | KEY_3 => 4
  | KEY_4 => 5 | KEY_5 => 6 | KEY_6 => 7 | KEY_7 => 8 | KEY_8 => 9
  | KEY_9 => 10 | KEY_0 => 11 | KEY_MINUS => 12 | KEY_EQUAL => 13
  | KEY_BACKSPACE => 14 | KEY_TAB => 15 | KEY_Q => 16 | KEY_W => 17
  | KEY_E => 18 | KEY_R => 19 | KEY_T => 20 | KEY_Y => 21 | KEY_U => 22
  | KEY_I => 23 | KEY_O => 24 | KEY_P => 25 | KEY_LEFTBRACE => 26
  | KEY_RIGHTBRACE => 27 | KEY_ENTER => 28 | KEY_LEFTCTRL => 29 | KEY_A => 30
  | KEY_S => 31 | KEY_D => 32 | KEY_F => 33 | KEY_G => 34 | KEY_H => 35
  | KEY_J => 36 | KEY_K => 37 | KEY_L => 38 | KEY_SEMICOLON => 39
  | KEY_APOSTROPHE => 40 | KEY_GRAVE => 41 | KEY_LEFTSHIFT => 42
  | KEY_BACKSLASH => 43 | KEY_Z => 44 | KEY_X => 45 | KEY_C => 46 | KEY_V => 47
  | KEY_B => 48 | KEY_N => 49 | KEY_M => 50 | KEY_COMMA => 51 | KEY_DOT => 52
  | KEY_SLASH => 53 | KEY_RIGHTSHIFT => 54 | KEY_KPASTERISK => 55
  | KEY_LEFTALT => 56 | KEY_SPACE => 57 | KEY_CAPSLOCK => 58 | KEY_F1 => 59
  | KEY_F2 => 60 | KEY_F3 => 61 | KEY_F4 => 62 | KEY_F5 => 63 | KEY_F6 => 64
  | KEY_F7 => 65 | KEY_F8 => 66 | KEY_F9 => 67 | KEY_F10 => 68
  | KEY_NUMLOCK => 69 | KEY_SCROLLLOCK => 70 | KEY_KP7 => 71 | KEY_KP8 => 72
  | KEY_KP9 => 73 | KEY_KPMINUS => 74 | KEY_KP4 => 75 | KEY_KP5 => 76
  | KEY_KP6 => 77 | KEY_KPPLUS => 78 | KEY_KP1 => 79 | KEY_KP2 => 80
  | KEY_KP3 => 81 | KEY_KP0 => 82 | KEY_KPDOT => 83 | KEY_F11 => 87
  | KEY_F12 => 88 | KEY_KPENTER => 96 | KEY_RIGHTCTRL => 97 | KEY_KPSLASH => 98
  | KEY_SYSRQ => 99 | KEY_RIGHTALT => 100 | KEY_HOME => 102 | KEY_UP => 103
  | KEY_PAGEUP => 104 | KEY_LEFT => 105 | KEY_RIGHT => 106 | KEY_END => 107
  | KEY_DOWN => 108 | KEY_PAGEDOWN => 109 | KEY_INSERT => 110
  | KEY_DELETE => 111 | KEY_LEFTMETA => 125 | KEY_RIGHTMETA => 126
  | KEY_COMPOSE => 127
  end.

Lemma linux_code_inj : Inj (=) (=) linux_code.
Proof.
  assert (H : forall k, platformKeyCode <$> List.find (fun r =>
            linux_code (platformKeyCode r) =? linux_code k) keyMap = Some k)
    by (intros []; reflexivity).
  intros k1 k2 E. pose proof (H k1) as H1. rewrite E, (H k2) in H1. congruence.
Qed.

Lemma keyMap_nodup : NoDup (platformKeyCode <$> keyMap).
Proof.
  apply (NoDup_fmap_1 linux_code). apply (bool_decide_unpack _). vm_compute. exact I.
Qed.

(** Whatever the codes of the kernel are, if they are different each key is
    translated to the JavaFX code in its row of the table.  So the key 0 of the
    numeric pad becomes VK_NUMPAD7, types a 7, and no key becomes VK_NUMPAD0. *)
Lemma keycode_translates (code : key_name -> Z) :
  Inj (=) (=) code ->
  (forall row, row ∈ keyMap ->
     glass_inputEvents_getJavaKeycodeFromPlatformKeyCode code
       (code (platformKeyCode row)) = jfxKeyCode row)
  /\ glass_inputEvents_getJavaKeycodeFromPlatformKeyCode code (code KEY_KP0) = VK_NUMPAD7
  /\ glass_inputEvents_getKeyChar no_modifiers VK_NUMPAD7 = Some [55]
  /\ (forall n, glass_inputEvents_getJavaKeycodeFromPlatformKeyCode code n <> VK_NUMPAD0).
Proof.
  intros Hinj.
  assert (Hrow : forall row, row ∈ keyMap ->
     glass_inputEvents_getJavaKeycodeFromPlatformKeyCode code
       (code (platformKeyCode row)) = jfxKeyCode row).
  { intros row Hin. unfold glass_inputEvents_getJavaKeycodeFromPlatformKeyCode, first_key.
    pose proof (find_key (code ∘ platformKeyCode) keyMap row) as E. cbn beta in E.
    unfold compose in E at 2 3. rewrite E; [done| |done].
    rewrite list_fmap_compose. apply NoDup_fmap_2; [done|]. apply keyMap_nodup. }
  split; [exact Hrow|]. split; [|split; [reflexivity|]].
  - apply (Hrow (mkKey KEY_KP0 VK_NUMPAD7 [48] [])). apply list_elem_of_In.
    unfold keyMap. cbn. auto 100.
  - intros n. unfold glass_inputEvents_getJavaKeycodeFromPlatformKeyCode.
    destruct (first_key _) as [row|] eqn:E; [|discriminate].
    apply find_sat in E as [Hin _]. apply list_elem_of_In in Hin.
    assert (H : Forall (fun r => jfxKeyCode r <> VK_NUMPAD0) keyMap)
      by (apply (bool_decide_unpack _); vm_compute; exact I).
    rewrite list.Forall_forall in H. by apply H.
Qed.

