(* ===== verification/LensState.v ===== *)
(** * The state of the Lens window manager (LensCommon.h, LensApplication.c)

    The structures [NativeWindow] and [NativeView], the variables of
    LensWindow.c, LensWindowManager.c and LensInputEvents.c, and the functions of
    LensApplication.c that send notifications to Java.

    A pointer is an address, [None] being [NULL].  The allocated structures are
    the finite maps [windows] and [views]: following a pointer to a structure
    that was freed, or that never existed, is undefined behaviour, and so is a
    loop that does not end.  A computation of the window manager takes the state
    and gives a result and a new state, or [None] for undefined behaviour.

    A notification is a call of a method of LensApplication.java, which puts it
    in a queue: it neither calls back nor throws.  The model keeps the
    notifications in order, the last one first.  Left out of the structures are
    the members that no modelled function reads: [id] (for messages only),
    [opacity], [creationMask], [screen], [data], [alpha],
    [hideCursorInFulscreen], and the reference [lensWindow], which is never
    [NULL] for a window in the list. *)

From S2P Require Export Prelude.
From S2P Require Export LensKeys.
From stdpp Require Export list gmap.

Open Scope Z_scope.

(** Addresses of windows and of views. *)
Definition wid : Type := positive.
Definition vid : Type := positive.

Record LensBounds := mkBounds {
  b_x : Z;
  b_y : Z;
  b_width : Z;
  b_height : Z
}.

#[global] Instance LensBounds_eq_dec : EqDecision LensBounds.
Proof. solve_decision. Defined.

Inductive NativeWindowState : Type :=
  | NWS_NORMAL
  | NWS_MINIMIZED
  | NWS_MAXIMIZED
  | NWS_FULLSCREEN.

#[global] Instance NativeWindowState_eq_dec : EqDecision NativeWindowState.
Proof. solve_decision. Defined.

Record NativeWindow := mkWindow {
  owner : option wid;
  root : option wid;
  currentBounds : LensBounds;
  cachedBounds : LensBounds;
  minWidth : Z;
  maxWidth : Z;
  minHeight : Z;
  maxHeight : Z;
  state : NativeWindowState;
  previousWindow : option wid;
  nextWindow : option wid;
  view : option vid;
  isFocusable : bool;
  isVisible : bool;
  isEnabled : bool;
  processEvents : bool
}.

(** [lensView] is the reference to the object of Java: [false] is [NULL]. *)
Record NativeView := mkView {
  lensView : bool;
  parent : option wid
}.

(** ** Notifications *)

(** Those of com.sun.glass.events.WindowEvent without a size. *)
Inductive WindowEventType : Type :=
  | CLOSE | DESTROY | FOCUS_LOST | FOCUS_GAINED | FOCUS_DISABLED | FOCUS_UNGRAB.

(** Those with one. *)
Inductive ResizeEventType : Type :=
  | RESIZE | MINIMIZE | MAXIMIZE | RESTORE.

Inductive ViewEventType : Type :=
  | ADD | REMOVE | REPAINT | FULLSCREEN_ENTER | FULLSCREEN_EXIT.

Inductive Event : Type :=
  | WindowEvent (w : wid) (e : WindowEventType)
  | WindowResize (w : wid) (e : ResizeEventType) (width height : Z)
  | WindowMove (w : wid) (x y : Z)
  | ViewEvent (v : vid) (e : ViewEventType) (x y width height : Z)
  | MouseEvent (v : vid) (eventType x y absx absy button mods : Z) (isPopupTrigger : bool)
  | MenuEvent (v : vid) (x y absx absy : Z) (isKeyboardTrigger : bool)
  | ScrollEvent (v : vid) (x y absx absy step mods : Z)
  | TouchEvent (v : vid) (touchState id x y absx absy : Z)
  | MultiTouchEvent (v : vid) (touchStates ids xs ys : list Z) (dx dy : Z)
  | KeyEvent (v : vid) (eventType code mods : Z) (chars : list Z)
  | AddVisible (w : wid)
  | RemoveVisible (w : wid)
  | Interrupt
  | NullPointerException.

Record WM := mkWM {
  windows : gmap wid NativeWindow;
  views : gmap vid NativeView;
  windowList_head : option wid;
  windowList_tail : option wid;
  windowList_size : Z;
  focusedWindow : option wid;
  grabbedWindow : option wid;
  mouseWindow : option wid;
  _mousePosX : Z;
  _mousePosY : Z;
  _onDraggingAction : bool;
  _dragGrabbingWindow : option wid;
  _mousePressedButton : Z;
  touchWindow : option wid;
  isDnDStarted : bool;
  screenWidth : Z;
  screenHeight : Z;
  modifiers : Modifiers;
  notified : list Event
}.

(** ** Assignments *)

Definition set_owner (owner_new : option wid) (n : NativeWindow) : NativeWindow :=
  mkWindow owner_new (root n) (currentBounds n) (cachedBounds n) (minWidth n)
    (maxWidth n) (minHeight n) (maxHeight n) (state n) (previousWindow n)
    (nextWindow n) (view n) (isFocusable n) (isVisible n) (isEnabled n)
    (processEvents n).
Definition set_root (root_new : option wid) (n : NativeWindow) : NativeWindow :=
  mkWindow (owner n) root_new (currentBounds n) (cachedBounds n) (minWidth n)
    (maxWidth n) (minHeight n) (maxHeight n) (state n) (previousWindow n)
    (nextWindow n) (view n) (isFocusable n) (isVisible n) (isEnabled n)
    (processEvents n).
Definition set_currentBounds (currentBounds_new : LensBounds) (n : NativeWindow) : NativeWindow :=
  mkWindow (owner n) (root n) currentBounds_new (cachedBounds n) (minWidth n)
    (maxWidth n) (minHeight n) (maxHeight n) (state n) (previousWindow n)
    (nextWindow n) (view n) (isFocusable n) (isVisible n) (isEnabled n)
    (processEvents n).
Definition set_cachedBounds (cachedBounds_new : LensBounds) (n : NativeWindow) : NativeWindow :=
  mkWindow (owner n) (root n) (currentBounds n) cachedBounds_new (minWidth n)
    (maxWidth n) (minHeight n) (maxHeight n) (state n) (previousWindow n)
    (nextWindow n) (view n) (isFocusable n) (isVisible n) (isEnabled n)
    (processEvents n).
Definition set_minWidth (minWidth_new : Z) (n : NativeWindow) : NativeWindow :=
  mkWindow (owner n) (root n) (currentBounds n) (cachedBounds n) minWidth_new
    (maxWidth n) (minHeight n) (maxHeight n) (state n) (previousWindow n)
    (nextWindow n) (view n) (isFocusable n) (isVisible n) (isEnabled n)
    (processEvents n).
Definition set_maxWidth (maxWidth_new : Z) (n : NativeWindow) : NativeWindow :=
  mkWindow (owner n) (root n) (currentBounds n) (cachedBounds n)
    (minWidth n) maxWidth_new (minHeight n) (maxHeight n) (state n) (previousWindow n)
    (nextWindow n) (view n) (isFocusable n) (isVisible n) (isEnabled n)
    (processEvents n).
Definition set_minHeight (minHeight_new : Z) (n : NativeWindow) : NativeWindow :=
  mkWindow (owner n) (root n) (currentBounds n) (cachedBounds n) (minWidth n)
    (maxWidth n) minHeight_new (maxHeight n) (state n) (previousWindow n)
    (nextWindow n) (view n) (isFocusable n) (isVisible n) (isEnabled n)
    (processEvents n).
Definition set_maxHeight (maxHeight_new : Z) (n : NativeWindow) : NativeWindow :=
  mkWindow (owner n) (root n) (currentBounds n) (cachedBounds n) (minWidth n)
    (maxWidth n) (minHeight n) maxHeight_new (state n) (previousWindow n)
    (nextWindow n) (view n) (isFocusable n) (isVisible n) (isEnabled n)
    (processEvents n).
Definition set_state (state_new : NativeWindowState) (n : NativeWindow) : NativeWindow :=
  mkWindow (owner n) (root n) (currentBounds n) (cachedBounds n) (minWidth n)
    (maxWidth n) (minHeight n) (maxHeight n) state_new (previousWindow n)
    (nextWindow n) (view n) (isFocusable n) (isVisible n) (isEnabled n)
    (processEvents n).
Definition set_previousWindow (previousWindow_new : option wid) (n : NativeWindow) : NativeWindow :=
  mkWindow (owner n) (root n) (currentBounds n) (cachedBounds n) (minWidth n)
    (maxWidth n) (minHeight n) (maxHeight n) (state n) previousWindow_new
    (nextWindow n) (view n) (isFocusable n) (isVisible n) (isEnabled n)
    (processEvents n).
Definition set_nextWindow (nextWindow_new : option wid) (n : NativeWindow) : NativeWindow :=
  mkWindow (owner n) (root n) (currentBounds n) (cachedBounds n) (minWidth n)
    (maxWidth n) (minHeight n) (maxHeight n) (state n)
    (previousWindow n) nextWindow_new (view n) (isFocusable n) (isVisible n)
    (isEnabled n) (processEvents n).
Definition set_view (view_new : option vid) (n : NativeWindow) : NativeWindow :=
  mkWindow (owner n) (root n) (currentBounds n) (cachedBounds n) (minWidth n)
    (maxWidth n) (minHeight n) (maxHeight n) (state n) (previousWindow n)
    (nextWindow n) view_new (isFocusable n) (isVisible n) (isEnabled n)
    (processEvents n).
Definition set_isFocusable (isFocusable_new : bool) (n : NativeWindow) : NativeWindow :=
  mkWindow (owner n) (root n) (currentBounds n) (cachedBounds n) (minWidth n)
    (maxWidth n) (minHeight n) (maxHeight n) (state n) (previousWindow n)
    (nextWindow n) (view n) isFocusable_new (isVisible n) (isEnabled n)
    (processEvents n).
Definition set_isVisible (isVisible_new : bool) (n : NativeWindow) : NativeWindow :=
  mkWindow (owner n) (root n) (currentBounds n) (cachedBounds n) (minWidth n)
    (maxWidth n) (minHeight n) (maxHeight n) (state n) (previousWindow n)
    (nextWindow n) (view n) (isFocusable n) isVisible_new (isEnabled n)
    (processEvents n).
Definition set_isEnabled (isEnabled_new : bool) (n : NativeWindow) : NativeWindow :=
  mkWindow (owner n) (root n) (currentBounds n) (cachedBounds n) (minWidth n)
    (maxWidth n) (minHeight n) (maxHeight n) (state n) (previousWindow n)
    (nextWindow n) (view n) (isFocusable n) (isVisible n) isEnabled_new
    (processEvents n).
Definition set_processEvents (processEvents_new : bool) (n : NativeWindow) : NativeWindow :=
  mkWindow (owner n) (root n) (currentBounds n) (cachedBounds n) (minWidth n)
    (maxWidth n) (minHeight n) (maxHeight n) (state n) (previousWindow n)
    (nextWindow n) (view n) (isFocusable n) (isVisible n)
    (isEnabled n) processEvents_new.

Definition set_windows (windows_new : gmap wid NativeWindow) (s : WM) : WM :=
  mkWM windows_new (views s) (windowList_head s) (windowList_tail s)
    (windowList_size s) (focusedWindow s) (grabbedWindow s) (mouseWindow s)
    (_mousePosX s) (_mousePosY s) (_onDraggingAction s) (_dragGrabbingWindow s)
    (_mousePressedButton s) (touchWindow s) (isDnDStarted s) (screenWidth s)
    (screenHeight s) (modifiers s) (notified s).
Definition set_views (views_new : gmap vid NativeView) (s : WM) : WM :=
  mkWM (windows s) views_new (windowList_head s) (windowList_tail s)
    (windowList_size s) (focusedWindow s) (grabbedWindow s) (mouseWindow s)
    (_mousePosX s) (_mousePosY s) (_onDraggingAction s) (_dragGrabbingWindow s)
    (_mousePressedButton s) (touchWindow s) (isDnDStarted s) (screenWidth s)
    (screenHeight s) (modifiers s) (notified s).
Definition set_windowList_head (windowList_head_new : option wid) (s : WM) : WM :=
  mkWM (windows s) (views s) windowList_head_new (windowList_tail s)
    (windowList_size s) (focusedWindow s) (grabbedWindow s) (mouseWindow s)
    (_mousePosX s) (_mousePosY s) (_onDraggingAction s) (_dragGrabbingWindow s)
    (_mousePressedButton s) (touchWindow s) (isDnDStarted s) (screenWidth s)
    (screenHeight s) (modifiers s) (notified s).
Definition set_windowList_tail (windowList_tail_new : option wid) (s : WM) : WM :=
  mkWM (windows s) (views s) (windowList_head s) windowList_tail_new
    (windowList_size s) (focusedWindow s) (grabbedWindow s) (mouseWindow s)
    (_mousePosX s) (_mousePosY s) (_onDraggingAction s) (_dragGrabbingWindow s)
    (_mousePressedButton s) (touchWindow s) (isDnDStarted s) (screenWidth s)
    (screenHeight s) (modifiers s) (notified s).
Definition set_windowList_size (windowList_size_new : Z) (s : WM) : WM :=
  mkWM (windows s) (views s) (windowList_head s)
    (windowList_tail s) windowList_size_new (focusedWindow s) (grabbedWindow s)
    (mouseWindow s) (_mousePosX s) (_mousePosY s) (_onDraggingAction s)
    (_dragGrabbingWindow s) (_mousePressedButton s) (touchWindow s) (isDnDStarted s)
    (screenWidth s) (screenHeight s) (modifiers s) (notified s).
Definition set_focusedWindow (focusedWindow_new : option wid) (s : WM) : WM :=
  mkWM (windows s) (views s) (windowList_head s) (windowList_tail s)
    (windowList_size s) focusedWindow_new (grabbedWindow s) (mouseWindow s)
    (_mousePosX s) (_mousePosY s) (_onDraggingAction s) (_dragGrabbingWindow s)
    (_mousePressedButton s) (touchWindow s) (isDnDStarted s) (screenWidth s)
    (screenHeight s) (modifiers s) (notified s).
Definition set_grabbedWindow (grabbedWindow_new : option wid) (s : WM) : WM :=
  mkWM (windows s) (views s) (windowList_head s) (windowList_tail s)
    (windowList_size s) (focusedWindow s) grabbedWindow_new (mouseWindow s)
    (_mousePosX s) (_mousePosY s) (_onDraggingAction s) (_dragGrabbingWindow s)
    (_mousePressedButton s) (touchWindow s) (isDnDStarted s) (screenWidth s)
    (screenHeight s) (modifiers s) (notified s).
Definition set_mouseWindow (mouseWindow_new : option wid) (s : WM) : WM :=
  mkWM (windows s) (views s) (windowList_head s) (windowList_tail s)
    (windowList_size s) (focusedWindow s) (grabbedWindow s) mouseWindow_new
    (_mousePosX s) (_mousePosY s) (_onDraggingAction s) (_dragGrabbingWindow s)
    (_mousePressedButton s) (touchWindow s) (isDnDStarted s) (screenWidth s)
    (screenHeight s) (modifiers s) (notified s).
Definition set_mousePosX (_mousePosX_new : Z) (s : WM) : WM :=
  mkWM (windows s) (views s) (windowList_head s) (windowList_tail s)
    (windowList_size s) (focusedWindow s) (grabbedWindow s)
    (mouseWindow s) _mousePosX_new (_mousePosY s) (_onDraggingAction s)
    (_dragGrabbingWindow s) (_mousePressedButton s) (touchWindow s) (isDnDStarted s)
    (screenWidth s) (screenHeight s) (modifiers s) (notified s).
Definition set_mousePosY (_mousePosY_new : Z) (s : WM) : WM :=
  mkWM (windows s) (views s) (windowList_head s) (windowList_tail s)
    (windowList_size s) (focusedWindow s) (grabbedWindow s) (mouseWindow s)
    (_mousePosX s) _mousePosY_new (_onDraggingAction s) (_dragGrabbingWindow s)
    (_mousePressedButton s) (touchWindow s) (isDnDStarted s) (screenWidth s)
    (screenHeight s) (modifiers s) (notified s).
Definition set_onDraggingAction (_onDraggingAction_new : bool) (s : WM) : WM :=
  mkWM (windows s) (views s) (windowList_head s) (windowList_tail s)
    (windowList_size s) (focusedWindow s) (grabbedWindow s) (mouseWindow s)
    (_mousePosX s) (_mousePosY s) _onDraggingAction_new (_dragGrabbingWindow s)
    (_mousePressedButton s) (touchWindow s) (isDnDStarted s) (screenWidth s)
    (screenHeight s) (modifiers s) (notified s).
Definition set_dragGrabbingWindow (_dragGrabbingWindow_new : option wid) (s : WM) : WM :=
  mkWM (windows s) (views s) (windowList_head s) (windowList_tail s)
    (windowList_size s) (focusedWindow s) (grabbedWindow s) (mouseWindow s)
    (_mousePosX s) (_mousePosY s) (_onDraggingAction s) _dragGrabbingWindow_new
    (_mousePressedButton s) (touchWindow s) (isDnDStarted s) (screenWidth s)
    (screenHeight s) (modifiers s) (notified s).
Definition set_mousePressedButton (_mousePressedButton_new : Z) (s : WM) : WM :=
  mkWM (windows s) (views s) (windowList_head s) (windowList_tail s)
    (windowList_size s) (focusedWindow s) (grabbedWindow s) (mouseWindow s)
    (_mousePosX s) (_mousePosY s) (_onDraggingAction s)
    (_dragGrabbingWindow s) _mousePressedButton_new (touchWindow s) (isDnDStarted s)
    (screenWidth s) (screenHeight s) (modifiers s) (notified s).
Definition set_touchWindow (touchWindow_new : option wid) (s : WM) : WM :=
  mkWM (windows s) (views s) (windowList_head s) (windowList_tail s)
    (windowList_size s) (focusedWindow s) (grabbedWindow s) (mouseWindow s)
    (_mousePosX s) (_mousePosY s) (_onDraggingAction s) (_dragGrabbingWindow s)
    (_mousePressedButton s) touchWindow_new (isDnDStarted s) (screenWidth s)
    (screenHeight s) (modifiers s) (notified s).
Definition set_isDnDStarted (isDnDStarted_new : bool) (s : WM) : WM :=
  mkWM (windows s) (views s) (windowList_head s) (windowList_tail s)
    (windowList_size s) (focusedWindow s) (grabbedWindow s) (mouseWindow s)
    (_mousePosX s) (_mousePosY s) (_onDraggingAction s) (_dragGrabbingWindow s)
    (_mousePressedButton s) (touchWindow s) isDnDStarted_new (screenWidth s)
    (screenHeight s) (modifiers s) (notified s).
Definition set_screenWidth (screenWidth_new : Z) (s : WM) : WM :=
  mkWM (windows s) (views s) (windowList_head s) (windowList_tail s)
    (windowList_size s) (focusedWindow s) (grabbedWindow s) (mouseWindow s)
    (_mousePosX s) (_mousePosY s) (_onDraggingAction s) (_dragGrabbingWindow s)
    (_mousePressedButton s) (touchWindow s) (isDnDStarted s) screenWidth_new
    (screenHeight s) (modifiers s) (notified s).
Definition set_screenHeight (screenHeight_new : Z) (s : WM) : WM :=
  mkWM (windows s) (views s) (windowList_head s) (windowList_tail s)
    (windowList_size s) (focusedWindow s) (grabbedWindow s) (mouseWindow s)
    (_mousePosX s) (_mousePosY s) (_onDraggingAction s) (_dragGrabbingWindow s)
    (_mousePressedButton s) (touchWindow s) (isDnDStarted s)
    (screenWidth s) screenHeight_new (modifiers s) (notified s).
Definition set_modifiers (modifiers_new : Modifiers) (s : WM) : WM :=
  mkWM (windows s) (views s) (windowList_head s) (windowList_tail s)
    (windowList_size s) (focusedWindow s) (grabbedWindow s) (mouseWindow s)
    (_mousePosX s) (_mousePosY s) (_onDraggingAction s) (_dragGrabbingWindow s)
    (_mousePressedButton s) (touchWindow s) (isDnDStarted s) (screenWidth s)
    (screenHeight s) modifiers_new (notified s).
Definition set_notified (notified_new : list Event) (s : WM) : WM :=
  mkWM (windows s) (views s) (windowList_head s) (windowList_tail s)
    (windowList_size s) (focusedWindow s) (grabbedWindow s) (mouseWindow s)
    (_mousePosX s) (_mousePosY s) (_onDraggingAction s) (_dragGrabbingWindow s)
    (_mousePressedButton s) (touchWindow s) (isDnDStarted s) (screenWidth s)
    (screenHeight s) (modifiers s) notified_new.

(** ** Computations *)

Definition M (A : Type) : Type := WM -> option (A * WM).

#[global] Instance M_ret : MRet M := fun A a s => Some (a, s).
#[global] Instance M_bind : MBind M := fun A B k m s =>
  match m s with
  | Some (a, s') => k a s'
  | None => None
  end.

Definition undefined {A : Type} : M A := fun _ => None.
Definition gets {A : Type} (f : WM -> A) : M A := fun s => Some (f s, s).
Definition modify (f : WM -> WM) : M unit := fun s => Some (tt, f s).

(** [*w] *)
Definition deref (w : wid) : M NativeWindow := fun s =>
  match windows s !! w with
  | Some n => Some (n, s)
  | None => None
  end.

(** [w->member = value], where [f] assigns the member. *)
Definition assign (w : wid) (f : NativeWindow -> NativeWindow) : M unit := fun s =>
  match windows s !! w with
  | Some n => Some (tt, set_windows (<[w := f n]> (windows s)) s)
  | None => None
  end.

Definition deref_view (v : vid) : M NativeView := fun s =>
  match views s !! v with
  | Some n => Some (n, s)
  | None => None
  end.

Definition assign_view (v : vid) (f : NativeView -> NativeView) : M unit := fun s =>
  match views s !! v with
  | Some n => Some (tt, set_views (<[v := f n]> (views s)) s)
  | None => None
  end.

Definition when (b : bool) (m : M unit) : M unit := if b then m else mret tt.

Definition notify (e : Event) : M unit :=
  modify (fun s => set_notified (e :: notified s) s).

(** ** LensApplication.c *)

Definition glass_application_notifyWindowEvent (window : wid) (e : WindowEventType) :
    M unit :=
  _ ← deref window; notify (WindowEvent window e).

Definition glass_application_notifyWindowEvent_resize (window : wid)
    (e : ResizeEventType) (width height : Z) : M unit :=
  _ ← deref window; notify (WindowResize window e width height).

Definition glass_application_notifyWindowEvent_move (window : wid) (x y : Z) : M unit :=
  _ ← deref window; notify (WindowMove window x y).

Definition glass_application_notifyViewEvent (v : option vid) (e : ViewEventType)
    (x y width height : Z) : M unit :=
  match v with
  | None => mret tt
  | Some v =>
      nv ← deref_view v;
      when (lensView nv) (notify (ViewEvent v e x y width height))
  end.

Definition glass_application_notifyMenuEvent (v : vid) (x y absx absy : Z)
    (isKeyboardTrigger : bool) : M unit :=
  nv ← deref_view v;
  when (lensView nv) (notify (MenuEvent v x y absx absy isKeyboardTrigger)).

(** The view of a window that can be notified: [None] when there is none or its
    reference is [NULL]. *)
Definition window_view (n : NativeWindow) : M (option vid) :=
  match view n with
  | None => mret None
  | Some v => nv ← deref_view v; mret (if lensView nv then Some v else None)
  end.

Definition glass_application_notifyMouseEvent (window : wid)
    (eventType x y absx absy button : Z) : M unit :=
  n ← deref window;
  if isEnabled n then
    ov ← window_view n;
    match ov with
    | None => mret tt
    | Some v =>
        let isPopupTrigger := (eventType =? MouseEvent_UP) && (button =? BUTTON_RIGHT) in
        modify (fun s => set_modifiers
          (glass_inputEvents_updateMouseButtonModifiers button eventType (modifiers s)) s);;
        mods ← gets (fun s => modifiersMask (modifiers s));
        notify (MouseEvent v eventType x y absx absy button mods isPopupTrigger);;
        when isPopupTrigger (glass_application_notifyMenuEvent v x y absx absy false)
    end
  else glass_application_notifyWindowEvent window FOCUS_DISABLED.

(** The other arguments of the Java method are constants. *)
Definition glass_application_notifyScrollEvent (window : wid) (x y xabs yabs step : Z) :
    M unit :=
  n ← deref window;
  ov ← window_view n;
  match ov with
  | None => mret tt
  | Some v =>
      mods ← gets (fun s => modifiersMask (modifiers s));
      notify (ScrollEvent v x y xabs yabs step mods)
  end.

(** The touch points are the lists of their states, identifiers and positions;
    [count] is their length. *)
Definition glass_application_notifyMultiTouchEvent (window : wid)
    (states ids xs ys : list Z) (dx dy : Z) : M unit :=
  n ← deref window;
  if isEnabled n then
    ov ← window_view n;
    match ov with
    | None => mret tt
    | Some v =>
        match states, ids, xs, ys with
        | [st], [i], [x], [y] =>
            notify (TouchEvent v st i (i32 (x + dx)) (i32 (y + dy)) x y)
        | _, _, _, _ => notify (MultiTouchEvent v states ids xs ys dx dy)
        end
    end
  else glass_application_notifyWindowEvent window FOCUS_DISABLED.

Definition glass_application_addWindowToVisibleWindowList (window : wid) : M unit :=
  _ ← deref window; notify (AddVisible window).

Definition glass_application_RemoveWindowFromVisibleWindowList (window : wid) : M unit :=
  _ ← deref window; notify (RemoveVisible window).

(** [trapCtrlC] is an option of the process. *)
Definition glass_application_notifyKeyEvent (trapCtrlC : bool) (window : option wid)
    (eventType code : Z) (isRepeatEvent : bool) : M unit :=
  match window with
  | None => mret tt
  | Some window =>
      n ← deref window;
      ov ← window_view n;
      match ov with
      | None => mret tt
      | Some v =>
          if code =? VK_UNDEFINED then mret tt else
          keys ← gets modifiers;
          match glass_inputEvents_getKeyChar keys code with
          | None => mret tt
          | Some chars =>
              if isRepeatEvent && glass_inputEvents_isKeyModifier code then mret tt else
              modify (fun s => set_modifiers
                (glass_inputEvents_updateKeyModifiers code eventType (modifiers s)) s);;
              mods ← gets (fun s => modifiersMask (modifiers s));
              when (negb (first_char chars =? 0)
                    && ((eventType =? KeyEvent_RELEASE) || isRepeatEvent))
                (notify (KeyEvent v KeyEvent_TYPED code mods chars));;
              when (trapCtrlC && (code =? VK_C) && (mods =? MODIFIER_CONTROL))
                (notify Interrupt);;
              notify (KeyEvent v eventType code mods chars)
          end
      end
  end.

(** ** Reasoning about computations

    [wp m Q s]: from [s] the computation [m] ends without undefined behaviour, in
    a result and a state that satisfy [Q]. *)

Definition wp {A : Type} (m : M A) (Q : A -> WM -> Prop) (s : WM) : Prop :=
  match m s with
  | Some (a, s') => Q a s'
  | None => False
  end.

Section Wp.
Context {A B : Type}.
Implicit Types (m : M A) (Q : A -> WM -> Prop) (s : WM).

Lemma wp_iff m Q s : wp m Q s <-> exists a s', m s = Some (a, s') /\ Q a s'.
Proof.
  unfold wp. split.
  - destruct (m s) as [[a s']|]; [eauto | done].
  - intros (a & s' & -> & H). exact H.
Qed.

Lemma wp_bind m (k : A -> M B) (Q : B -> WM -> Prop) s :
  wp (m ≫= k) Q s <-> wp m (fun a s' => wp (k a) Q s') s.
Proof. unfold wp, mbind, M_bind. by destruct (m s) as [[a s']|]. Qed.

Lemma wp_ret (a : A) Q s : Q a s -> wp (mret a) Q s.
Proof. exact id. Qed.

Lemma wp_gets (f : WM -> A) Q s : Q (f s) s -> wp (gets f) Q s.
Proof. exact id. Qed.

Lemma wp_mono m (Q Q' : A -> WM -> Prop) s :
  wp m Q s -> (forall a s', Q a s' -> Q' a s') -> wp m Q' s.
Proof. unfold wp. destruct (m s) as [[a s']|]; auto. Qed.

Lemma wp_and m (Q Q' : A -> WM -> Prop) s :
  wp m Q s -> wp m Q' s -> wp m (fun a s' => Q a s' /\ Q' a s') s.
Proof. unfold wp. destruct (m s) as [[a s']|]; auto. Qed.
End Wp.

Lemma wp_modify (f : WM -> WM) (Q : unit -> WM -> Prop) (s : WM) :
  Q tt (f s) -> wp (modify f) Q s.
Proof. exact id. Qed.

Lemma wp_deref (w : wid) (n : NativeWindow) (Q : NativeWindow -> WM -> Prop) (s : WM) :
  windows s !! w = Some n -> Q n s -> wp (deref w) Q s.
Proof. intros E H. unfold wp, deref. by rewrite E. Qed.

Lemma wp_assign (w : wid) (n : NativeWindow) (f : NativeWindow -> NativeWindow)
    (Q : unit -> WM -> Prop) (s : WM) :
  windows s !! w = Some n -> Q tt (set_windows (<[w := f n]> (windows s)) s) ->
  wp (assign w f) Q s.
Proof. intros E H. unfold wp, assign. by rewrite E. Qed.

Lemma wp_deref_view (v : vid) (n : NativeView) (Q : NativeView -> WM -> Prop) (s : WM) :
  views s !! v = Some n -> Q n s -> wp (deref_view v) Q s.
Proof. intros E H. unfold wp, deref_view. by rewrite E. Qed.

Lemma wp_assign_view (v : vid) (n : NativeView) (f : NativeView -> NativeView)
    (Q : unit -> WM -> Prop) (s : WM) :
  views s !! v = Some n -> Q tt (set_views (<[v := f n]> (views s)) s) ->
  wp (assign_view v f) Q s.
Proof. intros E H. unfold wp, assign_view. by rewrite E. Qed.

Lemma wp_when (b : bool) (m : M unit) (Q : unit -> WM -> Prop) (s : WM) :
  (b = true -> wp m Q s) -> (b = false -> Q tt s) -> wp (when b m) Q s.
Proof. intros H1 H2. destruct b; [exact (H1 eq_refl) | exact (H2 eq_refl)]. Qed.

(** One instruction that cannot fail. *)
Ltac wp_simple :=
  lazymatch goal with
  | |- wp (mbind _ _) _ _ => apply wp_bind
  | |- wp (mret _) _ _ => apply wp_ret
  | |- wp (gets _) _ _ => apply wp_gets
  | |- wp (modify _) _ _ => apply wp_modify
  | |- wp (notify _) _ _ => apply wp_modify
  end.

(** As many as there are. *)
Ltac wp_go := repeat (wp_simple; cbv beta).
