(* ===== verification/LensList.v ===== *)
(** * The list of windows (LensWindow.c)

    All windows are in a doubly linked list in Z order: the head is the deepest
    window, the tail the one closest to the user.  The functions of LensWindow.c
    that keep it are translated as they are, pointer by pointer; then they are
    shown to implement the obvious operations on a list of windows.

    A loop over the list has fuel for one more iteration than there are windows
    allocated, which is enough for a list without cycles.  The mutex around the
    functions is left out: they are run one at a time. *)

From S2P Require Import LensState.


Create HintDb lens.

(** ** The functions *)

Definition glass_window_list_getSize : M Z := gets windowList_size.
Definition glass_window_list_getHead : M (option wid) := gets windowList_head.
Definition glass_window_list_getTail : M (option wid) := gets windowList_tail.

(** Iterations that are enough for a loop over the list. *)
Definition list_fuel : M nat := gets (fun s => S (size (windows s))).

Fixpoint isExist_loop (fuel : nat) (w : option wid) (window : wid) : M bool :=
  match fuel with
  | O => undefined
  | S fuel =>
      match w with
      | None => mret false
      | Some w =>
          if decide (w = window) then mret true
          else n ← deref w; isExist_loop fuel (nextWindow n) window
      end
  end.

Definition glass_window_isExist (window : wid) : M bool :=
  fuel ← list_fuel;
  head ← glass_window_list_getHead;
  isExist_loop fuel head window.

(** [if (w) w->member = value] *)
Definition assign_opt (w : option wid) (f : NativeWindow -> NativeWindow) : M unit :=
  match w with
  | Some w => assign w f
  | None => mret tt
  end.

(** [w->member = value] without a test *)
Definition assign_ptr (w : option wid) (f : NativeWindow -> NativeWindow) : M unit :=
  match w with
  | Some w => assign w f
  | None => undefined
  end.

(** [toFront] and [toBack] begin by taking the window out. *)
Definition disconnect (window : wid) : M unit :=
  n ← deref window;
  assign_opt (previousWindow n) (set_nextWindow (nextWindow n));;
  n ← deref window;
  assign_opt (nextWindow n) (set_previousWindow (previousWindow n)).

Definition glass_window_list_toFront (window : wid) : M bool :=
  tail ← glass_window_list_getTail;
  if decide (tail = Some window) then mret false else
  exist ← glass_window_isExist window;
  if negb exist then mret false else
  disconnect window;;
  head ← glass_window_list_getHead;
  (if decide (head = Some window) then
     n ← deref window; modify (set_windowList_head (nextWindow n))
   else mret tt);;
  tail ← glass_window_list_getTail;
  assign window (set_previousWindow tail);;
  assign window (set_nextWindow None);;
  assign_ptr tail (set_nextWindow (Some window));;
  modify (set_windowList_tail (Some window));;
  mret true.

Definition glass_window_list_toBack (window : wid) : M bool :=
  head ← glass_window_list_getHead;
  if decide (head = Some window) then mret false else
  exist ← glass_window_isExist window;
  if negb exist then mret false else
  disconnect window;;
  tail ← glass_window_list_getTail;
  (if decide (tail = Some window) then
     n ← deref window; modify (set_windowList_tail (previousWindow n))
   else mret tt);;
  assign window (set_previousWindow None);;
  head ← glass_window_list_getHead;
  assign window (set_nextWindow head);;
  assign_ptr head (set_previousWindow (Some window));;
  modify (set_windowList_head (Some window));;
  mret true.

Definition glass_window_list_add (window : option wid) : M unit :=
  match window with
  | None => mret tt
  | Some window =>
      head ← glass_window_list_getHead;
      (if decide (head = None) then modify (set_windowList_head (Some window))
       else mret tt);;
      tail ← glass_window_list_getTail;
      assign_opt tail (set_nextWindow (Some window));;
      assign window (set_previousWindow tail);;
      assign window (set_nextWindow None);;
      modify (set_windowList_tail (Some window));;
      modify (fun s => set_windowList_size (i32 (windowList_size s + 1)) s)
  end.

Definition glass_window_list_remove (window : option wid) : M unit :=
  match window with
  | None => mret tt
  | Some window =>
      exist ← glass_window_isExist window;
      if negb exist then mret tt else
      n ← deref window;
      match previousWindow n with
      | Some p => assign p (set_nextWindow (nextWindow n))
      | None => modify (set_windowList_head (nextWindow n))
      end;;
      n ← deref window;
      match nextWindow n with
      | Some q => assign q (set_previousWindow (previousWindow n))
      | None => modify (set_windowList_tail (previousWindow n))
      end;;
      modify (fun s => set_windowList_size (i32 (windowList_size s - 1)) s)
  end.

(** ** The list that the pointers stand for *)

(** The first of the windows [l], or [next] if there are none. *)
Definition first_or (l : list wid) (next : option wid) : option wid :=
  match l with
  | [] => next
  | w :: _ => Some w
  end.

(** The last of the windows [l], or [prev]. *)
Definition last_or (prev : option wid) (l : list wid) : option wid :=
  match last l with
  | Some w => Some w
  | None => prev
  end.

(** The windows [l] are linked in both directions, after [prev] and before [next]. *)
Fixpoint seg (ws : gmap wid NativeWindow) (prev : option wid) (l : list wid)
    (next : option wid) : Prop :=
  match l with
  | [] => True
  | w :: l =>
      (exists n, ws !! w = Some n /\ previousWindow n = prev
                 /\ nextWindow n = first_or l next)
      /\ seg ws (Some w) l next
  end.

(** The list of windows of the state [s] is [l], from the deepest to the closest. *)
Record zorder (s : WM) (l : list wid) : Prop := mkZorder {
  z_nodup : NoDup l;
  z_seg : seg (windows s) None l None;
  z_head : windowList_head s = head l;
  z_tail : windowList_tail s = last l;
  z_size : windowList_size s = i32 (Z.of_nat (length l))
}.

Lemma last_or_cons (prev : option wid) (w : wid) (l : list wid) :
  last_or prev (w :: l) = last_or (Some w) l.
Proof. unfold last_or. rewrite last_cons. by destruct (last l). Qed.

Lemma last_or_snoc (prev : option wid) (w : wid) (l : list wid) :
  last_or prev (l ++ [w]) = Some w.
Proof. unfold last_or. by rewrite last_snoc. Qed.

Lemma first_or_app (l1 l2 : list wid) (next : option wid) :
  first_or (l1 ++ l2) next = first_or l1 (first_or l2 next).
Proof. by destruct l1. Qed.

Lemma first_or_None (l : list wid) : first_or l None = head l.
Proof. by destruct l. Qed.

Lemma last_or_None (l : list wid) : last_or None l = last l.
Proof. unfold last_or. by destruct (last l). Qed.

Lemma seg_app (ws : gmap wid NativeWindow) (prev next : option wid) (l1 l2 : list wid) :
  seg ws prev (l1 ++ l2) next <->
  seg ws prev l1 (first_or l2 next) /\ seg ws (last_or prev l1) l2 next.
Proof.
  revert prev. induction l1 as [|w l1 IH]; intros prev; cbn [app seg].
  - unfold last_or. cbn. tauto.
  - rewrite IH, first_or_app, last_or_cons. tauto.
Qed.

Lemma seg_in (ws : gmap wid NativeWindow) (prev next : option wid) (l : list wid) (w : wid) :
  seg ws prev l next -> w ∈ l -> is_Some (ws !! w).
Proof.
  revert prev. induction l as [|w' l IH]; intros prev H Hin.
  - by apply elem_of_nil in Hin.
  - destruct H as [(n & E & _) H]. apply elem_of_cons in Hin as [->|Hin]; eauto.
Qed.

(** Changes that keep the links of the windows of [l] keep the segment. *)
Lemma seg_frame (ws ws' : gmap wid NativeWindow) (prev next : option wid) (l : list wid) :
  (forall w n, w ∈ l -> ws !! w = Some n ->
     exists n', ws' !! w = Some n' /\ previousWindow n' = previousWindow n
                /\ nextWindow n' = nextWindow n) ->
  seg ws prev l next -> seg ws' prev l next.
Proof.
  revert prev. induction l as [|w l IH]; intros prev Hsame H; [done|].
  destruct H as [(n & E & <- & Hn) H]. split.
  - destruct (Hsame w n) as (n' & E' & Hp' & Hn'); [by left | done |].
    exists n'. by rewrite Hn', Hn.
  - apply IH; [|done]. intros w' n' Hin. apply Hsame. by right.
Qed.

Lemma seg_alter (f : NativeWindow -> NativeWindow) (ws : gmap wid NativeWindow)
    (prev next : option wid) (l : list wid) (w : wid) :
  w ∉ l -> seg ws prev l next -> seg (alter f w ws) prev l next.
Proof.
  intros Hw. apply seg_frame. intros w' n' Hin E. exists n'.
  rewrite lookup_alter_ne by (intros ->; contradiction). auto.
Qed.

(** Redirecting the pointer behind the last window or before the first one. *)
Lemma seg_set_next (ws : gmap wid NativeWindow) (prev next next' : option wid)
    (l : list wid) (w : wid) :
  w ∉ l -> seg ws prev (l ++ [w]) next ->
  seg (alter (set_nextWindow next') w ws) prev (l ++ [w]) next'.
Proof.
  rewrite !seg_app. intros Hw [H1 [(n & E & Hp & _) _]].
  split; [by apply seg_alter|]. split; [|done].
  exists (set_nextWindow next' n). rewrite lookup_alter_eq, E. auto.
Qed.

Lemma seg_set_prev (ws : gmap wid NativeWindow) (prev prev' next : option wid)
    (l : list wid) (w : wid) :
  w ∉ l -> seg ws prev (w :: l) next ->
  seg (alter (set_previousWindow prev') w ws) prev' (w :: l) next.
Proof.
  intros Hw [(n & E & _ & Hn) H]. split; [|by apply seg_alter].
  exists (set_previousWindow prev' n). rewrite lookup_alter_eq, E. auto.
Qed.

(** ** Changing pointers *)

Definition alter_opt (f : NativeWindow -> NativeWindow) (o : option wid)
    (ws : gmap wid NativeWindow) : gmap wid NativeWindow :=
  match o with
  | Some w => alter f w ws
  | None => ws
  end.

Lemma lookup_alter_opt_ne (f : NativeWindow -> NativeWindow) (o : option wid)
    (ws : gmap wid NativeWindow) (w : wid) :
  o <> Some w -> alter_opt f o ws !! w = ws !! w.
Proof.
  destruct o as [a|]; [|done]. intros H. apply lookup_alter_ne. congruence.
Qed.

Lemma seg_alter_opt (f : NativeWindow -> NativeWindow) (ws : gmap wid NativeWindow)
    (prev next : option wid) (l : list wid) (o : option wid) :
  (forall w, o = Some w -> w ∉ l) ->
  seg ws prev l next -> seg (alter_opt f o ws) prev l next.
Proof. destruct o as [w|]; intros H; [apply seg_alter; by apply H | done]. Qed.

Lemma head_elem (l : list wid) (w : wid) : head l = Some w -> w ∈ l.
Proof. destruct l; [done|]. intros [= ->]. by left. Qed.

Lemma last_elem (l : list wid) (w : wid) : last l = Some w -> w ∈ l.
Proof. intros (l' & ->)%last_Some. set_solver. Qed.

(** The window before the gap points to the window after it. *)
Lemma seg_relink_next (ws : gmap wid NativeWindow) (next next' : option wid)
    (l : list wid) :
  NoDup l -> seg ws None l next ->
  seg (alter_opt (set_nextWindow next') (last l) ws) None l next'.
Proof.
  destruct (last l) as [w|] eqn:E; cbn.
  - apply last_Some in E as (l' & ->). intros Hnd. apply seg_set_next.
    apply NoDup_app in Hnd. set_solver.
  - by apply last_None in E as ->.
Qed.

Lemma seg_relink_prev (ws : gmap wid NativeWindow) (prev prev' next : option wid)
    (l : list wid) :
  NoDup l -> seg ws prev l next ->
  seg (alter_opt (set_previousWindow prev') (head l) ws) prev' l next.
Proof.
  destruct l as [|w l]; [done|]. intros Hnd. apply seg_set_prev.
  by apply NoDup_cons in Hnd as [].
Qed.

(** Taking a window out of the list. *)
Lemma seg_unlink (ws : gmap wid NativeWindow) (l1 l2 : list wid) (w : wid) :
  NoDup (l1 ++ w :: l2) -> seg ws None (l1 ++ w :: l2) None ->
  let ws1 := alter_opt (set_nextWindow (head l2)) (last l1) ws in
  let ws2 := alter_opt (set_previousWindow (last l1)) (head l2) ws1 in
  seg ws2 None (l1 ++ l2) None /\ ws1 !! w = ws !! w /\ ws2 !! w = ws !! w
  /\ (exists n, ws !! w = Some n /\ previousWindow n = last l1
                /\ nextWindow n = head l2).
Proof.
  intros (Hnd1 & Hdis & Hnd2)%NoDup_app [H1 [(n & E & Hp & Hn) H2]]%seg_app.
  apply NoDup_cons in Hnd2 as [Hw Hnd2]. cbv zeta.
  rewrite last_or_None in Hp. rewrite first_or_None in Hn.
  assert (Hl1 : last l1 <> Some w) by (intros K%last_elem; set_solver).
  assert (Hl2 : head l2 <> Some w) by (intros K%head_elem; set_solver).
  rewrite !lookup_alter_opt_ne by done. split; [|eauto 10].
  apply seg_app. rewrite first_or_None, last_or_None. split.
  - apply seg_alter_opt; [intros a K%head_elem; set_solver|].
    by eapply seg_relink_next.
  - eapply seg_relink_prev; [done|].
    apply seg_alter_opt; [intros a K%last_elem; set_solver|]. done.
Qed.

(** Putting one at the end, or at the beginning. *)
Lemma seg_link_last (ws : gmap wid NativeWindow) (l : list wid) (w : wid) :
  NoDup l -> w ∉ l -> is_Some (ws !! w) -> seg ws None l None ->
  seg (alter_opt (set_nextWindow (Some w)) (last l)
        (alter (set_nextWindow None) w (alter (set_previousWindow (last l)) w ws)))
    None (l ++ [w]) None.
Proof.
  intros Hnd Hw [n E] H. apply seg_app. split.
  - eapply seg_relink_next; [done|]. by apply seg_alter, seg_alter.
  - apply seg_alter_opt; [intros a K%last_elem; set_solver|]. split; [|done].
    eexists. rewrite !lookup_alter_eq, E. split; [done|].
    by rewrite last_or_None.
Qed.

Lemma seg_link_first (ws : gmap wid NativeWindow) (l : list wid) (w : wid) :
  NoDup l -> w ∉ l -> is_Some (ws !! w) -> seg ws None l None ->
  seg (alter_opt (set_previousWindow (Some w)) (head l)
        (alter (set_nextWindow (head l)) w (alter (set_previousWindow None) w ws)))
    None (w :: l) None.
Proof.
  intros Hnd Hw [n E] H. split.
  - rewrite lookup_alter_opt_ne by (intros K%head_elem; set_solver).
    rewrite !lookup_alter_eq, E. eexists. split; [done|].
    by rewrite first_or_None.
  - eapply seg_relink_prev; [done|]. by apply seg_alter, seg_alter.
Qed.

(** ** What the functions leave alone *)

(** A state without the list: everything else must stay. *)
Definition strip (n : NativeWindow) : NativeWindow :=
  set_previousWindow None (set_nextWindow None n).

Definition forget (s : WM) : WM :=
  set_windows (strip <$> windows s)
    (set_windowList_head None (set_windowList_tail None (set_windowList_size 0 s))).

Definition links_only (f : NativeWindow -> NativeWindow) : Prop :=
  forall n, strip (f n) = strip n.

Lemma links_only_next (o : option wid) : links_only (set_nextWindow o).
Proof. done. Qed.

Lemma links_only_prev (o : option wid) : links_only (set_previousWindow o).
Proof. done. Qed.

#[export] Hint Resolve links_only_next links_only_prev : lens.

Lemma forget_windows (ws : gmap wid NativeWindow) (s : WM) :
  strip <$> ws = strip <$> windows s -> forget (set_windows ws s) = forget s.
Proof. unfold forget. cbn. by intros ->. Qed.

Lemma strip_alter (f : NativeWindow -> NativeWindow) (w : wid)
    (ws : gmap wid NativeWindow) :
  links_only f -> strip <$> alter f w ws = strip <$> ws.
Proof.
  intros Hf. apply map_eq. intros a. rewrite !lookup_fmap.
  destruct (decide (a = w)) as [->|Hne];
    [rewrite lookup_alter_eq | by rewrite lookup_alter_ne].
  destruct (ws !! w) as [n|]; [|done]. cbn. by rewrite Hf.
Qed.

Lemma strip_alter_opt (f : NativeWindow -> NativeWindow) (o : option wid)
    (ws : gmap wid NativeWindow) :
  links_only f -> strip <$> alter_opt f o ws = strip <$> ws.
Proof. destruct o; [apply strip_alter | done]. Qed.

Lemma alter_opt_alter (f g : NativeWindow -> NativeWindow) (o : option wid) (w : wid)
    (ws : gmap wid NativeWindow) :
  o <> Some w -> alter_opt f o (alter g w ws) = alter g w (alter_opt f o ws).
Proof.
  destruct o as [a|]; [|done]. intros H. apply alter_alter_ne. congruence.
Qed.

Lemma is_Some_alter_opt (f : NativeWindow -> NativeWindow) (o : option wid)
    (ws : gmap wid NativeWindow) (w : wid) :
  is_Some (alter_opt f o ws !! w) <-> is_Some (ws !! w).
Proof.
  destruct o as [a|]; [|done]. cbn.
  destruct (decide (a = w)) as [->|]; [|by rewrite lookup_alter_ne].
  by rewrite lookup_alter_eq, fmap_is_Some.
Qed.

(** ** The instructions, in terms of [alter] *)

Lemma wp_assign_alter (w : wid) (f : NativeWindow -> NativeWindow)
    (Q : unit -> WM -> Prop) (s : WM) :
  is_Some (windows s !! w) -> Q tt (set_windows (alter f w (windows s)) s) ->
  wp (assign w f) Q s.
Proof.
  intros [n E] H. eapply wp_assign; [exact E|].
  replace (<[w := f n]> (windows s)) with (alter f w (windows s)); [done|].
  apply map_eq. intros a. destruct (decide (a = w)) as [->|].
  - by rewrite lookup_alter_eq, lookup_insert_eq, E.
  - by rewrite lookup_alter_ne, lookup_insert_ne.
Qed.

Lemma wp_assign_opt (o : option wid) (f : NativeWindow -> NativeWindow)
    (Q : unit -> WM -> Prop) (s : WM) :
  (forall w, o = Some w -> is_Some (windows s !! w)) ->
  Q tt (set_windows (alter_opt f o (windows s)) s) -> wp (assign_opt o f) Q s.
Proof.
  destruct o as [w|]; intros Hw H.
  - by apply wp_assign_alter; [apply Hw|].
  - apply wp_ret. destruct s. exact H.
Qed.

(** ** Loops over the list end *)

Lemma zorder_live (s : WM) (l : list wid) (w : wid) :
  zorder s l -> w ∈ l -> is_Some (windows s !! w).
Proof. intros [_ H _ _ _]. eapply seg_in. exact H. Qed.

Lemma zorder_fuel (s : WM) (l : list wid) :
  zorder s l -> (length l < S (size (windows s)))%nat.
Proof.
  intros H. apply le_n_S. rewrite <- size_dom, <- (size_list_to_set (C := gset wid) l)
    by apply H.
  apply subseteq_size. intros w Hw. apply elem_of_list_to_set in Hw.
  apply elem_of_dom. eapply zorder_live; eauto.
Qed.

Lemma isExist_loop_ok (s : WM) (window : wid) (l : list wid) :
  forall (fuel : nat) (prev : option wid),
  seg (windows s) prev l None -> (length l < fuel)%nat ->
  isExist_loop fuel (head l) window s = Some (bool_decide (window ∈ l), s).
Proof.
  induction l as [|w l IH]; intros [|fuel] prev H Hf; cbn in Hf; try lia.
  - rewrite bool_decide_false by set_solver. done.
  - destruct H as [(n & E & _ & Hn) H]. cbn [isExist_loop head].
    destruct (decide (w = window)) as [->|Hne].
    + rewrite bool_decide_true by set_solver. done.
    + unfold mbind, M_bind, deref. rewrite E, Hn, first_or_None.
      rewrite (IH fuel (Some w)) by (done || lia). f_equal. f_equal.
      apply bool_decide_ext. set_solver.
Qed.

Lemma wp_isExist (s : WM) (l : list wid) (window : wid) (Q : bool -> WM -> Prop) :
  zorder s l -> Q (bool_decide (window ∈ l)) s -> wp (glass_window_isExist window) Q s.
Proof.
  intros H HQ. unfold glass_window_isExist, list_fuel, glass_window_list_getHead. wp_go.
  unfold wp. rewrite (z_head _ _ H).
  rewrite (isExist_loop_ok _ _ _ _ None); [done | apply H | by apply zorder_fuel].
Qed.

(** ** Refinement *)

(** The operations on the list and what they mean. *)
Inductive list_op : Type :=
  | Add (w : wid)
  | Remove (w : wid)
  | ToFront (w : wid)
  | ToBack (w : wid).

Definition list_run (op : list_op) : M bool :=
  match op with
  | Add w => glass_window_list_add (Some w);; mret true
  | Remove w => glass_window_list_remove (Some w);; mret true
  | ToFront w => glass_window_list_toFront w
  | ToBack w => glass_window_list_toBack w
  end.

Definition without (w : wid) (l : list wid) : list wid := filter (fun a => a <> w) l.

Definition list_spec (op : list_op) (l : list wid) : list wid * bool :=
  match op with
  | Add w => (l ++ [w], true)
  | Remove w => (without w l, true)
  | ToFront w =>
      if bool_decide (w ∈ l) && negb (bool_decide (last l = Some w))
      then (without w l ++ [w], true) else (l, false)
  | ToBack w =>
      if bool_decide (w ∈ l) && negb (bool_decide (head l = Some w))
      then (w :: without w l, true) else (l, false)
  end.

(** A window that is added is allocated and not in the list. *)
Definition list_pre (op : list_op) (s : WM) (l : list wid) : Prop :=
  match op with
  | Add w => is_Some (windows s !! w) /\ w ∉ l
  | _ => True
  end.

Lemma without_notin (w : wid) (l : list wid) : w ∉ l -> without w l = l.
Proof.
  unfold without. induction l as [|a l IH]; intros Hw; [done|].
  rewrite filter_cons_True by set_solver. f_equal. apply IH. set_solver.
Qed.

Lemma without_app (w : wid) (l1 l2 : list wid) :
  NoDup (l1 ++ w :: l2) -> without w (l1 ++ w :: l2) = l1 ++ l2.
Proof.
  intros (_ & Hdis & Hnd)%NoDup_app. apply NoDup_cons in Hnd as [Hw _].
  unfold without. rewrite filter_app, filter_cons_False by tauto.
  fold (without w l1). fold (without w l2). rewrite !without_notin; set_solver.
Qed.

Lemma split_at (w : wid) (l : list wid) :
  w ∈ l -> exists l1 l2, l = l1 ++ w :: l2.
Proof. apply list_elem_of_split. Qed.

Lemma head_app_ne (l1 l2 : list wid) (w : wid) :
  w ∉ l1 ++ l2 -> head (l1 ++ w :: l2) <> Some w -> head (l1 ++ w :: l2) = head (l1 ++ l2).
Proof. destruct l1; cbn; [congruence | done]. Qed.

(** The result and the state of an operation. *)
Definition refines (m : M bool) (s : WM) (r : list wid * bool) : Prop :=
  wp m (fun b s' => b = r.2 /\ zorder s' r.1 /\ forget s' = forget s) s.

Lemma add_refines (s : WM) (l : list wid) (w : wid) :
  zorder s l -> is_Some (windows s !! w) -> w ∉ l ->
  refines (list_run (Add w)) s (l ++ [w], true).
Proof.
  intros H Hw Hnl. unfold refines, list_run, glass_window_list_add,
    glass_window_list_getHead, glass_window_list_getTail. wp_go.
  assert (Hh : wp (if decide (windowList_head s = None)
                   then modify (set_windowList_head (Some w)) else mret tt)
            (fun _ s1 => s1 = set_windowList_head (head (l ++ [w])) s) s).
  { rewrite (z_head _ _ H). destruct l as [|a l]; cbn [head app].
    - by apply wp_modify.
    - apply wp_ret. pose proof (z_head _ _ H) as E. cbn in E. destruct s. cbn in *.
      by rewrite E. }
  eapply wp_mono; [exact Hh|]. intros [] s1 ->. wp_go. cbn. rewrite (z_tail _ _ H).
  apply wp_assign_opt.
  { cbn. intros a Ha%last_elem. by eapply zorder_live. }
  wp_go. apply wp_assign_alter; [by apply is_Some_alter_opt|]. cbn.
  wp_go. apply wp_assign_alter; cbn; [by rewrite lookup_alter_eq, fmap_is_Some, is_Some_alter_opt|].
  wp_go. split; [done|]. split.
  - cbn. split; cbn.
    + apply NoDup_app. split; [apply H|]. split; [set_solver|]. apply NoDup_singleton.
    + rewrite <- !alter_opt_alter by (intros K%last_elem; contradiction).
      apply seg_link_last; [apply H | done | done | apply H].
    + done.
    + by rewrite last_snoc.
    + rewrite (z_size _ _ H), length_app. cbn. rewrite i32_add_l. f_equal. lia.
  - unfold forget. cbn. by rewrite !strip_alter, strip_alter_opt by auto with lens.
Qed.

(** The window [w] of a list in two parts, its record and its neighbours. *)
Lemma zorder_split (s : WM) (l1 l2 : list wid) (w : wid) :
  zorder s (l1 ++ w :: l2) ->
  (exists n, windows s !! w = Some n /\ previousWindow n = last l1 /\ nextWindow n = head l2)
  /\ (forall a, last l1 = Some a -> is_Some (windows s !! a))
  /\ (forall a, head l2 = Some a -> is_Some (windows s !! a))
  /\ NoDup (l1 ++ l2) /\ w ∉ l1 ++ l2.
Proof.
  intros H. pose proof (z_nodup _ _ H) as Hnd.
  destruct (seg_unlink (windows s) l1 l2 w Hnd (z_seg _ _ H)) as (_ & _ & _ & Hn).
  split; [exact Hn|]. split; [|split].
  - intros a Ha%last_elem. eapply zorder_live; [exact H | set_solver].
  - intros a Ha%head_elem. eapply zorder_live; [exact H | set_solver].
  - apply (NoDup_Permutation_proper _ (w :: l1 ++ l2)) in Hnd;
      [|by rewrite Permutation_middle].
    apply NoDup_cons in Hnd as [Hw Hnd]. done.
Qed.

Lemma last_app_ne (l1 l2 : list wid) (w : wid) :
  l2 <> [] -> last (l1 ++ w :: l2) = last (l1 ++ l2).
Proof.
  intros Hl2. destruct (exists_last Hl2) as (l2' & a & ->).
  rewrite app_comm_cons, !app_assoc, !last_snoc. done.
Qed.

(** The state after [w] is taken out of the list by the two pointers. *)
Definition unlinked (s : WM) (l1 l2 : list wid) : WM :=
  set_windows (alter_opt (set_previousWindow (last l1)) (head l2)
                (alter_opt (set_nextWindow (head l2)) (last l1) (windows s))) s.

Lemma remove_refines (s : WM) (l : list wid) (w : wid) :
  zorder s l -> refines (list_run (Remove w)) s (without w l, true).
Proof.
  intros H. unfold refines, list_run, glass_window_list_remove. wp_go.
  eapply wp_isExist; [exact H|]. case_bool_decide as Hin; cbn [negb].
  2: { wp_go. rewrite without_notin by done. auto. }
  destruct (split_at w l Hin) as (l1 & l2 & ->).
  rewrite without_app by apply H.
  destruct (zorder_split _ _ _ _ H) as ((n & E & Hp & Hn) & Hl1 & Hl2 & Hnd & Hw).
  destruct (seg_unlink (windows s) l1 l2 w (z_nodup _ _ H) (z_seg _ _ H))
    as (Hseg & E1 & E2 & _).
  pose proof (z_head _ _ H) as Hh. pose proof (z_tail _ _ H) as Ht.
  pose proof (z_size _ _ H) as Hs.
  wp_go. eapply wp_deref; [exact E|]. wp_go. rewrite Hp, Hn.
  apply (wp_mono _ (fun _ s1 => s1 = set_windowList_head (head (l1 ++ l2))
    (set_windows (alter_opt (set_nextWindow (head l2)) (last l1) (windows s)) s))).
  { destruct (last l1) as [a|] eqn:El1.
    - apply wp_assign_alter; [by apply Hl1|]. cbn.
      replace (head (l1 ++ l2)) with (windowList_head s); [by destruct s|].
      rewrite Hh. destruct l1; [done | done].
    - apply last_None in El1 as ->. apply wp_modify. by destruct s. }
  intros [] s1 ->. wp_go. eapply wp_deref; [cbn; rewrite E1; exact E|]. wp_go.
  rewrite Hp, Hn.
  apply (wp_mono _ (fun _ s2 => s2 = set_windowList_tail (last (l1 ++ l2))
    (set_windowList_head (head (l1 ++ l2)) (unlinked s l1 l2)))).
  { destruct (head l2) as [a|] eqn:El2.
    - apply wp_assign_alter; [by apply is_Some_alter_opt, Hl2|].
      unfold unlinked. rewrite El2. cbn.
      replace (last (l1 ++ l2)) with (windowList_tail s); [by destruct s|].
      rewrite Ht. apply last_app_ne. by destruct l2.
    - destruct l2; [|done]. apply wp_modify. unfold unlinked. rewrite app_nil_r. cbn.
      by destruct s. }
  intros [] s2 ->. wp_go. split; [done|]. split.
  - split; cbn; [done | exact Hseg | done | done |].
    rewrite Hs, !length_app. cbn. rewrite <- Z.add_opp_r, i32_add_l. f_equal. lia.
  - unfold forget. cbn. by rewrite !strip_alter_opt by auto with lens.
Qed.

Lemma wp_disconnect (s : WM) (l1 l2 : list wid) (w : wid) (Q : unit -> WM -> Prop) :
  zorder s (l1 ++ w :: l2) -> Q tt (unlinked s l1 l2) -> wp (disconnect w) Q s.
Proof.
  intros H HQ.
  destruct (zorder_split _ _ _ _ H) as ((n & E & Hp & Hn) & Hl1 & Hl2 & _).
  destruct (seg_unlink (windows s) l1 l2 w (z_nodup _ _ H) (z_seg _ _ H))
    as (_ & E1 & _).
  unfold disconnect. wp_go. eapply wp_deref; [exact E|]. wp_go. rewrite Hp, Hn.
  apply wp_assign_opt; [exact Hl1|]. wp_go.
  eapply wp_deref; [cbn; rewrite E1; exact E|]. wp_go. rewrite Hp, Hn.
  apply wp_assign_opt; [cbn; intros a Ha; by apply is_Some_alter_opt, Hl2 | exact HQ].
Qed.

Lemma unlinked_zorder (s : WM) (l1 l2 : list wid) (w : wid) :
  zorder s (l1 ++ w :: l2) ->
  seg (windows (unlinked s l1 l2)) None (l1 ++ l2) None
  /\ windows (unlinked s l1 l2) !! w = windows s !! w
  /\ forget (unlinked s l1 l2) = forget s.
Proof.
  intros H.
  destruct (seg_unlink (windows s) l1 l2 w (z_nodup _ _ H) (z_seg _ _ H))
    as (Hseg & _ & E & _).
  split; [exact Hseg|]. split; [exact E|].
  unfold forget. cbn. by rewrite !strip_alter_opt by auto with lens.
Qed.

Lemma toFront_refines (s : WM) (l : list wid) (w : wid) :
  zorder s l -> refines (list_run (ToFront w)) s (list_spec (ToFront w) l).
Proof.
  intros H. unfold refines, list_run, list_spec, glass_window_list_toFront,
    glass_window_list_getTail, glass_window_list_getHead. wp_go.
  rewrite (z_tail _ _ H). destruct (decide (last l = Some w)) as [Hlast|Hlast].
  { rewrite (bool_decide_true (last l = Some w)), andb_false_r by done.
    by apply wp_ret. }
  rewrite (bool_decide_false (last l = Some w)), andb_true_r by done.
  wp_go. eapply wp_isExist; [exact H|]. case_bool_decide as Hin; cbn [negb].
  2: { by apply wp_ret. }
  destruct (split_at w l Hin) as (l1 & l2 & ->).
  rewrite without_app by apply H.
  destruct (zorder_split _ _ _ _ H) as ((n & E & Hp & Hn) & Hl1 & Hl2 & Hnd & Hw).
  destruct (unlinked_zorder _ _ _ _ H) as (Hseg & Ew & Hforget).
  assert (Hl2' : l2 <> []) by (intros ->; by rewrite last_snoc in Hlast).
  pose proof (z_head _ _ H) as Hh. pose proof (z_tail _ _ H) as Ht.
  pose proof (z_size _ _ H) as Hs. rewrite last_app_ne in Ht by done.
  assert (Hwu : is_Some (windows (unlinked s l1 l2) !! w)) by (rewrite Ew; eauto).
  wp_go. eapply wp_disconnect; [exact H|]. wp_go.
  apply (wp_mono _ (fun _ s1 =>
    s1 = set_windowList_head (head (l1 ++ l2)) (unlinked s l1 l2))).
  { cbn. rewrite Hh. destruct l1 as [|a l1]; cbn [app head].
    - rewrite decide_True by done. wp_go. eapply wp_deref; [rewrite Ew; exact E|].
      rewrite Hn. by apply wp_modify.
    - rewrite decide_False by (intros [= ->]; set_solver). apply wp_ret.
      cbn in Hh. rewrite <- Hh. by destruct s. }
  intros [] s1 ->. wp_go. cbn. rewrite Ht.
  apply wp_assign_alter; [exact Hwu|]. wp_go.
  apply wp_assign_alter; [cbn; by rewrite lookup_alter_eq, fmap_is_Some|]. wp_go.
  destruct (last (l1 ++ l2)) as [t|] eqn:El.
  2: { apply last_None in El. by apply app_eq_nil in El as [_ ?]. }
  apply wp_assign_alter.
  { cbn. rewrite !lookup_alter_ne by (intros ->; by apply Hw, last_elem).
    eapply seg_in; [exact Hseg | by apply last_elem]. }
  wp_go. split; [done|]. split.
  - split; cbn.
    + apply NoDup_app. split; [done|]. split; [set_solver | apply NoDup_singleton].
    + pose proof (seg_link_last _ _ _ Hnd Hw Hwu Hseg) as K. rewrite El in K. exact K.
    + destruct (l1 ++ l2); done.
    + by rewrite last_snoc.
    + rewrite Hs, !length_app. cbn. f_equal. lia.
  - rewrite <- Hforget. unfold forget. cbn. by rewrite !strip_alter by auto with lens.
Qed.

Lemma toBack_refines (s : WM) (l : list wid) (w : wid) :
  zorder s l -> refines (list_run (ToBack w)) s (list_spec (ToBack w) l).
Proof.
  intros H. unfold refines, list_run, list_spec, glass_window_list_toBack,
    glass_window_list_getTail, glass_window_list_getHead. wp_go.
  rewrite (z_head _ _ H). destruct (decide (head l = Some w)) as [Hhead|Hhead].
  { rewrite (bool_decide_true (head l = Some w)), andb_false_r by done.
    by apply wp_ret. }
  rewrite (bool_decide_false (head l = Some w)), andb_true_r by done.
  wp_go. eapply wp_isExist; [exact H|]. case_bool_decide as Hin; cbn [negb].
  2: { by apply wp_ret. }
  destruct (split_at w l Hin) as (l1 & l2 & ->).
  rewrite without_app by apply H.
  destruct (zorder_split _ _ _ _ H) as ((n & E & Hp & Hn) & Hl1 & Hl2 & Hnd & Hw).
  destruct (unlinked_zorder _ _ _ _ H) as (Hseg & Ew & Hforget).
  destruct l1 as [|a l1]; [done|]. cbn [app] in *.
  pose proof (z_head _ _ H) as Hh. pose proof (z_tail _ _ H) as Ht.
  pose proof (z_size _ _ H) as Hs. cbn [head] in Hh.
  assert (Hwu : is_Some (windows (unlinked s (a :: l1) l2) !! w)) by (rewrite Ew; eauto).
  wp_go. apply (wp_disconnect _ (a :: l1) l2); [exact H|]. wp_go.
  apply (wp_mono _ (fun _ s1 =>
    s1 = set_windowList_tail (last (a :: l1 ++ l2)) (unlinked s (a :: l1) l2))).
  { cbn [unlinked windowList_tail set_windows]. rewrite Ht.
    destruct l2 as [|b l2].
    - rewrite app_nil_r. change (a :: l1 ++ [w]) with ((a :: l1) ++ [w]).
      rewrite last_snoc, decide_True by done. wp_go.
      eapply wp_deref; [rewrite Ew; exact E|]. rewrite Hp. by apply wp_modify.
    - pose proof (last_app_ne (a :: l1) (b :: l2) w ltac:(done)) as El.
      cbn [app] in El. rewrite El in *. rewrite decide_False.
      + apply wp_ret. rewrite <- Ht. by destruct s.
      + intros K%last_elem. contradiction. }
  intros [] s1 ->. wp_go. apply wp_assign_alter; [exact Hwu|]. wp_go. cbn. rewrite Hh.
  apply wp_assign_alter; [cbn; by rewrite lookup_alter_eq, fmap_is_Some|]. wp_go.
  apply wp_assign_alter.
  { cbn. rewrite !lookup_alter_ne by set_solver.
    eapply (seg_in _ _ _ _ a Hseg). by left. }
  wp_go. split; [done|]. split.
  - split; cbn.
    + by apply NoDup_cons.
    + exact (seg_link_first _ _ _ Hnd Hw Hwu Hseg).
    + done.
    + done.
    + rewrite Hs. cbn. rewrite !length_app. cbn. f_equal. lia.
  - rewrite <- Hforget. unfold forget. cbn. by rewrite !strip_alter by auto with lens.
Qed.

(** C4. The functions of the window list implement operations on a list: if the
    pointers of the state stand for the list [l], then adding a window that is
    not yet in it, removing one, and bringing one to the front or to the back
    end without following a wrong pointer, the new pointers stand for the new
    list, the result tells whether the order has changed, and nothing but the
    links of the windows and the variables of the list is changed. *)
Theorem window_list_refines (s : WM) (l : list wid) (op : list_op) :
  zorder s l -> list_pre op s l -> refines (list_run op) s (list_spec op l).
Proof.
  intros H Hpre. destruct op as [w|w|w|w].
  - destruct Hpre. by apply add_refines.
  - by apply remove_refines.
  - by apply toFront_refines.
  - by apply toBack_refines.
Qed.
