(* ===== verification/LensWM.v ===== *)
(** * The window manager (LensWindowManager.c, LensWindow.c, LensView.c)

    The functions that keep the focus, the grab, the state and the bounds of
    windows, that find the window under the pointer and send it the events of the
    mouse and of touch screens, and the functions that Java calls.

    The platform is the one of headlessScreen.c: it has no windows of its own, so
    that [lens_platform_windowMinimize], [lens_platform_windowSetVisible] and
    [glass_window_PlatformWindowRelease] do nothing.  Clearing the screen, moving
    the cursor, messages and mutexes are left out.  Results of the allocator and
    of the virtual machine are arguments. *)

From S2P Require Import LensState LensList.

(** ** Focus and grab *)

Definition lens_wm_getGrabbedWindow : M (option wid) := gets grabbedWindow.
Definition lens_wm_setGrabbedWindow (window : option wid) : M unit :=
  modify (set_grabbedWindow window).
Definition lens_wm_getMouseWindow : M (option wid) := gets mouseWindow.
Definition lens_wm_setMouseWindow (window : option wid) : M unit :=
  modify (set_mouseWindow window).
Definition glass_window_getFocusedWindow : M (option wid) := gets focusedWindow.
Definition glass_window_setFocusedWindow (window : option wid) : M unit :=
  modify (set_focusedWindow window).

Definition lens_wm_repaint (window : option wid) : M unit :=
  match window with
  | None => mret tt
  | Some w =>
      n ← deref w;
      let b := currentBounds n in
      glass_application_notifyViewEvent (view n) REPAINT
        (b_x b) (b_y b) (b_width b) (b_height b)
  end.

Definition glass_window_ungrabFocus (window : option wid) : M unit :=
  grabbed ← lens_wm_getGrabbedWindow;
  match window with
  | None => mret tt
  | Some w =>
      if decide (window = grabbed) then
        lens_wm_setGrabbedWindow None;;
        glass_application_notifyWindowEvent w FOCUS_UNGRAB
      else mret tt
  end.

Definition lens_wm_setFocusedWindow (window : option wid) : M unit :=
  focused ← glass_window_getFocusedWindow;
  if decide (window = focused) then mret tt else
  match focused with
  | Some f =>
      glass_window_ungrabFocus (Some f);;
      glass_application_notifyWindowEvent f FOCUS_LOST
  | None => mret tt
  end;;
  glass_window_setFocusedWindow window;;
  match window with
  | Some w => glass_application_notifyWindowEvent w FOCUS_GAINED
  | None => mret tt
  end.

(** The test of the loop in [lens_wm_unsetFocusedWindow]. *)
Definition next_focus (n : NativeWindow) : bool :=
  isVisible n && negb (bool_decide (state n = NWS_MINIMIZED))
  && (bool_decide (owner n = None) && isFocusable n).

(** A loop from the tail to the head that ends at the first window that passes
    the test. *)
Fixpoint search_back (test : NativeWindow -> bool) (fuel : nat) (w : option wid) :
    M (option wid) :=
  match fuel with
  | O => undefined
  | S fuel =>
      match w with
      | None => mret None
      | Some w =>
          n ← deref w;
          if test n then mret (Some w) else search_back test fuel (previousWindow n)
      end
  end.

Definition search_list (test : NativeWindow -> bool) : M (option wid) :=
  fuel ← list_fuel;
  tail ← glass_window_list_getTail;
  search_back test fuel tail.

Definition lens_wm_unsetFocusedWindow (window : wid) : M (option wid) :=
  focused ← glass_window_getFocusedWindow;
  if decide (Some window = focused) then
    glass_window_ungrabFocus (Some window);;
    lens_wm_setFocusedWindow None;;
    next ← search_list next_focus;
    match next with
    | Some w => lens_wm_setFocusedWindow (Some w)
    | None => mret tt
    end;;
    mret next
  else mret focused.

Definition glass_window_requestFocus (window : option wid) : M bool :=
  focused ← glass_window_getFocusedWindow;
  match window with
  | None => mret false
  | Some w =>
      if decide (window = focused) then mret true else
      n ← deref w;
      if negb (isFocusable n) then mret false
      else if negb (isEnabled n) then mret false
      else if negb (isVisible n) then mret false
      else lens_wm_setFocusedWindow window;; mret true
  end.

Definition glass_window_setFocusable (window : wid) (focusable : bool) : M bool :=
  n ← deref window;
  if eqb (isFocusable n) focusable then mret true else
  focused ← glass_window_getFocusedWindow;
  (if negb focusable && bool_decide (focused = Some window)
   then lens_wm_setFocusedWindow None else mret tt);;
  assign window (set_isFocusable focusable);;
  mret true.

Definition glass_window_setVisible (window : wid) (visible : bool) : M bool :=
  assign window (set_isVisible visible);;
  (if negb visible then _ ← lens_wm_unsetFocusedWindow window; mret tt
   else
     n ← deref window;
     if isFocusable n && isEnabled n then lens_wm_setFocusedWindow (Some window)
     else mret tt);;
  mret true.

Definition glass_window_grabFocus (window : wid) : M bool :=
  grabbed ← lens_wm_getGrabbedWindow;
  if decide (Some window = grabbed) then mret true else
  focused ← glass_window_getFocusedWindow;
  if decide (grabbed = None /\ Some window = focused) then
    lens_wm_setGrabbedWindow (Some window);; mret true
  else mret false.

(** ** Bounds and the states of a window *)

Definition glass_window_setBoundsImpl (window : wid) (x y width height : Z)
    (needToUpdatePostion needToUpdateSize isContentSize : bool) : M unit :=
  let needToUpdateSize := needToUpdateSize || isContentSize in
  n ← deref window;
  let b := currentBounds n in
  (if needToUpdateSize && (negb (b_width b =? width) || negb (b_height b =? height)) then
     assign window (set_currentBounds (mkBounds (b_x b) (b_y b) width height));;
     glass_application_notifyWindowEvent_resize window RESIZE width height
   else mret tt);;
  n ← deref window;
  let b := currentBounds n in
  if needToUpdatePostion && (negb (b_x b =? x) || negb (b_y b =? y)) then
    assign window (set_currentBounds (mkBounds x y (b_width b) (b_height b)));;
    glass_application_notifyWindowEvent_move window x y;;
    lens_wm_repaint (Some window)
  else mret tt.

Definition lens_wm_windowCacheBounds (window : wid) : M unit :=
  assign window (fun n => set_cachedBounds (currentBounds n) n).

Definition lens_wm_windowUncacheBounds (window : wid) : M unit :=
  assign window (fun n => set_currentBounds (cachedBounds n) n).

(** The result of [glass_window_check_bounds] and the width and the height it
    stores. *)
Definition glass_window_check_bounds (n : NativeWindow) (width height : Z) :
    bool * Z * Z :=
  let '(ok_w, width) :=
    if (0 <? minWidth n) && (width <? minWidth n) then (false, minWidth n)
    else if (0 <? maxWidth n) && (maxWidth n <? width) then (false, maxWidth n)
    else (true, width) in
  let '(ok_h, height) :=
    if (0 <? minHeight n) && (height <? minHeight n) then (false, minHeight n)
    else if (0 <? maxHeight n) && (maxHeight n <? height) then (false, maxHeight n)
    else (true, height) in
  (ok_w && ok_h, width, height).

Definition lens_wm_windowRestore (window : wid) : M unit :=
  n ← deref window;
  let c := cachedBounds n in
  let restore : M unit :=
    assign window (set_state NWS_NORMAL);;
    n ← deref window;
    let c := cachedBounds n in
    glass_window_setBoundsImpl window (b_x c) (b_y c) (b_width c) (b_height c)
      true true false;;
    lens_wm_windowUncacheBounds window;;
    n ← deref window;
    glass_application_notifyWindowEvent_resize window RESTORE
      (b_width (currentBounds n)) (b_height (currentBounds n));;
    lens_wm_setFocusedWindow (Some window) in
  match state n with
  | NWS_MINIMIZED =>
      when (isVisible n) (glass_application_addWindowToVisibleWindowList window);;
      restore
  | NWS_NORMAL => mret tt
  | NWS_MAXIMIZED => restore
  | NWS_FULLSCREEN =>
      glass_application_notifyViewEvent (view n) FULLSCREEN_EXIT
        (b_x c) (b_y c) (b_width c) (b_height c);;
      restore
  end.

Definition lens_wm_windowMinimize (window : wid) : M unit :=
  n ← deref window;
  let minimize : M unit :=
    lens_wm_windowCacheBounds window;;
    assign window (set_state NWS_MINIMIZED);;
    _ ← lens_wm_unsetFocusedWindow window;
    glass_application_RemoveWindowFromVisibleWindowList window;;
    n ← deref window;
    glass_application_notifyWindowEvent_resize window MINIMIZE
      (b_width (cachedBounds n)) (b_height (cachedBounds n)) in
  match state n with
  | NWS_MINIMIZED => mret tt
  | NWS_NORMAL | NWS_MAXIMIZED => minimize
  | NWS_FULLSCREEN => lens_wm_windowRestore window;; minimize
  end.

Definition lens_wm_windowMaximize (window : wid) : M unit :=
  n ← deref window;
  let maximize : M unit :=
    lens_wm_windowCacheBounds window;;
    screen_w ← gets screenWidth;
    screen_h ← gets screenHeight;
    n ← deref window;
    let b := currentBounds n in
    let '(fits, width, height) := glass_window_check_bounds n screen_w screen_h in
    let '(x, y) :=
      if fits : bool then (0, 0)
      else if (b_width b <? width) || (b_height b <? height)
      then (i32 (screen_w - width - 1), i32 (screen_h - height - 1))
      else (b_x b, b_y b) in
    glass_window_setBoundsImpl window x y width height true true false;;
    assign window (set_state NWS_MAXIMIZED);;
    glass_application_notifyWindowEvent_resize window MAXIMIZE width height;;
    lens_wm_setFocusedWindow (Some window) in
  match state n with
  | NWS_MINIMIZED => lens_wm_windowRestore window;; maximize
  | NWS_NORMAL => maximize
  | NWS_MAXIMIZED => mret tt
  | NWS_FULLSCREEN => lens_wm_windowRestore window;; maximize
  end.

Definition lens_wm_windowEnterFullscreen (window : wid) : M unit :=
  n ← deref window;
  let enter : M unit :=
    screen_w ← gets screenWidth;
    screen_h ← gets screenHeight;
    lens_wm_windowCacheBounds window;;
    glass_window_setBoundsImpl window 0 0 screen_w screen_h true true false;;
    n ← deref window;
    let b := currentBounds n in
    glass_application_notifyViewEvent (view n) FULLSCREEN_ENTER
      (b_x b) (b_y b) (b_width b) (b_height b);;
    lens_wm_setFocusedWindow (Some window);;
    assign window (set_state NWS_FULLSCREEN) in
  match state n with
  | NWS_MINIMIZED => lens_wm_windowRestore window;; enter
  | NWS_NORMAL | NWS_MAXIMIZED => enter
  | NWS_FULLSCREEN => mret tt
  end.

Definition glass_window_minimize (window : wid) (toMinimize : bool) : M bool :=
  (if toMinimize then lens_wm_windowMinimize window else lens_wm_windowRestore window);;
  mret true.

Definition glass_window_maximize (window : wid) (toMaximize isMaximized : bool) : M bool :=
  if toMaximize && negb isMaximized then lens_wm_windowMaximize window;; mret true
  else if negb toMaximize && isMaximized then lens_wm_windowRestore window;; mret true
  else mret false.

(** The common part of the two functions that set a limit. *)
Definition apply_limits (window : wid) : M bool :=
  n ← deref window;
  let b := currentBounds n in
  let '(_, width, height) := glass_window_check_bounds n (b_width b) (b_height b) in
  (if negb (width =? b_width b) || negb (height =? b_height b)
   then glass_window_setBoundsImpl window 0 0 width height false true false
   else mret tt);;
  mret true.

Definition glass_window_setMinimumSize (window : wid) (width height : Z) : M bool :=
  assign window (set_minWidth width);;
  assign window (set_minHeight height);;
  apply_limits window.

Definition glass_window_setMaximumSize (window : wid) (width height : Z) : M bool :=
  assign window (set_maxWidth width);;
  assign window (set_maxHeight height);;
  apply_limits window.

Definition glass_view_enterFullscreen (v : vid) : M bool :=
  nv ← deref_view v;
  match parent nv with
  | None => mret false
  | Some window => lens_wm_windowEnterFullscreen window;; mret true
  end.

Definition glass_view_exitFullscreen (v : vid) : M bool :=
  nv ← deref_view v;
  match parent nv with
  | None => mret false
  | Some window => lens_wm_windowRestore window;; mret true
  end.

Definition glass_view_setParent (new_parent : option wid) (v : vid) : M unit :=
  nv ← deref_view v;
  match parent nv with
  | None => mret tt
  | Some old =>
      n ← deref old;
      match view n with
      | None => mret tt
      | Some v' =>
          glass_application_notifyViewEvent (Some v') REMOVE 0 0 0 0;;
          assign_view v (fun nv => mkView (lensView nv) None)
      end
  end;;
  assign_view v (fun nv => mkView (lensView nv) new_parent);;
  match new_parent with
  | None => mret tt
  | Some p =>
      n ← deref p;
      match view n with
      | None => mret tt
      | Some v' => glass_application_notifyViewEvent (Some v') ADD 0 0 0 0
      end
  end.

Definition glass_window_toFront (window : wid) : M unit :=
  changed ← glass_window_list_toFront window;
  when changed (lens_wm_repaint (Some window)).

Definition glass_window_toBack (window : wid) : M unit :=
  changed ← glass_window_list_toBack window;
  when changed (lens_wm_repaint (Some window)).

(** The opacity that it stores is not kept. *)
Definition glass_window_setAlpha (window : wid) : M bool :=
  _ ← deref window; lens_wm_repaint (Some window);; mret true.

(** ** The pointer *)

(** The point is on the window, and the window can get it. *)
Definition hit (absX absY : Z) (n : NativeWindow) : bool :=
  let b := currentBounds n in
  isVisible n && negb (bool_decide (state n = NWS_MINIMIZED))
  && ((b_x b <=? absX) && (absX <? i32 (b_x b + b_width b))
      && (b_y b <=? absY) && (absY <? i32 (b_y b + b_height b)) && isEnabled n).

(** The position of a point relative to a window. *)
Definition relative (absX absY : Z) (n : NativeWindow) : Z * Z :=
  (i32 (absX - b_x (currentBounds n)), i32 (absY - b_y (currentBounds n))).

(** The window and what is stored at [pRelX] and [pRelY].  Without a window
    nothing is stored; no caller reads the coordinates then, and the model gives
    zeros. *)
Definition glass_window_findWindowAtLocation (absX absY : Z) : M (option wid * (Z * Z)) :=
  found ← search_list (hit absX absY);
  match found with
  | Some w => n ← deref w; mret (Some w, relative absX absY n)
  | None => mret (None, (0, 0))
  end.

Definition lens_wm_notifyEnterExitEvents : M (option wid * (Z * Z)) :=
  absX ← gets _mousePosX;
  absY ← gets _mousePosY;
  found ← glass_window_findWindowAtLocation absX absY;
  let '(window, (relX, relY)) := found in
  lastMouseWindow ← lens_wm_getMouseWindow;
  dragging ← gets _onDraggingAction;
  drag ← gets _dragGrabbingWindow;
  rel ← match drag with
    | Some d =>
        if dragging : bool then
          rel ← (if decide (window <> drag /\ drag = lastMouseWindow) then
                   n ← deref d;
                   let '(relX, relY) := relative absX absY n in
                   glass_application_notifyMouseEvent d MouseEvent_EXIT relX relY
                     absX absY BUTTON_NONE;;
                   mret (relX, relY)
                 else mret (relX, relY));
          (if decide (window = drag /\ window <> lastMouseWindow) then
             glass_application_notifyMouseEvent d MouseEvent_ENTER rel.1 rel.2
               absX absY BUTTON_NONE
           else mret tt);;
          mret rel
        else mret (relX, relY)
    | None => mret (relX, relY)
    end;
  (if negb dragging && bool_decide (window <> lastMouseWindow) then
     match lastMouseWindow with
     | Some m =>
         n ← deref m;
         let '(_relX, _relY) := relative absX absY n in
         glass_application_notifyMouseEvent m MouseEvent_EXIT _relX _relY
           absX absY BUTTON_NONE
     | None => mret tt
     end;;
     match window with
     | Some w =>
         glass_application_notifyMouseEvent w MouseEvent_ENTER rel.1 rel.2
           absX absY BUTTON_NONE
     | None => mret tt
     end
   else mret tt);;
  mret (window, rel).

Definition lens_wm_notifyMotionEvent (mousePosX mousePosY : Z) : M unit :=
  modify (set_mousePosX mousePosX);;
  modify (set_mousePosY mousePosY);;
  pressed ← gets _mousePressedButton;
  dragging ← gets _onDraggingAction;
  dnd ← gets isDnDStarted;
  (if negb (pressed =? BUTTON_NONE) && negb dragging && negb dnd then
     modify (set_onDraggingAction true);;
     mouse ← lens_wm_getMouseWindow;
     modify (set_dragGrabbingWindow mouse)
   else mret tt);;
  found ← lens_wm_notifyEnterExitEvents;
  let '(window, (relX, relY)) := found in
  lens_wm_setMouseWindow window;;
  dragging ← gets _onDraggingAction;
  drag ← gets _dragGrabbingWindow;
  if (dragging : bool) && bool_decide (drag <> None) then
    match drag with
    | Some d =>
        n ← deref d;
        let '(relX, relY) := relative mousePosX mousePosY n in
        glass_application_notifyMouseEvent d MouseEvent_MOVE relX relY
          mousePosX mousePosY BUTTON_NONE
    | None => mret tt
    end
  else if negb dragging then
    match window with
    | Some w =>
        glass_application_notifyMouseEvent w MouseEvent_MOVE relX relY
          mousePosX mousePosY BUTTON_NONE
    | None => mret tt
    end
  else mret tt.

Definition handleClickOrTouchEvent (xabs yabs : Z) : M unit :=
  found ← glass_window_findWindowAtLocation xabs yabs;
  let window := found.1 in
  grabbed ← lens_wm_getGrabbedWindow;
  match grabbed with
  | Some g =>
      breaks ← match window with
        | None => mret true
        | Some w =>
            n ← deref w; ng ← deref g; mret (bool_decide (root n <> root ng))
        end;
      when breaks (glass_window_ungrabFocus (Some g))
  | None => mret tt
  end;;
  match window with
  | None => mret tt
  | Some w =>
      focused ← glass_window_getFocusedWindow;
      match focused with
      | None => mret tt
      | Some f =>
          n ← deref w; nf ← deref f;
          when (bool_decide (root n <> root nf)) (lens_wm_setFocusedWindow window)
      end
  end.

(** Ends the drag that [lens_wm_notifyMotionEvent] began. *)
Definition stop_dragging : M unit :=
  modify (set_onDraggingAction false);; modify (set_dragGrabbingWindow None).

Definition lens_wm_notifyButtonEvent (pressed : bool) (button xabs yabs : Z) : M unit :=
  modify (set_mousePosX xabs);;
  modify (set_mousePosY yabs);;
  found ← lens_wm_notifyEnterExitEvents;
  let '(window, (relX, relY)) := found in
  lens_wm_setMouseWindow window;;
  pressedButton ← gets _mousePressedButton;
  (if pressedButton =? BUTTON_NONE then
     dragging ← gets _onDraggingAction;
     when dragging stop_dragging;;
     modify (set_mousePressedButton button)
   else if negb pressed && (button =? pressedButton) then
     modify (set_mousePressedButton BUTTON_NONE);;
     stop_dragging
   else mret tt);;
  dragging ← gets _onDraggingAction;
  (if dragging : bool then
     drag ← gets _dragGrabbingWindow;
     match drag with
     | Some d =>
         n ← deref d;
         let '(relX, relY) := relative xabs yabs n in
         glass_application_notifyMouseEvent d MouseEvent_UP relX relY xabs yabs button
     | None => mret tt
     end;;
     pressedButton ← gets _mousePressedButton;
     when (button =? pressedButton) stop_dragging
   else
     match window with
     | Some w =>
         glass_application_notifyMouseEvent w
           (if pressed then MouseEvent_DOWN else MouseEvent_UP) relX relY xabs yabs button
     | None => mret tt
     end);;
  handleClickOrTouchEvent xabs yabs.

Definition lens_wm_notifyScrollEvent (xabs yabs step : Z) : M unit :=
  found ← glass_window_findWindowAtLocation xabs yabs;
  let '(window, (relX, relY)) := found in
  match window with
  | Some w => glass_application_notifyScrollEvent w relX relY xabs yabs step
  | None => mret tt
  end.

(** ** Touch screens *)

Definition TOUCH_PRESSED : Z := 811.
Definition TOUCH_MOVED : Z := 812.
Definition TOUCH_RELEASED : Z := 813.
Definition TOUCH_STILL : Z := 814.

(** [l[i]] *)
Definition at_index (l : list Z) (i : Z) : M Z :=
  match (if i <? 0 then None else l !! Z.to_nat i) with
  | Some z => mret z
  | None => undefined
  end.

Definition lens_wm_notifyMultiTouchEvent (states ids xabs yabs : list Z)
    (primaryPointIndex : Z) : M unit :=
  touch ← gets touchWindow;
  dragging ← gets _onDraggingAction;
  (if bool_decide (touch = None) && (0 <=? primaryPointIndex) && negb dragging then
     px ← at_index xabs primaryPointIndex;
     py ← at_index yabs primaryPointIndex;
     found ← glass_window_findWindowAtLocation px py;
     modify (set_touchWindow found.1);;
     when (bool_decide (found.1 <> None)
           && negb (forallb (fun st => st =? TOUCH_PRESSED) states))
       (modify (set_touchWindow None))
   else mret tt);;
  (if primaryPointIndex =? -1 then
     absX ← gets _mousePosX;
     absY ← gets _mousePosY;
     lens_wm_notifyButtonEvent false BUTTON_LEFT absX absY
   else
     absX ← at_index xabs primaryPointIndex;
     absY ← at_index yabs primaryPointIndex;
     st ← at_index states primaryPointIndex;
     if st =? TOUCH_PRESSED then
       posX ← gets _mousePosX;
       posY ← gets _mousePosY;
       when (negb (absX =? posX) || negb (absY =? posY))
         (lens_wm_notifyMotionEvent absX absY);;
       lens_wm_notifyButtonEvent true BUTTON_LEFT absX absY
     else if st =? TOUCH_MOVED then lens_wm_notifyMotionEvent absX absY
     else mret tt);;
  touch ← gets touchWindow;
  match touch with
  | Some t =>
      n ← deref t;
      let b := currentBounds n in
      glass_application_notifyMultiTouchEvent t states ids xabs yabs
        (i32 (- b_x b)) (i32 (- b_y b));;
      when (primaryPointIndex =? -1) (modify (set_touchWindow None))
  | None => mret tt
  end.

(** ** Drag and drop *)

Definition notify_lens_wm_DnDStarted : M unit :=
  modify (set_isDnDStarted true);; stop_dragging.

Definition notify_lens_wm_DnDEnded : M unit := modify (set_isDnDStarted false).

(** ** Creating and releasing windows *)

(** The memory that [calloc] gives for a window. *)
Definition zero_window : NativeWindow :=
  mkWindow None None (mkBounds 0 0 0 0) (mkBounds 0 0 0 0) 0 0 0 0 NWS_NORMAL
    None None None false false false false.

Definition free (window : wid) : M unit :=
  _ ← deref window; modify (fun s => set_windows (delete window (windows s)) s).

Definition LENS_OK : Z := 0.
Definition LENS_FAILED : Z := 1.
Definition LENS_STATIC_WINDOWS_LIST_SIZE : Z := 4.

Definition lens_wm_notifyPlatformWindowRelease (window : wid) : M unit :=
  mouse ← lens_wm_getMouseWindow;
  when (bool_decide (Some window = mouse)) (lens_wm_setMouseWindow None);;
  grabbed ← lens_wm_getGrabbedWindow;
  when (bool_decide (Some window = grabbed)) (lens_wm_setGrabbedWindow None);;
  focused ← glass_window_getFocusedWindow;
  when (bool_decide (Some window = focused)) (glass_window_setFocusedWindow None);;
  head ← glass_window_list_getHead;
  match head with
  | Some h =>
      n ← deref h;
      when (bool_decide (view n <> None)) (lens_wm_repaint (Some h))
  | None => mret tt
  end.

(** The loop that collects the windows owned by [window] in an array of
    [capacity] entries. *)
Fixpoint owned_loop (fuel : nat) (capacity : Z) (w window : option wid)
    (notifList : list wid) : M (list wid) :=
  match fuel with
  | O => undefined
  | S fuel =>
      match w with
      | None => mret notifList
      | Some w =>
          n ← deref w;
          if decide (owner n = window) then
            if Z.of_nat (length notifList) <? capacity
            then owned_loop fuel capacity (nextWindow n) window (notifList ++ [w])
            else undefined
          else owned_loop fuel capacity (nextWindow n) window notifList
      end
  end.

Fixpoint notify_close (l : list wid) : M unit :=
  match l with
  | [] => mret tt
  | w :: l => glass_application_notifyWindowEvent w CLOSE;; notify_close l
  end.

(** [mallocs] tells whether [malloc] gives memory. *)
Definition glass_window_NativeWindow_release (mallocs : bool) (window : option wid) : M Z :=
  fuel ← list_fuel;
  head ← glass_window_list_getHead;
  windowsListSize ← glass_window_list_getSize;
  let capacity :=
    if LENS_STATIC_WINDOWS_LIST_SIZE <? windowsListSize
    then (if mallocs then windowsListSize else 0)
    else LENS_STATIC_WINDOWS_LIST_SIZE in
  notifList ← owned_loop fuel capacity head window [];
  notify_close notifList;;
  glass_window_list_remove window;;
  match window with
  | None => undefined
  | Some window =>
      assign window (set_processEvents false);;
      lens_wm_notifyPlatformWindowRelease window;;
      n ← deref window;
      match view n with
      | Some _ => mret 0 (* JNI_FALSE *)
      | None =>
          glass_application_notifyWindowEvent window DESTROY;;
          free window;;
          mret LENS_OK
      end
  end.

(** [callocs] is the result of [calloc], [globalRef] and [platform] tell whether the
    global reference and the data of the platform are got. *)
Definition glass_create_native_window (mallocs : bool) (callocs : option wid)
    (globalRef platform : bool) (owner : option wid) : M (option wid) :=
  result ← match callocs with
    | None => mret LENS_FAILED
    | Some window =>
        modify (fun s => set_windows (<[window := zero_window]> (windows s)) s);;
        assign window (set_currentBounds (mkBounds 0 0 1 1));;
        if globalRef then
          assign window (set_owner owner);;
          assign window (set_isFocusable true);;
          assign window (set_isVisible false);;
          assign window (set_isEnabled true);;
          assign window (set_state NWS_NORMAL);;
          assign window (set_view None);;
          assign window (set_previousWindow None);;
          assign window (set_nextWindow None);;
          r ← match owner with
            | Some o => n ← deref o; mret (root n)
            | None => mret (Some window)
            end;
          assign window (set_root r);;
          if platform then glass_window_list_add (Some window);; mret LENS_OK
          else mret LENS_FAILED
        else mret LENS_FAILED
    end;
  if result =? 0 then mret callocs
  else
    _ ← glass_window_NativeWindow_release mallocs callocs;
    match callocs with
    | Some window => free window
    | None => mret tt
    end;;
    mret None.

(** ** The functions that Java calls

    A [NULL] handle throws a NullPointerException, and the function returns
    [JNI_FALSE]. *)

Definition with_handle {A : Type} (ptr : option wid) (failed : A) (f : wid -> M A) : M A :=
  match ptr with
  | None => notify NullPointerException;; mret failed
  | Some window => f window
  end.

Definition LensWindow_createChildWindow (mallocs : bool) (callocs : option wid)
    (globalRef platform : bool) (ptr : option wid) : M (option wid) :=
  match ptr with
  | None => mret None
  | Some o => _ ← deref o; glass_create_native_window mallocs callocs globalRef platform ptr
  end.

Definition LensWindow_createWindow (mallocs : bool) (callocs : option wid)
    (globalRef platform : bool) (ptr : option wid) : M (option wid) :=
  glass_create_native_window mallocs callocs globalRef platform ptr.

Definition LensWindow_attachViewToWindow (ptr : option wid) (v : option vid) : M bool :=
  with_handle ptr false (fun window => assign window (set_view v);; mret true).

Definition LensWindow_close (mallocs : bool) (ptr : option wid) : M bool :=
  with_handle ptr false (fun window =>
    res ← glass_window_NativeWindow_release mallocs (Some window); mret (res =? 0)).

Definition LensWindow_minimize (ptr : option wid) (minimize : bool) : M bool :=
  with_handle ptr false (fun window => glass_window_minimize window minimize).

Definition LensWindow_maximize (ptr : option wid) (maximize wasMaximized : bool) : M bool :=
  with_handle ptr false (fun window => glass_window_maximize window maximize wasMaximized).

Definition LensWindow_setBoundsImpl (ptr : option wid) (x y width height : Z)
    (needToUpdatePostion needToUpdateSize isContentSize : bool) : M unit :=
  with_handle ptr tt (fun window =>
    glass_window_setBoundsImpl window x y width height
      needToUpdatePostion needToUpdateSize isContentSize).

Definition LensWindow_setVisible (ptr : option wid) (visible : bool) : M bool :=
  with_handle ptr false (fun window => glass_window_setVisible window visible).

Definition LensWindow_requestFocus (ptr : option wid) : M bool :=
  with_handle ptr false (fun window => glass_window_requestFocus (Some window)).

Definition LensWindow_setFocusable (ptr : option wid) (focusable : bool) : M unit :=
  with_handle ptr tt (fun window => _ ← glass_window_setFocusable window focusable; mret tt).

Definition LensWindow_setAlpha (ptr : option wid) : M unit :=
  with_handle ptr tt (fun window => _ ← glass_window_setAlpha window; mret tt).

Definition LensWindow_setEnabled (ptr : option wid) (enabled : bool) : M unit :=
  with_handle ptr tt (fun window =>
    _ ← glass_window_setFocusable window enabled;
    n ← deref window;
    mouse ← lens_wm_getMouseWindow;
    when (negb enabled && bool_decide (view n <> None) && bool_decide (Some window = mouse))
      (glass_application_notifyMouseEvent window MouseEvent_EXIT 0 0 0 0 BUTTON_NONE);;
    assign window (set_isEnabled enabled)).

Definition LensWindow_setMinimumSize (ptr : option wid) (width height : Z) : M bool :=
  with_handle ptr false (fun window => glass_window_setMinimumSize window width height).

Definition LensWindow_setMaximumSize (ptr : option wid) (width height : Z) : M bool :=
  with_handle ptr false (fun window => glass_window_setMaximumSize window width height).

Definition LensWindow_toFrontImpl (ptr : option wid) : M unit :=
  with_handle ptr tt glass_window_toFront.

Definition LensWindow_toBackImpl (ptr : option wid) : M unit :=
  with_handle ptr tt glass_window_toBack.

Definition LensWindow_grabFocus (ptr : option wid) : M bool :=
  with_handle ptr false glass_window_grabFocus.

Definition LensWindow_ungrabFocus (ptr : option wid) : M unit :=
  with_handle ptr tt (fun window => glass_window_ungrabFocus (Some window)).

(** The functions of LensView.c throw for a [NULL] handle, but go on. *)
Definition view_handle (ptr : option vid) : M vid :=
  match ptr with
  | None => notify NullPointerException;; undefined
  | Some v => mret v
  end.

Definition LensView_createNativeView (callocs : option vid) (globalRef : bool) :
    M (option vid) :=
  match callocs with
  | None => mret None
  | Some v =>
      modify (fun s => set_views (<[v := mkView globalRef None]> (views s)) s);;
      mret (Some v)
  end.

Definition glass_view_releaseNativeView (v : vid) : M Z :=
  _ ← deref_view v;
  modify (fun s => set_views (delete v (views s)) s);;
  mret LENS_OK.

Definition LensView_close (ptr : option vid) : M bool :=
  v ← view_handle ptr; res ← glass_view_releaseNativeView v; mret (res =? 0).

Definition LensView_enterFullscreen (ptr : option vid) : M bool :=
  v ← view_handle ptr; glass_view_enterFullscreen v.

Definition LensView_exitFullscreen (ptr : option vid) : M unit :=
  v ← view_handle ptr; _ ← glass_view_exitFullscreen v; mret tt.

Definition LensView_setParent (ptr : option vid) (window : option wid) : M unit :=
  v ← view_handle ptr; glass_view_setParent window v.
