(* ===== verification/LensSafe.v ===== *)
(** * Safety of the window manager

    The invariant of the window manager: the pointers of the list stand for a
    list of the allocated windows, every other pointer is [NULL] or points to a
    structure that is allocated, only the focused window can hold the grab, and
    the notifications of focus sent to Java tell which window has the focus.

    [safe l V m Q]: on a state that satisfies the invariant with the windows [l]
    and the views [V] the computation [m] ends without undefined behaviour, with
    a result that satisfies [Q], and the invariant holds again.  The rules for
    [safe] follow the structure of computations, and automation applies them. *)

From S2P Require Import LensState LensList LensWM.

(** ** The protocol of focus notifications *)

(** The window that has the focus after one more notification; [None] is a
    notification out of turn. *)
Definition focus_step (f : option wid) (e : Event) : option (option wid) :=
  match e with
  | WindowEvent w FOCUS_GAINED => if decide (f = None) then Some (Some w) else None
  | WindowEvent w FOCUS_LOST => if decide (f = Some w) then Some None else None
  | WindowEvent w FOCUS_UNGRAB => if decide (f = Some w) then Some f else None
  | WindowEvent w DESTROY => Some (if decide (f = Some w) then None else f)
  | _ => Some f
  end.

(** The window that has the focus after all notifications, the last one first. *)
Fixpoint replay (log : list Event) : option (option wid) :=
  match log with
  | [] => Some None
  | e :: log =>
      match replay log with
      | Some f => focus_step f e
      | None => None
      end
  end.

(** A notification that is not about the focus. *)
Definition quiet (e : Event) : Prop := forall f, focus_step f e = Some f.

(** ** The invariant *)

Definition ptr_ok (l : list wid) (o : option wid) : Prop := forall w, o = Some w -> w ∈ l.

(** The view of a window is one of [V]. *)
Definition window_ok (V : gset vid) (n : NativeWindow) : Prop :=
  forall v, view n = Some v -> v ∈ V.

Record wm_ok (l : list wid) (V : gset vid) (s : WM) : Prop := mkOk {
  o_zorder : zorder s l;
  o_alloc : forall w n, windows s !! w = Some n -> w ∈ l /\ window_ok V n;
  o_views : dom (views s) = V;
  o_parent : forall v nv, views s !! v = Some nv -> ptr_ok l (parent nv);
  o_focused : ptr_ok l (focusedWindow s);
  o_grabbed : grabbedWindow s = None \/ grabbedWindow s = focusedWindow s;
  o_mouse : ptr_ok l (mouseWindow s);
  o_drag : ptr_ok l (_dragGrabbingWindow s);
  o_touch : ptr_ok l (touchWindow s);
  o_replay : replay (notified s) = Some (focusedWindow s)
}.

Definition safe {A : Type} (l : list wid) (V : gset vid) (m : M A) (Q : A -> Prop) : Prop :=
  forall s, wm_ok l V s -> wp m (fun a s' => wm_ok l V s' /\ Q a) s.

Definition any {A : Type} (_ : A) : Prop := True.

Create HintDb lens_safe.

Section Rules.
Context (l : list wid) (V : gset vid).
Implicit Types s : WM.

Lemma safe_bind {A B : Type} (m : M A) (k : A -> M B) (Q : A -> Prop) (R : B -> Prop) :
  safe l V m Q -> (forall a, Q a -> safe l V (k a) R) -> safe l V (m ≫= k) R.
Proof.
  intros Hm Hk s H. apply wp_bind. eapply wp_mono; [by apply Hm|].
  intros a s' [H' Ha]. by apply Hk.
Qed.

Lemma safe_ret {A : Type} (a : A) (Q : A -> Prop) : Q a -> safe l V (mret a) Q.
Proof. intros HQ s H. by apply wp_ret. Qed.

Lemma safe_weaken {A : Type} (m : M A) (Q R : A -> Prop) :
  safe l V m Q -> (forall a, Q a -> R a) -> safe l V m R.
Proof. intros Hm HQR s H. eapply wp_mono; [by apply Hm|]. intros a s' []. auto. Qed.

Lemma safe_gets {A : Type} (f : WM -> A) (Q : A -> Prop) :
  (forall s, wm_ok l V s -> Q (f s)) -> safe l V (gets f) Q.
Proof. intros HQ s H. apply wp_gets. auto. Qed.

Lemma safe_when (b : bool) (m : M unit) (Q : unit -> Prop) :
  Q tt -> (b = true -> safe l V m Q) -> safe l V (when b m) Q.
Proof. intros HQ Hm s H. apply wp_when; [intros Hb; by apply Hm | auto]. Qed.

Lemma safe_modify (f : WM -> WM) :
  (forall s, wm_ok l V s -> wm_ok l V (f s)) -> safe l V (modify f) any.
Proof. intros Hf s H. apply wp_modify. split; [auto | done]. Qed.

Lemma ok_live s (w : wid) : wm_ok l V s -> w ∈ l -> is_Some (windows s !! w).
Proof. intros H. eapply zorder_live. apply H. Qed.

Lemma safe_deref (w : wid) : w ∈ l -> safe l V (deref w) (window_ok V).
Proof.
  intros Hw s H. destruct (ok_live s w H Hw) as [n E]. eapply wp_deref; [exact E|].
  split; [done|]. by apply (o_alloc _ _ _ H w).
Qed.

Lemma safe_deref_view (v : vid) : v ∈ V -> safe l V (deref_view v) (fun nv => ptr_ok l (parent nv)).
Proof.
  intros Hv s H. rewrite <- (o_views _ _ _ H) in Hv. apply elem_of_dom in Hv as [nv E].
  eapply wp_deref_view; [exact E|]. split; [done|]. eapply o_parent; eauto.
Qed.

(** An assignment to a member that is neither a link nor, unless it is a view of
    [V], the view. *)
Definition keeps_links (f : NativeWindow -> NativeWindow) : Prop :=
  forall n, previousWindow (f n) = previousWindow n /\ nextWindow (f n) = nextWindow n
            /\ (window_ok V n -> window_ok V (f n)).

Lemma zorder_alter s (w : wid) (f : NativeWindow -> NativeWindow) :
  keeps_links f -> zorder s l -> zorder (set_windows (alter f w (windows s)) s) l.
Proof.
  intros Hf [Hnd Hseg Hh Ht Hs]. split; cbn; try done.
  eapply seg_frame; [|exact Hseg]. intros a n _ E.
  destruct (decide (a = w)) as [->|].
  - exists (f n). rewrite lookup_alter_eq, E. destruct (Hf n) as (? & ? & _). auto.
  - exists n. rewrite lookup_alter_ne by done. auto.
Qed.

Lemma safe_assign (w : wid) (f : NativeWindow -> NativeWindow) :
  w ∈ l -> keeps_links f -> safe l V (assign w f) any.
Proof.
  intros Hw Hf s H. apply wp_assign_alter; [by apply ok_live|]. split; [|done].
  destruct H as [Hz Ha Hv Hp ? ? ? ? ? ?]. split; cbn; try done.
  - by apply zorder_alter.
  - intros a n E. destruct (decide (a = w)) as [->|].
    + rewrite lookup_alter_eq in E. destruct (windows s !! w) as [n0|] eqn:E0; [|done].
      injection E as <-. split; [done|]. apply Hf. by apply (Ha w).
    + rewrite lookup_alter_ne in E by done. by apply Ha.
Qed.

(** Changes outside the list, the windows and the views. *)
Lemma ok_frame s s' :
  wm_ok l V s ->
  windows s' = windows s -> views s' = views s ->
  windowList_head s' = windowList_head s -> windowList_tail s' = windowList_tail s ->
  windowList_size s' = windowList_size s ->
  ptr_ok l (focusedWindow s') ->
  (grabbedWindow s' = None \/ grabbedWindow s' = focusedWindow s') ->
  ptr_ok l (mouseWindow s') -> ptr_ok l (_dragGrabbingWindow s') ->
  ptr_ok l (touchWindow s') -> replay (notified s') = Some (focusedWindow s') ->
  wm_ok l V s'.
Proof.
  intros [[] ? ? ? _ _ _ _ _ _] Ew Ev Eh Et Es. split; rewrite ?Ew, ?Ev; try done.
  split; rewrite ?Ew, ?Eh, ?Et, ?Es; done.
Qed.

Lemma safe_notify (e : Event) : quiet e -> safe l V (notify e) any.
Proof.
  intros He. apply safe_modify. intros s H. pose proof (o_replay _ _ _ H) as Hr.
  apply (ok_frame s); try done; try apply H. cbn. rewrite Hr. apply He.
Qed.
Lemma safe_set_mouse (o : option wid) : ptr_ok l o -> safe l V (modify (set_mouseWindow o)) any.
Proof.
  intros Ho. apply safe_modify. intros s H. apply (ok_frame s); done || apply H.
Qed.

Lemma safe_set_drag (o : option wid) :
  ptr_ok l o -> safe l V (modify (set_dragGrabbingWindow o)) any.
Proof.
  intros Ho. apply safe_modify. intros s H. apply (ok_frame s); done || apply H.
Qed.

Lemma safe_set_touch (o : option wid) :
  ptr_ok l o -> safe l V (modify (set_touchWindow o)) any.
Proof.
  intros Ho. apply safe_modify. intros s H. apply (ok_frame s); done || apply H.
Qed.

(** Variables that the invariant does not mention. *)
Definition harmless (f : WM -> WM) : Prop :=
  forall s, windows (f s) = windows s /\ views (f s) = views s
    /\ windowList_head (f s) = windowList_head s
    /\ windowList_tail (f s) = windowList_tail s
    /\ windowList_size (f s) = windowList_size s
    /\ focusedWindow (f s) = focusedWindow s /\ grabbedWindow (f s) = grabbedWindow s
    /\ mouseWindow (f s) = mouseWindow s
    /\ _dragGrabbingWindow (f s) = _dragGrabbingWindow s
    /\ touchWindow (f s) = touchWindow s /\ notified (f s) = notified s.

Lemma safe_harmless (f : WM -> WM) : harmless f -> safe l V (modify f) any.
Proof.
  intros Hf. apply safe_modify. intros s H.
  destruct (Hf s) as (? & ? & ? & ? & ? & E1 & E2 & E3 & E4 & E5 & E6).
  apply (ok_frame s); rewrite ?E1, ?E2, ?E3, ?E4, ?E5, ?E6; done || apply H.
Qed.
End Rules.

(** ** Automation *)

Lemma ptr_ok_None (l : list wid) : ptr_ok l None.
Proof. done. Qed.

Lemma ptr_ok_Some (l : list wid) (w : wid) : ptr_ok l (Some w) <-> w ∈ l.
Proof. split; [intros H; by apply H | intros H w' [= ->]; done]. Qed.

Lemma any_intro {A : Type} (a : A) : any a.
Proof. exact I. Qed.

#[export] Hint Resolve ptr_ok_None any_intro : lens_safe.
#[export] Hint Resolve <- ptr_ok_Some : lens_safe.
#[export] Hint Resolve safe_deref safe_deref_view safe_set_mouse safe_set_drag
  safe_set_touch : lens_safe.
#[export] Hint Extern 2 (keeps_links _ _) => (intros ?; repeat split; done) : lens_safe.
#[export] Hint Extern 2 (quiet _) => (intros ?; reflexivity) : lens_safe.
#[export] Hint Extern 2 (harmless _) => (intros ?; repeat split; done) : lens_safe.
#[export] Hint Resolve safe_assign safe_notify safe_harmless : lens_safe.

Section Gets.
Context (l : list wid) (V : gset vid).

Lemma safe_get_any {A : Type} (f : WM -> A) : safe l V (gets f) any.
Proof. by apply safe_gets. Qed.

Lemma safe_get_focused : safe l V glass_window_getFocusedWindow (ptr_ok l).
Proof. apply safe_gets. intros s H. apply H. Qed.

Lemma safe_get_mouse : safe l V lens_wm_getMouseWindow (ptr_ok l).
Proof. apply safe_gets. intros s H. apply H. Qed.

Lemma safe_get_grabbed : safe l V lens_wm_getGrabbedWindow (ptr_ok l).
Proof.
  apply safe_gets. intros s H. destruct (o_grabbed _ _ _ H) as [->| ->]; [done|].
  apply H.
Qed.

Lemma safe_get_drag : safe l V (gets _dragGrabbingWindow) (ptr_ok l).
Proof. apply safe_gets. intros s H. apply H. Qed.

Lemma safe_get_touch : safe l V (gets touchWindow) (ptr_ok l).
Proof. apply safe_gets. intros s H. apply H. Qed.

Lemma safe_get_head : safe l V glass_window_list_getHead (ptr_ok l).
Proof.
  apply safe_gets. intros s H w. rewrite (z_head _ _ (o_zorder _ _ _ H)).
  apply head_elem.
Qed.

Lemma safe_weaken_any {A : Type} (m : M A) (Q : A -> Prop) :
  safe l V m Q -> safe l V m any.
Proof. intros H. eapply safe_weaken; [exact H | done]. Qed.
End Gets.

#[export] Hint Resolve safe_get_focused safe_get_mouse safe_get_grabbed safe_get_drag
  safe_get_touch safe_get_head : lens_safe.
#[export] Hint Resolve safe_get_any | 5 : lens_safe.

(** Facts about a pointer that a test has shown not to be [NULL]. *)
Ltac live_facts :=
  repeat match goal with
  | H : ptr_ok _ (Some _) |- _ => apply ptr_ok_Some in H
  | H : window_ok ?V ?n, E : view ?n = Some ?v |- _ =>
      lazymatch goal with
      | _ : v ∈ V |- _ => fail
      | _ => pose proof (H v E)
      end
  end.

(** One rule for the outermost construct. *)
Ltac safe_step :=
  live_facts;
  lazymatch goal with
  | |- safe ?l ?V (mbind ?k ?m) ?R =>
      first [ eapply safe_bind; [solve [eauto 4 with lens_safe] | intros ? ?; cbv beta]
            | apply (safe_bind l V m k any); [ | intros ? _; cbv beta ] ]
  | |- safe _ _ (mret _) _ => apply safe_ret
  | |- safe _ _ (when _ _) _ => apply safe_when; [by eauto with lens_safe | intros ?]
  | |- safe _ _ (match ?x with _ => _ end) _ => destruct x eqn:?; try discriminate
  | |- safe _ _ (let '_ := ?x in _) _ => destruct x eqn:?
  end.

Ltac safe_done :=
  live_facts;
  solve [ eauto 4 with lens_safe
        | eapply safe_weaken_any; eauto 4 with lens_safe ].

Ltac safe_auto := repeat first [safe_done | safe_step].

Section Notifications.
Context (l : list wid) (V : gset vid).

Lemma safe_windowEvent (w : wid) (e : WindowEventType) :
  w ∈ l -> quiet (WindowEvent w e) -> safe l V (glass_application_notifyWindowEvent w e) any.
Proof. intros Hw He. unfold glass_application_notifyWindowEvent. safe_auto. Qed.

Lemma safe_resize (w : wid) (e : ResizeEventType) (width height : Z) :
  w ∈ l -> safe l V (glass_application_notifyWindowEvent_resize w e width height) any.
Proof. intros Hw. unfold glass_application_notifyWindowEvent_resize. safe_auto. Qed.

Lemma safe_move (w : wid) (x y : Z) :
  w ∈ l -> safe l V (glass_application_notifyWindowEvent_move w x y) any.
Proof. intros Hw. unfold glass_application_notifyWindowEvent_move. safe_auto. Qed.

Lemma safe_addVisible (w : wid) :
  w ∈ l -> safe l V (glass_application_addWindowToVisibleWindowList w) any.
Proof. intros Hw. unfold glass_application_addWindowToVisibleWindowList. safe_auto. Qed.

Lemma safe_removeVisible (w : wid) :
  w ∈ l -> safe l V (glass_application_RemoveWindowFromVisibleWindowList w) any.
Proof. intros Hw. unfold glass_application_RemoveWindowFromVisibleWindowList. safe_auto. Qed.

Lemma safe_viewEvent (v : option vid) (e : ViewEventType) (x y width height : Z) :
  (forall v', v = Some v' -> v' ∈ V) ->
  safe l V (glass_application_notifyViewEvent v e x y width height) any.
Proof.
  intros Hv. unfold glass_application_notifyViewEvent.
  destruct v as [v|]; [specialize (Hv v eq_refl)|]; safe_auto.
Qed.

Lemma safe_menu (v : vid) (x y absx absy : Z) (k : bool) :
  v ∈ V -> safe l V (glass_application_notifyMenuEvent v x y absx absy k) any.
Proof. intros Hv. unfold glass_application_notifyMenuEvent. safe_auto. Qed.

Lemma safe_window_view (n : NativeWindow) :
  window_ok V n -> safe l V (window_view n) (fun ov => forall v, ov = Some v -> v ∈ V).
Proof.
  intros Hn. unfold window_view. repeat safe_step; [|done].
  intros v' Hv'. destruct (lensView a); [|done]. by injection Hv' as <-.
Qed.
End Notifications.

#[export] Hint Resolve safe_windowEvent safe_resize safe_move safe_addVisible
  safe_removeVisible safe_viewEvent safe_menu safe_window_view : lens_safe.
#[export] Hint Extern 1 (forall v, view _ = Some v -> v ∈ _) => assumption : lens_safe.
#[export] Hint Extern 1 (forall v, Some _ = Some v -> v ∈ _) =>
  (intros ? [= <-]; assumption) : lens_safe.

Section Events.
Context (l : list wid) (V : gset vid).

(** What a window gets through its view, or a note that it is disabled. *)
Lemma safe_mouseEvent (w : wid) (eventType x y absx absy button : Z) :
  w ∈ l ->
  safe l V (glass_application_notifyMouseEvent w eventType x y absx absy button) any.
Proof.
  intros Hw. unfold glass_application_notifyMouseEvent.
  repeat first [safe_done | safe_step].
Qed.

Lemma safe_scroll (w : wid) (x y xabs yabs step : Z) :
  w ∈ l -> safe l V (glass_application_notifyScrollEvent w x y xabs yabs step) any.
Proof. intros Hw. unfold glass_application_notifyScrollEvent. safe_auto. Qed.

Lemma safe_multiTouch (w : wid) (states ids xs ys : list Z) (dx dy : Z) :
  w ∈ l -> safe l V (glass_application_notifyMultiTouchEvent w states ids xs ys dx dy) any.
Proof. intros Hw. unfold glass_application_notifyMultiTouchEvent. safe_auto. Qed.

Lemma safe_keyEvent (trap : bool) (w : option wid) (eventType code : Z) (rep : bool) :
  ptr_ok l w -> safe l V (glass_application_notifyKeyEvent trap w eventType code rep) any.
Proof. intros Hw. unfold glass_application_notifyKeyEvent. safe_auto. Qed.
End Events.

#[export] Hint Resolve safe_mouseEvent safe_scroll safe_multiTouch safe_keyEvent : lens_safe.

(** ** Focus *)

Lemma wp_windowEvent (w : wid) (e : WindowEventType) (Q : unit -> WM -> Prop) (s : WM) :
  is_Some (windows s !! w) -> Q tt (set_notified (WindowEvent w e :: notified s) s) ->
  wp (glass_application_notifyWindowEvent w e) Q s.
Proof.
  intros [n E] HQ. unfold glass_application_notifyWindowEvent. wp_go.
  eapply wp_deref; [exact E|]. by wp_go.
Qed.

Section Focus.
Context (l : list wid) (V : gset vid).

Lemma wp_ungrab (s : WM) (w : wid) :
  wm_ok l V s -> w ∈ l ->
  wp (glass_window_ungrabFocus (Some w)) (fun _ s' =>
    wm_ok l V s' /\ focusedWindow s' = focusedWindow s
    /\ (focusedWindow s = Some w -> grabbedWindow s' = None)) s.
Proof.
  intros H Hw. unfold glass_window_ungrabFocus, lens_wm_getGrabbedWindow,
    lens_wm_setGrabbedWindow. wp_go.
  destruct (o_grabbed _ _ _ H) as [Hg|Hg]; destruct (decide _) as [E|E];
    try (rewrite <- E in Hg; discriminate).
  - apply wp_ret. auto.
  - rewrite <- E in Hg. wp_go. apply wp_windowEvent; [exact (ok_live l V s w H Hw)|].
    split; [|done]. apply (ok_frame l V s); try done; try apply H; cbn; [auto|].
    rewrite (o_replay _ _ _ H). cbn. by rewrite <- Hg, decide_True.
  - apply wp_ret. split; [done|]. split; [done|]. congruence.
Qed.

Lemma wp_setFocused (s : WM) (o : option wid) :
  wm_ok l V s -> ptr_ok l o ->
  wp (lens_wm_setFocusedWindow o) (fun _ s' => wm_ok l V s' /\ focusedWindow s' = o) s.
Proof.
  intros H Ho. unfold lens_wm_setFocusedWindow, glass_window_getFocusedWindow,
    glass_window_setFocusedWindow. wp_go.
  destruct (decide _) as [->|Hne]; [by apply wp_ret|]. wp_go.
  apply (wp_mono _ (fun _ s1 => wm_ok l V (set_focusedWindow None s1)
                                /\ grabbedWindow s1 = None)).
  { destruct (focusedWindow s) as [f|] eqn:Ef.
    - wp_go. assert (Hf : f ∈ l) by (by apply (o_focused _ _ _ H)).
      eapply wp_mono; [by apply (wp_ungrab s f)|]. intros [] s1 (H1 & E1 & Hg).
      rewrite Ef in *. apply wp_windowEvent; [by apply (ok_live l V)|].
      split; [|by apply Hg]. apply (ok_frame l V s1); try done; try apply H1; cbn.
      + left. by apply Hg.
      + rewrite (o_replay _ _ _ H1). cbn. by rewrite decide_True.
    - assert (Hg : grabbedWindow s = None) by (destruct (o_grabbed _ _ _ H); congruence).
      apply wp_ret. split; [|done]. apply (ok_frame l V s); try done; try apply H; cbn.
      + by left.
      + by rewrite (o_replay _ _ _ H), Ef. }
  intros [] s1 [H1 Hg]. wp_go. destruct o as [w|].
  - apply wp_windowEvent; [apply (ok_live l V _ _ H1); by apply Ho|]. split; [|done].
    apply (ok_frame l V (set_focusedWindow None s1)); try done; try apply H1; cbn.
    + by left.
    + pose proof (o_replay _ _ _ H1) as Hr. cbn in Hr. by rewrite Hr.
  - apply wp_ret. done.
Qed.

Lemma safe_ungrab (o : option wid) :
  ptr_ok l o -> safe l V (glass_window_ungrabFocus o) any.
Proof.
  intros Ho s H. destruct o as [w|]; [|by unfold glass_window_ungrabFocus; wp_go].
  eapply wp_mono; [apply wp_ungrab; [done | by apply Ho]|]. intros [] s' []. done.
Qed.

Lemma safe_setFocused (o : option wid) :
  ptr_ok l o -> safe l V (lens_wm_setFocusedWindow o) any.
Proof.
  intros Ho s H. eapply wp_mono; [by apply wp_setFocused|]. intros [] s' []. done.
Qed.
End Focus.

#[export] Hint Resolve safe_ungrab safe_setFocused : lens_safe.

(** ** Searching the list *)

(** The last window of [l] that passes the test. *)
Definition topmost (test : NativeWindow -> bool) (ws : gmap wid NativeWindow)
    (l : list wid) : option wid :=
  List.find (fun w => match ws !! w with Some n => test n | None => false end) (rev l).

Lemma topmost_snoc (test : NativeWindow -> bool) (ws : gmap wid NativeWindow)
    (l : list wid) (w : wid) (n : NativeWindow) :
  ws !! w = Some n ->
  topmost test ws (l ++ [w]) = if test n then Some w else topmost test ws l.
Proof. intros E. unfold topmost. rewrite rev_app_distr. cbn. by rewrite E. Qed.

Lemma topmost_spec (test : NativeWindow -> bool) (ws : gmap wid NativeWindow)
    (l : list wid) (w : wid) :
  topmost test ws l = Some w ->
  w ∈ l /\ exists n, ws !! w = Some n /\ test n = true.
Proof.
  intros H. apply List.find_some in H as [Hin Ht]. rewrite <- List.in_rev in Hin.
  split; [by apply list_elem_of_In|].
  destruct (ws !! w) as [n|]; [eauto | discriminate].
Qed.

Lemma search_back_ok (s : WM) (test : NativeWindow -> bool) (l : list wid) :
  forall (fuel : nat) (next : option wid),
  seg (windows s) None l next -> (length l < fuel)%nat ->
  search_back test fuel (last l) s = Some (topmost test (windows s) l, s).
Proof.
  induction l as [|w l IH] using rev_ind; intros [|fuel] next H Hf;
    rewrite ?length_app in Hf; cbn in Hf; try lia; [done|].
  apply seg_app in H as [H [(n & E & Hp & _) _]].
  rewrite last_snoc, (topmost_snoc _ _ _ _ _ E). cbn [search_back].
  unfold mbind, M_bind, deref. rewrite E. destruct (test n); [done|].
  rewrite Hp, last_or_None. eapply IH; [exact H | lia].
Qed.

Lemma wp_search_list (s : WM) (l : list wid) (test : NativeWindow -> bool)
    (Q : option wid -> WM -> Prop) :
  zorder s l -> Q (topmost test (windows s) l) s -> wp (search_list test) Q s.
Proof.
  intros H HQ. unfold search_list, list_fuel, glass_window_list_getTail. wp_go.
  unfold wp. rewrite (z_tail _ _ H).
  rewrite (search_back_ok _ _ _ _ None); [done | apply H | by apply zorder_fuel].
Qed.

Section Requests.
Context (l : list wid) (V : gset vid).

Lemma safe_search_list (test : NativeWindow -> bool) :
  safe l V (search_list test) (ptr_ok l).
Proof.
  intros s H. eapply wp_search_list; [apply H|]. split; [done|].
  intros w Hw%topmost_spec. apply Hw.
Qed.

#[local] Hint Resolve safe_search_list : lens_safe.

Lemma safe_find (absX absY : Z) :
  safe l V (glass_window_findWindowAtLocation absX absY) (fun r => ptr_ok l r.1).
Proof. unfold glass_window_findWindowAtLocation. safe_auto; cbn; auto with lens_safe. Qed.

Lemma safe_unsetFocused (w : wid) :
  w ∈ l -> safe l V (lens_wm_unsetFocusedWindow w) (ptr_ok l).
Proof. intros Hw. unfold lens_wm_unsetFocusedWindow. safe_auto. Qed.

Lemma safe_repaint (o : option wid) : ptr_ok l o -> safe l V (lens_wm_repaint o) any.
Proof. intros Ho. unfold lens_wm_repaint. safe_auto. Qed.

#[local] Hint Resolve safe_find safe_unsetFocused safe_repaint : lens_safe.

Lemma safe_setBounds (w : wid) (x y width height : Z) (p z c : bool) :
  w ∈ l -> safe l V (glass_window_setBoundsImpl w x y width height p z c) any.
Proof. intros Hw. unfold glass_window_setBoundsImpl. cbv zeta. safe_auto. Qed.

#[local] Hint Resolve safe_setBounds : lens_safe.

Lemma safe_restore (w : wid) : w ∈ l -> safe l V (lens_wm_windowRestore w) any.
Proof.
  intros Hw. unfold lens_wm_windowRestore, lens_wm_windowUncacheBounds. cbv zeta.
  safe_auto.
Qed.

#[local] Hint Resolve safe_restore : lens_safe.

Lemma safe_minimize (w : wid) : w ∈ l -> safe l V (lens_wm_windowMinimize w) any.
Proof.
  intros Hw. unfold lens_wm_windowMinimize, lens_wm_windowCacheBounds. cbv zeta.
  safe_auto.
Qed.

Lemma safe_maximize (w : wid) : w ∈ l -> safe l V (lens_wm_windowMaximize w) any.
Proof.
  intros Hw. unfold lens_wm_windowMaximize, lens_wm_windowCacheBounds. cbv zeta.
  safe_auto.
Qed.

Lemma safe_fullscreen (w : wid) : w ∈ l -> safe l V (lens_wm_windowEnterFullscreen w) any.
Proof.
  intros Hw. unfold lens_wm_windowEnterFullscreen, lens_wm_windowCacheBounds. cbv zeta.
  safe_auto.
Qed.
End Requests.

#[export] Hint Resolve safe_search_list safe_find safe_unsetFocused safe_repaint
  safe_setBounds safe_restore safe_minimize safe_maximize safe_fullscreen : lens_safe.

Section Calls.
Context (l : list wid) (V : gset vid).

Lemma safe_requestFocus (o : option wid) :
  ptr_ok l o -> safe l V (glass_window_requestFocus o) any.
Proof. intros Ho. unfold glass_window_requestFocus. safe_auto. Qed.

Lemma safe_setFocusable (w : wid) (b : bool) :
  w ∈ l -> safe l V (glass_window_setFocusable w b) any.
Proof. intros Hw. unfold glass_window_setFocusable. safe_auto. Qed.

Lemma safe_setVisible (w : wid) (b : bool) :
  w ∈ l -> safe l V (glass_window_setVisible w b) any.
Proof. intros Hw. unfold glass_window_setVisible. safe_auto. Qed.

Lemma safe_grabFocus (w : wid) : safe l V (glass_window_grabFocus w) any.
Proof.
  intros s H. unfold glass_window_grabFocus, lens_wm_getGrabbedWindow,
    glass_window_getFocusedWindow, lens_wm_setGrabbedWindow. wp_go.
  destruct (decide _); [by wp_go|]. wp_go. destruct (decide _) as [[_ Hf]|]; [|by wp_go].
  wp_go. split; [|done]. apply (ok_frame l V s); try done; try apply H. by right.
Qed.

Lemma safe_apply_limits (w : wid) : w ∈ l -> safe l V (apply_limits w) any.
Proof. intros Hw. unfold apply_limits. cbv zeta. safe_auto. Qed.

#[local] Hint Resolve safe_apply_limits : lens_safe.

Lemma safe_setMinimumSize (w : wid) (width height : Z) :
  w ∈ l -> safe l V (glass_window_setMinimumSize w width height) any.
Proof. intros Hw. unfold glass_window_setMinimumSize. safe_auto. Qed.

Lemma safe_setMaximumSize (w : wid) (width height : Z) :
  w ∈ l -> safe l V (glass_window_setMaximumSize w width height) any.
Proof. intros Hw. unfold glass_window_setMaximumSize. safe_auto. Qed.

Lemma safe_enterFullscreen (v : vid) : v ∈ V -> safe l V (glass_view_enterFullscreen v) any.
Proof. intros Hv. unfold glass_view_enterFullscreen. safe_auto. Qed.

Lemma safe_exitFullscreen (v : vid) : v ∈ V -> safe l V (glass_view_exitFullscreen v) any.
Proof. intros Hv. unfold glass_view_exitFullscreen. safe_auto. Qed.

Lemma safe_assign_view (v : vid) (f : NativeView -> NativeView) :
  v ∈ V -> (forall nv, ptr_ok l (parent (f nv))) -> safe l V (assign_view v f) any.
Proof.
  intros Hv Hf s H. pose proof Hv as Hv'. rewrite <- (o_views _ _ _ H) in Hv'.
  apply elem_of_dom in Hv' as [nv E]. eapply wp_assign_view; [exact E|]. split; [|done].
  destruct H as [[] ? <- Hp ? ? ? ? ? ?]. split; cbn; try done.
  - rewrite dom_insert_L. set_solver.
  - intros v' nv' E'. destruct (decide (v = v')) as [<-|Hne].
    + rewrite lookup_insert_eq in E'. injection E' as <-. apply Hf.
    + rewrite lookup_insert_ne in E' by done. eauto.
Qed.

#[local] Hint Resolve safe_assign_view : lens_safe.
#[local] Hint Extern 2 (ptr_ok _ (parent _)) => (cbn; solve [eauto with lens_safe]) : lens_safe.

Lemma safe_setParent (o : option wid) (v : vid) :
  ptr_ok l o -> v ∈ V -> safe l V (glass_view_setParent o v) any.
Proof. intros Ho Hv. unfold glass_view_setParent. safe_auto. Qed.

Lemma safe_setAlpha (w : wid) : w ∈ l -> safe l V (glass_window_setAlpha w) any.
Proof. intros Hw. unfold glass_window_setAlpha. safe_auto. Qed.

Lemma safe_at_index (a : list Z) (i : Z) :
  0 <= i < Z.of_nat (length a) -> safe l V (at_index a i) any.
Proof.
  intros Hi. unfold at_index. replace (i <? 0) with false by lia.
  destruct (a !! Z.to_nat i) eqn:E; [by apply safe_ret|].
  apply lookup_ge_None in E. lia.
Qed.

Lemma safe_enterExit : safe l V lens_wm_notifyEnterExitEvents (fun r => ptr_ok l r.1).
Proof.
  unfold lens_wm_notifyEnterExitEvents.
  safe_auto; cbn in *; auto with lens_safe.
Qed.
End Calls.

#[export] Hint Resolve safe_requestFocus safe_setFocusable safe_setVisible safe_grabFocus
  safe_setMinimumSize safe_setMaximumSize safe_enterFullscreen safe_exitFullscreen
  safe_setParent safe_setAlpha safe_enterExit : lens_safe.

Section Pointer.
Context (l : list wid) (V : gset vid).

Lemma safe_motion (x y : Z) : safe l V (lens_wm_notifyMotionEvent x y) any.
Proof.
  unfold lens_wm_notifyMotionEvent, lens_wm_setMouseWindow. safe_auto; cbn in *; safe_auto.
Qed.

Lemma safe_click (x y : Z) : safe l V (handleClickOrTouchEvent x y) any.
Proof. unfold handleClickOrTouchEvent. cbv zeta. safe_auto. Qed.

Lemma safe_stop_dragging : safe l V stop_dragging any.
Proof. unfold stop_dragging. safe_auto. Qed.

#[local] Hint Resolve safe_motion safe_click safe_stop_dragging : lens_safe.

Lemma safe_button (pressed : bool) (button x y : Z) :
  safe l V (lens_wm_notifyButtonEvent pressed button x y) any.
Proof.
  unfold lens_wm_notifyButtonEvent, lens_wm_setMouseWindow. safe_auto; cbn in *; safe_auto.
Qed.

Lemma safe_scrollEvent (x y step : Z) : safe l V (lens_wm_notifyScrollEvent x y step) any.
Proof. unfold lens_wm_notifyScrollEvent. safe_auto; cbn in *; safe_auto. Qed.

#[local] Hint Resolve safe_button : lens_safe.

(** The arrays of a touch event have one entry per point, and the primary point
    is one of them or -1. *)
Definition touch_args (states ids xabs yabs : list Z) (primary : Z) : Prop :=
  length ids = length states /\ length xabs = length states
  /\ length yabs = length states /\ -1 <= primary < Z.of_nat (length states).

Lemma safe_touch (states ids xabs yabs : list Z) (primary : Z) :
  touch_args states ids xabs yabs primary ->
  safe l V (lens_wm_notifyMultiTouchEvent states ids xabs yabs primary) any.
Proof.
  intros (Hi & Hx & Hy & Hp). unfold lens_wm_notifyMultiTouchEvent.
  assert (Hat : forall a, length a = length states -> primary <> -1 ->
                safe l V (at_index a primary) any)
    by (intros a Ha Hne; apply safe_at_index; rewrite Ha; lia).
  repeat first [ safe_done | apply Hat; [congruence | lia] | safe_step ].
  all: try (apply Hat; [done|]; apply andb_true_iff in Heqb as [Heqb _];
            apply andb_true_iff in Heqb as [_ Heqb]; lia).
  all: try lia.
Qed.
End Pointer.
