(* ===== verification/LensRequests.v ===== *)
(** * Requests to the window manager

    Everything that the outside asks of the window manager: the calls of Java and
    the events of the input devices, each with what the caller has to respect.
    From a state that satisfies the invariant every request that respects its
    contract runs without undefined behaviour and gives such a state again. *)

From S2P Require Import LensState LensList LensWM LensSafe.

Inductive request : Type :=
  | CreateWindow (address : wid) (owner : option wid)
  | CreateChildWindow (address : wid) (owner : option wid)
  | CloseWindow (mallocs : bool) (w : option wid)
  | AttachView (w : option wid) (v : option vid)
  | Minimize (w : option wid) (b : bool)
  | Maximize (w : option wid) (b was : bool)
  | SetBounds (w : option wid) (x y width height : Z) (position size content : bool)
  | SetVisible (w : option wid) (b : bool)
  | RequestFocus (w : option wid)
  | SetFocusable (w : option wid) (b : bool)
  | SetAlpha (w : option wid)
  | SetEnabled (w : option wid) (b : bool)
  | SetMinimumSize (w : option wid) (width height : Z)
  | SetMaximumSize (w : option wid) (width height : Z)
  | BringToFront (w : option wid)
  | SendToBack (w : option wid)
  | GrabFocus (w : option wid)
  | UngrabFocus (w : option wid)
  | CreateView (address : vid) (globalRef : bool)
  | CloseView (v : vid)
  | EnterFullscreen (v : vid)
  | ExitFullscreen (v : vid)
  | SetParent (v : vid) (w : option wid)
  | DnDStarted
  | DnDEnded
  | Motion (x y : Z)
  | ButtonChange (pressed : bool) (button x y : Z)
  | Scroll (x y step : Z)
  | Touch (states ids xs ys : list Z) (primary : Z)
  | KeyChange (trapCtrlC : bool) (eventType code : Z) (isRepeat : bool).

Definition ignore {A : Type} (m : M A) : M unit := _ ← m; mret tt.

(** The input devices send keys to the focused window. *)
Definition run (r : request) : M unit :=
  match r with
  | CreateWindow a o => ignore (LensWindow_createWindow true (Some a) true true o)
  | CreateChildWindow a o => ignore (LensWindow_createChildWindow true (Some a) true true o)
  | CloseWindow mallocs w => ignore (LensWindow_close mallocs w)
  | AttachView w v => ignore (LensWindow_attachViewToWindow w v)
  | Minimize w b => ignore (LensWindow_minimize w b)
  | Maximize w b was => ignore (LensWindow_maximize w b was)
  | SetBounds w x y width height p z c =>
      LensWindow_setBoundsImpl w x y width height p z c
  | SetVisible w b => ignore (LensWindow_setVisible w b)
  | RequestFocus w => ignore (LensWindow_requestFocus w)
  | SetFocusable w b => LensWindow_setFocusable w b
  | SetAlpha w => LensWindow_setAlpha w
  | SetEnabled w b => LensWindow_setEnabled w b
  | SetMinimumSize w width height => ignore (LensWindow_setMinimumSize w width height)
  | SetMaximumSize w width height => ignore (LensWindow_setMaximumSize w width height)
  | BringToFront w => LensWindow_toFrontImpl w
  | SendToBack w => LensWindow_toBackImpl w
  | GrabFocus w => ignore (LensWindow_grabFocus w)
  | UngrabFocus w => LensWindow_ungrabFocus w
  | CreateView a g => ignore (LensView_createNativeView (Some a) g)
  | CloseView v => ignore (LensView_close (Some v))
  | EnterFullscreen v => ignore (LensView_enterFullscreen (Some v))
  | ExitFullscreen v => LensView_exitFullscreen (Some v)
  | SetParent v w => LensView_setParent (Some v) w
  | DnDStarted => notify_lens_wm_DnDStarted
  | DnDEnded => notify_lens_wm_DnDEnded
  | Motion x y => lens_wm_notifyMotionEvent x y
  | ButtonChange pressed button x y => lens_wm_notifyButtonEvent pressed button x y
  | Scroll x y step => lens_wm_notifyScrollEvent x y step
  | Touch states ids xs ys p => lens_wm_notifyMultiTouchEvent states ids xs ys p
  | KeyChange trap eventType code rep =>
      w ← glass_window_getFocusedWindow;
      glass_application_notifyKeyEvent trap w eventType code rep
  end.

(** A handle is [NULL] or that of a window. *)
Definition handle_ok (s : WM) (w : option wid) : Prop :=
  forall a, w = Some a -> is_Some (windows s !! a).

(** A window can be closed when Java has removed its view, no view has it as
    parent, and it is neither dragged from nor touched; and the array of the
    windows to notify must be got. *)
Definition closable (s : WM) (mallocs : bool) (w : wid) : Prop :=
  (forall n, windows s !! w = Some n -> view n = None)
  /\ (forall v nv, views s !! v = Some nv -> parent nv <> Some w)
  /\ _dragGrabbingWindow s <> Some w /\ touchWindow s <> Some w
  /\ (mallocs = true \/ windowList_size s <= LENS_STATIC_WINDOWS_LIST_SIZE).

(** What the caller has to respect.  The addresses of new structures are those of
    no other; there are fewer than 2^31 - 1 windows. *)
Definition allowed (s : WM) (r : request) : Prop :=
  match r with
  | CreateWindow a o | CreateChildWindow a o =>
      windows s !! a = None /\ handle_ok s o
      /\ Z.of_nat (size (windows s)) < 2147483646
  | CloseWindow mallocs w =>
      handle_ok s w /\ forall a, w = Some a -> closable s mallocs a
  | AttachView w v => handle_ok s w /\ forall a, v = Some a -> is_Some (views s !! a)
  | CreateView a _ => views s !! a = None
  | CloseView v =>
      is_Some (views s !! v) /\ forall w n, windows s !! w = Some n -> view n <> Some v
  | EnterFullscreen v | ExitFullscreen v => is_Some (views s !! v)
  | SetParent v w => is_Some (views s !! v) /\ handle_ok s w
  | Touch states ids xs ys p => touch_args states ids xs ys p
  | Minimize w _ | Maximize w _ _ | SetBounds w _ _ _ _ _ _ _ | SetVisible w _
  | RequestFocus w | SetFocusable w _ | SetAlpha w | SetEnabled w _
  | SetMinimumSize w _ _ | SetMaximumSize w _ _ | BringToFront w | SendToBack w
  | GrabFocus w | UngrabFocus w => handle_ok s w
  | _ => True
  end.

(** The contract can be checked. *)
#[global] Instance option_forall_dec {A : Type} (o : option A) (P : A -> Prop)
    `{forall a, Decision (P a)} : Decision (forall a, o = Some a -> P a).
Proof.
  destruct o as [a|]; [destruct (decide (P a)) as [Ha|Ha]|].
  - left. by intros ? [= <-].
  - right. auto.
  - by left.
Defined.

#[global] Instance handle_ok_dec (s : WM) (w : option wid) : Decision (handle_ok s w).
Proof. unfold handle_ok. apply _. Defined.

#[global] Instance closable_dec (s : WM) (mallocs : bool) (w : wid) :
  Decision (closable s mallocs w).
Proof.
  unfold closable.
  apply and_dec; [apply _|]. apply and_dec; [|apply _].
  apply (map_Forall_dec (fun _ nv => parent nv <> Some w)).
Defined.

#[global] Instance touch_args_dec (states ids xs ys : list Z) (p : Z) :
  Decision (touch_args states ids xs ys p).
Proof. unfold touch_args. apply _. Defined.

#[global] Instance allowed_dec (s : WM) (r : request) : Decision (allowed s r).
Proof.
  destruct r; cbn [allowed]; apply _.
Defined.

(** The number of windows, counted by an [int], stays below 2^31. *)
Definition ok (s : WM) : Prop :=
  exists l V, wm_ok l V s /\ Z.of_nat (length l) < 2147483648.

(** The state when the application starts, on a screen of the given size. *)
Definition initial (width height : Z) : WM :=
  mkWM ∅ ∅ None None 0 None None None 0 0 false None BUTTON_NONE None false
    width height no_modifiers [].

Inductive reachable : WM -> Prop :=
  | reach_initial (width height : Z) : reachable (initial width height)
  | reach_step (s s' : WM) (r : request) :
      reachable s -> allowed s r -> run r s = Some (tt, s') -> reachable s'.

(** ** Requests that keep the windows and the views *)

Lemma ok_ptr (l : list wid) (V : gset vid) (s : WM) (w : option wid) :
  wm_ok l V s -> handle_ok s w -> ptr_ok l w.
Proof. intros H Hw a Ha. destruct (Hw a Ha) as [n E]. by apply (o_alloc _ _ _ H a n). Qed.

Lemma ok_view (l : list wid) (V : gset vid) (s : WM) (v : vid) :
  wm_ok l V s -> is_Some (views s !! v) -> v ∈ V.
Proof. intros H Hv. rewrite <- (o_views _ _ _ H). by apply elem_of_dom. Qed.

Section Plain.
Context (l : list wid) (V : gset vid).

Lemma safe_with_handle {A : Type} (ptr : option wid) (failed : A) (f : wid -> M A) :
  ptr_ok l ptr -> (forall w, w ∈ l -> safe l V (f w) any) ->
  safe l V (with_handle ptr failed f) any.
Proof.
  intros Hptr Hf. unfold with_handle. destruct ptr as [w|]; [apply Hf; by apply Hptr|].
  safe_auto.
Qed.

Lemma safe_attach (w : wid) (v : option vid) :
  w ∈ l -> (forall a, v = Some a -> a ∈ V) -> safe l V (assign w (set_view v);; mret true) any.
Proof.
  intros Hw Hv. eapply safe_bind; [|intros; by apply safe_ret].
  apply safe_assign; [done|]. intros n. split; [done|]. split; [done|]. intros _. exact Hv.
Qed.

Lemma safe_setEnabled (ptr : option wid) (b : bool) :
  ptr_ok l ptr -> safe l V (LensWindow_setEnabled ptr b) any.
Proof. intros Hptr. apply safe_with_handle; [done|]. intros w Hw. safe_auto. Qed.

Lemma safe_ignore {A : Type} (m : M A) : safe l V m any -> safe l V (ignore m) any.
Proof. intros H. eapply safe_bind; [exact H|]. intros. by apply safe_ret. Qed.

(** The requests that neither change the order of windows nor create or free
    anything. *)
Definition plain (r : request) : bool :=
  match r with
  | CreateWindow _ _ | CreateChildWindow _ _ | CloseWindow _ _ | BringToFront _
  | SendToBack _ | CreateView _ _ | CloseView _ => false
  | _ => true
  end.

Lemma plain_safe (r : request) (s : WM) :
  plain r = true -> wm_ok l V s -> allowed s r -> safe l V (run r) any.
Proof.
  intros Hr H Hallowed.
  destruct r; try discriminate Hr; cbn [run allowed] in *;
    repeat match goal with
    | K : _ /\ _ |- _ => destruct K
    | K : handle_ok s _ |- _ => apply (ok_ptr l V s _ H) in K
    | K : is_Some (views s !! _) |- _ => apply (ok_view l V s _ H) in K
    end.
  all: try (apply safe_ignore).
  all: try (apply safe_with_handle; [done|]; intros ? ?).
  all: unfold glass_window_minimize, glass_window_maximize,
    notify_lens_wm_DnDStarted, notify_lens_wm_DnDEnded.
  all: try (by apply safe_setEnabled).
  all: try (by apply safe_touch).
  all: try (by apply safe_motion).
  all: try (by apply safe_button).
  all: try (by apply safe_scrollEvent).
  all: try (apply safe_attach; [done|]; intros a ->; eapply ok_view; eauto).
  all: try (exact (safe_enterFullscreen l V v Hallowed)).
  all: try (exact (safe_ignore _ (safe_exitFullscreen l V v Hallowed))).
  all: try (by apply (safe_setParent l V w v)).
  all: repeat first [safe_done | apply safe_stop_dragging | safe_step].
Qed.
End Plain.

(** ** Requests that change the list of windows *)

(** The invariant without the list. *)
Definition rest_ok (l : list wid) (V : gset vid) (s : WM) : Prop :=
  (forall w n, windows s !! w = Some n -> w ∈ l /\ window_ok V n)
  /\ dom (views s) = V
  /\ (forall v nv, views s !! v = Some nv -> ptr_ok l (parent nv))
  /\ ptr_ok l (focusedWindow s)
  /\ (grabbedWindow s = None \/ grabbedWindow s = focusedWindow s)
  /\ ptr_ok l (mouseWindow s) /\ ptr_ok l (_dragGrabbingWindow s)
  /\ ptr_ok l (touchWindow s) /\ replay (notified s) = Some (focusedWindow s).

Lemma wm_ok_rest (l : list wid) (V : gset vid) (s : WM) :
  wm_ok l V s <-> zorder s l /\ rest_ok l V s.
Proof.
  split.
  - intros []. repeat split; auto; try apply o_zorder; try apply o_alloc; eauto.
    all: eapply o_alloc; eauto.
  - intros (Hz & Ha & Hv & Hp & Hf & Hg & Hm & Hd & Ht & Hr). by split.
Qed.

(** The list functions keep the rest. *)
Lemma forget_window (s s' : WM) (w : wid) (n' : NativeWindow) :
  forget s' = forget s -> windows s' !! w = Some n' ->
  exists n, windows s !! w = Some n /\ strip n' = strip n.
Proof.
  intros E E'. apply (f_equal windows) in E. cbn in E.
  apply (f_equal (lookup w)) in E. rewrite !lookup_fmap, E' in E. cbn in E.
  destruct (windows s !! w) as [n|]; [|discriminate]. cbn in E.
  exists n. split; [done|]. congruence.
Qed.

Lemma strip_view (n n' : NativeWindow) : strip n' = strip n -> view n' = view n.
Proof. intros E. exact (f_equal view E). Qed.

Lemma rest_forget (l : list wid) (V : gset vid) (s s' : WM) :
  forget s' = forget s -> rest_ok l V s -> rest_ok l V s'.
Proof.
  intros E (Ha & Hv & Hp & Hf & Hg & Hm & Hd & Ht & Hr).
  pose proof (f_equal views E) as E1. pose proof (f_equal focusedWindow E) as E2.
  pose proof (f_equal grabbedWindow E) as E3. pose proof (f_equal mouseWindow E) as E4.
  pose proof (f_equal _dragGrabbingWindow E) as E5.
  pose proof (f_equal touchWindow E) as E6. pose proof (f_equal notified E) as E7.
  cbn in E1, E2, E3, E4, E5, E6, E7. unfold rest_ok.
  rewrite E1, E2, E3, E4, E5, E6, E7. split; [|done].
  intros w n' En'. destruct (forget_window s s' w n' E En') as (n & En & Es).
  destruct (Ha w n En) as [Hw Hn]. split; [done|]. unfold window_ok.
  by rewrite (strip_view _ _ Es).
Qed.

Lemma rest_mono (l l' : list wid) (V : gset vid) (s : WM) :
  (forall w, w ∈ l -> w ∈ l') -> rest_ok l V s -> rest_ok l' V s.
Proof.
  intros Hl (Ha & Hv & Hp & Hf & Hg & Hm & Hd & Ht & Hr). unfold rest_ok, ptr_ok in *.
  repeat split; eauto; try (eapply Ha; eauto). apply Hl. eapply Ha. eauto.
Qed.

Lemma elem_without (w a : wid) (l : list wid) : a ∈ without w l <-> a <> w /\ a ∈ l.
Proof. unfold without. by rewrite list_elem_of_filter. Qed.

Lemma list_spec_elem (op : list_op) (l : list wid) (a : wid) :
  match op with ToFront _ | ToBack _ => True | _ => False end ->
  a ∈ (list_spec op l).1 <-> a ∈ l.
Proof.
  destruct op as [w|w|w|w]; cbn [list_spec]; intros Hop; try done;
    case_bool_decide as Hw; cbn [andb]; try done;
    case_bool_decide; cbn [negb fst]; try done;
    rewrite ?elem_of_app, ?elem_of_cons, ?elem_without, ?elem_of_nil;
    destruct (decide (a = w)) as [->|]; tauto.
Qed.

Lemma list_spec_length (op : list_op) (l : list wid) :
  match op with ToFront _ | ToBack _ => True | _ => False end -> NoDup l ->
  length (list_spec op l).1 = length l.
Proof.
  intros Hop Hnd. destruct op as [w|w|w|w]; cbn [list_spec]; try done;
    case_bool_decide as Hw; cbn [andb]; try done;
    case_bool_decide; cbn [negb fst]; try done;
    destruct (split_at w l Hw) as (l1 & l2 & ->);
    rewrite without_app by done; rewrite ?length_app; cbn; rewrite ?length_app; cbn; lia.
Qed.

(** Bringing a window to the front or to the back, then painting it. *)
Lemma reorder_ok (op : list_op) (m : M bool) (w : wid) (s : WM) :
  match op with ToFront _ | ToBack _ => True | _ => False end ->
  (forall l, zorder s l -> refines m s (list_spec op l)) ->
  ok s -> is_Some (windows s !! w) ->
  wp (changed ← m; when changed (lens_wm_repaint (Some w))) (fun _ s' => ok s') s.
Proof.
  intros Hop Hm (l & V & H & Hlen) [n Hw]. apply wp_bind.
  pose proof H as [Hz Hrest]%wm_ok_rest.
  eapply wp_mono; [exact (Hm l Hz)|]. intros b s1 (_ & Hz1 & Hf).
  assert (H1 : wm_ok (list_spec op l).1 V s1).
  { apply wm_ok_rest. split; [done|]. apply (rest_forget _ _ s); [done|].
    apply (rest_mono l); [|done]. intros a. by apply list_spec_elem. }
  assert (Hw1 : w ∈ (list_spec op l).1)
    by (apply list_spec_elem; [done|]; by apply (o_alloc _ _ _ H w n)).
  eapply wp_mono.
  - apply (safe_when (list_spec op l).1 V b (lens_wm_repaint (Some w)) any);
      [done | intros _ | exact H1].
    apply safe_repaint. by apply ptr_ok_Some.
  - intros [] s2 [H2 _]. exists (list_spec op l).1, V. split; [done|].
    rewrite list_spec_length; [done | done | apply Hz].
Qed.

(** ** Creating a window *)

Lemma wp_assign_new (s : WM) (ws : gmap wid NativeWindow) (a : wid) (n : NativeWindow)
    (f : NativeWindow -> NativeWindow) (Q : unit -> WM -> Prop) :
  Q tt (set_windows (<[a := f n]> ws) s) -> wp (assign a f) Q (set_windows (<[a := n]> ws) s).
Proof.
  intros HQ. eapply wp_assign; [apply lookup_insert_eq|]. cbn.
  rewrite insert_insert_eq. exact HQ.
Qed.

(** The window list after [glass_window_list_add]. *)
Lemma wp_list_add (s : WM) (l : list wid) (a : wid) (Q : unit -> WM -> Prop) :
  zorder s l -> is_Some (windows s !! a) -> a ∉ l ->
  (forall s', zorder s' (l ++ [a]) -> forget s' = forget s -> Q tt s') ->
  wp (glass_window_list_add (Some a)) Q s.
Proof.
  intros Hz Ha Hl HQ. pose proof (add_refines s l a Hz Ha Hl) as H.
  unfold refines, list_run in H. rewrite wp_bind in H.
  eapply wp_mono; [exact H|]. intros [] s' (_ & Hz' & Hf). by apply HQ.
Qed.

(** A window that is allocated but not yet in the list. *)
Lemma zorder_new (s : WM) (l : list wid) (a : wid) (n : NativeWindow) :
  zorder s l -> a ∉ l -> zorder (set_windows (<[a := n]> (windows s)) s) l.
Proof.
  intros [Hnd Hseg Hh Ht Hs] Ha. split; cbn; try done.
  eapply seg_frame; [|exact Hseg]. intros w n' Hw E. exists n'.
  rewrite lookup_insert_ne by congruence. auto.
Qed.

Lemma rest_new (s : WM) (l : list wid) (V : gset vid) (a : wid) (n : NativeWindow) :
  rest_ok l V s -> view n = None ->
  rest_ok (l ++ [a]) V (set_windows (<[a := n]> (windows s)) s).
Proof.
  intros H Hv. apply (rest_mono _ (l ++ [a])) in H; [|set_solver].
  destruct H as (Ha & Hrest). split; [|exact Hrest]. cbn. intros w n' E.
  destruct (decide (a = w)) as [<-|Hne].
  - rewrite lookup_insert_eq in E. injection E as <-. split; [set_solver|].
    intros v Hv'. congruence.
  - rewrite lookup_insert_ne in E by done. by apply Ha.
Qed.

Lemma create_ok (s : WM) (a : wid) (o : option wid) :
  ok s -> windows s !! a = None -> handle_ok s o ->
  Z.of_nat (size (windows s)) < 2147483646 ->
  wp (glass_create_native_window true (Some a) true true o)
    (fun r s' => ok s' /\ r = Some a) s.
Proof.
  intros (l & V & H & Hlen) Ha Ho Hsize. pose proof H as [Hz Hrest]%wm_ok_rest.
  assert (Hal : a ∉ l)
    by (intros K; destruct (zorder_live _ _ _ Hz K); congruence).
  pose proof (zorder_fuel _ _ Hz) as Hfuel.
  unfold glass_create_native_window.
  repeat (wp_go; first [apply wp_assign_new | apply wp_bind]). wp_go.
  apply (wp_mono _ (fun _ s1 => exists n, view n = None
                      /\ s1 = set_windows (<[a := n]> (windows s)) s)).
  { destruct o as [b|].
    - destruct (Ho b eq_refl) as [nb Eb]. wp_go. eapply wp_deref.
      + cbn. rewrite lookup_insert_ne by congruence. exact Eb.
      + wp_go. eexists. split; [|reflexivity]. reflexivity.
    - wp_go. eexists. split; [|reflexivity]. reflexivity. }
  intros r s1 (n & Hn & ->). wp_go. apply wp_assign_new. wp_go.
  apply (wp_list_add _ l); [by apply zorder_new | cbn; rewrite lookup_insert_eq; eauto
                           | done |].
  intros s2 Hz2 Hf2. wp_go. split; [|done]. exists (l ++ [a]), V. split.
  - apply wm_ok_rest. split; [done|]. eapply rest_forget; [exact Hf2|].
    by apply rest_new.
  - rewrite length_app. cbn. lia.
Qed.

(** ** Closing a window *)

Definition owned_by (ws : gmap wid NativeWindow) (o : option wid) (a : wid) : Prop :=
  owner <$> ws !! a = Some o.

#[global] Instance owned_by_dec (ws : gmap wid NativeWindow) (o : option wid) (a : wid) :
  Decision (owned_by ws o a).
Proof. unfold owned_by. apply _. Defined.

Lemma owned_loop_ok (s : WM) (capacity : Z) (window : option wid) (l : list wid) :
  forall (fuel : nat) (prev : option wid) (acc : list wid),
  seg (windows s) prev l None -> (length l < fuel)%nat ->
  Z.of_nat (length acc + length l) <= capacity ->
  owned_loop fuel capacity (head l) window acc s
    = Some (acc ++ filter (owned_by (windows s) window) l, s).
Proof.
  induction l as [|w l IH]; intros [|fuel] prev acc H Hf Hc; cbn in Hf, Hc; try lia.
  - cbn. by rewrite app_nil_r.
  - destruct H as [(n & E & _ & Hn) H]. cbn [owned_loop head].
    unfold mbind, M_bind, deref. rewrite E.
    assert (How : owned_by (windows s) window w <-> owner n = window)
      by (unfold owned_by; rewrite E; cbn; split; congruence).
    rewrite Hn, first_or_None, filter_cons.
    destruct (decide (owner n = window)) as [Ho|Ho].
    + rewrite decide_True by tauto.
      replace (Z.of_nat (length acc) <? capacity) with true by lia.
      rewrite (IH fuel (Some w)); [by rewrite <- app_assoc | done | lia |].
      rewrite length_app. cbn. lia.
    + rewrite decide_False by tauto. apply (IH fuel (Some w)); [done | lia | lia].
Qed.

Lemma wp_notify_close (ls : list wid) (s : WM) :
  (forall w, w ∈ ls -> is_Some (windows s !! w)) ->
  wp (notify_close ls) (fun _ s' =>
    s' = set_notified (rev ((fun w => WindowEvent w CLOSE) <$> ls) ++ notified s) s) s.
Proof.
  revert s. induction ls as [|w ls IH]; intros s Hls; cbn [notify_close].
  - apply wp_ret. by destruct s.
  - wp_go. apply wp_windowEvent; [apply Hls; by left|].
    eapply wp_mono; [apply IH; intros a Ha; apply Hls; by right|].
    intros [] s' ->. cbn. rewrite <- app_assoc. by destruct s.
Qed.

(** The pointer [o] when the window [w] goes away. *)
Definition drop_ptr (w : wid) (o : option wid) : option wid :=
  if decide (Some w = o) then None else o.

Lemma drop_ptr_ok (l : list wid) (w : wid) (o : option wid) :
  ptr_ok l o -> ptr_ok (without w l) (drop_ptr w o).
Proof.
  intros Ho a. unfold drop_ptr. destruct (decide (Some w = o)); [done|].
  intros ->. apply elem_without. split; [congruence | by apply Ho].
Qed.

Definition dropped (w : wid) (s : WM) : WM :=
  set_focusedWindow (drop_ptr w (focusedWindow s))
    (set_grabbedWindow (drop_ptr w (grabbedWindow s))
      (set_mouseWindow (drop_ptr w (mouseWindow s)) s)).

(** What painting a window sends. *)
Definition repaint_event (s : WM) (o : option wid) : list Event :=
  match o with
  | Some w =>
      match windows s !! w with
      | Some n =>
          match view n with
          | Some v =>
              match views s !! v with
              | Some nv =>
                  let b := currentBounds n in
                  if lensView nv
                  then [ViewEvent v REPAINT (b_x b) (b_y b) (b_width b) (b_height b)] else []
              | None => []
              end
          | None => []
          end
      | None => []
      end
  | None => []
  end.

Lemma wp_repaint (s : WM) (w : wid) (n : NativeWindow) (Q : unit -> WM -> Prop) :
  windows s !! w = Some n -> window_ok (dom (views s)) n ->
  Q tt (set_notified (repaint_event s (Some w) ++ notified s) s) ->
  wp (lens_wm_repaint (Some w)) Q s.
Proof.
  intros E Hn HQ. unfold lens_wm_repaint, glass_application_notifyViewEvent. wp_go.
  eapply wp_deref; [exact E|]. cbv beta zeta. unfold repaint_event in HQ. rewrite E in HQ.
  destruct (view n) as [v|] eqn:Ev.
  - pose proof (Hn v Ev) as Hv. apply elem_of_dom in Hv as [nv Env].
    wp_go. eapply wp_deref_view; [exact Env|]. rewrite Env in HQ.
    apply wp_when; intros El; rewrite El in HQ; [exact HQ|]. by destruct s.
  - apply wp_ret. by destruct s.
Qed.

Lemma wp_drop_one (get : WM -> option wid) (set : option wid -> WM -> WM) (w : wid)
    (s : WM) (Q : unit -> WM -> Prop) (k : M unit) :
  set (get s) s = s -> wp k Q (set (drop_ptr w (get s)) s) ->
  wp (o ← gets get; when (bool_decide (Some w = o)) (modify (set None));; k) Q s.
Proof.
  unfold drop_ptr. intros Hset H. wp_go.
  destruct (decide (Some w = get s)) as [E|E].
  - rewrite bool_decide_true by done. exact H.
  - rewrite bool_decide_false by done. rewrite Hset in H. exact H.
Qed.

Lemma wp_notifyRelease (w : wid) (s : WM) (l : list wid) (Q : unit -> WM -> Prop) :
  zorder s l ->
  (forall a n, windows s !! a = Some n -> window_ok (dom (views s)) n) ->
  Q tt (set_notified (repaint_event s (head l) ++ notified s) (dropped w s)) ->
  wp (lens_wm_notifyPlatformWindowRelease w) Q s.
Proof.
  intros Hz Hv HQ. unfold lens_wm_notifyPlatformWindowRelease.
  apply (wp_drop_one mouseWindow set_mouseWindow); [by destruct s|].
  apply (wp_drop_one grabbedWindow set_grabbedWindow); [by destruct s|].
  apply (wp_drop_one focusedWindow set_focusedWindow); [by destruct s|].
  unfold glass_window_list_getHead. wp_go. cbn [windowList_head set_focusedWindow
    set_grabbedWindow set_mouseWindow]. rewrite (z_head _ _ Hz).
  destruct (head l) as [h|] eqn:Eh.
  - destruct (zorder_live s l h Hz (head_elem _ _ Eh)) as [n E].
    wp_go. eapply wp_deref; [exact E|]. apply wp_when; intros Ev.
    + eapply (wp_repaint _ h n); [exact E | exact (Hv h n E) | exact HQ].
    + apply bool_decide_eq_false in Ev. unfold repaint_event in HQ. rewrite E in HQ.
      destruct (view n); [destruct Ev; congruence|]. by destruct s.
  - apply wp_ret. by destruct s.
Qed.

(** The state after the window [w] was taken out of the list in [s], and closed. *)
Definition closed_state (w : wid) (events : list Event) (s : WM) : WM :=
  set_windows (delete w (windows s))
    (set_notified (WindowEvent w DESTROY :: events ++ notified s) (dropped w s)).

Lemma replay_quiet (events log : list Event) :
  Forall quiet events -> replay (events ++ log) = replay log.
Proof.
  induction 1 as [|e events He _ IH]; [done|]. cbn. rewrite IH.
  destruct (replay log) as [f|]; [apply He | done].
Qed.

Lemma repaint_quiet (s : WM) (o : option wid) : Forall quiet (repaint_event s o).
Proof.
  unfold repaint_event.
  repeat match goal with
  | |- Forall _ (match ?x with _ => _ end) => destruct x
  end; repeat constructor.
Qed.

Lemma closed_ok (l : list wid) (V : gset vid) (w : wid) (events : list Event) (s : WM) :
  zorder s (without w l) -> rest_ok l V s -> Forall quiet events ->
  (forall v nv, views s !! v = Some nv -> parent nv <> Some w) ->
  _dragGrabbingWindow s <> Some w -> touchWindow s <> Some w ->
  wm_ok (without w l) V (closed_state w events s).
Proof.
  intros Hz (Ha & Hv & Hp & Hf & Hg & Hm & Hd & Ht & Hr) He Hparent Hdrag Htouch.
  assert (Hptr : forall o, ptr_ok l o -> o <> Some w -> ptr_ok (without w l) o).
  { intros o Ho Hne a ->. apply elem_without. split; [congruence | by apply Ho]. }
  apply wm_ok_rest. split.
  - destruct Hz as [Hnd Hseg Hhd Htl Hs]. split; cbn; try done.
    eapply seg_frame; [|exact Hseg]. intros a n Hin E. exists n.
    apply elem_without in Hin as [Hne _]. rewrite lookup_delete_ne by done. auto.
  - unfold rest_ok. cbn. repeat split; eauto using drop_ptr_ok.
    + apply lookup_delete_Some in H as [Hne E]. apply elem_without.
      split; [done|]. by apply (Ha w0 n).
    + apply lookup_delete_Some in H as [Hne E]. by apply (Ha w0 n).
    + unfold drop_ptr. destruct Hg as [->| ->]; [left|by right].
      by destruct (decide _).
    + rewrite replay_quiet, Hr by done. cbn. unfold drop_ptr. f_equal.
      destruct (decide (focusedWindow s = Some w)), (decide (Some w = focusedWindow s));
        congruence.
Qed.

Lemma alter_keeps_rest (l : list wid) (V : gset vid) (w : wid)
    (f : NativeWindow -> NativeWindow) (s : WM) :
  keeps_links V f -> rest_ok l V s -> rest_ok l V (set_windows (alter f w (windows s)) s).
Proof.
  intros Hf (Ha & Hrest). split; [|exact Hrest]. cbn. intros a n E.
  destruct (decide (a = w)) as [->|].
  - rewrite lookup_alter_eq in E. destruct (windows s !! w) as [n0|] eqn:E0; [|done].
    injection E as <-. destruct (Ha w n0 E0) as [Hw Hn]. split; [done|]. by apply Hf.
  - rewrite lookup_alter_ne in E by done. by apply Ha.
Qed.

Lemma wp_list_remove (s : WM) (l : list wid) (w : wid) (Q : unit -> WM -> Prop) :
  zorder s l ->
  (forall s', zorder s' (without w l) -> forget s' = forget s -> Q tt s') ->
  wp (glass_window_list_remove (Some w)) Q s.
Proof.
  intros Hz HQ. pose proof (remove_refines s l w Hz) as H.
  unfold refines, list_run in H. rewrite wp_bind in H.
  eapply wp_mono; [exact H|]. intros [] s' (_ & Hz' & Hf). by apply HQ.
Qed.

(** The whole of [glass_window_NativeWindow_release] for a window that can be
    closed. *)
Lemma wp_release (l : list wid) (V : gset vid) (s : WM) (mallocs : bool) (w : wid)
    (Q : Z -> WM -> Prop) :
  wm_ok l V s -> Z.of_nat (length l) < 2147483648 -> w ∈ l -> closable s mallocs w ->
  (forall s2,
     zorder s2 (without w l) -> rest_ok l V s2 ->
     (forall a, a <> w -> strip <$> windows s2 !! a = strip <$> windows s !! a) ->
     views s2 = views s -> _dragGrabbingWindow s2 = _dragGrabbingWindow s ->
     touchWindow s2 = touchWindow s ->
     notified s2 = rev ((fun a => WindowEvent a CLOSE)
                        <$> filter (owned_by (windows s) (Some w)) l) ++ notified s ->
     Q 0 (closed_state w (repaint_event s2 (head (without w l))) s2)) ->
  wp (glass_window_NativeWindow_release mallocs (Some w)) Q s.
Proof.
  intros H Hlen Hw (Hview & Hparent & Hdrag & Htouch & Hmalloc) HQ.
  pose proof H as [Hz Hrest]%wm_ok_rest.
  unfold glass_window_NativeWindow_release, list_fuel, glass_window_list_getHead,
    glass_window_list_getSize. wp_go. rewrite (z_head _ _ Hz).
  set (capacity := if LENS_STATIC_WINDOWS_LIST_SIZE <? windowList_size s then _ else _).
  assert (Hcap : Z.of_nat (length l) <= capacity).
  { unfold capacity, LENS_STATIC_WINDOWS_LIST_SIZE in *. rewrite (z_size _ _ Hz) in *.
    rewrite i32_id in * by (unfold is_i32; lia).
    destruct (Z.ltb_spec 4 (Z.of_nat (length l))); [destruct mallocs|]; lia || intuition lia. }
  unfold wp at 1. rewrite (owned_loop_ok _ _ _ _ _ None); [|apply Hz | by apply zorder_fuel | exact Hcap].
  cbn [app]. wp_go. eapply wp_mono.
  { apply wp_notify_close. intros a Ha. apply list_elem_of_filter in Ha as [_ Ha].
    by eapply zorder_live. }
  intros [] s0 Es0. wp_go.
  assert (Hz0 : zorder s0 l) by (subst s0; destruct Hz; by split).
  assert (Hrest0 : rest_ok l V s0).
  { subst s0. destruct Hrest as (? & ? & ? & ? & ? & ? & ? & ? & Hr).
    unfold rest_ok. cbn. rewrite replay_quiet; [auto 20|].
    apply Forall_rev, Forall_fmap, list.Forall_forall. intros a _ f. reflexivity. }
  eapply wp_list_remove; [exact Hz0|]. intros s1 Hz1 Hf1. wp_go.
  pose proof (rest_forget _ _ _ _ Hf1 Hrest0) as Hrest1.
  assert (Hws : strip <$> windows s1 = strip <$> windows s)
    by (apply (f_equal windows) in Hf1; subst s0; exact Hf1).
  assert (Hw1 : is_Some (windows s1 !! w)).
  { destruct (zorder_live _ _ _ Hz Hw) as [n E]. apply (f_equal (lookup w)) in Hws.
    rewrite !lookup_fmap, E in Hws. by destruct (windows s1 !! w). }
  apply wp_assign_alter; [exact Hw1|]. wp_go.
  set (s2 := set_windows _ s1).
  assert (Hlinks : keeps_links V (set_processEvents false)) by (intros n; done).
  assert (Hz2 : zorder s2 (without w l)) by (by apply (zorder_alter _ V)).
  assert (Hrest2 : rest_ok l V s2) by (by apply alter_keeps_rest).
  apply (wp_notifyRelease _ _ (without w l)); [exact Hz2 | |].
  { intros a n E. destruct Hrest2 as (Ha & -> & _). by apply (Ha a n). }
  destruct Hw1 as [n1 E1].
  assert (Hn1 : view n1 = None).
  { destruct (forget_window s0 s1 w n1 Hf1 E1) as (n & E & Hs). subst s0.
    rewrite (strip_view _ _ Hs). by apply Hview. }
  wp_go. eapply wp_deref.
  { cbn. rewrite lookup_alter_eq, E1. reflexivity. }
  cbn [view set_processEvents]. rewrite Hn1. wp_go.
  apply wp_windowEvent; [cbn; by rewrite lookup_alter_eq, E1|]. wp_go. unfold free. wp_go.
  eapply wp_deref; [cbn; rewrite lookup_alter_eq, E1; reflexivity|]. wp_go.
  apply (HQ s2); try done.
  - intros a Ha. apply (f_equal (lookup a)) in Hws. rewrite !lookup_fmap in Hws.
    cbn. by rewrite lookup_alter_ne.
  - apply (f_equal views) in Hf1. subst s0. exact Hf1.
  - apply (f_equal _dragGrabbingWindow) in Hf1. subst s0. exact Hf1.
  - apply (f_equal touchWindow) in Hf1. subst s0. exact Hf1.
  - apply (f_equal notified) in Hf1. subst s0. exact Hf1.
Qed.

(** ** Views *)

Lemma createView_ok (l : list wid) (V : gset vid) (s : WM) (v : vid) (g : bool) :
  wm_ok l V s ->
  wm_ok l ({[v]} ∪ V) (set_views (<[v := mkView g None]> (views s)) s).
Proof.
  intros [[] Ha Hv Hp ? ? ? ? ? ?]. split; cbn; try done.
  - intros w n E. destruct (Ha w n E) as [Hw Hn]. split; [done|].
    intros v' Hv'. apply Hn in Hv'. set_solver.
  - rewrite dom_insert_L. by rewrite Hv.
  - intros v' nv E. destruct (decide (v = v')) as [<-|Hne].
    + rewrite lookup_insert_eq in E. by injection E as <-.
    + rewrite lookup_insert_ne in E by done. eauto.
Qed.

Lemma closeView_ok (l : list wid) (V : gset vid) (s : WM) (v : vid) :
  wm_ok l V s -> (forall w n, windows s !! w = Some n -> view n <> Some v) ->
  wm_ok l (V ∖ {[v]}) (set_views (delete v (views s)) s).
Proof.
  intros [[] Ha Hv Hp ? ? ? ? ? ?] Hfree. split; cbn; try done.
  - intros w n E. destruct (Ha w n E) as [Hw Hn]. split; [done|].
    intros v' Hv'. apply elem_of_difference. split; [by apply Hn|].
    apply not_elem_of_singleton. intros ->. exact (Hfree w n E Hv').
  - rewrite dom_delete_L. by rewrite Hv.
  - intros v' nv [_ E]%lookup_delete_Some. eauto.
Qed.

(** ** Every request *)

Lemma initial_ok (width height : Z) : ok (initial width height).
Proof.
  exists [], ∅. split; [|done]. apply wm_ok_rest. split.
  - split; cbn; try done. constructor.
  - unfold rest_ok. cbn. repeat split; auto; done.
Qed.

Lemma safe_ok (l : list wid) (V : gset vid) (m : M unit) (s : WM) :
  safe l V m any -> wm_ok l V s -> Z.of_nat (length l) < 2147483648 ->
  wp m (fun _ s' => ok s') s.
Proof.
  intros Hm H Hlen. eapply wp_mono; [by apply Hm|]. intros [] s' [H' _].
  by exists l, V.
Qed.

Lemma wp_ignore {A : Type} (m : M A) (Q : WM -> Prop) (s : WM) :
  wp m (fun _ s' => Q s') s -> wp (ignore m) (fun _ s' => Q s') s.
Proof. intros H. apply wp_bind. eapply wp_mono; [exact H|]. intros a s' H'. exact H'. Qed.

Lemma null_handle_ok {A : Type} (failed : A) (f : wid -> M A) (s : WM) :
  ok s -> wp (with_handle None failed f) (fun _ s' => ok s') s.
Proof.
  intros (l & V & H & Hlen). cbn [with_handle]. wp_go. exists l, V. split; [|done].
  apply (ok_frame l V s); try done; try apply H. cbn. by rewrite (o_replay _ _ _ H).
Qed.

Lemma close_ok (s : WM) (mallocs : bool) (w : wid) :
  ok s -> is_Some (windows s !! w) -> closable s mallocs w ->
  wp (glass_window_NativeWindow_release mallocs (Some w)) (fun _ s' => ok s') s.
Proof.
  intros (l & V & H & Hlen) [n E] Hc.
  eapply wp_release; [exact H | done | by apply (o_alloc _ _ _ H w n) | exact Hc |].
  intros s2 Hz2 Hrest2 _ Ev Ed Et _. destruct Hc as (_ & Hparent & Hdrag & Htouch & _).
  exists (without w l), V. split.
  - apply closed_ok; rewrite ?Ev, ?Ed, ?Et; try done. apply repaint_quiet.
  - assert (length (without w l) <= length l)%nat by apply length_filter. lia.
Qed.

Lemma request_ok (s : WM) (r : request) :
  ok s -> allowed s r -> wp (run r) (fun _ s' => ok s') s.
Proof.
  intros Hok Ha. destruct (plain r) eqn:Hr.
  { destruct Hok as (l & V & H & Hlen). eapply safe_ok; [|exact H | exact Hlen].
    by eapply plain_safe. }
  destruct r; try discriminate Hr; cbn [run allowed] in *;
    try (apply wp_ignore; unfold LensWindow_close, LensWindow_createWindow,
           LensWindow_createChildWindow, LensView_createNativeView, LensView_close,
           LensWindow_toFrontImpl, LensWindow_toBackImpl).
  - destruct Ha as (Hfresh & Ho & Hsize).
    eapply wp_mono; [by apply create_ok|]. intros r' s' []. done.
  - destruct Ha as (Hfresh & Ho & Hsize). destruct owner as [o|]; [|exact Hok].
    destruct (Ho o eq_refl) as [n E]. wp_go. eapply wp_deref; [exact E|].
    eapply wp_mono; [by apply create_ok|]. intros r' s' []. done.
  - destruct Ha as [Hh Hc]. destruct w as [w|]; [|by apply null_handle_ok].
    cbn [with_handle]. wp_go. eapply wp_mono; [apply close_ok; eauto|].
    intros r' s' H'. exact H'.
  - destruct w as [w|]; [|by apply null_handle_ok].
    apply (reorder_ok (ToFront w)); [done | | done | by apply Ha].
    intros l. apply toFront_refines.
  - destruct w as [w|]; [|by apply null_handle_ok].
    apply (reorder_ok (ToBack w)); [done | | done | by apply Ha].
    intros l. apply toBack_refines.
  - destruct Hok as (l & V & H & Hlen). wp_go. exists l, ({[address]} ∪ V).
    split; [by apply createView_ok | done].
  - destruct Hok as (l & V & H & Hlen). destruct Ha as [[nv E] Hfree].
    unfold glass_view_releaseNativeView, view_handle. wp_go.
    eapply wp_deref_view; [exact E|]. wp_go. exists l, (V ∖ {[v]}).
    split; [by apply closeView_ok | done].
Qed.

Lemma reachable_ok (s : WM) : reachable s -> ok s.
Proof.
  induction 1 as [width height | s s' r Hs IH Ha Hrun]; [apply initial_ok|].
  pose proof (request_ok s r IH Ha) as H. unfold wp in H. by rewrite Hrun in H.
Qed.

(** C3. The window manager is safe: in every state that it can reach, a request
    that respects its contract (handles of windows and views that exist, fresh
    memory, a window closed only after its view and not while it is dragged from
    or touched) runs to its end, without following a dangling pointer, writing
    outside an array or looping, and the state it leaves can again be reached. *)
Theorem window_manager_safe (s : WM) (r : request) :
  reachable s -> allowed s r ->
  exists s', run r s = Some (tt, s') /\ reachable s' /\ ok s'.
Proof.
  intros Hs Ha. pose proof (request_ok s r (reachable_ok s Hs) Ha) as H.
  apply wp_iff in H as ([] & s' & E & Hok). exists s'. split; [done|]. split; [|done].
  by eapply reach_step.
Qed.

(** C21. The notifications of focus sent to Java follow their protocol in every
    reachable state: a window gains the focus only when no other has it, it loses
    the focus or the grab only when it has the focus, and together they tell which
    window has the focus now.  The grab belongs to the focused window. *)
Theorem focus_protocol (s : WM) :
  reachable s ->
  replay (notified s) = Some (focusedWindow s)
  /\ (forall w, grabbedWindow s = Some w -> focusedWindow s = Some w)
  /\ (forall w, focusedWindow s = Some w -> is_Some (windows s !! w)).
Proof.
  intros (l & V & H & _)%reachable_ok. split; [apply H|]. split.
  - intros w Hw. destruct (o_grabbed _ _ _ H); congruence.
  - intros w Hw. apply (ok_live l V s w H). by apply (o_focused _ _ _ H).
Qed.
