(* ===== verification/LensBehaviour.v ===== *)
(** * What the window manager does

    The functional behaviour of its main operations: which window an event goes
    to, what closing a window sends, and that the special states of a window can
    be left again.  Then runs that show where the code falls short. *)

From S2P Require Import LensState LensList LensWM LensSafe LensRequests.

(** ** The window under the pointer *)

(** The bounds of a window stay in the range of [int]. *)
Definition in_place (n : NativeWindow) : Prop :=
  let b := currentBounds n in
  is_i32 (b_x b) /\ is_i32 (b_y b) /\ is_i32 (b_width b) /\ is_i32 (b_height b)
  /\ is_i32 (b_x b + b_width b) /\ is_i32 (b_y b + b_height b).

Lemma topmost_none (test : NativeWindow -> bool) (ws : gmap wid NativeWindow)
    (l : list wid) (w : wid) (n : NativeWindow) :
  topmost test ws l = None -> w ∈ l -> ws !! w = Some n -> test n = false.
Proof.
  intros H Hw E. unfold topmost in H.
  assert (Hin : In w (rev l)) by (apply List.in_rev; rewrite rev_involutive;
    by apply list_elem_of_In).
  pose proof (List.find_none _ _ H w Hin) as K. cbn in K. by rewrite E in K.
Qed.

Lemma topmost_split (test : NativeWindow -> bool) (ws : gmap wid NativeWindow)
    (l : list wid) (w : wid) :
  topmost test ws l = Some w ->
  exists l1 l2, l = l1 ++ w :: l2 /\ topmost test ws l2 = None.
Proof.
  induction l as [|a l IH] using rev_ind; [done|].
  unfold topmost at 1. rewrite rev_app_distr. cbn.
  destruct (match ws !! a with Some n => test n | None => false end) eqn:Ea.
  - intros [= ->]. exists l, []. done.
  - intros H. destruct (IH H) as (l1 & l2 & -> & Hn). exists l1, (l2 ++ [a]).
    split; [by rewrite <- app_assoc|]. unfold topmost. rewrite rev_app_distr. cbn.
    by rewrite Ea.
Qed.

(** [w] is the window of [l] that gets a point: it passes the test, no window
    above it does. *)
Definition gets_point (test : NativeWindow -> bool) (s : WM) (l : list wid)
    (w : wid) (n : NativeWindow) : Prop :=
  exists l1 l2, l = l1 ++ w :: l2 /\ windows s !! w = Some n /\ test n = true
    /\ forall a na, a ∈ l2 -> windows s !! a = Some na -> test na = false.

Lemma topmost_gets_point (test : NativeWindow -> bool) (s : WM) (l : list wid) (w : wid) :
  topmost test (windows s) l = Some w -> exists n, gets_point test s l w n.
Proof.
  intros H. destruct (topmost_spec _ _ _ _ H) as (_ & n & E & Ht).
  destruct (topmost_split _ _ _ _ H) as (l1 & l2 & -> & Hn).
  exists n, l1, l2. split; [done|]. split; [done|]. split; [done|].
  intros a na Ha Ea. by eapply topmost_none.
Qed.

Lemma relative_inside (x y : Z) (n : NativeWindow) :
  is_i32 x -> is_i32 y -> in_place n -> hit x y n = true ->
  let b := currentBounds n in
  relative x y n = (x - b_x b, y - b_y b)
  /\ 0 <= x - b_x b < b_width b /\ 0 <= y - b_y b < b_height b.
Proof.
  intros Hx Hy (Hbx & Hby & Hw & Hh' & Hbw & Hbh) Hh. unfold hit in Hh. cbv zeta in *.
  rewrite !andb_true_iff in Hh. destruct Hh as [_ [[[[H1 H2] H3] H4] _]].
  rewrite i32_id in H2 by done. rewrite i32_id in H4 by done.
  unfold relative, is_i32 in *. rewrite !i32_id by (unfold is_i32; lia).
  split; [done | lia].
Qed.


(** ** Following one window

    [on n m n']: when the record of the window [w] is [n], the computation [m] is
    safe and leaves it [n'], on a screen of the given size. *)

Definition steady {A : Type} (m : M A) : Prop :=
  forall s a s', m s = Some (a, s') ->
  windows s' = windows s /\ screenWidth s' = screenWidth s
  /\ screenHeight s' = screenHeight s.

Lemma steady_bind {A B : Type} (m : M A) (k : A -> M B) :
  steady m -> (forall a, steady (k a)) -> steady (m ≫= k).
Proof.
  intros Hm Hk s b s' E. unfold mbind, M_bind in E.
  destruct (m s) as [[a s1]|] eqn:E1; [|discriminate].
  destruct (Hm _ _ _ E1) as (E2 & E3 & E4).
  destruct (Hk _ _ _ _ E) as (E5 & E6 & E7). by rewrite E5, E6, E7, E2, E3, E4.
Qed.

Lemma steady_ret {A : Type} (a : A) : steady (mret a).
Proof. intros s a' s' [= <- <-]. auto. Qed.

Lemma steady_gets {A : Type} (f : WM -> A) : steady (gets f).
Proof. intros s a' s' [= <- <-]. auto. Qed.

Lemma steady_modify (f : WM -> WM) :
  (forall s, windows (f s) = windows s /\ screenWidth (f s) = screenWidth s
             /\ screenHeight (f s) = screenHeight s) -> steady (modify f).
Proof. intros Hf s a' s' [= <- <-]. apply Hf. Qed.

Lemma steady_deref (w : wid) : steady (deref w).
Proof.
  intros s a' s'. unfold deref. destruct (windows s !! w); [|done]. intros [= <- <-]. auto.
Qed.

Lemma steady_deref_view (v : vid) : steady (deref_view v).
Proof.
  intros s a' s'. unfold deref_view. destruct (views s !! v); [|done].
  intros [= <- <-]. auto.
Qed.

Lemma steady_when (b : bool) (m : M unit) : steady m -> steady (when b m).
Proof. destruct b; [done | intros _; apply steady_ret]. Qed.

Create HintDb steady.
#[export] Hint Resolve steady_ret steady_gets steady_deref steady_deref_view : steady.
#[export] Hint Extern 3 (steady (modify _)) =>
  (apply steady_modify; intros ?; repeat split; reflexivity) : steady.
#[export] Hint Extern 3 (steady (notify _)) =>
  (apply steady_modify; intros ?; repeat split; reflexivity) : steady.

Ltac steady_auto :=
  repeat first
  [ solve [eauto 3 with steady]
  | lazymatch goal with
    | |- steady (mbind _ _) => apply steady_bind; [|intros ?]
    | |- steady (when _ _) => apply steady_when
    | |- steady (match ?x with _ => _ end) => destruct x
    end ].

Lemma steady_windowEvent (w : wid) (e : WindowEventType) :
  steady (glass_application_notifyWindowEvent w e).
Proof. unfold glass_application_notifyWindowEvent. steady_auto. Qed.

Lemma steady_resize (w : wid) (e : ResizeEventType) (width height : Z) :
  steady (glass_application_notifyWindowEvent_resize w e width height).
Proof. unfold glass_application_notifyWindowEvent_resize. steady_auto. Qed.

Lemma steady_move (w : wid) (x y : Z) :
  steady (glass_application_notifyWindowEvent_move w x y).
Proof. unfold glass_application_notifyWindowEvent_move. steady_auto. Qed.

Lemma steady_viewEvent (v : option vid) (e : ViewEventType) (x y width height : Z) :
  steady (glass_application_notifyViewEvent v e x y width height).
Proof. unfold glass_application_notifyViewEvent. steady_auto. Qed.

Lemma steady_addVisible (w : wid) :
  steady (glass_application_addWindowToVisibleWindowList w).
Proof. unfold glass_application_addWindowToVisibleWindowList. steady_auto. Qed.

Lemma steady_removeVisible (w : wid) :
  steady (glass_application_RemoveWindowFromVisibleWindowList w).
Proof. unfold glass_application_RemoveWindowFromVisibleWindowList. steady_auto. Qed.

#[export] Hint Resolve steady_windowEvent steady_resize steady_move steady_viewEvent
  steady_addVisible steady_removeVisible : steady.

Lemma steady_repaint (o : option wid) : steady (lens_wm_repaint o).
Proof. unfold lens_wm_repaint. steady_auto. Qed.

Lemma steady_ungrab (o : option wid) : steady (glass_window_ungrabFocus o).
Proof.
  unfold glass_window_ungrabFocus, lens_wm_getGrabbedWindow, lens_wm_setGrabbedWindow.
  steady_auto.
Qed.

#[export] Hint Resolve steady_repaint steady_ungrab : steady.

Lemma steady_setFocused (o : option wid) : steady (lens_wm_setFocusedWindow o).
Proof.
  unfold lens_wm_setFocusedWindow, glass_window_getFocusedWindow,
    glass_window_setFocusedWindow. steady_auto.
Qed.

Lemma steady_search_back (test : NativeWindow -> bool) (fuel : nat) :
  forall o, steady (search_back test fuel o).
Proof.
  induction fuel as [|fuel IH]; intros o; cbn [search_back]; [intros s a s'; done|].
  steady_auto.
Qed.

#[export] Hint Resolve steady_setFocused steady_search_back : steady.

Lemma steady_unsetFocused (w : wid) : steady (lens_wm_unsetFocusedWindow w).
Proof.
  unfold lens_wm_unsetFocusedWindow, glass_window_getFocusedWindow, search_list, list_fuel,
    glass_window_list_getTail. steady_auto.
Qed.

#[export] Hint Resolve steady_unsetFocused : steady.

Section OneWindow.
Context (l : list wid) (V : gset vid) (w : wid) (sw sh : Z).

Definition is_at (n : NativeWindow) (s : WM) : Prop :=
  wm_ok l V s /\ windows s !! w = Some n /\ screenWidth s = sw /\ screenHeight s = sh.

Definition on {A : Type} (n : NativeWindow) (m : M A) (n' : NativeWindow) : Prop :=
  forall s, is_at n s -> wp m (fun _ s' => is_at n' s') s.

Lemma on_bind {A B : Type} (n n1 n2 : NativeWindow) (m : M A) (k : A -> M B) :
  on n m n1 -> (forall a, on n1 (k a) n2) -> on n (m ≫= k) n2.
Proof.
  intros Hm Hk s H. apply wp_bind. eapply wp_mono; [by apply Hm|].
  intros a s' H'. by apply Hk.
Qed.

Lemma on_ret {A : Type} (n : NativeWindow) (a : A) : on n (mret a) n.
Proof. intros s H. by apply wp_ret. Qed.

Lemma on_deref {B : Type} (n n2 : NativeWindow) (k : NativeWindow -> M B) :
  on n (k n) n2 -> on n (deref w ≫= k) n2.
Proof.
  intros Hk s H. apply wp_bind. eapply wp_deref; [apply H|]. by apply Hk.
Qed.

Lemma on_screen {B : Type} (n n2 : NativeWindow) (k : Z -> Z -> M B) :
  on n (k sw sh) n2 ->
  on n (x ← gets screenWidth; y ← gets screenHeight; k x y) n2.
Proof.
  intros Hk s H. wp_go. destruct H as (H & E & Hsw & Hsh). rewrite Hsw, Hsh.
  by apply Hk.
Qed.

Lemma at_in (n : NativeWindow) (s : WM) : is_at n s -> w ∈ l.
Proof. intros (H & E & _). by apply (o_alloc _ _ _ H w n). Qed.

Lemma on_assign (n : NativeWindow) (f : NativeWindow -> NativeWindow) :
  keeps_links V f -> on n (assign w f) (f n).
Proof.
  intros Hf s H. pose proof (at_in n s H) as Hw. destruct H as (H & E & Hsw & Hsh).
  pose proof (safe_assign l V w f Hw Hf s H) as Hs.
  unfold wp, assign in *. rewrite E in *. destruct Hs as [Hs _].
  split; [exact Hs|]. cbn. rewrite lookup_insert_eq. auto.
Qed.

Lemma on_steady {A : Type} (n : NativeWindow) (m : M A) :
  steady m -> (w ∈ l -> window_ok V n -> safe l V m any) -> on n m n.
Proof.
  intros Hm Hs s H. pose proof (at_in n s H) as Hw. destruct H as (H & E & Hsw & Hsh).
  assert (Hn : window_ok V n) by (by apply (o_alloc _ _ _ H w n)).
  pose proof (Hs Hw Hn s H) as Hwp. apply wp_iff in Hwp as (a & s' & Em & H' & _).
  destruct (Hm _ _ _ Em) as (E1 & E2 & E3). unfold wp. rewrite Em.
  split; [done|]. by rewrite E1, E2, E3.
Qed.

(** A call that does not change the window. *)
Ltac on_call := apply on_steady; [solve [eauto 3 with steady] | intros; safe_auto].

(** One after the other; the last one is left. *)
Ltac on_then := first [apply on_deref | eapply on_bind; [|intros _]]; cbv beta zeta.

Lemma set_same_bounds (n : NativeWindow) (x y width height : Z) :
  b_x (currentBounds n) = x -> b_y (currentBounds n) = y ->
  b_width (currentBounds n) = width -> b_height (currentBounds n) = height ->
  n = set_currentBounds (mkBounds x y width height) n.
Proof. intros <- <- <- <-. by destruct n as [? ? [] ? ? ? ? ? ? ? ? ? ? ? ? ?]. Qed.

Lemma on_eq {A : Type} (n n1 n2 : NativeWindow) (m : M A) :
  n1 = n2 -> on n m n1 -> on n m n2.
Proof. by intros ->. Qed.

(** [p] tells whether the position is set too. *)
Lemma on_setBoundsImpl (n : NativeWindow) (x y width height : Z) (p : bool) :
  on n (glass_window_setBoundsImpl w x y width height p true false)
    (set_currentBounds (mkBounds (if p then x else b_x (currentBounds n))
                          (if p then y else b_y (currentBounds n)) width height) n).
Proof.
  unfold glass_window_setBoundsImpl. cbn [orb andb]. on_then.
  set (b := currentBounds n).
  set (n1 := set_currentBounds (mkBounds (b_x b) (b_y b) width height) n).
  apply (on_bind n n1); [|intros _; on_then].
  { destruct (Z.eqb_spec (b_width b) width); [destruct (Z.eqb_spec (b_height b) height)|];
      cbn [negb orb].
    - eapply on_eq; [by apply set_same_bounds | apply on_ret].
    - on_then; [apply on_assign; auto with lens_safe | on_call].
    - on_then; [apply on_assign; auto with lens_safe | on_call]. }
  destruct p; [|apply on_ret].
  change (set_currentBounds (mkBounds x y width height) n)
    with (set_currentBounds (mkBounds x y width height) n1).
  cbn [n1 currentBounds set_currentBounds b_x b_y b_width b_height andb].
  destruct (Z.eqb_spec (b_x b) x); [destruct (Z.eqb_spec (b_y b) y)|]; cbn [negb orb].
  - eapply on_eq; [by apply set_same_bounds | apply on_ret].
  - on_then; [apply on_assign; auto with lens_safe|]. on_then; on_call.
  - on_then; [apply on_assign; auto with lens_safe|]. on_then; on_call.
Qed.

Lemma on_setBounds (n : NativeWindow) (x y width height : Z) :
  on n (glass_window_setBoundsImpl w x y width height true true false)
    (set_currentBounds (mkBounds x y width height) n).
Proof. apply (on_setBoundsImpl n x y width height true). Qed.

(** The window after [apply_limits]. *)
Definition limited (n : NativeWindow) : NativeWindow :=
  let b := currentBounds n in
  let '(_, width, height) := glass_window_check_bounds n (b_width b) (b_height b) in
  set_currentBounds (mkBounds (b_x b) (b_y b) width height) n.

Lemma on_limits (n : NativeWindow) : on n (apply_limits w) (limited n).
Proof.
  unfold apply_limits, limited. on_then.
  destruct (glass_window_check_bounds n _ _) as [[ok_b width] height].
  destruct (Z.eqb_spec width (b_width (currentBounds n)));
    [destruct (Z.eqb_spec height (b_height (currentBounds n)))|]; cbn [negb orb].
  - on_then; [apply on_ret|]. eapply on_eq; [by apply set_same_bounds | apply on_ret].
  - on_then; [apply (on_setBoundsImpl n 0 0 width height false) | apply on_ret].
  - on_then; [apply (on_setBoundsImpl n 0 0 width height false) | apply on_ret].
Qed.

Lemma on_setMinimumSize (n : NativeWindow) (width height : Z) :
  on n (glass_window_setMinimumSize w width height)
    (limited (set_minHeight height (set_minWidth width n))).
Proof.
  unfold glass_window_setMinimumSize.
  on_then; [apply on_assign; auto with lens_safe|].
  on_then; [apply on_assign; auto with lens_safe|]. apply on_limits.
Qed.

Lemma on_setMaximumSize (n : NativeWindow) (width height : Z) :
  on n (glass_window_setMaximumSize w width height)
    (limited (set_maxHeight height (set_maxWidth width n))).
Proof.
  unfold glass_window_setMaximumSize.
  on_then; [apply on_assign; auto with lens_safe|].
  on_then; [apply on_assign; auto with lens_safe|]. apply on_limits.
Qed.

(** The window after [lens_wm_windowRestore]. *)
Definition restored (n : NativeWindow) : NativeWindow :=
  set_currentBounds (cachedBounds n) (set_state NWS_NORMAL n).

Lemma on_restore (n : NativeWindow) :
  state n <> NWS_NORMAL -> on n (lens_wm_windowRestore w) (restored n).
Proof.
  intros Hn. unfold lens_wm_windowRestore. on_then.
  assert (Hr : on n
    (assign w (set_state NWS_NORMAL);;
     n ← deref w;
     let c := cachedBounds n in
     glass_window_setBoundsImpl w (b_x c) (b_y c) (b_width c) (b_height c) true true false;;
     lens_wm_windowUncacheBounds w;;
     n ← deref w;
     glass_application_notifyWindowEvent_resize w RESTORE
       (b_width (currentBounds n)) (b_height (currentBounds n));;
     lens_wm_setFocusedWindow (Some w)) (restored n)).
  { on_then; [apply on_assign; auto with lens_safe|]. on_then. on_then; [apply on_setBounds|].
    on_then; [apply on_assign; auto with lens_safe|]. on_then. on_then; [on_call|].
    eapply on_eq; [|on_call]. by destruct n. }
  destruct (state n); [done | | exact Hr |].
  - on_then; [|exact Hr]. apply on_steady; [steady_auto | intros; safe_auto].
  - on_then; [|exact Hr]. on_call.
Qed.

Definition minimized (n : NativeWindow) : NativeWindow :=
  set_state NWS_MINIMIZED (set_cachedBounds (currentBounds n) n).

Lemma on_minimize (n : NativeWindow) :
  state n = NWS_NORMAL \/ state n = NWS_MAXIMIZED ->
  on n (lens_wm_windowMinimize w) (minimized n).
Proof.
  intros Hn. unfold lens_wm_windowMinimize. on_then.
  assert (Hm : on n
    (lens_wm_windowCacheBounds w;;
     assign w (set_state NWS_MINIMIZED);;
     _ ← lens_wm_unsetFocusedWindow w;
     glass_application_RemoveWindowFromVisibleWindowList w;;
     n ← deref w;
     glass_application_notifyWindowEvent_resize w MINIMIZE
       (b_width (cachedBounds n)) (b_height (cachedBounds n))) (minimized n)).
  { on_then; [apply on_assign; auto with lens_safe|].
    on_then; [apply on_assign; auto with lens_safe|].
    on_then; [on_call|]. on_then; [on_call|]. on_then. on_call. }
  by destruct Hn as [-> | ->].
Qed.

Definition fullscreen (n : NativeWindow) : NativeWindow :=
  set_state NWS_FULLSCREEN
    (set_currentBounds (mkBounds 0 0 sw sh) (set_cachedBounds (currentBounds n) n)).

Lemma on_fullscreen (n : NativeWindow) :
  state n = NWS_NORMAL \/ state n = NWS_MAXIMIZED ->
  on n (lens_wm_windowEnterFullscreen w) (fullscreen n).
Proof.
  intros Hn. unfold lens_wm_windowEnterFullscreen. on_then.
  assert (Hm : on n
    (screen_w ← gets screenWidth;
     screen_h ← gets screenHeight;
     lens_wm_windowCacheBounds w;;
     glass_window_setBoundsImpl w 0 0 screen_w screen_h true true false;;
     n ← deref w;
     let b := currentBounds n in
     glass_application_notifyViewEvent (view n) FULLSCREEN_ENTER
       (b_x b) (b_y b) (b_width b) (b_height b);;
     lens_wm_setFocusedWindow (Some w);;
     assign w (set_state NWS_FULLSCREEN)) (fullscreen n)).
  { apply on_screen. on_then; [apply on_assign; auto with lens_safe|].
    on_then; [apply on_setBounds|]. on_then.
    on_then; [on_call|]. on_then; [on_call|].
    apply (on_assign _ (set_state NWS_FULLSCREEN)); auto with lens_safe. }
  by destruct Hn as [-> | ->].
Qed.
(** The bounds that [lens_wm_windowMaximize] computes. *)
Definition maximized_bounds (n : NativeWindow) : LensBounds :=
  let b := currentBounds n in
  let '(fits, width, height) := glass_window_check_bounds n sw sh in
  if fits : bool then mkBounds 0 0 width height
  else if (b_width b <? width) || (b_height b <? height)
  then mkBounds (i32 (sw - width - 1)) (i32 (sh - height - 1)) width height
  else mkBounds (b_x b) (b_y b) width height.

Definition maximized (n : NativeWindow) : NativeWindow :=
  set_state NWS_MAXIMIZED
    (set_currentBounds (maximized_bounds n) (set_cachedBounds (currentBounds n) n)).

Lemma on_maximize (n : NativeWindow) :
  state n = NWS_NORMAL -> on n (lens_wm_windowMaximize w) (maximized n).
Proof.
  intros Hn. unfold lens_wm_windowMaximize. on_then. rewrite Hn.
  on_then; [apply on_assign; auto with lens_safe|]. apply on_screen. on_then.
  unfold maximized, maximized_bounds.
  change (glass_window_check_bounds (set_cachedBounds (currentBounds n) n) sw sh)
    with (glass_window_check_bounds n sw sh).
  cbn [currentBounds set_cachedBounds].
  destruct (glass_window_check_bounds n sw sh) as [[fits width] height].
  destruct fits; [|destruct (_ || _)];
    (on_then; [apply on_setBounds|];
     on_then; [apply (on_assign _ (set_state NWS_MAXIMIZED)); auto with lens_safe|];
     on_then; [on_call|]; on_call).
Qed.

(** The special states of a window. *)
Inductive special : Type := Minimized | Maximized | Fullscreen.

Definition enter (op : special) : M unit :=
  match op with
  | Minimized => lens_wm_windowMinimize w
  | Maximized => lens_wm_windowMaximize w
  | Fullscreen => lens_wm_windowEnterFullscreen w
  end.

Definition entered (op : special) (n : NativeWindow) : NativeWindow :=
  match op with
  | Minimized => minimized n
  | Maximized => maximized n
  | Fullscreen => fullscreen n
  end.

Lemma on_enter (op : special) (n : NativeWindow) :
  state n = NWS_NORMAL -> on n (enter op) (entered op n).
Proof.
  destruct op; intros Hn; [by apply on_minimize; left | by apply on_maximize |
                           by apply on_fullscreen; left].
Qed.
End OneWindow.

(** C34. A normal window that is minimized, maximized or made full screen and then
    restored is as before, whatever the state of the rest: normal, with the
    bounds it had, which stay in the cache.  In between it has the special state,
    and a full screen window the bounds of the screen. *)
Theorem restore_roundtrip (s : WM) (w : wid) (n : NativeWindow) (op : special) :
  ok s -> windows s !! w = Some n -> state n = NWS_NORMAL ->
  exists s1 s2 n1,
    enter w op s = Some (tt, s1) /\ windows s1 !! w = Some n1
    /\ state n1 = match op with
                  | Minimized => NWS_MINIMIZED
                  | Maximized => NWS_MAXIMIZED
                  | Fullscreen => NWS_FULLSCREEN
                  end
    /\ (op = Fullscreen ->
        currentBounds n1 = mkBounds 0 0 (screenWidth s) (screenHeight s))
    /\ lens_wm_windowRestore w s1 = Some (tt, s2)
    /\ windows s2 !! w = Some (set_cachedBounds (currentBounds n) n) /\ ok s2.
Proof.
  intros (l & V & H & Hlen) E Hn.
  assert (Hat : is_at l V w (screenWidth s) (screenHeight s) n s) by done.
  pose proof (on_enter l V w _ _ op n Hn s Hat) as H1.
  apply wp_iff in H1 as ([] & s1 & E1 & H1).
  set (n1 := entered (screenWidth s) (screenHeight s) op n) in *.
  assert (Hn1 : state n1 <> NWS_NORMAL) by (by destruct op).
  pose proof (on_restore l V w _ _ n1 Hn1 s1 H1) as H2.
  apply wp_iff in H2 as ([] & s2 & E2 & H2).
  exists s1, s2, n1. split; [done|]. split; [apply H1|]. split; [by destruct op|].
  split; [by intros ->|]. split; [done|].
  destruct H2 as (Hok2 & En2 & _). split; [|by exists l, V].
  rewrite En2. f_equal. unfold restored.
  destruct n, op; cbn in Hn; subst; reflexivity.
Qed.

(** ** Limits of the size *)

(** [z] respects the limits, where a limit that is not positive does not count. *)
Definition within (low high z : Z) : Prop := (0 < low -> low <= z) /\ (0 < high -> z <= high).

(** The limits do not contradict each other. *)
Definition compatible (n : NativeWindow) : Prop :=
  (0 < maxWidth n -> minWidth n <= maxWidth n)
  /\ (0 < maxHeight n -> minHeight n <= maxHeight n).

Definition size_ok (n : NativeWindow) : Prop :=
  within (minWidth n) (maxWidth n) (b_width (currentBounds n))
  /\ within (minHeight n) (maxHeight n) (b_height (currentBounds n)).

Lemma check_bounds_spec (n : NativeWindow) (width height : Z) :
  let '(fits, w', h') := glass_window_check_bounds n width height in
  (compatible n -> within (minWidth n) (maxWidth n) w'
                   /\ within (minHeight n) (maxHeight n) h')
  /\ (fits = true -> w' = width /\ h' = height)
  /\ (within (minWidth n) (maxWidth n) width /\ within (minHeight n) (maxHeight n) height ->
      fits = true).
Proof.
  unfold glass_window_check_bounds, compatible, within.
  destruct (Z.ltb_spec 0 (minWidth n)), (Z.ltb_spec width (minWidth n)),
    (Z.ltb_spec 0 (maxWidth n)), (Z.ltb_spec (maxWidth n) width),
    (Z.ltb_spec 0 (minHeight n)), (Z.ltb_spec height (minHeight n)),
    (Z.ltb_spec 0 (maxHeight n)), (Z.ltb_spec (maxHeight n) height); cbn;
    (split; [lia|]; split; [intros; (done || lia) | intros; (done || lia)]).
Qed.

Lemma limited_ok (n : NativeWindow) : compatible n -> size_ok (limited n).
Proof.
  intros Hc. unfold limited.
  pose proof (check_bounds_spec n (b_width (currentBounds n)) (b_height (currentBounds n))).
  destruct (glass_window_check_bounds n _ _) as [[fits w'] h'].
  by apply H.
Qed.

(** The record of the window [w] after a call that changes its limits. *)
Definition set_limits (w : wid) (minimum : bool) (width height : Z) : M bool :=
  if minimum then glass_window_setMinimumSize w width height
  else glass_window_setMaximumSize w width height.

Definition with_limits (minimum : bool) (width height : Z) (n : NativeWindow) :
    NativeWindow :=
  if minimum then set_minHeight height (set_minWidth width n)
  else set_maxHeight height (set_maxWidth width n).

(** After setMinimumSize or setMaximumSize the size of the window respects
    its limits, unless they contradict each other; the position is kept, and so
    is the size if it is within the limits already. *)
Lemma limits_respected (s : WM) (w : wid) (n : NativeWindow) (minimum : bool)
    (width height : Z) :
  ok s -> windows s !! w = Some n -> compatible (with_limits minimum width height n) ->
  exists b s' n', set_limits w minimum width height s = Some (b, s')
  /\ windows s' !! w = Some n' /\ size_ok n'
  /\ b_x (currentBounds n') = b_x (currentBounds n)
  /\ b_y (currentBounds n') = b_y (currentBounds n)
  /\ (size_ok (with_limits minimum width height n) -> currentBounds n' = currentBounds n).
Proof.
  intros (l & V & H & Hlen) E Hc. set (n1 := with_limits minimum width height n) in *.
  assert (Hat : is_at l V w (screenWidth s) (screenHeight s) n s) by done.
  assert (Hon : on l V w (screenWidth s) (screenHeight s) n
                  (set_limits w minimum width height) (limited n1))
    by (destruct minimum; [apply on_setMinimumSize | apply on_setMaximumSize]).
  pose proof (Hon s Hat) as H1. apply wp_iff in H1 as (b & s' & E1 & H1).
  exists b, s', (limited n1). split; [done|]. split; [apply H1|].
  split; [by apply limited_ok|].
  assert (Hb : currentBounds n1 = currentBounds n) by (by destruct minimum).
  rewrite <- Hb. unfold limited.
  pose proof (check_bounds_spec n1 (b_width (currentBounds n1))
                (b_height (currentBounds n1))) as Hspec.
  destruct (glass_window_check_bounds n1 _ _) as [[fits w'] h'].
  destruct Hspec as (_ & Hsame & Hfits). split; [done|]. split; [done|].
  intros Hs. destruct (Hsame (Hfits Hs)) as [-> ->]. cbn. by destruct (currentBounds n1).
Qed.

(** ** Closing *)

Lemma seg_unique (ws : gmap wid NativeWindow) (l l' : list wid) :
  forall prev, seg ws prev l None -> seg ws prev l' None -> head l = head l' -> l = l'.
Proof.
  revert l'. induction l as [|w l IH]; intros [|w' l'] prev H H' E; try done.
  injection E as <-. destruct H as [(n & En & _ & Hn) H].
  destruct H' as [(n' & En' & _ & Hn') H']. rewrite first_or_None in *.
  f_equal. apply (IH _ (Some w)); [done | done | congruence].
Qed.

(** A state has one list of windows. *)
Lemma zorder_unique (s : WM) (l l' : list wid) : zorder s l -> zorder s l' -> l = l'.
Proof.
  intros H H'. eapply seg_unique; [apply H | apply H'|].
  by rewrite <- (z_head _ _ H), <- (z_head _ _ H').
Qed.

Lemma repaint_strip (s s' : WM) (o : option wid) :
  (forall a, o = Some a -> strip <$> windows s' !! a = strip <$> windows s !! a) ->
  views s' = views s -> repaint_event s' o = repaint_event s o.
Proof.
  intros Ho Hv. destruct o as [a|]; [|done]. specialize (Ho a eq_refl).
  unfold repaint_event. rewrite Hv.
  destruct (windows s' !! a) as [n'|], (windows s !! a) as [n|]; try discriminate; [|done].
  apply (inj Some) in Ho. pose proof (f_equal currentBounds Ho) as Hb.
  cbn in Hb. by rewrite (strip_view _ _ Ho), Hb.
Qed.

Lemma drop_ptr_ne (w : wid) (o : option wid) : drop_ptr w o <> Some w.
Proof. unfold drop_ptr. destruct (decide (Some w = o)); congruence. Qed.

(** C36. Closing a window that can be closed succeeds and frees it.  It asks the
    windows that it owns to close, in their order, has the deepest of the windows
    that are left painted, and ends with the notification that the window is
    destroyed.  The order of the other windows stays, and focus, grab and pointer
    leave the window. *)
Theorem close_notifies (s : WM) (l : list wid) (mallocs : bool) (w : wid) :
  zorder s l -> ok s -> is_Some (windows s !! w) -> closable s mallocs w ->
  exists s',
    LensWindow_close mallocs (Some w) s = Some (true, s')
    /\ ok s' /\ zorder s' (without w l) /\ windows s' !! w = None
    /\ notified s' = WindowEvent w DESTROY :: repaint_event s (head (without w l))
         ++ rev ((fun a => WindowEvent a CLOSE)
                 <$> filter (owned_by (windows s) (Some w)) l) ++ notified s
    /\ focusedWindow s' <> Some w /\ grabbedWindow s' <> Some w
    /\ mouseWindow s' <> Some w.
Proof.
  intros Hz (l0 & V & H & Hlen) [n E] Hc.
  assert (l0 = l) as -> by (eapply zorder_unique; [apply H | done]).
  enough (Hwp : wp (LensWindow_close mallocs (Some w)) (fun b s' => b = true
    /\ ok s' /\ zorder s' (without w l) /\ windows s' !! w = None
    /\ notified s' = WindowEvent w DESTROY :: repaint_event s (head (without w l))
         ++ rev ((fun a => WindowEvent a CLOSE)
                 <$> filter (owned_by (windows s) (Some w)) l) ++ notified s
    /\ focusedWindow s' <> Some w /\ grabbedWindow s' <> Some w
    /\ mouseWindow s' <> Some w) s).
  { apply wp_iff in Hwp as (b & s' & E' & -> & Hrest). by exists s'. }
  unfold LensWindow_close, with_handle. wp_go.
  eapply wp_release; [exact H | done | by apply (o_alloc _ _ _ H w n) | exact Hc |].
  intros s2 Hz2 Hrest2 Hws Ev Ed Et Hnot. wp_go.
  destruct Hc as (_ & Hparent & Hdrag & Htouch & _).
  set (events := repaint_event s2 _).
  assert (Hok : wm_ok (without w l) V (closed_state w events s2))
    by (apply closed_ok; rewrite ?Ev, ?Ed, ?Et; try done; apply repaint_quiet).
  split; [done|]. split; [|split; [apply Hok|]].
  - exists (without w l), V. split; [exact Hok|].
    assert (length (without w l) <= length l)%nat by apply length_filter. lia.
  - split; [apply lookup_delete_eq|]. split; [|split; [|split]; apply drop_ptr_ne].
    unfold closed_state. cbn [notified set_windows set_notified]. rewrite Hnot.
    unfold events. rewrite (repaint_strip s); [done| |done].
    intros a Ha. apply Hws. apply head_elem, elem_without in Ha. by destruct Ha.
Qed.
