(* ===== verification/LensRuns.v ===== *)
(** * Runs of the window manager

    Sequences of requests on two windows side by side: instances of the theorems
    at concrete states, and runs that show where the code falls short. *)

From S2P Require Import LensState LensList LensWM LensSafe LensRequests LensBehaviour.

Fixpoint run_all (rs : list request) (s : WM) : option WM :=
  match rs with
  | [] => Some s
  | r :: rs =>
      match run r s with
      | Some (_, s') => run_all rs s'
      | None => None
      end
  end.

(** Every request respects its contract. *)
Fixpoint allowed_all (rs : list request) (s : WM) : Prop :=
  match rs with
  | [] => True
  | r :: rs =>
      allowed s r /\ match run r s with Some (_, s') => allowed_all rs s' | None => True end
  end.

#[global] Instance allowed_all_dec (rs : list request) : forall s, Decision (allowed_all rs s).
Proof.
  induction rs as [|r rs IH]; intros s; cbn [allowed_all]; [apply _|].
  apply and_dec; [apply _|]. destruct (run r s) as [[u s']|]; [apply IH | apply _].
Defined.

Lemma reachable_run (rs : list request) (s s' : WM) :
  reachable s -> allowed_all rs s -> run_all rs s = Some s' -> reachable s'.
Proof.
  revert s. induction rs as [|r rs IH]; intros s Hs Ha E; cbn in *.
  - by injection E as <-.
  - destruct Ha as [Hr Ha]. destruct (run r s) as [[[] s1]|] eqn:E1; [|done].
    apply (IH s1); [by eapply reach_step | done | done].
Qed.

(** The addresses of two windows, and of their views. *)
Definition Left : positive := 1%positive.
Definition Right : positive := 2%positive.

(** A window with a view, at the given position. *)
Definition new_window (w : wid) (x y width height : Z) : list request :=
  [CreateWindow w None; CreateView w true; AttachView (Some w) (Some w);
   SetParent w (Some w); SetBounds (Some w) x y width height true true false;
   SetVisible (Some w) true].

(** Two windows, the left and the right half of a screen of 100 by 50 pixels; the
    right one has the focus. *)
Definition two_windows : list request := new_window Left 0 0 50 50 ++ new_window Right 50 0 50 50.

Definition start : WM := initial 100 50.

(** The mouse events of a run, the first one first: the view and the type. *)
Definition mouse_trace (s : WM) : list (vid * Z) :=
  rev (omap (fun e => match e with
                      | MouseEvent v t _ _ _ _ _ _ _ => Some (v, t)
                      | _ => None
                      end) (notified s)).

(** ** Where the code falls short *)

(** A button is pressed in the left window, the pointer dragged into the right
    one, and the button released there: the release is sent to the right window,
    which saw no press, and not to the left one, which did; and the right window
    gets the moves that follow without having been entered. *)
Lemma drag_release_goes_elsewhere :
  mouse_trace <$> run_all (two_windows ++
    [ButtonChange true BUTTON_LEFT 10 10; Motion 60 10;
     ButtonChange false BUTTON_LEFT 60 10; Motion 61 10]) start
  = Some [(Left, MouseEvent_ENTER); (Left, MouseEvent_DOWN);
          (Left, MouseEvent_EXIT); (Left, MouseEvent_MOVE);
          (Right, MouseEvent_UP); (Right, MouseEvent_MOVE)].
Proof. vm_compute. reflexivity. Qed.

(** A release of a button that was not pressed counts as a press: the next motion
    starts a drag. *)
Lemma lone_release_starts_drag :
  _onDraggingAction <$> run_all (two_windows ++
    [ButtonChange false BUTTON_LEFT 10 10; Motion 11 10]) start = Some true.
Proof. vm_compute. reflexivity. Qed.

Definition close_first : list request :=
  [AttachView (Some Left) None; SetParent Left None; CloseView Left;
   CloseWindow true (Some Left)].

(** A window that is closed while the pointer is dragged from it, or a finger
    touches it, stays in the variables of the window manager: the next event
    follows a pointer to freed memory. *)
Lemma close_during_drag :
  (exists s, run_all (two_windows ++ [ButtonChange true BUTTON_LEFT 10 10; Motion 11 10]
                      ++ close_first) start = Some s
             /\ windows s !! Left = None
             /\ _dragGrabbingWindow s = Some Left
             /\ run (Motion 12 10) s = None)
  /\ (exists s, run_all (two_windows ++ [Touch [TOUCH_PRESSED] [7] [10] [10] 0]
                      ++ close_first) start = Some s
             /\ touchWindow s = Some Left
             /\ run (Touch [TOUCH_MOVED] [7] [11] [10] 0) s = None).
Proof.
  split; eexists; (split; [vm_compute; reflexivity|]); vm_compute; auto.
Qed.

(** Closing a window that still has a view reports success, but the window is only
    taken out of the list: it is neither freed nor is Java told that it is
    destroyed. *)
Lemma close_with_view :
  exists s s', run_all two_windows start = Some s
  /\ LensWindow_close true (Some Right) s = Some (true, s')
  /\ is_Some (windows s' !! Right) /\ windowList_tail s' = Some Left
  /\ WindowEvent Right DESTROY ∉ notified s'.
Proof.
  do 2 eexists. split; [vm_compute; reflexivity|]. split; [vm_compute; reflexivity|].
  split; [vm_compute; eauto|]. split; [reflexivity|].
  cbn [notified]. rewrite !not_elem_of_cons. repeat split; try discriminate.
  apply not_elem_of_nil.
Qed.

(** When no window has the focus a released modifier key is not counted: the next
    key is typed with it. *)
Lemma modifier_sticks :
  (fun s => (shiftDown (modifiers s), head (notified s))) <$> run_all (two_windows ++
    [KeyChange false KeyEvent_PRESS VK_SHIFT false; SetFocusable (Some Right) false;
     KeyChange false KeyEvent_RELEASE VK_SHIFT false; SetFocusable (Some Right) true;
     RequestFocus (Some Right); KeyChange false KeyEvent_PRESS VK_A false]) start
  = Some (1, Some (KeyEvent Right KeyEvent_PRESS VK_A MODIFIER_SHIFT [65])).
Proof. vm_compute. reflexivity. Qed.

(** Enabling a window makes it focusable, even if it was not before it was
    disabled. *)
Lemma enable_makes_focusable :
  (fun s => isFocusable <$> windows s !! Right) <$> run_all (two_windows ++
    [SetFocusable (Some Right) false; SetEnabled (Some Right) false;
     SetEnabled (Some Right) true]) start = Some (Some true).
Proof. vm_compute. reflexivity. Qed.

(** A disabled window can still be given the focus, when the focused one goes. *)
Lemma disabled_gets_focus :
  (fun s => (focusedWindow s, isEnabled <$> windows s !! Left)) <$>
    run_all (two_windows ++
      [SetEnabled (Some Left) false; SetFocusable (Some Left) true;
       SetVisible (Some Right) false]) start
  = Some (Some Left, Some false).
Proof. vm_compute. reflexivity. Qed.

(** A window whose creation fails is released before it is complete: without
    memory a [NULL] pointer is followed, and without a reference to the Java object
    the window is freed twice. *)
Lemma create_failure (s : WM) (globalRef platform : bool) (o : option wid) :
  LensWindow_createWindow true None globalRef platform o s = None
  /\ LensWindow_createWindow true (Some Left) false true None start = None.
Proof.
  split; [|reflexivity]. unfold LensWindow_createWindow, glass_create_native_window,
    glass_window_NativeWindow_release, list_fuel, glass_window_list_getHead,
    glass_window_list_getSize, gets, mbind, M_bind, mret, M_ret.
  cbn -[owned_loop notify_close].
  match goal with
  | |- context [owned_loop ?f ?c ?h ?w ?acc ?st] =>
      destruct (owned_loop f c h w acc st) as [[ls s1]|]; [|done]
  end.
  by destruct (notify_close ls s1) as [[[] s2]|].
Qed.

(** The functions for views throw for a [NULL] handle and then follow it. *)
Lemma null_view_followed (s : WM) :
  LensView_enterFullscreen None s = None /\ LensView_close None s = None.
Proof. split; reflexivity. Qed.

(** A window that can grow to the full width but not to the full height of the
    screen is maximized one pixel beyond the left edge. *)
Lemma maximize_off_screen (s : WM) (w : wid) (n : NativeWindow) :
  ok s -> windows s !! w = Some n -> state n = NWS_NORMAL ->
  minWidth n <= 0 -> maxWidth n <= 0 -> minHeight n <= 0 ->
  0 < maxHeight n < screenHeight s -> b_height (currentBounds n) < maxHeight n ->
  exists s' n', lens_wm_windowMaximize w s = Some (tt, s') /\ windows s' !! w = Some n'
  /\ b_x (currentBounds n') = -1 /\ b_width (currentBounds n') = screenWidth s.
Proof.
  intros (l & V & H & Hlen) E Hn Hmw Hxw Hmh Hxh Hb.
  assert (Hat : is_at l V w (screenWidth s) (screenHeight s) n s) by done.
  pose proof (on_maximize l V w _ _ n Hn s Hat) as H1.
  apply wp_iff in H1 as ([] & s' & E1 & H1). exists s', (maximized (screenWidth s) (screenHeight s) n).
  split; [done|]. split; [apply H1|]. unfold maximized, maximized_bounds,
    glass_window_check_bounds.
  replace (0 <? minWidth n) with false by lia. replace (0 <? maxWidth n) with false by lia.
  replace (0 <? minHeight n) with false by lia. replace (0 <? maxHeight n) with true by lia.
  replace (maxHeight n <? screenHeight s) with true by lia. cbn [andb].
  replace (b_height (currentBounds n) <? maxHeight n) with true by lia. rewrite orb_true_r.
  cbn. split; [|done]. rewrite Z.sub_diag. reflexivity.
Qed.

(** A maximized window that is minimized and restored is a normal window, with the
    size of the maximized one: the bounds from before are lost. *)
Lemma restore_forgets_maximized (s : WM) (w : wid) (n : NativeWindow) :
  ok s -> windows s !! w = Some n -> state n = NWS_MAXIMIZED ->
  exists s1 s2 n2, lens_wm_windowMinimize w s = Some (tt, s1)
  /\ lens_wm_windowRestore w s1 = Some (tt, s2) /\ windows s2 !! w = Some n2
  /\ state n2 = NWS_NORMAL /\ currentBounds n2 = currentBounds n
  /\ cachedBounds n2 = currentBounds n.
Proof.
  intros (l & V & H & Hlen) E Hn.
  assert (Hat : is_at l V w (screenWidth s) (screenHeight s) n s) by done.
  pose proof (on_minimize l V w _ _ n (or_intror Hn) s Hat) as H1.
  apply wp_iff in H1 as ([] & s1 & E1 & H1).
  pose proof (on_restore l V w _ _ (minimized n) ltac:(done) s1 H1) as H2.
  apply wp_iff in H2 as ([] & s2 & E2 & H2).
  exists s1, s2, (restored (minimized n)). split; [done|]. split; [done|].
  split; [apply H2|]. done.
Qed.

(** ** Instances of the theorems *)

Definition desktop : WM := default start (run_all two_windows start).

Lemma desktop_reachable : reachable desktop.
Proof.
  apply (reachable_run two_windows start); [apply reach_initial | | vm_compute; reflexivity].
  apply (bool_decide_unpack _). vm_compute. exact I.
Qed.

Lemma desktop_ok : ok desktop.
Proof. apply reachable_ok, desktop_reachable. Qed.

Lemma desktop_zorder : zorder desktop [Left; Right].
Proof.
  split.
  - apply (bool_decide_unpack _). vm_compute. exact I.
  - vm_compute. split; [|split; [|exact I]]; eexists; (split; [reflexivity|]); done.
  - reflexivity.
  - reflexivity.
  - reflexivity.
Qed.

(** The record of a window of [desktop]. *)
Definition desktop_window (w : wid) : NativeWindow := default zero_window (windows desktop !! w).

Lemma window_list_refines_witness :
  refines (list_run (ToFront Left)) desktop ([Right; Left], true).
Proof.
  pose proof (window_list_refines desktop [Left; Right] (ToFront Left) desktop_zorder I) as H.
  exact H.
Defined.

Lemma window_manager_safe_witness :
  exists s', run (ButtonChange true BUTTON_LEFT 10 10) desktop = Some (tt, s')
             /\ reachable s' /\ ok s'.
Proof.
  exact (window_manager_safe desktop (ButtonChange true BUTTON_LEFT 10 10) desktop_reachable I).
Defined.

Lemma focus_protocol_witness : replay (notified desktop) = Some (Some Right).
Proof. exact (proj1 (focus_protocol desktop desktop_reachable)). Defined.


Lemma restore_roundtrip_witness :
  exists s1, lens_wm_windowMaximize Left desktop = Some (tt, s1).
Proof.
  destruct (restore_roundtrip desktop Left (desktop_window Left) Maximized desktop_ok)
    as (s1 & s2 & n1 & E & _); [vm_compute; reflexivity | vm_compute; reflexivity |].
  exists s1. exact E.
Defined.

(** The left window when its view is gone. *)
Definition desktop_viewless : WM :=
  default start (run_all (two_windows ++ [AttachView (Some Left) None; SetParent Left None]) start).

Lemma desktop_viewless_ok : ok desktop_viewless.
Proof.
  apply reachable_ok.
  apply (reachable_run (two_windows ++ [AttachView (Some Left) None; SetParent Left None]) start);
    [apply reach_initial | apply (bool_decide_unpack _); vm_compute; exact I
    | vm_compute; reflexivity].
Qed.

Lemma desktop_viewless_zorder : zorder desktop_viewless [Left; Right].
Proof.
  split.
  - apply (bool_decide_unpack _). vm_compute. exact I.
  - vm_compute. split; [|split; [|exact I]]; eexists; (split; [reflexivity|]); done.
  - reflexivity.
  - reflexivity.
  - reflexivity.
Qed.

Lemma close_notifies_witness :
  exists s', LensWindow_close true (Some Left) desktop_viewless = Some (true, s').
Proof.
  destruct (close_notifies desktop_viewless [Left; Right] true Left desktop_viewless_zorder
              desktop_viewless_ok) as (s' & E & _);
    [vm_compute; eauto | apply (bool_decide_unpack _); vm_compute; exact I |].
  exists s'. exact E.
Defined.
