(* ===== verification/Bytes.v ===== *)
(** * Numbers in big-endian order (gstutils.h, flvparser.h)

    The macros that read numbers from a buffer of bytes, the writers that they
    invert, and the predicate [holds] that a buffer has given bytes at an offset.
    A read outside the buffer is [None]. *)

From S2P Require Import Prelude.
From S2P Require Import Mem.

(** ** Reading *)

Definition GST_READ_UINT8 (d : list Z) (i : Z) : option Z := ld d i.

Definition GST_READ_UINT16_BE (d : list Z) (i : Z) : option Z :=
  b0 ← ld d i; b1 ← ld d (i + 1);
  Some ((b0 << 8) .| b1).

Definition GST_READ_UINT32_BE (d : list Z) (i : Z) : option Z :=
  b0 ← ld d i; b1 ← ld d (i + 1); b2 ← ld d (i + 2); b3 ← ld d (i + 3);
  Some (((b0 << 24) .| (b1 << 16)) .| (b2 << 8) .| b3).

Definition FLV_READ_UINT24_BE (d : list Z) (i : Z) : option Z :=
  hi ← GST_READ_UINT16_BE d i; lo ← GST_READ_UINT8 d (i + 2);
  Some ((hi << 8) .| lo).

(** The fourth byte is the most significant one; the result is an [int]. *)
Definition FLV_READ_TS32 (d : list Z) (i : Z) : option Z :=
  hi ← GST_READ_UINT16_BE d i; lo ← GST_READ_UINT8 d (i + 2);
  ext ← GST_READ_UINT8 d (i + 3);
  Some (i32 (((hi << 8) .| lo) .| (ext << 24))).

(** ** Writing *)

Definition be16 (n : Z) : list Z := [n / 256 mod 256; n mod 256].
Definition be24 (n : Z) : list Z := (n / 65536 mod 256) :: be16 n.
Definition be32 (n : Z) : list Z := (n / 16777216 mod 256) :: be24 n.

(** ** Bytes at an offset *)

Definition bytes (l : list Z) : Prop := Forall is_byte l.

(** The buffer [d] has the bytes [l] from offset [i] on. *)
Definition holds (d : list Z) (i : Z) (l : list Z) : Prop :=
  0 <= i /\ forall k b, l !! k = Some b -> ld d (i + Z.of_nat k) = Some b.

Lemma holds_app d i l1 l2 :
  holds d i (l1 ++ l2) <-> holds d i l1 /\ holds d (i + alen l1) l2.
Proof.
  unfold holds, alen. split.
  - intros [Hi H]. split; split; [done| |lia|]; intros k b Hk.
    + apply H. by apply lookup_app_l_Some.
    + replace (i + Z.of_nat (length l1) + Z.of_nat k) with (i + Z.of_nat (length l1 + k)) by lia.
      apply H. rewrite lookup_app_r by lia. by replace (length l1 + k - length l1)%nat with k by lia.
  - intros [[Hi H1] [_ H2]]. split; [done|]. intros k b [Hk|[Hk Hb]]%lookup_app_Some.
    + by apply H1.
    + replace (i + Z.of_nat k) with (i + Z.of_nat (length l1) + Z.of_nat (k - length l1)) by lia.
      by apply H2.
Qed.

Lemma holds_cons d i b l : holds d i (b :: l) <-> ld d i = Some b /\ holds d (i + 1) l.
Proof.
  change (b :: l) with ([b] ++ l). rewrite holds_app. unfold alen; simpl.
  split; intros [H1 H2]; (split; [|done]).
  - destruct H1 as [_ H1]. specialize (H1 O b eq_refl). by rewrite Z.add_0_r in H1.
  - apply ld_Some in H1 as Hi. split; [lia|].
    intros [|k] c Hk; [|done]. simplify_eq/=. by rewrite Z.add_0_r.
Qed.

Lemma holds_nil d i : 0 <= i -> holds d i [].
Proof. by split. Qed.

Lemma holds_all d : holds d 0 d.
Proof.
  split; [done|]. intros k b Hk. unfold ld. zcase; [|lia].
  by replace (Z.to_nat (0 + Z.of_nat k)) with k by lia.
Qed.

Lemma holds_ge d i l : holds d i l -> 0 <= i.
Proof. by intros []. Qed.

(** Bytes that a buffer holds are inside it. *)
Lemma holds_le d i l : holds d i l -> l <> [] -> i + alen l <= alen d.
Proof.
  intros [Hi H] Hl. destruct (lookup_lt_is_Some_2 l (length l - 1)) as [b Hb].
  { destruct l; simpl; [done|lia]. }
  specialize (H _ _ Hb) as ?%ld_Some. apply lookup_lt_Some in Hb. unfold alen in *. lia.
Qed.

(** ** Reads of bytes *)

Lemma ld_byte d i v : bytes d -> ld d i = Some v -> is_byte v.
Proof.
  unfold bytes, ld. zcase; [|done]. intros Hd Hv. by eapply Forall_lookup_1 in Hv.
Qed.

Lemma shl_lor a b n : 0 <= n -> 0 <= b < 2 ^ n -> (a << n) .| b = a * 2 ^ n + b.
Proof. intros. by rewrite Z.shiftl_mul_pow2, lor_add_low. Qed.

Lemma read16_bytes b0 b1 d i :
  ld d i = Some b0 -> ld d (i + 1) = Some b1 -> is_byte b1 ->
  GST_READ_UINT16_BE d i = Some (b0 * 256 + b1).
Proof.
  unfold GST_READ_UINT16_BE, is_byte. intros -> -> ?. simpl.
  by rewrite (shl_lor b0 b1 8) by lia.
Qed.

Lemma read24_bytes b0 b1 b2 d i :
  ld d i = Some b0 -> ld d (i + 1) = Some b1 -> ld d (i + 2) = Some b2 ->
  is_byte b1 -> is_byte b2 ->
  FLV_READ_UINT24_BE d i = Some (b0 * 65536 + b1 * 256 + b2).
Proof.
  unfold FLV_READ_UINT24_BE, GST_READ_UINT8. intros H0 H1 H2 ? ?.
  rewrite (read16_bytes b0 b1), H2 by done. unfold is_byte in *. simpl.
  rewrite (shl_lor _ b2 8) by lia. f_equal. lia.
Qed.

Lemma read32_bytes b0 b1 b2 b3 d i :
  ld d i = Some b0 -> ld d (i + 1) = Some b1 -> ld d (i + 2) = Some b2 ->
  ld d (i + 3) = Some b3 -> is_byte b1 -> is_byte b2 -> is_byte b3 ->
  GST_READ_UINT32_BE d i = Some (b0 * 16777216 + b1 * 65536 + b2 * 256 + b3).
Proof.
  unfold GST_READ_UINT32_BE, is_byte. intros -> -> -> -> ? ? ?. simpl. f_equal.
  rewrite <- !Z.lor_assoc, (shl_lor b2 b3 8), (shl_lor b1 _ 16), (shl_lor b0 _ 24) by lia. lia.
Qed.

Lemma readTS_bytes b0 b1 b2 b3 d i :
  ld d i = Some b0 -> ld d (i + 1) = Some b1 -> ld d (i + 2) = Some b2 ->
  ld d (i + 3) = Some b3 -> is_byte b0 -> is_byte b1 -> is_byte b2 ->
  FLV_READ_TS32 d i = Some (i32 (b3 * 16777216 + b0 * 65536 + b1 * 256 + b2)).
Proof.
  unfold FLV_READ_TS32, GST_READ_UINT8. intros H0 H1 H2 H3 ? ? ?.
  rewrite (read16_bytes b0 b1), H2, H3 by done. unfold is_byte in *. simpl.
  rewrite (shl_lor _ b2 8) by lia. rewrite Z.lor_comm, (shl_lor b3 _ 24) by lia.
  f_equal. f_equal. lia.
Qed.

Lemma be16_bytes n : bytes (be16 n).
Proof. unfold bytes, be16, is_byte. repeat constructor; zlia. Qed.
Lemma be24_bytes n : bytes (be24 n).
Proof. unfold be24. constructor; [unfold is_byte; zlia|apply be16_bytes]. Qed.
Lemma be32_bytes n : bytes (be32 n).
Proof. unfold be32. constructor; [unfold is_byte; zlia|apply be24_bytes]. Qed.

#[export] Hint Resolve be16_bytes be24_bytes be32_bytes : pisces.

(** ** Reading what was written *)

Ltac held H :=
  rewrite ?holds_cons in H; destruct_and? H;
  repeat match goal with
  | E : ld _ (?i + ?a + ?b) = _ |- _ =>
      rewrite <- (Z.add_assoc i a b) in E; let c := eval compute in (a + b) in
      change (a + b) with c in E
  end.

Lemma read16 d i n : 0 <= n < 65536 -> holds d i (be16 n) -> GST_READ_UINT16_BE d i = Some n.
Proof.
  intros Hn H. unfold be16 in H. held H. erewrite read16_bytes; eauto; [|unfold is_byte; zlia].
  f_equal. zlia.
Qed.

Lemma read24 d i n : 0 <= n < 16777216 -> holds d i (be24 n) -> FLV_READ_UINT24_BE d i = Some n.
Proof.
  intros Hn H. unfold be24, be16 in H. held H.
  erewrite read24_bytes; eauto; [|unfold is_byte; zlia..]. f_equal. zlia.
Qed.

Lemma read32 d i n : 0 <= n < 4294967296 -> holds d i (be32 n) -> GST_READ_UINT32_BE d i = Some n.
Proof.
  intros Hn H. unfold be32, be24, be16 in H. held H.
  erewrite read32_bytes; eauto; [|unfold is_byte; zlia..]. f_equal. zlia.
Qed.

(** The three low bytes of a time stamp, then its high byte. *)
Definition ts32 (t : Z) : list Z := be24 (u32 t) ++ [u32 t / 16777216].

Lemma ts32_bytes t : bytes (ts32 t).
Proof.
  apply Forall_app. split; [apply be24_bytes|]. apply list.Forall_singleton.
  pose proof (u32_range t) as Ht. unfold is_u32, is_byte in *. zlia.
Qed.

Lemma readTS d i t : is_i32 t -> holds d i (ts32 t) -> FLV_READ_TS32 d i = Some t.
Proof.
  intros Ht H. unfold ts32, be24, be16 in H. simpl in H. held H.
  erewrite readTS_bytes; eauto; [|unfold is_byte; zlia..]. f_equal.
  unfold is_i32 in Ht. unfold i32, u32. zlia.
Qed.
#[export] Hint Resolve ts32_bytes : pisces.

(** ** Reads in bounds *)

Lemma read16_in d i :
  bytes d -> 0 <= i -> i + 2 <= alen d ->
  exists n, GST_READ_UINT16_BE d i = Some n /\ 0 <= n < 65536.
Proof.
  intros Hd Hi Hl. destruct (ld_in d i) as [b0 H0]; [lia|].
  destruct (ld_in d (i + 1)) as [b1 H1]; [lia|].
  apply ld_byte in H0 as ?; apply ld_byte in H1 as ?; try done. unfold is_byte in *.
  eexists. split; [eapply read16_bytes; eauto|lia].
Qed.

Lemma read24_in d i :
  bytes d -> 0 <= i -> i + 3 <= alen d ->
  exists n, FLV_READ_UINT24_BE d i = Some n /\ 0 <= n < 16777216.
Proof.
  intros Hd Hi Hl. destruct (read16_in d i) as (n & Hn & ?); [done|lia..|].
  destruct (ld_in d (i + 2)) as [b2 H2]; [lia|]. apply ld_byte in H2 as ?; [|done].
  unfold FLV_READ_UINT24_BE, GST_READ_UINT8, is_byte in *. rewrite Hn, H2. simpl.
  eexists. split; [done|]. rewrite (shl_lor n b2 8) by lia. lia.
Qed.

Lemma readTS_in d i :
  0 <= i -> i + 4 <= alen d -> exists n, FLV_READ_TS32 d i = Some n /\ is_i32 n.
Proof.
  intros Hi Hl. destruct (ld_in d i) as [b0 H0]; [lia|].
  destruct (ld_in d (i + 1)) as [b1 H1]; [lia|]. destruct (ld_in d (i + 2)) as [b2 H2]; [lia|].
  destruct (ld_in d (i + 3)) as [b3 H3]; [lia|].
  unfold FLV_READ_TS32, GST_READ_UINT16_BE, GST_READ_UINT8. rewrite H0, H1, H2, H3. simpl.
  eexists. split; [done|apply i32_range].
Qed.

Lemma read32_in d i :
  bytes d -> 0 <= i -> i + 4 <= alen d ->
  exists n, GST_READ_UINT32_BE d i = Some n /\ 0 <= n < 4294967296.
Proof.
  intros Hd Hi Hl. destruct (ld_in d i) as [b0 H0]; [lia|].
  destruct (ld_in d (i + 1)) as [b1 H1]; [lia|]. destruct (ld_in d (i + 2)) as [b2 H2]; [lia|].
  destruct (ld_in d (i + 3)) as [b3 H3]; [lia|].
  apply ld_byte in H0 as ?; apply ld_byte in H1 as ?; apply ld_byte in H2 as ?;
    apply ld_byte in H3 as ?; try done.
  unfold is_byte in *. eexists. split; [eapply read32_bytes; eauto|lia].
Qed.
