(* ===== verification/FlvParser.v ===== *)
(** * The parser of FLV blocks (flvparser.c, flvparser.h)

    A file is a header, a block to skip, and tags: a prefix and a body with a
    suffix.  The parser does not read the file: its caller gives it the next
    [next_block_size] bytes, and the parser tells what they are and how many bytes
    the next block has.  [file_position] and the sizes are 64 bits wide.

    A function takes the parser, the buffer, its size and the structure that the
    caller passes for the result, and gives the result code with the new parser
    and structure: also a function that fails may have written to it.  [None] is a
    read outside the buffer. *)

From S2P Require Import Prelude.
From S2P Require Import Mem.
From S2P Require Export Bytes.

Inductive FlvParserResult : Type :=
  | FLV_PARSER_OK
  | FLV_PARSER_BUFFER_UNDERRUN
  | FLV_PARSER_BAD_STREAM
  | FLV_PARSER_UNSUPPORTED_STREAM
  | FLV_PARSER_INVALID_STATE.

Inductive FlvParserState : Type :=
  | FLV_PARSER_EXPECT_HEADER
  | FLV_PARSER_EXPECT_SKIP_BLOCK
  | FLV_PARSER_EXPECT_TAG_PREFIX
  | FLV_PARSER_EXPECT_VIDEO_TAG_BODY
  | FLV_PARSER_EXPECT_AUDIO_TAG_BODY
  | FLV_PARSER_EXPECT_SCRIPT_DATA_TAG_BODY
  | FLV_PARSER_EOF.

#[export] Instance FlvParserResult_eq_dec : EqDecision FlvParserResult.
Proof. solve_decision. Defined.
#[export] Instance FlvParserState_eq_dec : EqDecision FlvParserState.
Proof. solve_decision. Defined.

Definition FLV_TAG_TYPE_AUDIO : Z := 8.
Definition FLV_TAG_TYPE_VIDEO : Z := 9.
Definition FLV_TAG_TYPE_SCRIPT_DATA : Z := 18.
Definition FLV_VIDEO_FRAME_KEY : Z := 1.

Definition FLV_HEADER_SIZE : Z := 9.
Definition FLV_HEADER_FLAG_HAS_VIDEO_TAGS : Z := 1.
Definition FLV_HEADER_FLAG_HAS_AUDIO_TAGS : Z := 4.
Definition FLV_HEADER_FLAG_RESERVED : Z := 250.
Definition FLV_TAG_PREFIX_SIZE : Z := 11.
Definition FLV_TAG_SUFFIX_SIZE : Z := 4.
Definition FLV_AUDIO_PREFIX_LENGTH : Z := 1.
Definition FLV_VIDEO_PREFIX_LENGTH : Z := 1.

Record FlvParser := mkParser {
  state : FlvParserState;
  file_position : Z;
  parsed_block_size : Z;
  next_block_size : Z;
}.

Record FlvHeader := mkHeader {
  file_version : Z;
  has_audio_tags : bool;
  has_video_tags : bool;
}.

Record FlvTagPrefix := mkTagPrefix {
  tag_type : Z;
  body_size : Z;
  timestamp : Z;
}.

Record FlvAudioTag := mkAudioTag {
  sound_format : Z;
  sampling_rate : Z;
  is_16bit : bool;
  is_stereo : bool;
  audio_packet_offset : Z;
  audio_packet_size : Z;
}.

Record FlvVideoTag := mkVideoTag {
  codec_id : Z;
  frame_type : Z;
  video_packet_offset : Z;
  video_packet_size : Z;
}.

(** The pointers are offsets in the block that the reader was made for. *)
Record FlvScriptDataReader := mkReader {
  position : Z;
  end_ : Z;
}.

Definition flv_audio_format_data_size : list Z :=
  [0; 0; 0; 0; 0; 0; 0; 0; 0; 0; 1; 0; 0; 0; 0; 0].

Definition flv_video_codec_data_size : list Z :=
  [0; 0; 0; 0; 1; 1; 0; 6; 0; 0; 0; 0; 0; 0; 0; 0].

(** ** The operations *)

Definition flv_parser_init (parser : FlvParser) : FlvParser :=
  mkParser FLV_PARSER_EXPECT_HEADER 0 0 FLV_HEADER_SIZE.

Definition flv_parser_reset (parser : FlvParser) : FlvParser :=
  mkParser FLV_PARSER_EXPECT_HEADER 0 0 FLV_HEADER_SIZE.

(** The statements that every successful read of a block ends with. *)
Definition advance (parser : FlvParser) (parsed next : Z) (st : FlvParserState) : FlvParser :=
  mkParser st (u64 (file_position parser + parsed)) parsed next.

Definition flv_parser_read_header (parser : FlvParser) (buffer : list Z) (buffer_size : Z)
    (header : FlvHeader) : option (FlvParserResult * FlvParser * FlvHeader) :=
  if bool_decide (state parser <> FLV_PARSER_EXPECT_HEADER)
  then Some (FLV_PARSER_INVALID_STATE, parser, header) else
  if buffer_size <? FLV_HEADER_SIZE
  then Some (FLV_PARSER_BUFFER_UNDERRUN, parser, header) else
  b0 ← ld buffer 0; b1 ← ld buffer 1; b2 ← ld buffer 2;
  if negb (b0 =? 70) || negb (b1 =? 76) || negb (b2 =? 86)
  then Some (FLV_PARSER_BAD_STREAM, parser, header) else
  version ← ld buffer 3;
  let header := mkHeader version (has_audio_tags header) (has_video_tags header) in
  if negb (file_version header =? 1)
  then Some (FLV_PARSER_UNSUPPORTED_STREAM, parser, header) else
  flags ← ld buffer 4;
  if negb (flags .& FLV_HEADER_FLAG_RESERVED =? 0)
  then Some (FLV_PARSER_BAD_STREAM, parser, header) else
  let header := mkHeader version (truth (flags .& FLV_HEADER_FLAG_HAS_AUDIO_TAGS))
                                 (truth (flags .& FLV_HEADER_FLAG_HAS_VIDEO_TAGS)) in
  data_offset ← GST_READ_UINT32_BE buffer 5;
  if data_offset <? FLV_HEADER_SIZE
  then Some (FLV_PARSER_BAD_STREAM, parser, header) else
  Some (FLV_PARSER_OK,
        advance parser FLV_HEADER_SIZE
          (if data_offset =? FLV_HEADER_SIZE then FLV_TAG_SUFFIX_SIZE
           else data_offset - FLV_HEADER_SIZE + FLV_TAG_SUFFIX_SIZE)
          FLV_PARSER_EXPECT_SKIP_BLOCK,
        header).

Definition flv_parser_skip (parser : FlvParser) (buffer : list Z) (buffer_size : Z)
    : FlvParserResult * FlvParser :=
  if bool_decide (state parser <> FLV_PARSER_EXPECT_SKIP_BLOCK)
  then (FLV_PARSER_INVALID_STATE, parser) else
  if buffer_size <? next_block_size parser
  then (FLV_PARSER_BUFFER_UNDERRUN, parser) else
  (FLV_PARSER_OK,
   advance parser (next_block_size parser) FLV_TAG_PREFIX_SIZE FLV_PARSER_EXPECT_TAG_PREFIX).

(** The state for the body of a tag; [None] for a type that is not supported. *)
Definition body_state (tag_type : Z) : option FlvParserState :=
  if tag_type =? FLV_TAG_TYPE_AUDIO then Some FLV_PARSER_EXPECT_AUDIO_TAG_BODY
  else if tag_type =? FLV_TAG_TYPE_VIDEO then Some FLV_PARSER_EXPECT_VIDEO_TAG_BODY
  else if tag_type =? FLV_TAG_TYPE_SCRIPT_DATA then Some FLV_PARSER_EXPECT_SCRIPT_DATA_TAG_BODY
  else None.

Definition flv_parser_read_tag_prefix (parser : FlvParser) (buffer : list Z) (buffer_size : Z)
    (tag : FlvTagPrefix) : option (FlvParserResult * FlvParser * FlvTagPrefix) :=
  if bool_decide (state parser <> FLV_PARSER_EXPECT_TAG_PREFIX)
  then Some (FLV_PARSER_INVALID_STATE, parser, tag) else
  if buffer_size <? FLV_TAG_PREFIX_SIZE
  then Some (FLV_PARSER_BUFFER_UNDERRUN, parser, tag) else
  type ← ld buffer 0;
  size ← FLV_READ_UINT24_BE buffer 1;
  time ← FLV_READ_TS32 buffer 4;
  let tag := mkTagPrefix type size time in
  stream_id ← FLV_READ_UINT24_BE buffer 8;
  if negb (stream_id =? 0)
  then Some (FLV_PARSER_UNSUPPORTED_STREAM, parser, tag) else
  let parser := advance parser FLV_TAG_PREFIX_SIZE (body_size tag + FLV_TAG_SUFFIX_SIZE)
                        (state parser) in
  match body_state type with
  | Some st => Some (FLV_PARSER_OK,
      mkParser st (file_position parser) (parsed_block_size parser) (next_block_size parser), tag)
  | None => Some (FLV_PARSER_UNSUPPORTED_STREAM, parser, tag)
  end.

Definition flv_parser_read_audio_tag (parser : FlvParser) (buffer : list Z) (buffer_size : Z)
    (audio_tag : FlvAudioTag) : option (FlvParserResult * FlvParser * FlvAudioTag) :=
  if bool_decide (state parser <> FLV_PARSER_EXPECT_AUDIO_TAG_BODY)
  then Some (FLV_PARSER_INVALID_STATE, parser, audio_tag) else
  if buffer_size <? next_block_size parser
  then Some (FLV_PARSER_BUFFER_UNDERRUN, parser, audio_tag) else
  b0 ← ld buffer 0;
  let format := (b0 .& 240) >> 4 in
  data_size ← ld flv_audio_format_data_size format;
  let offset := FLV_AUDIO_PREFIX_LENGTH + data_size in
  Some (FLV_PARSER_OK,
        advance parser (next_block_size parser) FLV_TAG_PREFIX_SIZE FLV_PARSER_EXPECT_TAG_PREFIX,
        {| sound_format := format;
           sampling_rate := (b0 .& 12) >> 2;
           is_16bit := truth (b0 .& 2);
           is_stereo := truth (b0 .& 1);
           audio_packet_offset := offset;
           audio_packet_size := u64 (next_block_size parser - FLV_TAG_SUFFIX_SIZE - offset) |}).

Definition flv_parser_read_video_tag (parser : FlvParser) (buffer : list Z) (buffer_size : Z)
    (video_tag : FlvVideoTag) : option (FlvParserResult * FlvParser * FlvVideoTag) :=
  if bool_decide (state parser <> FLV_PARSER_EXPECT_VIDEO_TAG_BODY)
  then Some (FLV_PARSER_INVALID_STATE, parser, video_tag) else
  if buffer_size <? next_block_size parser
  then Some (FLV_PARSER_BUFFER_UNDERRUN, parser, video_tag) else
  b0 ← ld buffer 0;
  let codec := b0 .& 15 in
  data_size ← ld flv_video_codec_data_size codec;
  let offset := FLV_VIDEO_PREFIX_LENGTH + data_size in
  Some (FLV_PARSER_OK,
        advance parser (next_block_size parser) FLV_TAG_PREFIX_SIZE FLV_PARSER_EXPECT_TAG_PREFIX,
        {| codec_id := codec;
           frame_type := (b0 .& 240) >> 4;
           video_packet_offset := offset;
           video_packet_size := u64 (next_block_size parser - FLV_TAG_SUFFIX_SIZE - offset) |}).

Definition flv_parser_read_script_data_tag (parser : FlvParser) (buffer : list Z)
    (buffer_size : Z) (script_data_reader : FlvScriptDataReader)
    : FlvParserResult * FlvParser * FlvScriptDataReader :=
  if bool_decide (state parser <> FLV_PARSER_EXPECT_SCRIPT_DATA_TAG_BODY)
  then (FLV_PARSER_INVALID_STATE, parser, script_data_reader) else
  if buffer_size <? next_block_size parser
  then (FLV_PARSER_BUFFER_UNDERRUN, parser, script_data_reader) else
  (FLV_PARSER_OK,
   advance parser (next_block_size parser) FLV_TAG_PREFIX_SIZE FLV_PARSER_EXPECT_TAG_PREFIX,
   {| position := 0; end_ := next_block_size parser - FLV_TAG_SUFFIX_SIZE |}).

Definition flv_parser_seek (parser : FlvParser) (new_position : Z)
    : FlvParserResult * FlvParser :=
  (FLV_PARSER_OK, mkParser FLV_PARSER_EXPECT_TAG_PREFIX new_position 0 FLV_TAG_PREFIX_SIZE).

(** ** Safety *)

Inductive operation : Type :=
  | READ_HEADER | SKIP | READ_TAG_PREFIX | READ_AUDIO_TAG | READ_VIDEO_TAG | READ_SCRIPT_DATA_TAG.

(** The state in which an operation is allowed. *)
Definition expected (op : operation) : FlvParserState :=
  match op with
  | READ_HEADER => FLV_PARSER_EXPECT_HEADER
  | SKIP => FLV_PARSER_EXPECT_SKIP_BLOCK
  | READ_TAG_PREFIX => FLV_PARSER_EXPECT_TAG_PREFIX
  | READ_AUDIO_TAG => FLV_PARSER_EXPECT_AUDIO_TAG_BODY
  | READ_VIDEO_TAG => FLV_PARSER_EXPECT_VIDEO_TAG_BODY
  | READ_SCRIPT_DATA_TAG => FLV_PARSER_EXPECT_SCRIPT_DATA_TAG_BODY
  end.

(** An operation, without the structure that it fills. *)
Definition run_operation (op : operation) (p : FlvParser) (buffer : list Z) (size : Z)
    : option (FlvParserResult * FlvParser) :=
  match op with
  | READ_HEADER => fst <$> flv_parser_read_header p buffer size (mkHeader 0 false false)
  | SKIP => Some (flv_parser_skip p buffer size)
  | READ_TAG_PREFIX => fst <$> flv_parser_read_tag_prefix p buffer size (mkTagPrefix 0 0 0)
  | READ_AUDIO_TAG => fst <$> flv_parser_read_audio_tag p buffer size (mkAudioTag 0 0 false false 0 0)
  | READ_VIDEO_TAG => fst <$> flv_parser_read_video_tag p buffer size (mkVideoTag 0 0 0 0)
  | READ_SCRIPT_DATA_TAG => Some (fst (flv_parser_read_script_data_tag p buffer size (mkReader 0 0)))
  end.

(** A parser that has parsed nothing but complete blocks. *)
Definition parser_ok (p : FlvParser) : Prop :=
  is_u64 (file_position p) /\
  match state p with
  | FLV_PARSER_EXPECT_HEADER => next_block_size p = FLV_HEADER_SIZE
  | FLV_PARSER_EXPECT_SKIP_BLOCK => 4 <= next_block_size p < 4294967296
  | FLV_PARSER_EXPECT_TAG_PREFIX => next_block_size p = FLV_TAG_PREFIX_SIZE
  | FLV_PARSER_EXPECT_VIDEO_TAG_BODY
  | FLV_PARSER_EXPECT_AUDIO_TAG_BODY
  | FLV_PARSER_EXPECT_SCRIPT_DATA_TAG_BODY => 4 <= next_block_size p < 16777220
  | FLV_PARSER_EOF => False
  end.

(** The parser took the block of [next_block_size] bytes that it expected. *)
Definition took_block (p p' : FlvParser) (size : Z) : Prop :=
  next_block_size p <= size /\ parsed_block_size p' = next_block_size p /\
  file_position p' = u64 (file_position p + next_block_size p) /\ parser_ok p'.

(** The result of an operation: the code that its arguments determine, a block
    taken when it succeeds, and a parser that did not move when it fails, unless
    the type of a tag is unknown. *)
Definition answers (op : operation) (p : FlvParser) (size : Z) (r : FlvParserResult)
    (p' : FlvParser) : Prop :=
  (r = FLV_PARSER_INVALID_STATE <-> state p <> expected op) /\
  (r = FLV_PARSER_BUFFER_UNDERRUN <-> state p = expected op /\ size < next_block_size p) /\
  (r = FLV_PARSER_OK -> took_block p p' size) /\
  (r <> FLV_PARSER_OK -> p' = p \/
     op = READ_TAG_PREFIX /\ r = FLV_PARSER_UNSUPPORTED_STREAM /\
     state p' = FLV_PARSER_EXPECT_TAG_PREFIX /\
     file_position p' = u64 (file_position p + FLV_TAG_PREFIX_SIZE)).

(** An operation in the wrong state, or on a short buffer, does nothing. *)
Lemma answers_invalid op p size :
  state p <> expected op -> answers op p size FLV_PARSER_INVALID_STATE p.
Proof. intros. unfold answers. naive_solver lia. Qed.

Lemma answers_underrun op p size :
  state p = expected op -> size < next_block_size p ->
  answers op p size FLV_PARSER_BUFFER_UNDERRUN p.
Proof. intros. unfold answers. naive_solver lia. Qed.

Lemma answers_ok op p size p' :
  state p = expected op -> took_block p p' size -> answers op p size FLV_PARSER_OK p'.
Proof. intros ? Ht. assert (next_block_size p <= size) by apply Ht. unfold answers. naive_solver lia. Qed.

Lemma answers_bad op p size r :
  state p = expected op -> next_block_size p <= size ->
  r = FLV_PARSER_BAD_STREAM \/ r = FLV_PARSER_UNSUPPORTED_STREAM -> answers op p size r p.
Proof. intros ?? [-> | ->]; unfold answers; naive_solver lia. Qed.

(** Splits on the tests that guard a function: the state, then the size. *)
Ltac guards :=
  unfold run_operation; simpl expected;
  lazymatch goal with
  | |- context [bool_decide (state ?p <> ?s)] =>
      destruct (decide (state p = s)) as [Hs|Hs];
      [ rewrite (bool_decide_eq_false_2 (state p <> s)) by (intros []; done)
      | rewrite (bool_decide_eq_true_2 (state p <> s)) by done;
        eexists _, _; split; [reflexivity|]; by apply answers_invalid ]
  end;
  match goal with
  | |- context [?s <? ?n] =>
      destruct (Z.ltb_spec s n) as [Hsize|Hsize];
      [ eexists _, _; split; [reflexivity|]; apply answers_underrun; [done|] | ]
  end.

(** Opens [parser_ok] in the known state. *)
Ltac open_ok :=
  match goal with
  | Hok : parser_ok ?p, Hs : state ?p = _ |- _ =>
      destruct Hok as [Hpos Hnext]; rewrite Hs in Hnext
  end.

Lemma took_advance p size st next :
  next_block_size p <= size ->
  parser_ok (advance p (next_block_size p) next st) ->
  took_block p (advance p (next_block_size p) next st) size.
Proof. done. Qed.

Lemma advance_ok p n next st :
  match st with
  | FLV_PARSER_EXPECT_SKIP_BLOCK => 4 <= next < 4294967296
  | FLV_PARSER_EXPECT_TAG_PREFIX => next = FLV_TAG_PREFIX_SIZE
  | FLV_PARSER_EXPECT_VIDEO_TAG_BODY | FLV_PARSER_EXPECT_AUDIO_TAG_BODY
  | FLV_PARSER_EXPECT_SCRIPT_DATA_TAG_BODY => 4 <= next < 16777220
  | _ => False
  end -> parser_ok (advance p n next st).
Proof. intros H. split; [apply u64_range|]. by destruct st. Qed.

Section Safety.
Variables (p : FlvParser) (buffer : list Z) (size : Z).
Hypotheses (Hok : parser_ok p) (Hbytes : bytes buffer) (Hlen : size <= alen buffer).

Lemma skip_answers :
  exists r p', run_operation SKIP p buffer size = Some (r, p') /\ answers SKIP p size r p'.
Proof using Hok.
  unfold run_operation, flv_parser_skip. guards; [done|].
  eexists _, _. split; [done|]. apply answers_ok; [done|].
  apply took_advance; [done|]. by apply advance_ok.
Qed.

Lemma header_answers :
  exists r p', run_operation READ_HEADER p buffer size = Some (r, p') /\
               answers READ_HEADER p size r p'.
Proof using Hok Hbytes Hlen.
  unfold run_operation, flv_parser_read_header. guards; open_ok; [by rewrite Hnext|].
  unfold FLV_HEADER_SIZE in *.
  assert (forall r, r = FLV_PARSER_BAD_STREAM \/ r = FLV_PARSER_UNSUPPORTED_STREAM ->
            answers READ_HEADER p size r p) as Hbad by (intros; apply answers_bad; [done|lia|done]).
  destruct (ld_in buffer 0) as [b0 ->]; [lia|]. destruct (ld_in buffer 1) as [b1 ->]; [lia|].
  destruct (ld_in buffer 2) as [b2 ->]; [lia|]. destruct (ld_in buffer 3) as [b3 ->]; [lia|].
  destruct (ld_in buffer 4) as [b4 ->]; [lia|].
  destruct (read32_in buffer 5) as (off & -> & ?); [done|lia..|]. simpl.
  repeat (case_match; simpl; [eexists _, _; split; [done|]; apply Hbad; tauto|]).
  eexists _, _. split; [done|]. apply answers_ok; [done|].
  rewrite <- Hnext. apply took_advance; [lia|]. apply advance_ok.
  match goal with H : (off <? 9) = false |- _ => apply Z.ltb_ge in H end.
  unfold FLV_TAG_SUFFIX_SIZE. rewrite Hnext. case_match; lia.
Qed.

Lemma prefix_answers :
  exists r p', run_operation READ_TAG_PREFIX p buffer size = Some (r, p') /\
               answers READ_TAG_PREFIX p size r p'.
Proof using Hok Hbytes Hlen.
  unfold run_operation, flv_parser_read_tag_prefix. guards; open_ok; [by rewrite Hnext|].
  unfold FLV_TAG_PREFIX_SIZE in *.
  destruct (ld_in buffer 0) as [b0 ->]; [lia|].
  destruct (read24_in buffer 1) as (n & -> & ?); [done|lia..|].
  destruct (readTS_in buffer 4) as (t & -> & ?); [lia..|].
  destruct (read24_in buffer 8) as (id & -> & ?); [done|lia..|]. simpl.
  case_match; simpl.
  { eexists _, _. split; [done|]. apply answers_bad; [done|lia|tauto]. }
  destruct (body_state b0) as [st|] eqn:Hst; (eexists _, _; split; [done|]).
  - apply answers_ok; [done|]. split; [lia|]. split; [done|]. split; [by rewrite Hnext|].
    split; [apply u64_range|]. unfold FLV_TAG_SUFFIX_SIZE. simpl.
    unfold body_state in Hst. repeat case_match; simplify_eq; lia.
  - unfold answers; simpl. naive_solver lia.
Qed.

Lemma audio_answers :
  exists r p', run_operation READ_AUDIO_TAG p buffer size = Some (r, p') /\
               answers READ_AUDIO_TAG p size r p'.
Proof using Hok Hbytes Hlen.
  unfold run_operation, flv_parser_read_audio_tag. guards; open_ok; [done|].
  destruct (ld_in buffer 0) as [b0 H0]; [lia|]. apply ld_byte in H0 as Hb; [|done].
  rewrite H0; simpl.
  destruct (ld_in flv_audio_format_data_size ((b0 .& 240) >> 4)) as [n ->].
  { change (alen flv_audio_format_data_size) with 16. unfold is_byte in Hb.
    rewrite Z.shiftr_land, Z.shiftr_div_pow2 by lia. change (240 >> 4) with (Z.ones 4).
    rewrite Z.land_ones by lia. zlia. }
  simpl. eexists _, _. split; [done|]. apply answers_ok; [done|].
  apply took_advance; [done|]. by apply advance_ok.
Qed.

Lemma video_answers :
  exists r p', run_operation READ_VIDEO_TAG p buffer size = Some (r, p') /\
               answers READ_VIDEO_TAG p size r p'.
Proof using Hok Hbytes Hlen.
  unfold run_operation, flv_parser_read_video_tag. guards; open_ok; [done|].
  destruct (ld_in buffer 0) as [b0 ->]; [lia|]. simpl.
  destruct (ld_in flv_video_codec_data_size (b0 .& 15)) as [n ->].
  { change (alen flv_video_codec_data_size) with 16. change 15 with (Z.ones 4).
    rewrite Z.land_ones by lia. zlia. }
  simpl. eexists _, _. split; [done|]. apply answers_ok; [done|].
  apply took_advance; [done|]. by apply advance_ok.
Qed.

Lemma script_answers :
  exists r p', run_operation READ_SCRIPT_DATA_TAG p buffer size = Some (r, p') /\
               answers READ_SCRIPT_DATA_TAG p size r p'.
Proof using Hok.
  unfold run_operation, flv_parser_read_script_data_tag. guards; [done|].
  eexists _, _. split; [done|]. apply answers_ok; [done|].
  apply took_advance; [done|]. by apply advance_ok.
Qed.

(** C35. Every operation of the parser, on any buffer, reads inside the buffer.
    It fails with an invalid state exactly when the parser expects another block
    and with an underrun exactly when the buffer is shorter than the block; when
    it succeeds the parser has moved by the size of the block and expects a block
    again; when it fails the parser has not moved, unless the type of a tag is
    unknown. *)
Theorem parser_answers op :
  exists r p', run_operation op p buffer size = Some (r, p') /\ answers op p size r p'.
Proof using Hok Hbytes Hlen.
  destruct op; eauto using header_answers, skip_answers, prefix_answers, audio_answers,
    video_answers, script_answers.
Qed.
End Safety.

(** ** Packets

    The packet of a tag is what follows its own bytes in the body.  Where the
    body is too short the 64-bit size wraps around. *)

Definition packet_in (offset size body : Z) : Prop :=
  if offset <=? body then 0 <= offset /\ offset + size = body
  else size = 18446744073709551616 - (offset - body).

Lemma packet_size offset next :
  4 <= next < 16777220 -> 0 <= offset <= 7 ->
  packet_in offset (u64 (next - FLV_TAG_SUFFIX_SIZE - offset)) (next - 4).
Proof. intros. unfold packet_in, u64, FLV_TAG_SUFFIX_SIZE. case_match; zlia. Qed.

Lemma audio_data_size f n : ld flv_audio_format_data_size f = Some n -> 0 <= n <= 1.
Proof.
  intros H. apply ld_Some in H as Hf. change (alen _) with 16 in Hf.
  assert (Forall (fun n => 0 <= n <= 1) flv_audio_format_data_size) as Hall by (repeat constructor; lia).
  unfold ld in H. case_match; [|done]. by eapply Forall_lookup_1 in Hall.
Qed.

Lemma video_data_size f n : ld flv_video_codec_data_size f = Some n -> 0 <= n <= 6.
Proof.
  intros H. apply ld_Some in H as Hf. change (alen _) with 16 in Hf.
  assert (Forall (fun n => 0 <= n <= 6) flv_video_codec_data_size) as Hall by (repeat constructor; lia).
  unfold ld in H. case_match; [|done]. by eapply Forall_lookup_1 in Hall.
Qed.

(** The packet of an audio tag ends where the body of the tag ends, if the
    body has the bytes before the packet; otherwise the size of the packet wraps
    around, to almost 2 ^ 64.  The same holds for video tags. *)
Lemma packets_in p buffer size :
  parser_ok p ->
  (forall t p' t', flv_parser_read_audio_tag p buffer size t = Some (FLV_PARSER_OK, p', t') ->
     packet_in (audio_packet_offset t') (audio_packet_size t') (next_block_size p - 4)) /\
  (forall t p' t', flv_parser_read_video_tag p buffer size t = Some (FLV_PARSER_OK, p', t') ->
     packet_in (video_packet_offset t') (video_packet_size t') (next_block_size p - 4)).
Proof.
  intros [_ Hok]. split; intros t p' t' H;
    [unfold flv_parser_read_audio_tag in H|unfold flv_parser_read_video_tag in H];
    case_bool_decide as Hs; try done; rewrite Hs in Hok;
    (case_match; [done|]); apply bind_Some in H as (b0 & _ & H);
    apply bind_Some in H as (n & Hn & H); simplify_eq/=.
  - apply audio_data_size in Hn. apply packet_size; [done|unfold FLV_AUDIO_PREFIX_LENGTH; lia].
  - apply video_data_size in Hn. apply packet_size; [done|unfold FLV_VIDEO_PREFIX_LENGTH; lia].
Qed.

(** The packet begins behind the few bytes of the tag. *)
Lemma packets_offset p buffer size :
  (forall t p' t', flv_parser_read_audio_tag p buffer size t = Some (FLV_PARSER_OK, p', t') ->
     0 <= audio_packet_offset t' <= 7) /\
  (forall t p' t', flv_parser_read_video_tag p buffer size t = Some (FLV_PARSER_OK, p', t') ->
     0 <= video_packet_offset t' <= 7).
Proof.
  split; intros t p' t' H;
    [unfold flv_parser_read_audio_tag in H|unfold flv_parser_read_video_tag in H];
    case_bool_decide; try done; (case_match; [done|]);
    apply bind_Some in H as (b0 & _ & H); apply bind_Some in H as (n & Hn & H); simplify_eq/=.
  - apply audio_data_size in Hn. unfold FLV_AUDIO_PREFIX_LENGTH. lia.
  - apply video_data_size in Hn. unfold FLV_VIDEO_PREFIX_LENGTH. lia.
Qed.

(** ** Reading what a writer of the format writes *)

Definition header_bytes (audio video : bool) (data_offset : Z) : list Z :=
  [70; 76; 86; 1; (if audio then 4 else 0) + (if video then 1 else 0)] ++ be32 data_offset.

Definition prefix_bytes (type size time : Z) : list Z :=
  type :: be24 size ++ ts32 time ++ be24 0.

Lemma read_header_bytes p buffer size audio video off h :
  state p = FLV_PARSER_EXPECT_HEADER -> 9 <= size -> 9 <= off < 4294967296 ->
  holds buffer 0 (header_bytes audio video off) ->
  flv_parser_read_header p buffer size h =
  Some (FLV_PARSER_OK, advance p 9 (off - 5) FLV_PARSER_EXPECT_SKIP_BLOCK,
        mkHeader 1 audio video).
Proof.
  intros Hs Hsize Hoff H. unfold flv_parser_read_header. rewrite bool_decide_eq_false_2 by auto.
  unfold FLV_HEADER_SIZE. destruct (Z.ltb_spec size 9); [lia|].
  unfold header_bytes in H. apply holds_app in H as [H H32]. change (0 + alen _) with 5 in H32.
  held H. rewrite (read32 _ _ off) by (done || lia).
  repeat match goal with E : ld _ ?i = _ |- _ =>
    let j := eval compute in i in change i with j in E; rewrite E; simpl; clear E end.
  destruct (Z.ltb_spec off 9); [lia|].
  assert ((if off =? 9 then FLV_TAG_SUFFIX_SIZE else off - 9 + FLV_TAG_SUFFIX_SIZE) = off - 5) as ->.
  { unfold FLV_TAG_SUFFIX_SIZE. zcase; lia. }
  by destruct audio, video.
Qed.

Lemma read_prefix_bytes p buffer size type n time st t :
  state p = FLV_PARSER_EXPECT_TAG_PREFIX -> 11 <= size -> 0 <= n < 16777216 -> is_i32 time ->
  body_state type = Some st -> holds buffer 0 (prefix_bytes type n time) ->
  flv_parser_read_tag_prefix p buffer size t =
  Some (FLV_PARSER_OK, advance p 11 (n + 4) st, mkTagPrefix type n time).
Proof.
  intros Hs Hsize Hn Ht Hst H. unfold flv_parser_read_tag_prefix.
  rewrite bool_decide_eq_false_2 by auto.
  unfold FLV_TAG_PREFIX_SIZE. destruct (Z.ltb_spec size 11); [lia|].
  apply holds_cons in H as [-> H]. apply holds_app in H as [Hn' H].
  apply holds_app in H as [Ht' H]. change (0 + 1) with 1 in *.
  change (1 + alen (be24 n)) with 4 in *. change (4 + alen (ts32 time)) with 8 in *. simpl.
  rewrite (read24 _ 1 n), (readTS _ 4 time), (read24 _ 8 0) by done. simpl.
  by rewrite Hst.
Qed.
