(* ===== verification/GArray.v ===== *)
(** * Growing arrays (garray.c of GLib)

    An array has room for [alloc] bytes, of which the first [len] elements are in
    use.  The elements here have 16 bytes each, as those of the only array that
    the modelled code makes; the array clears new elements and has no terminator.
    Sizes are 32 bits wide, so that a large array may have less room than
    elements.  Memory that was not written since it was allocated has a content
    that is a parameter, [junk].  [None] is a write outside the allocated room.
    An allocation that fails ends the program and is not modelled. *)

From S2P Require Import Prelude.

Definition elt_size : Z := 16.
Definition MIN_ARRAY_SIZE : Z := 16.

Record GArray (A : Type) := mkArray {
  cells : list A;
  len : Z;
  alloc : Z;
}.
Arguments mkArray {A} _ _ _.
Arguments cells {A} _.
Arguments len {A} _.
Arguments alloc {A} _.

Fixpoint nearest_pow (fuel : nat) (n num : Z) : Z :=
  if (n <? num) && (0 <? n) then
    match fuel with
    | O => n
    | S f => nearest_pow f (u32 (n * 2)) num
    end
  else if n =? 0 then num else n.

Definition g_nearest_pow (num : Z) : Z := nearest_pow 32 1 num.

Section Array.
Context {A : Type} (zero junk : A).

Definition g_array_new : GArray A := mkArray [] 0 0.

Definition g_array_elt_len (i : Z) : Z := u32 (elt_size * i).

Definition g_array_maybe_expand (array : GArray A) (n : Z) : GArray A :=
  let want_alloc := g_array_elt_len (len array + n) in
  if alloc array <? want_alloc then
    let want_alloc := Z.max (g_nearest_pow want_alloc) MIN_ARRAY_SIZE in
    let k := Z.to_nat (want_alloc / elt_size) in
    mkArray (take k (cells array) ++ replicate (k - length (cells array)) junk)
            (len array) want_alloc
  else array.

(** [memset] from element [pos] on, over [n] elements. *)
Definition g_array_elt_zero (array : GArray A) (pos n : Z) : option (GArray A) :=
  let p := Z.to_nat (g_array_elt_len pos / elt_size) in
  let k := Z.to_nat (g_array_elt_len n / elt_size) in
  if decide (p + k <= length (cells array))%nat
  then Some (mkArray (take p (cells array) ++ replicate k zero ++ drop (p + k) (cells array))
                     (len array) (alloc array))
  else None.

Definition g_array_set_size (array : GArray A) (length : Z) : option (GArray A) :=
  array ← (if len array <? length
           then let n := length - len array in
                g_array_elt_zero (g_array_maybe_expand array n) (len array) n
           else Some array);
  Some (mkArray (cells array) length (alloc array)).

(** An assignment to (a member of) [g_array_index (array, i)]. *)
Definition g_array_update (array : GArray A) (i : Z) (f : A -> A) : option (GArray A) :=
  if (0 <=? i) && (i <? Z.of_nat (length (cells array)))
  then Some (mkArray (alter f (Z.to_nat i) (cells array)) (len array) (alloc array))
  else None.

(** The elements in use. *)
Definition contents (array : GArray A) : list A := take (Z.to_nat (len array)) (cells array).

(** The room holds the elements in use, and sizes do not overflow. *)
Definition array_ok (array : GArray A) : Prop :=
  0 <= len array < 134217728 /\
  Z.of_nat (length (cells array)) = alloc array / elt_size /\
  0 <= alloc array /\ len array * elt_size <= alloc array.

(** ** Growing *)

Lemma nearest_pow_ge k num j :
  (j + k = 31)%nat -> num <= 2147483648 ->
  num <= nearest_pow (S k) (2 ^ Z.of_nat j) num /\ 0 < nearest_pow (S k) (2 ^ Z.of_nat j) num.
Proof.
  intros Hjk Hn. revert j Hjk. induction k as [|k IH]; intros j Hj.
  - replace j with 31%nat in * by lia. change (2 ^ Z.of_nat 31) with 2147483648.
    cbn. zcase; lia.
  - assert (2 ^ Z.of_nat j <= 2 ^ 30) as Hp by (apply Z.pow_le_mono_r; lia).
    assert (0 < 2 ^ Z.of_nat j) as Hp0 by (apply Z.pow_pos_nonneg; lia).
    replace (nearest_pow (S (S k)) (2 ^ Z.of_nat j) num)
      with (if 2 ^ Z.of_nat j <? num then nearest_pow (S k) (2 ^ Z.of_nat (S j)) num
            else 2 ^ Z.of_nat j).
    + zcase; [apply IH; lia|lia].
    + rewrite Nat2Z.inj_succ, Z.pow_succ_r by lia.
      change (nearest_pow (S (S k)) ?n ?m) with
        (if (n <? m) && (0 <? n) then nearest_pow (S k) (u32 (n * 2)) m
         else if n =? 0 then m else n).
      unfold u32. rewrite Z.mod_small by lia. rewrite (Z.mul_comm 2). zcase; done || lia.
Qed.

Lemma g_nearest_pow_ge num : num <= 2147483648 -> num <= g_nearest_pow num.
Proof. intros. unfold g_nearest_pow. by apply (nearest_pow_ge 31 num 0). Qed.

Lemma elt_len_small n : 0 <= n < 268435456 -> g_array_elt_len n = 16 * n.
Proof. intros. unfold g_array_elt_len, elt_size, u32. rewrite Z.mod_small; lia. Qed.

Lemma expand_ok a n :
  array_ok a -> 0 <= n -> len a + n < 134217728 ->
  let a' := g_array_maybe_expand a n in
  array_ok a' /\ len a' = len a /\ contents a' = contents a /\
  (len a + n) * elt_size <= alloc a'.
Proof.
  intros (Hlen & Hcap & Ha & Hfit) Hn Hsum. unfold g_array_maybe_expand.
  rewrite elt_len_small by lia. unfold elt_size, MIN_ARRAY_SIZE in *.
  destruct (Z.ltb_spec (alloc a) (16 * (len a + n))) as [Hlt|Hge]; simpl.
  2:{ repeat split; done || lia. }
  pose proof (g_nearest_pow_ge (16 * (len a + n))) as Hge.
  set (w := Z.max _ 16). assert (16 * (len a + n) <= w) as Hw by lia. clearbody w. clear Hge.
  assert (length (cells a) <= Z.to_nat (w / 16))%nat as Hle.
  { assert (alloc a / 16 <= w / 16) by (apply Z.div_le_mono; lia). lia. }
  rewrite take_ge by done. unfold array_ok, elt_size. repeat split; simpl; try (done || lia).
  - unfold elt_size. rewrite length_app, length_replicate. assert (0 <= w / 16) by (apply Z.div_pos; lia). lia.
  - unfold contents. simpl. rewrite take_app_le; [done|].
    assert (len a <= alloc a / 16) by (apply Z.div_le_lower_bound; lia). lia.
Qed.

(** Setting the size keeps the elements that fit and clears the new ones. *)
Lemma set_size_ok a n :
  array_ok a -> 0 <= n < 134217728 ->
  exists a', g_array_set_size a n = Some a' /\ array_ok a' /\ len a' = n /\
    contents a' = take (Z.to_nat n) (contents a)
                  ++ replicate (Z.to_nat n - Z.to_nat (len a)) zero.
Proof.
  intros Hok Hn. unfold g_array_set_size.
  destruct (Z.ltb_spec (len a) n) as [Hlt|Hge].
  - destruct (expand_ok a (n - len a)) as (Hok' & Hlen & Hcont & Hroom); [done|lia..|].
    replace (len a + (n - len a)) with n in Hroom by lia.
    set (b := g_array_maybe_expand a (n - len a)) in *. clearbody b.
    destruct Hok as ((Hl & _) & _), Hok' as (_ & Hcap & Ha & Hfit).
    unfold elt_size in *. assert (n <= alloc b / 16) by (apply Z.div_le_lower_bound; lia).
    unfold g_array_elt_zero, elt_size. rewrite !elt_len_small by lia.
    replace (16 * len a / 16) with (len a) by zlia.
    replace (16 * (n - len a) / 16) with (n - len a) by zlia.
    rewrite decide_True by lia. simpl. eexists. split; [done|].
    split; [|split; [done|]].
    + unfold array_ok, elt_size. repeat split; simpl; try lia. rewrite !length_app, length_take, length_replicate, length_drop.
      lia.
    + unfold contents in *. simpl. rewrite <- Hcont, Hlen in *.
      rewrite (take_ge (take _ _)) by (rewrite length_take; lia).
      rewrite app_assoc, take_app_le by (rewrite length_app, length_take, length_replicate; lia).
      rewrite take_ge by (rewrite length_app, length_take, length_replicate; lia).
      f_equal. f_equal. lia.
  - simpl. eexists. split; [done|]. destruct Hok as (Hl & Hcap & Ha & Hfit).
    unfold array_ok, contents, elt_size in *; simpl.
    split; [repeat split; try lia|]. split; [done|].
    rewrite take_take. replace (Z.to_nat n - Z.to_nat (len a))%nat with O by lia. simpl.
    rewrite app_nil_r. f_equal. lia.
Qed.

Lemma update_ok a i f :
  array_ok a -> 0 <= i < len a ->
  exists a', g_array_update a i f = Some a' /\ array_ok a' /\ len a' = len a /\
    contents a' = alter f (Z.to_nat i) (contents a).
Proof.
  intros (Hl & Hcap & Ha & Hfit) Hi. unfold g_array_update, elt_size in *.
  assert (len a <= alloc a / 16) by (apply Z.div_le_lower_bound; lia).
  zcase; [|lia..]. eexists. split; [done|]. unfold array_ok, contents, elt_size; simpl.
  rewrite length_alter. split; [done|]. split; [done|].
  apply list_eq. intros j. destruct (decide (j < Z.to_nat (len a))%nat).
  - rewrite lookup_take_lt by done. destruct (decide (j = Z.to_nat i)) as [->|].
    + by rewrite !list_lookup_alter, lookup_take_lt.
    + by rewrite !list_lookup_alter_ne, lookup_take_lt.
  - rewrite lookup_take_ge by lia. rewrite lookup_ge_None_2; [done|].
    rewrite length_alter, length_take. lia.
Qed.
End Array.

Arguments g_array_new {A}.
