(* ===== verification/FlvMetadata.v ===== *)
(** * Script data (flvmetadata.c, flvmetadata.h)

    A script data tag holds values in the Action Message Format.  The reader walks
    through the values of an [onMetaData] tag and stores those it knows in a
    structure, strings in a list of tags, and the times and positions of key
    frames in an array; values below the top level are skipped.

    The reader is a position in the block, [end_] being where the data end.  A
    function takes the position, the structure and GStreamer's registry of tag
    names, and gives its result with what it left in them, or a fault: undefined
    behaviour of C, with its kind.  A result that C returns by reference is an
    option, [None] where the function returns [FALSE].

    Numbers are IEEE binary64.  The loops have a unit of fuel for each byte that
    is left, and each of their rounds reads a byte; the functions that call each
    other for nested values have a unit of fuel for each level ([depth]).
    Allocations succeed: GLib ends the program otherwise. *)

From S2P Require Import Prelude.
From S2P Require Import Mem.
From S2P Require Export FlvParser.
From S2P Require Export GArray.
From stdpp Require Import gmap.
From Stdlib Require Import SpecFloat.

Open Scope Z_scope.

(** ** Numbers *)

(** The number with the given 64 bits. *)
Definition double_of_bits (w : Z) : spec_float :=
  let s := Z.testbit w 63 in
  let e := (w >> 52) .& 2047 in
  let m := w .& 4503599627370495 in
  if e =? 2047 then (if m =? 0 then S754_infinity s else S754_nan)
  else match (if e =? 0 then m else m + 4503599627370496) with
       | Zpos p => S754_finite s p (if e =? 0 then -1074 else e - 1075)
       | _ => S754_zero s
       end.

(** The bytes are put in the order of a little-endian machine. *)
Definition FLV_READ_DOUBLE_BE (d : list Z) (i : Z) : option spec_float :=
  hi ← GST_READ_UINT32_BE d i; lo ← GST_READ_UINT32_BE d (i + 4);
  Some (double_of_bits ((hi << 32) .| lo)).

Definition GST_SECOND : Z := 1000000000.
Definition GST_MSECOND : Z := 1000000.
Definition GST_CLOCK_TIME_NONE : Z := 18446744073709551615.

(** A number without its fraction. *)
Definition truncate (x : spec_float) : option Z :=
  match x with
  | S754_zero _ => Some 0
  | S754_finite s m e =>
      let z := if 0 <=? e then Zpos m * 2 ^ e else Zpos m / 2 ^ (- e) in
      Some (if s then - z else z)
  | _ => None
  end.

(** [(gint)x] and [(guint64)x]; undefined where the number does not fit. *)
Definition to_gint (x : spec_float) : option Z :=
  z ← truncate x; if decide (is_i32 z) then Some z else None.
Definition to_guint64 (x : spec_float) : option Z :=
  z ← truncate x; if decide (is_u64 z) then Some z else None.

Definition double_of_Z (z : Z) : spec_float := binary_normalize 53 1024 z 0 false.
Definition double_mul (x y : spec_float) : spec_float := SFmul 53 1024 x y.

(** [(GstClockTime)(x * GST_SECOND)] *)
Definition to_clock_time (x : spec_float) : option Z :=
  to_guint64 (double_mul x (double_of_Z GST_SECOND)).

(** ** Strings

    A string that was read is a C string: what follows a zero is not part of it. *)

Fixpoint cstring (l : list Z) : list Z :=
  match l with
  | b :: l => if b =? 0 then [] else b :: cstring l
  | [] => []
  end.

Definition strcmp_eq (s t : list Z) : bool := bool_decide (cstring s = t).

Module Name.
Definition onMetaData : list Z := [111; 110; 77; 101; 116; 97; 68; 97; 116; 97].
Definition duration : list Z := [100; 117; 114; 97; 116; 105; 111; 110].
Definition filesize : list Z := [102; 105; 108; 101; 115; 105; 122; 101].
Definition videocodecid : list Z := [118; 105; 100; 101; 111; 99; 111; 100; 101; 99; 105; 100].
Definition videodatarate : list Z :=
  [118; 105; 100; 101; 111; 100; 97; 116; 97; 114; 97; 116; 101].
Definition width : list Z := [119; 105; 100; 116; 104].
Definition height : list Z := [104; 101; 105; 103; 104; 116].
Definition AspectRatioX : list Z := [65; 115; 112; 101; 99; 116; 82; 97; 116; 105; 111; 88].
Definition AspectRatioY : list Z := [65; 115; 112; 101; 99; 116; 82; 97; 116; 105; 111; 89].
Definition framerate : list Z := [102; 114; 97; 109; 101; 114; 97; 116; 101].
Definition audiocodecid : list Z := [97; 117; 100; 105; 111; 99; 111; 100; 101; 99; 105; 100].
Definition audiosamplesize : list Z :=
  [97; 117; 100; 105; 111; 115; 97; 109; 112; 108; 101; 115; 105; 122; 101].
Definition canSeekToEnd : list Z := [99; 97; 110; 83; 101; 101; 107; 84; 111; 69; 110; 100].
Definition stereo : list Z := [115; 116; 101; 114; 101; 111].
Definition keyframes : list Z := [107; 101; 121; 102; 114; 97; 109; 101; 115].
Definition times : list Z := [116; 105; 109; 101; 115].
Definition filepositions : list Z :=
  [102; 105; 108; 101; 112; 111; 115; 105; 116; 105; 111; 110; 115].
End Name.

(** ** Tags *)

(** The types of registered tags, as far as the reader adds values of them. *)
Inductive GType : Type := G_TYPE_STRING | G_TYPE_UINT64 | G_TYPE_OTHER.

#[export] Instance GType_eq_dec : EqDecision GType.
Proof. solve_decision. Defined.

Inductive TagValue : Type :=
  | TagString (s : list Z)
  | TagUint64 (n : Z).

Definition type_of_value (v : TagValue) : GType :=
  match v with TagString _ => G_TYPE_STRING | TagUint64 _ => G_TYPE_UINT64 end.

Abbreviation GstTagList := (gmap (list Z) TagValue).
Abbreviation Registry := (gmap (list Z) GType).

Record FlvKeyframe := mkKeyframe {
  time : Z;
  fileposition : Z;
}.

Record FlvMetadata := mkMetadata {
  md_duration : Z;
  md_file_size : Z;
  md_can_seek_to_end : Z;
  md_video_codec_id : Z;
  md_video_data_rate : spec_float;
  md_width : Z;
  md_height : Z;
  md_par_x : Z;
  md_par_y : Z;
  md_framerate : spec_float;
  md_audio_codec_id : Z;
  md_audio_data_rate : Z;
  md_audio_sample_size : Z;
  md_is_stereo : Z;
  md_tag_list : option GstTagList;
  md_keyframes : option (GArray FlvKeyframe);
}.

Definition set_duration (v : Z) (m : FlvMetadata) : FlvMetadata :=
  mkMetadata v (md_file_size m) (md_can_seek_to_end m) (md_video_codec_id m)
    (md_video_data_rate m) (md_width m) (md_height m) (md_par_x m) (md_par_y m)
    (md_framerate m) (md_audio_codec_id m) (md_audio_data_rate m) (md_audio_sample_size m)
    (md_is_stereo m) (md_tag_list m) (md_keyframes m).
Definition set_file_size (v : Z) (m : FlvMetadata) : FlvMetadata :=
  mkMetadata (md_duration m) v (md_can_seek_to_end m) (md_video_codec_id m)
    (md_video_data_rate m) (md_width m) (md_height m) (md_par_x m) (md_par_y m)
    (md_framerate m) (md_audio_codec_id m) (md_audio_data_rate m) (md_audio_sample_size m)
    (md_is_stereo m) (md_tag_list m) (md_keyframes m).
Definition set_can_seek_to_end (v : Z) (m : FlvMetadata) : FlvMetadata :=
  mkMetadata (md_duration m) (md_file_size m) v (md_video_codec_id m) (md_video_data_rate m)
    (md_width m) (md_height m) (md_par_x m) (md_par_y m) (md_framerate m)
    (md_audio_codec_id m) (md_audio_data_rate m) (md_audio_sample_size m) (md_is_stereo m)
    (md_tag_list m) (md_keyframes m).
Definition set_video_codec_id (v : Z) (m : FlvMetadata) : FlvMetadata :=
  mkMetadata (md_duration m) (md_file_size m) (md_can_seek_to_end m) v
    (md_video_data_rate m) (md_width m) (md_height m) (md_par_x m) (md_par_y m)
    (md_framerate m) (md_audio_codec_id m) (md_audio_data_rate m) (md_audio_sample_size m)
    (md_is_stereo m) (md_tag_list m) (md_keyframes m).
Definition set_video_data_rate (v : spec_float) (m : FlvMetadata) : FlvMetadata :=
  mkMetadata (md_duration m) (md_file_size m) (md_can_seek_to_end m) (md_video_codec_id m) v
    (md_width m) (md_height m) (md_par_x m) (md_par_y m) (md_framerate m)
    (md_audio_codec_id m) (md_audio_data_rate m) (md_audio_sample_size m) (md_is_stereo m)
    (md_tag_list m) (md_keyframes m).
Definition set_width (v : Z) (m : FlvMetadata) : FlvMetadata :=
  mkMetadata (md_duration m) (md_file_size m) (md_can_seek_to_end m) (md_video_codec_id m)
    (md_video_data_rate m) v (md_height m) (md_par_x m) (md_par_y m) (md_framerate m)
    (md_audio_codec_id m) (md_audio_data_rate m) (md_audio_sample_size m) (md_is_stereo m)
    (md_tag_list m) (md_keyframes m).
Definition set_height (v : Z) (m : FlvMetadata) : FlvMetadata :=
  mkMetadata (md_duration m) (md_file_size m) (md_can_seek_to_end m) (md_video_codec_id m)
    (md_video_data_rate m) (md_width m) v (md_par_x m) (md_par_y m) (md_framerate m)
    (md_audio_codec_id m) (md_audio_data_rate m) (md_audio_sample_size m) (md_is_stereo m)
    (md_tag_list m) (md_keyframes m).
Definition set_par_x (v : Z) (m : FlvMetadata) : FlvMetadata :=
  mkMetadata (md_duration m) (md_file_size m) (md_can_seek_to_end m) (md_video_codec_id m)
    (md_video_data_rate m) (md_width m) (md_height m) v (md_par_y m) (md_framerate m)
    (md_audio_codec_id m) (md_audio_data_rate m) (md_audio_sample_size m) (md_is_stereo m)
    (md_tag_list m) (md_keyframes m).
Definition set_par_y (v : Z) (m : FlvMetadata) : FlvMetadata :=
  mkMetadata (md_duration m) (md_file_size m) (md_can_seek_to_end m) (md_video_codec_id m)
    (md_video_data_rate m) (md_width m) (md_height m) (md_par_x m) v (md_framerate m)
    (md_audio_codec_id m) (md_audio_data_rate m) (md_audio_sample_size m) (md_is_stereo m)
    (md_tag_list m) (md_keyframes m).
Definition set_framerate (v : spec_float) (m : FlvMetadata) : FlvMetadata :=
  mkMetadata (md_duration m) (md_file_size m) (md_can_seek_to_end m) (md_video_codec_id m)
    (md_video_data_rate m) (md_width m) (md_height m) (md_par_x m) (md_par_y m) v
    (md_audio_codec_id m) (md_audio_data_rate m) (md_audio_sample_size m) (md_is_stereo m)
    (md_tag_list m) (md_keyframes m).
Definition set_audio_codec_id (v : Z) (m : FlvMetadata) : FlvMetadata :=
  mkMetadata (md_duration m) (md_file_size m) (md_can_seek_to_end m) (md_video_codec_id m)
    (md_video_data_rate m) (md_width m) (md_height m) (md_par_x m) (md_par_y m)
    (md_framerate m) v (md_audio_data_rate m) (md_audio_sample_size m) (md_is_stereo m)
    (md_tag_list m) (md_keyframes m).
Definition set_audio_sample_size (v : Z) (m : FlvMetadata) : FlvMetadata :=
  mkMetadata (md_duration m) (md_file_size m) (md_can_seek_to_end m) (md_video_codec_id m)
    (md_video_data_rate m) (md_width m) (md_height m) (md_par_x m) (md_par_y m)
    (md_framerate m) (md_audio_codec_id m) (md_audio_data_rate m) v (md_is_stereo m)
    (md_tag_list m) (md_keyframes m).
Definition set_is_stereo (v : Z) (m : FlvMetadata) : FlvMetadata :=
  mkMetadata (md_duration m) (md_file_size m) (md_can_seek_to_end m) (md_video_codec_id m)
    (md_video_data_rate m) (md_width m) (md_height m) (md_par_x m) (md_par_y m)
    (md_framerate m) (md_audio_codec_id m) (md_audio_data_rate m) (md_audio_sample_size m) v
    (md_tag_list m) (md_keyframes m).
Definition set_tag_list (v : option GstTagList) (m : FlvMetadata) : FlvMetadata :=
  mkMetadata (md_duration m) (md_file_size m) (md_can_seek_to_end m) (md_video_codec_id m)
    (md_video_data_rate m) (md_width m) (md_height m) (md_par_x m) (md_par_y m)
    (md_framerate m) (md_audio_codec_id m) (md_audio_data_rate m) (md_audio_sample_size m)
    (md_is_stereo m) v (md_keyframes m).
Definition set_keyframes (v : option (GArray FlvKeyframe)) (m : FlvMetadata) : FlvMetadata :=
  mkMetadata (md_duration m) (md_file_size m) (md_can_seek_to_end m) (md_video_codec_id m)
    (md_video_data_rate m) (md_width m) (md_height m) (md_par_x m) (md_par_y m)
    (md_framerate m) (md_audio_codec_id m) (md_audio_data_rate m) (md_audio_sample_size m)
    (md_is_stereo m) (md_tag_list m) v.

Definition flv_metadata_new : FlvMetadata :=
  mkMetadata GST_CLOCK_TIME_NONE 0 0 0 (S754_zero false) 0 0 0 0 (S754_zero false) 0 0 0 0
    None None.

(** ** Computations *)

Inductive fault : Type :=
  | ReadOutside       (** a read outside the block *)
  | WriteOutside      (** a write outside the array of key frames *)
  | BadConversion     (** a number that does not fit the integer it is converted to *)
  | TagMismatch       (** a string passed for the value of a tag of another type *)
  | NullString        (** a null pointer passed to [strcmp] *)
  | ReadArray         (** a read outside the array of key frames *)
  | NullPointer       (** a null pointer followed *)
  | SignedOverflow    (** a sum that does not fit its signed type *)
  | OutOfFuel.

#[export] Instance fault_eq_dec : EqDecision fault.
Proof. solve_decision. Defined.

Inductive res (A : Type) : Type :=
  | Done (a : A)
  | Fault (f : fault).
Arguments Done {A} _.
Arguments Fault {A} _.

Record ScriptState := mkScript {
  pos : Z;
  metadata : FlvMetadata;
  registry : Registry;
}.

Definition R (A : Type) : Type := ScriptState -> res (A * ScriptState).

Definition ret {A} (a : A) : R A := fun s => Done (a, s).
Definition raise {A} (f : fault) : R A := fun s => Fault f.
Definition bind {A B} (m : R A) (k : A -> R B) : R B := fun s =>
  match m s with Done (a, s') => k a s' | Fault f => Fault f end.
Definition get : R ScriptState := fun s => Done (s, s).
Definition put (s : ScriptState) : R unit := fun _ => Done (tt, s).
(** The value, or a fault where there is none. *)
Definition need {A} (f : fault) (o : option A) : R A :=
  match o with Some a => ret a | None => raise f end.

#[export] Instance R_ret : MRet R := @ret.
#[export] Instance R_bind : MBind R := fun A B k m => bind m k.

(** [if (!m(&x)) return FALSE;] *)
Notation "x ←? m ; k" :=
  (bind m (fun o => match o with Some x => k | None => ret false end))
  (at level 20, m at level 100, k at level 200, right associativity).

Definition move (n : Z) : R unit :=
  s ← get; put (mkScript (pos s + n) (metadata s) (registry s)).
Definition set_metadata (f : FlvMetadata -> FlvMetadata) : R unit :=
  s ← get; put (mkScript (pos s) (f (metadata s)) (registry s)).

Definition strcmp0 (name : option (list Z)) (t : list Z) : R bool :=
  match name with Some s => ret (strcmp_eq s t) | None => raise NullString end.

(** ** Adding a tag, with GST_TAG_MERGE_REPLACE (gsttaglist.c)

    A value is collected by the type that the tag was registered with.  Strings
    that are empty or not in UTF-8 are refused with a warning (gststructure.c). *)

Section Reader.
Variable g_utf8_validate : list Z -> bool.
(** What memory holds before it is written. *)
Variable junk : FlvKeyframe.
(** The block and where its data end. *)
Variable data : list Z.
Variable end_ : Z.

Definition gst_tag_register (name : list Z) (type : GType) : R unit :=
  s ← get;
  put (mkScript (pos s) (metadata s)
         (match registry s !! name with Some _ => registry s | None => <[name := type]> (registry s) end)).

Definition structure_set_field (name : list Z) (v : TagValue) (l : GstTagList) : GstTagList :=
  match v with
  | TagString str => if bool_decide (str <> []) && g_utf8_validate str then <[name := v]> l else l
  | TagUint64 _ => <[name := v]> l
  end.

Definition gst_tag_list_add (name : list Z) (v : TagValue) : R unit :=
  s ← get;
  match md_tag_list (metadata s) with
  | None => ret tt
  | Some l =>
      match registry s !! name with
      | None => ret tt
      | Some t =>
          if decide (t = type_of_value v)
          then set_metadata (set_tag_list (Some (structure_set_field name v l)))
          else raise TagMismatch
      end
  end.

(** ** Readers of values *)

Definition flv_script_data_read_ui8 : R (option Z) :=
  s ← get;
  if end_ <? pos s + 1 then ret None
  else b ← need ReadOutside (ld data (pos s));
       move 1;; ret (Some b).

Definition flv_script_data_read_ui32 : R (option Z) :=
  s ← get;
  if end_ <? pos s + 4 then ret None
  else n ← need ReadOutside (GST_READ_UINT32_BE data (pos s));
       move 4;; ret (Some n).

Definition flv_script_data_read_double : R (option spec_float) :=
  s ← get;
  if end_ <? pos s + 8 then ret None
  else x ← need ReadOutside (FLV_READ_DOUBLE_BE data (pos s));
       move 8;; ret (Some x).

(** [memcpy(dest, reader->position, length)] *)
Definition read_bytes (i length : Z) : option (list Z) :=
  if (0 <=? i) && (i + length <=? alen data)
  then Some (take (Z.to_nat length) (drop (Z.to_nat i) data)) else None.

Definition flv_script_data_read_string (longString : bool) : R (option (list Z)) :=
  s ← get;
  if end_ <? pos s + cond longString 4 2 then ret None
  else
    length ← (if longString
               then n ← need ReadOutside (GST_READ_UINT32_BE data (pos s)); move 4;; ret n
               else n ← need ReadOutside (GST_READ_UINT16_BE data (pos s)); move 2;; ret n);
    s ← get;
    if end_ <? pos s + length then ret None
    else if 18446744073709551614 <=? length then ret None
    else dest ← need ReadOutside (read_bytes (pos s) length);
         move length;; ret (Some dest).

(** ** Arrays and objects *)

Definition handler : Type := option (list Z) -> Z -> R bool.

(** The fuel of a loop: the bytes that are left. *)
Definition left : R nat := s ← get; ret (S (Z.to_nat (end_ - pos s))).

(** The loop of [flv_script_data_read_object] and [flv_script_data_read_ecma]. *)
Fixpoint read_members (fuel : nat) (callback : handler) : R bool :=
  s ← get;
  if pos s <? end_ then
    match fuel with
    | O => raise OutOfFuel
    | S fuel =>
        if end_ <? pos s + 3 then ret false else
        b0 ← need ReadOutside (ld data (pos s));
        b1 ← need ReadOutside (ld data (pos s + 1));
        b2 ← need ReadOutside (ld data (pos s + 2));
        let go (name : option (list Z)) (value_type : Z) : R bool :=
          result ← callback name value_type;
          if value_type =? 9 then ret true
          else if negb result then ret false
          else read_members fuel callback in
        if (b0 =? 0) && (b1 =? 0) && (b2 =? 9) then move 3;; go None 9
        else var_name ←? flv_script_data_read_string false;
             value_type ←? flv_script_data_read_ui8;
             go (Some var_name) value_type
    end
  else ret true.

Definition flv_script_data_read_object (callback : handler) : R bool :=
  fuel ← left; read_members fuel callback.

Definition flv_script_data_read_ecma (callback : handler) : R bool :=
  size ←? flv_script_data_read_ui32;
  fuel ← left; read_members fuel callback.

Fixpoint read_elements (fuel : nat) (i size : Z) (callback : handler) : R bool :=
  if i <? size then
    match fuel with
    | O => raise OutOfFuel
    | S fuel =>
        value_type ←? flv_script_data_read_ui8;
        result ← callback None value_type;
        if negb result then ret false else read_elements fuel (i + 1) size callback
    end
  else ret true.

Definition flv_script_data_read_strict_array (callback : handler) : R bool :=
  size ←? flv_script_data_read_ui32;
  fuel ← left; read_elements fuel 0 size callback.

(** ** Key frames *)

Definition set_keyframes_array (a : GArray FlvKeyframe) : R unit :=
  set_metadata (set_keyframes (Some a)).

(** The entry of the key frame [i]; [whichField] is 1 for times, 2 for positions. *)
Definition store_keyframe (a : GArray FlvKeyframe) (i whichField : Z) (x : spec_float)
    : R (GArray FlvKeyframe) :=
  if whichField =? 1 then
    t ← need BadConversion (to_clock_time x);
    need WriteOutside (g_array_update a i (fun e => mkKeyframe t (fileposition e)))
  else
    p ← need BadConversion (to_guint64 x);
    need WriteOutside (g_array_update a i (fun e => mkKeyframe (time e) p)).

Fixpoint read_keyframes (fuel : nat) (i size readSize whichField : Z) (a : GArray FlvKeyframe)
    : R bool :=
  if i <? size then
    match fuel with
    | O => raise OutOfFuel
    | S fuel =>
        value_type ←? flv_script_data_read_ui8;
        if negb (value_type =? 0) then ret false else
        x ←? flv_script_data_read_double;
        a ← (if (0 <? readSize) && (0 <? whichField)
              then a ← store_keyframe a i whichField x; set_keyframes_array a;; ret a
              else ret a);
        read_keyframes fuel (i + 1) size (u32 (readSize - 1)) whichField a
    end
  else ret true.

Definition flv_script_read_keyframe_array (value_name : option (list Z))
    (keyframes : GArray FlvKeyframe) : R bool :=
  size ←? flv_script_data_read_ui32;
  is_times ← strcmp0 value_name Name.times;
  is_positions ← strcmp0 value_name Name.filepositions;
  let whichField := if (is_times : bool) then 1 else if (is_positions : bool) then 2 else 0 in
  let shrink := (0 <? len keyframes) && (size <? len keyframes) in
  let readSize := if (0 <? len keyframes) && (len keyframes <? size) then len keyframes
                  else size in
  a ← (if shrink then need WriteOutside (g_array_set_size (mkKeyframe 0 0) junk keyframes size)
        else ret keyframes);
  a ← (if negb (len a =? readSize)
        then need WriteOutside (g_array_set_size (mkKeyframe 0 0) junk a readSize)
        else ret a);
  set_keyframes_array a;;
  fuel ← left; read_keyframes fuel 0 size readSize whichField a.

Definition flv_metadata_keyframe_handler : handler := fun value_name value_type =>
  if value_type =? 9 then ret true
  else if value_type =? 10 then
    s ← get;
    let a := match md_keyframes (metadata s) with Some a => a | None => g_array_new end in
    set_keyframes_array a;;
    flv_script_read_keyframe_array value_name a
  else ret false.

(** ** Handlers of values *)

Fixpoint flv_metadata_skip_handler (depth : nat) : handler := fun value_name value_type =>
  let nested (f : handler -> R bool) : R bool :=
    match depth with
    | O => raise OutOfFuel
    | S depth => f (flv_metadata_skip_handler depth)
    end in
  if value_type =? 0 then o ← flv_script_data_read_double; ret (bool_decide (is_Some o))
  else if value_type =? 1 then o ← flv_script_data_read_ui8; ret (bool_decide (is_Some o))
  else if value_type =? 2 then o ← flv_script_data_read_string false; ret (bool_decide (is_Some o))
  else if value_type =? 3 then nested flv_script_data_read_object
  else if value_type =? 8 then nested flv_script_data_read_ecma
  else if value_type =? 9 then ret true
  else if value_type =? 10 then nested flv_script_data_read_strict_array
  else ret false.

(** What the value handler does with a number, the name of the value being [n]. *)
Definition store_double (n : list Z) (x : spec_float) : R bool :=
  let named t := strcmp_eq n t in
  let store (f : Z -> FlvMetadata -> FlvMetadata) : R bool :=
    z ← need BadConversion (to_gint x); set_metadata (f z);; ret true in
  if named Name.duration then
    t ← need BadConversion (to_clock_time x);
    set_metadata (set_duration t);;
    gst_tag_list_add Name.duration (TagUint64 t);; ret true
  else if named Name.filesize then store set_file_size
  else if named Name.videocodecid then store set_video_codec_id
  else if named Name.videodatarate then set_metadata (set_video_data_rate x);; ret true
  else if named Name.width then store set_width
  else if named Name.height then store set_height
  else if named Name.AspectRatioX then store set_par_x
  else if named Name.AspectRatioY then store set_par_y
  else if named Name.framerate then set_metadata (set_framerate x);; ret true
  else if named Name.audiocodecid then store set_audio_codec_id
  else if named Name.audiosamplesize then store set_audio_sample_size
  else ret true.

Definition store_bool (n : list Z) (b : Z) : R bool :=
  if strcmp_eq n Name.canSeekToEnd then set_metadata (set_can_seek_to_end b);; ret true
  else if strcmp_eq n Name.stereo then set_metadata (set_is_stereo b);; ret true
  else ret true.

Definition store_string (n str : list Z) : R bool :=
  gst_tag_register (cstring n) G_TYPE_STRING;;
  gst_tag_list_add (cstring n) (TagString (cstring str));; ret true.

Definition flv_metadata_value_handler (depth : nat) : handler := fun value_name value_type =>
  let skip := flv_metadata_skip_handler depth in
  if value_type =? 0 then
    x ←? flv_script_data_read_double; n ← need NullString value_name; store_double n x
  else if value_type =? 1 then
    b ←? flv_script_data_read_ui8; n ← need NullString value_name; store_bool n b
  else if (value_type =? 2) || (value_type =? 12) then
    str ←? flv_script_data_read_string (value_type =? 12);
    n ← need NullString value_name; store_string n str
  else if value_type =? 3 then
    s ← get;
    is_keyframes ← strcmp0 value_name Name.keyframes;
    if is_keyframes && bool_decide (md_keyframes (metadata s) = None)
    then flv_script_data_read_object flv_metadata_keyframe_handler
    else flv_script_data_read_object skip
  else if value_type =? 4 then ret false
  else if (value_type =? 5) || (value_type =? 6) then ret true
  else if value_type =? 7 then move 2;; ret true
  else if value_type =? 8 then flv_script_data_read_ecma skip
  else if value_type =? 9 then ret true
  else if value_type =? 10 then flv_script_data_read_strict_array skip
  else if value_type =? 11 then move 10;; ret true
  else ret false.

(** ** The whole tag *)

Definition flv_script_data_read (depth : nat) : R bool :=
  o ← flv_script_data_read_ui8;
  match o with
  | None => ret true
  | Some value_type =>
      if negb (value_type =? 2) then ret true else
      str ←? flv_script_data_read_string false;
      if negb (strcmp_eq str Name.onMetaData) then ret true else
      value_type ←? flv_script_data_read_ui8;
      if negb (value_type =? 8) then ret false else
      s ← get;
      (match md_tag_list (metadata s) with
       | None => set_metadata (set_tag_list (Some ∅))
       | Some _ => ret tt
       end);;
      result ← flv_script_data_read_ecma (flv_metadata_value_handler depth);
      (if negb result then set_metadata (set_tag_list None) else ret tt);;
      ret result
  end.

End Reader.
