(* ===== verification/FlvScript.v ===== *)
(** * Reading script data: safety and termination (flvmetadata.c)

    Whatever the bytes are, reading a script data tag ends, without reading
    outside the block.  The faults that bytes can cause are those of [tolerated]. *)

From S2P Require Import Prelude.
From S2P Require Import Mem.
From S2P Require Import FlvMetadata.
From stdpp Require Import gmap.
From Stdlib Require Import SpecFloat.

Open Scope Z_scope.

(** ** Rules *)

(** The faults that depend on what the values are, and not on how they are laid out. *)
Definition tolerated (f : fault) : Prop :=
  f = WriteOutside \/ f = BadConversion \/ f = TagMismatch.

(** [m] ends, with a result and a state for which [Q] holds, or in a fault that is
    tolerated. *)
Definition runs {A} (m : R A) (s : ScriptState) (Q : A -> ScriptState -> Prop) : Prop :=
  match m s with
  | Done (a, s') => Q a s'
  | Fault f => tolerated f
  end.

Lemma runs_ret {A} (a : A) s Q : Q a s -> runs (ret a) s Q.
Proof. done. Qed.

Lemma runs_bind {A B} (m : R A) (k : A -> R B) s Q :
  runs m s (fun a s' => runs (k a) s' Q) -> runs (m ≫= k) s Q.
Proof. unfold runs, mbind, R_bind, bind. by destruct (m s) as [[a s']|f]. Qed.

Lemma runs_get s Q : Q s s -> runs get s Q.
Proof. done. Qed.

Lemma runs_put s' s Q : Q tt s' -> runs (put s') s Q.
Proof. done. Qed.

Lemma runs_move n s Q : Q tt (mkScript (pos s + n) (metadata s) (registry s)) -> runs (move n) s Q.
Proof. done. Qed.

Lemma runs_set_metadata f s Q :
  Q tt (mkScript (pos s) (f (metadata s)) (registry s)) -> runs (set_metadata f) s Q.
Proof. done. Qed.

Lemma runs_raise {A} f s (Q : A -> ScriptState -> Prop) : tolerated f -> runs (raise f) s Q.
Proof. done. Qed.

Lemma runs_need {A} f (o : option A) s Q :
  (o = None -> tolerated f) -> (forall a, o = Some a -> Q a s) -> runs (need f o) s Q.
Proof. intros Hf HQ. destruct o; [by apply HQ|by apply Hf]. Qed.

Lemma runs_conseq {A} (m : R A) s (P Q : A -> ScriptState -> Prop) :
  runs m s P -> (forall a s', P a s' -> Q a s') -> runs m s Q.
Proof. unfold runs. destruct (m s) as [[a s']|f]; auto. Qed.

(** Steps through the code: binds, the elementary computations, conditionals. *)
Ltac run1 :=
  match goal with
  | |- runs (mbind _ _) _ _ => apply runs_bind
  | |- runs (bind ?m ?k) _ _ => change (bind m k) with (m ≫= k)
  | |- runs get _ _ => apply runs_get
  | |- runs (put _) _ _ => apply runs_put
  | |- runs (ret _) _ _ => apply runs_ret
  | |- runs (mret _) _ _ => apply runs_ret
  | |- runs (move _) _ _ => apply runs_move
  | |- runs (set_metadata _) _ _ => apply runs_set_metadata
  | |- runs (if ?c then _ else _) _ _ => destruct c eqn:?
  | |- runs (match ?o with Some _ => _ | None => _ end) _ _ => destruct o eqn:?
  end; cbn [pos metadata registry cond].
Ltac run := repeat run1.

Lemma tolerated_write : tolerated WriteOutside. Proof. by left. Qed.
Lemma tolerated_conversion : tolerated BadConversion. Proof. by right; left. Qed.
Lemma tolerated_tag : tolerated TagMismatch. Proof. by right; right. Qed.
#[local] Hint Resolve tolerated_write tolerated_conversion tolerated_tag : core.

Section Safe.
Variable utf8 : list Z -> bool.
Variable junk : FlvKeyframe.
Variable data : list Z.
Variable end_ : Z.
Hypothesis Hbytes : bytes data.
Hypothesis Hend : 0 <= end_ <= alen data.

(** ** Readers of values *)

(** A reader that moved over [n] bytes or more, up to the end of the data. *)
Definition moved {A} (n : Z) (s : ScriptState) (o : option A) (s' : ScriptState) : Prop :=
  pos s <= pos s' /\ (is_Some o -> pos s + n <= pos s' <= end_).

Lemma ui8_safe s : 0 <= pos s -> runs (flv_script_data_read_ui8 data end_) s (moved 1 s).
Proof using Hend.
  intros Hp. unfold flv_script_data_read_ui8. run.
  - split; [lia|by intros []].
  - apply runs_need.
    + intros Hn. destruct (ld_in data (pos s)) as [b Hb]; [lia|congruence].
    + intros b _. run. split; simpl; lia.
Qed.

Lemma ui32_safe s : 0 <= pos s -> runs (flv_script_data_read_ui32 data end_) s (moved 4 s).
Proof using Hbytes Hend.
  intros Hp. unfold flv_script_data_read_ui32. run.
  - split; [lia|by intros []].
  - apply runs_need.
    + intros Hn. destruct (read32_in data (pos s)) as (n & Hr & _); [done|lia..|congruence].
    + intros n _. run. split; simpl; lia.
Qed.

Lemma double_safe s : 0 <= pos s -> runs (flv_script_data_read_double data end_) s (moved 8 s).
Proof using Hbytes Hend.
  intros Hp. unfold flv_script_data_read_double. run.
  - split; [lia|by intros []].
  - apply runs_need.
    + intros Hn. unfold FLV_READ_DOUBLE_BE in Hn.
      destruct (read32_in data (pos s)) as (n & Hr & _); [done|lia..|].
      destruct (read32_in data (pos s + 4)) as (n' & Hr' & _); [done|lia..|].
      by rewrite Hr, Hr' in Hn.
    + intros n _. run. split; simpl; lia.
Qed.

Lemma read_bytes_in i n : 0 <= i -> i + n <= alen data -> is_Some (read_bytes data i n).
Proof. intros. unfold read_bytes. zcase; [by eexists|lia..]. Qed.

Lemma string_safe b s :
  0 <= pos s -> runs (flv_script_data_read_string data end_ b) s (moved (cond b 4 2) s).
Proof using Hbytes Hend.
  intros Hp. unfold flv_script_data_read_string. run1. run1. run1.
  { run. split; [lia|by intros []]. }
  apply Z.ltb_ge in Heqb0. run1.
  assert (forall n, 0 <= n ->
    runs (s0 ← get;
          if end_ <? pos s0 + n then ret None
          else if 18446744073709551614 <=? n then ret None
          else dest ← need ReadOutside (read_bytes data (pos s0) n); move n;; ret (Some dest))
      (mkScript (pos s + cond b 4 2) (metadata s) (registry s)) (moved (cond b 4 2) s)) as Hrest.
  { intros n Hn. run; try (split; [simpl; lia|by intros []]).
    - simpl. split; [destruct b; simpl; lia|by intros []].
    - split; [destruct b; simpl; lia|by intros []].
    - apply runs_need.
      + intros Hb. destruct (read_bytes_in (pos s + cond b 4 2) n) as [? ?]; [destruct b; simpl; lia|lia|congruence].
      + intros l _. run. split; simpl; destruct b; simpl in *; lia. }
  destruct b; simpl in *; run; apply runs_need.
  - intros Hn. destruct (read32_in data (pos s)) as (n & Hr & _); [done|lia..|congruence].
  - intros n Hr. destruct (read32_in data (pos s)) as (n' & Hr' & ?); [done|lia..|].
    simplify_eq. run1. run1. run1. apply (Hrest n). lia.
  - intros Hn. destruct (read16_in data (pos s)) as (n & Hr & _); [done|lia..|congruence].
  - intros n Hr. destruct (read16_in data (pos s)) as (n' & Hr' & ?); [done|lia..|].
    simplify_eq. run1. run1. run1. apply (Hrest n). lia.
Qed.

(** [if (!m(&x)) return FALSE;] with [m] a reader. *)
Lemma runs_try {A} (m : R (option A)) (k : A -> R bool) s n (Q : bool -> ScriptState -> Prop) :
  runs m s (moved n s) ->
  (forall s', pos s <= pos s' -> Q false s') ->
  (forall x s', pos s + n <= pos s' <= end_ -> runs (k x) s' Q) ->
  runs (x ←? m; k x) s Q.
Proof.
  intros Hm Hfail Hk. apply runs_bind. eapply runs_conseq; [done|].
  intros [x|] s' [Hle Hmv]; simpl; [apply Hk, Hmv; eauto|by apply Hfail].
Qed.

(** ** Objects and arrays *)

(** Nothing was taken back. *)
Definition onward {A} (s : ScriptState) (_ : A) (s' : ScriptState) : Prop := pos s <= pos s'.

(** A handler that can be called where less than [b] bytes are left, with a name
    unless the value is a terminator ([null]: also without). *)
Definition handler_ok (b : Z) (null : bool) (h : handler) : Prop :=
  forall name type s, 0 <= pos s <= end_ -> end_ - pos s < b ->
    (name = None -> null = true \/ type = 9) -> runs (h name type) s (onward s).

Lemma members_safe fuel h b s :
  handler_ok b false h -> 0 <= pos s -> end_ - pos s - 3 < b ->
  end_ - pos s < Z.of_nat fuel -> runs (read_members data end_ fuel h) s (onward s).
Proof using Hbytes Hend.
  intros Hh. revert s. induction fuel as [|fuel IH]; intros s Hp Hb Hf; cbn [read_members].
  { run1. run1. rewrite (proj2 (Z.ltb_ge (pos s) end_)) by lia. run. unfold onward. lia. }
  run1. run1. destruct (Z.ltb_spec (pos s) end_); [|run; unfold onward; lia].
  destruct (Z.ltb_spec end_ (pos s + 3)); [run; unfold onward; lia|].
  destruct (ld_in data (pos s)) as [b0 ->]; [lia|].
  destruct (ld_in data (pos s + 1)) as [b1 ->]; [lia|].
  destruct (ld_in data (pos s + 2)) as [b2 ->]; [lia|].
  do 3 (run1; apply runs_ret).
  assert (forall name type s', pos s + 3 <= pos s' <= end_ -> (name = None -> type = 9) ->
    runs (result ← h name type;
          if type =? 9 then ret true else if negb result then ret false
          else read_members data end_ fuel h) s' (onward s)) as Hgo.
  { intros name type s' Hs' Hname. run1. eapply runs_conseq.
    - apply Hh; [lia..|]. intros; right; auto.
    - unfold onward. intros r s'' ?. run; try lia.
      eapply runs_conseq; [apply IH; lia|]. unfold onward. lia. }
  destruct (_ && _); [run1; run1; apply Hgo; simpl; [lia|done]|].
  eapply (runs_try _ _ s 2); [by apply (string_safe false)|unfold onward; lia|].
  intros name s1 Hs1. eapply (runs_try _ _ s1 1); [apply ui8_safe; lia|unfold onward; lia|].
  intros type s2 Hs2. apply Hgo; [lia|done].
Qed.

Lemma object_safe h b s :
  handler_ok b false h -> 0 <= pos s -> end_ - pos s - 3 < b ->
  runs (flv_script_data_read_object data end_ h) s (onward s).
Proof using Hbytes Hend.
  intros Hh Hp Hb. unfold flv_script_data_read_object, left. run.
  eapply members_safe; [done..|lia].
Qed.

Lemma ecma_safe h b s :
  handler_ok b false h -> 0 <= pos s -> end_ - pos s - 7 < b ->
  runs (flv_script_data_read_ecma data end_ h) s (onward s).
Proof using Hbytes Hend.
  intros Hh Hp Hb. unfold flv_script_data_read_ecma.
  eapply (runs_try _ _ s 4); [by apply ui32_safe|done|]. intros n s' Hs'. unfold left. run.
  eapply runs_conseq; [eapply members_safe; [done|lia..]|]. unfold onward. lia.
Qed.

Lemma elements_safe fuel h b s i size :
  handler_ok b true h -> 0 <= pos s -> end_ - pos s - 1 < b ->
  Z.max 0 (end_ - pos s) < Z.of_nat fuel ->
  runs (read_elements data end_ fuel i size h) s (onward s).
Proof using Hbytes Hend.
  intros Hh. revert s i. induction fuel as [|fuel IH]; intros s i Hp Hb Hf; [lia|].
  cbn [read_elements]. destruct (i <? size); [|run; unfold onward; lia].
  eapply (runs_try _ _ s 1); [by apply ui8_safe|done|]. intros type s1 Hs1.
  run1. eapply runs_conseq; [apply Hh; [lia..|auto]|].
  unfold onward. intros r s2 Hs2. run; [lia|].
  eapply runs_conseq; [apply IH; lia|]. unfold onward. lia.
Qed.

Lemma strict_array_safe h b s :
  handler_ok b true h -> 0 <= pos s -> end_ - pos s - 5 < b ->
  runs (flv_script_data_read_strict_array data end_ h) s (onward s).
Proof using Hbytes Hend.
  intros Hh Hp Hb. unfold flv_script_data_read_strict_array.
  eapply (runs_try _ _ s 4); [by apply ui32_safe|done|]. intros n s' Hs'. unfold left. run.
  eapply runs_conseq; [eapply elements_safe; [done|lia..]|]. unfold onward. lia.
Qed.

(** ** Key frames *)

Lemma store_keyframe_safe a i w x s :
  runs (store_keyframe a i w x) s (fun _ s' => pos s' = pos s).
Proof.
  unfold store_keyframe. run; apply runs_need; auto; intros v _; by apply runs_need.
Qed.

Lemma keyframes_safe fuel s i size rs w a :
  0 <= pos s -> Z.max 0 (end_ - pos s) < Z.of_nat fuel ->
  runs (read_keyframes data end_ fuel i size rs w a) s (onward s).
Proof using Hbytes Hend.
  revert s i rs a. induction fuel as [|fuel IH]; intros s i rs a Hp Hf; [lia|].
  cbn [read_keyframes]. destruct (i <? size); [|run; unfold onward; lia].
  eapply (runs_try _ _ s 1); [by apply ui8_safe|done|]. intros type s1 Hs1.
  run1; [run; unfold onward; lia|].
  eapply (runs_try _ _ s1 8); [apply double_safe; lia|unfold onward; lia|]. intros x s2 Hs2.
  run1. eapply (runs_conseq _ _ (fun _ s' => pos s' = pos s2)).
  - run1; [|by run]. run1. eapply runs_conseq; [apply store_keyframe_safe|].
    intros a' s3 Hs3. unfold set_keyframes_array. by run.
  - intros a' s3 Hs3. eapply runs_conseq; [apply IH; lia|]. unfold onward. lia.
Qed.

Lemma keyframe_array_safe name a s :
  0 <= pos s -> is_Some name ->
  runs (flv_script_read_keyframe_array junk data end_ name a) s (onward s).
Proof using Hbytes Hend.
  intros Hp [n ->]. unfold flv_script_read_keyframe_array.
  eapply (runs_try _ _ s 4); [by apply ui32_safe|done|]. intros size s1 Hs1.
  cbn [strcmp0]. run1. run1. run1. run1.
  apply runs_bind. eapply (runs_conseq _ _ (fun _ s' => pos s' = pos s1)).
  { run1; [|by run]. by apply runs_need. }
  intros a1 s2 Hs2. apply runs_bind. eapply (runs_conseq _ _ (fun _ s' => pos s' = pos s1)).
  { run1; [|by run]. by apply runs_need. }
  intros a2 s3 Hs3. unfold set_keyframes_array, left. run.
  eapply runs_conseq; [apply keyframes_safe; simpl; lia|]. unfold onward; simpl. lia.
Qed.

Lemma keyframe_handler_ok b : handler_ok b false (flv_metadata_keyframe_handler junk data end_).
Proof using Hbytes Hend.
  intros name type s Hp _ Hname. unfold flv_metadata_keyframe_handler, set_keyframes_array, onward.
  run; try lia.
  eapply runs_conseq; [apply keyframe_array_safe; simpl; [lia|]|done].
  destruct name; [done|]. destruct Hname; [done..|lia].
Qed.

(** ** Handlers of values *)

(** A reader whose result is thrown away. *)
Lemma skipped_safe {A} (m : R (option A)) n s :
  runs m s (moved n s) -> runs (o ← m; ret (bool_decide (is_Some o))) s (onward s).
Proof. intros Hm. run1. eapply runs_conseq; [done|]. intros o s' [Hle _]. by run. Qed.

Lemma skip_handler_ok depth :
  handler_ok (Z.of_nat depth) true (flv_metadata_skip_handler data end_ depth).
Proof using Hbytes Hend.
  induction depth as [|depth IH]; intros name type s Hp Hb _; [lia|].
  assert (handler_ok (Z.of_nat depth) false (flv_metadata_skip_handler data end_ depth)) as IH'.
  { intros n t s' ? ? ?. apply IH; auto. }
  cbn [flv_metadata_skip_handler].
  run1; [eapply skipped_safe, double_safe; lia|].
  run1; [eapply skipped_safe, ui8_safe; lia|].
  run1; [eapply skipped_safe, string_safe; lia|].
  run1; [eapply object_safe; [done|lia..]|].
  run1; [eapply ecma_safe; [done|lia..]|].
  run1; [run; unfold onward; lia|].
  run1; [eapply strict_array_safe; [done|lia..]|].
  run. unfold onward. lia.
Qed.

Lemma tag_add_safe name v s :
  runs (gst_tag_list_add utf8 name v) s (fun _ s' => pos s' = pos s).
Proof. unfold gst_tag_list_add. run; try done. by apply runs_raise. Qed.

Lemma store_double_safe n x s : runs (store_double utf8 n x) s (onward s).
Proof.
  unfold store_double, onward. run; try lia; apply runs_need; auto; intros z _; run; try lia.
  eapply runs_conseq; [apply tag_add_safe|]. intros ? s' Hs'. run. simpl in *. lia.
Qed.

Lemma store_bool_safe n b s : runs (store_bool n b) s (onward s).
Proof. unfold store_bool, onward. run; simpl; lia. Qed.

Lemma store_string_safe n str s : runs (store_string utf8 n str) s (onward s).
Proof.
  unfold store_string, gst_tag_register, onward. do 5 run1.
  eapply runs_conseq; [apply tag_add_safe|]. intros ? s' Hs'. run. simpl in *. lia.
Qed.

Lemma value_handler_ok depth :
  handler_ok (Z.of_nat depth) false (flv_metadata_value_handler utf8 junk data end_ depth).
Proof using Hbytes Hend.
  intros name type s Hp Hb Hname. pose proof (skip_handler_ok depth) as Hskip.
  assert (handler_ok (Z.of_nat depth) false (flv_metadata_skip_handler data end_ depth)) as Hskip'.
  { intros n t s' ? ? ?. apply Hskip; auto. }
  assert (type <> 9 -> is_Some name) as Hsome.
  { destruct name; [done|]. intros. destruct Hname; done. }
  assert (forall (k : list Z -> R bool) s', type <> 9 -> pos s <= pos s' ->
    (forall n, runs (k n) s' (onward s')) -> runs (n ← need NullString name; k n) s' (onward s)) as Hk.
  { intros k s' [n ->]%Hsome Hs' Hk. run1. apply runs_ret.
    eapply runs_conseq; [apply Hk|]. unfold onward. lia. }
  unfold flv_metadata_value_handler.
  run1; [eapply (runs_try _ _ s 8); [apply double_safe; lia|done|]; intros;
         apply Hk; [lia..|intros; apply store_double_safe]|].
  run1; [eapply (runs_try _ _ s 1); [apply ui8_safe; lia|done|]; intros;
         apply Hk; [lia..|intros; apply store_bool_safe]|].
  run1; [eapply runs_try; [apply string_safe; lia|done|]; intros;
         apply Hk; [lia|destruct (type =? 12); simpl in *; lia|intros; apply store_string_safe]|].
  run1; [destruct Hsome as [n ->]; [lia|]; cbn [strcmp0]; run|run; try (unfold onward; simpl; lia)].
  - eapply object_safe; [apply (keyframe_handler_ok (Z.of_nat depth))|lia..].
  - eapply object_safe; [done|lia..].
  - eapply ecma_safe; [done|lia..].
  - eapply strict_array_safe; [done|lia..].
Qed.

Lemma script_read_safe s depth :
  0 <= pos s -> end_ < Z.of_nat depth ->
  runs (flv_script_data_read utf8 junk data end_ depth) s (fun _ s' => pos s <= pos s').
Proof using Hbytes Hend.
  intros Hp Hd. unfold flv_script_data_read.
  run1. eapply runs_conseq; [by apply ui8_safe|]. intros [type|] s1 [Hs1 Hmv]; [|by run].
  run1; [by run|]. assert (0 <= pos s1 <= end_) as Hp1 by (destruct Hmv; [eauto|lia]).
  eapply (runs_try _ _ s1 2); [apply (string_safe false); lia|lia|]. intros str s2 Hs2.
  run1; [run; lia|]. eapply (runs_try _ _ s2 1); [apply ui8_safe; lia|lia|]. intros t s3 Hs3.
  run1; [run; lia|]. do 2 run1. apply runs_bind.
  eapply (runs_conseq _ _ (fun _ s' => pos s' = pos s3)); [run; simpl; done|].
  intros ? s4 Hs4. simpl in Hs4. apply runs_bind. eapply runs_conseq.
  - eapply ecma_safe; [apply value_handler_ok|lia..].
  - unfold onward. intros r s5 Hs5. run; simpl; lia.
Qed.

(** C15. Reading a script data tag ends and reads nothing outside the block,
    whatever the bytes are and however deep values are nested: with fuel for as
    many levels as the data have bytes no loop and no recursion runs out of it.
    The only faults left are a write outside the array of key frames, a number
    that does not fit its field and a string for a tag of another type. *)
Theorem script_data_read_safe s depth :
  0 <= pos s -> end_ < Z.of_nat depth ->
  runs (flv_script_data_read utf8 junk data end_ depth) s (fun _ s' => pos s <= pos s').
Proof using Hbytes Hend. apply script_read_safe. Qed.
End Safe.
