(* ===== verification/FlvAmf.v ===== *)
(** * Reading script data: round trips (flvmetadata.c)

    What a writer of the format writes is read back: values that are not wanted
    are passed over, the others are stored under their names, with the table of
    key frames. *)

From S2P Require Import Prelude.
From S2P Require Import Mem.
From S2P Require Import FlvMetadata.
From stdpp Require Import gmap.
From Stdlib Require Import SpecFloat.

Open Scope Z_scope.

(** ** What a writer of the format writes *)

Definition be64 (w : Z) : list Z := be32 (w / 4294967296) ++ be32 (w mod 4294967296).

(** The values that can be nested; a number is given by its 64 bits. *)
Local Unset Elimination Schemes.
Inductive amf : Type :=
  | ANumber (w : Z)
  | ABool (b : Z)
  | AString (s : list Z)
  | AObject (ms : list (list Z * amf))
  | AEcma (n : Z) (ms : list (list Z * amf))
  | AStrict (vs : list amf).
Local Set Elimination Schemes.

(** Induction, with the hypothesis for the values inside. *)
Section AmfInd.
Variable P : amf -> Prop.
Hypothesis PNumber : forall w, P (ANumber w).
Hypothesis PBool : forall b, P (ABool b).
Hypothesis PString : forall s, P (AString s).
Hypothesis PObject : forall ms, Forall (fun m => P (snd m)) ms -> P (AObject ms).
Hypothesis PEcma : forall n ms, Forall (fun m => P (snd m)) ms -> P (AEcma n ms).
Hypothesis PStrict : forall vs, Forall P vs -> P (AStrict vs).

Fixpoint amf_ind (v : amf) : P v :=
  let fix members (ms : list (list Z * amf)) : Forall (fun m => P (snd m)) ms :=
    match ms with
    | [] => Forall_nil_2 _
    | m :: ms => Forall_cons_2 (fun m => P (snd m)) m ms (amf_ind (snd m)) (members ms)
    end in
  let fix elements (vs : list amf) : Forall P vs :=
    match vs with
    | [] => Forall_nil_2 _
    | v :: vs => Forall_cons_2 P v vs (amf_ind v) (elements vs)
    end in
  match v with
  | ANumber w => PNumber w
  | ABool b => PBool b
  | AString s => PString s
  | AObject ms => PObject ms (members ms)
  | AEcma n ms => PEcma n ms (members ms)
  | AStrict vs => PStrict vs (elements vs)
  end.
End AmfInd.

Definition amf_type (v : amf) : Z :=
  match v with
  | ANumber _ => 0 | ABool _ => 1 | AString _ => 2 | AObject _ => 3 | AEcma _ _ => 8
  | AStrict _ => 10
  end.

(** A member of an object: its name, the type of its value, and the value. *)
Definition member_bytes (name : list Z) (type : Z) (body : list Z) : list Z :=
  be16 (alen name) ++ name ++ type :: body.

Definition terminator : list Z := [0; 0; 9].

Fixpoint amf_body (v : amf) : list Z :=
  match v with
  | ANumber w => be64 w
  | ABool b => [b]
  | AString s => be16 (alen s) ++ s
  | AObject ms =>
      flat_map (fun m => member_bytes (fst m) (amf_type (snd m)) (amf_body (snd m))) ms ++ terminator
  | AEcma n ms =>
      be32 n
      ++ flat_map (fun m => member_bytes (fst m) (amf_type (snd m)) (amf_body (snd m))) ms ++ terminator
  | AStrict vs =>
      be32 (Z.of_nat (length vs)) ++ flat_map (fun v => amf_type v :: amf_body v) vs
  end.

(** The sizes fit their fields. *)
Fixpoint amf_ok (v : amf) : bool :=
  match v with
  | ANumber w => (0 <=? w) && (w <? 18446744073709551616)
  | ABool b => true
  | AString s => alen s <? 65536
  | AObject ms => forallb (fun m => (alen (fst m) <? 65536) && amf_ok (snd m)) ms
  | AEcma n ms =>
      (0 <=? n) && (n <? 4294967296)
      && forallb (fun m => (alen (fst m) <? 65536) && amf_ok (snd m)) ms
  | AStrict vs => (Z.of_nat (length vs) <? 4294967296) && forallb amf_ok vs
  end.

(** How deep values are nested. *)
Fixpoint amf_depth (v : amf) : nat :=
  match v with
  | AObject ms | AEcma _ ms => S (foldr (fun m d => Nat.max (amf_depth (snd m)) d) O ms)
  | AStrict vs => S (foldr (fun v d => Nat.max (amf_depth v) d) O vs)
  | _ => O
  end.

(** ** Exact runs *)

Definition adv (n : Z) (s : ScriptState) : ScriptState :=
  mkScript (pos s + n) (metadata s) (registry s).

Lemma bind_done {A B} (m : R A) (k : A -> R B) s a s1 :
  m s = Done (a, s1) -> (m ≫= k) s = k a s1.
Proof. intros H. unfold mbind, R_bind, bind. by rewrite H. Qed.

Lemma try_done {A} (m : R (option A)) (k : A -> R bool) s a s1 :
  m s = Done (Some a, s1) -> (x ←? m; k x) s = k a s1.
Proof. intros H. unfold bind. by rewrite H. Qed.

Lemma adv_adv a b s : adv a (adv b s) = adv (b + a) s.
Proof. unfold adv; simpl. f_equal. lia. Qed.

Lemma adv_0 s : adv 0 s = s.
Proof. destruct s. unfold adv; simpl. f_equal. lia. Qed.

Lemma alen_cons (b : Z) l : alen (b :: l) = 1 + alen l.
Proof. unfold alen. simpl. lia. Qed.

Lemma alen_ge l : 0 <= alen l.
Proof. unfold alen. lia. Qed.

Lemma alen_member n t b : alen (member_bytes n t b) = 3 + alen n + alen b.
Proof. unfold member_bytes. rewrite !alen_app, alen_cons. unfold alen; simpl. lia. Qed.

Section Exact.
Variable data : list Z.
Variable end_ : Z.
Hypothesis Hend : end_ <= alen data.

(** The bytes [l] are next. *)
Definition next (l : list Z) (s : ScriptState) : Prop :=
  holds data (pos s) l /\ pos s + alen l <= end_.

Lemma next_app l1 l2 s : next (l1 ++ l2) s -> next l1 s /\ next l2 (adv (alen l1) s).
Proof.
  intros [[H1 H2]%holds_app Hle]. rewrite alen_app in Hle. unfold next, adv; simpl.
  pose proof (alen_ge l2). repeat split; try apply H1; try apply H2; lia.
Qed.

Lemma next_pos l s : next l s -> 0 <= pos s.
Proof. intros [H _]. by apply holds_ge in H. Qed.

Lemma ui8_exact b s :
  next [b] s -> flv_script_data_read_ui8 data end_ s = Done (Some b, adv 1 s).
Proof.
  intros [[Hb _]%holds_cons Hle]. change (alen [b]) with 1 in Hle.
  unfold flv_script_data_read_ui8, get, mbind, R_bind, bind.
  rewrite (proj2 (Z.ltb_ge _ _)) by lia. by rewrite Hb.
Qed.

Lemma ui32_exact n s :
  0 <= n < 4294967296 -> next (be32 n) s ->
  flv_script_data_read_ui32 data end_ s = Done (Some n, adv 4 s).
Proof.
  intros Hn [Hb Hle]. change (alen (be32 n)) with 4 in Hle.
  unfold flv_script_data_read_ui32, get, mbind, R_bind, bind.
  rewrite (proj2 (Z.ltb_ge _ _)) by lia. by rewrite (read32 _ _ n).
Qed.

Lemma double_exact w s :
  0 <= w < 18446744073709551616 -> next (be64 w) s ->
  flv_script_data_read_double data end_ s = Done (Some (double_of_bits w), adv 8 s).
Proof.
  intros Hw [Hb Hle]. change (alen (be64 w)) with 8 in Hle.
  apply holds_app in Hb as [Hhi Hlo]. change (alen (be32 _)) with 4 in Hlo.
  unfold flv_script_data_read_double, get, mbind, R_bind, bind.
  rewrite (proj2 (Z.ltb_ge _ _)) by lia. unfold FLV_READ_DOUBLE_BE.
  rewrite (read32 _ (pos s) (w / 4294967296)), (read32 _ (pos s + 4) (w mod 4294967296)) by (done || zlia).
  simpl. rewrite (shl_lor _ _ 32) by zlia.
  replace (w / 4294967296 * 2 ^ 32 + w mod 4294967296) with w by (change (2 ^ 32) with 4294967296; zlia).
  done.
Qed.

Lemma read_bytes_exact l s : next l s -> read_bytes data (pos s) (alen l) = Some l.
Proof using Hend.
  intros [[Hi H] Hle]. unfold read_bytes, alen in *.
  rewrite (proj2 (Z.leb_le 0 (pos s))), (proj2 (Z.leb_le _ _)) by lia. simpl. f_equal.
  rewrite Nat2Z.id. apply list_eq. intros k. destruct (decide (k < length l)%nat) as [Hk|Hk].
  - destruct (lookup_lt_is_Some_2 l k Hk) as [b Hb]. rewrite Hb, lookup_take_lt, lookup_drop by done.
    specialize (H k b Hb). unfold ld in H. case_match; [|done].
    by replace (Z.to_nat (pos s) + k)%nat with (Z.to_nat (pos s + Z.of_nat k)) by lia.
  - rewrite lookup_take_ge, lookup_ge_None_2 by lia. done.
Qed.

Lemma string_exact l s :
  alen l < 65536 -> next (be16 (alen l) ++ l) s ->
  flv_script_data_read_string data end_ false s = Done (Some l, adv (2 + alen l) s).
Proof using Hend.
  intros Hl [[H16 Hle16] Hs]%next_app. change (alen (be16 _)) with 2 in *.
  pose proof (alen_ge l). pose proof Hs as [_ Hle]. simpl in Hle.
  unfold flv_script_data_read_string, get, move, put, mbind, R_bind, bind; cbn [cond].
  rewrite (proj2 (Z.ltb_ge _ _)) by lia. rewrite (read16 _ _ (alen l)) by (done || lia).
  cbn. rewrite (proj2 (Z.ltb_ge _ _)), (proj2 (Z.leb_gt _ _)) by lia.
  apply read_bytes_exact in Hs. simpl in Hs. rewrite Hs. unfold adv. rewrite Z.add_assoc. done.
Qed.

Lemma long_string_exact l s :
  alen l < 4294967296 -> next (be32 (alen l) ++ l) s ->
  flv_script_data_read_string data end_ true s = Done (Some l, adv (4 + alen l) s).
Proof using Hend.
  intros Hl [[H32 Hle32] Hs]%next_app. change (alen (be32 _)) with 4 in *.
  pose proof (alen_ge l). pose proof Hs as [_ Hle]. simpl in Hle.
  unfold flv_script_data_read_string, get, move, put, mbind, R_bind, bind; cbn [cond].
  rewrite (proj2 (Z.ltb_ge _ _)) by lia. rewrite (read32 _ _ (alen l)) by (done || lia).
  cbn. rewrite (proj2 (Z.ltb_ge _ _)), (proj2 (Z.leb_gt _ _)) by lia.
  apply read_bytes_exact in Hs. simpl in Hs. rewrite Hs. unfold adv. rewrite Z.add_assoc. done.
Qed.

(** ** Members and elements, for a handler that takes each of them *)

(** The handler, called for each member in turn, takes its body. *)
Inductive takes (h : handler) : list (list Z * Z * list Z) -> ScriptState -> ScriptState -> Prop :=
  | takes_nil s : takes h [] s s
  | takes_cons n t body ms s s1 s2 :
      alen n < 65536 -> t <> 9 ->
      h (Some n) t (adv (3 + alen n) s) = Done (true, s1) ->
      pos s1 = pos s + alen (member_bytes n t body) ->
      takes h ms s1 s2 -> takes h ((n, t, body) :: ms) s s2.

Definition all_bytes (ms : list (list Z * Z * list Z)) : list Z :=
  flat_map (fun m => member_bytes (fst (fst m)) (snd (fst m)) (snd m)) ms.

(** The bytes are next after a computation that took the bytes before them. *)
Lemma next_moved l1 l2 s s1 : next (l1 ++ l2) s -> pos s1 = pos s + alen l1 -> next l2 s1.
Proof. intros [_ [H1 H2]]%next_app Hp. unfold next, adv in *. simpl in *. by rewrite Hp. Qed.

(** The first three bytes of a member are not those of a terminator. *)
Lemma member_first n t body s (b0 b1 b2 : Z) :
  alen n < 65536 -> t <> 9 -> next (member_bytes n t body) s ->
  ld data (pos s) = Some b0 -> ld data (pos s + 1) = Some b1 -> ld data (pos s + 2) = Some b2 ->
  (b0 =? 0) && (b1 =? 0) && (b2 =? 9) = false.
Proof.
  intros Hn Ht [Hb _] H0 H1 H2. unfold member_bytes, be16 in Hb. simpl in Hb.
  rewrite !holds_cons in Hb. destruct Hb as (E0 & E1 & Hb). simplify_eq.
  pose proof (alen_ge n). zcase; try done. destruct n as [|c n].
  - simpl in Hb. apply holds_cons in Hb as [Hb _].
    replace (pos s + 1 + 1) with (pos s + 2) in Hb by lia. congruence.
  - rewrite alen_cons in *. pose proof (alen_ge n). zlia.
Qed.

Lemma next_3 l s : next l s -> 3 <= alen l ->
  exists b0 b1 b2, ld data (pos s) = Some b0 /\ ld data (pos s + 1) = Some b1 /\
                   ld data (pos s + 2) = Some b2 /\ pos s + 3 <= end_.
Proof using Hend.
  intros [[Hp H] Hle] Hl. destruct (ld_in data (pos s)) as [b0 ?]; [lia|].
  destruct (ld_in data (pos s + 1)) as [b1 ?]; [lia|].
  destruct (ld_in data (pos s + 2)) as [b2 ?]; [lia|]. exists b0, b1, b2. repeat split; try done. lia.
Qed.

Lemma members_exact h ms s s' fuel :
  (forall s, h None 9 s = Done (true, s)) -> takes h ms s s' ->
  next (all_bytes ms ++ terminator) s -> end_ - pos s < Z.of_nat fuel ->
  read_members data end_ fuel h s = Done (true, adv 3 s').
Proof using Hend.
  intros Hterm Ht. revert fuel. induction Ht as [s|n t body ms s s1 s2 Hn H9 Hh Hp Ht IH];
    intros fuel Hnext Hf.
  - simpl in Hnext. destruct Hnext as [Hh Hle]. change (alen terminator) with 3 in Hle.
    unfold terminator in Hh. held Hh.
    destruct fuel as [|fuel]; [lia|]. cbn [read_members]. erewrite bind_done; [|done]. 
    rewrite (proj2 (Z.ltb_lt _ _)), (proj2 (Z.ltb_ge _ _)) by lia.
    repeat match goal with E : ld _ _ = _ |- _ => rewrite E; clear E end.
    do 3 (erewrite bind_done; [|done]). simpl. erewrite bind_done; [|done].
    by erewrite bind_done; [|apply Hterm].
  - change (all_bytes _) with (member_bytes n t body ++ all_bytes ms) in Hnext.
    rewrite <- app_assoc in Hnext. pose proof Hnext as [Hm _]%next_app.
    assert (alen (member_bytes n t body) = 3 + alen n + alen body) as Hlen by apply alen_member.
    pose proof (alen_ge n). pose proof (alen_ge body).
    destruct (next_3 _ _ Hm) as (b0 & b1 & b2 & E0 & E1 & E2 & Hle); [lia|].
    pose proof (member_first _ _ _ _ _ _ _ Hn H9 Hm E0 E1 E2) as Hfirst.
    destruct fuel as [|fuel]; [lia|]. cbn [read_members]. erewrite bind_done; [|done].
    rewrite (proj2 (Z.ltb_lt _ _)), (proj2 (Z.ltb_ge _ _)), E0, E1, E2 by lia.
    do 3 (erewrite bind_done; [|done]). rewrite Hfirst.
    unfold member_bytes in Hm. rewrite app_assoc in Hm. apply next_app in Hm as [Hname Hbody].
    replace (alen (be16 (alen n) ++ n)) with (2 + alen n) in Hbody by (rewrite alen_app; done).
    change (t :: body) with ([t] ++ body) in Hbody. apply next_app in Hbody as [Htype _].
    erewrite try_done; [|by apply string_exact].
    erewrite try_done; [|by apply ui8_exact]. rewrite adv_adv.
    replace (2 + alen n + 1) with (3 + alen n) by lia. erewrite bind_done; [|done].
    rewrite (proj2 (Z.eqb_neq t 9)) by done. simpl.
    apply IH; [|lia]. by eapply next_moved.
Qed.

Inductive takes_elements (h : handler) : list (Z * list Z) -> ScriptState -> ScriptState -> Prop :=
  | takes_elements_nil s : takes_elements h [] s s
  | takes_elements_cons t body es s s1 s2 :
      h None t (adv 1 s) = Done (true, s1) -> pos s1 = pos s + alen (t :: body) ->
      takes_elements h es s1 s2 -> takes_elements h ((t, body) :: es) s s2.

Definition elements_bytes (es : list (Z * list Z)) : list Z := flat_map (fun e => fst e :: snd e) es.

Lemma elements_exact h es s s' fuel i :
  takes_elements h es s s' -> next (elements_bytes es) s ->
  Z.max 0 (end_ - pos s) < Z.of_nat fuel ->
  read_elements data end_ fuel i (i + Z.of_nat (length es)) h s = Done (true, s').
Proof.
  intros Ht. revert fuel i. induction Ht as [s|t body es s s1 s2 Hh Hp Ht IH]; intros fuel i Hnext Hf.
  - destruct fuel as [|fuel]; [lia|]. cbn [read_elements length].
    by rewrite (proj2 (Z.ltb_ge _ _)) by lia.
  - change (elements_bytes _) with (([t] ++ body) ++ elements_bytes es) in Hnext.
    pose proof Hnext as [[Htype _]%next_app _]%next_app. pose proof Hnext as [_ Hle].
    rewrite alen_app in Hle. pose proof (alen_ge body). pose proof (alen_ge (elements_bytes es)).
    change ([t] ++ body) with (t :: body) in *. rewrite alen_cons in *.
    destruct fuel as [|fuel]; [lia|]. cbn [read_elements length].
    rewrite (proj2 (Z.ltb_lt _ _)) by lia. erewrite try_done; [|by apply ui8_exact].
    erewrite bind_done; [|done]. cbn [negb].
    replace (i + Z.of_nat (S (length es))) with (i + 1 + Z.of_nat (length es)) by lia.
    apply IH; [|lia]. eapply next_moved; [done|]. by rewrite alen_cons.
Qed.

(** ** Skipping *)

Definition skips (v : amf) : Prop :=
  forall d name s, (amf_depth v <= d)%nat -> amf_ok v = true -> next (amf_body v) s ->
    flv_metadata_skip_handler data end_ d name (amf_type v) s = Done (true, adv (alen (amf_body v)) s).

Definition triple (m : list Z * amf) : list Z * Z * list Z :=
  (fst m, amf_type (snd m), amf_body (snd m)).

Lemma all_bytes_triple ms :
  flat_map (fun m => member_bytes (fst m) (amf_type (snd m)) (amf_body (snd m))) ms
  = all_bytes (map triple ms).
Proof. induction ms as [|m ms IH]; [done|]. simpl. by rewrite IH. Qed.

Lemma amf_type_9 v : amf_type v <> 9.
Proof. by destruct v. Qed.

Lemma skip_members d ms rest s :
  Forall (fun m => skips (snd m)) ms ->
  forallb (fun m => (alen (fst m) <? 65536) && amf_ok (snd m)) ms = true ->
  (foldr (fun m d => Nat.max (amf_depth (snd m)) d) O ms <= d)%nat ->
  next (all_bytes (map triple ms) ++ rest) s ->
  takes (flv_metadata_skip_handler data end_ d) (map triple ms) s
        (adv (alen (all_bytes (map triple ms))) s).
Proof.
  intros Hms. revert s. induction Hms as [|[n v] ms Hv Hms IH]; intros s Hok Hd Hnext.
  { simpl. rewrite adv_0. constructor. }
  change (all_bytes (map triple ((n, v) :: ms))) with
    (member_bytes n (amf_type v) (amf_body v) ++ all_bytes (map triple ms)) in *.
  simpl in Hok, Hd, Hv. rewrite !andb_true_iff in Hok. destruct Hok as [[Hn%Z.ltb_lt Hv'] Hok].
  rewrite <- app_assoc in Hnext. pose proof Hnext as [Hm Hrest]%next_app.
  rewrite alen_member in Hrest.
  rewrite alen_app, alen_member. replace (adv (3 + alen n + alen (amf_body v) + _) s) with
    (adv (alen (all_bytes (map triple ms))) (adv (alen (amf_body v)) (adv (3 + alen n) s)))
    by (rewrite !adv_adv; f_equal; lia).
  eapply takes_cons; [done|apply amf_type_9| | |].
  - apply Hv; [lia|done|]. unfold member_bytes in Hm.
    change (amf_type v :: _) with ([amf_type v] ++ amf_body v) in Hm. rewrite !app_assoc in Hm.
    apply next_app in Hm as [_ Hm]. rewrite !alen_app in Hm.
    by replace (alen (be16 (alen n)) + alen n + alen [amf_type v]) with (3 + alen n) in Hm
      by (unfold alen; simpl; lia).
  - rewrite alen_member. simpl. lia.
  - apply IH; [done|lia|]. rewrite adv_adv.
    by replace (3 + alen n + alen (amf_body v)) with (3 + alen n + alen (amf_body v)) by lia.
Qed.

Lemma skip_elements d vs s :
  Forall skips vs -> forallb amf_ok vs = true ->
  (foldr (fun v d => Nat.max (amf_depth v) d) O vs <= d)%nat ->
  let es := map (fun v => (amf_type v, amf_body v)) vs in
  next (elements_bytes es) s ->
  takes_elements (flv_metadata_skip_handler data end_ d) es s (adv (alen (elements_bytes es)) s).
Proof.
  intros Hvs. revert s. induction Hvs as [|v vs Hv Hvs IH]; intros s Hok Hd es Hnext.
  { simpl. rewrite adv_0. constructor. }
  subst es. cbn [map] in *.
  change (elements_bytes ((amf_type v, amf_body v) :: ?es)) with
    ([amf_type v] ++ amf_body v ++ elements_bytes (map (fun v => (amf_type v, amf_body v)) vs)) in *.
  simpl in Hok, Hd. apply andb_true_iff in Hok as [Hv' Hok].
  apply next_app in Hnext as [_ Hnext]. change (alen [_]) with 1 in *.
  pose proof Hnext as [Hm Hrest]%next_app.
  rewrite !alen_app. change (alen [_]) with 1. rewrite adv_adv in Hrest.
  replace (adv (1 + _) s) with (adv (alen (elements_bytes (map (fun v => (amf_type v, amf_body v)) vs)))
    (adv (alen (amf_body v)) (adv 1 s))) by (rewrite !adv_adv; f_equal; lia).
  eapply takes_elements_cons.
  - apply Hv; [lia|done|done].
  - rewrite alen_cons. simpl. lia.
  - apply IH; [done|lia|]. by rewrite adv_adv.
Qed.

Lemma elements_bytes_map vs :
  flat_map (fun v => amf_type v :: amf_body v) vs
  = elements_bytes (map (fun v => (amf_type v, amf_body v)) vs).
Proof. induction vs as [|v vs IH]; [done|]. simpl. by rewrite IH. Qed.

(** Reading the members of an object or array with the skipping handler. *)
Lemma skip_all d ms s :
  Forall (fun m => skips (snd m)) ms ->
  forallb (fun m => (alen (fst m) <? 65536) && amf_ok (snd m)) ms = true ->
  (foldr (fun m d => Nat.max (amf_depth (snd m)) d) O ms <= d)%nat ->
  next (all_bytes (map triple ms) ++ terminator) s ->
  (fuel ← left end_; read_members data end_ fuel (flv_metadata_skip_handler data end_ d)) s
  = Done (true, adv (alen (all_bytes (map triple ms) ++ terminator)) s).
Proof using Hend.
  intros Hms Hok Hd Hnext. unfold left. rewrite alen_app. change (alen terminator) with 3.
  rewrite <- adv_adv. erewrite bind_done; [|done].
  apply members_exact with (ms := map triple ms); [by destruct d|by eapply skip_members|done|lia].
Qed.

(** The handler for values that are not wanted passes over any value of the
    format exactly, with all that is nested in it, and changes nothing else. *)
Lemma skip_handler_skips v : skips v.
Proof using Hend.
  induction v as [w|b|str|ms IH|n ms IH|vs IH] using amf_ind; intros d name s Hd Hok Hnext;
    cbn [amf_depth amf_ok amf_body] in *.
  - rewrite andb_true_iff, Z.leb_le, Z.ltb_lt in Hok.
    destruct d; cbn; (erewrite bind_done; [|by apply double_exact]); done.
  - destruct d; cbn; (erewrite bind_done; [|by apply ui8_exact]); done.
  - apply Z.ltb_lt in Hok. rewrite alen_app.
    destruct d; cbn; (erewrite bind_done; [|by apply string_exact]); done.
  - destruct d as [|d]; [lia|]. rewrite all_bytes_triple in *. cbn.
    apply skip_all; [done..|lia|done].
  - destruct d as [|d]; [lia|]. rewrite all_bytes_triple in *.
    rewrite !andb_true_iff, Z.leb_le, Z.ltb_lt in Hok. destruct Hok as [Hn Hok].
    apply next_app in Hnext as [H32 Hnext]. change (alen (be32 n)) with 4 in *.
    rewrite alen_app. change (alen (be32 n)) with 4. rewrite <- adv_adv.
    cbn. unfold flv_script_data_read_ecma. erewrite try_done; [|by apply ui32_exact].
    apply skip_all; [done..|lia|done].
  - destruct d as [|d]; [lia|]. rewrite elements_bytes_map in *.
    rewrite !andb_true_iff, Z.ltb_lt in Hok. destruct Hok as [Hn Hok].
    apply next_app in Hnext as [H32 Hnext]. change (alen (be32 _)) with 4 in *.
    rewrite alen_app. change (alen (be32 _)) with 4. rewrite <- adv_adv.
    cbn. unfold flv_script_data_read_strict_array. erewrite try_done; [|by apply (ui32_exact (Z.of_nat (length vs))); [lia|]].
    unfold left. erewrite bind_done; [|done].
    replace (Z.of_nat (length vs)) with
      (0 + Z.of_nat (length (map (fun v => (amf_type v, amf_body v)) vs))) by (rewrite length_map; lia).
    apply elements_exact; [apply skip_elements; [done..|lia|done]|done|]. simpl. lia.
Qed.

(** ** Arrays of key frames *)

Variable junk : FlvKeyframe.

(** The entry of a key frame with one of its fields set. *)
Definition put_field (whichField v : Z) (e : FlvKeyframe) : FlvKeyframe :=
  if whichField =? 1 then mkKeyframe v (fileposition e) else mkKeyframe (time e) v.

Definition convert (whichField : Z) (x : spec_float) : option Z :=
  if whichField =? 1 then to_clock_time x else to_guint64 x.

Definition with_keyframes (a : GArray FlvKeyframe) (s : ScriptState) : ScriptState :=
  mkScript (pos s) (set_keyframes (Some a) (metadata s)) (registry s).

Lemma with_keyframes_same a s : md_keyframes (metadata s) = Some a -> with_keyframes a s = s.
Proof. destruct s as [p m r], m. simpl. by intros ->. Qed.

Lemma store_keyframe_exact l1 e l2 n al w x v s :
  w = 1 \/ w = 2 -> convert w x = Some v ->
  store_keyframe (mkArray (l1 ++ e :: l2) n al) (Z.of_nat (length l1)) w x s =
  Done (mkArray (l1 ++ put_field w v e :: l2) n al, s).
Proof.
  intros Hw Hv.
  assert (forall f, g_array_update (mkArray (l1 ++ e :: l2) n al) (Z.of_nat (length l1)) f
                    = Some (mkArray (l1 ++ f e :: l2) n al)) as Hup.
  { intros f. unfold g_array_update. cbn [cells len alloc]. rewrite length_app. simpl.
    rewrite (proj2 (Z.leb_le _ _)), (proj2 (Z.ltb_lt _ _)), Nat2Z.id by lia. simpl.
    f_equal. f_equal. replace (length l1) with (length l1 + 0)%nat by lia.
    by rewrite alter_app_r. }
  unfold store_keyframe, convert, put_field in *.
  destruct Hw as [-> | ->]; simpl in *; rewrite Hv; (erewrite bind_done; [|done]); by rewrite Hup.
Qed.

Definition numbers_bytes (ws : list Z) : list Z := flat_map (fun w => 0 :: be64 w) ws.

Definition is_word (w : Z) : bool := (0 <=? w) && (w <? 18446744073709551616).

Lemma read_keyframes_exact w ws vs l1 l2 l3 n al s fuel :
  w = 1 \/ w = 2 -> mapM (fun x => convert w (double_of_bits x)) ws = Some vs ->
  forallb is_word ws = true -> length l2 = length ws -> Z.of_nat (length ws) < 4294967296 ->
  next (numbers_bytes ws) s -> Z.max 0 (end_ - pos s) < Z.of_nat fuel ->
  md_keyframes (metadata s) = Some (mkArray (l1 ++ l2 ++ l3) n al) ->
  read_keyframes data end_ fuel (Z.of_nat (length l1)) (Z.of_nat (length l1) + Z.of_nat (length ws))
    (Z.of_nat (length ws)) w (mkArray (l1 ++ l2 ++ l3) n al) s
  = Done (true, adv (9 * Z.of_nat (length ws))
                  (with_keyframes (mkArray (l1 ++ zip_with (put_field w) vs l2 ++ l3) n al) s)).
Proof.
  intros Hw. revert vs l1 l2 s fuel.
  induction ws as [|x ws IH]; intros vs l1 l2 s fuel Hvs Hok Hl Hbig Hnext Hf Hmd.
  - destruct l2; [|done]. apply mapM_Some_1 in Hvs. inversion Hvs. subst.
    destruct fuel as [|fuel]; [lia|]. cbn [read_keyframes length].
    rewrite (proj2 (Z.ltb_ge _ _)) by lia. simpl in *. by rewrite adv_0, with_keyframes_same.
  - destruct l2 as [|e l2]; [done|]. cbn [length] in Hl, Hbig. injection Hl as Hl.
    simpl in Hvs. apply bind_Some in Hvs as (v & Hv & Hvs). apply bind_Some in Hvs as (vs' & Hvs & [= <-]).
    simpl in Hok. apply andb_true_iff in Hok as [Hx Hok].
    apply andb_true_iff in Hx. rewrite Z.leb_le, Z.ltb_lt in Hx.
    change (numbers_bytes _) with ([0] ++ be64 x ++ numbers_bytes ws) in Hnext.
    apply next_app in Hnext as [H0 Hnext]. apply next_app in Hnext as [Hdbl Hnext].
    change (alen [0]) with 1 in *. change (alen (be64 x)) with 8 in *. rewrite adv_adv in Hnext.
    pose proof H0 as [_ Hle]. change (alen [0]) with 1 in Hle.
    destruct fuel as [|fuel]; [lia|]. cbn [read_keyframes length].
    rewrite (proj2 (Z.ltb_lt _ _)) by lia. erewrite try_done; [|by apply ui8_exact].
    change (negb (0 =? 0)) with false. cbv iota.
    erewrite try_done; [|by apply double_exact]. rewrite adv_adv. change (1 + 8) with 9 in *.
    rewrite (proj2 (Z.ltb_lt 0 (Z.of_nat (S (length ws))))) by lia.
    assert ((0 <? w) = true) as -> by (by destruct Hw as [-> | ->]). cbn [andb].
    set (s1 := adv 9 s) in *.
    set (a' := mkArray (l1 ++ put_field w v e :: l2 ++ l3) n al).
    rewrite (bind_done _ _ s1 a' (with_keyframes a' s1)).
    2:{ erewrite bind_done; [|by apply (store_keyframe_exact l1 e (l2 ++ l3))]. done. }
    specialize (IH vs' (l1 ++ [put_field w v e]) l2
      (with_keyframes a' s1) fuel).
    rewrite <- !app_assoc in IH. simpl in IH. rewrite length_app in IH. simpl in IH.
    unfold u32. rewrite Z.mod_small by lia.
    replace (Z.of_nat (length l1) + 1) with (Z.of_nat (length l1 + 1)) by lia.
    replace (Z.of_nat (length l1) + Z.of_nat (S (length ws))) with
      (Z.of_nat (length l1 + 1) + Z.of_nat (length ws)) by lia.
    replace (Z.of_nat (S (length ws)) - 1) with (Z.of_nat (length ws)) by lia.
    fold a' in IH. rewrite IH; [|done|done|done|lia|done|simpl; lia|done].
    unfold adv, with_keyframes; simpl. f_equal. f_equal. f_equal. lia.
Qed.

(** The array that was made for [n] elements: the elements, then room. *)
Definition room (n : Z) : Z := Z.max (g_nearest_pow (16 * n)) 16.
Definition array_of (kfs : list FlvKeyframe) : GArray FlvKeyframe :=
  let n := Z.of_nat (length kfs) in
  if n =? 0 then g_array_new
  else mkArray (kfs ++ replicate (Z.to_nat (room n / 16) - length kfs) junk) n (room n).

Lemma contents_array_of kfs : contents (array_of kfs) = kfs.
Proof.
  unfold array_of, contents. destruct kfs as [|k kfs]; [done|].
  rewrite (proj2 (Z.eqb_neq _ _)) by (simpl; lia). cbn [len cells].
  rewrite Nat2Z.id. apply take_app_length.
Qed.

Lemma set_size_new zero n :
  0 < n < 134217728 ->
  g_array_set_size zero junk g_array_new n = Some (mkArray
    (replicate (Z.to_nat n) zero ++ replicate (Z.to_nat (room n / 16) - Z.to_nat n) junk)
    n (room n)).
Proof.
  intros Hn. unfold g_array_set_size, g_array_maybe_expand, g_array_new. cbn [len alloc cells].
  rewrite (proj2 (Z.ltb_lt 0 n)), !elt_len_small by lia. rewrite Z.sub_0_r.
  replace (0 + n) with n by lia. rewrite (proj2 (Z.ltb_lt _ _)) by lia. unfold MIN_ARRAY_SIZE.
  fold (room n). assert (16 * n <= room n) as Hr.
  { pose proof (g_nearest_pow_ge (16 * n)). unfold room. lia. }
  assert (n <= room n / 16) by (apply Z.div_le_lower_bound; lia).
  unfold g_array_elt_zero. cbn [len alloc cells]. rewrite !elt_len_small by lia. unfold elt_size.
  replace (16 * n / 16) with n by zlia. change (16 * 0 / 16) with 0.
  rewrite take_nil. simpl. rewrite length_replicate, Nat.sub_0_r.
  rewrite decide_True by lia. simpl. by rewrite drop_replicate.
Qed.

(** The object of key frames, and the table that it holds. *)
Definition keyframes_value (ts ps : list Z) : amf :=
  AObject [(Name.times, AStrict (map ANumber ts)); (Name.filepositions, AStrict (map ANumber ps))].

Definition keyframe_table (ts ps : list Z) : option (list FlvKeyframe) :=
  times ← mapM (fun x => to_clock_time (double_of_bits x)) ts;
  positions ← mapM (fun x => to_guint64 (double_of_bits x)) ps;
  Some (zip_with mkKeyframe times positions).

Lemma numbers_bytes_map ws : elements_bytes (map (fun v => (amf_type v, amf_body v)) (map ANumber ws)) = numbers_bytes ws.
Proof. induction ws as [|w ws IH]; [done|]. simpl. by rewrite IH. Qed.

Lemma strict_numbers ws :
  amf_body (AStrict (map ANumber ws)) = be32 (Z.of_nat (length ws)) ++ numbers_bytes ws.
Proof. cbn [amf_body]. by rewrite elements_bytes_map, numbers_bytes_map, length_map. Qed.

Lemma numbers_length ws : alen (numbers_bytes ws) = 9 * Z.of_nat (length ws).
Proof.
  induction ws as [|w ws IH]; [done|]. change (numbers_bytes _) with ((0 :: be64 w) ++ numbers_bytes ws).
  rewrite alen_app, IH. simpl length. change (alen (0 :: be64 w)) with 9. lia.
Qed.

(** One array of the object: its numbers go to the field that its name selects.  The
    array of key frames is new, or has as many elements as there are numbers. *)
Lemma keyframe_array_exact name w ws vs a l l' s :
  (name = Name.times /\ w = 1 \/ name = Name.filepositions /\ w = 2) ->
  mapM (fun x => convert w (double_of_bits x)) ws = Some vs ->
  forallb is_word ws = true -> Z.of_nat (length ws) < 134217728 ->
  (a = g_array_new \/ len a = Z.of_nat (length ws)) ->
  (if len a =? Z.of_nat (length ws) then Some a
   else g_array_set_size (mkKeyframe 0 0) junk a (Z.of_nat (length ws)))
    = Some (mkArray (l ++ l') (Z.of_nat (length ws)) (alloc (array_of l))) ->
  length l = length ws ->
  md_keyframes (metadata s) = Some a ->
  next (amf_body (AStrict (map ANumber ws))) s ->
  flv_script_read_keyframe_array junk data end_ (Some name) a s =
  Done (true, adv (alen (amf_body (AStrict (map ANumber ws))))
    (with_keyframes (mkArray (zip_with (put_field w) vs l ++ l') (Z.of_nat (length ws))
                             (alloc (array_of l))) s)).
Proof.
  intros Hname Hvs Hok Hbig Ha Hset Hl Hmd Hnext. rewrite strict_numbers in *.
  apply next_app in Hnext as [H32 Hnext]. change (alen (be32 _)) with 4 in *.
  rewrite alen_app, numbers_length. change (alen (be32 _)) with 4.
  unfold flv_script_read_keyframe_array. erewrite try_done; [|apply ui32_exact; [|done]; lia].
  set (n := Z.of_nat (length ws)) in *.
  assert ((0 <? len a) && (n <? len a) = false) as ->.
  { destruct Ha as [-> | ->]; [done|]. rewrite (Z.ltb_irrefl n). by rewrite andb_false_r. }
  assert ((if (0 <? len a) && (len a <? n) then len a else n) = n) as ->.
  { destruct Ha as [-> | ->]; [done|]. by destruct (_ && _). }
  assert ((if strcmp_eq name Name.times then 1
           else if strcmp_eq name Name.filepositions then 2 else 0) = w) as Hw.
  { by destruct Hname as [[-> ->]|[-> ->]]. }
  cbn [strcmp0]. do 3 (erewrite bind_done; [|done]). rewrite Hw.
  set (a' := mkArray (l ++ l') n (alloc (array_of l))) in *.
  rewrite (bind_done _ _ _ a' (adv 4 s)).
  2:{ destruct (len a =? n); simpl in *; [by injection Hset as ->|by rewrite Hset]. }
  unfold set_keyframes_array. rewrite (bind_done _ _ _ tt (with_keyframes a' (adv 4 s))) by done.
  unfold left. erewrite bind_done; [|done].
  pose proof (read_keyframes_exact w ws vs [] l l' n (alloc (array_of l))
    (with_keyframes a' (adv 4 s)) (S (Z.to_nat (end_ - pos (with_keyframes a' (adv 4 s)))))) as H.
  cbn [length app] in H. change (Z.of_nat 0) with 0 in H. rewrite Z.add_0_l in H. fold n a' in H.
  rewrite H; [|by destruct Hname as [[_ ->]|[_ ->]]; auto|done|done|done|lia|done|simpl; lia|done].
  unfold adv, with_keyframes; simpl. f_equal. f_equal. f_equal. lia.
Qed.

Definition slack (n : nat) : list FlvKeyframe :=
  if decide (n = O) then [] else replicate (Z.to_nat (room (Z.of_nat n) / 16) - n) junk.
Definition space (n : nat) : Z := if decide (n = O) then 0 else room (Z.of_nat n).

Lemma array_of_eq l : array_of l = mkArray (l ++ slack (length l)) (Z.of_nat (length l)) (space (length l)).
Proof.
  unfold array_of, slack, space. destruct l as [|e l]; [done|].
  rewrite (proj2 (Z.eqb_neq _ _)) by (simpl; lia). by rewrite !decide_False by (simpl; lia).
Qed.

Lemma keyframe_array_new name w ws vs s :
  (name = Name.times /\ w = 1 \/ name = Name.filepositions /\ w = 2) ->
  mapM (fun x => convert w (double_of_bits x)) ws = Some vs ->
  forallb is_word ws = true -> Z.of_nat (length ws) < 134217728 ->
  md_keyframes (metadata s) = Some g_array_new ->
  next (amf_body (AStrict (map ANumber ws))) s ->
  flv_script_read_keyframe_array junk data end_ (Some name) g_array_new s =
  Done (true, adv (alen (amf_body (AStrict (map ANumber ws))))
    (with_keyframes (array_of (map (fun v => put_field w v (mkKeyframe 0 0)) vs)) s)).
Proof.
  intros Hname Hvs Hok Hbig Hmd Hnext. assert (length vs = length ws) as Hlen.
  { apply mapM_Some_1, Forall2_length in Hvs. done. }
  rewrite (keyframe_array_exact name w ws vs g_array_new
             (replicate (length ws) (mkKeyframe 0 0)) (slack (length ws))); try done.
  - rewrite !array_of_eq, length_map, length_replicate. cbn [alloc].
    replace (zip_with (put_field w) vs _) with (map (fun v => put_field w v (mkKeyframe 0 0)) vs).
    { by rewrite Hlen. }
    rewrite <- Hlen. clear. induction vs as [|v vs IH]; [done|]. simpl. by rewrite IH.
  - by left.
  - cbn [len g_array_new]. destruct ws as [|x ws]; [done|].
    rewrite (proj2 (Z.eqb_neq _ _)) by (simpl; lia). rewrite set_size_new by (simpl; simpl in Hbig; lia).
    rewrite Nat2Z.id, array_of_eq, length_replicate. cbn [alloc]. unfold slack, space.
    by rewrite !decide_False by (simpl; lia).
  - apply length_replicate.
Qed.

Lemma keyframe_array_again name w ws vs l s :
  (name = Name.times /\ w = 1 \/ name = Name.filepositions /\ w = 2) ->
  mapM (fun x => convert w (double_of_bits x)) ws = Some vs ->
  forallb is_word ws = true -> Z.of_nat (length ws) < 134217728 -> length l = length ws ->
  md_keyframes (metadata s) = Some (array_of l) ->
  next (amf_body (AStrict (map ANumber ws))) s ->
  flv_script_read_keyframe_array junk data end_ (Some name) (array_of l) s =
  Done (true, adv (alen (amf_body (AStrict (map ANumber ws))))
    (with_keyframes (array_of (zip_with (put_field w) vs l)) s)).
Proof.
  intros Hname Hvs Hok Hbig Hl Hmd Hnext. assert (length vs = length ws) as Hlen.
  { apply mapM_Some_1, Forall2_length in Hvs. done. }
  rewrite (keyframe_array_exact name w ws vs (array_of l) l (slack (length ws))); try done.
  - rewrite !array_of_eq, length_zip_with_l_eq by lia. cbn [alloc]. by rewrite Hlen, Hl.
  - right. rewrite array_of_eq. cbn [len]. lia.
  - rewrite array_of_eq. cbn [len alloc]. rewrite Hl, Z.eqb_refl. done.
Qed.

Lemma keyframes_object_exact ts ps kfs s :
  keyframe_table ts ps = Some kfs -> forallb is_word ts = true -> forallb is_word ps = true ->
  length ts = length ps -> Z.of_nat (length ts) < 134217728 ->
  md_keyframes (metadata s) = None -> next (amf_body (keyframes_value ts ps)) s ->
  flv_script_data_read_object data end_ (flv_metadata_keyframe_handler junk data end_) s =
  Done (true, adv (alen (amf_body (keyframes_value ts ps))) (with_keyframes (array_of kfs) s)).
Proof using Hend.
  intros Htab Hts Hps Hlen Hbig Hmd Hnext.
  apply bind_Some in Htab as (times & Htimes & Htab). apply bind_Some in Htab as (positions & Hpos & [= <-]).
  set (b1 := amf_body (AStrict (map ANumber ts))). set (b2 := amf_body (AStrict (map ANumber ps))).
  set (m1 := (Name.times, 10, b1)). set (m2 := (Name.filepositions, 10, b2)).
  change (amf_body (keyframes_value ts ps)) with (all_bytes [m1; m2] ++ terminator) in *.
  unfold flv_script_data_read_object, left. erewrite bind_done; [|done].
  rewrite alen_app, <- adv_adv. change (alen terminator) with 3.
  apply members_exact with (ms := [m1; m2]); [done| |done|lia].
  assert (length times = length ts /\ length positions = length ps) as [Ht Hp].
  { split; by eapply eq_sym, Forall2_length, mapM_Some_1. }
  set (t1 := map (fun v => mkKeyframe v 0) times).
  assert (next b1 (adv (3 + alen Name.times) s) /\
          next b2 (adv (3 + alen Name.filepositions) (adv (alen (member_bytes Name.times 10 b1)) s)))
    as [Hb1 Hb2].
  { replace (all_bytes [m1; m2] ++ terminator) with
      ((be16 (alen Name.times) ++ Name.times ++ [10]) ++ b1 ++
       (be16 (alen Name.filepositions) ++ Name.filepositions ++ [10]) ++ b2 ++ [] ++ terminator) in Hnext
      by (unfold m1, m2, all_bytes, member_bytes; cbn [flat_map fst snd]; rewrite <- !app_assoc;
          done).
    apply next_app in Hnext as [_ Hnext]. apply next_app in Hnext as [Hb1 Hnext].
    apply next_app in Hnext as [_ Hnext]. apply next_app in Hnext as [Hb2 _].
    rewrite !adv_adv in Hb2. rewrite adv_adv, alen_member. split; [done|].
    revert Hb2. match goal with |- next _ (adv ?x s) -> next _ (adv ?y s) =>
      replace y with x by (rewrite !alen_app; unfold alen; simpl; lia) end. done. }
  apply takes_cons with (s1 := adv (alen (member_bytes Name.times 10 b1)) (with_keyframes (array_of t1) s));
    [done|done| |done|].
  - unfold flv_metadata_keyframe_handler. cbn [Z.eqb Pos.eqb].
    erewrite bind_done; [|done]. cbn [adv metadata]. rewrite Hmd.
    unfold set_keyframes_array. erewrite bind_done; [|done].
    fold (with_keyframes g_array_new (adv (3 + alen Name.times) s)).
    rewrite (keyframe_array_new Name.times 1 ts times); [|by left|done..].
    fold b1. unfold adv, with_keyframes; simpl. rewrite alen_member.
    f_equal. f_equal. f_equal. lia.
  - apply takes_cons with (s1 := adv (alen (all_bytes [m1; m2])) (with_keyframes
      (array_of (zip_with mkKeyframe times positions)) s)); [done|done| | |constructor].
    + unfold flv_metadata_keyframe_handler. cbn [Z.eqb Pos.eqb].
      erewrite bind_done; [|done]. cbn [adv metadata with_keyframes set_keyframes md_keyframes].
      unfold set_keyframes_array. erewrite bind_done; [|done].
      match goal with |- flv_script_read_keyframe_array _ _ _ _ _ ?s0 = _ =>
        replace s0 with (with_keyframes (array_of t1)
          (adv (3 + alen Name.filepositions) (adv (alen (member_bytes Name.times 10 b1)) s))) by done end.
      rewrite (keyframe_array_again Name.filepositions 2 ps positions);
        [|by right|done|done|lia|unfold t1; rewrite length_map; lia|done|done].
      fold b2. change (all_bytes [m1; m2]) with
        (member_bytes Name.times 10 b1 ++ member_bytes Name.filepositions 10 b2 ++ []).
      rewrite !alen_app, !alen_member. change (alen []) with 0.
      replace (zip_with (put_field 2) positions t1) with (zip_with mkKeyframe times positions).
      * unfold adv, with_keyframes; simpl. f_equal. f_equal. f_equal. lia.
      * assert (length times = length positions) as Hl by lia. unfold t1. clear -Hl.
        revert positions Hl. induction times as [|t times IH]; intros [|q positions] Hl; try done.
        simpl. f_equal. apply IH. by injection Hl.
    + change (all_bytes [m1; m2]) with
        (member_bytes Name.times 10 b1 ++ member_bytes Name.filepositions 10 b2 ++ []).
      rewrite !alen_app. change (alen []) with 0. simpl. lia.
Qed.

(** ** The whole tag *)

(** The values of the top level. *)
Inductive top : Type :=
  | Value (v : amf)
  | LongString (str : list Z)
  | Null
  | Undefined
  | Reference (bs : list Z)
  | Date (bs : list Z)
  | Keyframes (ts ps : list Z).

Definition top_type (v : top) : Z :=
  match v with
  | Value v => amf_type v | LongString _ => 12 | Null => 5 | Undefined => 6
  | Reference _ => 7 | Date _ => 11 | Keyframes _ _ => 3
  end.

Definition top_body (v : top) : list Z :=
  match v with
  | Value v => amf_body v
  | LongString str => be32 (alen str) ++ str
  | Null | Undefined => []
  | Reference bs | Date bs => bs
  | Keyframes ts ps => amf_body (keyframes_value ts ps)
  end.

(** The sizes fit; an object with the name of the key frames is a table of them. *)
Definition top_ok (depth : nat) (m : list Z * top) : Prop :=
  alen (fst m) < 65536 /\
  match snd m with
  | Value v => amf_ok v = true /\ (amf_depth v <= depth)%nat /\
      (amf_type v = 3 -> strcmp_eq (fst m) Name.keyframes = false)
  | LongString str => alen str < 4294967296
  | Null | Undefined => True
  | Reference bs => length bs = 2%nat
  | Date bs => length bs = 10%nat
  | Keyframes ts ps =>
      strcmp_eq (fst m) Name.keyframes = true /\ (2 <= depth)%nat /\
      forallb is_word ts = true /\ forallb is_word ps = true /\
      length ts = length ps /\ Z.of_nat (length ts) < 134217728
  end.

Variable utf8 : list Z -> bool.

(** What reading a value does, apart from reading it. *)
Definition store_member (m : list Z * top) : R bool :=
  match snd m with
  | Value (ANumber w) => store_double utf8 (fst m) (double_of_bits w)
  | Value (ABool b) => store_bool (fst m) b
  | Value (AString str) | LongString str => store_string utf8 (fst m) str
  | Keyframes ts ps =>
      s ← get;
      match md_keyframes (metadata s) with
      | None => kfs ← need BadConversion (keyframe_table ts ps);
                set_metadata (set_keyframes (Some (array_of kfs)));; ret true
      | Some _ => ret true
      end
  | _ => ret true
  end.

Fixpoint store_members (ms : list (list Z * top)) : R bool :=
  match ms with
  | [] => ret true
  | m :: ms => b ← store_member m; if b : bool then store_members ms else ret false
  end.

(** A computation that does not look at the position, or change it. *)
Definition blind {A} (m : R A) : Prop :=
  forall s, match m s with
            | Done (a, s') => pos s' = pos s /\ forall k, m (adv k s) = Done (a, adv k s')
            | Fault f => forall k, m (adv k s) = Fault f
            end.

Lemma blind_bind {A B} (m : R A) (k : A -> R B) : blind m -> (forall a, blind (k a)) -> blind (m ≫= k).
Proof.
  intros Hm Hk s. unfold mbind, R_bind, bind. specialize (Hm s).
  destruct (m s) as [[a s']|f]; [|intros j; by rewrite Hm].
  destruct Hm as [Hp Hm]. specialize (Hk a s'). destruct (k a s') as [[b s'']|f].
  - destruct Hk as [Hp' Hk]. split; [congruence|]. intros j. by rewrite Hm.
  - intros j. by rewrite Hm.
Qed.

Lemma blind_get {A} (f : ScriptState -> R A) :
  (forall k s, f (adv k s) = f s) -> (forall s, blind (f s)) -> blind (get ≫= f).
Proof.
  intros Hf Hb s. unfold mbind, R_bind, bind, get. specialize (Hb s s).
  destruct (f s s) as [[a s']|e]; [split; [apply Hb|]|]; intros k; rewrite Hf; apply Hb.
Qed.

Lemma blind_ret {A} (a : A) : blind (ret a). Proof. done. Qed.
Lemma blind_raise {A} f : blind (A := A) (raise f). Proof. done. Qed.
Lemma blind_need {A} f (o : option A) : blind (need f o). Proof. by destruct o. Qed.
Lemma blind_set f : blind (set_metadata f). Proof. done. Qed.

Ltac blind :=
  repeat match goal with
  | |- blind (get ≫= _) => apply blind_get; [done|intros ?]
  | |- blind (mbind _ _) => apply blind_bind; [|intros ?]
  | |- blind (ret _) => apply blind_ret
  | |- blind (raise _) => apply blind_raise
  | |- blind (need _ _) => apply blind_need
  | |- blind (set_metadata _) => apply blind_set
  | |- blind (if ?c then _ else _) => destruct c
  | |- blind (match ?o with Some _ => _ | None => _ end) => destruct o
  end.

Lemma blind_tag_add n v : blind (gst_tag_list_add utf8 n v).
Proof. unfold gst_tag_list_add. blind. Qed.
Lemma blind_double n x : blind (store_double utf8 n x).
Proof. unfold store_double. blind. apply blind_tag_add. Qed.
Lemma blind_bool n b : blind (store_bool n b).
Proof. unfold store_bool. blind. Qed.
Lemma blind_string n str : blind (store_string utf8 n str).
Proof. unfold store_string. blind; [done|apply blind_tag_add]. Qed.

Lemma blind_member m : blind (store_member m).
Proof.
  unfold store_member. destruct (snd m) as [[]| | | | | |];
    auto using blind_double, blind_bool, blind_string, blind_ret. blind.
Qed.

Lemma blind_members ms : blind (store_members ms).
Proof. induction ms as [|m ms IH]; simpl; blind; auto using blind_member, blind_ret. Qed.

(** A blind computation at the end of what was read. *)
Lemma blind_done {A} (m : R A) k s a s' :
  blind m -> m s = Done (a, s') -> m (adv k s) = Done (a, adv k s').
Proof. intros Hm H. specialize (Hm s). rewrite H in Hm. apply Hm. Qed.

Lemma ret_true_inv (b : bool) (s s' : ScriptState) : ret true s = Done (b, s') -> b = true /\ s' = s.
Proof. unfold ret. by intros [= <- <-]. Qed.

Lemma keyframes_value_ok ts ps :
  forallb is_word ts = true -> forallb is_word ps = true ->
  length ts = length ps -> Z.of_nat (length ts) < 134217728 ->
  amf_ok (keyframes_value ts ps) = true.
Proof.
  assert (forall ws, forallb amf_ok (map ANumber ws) = forallb is_word ws) as Hf.
  { induction ws as [|w ws IH]; [done|]. simpl. by rewrite IH. }
  intros H1 H2 Hl Hb. cbn [keyframes_value amf_ok forallb fst snd]. rewrite !Hf, H1, H2, !length_map.
  by rewrite !(proj2 (Z.ltb_lt _ _)) by (done || lia).
Qed.

Lemma keyframes_depth ts ps : amf_depth (keyframes_value ts ps) = 2%nat.
Proof.
  assert (forall ws, amf_depth (AStrict (map ANumber ws)) = 1%nat) as Hf.
  { induction ws as [|w ws IH]; [done|]. simpl in *. by injection IH as ->. }
  change (amf_depth (keyframes_value ts ps)) with
    (S (Nat.max (amf_depth (AStrict (map ANumber ts)))
                (Nat.max (amf_depth (AStrict (map ANumber ps))) O))).
  by rewrite !Hf.
Qed.

(** The handler of the top level reads a value and stores it. *)
Lemma value_exact depth m s s' b :
  top_ok depth m -> next (top_body (snd m)) s -> store_member m s = Done (b, s') ->
  flv_metadata_value_handler utf8 junk data end_ depth (Some (fst m)) (top_type (snd m)) s =
  Done (b, adv (alen (top_body (snd m))) s').
Proof using Hend.
  destruct m as [n v]. intros [Hn Hv] Hnext Hst. unfold flv_metadata_value_handler.
  cbn [fst snd] in *.
  destruct v as [[w|c|str|ms|k ms|vs]|str| | |bs|bs|ts ps]; cbn [top_body top_type amf_type store_member fst snd] in *.
  - destruct Hv as [Hw _]. cbn [amf_ok] in Hw. rewrite andb_true_iff, Z.leb_le, Z.ltb_lt in Hw.
    cbn [Z.eqb Pos.eqb]. erewrite try_done; [|by apply double_exact].
    erewrite bind_done; [|done]. by apply blind_done; [apply blind_double|].
  - cbn [Z.eqb Pos.eqb]. erewrite try_done; [|by apply ui8_exact].
    erewrite bind_done; [|done]. by apply blind_done; [apply blind_bool|].
  - destruct Hv as [Hw%Z.ltb_lt _]. cbn [Z.eqb Pos.eqb orb amf_body] in *. rewrite alen_app.
    erewrite try_done; [|by apply string_exact].
    erewrite bind_done; [|done]. by apply blind_done; [apply blind_string|].
  - apply ret_true_inv in Hst as [-> ->]. destruct Hv as (Hok & Hd & Hname).
    cbn [Z.eqb Pos.eqb orb strcmp0]. do 2 (erewrite bind_done; [|done]). rewrite Hname by done. cbn [andb].
    cbn [amf_depth] in Hd. pose proof (skip_handler_skips (AObject ms) (S depth) (Some n) s) as H.
    cbn [amf_depth flv_metadata_skip_handler amf_type] in H. apply H; [lia|done|done].
  - apply ret_true_inv in Hst as [-> ->]. destruct Hv as (Hok & Hd & _).
    cbn [amf_depth] in Hd. pose proof (skip_handler_skips (AEcma k ms) (S depth) (Some n) s) as H.
    cbn [amf_depth flv_metadata_skip_handler amf_type] in H. apply H; [lia|done|done].
  - apply ret_true_inv in Hst as [-> ->]. destruct Hv as (Hok & Hd & _).
    cbn [amf_depth] in Hd. pose proof (skip_handler_skips (AStrict vs) (S depth) (Some n) s) as H.
    cbn [amf_depth flv_metadata_skip_handler amf_type] in H. apply H; [lia|done|done].
  - cbn [Z.eqb Pos.eqb orb]. rewrite alen_app. erewrite try_done; [|by apply long_string_exact].
    erewrite bind_done; [|done]. by apply blind_done; [apply blind_string|].
  - apply ret_true_inv in Hst as [-> ->]. by rewrite adv_0.
  - apply ret_true_inv in Hst as [-> ->]. by rewrite adv_0.
  - apply ret_true_inv in Hst as [-> ->]. unfold alen. by rewrite Hv.
  - apply ret_true_inv in Hst as [-> ->]. unfold alen. by rewrite Hv.
  - destruct Hv as (Hname & Hd & Hts & Hps & Hlen & Hbig).
    cbn [Z.eqb Pos.eqb orb strcmp0]. do 2 (erewrite bind_done; [|done]). rewrite Hname. cbn [andb].
    destruct (md_keyframes (metadata s)) as [a|] eqn:Hmd.
    + rewrite (bind_done get _ s s s), Hmd in Hst by done. apply ret_true_inv in Hst as [-> ->].
      rewrite bool_decide_eq_false_2 by done.
      pose proof (skip_handler_skips (keyframes_value ts ps) (S depth) (Some n) s) as H.
      cbn [flv_metadata_skip_handler amf_type keyframes_value] in H. apply H; [|by apply keyframes_value_ok|done].
      rewrite keyframes_depth. lia.
    + rewrite (bind_done get _ s s s), Hmd in Hst by done. rewrite bool_decide_eq_true_2 by done.
      destruct (keyframe_table ts ps) as [kfs|] eqn:Htab; [|done].
      rewrite (keyframes_object_exact ts ps kfs) by done. injection Hst as <- <-. done.
Qed.

Definition top_triple (m : list Z * top) : list Z * Z * list Z :=
  (fst m, top_type (snd m), top_body (snd m)).

Lemma top_type_9 v : top_type v <> 9.
Proof. destruct v as [v| | | | | |]; try done. apply amf_type_9. Qed.

Lemma top_takes depth ms rest s s' :
  Forall (top_ok depth) ms -> next (all_bytes (map top_triple ms) ++ rest) s ->
  store_members ms s = Done (true, s') ->
  takes (flv_metadata_value_handler utf8 junk data end_ depth) (map top_triple ms) s
        (adv (alen (all_bytes (map top_triple ms))) s').
Proof using Hend.
  intros Hms. revert s s'. induction Hms as [|[n v] ms Hm Hms IH]; intros s s' Hnext Hst.
  { simpl in *. injection Hst as <-. rewrite adv_0. constructor. }
  change (all_bytes (map top_triple ((n, v) :: ms))) with
    (member_bytes n (top_type v) (top_body v) ++ all_bytes (map top_triple ms)) in *. cbn [map].
  rewrite <- app_assoc in Hnext. pose proof Hnext as [Hm1 Hrest]%next_app.
  unfold member_bytes in Hm1. change (top_type v :: top_body v) with ([top_type v] ++ top_body v) in Hm1.
  rewrite !app_assoc in Hm1. apply next_app in Hm1 as [_ Hbody].
  replace (alen ((be16 (alen n) ++ n) ++ [top_type v])) with (3 + alen n) in Hbody
    by (rewrite !alen_app; unfold alen; simpl; lia).
  cbn [store_members] in Hst. unfold mbind, R_bind, bind in Hst.
  destruct (store_member (n, v) s) as [[[] s1]|f] eqn:H1; [|done|done].
  pose proof (alen_member n (top_type v) (top_body v)) as Hlen.
  eapply takes_cons with (s1 := adv (alen (member_bytes n (top_type v) (top_body v))) s1).
  - apply Hm.
  - apply top_type_9.
  - apply (blind_done _ (3 + alen n)) in H1; [|apply blind_member].
    etransitivity; [exact (value_exact depth (n, v) _ _ _ Hm Hbody H1)|].
    cbn [snd]. by rewrite adv_adv, Hlen.
  - simpl. pose proof (blind_member (n, v) s) as Hb. rewrite H1 in Hb. destruct Hb as [-> _]. done.
  - rewrite alen_app, <- adv_adv.
    pose proof (blind_member (n, v) s) as Hb. rewrite H1 in Hb. destruct Hb as [Hpos _].
    apply IH; [|by apply blind_done; [apply blind_members|]].
    unfold next, adv in *. simpl in *. by rewrite Hpos.
Qed.

(** The tag [onMetaData] with the given members. *)
Definition script_bytes (n : Z) (ms : list (list Z * top)) : list Z :=
  [2] ++ (be16 10 ++ Name.onMetaData) ++ [8] ++ be32 n
  ++ all_bytes (map top_triple ms) ++ terminator.

(** The list of tags is made if there is none. *)
Definition with_tags (s : ScriptState) : ScriptState :=
  match md_tag_list (metadata s) with
  | None => mkScript (pos s) (set_tag_list (Some ∅) (metadata s)) (registry s)
  | Some _ => s
  end.

End Exact.
