(* ===== verification/FlvIndex.v ===== *)
(** * The index of key frames (flvdemux.c, with glist.c of GLib)

    The demultiplexer keeps the times and file positions of the key frames that it
    has seen in a list sorted by time.  A node of the list is its data; [prev] of a
    node is the data of the node before it. *)

From S2P Require Import Prelude.
From S2P Require Import FlvMetadata.
From Stdlib Require Import Sorted.

Open Scope Z_scope.

Definition compare_keyframes (first second : FlvKeyframe) : Z :=
  if time first <? time second then -1
  else if time first =? time second then 0
  else 1.

(** The first node for which the comparison is zero. *)
Fixpoint g_list_find_custom (l : list FlvKeyframe) (d : FlvKeyframe)
    (func : FlvKeyframe -> FlvKeyframe -> Z) : option FlvKeyframe :=
  match l with
  | [] => None
  | e :: l => if func e d =? 0 then Some e else g_list_find_custom l d func
  end.

(** The walk goes on while there is a next node and the comparison is positive; the
    new node then goes behind the last node or in front of the one reached. *)
Fixpoint g_list_insert_sorted (l : list FlvKeyframe) (d : FlvKeyframe)
    (func : FlvKeyframe -> FlvKeyframe -> Z) : list FlvKeyframe :=
  match l with
  | [] => [d]
  | e :: l' =>
      if 0 <? func d e then
        match l' with
        | [] => [e; d]
        | _ => e :: g_list_insert_sorted l' d func
        end
      else d :: l
  end.

Definition flv_demux_index_add_entry (keyframes : list FlvKeyframe) (index_time index_pos : Z)
    : list FlvKeyframe :=
  let frame := mkKeyframe index_time index_pos in
  match g_list_find_custom keyframes frame compare_keyframes with
  | None => g_list_insert_sorted keyframes frame compare_keyframes
  | Some _ => keyframes
  end.

(** The loop of the look-up; [None] where [prev] of the first node is followed. *)
Fixpoint lookup_loop (prev : option FlvKeyframe) (l : list FlvKeyframe) (t : Z)
    : option (option FlvKeyframe) :=
  match l with
  | [] => Some None
  | entry :: l =>
      if time entry =? t then Some (Some entry)
      else if t <? time entry then Some <$> prev
      else lookup_loop (Some entry) l t
  end.

Definition flv_demux_index_lookup (keyframes : list FlvKeyframe) (t : Z)
    : option (option FlvKeyframe) :=
  match keyframes with
  | [] => Some None
  | first :: _ =>
      if t <? time first then Some None
      else if time (List.last keyframes first) <? t then Some None
      else lookup_loop None keyframes t
  end.

(** ** The index is sorted *)

Definition before (e1 e2 : FlvKeyframe) : Prop := time e1 < time e2.
Definition index_ok (l : list FlvKeyframe) : Prop := StronglySorted before l.

Lemma compare_zero e d : (compare_keyframes e d =? 0) = (time e =? time d).
Proof. unfold compare_keyframes. destruct (Z.ltb_spec (time e) (time d)); zcase; done || lia. Qed.

Lemma compare_pos e d : (0 <? compare_keyframes e d) = (time d <? time e).
Proof. unfold compare_keyframes. destruct (Z.ltb_spec (time e) (time d)); zcase; done || lia. Qed.

Lemma find_custom_spec l d :
  match g_list_find_custom l d compare_keyframes with
  | Some e => e ∈ l /\ time e = time d
  | None => Forall (fun e => time e <> time d) l
  end.
Proof.
  induction l as [|e l IH]; simpl; [constructor|]. rewrite compare_zero.
  destruct (Z.eqb_spec (time e) (time d)); [by split; [left|]|].
  destruct (g_list_find_custom _ _ _).
  - destruct IH. split; [by right|done].
  - by constructor.
Qed.

(** The place of the new entry: after all that are earlier. *)
Lemma insert_sorted_split l d :
  index_ok l -> Forall (fun e => time e <> time d) l ->
  exists l1 l2, l = l1 ++ l2 /\ g_list_insert_sorted l d compare_keyframes = l1 ++ d :: l2 /\
    Forall (fun e => before e d) l1 /\ Forall (before d) l2.
Proof.
  induction l as [|e l IH]; intros Hok Hne; simpl; [by exists [], []|].
  apply StronglySorted_inv in Hok as [Hok He]. apply list.Forall_cons in Hne as [Hed Hne].
  rewrite compare_pos. unfold before in *.
  destruct (Z.ltb_spec (time e) (time d)) as [Hlt|Hge].
  - destruct (IH Hok Hne) as (l1 & l2 & Hl & Hins & H1 & H2).
    exists (e :: l1), l2. rewrite Hl at 1. split; [done|]. split; [|by split; [constructor|]].
    destruct l as [|f l]; [|by rewrite Hins].
    destruct l1; [|done]. by destruct l2.
  - exists [], (e :: l). split; [done|]. split; [done|]. split; [done|].
    constructor; [lia|]. eapply List.Forall_impl; [|exact He]. simpl. lia.
Qed.

Lemma sorted_app l1 l2 d :
  index_ok (l1 ++ l2) -> Forall (fun e => before e d) l1 -> Forall (before d) l2 ->
  index_ok (l1 ++ d :: l2).
Proof.
  unfold index_ok, before. induction l1 as [|e l1 IH]; simpl; intros Hok H1 H2.
  - by constructor.
  - apply StronglySorted_inv in Hok as [Hok He]. apply list.Forall_cons in H1 as [Hd H1].
    constructor; [by apply IH|]. rewrite Forall_app in He. destruct He as [He1 He2].
    rewrite Forall_app. split; [done|]. by constructor.
Qed.

Lemma index_add_ok l t p :
  index_ok l ->
  index_ok (flv_demux_index_add_entry l t p) /\
  forall e, e ∈ flv_demux_index_add_entry l t p <->
    e ∈ l \/ e = mkKeyframe t p /\ Forall (fun e' => time e' <> t) l.
Proof.
  intros Hok. unfold flv_demux_index_add_entry.
  pose proof (find_custom_spec l (mkKeyframe t p)) as Hf.
  destruct (g_list_find_custom _ _ _) as [e|]; simpl in Hf.
  - split; [done|]. intros e'. split; [by left|]. intros [?|[_ Hall]]; [done|].
    rewrite list.Forall_forall in Hall. destruct Hf as [He ?]. by destruct (Hall e).
  - destruct (insert_sorted_split l (mkKeyframe t p) Hok Hf) as (l1 & l2 & -> & -> & H1 & H2).
    split; [by apply sorted_app|]. intros e. rewrite !elem_of_app, elem_of_cons. tauto.
Qed.

(** Adding an entry keeps the index sorted by time without duplicates: a time that
    is in the index keeps its position, a new one is put in its place, and all other
    entries stay. *)
Lemma index_add_sorted l t p :
  index_ok l ->
  index_ok (flv_demux_index_add_entry l t p) /\
  forall e, e ∈ flv_demux_index_add_entry l t p <->
    e ∈ l \/ e = mkKeyframe t p /\ Forall (fun e' => time e' <> t) l.
Proof. apply index_add_ok. Qed.

(** ** Looking up *)

(** [e] is the last entry that is not after [t]. *)
Definition is_last_until (l : list FlvKeyframe) (t : Z) (e : FlvKeyframe) : Prop :=
  e ∈ l /\ time e <= t /\ forall e', e' ∈ l -> time e' <= t -> time e' <= time e.

Lemma lookup_loop_spec prev l t :
  index_ok l ->
  match prev with Some p => time p < t /\ Forall (before p) l | None => Forall (fun e => l <> []) l end ->
  (exists e, e ∈ l /\ t <= time e) ->
  (prev = None -> exists f l', l = f :: l' /\ time f <= t) ->
  exists e, lookup_loop prev l t = Some (Some e) /\ time e <= t /\
    (Some e = prev \/ e ∈ l) /\ forall e', e' ∈ l -> time e' <= t -> time e' <= time e.
Proof.
  revert prev. induction l as [|f l IH]; intros prev Hok Hprev Hex Hnone.
  { destruct Hex as (e & He & _). by apply not_elem_of_nil in He. }
  apply StronglySorted_inv in Hok as [Hok Hf]. rewrite list.Forall_forall in Hf. unfold before in Hf.
  cbn [lookup_loop]. destruct (Z.eqb_spec (time f) t) as [Heq|Hne].
  { exists f. split; [done|]. split; [lia|]. split; [right; by left|]. lia. }
  destruct (Z.ltb_spec t (time f)) as [Hlt|Hge].
  - destruct prev as [p|].
    + exists p. destruct Hprev as [Hp _]. split; [done|]. split; [lia|]. split; [by left|].
      intros e' [->|He']%elem_of_cons ?; [lia|]. specialize (Hf _ He'). lia.
    + destruct Hnone as (f' & l' & [= <- <-] & ?); [done|lia].
  - destruct (IH (Some f)) as (e & He & Hle & Hin & Hmax); [done| | |done|].
    + split; [lia|]. by rewrite list.Forall_forall.
    + destruct Hex as (e & [->|He]%elem_of_cons & Ht); [lia|eauto].
    + exists e. split; [done|]. split; [done|]. split.
      * right. destruct Hin as [[= ->]|?]; [by left|by right].
      * intros e' [->|He']%elem_of_cons ?; [|by apply Hmax].
        destruct Hin as [[= ->]|Hin]; [lia|]. specialize (Hf _ Hin). lia.
Qed.

Lemma last_in (l : list FlvKeyframe) d : l <> [] -> List.last l d ∈ l.
Proof.
  intros. destruct (exists_last (l := l)) as (l' & a & ->); [done|].
  rewrite last_last. apply elem_of_app. right. by left.
Qed.

Lemma last_max l f e : index_ok (f :: l) -> e ∈ f :: l -> time e <= time (List.last (f :: l) f).
Proof.
  intros Hok He. destruct (exists_last (l := f :: l)) as (l' & a & Hl); [done|].
  rewrite Hl, last_last. rewrite Hl in *. clear Hl.
  apply elem_of_app in He as [He|He]; [|apply list_elem_of_singleton in He as ->; lia].
  revert Hok He. unfold index_ok, before. induction l' as [|b l' IH]; simpl; intros Hok He.
  { by apply not_elem_of_nil in He. }
  apply StronglySorted_inv in Hok as [Hok Hb]. apply elem_of_cons in He as [->|He]; [|by apply IH].
  rewrite Forall_app in Hb. destruct Hb as [_ Hb]. apply list.Forall_cons in Hb as [? _]. lia.
Qed.

(** In a sorted index, a time between the first and the last entry is found: the
    result is the last entry that is not after it.  A time before the first entry
    or after the last is not found.  No null pointer is followed. *)
Lemma lookup_ok l t :
  index_ok l ->
  exists o, flv_demux_index_lookup l t = Some o /\
    match o with
    | Some e => is_last_until l t e /\ exists e', e' ∈ l /\ t <= time e'
    | None => Forall (fun e => t < time e) l \/ Forall (fun e => time e < t) l
    end.
Proof.
  intros Hok. unfold flv_demux_index_lookup. destruct l as [|f l]; [eexists; split; [done|]; by left|].
  pose proof Hok as Hs. apply StronglySorted_inv in Hs as [_ Hf]. unfold before in Hf.
  destruct (Z.ltb_spec t (time f)) as [Hlt|Hge].
  { eexists. split; [done|]. left. constructor; [done|]. eapply List.Forall_impl; [|done]. simpl. lia. }
  destruct (Z.ltb_spec (time (List.last (f :: l) f)) t) as [Hlt|Hle].
  { eexists. split; [done|]. right. rewrite list.Forall_forall. intros e He.
    pose proof (last_max l f e Hok He). lia. }
  assert (exists e, e ∈ f :: l /\ t <= time e) as Hex by (eexists; split; [by apply last_in|done]).
  destruct (lookup_loop_spec None (f :: l) t) as (e & -> & Hte & [?|Hin] & Hmax); try done.
  - by apply list.Forall_forall.
  - intros _. eauto.
  - exists (Some e). split; [done|]. by split.
Qed.
