(* ===== verification/ByteQueue.v ===== *)
(** * Queues of bytes: what the demultiplexer relies on

    Operations on a queue of bytes, as the adapter of GStreamer has them, and their
    laws: the queue behaves like a list of bytes.  The demultiplexer is proved against
    this interface; GstAdapter provides it.  Buffers are pushed with a time and an
    offset; a peek gives [None] for a null pointer. *)

From S2P Require Import Prelude.
From S2P Require Import Mem.

Open Scope Z_scope.

Class ByteQueue (Q : Type) : Type := {
  q_clear : Q -> Q;
  q_push : list Z -> Z -> Z -> Q -> Q;
  q_available : Q -> Z;
  q_peek : Z -> Q -> option (option (list Z) * Q);
  q_flush : Z -> Q -> option Q;
  (** the abstract queue, the states in which it is one, and the bytes that are
      kept for it: some that were flushed may still be kept *)
  q_bytes : Q -> list Z;
  q_ok : Q -> Prop;
  q_load : Q -> Z;
  q_load_ok : forall q, q_ok q -> alen (q_bytes q) <= q_load q < 2147483648;
  q_clear_ok : forall q, q_ok q -> q_ok (q_clear q) /\ q_bytes (q_clear q) = [] /\ q_load (q_clear q) = 0;
  q_push_ok : forall l t o q, q_ok q -> q_load q + alen l < 2147483648 ->
    q_ok (q_push l t o q) /\ q_bytes (q_push l t o q) = q_bytes q ++ l /\
    q_load (q_push l t o q) = q_load q + alen l;
  q_available_ok : forall q, q_ok q -> q_available q = alen (q_bytes q);
  q_peek_ok : forall n q, q_ok q -> 0 < n <= alen (q_bytes q) ->
    exists q', q_peek n q = Some (Some (take (Z.to_nat n) (q_bytes q)), q') /\
      q_ok q' /\ q_bytes q' = q_bytes q /\ q_load q' = q_load q;
  q_flush_ok : forall n q, q_ok q -> 0 <= n <= alen (q_bytes q) ->
    exists q', q_flush n q = Some q' /\ q_ok q' /\
      q_bytes q' = drop (Z.to_nat n) (q_bytes q) /\ q_load q' <= q_load q;
}.
