(* ===== verification/GstSegment.v ===== *)
(** * Segments and seeks of GStreamer (gstsegment.c)

    The results of data flow, the segments of a stream and what changes them: events
    for new segments and for seeks. *)

From S2P Require Import Prelude.
From S2P Require Import FlvMetadata.
From Stdlib Require Import SpecFloat.

Open Scope Z_scope.

Inductive GstFlowReturn : Type :=
  | GST_FLOW_OK
  | GST_FLOW_NOT_LINKED
  | GST_FLOW_UNEXPECTED
  | GST_FLOW_ERROR
  | GST_FLOW_OTHER (n : Z).

#[export] Instance GstFlowReturn_eq_dec : EqDecision GstFlowReturn.
Proof. solve_decision. Defined.

Definition flow_ok (r : GstFlowReturn) : bool := bool_decide (r = GST_FLOW_OK).

Inductive GstFormat : Type := GST_FORMAT_TIME | GST_FORMAT_BYTES | GST_FORMAT_OTHER.

#[export] Instance GstFormat_eq_dec : EqDecision GstFormat.
Proof. solve_decision. Defined.

(** A part of a stream, in the format that its element works with.  The members that
    nothing here reads (the accumulated time and the applied rate) are left out. *)
Record GstSegment := mkSegment {
  s_rate : spec_float;
  s_flags : Z;
  s_start : Z;
  s_stop : Z;
  s_time : Z;
  s_last_stop : Z;
  s_duration : Z;
}.

Inductive GstSeekType : Type :=
  | GST_SEEK_TYPE_NONE | GST_SEEK_TYPE_CUR | GST_SEEK_TYPE_SET | GST_SEEK_TYPE_END.

#[export] Instance GstSeekType_eq_dec : EqDecision GstSeekType.
Proof. solve_decision. Defined.

(** What [gst_event_parse_seek] and [gst_event_parse_new_segment] give. *)
Record SeekEvent := mkSeek {
  k_rate : spec_float;
  k_format : GstFormat;
  k_flags : Z;
  k_start_type : GstSeekType;
  k_start : Z;
  k_stop_type : GstSeekType;
  k_stop : Z;
}.

Record NewSegmentEvent := mkNewSegment {
  n_update : bool;
  n_rate : spec_float;
  n_format : GstFormat;
  n_start : Z;
  n_stop : Z;
  n_time : Z;
}.

Definition gst_segment_init : GstSegment :=
  mkSegment (double_of_Z 1) 0 0 (-1) 0 0 (-1).

Definition gst_segment_set_last_stop (s : GstSegment) (position : Z) : GstSegment :=
  mkSegment (s_rate s) (s_flags s) (s_start s) (s_stop s) (s_time s)
    (Z.max (s_start s) position) (s_duration s).

(** The comparison of a rate with zero. *)
Definition rate_positive (rate : spec_float) : bool := SFltb (S754_zero false) rate.

(** Both formats are those of the segment. *)
Definition gst_segment_set_newsegment (checks : bool) (s : GstSegment) (n : NewSegmentEvent)
    : GstSegment :=
  if checks && SFeqb (n_rate n) (S754_zero false) then s else
  let last_stop :=
    if n_update n then
      if s_last_stop s <? n_start n then n_start n
      else if negb (n_stop n =? -1) && (n_stop n <? s_last_stop s) then n_stop n
      else s_last_stop s
    else if rate_positive (n_rate n) then n_start n else n_stop n in
  mkSegment (n_rate n) (s_flags s) (n_start n) (n_stop n) (n_time n) last_stop (s_duration s).

(** A signed sum of 64 bits. *)
Definition add64 (a b : Z) : option Z := if decide (is_i64 (a + b)) then Some (a + b) else None.

(** The value brought in the range of the duration, where it is known. *)
Definition sane (s : GstSegment) (x : Z) : Z :=
  if negb (s_duration s =? -1)
  then if s_duration s <? x then s_duration s else Z.max x 0
  else Z.max x 0.

(** The start position of a seek, and whether it changes; [None] is an overflow. *)
Definition seek_start (s : GstSegment) (type : GstSeekType) (start : Z) : option (Z * bool) :=
  match type with
  | GST_SEEK_TYPE_NONE => Some (s_start s, false)
  | GST_SEEK_TYPE_SET => Some (if start =? -1 then 0 else start, true)
  | GST_SEEK_TYPE_CUR => z ← add64 (s_start s) start; Some (z, true)
  | GST_SEEK_TYPE_END =>
      if negb (s_duration s =? -1) then z ← add64 (s_duration s) start; Some (z, true)
      else Some (s_start s, false)
  end.

Definition seek_stop (s : GstSegment) (type : GstSeekType) (stop : Z) : option (Z * bool) :=
  match type with
  | GST_SEEK_TYPE_NONE => Some (s_stop s, false)
  | GST_SEEK_TYPE_SET => Some (stop, true)
  | GST_SEEK_TYPE_CUR =>
      if negb (s_stop s =? -1) then z ← add64 (s_stop s) stop; Some (z, true)
      else Some (-1, true)
  | GST_SEEK_TYPE_END =>
      if negb (s_duration s =? -1) then z ← add64 (s_duration s) stop; Some (z, true)
      else Some (s_stop s, false)
  end.

Definition gst_segment_set_seek (checks : bool) (s : GstSegment) (k : SeekEvent)
    : option GstSegment :=
  if checks && SFeqb (k_rate k) (S754_zero false) then Some s else
  '(start, update_start) ← seek_start s (k_start_type k) (k_start k);
  let start := sane s start in
  '(stop, update_stop) ← seek_stop s (k_stop_type k) (k_stop k);
  let stop := if negb (stop =? -1) then sane s stop else stop in
  if checks && negb (stop =? -1) && (stop <? start) then Some s else
  let last_stop := if update_start && rate_positive (k_rate k) then start else s_last_stop s in
  let last_stop :=
    if update_stop && SFltb (k_rate k) (S754_zero false) then
      if negb (stop =? -1) then stop
      else if negb (s_duration s =? -1) then s_duration s else 0
    else last_stop in
  Some (mkSegment (k_rate k) (k_flags k) start stop start last_stop (s_duration s)).

