(* ===== verification/FlvDemux.v ===== *)
(** * The demultiplexer (flvdemux.c, flvdemux.h)

    The element gets the bytes of a file, pushed in buffers of any size
    ([flv_demux_chain]) or pulled by itself ([flv_demux_loop]), cuts them into blocks
    with the parser, and pushes the packets of audio and video to its source pads,
    which it makes when it sees the first packet.  It keeps an index of key frames,
    from the metadata and from what it has parsed, for seeking.

    The state is the structure [FlvDemux] without the adapter, which [flv_demux_chain]
    passes along; a pad is whether it exists.  What the element does to the rest of
    the pipeline is the list of events [d_trace], the last one first.  What GStreamer
    answers is a parameter, [Pads]: each answer may depend on all that was done
    before.  A fault is undefined behaviour of C, as in FlvMetadata. *)

From S2P Require Import Prelude.
From S2P Require Import Mem.
From S2P Require Export FlvMetadata.
From S2P Require Export FlvIndex.
From S2P Require Export ByteQueue.
From S2P Require Export GstSegment.
From stdpp Require Import gmap.
From Stdlib Require Import SpecFloat.
From Stdlib Require Ascii.
From Stdlib Require String.
Import String.StringSyntax.

Open Scope Z_scope.

(** ** GStreamer's side *)

Inductive pad : Type := AUDIO | VIDEO.

#[export] Instance pad_eq_dec : EqDecision pad.
Proof. solve_decision. Defined.

(** The bytes of a string literal. *)
Definition text (s : String.string) : list Z :=
  map (fun c => Z.of_N (Ascii.N_of_ascii c)) (String.list_ascii_of_string s).
Arguments text s%_string_scope.

(** Capabilities of a pad: the fields that the element sets. *)
Inductive Caps : Type :=
  | AudioUnsupported
  | AudioMpeg (rate channels : Z)
  | VideoCaps (mime : list Z) (width height framerate : option Z) (par : option (Z * Z)).

Record OutBuffer := mkOut {
  o_data : list Z;
  o_timestamp : Z;
  o_duration : Z;
  o_offset : Z;
  o_offset_end : Z;
  o_delta : bool;
  o_discont : bool;
}.

(** Events that come to the element or pass through it. *)
Inductive GstEventType : Type :=
  | FLUSH_START
  | FLUSH_STOP
  | EOS
  | FX_EVENT_RANGE_READY
  | NEWSEGMENT (n : NewSegmentEvent)
  | SEEK (k : SeekEvent)
  | OTHER_EVENT (n : Z).

Inductive event : Type :=
  | SetCaps (p : pad) (c : Caps)
  | AddPad (p : pad)
  | NoMorePads
  | FoundTags (l : GstTagList)
  | Warning (p : pad)
  | ErrorMessage
  | NewSegment (p : pad) (rate : spec_float) (last_stop stop time : Z)
  | PushBuffer (p : pad) (b : OutBuffer)
  | SrcEvent (p : pad) (e : GstEventType)
  | SinkEvent (e : GstEventType)
  | DefaultEvent (e : GstEventType)
  | SeekBytes (rate : spec_float) (pos : Z)
  | SegmentStart (last_stop : Z)
  | StartTask
  | StopTask
  | PauseTask.

Record Pads := mkPads {
  pad_set_caps : list event -> pad -> Caps -> bool;
  pad_set_active : list event -> pad -> bool;
  element_add_pad : list event -> pad -> bool;
  pad_alloc_buffer : list event -> pad -> Z -> GstFlowReturn;
  pad_push : list event -> pad -> OutBuffer -> GstFlowReturn;
  pad_pull_range : list event -> Z -> Z -> GstFlowReturn * list Z;
  pad_push_event : list event -> event -> bool;
  pad_start_task : list event -> bool;
  pad_stop_task : list event -> bool;
  (** whether GStreamer was built with its checks of arguments *)
  g_checks : bool;
}.

(** ** The element *)

Record FlvDemux := mkDemux {
  d_parser : FlvParser;
  d_is_pulling : bool;
  d_need_parser_flush : bool;
  d_has_video : bool;
  d_has_audio : bool;
  d_metadata : FlvMetadata;
  d_registry : Registry;
  d_queued_tags : option GstTagList;
  d_last_file_position : Z;
  d_current_timestamp : Z;
  d_keyframes : list FlvKeyframe;
  d_copied_metadata_keyframes : bool;
  d_segment : GstSegment;
  d_is_flushing : bool;
  d_audio_src_pad : bool;
  d_video_src_pad : bool;
  d_sound_format : Z;
  d_audio_linked : bool;
  d_audio_offset : Z;
  d_audio_discont : bool;
  d_audio_prev_timestamp : Z;
  d_audio_frame_duration : Z;
  d_video_codec_id : Z;
  d_video_linked : bool;
  d_video_offset : Z;
  d_video_discont : bool;
  d_video_prev_timestamp : Z;
  d_video_frame_duration : Z;
  d_trace : list event;
}.

Definition put_parser (v : FlvParser) (d : FlvDemux) : FlvDemux :=
  mkDemux v (d_is_pulling d) (d_need_parser_flush d) (d_has_video d) (d_has_audio d)
    (d_metadata d) (d_registry d) (d_queued_tags d) (d_last_file_position d)
    (d_current_timestamp d) (d_keyframes d) (d_copied_metadata_keyframes d) (d_segment d)
    (d_is_flushing d) (d_audio_src_pad d) (d_video_src_pad d) (d_sound_format d)
    (d_audio_linked d) (d_audio_offset d) (d_audio_discont d) (d_audio_prev_timestamp d)
    (d_audio_frame_duration d) (d_video_codec_id d) (d_video_linked d) (d_video_offset d)
    (d_video_discont d) (d_video_prev_timestamp d) (d_video_frame_duration d) (d_trace d).
Definition put_is_pulling (v : bool) (d : FlvDemux) : FlvDemux :=
  mkDemux (d_parser d) v (d_need_parser_flush d) (d_has_video d) (d_has_audio d)
    (d_metadata d) (d_registry d) (d_queued_tags d) (d_last_file_position d)
    (d_current_timestamp d) (d_keyframes d) (d_copied_metadata_keyframes d) (d_segment d)
    (d_is_flushing d) (d_audio_src_pad d) (d_video_src_pad d) (d_sound_format d)
    (d_audio_linked d) (d_audio_offset d) (d_audio_discont d) (d_audio_prev_timestamp d)
    (d_audio_frame_duration d) (d_video_codec_id d) (d_video_linked d) (d_video_offset d)
    (d_video_discont d) (d_video_prev_timestamp d) (d_video_frame_duration d) (d_trace d).
Definition put_need_parser_flush (v : bool) (d : FlvDemux) : FlvDemux :=
  mkDemux (d_parser d) (d_is_pulling d) v (d_has_video d) (d_has_audio d) (d_metadata d)
    (d_registry d) (d_queued_tags d) (d_last_file_position d) (d_current_timestamp d)
    (d_keyframes d) (d_copied_metadata_keyframes d) (d_segment d) (d_is_flushing d)
    (d_audio_src_pad d) (d_video_src_pad d) (d_sound_format d) (d_audio_linked d)
    (d_audio_offset d) (d_audio_discont d) (d_audio_prev_timestamp d)
    (d_audio_frame_duration d) (d_video_codec_id d) (d_video_linked d) (d_video_offset d)
    (d_video_discont d) (d_video_prev_timestamp d) (d_video_frame_duration d) (d_trace d).
Definition put_has_video (v : bool) (d : FlvDemux) : FlvDemux :=
  mkDemux (d_parser d) (d_is_pulling d) (d_need_parser_flush d) v (d_has_audio d)
    (d_metadata d) (d_registry d) (d_queued_tags d) (d_last_file_position d)
    (d_current_timestamp d) (d_keyframes d) (d_copied_metadata_keyframes d) (d_segment d)
    (d_is_flushing d) (d_audio_src_pad d) (d_video_src_pad d) (d_sound_format d)
    (d_audio_linked d) (d_audio_offset d) (d_audio_discont d) (d_audio_prev_timestamp d)
    (d_audio_frame_duration d) (d_video_codec_id d) (d_video_linked d) (d_video_offset d)
    (d_video_discont d) (d_video_prev_timestamp d) (d_video_frame_duration d) (d_trace d).
Definition put_has_audio (v : bool) (d : FlvDemux) : FlvDemux :=
  mkDemux (d_parser d) (d_is_pulling d) (d_need_parser_flush d) (d_has_video d) v
    (d_metadata d) (d_registry d) (d_queued_tags d) (d_last_file_position d)
    (d_current_timestamp d) (d_keyframes d) (d_copied_metadata_keyframes d) (d_segment d)
    (d_is_flushing d) (d_audio_src_pad d) (d_video_src_pad d) (d_sound_format d)
    (d_audio_linked d) (d_audio_offset d) (d_audio_discont d) (d_audio_prev_timestamp d)
    (d_audio_frame_duration d) (d_video_codec_id d) (d_video_linked d) (d_video_offset d)
    (d_video_discont d) (d_video_prev_timestamp d) (d_video_frame_duration d) (d_trace d).
Definition put_metadata (v : FlvMetadata) (d : FlvDemux) : FlvDemux :=
  mkDemux (d_parser d) (d_is_pulling d) (d_need_parser_flush d) (d_has_video d)
    (d_has_audio d) v (d_registry d) (d_queued_tags d) (d_last_file_position d)
    (d_current_timestamp d) (d_keyframes d) (d_copied_metadata_keyframes d) (d_segment d)
    (d_is_flushing d) (d_audio_src_pad d) (d_video_src_pad d) (d_sound_format d)
    (d_audio_linked d) (d_audio_offset d) (d_audio_discont d) (d_audio_prev_timestamp d)
    (d_audio_frame_duration d) (d_video_codec_id d) (d_video_linked d) (d_video_offset d)
    (d_video_discont d) (d_video_prev_timestamp d) (d_video_frame_duration d) (d_trace d).
Definition put_registry (v : Registry) (d : FlvDemux) : FlvDemux :=
  mkDemux (d_parser d) (d_is_pulling d) (d_need_parser_flush d) (d_has_video d)
    (d_has_audio d) (d_metadata d) v (d_queued_tags d) (d_last_file_position d)
    (d_current_timestamp d) (d_keyframes d) (d_copied_metadata_keyframes d) (d_segment d)
    (d_is_flushing d) (d_audio_src_pad d) (d_video_src_pad d) (d_sound_format d)
    (d_audio_linked d) (d_audio_offset d) (d_audio_discont d) (d_audio_prev_timestamp d)
    (d_audio_frame_duration d) (d_video_codec_id d) (d_video_linked d) (d_video_offset d)
    (d_video_discont d) (d_video_prev_timestamp d) (d_video_frame_duration d) (d_trace d).
Definition put_queued_tags (v : option GstTagList) (d : FlvDemux) : FlvDemux :=
  mkDemux (d_parser d) (d_is_pulling d) (d_need_parser_flush d) (d_has_video d)
    (d_has_audio d) (d_metadata d) (d_registry d) v (d_last_file_position d)
    (d_current_timestamp d) (d_keyframes d) (d_copied_metadata_keyframes d) (d_segment d)
    (d_is_flushing d) (d_audio_src_pad d) (d_video_src_pad d) (d_sound_format d)
    (d_audio_linked d) (d_audio_offset d) (d_audio_discont d) (d_audio_prev_timestamp d)
    (d_audio_frame_duration d) (d_video_codec_id d) (d_video_linked d) (d_video_offset d)
    (d_video_discont d) (d_video_prev_timestamp d) (d_video_frame_duration d) (d_trace d).
Definition put_last_file_position (v : Z) (d : FlvDemux) : FlvDemux :=
  mkDemux (d_parser d) (d_is_pulling d) (d_need_parser_flush d) (d_has_video d)
    (d_has_audio d) (d_metadata d) (d_registry d) (d_queued_tags d) v
    (d_current_timestamp d) (d_keyframes d) (d_copied_metadata_keyframes d) (d_segment d)
    (d_is_flushing d) (d_audio_src_pad d) (d_video_src_pad d) (d_sound_format d)
    (d_audio_linked d) (d_audio_offset d) (d_audio_discont d) (d_audio_prev_timestamp d)
    (d_audio_frame_duration d) (d_video_codec_id d) (d_video_linked d) (d_video_offset d)
    (d_video_discont d) (d_video_prev_timestamp d) (d_video_frame_duration d) (d_trace d).
Definition put_current_timestamp (v : Z) (d : FlvDemux) : FlvDemux :=
  mkDemux (d_parser d) (d_is_pulling d) (d_need_parser_flush d) (d_has_video d)
    (d_has_audio d) (d_metadata d) (d_registry d) (d_queued_tags d) (d_last_file_position d)
    v (d_keyframes d) (d_copied_metadata_keyframes d) (d_segment d) (d_is_flushing d)
    (d_audio_src_pad d) (d_video_src_pad d) (d_sound_format d) (d_audio_linked d)
    (d_audio_offset d) (d_audio_discont d) (d_audio_prev_timestamp d)
    (d_audio_frame_duration d) (d_video_codec_id d) (d_video_linked d) (d_video_offset d)
    (d_video_discont d) (d_video_prev_timestamp d) (d_video_frame_duration d) (d_trace d).
Definition put_keyframes (v : list FlvKeyframe) (d : FlvDemux) : FlvDemux :=
  mkDemux (d_parser d) (d_is_pulling d) (d_need_parser_flush d) (d_has_video d)
    (d_has_audio d) (d_metadata d) (d_registry d) (d_queued_tags d) (d_last_file_position d)
    (d_current_timestamp d) v (d_copied_metadata_keyframes d) (d_segment d)
    (d_is_flushing d) (d_audio_src_pad d) (d_video_src_pad d) (d_sound_format d)
    (d_audio_linked d) (d_audio_offset d) (d_audio_discont d) (d_audio_prev_timestamp d)
    (d_audio_frame_duration d) (d_video_codec_id d) (d_video_linked d) (d_video_offset d)
    (d_video_discont d) (d_video_prev_timestamp d) (d_video_frame_duration d) (d_trace d).
Definition put_copied_metadata_keyframes (v : bool) (d : FlvDemux) : FlvDemux :=
  mkDemux (d_parser d) (d_is_pulling d) (d_need_parser_flush d) (d_has_video d)
    (d_has_audio d) (d_metadata d) (d_registry d) (d_queued_tags d) (d_last_file_position d)
    (d_current_timestamp d) (d_keyframes d) v (d_segment d) (d_is_flushing d)
    (d_audio_src_pad d) (d_video_src_pad d) (d_sound_format d) (d_audio_linked d)
    (d_audio_offset d) (d_audio_discont d) (d_audio_prev_timestamp d)
    (d_audio_frame_duration d) (d_video_codec_id d) (d_video_linked d) (d_video_offset d)
    (d_video_discont d) (d_video_prev_timestamp d) (d_video_frame_duration d) (d_trace d).
Definition put_segment (v : GstSegment) (d : FlvDemux) : FlvDemux :=
  mkDemux (d_parser d) (d_is_pulling d) (d_need_parser_flush d) (d_has_video d)
    (d_has_audio d) (d_metadata d) (d_registry d) (d_queued_tags d) (d_last_file_position d)
    (d_current_timestamp d) (d_keyframes d) (d_copied_metadata_keyframes d) v
    (d_is_flushing d) (d_audio_src_pad d) (d_video_src_pad d) (d_sound_format d)
    (d_audio_linked d) (d_audio_offset d) (d_audio_discont d) (d_audio_prev_timestamp d)
    (d_audio_frame_duration d) (d_video_codec_id d) (d_video_linked d) (d_video_offset d)
    (d_video_discont d) (d_video_prev_timestamp d) (d_video_frame_duration d) (d_trace d).
Definition put_is_flushing (v : bool) (d : FlvDemux) : FlvDemux :=
  mkDemux (d_parser d) (d_is_pulling d) (d_need_parser_flush d) (d_has_video d)
    (d_has_audio d) (d_metadata d) (d_registry d) (d_queued_tags d) (d_last_file_position d)
    (d_current_timestamp d) (d_keyframes d) (d_copied_metadata_keyframes d) (d_segment d) v
    (d_audio_src_pad d) (d_video_src_pad d) (d_sound_format d) (d_audio_linked d)
    (d_audio_offset d) (d_audio_discont d) (d_audio_prev_timestamp d)
    (d_audio_frame_duration d) (d_video_codec_id d) (d_video_linked d) (d_video_offset d)
    (d_video_discont d) (d_video_prev_timestamp d) (d_video_frame_duration d) (d_trace d).
Definition put_audio_src_pad (v : bool) (d : FlvDemux) : FlvDemux :=
  mkDemux (d_parser d) (d_is_pulling d) (d_need_parser_flush d) (d_has_video d)
    (d_has_audio d) (d_metadata d) (d_registry d) (d_queued_tags d) (d_last_file_position d)
    (d_current_timestamp d) (d_keyframes d) (d_copied_metadata_keyframes d) (d_segment d)
    (d_is_flushing d) v (d_video_src_pad d) (d_sound_format d) (d_audio_linked d)
    (d_audio_offset d) (d_audio_discont d) (d_audio_prev_timestamp d)
    (d_audio_frame_duration d) (d_video_codec_id d) (d_video_linked d) (d_video_offset d)
    (d_video_discont d) (d_video_prev_timestamp d) (d_video_frame_duration d) (d_trace d).
Definition put_video_src_pad (v : bool) (d : FlvDemux) : FlvDemux :=
  mkDemux (d_parser d) (d_is_pulling d) (d_need_parser_flush d) (d_has_video d)
    (d_has_audio d) (d_metadata d) (d_registry d) (d_queued_tags d) (d_last_file_position d)
    (d_current_timestamp d) (d_keyframes d) (d_copied_metadata_keyframes d) (d_segment d)
    (d_is_flushing d) (d_audio_src_pad d) v (d_sound_format d) (d_audio_linked d)
    (d_audio_offset d) (d_audio_discont d) (d_audio_prev_timestamp d)
    (d_audio_frame_duration d) (d_video_codec_id d) (d_video_linked d) (d_video_offset d)
    (d_video_discont d) (d_video_prev_timestamp d) (d_video_frame_duration d) (d_trace d).
Definition put_sound_format (v : Z) (d : FlvDemux) : FlvDemux :=
  mkDemux (d_parser d) (d_is_pulling d) (d_need_parser_flush d) (d_has_video d)
    (d_has_audio d) (d_metadata d) (d_registry d) (d_queued_tags d) (d_last_file_position d)
    (d_current_timestamp d) (d_keyframes d) (d_copied_metadata_keyframes d) (d_segment d)
    (d_is_flushing d) (d_audio_src_pad d) (d_video_src_pad d) v (d_audio_linked d)
    (d_audio_offset d) (d_audio_discont d) (d_audio_prev_timestamp d)
    (d_audio_frame_duration d) (d_video_codec_id d) (d_video_linked d) (d_video_offset d)
    (d_video_discont d) (d_video_prev_timestamp d) (d_video_frame_duration d) (d_trace d).
Definition put_audio_linked (v : bool) (d : FlvDemux) : FlvDemux :=
  mkDemux (d_parser d) (d_is_pulling d) (d_need_parser_flush d) (d_has_video d)
    (d_has_audio d) (d_metadata d) (d_registry d) (d_queued_tags d) (d_last_file_position d)
    (d_current_timestamp d) (d_keyframes d) (d_copied_metadata_keyframes d) (d_segment d)
    (d_is_flushing d) (d_audio_src_pad d) (d_video_src_pad d) (d_sound_format d) v
    (d_audio_offset d) (d_audio_discont d) (d_audio_prev_timestamp d)
    (d_audio_frame_duration d) (d_video_codec_id d) (d_video_linked d) (d_video_offset d)
    (d_video_discont d) (d_video_prev_timestamp d) (d_video_frame_duration d) (d_trace d).
Definition put_audio_offset (v : Z) (d : FlvDemux) : FlvDemux :=
  mkDemux (d_parser d) (d_is_pulling d) (d_need_parser_flush d) (d_has_video d)
    (d_has_audio d) (d_metadata d) (d_registry d) (d_queued_tags d) (d_last_file_position d)
    (d_current_timestamp d) (d_keyframes d) (d_copied_metadata_keyframes d) (d_segment d)
    (d_is_flushing d) (d_audio_src_pad d) (d_video_src_pad d) (d_sound_format d)
    (d_audio_linked d) v (d_audio_discont d) (d_audio_prev_timestamp d)
    (d_audio_frame_duration d) (d_video_codec_id d) (d_video_linked d) (d_video_offset d)
    (d_video_discont d) (d_video_prev_timestamp d) (d_video_frame_duration d) (d_trace d).
Definition put_audio_discont (v : bool) (d : FlvDemux) : FlvDemux :=
  mkDemux (d_parser d) (d_is_pulling d) (d_need_parser_flush d) (d_has_video d)
    (d_has_audio d) (d_metadata d) (d_registry d) (d_queued_tags d) (d_last_file_position d)
    (d_current_timestamp d) (d_keyframes d) (d_copied_metadata_keyframes d) (d_segment d)
    (d_is_flushing d) (d_audio_src_pad d) (d_video_src_pad d) (d_sound_format d)
    (d_audio_linked d) (d_audio_offset d) v (d_audio_prev_timestamp d)
    (d_audio_frame_duration d) (d_video_codec_id d) (d_video_linked d) (d_video_offset d)
    (d_video_discont d) (d_video_prev_timestamp d) (d_video_frame_duration d) (d_trace d).
Definition put_audio_prev_timestamp (v : Z) (d : FlvDemux) : FlvDemux :=
  mkDemux (d_parser d) (d_is_pulling d) (d_need_parser_flush d) (d_has_video d)
    (d_has_audio d) (d_metadata d) (d_registry d) (d_queued_tags d) (d_last_file_position d)
    (d_current_timestamp d) (d_keyframes d) (d_copied_metadata_keyframes d) (d_segment d)
    (d_is_flushing d) (d_audio_src_pad d) (d_video_src_pad d) (d_sound_format d)
    (d_audio_linked d) (d_audio_offset d) (d_audio_discont d) v (d_audio_frame_duration d)
    (d_video_codec_id d) (d_video_linked d) (d_video_offset d) (d_video_discont d)
    (d_video_prev_timestamp d) (d_video_frame_duration d) (d_trace d).
Definition put_audio_frame_duration (v : Z) (d : FlvDemux) : FlvDemux :=
  mkDemux (d_parser d) (d_is_pulling d) (d_need_parser_flush d) (d_has_video d)
    (d_has_audio d) (d_metadata d) (d_registry d) (d_queued_tags d) (d_last_file_position d)
    (d_current_timestamp d) (d_keyframes d) (d_copied_metadata_keyframes d) (d_segment d)
    (d_is_flushing d) (d_audio_src_pad d) (d_video_src_pad d) (d_sound_format d)
    (d_audio_linked d) (d_audio_offset d) (d_audio_discont d) (d_audio_prev_timestamp d) v
    (d_video_codec_id d) (d_video_linked d) (d_video_offset d) (d_video_discont d)
    (d_video_prev_timestamp d) (d_video_frame_duration d) (d_trace d).
Definition put_video_codec_id (v : Z) (d : FlvDemux) : FlvDemux :=
  mkDemux (d_parser d) (d_is_pulling d) (d_need_parser_flush d) (d_has_video d)
    (d_has_audio d) (d_metadata d) (d_registry d) (d_queued_tags d) (d_last_file_position d)
    (d_current_timestamp d) (d_keyframes d) (d_copied_metadata_keyframes d) (d_segment d)
    (d_is_flushing d) (d_audio_src_pad d) (d_video_src_pad d) (d_sound_format d)
    (d_audio_linked d) (d_audio_offset d) (d_audio_discont d) (d_audio_prev_timestamp d)
    (d_audio_frame_duration d) v (d_video_linked d) (d_video_offset d) (d_video_discont d)
    (d_video_prev_timestamp d) (d_video_frame_duration d) (d_trace d).
Definition put_video_linked (v : bool) (d : FlvDemux) : FlvDemux :=
  mkDemux (d_parser d) (d_is_pulling d) (d_need_parser_flush d) (d_has_video d)
    (d_has_audio d) (d_metadata d) (d_registry d) (d_queued_tags d) (d_last_file_position d)
    (d_current_timestamp d) (d_keyframes d) (d_copied_metadata_keyframes d) (d_segment d)
    (d_is_flushing d) (d_audio_src_pad d) (d_video_src_pad d) (d_sound_format d)
    (d_audio_linked d) (d_audio_offset d) (d_audio_discont d) (d_audio_prev_timestamp d)
    (d_audio_frame_duration d) (d_video_codec_id d) v (d_video_offset d) (d_video_discont d)
    (d_video_prev_timestamp d) (d_video_frame_duration d) (d_trace d).
Definition put_video_offset (v : Z) (d : FlvDemux) : FlvDemux :=
  mkDemux (d_parser d) (d_is_pulling d) (d_need_parser_flush d) (d_has_video d)
    (d_has_audio d) (d_metadata d) (d_registry d) (d_queued_tags d) (d_last_file_position d)
    (d_current_timestamp d) (d_keyframes d) (d_copied_metadata_keyframes d) (d_segment d)
    (d_is_flushing d) (d_audio_src_pad d) (d_video_src_pad d) (d_sound_format d)
    (d_audio_linked d) (d_audio_offset d) (d_audio_discont d) (d_audio_prev_timestamp d)
    (d_audio_frame_duration d) (d_video_codec_id d) (d_video_linked d) v (d_video_discont d)
    (d_video_prev_timestamp d) (d_video_frame_duration d) (d_trace d).
Definition put_video_discont (v : bool) (d : FlvDemux) : FlvDemux :=
  mkDemux (d_parser d) (d_is_pulling d) (d_need_parser_flush d) (d_has_video d)
    (d_has_audio d) (d_metadata d) (d_registry d) (d_queued_tags d) (d_last_file_position d)
    (d_current_timestamp d) (d_keyframes d) (d_copied_metadata_keyframes d) (d_segment d)
    (d_is_flushing d) (d_audio_src_pad d) (d_video_src_pad d) (d_sound_format d)
    (d_audio_linked d) (d_audio_offset d) (d_audio_discont d) (d_audio_prev_timestamp d)
    (d_audio_frame_duration d) (d_video_codec_id d) (d_video_linked d) (d_video_offset d) v
    (d_video_prev_timestamp d) (d_video_frame_duration d) (d_trace d).
Definition put_video_prev_timestamp (v : Z) (d : FlvDemux) : FlvDemux :=
  mkDemux (d_parser d) (d_is_pulling d) (d_need_parser_flush d) (d_has_video d)
    (d_has_audio d) (d_metadata d) (d_registry d) (d_queued_tags d) (d_last_file_position d)
    (d_current_timestamp d) (d_keyframes d) (d_copied_metadata_keyframes d) (d_segment d)
    (d_is_flushing d) (d_audio_src_pad d) (d_video_src_pad d) (d_sound_format d)
    (d_audio_linked d) (d_audio_offset d) (d_audio_discont d) (d_audio_prev_timestamp d)
    (d_audio_frame_duration d) (d_video_codec_id d) (d_video_linked d) (d_video_offset d)
    (d_video_discont d) v (d_video_frame_duration d) (d_trace d).
Definition put_video_frame_duration (v : Z) (d : FlvDemux) : FlvDemux :=
  mkDemux (d_parser d) (d_is_pulling d) (d_need_parser_flush d) (d_has_video d)
    (d_has_audio d) (d_metadata d) (d_registry d) (d_queued_tags d) (d_last_file_position d)
    (d_current_timestamp d) (d_keyframes d) (d_copied_metadata_keyframes d) (d_segment d)
    (d_is_flushing d) (d_audio_src_pad d) (d_video_src_pad d) (d_sound_format d)
    (d_audio_linked d) (d_audio_offset d) (d_audio_discont d) (d_audio_prev_timestamp d)
    (d_audio_frame_duration d) (d_video_codec_id d) (d_video_linked d) (d_video_offset d)
    (d_video_discont d) (d_video_prev_timestamp d) v (d_trace d).
Definition put_trace (v : list event) (d : FlvDemux) : FlvDemux :=
  mkDemux (d_parser d) (d_is_pulling d) (d_need_parser_flush d) (d_has_video d)
    (d_has_audio d) (d_metadata d) (d_registry d) (d_queued_tags d) (d_last_file_position d)
    (d_current_timestamp d) (d_keyframes d) (d_copied_metadata_keyframes d) (d_segment d)
    (d_is_flushing d) (d_audio_src_pad d) (d_video_src_pad d) (d_sound_format d)
    (d_audio_linked d) (d_audio_offset d) (d_audio_discont d) (d_audio_prev_timestamp d)
    (d_audio_frame_duration d) (d_video_codec_id d) (d_video_linked d) (d_video_offset d)
    (d_video_discont d) (d_video_prev_timestamp d) (d_video_frame_duration d) v.

(** *** Computations *)

Definition D (A : Type) : Type := FlvDemux -> res (A * FlvDemux).

#[export] Instance D_ret : MRet D := fun A a d => Done (a, d).
#[export] Instance D_bind : MBind D := fun A B k m d =>
  match m d with Done (a, d') => k a d' | Fault f => Fault f end.

Definition gets {A} (f : FlvDemux -> A) : D A := fun d => Done (f d, d).
Definition update (f : FlvDemux -> FlvDemux) : D unit := fun d => Done (tt, f d).
Definition emit (e : event) : D unit := update (fun d => put_trace (e :: d_trace d) d).
Definition when (c : bool) (m : D unit) : D unit := if c then m else mret tt.
Definition demand {A} (f : fault) (o : option A) : D A := fun d =>
  match o with Some a => Done (a, d) | None => Fault f end.

Definition stuck {A} (f : fault) : D A := fun _ => Fault f.

Definition FLVDEMUX_AUDIO_FORMAT_MP3 : Z := 2.
Definition FLVDEMUX_VIDEO_FORMAT_VP6 : Z := 4.
Definition FLVDEMUX_VIDEO_FORMAT_VP6_ALPHA : Z := 5.

Definition GST_TAG_AUDIO_CODEC : list Z := text "audio-codec".
Definition GST_TAG_VIDEO_CODEC : list Z := text "video-codec".

Definition flv_demux_init (registry : Registry) : FlvDemux :=
  {| d_parser := mkParser FLV_PARSER_EXPECT_HEADER 0 0 FLV_HEADER_SIZE;
     d_is_pulling := false; d_need_parser_flush := false;
     d_has_video := false; d_has_audio := false;
     d_metadata := flv_metadata_new; d_registry := registry; d_queued_tags := None;
     d_last_file_position := 0; d_current_timestamp := GST_CLOCK_TIME_NONE;
     d_keyframes := []; d_copied_metadata_keyframes := false;
     d_segment := gst_segment_init; d_is_flushing := false;
     d_audio_src_pad := false; d_video_src_pad := false;
     d_sound_format := 0; d_audio_linked := false; d_audio_offset := 0; d_audio_discont := true;
     d_audio_prev_timestamp := GST_CLOCK_TIME_NONE;
     d_audio_frame_duration := GST_CLOCK_TIME_NONE;
     d_video_codec_id := 0; d_video_linked := false; d_video_offset := 0; d_video_discont := true;
     d_video_prev_timestamp := GST_CLOCK_TIME_NONE;
     d_video_frame_duration := GST_CLOCK_TIME_NONE;
     d_trace := [] |}.

(** The transition from ready to paused; the others do nothing here. *)
Definition flv_demux_change_state (ready_to_paused : bool) : D unit :=
  when ready_to_paused
    (update (fun d => put_last_file_position 0 (put_current_timestamp 0 (put_need_parser_flush true d)))).

Section Demux.
Context (pads : Pads).
Context (g_utf8_validate : list Z -> bool) (junk : FlvKeyframe).

(** *** Capabilities *)

Definition gst_pad_set_caps (p : pad) (c : Caps) : D bool :=
  tr ← gets d_trace; emit (SetCaps p c);; mret (pad_set_caps pads tr p c).

(** What both negotiations end with: the name of the codec is queued, and the tags are
    sent unless the other stream is still expected. *)
Definition queue_codec (tag codec_name : list Z) (complete : bool) : D unit :=
  tags ← gets d_queued_tags;
  let tags := <[tag := TagString codec_name]> (default ∅ tags) in
  if complete then emit (FoundTags tags);; update (put_queued_tags None)
  else update (put_queued_tags (Some tags)).

Definition flv_demux_negotiate_audio_caps (sound_format sampling_rate : Z)
    (is_16bit is_stereo : bool) : D bool :=
  let rate := if sampling_rate =? 0 then 5500 else if sampling_rate =? 1 then 11025
              else if sampling_rate =? 2 then 22050 else if sampling_rate =? 3 then 44100 else 0 in
  let mp3 := sound_format =? FLVDEMUX_AUDIO_FORMAT_MP3 in
  let caps := if mp3 then AudioMpeg rate (if is_stereo then 2 else 1) else AudioUnsupported in
  let codec_name := if mp3 then text "MPEG 1 Audio" else text "Unsupported" in
  result ← gst_pad_set_caps AUDIO caps;
  when result
    (update (put_sound_format sound_format);;
     d ← gets id;
     queue_codec GST_TAG_AUDIO_CODEC codec_name (negb (d_has_video d) || d_video_linked d));;
  mret result.

Definition flv_video_mime_type (codec_id : Z) : list Z :=
  if codec_id =? 4 then text "video/x-vp6-flash"
  else if codec_id =? 5 then text "video/x-vp6-alpha" else text "video/unsupported".

Definition flv_video_codec_name (codec_id : Z) : list Z :=
  if codec_id =? 4 then text "On2 VP6 Video"
  else if codec_id =? 5 then text "On2 VP6-Alpha Video" else text "Unsupported".

(** [x != 0] for a number. *)
Definition nonzero (x : spec_float) : bool := negb (SFeqb x (S754_zero false)).

Definition flv_demux_negotiate_video_caps (codec_id : Z) : D bool :=
  md ← gets d_metadata;
  framerate ← (if nonzero (md_framerate md)
               then r ← demand BadConversion (to_gint (double_mul (md_framerate md) (double_of_Z 100)));
                    mret (Some r)
               else mret None);
  let some_nonzero z := if z =? 0 then None else Some z in
  let par := if negb (md_par_x md =? 0) && negb (md_par_y md =? 0)
             then Some (md_par_x md, md_par_y md) else None in
  let caps := VideoCaps (flv_video_mime_type codec_id) (some_nonzero (md_width md))
                (some_nonzero (md_height md)) framerate par in
  result ← gst_pad_set_caps VIDEO caps;
  when result
    (update (put_video_codec_id codec_id);;
     d ← gets id;
     queue_codec GST_TAG_VIDEO_CODEC (flv_video_codec_name codec_id)
       (negb (d_has_audio d) || d_audio_linked d));;
  mret result.

(** *** Packets *)

(** [gst_pad_alloc_buffer_and_set_caps] checks that the size is not negative (gstpad.c). *)
Definition gst_pad_alloc_buffer (p : pad) (size : Z) : D GstFlowReturn :=
  if g_checks pads && (size <? 0) then mret GST_FLOW_ERROR
  else tr ← gets d_trace; mret (pad_alloc_buffer pads tr p size).

Definition gst_pad_push (p : pad) (b : OutBuffer) : D GstFlowReturn :=
  tr ← gets d_trace; emit (PushBuffer p b);; mret (pad_push pads tr p b).

(** The duration of a frame: the longest distance of two frames so far. *)
Definition frame_duration (now prev duration : Z) (discont : bool) : Z :=
  if negb (prev =? GST_CLOCK_TIME_NONE) && negb discont then
    let prev_frame_duration := u64 (now - prev) in
    if (duration =? GST_CLOCK_TIME_NONE) || (duration <? prev_frame_duration)
    then prev_frame_duration else duration
  else duration.

(** Makes the pad of a stream when its first tag is seen; [true] if all went well. *)
Definition make_pad (p : pad) (negotiate : D bool) (set_pad : bool -> FlvDemux -> FlvDemux)
    (last_pad : FlvDemux -> bool) : D bool :=
  update (set_pad true);;
  ok ← negotiate;
  if negb ok then update (set_pad false);; mret false else
  tr ← gets d_trace;
  if negb (pad_set_active pads tr p) then mret false else
  emit (AddPad p);;
  if negb (element_add_pad pads tr p) then mret false else
  last ← gets last_pad;
  when last (emit NoMorePads);; mret true.

Definition add_index_entry (t position : Z) : D unit :=
  update (fun d => put_keyframes (flv_demux_index_add_entry (d_keyframes d) t position) d).

Definition push_segment (p : pad) : D unit :=
  s ← gets d_segment;
  emit (NewSegment p (s_rate s) (s_last_stop s) (s_stop s) (s_time s)).

(** From the allocated buffer on. *)
Definition push_audio (data : list Z) (tag : FlvAudioTag) : D GstFlowReturn :=
  update (put_audio_linked true);;
  update (fun d => put_audio_frame_duration
    (frame_duration (d_current_timestamp d) (d_audio_prev_timestamp d)
       (d_audio_frame_duration d) (d_audio_discont d)) d);;
  update (fun d => put_audio_prev_timestamp (d_current_timestamp d) d);;
  packet ← demand ReadOutside (read_bytes data (audio_packet_offset tag) (audio_packet_size tag));
  offset ← gets d_audio_offset;
  update (put_audio_offset (u32 (offset + 1)));;
  update (fun d => put_segment (gst_segment_set_last_stop (d_segment d) (i64 (d_current_timestamp d))) d);;
  discont ← gets d_audio_discont;
  when discont (push_segment AUDIO;; update (put_audio_discont false));;
  d ← gets id;
  when (negb (d_has_video d)) (add_index_entry (d_current_timestamp d) (d_last_file_position d));;
  gst_pad_push AUDIO
    (mkOut packet (d_current_timestamp d) (d_audio_frame_duration d) offset (u32 (offset + 1))
       false discont).

Definition flv_demux_parse_audio_tag (data : list Z) (size : Z) : D GstFlowReturn :=
  parser ← gets d_parser;
  '(parse_result, parser, tag) ← demand ReadOutside
    (flv_parser_read_audio_tag parser data size (mkAudioTag 0 0 false false 0 0));
  update (put_parser parser);;
  if bool_decide (parse_result <> FLV_PARSER_OK) then mret GST_FLOW_ERROR else
  update (put_has_audio true);;
  let negotiate := flv_demux_negotiate_audio_caps (sound_format tag) (sampling_rate tag)
                     (is_16bit tag) (is_stereo tag) in
  have ← gets d_audio_src_pad;
  made ← (if have : bool then mret true
          else make_pad AUDIO negotiate put_audio_src_pad
                 (fun d => d_video_src_pad d || negb (d_has_video d)));
  if negb made then mret GST_FLOW_ERROR else
  if negb (sound_format tag =? FLVDEMUX_AUDIO_FORMAT_MP3) then
    prev ← gets d_audio_prev_timestamp;
    when (prev =? GST_CLOCK_TIME_NONE) (emit (Warning AUDIO));;
    update (fun d => put_audio_prev_timestamp (d_current_timestamp d) d);;
    mret GST_FLOW_OK
  else
    format ← gets d_sound_format;
    when (negb (format =? sound_format tag)) (negotiate;; mret tt);;
    result ← gst_pad_alloc_buffer AUDIO (i32 (audio_packet_size tag));
    if negb (flow_ok result) then
      when (bool_decide (result = GST_FLOW_NOT_LINKED)) (update (put_audio_linked false));;
      mret result
    else push_audio data tag.

Definition push_video (data : list Z) (tag : FlvVideoTag) : D GstFlowReturn :=
  let is_keyframe := frame_type tag =? FLV_VIDEO_FRAME_KEY in
  update (put_video_linked true);;
  update (fun d => put_video_frame_duration
    (frame_duration (d_current_timestamp d) (d_video_prev_timestamp d)
       (d_video_frame_duration d) (d_video_discont d)) d);;
  update (fun d => put_video_prev_timestamp (d_current_timestamp d) d);;
  packet ← demand ReadOutside (read_bytes data (video_packet_offset tag) (video_packet_size tag));
  offset ← gets d_video_offset;
  update (put_video_offset (u32 (offset + 1)));;
  update (fun d => put_segment (gst_segment_set_last_stop (d_segment d) (i64 (d_current_timestamp d))) d);;
  discont ← gets d_video_discont;
  when discont (push_segment VIDEO;; update (put_video_discont false));;
  d ← gets id;
  when is_keyframe (add_index_entry (d_current_timestamp d) (d_last_file_position d));;
  gst_pad_push VIDEO
    (mkOut packet (d_current_timestamp d) (d_video_frame_duration d) offset (u32 (offset + 1))
       (negb is_keyframe) discont).

Definition flv_demux_parse_video_tag (data : list Z) (size : Z) : D GstFlowReturn :=
  parser ← gets d_parser;
  '(parse_result, parser, tag) ← demand ReadOutside
    (flv_parser_read_video_tag parser data size (mkVideoTag 0 0 0 0));
  update (put_parser parser);;
  if bool_decide (parse_result <> FLV_PARSER_OK) then mret GST_FLOW_ERROR else
  update (put_has_video true);;
  let negotiate := flv_demux_negotiate_video_caps (codec_id tag) in
  have ← gets d_video_src_pad;
  made ← (if have : bool then mret true
          else make_pad VIDEO negotiate put_video_src_pad
                 (fun d => d_audio_src_pad d || negb (d_has_audio d)));
  if negb made then mret GST_FLOW_ERROR else
  if negb (codec_id tag =? FLVDEMUX_VIDEO_FORMAT_VP6)
     && negb (codec_id tag =? FLVDEMUX_VIDEO_FORMAT_VP6_ALPHA) then
    prev ← gets d_video_prev_timestamp;
    when (prev =? GST_CLOCK_TIME_NONE) (emit (Warning VIDEO));;
    update (fun d => put_video_prev_timestamp (d_current_timestamp d) d);;
    mret GST_FLOW_OK
  else
    codec ← gets d_video_codec_id;
    when (negb (codec =? codec_id tag)) (negotiate;; mret tt);;
    tags ← gets d_queued_tags;
    match tags with
    | Some l => when (negb have) (emit (FoundTags l);; update (put_queued_tags None))
    | None => mret tt
    end;;
    result ← gst_pad_alloc_buffer VIDEO (i32 (video_packet_size tag));
    if negb (flow_ok result) then
      when (bool_decide (result = GST_FLOW_NOT_LINKED)) (update (put_video_linked false));;
      mret result
    else push_video data tag.

(** *** Blocks *)

(** The entries of the array of key frames, each read at its index. *)
Definition array_entries (a : GArray FlvKeyframe) : option (list FlvKeyframe) :=
  if len a <=? Z.of_nat (length (cells a)) then Some (contents a) else None.

(** The tags of the metadata are added to those that wait to be sent. *)
Definition queue_metadata_tags : D unit :=
  md ← gets d_metadata;
  match md_tag_list md with
  | None => mret tt
  | Some l => update (fun d => put_queued_tags
                (Some (match d_queued_tags d with None => l | Some q => l ∪ q end)) d)
  end.

Definition copy_metadata_keyframes : D unit :=
  d ← gets id;
  match md_keyframes (d_metadata d) with
  | Some a =>
      if d_copied_metadata_keyframes d then mret tt
      else
        entries ← demand ReadArray (array_entries a);
        update (fun d => put_keyframes
          (fold_left (fun l e => flv_demux_index_add_entry l (time e) (fileposition e))
             entries (d_keyframes d)) d);;
        update (put_copied_metadata_keyframes true)
  | None => mret tt
  end.

(** Reads the script data of a block into the metadata. *)
Definition read_script (data : list Z) (reader : FlvScriptDataReader) : D bool := fun d =>
  match flv_script_data_read g_utf8_validate junk data (end_ reader) (S (length data))
          (mkScript (position reader) (d_metadata d) (d_registry d)) with
  | Done (b, s) => Done (b, put_metadata (metadata s) (put_registry (registry s) d))
  | Fault f => Fault f
  end.

Definition parse_script_block (data : list Z) (size : Z) : D GstFlowReturn :=
  parser ← gets d_parser;
  let '(parse_result, parser, reader) :=
    flv_parser_read_script_data_tag parser data size (mkReader 0 0) in
  update (put_parser parser);;
  if bool_decide (parse_result = FLV_PARSER_OK) then
    ok ← read_script data reader;
    when ok queue_metadata_tags;;
    copy_metadata_keyframes;;
    mret GST_FLOW_OK
  else mret GST_FLOW_ERROR.

Definition parse_header_block (data : list Z) (size : Z) : D GstFlowReturn :=
  parser ← gets d_parser;
  '(parse_result, parser, header) ← demand ReadOutside
    (flv_parser_read_header parser data size (mkHeader 0 false false));
  update (put_parser parser);;
  if bool_decide (parse_result = FLV_PARSER_OK) then
    update (fun d => put_has_audio (has_audio_tags header) (put_has_video (has_video_tags header) d));;
    mret GST_FLOW_OK
  else mret GST_FLOW_ERROR.

Definition parse_skip_block (data : list Z) (size : Z) : D GstFlowReturn :=
  parser ← gets d_parser;
  let '(parse_result, parser) := flv_parser_skip parser data size in
  update (put_parser parser);;
  mret (if bool_decide (parse_result = FLV_PARSER_OK) then GST_FLOW_OK else GST_FLOW_ERROR).

Definition parse_prefix_block (data : list Z) (size : Z) : D GstFlowReturn :=
  parser ← gets d_parser;
  let position := file_position parser in
  '(parse_result, parser, tag) ← demand ReadOutside
    (flv_parser_read_tag_prefix parser data size (mkTagPrefix 0 0 0));
  update (put_parser parser);;
  if bool_decide (parse_result = FLV_PARSER_OK) then
    update (fun d => put_current_timestamp (u64 (timestamp tag * GST_MSECOND))
                       (put_last_file_position position d));;
    mret GST_FLOW_OK
  else mret GST_FLOW_ERROR.

Definition flv_demux_parse_next_block (data : list Z) (size : Z) : D GstFlowReturn :=
  parser ← gets d_parser;
  result ← match state parser with
           | FLV_PARSER_EXPECT_HEADER => parse_header_block data size
           | FLV_PARSER_EXPECT_SKIP_BLOCK => parse_skip_block data size
           | FLV_PARSER_EXPECT_TAG_PREFIX => parse_prefix_block data size
           | FLV_PARSER_EXPECT_VIDEO_TAG_BODY => flv_demux_parse_video_tag data size
           | FLV_PARSER_EXPECT_AUDIO_TAG_BODY => flv_demux_parse_audio_tag data size
           | FLV_PARSER_EXPECT_SCRIPT_DATA_TAG_BODY => parse_script_block data size
           | FLV_PARSER_EOF => mret GST_FLOW_ERROR
           end;
  when (bool_decide (result = GST_FLOW_ERROR)) (emit ErrorMessage);;
  mret result.

(** *** Push mode *)

Section Push.
Context {Q : Type} `{ByteQueue Q}.

(** The loop of [flv_demux_chain]; a round without data would be repeated for ever. *)
Fixpoint chain_loop (fuel : nat) (adapter : Q) (result : GstFlowReturn)
    : D (GstFlowReturn * Q) :=
  parser ← gets d_parser;
  if next_block_size parser <=? q_available adapter then
    match fuel with
    | O => stuck OutOfFuel
    | S fuel =>
        let block_size := next_block_size parser in
        '(data, adapter) ← demand ReadOutside (q_peek (u32 block_size) adapter);
        match data with
        | Some data =>
            result ← flv_demux_parse_next_block data block_size;
            adapter ← demand ReadOutside (q_flush (u32 block_size) adapter);
            if negb (flow_ok result) then mret (result, adapter)
            else chain_loop fuel adapter result
        | None => chain_loop fuel adapter result
        end
    end
  else mret (result, adapter).

(** A buffer with its time stamp and offset is pushed. *)
Definition flv_demux_chain (adapter : Q) (buf : list Z) (t offset : Z) : D (GstFlowReturn * Q) :=
  flush ← gets d_need_parser_flush;
  let adapter := if flush : bool then q_clear adapter else adapter in
  when flush
    (update (put_need_parser_flush false);;
     parser ← gets d_parser;
     update (put_parser (if negb (offset =? 0) then snd (flv_parser_seek parser offset)
                         else flv_parser_reset parser)));;
  let adapter := q_push buf t offset adapter in
  chain_loop (S (Z.to_nat (q_available adapter))) adapter GST_FLOW_OK.
End Push.

(** *** Pull mode *)

Definition flv_demux_push_src_event (e : GstEventType) : D unit :=
  d ← gets id;
  when (d_audio_src_pad d) (emit (SrcEvent AUDIO e));;
  when (d_video_src_pad d) (emit (SrcEvent VIDEO e)).

Definition gst_pad_pull_range (offset size : Z) : D (GstFlowReturn * list Z) :=
  tr ← gets d_trace; mret (pad_pull_range pads tr offset (u32 size)).

(** What the task does when it cannot go on. *)
Definition stop_task (result : GstFlowReturn) : D bool :=
  emit PauseTask;;
  when (bool_decide (result = GST_FLOW_UNEXPECTED)) (flv_demux_push_src_event EOS);;
  mret false.

(** One round of the task; [true] if the task goes on. *)
Definition flv_demux_loop : D bool :=
  parser ← gets d_parser;
  '(result, block) ← gst_pad_pull_range (file_position parser) (next_block_size parser);
  result ← (if flow_ok result then flv_demux_parse_next_block block (alen block) else mret result);
  if flow_ok result then mret true else stop_task result.

(** *** Events from upstream *)

Definition gst_pad_start_task : D bool :=
  tr ← gets d_trace; emit StartTask;; mret (pad_start_task pads tr).

Definition gst_pad_push_event (e : event) : D bool :=
  tr ← gets d_trace; emit e;; mret (pad_push_event pads tr e).

Definition start_discont : D unit :=
  update (put_audio_discont true);; update (put_video_discont true).

Definition flv_demux_sink_event (e : GstEventType) : D bool :=
  match e with
  | FLUSH_START => update (put_is_flushing true);; emit (DefaultEvent e);; mret true
  | FLUSH_STOP =>
      update (put_is_flushing false);; update (put_need_parser_flush true);;
      emit (DefaultEvent e);; mret true
  | EOS => emit NoMorePads;; flv_demux_push_src_event EOS;; mret true
  | FX_EVENT_RANGE_READY => gst_pad_start_task
  | NEWSEGMENT n =>
      when (bool_decide (n_format n = GST_FORMAT_TIME))
        (update (fun d => put_segment (gst_segment_set_newsegment (g_checks pads) (d_segment d) n) d));;
      start_discont;; mret true
  | _ => flv_demux_push_src_event e;; mret true
  end.

(** *** Seeking *)

Definition index_lookup (t : Z) : D (option FlvKeyframe) :=
  keyframes ← gets d_keyframes;
  demand ReadOutside (flv_demux_index_lookup keyframes t).

(** The tag behind a prefix is in the index when it is a key frame, or audio of a file
    without video.  The frame type is read from the byte behind the prefix. *)
Definition index_tag (tag : FlvTagPrefix) (block : list Z) (parsed pos : Z) : D unit :=
  let t := u64 (timestamp tag * GST_MSECOND) in
  if tag_type tag =? FLV_TAG_TYPE_VIDEO then
    frame_info ← demand ReadOutside (ld block parsed);
    when ((frame_info .& 240) >> 4 =? 1) (add_index_entry t pos)
  else
    has_video ← gets d_has_video;
    when ((tag_type tag =? FLV_TAG_TYPE_AUDIO) && negb has_video) (add_index_entry t pos).

Fixpoint indexing_loop (fuel : nat) (temp_parser : FlvParser) (t indexTo : Z) : D bool :=
  if t <? indexTo then
    match fuel with
    | O => stuck OutOfFuel
    | S fuel =>
        let pos := file_position temp_parser in
        '(flow_ret, block) ← gst_pad_pull_range pos (next_block_size temp_parser + 1);
        if negb (flow_ok flow_ret) then mret false else
        '(parser_ret, temp_parser, tag_prefix) ← demand ReadOutside
          (flv_parser_read_tag_prefix temp_parser block (alen block) (mkTagPrefix 0 0 0));
        if bool_decide (parser_ret <> FLV_PARSER_OK) then mret false else
        index_tag tag_prefix block (parsed_block_size temp_parser) pos;;
        let next := u64 (file_position temp_parser + next_block_size temp_parser) in
        indexing_loop fuel (snd (flv_parser_seek temp_parser next))
          (u64 (timestamp tag_prefix * GST_MSECOND)) indexTo
    end
  else mret true.

(** [garbage] is what the variable [time] has, where no entry is found to set it. *)
Definition flv_demux_do_indexing_pull (fuel : nat) (garbage indexFrom indexTo : Z) : D bool :=
  let temp_parser := mkParser FLV_PARSER_EXPECT_HEADER 0 0 FLV_HEADER_SIZE in
  found ← index_lookup indexFrom;
  match found with
  | Some e => indexing_loop fuel (snd (flv_parser_seek temp_parser (fileposition e))) (time e) indexTo
  | None => indexing_loop fuel temp_parser garbage indexTo
  end.

Definition GST_SEEK_FLAG_FLUSH : Z := 1.
Definition GST_SEEK_FLAG_KEY_UNIT : Z := 4.
Definition GST_SEEK_FLAG_SEGMENT : Z := 8.

(** A seek to a key frame starts at its time. *)
Definition adjust_segment (keyframe : bool) (t : Z) (s : GstSegment) : GstSegment :=
  if keyframe then
    mkSegment (s_rate s) (s_flags s)
      (if t <? u64 (s_start s) then i64 t else s_start s)
      (s_stop s) (s_time s) (i64 t) (s_duration s)
  else s.

(** What both kinds of seek end with. *)
Definition take_segment (s : GstSegment) : D unit :=
  update (put_segment s);;
  when (truth (s_flags s .& GST_SEEK_FLAG_SEGMENT)) (emit (SegmentStart (s_last_stop s)));;
  start_discont.

(** The key frame for a time, or the beginning of the file. *)
Definition find_keyframe (t : Z) : D (Z * Z) :=
  found ← index_lookup t;
  mret (match found with Some e => (time e, fileposition e) | None => (0, 0) end).

(** Indexing, where the entry found is far from the time. *)
Definition index_more (fuel : nat) (garbage start : Z) (entry : Z * Z) : D (Z * Z) :=
  if 5 * GST_SECOND <? u64 (start - fst entry) then
    flv_demux_do_indexing_pull fuel garbage (fst entry) (u64 start);;
    found ← index_lookup (u64 start);
    mret (match found with Some e => (time e, fileposition e) | None => entry end)
  else mret entry.

Definition flv_demux_seek_pull (fuel : nat) (garbage : Z) (k : SeekEvent) : D bool :=
  if negb (bool_decide (k_format k = GST_FORMAT_TIME)) || SFleb (k_rate k) (S754_zero false) then mret false else
  let flush := truth (k_flags k .& GST_SEEK_FLAG_FLUSH) in
  let keyframe := truth (k_flags k .& GST_SEEK_FLAG_KEY_UNIT) in
  when flush
    (gst_pad_push_event (SinkEvent FLUSH_START);; flv_demux_push_src_event FLUSH_START;;
     gst_pad_push_event (SinkEvent FLUSH_STOP);; mret tt);;
  segment ← gets d_segment;
  seeksegment ← demand SignedOverflow (gst_segment_set_seek (g_checks pads) segment k);
  seeksegment ←
    (if flush || negb (s_last_stop seeksegment =? s_last_stop segment) then
       entry ← find_keyframe (u64 (s_start seeksegment));
       '(t, pos) ← index_more fuel garbage (s_start seeksegment) entry;
       update (fun d => put_parser (if negb (pos =? 0) then snd (flv_parser_seek (d_parser d) pos)
                                    else flv_parser_reset (d_parser d)) d);;
       mret (adjust_segment keyframe t seeksegment)
     else mret seeksegment);
  when flush (flv_demux_push_src_event FLUSH_STOP);;
  take_segment seeksegment;;
  gst_pad_start_task;; mret true.

Definition flv_demux_seek_push (k : SeekEvent) : D bool :=
  if negb (bool_decide (k_format k = GST_FORMAT_TIME)) || SFleb (k_rate k) (S754_zero false) then mret false else
  let flush := truth (k_flags k .& GST_SEEK_FLAG_FLUSH) in
  let keyframe := truth (k_flags k .& GST_SEEK_FLAG_KEY_UNIT) in
  segment ← gets d_segment;
  seeksegment ← demand SignedOverflow (gst_segment_set_seek (g_checks pads) segment k);
  '(res, seeksegment) ←
    (if flush || negb (s_last_stop seeksegment =? s_last_stop segment) then
       '(t, pos) ← find_keyframe (u64 (s_start seeksegment));
       let seeksegment := adjust_segment keyframe t seeksegment in
       update (put_need_parser_flush true);;
       res ← gst_pad_push_event (SeekBytes (s_rate seeksegment) pos);
       mret (res, seeksegment)
     else mret (true, seeksegment));
  when res (take_segment seeksegment);;
  mret res.

Definition flv_demux_src_event (fuel : nat) (garbage : Z) (e : GstEventType) : D bool :=
  match e with
  | SEEK k =>
      is_pulling ← gets d_is_pulling;
      if is_pulling : bool then flv_demux_seek_pull fuel garbage k else flv_demux_seek_push k
  | _ => gst_pad_push_event (SinkEvent e)
  end.

(** *** Activation and queries *)

Definition flv_demux_sink_activate_pull (active : bool) : D bool :=
  update (put_is_pulling true);;
  if active then gst_pad_start_task else tr ← gets d_trace; emit StopTask;; mret (pad_stop_task pads tr).

Definition flv_demux_sink_activate_push (active : bool) : D bool :=
  update (put_is_pulling false);; mret true.

(** The answer to a query for the duration in time. *)
Definition query_duration : D Z := md ← gets d_metadata; mret (md_duration md).
End Demux.
