(* ===== verification/GstAdapter.v ===== *)
(** * A queue of buffers (gstadapter.c of GStreamer)

    The adapter keeps the buffers that were pushed, of which the first [skip]
    bytes are gone, and gives its client any number of bytes from the front in
    one piece: from the first buffer if it has enough of them, otherwise from
    memory of its own, in which it assembles them.  A second look at more bytes
    reuses what was assembled.

    A pointer that a function returns is the bytes that the client may read
    through it.  [None] is undefined behaviour: a null pointer followed, or a copy
    to or from where there is no room.  Buffers that are adjacent parts of one block of
    memory are joined without copying; whether two are is the parameter
    [gst_buffer_is_span_fast].  Sizes are 32 bits wide.

    The client sees a queue of bytes: the class [ByteQueue] states what the
    demultiplexer relies on, and [adapter_queue] that the adapter provides it. *)

From S2P Require Import Prelude.
From S2P Require Import Mem.
From S2P Require Export ByteQueue.

Open Scope Z_scope.

(** ** The adapter *)

Definition DEFAULT_SIZE : Z := 4096.
Definition TIME_NONE : Z := 18446744073709551615.

Record GstBuffer := mkBuffer {
  b_data : list Z;
  b_timestamp : Z;
  b_offset : Z;
}.

Definition GST_BUFFER_SIZE (b : GstBuffer) : Z := alen (b_data b).

(** [assembled_data] is what was written of [assembled_size] bytes of memory.
    [scan_entry] is the rest of the list from a buffer on. *)
Record GstAdapter := mkAdapter {
  buflist : list GstBuffer;
  size : Z;
  skip : Z;
  assembled_data : list Z;
  assembled_size : Z;
  assembled_len : Z;
  timestamp : Z;
  distance : Z;
  scan_offset : Z;
  scan_entry : option (list GstBuffer);
}.

Definition gst_adapter_new : GstAdapter :=
  mkAdapter [] 0 0 [] DEFAULT_SIZE 0 TIME_NONE 0 0 None.

Definition gst_adapter_clear (adapter : GstAdapter) : GstAdapter :=
  mkAdapter [] 0 0 (assembled_data adapter) (assembled_size adapter) 0 TIME_NONE 0 0 None.

(** The time and distance after [update_timestamp]. *)
Definition update_timestamp (t d : Z) (buf : GstBuffer) : Z * Z :=
  if b_timestamp buf =? TIME_NONE then (t, d) else (b_timestamp buf, 0).

Definition gst_adapter_push (adapter : GstAdapter) (buf : GstBuffer) : GstAdapter :=
  let '(t, d) := match buflist adapter with
                 | [] => update_timestamp (timestamp adapter) (distance adapter) buf
                 | _ => (timestamp adapter, distance adapter)
                 end in
  mkAdapter (buflist adapter ++ [buf]) (u32 (size adapter + GST_BUFFER_SIZE buf)) (skip adapter)
    (assembled_data adapter) (assembled_size adapter) (assembled_len adapter) t d
    (scan_offset adapter) (scan_entry adapter).

Definition gst_adapter_available (adapter : GstAdapter) : Z := size adapter.

(** *** Copying *)

Fixpoint skip_buffers (g : list GstBuffer) (skip : Z) : option (GstBuffer * list GstBuffer * Z) :=
  match g with
  | [] => None
  | buf :: g => if GST_BUFFER_SIZE buf <=? skip then skip_buffers g (skip - GST_BUFFER_SIZE buf)
                else Some (buf, g, skip)
  end.

(** The second step: the remaining [size] bytes, from the buffers [g] on. *)
Fixpoint copy_rest (g : list GstBuffer) (size : Z) : option (list Z) :=
  if 0 <? size then
    match g with
    | [] => None
    | buf :: g =>
        if 0 <? GST_BUFFER_SIZE buf then
          let csize := Z.min (GST_BUFFER_SIZE buf) size in
          rest ← copy_rest g (size - csize);
          Some (take (Z.to_nat csize) (b_data buf) ++ rest)
        else copy_rest g size
    end
  else Some [].

(** The bytes that [copy_into_unchecked] writes to its destination. *)
Definition copy_into_unchecked (adapter : GstAdapter) (skip size : Z) : option (list Z) :=
  let '(g, skip) := match scan_entry adapter with
                    | Some g => if scan_offset adapter <=? skip then (g, skip - scan_offset adapter)
                                else (buflist adapter, skip)
                    | None => (buflist adapter, skip)
                    end in
  '(buf, g, skip) ← skip_buffers g skip;
  let csize := Z.min (GST_BUFFER_SIZE buf - skip) size in
  rest ← copy_rest g (size - csize);
  Some (take (Z.to_nat csize) (drop (Z.to_nat skip) (b_data buf)) ++ rest).

Section Span.
Variable gst_buffer_is_span_fast : GstBuffer -> GstBuffer -> bool.

(** [gst_buffer_join]: the data of both, with the time and offset of the first. *)
Definition gst_buffer_join (b1 b2 : GstBuffer) : GstBuffer :=
  mkBuffer (b_data b1 ++ b_data b2) (b_timestamp b1) (b_offset b1).

(** The buffers after merging at the head, and whether any were. *)
Fixpoint merge_up (head : GstBuffer) (g : list GstBuffer) (size : Z) : list GstBuffer * bool :=
  match g with
  | [] => ([head], false)
  | cur :: g' =>
      if GST_BUFFER_SIZE head <? size then
        if gst_buffer_is_span_fast head cur
        then (fst (merge_up (gst_buffer_join head cur) g' size), true)
        else (head :: g, false)
      else (head :: g, false)
  end.

Definition gst_adapter_try_to_merge_up (adapter : GstAdapter) (n : Z) : GstAdapter * bool :=
  match buflist adapter with
  | [] => (adapter, false)
  | head :: g =>
      match merge_up head g (u32 (n + skip adapter)) with
      | (l, true) =>
          (mkAdapter l (size adapter) (skip adapter) (assembled_data adapter) (assembled_size adapter)
             (assembled_len adapter) (timestamp adapter) (distance adapter) 0 None, true)
      | (l, false) => (adapter, false)
      end
  end.

(** The bytes at the front of the first buffer, if it has [n] that are not gone. *)
Definition head_bytes (adapter : GstAdapter) (n : Z) : option (option (list Z)) :=
  match buflist adapter with
  | [] => None
  | cur :: _ =>
      Some (if u32 (n + skip adapter) <=? GST_BUFFER_SIZE cur
            then Some (take (Z.to_nat n) (drop (Z.to_nat (skip adapter)) (b_data cur))) else None)
  end.

(** The last part of [gst_adapter_peek]: the bytes are assembled. *)
Definition assemble (adapter : GstAdapter) (n : Z) : option (option (list Z) * GstAdapter) :=
  let toreuse := assembled_len adapter in
  let tocopy := u32 (n - toreuse) in
  let room := if assembled_size adapter <? n then u32 ((n / DEFAULT_SIZE + 1) * DEFAULT_SIZE)
              else assembled_size adapter in
  copied ← copy_into_unchecked adapter (u32 (skip adapter + toreuse)) tocopy;
  let l := take (Z.to_nat toreuse) (assembled_data adapter) ++ copied in
  if alen l <=? room then
    Some (Some (take (Z.to_nat n) l),
          mkAdapter (buflist adapter) (size adapter) (skip adapter) l room n
            (timestamp adapter) (distance adapter) (scan_offset adapter) (scan_entry adapter))
  else None.

Definition gst_adapter_peek (adapter : GstAdapter) (n : Z) : option (option (list Z) * GstAdapter) :=
  if n <=? 0 then Some (None, adapter)
  else if size adapter <? n then Some (None, adapter)
  else if n <=? assembled_len adapter
       then Some (Some (take (Z.to_nat n) (assembled_data adapter)), adapter)
  else
    o ← head_bytes adapter n;
    match o with
    | Some l => Some (Some l, adapter)
    | None =>
        let '(adapter, merged) := gst_adapter_try_to_merge_up adapter n in
        o ← (if merged : bool then head_bytes adapter n else Some None);
        match o with
        | Some l => Some (Some l, adapter)
        | None => assemble adapter n
        end
    end.

(** *** Flushing *)

(** The loop: the buffers left, what remains to be flushed, time and distance. *)
Fixpoint flush_buffers (g : list GstBuffer) (flush t d : Z)
    : option (list GstBuffer * Z * Z * Z) :=
  match g with
  | [] => None
  | cur :: g' =>
      if GST_BUFFER_SIZE cur <=? flush then
        let d := u64 (d + GST_BUFFER_SIZE cur) in
        let flush := flush - GST_BUFFER_SIZE cur in
        match g' with
        | [] => Some ([], flush, t, d)
        | next :: _ =>
            let '(t, d) := update_timestamp t d next in flush_buffers g' flush t d
        end
      else Some (g, flush, t, d)
  end.

Definition gst_adapter_flush_unchecked (adapter : GstAdapter) (flush : Z) : option GstAdapter :=
  '(g, rest, t, d) ← flush_buffers (buflist adapter) (u32 (flush + skip adapter))
                       (timestamp adapter) (u64 (distance adapter - skip adapter));
  Some (mkAdapter g (u32 (size adapter - flush)) rest (assembled_data adapter)
          (assembled_size adapter) 0 t (u64 (d + rest)) 0 None).

Definition gst_adapter_flush (adapter : GstAdapter) (flush : Z) : option GstAdapter :=
  if size adapter <? flush then Some adapter
  else if flush =? 0 then Some adapter
  else gst_adapter_flush_unchecked adapter flush.

(** ** The queue of bytes *)

(** All bytes of a list of buffers. *)
Definition joined (g : list GstBuffer) : list Z := flat_map b_data g.

Definition adapter_bytes (adapter : GstAdapter) : list Z :=
  drop (Z.to_nat (skip adapter)) (joined (buflist adapter)).

Definition load (adapter : GstAdapter) : Z := alen (joined (buflist adapter)).

Record adapter_ok (a : GstAdapter) : Prop := {
  ok_skip : 0 <= skip a <= load a;
  ok_small : load a < 2147483648;
  ok_size : size a = load a - skip a;
  ok_scan : scan_entry a = None;
  ok_len : 0 <= assembled_len a <= size a;
  ok_room : assembled_len a <= assembled_size a;
  ok_data : take (Z.to_nat (assembled_len a)) (assembled_data a)
            = take (Z.to_nat (assembled_len a)) (adapter_bytes a);
}.

(** Reduces the members of an adapter that is given by its members. *)
Ltac fields :=
  cbn [buflist size skip assembled_data assembled_size assembled_len timestamp distance
       scan_offset scan_entry].

Lemma adapter_bytes_length a : adapter_ok a -> alen (adapter_bytes a) = load a - skip a.
Proof. intros [? _ _ _ _ _ _]. unfold adapter_bytes, load, alen in *. rewrite length_drop. lia. Qed.

Lemma joined_app g1 g2 : joined (g1 ++ g2) = joined g1 ++ joined g2.
Proof. apply flat_map_app. Qed.

(** *** Copying gives the bytes at the place *)

Lemma skip_buffers_ok g n :
  0 <= n < alen (joined g) ->
  exists buf g' n', skip_buffers g n = Some (buf, g', n') /\ 0 <= n' < GST_BUFFER_SIZE buf /\
    drop (Z.to_nat n) (joined g) = drop (Z.to_nat n') (b_data buf) ++ joined g'.
Proof.
  revert n. induction g as [|buf g IH]; intros n Hn; [unfold alen in Hn; simpl in Hn; lia|].
  cbn [skip_buffers]. unfold GST_BUFFER_SIZE in *.
  assert (alen (joined (buf :: g)) = alen (b_data buf) + alen (joined g)) as Hl.
  { unfold alen; simpl. rewrite length_app. lia. }
  destruct (Z.leb_spec (alen (b_data buf)) n) as [Hle|Hgt].
  - destruct (IH (n - alen (b_data buf))) as (b & g' & n' & -> & Hn' & Hd); [lia|].
    exists b, g', n'. split; [done|]. split; [done|]. rewrite <- Hd. simpl.
    rewrite drop_app_ge by (unfold alen in *; lia). f_equal. unfold alen. lia.
  - exists buf, g, n. split; [done|]. split; [lia|]. simpl.
    by rewrite drop_app_le by (unfold alen in *; lia).
Qed.

Lemma copy_rest_ok g n : n <= alen (joined g) -> copy_rest g n = Some (take (Z.to_nat n) (joined g)).
Proof.
  revert n. induction g as [|buf g IH]; intros n Hn; cbn [copy_rest].
  - unfold alen in Hn; simpl in Hn. rewrite (proj2 (Z.ltb_ge _ _)) by lia. simpl. by rewrite take_nil.
  - assert (alen (joined (buf :: g)) = alen (b_data buf) + alen (joined g)) as Hl.
    { unfold alen; simpl. rewrite length_app. lia. }
    unfold GST_BUFFER_SIZE. destruct (Z.ltb_spec 0 n) as [Hpos|Hneg].
    2:{ by replace (Z.to_nat n) with O by lia. }
    simpl joined. destruct (Z.ltb_spec 0 (alen (b_data buf))) as [Hb|Hb].
    + cbv zeta. assert (0 <= alen (joined g)) by (unfold alen; lia).
      rewrite IH by lia. simpl. f_equal. unfold alen in *.
      destruct (Z.min_spec (Z.of_nat (length (b_data buf))) n) as [[Hlt ->]|[Hge ->]].
      * rewrite Nat2Z.id, take_ge by lia. rewrite take_app_ge by lia. f_equal. f_equal. lia.
      * rewrite Z.sub_diag, app_nil_r. by rewrite take_app_le by lia.
    + rewrite IH by lia. destruct (b_data buf); [done|]. unfold alen in *; simpl in *; lia.
Qed.

Lemma copy_into_ok a n k :
  adapter_ok a -> 0 <= n < load a -> 0 <= k -> n + k <= load a ->
  copy_into_unchecked a n k = Some (take (Z.to_nat k) (drop (Z.to_nat n) (joined (buflist a)))).
Proof.
  intros Hok Hn Hk Hle. unfold copy_into_unchecked. rewrite (ok_scan a Hok).
  destruct (skip_buffers_ok (buflist a) n) as (buf & g & n' & -> & Hn' & Hd); [done|]. simpl.
  assert (length (drop (Z.to_nat n) (joined (buflist a))) = Z.to_nat (load a - n)) as Hlen.
  { rewrite length_drop. unfold load, alen. lia. }
  rewrite Hd, length_app, length_drop in Hlen. rewrite Hd.
  unfold GST_BUFFER_SIZE, alen in *.
  rewrite copy_rest_ok by (unfold alen; lia). simpl. f_equal.
  destruct (Z.min_spec (Z.of_nat (length (b_data buf)) - n') k) as [[Hlt ->]|[Hge ->]].
  - rewrite take_ge by (rewrite length_drop; lia).
    rewrite take_app_ge by (rewrite length_drop; lia). f_equal. f_equal. rewrite length_drop. lia.
  - rewrite Z.sub_diag, app_nil_r, take_app_le by (rewrite length_drop; lia). done.
Qed.

(** *** Peeking *)

Lemma merge_up_joined head g n : joined (fst (merge_up head g n)) = b_data head ++ joined g.
Proof.
  revert head. induction g as [|cur g IH]; intros head; cbn [merge_up]; [done|].
  destruct (_ <? _); [|done]. destruct (gst_buffer_is_span_fast _ _); [|done].
  cbn [fst]. rewrite IH. simpl. by rewrite <- app_assoc.
Qed.

Lemma merge_ok a n :
  adapter_ok a ->
  adapter_ok (fst (gst_adapter_try_to_merge_up a n)) /\
  adapter_bytes (fst (gst_adapter_try_to_merge_up a n)) = adapter_bytes a /\
  load (fst (gst_adapter_try_to_merge_up a n)) = load a /\
  skip (fst (gst_adapter_try_to_merge_up a n)) = skip a /\
  assembled_len (fst (gst_adapter_try_to_merge_up a n)) = assembled_len a.
Proof.
  intros Hok. unfold gst_adapter_try_to_merge_up. destruct (buflist a) as [|head g] eqn:Hg; [done|].
  pose proof (merge_up_joined head g (u32 (n + skip a))) as Hj.
  destruct (merge_up _ _ _) as [l []]; [|done]. cbn [fst] in *.
  assert (joined l = joined (buflist a)) as Hl by (by rewrite Hg).
  destruct Hok. unfold load, adapter_bytes in *. cbn [buflist skip assembled_len].
  split; [|by rewrite Hl].
  constructor; unfold load, adapter_bytes; fields; by rewrite ?Hl.
Qed.

Lemma head_bytes_ok a n l :
  adapter_ok a -> 0 < n <= load a - skip a -> head_bytes a n = Some (Some l) ->
  l = take (Z.to_nat n) (adapter_bytes a).
Proof.
  intros [Hskip Hsmall _ _ _ _ _] Hn H. unfold head_bytes, adapter_bytes, load in *.
  destruct (buflist a) as [|cur g]; [done|].
  unfold u32 in H. rewrite Z.mod_small in H by lia.
  destruct (Z.leb_spec (n + skip a) (GST_BUFFER_SIZE cur)) as [Hle|]; [|done].
  injection H as <-. simpl. unfold GST_BUFFER_SIZE, alen in *.
  rewrite drop_app_le, take_app_le by (rewrite ?length_drop; lia). done.
Qed.

Lemma head_bytes_some a n :
  adapter_ok a -> 0 < n <= load a - skip a -> is_Some (head_bytes a n).
Proof.
  intros [Hskip _ _ _ _ _ _] Hn. unfold head_bytes, load in *.
  destruct (buflist a); [unfold alen in *; simpl in *; lia|eauto].
Qed.

Lemma assemble_ok a n :
  adapter_ok a -> 0 < n <= load a - skip a -> assembled_len a < n ->
  exists a', assemble a n = Some (Some (take (Z.to_nat n) (adapter_bytes a)), a') /\
    adapter_ok a' /\ adapter_bytes a' = adapter_bytes a /\ load a' = load a.
Proof.
  intros Hok Hn Hlen. pose proof (adapter_bytes_length a Hok) as Hbl. pose proof Hok as [].
  unfold assemble. cbv zeta.
  rewrite (u32_id (n - assembled_len a)), (u32_id (skip a + assembled_len a)) by (unfold is_u32; lia).
  rewrite copy_into_ok by (done || lia). simpl.
  assert (take (Z.to_nat (assembled_len a)) (assembled_data a) ++
    take (Z.to_nat (n - assembled_len a))
      (drop (Z.to_nat (skip a + assembled_len a)) (joined (buflist a)))
    = take (Z.to_nat n) (adapter_bytes a)) as Hl.
  { rewrite ok_data0. unfold adapter_bytes.
    replace (Z.to_nat (skip a + assembled_len a)) with
      (Z.to_nat (skip a) + Z.to_nat (assembled_len a))%nat by lia.
    rewrite <- drop_drop. rewrite take_take_drop. f_equal. lia. }
  rewrite Hl. assert (alen (take (Z.to_nat n) (adapter_bytes a)) = n) as Hln.
  { unfold alen in *. rewrite length_take. lia. }
  rewrite Hln. set (room := if assembled_size a <? n then _ else _).
  assert (n <= room) as Hroom.
  { unfold room, u32, DEFAULT_SIZE. destruct (Z.ltb_spec (assembled_size a) n); [|done].
    rewrite Z.mod_small; zlia. }
  rewrite (proj2 (Z.leb_le _ _)) by done. rewrite take_take, Nat.min_id.
  eexists. split; [done|]. split; [|done].
  constructor; unfold load, adapter_bytes; fields; try done; try lia. by rewrite take_take, Nat.min_id.
Qed.

Lemma peek_ok a n :
  adapter_ok a -> 0 < n <= alen (adapter_bytes a) ->
  exists a', gst_adapter_peek a n = Some (Some (take (Z.to_nat n) (adapter_bytes a)), a') /\
    adapter_ok a' /\ adapter_bytes a' = adapter_bytes a /\ load a' = load a.
Proof.
  intros Hok Hn. rewrite adapter_bytes_length in Hn by done.
  pose proof (ok_size a Hok). unfold gst_adapter_peek.
  rewrite (proj2 (Z.leb_gt _ _)), (proj2 (Z.ltb_ge _ _)) by lia.
  destruct (Z.leb_spec n (assembled_len a)) as [Hle|Hlt].
  { eexists. split; [|done]. do 3 f_equal. pose proof (ok_data a Hok) as Hd.
    apply (f_equal (take (Z.to_nat n))) in Hd. rewrite !take_take in Hd.
    by replace (Z.to_nat n `min` Z.to_nat (assembled_len a))%nat with (Z.to_nat n) in Hd by lia. }
  destruct (head_bytes_some a n Hok) as [o Ho]; [lia|]. rewrite Ho. simpl.
  destruct o as [l|].
  { apply head_bytes_ok in Ho as ->; [|done|lia]. eauto. }
  destruct (merge_ok a n Hok) as (Hok' & Hb & Hload & Hskip & Hal).
  destruct (gst_adapter_try_to_merge_up a n) as [a' merged]. cbn [fst] in *.
  rewrite <- Hb, <- Hload.
  destruct merged; simpl; [|apply assemble_ok; [done|lia|lia]].
  destruct (head_bytes_some a' n Hok') as [o Ho']; [lia|]. rewrite Ho'. simpl.
  destruct o as [l|]; [|apply assemble_ok; [done|lia|lia]].
  apply head_bytes_ok in Ho' as ->; [|done|lia]. eauto.
Qed.

(** *** Flushing *)

Lemma flush_buffers_ok g n t d :
  0 <= n <= alen (joined g) -> g <> [] ->
  exists g' n' t' d', flush_buffers g n t d = Some (g', n', t', d') /\
    0 <= n' <= alen (joined g') /\ alen (joined g') <= alen (joined g) /\
    drop (Z.to_nat n') (joined g') = drop (Z.to_nat n) (joined g) /\
    alen (joined g') - n' = alen (joined g) - n.
Proof.
  revert n t d. induction g as [|buf g IH]; intros n t d Hn Hg; [done|]. cbn [flush_buffers].
  assert (alen (joined (buf :: g)) = alen (b_data buf) + alen (joined g)) as Hl.
  { unfold alen; simpl. rewrite length_app. lia. }
  assert (0 <= alen (b_data buf)) by (unfold alen; lia).
  unfold GST_BUFFER_SIZE. destruct (Z.leb_spec (alen (b_data buf)) n) as [Hle|Hgt].
  2:{ eexists _, _, _, _. split; [done|]. repeat split; lia. }
  assert (drop (Z.to_nat (n - alen (b_data buf))) (joined g) = drop (Z.to_nat n) (joined (buf :: g))) as Hd.
  { simpl. rewrite drop_app_ge by (unfold alen in *; lia). f_equal. unfold alen. lia. }
  destruct g as [|next g].
  - eexists _, _, _, _. split; [done|]. unfold alen in *; simpl in *.
    repeat split; try lia. rewrite <- Hd. by rewrite !drop_nil.
  - destruct (update_timestamp _ _ _) as [t' d'].
    destruct (IH (n - alen (b_data buf)) t' d') as (g' & n' & t'' & d'' & -> & ? & ? & Hd' & ?); [lia|done|].
    eexists _, _, _, _. split; [done|]. split; [lia|]. split; [lia|].
    split; [by rewrite Hd', Hd|]. lia.
Qed.

Lemma flush_ok a n :
  adapter_ok a -> 0 <= n <= alen (adapter_bytes a) ->
  exists a', gst_adapter_flush a n = Some a' /\ adapter_ok a' /\
    adapter_bytes a' = drop (Z.to_nat n) (adapter_bytes a) /\ load a' <= load a.
Proof.
  intros Hok Hn. rewrite adapter_bytes_length in Hn by done. pose proof Hok as [].
  unfold gst_adapter_flush. rewrite (proj2 (Z.ltb_ge _ _)) by lia.
  destruct (Z.eqb_spec n 0) as [->|Hn0]; [eexists; split; [done|]; done|].
  unfold gst_adapter_flush_unchecked. rewrite (u32_id (n + skip a)) by (unfold is_u32; lia).
  destruct (flush_buffers_ok (buflist a) (n + skip a) (timestamp a) (u64 (distance a - skip a)))
    as (g & k & t & d & -> & Hk & Hle & Hd & Heq); [unfold load in *; lia| |].
  { intros Hg. unfold load in *. rewrite Hg in *. unfold alen in *; simpl in *; lia. }
  simpl. eexists. split; [done|]. unfold u32. unfold load in *. rewrite Z.mod_small by lia.
  split; [|split; [|done]].
  - constructor; unfold load; fields; try done; try lia.
  - unfold adapter_bytes; fields. rewrite Hd, drop_drop. f_equal. lia.
Qed.

Lemma push_ok a buf :
  adapter_ok a -> load a + GST_BUFFER_SIZE buf < 2147483648 ->
  adapter_ok (gst_adapter_push a buf) /\
  adapter_bytes (gst_adapter_push a buf) = adapter_bytes a ++ b_data buf /\
  load (gst_adapter_push a buf) = load a + GST_BUFFER_SIZE buf.
Proof.
  intros Hok Hb. pose proof Hok as []. pose proof (adapter_bytes_length a Hok) as Hlen.
  assert (joined (buflist a ++ [buf]) = joined (buflist a) ++ b_data buf) as Hj
    by (rewrite joined_app; simpl; by rewrite app_nil_r).
  unfold GST_BUFFER_SIZE in *.
  assert (alen (joined (buflist a ++ [buf])) = load a + alen (b_data buf)) as Hl.
  { rewrite Hj. unfold load, alen. rewrite length_app. lia. }
  assert (drop (Z.to_nat (skip a)) (joined (buflist a ++ [buf])) = adapter_bytes a ++ b_data buf) as Hbytes.
  { rewrite Hj. apply drop_app_le. unfold load, alen in *. lia. }
  assert (0 <= alen (b_data buf)) by (unfold alen; lia).
  unfold gst_adapter_push. destruct (match buflist a with [] => _ | _ => _ end) as [t d].
  unfold adapter_bytes, load; fields. rewrite Hl, Hbytes. split; [|done].
  unfold GST_BUFFER_SIZE.
  constructor; unfold load, adapter_bytes; fields; rewrite ?Hl, ?Hbytes; try done; try lia.
  - unfold u32. rewrite Z.mod_small; lia.
  - unfold u32. rewrite Z.mod_small; lia.
  - rewrite ok_data0, take_app_le; [done|]. unfold alen in *. lia.
Qed.

Lemma clear_ok a :
  adapter_ok a ->
  adapter_ok (gst_adapter_clear a) /\ adapter_bytes (gst_adapter_clear a) = [] /\
  load (gst_adapter_clear a) = 0.
Proof. intros []. repeat split; cbn; try done; lia. Qed.

Lemma load_ok a : adapter_ok a -> alen (adapter_bytes a) <= load a < 2147483648.
Proof. intros Hok. rewrite adapter_bytes_length by done. pose proof Hok as []. lia. Qed.

#[export] Instance adapter_queue : ByteQueue GstAdapter := {
  q_clear := gst_adapter_clear;
  q_push l t o a := gst_adapter_push a (mkBuffer l t o);
  q_available := gst_adapter_available;
  q_peek n a := gst_adapter_peek a n;
  q_flush n a := gst_adapter_flush a n;
  q_bytes := adapter_bytes;
  q_ok := adapter_ok;
  q_load := load;
  q_load_ok := load_ok;
  q_clear_ok := clear_ok;
  q_push_ok l t o a := push_ok a (mkBuffer l t o);
  q_available_ok a H := eq_trans (ok_size a H) (eq_sym (adapter_bytes_length a H));
  q_peek_ok n a := peek_ok a n;
  q_flush_ok n a := flush_ok a n;
}.

(** ** Refinement *)

Inductive queue_op : Type :=
  | Clear
  | Push (buf : GstBuffer)
  | Available
  | Peek (n : Z)
  | Flush (n : Z).

(** What a call returns: nothing, a number, or a pointer to bytes, if any. *)
Inductive reply : Type :=
  | Nothing
  | Number (n : Z)
  | Bytes (l : option (list Z)).

Definition adapter_step (op : queue_op) (a : GstAdapter) : option (reply * GstAdapter) :=
  match op with
  | Clear => Some (Nothing, gst_adapter_clear a)
  | Push buf => Some (Nothing, gst_adapter_push a buf)
  | Available => Some (Number (gst_adapter_available a), a)
  | Peek n => '(l, a) ← gst_adapter_peek a n; Some (Bytes l, a)
  | Flush n => a ← gst_adapter_flush a n; Some (Nothing, a)
  end.

Definition queue_step (op : queue_op) (l : list Z) : reply * list Z :=
  match op with
  | Clear => (Nothing, [])
  | Push buf => (Nothing, l ++ b_data buf)
  | Available => (Number (alen l), l)
  | Peek n => (Bytes (if (0 <? n) && (n <=? alen l) then Some (take (Z.to_nat n) l) else None), l)
  | Flush n => (Nothing, if n <=? alen l then drop (Z.to_nat n) l else l)
  end.

(** The numbers are those of C's [guint], and the bytes fit. *)
Definition allowed (op : queue_op) (a : GstAdapter) : Prop :=
  match op with
  | Push buf => load a + GST_BUFFER_SIZE buf < 2147483648
  | Peek n | Flush n => 0 <= n < 4294967296
  | Clear | Available => True
  end.

(** C16. The adapter refines a queue of bytes: whatever is asked of it, it answers as
    the queue would and stays an implementation of it, without leaving its
    buffers; bytes that are assembled, reused or merged are the bytes in the
    queue. *)
Theorem adapter_refines op a :
  adapter_ok a -> allowed op a ->
  exists a', adapter_step op a = Some (fst (queue_step op (adapter_bytes a)), a') /\
    adapter_ok a' /\ adapter_bytes a' = snd (queue_step op (adapter_bytes a)).
Proof.
  intros Hok Hal. pose proof (adapter_bytes_length a Hok) as Hlen. pose proof (ok_size a Hok) as Hs.
  destruct op as [|buf| |n|n]; cbn [adapter_step queue_step fst snd allowed] in *.
  - destruct (clear_ok a Hok) as (? & ? & ?). eauto.
  - destruct (push_ok a buf Hok Hal) as (? & ? & ?). eauto.
  - eexists. split; [|done]. unfold gst_adapter_available. do 3 f_equal. lia.
  - destruct (Z.ltb_spec 0 n) as [Hn|Hn].
    + destruct (Z.leb_spec n (alen (adapter_bytes a))) as [Hle|Hgt].
      * destruct (peek_ok a n Hok) as (a' & -> & ? & ? & ?); [done|]. simpl. eauto.
      * simpl. unfold gst_adapter_peek. rewrite (proj2 (Z.leb_gt _ _)), (proj2 (Z.ltb_lt _ _)) by lia.
        simpl. eauto.
    + simpl. unfold gst_adapter_peek. rewrite (proj2 (Z.leb_le _ _)) by lia. simpl. eauto.
  - destruct (Z.leb_spec n (alen (adapter_bytes a))) as [Hle|Hgt].
    + destruct (flush_ok a n Hok) as (a' & -> & ? & ? & ?); [lia|]. simpl. eauto.
    + unfold gst_adapter_flush. rewrite (proj2 (Z.ltb_lt _ _)) by lia. simpl. eauto.
Qed.
End Span.

Lemma adapter_new_ok : adapter_ok gst_adapter_new.
Proof. by repeat split. Qed.
