(* ===== verification/FileCache.v ===== *)
(** * The cache of a download (cache.h, posix/filecache.c, win32/filecache.c)

    Data are kept in a temporary file that is open twice, for reading and for writing.
    The cache counts the positions of both handles itself.  [Cache] has the file and
    the positions of the handles, as the system has them, beside the members of the
    structure.  What the system does is a parameter, [Sys]: the results of its calls
    for the state in which they are made.

    [ByteCache] is the interface of cache.h with the laws that its user relies on; both
    implementations provide it, on a system that completes reads and writes. *)

From S2P Require Import Prelude.
From S2P Require Import Mem.
From S2P Require Import GstSegment.

Open Scope Z_scope.

Definition DEFAULT_BUFFER_SIZE : Z := 4096.

(** A buffer that was read: its data and offset. *)
Record ReadBuffer := mkRead {
  r_data : list Z;
  r_offset : Z;
}.

Record Cache := mkCache {
  c_file : list Z;
  c_read_handle : Z;
  c_write_handle : Z;
  read_position : Z;
  write_position : Z;
}.

(** Counts of bytes that the calls transfer, negative for a failure; whether memory
    can be allocated. *)
Record Sys := mkSys {
  sys_write : Cache -> Z -> Z;
  sys_read : Cache -> Z -> Z;
  sys_malloc : Cache -> Z -> bool;
}.

(** The file after a write; a gap before it is filled with zeros. *)
Definition write_at (file : list Z) (off : nat) (data : list Z) : list Z :=
  take off (file ++ replicate (off - length file) 0) ++ data ++ drop (off + length data) file.

(** The bytes of the file at a position. *)
Definition bytes_at (file : list Z) (pos n : Z) : list Z :=
  take (Z.to_nat n) (drop (Z.to_nat pos) file).

(** A new file, opened twice; the file system may refuse. *)
Definition create_cache (opened : bool) : option Cache :=
  if opened then Some (mkCache [] 0 0 0 0) else None.

(** ** Common functions *)

(** [lseek] and [SetFilePointer] refuse a position that is negative as a signed number. *)
Definition cache_set_handler_position (position : Z) : bool := 0 <=? i64 (u64 position).

Definition cache_set_write_position (c : Cache) (position : Z) : bool * Cache :=
  if position =? write_position c then (true, c)
  else if cache_set_handler_position position
  then (true, mkCache (c_file c) (c_read_handle c) position (read_position c) position)
  else (false, c).

Definition cache_set_read_position (c : Cache) (position : Z) : bool * Cache :=
  if position =? read_position c then (true, c)
  else if cache_set_handler_position position
  then (true, mkCache (c_file c) position (c_write_handle c) position (write_position c))
  else (false, c).

Definition cache_has_enough_data (c : Cache) : bool := read_position c <? write_position c.

(** The size that is read next. *)
Definition read_size (c : Cache) : Z :=
  let left := write_position c - read_position c in
  if (0 <? left) && (left <? DEFAULT_BUFFER_SIZE) then left else DEFAULT_BUFFER_SIZE.

(** Transfers of [n] bytes. *)
Definition wrote (c : Cache) (data : list Z) (n : Z) : Cache :=
  mkCache (write_at (c_file c) (Z.to_nat (c_write_handle c)) (take (Z.to_nat n) data))
    (c_read_handle c) (c_write_handle c + n) (read_position c) (write_position c + n).

Definition did_read (c : Cache) (n : Z) : Cache :=
  mkCache (c_file c) (c_read_handle c + n) (c_write_handle c) (read_position c + n) (write_position c).

(** [read_position] moves, but the handle stays, where a call fails. *)
Definition lost (c : Cache) (n : Z) : Cache :=
  mkCache (c_file c) (c_read_handle c) (c_write_handle c) (read_position c + n) (write_position c).

Section Posix.
Context (sys : Sys).

Definition cache_write_buffer (c : Cache) (data : list Z) : Cache :=
  let written := sys_write sys c (alen data) in
  if 0 <? written then wrote c data written else c.

(** The position after the read, and the buffer; no buffer where nothing was read. *)
Definition cache_read_buffer (c : Cache) : Z * option ReadBuffer * Cache :=
  if sys_malloc sys c DEFAULT_BUFFER_SIZE then
    let read_bytes := sys_read sys c (read_size c) in
    if 0 <? read_bytes then
      (read_position c + read_bytes,
       Some (mkRead (bytes_at (c_file c) (c_read_handle c) read_bytes) (read_position c)),
       did_read c read_bytes)
    else (0, None, c)
  else (0, None, c).

Definition cache_read_buffer_from_position (c : Cache) (start_position size : Z)
    : GstFlowReturn * option ReadBuffer * Cache :=
  let '(ok, c) := cache_set_read_position c start_position in
  if ok then
    if sys_malloc sys c size then
      let read_bytes := sys_read sys c size in
      if read_bytes =? size then
        (GST_FLOW_OK,
         Some (mkRead (bytes_at (c_file c) (c_read_handle c) read_bytes) (read_position c)),
         did_read c read_bytes)
      else (GST_FLOW_ERROR, None, if 0 <? read_bytes then did_read c read_bytes else lost c read_bytes)
    else (GST_FLOW_ERROR, None, c)
  else (GST_FLOW_ERROR, None, c).
End Posix.

(** ** The implementation for Windows

    A call that fails is told from one that transfers nothing. *)

Section Win32.
Context (sys : Sys).

Definition win_cache_write_buffer (c : Cache) (data : list Z) : Cache :=
  let written := sys_write sys c (alen data) in
  if 0 <=? written then wrote c data written else c.

Definition win_cache_read_buffer (c : Cache) : Z * option ReadBuffer * Cache :=
  let read := sys_read sys c (read_size c) in
  if sys_malloc sys c DEFAULT_BUFFER_SIZE && (0 <=? read) then
    (read_position c + read,
     Some (mkRead (bytes_at (c_file c) (c_read_handle c) read) (read_position c)),
     did_read c read)
  else (0, None, c).

Definition win_cache_read_buffer_from_position (c : Cache) (start_position size : Z)
    : GstFlowReturn * option ReadBuffer * Cache :=
  let '(ok, c) := cache_set_read_position c start_position in
  if ok then
    let read := sys_read sys c size in
    if sys_malloc sys c size && (0 <=? read) then
      if read =? size then
        (GST_FLOW_OK,
         Some (mkRead (bytes_at (c_file c) (c_read_handle c) read) (read_position c)),
         did_read c read)
      else (GST_FLOW_ERROR, None, did_read c read)
    else (GST_FLOW_ERROR, None, c)
  else (GST_FLOW_ERROR, None, c).
End Win32.

(** ** The interface *)

Class ByteCache (C : Type) : Type := {
  bc_create : bool -> option C;
  bc_write : C -> list Z -> C;
  bc_read : C -> Z * option ReadBuffer * C;
  bc_read_from : C -> Z -> Z -> GstFlowReturn * option ReadBuffer * C;
  bc_set_write : C -> Z -> bool * C;
  bc_set_read : C -> Z -> bool * C;
  bc_has_enough : C -> bool;
  (** the bytes before the write position, and the read position *)
  bc_bytes : C -> list Z;
  bc_position : C -> Z;
  bc_ok : C -> Prop;
  bc_create_ok : exists c, bc_create true = Some c /\ bc_ok c /\ bc_bytes c = [] /\ bc_position c = 0;
  bc_create_fails : bc_create false = None;
  bc_write_ok : forall c l, bc_ok c -> alen (bc_bytes c) + alen l < 9223372036854775808 ->
    bc_ok (bc_write c l) /\ bc_bytes (bc_write c l) = bc_bytes c ++ l /\
    bc_position (bc_write c l) = bc_position c;
  bc_has_ok : forall c, bc_ok c -> bc_has_enough c = (bc_position c <? alen (bc_bytes c));
  bc_read_ok : forall c, bc_ok c -> bc_position c < alen (bc_bytes c) ->
    exists l c', bc_read c = (bc_position c + alen l, Some (mkRead l (bc_position c)), c') /\
      bc_ok c' /\ bc_bytes c' = bc_bytes c /\ bc_position c' = bc_position c + alen l /\
      0 < alen l /\ l `prefix_of` drop (Z.to_nat (bc_position c)) (bc_bytes c);
  bc_read_from_ok : forall c p n, bc_ok c -> 0 <= p -> 0 < n -> p + n <= alen (bc_bytes c) ->
    exists c', bc_read_from c p n = (GST_FLOW_OK, Some (mkRead (bytes_at (bc_bytes c) p n) p), c') /\
      bc_ok c' /\ bc_bytes c' = bc_bytes c /\ bc_position c' = p + n;
  bc_set_read_ok : forall c p, bc_ok c -> 0 <= p < 9223372036854775808 ->
    exists c', bc_set_read c p = (true, c') /\
      bc_ok c' /\ bc_bytes c' = bc_bytes c /\ bc_position c' = p;
  (** the position of reading may be ahead of what was written *)
  bc_rewind_ok : forall c, bc_ok c ->
    exists c', bc_set_write c 0 = (true, c') /\
      bc_ok c' /\ bc_bytes c' = [] /\ bc_position c' = bc_position c;
  bc_position_ok : forall c, bc_ok c -> 0 <= bc_position c < 9223372036854775808 /\
    alen (bc_bytes c) < 9223372036854775808;
}.

(** ** Both implementations provide it *)

(** A system that completes what it can, and does not run out of memory. *)
Definition sys_completes (sys : Sys) : Prop :=
  (forall c n, 0 <= n -> sys_write sys c n = n) /\
  (forall c n, 0 <= n -> c_read_handle c + n <= alen (c_file c) -> sys_read sys c n = n) /\
  (forall c n, sys_malloc sys c n = true).

(** The handles are where the cache believes them to be. *)
Definition cache_ok (c : Cache) : Prop :=
  c_read_handle c = read_position c /\ c_write_handle c = write_position c /\
  0 <= read_position c < 9223372036854775808 /\
  0 <= write_position c < 9223372036854775808 /\ write_position c <= alen (c_file c).

Definition cache_bytes (c : Cache) : list Z := take (Z.to_nat (write_position c)) (c_file c).

Lemma cache_bytes_len c : cache_ok c -> alen (cache_bytes c) = write_position c.
Proof. intros (_ & _ & _ & ? & ?). unfold cache_bytes, alen in *. rewrite length_take. lia. Qed.

Lemma new_cache_ok : exists c, create_cache true = Some c /\ cache_ok c /\ cache_bytes c = [] /\ read_position c = 0.
Proof. eexists. split; [done|]. by repeat split. Qed.

Lemma wrote_ok c l :
  cache_ok c -> alen (cache_bytes c) + alen l < 9223372036854775808 ->
  cache_ok (wrote c l (alen l)) /\ cache_bytes (wrote c l (alen l)) = cache_bytes c ++ l /\
  read_position (wrote c l (alen l)) = read_position c.
Proof.
  intros Hc Hl. rewrite cache_bytes_len in Hl by done. destruct Hc as (H1 & H2 & H3 & H4 & H5).
  unfold cache_ok, cache_bytes, wrote. cbn. rewrite H2.
  assert (take (Z.to_nat (alen l)) l = l) as -> by (apply take_ge; unfold alen; lia).
  assert (write_at (c_file c) (Z.to_nat (write_position c)) l =
    take (Z.to_nat (write_position c)) (c_file c) ++ l ++
    drop (Z.to_nat (write_position c) + length l) (c_file c)) as ->.
  { unfold write_at. by rewrite take_app_le by (unfold alen in *; lia). }
  assert (0 <= alen l) by (unfold alen; lia).
  split; [|split; [|done]].
  - split; [done|]. split; [done|]. split; [done|]. split; [lia|].
    unfold alen in *. rewrite !length_app, length_take. lia.
  - replace (Z.to_nat (write_position c + alen l))
      with (length (take (Z.to_nat (write_position c)) (c_file c) ++ l))
      by (unfold alen in *; rewrite length_app, length_take; lia).
    by rewrite app_assoc, take_app_length.
Qed.

Lemma read_size_ok c :
  read_position c < write_position c ->
  0 < read_size c /\ read_position c + read_size c <= write_position c.
Proof.
  unfold read_size, DEFAULT_BUFFER_SIZE. intros. destruct (_ && _) eqn:E; [|]; zcase; try lia.
  all: repeat match goal with H : _ |- _ => rewrite ?andb_true_iff, ?andb_false_iff in H end.
  all: rewrite ?Z.ltb_lt, ?Z.ltb_ge in E; lia.
Qed.

Lemma bytes_at_take file p n w :
  0 <= p -> 0 <= n -> p + n <= w -> bytes_at (take (Z.to_nat w) file) p n = bytes_at file p n.
Proof.
  intros. unfold bytes_at. apply list_eq. intros i.
  destruct (decide (i < Z.to_nat n)%nat).
  - rewrite !lookup_take_lt, !lookup_drop by done. by rewrite lookup_take_lt by lia.
  - by rewrite !lookup_take_ge by lia.
Qed.

Lemma bytes_at_len file p n : 0 <= p -> 0 <= n -> p + n <= alen file -> alen (bytes_at file p n) = n.
Proof. intros. unfold bytes_at, alen in *. rewrite length_take, length_drop. lia. Qed.

Lemma did_read_ok c n :
  cache_ok c -> 0 < n -> read_position c + n <= write_position c ->
  let l := bytes_at (c_file c) (c_read_handle c) n in
  cache_ok (did_read c n) /\ cache_bytes (did_read c n) = cache_bytes c /\ alen l = n /\
  l `prefix_of` drop (Z.to_nat (read_position c)) (cache_bytes c).
Proof.
  intros (H1 & H2 & H3 & H4 & H5) Hn Hle l. unfold l. rewrite H1.
  split; [unfold cache_ok, did_read; cbn; lia|]. split; [done|].
  split; [apply bytes_at_len; lia|].
  rewrite <- (bytes_at_take _ _ _ (write_position c)) by lia. unfold bytes_at.
  fold (cache_bytes c). eexists. symmetry. apply take_drop.
Qed.

Lemma set_read_ok c p :
  cache_ok c -> 0 <= p < 9223372036854775808 ->
  exists c', cache_set_read_position c p = (true, c') /\
    cache_ok c' /\ cache_bytes c' = cache_bytes c /\ read_position c' = p /\
    c_file c' = c_file c /\ write_position c' = write_position c.
Proof.
  intros Hc Hp. unfold cache_set_read_position. destruct (Z.eqb_spec p (read_position c)) as [->|Hne].
  { eexists. by repeat split; try apply Hc. }
  unfold cache_set_handler_position. rewrite u64_id by (unfold is_u64; lia).
  rewrite i64_id by (unfold is_i64; lia). rewrite (proj2 (Z.leb_le 0 p)) by lia.
  eexists. split; [done|]. unfold cache_ok in *. cbn. split; [naive_solver lia|done].
Qed.

Lemma rewind_ok c :
  cache_ok c ->
  exists c', cache_set_write_position c 0 = (true, c') /\
    cache_ok c' /\ cache_bytes c' = [] /\ read_position c' = read_position c.
Proof.
  intros Hc. unfold cache_set_write_position. destruct (Z.eqb_spec 0 (write_position c)) as [H0|Hne].
  { eexists. split; [done|]. split; [done|]. unfold cache_bytes. by rewrite <- H0. }
  eexists. split; [done|]. unfold cache_ok in *. cbn. split; [|done].
  unfold alen. naive_solver lia.
Qed.

Lemma position_ok c : cache_ok c ->
  0 <= read_position c < 9223372036854775808 /\ alen (cache_bytes c) < 9223372036854775808.
Proof. intros Hc. rewrite cache_bytes_len by done. unfold cache_ok in Hc. lia. Qed.

Lemma has_enough_ok c : cache_ok c -> cache_has_enough_data c = (read_position c <? alen (cache_bytes c)).
Proof. intros. by rewrite cache_bytes_len. Qed.

Lemma write_at_nil file off : (off <= length file)%nat -> write_at file off [] = file.
Proof.
  intros. unfold write_at. cbn [length app]. rewrite Nat.add_0_r, take_app_le by done. apply take_drop.
Qed.

Section Instances.
Context (sys : Sys) (Hsys : sys_completes sys).

Lemma posix_write_ok c l :
  cache_ok c -> alen (cache_bytes c) + alen l < 9223372036854775808 ->
  cache_ok (cache_write_buffer sys c l) /\
  cache_bytes (cache_write_buffer sys c l) = cache_bytes c ++ l /\
  read_position (cache_write_buffer sys c l) = read_position c.
Proof using Hsys.
  destruct Hsys as (Hw & _). intros Hc Hl. unfold cache_write_buffer.
  rewrite Hw by (unfold alen; lia). destruct (Z.ltb_spec 0 (alen l)) as [|H0]; [by apply wrote_ok|].
  assert (l = []) as -> by (unfold alen in H0; destruct l; simpl in *; [done|lia]).
  by rewrite app_nil_r.
Qed.

Lemma posix_read_ok c :
  cache_ok c -> read_position c < alen (cache_bytes c) ->
  exists l c', cache_read_buffer sys c = (read_position c + alen l, Some (mkRead l (read_position c)), c') /\
    cache_ok c' /\ cache_bytes c' = cache_bytes c /\ read_position c' = read_position c + alen l /\
    0 < alen l /\ l `prefix_of` drop (Z.to_nat (read_position c)) (cache_bytes c).
Proof using Hsys.
  destruct Hsys as (_ & Hr & Hm). intros Hc Hlt. rewrite cache_bytes_len in Hlt by done.
  destruct (read_size_ok c Hlt) as [Hs0 Hs]. pose proof Hc as (H1 & _ & _ & _ & H5).
  unfold cache_read_buffer. rewrite Hm, Hr, (proj2 (Z.ltb_lt 0 _)) by (done || lia).
  destruct (did_read_ok c (read_size c)) as (Hok & Hb & Hl & Hp); [done..|].
  exists (bytes_at (c_file c) (c_read_handle c) (read_size c)), (did_read c (read_size c)).
  rewrite Hl. do 5 (split; [done|]). done.
Qed.

Lemma posix_read_from_ok c p n :
  cache_ok c -> 0 <= p -> 0 < n -> p + n <= alen (cache_bytes c) ->
  exists c', cache_read_buffer_from_position sys c p n =
      (GST_FLOW_OK, Some (mkRead (bytes_at (cache_bytes c) p n) p), c') /\
    cache_ok c' /\ cache_bytes c' = cache_bytes c /\ read_position c' = p + n.
Proof using Hsys.
  destruct Hsys as (_ & Hr & Hm). intros Hc Hp Hn Hle. rewrite cache_bytes_len in Hle by done.
  pose proof Hc as (_ & _ & _ & Hw & Hlen).
  unfold cache_read_buffer_from_position.
  destruct (set_read_ok c p) as (c1 & -> & Hc1 & Hb1 & Hp1 & Hf1 & Hw1); [done|lia|].
  pose proof Hc1 as (Hh & _). rewrite Hm, Hr, Z.eqb_refl by (lia || rewrite Hh, Hf1; lia).
  destruct (did_read_ok c1 n) as (Hok & Hb & _); [done|done|lia|].
  exists (did_read c1 n). rewrite Hp1, Hh, Hp1, Hf1. split; [|split; [done|split; [by rewrite Hb|]]].
  - unfold cache_bytes. by rewrite bytes_at_take by lia.
  - cbn. by rewrite Hp1.
Qed.

Lemma set_read_law c p :
  cache_ok c -> 0 <= p < 9223372036854775808 ->
  exists c', cache_set_read_position c p = (true, c') /\
    cache_ok c' /\ cache_bytes c' = cache_bytes c /\ read_position c' = p.
Proof.
  intros Hc Hp. destruct (set_read_ok c p Hc Hp) as (c' & H1 & H2 & H3 & H4 & _).
  by exists c'.
Qed.

Definition posix_cache : ByteCache Cache := {|
  bc_create := create_cache;
  bc_write := cache_write_buffer sys;
  bc_read := cache_read_buffer sys;
  bc_read_from := cache_read_buffer_from_position sys;
  bc_set_write := cache_set_write_position;
  bc_set_read := cache_set_read_position;
  bc_has_enough := cache_has_enough_data;
  bc_bytes := cache_bytes;
  bc_position := read_position;
  bc_ok := cache_ok;
  bc_create_ok := new_cache_ok;
  bc_create_fails := eq_refl;
  bc_write_ok := posix_write_ok;
  bc_has_ok := has_enough_ok;
  bc_read_ok := posix_read_ok;
  bc_read_from_ok := posix_read_from_ok;
  bc_set_read_ok := set_read_law;
  bc_rewind_ok := rewind_ok;
  bc_position_ok := position_ok;
|}.

(** On such a system the functions for Windows do the same as those for POSIX. *)
Lemma win_write_same c l : cache_ok c -> win_cache_write_buffer sys c l = cache_write_buffer sys c l.
Proof using Hsys.
  destruct Hsys as (Hw & _). intros (_ & Hh & _ & ? & ?). unfold win_cache_write_buffer, cache_write_buffer.
  assert (0 <= alen l) by (unfold alen; lia). rewrite !Hw by done.
  rewrite (proj2 (Z.leb_le _ _)) by done. destruct (Z.ltb_spec 0 (alen l)) as [|Hz]; [done|].
  assert (l = []) as -> by (unfold alen in Hz; destruct l; simpl in *; [done|lia]).
  unfold wrote. change (alen []) with 0. rewrite take_nil, write_at_nil, !Z.add_0_r
    by (unfold alen in *; lia).
  by destruct c.
Qed.

Lemma win_read_same c :
  cache_ok c -> read_position c < write_position c ->
  win_cache_read_buffer sys c = cache_read_buffer sys c.
Proof using Hsys.
  destruct Hsys as (_ & Hr & Hm). intros (Hh & _ & _ & _ & ?) Hlt.
  destruct (read_size_ok c Hlt). unfold win_cache_read_buffer, cache_read_buffer.
  rewrite Hm, !Hr by lia. rewrite (proj2 (Z.leb_le _ _)), (proj2 (Z.ltb_lt _ _)) by lia. done.
Qed.

Lemma win_read_from_same c p n :
  cache_ok c -> 0 <= p -> 0 < n -> p + n <= write_position c ->
  win_cache_read_buffer_from_position sys c p n = cache_read_buffer_from_position sys c p n.
Proof using Hsys.
  destruct Hsys as (_ & Hr & Hm). intros Hc Hp Hn Hle. pose proof Hc as (_ & _ & _ & Hw & Hlen).
  unfold win_cache_read_buffer_from_position, cache_read_buffer_from_position.
  destruct (set_read_ok c p) as (c1 & -> & Hc1 & _ & Hp1 & Hf1 & _); [done|lia|].
  pose proof Hc1 as (Hh & _). rewrite !Hm, !Hr by (lia || rewrite Hh, Hf1; lia).
  rewrite (proj2 (Z.leb_le 0 n)) by lia. cbn [andb]. by rewrite Z.eqb_refl.
Qed.

Lemma win_write_ok c l :
  cache_ok c -> alen (cache_bytes c) + alen l < 9223372036854775808 ->
  cache_ok (win_cache_write_buffer sys c l) /\
  cache_bytes (win_cache_write_buffer sys c l) = cache_bytes c ++ l /\
  read_position (win_cache_write_buffer sys c l) = read_position c.
Proof using Hsys. intros Hc. rewrite win_write_same by done. by apply posix_write_ok. Qed.

Lemma win_read_ok c :
  cache_ok c -> read_position c < alen (cache_bytes c) ->
  exists l c', win_cache_read_buffer sys c = (read_position c + alen l, Some (mkRead l (read_position c)), c') /\
    cache_ok c' /\ cache_bytes c' = cache_bytes c /\ read_position c' = read_position c + alen l /\
    0 < alen l /\ l `prefix_of` drop (Z.to_nat (read_position c)) (cache_bytes c).
Proof using Hsys.
  intros Hc Hlt. rewrite win_read_same by (done || by rewrite <- cache_bytes_len).
  by apply posix_read_ok.
Qed.

Lemma win_read_from_ok c p n :
  cache_ok c -> 0 <= p -> 0 < n -> p + n <= alen (cache_bytes c) ->
  exists c', win_cache_read_buffer_from_position sys c p n =
      (GST_FLOW_OK, Some (mkRead (bytes_at (cache_bytes c) p n) p), c') /\
    cache_ok c' /\ cache_bytes c' = cache_bytes c /\ read_position c' = p + n.
Proof using Hsys.
  intros Hc Hp Hn Hle. rewrite win_read_from_same by (done || by rewrite <- cache_bytes_len).
  by apply posix_read_from_ok.
Qed.

Definition win_cache : ByteCache Cache := {|
  bc_create := create_cache;
  bc_write := win_cache_write_buffer sys;
  bc_read := win_cache_read_buffer sys;
  bc_read_from := win_cache_read_buffer_from_position sys;
  bc_set_write := cache_set_write_position;
  bc_set_read := cache_set_read_position;
  bc_has_enough := cache_has_enough_data;
  bc_bytes := cache_bytes;
  bc_position := read_position;
  bc_ok := cache_ok;
  bc_create_ok := new_cache_ok;
  bc_create_fails := eq_refl;
  bc_write_ok := win_write_ok;
  bc_has_ok := has_enough_ok;
  bc_read_ok := win_read_ok;
  bc_read_from_ok := win_read_from_ok;
  bc_set_read_ok := set_read_law;
  bc_rewind_ok := rewind_ok;
  bc_position_ok := position_ok;
|}.
End Instances.

