(* ===== verification/Threads.v ===== *)
(** * Computations over the state of an element

    The functions of an element are computations over its structure, which end in a
    fault for undefined behaviour.  [runs] is the rule for what ends normally, and
    [prun] takes the first computation of a sequence. *)

From S2P Require Import Prelude.
From S2P Require Import FlvMetadata.

Definition ST (S A : Type) : Type := S -> res (A * S).

#[export] Instance ST_ret {S} : MRet (ST S) := fun A a b => Done (a, b).
#[export] Instance ST_bind {S} : MBind (ST S) := fun A B k m b =>
  match m b with Done (a, b') => k a b' | Fault f => Fault f end.

Definition look {S A} (f : S -> A) : ST S A := fun b => Done (f b, b).
Definition change {S} (f : S -> S) : ST S unit := fun b => Done (tt, f b).
Definition only_if {S} (c : bool) (m : ST S unit) : ST S unit := if c then m else mret tt.
Definition insist {S A} (f : fault) (o : option A) : ST S A := fun b =>
  match o with Some a => Done (a, b) | None => Fault f end.

Section Runs.
Context {S : Type}.

Definition runs {A} (m : ST S A) (b : S) (Q : A -> S -> Prop) : Prop :=
  exists a b', m b = Done (a, b') /\ Q a b'.

Lemma runs_mret {A} (a : A) b (Q : A -> S -> Prop) : Q a b -> runs (mret a) b Q.
Proof. intros HQ. by exists a, b. Qed.

Lemma runs_mbind {A B} (m : ST S A) (k : A -> ST S B) b (Q : B -> S -> Prop) :
  runs m b (fun a b' => runs (k a) b' Q) -> runs (m ≫= k) b Q.
Proof.
  intros (a & b1 & Hm & a' & b2 & Hk & HQ). exists a', b2. split; [|done].
  unfold mbind, ST_bind. by rewrite Hm.
Qed.

Lemma runs_look {A} (f : S -> A) b (Q : A -> S -> Prop) : Q (f b) b -> runs (look f) b Q.
Proof. intros HQ. by exists (f b), b. Qed.

Lemma runs_change (f : S -> S) b (Q : unit -> S -> Prop) : Q tt (f b) -> runs (change f) b Q.
Proof. intros HQ. by exists tt, (f b). Qed.

Lemma runs_only_if (c : bool) m b (Q : unit -> S -> Prop) :
  (c = true -> runs m b Q) -> (c = false -> Q tt b) -> runs (only_if c m) b Q.
Proof. intros Ht Hf. unfold only_if. destruct c; [by apply Ht | apply runs_mret, Hf; done]. Qed.

Lemma runs_insist {A} f (o : option A) a b (Q : A -> S -> Prop) :
  o = Some a -> Q a b -> runs (insist f o) b Q.
Proof. intros -> HQ. by exists a, b. Qed.

Lemma runs_mono {A} (m : ST S A) b (Q Q' : A -> S -> Prop) :
  runs m b Q -> (forall a b', Q a b' -> Q' a b') -> runs m b Q'.
Proof. intros (a & b' & Hm & HQ) HQ'. exists a, b'. auto. Qed.

(** A computation has one outcome. *)
Lemma runs_and {A} (m : ST S A) (b : S) Q1 Q2 :
  runs m b Q1 -> runs m b Q2 -> runs m b (fun a b' => Q1 a b' /\ Q2 a b').
Proof.
  intros (a & b' & Hm & HQ) (a2 & b2 & Hm2 & HQ2). exists a, b'. split; [done|]. split; [done|].
  rewrite Hm in Hm2. by injection Hm2 as <- <-.
Qed.
End Runs.

(** [prun_more] is for the computations that an element adds. *)
Ltac prun_more := idtac.
Ltac prun :=
  lazymatch goal with
  | |- runs (mbind _ _) _ _ => apply runs_mbind; prun
  | |- runs (if true then ?m else _) ?b ?Q => change (runs m b Q); prun
  | |- runs (if false then _ else ?m) ?b ?Q => change (runs m b Q); prun
  | |- runs (mret _) _ _ => apply runs_mret
  | |- runs (look _) _ _ => apply runs_look
  | |- runs (change _) _ _ => apply runs_change
  | |- runs (only_if _ _) _ _ => apply runs_only_if; intros ?
  | |- runs _ _ _ => prun_more
  end; cbv beta.
Ltac pruns := repeat (progress prun).
