(* ===== verification/ProgressBuffer.v ===== *)
(** * The buffer of a download (progressbuffer.c)

    The element gets the bytes of a download from its source and keeps them in a cache.
    In push mode a task reads the cache and pushes buffers downstream; in pull mode
    ranges are read from the cache, and a range that has not arrived yet is reported
    by an event when it has.

    The functions run under a lock.  The thread of the source, the task and the thread
    that monitors ranges each take steps from one release of the lock to the next, so
    that an interleaving of them is a sequence of these steps.  A thread that waits for
    the condition takes a step that changes nothing but the messages that it sends;
    [Signal] in the list of events is where the condition is signalled.

    The state is the structure without its pads and its timer; what the element does to
    the rest of the pipeline is the list of events [b_trace], the last one first.  What
    the rest answers is the parameter [Env].  The cache is any that has the interface of
    FileCache.  Mutex, condition and reference counts are left out. *)

From S2P Require Import Prelude.
From S2P Require Import Mem.
From S2P Require Import FlvMetadata.
From S2P Require Export Threads.
From S2P Require Export GstSegment.
From S2P Require Export FileCache.
From Stdlib Require Import SpecFloat.

Open Scope Z_scope.

(** Events that go downstream. *)
Inductive DownEvent : Type :=
  | EosEvent
  | SegmentEvent (n : NewSegmentEvent)
  | FlushStart
  | FlushStop
  | RangeReady
  | OtherEvent (serialized : bool) (n : Z).

Inductive pb_event : Type :=
  | Buffering (start position stop : Z) (eos : bool)
  | Underrun
  | StreamError
  | SeekWarning
  | AddSourcePad
  | PushData (offset : Z) (data : list Z)
  | PushEvent (e : DownEvent)
  | DefaultEvent (n : Z)
  | SeekSource (rate : spec_float) (position : Z)
  | StartLoop
  | StopLoop
  | PauseLoop
  | StartMonitor
  | StopMonitor
  | Signal.

(** The answers of the rest, which may depend on all that was done before. *)
Record Env := mkEnv {
  env_elapsed : list pb_event -> spec_float;
  env_create : list pb_event -> bool;
  (** the mode in which the handlers that add the new pad have activated it *)
  env_activated : list pb_event -> option bool;
  env_linked : list pb_event -> bool;
  env_start_task : list pb_event -> bool;
  env_stop_task : list pb_event -> bool;
  env_thread : list pb_event -> bool;
  env_push : list pb_event -> Z -> list Z -> GstFlowReturn;
  env_push_event : list pb_event -> pb_event -> bool;
  (** whether GStreamer was built with its checks of arguments *)
  env_checks : bool;
}.

(** Where the task of the pad is: between two calls of its function, at [next_item], out
    of the lock with an event or with a buffer to push, or not running. *)
Inductive task : Type :=
  | Idle
  | NextItem (skip : bool)
  | PushingEvent (e : DownEvent) (result : GstFlowReturn)
  | PushingData (offset : Z) (data : list Z)
  | Paused.

Definition NO_RANGE_REQUEST : Z := -1.
Definition EOS_SIGNAL_LIMIT : Z := 1.
Definition GST_FLOW_WRONG_STATE : GstFlowReturn := GST_FLOW_OTHER (-2).

Section Element.
Context {C : Type}.

Record ProgressBuffer := mkPB {
  b_srcpad : bool;
  b_cache : option C;
  b_pending_src_event : option DownEvent;
  b_incoming_buffer_size : Z;
  b_cache_read_offset : Z;
  b_sink_segment : GstSegment;
  b_last_update : spec_float;
  b_threshold : spec_float;
  b_subtotal : Z;
  b_bandwidth : spec_float;
  b_prebuffer_time : spec_float;
  b_wait_tolerance : spec_float;
  b_unexpected : bool;
  b_srcresult : GstFlowReturn;
  b_eos : bool;
  b_signal_limit : Z;
  b_instant_seek : bool;
  b_range_start : Z;
  b_range_stop : Z;
  b_monitor_thread : bool;
  b_task : task;
  b_trace : list pb_event;
}.

Definition set_srcpad (v : bool) (b : ProgressBuffer) : ProgressBuffer :=
  mkPB v (b_cache b) (b_pending_src_event b) (b_incoming_buffer_size b)
    (b_cache_read_offset b) (b_sink_segment b) (b_last_update b) (b_threshold b)
    (b_subtotal b) (b_bandwidth b) (b_prebuffer_time b) (b_wait_tolerance b)
    (b_unexpected b) (b_srcresult b) (b_eos b) (b_signal_limit b) (b_instant_seek b)
    (b_range_start b) (b_range_stop b) (b_monitor_thread b) (b_task b) (b_trace b).
Definition set_cache (v : option C) (b : ProgressBuffer) : ProgressBuffer :=
  mkPB (b_srcpad b) v (b_pending_src_event b) (b_incoming_buffer_size b)
    (b_cache_read_offset b) (b_sink_segment b) (b_last_update b) (b_threshold b)
    (b_subtotal b) (b_bandwidth b) (b_prebuffer_time b) (b_wait_tolerance b)
    (b_unexpected b) (b_srcresult b) (b_eos b) (b_signal_limit b) (b_instant_seek b)
    (b_range_start b) (b_range_stop b) (b_monitor_thread b) (b_task b) (b_trace b).
Definition set_pending_src_event (v : option DownEvent) (b : ProgressBuffer) : ProgressBuffer :=
  mkPB (b_srcpad b) (b_cache b) v (b_incoming_buffer_size b) (b_cache_read_offset b)
    (b_sink_segment b) (b_last_update b) (b_threshold b) (b_subtotal b) (b_bandwidth b)
    (b_prebuffer_time b) (b_wait_tolerance b) (b_unexpected b) (b_srcresult b) (b_eos b)
    (b_signal_limit b) (b_instant_seek b) (b_range_start b) (b_range_stop b)
    (b_monitor_thread b) (b_task b) (b_trace b).
Definition set_incoming_buffer_size (v : Z) (b : ProgressBuffer) : ProgressBuffer :=
  mkPB (b_srcpad b) (b_cache b) (b_pending_src_event b) v (b_cache_read_offset b)
    (b_sink_segment b) (b_last_update b) (b_threshold b) (b_subtotal b) (b_bandwidth b)
    (b_prebuffer_time b) (b_wait_tolerance b) (b_unexpected b) (b_srcresult b) (b_eos b)
    (b_signal_limit b) (b_instant_seek b) (b_range_start b) (b_range_stop b)
    (b_monitor_thread b) (b_task b) (b_trace b).
Definition set_cache_read_offset (v : Z) (b : ProgressBuffer) : ProgressBuffer :=
  mkPB (b_srcpad b) (b_cache b) (b_pending_src_event b) (b_incoming_buffer_size b) v
    (b_sink_segment b) (b_last_update b) (b_threshold b) (b_subtotal b) (b_bandwidth b)
    (b_prebuffer_time b) (b_wait_tolerance b) (b_unexpected b) (b_srcresult b) (b_eos b)
    (b_signal_limit b) (b_instant_seek b) (b_range_start b) (b_range_stop b)
    (b_monitor_thread b) (b_task b) (b_trace b).
Definition set_sink_segment (v : GstSegment) (b : ProgressBuffer) : ProgressBuffer :=
  mkPB (b_srcpad b) (b_cache b) (b_pending_src_event b) (b_incoming_buffer_size b)
    (b_cache_read_offset b) v (b_last_update b) (b_threshold b) (b_subtotal b)
    (b_bandwidth b) (b_prebuffer_time b) (b_wait_tolerance b) (b_unexpected b)
    (b_srcresult b) (b_eos b) (b_signal_limit b) (b_instant_seek b) (b_range_start b)
    (b_range_stop b) (b_monitor_thread b) (b_task b) (b_trace b).
Definition set_last_update (v : spec_float) (b : ProgressBuffer) : ProgressBuffer :=
  mkPB (b_srcpad b) (b_cache b) (b_pending_src_event b) (b_incoming_buffer_size b)
    (b_cache_read_offset b) (b_sink_segment b) v (b_threshold b) (b_subtotal b)
    (b_bandwidth b) (b_prebuffer_time b) (b_wait_tolerance b) (b_unexpected b)
    (b_srcresult b) (b_eos b) (b_signal_limit b) (b_instant_seek b) (b_range_start b)
    (b_range_stop b) (b_monitor_thread b) (b_task b) (b_trace b).
Definition set_threshold (v : spec_float) (b : ProgressBuffer) : ProgressBuffer :=
  mkPB (b_srcpad b) (b_cache b) (b_pending_src_event b) (b_incoming_buffer_size b)
    (b_cache_read_offset b) (b_sink_segment b) (b_last_update b) v (b_subtotal b)
    (b_bandwidth b) (b_prebuffer_time b) (b_wait_tolerance b) (b_unexpected b)
    (b_srcresult b) (b_eos b) (b_signal_limit b) (b_instant_seek b) (b_range_start b)
    (b_range_stop b) (b_monitor_thread b) (b_task b) (b_trace b).
Definition set_subtotal (v : Z) (b : ProgressBuffer) : ProgressBuffer :=
  mkPB (b_srcpad b) (b_cache b) (b_pending_src_event b) (b_incoming_buffer_size b)
    (b_cache_read_offset b) (b_sink_segment b) (b_last_update b) (b_threshold b) v
    (b_bandwidth b) (b_prebuffer_time b) (b_wait_tolerance b) (b_unexpected b)
    (b_srcresult b) (b_eos b) (b_signal_limit b) (b_instant_seek b) (b_range_start b)
    (b_range_stop b) (b_monitor_thread b) (b_task b) (b_trace b).
Definition set_bandwidth (v : spec_float) (b : ProgressBuffer) : ProgressBuffer :=
  mkPB (b_srcpad b) (b_cache b) (b_pending_src_event b) (b_incoming_buffer_size b)
    (b_cache_read_offset b) (b_sink_segment b) (b_last_update b) (b_threshold b)
    (b_subtotal b) v (b_prebuffer_time b) (b_wait_tolerance b) (b_unexpected b)
    (b_srcresult b) (b_eos b) (b_signal_limit b) (b_instant_seek b) (b_range_start b)
    (b_range_stop b) (b_monitor_thread b) (b_task b) (b_trace b).
Definition set_prebuffer_time (v : spec_float) (b : ProgressBuffer) : ProgressBuffer :=
  mkPB (b_srcpad b) (b_cache b) (b_pending_src_event b) (b_incoming_buffer_size b)
    (b_cache_read_offset b) (b_sink_segment b) (b_last_update b) (b_threshold b)
    (b_subtotal b) (b_bandwidth b) v (b_wait_tolerance b) (b_unexpected b) (b_srcresult b)
    (b_eos b) (b_signal_limit b) (b_instant_seek b) (b_range_start b) (b_range_stop b)
    (b_monitor_thread b) (b_task b) (b_trace b).
Definition set_wait_tolerance (v : spec_float) (b : ProgressBuffer) : ProgressBuffer :=
  mkPB (b_srcpad b) (b_cache b) (b_pending_src_event b) (b_incoming_buffer_size b)
    (b_cache_read_offset b) (b_sink_segment b) (b_last_update b) (b_threshold b)
    (b_subtotal b) (b_bandwidth b) (b_prebuffer_time b) v (b_unexpected b) (b_srcresult b)
    (b_eos b) (b_signal_limit b) (b_instant_seek b) (b_range_start b) (b_range_stop b)
    (b_monitor_thread b) (b_task b) (b_trace b).
Definition set_unexpected (v : bool) (b : ProgressBuffer) : ProgressBuffer :=
  mkPB (b_srcpad b) (b_cache b) (b_pending_src_event b) (b_incoming_buffer_size b)
    (b_cache_read_offset b) (b_sink_segment b) (b_last_update b) (b_threshold b)
    (b_subtotal b) (b_bandwidth b) (b_prebuffer_time b) (b_wait_tolerance b) v
    (b_srcresult b) (b_eos b) (b_signal_limit b) (b_instant_seek b) (b_range_start b)
    (b_range_stop b) (b_monitor_thread b) (b_task b) (b_trace b).
Definition set_srcresult (v : GstFlowReturn) (b : ProgressBuffer) : ProgressBuffer :=
  mkPB (b_srcpad b) (b_cache b) (b_pending_src_event b) (b_incoming_buffer_size b)
    (b_cache_read_offset b) (b_sink_segment b) (b_last_update b) (b_threshold b)
    (b_subtotal b) (b_bandwidth b) (b_prebuffer_time b) (b_wait_tolerance b)
    (b_unexpected b) v (b_eos b) (b_signal_limit b) (b_instant_seek b) (b_range_start b)
    (b_range_stop b) (b_monitor_thread b) (b_task b) (b_trace b).
Definition set_eos (v : bool) (b : ProgressBuffer) : ProgressBuffer :=
  mkPB (b_srcpad b) (b_cache b) (b_pending_src_event b) (b_incoming_buffer_size b)
    (b_cache_read_offset b) (b_sink_segment b) (b_last_update b) (b_threshold b)
    (b_subtotal b) (b_bandwidth b) (b_prebuffer_time b) (b_wait_tolerance b)
    (b_unexpected b) (b_srcresult b) v (b_signal_limit b) (b_instant_seek b)
    (b_range_start b) (b_range_stop b) (b_monitor_thread b) (b_task b) (b_trace b).
Definition set_signal_limit (v : Z) (b : ProgressBuffer) : ProgressBuffer :=
  mkPB (b_srcpad b) (b_cache b) (b_pending_src_event b) (b_incoming_buffer_size b)
    (b_cache_read_offset b) (b_sink_segment b) (b_last_update b) (b_threshold b)
    (b_subtotal b) (b_bandwidth b) (b_prebuffer_time b) (b_wait_tolerance b)
    (b_unexpected b) (b_srcresult b) (b_eos b) v (b_instant_seek b) (b_range_start b)
    (b_range_stop b) (b_monitor_thread b) (b_task b) (b_trace b).
Definition set_instant_seek (v : bool) (b : ProgressBuffer) : ProgressBuffer :=
  mkPB (b_srcpad b) (b_cache b) (b_pending_src_event b) (b_incoming_buffer_size b)
    (b_cache_read_offset b) (b_sink_segment b) (b_last_update b) (b_threshold b)
    (b_subtotal b) (b_bandwidth b) (b_prebuffer_time b) (b_wait_tolerance b)
    (b_unexpected b) (b_srcresult b) (b_eos b) (b_signal_limit b) v (b_range_start b)
    (b_range_stop b) (b_monitor_thread b) (b_task b) (b_trace b).
Definition set_range_start (v : Z) (b : ProgressBuffer) : ProgressBuffer :=
  mkPB (b_srcpad b) (b_cache b) (b_pending_src_event b) (b_incoming_buffer_size b)
    (b_cache_read_offset b) (b_sink_segment b) (b_last_update b) (b_threshold b)
    (b_subtotal b) (b_bandwidth b) (b_prebuffer_time b) (b_wait_tolerance b)
    (b_unexpected b) (b_srcresult b) (b_eos b) (b_signal_limit b) (b_instant_seek b) v
    (b_range_stop b) (b_monitor_thread b) (b_task b) (b_trace b).
Definition set_range_stop (v : Z) (b : ProgressBuffer) : ProgressBuffer :=
  mkPB (b_srcpad b) (b_cache b) (b_pending_src_event b) (b_incoming_buffer_size b)
    (b_cache_read_offset b) (b_sink_segment b) (b_last_update b) (b_threshold b)
    (b_subtotal b) (b_bandwidth b) (b_prebuffer_time b) (b_wait_tolerance b)
    (b_unexpected b) (b_srcresult b) (b_eos b) (b_signal_limit b) (b_instant_seek b)
    (b_range_start b) v (b_monitor_thread b) (b_task b) (b_trace b).
Definition set_monitor_thread (v : bool) (b : ProgressBuffer) : ProgressBuffer :=
  mkPB (b_srcpad b) (b_cache b) (b_pending_src_event b) (b_incoming_buffer_size b)
    (b_cache_read_offset b) (b_sink_segment b) (b_last_update b) (b_threshold b)
    (b_subtotal b) (b_bandwidth b) (b_prebuffer_time b) (b_wait_tolerance b)
    (b_unexpected b) (b_srcresult b) (b_eos b) (b_signal_limit b) (b_instant_seek b)
    (b_range_start b) (b_range_stop b) v (b_task b) (b_trace b).
Definition set_task (v : task) (b : ProgressBuffer) : ProgressBuffer :=
  mkPB (b_srcpad b) (b_cache b) (b_pending_src_event b) (b_incoming_buffer_size b)
    (b_cache_read_offset b) (b_sink_segment b) (b_last_update b) (b_threshold b)
    (b_subtotal b) (b_bandwidth b) (b_prebuffer_time b) (b_wait_tolerance b)
    (b_unexpected b) (b_srcresult b) (b_eos b) (b_signal_limit b) (b_instant_seek b)
    (b_range_start b) (b_range_stop b) (b_monitor_thread b) v (b_trace b).
Definition set_trace (v : list pb_event) (b : ProgressBuffer) : ProgressBuffer :=
  mkPB (b_srcpad b) (b_cache b) (b_pending_src_event b) (b_incoming_buffer_size b)
    (b_cache_read_offset b) (b_sink_segment b) (b_last_update b) (b_threshold b)
    (b_subtotal b) (b_bandwidth b) (b_prebuffer_time b) (b_wait_tolerance b)
    (b_unexpected b) (b_srcresult b) (b_eos b) (b_signal_limit b) (b_instant_seek b)
    (b_range_start b) (b_range_stop b) (b_monitor_thread b) (b_task b) v.

(** ** Computations *)

Abbreviation P := (ST ProgressBuffer).

Definition send (e : pb_event) : P unit := change (fun b => set_trace (e :: b_trace b) b).

(** The cache, which must be there. *)
Definition the_cache : P C := c ← look b_cache; insist NullPointer c.

Context `{ByteCache C} (env : Env).

Definition ask {A} (f : list pb_event -> A) : P A := tr ← look b_trace; mret (f tr).

(** ** Internal functions *)

Definition progress_buffer_flush_data : P unit :=
  change (fun b =>
    set_last_update (S754_zero false) (set_bandwidth (S754_zero false) (set_subtotal 0
      (set_pending_src_event None (set_sink_segment gst_segment_init
        (set_range_start NO_RANGE_REQUEST (set_range_stop NO_RANGE_REQUEST b))))))).

(** The state after [progress_buffer_init], with the default values of the properties. *)
Definition progress_buffer_init : ProgressBuffer :=
  {| b_srcpad := false; b_cache := None; b_pending_src_event := None; b_incoming_buffer_size := 0;
     b_cache_read_offset := 0; b_sink_segment := gst_segment_init;
     b_last_update := S754_zero false; b_threshold := double_of_Z 1; b_subtotal := 0;
     b_bandwidth := S754_zero false; b_prebuffer_time := double_of_Z 2;
     b_wait_tolerance := double_of_Z 2; b_unexpected := false; b_srcresult := GST_FLOW_OK;
     b_eos := false; b_signal_limit := 0; b_instant_seek := false;
     b_range_start := NO_RANGE_REQUEST; b_range_stop := NO_RANGE_REQUEST;
     b_monitor_thread := false; b_task := Paused; b_trace := [] |}.

Definition reset_eos : P unit :=
  change (set_eos false);; change (set_signal_limit EOS_SIGNAL_LIMIT);;
  change (set_pending_src_event None).

Definition pending_eos : P bool :=
  b ← look id;
  let result := b_eos b && (0 <? b_signal_limit b) in
  only_if result (change (set_signal_limit (b_signal_limit b - 1)));;
  mret result.

(** [a > b] for numbers. *)
Definition greater (x y : spec_float) : bool := SFltb y x.

Definition send_position_message (mandatory : bool) : P bool :=
  b ← look id;
  let s := b_sink_segment b in
  let percent := double_mul (SFdiv 53 1024 (double_of_Z (s_last_stop s)) (double_of_Z (s_stop s)))
                            (double_of_Z 100) in
  let mandatory := mandatory
    || greater (SFsub 53 1024 percent (b_last_update b)) (b_threshold b) in
  only_if mandatory
    (send (Buffering (s_start s) (s_last_stop s) (s_stop s) (b_eos b));;
     change (set_last_update percent));;
  mret mandatory.

Definition send_underrun_message : P unit := send Underrun.

Definition set_stop (stop : Z) (s : GstSegment) : GstSegment :=
  mkSegment (s_rate s) (s_flags s) (s_start s) stop (s_time s) (s_last_stop s) (s_duration s).

(** A buffer with its offset. *)
Definition enqueue_buffer (offset : Z) (data : list Z) : P GstFlowReturn :=
  change (fun b => set_sink_segment
    (gst_segment_set_last_stop (b_sink_segment b) (i64 (u64 (offset + alen data)))) b);;
  s ← look b_sink_segment;
  if s_stop s <? s_last_stop s then mret GST_FLOW_ERROR else
  c ← the_cache;
  change (set_cache (Some (bc_write c data)));;
  elapsed ← ask (env_elapsed env);
  change (fun b => set_subtotal (u64 (b_subtotal b + alen data)) b);;
  only_if (greater elapsed (double_of_Z 1))
    (change (fun b => set_bandwidth (SFdiv 53 1024 (double_of_Z (b_subtotal b)) elapsed) b);;
     change (set_subtotal 0));;
  signal ← send_position_message false;
  only_if signal (send Signal);;
  mret GST_FLOW_OK.

Definition enqueue_eos : P GstFlowReturn :=
  change (set_eos true);;
  change (fun b => let s := b_sink_segment b in
    if s_last_stop s <? s_stop s then set_sink_segment (set_stop (s_last_stop s) s) b else b);;
  signal ← send_position_message true;
  only_if signal (send Signal);;
  mret GST_FLOW_OK.

Definition sub64 (a b : Z) : option Z := if decide (is_i64 (a - b)) then Some (a - b) else None.

Definition enqueue_segment (n : NewSegmentEvent) : P GstFlowReturn :=
  change (set_unexpected false);;
  if bool_decide (n_format n <> GST_FORMAT_BYTES) then send StreamError;; mret GST_FLOW_ERROR else
  size ← insist SignedOverflow (sub64 (n_stop n) (n_start n));
  if size <=? 0 then send StreamError;; mret GST_FLOW_ERROR else
  ok ← (if n_update n then
          opened ← ask (env_create env);
          change (set_cache (bc_create opened));;
          cache ← look b_cache;
          match cache with
          | None => send StreamError;; mret false
          | Some _ => mret true
          end
        else
          c ← the_cache;
          let c := snd (bc_set_write c 0) in
          change (set_cache (Some (snd (bc_set_read c 0))));;
          change (set_cache_read_offset (n_start n));; mret true);
  if negb ok then mret GST_FLOW_ERROR else
  change (fun b => set_sink_segment
    (gst_segment_set_newsegment (env_checks env) (b_sink_segment b) n) b);;
  change (set_pending_src_event (Some (SegmentEvent n)));;
  change (set_instant_seek true);;
  signal ← send_position_message true;
  only_if signal (send Signal);;
  mret GST_FLOW_OK.

(** [progress_buffer_enqueue_item] for an event. *)
Definition enqueue_event (e : DownEvent) : P GstFlowReturn :=
  match e with
  | EosEvent => enqueue_eos
  | SegmentEvent n => enqueue_segment n
  | _ => mret GST_FLOW_OK
  end.

(** ** Activation of the pad

    [ended] stands for the steps of all threads until the thread that is to end has ended. *)

Definition start_loop : P bool :=
  tr ← look b_trace;
  send StartLoop;;
  change (fun b => match b_task b with Paused => set_task Idle b | _ => b end);;
  mret (env_start_task env tr).

Definition activate_state : P unit :=
  change (set_srcresult GST_FLOW_OK);; reset_eos;; change (set_unexpected false).

Definition progress_buffer_activatepush_src (ended : P unit) (active : bool) : P bool :=
  if active then
    activate_state;;
    linked ← ask (env_linked env);
    if linked : bool then start_loop else mret true
  else
    change (set_srcresult GST_FLOW_WRONG_STATE);; send Signal;;
    tr ← look b_trace; send StopLoop;; ended;; change (set_task Paused);;
    mret (env_stop_task env tr).

Definition progress_buffer_activatepull_src (ended : P unit) (active : bool) : P bool :=
  running ← look b_monitor_thread;
  if active then
    activate_state;;
    (if running : bool then mret tt
     else ok ← ask (env_thread env);
          only_if ok (send StartMonitor);; change (set_monitor_thread ok));;
    look b_monitor_thread
  else
    only_if running
      (change (set_srcresult GST_FLOW_WRONG_STATE);; send Signal;; ended;; send StopMonitor;;
       change (set_monitor_thread false));;
    mret true.

(** ** The source *)

(** [gst_pad_set_active] activates the new pad to push, if no handler has activated it. *)
Definition progress_buffer_create_sourcepad : P unit :=
  change (set_srcpad true);; send AddSourcePad;;
  activated ← ask (env_activated env);
  (match activated with
   | Some true => progress_buffer_activatepull_src (mret tt) true
   | _ => progress_buffer_activatepush_src (mret tt) true
   end);;
  mret tt.

Definition progress_buffer_chain (offset : Z) (data : list Z) : P GstFlowReturn :=
  b ← look id;
  result ← (if b_eos b || b_unexpected b then mret GST_FLOW_UNEXPECTED
            else enqueue_buffer offset data);
  pad ← look b_srcpad;
  only_if (negb pad) progress_buffer_create_sourcepad;;
  mret result.

Definition serialized (e : DownEvent) : bool :=
  match e with
  | EosEvent | SegmentEvent _ | RangeReady => true
  | FlushStart | FlushStop => false
  | OtherEvent s _ => s
  end.

Definition push_event (e : pb_event) : P bool :=
  tr ← look b_trace; send e;; mret (env_push_event env tr e).

Definition progress_buffer_sink_event (e : DownEvent) : P bool :=
  if serialized e then
    eos ← look b_eos;
    if eos : bool then mret false else enqueue_event e;; mret true
  else push_event (PushEvent e).

Definition progress_buffer_bufferalloc (offset size : Z) : P GstFlowReturn :=
  change (fun b => if b_incoming_buffer_size b <? size then set_incoming_buffer_size size b else b);;
  mret GST_FLOW_OK.

(** ** The task *)

Definition task_ends (result : GstFlowReturn) : P unit :=
  if flow_ok result then change (set_task Idle) else send PauseLoop;; change (set_task Paused).

(** The condition on which the task waits. *)
Definition must_wait : P bool :=
  b ← look id;
  match flow_ok (b_srcresult b), b_pending_src_event b with
  | true, None =>
      c ← the_cache;
      mret (negb (bc_has_enough c) || negb (b_instant_seek b))
  | _, _ => mret false
  end.

(** A buffer is read. *)
Definition read_item (skip : bool) : P unit :=
  c ← the_cache;
  let '(position, buffer, c) := bc_read c in
  change (set_cache (Some c));;
  buffer ← insist NullPointer buffer;
  b ← look id;
  let read_position := u64 (position + b_cache_read_offset b) in
  let offset := u64 (read_position - alen (r_data buffer)) in
  only_if (read_position =? u64 (s_stop (b_sink_segment b)))
    (change (set_pending_src_event (Some EosEvent)));;
  change (set_task (if skip then NextItem true else PushingData offset (r_data buffer))).

(** An event is taken. *)
Definition take_event (skip : bool) (e : DownEvent) : P unit :=
  change (set_pending_src_event None);;
  let leave result := change (set_srcresult result);; change (set_task (PushingEvent e result)) in
  match e with
  | EosEvent => leave GST_FLOW_UNEXPECTED
  | SegmentEvent _ => leave GST_FLOW_OK
  | _ => if skip then change (set_task (NextItem true)) else leave GST_FLOW_OK
  end.

Definition next_item (skip : bool) : P unit :=
  wait ← must_wait;
  if wait : bool then
    instant ← look b_instant_seek;
    only_if instant send_underrun_message;; change (set_task (NextItem skip))
  else
    b ← look id;
    if flow_ok (b_srcresult b) then
      match b_pending_src_event b with
      | Some e => take_event skip e
      | None => read_item skip
      end
    else if skip then change (set_unexpected true);; task_ends GST_FLOW_OK
    else task_ends (b_srcresult b).

(** One step of the task. *)
Definition progress_buffer_loop : P unit :=
  t ← look b_task;
  match t with
  | Idle => next_item false
  | NextItem skip => next_item skip
  | PushingEvent e result => push_event (PushEvent e);; task_ends result
  | PushingData offset data =>
      tr ← look b_trace;
      send (PushData offset data);;
      let result := env_push env tr offset data in
      if bool_decide (result = GST_FLOW_UNEXPECTED) then change (set_task (NextItem true))
      else change (set_srcresult result);; task_ends result
  | Paused => mret tt
  end.

(** ** Seeking in push mode *)

Definition seek_flushes (k : SeekEvent) : bool := truth (k_flags k .& 1).

(** What is done before the task is waited for; [false] where the seek is refused. *)
Definition push_seek_begin (k : SeekEvent) : P bool :=
  if bool_decide (k_format k <> GST_FORMAT_BYTES) || bool_decide (k_start_type k <> GST_SEEK_TYPE_SET)
  then mret false else
  if bool_decide (k_stop_type k <> GST_SEEK_TYPE_NONE) then send SeekWarning;; mret false else
  only_if (seek_flushes k) (push_event (PushEvent FlushStart);; mret tt);;
  change (set_srcresult GST_FLOW_WRONG_STATE);;
  send Signal;;
  mret true.

(** The cache is read from the position, which a segment announces. *)
Definition jump (rate : spec_float) (position : Z) : P unit :=
  c ← the_cache;
  offset ← look b_cache_read_offset;
  to ← insist SignedOverflow (sub64 position offset);
  change (set_cache (Some (snd (bc_set_read c to))));;
  stop ← look (fun b => s_stop (b_sink_segment b));
  change (set_pending_src_event
    (Some (SegmentEvent (mkNewSegment false rate GST_FORMAT_BYTES position stop position)))).

(** Whether the position is in the cache or will be soon. *)
Definition seek_is_instant (position : Z) : P bool :=
  b ← look id;
  let s := b_sink_segment b in
  if s_start s <=? position then
    ahead ← insist SignedOverflow (sub64 position (s_last_stop s));
    mret (SFleb (double_of_Z ahead) (double_mul (b_bandwidth b) (b_wait_tolerance b)))
  else mret false.

(** The source is asked to seek; if it does not, the position is waited for. *)
Definition seek_source (k : SeekEvent) : P unit :=
  ok ← push_event (SeekSource (k_rate k) (k_start k));
  only_if (negb ok) (change (set_instant_seek true);; jump (k_rate k) (k_start k)).

(** What is done with the stream lock, when no call of the task's function is under way. *)
Definition push_seek_perform (k : SeekEvent) : P unit :=
  let position := k_start k in
  change (set_srcresult GST_FLOW_OK);;
  instant ← seek_is_instant position;
  change (set_instant_seek instant);;
  (if instant : bool then jump (k_rate k) position else reset_eos);;
  only_if (seek_flushes k) (push_event (PushEvent FlushStop);; mret tt);;
  only_if (negb instant) (seek_source k);;
  start_loop;;
  mret tt.

(** [ended] stands for the steps of all threads until the lock is available. *)
Definition progress_buffer_perform_push_seek (ended : P unit) (k : SeekEvent) : P bool :=
  ok ← push_seek_begin k;
  if ok : bool then ended;; push_seek_perform k;; mret true else mret false.

(** ** Pull mode *)

Definition VALID_RANGE (value : Z) : bool := negb (value =? NO_RANGE_REQUEST).

Definition pending_range_start (b : ProgressBuffer) : bool :=
  VALID_RANGE (b_range_start b) && (b_range_start b <? s_start (b_sink_segment b)).

Definition pending_range_stop (b : ProgressBuffer) : bool :=
  VALID_RANGE (b_range_stop b) && (s_last_stop (b_sink_segment b) <? b_range_stop b).

(** The thread that monitors requests; [false] when it has ended. *)
Definition progress_buffer_range_monitor : P bool :=
  r ← look b_srcresult;
  eos ← (if flow_ok r then pending_eos else mret false);
  b ← look id;
  let valid := VALID_RANGE (b_range_start b) || VALID_RANGE (b_range_stop b) in
  if flow_ok r && negb eos && (pending_range_start b || pending_range_stop b || negb valid)
  then mret true
  else if flow_ok r && valid then
    change (set_range_stop NO_RANGE_REQUEST);; change (set_range_start NO_RANGE_REQUEST);;
    push_event (PushEvent RangeReady);; mret true
  else mret false.

(** [(gint64)x] *)
Definition to_gint64 (x : spec_float) : option Z :=
  z ← truncate x; if decide (is_i64 z) then Some z else None.

Definition progress_buffer_getrange (start_position size : Z) : P (GstFlowReturn * option ReadBuffer) :=
  let end_position := u64 (start_position + size) in
  b ← look id;
  let s := b_sink_segment b in
  if s_stop s <? i64 end_position then mret (GST_FLOW_UNEXPECTED, None)
  else if (s_start s <=? i64 start_position) && (i64 end_position <=? s_last_stop s) then
    c ← the_cache;
    let '(result, buffer, c) := bc_read_from c (i64 start_position) size in
    change (set_cache (Some c));;
    mret (result, buffer)
  else
    let needs_seeking := i64 start_position <? s_start s in
    only_if needs_seeking (change (set_range_start (i64 start_position));; reset_eos);;
    needs_seeking ←
      (if s_last_stop s <? i64 end_position then
         extra ← insist BadConversion (to_gint64 (double_mul (b_bandwidth b) (b_prebuffer_time b)));
         let range_stop := i64 (u64 (end_position + extra)) in
         change (set_range_stop (if s_stop s <? range_stop then s_stop s else range_stop));;
         mret (greater (b_bandwidth b) (S754_zero false)
               && greater (double_of_Z (u64 (end_position - s_last_stop s)))
                          (double_mul (b_bandwidth b) (b_wait_tolerance b)))
       else mret needs_seeking);
    send_underrun_message;;
    only_if needs_seeking (push_event (SeekSource (s_rate s) (i64 start_position));; mret tt);;
    mret (GST_FLOW_WRONG_STATE, None).

(** ** Events from downstream and states *)

(** Whether the pad pushes or is pulled from. *)
Inductive mode : Type := PUSH | PULL | NO_MODE.

Definition progress_buffer_src_event (m : mode) (ended : P unit) (e : SeekEvent + Z) : P bool :=
  match m, e with
  | PUSH, inl k => progress_buffer_perform_push_seek ended k
  | PULL, _ => mret true
  | _, inr n => push_event (DefaultEvent n)
  | _, inl k => push_event (DefaultEvent 0)
  end.

(** The transition from paused to ready, which the parent class has made; others do
    nothing here. *)
Definition progress_buffer_change_state (paused_to_ready : bool) : P unit :=
  only_if paused_to_ready
    (change (set_srcresult GST_FLOW_WRONG_STATE);; progress_buffer_flush_data;; send Signal).

(** The properties of the class; [PROP_BANDWIDTH] can only be read. *)
Inductive property : Type :=
  | PROP_THRESHOLD | PROP_BANDWIDTH | PROP_PREBUFFER_TIME | PROP_WAIT_TOLERANCE.

Definition progress_buffer_set_property (id : property) (v : spec_float) : P unit :=
  match id with
  | PROP_THRESHOLD => change (set_threshold v)
  | PROP_PREBUFFER_TIME => change (set_prebuffer_time v)
  | PROP_WAIT_TOLERANCE => change (set_wait_tolerance v)
  | PROP_BANDWIDTH => mret tt
  end.

Definition progress_buffer_get_property (id : property) : P spec_float :=
  look (match id with
        | PROP_THRESHOLD => b_threshold
        | PROP_BANDWIDTH => b_bandwidth
        | PROP_PREBUFFER_TIME => b_prebuffer_time
        | PROP_WAIT_TOLERANCE => b_wait_tolerance
        end).
End Element.
