(* ===== verification/PbFlow.v ===== *)
(** * What the buffer of a download passes on

    A source delivers a content [F]; its calls, seeks of downstream and the steps of the
    task are interleaved in any way.  [play] runs such a sequence.

    - [held]: the cache has the part of the content that the segment tells;
    - [flows]: the next buffer of the task is the one that downstream is due;
    - every step preserves both and ends normally, so that downstream gets the content
      from where the last segment event said, without a gap;
    - a task that is given the rest of a content pushes it, and then the end of it. *)

From S2P Require Import Prelude.
From S2P Require Import Mem.
From S2P Require Import FlvMetadata.
From S2P Require Import ProgressBuffer.
From Stdlib Require Import SpecFloat.

Open Scope Z_scope.

(** ** The flow downstream *)

(** The offset that downstream expects, after these events. *)
Fixpoint flow_pos (tr : list pb_event) : Z :=
  match tr with
  | [] => 0
  | PushData off data :: _ => off + alen data
  | PushEvent (SegmentEvent n) :: _ => n_start n
  | _ :: tr => flow_pos tr
  end.

(** Data of the content. *)
Definition holds_at (F : list Z) (p : Z) (l : list Z) : Prop :=
  0 <= p /\ l `prefix_of` drop (Z.to_nat p) F.

(** Every buffer has the expected offset and the data of the content. *)
Fixpoint faithful (F : list Z) (tr : list pb_event) : Prop :=
  match tr with
  | [] => True
  | PushData off data :: tr => off = flow_pos tr /\ holds_at F off data /\ faithful F tr
  | PushEvent (SegmentEvent n) :: tr => 0 <= n_start n /\ faithful F tr
  | _ :: tr => faithful F tr
  end.

Definition quiet (e : pb_event) : Prop :=
  match e with PushData _ _ | PushEvent (SegmentEvent _) => False | _ => True end.

Lemma flow_pos_quiet e tr : quiet e -> flow_pos (e :: tr) = flow_pos tr.
Proof. by destruct e as [| | | | | | [] | | | | | | | |]. Qed.

(** Messages. *)
Definition goes_down (e : pb_event) : bool :=
  match e with PushData _ _ | PushEvent _ => true | _ => false end.
Definition silent (e : pb_event) : Prop := goes_down e = false.

Lemma faithful_quiet F e tr : quiet e -> faithful F tr -> faithful F (e :: tr).
Proof. by destruct e as [| | | | | | [] | | | | | | | |]. Qed.

Lemma silent_quiet e : silent e -> quiet e.
Proof. by destruct e. Qed.

Lemma flow_pos_silent ms tr : Forall silent ms -> flow_pos (ms ++ tr) = flow_pos tr.
Proof.
  induction 1 as [|e ms He _ IH]; [done|]. cbn [app]. by rewrite flow_pos_quiet by by apply silent_quiet.
Qed.

Lemma faithful_silent F ms tr : Forall silent ms -> faithful F tr -> faithful F (ms ++ tr).
Proof.
  induction 1 as [|e ms He _ IH]; [done|]. intros Hx. by apply faithful_quiet; [apply silent_quiet|apply IH].
Qed.

Lemma holds_at_app F p l l' : holds_at F p l -> holds_at F (p + alen l) l' -> holds_at F p (l ++ l').
Proof.
  intros [Hp [k Hk]] [_ [k' Hk']]. split; [done|]. exists k'.
  rewrite <- app_assoc, Hk. f_equal.
  replace (Z.to_nat (p + alen l)) with (Z.to_nat p + length l)%nat in Hk' by (unfold alen; lia).
  by rewrite <- drop_drop, Hk, drop_app_length in Hk'.
Qed.

Lemma holds_at_piece F p l q l' :
  holds_at F p l -> 0 <= q -> l' `prefix_of` drop (Z.to_nat q) l -> holds_at F (p + q) l'.
Proof.
  intros [Hp [k Hk]] Hq [k' Hk']. split; [lia|]. destruct (decide (Z.to_nat q <= length l)%nat).
  - exists (k' ++ k). rewrite Z2Nat.inj_add, <- drop_drop, Hk by lia.
    by rewrite drop_app_le, Hk', <- app_assoc by done.
  - rewrite drop_ge in Hk' by lia. symmetry in Hk'. apply app_nil in Hk' as [-> _].
    apply prefix_nil.
Qed.

Lemma holds_at_len F p l : holds_at F p l -> p <= alen F -> p + alen l <= alen F.
Proof.
  intros [Hp [k Hk]] Hle. apply (f_equal length) in Hk.
  rewrite length_drop, length_app in Hk. unfold alen in *. lia.
Qed.

(** Messages and answers. *)
Ltac prun_more ::=
  lazymatch goal with
  | |- runs (send _) _ _ => apply runs_change
  | |- runs (ask _) _ _ => unfold ask; prun
  | |- _ => idtac
  end.

Section Flow.
Context {C : Type} `{ByteCache C} (env : Env) (seekable : bool).
Abbreviation PB := (ProgressBuffer (C := C)).
Abbreviation P := (ST PB).

(** ** The invariant *)

(** [src] is the offset at which the source goes on, if it delivers. *)
Definition held (F : list Z) (src : option Z) (b : PB) : Prop :=
  let s := b_sink_segment b in
  exists c, b_cache b = Some c /\ bc_ok c /\
    holds_at F (b_cache_read_offset b) (bc_bytes c) /\
    s_start s = b_cache_read_offset b /\
    s_last_stop s = b_cache_read_offset b + alen (bc_bytes c) /\
    s_last_stop s <= s_stop s <= alen F /\
    (forall p, src = Some p -> p = s_last_stop s /\ s_stop s = alen F).

(** The offset that the buffer after those under way has, where it is determined. *)
Definition next_known (b : PB) : option Z :=
  match b_task b with
  | PushingData off data => Some (off + alen data)
  | PushingEvent (SegmentEvent n) _ => Some (n_start n)
  | PushingEvent _ _ | NextItem true => None
  | _ => if flow_ok (b_srcresult b) then Some (flow_pos (b_trace b)) else None
  end.

Definition task_ok (F : list Z) (b : PB) : Prop :=
  match b_task b with
  | PushingData off data => off = flow_pos (b_trace b) /\ holds_at F off data
  | PushingEvent e r =>
      (exists n, e = SegmentEvent n /\ r = GST_FLOW_OK /\ 0 <= n_start n) \/
      (e = EosEvent /\ r = GST_FLOW_UNEXPECTED /\ flow_ok (b_srcresult b) = false)
  | _ => True
  end.

(** The cache is read where the pending segment says, or where the flow goes on. *)
Definition due (b : PB) : Prop :=
  forall c, b_cache b = Some c ->
  let at_ := b_cache_read_offset b + bc_position c in
  match b_pending_src_event b with
  | Some (SegmentEvent n) => n_start n = at_
  | Some EosEvent | None => b_instant_seek b = true -> forall p, next_known b = Some p -> p = at_
  | Some _ => False
  end.

Definition fresh (b : PB) : Prop :=
  b_srcpad b = false ->
  b_task b = Paused /\ flow_ok (b_srcresult b) = true /\ flow_pos (b_trace b) = 0 /\
  b_cache_read_offset b = 0 /\ forall c, b_cache b = Some c -> bc_position c = 0.

Lemma pad_fresh b : b_srcpad b = true -> fresh b.
Proof. intros Hpad Hpad'. congruence. Qed.

Record pb_inv (F : list Z) (src : option Z) (b : PB) : Prop := {
  i_held : held F src b;
  i_task : task_ok F b;
  i_due : due b;
  i_fresh : fresh b;
  i_faithful : faithful F (b_trace b);
  (** a source that does not seek starts at the beginning *)
  i_offset : seekable = false -> b_cache_read_offset b = 0;
}.

Lemma inv_quiet F src b e : quiet e -> pb_inv F src b -> pb_inv F src (set_trace (e :: b_trace b) b).
Proof.
  intros He [H1 H2 H3 H4 H5 H6]. split.
  - exact H1.
  - unfold task_ok in *. cbn [b_task set_trace b_trace b_srcresult]. by rewrite flow_pos_quiet.
  - unfold due, next_known in *. cbn. cbn in He. intros c Hc. specialize (H3 c Hc).
    destruct e as [| | | | | | [] | | | | | | | |]; done.
  - unfold fresh in *. cbn [b_task set_trace b_trace b_srcresult b_srcpad b_cache_read_offset b_cache].
    by rewrite flow_pos_quiet.
  - by apply faithful_quiet.
  - exact H6.
Qed.

Lemma inv_last_update F src b v : pb_inv F src b -> pb_inv F src (set_last_update v b).
Proof. by intros [H1 H2 H3 H4 H5 H6]; split. Qed.
Lemma inv_subtotal F src b v : pb_inv F src b -> pb_inv F src (set_subtotal v b).
Proof. by intros [H1 H2 H3 H4 H5 H6]; split. Qed.
Lemma inv_bandwidth F src b v : pb_inv F src b -> pb_inv F src (set_bandwidth v b).
Proof. by intros [H1 H2 H3 H4 H5 H6]; split. Qed.
Lemma inv_unexpected F src b v : pb_inv F src b -> pb_inv F src (set_unexpected v b).
Proof. by intros [H1 H2 H3 H4 H5 H6]; split. Qed.
Lemma inv_eos F src b v : pb_inv F src b -> pb_inv F src (set_eos v b).
Proof. by intros [H1 H2 H3 H4 H5 H6]; split. Qed.
Lemma inv_signal_limit F src b v : pb_inv F src b -> pb_inv F src (set_signal_limit v b).
Proof. by intros [H1 H2 H3 H4 H5 H6]; split. Qed.
Lemma inv_monitor F src b v : pb_inv F src b -> pb_inv F src (set_monitor_thread v b).
Proof. by intros [H1 H2 H3 H4 H5 H6]; split. Qed.

Lemma inv_stopped F src b : pb_inv F src b -> pb_inv F None b.
Proof.
  intros [(c & H1 & H2 & H3 & H4 & H5 & H6 & _) Ht Hd Hf Hx Hz]. split; try done.
  exists c. naive_solver.
Qed.

Create HintDb pb.
Hint Resolve inv_quiet inv_last_update inv_subtotal inv_bandwidth inv_unexpected inv_eos
  inv_signal_limit inv_monitor inv_stopped : pb.
Hint Extern 1 (quiet _) => exact I : pb.

(** ** Messages *)

Lemma message_ok F src mandatory b :
  pb_inv F src b -> runs (send_position_message mandatory) b (fun _ => pb_inv F src).
Proof. intros Hi. unfold send_position_message. pruns; eauto 10 with pb. Qed.

Lemma signal_message_ok F src mandatory b (Q : GstFlowReturn -> PB -> Prop) :
  pb_inv F src b -> (forall b', pb_inv F src b' -> Q GST_FLOW_OK b') ->
  runs (send_position_message mandatory) b
    (fun signal b' => runs (only_if signal (send Signal);; mret GST_FLOW_OK) b' Q).
Proof.
  intros Hi HQ. eapply runs_mono; [by apply message_ok|]. intros a b' Hb.
  pruns; eauto with pb.
Qed.

(** ** What deliveries leave alone *)

Record stays (b b' : PB) : Prop := {
  st_pad : b_srcpad b' = b_srcpad b;
  st_task : b_task b' = b_task b;
  st_result : b_srcresult b' = b_srcresult b;
  st_instant : b_instant_seek b' = b_instant_seek b;
  st_pending : b_pending_src_event b' = b_pending_src_event b;
  st_offset : b_cache_read_offset b' = b_cache_read_offset b;
  st_ranges : b_range_start b' = b_range_start b /\ b_range_stop b' = b_range_stop b;
  st_trace : exists ms, b_trace b' = ms ++ b_trace b /\ Forall silent ms;
  st_position : forall c, b_cache b = Some c -> bc_ok c ->
    exists c', b_cache b' = Some c' /\ bc_position c' = bc_position c;
}.

Lemma stays_refl b : stays b b.
Proof. split; eauto. by exists []. Qed.

Lemma stays_message mandatory b0 b (Q : GstFlowReturn -> PB -> Prop) :
  stays b0 b ->
  (forall b', stays b0 b' -> b_sink_segment b' = b_sink_segment b -> b_cache b' = b_cache b ->
     b_eos b' = b_eos b -> Q GST_FLOW_OK b') ->
  runs (send_position_message mandatory) b
    (fun signal b' => runs (only_if signal (send Signal);; mret GST_FLOW_OK) b' Q).
Proof.
  intros [? ? ? ? ? ? ? (ms & Hms & Hq) ?] HQ. unfold send_position_message.
  pruns; (apply HQ; [split; [done..| |done]|done..]); cbn; rewrite Hms.
  all: first [ by exists ms | by eexists (_ :: ms); split; [|constructor]
             | by eexists (_ :: _ :: ms); split; [|repeat constructor] ].
Qed.

(** The content has a size. *)
Context (F : list Z) (HF : alen F < 9223372036854775808).

Lemma inv_stays src src' b b' : pb_inv F src b -> stays b b' -> held F src' b' -> pb_inv F src' b'.
Proof.
  intros [(c & Hc & Hok & _) Ht Hd Hf Hx Hz] [E1 E2 E3 E4 E5 E6 _ (ms & E7 & Hms) E8] Hh.
  destruct (E8 c Hc Hok) as (c' & Hc' & Ep).
  assert (flow_pos (b_trace b') = flow_pos (b_trace b)) as Efl by (rewrite E7; by apply flow_pos_silent).
  split; [done| | | |by rewrite E7; apply faithful_silent|by rewrite E6].
  - unfold task_ok in *. by rewrite E2, E3, Efl.
  - intros c1 Hc1. replace c1 with c' by congruence. specialize (Hd c Hc).
    unfold next_known in *. by rewrite E2, E3, E4, E5, E6, Efl, Ep.
  - intros Hpad. rewrite E1 in Hpad. destruct (Hf Hpad) as (? & ? & ? & ? & Hy).
    rewrite E2, E3, E6, Efl. do 4 (split; [done|]). intros c1 Hc1.
    replace c1 with c' by congruence. rewrite Ep. by apply Hy.
Qed.

(** ** The source *)

Lemma enqueue_spec p l b :
  held F (Some p) b -> holds_at F p l ->
  runs (enqueue_buffer env p l) b (fun r b' => r = GST_FLOW_OK /\ held F (Some (p + alen l)) b' /\
    stays b b' /\ s_stop (b_sink_segment b') = s_stop (b_sink_segment b) /\ b_eos b' = b_eos b).
Proof using HF.
  intros (c & Hc & Hok & Hat & Hst & Hls & Hle & Hp) Hl. unfold enqueue_buffer.
  destruct (Hp p eq_refl) as [Hpl Hstop]. clear Hp.
  assert (p + alen l <= alen F) as Hend by (apply holds_at_len; [done|lia]).
  pose proof Hat as [Ho _]. destruct (bc_write_ok c l Hok) as (Hok' & Hb' & Hpos').
  { unfold alen in *. destruct Hat as [_ Hpre]. apply prefix_length in Hpre.
    rewrite length_drop in Hpre. lia. }
  prun. prun. cbn.
  rewrite u64_id, i64_id by (unfold is_u64, is_i64, alen in *; lia).
  rewrite (proj2 (Z.ltb_ge _ _)) by (unfold alen in *; lia).
  unfold the_cache. pruns.
  eapply runs_insist; [exact Hc|]. pruns.
  all: apply (stays_message _ b).
  1,3: split; [done..|by exists []|]; intros c1 Hc1 _; exists (bc_write c l);
    split; [done|]; by replace c1 with c by congruence.
  all: intros b1 Hb1 Es Ec Ee; split; [done|]; split; [|rewrite Es, Ee; done].
  all: unfold held; rewrite (st_offset _ _ Hb1), Es, Ec; exists (bc_write c l); cbn; rewrite Hb', Hst.
  all: do 2 (split; [done|]); (split; [apply holds_at_app; [done|by rewrite <- Hls, <- Hpl]|]).
  all: split; [done|]; unfold alen in *; rewrite length_app; split; [lia|]; split; [lia|]; intros ? [= <-]; lia.
Qed.

Lemma enqueue_data_ok p l b :
  pb_inv F (Some p) b -> holds_at F p l ->
  runs (enqueue_buffer env p l) b (fun r b' => r = GST_FLOW_OK /\ pb_inv F (Some (p + alen l)) b').
Proof using HF.
  intros Hi Hl. eapply runs_mono; [by apply enqueue_spec; [apply Hi|]|].
  intros r b' (-> & Hh & Hst & _). split; [done|]. by eapply inv_stays.
Qed.

Lemma inv_start_loop src b :
  b_srcpad b = true -> pb_inv F src b -> runs (start_loop env) b (fun _ => pb_inv F src).
Proof.
  intros Hpad Hi. unfold start_loop. pruns.
  apply (inv_quiet _ _ _ StartLoop) in Hi; [|exact I]. cbn -[set_task].
  destruct (b_task b) eqn:Et; try exact Hi. destruct Hi as [H1 H2 H3 H4 H5 H6]. split; try done.
  - unfold due, next_known in *. cbn in *. by rewrite Et in H3.
  - by apply pad_fresh.
Qed.

(** The activation forgets the pending segment, which starts where the flow starts. *)
Lemma activate_state_ok src b :
  pb_inv F src b -> b_task b = Paused -> flow_pos (b_trace b) = 0 ->
  b_cache_read_offset b = 0 -> (forall c, b_cache b = Some c -> bc_position c = 0) ->
  b_srcpad b = true ->
  runs activate_state b (fun _ b' => pb_inv F src b' /\ b_srcpad b' = true).
Proof.
  intros [H1 H2 H3 H4 H5 H6] Ht Hflow Hoff Hpos Hpad. unfold activate_state, reset_eos. pruns.
  split; [|done]. split; try done.
  - unfold task_ok. cbn. by rewrite Ht.
  - intros c Hc. cbn in *. intros _ p. unfold next_known. cbn. rewrite Ht, Hoff, (Hpos c Hc).
    change (flow_ok GST_FLOW_OK) with true. cbn. intros [= <-]. done.
Qed.

Lemma create_pad_ok src b :
  pb_inv F src b -> b_srcpad b = false ->
  runs (progress_buffer_create_sourcepad env) b (fun _ => pb_inv F src).
Proof.
  intros Hi Hpad. destruct (i_fresh _ _ _ Hi Hpad) as (Ht & Hr & Hflow & Hoff & Hpos).
  unfold progress_buffer_create_sourcepad. do 3 prun.
  assert (runs activate_state
    (set_trace (AddSourcePad :: b_trace (set_srcpad true b)) (set_srcpad true b))
    (fun _ b' => pb_inv F src b' /\ b_srcpad b' = true)) as Hact.
  { apply activate_state_ok; try done. apply (inv_quiet _ _ (set_srcpad true b)); [exact I|].
    destruct Hi as [H1 H2 H3 H4 H5 H6]. by split. }
  destruct (env_activated _ _) as [[]|].
  all: unfold progress_buffer_activatepull_src, progress_buffer_activatepush_src; pruns;
    eapply runs_mono; [exact Hact|]; intros _ b' [Hb' Hpad']; pruns.
  all: try (destruct (b_monitor_thread _); pruns; eauto with pb; fail).
  all: destruct (env_linked _ _); pruns; eauto with pb.
  all: eapply runs_mono; [by apply inv_start_loop|]; intros ? ? ?; by prun.
Qed.

Lemma chain_ok p l b :
  pb_inv F (Some p) b -> holds_at F p l ->
  runs (progress_buffer_chain env p l) b
    (fun r b' => pb_inv F (if flow_ok r then Some (p + alen l) else None) b').
Proof using HF.
  intros Hi Hl. unfold progress_buffer_chain. prun.
  set (src r := if flow_ok r then Some (p + alen l) else None).
  assert (runs (if b_eos (id b) || b_unexpected (id b) then mret GST_FLOW_UNEXPECTED
                else enqueue_buffer env p l) b (fun r b' => pb_inv F (src r) b')) as Hq.
  { destruct (_ || _).
    - prun. exact (inv_stopped _ _ _ Hi).
    - eapply runs_mono; [by apply enqueue_data_ok|]. by intros r b' [-> Hb']. }
  apply runs_mbind. eapply runs_mono; [exact Hq|]. intros r b' Hb'. pruns; [|by apply Hb'].
  eapply runs_mono; [apply create_pad_ok; [exact Hb'|]|].
  - by apply negb_true_iff.
  - intros ? ? ?. by prun.
Qed.

(** The end of the source. *)
Lemma eos_ok src b :
  pb_inv F src b -> runs (progress_buffer_sink_event env EosEvent) b (fun _ => pb_inv F None).
Proof.
  intros Hi. unfold progress_buffer_sink_event. cbn [serialized]. prun. destruct (b_eos b).
  { prun. eauto with pb. }
  prun. cbn [enqueue_event]. unfold enqueue_eos. prun. prun.
  prun. apply (signal_message_ok F None); [|by intros ? ?; prun].
  cbn. apply inv_stopped in Hi. destruct (_ <? _); [|eauto with pb].
  destruct Hi as [(c & H1 & H2 & H3 & H4 & H5 & H6 & H7) Ht Hd Hf Hx Hz]. split; try done.
  exists c. cbn. do 5 (split; [done|]). split; [lia|done].
Qed.

(** The source goes on elsewhere. *)
Definition restart_ok (n : NewSegmentEvent) : Prop :=
  n_update n = false /\ n_format n = GST_FORMAT_BYTES /\ rate_positive (n_rate n) = true /\
  0 <= n_start n < n_stop n /\ n_stop n = alen F /\ seekable = true.

Lemma positive_not_zero r : rate_positive r = true -> SFeqb r (S754_zero false) = false.
Proof. by destruct r as [[]|[]| |[]]. Qed.

Lemma restart_step_ok n src b :
  pb_inv F src b -> b_srcpad b = true -> restart_ok n ->
  runs (progress_buffer_sink_event env (SegmentEvent n)) b
    (fun r b' => pb_inv F (if r then Some (n_start n) else None) b').
Proof using HF.
  intros Hi Hpad (Hu & Hfmt & Hrate & Hn & Hstop & Hsk). unfold progress_buffer_sink_event. cbn [serialized]. prun.
  destruct (b_eos b); [prun; eauto with pb|].
  prun. cbn [enqueue_event]. unfold enqueue_segment. prun.
  rewrite Hfmt, bool_decide_false by (intros Hne; by apply Hne). prun.
  eapply runs_insist.
  { unfold sub64. rewrite decide_True; [done|]. unfold is_i64. lia. }
  rewrite (proj2 (Z.leb_gt _ _)) by lia. rewrite Hu. unfold the_cache. pruns.
  pose proof Hi as [(c & Hc & Hok & Hat & Hst & Hls & Hle & Hp) Ht Hd Hf Hx Hz].
  destruct (bc_rewind_ok c Hok) as (c1 & E1 & Hok1 & Hb1 & Hp1).
  destruct (bc_set_read_ok c1 0 Hok1) as (c2 & E2 & Hok2 & Hb2 & Hp2); [lia|].
  eapply runs_insist; [exact Hc|]. pruns. cbn [negb]. pruns.
  apply (signal_message_ok F (Some (n_start n))); [|by intros ? ?; prun].
  rewrite E1. cbn [snd]. rewrite E2. cbn [snd].
  split; [| exact Ht | | |exact Hx|by rewrite Hsk].
  - exists c2. cbn. unfold gst_segment_set_newsegment.
    rewrite positive_not_zero, andb_false_r, Hu, Hrate, Hb2, Hb1 by done. cbn.
    do 2 (split; [done|]). split; [split; [lia|apply prefix_nil]|].
    split; [done|]. change (alen []) with 0. split; [lia|]. split; [lia|]. intros ? [= <-]. lia.
  - intros c' [= <-]. cbn. rewrite Hp2. lia.
  - by apply pad_fresh.
Qed.

(** ** Seeks *)

Lemma inv_refused src b r :
  flow_ok r = false -> b_srcpad b = true -> pb_inv F src b -> pb_inv F src (set_srcresult r b).
Proof.
  intros Hr Hpad [H1 H2 H3 H4 H5 H6]. split; try done.
  - unfold task_ok in *. cbn. destruct (b_task b); naive_solver.
  - intros c Hc. specialize (H3 c Hc). cbn in *. destruct (b_pending_src_event b) as [[]|]; try done.
    all: intros Hins p Hp; apply H3; [done|]; unfold next_known in *; cbn in *.
    all: rewrite Hr in Hp; by destruct (b_task b) as [|[]| | |].
  - by apply pad_fresh.
Qed.

Lemma seek_begin_ok k src b :
  pb_inv F src b -> b_srcpad b = true -> runs (push_seek_begin env k) b (fun _ => pb_inv F src).
Proof.
  intros Hi Hpad. unfold push_seek_begin.
  destruct (_ || _); [by prun|]. destruct (bool_decide _); [pruns; eauto with pb|].
  unfold push_event. pruns; (apply inv_quiet; [exact I|]; apply inv_refused; [done|done|]); eauto with pb.
Qed.

(** What holds while a seek is performed. *)
Definition base (src : option Z) (b : PB) : Prop :=
  held F src b /\ task_ok F b /\ faithful F (b_trace b) /\ b_srcpad b = true /\
  (seekable = false -> b_cache_read_offset b = 0).

Lemma inv_base src b : pb_inv F src b -> b_srcpad b = true -> base src b.
Proof. by intros []. Qed.

Lemma base_waits src b :
  base src b -> b_instant_seek b = false -> b_pending_src_event b = None -> pb_inv F src b.
Proof.
  intros (H1 & H2 & H3 & H4 & H5) Hins Hpend. split; try done.
  - intros c Hc. cbn. rewrite Hpend. congruence.
  - by apply pad_fresh.
Qed.

(** A jump in the cache to a position of it, or before what it will get. *)
Lemma jump_ok rate position src b :
  base src b -> b_cache_read_offset b <= position < 9223372036854775808 ->
  runs (jump rate position) b (fun _ b' => pb_inv F src b' /\ b_srcpad b' = true).
Proof.
  intros ((c & Hc & Hok & Hat & Hrest) & Ht & Hx & Hpad & Hz) Hp. unfold jump, the_cache. pruns.
  pose proof Hat as [Ho _].
  eapply runs_insist; [exact Hc|]. pruns.
  destruct (bc_set_read_ok c (position - b_cache_read_offset b) Hok) as (c1 & E1 & Hok1 & Hb1 & Hp1); [lia|].
  eapply runs_insist.
  { unfold sub64. rewrite decide_True; [done|]. unfold is_i64. lia. }
  pruns. rewrite E1. cbn [snd]. split; [|done]. split; [|exact Ht| | |exact Hx|exact Hz].
  - exists c1. cbn. by rewrite Hb1.
  - intros c' [= <-]. cbn. rewrite Hp1. lia.
  - by apply pad_fresh.
Qed.

Definition at_boundary (b : PB) : bool := match b_task b with Idle | Paused => true | _ => false end.

Lemma instant_ok position b (Q : bool -> PB -> Prop) src :
  held F src b -> 0 <= position < 9223372036854775808 ->
  (forall r, (r = true -> b_cache_read_offset b <= position) -> Q r b) ->
  runs (seek_is_instant position) b Q.
Proof using HF.
  intros (c & Hc & Hok & Hat & Hst & Hls & Hle & _) Hp HQ. unfold seek_is_instant. prun. cbn [id].
  rewrite Hst. destruct (Z.leb_spec (b_cache_read_offset b) position); [|by prun; apply HQ].
  prun. eapply runs_insist.
  { unfold sub64. rewrite decide_True; [done|]. unfold is_i64, alen in *. destruct Hat as [? _]. lia. }
  prun. by apply HQ.
Qed.

Lemma inv_restarts src b (Q : unit -> PB -> Prop) :
  pb_inv F src b -> b_srcpad b = true -> (forall b', pb_inv F src b' -> Q tt b') ->
  runs (start_loop env) b (fun _ b' => runs (mret tt) b' Q).
Proof.
  intros Hi Hpad HQ. eapply runs_mono; [by apply inv_start_loop|]. intros ? ? ?. prun. by apply HQ.
Qed.

(** Where the source does not accept a seek, the position is in the cache or ahead of it. *)
Context (Hseek : forall tr rate p, env_push_event env tr (SeekSource rate p) = seekable).

Lemma base_quiet src b e : quiet e -> base src b -> base src (set_trace (e :: b_trace b) b).
Proof.
  intros He (H1 & H2 & H3 & H4). split; [done|]. split; [|split; [by apply faithful_quiet|done]].
  unfold task_ok in *. cbn [b_task set_trace b_trace b_srcresult]. by rewrite flow_pos_quiet.
Qed.

Lemma seek_source_ok k src b :
  base src b -> b_instant_seek b = false -> b_pending_src_event b = None ->
  0 <= k_start k < 9223372036854775808 ->
  runs (seek_source env k) b (fun _ b' => pb_inv F src b' /\ b_srcpad b' = true).
Proof using Hseek.
  intros Hb Hins Hpend Hk. pose proof Hb as (_ & _ & _ & Hpad & Hoff).
  apply (base_quiet _ _ (SeekSource (k_rate k) (k_start k))) in Hb; [|exact I].
  unfold seek_source, push_event. do 4 prun; rewrite Hseek in *.
  - prun. apply jump_ok; [exact Hb|]. cbn. rewrite Hoff; [lia|by apply negb_true_iff].
  - split; [by apply base_waits|done].
Qed.

Lemma seek_perform_ok k src b :
  pb_inv F src b -> b_srcpad b = true -> at_boundary b = true ->
  0 <= k_start k < 9223372036854775808 ->
  runs (push_seek_perform env k) b (fun _ => pb_inv F src).
Proof using HF Hseek.
  intros Hi Hpad Hb Hk. unfold push_seek_perform. prun. prun.
  assert (base src (set_srcresult GST_FLOW_OK b)) as Hbase.
  { destruct Hi as [H1 H2 H3 H4 H5 H6]. split; [done|]. split; [|done].
    unfold task_ok, at_boundary in *. cbn. by destruct (b_task b). }
  eapply instant_ok; [apply Hbase|done|]. intros instant Hins. prun. prun. destruct instant.
  { eapply runs_mono; [apply jump_ok; [exact Hbase|split; [by apply Hins|lia]]|].
    intros _ b1 [Hb1 Hpad1]. unfold push_event. pruns; try done;
      (eapply inv_restarts; [|done|done]); eauto with pb. }
  unfold reset_eos, push_event. do 4 prun; prun; cbn [negb only_if].
  1: do 3 prun; apply runs_mbind.
  all: try done.
  all: eapply runs_mono; [apply seek_source_ok; try done|].
  all: intros _ b1 [Hb1 Hpad1]; prun; by eapply inv_restarts.
Qed.

(** ** The task *)

(** What a step of the task has to give, where neither cache nor pending event change. *)
Lemma inv_moves src b b' :
  pb_inv F src b -> b_srcpad b' = true ->
  b_cache b' = b_cache b -> b_cache_read_offset b' = b_cache_read_offset b ->
  b_sink_segment b' = b_sink_segment b -> b_pending_src_event b' = b_pending_src_event b ->
  b_instant_seek b' = b_instant_seek b ->
  task_ok F b' -> faithful F (b_trace b') ->
  (forall p, next_known b' = Some p -> next_known b = Some p) ->
  pb_inv F src b'.
Proof.
  intros [H1 H2 H3 H4 H5 H6] Hpad E1 E2 E3 E4 E5 Ht Hx Hn. split; try done.
  - unfold held in *. by rewrite E1, E2, E3.
  - unfold due in *. rewrite E1, E2, E4, E5. intros c Hc. specialize (H3 c Hc). cbn in *.
    destruct (b_pending_src_event b) as [[]|]; auto.
  - by apply pad_fresh.
  - by rewrite E2.
Qed.

Lemma take_event_ok skip e src b :
  pb_inv F src b -> b_srcpad b = true -> b_pending_src_event b = Some e ->
  runs (take_event skip e) b (fun _ => pb_inv F src).
Proof.
  intros [H1 H2 H3 H4 H5 H6] Hpad He. unfold take_event. prun. prun.
  pose proof H1 as (c & Hc & _). pose proof (H3 c Hc) as Hd. cbn in Hd. rewrite He in Hd.
  destruct e; try done; pruns; split; try done.
  - by right.
  - by apply pad_fresh.
  - left. exists n. split; [done|]. split; [done|]. destruct H1 as (c' & Hc' & Hok & [Ho _] & _).
    replace c' with c in * by congruence. pose proof (bc_position_ok c Hok). lia.
  - intros c' Hc'. cbn in *. intros _ p [= <-]. congruence.
  - by apply pad_fresh.
Qed.

Lemma read_item_ok skip src b c :
  pb_inv F src b -> b_srcpad b = true -> b_pending_src_event b = None -> b_instant_seek b = true ->
  b_cache b = Some c -> bc_position c < alen (bc_bytes c) ->
  (skip = false -> next_known b = Some (flow_pos (b_trace b))) ->
  runs (read_item skip) b (fun _ => pb_inv F src).
Proof using HF.
  intros [H1 H2 H3 H4 H5 H6] Hpad Hpend Hins Hc Hlt Hn.
  destruct H1 as (c0 & Hc0 & Hok & Hat & Hst & Hls & Hle & Hp). replace c0 with c in * by congruence.
  destruct (bc_read_ok c Hok Hlt) as (l & c' & E & Hok' & Hb' & Hp' & Hl0 & Hpre).
  pose proof (H3 c Hc) as Hd. cbn in Hd. rewrite Hpend in Hd.
  pose proof (bc_position_ok c Hok) as [Hpos _]. pose proof Hat as [Ho Hato].
  assert (bc_position c + alen l <= alen (bc_bytes c)) as Hend.
  { apply prefix_length in Hpre. rewrite length_drop in Hpre. unfold alen in *. lia. }
  unfold read_item, the_cache. pruns. eapply runs_insist; [exact Hc|]. rewrite E. prun. prun.
  eapply runs_insist; [done|]. prun. cbn -[alen].
  rewrite (u64_id (bc_position c + alen l + b_cache_read_offset b)) by (unfold is_u64; lia).
  rewrite u64_id by (unfold is_u64; lia).
  set (off := bc_position c + alen l + b_cache_read_offset b - alen l).
  assert (off = b_cache_read_offset b + bc_position c) as Eoff by (unfold off; lia).
  assert (forall e, e = None \/ e = Some EosEvent ->
    pb_inv F src (set_task (if skip then NextItem true else PushingData off l)
      (set_pending_src_event e (set_cache (Some c') b)))) as Hgoal.
  { intros e He. split; try done.
    - exists c'. cbn. rewrite Hb'. done.
    - unfold task_ok. cbn. destruct skip; [done|]. split.
      + rewrite Eoff. symmetry. by apply Hd, Hn.
      + rewrite Eoff. by apply holds_at_piece with (bc_bytes c); [|lia|].
    - intros c1 [= <-]. cbn. unfold next_known. cbn. rewrite Hp'.
      destruct skip; destruct He as [-> | ->]; intros _ p; try done; intros [= <-]; lia.
    - by apply pad_fresh. }
  pruns.
  - apply Hgoal. by right.
  - specialize (Hgoal None (or_introl eq_refl)).
    replace (set_pending_src_event None (set_cache (Some c') b)) with (set_cache (Some c') b) in Hgoal; [done|].
    unfold set_pending_src_event, set_cache. cbn. by rewrite Hpend.
Qed.

(** Whether the task waits. *)
Lemma must_wait_ok src b (Q : bool -> PB -> Prop) :
  pb_inv F src b ->
  (flow_ok (b_srcresult b) = true -> b_pending_src_event b = None ->
   (forall c, b_cache b = Some c -> b_instant_seek b = true -> alen (bc_bytes c) <= bc_position c) ->
   Q true b) ->
  ((flow_ok (b_srcresult b) = true -> b_pending_src_event b = None ->
     exists c, b_cache b = Some c /\ bc_position c < alen (bc_bytes c) /\ b_instant_seek b = true) ->
   Q false b) ->
  runs must_wait b Q.
Proof.
  intros [(c & Hc & Hok & _) _ _ _ _ _] Ht Hf. unfold must_wait. prun. cbn [id].
  destruct (flow_ok (b_srcresult b)) eqn:Er; [|by prun; apply Hf].
  destruct (b_pending_src_event b) eqn:Ep; [by prun; apply Hf|].
  unfold the_cache. pruns. eapply runs_insist; [exact Hc|]. prun.
  rewrite (bc_has_ok c Hok). destruct (Z.ltb_spec (bc_position c) (alen (bc_bytes c))).
  2: { apply Ht; [done..|]. intros c' Hc' _. by replace c' with c by congruence. }
  destruct (b_instant_seek b); [|by apply Ht]. apply Hf. intros _ _. by exists c.
Qed.

Lemma next_item_ok skip src b :
  pb_inv F src b -> b_srcpad b = true ->
  b_task b = NextItem skip \/ b_task b = Idle /\ skip = false ->
  runs (next_item skip) b (fun _ => pb_inv F src).
Proof using HF.
  intros Hi Hpad Ht. unfold next_item. prun.
  assert (skip = false -> flow_ok (b_srcresult b) = true -> next_known b = Some (flow_pos (b_trace b))) as Hn.
  { intros -> Hr. unfold next_known. destruct Ht as [-> | [-> _]]; by rewrite Hr. }
  assert (task_ok F (set_task (NextItem skip) b)) as Hto by done.
  eapply must_wait_ok; [exact Hi| |].
  - intros Hr Hp _. prun.
    assert (pb_inv F src (set_task (NextItem skip) b)) as Hi'.
    { eapply inv_moves; [exact Hi|done..|apply Hi|]. intros p. unfold next_known at 1. cbn.
      rewrite Hr. destruct skip; [done|]. intros [= <-]. by apply Hn. }
    unfold send_underrun_message. prun; [prun|]; prun; [|done].
    by apply (inv_quiet _ _ _ Underrun) in Hi'.
  - intros Hw. prun. cbn [id]. destruct (flow_ok (b_srcresult b)) eqn:Er.
    + destruct (b_pending_src_event b) eqn:Ep; [by apply take_event_ok|].
      destruct (Hw eq_refl eq_refl) as (c & Hc & Hlt & Hins).
      eapply read_item_ok; try done. auto.
    + unfold task_ends. change (flow_ok GST_FLOW_OK) with true. destruct skip; [|rewrite Er]; pruns.
      all: eapply inv_moves; [exact Hi|done..|apply Hi|]; intros p; unfold next_known at 1; cbn;
        by rewrite Er.
Qed.

Lemma loop_ok src b :
  pb_inv F src b -> runs (progress_buffer_loop env) b (fun _ => pb_inv F src).
Proof using HF.
  intros Hi. unfold progress_buffer_loop. prun.
  assert (b_task b = Paused \/ b_srcpad b = true) as [->|Hpad]; [|by prun|].
  { destruct (b_srcpad b) eqn:E; [by right|left]. by destruct (i_fresh _ _ _ Hi E). }
  pose proof (i_task _ _ _ Hi) as Ht. pose proof (i_faithful _ _ _ Hi) as Hx. unfold task_ok in Ht.
  destruct (b_task b) as [|skip|e r|off l|] eqn:Et; [| | | |by prun].
  - apply next_item_ok; auto.
  - apply next_item_ok; auto.
  - unfold push_event, task_ends. destruct Ht as [(n & -> & -> & Hn0)|(-> & -> & Hr)].
    + do 4 prun. change (flow_ok GST_FLOW_OK) with true. prun.
      eapply inv_moves; [exact Hi|done..|]. intros p. unfold next_known. cbn. rewrite Et.
      by destruct (flow_ok _).
    + do 4 prun. change (flow_ok GST_FLOW_UNEXPECTED) with false. pruns.
      eapply inv_moves; [exact Hi|done..|]. intros p. unfold next_known at 1. cbn. by rewrite Hr.
  - destruct Ht as [Hoff Hat]. prun. prun. prun.
    destruct (bool_decide_reflect (env_push env (b_trace b) off l = GST_FLOW_UNEXPECTED)) as [_|Hu].
    + prun. eapply inv_moves; [exact Hi|done..|done].
    + prun. unfold task_ends. destruct (flow_ok _) eqn:Er; pruns.
      all: eapply inv_moves; [exact Hi|done..|]; intros p; unfold next_known; cbn; by rewrite ?Er, Et.
Qed.

(** ** Sequences of steps *)

(** The source delivers a number of bytes, ends, or goes on elsewhere; a seek has two
    parts, between which others run; the task runs until it is out of the lock. *)
Inductive pb_step : Type :=
  | SourceData (n : nat)
  | SourceEos
  | SourceRestarts (n : NewSegmentEvent)
  | SeekBegins (k : SeekEvent)
  | SeekEnds (k : SeekEvent)
  | TaskRuns.

(** The next bytes of the content. *)
Definition content_at (p : Z) (n : nat) : list Z := take n (drop (Z.to_nat p) F).

(** A step, with the offset at which the source goes on.  A step that is not possible
    does nothing: a source that has stopped does not deliver, there are no seeks without
    a pad, and a seek waits for the task. *)
Definition step (s : pb_step) (src : option Z) : P (option Z) :=
  b ← look id;
  match s, src with
  | SourceData n, Some p =>
      r ← progress_buffer_chain env p (content_at p n);
      mret (if flow_ok r then Some (p + alen (content_at p n)) else None)
  | SourceEos, Some _ => progress_buffer_sink_event env EosEvent;; mret None
  | SourceRestarts n, _ =>
      if b_srcpad b then
        r ← progress_buffer_sink_event env (SegmentEvent n);
        mret (if r : bool then Some (n_start n) else None)
      else mret src
  | SeekBegins k, _ => if b_srcpad b then push_seek_begin env k;; mret src else mret src
  | SeekEnds k, _ =>
      if b_srcpad b && at_boundary b then push_seek_perform env k;; mret src else mret src
  | TaskRuns, _ => progress_buffer_loop env;; mret src
  | _, _ => mret src
  end.

Fixpoint play (steps : list pb_step) (src : option Z) : P (option Z) :=
  match steps with
  | [] => mret src
  | s :: steps => src ← step s src; play steps src
  end.

Definition valid_step (s : pb_step) : Prop :=
  match s with
  | SourceRestarts n => restart_ok n
  | SeekEnds k => 0 <= k_start k < 9223372036854775808
  | _ => True
  end.

Lemma step_ok s src b :
  pb_inv F src b -> valid_step s -> runs (step s src) b (fun src' => pb_inv F src').
Proof using HF Hseek.
  intros Hi Hs. unfold step. prun. cbn [id].
  destruct s as [n| |n|k|k|]; [destruct src as [p|]; [|by prun]|destruct src; [|by prun]| | | |]; cbn in Hs.
  - prun. pose proof Hi as [(c & _ & _ & [Ho _] & _ & Hls & _ & Hp) _ _ _ _ _].
    destruct (Hp p eq_refl) as [Hpl _].
    eapply runs_mono; [apply chain_ok; [exact Hi|]|by intros r b' Hb'; prun].
    split; [unfold alen in *; lia|]. eexists. symmetry. apply take_drop.
  - prun. eapply runs_mono; [by eapply eos_ok|by intros r b' Hb'; prun].
  - destruct (b_srcpad b) eqn:Ep; [|by prun]. prun.
    eapply runs_mono; [by eapply restart_step_ok|by intros r b' Hb'; prun].
  - destruct (b_srcpad b) eqn:Ep; [|by prun]. prun.
    eapply runs_mono; [eapply seek_begin_ok; [exact Hi|done]|by intros r b' Hb'; prun].
  - destruct (b_srcpad b) eqn:Ep; cbn [andb]; [|by prun]. destruct (at_boundary b) eqn:Eb; [|by prun]. prun.
    eapply runs_mono; [by apply seek_perform_ok|by intros r b' Hb'; prun].
  - prun. eapply runs_mono; [by apply loop_ok|by intros r b' Hb'; prun].
Qed.

Lemma play_ok steps src b :
  pb_inv F src b -> Forall valid_step steps -> runs (play steps src) b (fun src' => pb_inv F src').
Proof using HF Hseek.
  intros Hi Hs. revert src b Hi. induction Hs as [|s steps Hs _ IH]; intros src b Hi; cbn [play]; prun.
  { done. }
  eapply runs_mono; [by apply step_ok|]. intros src' b' Hb'. by apply IH.
Qed.

(** The segment with which a source begins. *)
Definition first_segment (n : NewSegmentEvent) : Prop :=
  n_update n = true /\ n_format n = GST_FORMAT_BYTES /\ rate_positive (n_rate n) = true /\
  n_start n = 0 /\ n_stop n = alen F /\ 0 < alen F.

Lemma begin_ok n :
  first_segment n -> env_create env [] = true ->
  runs (progress_buffer_sink_event env (SegmentEvent n)) progress_buffer_init (fun _ => pb_inv F (Some 0)).
Proof using HF.
  intros (Hu & Hfmt & Hrate & Hn & Hstop & H0) Hcr. unfold progress_buffer_sink_event. cbn [serialized].
  prun. cbn [progress_buffer_init b_eos]. prun. cbn [enqueue_event]. unfold enqueue_segment. prun.
  rewrite Hfmt, bool_decide_false by (intros Hne; by apply Hne). prun.
  eapply runs_insist.
  { unfold sub64. rewrite decide_True; [done|]. unfold is_i64. lia. }
  rewrite (proj2 (Z.leb_gt _ _)) by lia. rewrite Hu.
  destruct bc_create_ok as (c & Ec & Hok & Hb & Hp).
  do 4 prun. cbn. rewrite Hcr, Ec. pruns. cbn [negb]. pruns.
  apply (signal_message_ok F (Some 0)); [|by intros ? ?; prun].
  split; try done.
  - exists c. cbn. unfold gst_segment_set_newsegment.
    rewrite positive_not_zero, andb_false_r, Hu, Hn, Hb by done. cbn.
    do 2 (split; [done|]). split; [split; [lia|apply prefix_nil]|].
    destruct (_ && _) eqn:E; [|split; [done|split; [done|]]; split; [lia|]; intros ? [= <-]; lia].
    apply andb_true_iff in E as [_ E%Z.ltb_lt]. lia.
  - intros c' [= <-]. cbn. by rewrite Hp, Hn.
  - intros _. do 4 (split; [done|]). by intros c' [= <-].
Qed.
End Flow.
