(* ===== verification/PbLive.v ===== *)
(** * A download reaches downstream

    The theorems on the push mode of the buffer: whatever the interleaving, downstream
    gets the content from where the last segment event said; when all the content has
    been received, a task that downstream accepts data from pushes the rest of it and
    then the end of the stream, in a number of steps that the size bounds. *)

From S2P Require Import Prelude.
From S2P Require Import Mem.
From S2P Require Import FlvMetadata.
From S2P Require Import ProgressBuffer.
From S2P Require Import PbFlow.
From Stdlib Require Import SpecFloat.

Open Scope Z_scope.

(** What goes downstream, the last first. *)
Definition downstream (tr : list pb_event) : list pb_event := List.filter goes_down tr.

Definition is_data (e : pb_event) : Prop := match e with PushData _ _ => True | _ => False end.

(** The data of the buffers since the last segment event. *)
Fixpoint pushed (tr : list pb_event) : list Z :=
  match tr with
  | [] => []
  | PushData _ l :: tr => pushed tr ++ l
  | PushEvent (SegmentEvent _) :: _ => []
  | _ :: tr => pushed tr
  end.

(** Where the current segment starts. *)
Fixpoint segment_pos (tr : list pb_event) : Z :=
  match tr with
  | [] => 0
  | PushEvent (SegmentEvent n) :: _ => n_start n
  | _ :: tr => segment_pos tr
  end.

(** The end and the data of a faithful flow. *)
Lemma faithful_pushed F tr :
  faithful F tr -> flow_pos tr = segment_pos tr + alen (pushed tr) /\
  holds_at F (segment_pos tr) (pushed tr).
Proof.
  induction tr as [|e tr IH]; cbn [faithful].
  { intros _. split; [done|]. split; [done|apply prefix_nil]. }
  destruct e as [| | | | |off l|[|n| | | |]| | | | | | | |]; try exact IH.
  - intros (-> & Hl & Hx). destruct (IH Hx) as [Hp Hh]. cbn. rewrite Hp.
    split; [unfold alen; rewrite length_app; lia|]. apply holds_at_app; [done|]. by rewrite <- Hp.
  - intros [Hs _]. cbn. split; [unfold alen; cbn; lia|]. split; [done|apply prefix_nil].
Qed.

Lemma data_pushed F tr :
  faithful F tr -> Forall is_data tr -> pushed tr = take (Z.to_nat (flow_pos tr)) F.
Proof.
  intros Hx Hd. destruct (faithful_pushed F tr Hx) as [Hp [_ Hh]].
  assert (segment_pos tr = 0) as E.
  { clear Hx Hp Hh. by induction Hd as [|[] tr He _ IH]. }
  rewrite E in *. rewrite drop_0 in Hh. destruct Hh as [k ->]. rewrite Hp. unfold alen.
  by rewrite Z.add_0_l, Nat2Z.id, take_app_length.
Qed.

Lemma flow_downstream tr : flow_pos (downstream tr) = flow_pos tr.
Proof. induction tr as [|e tr IH]; [done|]. by destruct e as [| | | | | | [] | | | | | | | |]. Qed.

Lemma faithful_downstream F tr : faithful F tr -> faithful F (downstream tr).
Proof.
  induction tr as [|e tr IH]; [done|].
  destruct e as [| | | | | | [] | | | | | | | |]; cbn; rewrite ?flow_downstream; naive_solver.
Qed.

Section Live.
Context {C : Type} `{ByteCache C} (env : Env) (seekable : bool) (F : list Z).
Abbreviation PB := (ProgressBuffer (C := C)).
Abbreviation P := (ST PB).
Context (HF : alen F < 9223372036854775808).
Context (Hseek : forall tr rate p, env_push_event env tr (SeekSource rate p) = seekable).
Context (n : NewSegmentEvent) (Hn : first_segment F n) (Hcreate : env_create env [] = true).

(** The buffer gets its first segment, and then the steps are taken. *)
Definition download (steps : list pb_step) : res (option Z * PB) :=
  (progress_buffer_sink_event env (SegmentEvent n);; play env F steps (Some 0)) progress_buffer_init.

Lemma download_inv steps :
  Forall (valid_step seekable F) steps ->
  exists src b, download steps = Done (src, b) /\ pb_inv seekable F src b.
Proof using HF Hseek Hn Hcreate.
  intros Hs. change (runs (progress_buffer_sink_event env (SegmentEvent n);; play env F steps (Some 0))
    progress_buffer_init (fun src => pb_inv seekable F src)). prun.
  eapply runs_mono; [by apply (begin_ok env seekable F HF n)|]. intros r b Hb. by apply play_ok.
Qed.


(** ** The end of a download *)

Lemma stays_down b b' : stays b b' -> downstream (b_trace b') = downstream (b_trace b).
Proof.
  intros Hst. destruct (st_trace _ _ Hst) as (ms & -> & Hms). unfold downstream. rewrite List.filter_app.
  induction Hms as [|e ms He _ IH]; [done|]. cbn. by rewrite He.
Qed.

Lemma enqueue_stays p l b :
  pb_inv seekable F (Some p) b -> holds_at F p l ->
  runs (if b_eos b || b_unexpected b then mret GST_FLOW_UNEXPECTED else enqueue_buffer env p l) b
    (fun _ b' => stays b b' /\ s_stop (b_sink_segment b') = s_stop (b_sink_segment b)).
Proof using HF.
  intros Hi Hl. destruct (_ || _); [prun; split; [apply stays_refl|done]|].
  eapply runs_mono; [by apply (enqueue_spec env F HF); [apply Hi|]|]. naive_solver.
Qed.

Lemma eos_stays b :
  runs (progress_buffer_sink_event env EosEvent) b (fun _ b' => stays b b' /\
    (b_sink_segment b' = b_sink_segment b \/
     s_stop (b_sink_segment b') < s_stop (b_sink_segment b))).
Proof.
  pose proof (stays_refl b) as Hb.
  unfold progress_buffer_sink_event. cbn [serialized]. prun. destruct (b_eos b).
  { prun. auto. }
  prun. cbn [enqueue_event]. unfold enqueue_eos. prun. prun. cbn. prun.
  destruct (Z.ltb_spec (s_last_stop (b_sink_segment b)) (s_stop (b_sink_segment b))).
  all: apply (stays_message _ b); [by split; try apply Hb|intros b1 Hb1 Es _ _; prun].
  all: rewrite Es; split; [exact Hb1|]; cbn; auto.
Qed.

(** Where the cache is read. *)
Definition position (b : PB) : Z :=
  b_cache_read_offset b + match b_cache b with Some c => bc_position c | None => 0 end.

(** The task while it passes a content on from its beginning. *)
Definition running (b : PB) : Prop :=
  let ds := downstream (b_trace b) in
  b_instant_seek b = true /\ position b <= alen F /\
  match b_task b with
  | Idle | NextItem false | PushingData _ _ =>
      b_srcresult b = GST_FLOW_OK /\ Forall is_data ds /\
      b_pending_src_event b = if position b =? alen F then Some EosEvent else None
  | PushingEvent EosEvent GST_FLOW_UNEXPECTED =>
      Forall is_data ds /\ flow_pos ds = alen F
  | Paused => exists ds', ds = PushEvent EosEvent :: ds' /\ Forall is_data ds' /\ flow_pos ds' = alen F
  | _ => False
  end.

(** The steps that it has left. *)
Definition steps_left (b : PB) : Z :=
  match b_task b with
  | Idle | NextItem _ => 2 * (alen F - position b) + 2
  | PushingData _ _ => 2 * (alen F - position b) + 3
  | PushingEvent _ _ => 1
  | Paused => 0
  end.

Lemma running_stays b b' src : pb_inv seekable F src b -> stays b b' -> running b -> running b'.
Proof.
  intros [(c & Hc & Hok & _) _ _ _ _ _] Hst (H1 & H2 & H3).
  pose proof (stays_down _ _ Hst) as E7. destruct Hst as [E1 E2 E3 E4 E5 E6 _ _ E8].
  destruct (E8 c Hc Hok) as (c' & Hc' & Ep).
  assert (position b' = position b) as Epos by (unfold position; by rewrite Hc, Hc', E6, Ep).
  unfold running. by rewrite E2, E3, E4, E5, E7, Epos.
Qed.

Context (Haccept : forall tr off l, env_push env tr off l = GST_FLOW_OK).

(** A step at [next_item]. *)
Lemma next_item_running src b :
  pb_inv seekable F src b -> running b -> b_task b = NextItem false \/ b_task b = Idle ->
  s_stop (b_sink_segment b) = alen F ->
  runs (next_item false) b (fun _ b' => running b' /\ b_sink_segment b' = b_sink_segment b /\
    (s_last_stop (b_sink_segment b) = alen F -> steps_left b' < steps_left b)).
Proof using HF.
  intros Hi (Hins & Hple & Hrun) Ht Hstop. unfold next_item. prun.
  pose proof Hi as [(c & Hc & Hok & Hat & Hst & Hls & _) _ Hd _ _ _]. pose proof Hat as [Ho _].
  assert (b_srcresult b = GST_FLOW_OK /\ Forall is_data (downstream (b_trace b)) /\
    b_pending_src_event b = (if position b =? alen F then Some EosEvent else None)) as (Hr & Hds & Hp).
  { by destruct Ht as [Ht|Ht]; rewrite Ht in Hrun. }
  assert (steps_left b = 2 * (alen F - position b) + 2) as Hleft.
  { unfold steps_left. by destruct Ht as [-> | ->]. }
  assert (position b = flow_pos (b_trace b)) as Hflow.
  { specialize (Hd c Hc). cbn in Hd. unfold position. rewrite Hc.
    assert (next_known b = Some (flow_pos (b_trace b))) as Hn1
      by (unfold next_known; rewrite Hr; by destruct Ht as [-> | ->]).
    symmetry. destruct (b_pending_src_event b) as [[]|]; try by eapply Hd.
    all: by destruct (_ =? _). }
  assert (position b = b_cache_read_offset b + bc_position c) as Hpos by (unfold position; by rewrite Hc).
  eapply must_wait_ok; [exact Hi| |].
  - intros _ Hp0 Hw. specialize (Hw c Hc Hins). rewrite Hp0 in Hp.
    destruct (Z.eqb_spec (position b) (alen F)) as [|Hne]; [done|].
    prun. unfold send_underrun_message. rewrite Hins. cbn [only_if]. pruns.
    split; [|split; [done|intros Hall; lia]].
    split; [done|]. split; [done|]. cbn. split; [done|]. split; [done|].
    change (position _) with (position b). by rewrite (proj2 (Z.eqb_neq _ _)).
  - intros Hw. prun. cbn [id]. rewrite Hr, Hp in Hw |- *.
    change (flow_ok GST_FLOW_OK) with true in Hw |- *. clear Hrun. cbn iota.
    destruct (Z.eqb_spec (position b) (alen F)) as [He|Hne].
    + unfold take_event. pruns. split; [|split; [done|]].
      * split; [done|]. split; [done|]. cbn. split; [done|]. rewrite flow_downstream. congruence.
      * intros _. rewrite Hleft. unfold steps_left. cbn. lia.
    + destruct (Hw eq_refl eq_refl) as (c0 & Hc0 & Hlt & _). replace c0 with c in * by congruence.
      destruct (bc_read_ok c Hok Hlt) as (l & c' & E & Hok' & Hb' & Hp' & Hl0 & Hpre).
      assert (bc_position c + alen l <= alen (bc_bytes c)) as Hend.
      { apply prefix_length in Hpre. rewrite length_drop in Hpre. unfold alen in *. lia. }
      pose proof (bc_position_ok c Hok) as [Hpos0 _].
      assert (b_cache_read_offset b + alen (bc_bytes c) <= alen F) as Hall by (apply holds_at_len; [done|lia]).
      unfold read_item, the_cache. pruns. eapply runs_insist; [exact Hc|]. rewrite E. prun. prun.
      eapply runs_insist; [done|]. prun. cbn -[alen].
      rewrite (u64_id (bc_position c + alen l + b_cache_read_offset b)) by (unfold is_u64; lia).
      rewrite Hstop, (u64_id (alen F)) by (unfold is_u64; lia).
      pruns; (split; [|split; [done|intros _; rewrite Hleft, Hpos; unfold steps_left; cbn -[alen Z.mul];
        unfold position; cbn -[alen Z.mul]; rewrite Hp'; lia]]).
      all: split; [done|]; unfold position; cbn -[alen]; rewrite Hp'; split; [lia|].
      all: split; [done|]; split; [done|].
      all: match goal with H : (_ =? _) = _ |- _ =>
        replace (b_cache_read_offset b + (bc_position c + alen l))
          with (bc_position c + alen l + b_cache_read_offset b) by lia; rewrite H end; done.
Qed.

Lemma loop_running src b :
  pb_inv seekable F src b -> running b -> s_stop (b_sink_segment b) = alen F ->
  runs (progress_buffer_loop env) b (fun _ b' => running b' /\ b_sink_segment b' = b_sink_segment b /\
    (s_last_stop (b_sink_segment b) = alen F -> steps_left b' < steps_left b \/ b_task b = Paused /\ b' = b)).
Proof using HF Haccept.
  intros Hi Hrun Hstop. unfold progress_buffer_loop. prun.
  assert (forall skip, skip = false -> b_task b = NextItem skip \/ b_task b = Idle ->
    runs (next_item skip) b (fun _ b' => running b' /\ b_sink_segment b' = b_sink_segment b /\
    (s_last_stop (b_sink_segment b) = alen F ->
     steps_left b' < steps_left b \/ b_task b = Paused /\ b' = b))) as Hnext.
  { intros skip -> Ht. eapply runs_mono; [by eapply next_item_running|]. naive_solver. }
  pose proof Hrun as (Hins & Hple & Hr).
  destruct (b_task b) as [|[]|[] []|off l|] eqn:Et; try done; try (apply Hnext; auto).
  - destruct Hr as [Hds Hfl]. unfold push_event, task_ends. do 4 prun.
    change (flow_ok GST_FLOW_UNEXPECTED) with false. pruns. split; [|split; [done|]].
    + split; [done|]. split; [done|]. cbn. eauto.
    + intros _. left. unfold steps_left. rewrite Et. cbn. lia.
  - destruct Hr as (Hr & Hds & Hp). prun. prun. prun. rewrite Haccept, bool_decide_false by done. prun.
    unfold task_ends. change (flow_ok GST_FLOW_OK) with true. prun.
    split; [|split; [done|]].
    + split; [done|]. split; [done|]. cbn. split; [done|]. split; [by constructor|done].
    + intros _. left. unfold steps_left. rewrite Et. cbn -[Z.mul]. change (position _) with (position b). lia.
  - prun. auto.
Qed.

(** The pad is linked when it is added, and pushes. *)
Context (Hpush : forall tr, env_activated env tr <> Some true) (Hlinked : forall tr, env_linked env tr = true).

Definition alive (b : PB) : Prop :=
  s_stop (b_sink_segment b) = alen F ->
  if b_srcpad b then running b
  else b_instant_seek b = true /\ downstream (b_trace b) = [] /\ s_last_stop (b_sink_segment b) = 0.

Lemma create_running src b :
  pb_inv seekable F src b -> b_srcpad b = false -> b_instant_seek b = true -> downstream (b_trace b) = [] ->
  runs (progress_buffer_create_sourcepad env) b
    (fun _ b' => running b' /\ b_srcpad b' = true /\ b_sink_segment b' = b_sink_segment b).
Proof using Hn Hpush Hlinked.
  intros Hi Hpad Hins Hds. destruct (i_fresh _ _ _ _ Hi Hpad) as (Ht & Hr & Hflow & Hoff & Hpos).
  unfold progress_buffer_create_sourcepad. do 3 prun. specialize (Hpush (b_trace
    (set_trace (AddSourcePad :: b_trace (set_srcpad true b)) (set_srcpad true b)))).
  destruct Hn as (_ & _ & _ & _ & _ & H0).
  destruct (env_activated _ _) as [[]|]; [done| |];
    unfold progress_buffer_activatepush_src, activate_state, reset_eos; pruns; rewrite Hlinked;
    unfold start_loop; pruns; cbn; rewrite Ht.
  all: split; [|done]; split; [done|]; cbn.
  all: assert (position (set_task Idle (set_trace [] b)) = 0) as Hp0
    by (unfold position; cbn; rewrite Hoff; destruct (b_cache b) as [c|] eqn:Ec; [by rewrite (Hpos c)|done]).
  all: unfold position in *; cbn in *; rewrite Hp0; rewrite (proj2 (Z.eqb_neq 0 (alen F))) by lia.
  all: fold (downstream (b_trace b)); rewrite Hds; split; [lia|]; by split.
Qed.

Lemma chain_alive p l b :
  pb_inv seekable F (Some p) b -> holds_at F p l -> alive b ->
  runs (progress_buffer_chain env p l) b (fun _ => alive).
Proof using HF Hn Hpush Hlinked.
  intros Hi Hl Ha. unfold progress_buffer_chain. prun. apply runs_mbind. cbn [id].
  set (m := if b_eos b || b_unexpected b then mret GST_FLOW_UNEXPECTED else enqueue_buffer env p l).
  assert (runs m b (fun r b' => pb_inv seekable F (if flow_ok r then Some (p + alen l) else None) b')) as Hq.
  { unfold m. destruct (_ || _).
    - prun. exact (inv_stopped _ _ _ _ Hi).
    - eapply runs_mono; [by apply (enqueue_data_ok env seekable F HF)|]. by intros r b' [-> Hb']. }
  eapply runs_mono; [apply (runs_and _ _ _ _ Hq (enqueue_stays p l b Hi Hl))|].
  intros r b' (Hi' & Hst & Hstop). prun. rewrite (st_pad _ _ Hst). unfold alive in Ha.
  rewrite <- Hstop in Ha. pose proof (i_held _ _ _ _ Hi) as (_ & _ & _ & _ & _ & _ & _ & Hsrc).
  destruct (Hsrc p eq_refl) as [_ Hall]. rewrite <- Hstop in Hall. specialize (Ha Hall).
  destruct (b_srcpad b) eqn:Ep; cbn [negb only_if].
  - pruns. intros _. rewrite (st_pad _ _ Hst), Ep. exact (running_stays b b' _ Hi Hst Ha).
  - destruct Ha as (Hins & Hds & _). prun. eapply runs_mono; [eapply create_running; [exact Hi'|..]|].
    + by rewrite (st_pad _ _ Hst).
    + by rewrite (st_instant _ _ Hst).
    + by rewrite (stays_down _ _ Hst).
    + intros u b2 (Hrun & Hp2 & _). prun. intros _. by rewrite Hp2.
Qed.

Lemma begin_alive :
  runs (progress_buffer_sink_event env (SegmentEvent n)) progress_buffer_init (fun _ => alive).
Proof using HF Hn Hcreate.
  destruct Hn as (Hu & Hfmt & Hrate & Hn0 & Hstop & H0). unfold progress_buffer_sink_event.
  cbn [serialized]. prun. cbn [progress_buffer_init b_eos]. prun. cbn [enqueue_event].
  unfold enqueue_segment. prun. rewrite Hfmt, bool_decide_false by (intros Hne; by apply Hne). prun.
  eapply runs_insist.
  { unfold sub64. rewrite decide_True; [done|]. unfold is_i64. lia. }
  rewrite (proj2 (Z.leb_gt _ _)) by lia. rewrite Hu.
  destruct bc_create_ok as (c & Ec & _). do 4 prun. cbn. rewrite Hcreate, Ec. pruns. cbn [negb]. pruns.
  apply (stays_message _ (set_instant_seek true (set_pending_src_event (Some (SegmentEvent n))
    (set_cache (Some c) progress_buffer_init)))); [split; [done..|by exists []|eauto]|].
  intros b' Hst Es _ _. pose proof (stays_down _ _ Hst) as E3. destruct Hst as [E1 _ _ E2 _ _ _ _ _]. prun. intros _. rewrite E1, E2, E3, Es. cbn.
  unfold gst_segment_set_newsegment. rewrite (positive_not_zero _ Hrate), andb_false_r, Hu, Hn0, Hstop. cbn.
  split; [done|]. split; [done|]. destruct (_ && _) eqn:E; [|done].
  apply andb_true_iff in E as [_ E%Z.ltb_lt]. lia.
Qed.

(** Steps without seeks. *)
Definition plain_step (s : pb_step) : Prop :=
  match s with SourceData _ | SourceEos | TaskRuns => True | _ => False end.

Lemma plain_valid s : plain_step s -> valid_step seekable F s.
Proof. by destruct s. Qed.

(** The task leaves the segment and the pad alone. *)
Lemma loop_segment b u b' :
  progress_buffer_loop env b = Done (u, b') ->
  b_sink_segment b' = b_sink_segment b /\ b_srcpad b' = b_srcpad b.
Proof.
  unfold progress_buffer_loop, next_item, must_wait, take_event, read_item, push_event, task_ends,
    send_underrun_message, the_cache, send, only_if, insist, look, change, mbind, ST_bind, mret, ST_ret.
  intros E. repeat case_match; simplify_eq; done.
Qed.

Lemma loop_alive src b :
  pb_inv seekable F src b -> alive b -> runs (progress_buffer_loop env) b (fun _ => alive).
Proof using HF Haccept.
  intros Hi Ha. destruct (loop_ok env seekable F HF src b Hi) as (u & b' & E & _).
  exists u, b'. split; [done|]. destruct (loop_segment _ _ _ E) as [Es Ep].
  unfold alive in *. rewrite Es, Ep. intros Hall. specialize (Ha Hall). destruct (b_srcpad b) eqn:Epad.
  - destruct (loop_running src b Hi Ha Hall) as (u2 & b2 & E2 & Hrun & _). congruence.
  - destruct (i_fresh _ _ _ _ Hi Epad) as (Ht & _).
    unfold progress_buffer_loop, look, mbind, ST_bind in E. rewrite Ht in E. by injection E as _ <-.
Qed.

Lemma eos_alive src b :
  pb_inv seekable F src b -> alive b -> runs (progress_buffer_sink_event env EosEvent) b (fun _ => alive).
Proof using.
  intros Hi Ha. eapply runs_mono; [apply eos_stays|]. intros r b' [Hst Hstop] Hall.
  pose proof Hi as [(c & _ & _ & _ & _ & _ & Hle & _) _ _ _ _ _].
  destruct Hstop as [Es|]; [|lia]. rewrite Es in Hall |- *. specialize (Ha Hall).
  rewrite (st_pad _ _ Hst), (st_instant _ _ Hst), (stays_down _ _ Hst). destruct (b_srcpad b); [|done].
  exact (running_stays b b' _ Hi Hst Ha).
Qed.

Lemma step_alive s src b :
  pb_inv seekable F src b -> plain_step s -> alive b -> runs (step env F s src) b (fun _ => alive).
Proof using HF Hn Hpush Hlinked Haccept.
  intros Hi Hs Ha. unfold step. prun. cbn [id]. destruct s as [k| | | | |]; try done.
  - destruct src as [p|]; [|by prun]. prun.
    pose proof Hi as [(c & _ & _ & [Ho _] & _ & Hls & _ & Hp) _ _ _ _ _].
    destruct (Hp p eq_refl) as [Hpl _].
    eapply runs_mono; [apply chain_alive; [exact Hi| |done]|by intros r b' Hb'; prun].
    split; [unfold alen in *; lia|]. eexists. symmetry. apply take_drop.
  - destruct src as [p|]; [|by prun]. prun.
    eapply runs_mono; [by eapply eos_alive|by intros r b' Hb'; prun].
  - prun. eapply runs_mono; [by eapply loop_alive|by intros r b' Hb'; prun].
Qed.

Lemma play_alive steps src b :
  pb_inv seekable F src b -> Forall plain_step steps -> alive b ->
  runs (play env F steps src) b (fun src' b' => pb_inv seekable F src' b' /\ alive b').
Proof using HF Hseek Hn Hpush Hlinked Haccept.
  intros Hi Hs. revert src b Hi. induction Hs as [|s steps Hs _ IH]; intros src b Hi Ha; cbn [play]; prun.
  { done. }
  eapply runs_mono; [apply runs_and; [apply step_ok; [done|done|exact Hi|by apply plain_valid]|by apply step_alive]|].
  intros src' b' [Hi' Ha']. by apply IH.
Qed.

Lemma task_step src b :
  pb_inv seekable F src b -> running b -> s_stop (b_sink_segment b) = alen F ->
  runs (step env F TaskRuns src) b (fun src' b' => src' = src /\ pb_inv seekable F src b' /\ running b' /\
    b_sink_segment b' = b_sink_segment b /\ b_srcpad b' = b_srcpad b /\
    (s_last_stop (b_sink_segment b) = alen F -> steps_left b' < steps_left b \/ b_task b = Paused /\ b' = b)).
Proof using HF Haccept.
  intros Hi Hrun Hstop. destruct (loop_ok env seekable F HF src b Hi) as (u & b' & E & Hi').
  destruct (loop_running src b Hi Hrun Hstop) as (u2 & b2 & E2 & Hrun' & Es & Hdec).
  destruct (loop_segment _ _ _ E) as [_ Ep]. exists src, b'. split.
  - unfold step, mbind, ST_bind, look. by rewrite E.
  - rewrite E in E2. by injection E2 as <- <-.
Qed.

(** The task pushes what is left. *)
Lemma tasks_finish k src b :
  pb_inv seekable F src b -> running b -> b_srcpad b = true ->
  s_stop (b_sink_segment b) = alen F -> s_last_stop (b_sink_segment b) = alen F ->
  steps_left b <= Z.of_nat k ->
  runs (play env F (replicate k TaskRuns) src) b (fun src' b' => src' = src /\
    pb_inv seekable F src b' /\ running b' /\ b_task b' = Paused).
Proof using HF Haccept.
  revert b. induction k as [|k IH]; intros b Hi Hrun Hpad Hstop Hlast Hk; cbn [replicate play]; prun.
  { split; [done|]. split; [done|]. split; [done|]. pose proof Hrun as (_ & Hple & _).
    unfold steps_left in Hk. destruct (b_task b); done || lia. }
  eapply runs_mono; [by apply task_step|].
  intros src' b' (-> & Hi' & Hrun' & Es & Hpad' & Hdec). apply IH; try done; try congruence.
  destruct (Hdec Hlast) as [|[Ht ->]]; [lia|]. unfold steps_left. rewrite Ht. lia.
Qed.

(** What a complete download comes to. *)
Lemma download_outcome steps src b :
  Forall plain_step steps -> download steps = Done (src, b) ->
  s_last_stop (b_sink_segment b) = alen F ->
  exists b', play env F (replicate (2 * length F + 3) TaskRuns) src b = Done (src, b') /\
    b_task b' = Paused /\
    exists ds, downstream (b_trace b') = PushEvent EosEvent :: ds /\ Forall is_data ds /\ pushed ds = F /\
      faithful F ds.
Proof using HF Hseek Hn Hcreate Haccept Hpush Hlinked.
  intros Hs Hd Hlast.
  assert (runs (progress_buffer_sink_event env (SegmentEvent n);; play env F steps (Some 0))
    progress_buffer_init (fun src b => pb_inv seekable F src b /\ alive b)) as (src1 & b1 & E & Hi & Ha).
  { prun. eapply runs_mono; [apply runs_and; [by apply (begin_ok env seekable F HF n)|exact begin_alive]|].
    intros r b1 [Hi Ha]. by apply play_alive. }
  unfold download in Hd. rewrite Hd in E. injection E as <- <-.
  pose proof Hi as [(c & Hc & Hok & Hat & _ & Hls & Hle & _) _ _ _ _ _].
  specialize (Ha ltac:(lia)). pose proof Hn as (_ & _ & _ & _ & _ & H0).
  destruct (b_srcpad b) eqn:Epad; [|lia].
  assert (steps_left b <= Z.of_nat (2 * length F + 3)) as Hk.
  { destruct (bc_position_ok c Hok) as [? _]. pose proof Hat as [? _]. pose proof Ha as (_ & ? & _).
    unfold steps_left, position in *. rewrite Hc in *. unfold alen in *. destruct (b_task b); lia. }
  destruct (tasks_finish _ src b Hi Ha Epad ltac:(lia) Hlast Hk) as (src' & b' & E & -> & Hi' & Hrun & Ht).
  exists b'. split; [done|]. split; [done|]. destruct Hrun as (_ & _ & Hrun). rewrite Ht in Hrun.
  destruct Hrun as (ds & Eds & Hds & Hfl). exists ds. split; [done|]. split; [done|].
  pose proof (faithful_downstream _ _ (i_faithful _ _ _ _ Hi')) as Hx. rewrite Eds in Hx.
  split; [|done]. rewrite (data_pushed F) by done. rewrite Hfl. apply take_ge. unfold alen. lia.
Qed.

End Live.
