(* ===== verification/PbPull.v ===== *)
(** * Ranges of a download

    The theorems on the pull mode of the buffer: a range that has arrived is read from
    the cache, a range that has not is refused, and the thread that monitors requests
    reports it when it has arrived; then it is served. *)

From S2P Require Import Prelude.
From S2P Require Import Mem.
From S2P Require Import FlvMetadata.
From S2P Require Import ProgressBuffer.
From S2P Require Import PbFlow.
From Stdlib Require Import SpecFloat.

Open Scope Z_scope.

Section Pull.
Context {C : Type} `{ByteCache C} (env : Env) (F : list Z).
Abbreviation PB := (ProgressBuffer (C := C)).
Abbreviation P := (ST PB).
Context (HF : alen F < 9223372036854775808).

(** The content is received from its beginning, and downstream pulls. *)
Record pulling (src : option Z) (b : PB) : Prop := {
  q_held : held F src b;
  q_offset : b_cache_read_offset b = 0;
  q_result : b_srcresult b = GST_FLOW_OK;
  q_eos : b_eos b = false;
  q_pad : b_srcpad b = true;
}.

(** What has been received, and the size that is expected. *)
Definition received (b : PB) : Z := s_last_stop (b_sink_segment b).
Definition expected (b : PB) : Z := s_stop (b_sink_segment b).

Lemma pulling_read src b c c' :
  pulling src b -> b_cache b = Some c -> bc_ok c' -> bc_bytes c' = bc_bytes c ->
  pulling src (set_cache (Some c') b).
Proof.
  intros [(c0 & Hc0 & _ & Hat & Hrest) Ho Hr He Hp] Hc Hok Hb. replace c0 with c in * by congruence.
  split; try done. exists c'. cbn. rewrite Hb. done.
Qed.

(** The bytes that the cache has are those of the content. *)
Lemma held_bytes c p n :
  holds_at F 0 (bc_bytes c) -> 0 <= p -> 0 <= n -> p + n <= alen (bc_bytes c) ->
  bytes_at (bc_bytes c) p n = bytes_at F p n.
Proof.
  intros [_ [k Hk]] Hp Hn Hle. rewrite drop_0 in Hk. rewrite Hk. unfold bytes_at, alen in *.
  rewrite drop_app_le by lia. rewrite take_app_le; [done|]. rewrite length_drop. lia.
Qed.

(** A range that has arrived. *)
Lemma getrange_arrived src b p n :
  pulling src b -> 0 <= p -> 0 < n -> p + n <= received b ->
  runs (progress_buffer_getrange env p n) b (fun r b' =>
    r = (GST_FLOW_OK, Some (mkRead (bytes_at F p n) p)) /\ pulling src b' /\ received b' = received b /\
    expected b' = expected b).
Proof using HF.
  intros Hq Hp Hn Hle. pose proof Hq as [(c & Hc & Hok & Hat & Hst & Hls & Hstop & _) Ho _ _ _].
  unfold received, expected in *. unfold progress_buffer_getrange. prun. cbn [id].
  rewrite (u64_id (p + n)), !i64_id by (unfold is_u64, is_i64; lia).
  rewrite (proj2 (Z.ltb_ge _ _)), Hst, Ho by lia.
  rewrite (proj2 (Z.leb_le 0 p)), (proj2 (Z.leb_le (p + n) _)) by lia. cbn [andb].
  unfold the_cache. pruns. eapply runs_insist; [exact Hc|].
  rewrite Ho in Hat, Hls. destruct (bc_read_from_ok c p n Hok) as (c' & -> & Hok' & Hb' & _); [lia..|].
  pruns. rewrite held_bytes by (done || lia). split; [done|]. split; [by eapply pulling_read|done].
Qed.

(** The time to buffer ahead of a request gives a number of bytes. *)
Definition prebuffer (b : PB) (extra : Z) : Prop :=
  to_gint64 (double_mul (b_bandwidth b) (b_prebuffer_time b)) = Some extra /\
  0 <= extra < 4611686018427387904.

(** A range that has not arrived yet. *)
Lemma getrange_pending src b p n extra :
  pulling src b -> prebuffer b extra -> 0 <= p < 4611686018427387904 -> 0 < n ->
  received b < p + n <= expected b ->
  expected b < 4611686018427387904 ->
  runs (progress_buffer_getrange env p n) b (fun r b' =>
    r = (GST_FLOW_WRONG_STATE, None) /\ pulling src b' /\ received b' = received b /\
    expected b' = expected b /\ b_range_start b' = b_range_start b /\
    b_range_stop b' = Z.min (p + n + extra) (expected b)).
Proof using.
  intros Hq [Hx Hx0] Hp Hn Hle Hlt. pose proof Hq as [(c & Hc & Hok & Hat & Hst & Hls & Hstop & Hsrc) Ho Hr He Hpad].
  unfold received, expected in *. unfold progress_buffer_getrange. prun. cbn [id].
  rewrite (u64_id (p + n)), !i64_id by (unfold is_u64, is_i64; lia).
  rewrite (proj2 (Z.ltb_ge _ (p + n))), Hst, Ho by lia.
  rewrite (proj2 (Z.leb_le 0 p)), (proj2 (Z.leb_gt (p + n) _)) by lia. cbn [andb].
  rewrite (proj2 (Z.ltb_ge p 0)) by lia. cbn [only_if]. prun. prun.
  rewrite (proj2 (Z.ltb_lt _ (p + n))) by lia. prun.
  eapply runs_insist; [exact Hx|]. cbv beta.
  rewrite (u64_id (p + n + extra)), i64_id by (unfold is_u64, is_i64; lia).
  assert ((if s_stop (b_sink_segment b) <? p + n + extra then s_stop (b_sink_segment b) else p + n + extra)
    = Z.min (p + n + extra) (s_stop (b_sink_segment b))) as ->.
  { destruct (Z.ltb_spec (s_stop (b_sink_segment b)) (p + n + extra)); lia. }
  unfold send_underrun_message, push_event. pruns.
  all: split; [done|]; split; [|done]; split; try done; exists c; done.
Qed.

(** Deliveries. *)
Fixpoint deliver (ks : list nat) (src : option Z) : P (option Z) :=
  match ks with
  | [] => mret src
  | k :: ks => src ← step env F (SourceData k) src; deliver ks src
  end.

Lemma chain_pulling p l b :
  pulling (Some p) b -> holds_at F p l ->
  runs (progress_buffer_chain env p l) b (fun r b' =>
    pulling (if flow_ok r then Some (p + alen l) else None) b' /\ received b <= received b' /\
    expected b' = expected b /\ b_range_start b' = b_range_start b /\ b_range_stop b' = b_range_stop b).
Proof using HF.
  intros Hq Hl. pose proof Hq as [Hh Ho Hr He Hpad]. unfold progress_buffer_chain. prun. cbn [id].
  rewrite He. cbn [orb]. pose proof Hh as (c & _ & _ & _ & _ & Hls & _ & Hp). destruct (Hp p eq_refl) as [Hpl _].
  prun. destruct (b_unexpected b).
  { prun. prun. rewrite Hpad. cbn [negb only_if]. pruns. split; [|split; [lia|done]]. split; try done.
    destruct Hh as (c1 & ? & ? & ? & ? & ? & ? & _). exists c1. naive_solver. }
  eapply runs_mono; [by apply (enqueue_spec env F HF)|]. intros r b' (-> & Hh' & Hst & Hstop & Heos). prun.
  rewrite (st_pad _ _ Hst), Hpad. cbn [negb only_if]. pruns. change (flow_ok GST_FLOW_OK) with true. cbn iota.
  pose proof Hh' as (c' & _ & _ & _ & _ & _ & _ & Hp'). destruct (Hp' _ eq_refl) as [Hpl' _].
  split; [|unfold received, expected, alen in *; destruct (st_ranges _ _ Hst); split; [lia|done]].
  split; [done| | | |].
  - by rewrite (st_offset _ _ Hst).
  - by rewrite (st_result _ _ Hst).
  - by rewrite Heos.
  - by rewrite (st_pad _ _ Hst).
Qed.

Lemma deliver_pulling ks src b :
  pulling src b ->
  runs (deliver ks src) b (fun src' b' => pulling src' b' /\ received b <= received b' /\
    expected b' = expected b /\ b_range_start b' = b_range_start b /\ b_range_stop b' = b_range_stop b).
Proof using HF.
  revert src b. induction ks as [|k ks IH]; intros src b Hq; cbn [deliver]; prun; [split; [done|]; split; [lia|done]|].
  unfold step. prun. cbn [id]. destruct src as [p|]; [|prun; by apply IH]. prun.
  pose proof Hq as [(c & _ & _ & [Ho _] & _ & Hls & _ & Hp) _ _ _ _]. destruct (Hp p eq_refl) as [Hpl _].
  eapply runs_mono; [apply chain_pulling; [exact Hq|]|].
  { split; [unfold alen in *; lia|]. eexists. symmetry. apply take_drop. }
  intros r b' (Hq' & H1 & H2 & H3 & H4). prun. eapply runs_mono; [by apply IH|].
  intros src' b2 (? & ? & ? & ? & ?). split; [done|]. split; [lia|]. split; [congruence|]. split; congruence.
Qed.

(** The thread looks whether a requested range has arrived. *)
Definition arrived (b : PB) : bool :=
  VALID_RANGE (b_range_stop b) && (b_range_stop b <=? received b).

Lemma monitor_spec src b :
  pulling src b -> b_range_start b = NO_RANGE_REQUEST ->
  runs (progress_buffer_range_monitor env) b (fun alive b' => alive = true /\
    if arrived b
    then pulling src b' /\ received b' = received b /\ b_trace b' = PushEvent RangeReady :: b_trace b /\
         b_range_start b' = NO_RANGE_REQUEST /\ b_range_stop b' = NO_RANGE_REQUEST
    else b' = b).
Proof.
  intros Hq Hs. pose proof Hq as [Hh Ho Hr He Hpad].
  unfold progress_buffer_range_monitor, pending_eos. prun. rewrite Hr. change (flow_ok GST_FLOW_OK) with true.
  prun. cbn [id]. rewrite He. cbn [andb only_if]. do 3 prun. cbn [id negb andb].
  unfold arrived, pending_range_start, pending_range_stop, received in *. rewrite Hs.
  change (VALID_RANGE NO_RANGE_REQUEST) with false. cbn [andb orb].
  destruct (VALID_RANGE (b_range_stop b)) eqn:Ev; cbn [andb orb negb]; [|by prun].
  rewrite orb_false_r. destruct (Z.ltb_spec (s_last_stop (b_sink_segment b)) (b_range_stop b)).
  - rewrite (proj2 (Z.leb_gt _ _)) by lia. by prun.
  - rewrite (proj2 (Z.leb_le _ _)) by lia. unfold push_event. pruns. split; [done|].
    split; [|done]. by split.
Qed.

(** ** From the first segment on *)

Context (n : NewSegmentEvent) (Hn : first_segment F n) (Hcreate : env_create env [] = true).
Context (Hpull : forall tr, env_activated env tr = Some true).

Lemma create_pulling (b : PB) :
  runs (progress_buffer_create_sourcepad env) b (fun _ b' =>
    b_srcresult b' = GST_FLOW_OK /\ b_eos b' = false /\ b_srcpad b' = true /\
    b_sink_segment b' = b_sink_segment b /\ b_cache b' = b_cache b /\
    b_cache_read_offset b' = b_cache_read_offset b /\
    b_range_start b' = b_range_start b /\ b_range_stop b' = b_range_stop b).
Proof using Hpull.
  unfold progress_buffer_create_sourcepad. do 3 prun. rewrite Hpull.
  unfold progress_buffer_activatepull_src, activate_state, reset_eos. pruns.
  destruct (b_monitor_thread _); by pruns.
Qed.

Definition no_ranges (b : PB) : Prop :=
  b_range_start b = NO_RANGE_REQUEST /\ b_range_stop b = NO_RANGE_REQUEST.

Lemma begin_ranges :
  runs (progress_buffer_sink_event env (SegmentEvent n)) progress_buffer_init (fun _ b =>
    no_ranges b /\ b_srcpad b = false /\ b_eos b = false /\ b_unexpected b = false /\
    b_cache_read_offset b = 0).
Proof using HF Hn Hcreate.
  destruct Hn as (Hu & Hfmt & Hrate & Hn0 & Hstop & H0). unfold progress_buffer_sink_event.
  cbn [serialized]. prun. cbn [progress_buffer_init b_eos]. prun. cbn [enqueue_event].
  unfold enqueue_segment. prun. rewrite Hfmt, bool_decide_false by (intros Hne; by apply Hne). prun.
  eapply runs_insist.
  { unfold sub64. rewrite decide_True; [done|]. unfold is_i64. lia. }
  rewrite (proj2 (Z.leb_gt _ _)) by lia. rewrite Hu.
  destruct bc_create_ok as (c & Ec & _). do 4 prun. cbn. rewrite Hcreate, Ec. pruns. cbn [negb]. pruns.
  unfold send_position_message. by pruns.
Qed.

Lemma first_delivery k b :
  pb_inv false F (Some 0) b -> no_ranges b -> b_srcpad b = false -> b_eos b = false ->
  b_unexpected b = false -> b_cache_read_offset b = 0 ->
  runs (step env F (SourceData k) (Some 0)) b (fun src' b' => pulling src' b' /\ no_ranges b').
Proof using HF Hpull.
  intros Hi [Hr1 Hr2] Hpad He Hu Ho. unfold step, progress_buffer_chain. pruns. cbn [id].
  rewrite He, Hu. cbn [orb].
  assert (holds_at F 0 (content_at F 0 k)) as Hl.
  { split; [lia|]. unfold content_at. eexists. symmetry. apply take_drop. }
  eapply runs_mono; [by apply (enqueue_spec env F HF); [apply Hi|]|].
  intros r b' (-> & Hh & Hst & _). prun. rewrite (st_pad _ _ Hst), Hpad. cbn [negb only_if]. prun.
  eapply runs_mono; [apply create_pulling|]. intros u b2 (H1 & H2 & H3 & H4 & H5 & H6 & H7 & H8). pruns.
  destruct (st_ranges _ _ Hst) as [E1 E2]. split; [|split; congruence].
  split; try done; [|by rewrite H6, (st_offset _ _ Hst)].
  unfold held. by rewrite H4, H5, H6.
Qed.

(** The buffer gets its first segment and then deliveries. *)
Definition pull_download (ks : list nat) : res (option Z * PB) :=
  (progress_buffer_sink_event env (SegmentEvent n);; deliver ks (Some 0)) progress_buffer_init.

Lemma pull_download_ok k ks :
  exists src b, pull_download (k :: ks) = Done (src, b) /\ pulling src b /\ no_ranges b.
Proof using HF Hn Hcreate Hpull.
  change (runs (progress_buffer_sink_event env (SegmentEvent n);; deliver (k :: ks) (Some 0))
    progress_buffer_init (fun src b => pulling src b /\ no_ranges b)). prun.
  destruct (begin_ok env false F HF n Hn Hcreate) as (u & b & E & Hi).
  destruct begin_ranges as (u2 & b2 & E2 & Hr & Hpad & He & Hu & Ho).
  rewrite E in E2. injection E2 as <- <-. exists u, b. split; [done|]. cbn [deliver]. prun.
  eapply runs_mono; [by apply first_delivery|]. intros src' b' [Hq [Hr1 Hr2]].
  eapply runs_mono; [by apply deliver_pulling|]. intros src2 b2 (Hq2 & _ & _ & H1 & H2).
  split; [done|]. split; congruence.
Qed.

(** The answer to a request. *)
Definition range_answer (b : PB) (p m : Z) : GstFlowReturn * option ReadBuffer :=
  if expected b <? p + m then (GST_FLOW_UNEXPECTED, None)
  else if p + m <=? received b then (GST_FLOW_OK, Some (mkRead (bytes_at F p m) p))
  else (GST_FLOW_WRONG_STATE, None).

Lemma getrange_beyond (b : PB) p m :
  0 <= p -> 0 < m -> p + m < 4611686018427387904 -> expected b < p + m ->
  runs (progress_buffer_getrange env p m) b (fun r b' => r = (GST_FLOW_UNEXPECTED, None) /\ b' = b).
Proof using.
  intros Hp Hm Hpm Hb. unfold expected, progress_buffer_getrange in *. prun. cbn [id].
  rewrite (u64_id (p + m)), !i64_id by (unfold is_u64, is_i64; lia).
  rewrite (proj2 (Z.ltb_lt _ _)) by lia. by prun.
Qed.


End Pull.
