(* ===== verification/PbRuns.v ===== *)
(** * Runs of the buffer of a download

    The theorems at concrete downloads, on a cache in a file, and runs that show what the
    buffer does in situations that the theorems exclude. *)

From S2P Require Import Prelude.
From S2P Require Import Mem.
From S2P Require Import FlvMetadata.
From S2P Require Import ProgressBuffer.
From S2P Require Import PbFlow.
From S2P Require Import PbLive.
From S2P Require Import PbPull.
From Stdlib Require Import SpecFloat.

Open Scope Z_scope.

(** A system that reads to the end of the file. *)
Definition demo_sys : Sys :=
  mkSys (fun _ n => n) (fun c n => Z.min n (alen (c_file c) - c_read_handle c)) (fun _ _ => true).

Lemma demo_sys_ok : sys_completes demo_sys.
Proof. split; [done|]. split; [|done]. cbn. intros. lia. Qed.

Definition demo_cache : ByteCache Cache := posix_cache demo_sys demo_sys_ok.
Definition demo_win_cache : ByteCache Cache := win_cache demo_sys demo_sys_ok.

Definition one : spec_float := double_of_Z 1.

(** Everything succeeds; [pull] is the mode of the pad. *)
Definition demo_env (pull seeks : bool) : Env :=
  mkEnv (fun _ => S754_zero false) (fun _ => true) (fun _ => Some pull) (fun _ => true) (fun _ => true)
    (fun _ => true) (fun _ => true) (fun _ _ _ => GST_FLOW_OK)
    (fun _ e => match e with SeekSource _ _ => seeks | _ => true end) true.

Definition demo_content : list Z := [10; 11; 12; 13; 14; 15; 16; 17].

Definition demo_segment : NewSegmentEvent := mkNewSegment true one GST_FORMAT_BYTES 0 8 0.
Definition demo_restart (p : Z) : NewSegmentEvent := mkNewSegment false one GST_FORMAT_BYTES p 8 p.
Definition seek_to (p : Z) : SeekEvent :=
  mkSeek one GST_FORMAT_BYTES 1 GST_SEEK_TYPE_SET p GST_SEEK_TYPE_NONE 0.

Lemma demo_first : first_segment demo_content demo_segment.
Proof. by repeat split. Qed.

(** Data, a seek back in the cache, a seek ahead that restarts the source. *)
Definition demo_steps : list pb_step :=
  [SourceData 3; TaskRuns; TaskRuns; SeekBegins (seek_to 1); TaskRuns; SeekEnds (seek_to 1);
   TaskRuns; TaskRuns; TaskRuns; SourceData 1; TaskRuns; SeekBegins (seek_to 6); TaskRuns;
   SeekEnds (seek_to 6); SourceRestarts (demo_restart 6); TaskRuns; TaskRuns; SourceData 2;
   SourceEos; TaskRuns; TaskRuns; TaskRuns; TaskRuns].

(** What went downstream, the first first. *)
Definition went_down {C} (r : res (option Z * ProgressBuffer (C := C))) : option (list pb_event) :=
  match r with Done (_, b) => Some (rev (downstream (b_trace b))) | Fault _ => None end.

Definition data_down {C} (r : res (option Z * ProgressBuffer (C := C))) : option (list (Z * list Z)) :=
  option_map (omap (fun e => match e with PushData o l => Some (o, l) | _ => None end)) (went_down r).

Definition demo_download := download (H := demo_cache) (demo_env false true) demo_content demo_segment.

Example demo_run : data_down (demo_download demo_steps) = Some [(0, [10; 11; 12]); (1, [11; 12]); (6, [16; 17])].
Proof. by vm_compute. Qed.

(** The cache for Windows gives the same. *)
Example demo_win_run :
  data_down (download (H := demo_win_cache) (demo_env false true) demo_content demo_segment demo_steps) =
  data_down (demo_download demo_steps).
Proof. by vm_compute. Qed.

Lemma demo_steps_valid : Forall (valid_step true demo_content) demo_steps.
Proof. repeat constructor; cbn; unfold alen; cbn; lia. Qed.


(** A download in two pieces with the task in between. *)
Definition demo_plain : list pb_step := [SourceData 3; TaskRuns; TaskRuns; TaskRuns; SourceData 5; SourceEos].

Definition demo_received : ProgressBuffer (C := Cache) :=
  match demo_download demo_plain with Done (_, b) => b | Fault _ => progress_buffer_init end.


(** ** Ranges *)

Definition pull_run := pull_download (H := demo_cache) (demo_env true false) demo_content demo_segment.

Definition demo_pulled : ProgressBuffer (C := Cache) :=
  match pull_run [3; 1]%nat with Done (_, b) => b | Fault _ => progress_buffer_init end.



(** ** Runs that the theorems exclude *)

Definition is_eos (e : pb_event) : bool := match e with PushEvent EosEvent => true | _ => false end.
Definition eos_down {C} (r : res (option Z * ProgressBuffer (C := C))) : option bool :=
  option_map (existsb is_eos) (went_down r).

(** A source that ends early, after the task has read all there is: the end of the stream
    is never pushed, however often the task runs. *)
Example early_end_is_lost :
  let r := demo_download ([SourceData 4; TaskRuns; TaskRuns; SourceEos] ++ replicate 40 TaskRuns) in
  eos_down r = Some false /\
  match r with Done (_, b) => b_task b = NextItem false | Fault _ => False end.
Proof. by vm_compute. Qed.

(** With data left to read, it is pushed. *)
Example early_end_is_pushed :
  eos_down (demo_download ([SourceData 4; SourceEos] ++ replicate 4 TaskRuns)) = Some true.
Proof. by vm_compute. Qed.

(** A call on the buffer after others. *)
Definition after {A C} (r : res (option Z * ProgressBuffer (C := C))) (m : ST (ProgressBuffer (C := C)) A) :
    res (A * ProgressBuffer (C := C)) :=
  match r with Done (_, b) => m b | Fault f => Fault f end.

Definition demo_getrange (p n : Z) :
    ST (ProgressBuffer (C := Cache)) (GstFlowReturn * option ReadBuffer) :=
  progress_buffer_getrange (H := demo_cache) (demo_env true true) p n.

(** After a restart of the source, a range is looked for at its position in the content
    instead of its position in the cache. *)
Example range_after_restart :
  let r := download (H := demo_cache) (demo_env true true) demo_content demo_segment
    [SourceData 1; SourceRestarts (demo_restart 2); SourceData 6] in
  match after r (demo_getrange 3 2) with
  | Done ((GST_FLOW_OK, Some buf), _) => r_data buf = [15; 16] /\ content_at demo_content 3 2 = [13; 14]
  | _ => False
  end.
Proof. by vm_compute. Qed.

(** The end of the source with no request pending ends the monitoring thread; a range that
    arrives later is not reported. *)
Example monitor_ends_at_eos :
  match after (download (H := demo_cache) (demo_env true true) demo_content demo_segment
                 [SourceData 8; SourceEos]) (progress_buffer_range_monitor (demo_env true true)) with
  | Done (alive, _) => alive = false
  | Fault _ => False
  end.
Proof. by vm_compute. Qed.

(** A cache that cannot be created: the next buffer is refused, but the pad is made all the
    same, and its task follows the null pointer. *)
Definition no_cache_env : Env :=
  mkEnv (fun _ => S754_zero false) (fun _ => false) (fun _ => None) (fun _ => true) (fun _ => true)
    (fun _ => true) (fun _ => true) (fun _ _ _ => GST_FLOW_OK) (fun _ _ => true) true.

Example no_cache_crashes :
  download (H := demo_cache) no_cache_env demo_content demo_segment [SourceData 1; TaskRuns] =
    Fault NullPointer.
Proof. by vm_compute. Qed.

(** The request to stop that a seek makes while a buffer is pushed is overwritten by the
    result of the push: the task goes on, and the seek waits for it. *)
Example seek_request_lost :
  match demo_download [SourceData 3; TaskRuns; SeekBegins (seek_to 1); TaskRuns; TaskRuns] with
  | Done (_, b) => b_srcresult b = GST_FLOW_OK /\ b_task b = NextItem false
  | Fault _ => False
  end.
Proof. by vm_compute. Qed.

(** Downstream that does not want more data, and then seeks in the cache: the buffer
    refuses the rest of the download. *)
Definition full_env : Env :=
  mkEnv (fun _ => S754_zero false) (fun _ => true) (fun _ => None) (fun _ => true) (fun _ => true)
    (fun _ => true) (fun _ => true) (fun _ _ _ => GST_FLOW_UNEXPECTED) (fun _ _ => true) true.

Example download_refused_after_seek :
  match after (download (H := demo_cache) full_env demo_content demo_segment
      [SourceData 3; TaskRuns; TaskRuns; SeekBegins (seek_to 0); TaskRuns; SeekEnds (seek_to 0)])
    (progress_buffer_chain (H := demo_cache) full_env 3 [13]) with
  | Done (r, b) => r = GST_FLOW_UNEXPECTED /\ b_instant_seek b = true /\ b_eos b = false
  | Fault _ => False
  end.
Proof. by vm_compute. Qed.

(** A new download after a restart of the first: the offsets of its buffers are those of
    the restart. *)
Example offset_is_stale :
  let r := download (H := demo_cache) (demo_env false true) demo_content demo_segment
    [SourceData 1; SourceRestarts (demo_restart 2)] in
  let again := progress_buffer_change_state true;;
    progress_buffer_activatepush_src (demo_env false true) (mret tt) true;;
    progress_buffer_sink_event (H := demo_cache) (demo_env false true) (SegmentEvent demo_segment);;
    progress_buffer_chain (H := demo_cache) (demo_env false true) 0 [10; 11];;
    progress_buffer_loop (H := demo_cache) (demo_env false true);;
    progress_buffer_loop (H := demo_cache) (demo_env false true);;
    progress_buffer_loop (H := demo_cache) (demo_env false true) in
  match after r again with
  | Done (_, b) => b_task b = PushingData 2 [10; 11]
  | Fault _ => False
  end.
Proof. by vm_compute. Qed.

(** A seek before the cached part that the source refuses: the segment tells the position
    of the seek, the data are read elsewhere.  The source accepts only seeks from 4 on. *)
Definition partial_env : Env :=
  mkEnv (fun _ => S754_zero false) (fun _ => true) (fun _ => None) (fun _ => true) (fun _ => true)
    (fun _ => true) (fun _ => true) (fun _ _ _ => GST_FLOW_OK)
    (fun _ e => match e with SeekSource _ p => 4 <=? p | _ => true end) true.

Example refused_seek_mislabels :
  data_down (download (H := demo_cache) partial_env demo_content demo_segment
    [SourceData 1; SeekBegins (seek_to 4); TaskRuns; SeekEnds (seek_to 4);
     SourceRestarts (demo_restart 4); TaskRuns; TaskRuns; SourceData 4; SeekBegins (seek_to 1); TaskRuns;
     SeekEnds (seek_to 1); TaskRuns; TaskRuns; TaskRuns; TaskRuns]) = Some [(4, [14; 15; 16; 17])].
Proof. by vm_compute. Qed.
