(* ===== verification/HlsBuffer.v ===== *)
(** * The buffer of a live stream (hlsprogressbuffer.c)

    A stream for HTTP Live Streaming is a sequence of segments, each announced with its
    size.  The element keeps up to three of them in a ring of caches: the thread of the
    source writes a segment to the next cache, and waits for one that is free; the task
    reads the caches in turn and pushes buffers downstream.

    As in ProgressBuffer, a step of a thread is what it does from one release of the lock
    to the next; where the lock is released and nothing that another thread uses is touched
    before it is taken again, the steps are joined.  A source that waits for a cache is in
    the state [SendsFull], where it is out of the lock for its message to the player, or in
    [WaitsForSlot], where it waits for a signal.  The trace has the signals and the beginnings of the waits, so that it tells
    whether a thread that waits has been signalled.  The three arrays of the structure are
    one list of slots. *)

From S2P Require Import Prelude.
From S2P Require Import Mem.
From S2P Require Import FlvMetadata.
From S2P Require Export Threads.
From S2P Require Export GstSegment.
From S2P Require Export FileCache.
From S2P Require Import ProgressBuffer.
From Stdlib Require Import SpecFloat.

Open Scope Z_scope.

Definition NUM_OF_CACHED_SEGMENTS : Z := 3.

(** The events of HLSProgressBuffer, with the messages to the player. *)
Inductive hls_event : Type :=
  | HlsPush (data : list Z)
  | HlsEvent (e : DownEvent)
  | HlsResume
  | HlsEos
  | HlsFull
  | HlsNotFull
  | HlsStreamError
  | HlsStart
  | HlsStop
  | HlsPause
  | SignalAdd
  | SignalDel
  | WaitAdd
  | WaitDel.

(** Where the task is: between two calls of its function, waiting for data, out of the
    lock with a buffer, or not running. *)
Inductive hls_task : Type :=
  | HlsIdle
  | HlsWaiting
  | HlsPushing (data : list Z)
  | HlsPaused.

(** The thread of the source: it has found a cache for its segment, tells the player that
    there is none, or waits for one. *)
Inductive hls_source : Type :=
  | SourceFree
  | SendsFull (stop : Z)
  | WaitsForSlot (stop : Z).

Record HlsEnv := mkHlsEnv {
  hls_create : nat -> bool;
  hls_linked : list hls_event -> bool;
  hls_start_task : list hls_event -> bool;
  hls_stop_task : list hls_event -> bool;
  hls_push : list hls_event -> list Z -> GstFlowReturn;
  hls_push_event : list hls_event -> DownEvent -> bool;
}.

Section Element.
Context {C : Type}.

Record Slot := mkSlot {
  sl_cache : option C;
  sl_size : Z;
  sl_ready : bool;
}.

Record HLSProgressBuffer := mkHLS {
  h_slots : list Slot;
  h_write_index : Z;
  h_read_index : Z;
  h_send_new_segment : bool;
  h_is_flushing : bool;
  h_is_eos : bool;
  h_srcresult : GstFlowReturn;
  h_task : hls_task;
  h_source : hls_source;
  h_trace : list hls_event;
}.

Definition with_slots (v : list Slot) (b : HLSProgressBuffer) : HLSProgressBuffer :=
  mkHLS v (h_write_index b) (h_read_index b) (h_send_new_segment b) (h_is_flushing b)
    (h_is_eos b) (h_srcresult b) (h_task b) (h_source b) (h_trace b).
Definition with_write_index (v : Z) (b : HLSProgressBuffer) : HLSProgressBuffer :=
  mkHLS (h_slots b) v (h_read_index b) (h_send_new_segment b) (h_is_flushing b) (h_is_eos b)
    (h_srcresult b) (h_task b) (h_source b) (h_trace b).
Definition with_read_index (v : Z) (b : HLSProgressBuffer) : HLSProgressBuffer :=
  mkHLS (h_slots b) (h_write_index b) v (h_send_new_segment b) (h_is_flushing b)
    (h_is_eos b) (h_srcresult b) (h_task b) (h_source b) (h_trace b).
Definition with_send_new_segment (v : bool) (b : HLSProgressBuffer) : HLSProgressBuffer :=
  mkHLS (h_slots b) (h_write_index b) (h_read_index b) v (h_is_flushing b) (h_is_eos b)
    (h_srcresult b) (h_task b) (h_source b) (h_trace b).
Definition with_is_flushing (v : bool) (b : HLSProgressBuffer) : HLSProgressBuffer :=
  mkHLS (h_slots b) (h_write_index b) (h_read_index b) (h_send_new_segment b) v (h_is_eos b)
    (h_srcresult b) (h_task b) (h_source b) (h_trace b).
Definition with_is_eos (v : bool) (b : HLSProgressBuffer) : HLSProgressBuffer :=
  mkHLS (h_slots b) (h_write_index b) (h_read_index b) (h_send_new_segment b)
    (h_is_flushing b) v (h_srcresult b) (h_task b) (h_source b) (h_trace b).
Definition with_srcresult (v : GstFlowReturn) (b : HLSProgressBuffer) : HLSProgressBuffer :=
  mkHLS (h_slots b) (h_write_index b) (h_read_index b) (h_send_new_segment b)
    (h_is_flushing b) (h_is_eos b) v (h_task b) (h_source b) (h_trace b).
Definition with_task (v : hls_task) (b : HLSProgressBuffer) : HLSProgressBuffer :=
  mkHLS (h_slots b) (h_write_index b) (h_read_index b) (h_send_new_segment b)
    (h_is_flushing b) (h_is_eos b) (h_srcresult b) v (h_source b) (h_trace b).
Definition with_source (v : hls_source) (b : HLSProgressBuffer) : HLSProgressBuffer :=
  mkHLS (h_slots b) (h_write_index b) (h_read_index b) (h_send_new_segment b)
    (h_is_flushing b) (h_is_eos b) (h_srcresult b) (h_task b) v (h_trace b).
Definition with_trace (v : list hls_event) (b : HLSProgressBuffer) : HLSProgressBuffer :=
  mkHLS (h_slots b) (h_write_index b) (h_read_index b) (h_send_new_segment b)
    (h_is_flushing b) (h_is_eos b) (h_srcresult b) (h_task b) (h_source b) v.

(** ** Computations *)

Abbreviation H := (ST HLSProgressBuffer).

Definition hls_send (e : hls_event) : H unit := change (fun b => with_trace (e :: h_trace b) b).

(** An element of the arrays. *)
Definition slot_at (i : Z) : H Slot :=
  b ← look id;
  insist ReadArray (if 0 <=? i then h_slots b !! Z.to_nat i else None).

Definition put_slot (i : Z) (s : Slot) : H unit :=
  change (fun b => with_slots (<[Z.to_nat i := s]> (h_slots b)) b).

Definition cache_of (s : Slot) : H C := insist NullPointer (sl_cache s).

Context `{HC : ByteCache C} (env : HlsEnv).

Definition hls_push_down (e : DownEvent) : H bool :=
  tr ← look h_trace; hls_send (HlsEvent e);; mret (hls_push_event env tr e).

Definition hls_start_loop : H bool :=
  tr ← look h_trace;
  hls_send HlsStart;;
  change (fun b => match h_task b with HlsPaused => with_task HlsIdle b | _ => b end);;
  mret (hls_start_task env tr).

Definition start_if_linked : H bool :=
  tr ← look h_trace;
  if hls_linked env tr then hls_start_loop else mret true.

(** ** Life of the element *)

Definition hls_progress_buffer_init : HLSProgressBuffer :=
  mkHLS (map (fun i => mkSlot (bc_create (hls_create env i)) 0 true) [0%nat; 1%nat; 2%nat])
    (-1) 0 true false false GST_FLOW_OK HlsPaused SourceFree [].

(** [ended] stands for the steps of all threads until the task's function has returned. *)
Definition hls_progress_buffer_activatepush_src (ended : H unit) (active : bool) : H bool :=
  if active then change (with_srcresult GST_FLOW_OK);; start_if_linked
  else
    change (with_srcresult GST_FLOW_WRONG_STATE);; hls_send SignalAdd;; hls_send SignalDel;;
    tr ← look h_trace; hls_send HlsStop;; ended;; change (with_task HlsPaused);;
    mret (hls_stop_task env tr).

(** A cache that is empty. *)
Definition rewound (s : Slot) : Slot :=
  match sl_cache s with
  | Some c => mkSlot (Some (snd (bc_set_read (snd (bc_set_write c 0)) 0))) 0 true
  | None => s
  end.

Definition hls_progress_buffer_flush_data : H unit :=
  change (with_srcresult GST_FLOW_WRONG_STATE);;
  hls_send SignalAdd;; hls_send SignalDel;;
  change (with_write_index (-1));; change (with_read_index 0);;
  change (fun b => with_slots (map rewound (h_slots b)) b).

Definition hls_progress_buffer_change_state (paused_to_ready : bool) : H unit :=
  only_if paused_to_ready hls_progress_buffer_flush_data.

(** ** The source *)

Definition hls_progress_buffer_chain (data : list Z) : H GstFlowReturn :=
  b ← look id;
  if h_is_flushing b || h_is_eos b then mret GST_FLOW_WRONG_STATE else
  s ← slot_at (h_write_index b);
  c ← cache_of s;
  put_slot (h_write_index b) (mkSlot (Some (bc_write c data)) (sl_size s) (sl_ready s));;
  hls_send SignalAdd;;
  mret GST_FLOW_OK.

(** The cache for the segment is prepared. *)
Definition prepare_slot (stop : Z) : H unit :=
  i ← look h_write_index;
  s ← slot_at i;
  c ← cache_of s;
  put_slot i (mkSlot (Some (snd (bc_set_read (snd (bc_set_write c 0)) 0))) (u32 stop) false);;
  hls_send HlsResume;;
  change (with_source SourceFree).

(** The test of the loop that waits for a free cache. *)
Definition find_slot (stop : Z) : H unit :=
  r ← look h_srcresult;
  i ← look h_write_index;
  s ← slot_at i;
  if flow_ok r && negb (sl_ready s) then change (with_source (SendsFull stop))
  else prepare_slot stop.

(** The source goes on in that loop: it begins to wait, or has woken up.  (The result of
    the event, which the source gets then, is given by [hls_segment].) *)
Definition source_goes_on : H unit :=
  t ← look h_source;
  match t with
  | SourceFree => mret tt
  | SendsFull stop =>
      hls_send HlsFull;; hls_send WaitDel;; change (with_source (WaitsForSlot stop))
  | WaitsForSlot stop =>
      r ← look h_srcresult;
      if flow_ok r then find_slot stop else change (with_source SourceFree)
  end.

Definition announce (n : NewSegmentEvent) : H bool :=
  send ← look h_send_new_segment;
  if send : bool then
    change (with_send_new_segment false);;
    hls_push_down (SegmentEvent (mkNewSegment (n_update n) (n_rate n) GST_FORMAT_TIME 0 (-1) (n_time n)))
  else mret true.

Definition hls_segment (n : NewSegmentEvent) : H bool :=
  b ← look id;
  if negb (flow_ok (h_srcresult b)) then mret true else
  only_if (h_is_eos b)
    (change (with_is_eos false);; change (with_srcresult GST_FLOW_OK);;
     tr ← look h_trace;
     only_if (hls_linked env tr) (hls_start_loop;; mret tt));;
  size ← insist SignedOverflow (sub64 (n_stop n) (n_start n));
  if size <=? 0 then hls_send HlsStreamError;; mret true else
  ret ← announce n;
  change (fun b => with_write_index (Z.rem (h_write_index b + 1) NUM_OF_CACHED_SEGMENTS) b);;
  find_slot (n_stop n);;
  mret ret.

Definition hls_progress_buffer_sink_event (ended : H unit) (e : DownEvent) : H bool :=
  match e with
  | SegmentEvent n => hls_segment n
  | FlushStart =>
      change (with_is_flushing true);;
      ret ← hls_push_down FlushStart;
      hls_progress_buffer_flush_data;;
      tr ← look h_trace;
      only_if (hls_linked env tr) (hls_send HlsPause;; ended;; change (with_task HlsPaused));;
      mret ret
  | FlushStop =>
      ret ← hls_push_down FlushStop;
      change (with_send_new_segment true);; change (with_is_flushing false);;
      change (with_srcresult GST_FLOW_OK);;
      eos ← look h_is_eos;
      tr ← look h_trace;
      only_if (negb eos && hls_linked env tr) (hls_start_loop;; mret tt);;
      mret ret
  | EosEvent =>
      hls_send HlsEos;; change (with_is_eos true);; hls_send SignalAdd;; mret true
  | _ => hls_push_down e
  end.

(** ** The task *)

Definition hls_ends (result : GstFlowReturn) : H unit :=
  flushing ← look h_is_flushing;
  if negb (flow_ok result) && negb flushing
  then hls_send HlsPause;; change (with_task HlsPaused)
  else change (with_task HlsIdle).

(** A buffer is read, and a cache that has been read is freed. *)
Definition hls_read : H unit :=
  i ← look h_read_index;
  s ← slot_at i;
  c ← cache_of s;
  let '(position, buffer, c) := bc_read c in
  (if u64 position =? sl_size s then
     put_slot i (mkSlot (Some c) (sl_size s) true);;
     change (with_read_index (Z.rem (i + 1) NUM_OF_CACHED_SEGMENTS));;
     hls_send HlsNotFull;; hls_send SignalDel
   else put_slot i (mkSlot (Some c) (sl_size s) (sl_ready s)));;
  buffer ← insist NullPointer buffer;
  change (with_task (HlsPushing (r_data buffer))).

(** Whether the task has to wait, or has come to the end of the stream. *)
Definition hls_starves : H bool :=
  r ← look h_srcresult;
  if flow_ok r then
    i ← look h_read_index;
    s ← slot_at i;
    c ← cache_of s;
    mret (negb (bc_has_enough c))
  else mret false.

Definition hls_goes_on : H unit :=
  r ← look h_srcresult;
  if flow_ok r then hls_read else hls_ends r.

Definition hls_next : H unit :=
  starves ← hls_starves;
  eos ← look h_is_eos;
  if starves : bool then
    if eos : bool then
      hls_push_down EosEvent;; change (with_srcresult GST_FLOW_WRONG_STATE);; hls_goes_on
    else hls_send WaitAdd;; change (with_task HlsWaiting)
  else hls_goes_on.

(** One step of the task. *)
Definition hls_progress_buffer_loop : H unit :=
  t ← look h_task;
  match t with
  | HlsIdle | HlsWaiting => hls_next
  | HlsPushing data =>
      tr ← look h_trace;
      hls_send (HlsPush data);;
      let result := hls_push env tr data in
      r ← look h_srcresult;
      let result' := if flow_ok r || negb (flow_ok result) then result else r in
      change (with_srcresult result');;
      hls_ends result'
  | HlsPaused => mret tt
  end.
End Element.
