(* ===== verification/HlsFlow.v ===== *)
(** * What the buffer of a live stream passes on

    A source delivers segments; its calls and the steps of the task are interleaved in any
    way.  The ring of caches is a queue of segments: [ring] is the list of its slots from
    the one that is read on, the first of which hold segments ([busy]) and the others are
    free. *)

From S2P Require Import Prelude.
From S2P Require Import Mem.
From S2P Require Import FlvMetadata.
From S2P Require Import ProgressBuffer.
From S2P Require Import HlsBuffer.
From Stdlib Require Import SpecFloat.

Open Scope Z_scope.

(** ** A ring of three *)

Definition ring {A} (r : Z) (l : list A) : list A := drop (Z.to_nat r) l ++ take (Z.to_nat r) l.

Lemma three {A} (l : list A) : length l = 3%nat -> exists x y z, l = [x; y; z].
Proof. destruct l as [|x [|y [|z [|]]]]; try done. eauto. Qed.

Lemma ring_get {A} (l : list A) r i :
  length l = 3%nat -> 0 <= r < 3 -> 0 <= i < 3 -> l !! Z.to_nat ((r + i) mod 3) = ring r l !! Z.to_nat i.
Proof.
  intros (x & y & z & ->)%three Hr Hi.
  assert (r = 0 \/ r = 1 \/ r = 2) as [-> | [-> | ->]] by lia;
    assert (i = 0 \/ i = 1 \/ i = 2) as [-> | [-> | ->]] by lia; done.
Qed.

Lemma ring_set {A} (l : list A) r i v :
  length l = 3%nat -> 0 <= r < 3 -> 0 <= i < 3 ->
  ring r (<[Z.to_nat ((r + i) mod 3) := v]> l) = <[Z.to_nat i := v]> (ring r l).
Proof.
  intros (x & y & z & ->)%three Hr Hi.
  assert (r = 0 \/ r = 1 \/ r = 2) as [-> | [-> | ->]] by lia;
    assert (i = 0 \/ i = 1 \/ i = 2) as [-> | [-> | ->]] by lia; done.
Qed.

Lemma ring_next {A} (l : list A) r :
  length l = 3%nat -> 0 <= r < 3 -> ring ((r + 1) mod 3) l = drop 1 (ring r l) ++ take 1 (ring r l).
Proof.
  intros (x & y & z & ->)%three Hr. assert (r = 0 \/ r = 1 \/ r = 2) as [-> | [-> | ->]] by lia; done.
Qed.

Lemma ring_length {A} (l : list A) r : length (ring r l) = length l.
Proof. unfold ring. rewrite length_app, length_drop, length_take. lia. Qed.

Ltac prun_more ::=
  lazymatch goal with
  | |- runs (hls_send _) _ _ => apply runs_change
  | |- runs (put_slot _ _) _ _ => apply runs_change
  | |- _ => idtac
  end.

Section Flow.
Context {C : Type} `{ByteCache C} (env : HlsEnv).
Abbreviation HB := (HLSProgressBuffer (C := C)).
Abbreviation slot := (Slot (C := C)).

(** ** The queue of segments *)

(** A segment in the ring: all its bytes, those that have been received, and the number of
    those that have been read. *)
Record Seg := mkSeg {
  g_all : list Z;
  g_got : list Z;
  g_read : Z;
}.

Definition busy (g : Seg) (s : slot) : Prop :=
  sl_ready s = false /\ sl_size s = alen (g_all g) /\
  exists c, sl_cache s = Some c /\ bc_ok c /\ bc_bytes c = g_got g /\ bc_position c = g_read g.

Definition free (s : slot) : Prop :=
  sl_ready s = true /\
  exists c, sl_cache s = Some c /\ bc_ok c /\ alen (bc_bytes c) <= bc_position c.

(** All of a segment has been received. *)
Definition whole (g : Seg) : Prop := g_got g = g_all g.

(** The first segments of the ring. *)
Inductive queue : list Seg -> list slot -> Prop :=
  | queue_free l : Forall free l -> queue [] l
  | queue_busy g q s l : busy g s -> queue q l -> queue (g :: q) (s :: l).

(** The source: what is left of the segment it delivers, and the segments after it. *)
Record Feed := mkFeed {
  f_rest : list Z;
  f_todo : list (list Z);
}.

Definition seg_ok (s : list Z) : Prop := 0 < alen s < 4294967296.

(** The segments in the ring: those before the last have been received as a whole, and
    those behind the first have not been read. *)
Fixpoint segs_ok (q : list Seg) (rest : list Z) : Prop :=
  match q with
  | [] => rest = []
  | g :: q => seg_ok (g_all g) /\ 0 <= g_read g < alen (g_all g) /\ g_read g <= alen (g_got g) /\
      Forall (fun g => g_read g = 0) q /\
      match q with
      | [] => g_all g = g_got g ++ rest
      | _ => whole g /\ segs_ok q rest
      end
  end.

(** What is to be read of the segments. *)
Definition unread (q : list Seg) : list Z :=
  concat (map (fun g => drop (Z.to_nat (g_read g)) (g_all g)) q).

Fixpoint hls_pushed (tr : list hls_event) : list Z :=
  match tr with
  | [] => []
  | HlsPush l :: tr => hls_pushed tr ++ l
  | _ :: tr => hls_pushed tr
  end.

Definition in_flight (b : HB) : list Z := match h_task b with HlsPushing l => l | _ => [] end.

(** The end of a segment for which the source looks for a slot. *)
Definition looking (b : HB) : option Z :=
  match h_source b with SourceFree => None | SendsFull stop | WaitsForSlot stop => Some stop end.

(** A source that looks for a slot has not begun its segment. *)
Definition waiting (b : HB) (f : Feed) : Prop :=
  match looking b with
  | None => True
  | Some stop => stop = alen (f_rest f) /\ seg_ok (f_rest f)
  end.

Definition in_ring (b : HB) (f : Feed) : list Z :=
  match looking b with None => f_rest f | Some _ => [] end.

Definition behind_ring (b : HB) (f : Feed) : list Z :=
  match looking b with None => concat (f_todo f) | Some _ => f_rest f ++ concat (f_todo f) end.

(** The slot that is written next to, or, by a source that looks for it, now. *)
Definition write_slot (b : HB) : Z :=
  match looking b with None => (h_write_index b + 1) mod 3 | Some _ => h_write_index b end.

(** Whether the end of the stream is the last that went downstream. *)
Fixpoint after_eos (tr : list hls_event) : bool :=
  match tr with
  | [] => false
  | HlsEvent EosEvent :: _ => true
  | HlsPush _ :: _ => false
  | _ :: tr => after_eos tr
  end.

(** Whether a thread has been signalled since it began to wait. *)
Fixpoint add_signalled (tr : list hls_event) : bool :=
  match tr with
  | [] | WaitAdd :: _ => false
  | SignalAdd :: _ => true
  | _ :: tr => add_signalled tr
  end.

Fixpoint del_signalled (tr : list hls_event) : bool :=
  match tr with
  | [] | WaitDel :: _ => false
  | SignalDel :: _ => true
  | _ :: tr => del_signalled tr
  end.

(** There is something for the task to do: data, or the end of the stream. *)
Definition can_read (q : list Seg) (b : HB) : Prop :=
  match q with [] => h_is_eos b = true | g :: _ => g_read g < alen (g_got g) end.

Record hls_inv (F : list Z) (q : list Seg) (f : Feed) (b : HB) : Prop := {
  hi_length : length (h_slots b) = 3%nat;
  hi_read : 0 <= h_read_index b < 3;
  hi_write : -1 <= h_write_index b < 3;
  hi_next : write_slot b = (h_read_index b + Z.of_nat (length q)) mod 3;
  hi_queue : queue q (ring (h_read_index b) (h_slots b));
  hi_segs : segs_ok q (in_ring b f);
  hi_todo : Forall seg_ok (f_todo f);
  hi_waiting : waiting b f;
  hi_index : q <> [] -> 0 <= h_write_index b;
  hi_flushing : h_is_flushing b = false;
  (** the end comes after all segments *)
  hi_eos : h_is_eos b = true -> f_rest f = [] /\ f_todo f = [] /\ h_source b = SourceFree;
  (** the task misses no signal, and the source is signalled for a slot *)
  hi_add : h_task b = HlsWaiting -> (add_signalled (h_trace b) = true <-> can_read q b);
  hi_del : match h_source b with
           | WaitsForSlot _ => del_signalled (h_trace b) = true -> length q <> 3%nat
           | _ => True
           end;
  hi_task : match h_task b with
            | HlsPaused => h_is_eos b = true /\ q = [] /\ after_eos (h_trace b) = true
            | _ => h_srcresult b = GST_FLOW_OK /\ after_eos (h_trace b) = false
            end;
  hi_content : F = hls_pushed (h_trace b) ++ in_flight b ++ unread q ++ behind_ring b f;
}.

Lemma queue_snoc_free q l s : queue q l -> free s -> queue q (l ++ [s]).
Proof.
  induction 1 as [l Hl|g q s' l Hb _ IH]; intros Hs; cbn; constructor; auto. by apply Forall_app_2; auto.
Qed.

(** The slot behind the queue. *)
Lemma queue_next q l s : queue q l -> l !! length q = Some s -> free s.
Proof.
  induction 1 as [l Hl|g q s' l Hb _ IH]; cbn; [|done]. destruct l as [|s' l]; [done|].
  intros [= <-]. by inversion Hl.
Qed.

Lemma queue_push q l g s : queue q l -> (length q < length l)%nat -> busy g s ->
  queue (q ++ [g]) (<[length q := s]> l).
Proof.
  induction 1 as [l Hl|g' q s' l Hb _ IH]; cbn; intros Hlen Hs.
  - destruct l as [|s' l]; [by apply Nat.nlt_0_r in Hlen|]. cbn. constructor; [done|]. constructor. by inversion Hl.
  - constructor; [done|]. apply IH; [lia|done].
Qed.

(** The last slot of the queue. *)
Lemma queue_last q g l : queue (q ++ [g]) l -> exists s, l !! length q = Some s /\ busy g s.
Proof.
  revert l. induction q as [|g' q IH]; cbn; intros l Hq; inversion Hq; subst; cbn; eauto.
Qed.

Lemma queue_last_set q g g' l s : queue (q ++ [g]) l -> busy g' s -> queue (q ++ [g']) (<[length q := s]> l).
Proof.
  revert l. induction q as [|g0 q IH]; cbn; intros l Hq Hs; inversion Hq; subst; cbn; constructor; auto.
Qed.

Lemma queue_length q l : queue q l -> (length q <= length l)%nat.
Proof. induction 1; cbn; lia. Qed.

Lemma unread_app q q' : unread (q ++ q') = unread q ++ unread q'.
Proof. unfold unread. by rewrite map_app, concat_app. Qed.

Lemma segs_begin q s : segs_ok q [] -> seg_ok s -> segs_ok (q ++ [mkSeg s [] 0]) s.
Proof.
  intros Hq Hs. induction q as [|g q IH]; cbn in *.
  - unfold seg_ok in Hs. split; [done|]. split; [lia|]. split; [done|]. by split.
  - destruct Hq as (H1 & H2 & H3 & H4 & H5). do 3 (split; [done|]).
    split; [apply Forall_app_2; [done|by constructor]|].
    destruct q as [|g' q]; cbn [app].
    + split; [by rewrite app_nil_r in H5|]. by apply IH.
    + destruct H5 as [Hw Hq]. split; [done|]. by apply IH.
Qed.

(** Data are added to the last segment. *)
Lemma segs_data q g k rest :
  segs_ok (q ++ [g]) (k ++ rest) -> segs_ok (q ++ [mkSeg (g_all g) (g_got g ++ k) (g_read g)]) rest.
Proof.
  induction q as [|g' q IH]; cbn.
  - intros (H1 & H2 & H3 & H4 & H5). do 2 (split; [done|]).
    split; [unfold alen in *; rewrite length_app; lia|]. split; [done|]. by rewrite <- app_assoc.
  - intros (H1 & H2 & H3 & H4 & H5). do 3 (split; [done|]).
    apply Forall_app in H4 as [H4 H4']. inversion H4'; subst.
    split; [apply Forall_app_2; [done|by constructor]|].
    destruct q as [|g2 q]; cbn [app] in *; destruct H5 as [Hw Hq]; (split; [done|by apply IH]).
Qed.

Lemma segs_bound q rest g : segs_ok q rest -> g ∈ q -> alen (g_got g) <= alen (g_all g).
Proof.
  revert rest. induction q as [|g' q IH]; intros rest; cbn; [intros _ Hin; by inversion Hin|].
  intros (H1 & H2 & H3 & H4 & H5) [-> | Hin]%elem_of_cons.
  - destruct q as [|g2 q]; [rewrite H5; unfold alen; rewrite length_app; lia|].
    destruct H5 as [-> _]. lia.
  - destruct q as [|g2 q]; [by inversion Hin|]. by eapply IH; [apply H5|].
Qed.

(** ** The task *)

Lemma runs_slot b i s (Q : slot -> HB -> Prop) :
  0 <= i -> h_slots b !! Z.to_nat i = Some s -> Q s b -> runs (slot_at i) b Q.
Proof.
  intros Hi Hs HQ. unfold slot_at. prun. eapply runs_insist; [|exact HQ]. cbn [id].
  by rewrite (proj2 (Z.leb_le _ _)).
Qed.

(** The slot that is read. *)
Lemma read_slot F q f b :
  hls_inv F q f b ->
  exists s l, ring (h_read_index b) (h_slots b) = s :: l /\
    h_slots b !! Z.to_nat (h_read_index b) = Some s.
Proof.
  intros [Hl Hr _ _ _ _ _ _ _ _ _ _ _ _ _]. destruct (ring (h_read_index b) (h_slots b)) as [|s l] eqn:E.
  { pose proof (ring_length (h_slots b) (h_read_index b)) as Hn. rewrite E, Hl in Hn. done. }
  exists s, l. split; [done|]. pose proof (ring_get (h_slots b) (h_read_index b) 0 Hl Hr ltac:(lia)) as Hg.
  rewrite E, Z.add_0_r, Z.mod_small in Hg by lia. done.
Qed.

Lemma got_prefix g q rest : segs_ok (g :: q) rest -> g_got g `prefix_of` g_all g.
Proof.
  intros (_ & _ & _ & _ & Hq). destruct q as [|g' q]; [by exists rest|]. destruct Hq as [-> _]. done.
Qed.

Lemma drop_piece (p : Z) (l got all : list Z) :
  0 <= p -> l `prefix_of` drop (Z.to_nat p) got -> got `prefix_of` all ->
  drop (Z.to_nat p) all = l ++ drop (Z.to_nat (p + alen l)) all.
Proof.
  intros Hp Hl [k ->]. assert (l `prefix_of` drop (Z.to_nat p) (got ++ k)) as [m Hm].
  { destruct Hl as [m Hm]. destruct (decide (Z.to_nat p <= length got)%nat).
    - rewrite drop_app_le, Hm by done. rewrite <- app_assoc. by eexists.
    - rewrite drop_ge in Hm by lia. symmetry in Hm. apply app_nil in Hm as [-> _]. apply prefix_nil. }
  rewrite Hm. f_equal. replace (Z.to_nat (p + alen l)) with (Z.to_nat p + length l)%nat by (unfold alen; lia).
  by rewrite <- drop_drop, Hm, drop_app_length.
Qed.

(** A step of the queue: a buffer is read. *)
Lemma read_ok F g q f b c s :
  hls_inv F (g :: q) f b -> h_srcresult b = GST_FLOW_OK -> after_eos (h_trace b) = false ->
  in_flight b = [] ->
  h_slots b !! Z.to_nat (h_read_index b) = Some s -> sl_cache s = Some c -> bc_ok c ->
  bc_bytes c = g_got g -> bc_position c = g_read g -> g_read g < alen (g_got g) ->
  sl_size s = alen (g_all g) -> sl_ready s = false ->
  runs hls_read b (fun _ b' => exists q', hls_inv F q' f b' /\
    (0 < alen (in_flight b')) /\ unread (g :: q) = in_flight b' ++ unread q' /\
    h_source b' = h_source b /\ h_is_eos b' = h_is_eos b).
Proof.
  intros Hi Hr Hae Hfl Hs Hc Hok Hb Hp Hlt Hsize Hready.
  pose proof Hi as [Hl3 Hri Hwi Hnext Hq Hsegs Htodo Hwait Hidx Hflush Heos Hadd Hdel _ Hcont].
  destruct (bc_read_ok c Hok) as (l & c' & E & Hok' & Hb' & Hp' & Hl0 & Hpre); [by rewrite Hb, Hp|].
  rewrite Hb, Hp in *. pose proof Hsegs as (Hgs & Hgr & _ & Hz & Hrest).
  pose proof (got_prefix g q _ Hsegs) as Hgp.
  assert (g_read g + alen l <= alen (g_got g)) as Hend.
  { apply prefix_length in Hpre. rewrite length_drop in Hpre. unfold alen in *. lia. }
  assert (alen (g_got g) <= alen (g_all g)) as Hga by (apply prefix_length in Hgp; unfold alen; lia).
  pose proof (drop_piece (g_read g) l (g_got g) (g_all g) ltac:(lia) Hpre Hgp) as Hdrop.
  unfold hls_read. prun. prun. eapply runs_slot; [lia|exact Hs|]. unfold cache_of. prun.
  eapply runs_insist; [exact Hc|]. rewrite E. unfold seg_ok in Hgs.
  rewrite u64_id, Hsize by (unfold is_u64; lia).
  assert (forall v, ring (h_read_index b) (<[Z.to_nat (h_read_index b) := v]> (h_slots b)) =
    <[0%nat := v]> (ring (h_read_index b) (h_slots b))) as Hset.
  { intros v. pose proof (ring_set (h_slots b) (h_read_index b) 0 v Hl3 Hri ltac:(lia)) as Hrs.
    by rewrite Z.add_0_r, Z.mod_small in Hrs by lia. }
  assert (exists s0 l0, ring (h_read_index b) (h_slots b) = s0 :: l0 /\ queue q l0) as (s0 & l0 & Ering & Hq0)
    by (inversion Hq; eauto).
  destruct (Z.eqb_spec (g_read g + alen l) (alen (g_all g))) as [Hdone|Hmore].
  - prun. prun. prun. prun. prun. eapply runs_insist; [done|]. prun. exists q.
    assert (drop (Z.to_nat (g_read g + alen l)) (g_all g) = []) as Hnil
      by (apply drop_ge; unfold alen in *; lia).
    rewrite Hnil, app_nil_r in Hdrop.
    assert (unread (g :: q) = l ++ unread q) as Hun by (unfold unread; cbn; by rewrite Hdrop).
    split; [|split; [done|split; [done|done]]].
    split; cbn; try done.
    + by rewrite length_insert.
    + rewrite Z.rem_mod_nonneg by (unfold NUM_OF_CACHED_SEGMENTS; lia). apply Z.mod_pos_bound. done.
    + change (write_slot _) with (write_slot b). rewrite Hnext. cbn [length].
      rewrite Z.rem_mod_nonneg by (unfold NUM_OF_CACHED_SEGMENTS; lia).
      unfold NUM_OF_CACHED_SEGMENTS. rewrite Zplus_mod_idemp_l. f_equal. lia.
    + rewrite Z.rem_mod_nonneg by (unfold NUM_OF_CACHED_SEGMENTS; lia). unfold NUM_OF_CACHED_SEGMENTS.
      rewrite ring_next by (rewrite ?length_insert; done). rewrite Hset. rewrite Ering. cbn.
      apply queue_snoc_free; [done|]. split; [done|]. exists c'. cbn. split; [done|]. split; [done|].
      rewrite Hb', Hp'. lia.
    + change (in_ring _ f) with (in_ring b f). destruct q as [|g' q]; [|apply Hrest].
      cbn. rewrite Hrest in Hga, Hdone. unfold alen in *. rewrite length_app in *.
      destruct (in_ring b f); [done|]. cbn in *. lia.
    + intros _. by apply Hidx.
    + pose proof (queue_length _ _ Hq) as Hql. rewrite ring_length, Hl3 in Hql. cbn in Hql.
      destruct (h_source b); try done. intros _. lia.
    + rewrite Hcont, Hfl, Hun. cbn. by rewrite <- app_assoc.
  - prun. prun. eapply runs_insist; [done|]. prun. exists (mkSeg (g_all g) (g_got g) (g_read g + alen l) :: q).
    assert (unread (g :: q) = l ++ unread (mkSeg (g_all g) (g_got g) (g_read g + alen l) :: q)) as Hun
      by (unfold unread; cbn -[alen]; by rewrite Hdrop, <- app_assoc).
    split; [|split; [done|split; [done|done]]].
    split; cbn -[segs_ok]; try done.
    + by rewrite length_insert.
    + rewrite Hset, Ering. cbn. constructor; [|done]. split; [done|]. split; [done|].
      exists c'. cbn. by rewrite Hb', Hp'.
    + change (in_ring _ f) with (in_ring b f). cbn. split; [done|]. split; [lia|]. split; [lia|]. done.
    + intros _. by apply Hidx.
    + rewrite Hcont, Hfl, Hun. cbn. by rewrite <- app_assoc.
Qed.

(** ** The work that is left *)

Definition flag (c : bool) : Z := if c then 1 else 0.

Definition task_work (b : HB) : Z :=
  match h_task b with HlsPaused => 0 | HlsWaiting => 1 | HlsIdle => 2 | HlsPushing _ => 3 end.

Definition source_work (b : HB) : Z :=
  match h_source b with SourceFree => 0 | WaitsForSlot _ => 1 | SendsFull _ => 2 end.

Definition work (q : list Seg) (f : Feed) (b : HB) : Z :=
  3 * alen (unread q ++ behind_ring b f) + alen (in_ring b f ++ behind_ring b f) +
  3 * Z.of_nat (length (f_todo f)) + task_work b + source_work b + flag (negb (h_is_eos b)).

Lemma work_frame q f b b' :
  h_source b' = h_source b -> h_is_eos b' = h_is_eos b ->
  work q f b' - task_work b' = work q f b - task_work b.
Proof. intros Es Ee. unfold work, in_ring, behind_ring, looking, source_work. rewrite Es, Ee. lia. Qed.

Context (Haccept : forall tr l, hls_push env tr l = GST_FLOW_OK).

(** A task that finds nothing waits. *)
Lemma task_waits F q f b :
  hls_inv F q f b -> h_task b = HlsIdle \/ h_task b = HlsWaiting -> ~ can_read q b ->
  hls_inv F q f (with_task HlsWaiting (with_trace (WaitAdd :: h_trace b) b)).
Proof.
  intros [H1 H2 H3 H4 H5 H6 H7 H8 H9 H10 H11 H12 H13 H14 H15] Hb Hn. split; try done; cbn.
  - by destruct Hb as [E|E]; rewrite E in H14.
  - rewrite H15. unfold in_flight. cbn. by destruct Hb as [-> | ->].
Qed.

(** A segment that is not the last, or with nothing behind the ring, has been received. *)
Lemma readable g q rest : segs_ok (g :: q) rest -> q <> [] \/ rest = [] -> g_read g < alen (g_got g).
Proof.
  intros (_ & Hr & _ & _ & Hq) Hne. destruct q as [|g' q].
  - destruct Hne as [?| ->]; [done|]. rewrite app_nil_r in Hq. rewrite <- Hq. lia.
  - destruct Hq as [Hw _]. unfold whole in Hw. rewrite Hw. lia.
Qed.

Lemma next_ok F q f b :
  hls_inv F q f b -> h_task b = HlsIdle \/ h_task b = HlsWaiting ->
  runs (hls_next env) b (fun _ b' => exists q', hls_inv F q' f b' /\
    (h_task b = HlsIdle \/ can_read q b -> work q' f b' < work q f b)).
Proof.
  intros Hi Ht. pose proof Hi as [Hl3 Hri Hwi Hnext Hq Hsegs Htodo Hwait Hidx Hflush Heos Hadd Hdel Htask Hcont].
  assert (h_srcresult b = GST_FLOW_OK /\ after_eos (h_trace b) = false) as [Hr Hae]
    by (by destruct Ht as [E|E]; rewrite E in Htask).
  assert (1 <= task_work b <= 2 /\ in_flight b = []) as (Hwk & Efl)
    by (unfold task_work, in_flight; destruct Ht as [-> | ->]; by split).
  assert (forall b', h_source b' = h_source b -> h_is_eos b' = h_is_eos b ->
    h_task b' = HlsWaiting -> ~ can_read q b ->
    h_task b = HlsIdle \/ can_read q b -> work q f b' < work q f b) as Hwaits.
  { intros b' Es Ee Et Hn [E|E]; [|done]. pose proof (work_frame q f b b' Es Ee) as Hw.
    unfold task_work in Hw. rewrite Et, E in Hw. lia. }
  destruct (read_slot _ _ _ _ Hi) as (s & l & Ering & Hs). rewrite Ering in Hq.
  unfold hls_next, hls_starves. prun. rewrite Hr. change (flow_ok GST_FLOW_OK) with true. prun. prun.
  eapply runs_slot; [lia|exact Hs|]. unfold cache_of. prun.
  inversion Hq as [? Hfree|g q0 ? ? Hbusy Hq0]; subst.
  - inversion Hfree as [|? ? [_ (c & Hc & Hok & Hle)] _]; subst.
    eapply runs_insist; [exact Hc|]. prun. rewrite (bc_has_ok c Hok), (proj2 (Z.ltb_ge _ _)) by done. cbn [negb].
    prun. destruct (h_is_eos b) eqn:Ee.
    + destruct (Heos eq_refl) as (Er & Et & Es). unfold hls_push_down, hls_goes_on, hls_ends. do 5 prun.
      change (flow_ok (h_srcresult _)) with false. prun. prun. cbn. rewrite Hflush. cbn [negb andb].
      change (flow_ok GST_FLOW_WRONG_STATE) with false. cbn [negb andb]. pruns. exists [].
      split; [split; try done; cbn; auto; [by rewrite Ering|by rewrite Efl]|].
      match goal with |- _ -> work [] f ?b' < _ =>
        pose proof (work_frame [] f b b' eq_refl eq_refl) as Hw; assert (task_work b' = 0) by done end.
      intros _. lia.
    + prun. prun. exists []. assert (~ can_read [] b) as Hn by (cbn; by rewrite Ee).
      split; [by apply task_waits|]. by apply Hwaits.
  - destruct Hbusy as (Hready & Hsize & c & Hc & Hok & Hb & Hp).
    eapply runs_insist; [exact Hc|]. prun. rewrite (bc_has_ok c Hok), Hb, Hp.
    destruct (Z.ltb_spec (g_read g) (alen (g_got g))) as [Hlt|Hge]; cbn [negb]; prun.
    + unfold hls_goes_on. prun. rewrite Hr. change (flow_ok GST_FLOW_OK) with true. prun.
      eapply runs_mono; [by eapply read_ok|]. intros u b' (q' & Hi' & Hlen & Hun & Es & Ee). exists q'.
      split; [done|]. intros _. unfold work, in_ring, behind_ring, looking, source_work.
      rewrite Es, Ee, Hun, !alen_app. assert (task_work b' <= 3) by (unfold task_work; destruct (h_task b'); lia). lia.
    + destruct (h_is_eos b) eqn:Ee.
      * exfalso. destruct (Heos eq_refl) as (Er & Et & Es). unfold in_ring, looking in Hsegs. rewrite Es, Er in Hsegs.
        pose proof (readable _ _ _ Hsegs (or_intror eq_refl)). lia.
      * prun. prun. exists (g :: q0). assert (~ can_read (g :: q0) b) as Hn by (cbn; lia).
        split; [by apply task_waits|]. by apply Hwaits.
Qed.

(** The task can go on: it is not waiting, or has been signalled. *)
Definition task_enabled (b : HB) : bool :=
  match h_task b with
  | HlsIdle | HlsPushing _ => true
  | HlsWaiting => add_signalled (h_trace b)
  | HlsPaused => false
  end.

Lemma hls_loop_ok F q f b :
  hls_inv F q f b ->
  runs (hls_progress_buffer_loop env) b (fun _ b' => exists q', hls_inv F q' f b' /\
    (task_enabled b = true -> work q' f b' < work q f b)).
Proof using Haccept.
  intros Hi. unfold hls_progress_buffer_loop, task_enabled. prun. destruct (h_task b) as [| |l|] eqn:Et.
  - eapply runs_mono; [apply (next_ok F q f b Hi); auto|]. intros u b' (q' & Hi' & Hw). exists q'. auto.
  - eapply runs_mono; [apply (next_ok F q f b Hi); auto|]. intros u b' (q' & Hi' & Hw). exists q'. split; [done|].
    intros Ha. apply Hw. right. by apply (hi_add _ _ _ _ Hi Et).
  - pose proof Hi as [Hl3 Hri Hwi Hnext Hq Hsegs Htodo Hwait Hidx Hflush Heos Hadd Hdel Htask Hcont].
    rewrite Et in Htask. destruct Htask as [Hr Hae]. prun. prun. rewrite Haccept. prun. cbn. rewrite Hr.
    change (flow_ok GST_FLOW_OK) with true. cbn [orb]. unfold hls_ends. prun. prun. cbn.
    change (flow_ok GST_FLOW_OK) with true. cbn [negb andb]. prun.
    exists q. split.
    + split; try done. rewrite Hcont. unfold in_flight at 1. rewrite Et. cbn. by rewrite <- !app_assoc.
    + match goal with |- _ -> work q f ?b' < _ =>
        pose proof (work_frame q f b b' eq_refl eq_refl) as Hw; assert (task_work b' = 2) by done end.
      assert (task_work b = 3) by (unfold task_work; by rewrite Et). intros _. lia.
  - prun. by exists q.
Qed.

(** ** The source *)

(** The slot behind the queue, or the first if there is none. *)
Lemma slot_behind F q f b i :
  hls_inv F q f b -> i = (h_read_index b + Z.of_nat (length q)) mod 3 ->
  exists s, h_slots b !! Z.to_nat i = Some s /\
    if decide (length q = 3%nat) then sl_ready s = false
    else free s /\ forall g s', busy g s' -> queue (q ++ [g]) (ring (h_read_index b) (<[Z.to_nat i := s']> (h_slots b))).
Proof.
  intros Hi ->. pose proof Hi as [Hl3 Hri _ _ Hq _ _ _ _ _ _ _ _ _ _]. pose proof (queue_length _ _ Hq) as Hle.
  rewrite ring_length, Hl3 in Hle. destruct (decide (length q = 3%nat)) as [E|Hne].
  - destruct (read_slot _ _ _ _ Hi) as (s & l & Ering & Hs). exists s. rewrite E.
    replace ((h_read_index b + Z.of_nat 3) mod 3) with (h_read_index b).
    2: { change (Z.of_nat 3) with (1 * 3). rewrite Z_mod_plus_full. by rewrite Z.mod_small by lia. }
    split; [done|]. rewrite Ering in Hq. destruct q as [|g q]; [done|]. inversion Hq as [|? ? ? ? [Hr _] _]; by subst.
  - rewrite (ring_get _ _ (Z.of_nat (length q)) Hl3 Hri) by lia. rewrite Nat2Z.id.
    destruct (ring (h_read_index b) (h_slots b) !! length q) as [s|] eqn:Es.
    2: { apply lookup_ge_None_1 in Es. rewrite ring_length, Hl3 in Es. lia. }
    exists s. split; [done|]. split; [by eapply queue_next|]. intros g s' Hb.
    rewrite (ring_set _ _ (Z.of_nat (length q)) s' Hl3 Hri) by lia. rewrite Nat2Z.id.
    apply queue_push; [done| |done]. rewrite ring_length, Hl3. lia.
Qed.

Lemma with_same_source (b : HB) : with_source (h_source b) b = b.
Proof. by destruct b. Qed.

(** A new segment does not wake the task. *)
Lemma can_read_begin q s (b b' : HB) : h_is_eos b = false -> h_is_eos b' = false ->
  can_read (q ++ [mkSeg s [] 0]) b' <-> can_read q b.
Proof. intros E E'. destruct q; cbn; rewrite ?E; [|done]. change (alen []) with 0. split; [lia|done]. Qed.

(** A source that looks for a slot: [bw] is the state where it has not found one. *)
Lemma find_slot_ok F q f b :
  let bw := with_source (SendsFull (alen (f_rest f))) b in
  hls_inv F q f bw ->
  runs (find_slot (alen (f_rest f))) b (fun _ b' => exists q', hls_inv F q' f b' /\
    work q' f b' <= work q f bw /\ (length q <> 3%nat -> work q' f b' < work q f bw - 1)).
Proof.
  intros bw Hi. pose proof Hi as [Hl3 Hri Hwi Hnext Hq Hsegs Htodo [_ Hseg] Hidx Hflush Heos Hadd Hdel Htask Hcont].
  destruct (slot_behind _ _ _ _ _ Hi Hnext) as (s & Hs & Hcase). cbn in Hs.
  assert (0 <= h_write_index b < 3) as Hw.
  { cbn in Hnext. rewrite Hnext. apply Z.mod_pos_bound. lia. }
  assert (h_is_eos b = false) as He
    by (destruct (h_is_eos b) eqn:E; [by destruct (Heos E) as (_ & _ & [=])|done]).
  assert (h_srcresult b = GST_FLOW_OK) as Hr.
  { cbn in Htask. rewrite He in Htask. by destruct (h_task b); destruct Htask. }
  unfold find_slot. do 2 prun. prun. eapply runs_slot; [lia|exact Hs|].
  rewrite Hr. change (flow_ok GST_FLOW_OK) with true. cbn [andb].
  destruct (decide (length q = 3%nat)) as [E|Hne].
  - rewrite Hcase. cbn [negb]. prun. exists q. split; [done|]. split; [done|lia].
  - destruct Hcase as [[Hready (c & Hc & Hok & _)] Hpush]. rewrite Hready. cbn [negb].
    unfold prepare_slot. do 2 prun. eapply runs_slot; [lia|exact Hs|]. unfold cache_of. prun.
    eapply runs_insist; [exact Hc|].
    destruct (bc_rewind_ok c Hok) as (c1 & E1 & Hok1 & Hb1 & Hp1).
    destruct (bc_set_read_ok c1 0 Hok1) as (c2 & E2 & Hok2 & Hb2 & Hp2); [lia|].
    rewrite E1. cbn [snd]. rewrite E2. cbn [snd]. pruns.
    exists (q ++ [mkSeg (f_rest f) [] 0]). unfold seg_ok in Hseg. split.
    + split; cbn; try done.
      * by rewrite length_insert.
      * unfold write_slot. cbn. cbn in Hnext. rewrite length_app, Hnext, Zplus_mod_idemp_l. f_equal. cbn. lia.
      * apply Hpush. rewrite u32_id by (unfold is_u32; lia). split; [done|]. split; [done|].
        exists c2. cbn. by rewrite Hb2, Hb1.
      * unfold in_ring in *. cbn in *. by apply segs_begin.
      * intros _. lia.
      * congruence.
      * intros Et. by rewrite (can_read_begin q _ bw) by done; apply Hadd.
      * cbn in Htask. rewrite He in Htask. by destruct (h_task b); destruct Htask.
      * rewrite Hcont, unread_app. unfold behind_ring, in_flight, unread. cbn. by rewrite app_nil_r, <- !app_assoc.
    + unfold work. rewrite unread_app.
      assert (unread [mkSeg (f_rest f) [] 0] = f_rest f) as -> by (unfold unread; cbn; by rewrite app_nil_r).
      unfold behind_ring, in_ring, looking, source_work, task_work. cbn -[Z.mul Z.add unread alen].
      rewrite !alen_app. change (alen []) with 0. split; [lia|]. intros _. lia.
Qed.

Lemma not_paused F q f b :
  hls_inv F q f b -> f_rest f <> [] \/ f_todo f <> [] \/ h_source b <> SourceFree ->
  h_is_eos b = false /\ h_srcresult b = GST_FLOW_OK.
Proof.
  intros [] Hne. destruct (h_is_eos b); [by destruct (hi_eos0 eq_refl) as (? & ? & ?); destruct Hne as [?|[?|?]]|].
  split; [done|]. by destruct (h_task b); destruct hi_task0.
Qed.

(** The source begins a segment. *)
Lemma segment_ok F q s t u r time b :
  hls_inv F q (mkFeed [] (s :: t)) b -> h_source b = SourceFree ->
  runs (hls_segment env (mkNewSegment u r GST_FORMAT_BYTES 0 (alen s) time)) b
    (fun _ b' => exists q', hls_inv F q' (mkFeed s t) b' /\ work q' (mkFeed s t) b' < work q (mkFeed [] (s :: t)) b).
Proof.
  intros Hi Hsrc. pose proof (not_paused _ _ _ _ Hi) as [He Hr]; [by right; left|].
  pose proof Hi as [Hl3 Hri Hwi Hnext Hq Hsegs Htodo Hwait Hidx Hflush Heos Hadd Hdel Htask Hcont].
  unfold write_slot, looking in Hnext. unfold in_ring, looking in Hsegs. unfold behind_ring, looking in Hcont. rewrite Hsrc in *. cbn in Hsegs.
  pose proof (Forall_inv Htodo) as Hs. pose proof (Forall_inv_tail Htodo) as Ht. cbn in Hs, Ht. unfold seg_ok in Hs.
  unfold hls_segment. prun. cbn [id]. rewrite Hr, He. change (flow_ok GST_FLOW_OK) with true. cbn [negb].
  cbn [only_if]. do 2 prun. cbn. eapply runs_insist.
  { unfold sub64. rewrite decide_True; [done|]. unfold is_i64. lia. }
  rewrite (proj2 (Z.leb_gt _ _)) by lia.
  assert (forall b1, h_slots b1 = h_slots b -> h_read_index b1 = h_read_index b ->
    h_write_index b1 = Z.rem (h_write_index b + 1) NUM_OF_CACHED_SEGMENTS ->
    h_is_flushing b1 = false -> h_is_eos b1 = false -> h_task b1 = h_task b -> h_srcresult b1 = GST_FLOW_OK ->
    h_source b1 = SourceFree ->
    add_signalled (h_trace b1) = add_signalled (h_trace b) ->
    after_eos (h_trace b1) = after_eos (h_trace b) -> hls_pushed (h_trace b1) = hls_pushed (h_trace b) ->
    runs (find_slot (alen s)) b1 (fun _ b' => exists q', hls_inv F q' (mkFeed s t) b' /\
      work q' (mkFeed s t) b' < work q (mkFeed [] (s :: t)) b)) as Hfind.
  { intros b1 E1 E2 E3 E4 E5 E6 E7 E8 E0 E9 E10.
    assert (hls_inv F q (mkFeed s t) (with_source (SendsFull (alen s)) b1)) as Hw.
    { rewrite Z.rem_mod_nonneg in E3 by (unfold NUM_OF_CACHED_SEGMENTS; lia). unfold NUM_OF_CACHED_SEGMENTS in E3.
      pose proof (Z.mod_pos_bound (h_write_index b + 1) 3 ltac:(lia)).
      split; cbn; rewrite ?E1, ?E2, ?E4, ?E5, ?E9, ?E10; try done; try lia.
      - intros Et. rewrite E0. replace (can_read q _) with (can_read q b) by (unfold can_read; cbn; by rewrite E5, He).
        apply Hadd. by rewrite <- E6.
      - rewrite E6, E7. rewrite He, Hr in Htask. exact Htask.
      - rewrite Hcont. unfold in_flight, behind_ring. cbn. by rewrite E6. }
    eapply runs_mono; [exact (find_slot_ok F q (mkFeed s t) b1 Hw)|]. cbn beta.
    intros v b' (q' & Hi' & Hle & _). exists q'. split; [done|]. change (f_rest (mkFeed s t)) with s in Hle.
    assert (work q (mkFeed s t) (with_source (SendsFull (alen s)) b1) < work q (mkFeed [] (s :: t)) b); [|lia].
    unfold work, behind_ring, in_ring, looking, source_work, task_work. cbn -[Z.mul Z.add unread alen Z.of_nat].
    rewrite Hsrc, E5, E6, He. cbn -[Z.mul Z.add unread alen Z.of_nat]. rewrite !alen_app. change (alen []) with 0. lia. }
  unfold announce, hls_push_down. prun. prun. destruct (h_send_new_segment b); pruns.
  all: eapply runs_mono; [by apply Hfind|]; intros v b' Hb'; by prun.
Qed.

Definition source_enabled (b : HB) : bool :=
  match h_source b with
  | SourceFree => false
  | SendsFull _ => true
  | WaitsForSlot _ => del_signalled (h_trace b)
  end.

(** The source begins to wait, or wakes up. *)
Lemma goes_on_ok F q f b :
  hls_inv F q f b ->
  runs source_goes_on b (fun _ b' => exists q', hls_inv F q' f b' /\
    (source_enabled b = true -> work q' f b' < work q f b)).
Proof.
  intros Hi. unfold source_goes_on, source_enabled. prun. destruct (h_source b) as [|stop|stop] eqn:Es.
  { prun. by exists q. }
  all: pose proof (not_paused _ _ _ _ Hi) as [_ Hr]; [by right; right; rewrite Es|].
  all: pose proof (hi_waiting _ _ _ _ Hi) as Hw; unfold waiting, looking in Hw; rewrite Es in Hw.
  all: pose proof Hi as [Hl3 Hri Hwi Hnext Hq Hsegs Htodo _ Hidx Hflush Heos Hadd Hdel Htask Hcont].
  all: unfold write_slot, looking in Hnext; unfold in_ring, looking in Hsegs; unfold behind_ring, looking in Hcont.
  all: rewrite Es in *.
  - do 3 prun. exists q. split.
    + split; try done. intros He. by destruct (Heos He) as (_ & _ & [=]).
    + intros _. unfold work, behind_ring, in_ring, looking, source_work, task_work. cbn -[Z.mul Z.add unread alen].
      rewrite Es. cbn -[Z.mul Z.add unread alen]. lia.
  - prun. rewrite Hr. change (flow_ok GST_FLOW_OK) with true. prun. destruct Hw as [-> Hseg].
    eapply runs_mono; [apply (find_slot_ok F q f b)|].
    + split; try done. intros He. by destruct (Heos He) as (_ & _ & [=]).
    + intros u b' (q' & Hi' & _ & Hlt). exists q'. split; [done|]. intros Hs. specialize (Hlt (Hdel Hs)).
      enough (work q f (with_source (SendsFull (alen (f_rest f))) b) = work q f b + 1) by lia.
      unfold work, behind_ring, in_ring, looking, source_work. cbn -[Z.mul Z.add unread alen]. rewrite Es. cbn -[Z.mul Z.add unread alen].
      change (task_work (with_source _ b)) with (task_work b). lia.
Qed.

Lemma mod3_pred w x : 0 <= w < 3 -> (w + 1) mod 3 = (x + 1) mod 3 -> w = x mod 3.
Proof.
  intros Hw. rewrite <- (Zplus_mod_idemp_l x). pose proof (Z.mod_pos_bound x 3 ltac:(lia)).
  set (y := x mod 3) in *. clearbody y.
  assert (w = 0 \/ w = 1 \/ w = 2) as [-> | [-> | ->]] by lia;
    assert (y = 0 \/ y = 1 \/ y = 2) as [-> | [-> | ->]] by lia; done.
Qed.

(** The source delivers data of the segment that it has begun. *)
Lemma hls_data_ok F q rest todo k b :
  hls_inv F q (mkFeed rest todo) b -> h_source b = SourceFree -> rest <> [] -> (0 < k)%nat ->
  let f' := mkFeed (drop k rest) todo in
  runs (hls_progress_buffer_chain (take k rest)) b (fun r b' => exists q', hls_inv F q' f' b' /\
    work q' f' b' < work q (mkFeed rest todo) b).
Proof.
  intros Hi Hsrc Hne Hk f'. pose proof (not_paused _ _ _ _ Hi) as [He Hr]; [by left|].
  pose proof Hi as [Hl3 Hri Hwi Hnext Hq Hsegs Htodo Hwait Hidx Hflush Heos Hadd Hdel Htask Hcont].
  unfold write_slot, looking in Hnext. unfold in_ring, looking in Hsegs. unfold behind_ring, looking in Hcont. rewrite Hsrc in *. cbn in Hsegs, Hcont, Htodo.
  destruct (decide (q = [])) as [->|Hqne]; [done|]. destruct (exists_last Hqne) as (q0 & g & ->).
  specialize (Hidx Hqne). rewrite length_app in Hnext. cbn in Hnext.
  assert (h_write_index b = (h_read_index b + Z.of_nat (length q0)) mod 3) as Hw.
  { apply mod3_pred; [lia|]. rewrite Hnext. f_equal. lia. }
  pose proof (queue_length _ _ Hq) as Hlen. rewrite ring_length, Hl3, length_app in Hlen. cbn in Hlen.
  destruct (queue_last _ _ _ Hq) as (s & Hs & Hready & Hsize & c & Hc & Hok & Hb & Hp).
  assert (h_slots b !! Z.to_nat (h_write_index b) = Some s) as Hs'.
  { rewrite Hw, (ring_get _ _ (Z.of_nat (length q0)) Hl3 Hri) by lia. by rewrite Nat2Z.id. }
  assert (alen (g_got g) + alen (take k rest) <= alen (g_all g) < 4294967296) as Hbound.
  { rewrite <- (take_drop k rest) in Hsegs. apply segs_data in Hsegs.
    pose proof (segs_bound _ _ (mkSeg (g_all g) (g_got g ++ take k rest) (g_read g)) Hsegs) as Hbd.
    cbn in Hbd. rewrite alen_app in Hbd. split; [apply Hbd; rewrite elem_of_app; right; by left|].
    clear - Hsegs. induction q0 as [|g' q0 IH]; cbn in Hsegs; [by destruct Hsegs as ([_ ?] & _)|].
    destruct Hsegs as (_ & _ & _ & _ & Hr). apply IH. destruct q0; cbn in *; apply Hr. }
  unfold hls_progress_buffer_chain. prun. cbn [id]. rewrite Hflush, He. cbn [orb].
  prun. eapply runs_slot; [lia|exact Hs'|]. unfold cache_of. prun. eapply runs_insist; [exact Hc|].
  destruct (bc_write_ok c (take k rest) Hok) as (Hok' & Hb' & Hp'); [rewrite Hb; lia|]. pruns.
  exists (q0 ++ [mkSeg (g_all g) (g_got g ++ take k rest) (g_read g)]).
  assert (unread (q0 ++ [mkSeg (g_all g) (g_got g ++ take k rest) (g_read g)]) = unread (q0 ++ [g])) as Hun
    by (by rewrite !unread_app).
  split.
  - split; cbn; try done.
    + by rewrite length_insert.
    + unfold write_slot, looking. cbn. rewrite Hsrc, length_app. done.
    + rewrite Hw, (ring_set _ _ (Z.of_nat (length q0)) _ Hl3 Hri), Nat2Z.id by lia.
      apply (queue_last_set _ g); [done|]. split; [done|]. split; [done|].
      exists (bc_write c (take k rest)). cbn. by rewrite Hb', Hp', Hb.
    + unfold in_ring, looking. cbn. rewrite Hsrc. apply segs_data. by rewrite take_drop.
    + unfold waiting, looking. cbn. by rewrite Hsrc.
    + intros He'. congruence.
    + intros _. split; [intros _|done]. destruct q0 as [|g0 q0].
      * cbn -[alen]. destruct Hsegs as (_ & _ & Hle & _). rewrite alen_app.
        assert (0 < alen (take k rest)); [|lia]. unfold alen. rewrite length_take. destruct rest; [done|]. cbn. lia.
      * apply (readable _ _ _ Hsegs). left. by destruct q0.
    + by rewrite Hsrc.
    + destruct (h_task b); try done. destruct Htask as [He' _]. congruence.
    + rewrite Hun, Hcont. unfold behind_ring, looking. cbn. by rewrite Hsrc.
  - unfold work, behind_ring, in_ring, looking, source_work, task_work. cbn -[Z.mul Z.add unread alen Z.of_nat].
    rewrite Hsrc, Hun. cbn -[Z.mul Z.add unread alen Z.of_nat]. rewrite !alen_app.
    assert (alen (drop k rest) < alen rest); [|lia].
    unfold alen. rewrite length_drop. destruct rest; [done|]. cbn. lia.
Qed.

(** The end of the stream. *)
Lemma hls_eos_ok F q b :
  hls_inv F q (mkFeed [] []) b -> h_source b = SourceFree ->
  runs (hls_progress_buffer_sink_event env (mret tt) EosEvent) b (fun _ b' => hls_inv F q (mkFeed [] []) b' /\
    (h_is_eos b = false -> work q (mkFeed [] []) b' < work q (mkFeed [] []) b)).
Proof.
  intros Hi Hsrc. pose proof Hi as [Hl3 Hri Hwi Hnext Hq Hsegs Htodo Hwait Hidx Hflush Heos Hadd Hdel Htask Hcont].
  unfold hls_progress_buffer_sink_event. pruns. split.
  - split; try done; cbn.
    + intros _. split; [intros _|done]. destruct q as [|g q]; [done|].
      apply (readable _ _ _ Hsegs). right. unfold in_ring, looking. by rewrite Hsrc.
    + destruct (h_task b); try done. naive_solver.
  - intros Ee. unfold work, behind_ring, in_ring, looking, source_work, task_work.
    cbn -[Z.mul Z.add Z.sub unread alen]. rewrite Ee. cbn [flag negb]. lia.
Qed.
End Flow.
