(* ===== verification/HlsLive.v ===== *)
(** * A live stream reaches downstream

    The theorems on the buffer of a live stream: whatever the interleaving, downstream gets
    the segments in order; the work that is left bounds the number of steps to the end of
    the stream, and the only deadlock is that of a signal the source has missed. *)

From S2P Require Import Prelude.
From S2P Require Import Mem.
From S2P Require Import FlvMetadata.
From S2P Require Import ProgressBuffer.
From S2P Require Import HlsBuffer.
From S2P Require Import HlsFlow.
From Stdlib Require Import SpecFloat.

Open Scope Z_scope.

(** The source begins a segment or delivers [k + 1] bytes of it, goes on where it waits for
    a slot, or ends; the task runs.  A thread that waits may wake up without a signal. *)
Inductive hls_step : Type :=
  | HData (k : nat)
  | HSegment (update : bool) (rate : spec_float) (time : Z)
  | HSlot
  | HEos
  | HTask.

Section Live.
Context {C : Type} `{ByteCache C} (env : HlsEnv).
Abbreviation HB := (HLSProgressBuffer (C := C)).

(** A step that is not possible does nothing: the source begins a segment when it has
    delivered the one before, and ends after the last; while it waits it does nothing
    else. *)
Definition hstep (s : hls_step) (f : Feed) : ST HB Feed :=
  b ← look id;
  match s, h_source b, f_rest f, f_todo f with
  | HData k, SourceFree, _ :: _, _ =>
      hls_progress_buffer_chain (take (S k) (f_rest f));; mret (mkFeed (drop (S k) (f_rest f)) (f_todo f))
  | HSegment update rate time, SourceFree, [], s :: todo =>
      hls_progress_buffer_sink_event env (mret tt)
        (SegmentEvent (mkNewSegment update rate GST_FORMAT_BYTES 0 (alen s) time));;
      mret (mkFeed s todo)
  | HEos, SourceFree, [], [] => hls_progress_buffer_sink_event env (mret tt) EosEvent;; mret f
  | HSlot, _, _, _ => source_goes_on;; mret f
  | HTask, _, _, _ => hls_progress_buffer_loop env;; mret f
  | _, _, _, _ => mret f
  end.

Fixpoint hplay (steps : list hls_step) (f : Feed) : ST HB Feed :=
  match steps with
  | [] => mret f
  | s :: steps => f ← hstep s f; hplay steps f
  end.

(** A stream of segments, from the activation of the element on. *)
Definition hls_stream (segs : list (list Z)) (steps : list hls_step) : res (Feed * HB) :=
  (hls_progress_buffer_activatepush_src env (mret tt) true;; hplay steps (mkFeed [] segs))
    (hls_progress_buffer_init env).

Context (Haccept : forall tr l, hls_push env tr l = GST_FLOW_OK).
Context (Hcreate : forall i, hls_create env i = true) (Hlinked : forall tr, hls_linked env tr = true).

(** The steps that are possible, where a thread wakes up when it is signalled. *)
Definition enabled (s : hls_step) (f : Feed) (b : HB) : bool :=
  match s, h_source b, f_rest f, f_todo f with
  | HData _, SourceFree, _ :: _, _ => true
  | HSegment _ _ _, SourceFree, [], _ :: _ => true
  | HEos, SourceFree, [], [] => negb (h_is_eos b)
  | HSlot, _, _, _ => source_enabled b
  | HTask, _, _, _ => task_enabled b
  | _, _, _, _ => false
  end.

(** The source waits for a slot, and has missed the signals for all the slots that have
    become free. *)
Definition lost_signal (b : HB) : bool :=
  match h_source b with
  | WaitsForSlot _ => negb (del_signalled (h_trace b)) && forallb sl_ready (h_slots b)
  | _ => false
  end.

(** The work that is left, from what has been pushed. *)
Definition remaining (F : list Z) (f : Feed) (b : HB) : Z :=
  3 * (alen F - alen (hls_pushed (h_trace b)) - alen (in_flight b)) +
  alen (in_ring b f ++ behind_ring b f) + 3 * Z.of_nat (length (f_todo f)) +
  task_work b + source_work b + flag (negb (h_is_eos b)).

Lemma remaining_work F q f b : hls_inv F q f b -> remaining F f b = work q f b.
Proof.
  intros Hi. unfold remaining, work. pose proof (hi_content _ _ _ _ Hi) as E.
  rewrite E at 1. rewrite !alen_app. lia.
Qed.

Lemma remaining_pos F q f b : hls_inv F q f b -> 0 <= remaining F f b.
Proof.
  intros Hi. rewrite (remaining_work _ _ _ _ Hi). unfold work, task_work, source_work, flag, alen.
  destruct (h_task b), (h_source b), (negb _); lia.
Qed.

(** A step, and the work that is left after it. *)
Lemma hstep_ok F q f b s :
  hls_inv F q f b ->
  runs (hstep s f) b (fun f' b' => exists q', hls_inv F q' f' b' /\
    (enabled s f b = true -> work q' f' b' < work q f b)).
Proof using Haccept.
  intros Hi. unfold hstep, enabled. prun. cbn [id]. destruct f as [rest todo]. cbn [f_rest f_todo].
  assert (runs (mret (mkFeed rest todo)) b (fun f' b' => exists q', hls_inv F q' f' b' /\
    (false = true -> work q' f' b' < work q (mkFeed rest todo) b))) as Hskip by (prun; by exists q).
  destruct s as [k|u r t| | |].
  - destruct (h_source b) eqn:Es; try exact Hskip. destruct rest as [|x rest]; [exact Hskip|].
    prun. eapply runs_mono; [apply (hls_data_ok F q (x :: rest) todo (S k) b Hi Es); [done|lia]|].
    intros r b' (q' & Hi' & Hlt). prun. by exists q'.
  - destruct (h_source b) eqn:Es; try exact Hskip. destruct rest; [|exact Hskip].
    destruct todo as [|s todo]; [exact Hskip|].
    prun. cbn [hls_progress_buffer_sink_event]. eapply runs_mono; [by apply segment_ok|].
    intros v b' (q' & Hi' & Hlt). prun. by exists q'.
  - prun. eapply runs_mono; [by apply goes_on_ok|]. intros v b' (q' & Hi' & Hlt). prun. eauto.
  - destruct (h_source b) eqn:Es; try exact Hskip. destruct rest; [|exact Hskip]. destruct todo; [|exact Hskip].
    prun. eapply runs_mono; [by apply hls_eos_ok|]. intros v b' (Hi' & Hlt). prun. exists q. split; [done|].
    intros Hn. apply Hlt. by destruct (h_is_eos b).
  - prun. eapply runs_mono; [by apply hls_loop_ok|]. intros v b' (q' & Hi' & Hlt). prun. eauto.
Qed.

Lemma hplay_ok F steps q f b :
  hls_inv F q f b -> runs (hplay steps f) b (fun f' b' => exists q', hls_inv F q' f' b').
Proof using Haccept.
  revert q f b. induction steps as [|s steps IH]; intros q f b Hi; cbn [hplay]; [prun; by exists q|].
  prun. eapply runs_mono; [by apply hstep_ok|]. intros f' b' (q' & Hi' & _). by eapply IH.
Qed.

Lemma hls_stream_ok segs steps :
  Forall seg_ok segs ->
  exists f b q, hls_stream segs steps = Done (f, b) /\ hls_inv (concat segs) q f b.
Proof using Haccept Hcreate Hlinked.
  intros Hs. enough (runs (hls_progress_buffer_activatepush_src env (mret tt) true;; hplay steps (mkFeed [] segs))
    (hls_progress_buffer_init env) (fun f b => exists q, hls_inv (concat segs) q f b))
    as (f & b & E & q & Hi); [by exists f, b, q|].
  unfold hls_progress_buffer_activatepush_src, start_if_linked, hls_start_loop. prun. prun. prun. rewrite Hlinked. pruns.
  apply (hplay_ok (concat segs) steps []).
  assert (forall i, free (mkSlot (bc_create (hls_create env i)) 0 true)) as Hfree.
  { intros i. rewrite Hcreate. split; [done|]. destruct bc_create_ok as (c & E & Hok & Hb & Hp). exists c. cbn.
    rewrite E, Hb, Hp. done. }
  split; try done; cbn; auto. all: try lia. constructor. repeat constructor; apply Hfree.
Qed.
(** The end of the stream comes after all of it. *)
Lemma ended_whole F q f b : hls_inv F q f b -> after_eos (h_trace b) = true ->
  h_task b = HlsPaused /\ hls_pushed (h_trace b) = F.
Proof.
  intros [_ _ _ _ _ _ _ _ _ _ Heos _ _ Htask Hcont] Hae.
  assert (h_task b = HlsPaused) as Et by (destruct (h_task b); try done; destruct Htask; congruence).
  rewrite Et in Htask. destruct Htask as (He & -> & _). destruct (Heos He) as (_ & Etodo & Es). split; [done|].
  rewrite Hcont. unfold in_flight, behind_ring, looking. rewrite Et, Es, Etodo. cbn. by rewrite app_nil_r.
Qed.

Lemma queue_ready l : queue [] l -> forallb (sl_ready (C := C)) l = true.
Proof.
  intros Hq. assert (Forall free l) as Hf by (by inversion Hq). clear Hq.
  induction Hf as [|s l [Hs _] _ IH]; [done|]. cbn. by rewrite Hs, IH.
Qed.

Lemma ring_ready (b : HB) : forallb sl_ready (ring (h_read_index b) (h_slots b)) = forallb sl_ready (h_slots b).
Proof.
  unfold ring. rewrite forallb_app, andb_comm, <- forallb_app. by rewrite take_drop.
Qed.

(** Where nothing can go on. *)
Lemma stuck F q f b :
  hls_inv F q f b -> (forall s, enabled s f b = false) ->
  after_eos (h_trace b) = true \/ lost_signal b = true.
Proof.
  intros [_ _ _ _ Hq Hsegs _ _ _ _ Heos Hadd _ Htask _] Hno.
  pose proof (Hno (HData 0)) as Hn1. pose proof (Hno (HSegment false (S754_zero false) 0)) as Hn2.
  pose proof (Hno HSlot) as Hn3. pose proof (Hno HEos) as Hn4. pose proof (Hno HTask) as Hn5.
  unfold enabled, source_enabled, task_enabled in *. destruct (h_task b) eqn:Et; try done; [|left; apply Htask].
  assert (~ can_read q b) as Hcan by (rewrite <- (Hadd eq_refl), Hn5; done).
  assert (h_is_eos b = false) as He.
  { destruct (h_is_eos b) eqn:E; [exfalso|done]. destruct (Heos eq_refl) as (Er & _ & Es). apply Hcan.
    destruct q as [|g q]; [done|]. apply (readable _ _ _ Hsegs). right. unfold in_ring, looking. by rewrite Es. }
  destruct (h_source b) eqn:Es; try done.
  - destruct (f_rest f); [|done]. destruct (f_todo f); [by rewrite He in Hn4|done].
  - right. unfold lost_signal. rewrite Es, Hn3, <- ring_ready. destruct q as [|g q]; [by rewrite queue_ready|].
    exfalso. apply Hcan, (readable _ _ _ Hsegs). right. unfold in_ring, looking. by rewrite Es.
Qed.

(** C9. A live stream passes the buffer as it is: whatever the interleaving of the source
    and of the task, with wake-ups that no signal has caused, no step faults, and downstream
    has got a beginning of the segments in their order; when it gets the end of the stream
    it has got all of them. *)
Theorem hls_fifo segs steps :
  Forall seg_ok segs ->
  exists f b, hls_stream segs steps = Done (f, b) /\
    hls_pushed (h_trace b) `prefix_of` concat segs /\
    (after_eos (h_trace b) = true -> h_task b = HlsPaused /\ hls_pushed (h_trace b) = concat segs).
Proof using Haccept Hcreate Hlinked.
  intros Hs. destruct (hls_stream_ok segs steps Hs) as (f & b & q & E & Hi). exists f, b. split; [done|].
  split; [eexists; apply (hi_content _ _ _ _ Hi)|]. by apply (ended_whole _ q f).
Qed.

End Live.
