(* ===== verification/HlsRuns.v ===== *)
(** * Runs of the buffer of a live stream

    The theorems at concrete streams, on a cache in a file, and runs that show what the
    buffer does in situations that the theorems exclude. *)

From S2P Require Import Prelude.
From S2P Require Import Mem.
From S2P Require Import FlvMetadata.
From S2P Require Import ProgressBuffer.
From S2P Require Import PbRuns.
From S2P Require Import HlsBuffer.
From S2P Require Import HlsFlow.
From S2P Require Import HlsLive.

Open Scope Z_scope.

Definition demo_hls : HlsEnv :=
  mkHlsEnv (fun _ => true) (fun _ => true) (fun _ => true) (fun _ => true) (fun _ _ => GST_FLOW_OK) (fun _ _ => true).

Definition next_segment : hls_step := HSegment false one 0.

Definition demo_segs : list (list Z) := [[1; 2]; [3]; [4]; [5; 6; 7]].

(** The fourth segment waits for a slot, and the task frees one. *)
Definition demo_hls_steps : list hls_step :=
  [next_segment; HData 0; HTask; HData 5; next_segment; HData 0; next_segment; HData 0; next_segment;
   HSlot; HTask; HTask; HTask; HSlot; HData 2; HEos; HTask; HTask; HTask; HTask; HTask; HTask; HTask; HTask; HTask].

Definition demo_hls_run := hls_stream (H := demo_cache) demo_hls.

(** What went downstream, in the order of time. *)
Definition hls_down (r : res (Feed * HLSProgressBuffer (C := Cache))) : option (list Z * bool) :=
  match r with Done (_, b) => Some (hls_pushed (h_trace b), after_eos (h_trace b)) | Fault _ => None end.

Example demo_hls_result : hls_down (demo_hls_run demo_segs demo_hls_steps) = Some ([1; 2; 3; 4; 5; 6; 7], true).
Proof. by vm_compute. Qed.

Lemma demo_segs_ok : Forall seg_ok demo_segs.
Proof. repeat constructor. Qed.

Lemma hls_fifo_witness :
  exists f b, demo_hls_run demo_segs demo_hls_steps = Done (f, b) /\
    hls_pushed (h_trace b) `prefix_of` concat demo_segs /\
    (after_eos (h_trace b) = true -> h_task b = HlsPaused /\ hls_pushed (h_trace b) = concat demo_segs).
Proof.
  apply (hls_fifo (H := demo_cache) demo_hls); [done | done | done | exact demo_segs_ok].
Defined.

(** A state in the middle, where the source waits for a slot. *)
Definition demo_state : Feed * HLSProgressBuffer (C := Cache) := Eval vm_compute in
  match demo_hls_run demo_segs (take 10 demo_hls_steps) with
  | Done r => r
  | Fault _ => (mkFeed [] [], hls_progress_buffer_init (HC := demo_cache) demo_hls)
  end.

Lemma demo_state_reached :
  hls_stream (H := demo_cache) demo_hls demo_segs (take 10 demo_hls_steps) = Done (fst demo_state, snd demo_state).
Proof. by vm_compute. Qed.


(** The source has seen that the ring is full and is about to wait; meanwhile the task reads
    all of the ring, and its signals are lost.  Nothing goes on, and the stream ends in the
    middle. *)
Definition losing_steps : list hls_step :=
  [next_segment; HData 1; next_segment; HData 0; next_segment; HData 0; next_segment;
   HTask; HTask; HTask; HTask; HTask; HTask; HSlot; HTask].

Lemma signal_can_be_lost :
  match demo_hls_run demo_segs losing_steps with
  | Done (f, b) => lost_signal b = true /\ (forall s, enabled s f b = false) /\
      hls_pushed (h_trace b) = [1; 2; 3; 4] /\ f_rest f = [5; 6; 7]
  | Fault _ => False
  end.
Proof. vm_compute. repeat split. by intros []. Qed.

(** ** Other behaviour of the source *)

Abbreviation HState := (HLSProgressBuffer (C := Cache)).

Definition hls_begin (start stop : Z) : ST HState bool :=
  hls_progress_buffer_sink_event (HC := demo_cache) demo_hls (mret tt)
    (SegmentEvent (mkNewSegment false one GST_FORMAT_BYTES start stop 0)).
Definition hls_data (l : list Z) : ST HState unit := hls_progress_buffer_chain (HC := demo_cache) l;; mret tt.
Definition hls_run (k : nat) : ST HState unit :=
  Nat.iter k (fun m => m;; hls_progress_buffer_loop (HC := demo_cache) demo_hls) (mret tt).

Definition hls_active (m : ST HState unit) : res (unit * HState) :=
  (hls_progress_buffer_activatepush_src demo_hls (mret tt) true;; m) (hls_progress_buffer_init (HC := demo_cache) demo_hls).

Definition outcome (r : res (unit * HState)) : option (list Z * hls_task) :=
  match r with Done (_, b) => Some (hls_pushed (h_trace b), h_task b) | Fault _ => None end.

(** A segment that is shorter than announced stops the task, although the next is there. *)
Example short_segment_stalls :
  outcome (hls_active (hls_begin 0 4;; hls_data [1; 2];; hls_begin 0 2;; hls_data [3; 4];; hls_run 9)) =
  Some ([1; 2], HlsWaiting).
Proof. by vm_compute. Qed.

(** So does a segment that does not begin at 0, as its end is taken for its size. *)
Example offset_segment_stalls :
  outcome (hls_active (hls_begin 2 4;; hls_data [1; 2];; hls_begin 0 2;; hls_data [3; 4];; hls_run 9)) =
  Some ([1; 2], HlsWaiting).
Proof. by vm_compute. Qed.

(** Data before the first segment are written to the cache at -1. *)
Example data_before_segment : hls_active (hls_data [1]) = Fault ReadArray.
Proof. by vm_compute. Qed.

(** The caches are used where their creation has failed. *)
Example no_cache_faults :
  let env := mkHlsEnv (fun _ => false) (fun _ => true) (fun _ => true) (fun _ => true) (fun _ _ => GST_FLOW_OK)
    (fun _ _ => true) in
  (hls_progress_buffer_activatepush_src env (mret tt) true;; hls_progress_buffer_loop (HC := demo_cache) env)
    (hls_progress_buffer_init (HC := demo_cache) env) = Fault NullPointer.
Proof. by vm_compute. Qed.

(** A segment after the end of the stream is ignored, without a flush. *)
Example segment_after_end :
  outcome (hls_active
    (hls_begin 0 2;; hls_data [1; 2];; hls_progress_buffer_sink_event (HC := demo_cache) demo_hls (mret tt) EosEvent;;
     hls_run 3;; hls_begin 0 2;; hls_run 3)) = Some ([1; 2], HlsPaused).
Proof. by vm_compute. Qed.

(** With a flush the stream starts again. *)
Example flush_restarts :
  outcome (hls_active
    (hls_begin 0 2;; hls_data [1; 2];; hls_progress_buffer_sink_event (HC := demo_cache) demo_hls (mret tt) EosEvent;;
     hls_run 3;; hls_progress_buffer_sink_event (HC := demo_cache) demo_hls (mret tt) FlushStart;;
     hls_progress_buffer_sink_event (HC := demo_cache) demo_hls (mret tt) FlushStop;;
     hls_begin 0 2;; hls_data [3; 4];; hls_run 3)) = Some ([1; 2; 3; 4], HlsWaiting).
Proof. by vm_compute. Qed.
