(* ===== verification/FlvRuns.v ===== *)
(** * Concrete runs of the FLV parser (flvparser.c, flvmetadata.c)

    Small files and tags on which the theorems apply, and bytes for which the code
    goes wrong. *)

From S2P Require Import Prelude.
From S2P Require Import Mem.
From S2P Require Import FlvMetadata.
From S2P Require Import FlvScript.
From S2P Require Import FlvAmf.
From S2P Require Import FlvIndex.
From S2P Require Import GstAdapter.
From stdpp Require Import gmap.

Open Scope Z_scope.

(** ** Tags *)

Module Bytes64.
(** The numbers 1 and 640 as 64 bits. *)
Definition one : Z := 4607182418800017408.
Definition n640 : Z := 4648840715353194496.
End Bytes64.

Definition no_junk : FlvKeyframe := mkKeyframe 0 0.
Definition any_utf8 (l : list Z) : bool := true.
Definition start : ScriptState := mkScript 0 flv_metadata_new {[Name.duration := G_TYPE_UINT64]}.

(** What reading a tag does from the start. *)
Definition read_tag (d : list Z) : res (bool * ScriptState) :=
  flv_script_data_read any_utf8 no_junk d (alen d) (S (length d)) start.

Definition demo_members : list (list Z * top) :=
  [(Name.width, Value (ANumber Bytes64.n640));
   ([120], Value (AObject [([97], AStrict [ANumber Bytes64.one; ABool 1]); ([], AString [65])]));
   (Name.keyframes, Keyframes [Bytes64.one; Bytes64.n640] [Bytes64.n640; Bytes64.one]);
   ([116], LongString [104; 105]); ([100], Date [0; 0; 0; 0; 0; 0; 0; 0; 0; 0])].

Definition demo_tag : list Z := script_bytes 4 demo_members.

Definition demo_result : ScriptState :=
  match store_members no_junk any_utf8 demo_members (with_tags start) with
  | Done (_, s) => s
  | Fault _ => start
  end.



(** Bytes that are no tag: an array of 16777216 values that does not hold them. *)
Definition broken_tag : list Z :=
  [2] ++ (be16 10 ++ Name.onMetaData) ++ [8] ++ be32 1 ++ member_bytes [97] 10 (be32 16777216 ++ [10; 0; 0]).

Lemma script_data_read_safe_witness :
  bytes broken_tag /\
  runs (flv_script_data_read any_utf8 no_junk broken_tag (alen broken_tag) (S (length broken_tag)))
    start (fun _ s' => 0 <= pos s').
Proof.
  assert (bytes broken_tag) as Hb by (by apply (bool_decide_unpack _); vm_compute).
  split; [done|].
  apply (script_data_read_safe any_utf8 no_junk broken_tag (alen broken_tag) Hb
           ltac:(vm_compute; split; discriminate) start (S (length broken_tag))).
  - simpl. lia.
  - unfold alen. lia.
Defined.

(** ** The parser *)

Definition new_parser : FlvParser := flv_parser_init (mkParser FLV_PARSER_EOF 0 0 0).

Lemma new_parser_ok : parser_ok new_parser.
Proof. by split. Qed.

Lemma parser_answers_witness :
  exists r p', run_operation READ_HEADER new_parser (header_bytes true false 9) 9 = Some (r, p') /\
    answers READ_HEADER new_parser 9 r p'.
Proof.
  apply (parser_answers new_parser (header_bytes true false 9) 9 new_parser_ok
           ltac:(by apply (bool_decide_unpack _); vm_compute) ltac:(by vm_compute) READ_HEADER).
Defined.

(** ** The index and the adapter *)

Definition demo_index : list FlvKeyframe := [mkKeyframe 0 13; mkKeyframe 2000 500].

Lemma demo_index_ok : index_ok demo_index.
Proof. repeat constructor; unfold before; simpl; lia. Qed.

Lemma index_add_sorted_witness : index_ok (flv_demux_index_add_entry demo_index 1000 300).
Proof. apply (index_add_sorted demo_index 1000 300 demo_index_ok). Defined.

Definition no_span (b1 b2 : GstBuffer) : bool := false.
Definition two_buffers : GstAdapter :=
  gst_adapter_push (gst_adapter_push gst_adapter_new (mkBuffer [1; 2] 0 0)) (mkBuffer [3; 4; 5] 0 2).

Lemma adapter_refines_witness :
  exists a', adapter_step no_span (Peek 4) two_buffers = Some (Bytes (Some [1; 2; 3; 4]), a') /\
    adapter_ok a' /\ adapter_bytes a' = [1; 2; 3; 4; 5].
Proof.
  apply (adapter_refines no_span (Peek 4) two_buffers).
  - by repeat split.
  - simpl. lia.
Defined.

(** ** What goes wrong *)

(** A member that is an array of numbers. *)
Definition array_member (name ws : list Z) : list Z :=
  member_bytes name 10 (amf_body (AStrict (map ANumber ws))).

Definition keyframes_tag (body : list Z) : list Z :=
  [2] ++ (be16 10 ++ Name.onMetaData) ++ [8] ++ be32 1 ++ member_bytes Name.keyframes 3 body.

(** The second array of the key frames has two elements more than the first: the count of
    elements that are left to store goes below zero, and the third is written past the end. *)
Lemma keyframes_longer_array :
  read_tag (keyframes_tag (array_member Name.times [Bytes64.one]
    ++ array_member Name.filepositions [Bytes64.one; Bytes64.one; Bytes64.one] ++ terminator))
  = Fault WriteOutside.
Proof. reflexivity. Qed.

(** An array that says it has 2 ^ 28 elements: the size in bytes wraps around to nothing. *)
Lemma keyframes_size_overflow :
  read_tag (keyframes_tag (member_bytes Name.times 10
    (be32 268435456 ++ numbers_bytes [Bytes64.one; Bytes64.one]))) = Fault WriteOutside.
Proof. reflexivity. Qed.

(** A string named [duration]: the tag is registered for numbers. *)
Lemma string_for_duration :
  read_tag (script_bytes 1 [(Name.duration, Value (AString [65]))]) = Fault TagMismatch.
Proof. reflexivity. Qed.

(** A null is a value at the top level but not inside an object: the rest of the tag is
    given up, with the tags that were found. *)
Lemma nested_null_fails :
  (exists s, read_tag (script_bytes 1 [([97], Null)]) = Done (true, s)) /\
  exists s, read_tag ([2] ++ (be16 10 ++ Name.onMetaData) ++ [8] ++ be32 1
    ++ member_bytes [97] 3 (member_bytes [98] 5 [] ++ terminator) ++ terminator) = Done (false, s) /\
    md_tag_list (metadata s) = None.
Proof. split; [by eexists|]. eexists. by split. Qed.

(** A date at the end of the data: the position is moved past the end. *)
Lemma date_past_end :
  let d := [2] ++ (be16 10 ++ Name.onMetaData) ++ [8] ++ be32 1 ++ member_bytes [97] 11 [] in
  exists s, read_tag d = Done (true, s) /\ alen d < pos s.
Proof. eexists. by split. Qed.

(** A time after the last key frame is not found. *)
Lemma lookup_after_last : flv_demux_index_lookup demo_index 3000 = Some None.
Proof. reflexivity. Qed.
