(* ===== verification/FlvDrain.v ===== *)
(** * The demultiplexer: safety, and how the bytes arrive (flvdemux.c)

    A block of any bytes is parsed without a read outside of it, and the index stays
    sorted.  [drain] is what the element does with bytes, without the adapter: the
    push mode does the same over any queue of bytes, however the file is cut into
    buffers, and so does the pull mode. *)

From S2P Require Import Prelude.
From S2P Require Import Mem.
From S2P Require Import FlvScript.
From S2P Require Export FlvDemux.

Open Scope Z_scope.

(** ** Rules *)

(** The faults that the values of script data can cause. *)
Definition permitted (f : fault) : Prop := tolerated f \/ f = ReadArray.

(** [m] ends, with a result and a state for which [Q] holds, or in a fault that [P]
    allows. *)
Definition ends (P : fault -> Prop) {A} (m : D A) (d : FlvDemux)
    (Q : A -> FlvDemux -> Prop) : Prop :=
  match m d with
  | Done (a, d') => Q a d'
  | Fault f => P f
  end.

Abbreviation drun := (ends permitted).

Section Rules.
Context {P : fault -> Prop}.

Lemma drun_ret {A} (a : A) d Q : Q a d -> ends P (mret a) d Q.
Proof. done. Qed.
Lemma drun_bind {A B} (m : D A) (k : A -> D B) d Q :
  ends P m d (fun a d' => ends P (k a) d' Q) -> ends P (m ≫= k) d Q.
Proof. unfold ends, mbind, D_bind. by destruct (m d) as [[a d']|f]. Qed.
Lemma drun_gets {A} (f : FlvDemux -> A) d Q : Q (f d) d -> ends P (gets f) d Q.
Proof. done. Qed.
Lemma drun_update f d Q : Q tt (f d) -> ends P (update f) d Q.
Proof. done. Qed.
Lemma drun_emit e d Q : Q tt (put_trace (e :: d_trace d) d) -> ends P (emit e) d Q.
Proof. done. Qed.
Lemma drun_demand {A} f (o : option A) d Q :
  (o = None -> P f) -> (forall a, o = Some a -> Q a d) -> ends P (demand f o) d Q.
Proof. intros Hf HQ. destruct o; [by apply HQ|by apply Hf]. Qed.
Lemma drun_demand_Some {A} f (a : A) d Q : Q a d -> ends P (demand f (Some a)) d Q.
Proof. done. Qed.
Lemma drun_conseq {A} (m : D A) d (Q Q' : A -> FlvDemux -> Prop) :
  ends P m d Q -> (forall a d', Q a d' -> Q' a d') -> ends P m d Q'.
Proof. unfold ends. destruct (m d) as [[a d']|f]; auto. Qed.
Lemma drun_known {A} (m : D A) d a d' (Q : A -> FlvDemux -> Prop) :
  m d = Done (a, d') -> Q a d' -> ends P m d Q.
Proof. unfold ends. by intros ->. Qed.
End Rules.

Lemma ends_done {A} (m : D A) d Q :
  ends (fun _ => False) m d Q <-> exists a d', m d = Done (a, d') /\ Q a d'.
Proof. unfold ends. destruct (m d) as [[a d']|f]; naive_solver. Qed.

Lemma permitted_conversion : permitted BadConversion.
Proof. left. by right; left. Qed.
Lemma permitted_array : permitted ReadArray.
Proof. by right. Qed.
#[export] Hint Resolve permitted_conversion permitted_array : core.

(** Reduces members of an updated state. *)
Ltac dsimpl :=
  cbn [put_parser put_is_pulling put_need_parser_flush put_has_video put_has_audio put_metadata
       put_registry put_queued_tags put_last_file_position put_current_timestamp put_keyframes
       put_copied_metadata_keyframes put_segment put_is_flushing put_audio_src_pad
       put_video_src_pad put_sound_format put_audio_linked put_audio_offset put_audio_discont
       put_audio_prev_timestamp put_audio_frame_duration put_video_codec_id put_video_linked
       put_video_offset put_video_discont put_video_prev_timestamp put_video_frame_duration
       put_trace
       d_parser d_is_pulling d_need_parser_flush d_has_video d_has_audio d_metadata
       d_registry d_queued_tags d_last_file_position d_current_timestamp d_keyframes
       d_copied_metadata_keyframes d_segment d_is_flushing d_audio_src_pad
       d_video_src_pad d_sound_format d_audio_linked d_audio_offset d_audio_discont
       d_audio_prev_timestamp d_audio_frame_duration d_video_codec_id d_video_linked
       d_video_offset d_video_discont d_video_prev_timestamp d_video_frame_duration
       d_trace id fst snd].

(** One step through the code. *)
Ltac drun1 :=
  match goal with
  | |- ends _ (mbind _ _) _ _ => apply drun_bind
  | |- ends _ (mret _) _ _ => apply drun_ret
  | |- ends _ (gets _) _ _ => apply drun_gets
  | |- ends _ (update _) _ _ => apply drun_update
  | |- ends _ (emit _) _ _ => apply drun_emit
  | |- ends _ (demand _ (Some _)) _ _ => apply drun_demand_Some
  | |- ends _ (when ?c _) _ _ => unfold when
  | |- ends _ (if ?c then _ else _) _ _ => destruct c eqn:?
  | |- ends _ (match ?o with Some _ => _ | None => _ end) _ _ => destruct o eqn:?
  | |- ends _ (match ?p with (_, _) => _ end) _ _ => destruct p eqn:?
  end; dsimpl.
Ltac druns := repeat drun1.

(** ** What every operation keeps *)

(** A parser that has parsed complete blocks, or has met a tag of unknown type. *)
Definition parser_live (p : FlvParser) : Prop :=
  parser_ok p \/
  is_u64 (file_position p) /\ state p = FLV_PARSER_EXPECT_TAG_PREFIX /\
  4 <= next_block_size p < 16777220.

Definition demux_ok (d : FlvDemux) : Prop :=
  parser_live (d_parser d) /\ index_ok (d_keyframes d).

Lemma live_size p : parser_live p -> 4 <= next_block_size p < 4294967296.
Proof.
  intros [[_ H]|(_ & _ & H)]; [|lia].
  destruct (state p); try done; unfold FLV_HEADER_SIZE, FLV_TAG_PREFIX_SIZE in *; lia.
Qed.

(** The parser and the flag stay, and so does the order of the index. *)
Definition kept (d d' : FlvDemux) : Prop :=
  d_parser d' = d_parser d /\ d_need_parser_flush d' = d_need_parser_flush d /\
  (index_ok (d_keyframes d) -> index_ok (d_keyframes d')).

#[export] Instance kept_refl : Reflexive kept.
Proof. by repeat split. Qed.
#[export] Instance kept_trans : Transitive kept.
Proof. intros d1 d2 d3 (? & ? & ?) (? & ? & ?). repeat split; [congruence..|auto]. Qed.

(** A step that keeps all this, and what follows it. *)
Lemma drun_kept {A} (m : D A) d d0 (Q : A -> FlvDemux -> Prop) :
  drun m d (fun _ => kept d) -> kept d0 d ->
  (forall a d', kept d0 d' -> Q a d') -> drun m d Q.
Proof.
  intros Hm Hd HQ. eapply drun_conseq; [exact Hm|]. intros a d' ?. apply HQ.
  by etransitivity.
Qed.

Ltac kept_tac := solve [done | repeat split; dsimpl; solve [done | auto]].

(** A packet for which a buffer was allocated is inside the block. *)
Lemma packet_read data offset size body :
  packet_in offset size body -> 0 <= offset <= 7 -> 0 <= body <= alen data - 4 ->
  0 <= i32 size -> is_Some (read_bytes data offset size).
Proof.
  intros Hp Ho Hb Hs. apply read_bytes_in; [lia|]. unfold packet_in in Hp. revert Hp.
  case_match; [lia|]. intros ->. revert Hs. unfold i32. zlia.
Qed.
Section Blocks.
Context (pads : Pads) (utf8 : list Z -> bool) (junk : FlvKeyframe).

Lemma queue_codec_kept tag name b d : drun (queue_codec tag name b) d (fun _ => kept d).
Proof. unfold queue_codec. druns; kept_tac. Qed.

Lemma negotiate_audio_kept f r b s d :
  drun (flv_demux_negotiate_audio_caps pads f r b s) d (fun _ => kept d).
Proof.
  unfold flv_demux_negotiate_audio_caps, gst_pad_set_caps. druns; try kept_tac.
  eapply (drun_kept _ _ d); [apply queue_codec_kept|kept_tac|]. intros. by druns.
Qed.

Lemma negotiate_video_kept c d :
  drun (flv_demux_negotiate_video_caps pads c) d (fun _ => kept d).
Proof.
  unfold flv_demux_negotiate_video_caps, gst_pad_set_caps.
  drun1. drun1. drun1. eapply (drun_conseq _ _ (fun _ d' => d' = d)).
  { drun1; [|by druns]. drun1. apply drun_demand; [auto|]. intros z _. by druns. }
  intros fr ? ->. druns; try kept_tac.
  eapply (drun_kept _ _ d); [apply queue_codec_kept|kept_tac|]. intros. by druns.
Qed.

Lemma make_pad_kept p neg set last d :
  (forall d', drun neg d' (fun _ => kept d')) -> (forall b d', kept d' (set b d')) ->
  drun (make_pad pads p neg set last) d (fun _ => kept d).
Proof.
  intros Hn Hs. unfold make_pad. drun1. drun1. drun1.
  eapply (drun_kept _ _ d); [apply Hn|apply Hs|]. intros ok d' Hd'.
  druns; try done; etransitivity; eauto; kept_tac.
Qed.

Lemma add_entry_kept t p d : drun (add_index_entry t p) d (fun _ => kept d).
Proof.
  unfold add_index_entry. drun1. repeat split; dsimpl. intros. by apply index_add_ok.
Qed.

Lemma push_audio_kept data tag d :
  is_Some (read_bytes data (audio_packet_offset tag) (audio_packet_size tag)) ->
  drun (push_audio pads data tag) d (fun _ => kept d).
Proof.
  intros [l Hl]. unfold push_audio, push_segment, gst_pad_push. rewrite Hl. druns; try kept_tac;
    (eapply (drun_kept _ _ d); [apply add_entry_kept|kept_tac|]); intros; druns;
    etransitivity; eauto; kept_tac.
Qed.

Lemma push_video_kept data tag d :
  is_Some (read_bytes data (video_packet_offset tag) (video_packet_size tag)) ->
  drun (push_video pads data tag) d (fun _ => kept d).
Proof.
  intros [l Hl]. unfold push_video, push_segment, gst_pad_push. rewrite Hl. druns; try kept_tac;
    (eapply (drun_kept _ _ d); [apply add_entry_kept|kept_tac|]); intros; druns;
    etransitivity; eauto; kept_tac.
Qed.


(** ** A block *)

(** What holds behind a block of [size] bytes: a block that succeeds was taken. *)
Definition block_post (d : FlvDemux) (size : Z) (r : GstFlowReturn) (d' : FlvDemux) : Prop :=
  demux_ok d' /\ d_need_parser_flush d' = d_need_parser_flush d /\
  (r = GST_FLOW_OK -> parser_ok (d_parser d) -> took_block (d_parser d) (d_parser d') size).

Hypothesis Hchecks : g_checks pads = true.

Section Block.
Variables (d : FlvDemux) (data : list Z) (size : Z).
Hypothesis Hd : demux_ok d.
Hypothesis Hbytes : bytes data.
Hypothesis Hsize : 0 <= size <= alen data.

(** What the parser does with the block, as the demultiplexer sees it. *)
Definition parsed (r : FlvParserResult) (p' : FlvParser) : Prop :=
  parser_live p' /\
  (r = FLV_PARSER_OK -> parser_ok (d_parser d) -> took_block (d_parser d) p' size).

Lemma operation_parsed op r p' :
  op <> READ_TAG_PREFIX -> parser_ok (d_parser d) -> answers op (d_parser d) size r p' ->
  parsed r p'.
Proof using Type.
  intros Hop Hok (_ & _ & Hyes & Hno). split; [|auto].
  destruct (decide (r = FLV_PARSER_OK)) as [Hr|Hr]; [left; by apply Hyes|].
  destruct (Hno Hr) as [->|[]]; [by left|done].
Qed.

Lemma prefix_parsed t :
  state (d_parser d) = FLV_PARSER_EXPECT_TAG_PREFIX ->
  exists r p' t', flv_parser_read_tag_prefix (d_parser d) data size t = Some (r, p', t') /\
    parsed r p'.
Proof using Hd Hbytes Hsize.
  intros Hs. destruct Hd as [Hlive _]. unfold flv_parser_read_tag_prefix, parsed.
  rewrite (bool_decide_eq_false_2 (state _ <> _)) by (intros []; done).
  unfold FLV_TAG_PREFIX_SIZE. destruct (Z.ltb_spec size 11).
  { eexists _, _, _. split; [done|]. split; [done|discriminate]. }
  destruct (ld_in data 0) as [b0 ->]; [lia|].
  destruct (read24_in data 1) as (n & -> & ?); [done|lia..|].
  destruct (readTS_in data 4) as (ts & -> & ?); [lia..|].
  destruct (read24_in data 8) as (id & -> & ?); [done|lia..|]. simpl.
  case_match; simpl.
  { eexists _, _, _. split; [done|]. split; [done|discriminate]. }
  destruct (body_state b0) as [st|] eqn:Hst; (eexists _, _, _; split; [done|]).
  - assert (parser_ok (mkParser st (u64 (file_position (d_parser d) + 11)) 11
                         (n + FLV_TAG_SUFFIX_SIZE))) as Hok'.
    { split; [apply u64_range|]. unfold FLV_TAG_SUFFIX_SIZE. simpl.
      unfold body_state in Hst. repeat case_match; simplify_eq; lia. }
    split; [by left|]. intros _ [_ Hn]. rewrite Hs in Hn.
    unfold took_block, FLV_TAG_PREFIX_SIZE in *. simpl. rewrite Hn. split; [lia|done].
  - split; [|discriminate]. right. split; [apply u64_range|]. simpl.
    unfold FLV_TAG_SUFFIX_SIZE. split; [done|lia].
Qed.

(** In the states of other blocks the parser has parsed complete blocks. *)
Lemma live_ok : state (d_parser d) <> FLV_PARSER_EXPECT_TAG_PREFIX -> parser_ok (d_parser d).
Proof using Hd. destruct Hd as [[?|(_ & ? & _)] _]; done. Qed.

Lemma block_failed p' e :
  e <> GST_FLOW_OK -> parser_live p' -> block_post d size e (put_parser p' d).
Proof using Hd. intros. by split; [split; [done|apply Hd]|]. Qed.

(** After the parser has taken the block, what is kept is all that matters. *)
Lemma block_kept p' r d' :
  parsed FLV_PARSER_OK p' -> kept (put_parser p' d) d' -> block_post d size r d'.
Proof using Hd.
  intros [Hl Ht] (Hp & Hf & Hi). destruct Hd as [_ Hx]. unfold block_post, demux_ok.
  rewrite Hp. dsimpl. split; [split; [done|]|split; [done|auto]]. by apply Hi.
Qed.

Lemma block_run_kept {A} (m : D A) d0 p' (Q : A -> FlvDemux -> Prop) :
  drun m d0 (fun _ => kept d0) -> kept (put_parser p' d) d0 ->
  (forall a d', kept (put_parser p' d) d' -> Q a d') -> drun m d0 Q.
Proof using Type. apply drun_kept. Qed.

(** The end of both parsers of packets: a buffer is allocated and pushed. *)
Lemma alloc_push_kept p n (set : FlvDemux -> FlvDemux) (push : D GstFlowReturn) d0 :
  (forall d', kept d' (set d')) -> (0 <= n -> forall d', drun push d' (fun _ => kept d')) ->
  drun (result ← gst_pad_alloc_buffer pads p n;
        if negb (flow_ok result) then
          when (bool_decide (result = GST_FLOW_NOT_LINKED)) (update set);; mret result
        else push) d0 (fun _ => kept d0).
Proof using Hchecks.
  intros Hset Hpush. unfold gst_pad_alloc_buffer. rewrite Hchecks. drun1. drun1.
  { by druns. }
  apply Z.ltb_ge in Heqb. druns; solve [done | auto | by apply Hpush].
Qed.

(** The packet of the block can be read, if its size is not negative. *)
Lemma packet_safe p' off n :
  parser_ok (d_parser d) -> parsed FLV_PARSER_OK p' ->
  packet_in off n (next_block_size (d_parser d) - 4) -> 0 <= off <= 7 ->
  0 <= i32 n -> is_Some (read_bytes data off n).
Proof using Hsize.
  intros Hok [_ Ht] Hp Ho Hn. destruct Ht as [? _]; [done..|].
  pose proof (live_size (d_parser d) (or_introl Hok)).
  eapply packet_read; [done..| |done]. lia.
Qed.

Lemma audio_safe :
  state (d_parser d) = FLV_PARSER_EXPECT_AUDIO_TAG_BODY ->
  drun (flv_demux_parse_audio_tag pads data size) d (block_post d size).
Proof using Hd Hbytes Hsize Hchecks.
  intros Hs. assert (parser_ok (d_parser d)) as Hok by (apply live_ok; by rewrite Hs).
  destruct (audio_answers (d_parser d) data size) as (r & p' & Hrun & Ha); [done..|lia|].
  simpl in Hrun. destruct (flv_parser_read_audio_tag _ _ _ _) as [[[r0 p0] tag]|] eqn:Hread; [|done].
  simpl in Hrun. simplify_eq. apply operation_parsed in Ha as Hpar; [|done..].
  unfold flv_demux_parse_audio_tag. drun1. drun1. rewrite Hread. do 4 drun1.
  case_bool_decide as Hr; [drun1; apply block_failed; [done|apply Hpar]|].
  subst r.
  apply (packets_in (d_parser d)) in Hread as Hpk; [|done].
  apply (packets_offset (d_parser d)) in Hread as Hoff.
  drun1. drun1. drun1. drun1. drun1. eapply (block_run_kept _ _ p').
  { drun1; [by drun1|]. apply make_pad_kept; [intros; apply negotiate_audio_kept|].
    intros; kept_tac. }
  { kept_tac. }
  intros made d1 Hd1. drun1; [drun1; by eapply block_kept|]. drun1.
  { druns; eapply block_kept; try done; etransitivity; eauto; kept_tac. }
  drun1. drun1. drun1. eapply (block_run_kept _ _ p'); [|done|].
  { drun1; drun1; [drun1|by drun1]. apply (drun_kept _ _ d1); [apply negotiate_audio_kept|done|]. intros. by apply drun_ret. }
  intros ? d2 Hd2. eapply (block_run_kept _ _ p'); [|done|intros; by eapply block_kept].
  apply alloc_push_kept; [intros; kept_tac|]. intros Hn d3. apply push_audio_kept.
  by eapply packet_safe.
Qed.

Lemma video_safe :
  state (d_parser d) = FLV_PARSER_EXPECT_VIDEO_TAG_BODY ->
  drun (flv_demux_parse_video_tag pads data size) d (block_post d size).
Proof using Hd Hbytes Hsize Hchecks.
  intros Hs. assert (parser_ok (d_parser d)) as Hok by (apply live_ok; by rewrite Hs).
  destruct (video_answers (d_parser d) data size) as (r & p' & Hrun & Ha); [done..|lia|].
  simpl in Hrun. destruct (flv_parser_read_video_tag _ _ _ _) as [[[r0 p0] tag]|] eqn:Hread; [|done].
  simpl in Hrun. simplify_eq. apply operation_parsed in Ha as Hpar; [|done..].
  unfold flv_demux_parse_video_tag. drun1. drun1. rewrite Hread. do 4 drun1.
  case_bool_decide as Hr; [drun1; apply block_failed; [done|apply Hpar]|].
  subst r.
  apply (packets_in (d_parser d)) in Hread as Hpk; [|done].
  apply (packets_offset (d_parser d)) in Hread as Hoff.
  drun1. drun1. drun1. drun1. drun1. eapply (block_run_kept _ _ p').
  { drun1; [by drun1|]. apply make_pad_kept; [intros; apply negotiate_video_kept|].
    intros; kept_tac. }
  { kept_tac. }
  intros made d1 Hd1. drun1; [drun1; by eapply block_kept|]. drun1.
  { druns; eapply block_kept; try done; etransitivity; eauto; kept_tac. }
  drun1. drun1. drun1. eapply (block_run_kept _ _ p'); [|done|].
  { drun1; drun1; [drun1|by drun1]. apply (drun_kept _ _ d1); [apply negotiate_video_kept|done|]. intros. by apply drun_ret. }
  intros ? d2 Hd2. drun1. drun1. drun1. eapply (block_run_kept _ _ p'); [|done|].
  { druns; kept_tac. }
  intros ? d3 Hd3. eapply (block_run_kept _ _ p'); [|done|intros; by eapply block_kept].
  apply alloc_push_kept; [intros; kept_tac|]. intros Hn d4. apply push_video_kept.
  by eapply packet_safe.
Qed.

(** Script data *)

Lemma read_script_kept reader d0 :
  0 <= position reader -> 0 <= end_ reader <= alen data ->
  drun (read_script utf8 junk data reader) d0 (fun _ => kept d0).
Proof using Hbytes.
  intros Hp He. unfold ends, read_script.
  pose proof (script_read_safe utf8 junk data (end_ reader) Hbytes He
    (mkScript (position reader) (d_metadata d0) (d_registry d0)) (S (length data)) Hp) as Hrun.
  unfold runs in Hrun. unfold alen in *.
  destruct (flv_script_data_read _ _ _ _ _ _) as [[b s']|f]; [kept_tac|].
  left. apply Hrun. lia.
Qed.

Lemma fold_index_ok entries l :
  index_ok l ->
  index_ok (fold_left (fun l e => flv_demux_index_add_entry l (time e) (fileposition e)) entries l).
Proof using Type. revert l. induction entries; simpl; intros; [done|]. by apply IHentries, index_add_ok. Qed.

Lemma copy_keyframes_kept d0 : drun copy_metadata_keyframes d0 (fun _ => kept d0).
Proof using Type.
  unfold copy_metadata_keyframes. drun1. drun1. drun1; [|by drun1]. drun1; [by drun1|]. drun1.
  apply drun_demand; [auto|]. intros entries _. druns. repeat split; dsimpl. apply fold_index_ok.
Qed.

Lemma queue_tags_kept d0 : drun queue_metadata_tags d0 (fun _ => kept d0).
Proof using Type. unfold queue_metadata_tags. druns; kept_tac. Qed.

Lemma script_safe :
  state (d_parser d) = FLV_PARSER_EXPECT_SCRIPT_DATA_TAG_BODY ->
  drun (parse_script_block utf8 junk data size) d (block_post d size).
Proof using Hd Hbytes Hsize.
  intros Hs. assert (parser_ok (d_parser d)) as Hok by (apply live_ok; by rewrite Hs).
  pose proof (live_size (d_parser d) (or_introl Hok)) as Hl.
  destruct (script_answers (d_parser d) data size) as (r & p' & Hrun & Ha); [done..|].
  apply operation_parsed in Ha as Hpar; [|done..]. simpl in Hrun.
  unfold parse_script_block. drun1. drun1.
  destruct (flv_parser_read_script_data_tag _ _ _ _) as [[r0 p0] reader] eqn:Hread.
  simpl in Hrun. simplify_eq. drun1. drun1. case_bool_decide as Hr.
  2:{ drun1. apply block_failed; [done|apply Hpar]. }
  subst r. assert (position reader = 0 /\ end_ reader = next_block_size (d_parser d) - 4) as [Hp0 He].
  { unfold flv_parser_read_script_data_tag in Hread. by repeat case_match; simplify_eq/=. }
  assert (next_block_size (d_parser d) <= size) by (destruct Hpar as [_ Ht]; by apply Ht).
  drun1. eapply (block_run_kept _ _ p'); [apply read_script_kept; lia|kept_tac|].
  intros ok d1 Hd1. drun1. eapply (block_run_kept _ _ p'); [|done|].
  { drun1; drun1; [apply queue_tags_kept|by drun1]. }
  intros ? d2 Hd2. drun1. eapply (block_run_kept _ _ p'); [apply copy_keyframes_kept|done|].
  intros ? d3 Hd3. apply drun_ret. by eapply block_kept.
Qed.

Lemma header_safe :
  state (d_parser d) = FLV_PARSER_EXPECT_HEADER ->
  drun (parse_header_block data size) d (block_post d size).
Proof using Hd Hbytes Hsize.
  intros Hs. assert (parser_ok (d_parser d)) as Hok by (apply live_ok; by rewrite Hs).
  destruct (header_answers (d_parser d) data size) as (r & p' & Hrun & Ha); [done..|lia|].
  apply operation_parsed in Ha as Hpar; [|done..]. simpl in Hrun.
  destruct (flv_parser_read_header _ _ _ _) as [[[r0 p0] h]|] eqn:Hread; [|done].
  simpl in Hrun. simplify_eq. unfold parse_header_block. drun1. drun1. rewrite Hread. do 4 drun1.
  case_bool_decide as Hr; druns.
  - subst r. eapply block_kept; [done|kept_tac].
  - apply block_failed; [done|apply Hpar].
Qed.

Lemma skip_safe :
  state (d_parser d) = FLV_PARSER_EXPECT_SKIP_BLOCK ->
  drun (parse_skip_block data size) d (block_post d size).
Proof using Hd.
  intros Hs. assert (parser_ok (d_parser d)) as Hok by (apply live_ok; by rewrite Hs).
  destruct (skip_answers (d_parser d) data size) as (r & p' & Hrun & Ha); [done..|].
  apply operation_parsed in Ha as Hpar; [|done..]. simpl in Hrun. injection Hrun as Hrun.
  unfold parse_skip_block. drun1. drun1. rewrite Hrun. do 3 drun1.
  case_bool_decide as Hr.
  - subst r. eapply block_kept; [done|kept_tac].
  - apply block_failed; [done|apply Hpar].
Qed.

Lemma prefix_safe :
  state (d_parser d) = FLV_PARSER_EXPECT_TAG_PREFIX ->
  drun (parse_prefix_block data size) d (block_post d size).
Proof using Hd Hbytes Hsize.
  intros Hs. destruct (prefix_parsed (mkTagPrefix 0 0 0)) as (r & p' & t & Hread & Hpar); [done|].
  unfold parse_prefix_block. drun1. drun1. rewrite Hread. do 4 drun1.
  case_bool_decide as Hr; druns.
  - subst r. eapply block_kept; [done|kept_tac].
  - apply block_failed; [done|apply Hpar].
Qed.

(** Any bytes can be given for the next block. *)
Lemma next_block_safe :
  drun (flv_demux_parse_next_block pads utf8 junk data size) d (block_post d size).
Proof using Hd Hbytes Hsize Hchecks.
  unfold flv_demux_parse_next_block. drun1. drun1. drun1.
  apply (drun_conseq _ _ (block_post d size)).
  - destruct (state (d_parser d)) eqn:Hs; auto using header_safe, skip_safe, prefix_safe,
      video_safe, audio_safe, script_safe.
    apply drun_ret. split; [done|]. by split.
  - intros r d' Hpost. druns; [|done]. destruct Hpost as (H1 & H2 & H3). by split.
Qed.
End Block.
End Blocks.

(** ** Draining bytes

    What [flv_demux_chain] does with the bytes it has: blocks are parsed while there
    are bytes for one. *)

Section Drain.
Context (pads : Pads) (utf8 : list Z -> bool) (junk : FlvKeyframe).

Fixpoint drain (fuel : nat) (l : list Z) (result : GstFlowReturn) : D (GstFlowReturn * list Z) :=
  parser ← gets d_parser;
  let n := next_block_size parser in
  if n <=? alen l then
    match fuel with
    | O => stuck OutOfFuel
    | S fuel =>
        result ← flv_demux_parse_next_block pads utf8 junk (take (Z.to_nat n) l) n;
        if flow_ok result then drain fuel (drop (Z.to_nat n) l) result
        else mret (result, drop (Z.to_nat n) l)
    end
  else mret (result, l).

(** Draining all the bytes. *)
Definition drain_all (l : list Z) : D (GstFlowReturn * list Z) := drain (S (length l)) l GST_FLOW_OK.

(** A round. *)
Lemma drain_step fuel l r d :
  let n := next_block_size (d_parser d) in
  drain fuel l r d =
  if n <=? alen l then
    match fuel with
    | O => Fault OutOfFuel
    | S fuel =>
        match flv_demux_parse_next_block pads utf8 junk (take (Z.to_nat n) l) n d with
        | Done (r', d') => if flow_ok r' then drain fuel (drop (Z.to_nat n) l) r' d'
                           else Done (r', drop (Z.to_nat n) l, d')
        | Fault f => Fault f
        end
    end
  else Done (r, l, d).
Proof.
  destruct fuel; simpl; unfold mbind, D_bind, gets; simpl; case_match; try done.
  destruct (flv_demux_parse_next_block _ _ _ _ _ _) as [[r' d']|f]; [|done]. by case_match.
Qed.

Hypothesis Hchecks : g_checks pads = true.

(** A block of the bytes at hand. *)
Lemma take_block d l :
  demux_ok d -> bytes l -> next_block_size (d_parser d) <= alen l ->
  let n := next_block_size (d_parser d) in
  4 <= n /\ bytes (drop (Z.to_nat n) l) /\ alen (drop (Z.to_nat n) l) = alen l - n /\
  alen (take (Z.to_nat n) l) = n /\
  drun (flv_demux_parse_next_block pads utf8 junk (take (Z.to_nat n) l) n) d (block_post d n).
Proof using Hchecks.
  intros Hd Hl Hn n. assert (4 <= n) by (destruct Hd as [Hd _]; apply live_size in Hd; lia).
  unfold alen in *. rewrite length_drop, length_take.
  split; [done|]. split; [by apply Forall_drop|]. split; [lia|]. split; [lia|].
  apply next_block_safe; [done..|by apply Forall_take|]. unfold alen. rewrite length_take. lia.
Qed.

Lemma drain_fuel f f' l r d :
  demux_ok d -> bytes l -> (length l < f)%nat -> (length l < f')%nat ->
  drain f l r d = drain f' l r d.
Proof using Hchecks.
  revert f' l r d. induction f as [|f IH]; intros f' l r d Hd Hl Hf Hf'; [lia|].
  destruct f' as [|f']; [lia|]. rewrite !drain_step.
  destruct (Z.leb_spec (next_block_size (d_parser d)) (alen l)) as [Hn|]; [|done].
  destruct (take_block d l) as (H4 & Hb & Hlen & _ & Hrun); [done..|]. unfold ends in Hrun.
  destruct (flv_demux_parse_next_block _ _ _ _ _ _) as [[r' d']|]; [|done].
  destruct (flow_ok r'); [|done]. unfold alen in *. apply IH; [apply Hrun|done|lia..].
Qed.

(** What a run of [drain] leaves. *)
Definition drained (d : FlvDemux) (l : list Z) (x : GstFlowReturn * list Z) (d' : FlvDemux) : Prop :=
  demux_ok d' /\ d_need_parser_flush d' = d_need_parser_flush d /\ x.2 `suffix_of` l /\
  (x.1 = GST_FLOW_OK ->
     alen x.2 < next_block_size (d_parser d') /\
     (parser_ok (d_parser d) ->
        parser_ok (d_parser d') /\
        file_position (d_parser d') = u64 (file_position (d_parser d) + alen l - alen x.2))).

Lemma drain_safe f l r d :
  demux_ok d -> bytes l -> (length l < f)%nat -> drun (drain f l r) d (drained d l).
Proof using Hchecks.
  revert l r d. induction f as [|f IH]; intros l r d Hd Hl Hf; [lia|].
  unfold ends. rewrite drain_step.
  destruct (Z.leb_spec (next_block_size (d_parser d)) (alen l)) as [Hn|Hn].
  - destruct (take_block d l) as (H4 & Hb & Hlen & _ & Hrun); [done..|]. unfold ends in Hrun.
    destruct (flv_demux_parse_next_block _ _ _ _ _ _) as [[r' d']|]; [|done].
    destruct Hrun as (Hd' & Hfl & Htook). set (k := Z.to_nat _) in *.
    assert (drop k l `suffix_of` l) as Hsuf by (exists (take k l); by rewrite take_drop).
    destruct (flow_ok r') eqn:Hok.
    + apply bool_decide_eq_true in Hok as ->. specialize (IH (drop k l) GST_FLOW_OK d' Hd' Hb).
      unfold ends in IH. destruct (drain f _ _ _) as [[[r'' l'] d'']|]; [|apply IH; unfold alen in *; lia].
      destruct IH as (? & ? & ? & Hend); [unfold alen in *; lia|]. simpl in *.
      split; [done|]. split; [congruence|]. split; [by etransitivity|]. simpl.
      intros Hr. destruct (Hend Hr) as [? Hpos]. split; [done|]. intros Hpok.
      destruct (Htook eq_refl Hpok) as (_ & _ & Hfp & Hp'). destruct (Hpos Hp') as [? ->].
      split; [done|]. rewrite Hfp, Hlen. unfold u64.
      rewrite <- Z.add_sub_assoc, Zplus_mod_idemp_l. f_equal. lia.
    + apply bool_decide_eq_false in Hok. split; [done|]. split; [done|]. by split.
  - split; [done|]. split; [done|]. split; [done|]. simpl. intros _. split; [lia|].
    intros [Hp ?]. split; [done|]. rewrite Z.add_simpl_r. by rewrite u64_id.
Qed.

(** Bytes may come in two parts. *)
Lemma drain_app f l1 l2 d :
  demux_ok d -> bytes (l1 ++ l2) -> (length (l1 ++ l2) < f)%nat ->
  drain f (l1 ++ l2) GST_FLOW_OK d =
  match drain f l1 GST_FLOW_OK d with
  | Done (r, rest, d') =>
      if flow_ok r then drain f (rest ++ l2) GST_FLOW_OK d' else Done (r, rest ++ l2, d')
  | Fault e => Fault e
  end.
Proof using Hchecks.
  revert l1 d. induction f as [|f IH]; intros l1 d Hd Hl Hf; [lia|].
  rewrite (drain_step _ l1). apply Forall_app in Hl as Hl'. destruct Hl' as [Hl1 _].
  destruct (Z.leb_spec (next_block_size (d_parser d)) (alen l1)) as [Hn|Hn]; [|done].
  assert (next_block_size (d_parser d) <= alen (l1 ++ l2)) as Hn'.
  { unfold alen in *. rewrite length_app. lia. }
  destruct (take_block d (l1 ++ l2)) as (H4 & Hb & Hlen & _ & Hrun); [done..|].
  rewrite drain_step, (proj2 (Z.leb_le _ _) Hn').
  rewrite take_app_le, drop_app_le by (unfold alen in *; lia).
  rewrite take_app_le in Hrun by (unfold alen in *; lia).
  rewrite drop_app_le in Hb, Hlen by (unfold alen in *; lia). unfold ends in Hrun.
  destruct (flv_demux_parse_next_block _ _ _ _ _ _) as [[r' d']|]; [|done].
  destruct Hrun as (Hd' & _). destruct (flow_ok r') eqn:Hok; [|by rewrite Hok].
  pose proof Hok as Hr. apply bool_decide_eq_true in Hr as ->.
  rewrite IH by (done || unfold alen in *; lia).
  assert (drun (drain f (drop (Z.to_nat (next_block_size (d_parser d))) l1) GST_FLOW_OK) d'
    (drained d' (drop (Z.to_nat (next_block_size (d_parser d))) l1))) as Hdr.
  { apply drain_safe; [done|by apply Forall_drop|].
    unfold alen in *. rewrite length_app in *. rewrite length_drop. lia. }
  unfold ends in Hdr. destruct (drain f _ _ _) as [[[r'' rest] d'']|]; [|done].
  destruct (flow_ok r''); [|done]. destruct Hdr as (? & _ & [k Hk] & _). simpl in Hk.
  rewrite Hk in Hb, Hlen. rewrite <- app_assoc in Hb, Hlen. apply Forall_app in Hb as [_ Hb].
  apply drain_fuel; [done..| |]; unfold alen in *; rewrite !length_app in *; lia.
Qed.
End Drain.

(** ** Push mode *)

Section PushMode.
Context (pads : Pads) (utf8 : list Z -> bool) (junk : FlvKeyframe).
Hypothesis Hchecks : g_checks pads = true.
Context {Q : Type} `{ByteQueue Q}.

Abbreviation drain_all := (drain_all pads utf8 junk).
Abbreviation chain := (flv_demux_chain pads utf8 junk).

(** A run over a queue that keeps [load] bytes at most agrees with a run over bytes. *)
Definition agrees (load : Z) (x : res (GstFlowReturn * Q * FlvDemux))
    (y : res (GstFlowReturn * list Z * FlvDemux)) : Prop :=
  match x, y with
  | Done (r, q, d), Done (r', l, d') =>
      r = r' /\ d = d' /\ q_ok q /\ q_bytes q = l /\ q_load q <= load
  | Fault f, Fault f' => f = f'
  | _, _ => False
  end.

Lemma agrees_weaken load load' x y : load <= load' -> agrees load x y -> agrees load' x y.
Proof. destruct x as [[[]]|], y as [[[]]|]; simpl; try done.
  intros ? (? & ? & ? & ? & ?). repeat split; try done. by etransitivity.
Qed.

Lemma chain_loop_agrees f q r d :
  demux_ok d -> q_ok q -> bytes (q_bytes q) ->
  agrees (q_load q) (chain_loop pads utf8 junk f q r d) (drain pads utf8 junk f (q_bytes q) r d).
Proof using Hchecks.
  revert q r d. induction f as [|f IH]; intros q r d Hd Hq Hb; rewrite drain_step; cbn [chain_loop];
    unfold mbind, D_bind, gets, demand; cbn [mbind]; rewrite q_available_ok by done;
    destruct (Z.leb_spec (next_block_size (d_parser d)) (alen (q_bytes q))) as [Hn|Hn];
    try done.
  destruct (take_block pads utf8 junk Hchecks d (q_bytes q)) as (H4 & Hb' & _ & _ & Hrun); [done..|].
  pose proof (q_load_ok q Hq) as Hload. set (n := next_block_size (d_parser d)) in *.
  replace (u32 n) with n by (unfold u32; rewrite Z.mod_small; lia).
  destruct (q_peek_ok n q) as (q1 & -> & Hq1 & Hb1 & Hl1); [done|lia|].
  unfold ends in Hrun. cbn.
  destruct (flv_demux_parse_next_block _ _ _ _ _ _) as [[r' d']|]; [|done].
  destruct (q_flush_ok n q1) as (q2 & -> & Hq2 & Hb2 & Hl2); [done|by rewrite Hb1; lia|].
  rewrite Hb1 in Hb2. destruct (flow_ok r'); cbn.
  - rewrite <- Hb2. apply (agrees_weaken (q_load q2)); [lia|].
    apply IH; [apply Hrun|done|by rewrite Hb2].
  - repeat split; [done..|lia].
Qed.

(** The state in which a buffer with an offset is parsed: the first one after a seek
    or a change of state is not joined with earlier bytes. *)
Definition flushed (offset : Z) (d : FlvDemux) : FlvDemux :=
  if d_need_parser_flush d then
    put_parser (if negb (offset =? 0) then snd (flv_parser_seek (d_parser d) offset)
                else flv_parser_reset (d_parser d)) (put_need_parser_flush false d)
  else d.

Definition waiting (q : Q) (d : FlvDemux) : list Z :=
  if d_need_parser_flush d then [] else q_bytes q.

Lemma flushed_ok o d : is_u64 o -> demux_ok d -> demux_ok (flushed o d).
Proof.
  intros Ho Hd. unfold flushed. destruct (d_need_parser_flush d); [|done].
  split; [left|apply Hd]. simpl. by destruct (negb (o =? 0)).
Qed.

Lemma flushed_flag o d : d_need_parser_flush (flushed o d) = false.
Proof. unfold flushed. by destruct (d_need_parser_flush d) eqn:?. Qed.

Lemma chain_agrees q buf t o d :
  demux_ok d -> q_ok q -> is_u64 o -> bytes (waiting q d ++ buf) ->
  q_load q + alen buf < 2147483648 ->
  agrees (q_load q + alen buf) (chain q buf t o d)
    (drain_all (waiting q d ++ buf) (flushed o d)).
Proof using Hchecks.
  intros Hd Hq Ho Hb Hload.
  set (q0 := if d_need_parser_flush d then q_clear q else q).
  assert (q_ok q0 /\ q_bytes q0 = waiting q d /\ 0 <= q_load q0 <= q_load q) as (Hq0 & Hb0 & Hl0).
  { pose proof (q_load_ok q Hq). unfold q0, waiting. unfold alen in *.
    destruct (d_need_parser_flush d); [|repeat split; done || lia].
    destruct (q_clear_ok q) as (? & ? & ->); [done|]. repeat split; done || lia. }
  destruct (q_push_ok buf t o q0) as (Hq1 & Hb1 & Hl1); [done|lia|].
  assert (chain q buf t o d =
    chain_loop pads utf8 junk (S (Z.to_nat (q_available (q_push buf t o q0))))
      (q_push buf t o q0) GST_FLOW_OK (flushed o d)) as ->.
  { unfold flv_demux_chain, flushed, when, mbind, D_bind, gets, update. cbn. subst q0.
    by destruct (d_need_parser_flush d). }
  rewrite q_available_ok, Hb1, Hb0 by done. unfold FlvDrain.drain_all, alen at 2.
  rewrite Nat2Z.id. eapply agrees_weaken; [|].
  2:{ rewrite <- Hb0, <- Hb1. apply chain_loop_agrees; [by apply flushed_ok|done|].
      by rewrite Hb1, Hb0. }
  rewrite Hl1. unfold alen. lia.
Qed.

(** Buffers, each with its time and offset, are pushed until one of them fails. *)
Fixpoint feed (q : Q) (bufs : list (list Z * Z * Z)) : D (GstFlowReturn * Q) :=
  match bufs with
  | [] => mret (GST_FLOW_OK, q)
  | (buf, t, offset) :: bufs =>
      '(r, q) ← chain q buf t offset;
      if flow_ok r then feed q bufs else mret (r, q)
  end.

(** All the bytes of the buffers. *)
Definition joined (bufs : list (list Z * Z * Z)) : list Z := concat (map (fun b => b.1.1) bufs).

(** The same result and state, and the same bytes left where nothing failed. *)
Definition same_outcome (x : res (GstFlowReturn * Q * FlvDemux))
    (y : res (GstFlowReturn * list Z * FlvDemux)) : Prop :=
  match x, y with
  | Done (r, q, d), Done (r', l, d') =>
      r = r' /\ d = d' /\ (r = GST_FLOW_OK -> q_ok q /\ q_bytes q = l)
  | Fault f, Fault f' => f = f'
  | _, _ => False
  end.

Lemma drain_all_safe l d :
  demux_ok d -> bytes l -> drun (drain_all l) d (drained d l).
Proof using Hchecks. intros. apply drain_safe; [done..|lia]. Qed.

(** [drain_all] of bytes in two parts. *)
Lemma drain_all_app l1 l2 d :
  demux_ok d -> bytes (l1 ++ l2) ->
  drain_all (l1 ++ l2) d =
  match drain_all l1 d with
  | Done (r, rest, d') => if flow_ok r then drain_all (rest ++ l2) d' else Done (r, rest ++ l2, d')
  | Fault e => Fault e
  end.
Proof using Hchecks.
  intros Hd Hb. unfold FlvDrain.drain_all. rewrite drain_app by (done || lia).
  apply Forall_app in Hb as Hb'. destruct Hb' as [Hb1 Hb2].
  rewrite (drain_fuel _ _ _ Hchecks (S (length (l1 ++ l2))) (S (length l1)))
    by (done || rewrite ?length_app; lia).
  pose proof (drain_all_safe l1 d Hd Hb1) as Hs. unfold ends, FlvDrain.drain_all in Hs.
  destruct (drain _ _ _ _ _ _ _) as [[[r rest] d']|]; [|done]. case_match; [|done].
  destruct Hs as (? & _ & [k Hk] & _). simpl in Hk. subst l1.
  apply Forall_app in Hb1 as [_ ?].
  apply drain_fuel; [done..|by apply Forall_app| |]; rewrite !length_app; lia.
Qed.

Lemma feed_outcome bufs buf t o q d :
  demux_ok d -> q_ok q -> is_u64 o -> Forall (fun b => is_u64 b.2) bufs ->
  bytes (waiting q d ++ joined ((buf, t, o) :: bufs)) ->
  q_load q + alen (joined ((buf, t, o) :: bufs)) < 2147483648 ->
  same_outcome (feed q ((buf, t, o) :: bufs) d)
    (drain_all (waiting q d ++ joined ((buf, t, o) :: bufs)) (flushed o d)).
Proof using Hchecks.
  revert buf t o q d. induction bufs as [|[[buf2 t2] o2] bufs IH]; intros buf t o q d Hd Hq Ho Hos Hb Hload.
  - unfold joined in *. simpl in *. rewrite app_nil_r in *.
    pose proof (chain_agrees q buf t o d Hd Hq Ho Hb Hload) as Hc.
    unfold feed, mbind, D_bind. destruct (chain q buf t o d) as [[[r q'] d']|];
      destruct (drain_all _ _) as [[[r' l'] d'']|]; simpl in *; try done.
    destruct Hc as (-> & -> & ? & ? & _). destruct (flow_ok r') eqn:Hr; [|done].
    by apply bool_decide_eq_true in Hr as ->.
  - change (joined ((buf, t, o) :: (buf2, t2, o2) :: bufs))
      with (buf ++ joined ((buf2, t2, o2) :: bufs)) in *.
    set (rest := joined _) in *. rewrite app_assoc in *. apply Forall_app in Hb as Hb'.
    destruct Hb' as [Hb1 Hb2]. apply list.Forall_cons in Hos as [Ho2 Hos].
    assert (alen (buf ++ rest) = alen buf + alen rest) as Hlen
      by (unfold alen; rewrite length_app; lia).
    pose proof (chain_agrees q buf t o d Hd Hq Ho Hb1 ltac:(unfold alen in *; lia)) as Hc.
    rewrite drain_all_app by (done || by apply flushed_ok).
    pose proof (drain_all_safe (waiting q d ++ buf) (flushed o d)
      (flushed_ok _ _ Ho Hd) Hb1) as Hs. unfold ends in Hs.
    remember ((buf2, t2, o2) :: bufs) as bufs2 eqn:Hbufs. cbn [feed]. unfold mbind at 1, D_bind.
    destruct (chain q buf t o d) as [[[r q'] d']|];
      destruct (drain_all _ _) as [[[r' l'] d'']|]; cbn [agrees] in Hc; try done.
    destruct Hc as (-> & -> & Hq' & Hbytes & Hl'). destruct Hs as (Hd' & Hfl & [k Hk] & _).
    rewrite flushed_flag in Hfl. simpl in Hk. destruct (flow_ok r') eqn:Hr; [|by apply bool_decide_eq_false in Hr].
    specialize (IH buf2 t2 o2 q' d'' Hd' Hq' Ho2 Hos). rewrite <- Hbufs in IH.
    unfold waiting, flushed in IH. rewrite Hfl, Hbytes in IH. apply IH.
    + rewrite Hk in Hb1. apply Forall_app in Hb1 as [_ ?]. by apply Forall_app.
    + fold rest. lia.
Qed.

(** C13. However the bytes of a file are cut into buffers, the element does what
    parsing them in one piece does: it ends with the same result, in the same state,
    after the same events, and keeps the same bytes of a block that is not complete
    yet.  The first buffer after a seek decides where the parser starts. *)
Theorem push_refines_drain bufs buf t o q d :
  demux_ok d -> q_ok q -> is_u64 o -> Forall (fun b => is_u64 b.2) bufs ->
  bytes (waiting q d ++ joined ((buf, t, o) :: bufs)) ->
  q_load q + alen (joined ((buf, t, o) :: bufs)) < 2147483648 ->
  same_outcome (feed q ((buf, t, o) :: bufs) d)
    (drain_all (waiting q d ++ joined ((buf, t, o) :: bufs)) (flushed o d)).
Proof using Hchecks. apply feed_outcome. Qed.

End PushMode.

(** ** Pull mode *)

Section PullMode.
Context (pads : Pads) (utf8 : list Z -> bool) (junk : FlvKeyframe).
Hypothesis Hchecks : g_checks pads = true.
Variable file : list Z.
Hypothesis Hfile : bytes file.
Hypothesis Hlen : alen file < 18446744073709551616.
(** A range inside the file can be read. *)
Hypothesis Hpull : forall tr off n, 0 <= off -> 0 < n -> off + n <= alen file ->
  pad_pull_range pads tr off n = (GST_FLOW_OK, take (Z.to_nat n) (drop (Z.to_nat off) file)).

(** The task runs [k] times, or until it stops. *)
Fixpoint rounds (k : nat) : D bool :=
  match k with
  | O => mret true
  | S k => go ← flv_demux_loop pads utf8 junk; if go : bool then rounds k else mret false
  end.

Lemma stop_task_done r d : exists d', stop_task r d = Done (false, d').
Proof using Type.
  unfold stop_task, flv_demux_push_src_event, emit, when, update, gets, mbind, D_bind.
  destruct (bool_decide _), (d_audio_src_pad d) eqn:Ha, (d_video_src_pad d) eqn:Hv;
    cbn; rewrite ?Ha; cbn; rewrite ?Hv; eexists; reflexivity.
Qed.

(** What is left of the file. *)
Definition ahead (d : FlvDemux) : list Z := drop (Z.to_nat (file_position (d_parser d))) file.

(** A round on a block that is in the file. *)
Lemma loop_round d :
  0 <= file_position (d_parser d) -> 0 < next_block_size (d_parser d) < 4294967296 ->
  next_block_size (d_parser d) <= alen (ahead d) ->
  let n := next_block_size (d_parser d) in
  flv_demux_loop pads utf8 junk d =
  match flv_demux_parse_next_block pads utf8 junk (take (Z.to_nat n) (ahead d)) n d with
  | Done (r, d') => if flow_ok r then Done (true, d') else stop_task r d'
  | Fault f => Fault f
  end.
Proof using Hpull.
  intros Hp Hn Hin n. unfold flv_demux_loop, gst_pad_pull_range, mbind, D_bind, gets. cbn.
  assert (alen (ahead d) = Z.max 0 (alen file - file_position (d_parser d))) as Ha.
  { unfold ahead, alen. rewrite length_drop. lia. }
  rewrite u32_id by (unfold is_u32; lia). rewrite Hpull by lia. cbn. fold (ahead d).
  replace (alen (take _ _)) with n by (subst n; unfold alen in *; rewrite length_take; lia).
  fold n. change (flow_ok GST_FLOW_OK) with true. cbv iota. destruct (flv_demux_parse_next_block _ _ _ _ _ _) as [[r d']|]; [|done].
  by destruct (flow_ok r).
Qed.

(** [x] is what the task comes to, [y] what draining what is left gives. *)
Definition comes_to (x : nat -> res (bool * FlvDemux)) (y : res (GstFlowReturn * list Z * FlvDemux))
    : Prop :=
  exists k, match y with
            | Done (r, rest, d') =>
                if flow_ok r then x k = Done (true, d') /\ rest = ahead d'
                else x k = stop_task r d'
            | Fault f => x k = Fault f
            end.

Lemma rounds_drain f d :
  demux_ok d -> parser_ok (d_parser d) -> file_position (d_parser d) <= alen file ->
  (length (ahead d) < f)%nat ->
  comes_to (fun k => rounds k d) (drain pads utf8 junk f (ahead d) GST_FLOW_OK d).
Proof using Hchecks Hfile Hlen Hpull.
  revert d. induction f as [|f IH]; intros d Hd Hok Hpos Hf; [lia|]. rewrite drain_step.
  destruct (Z.leb_spec (next_block_size (d_parser d)) (alen (ahead d))) as [Hn|Hn].
  2:{ by exists O. }
  assert (bytes (ahead d)) as Hb by by apply Forall_drop.
  destruct (take_block pads utf8 junk Hchecks d (ahead d)) as (H4 & _ & Hl & _ & Hrun); [done..|].
  pose proof (live_size _ (or_introl Hok)) as Hsize. assert (0 <= file_position (d_parser d)) as Hp0.
  { destruct Hok as [Hu _]. unfold is_u64 in Hu. lia. }
  assert (forall k, rounds (S k) d =
    match flv_demux_loop pads utf8 junk d with
    | Done (go, d') => if go : bool then rounds k d' else Done (false, d')
    | Fault e => Fault e
    end) as Hround.
  { intros k. cbn [rounds]. unfold mbind, D_bind. destruct (flv_demux_loop _ _ _ _) as [[[] ?]|]; done. }
  unfold ends in Hrun. rewrite loop_round in Hround by (done || lia). cbv zeta in Hround.
  destruct (flv_demux_parse_next_block _ _ _ _ _ _) as [[r d']|e].
  2:{ exists 1%nat. by rewrite Hround. }
  destruct (flow_ok r) eqn:Hr.
  2:{ exists 1%nat. rewrite Hr, Hround. by destruct (stop_task_done r d') as [d'' ->]. }
  apply bool_decide_eq_true in Hr as ->. destruct Hrun as (Hd' & _ & Htook).
  destruct (Htook eq_refl Hok) as (_ & _ & Hfp & Hok').
  assert (alen (ahead d) = alen file - file_position (d_parser d)) as Ha.
  { unfold ahead, alen in *. rewrite length_drop. lia. }
  rewrite u64_id in Hfp by (unfold is_u64; lia).
  assert (drop (Z.to_nat (next_block_size (d_parser d))) (ahead d) = ahead d') as Hah.
  { unfold ahead. rewrite drop_drop, Hfp. f_equal. lia. }
  rewrite Hah in *. destruct (IH d') as [k Hk]; [done..|lia|unfold alen in *; lia|].
  exists (S k). by rewrite Hround.
Qed.

(** Both modes do the same with a file: the task that pulls blocks comes to the
    state that pushing the file, in buffers of any sizes, ends in, or stops with the
    error with which pushing ends. *)
Lemma push_pull_agree {Q} `{ByteQueue Q} (q : Q) bufs buf t o d :
  demux_ok d -> parser_ok (d_parser d) -> file_position (d_parser d) = 0 ->
  d_need_parser_flush d = false -> q_ok q -> q_bytes q = [] ->
  is_u64 o -> Forall (fun b => is_u64 b.2) bufs -> file = joined ((buf, t, o) :: bufs) ->
  q_load q + alen file < 2147483648 ->
  exists k, match feed pads utf8 junk q ((buf, t, o) :: bufs) d with
            | Done (r, _, d') => if flow_ok r then rounds k d = Done (true, d')
                                 else rounds k d = stop_task r d'
            | Fault f => rounds k d = Fault f
            end.
Proof using Hchecks Hfile Hlen Hpull.
  intros Hd Hok Hpos Hfl Hq Hempty Ho Hos Hf Hload.
  pose proof (feed_outcome pads utf8 junk Hchecks bufs buf t o q d) as Hout.
  unfold waiting, flushed in Hout. rewrite Hfl, Hempty, <- Hf in Hout. cbn [app] in Hout.
  specialize (Hout Hd Hq Ho Hos Hfile Hload).
  assert (ahead d = file) as Hah by (unfold ahead; by rewrite Hpos).
  destruct (rounds_drain (S (length (ahead d))) d) as [k Hk]; [done..| |lia|].
  { rewrite Hpos. unfold alen. lia. }
  exists k. rewrite Hah in Hk. unfold drain_all in Hout.
  destruct (feed _ _ _ _ _ _) as [[[r q'] d']|f], (drain _ _ _ _ _ _ _) as [[[r' l] d'']|f'];
    simpl in Hout; try done; [|by rewrite Hout].
  destruct Hout as (-> & -> & _). destruct (flow_ok r'); [apply Hk|done].
Qed.
End PullMode.
