(* ===== verification/FlvPlay.v ===== *)
(** * Playing a file (flvdemux.c)

    A file that a writer of the format makes of packets of audio and video, given to
    the element: the packets come out again, with their times, in their order. *)

From S2P Require Import Prelude.
From S2P Require Import Mem.
From S2P Require Import FlvDrain.
From Stdlib Require Import SpecFloat.

Open Scope Z_scope.

(** ** Files of packets *)

(** A packet: its stream, its time in milliseconds, the byte with its encoding, the
    bytes between this one and the data, and the data. *)
Record Packet := mkPacket {
  pk_pad : pad;
  pk_time : Z;
  pk_head : Z;
  pk_extra : list Z;
  pk_data : list Z;
}.

Definition pk_format (k : Packet) : Z :=
  match pk_pad k with AUDIO => (pk_head k .& 240) >> 4 | VIDEO => pk_head k .& 15 end.

Definition supported (k : Packet) : bool :=
  match pk_pad k with
  | AUDIO => pk_format k =? FLVDEMUX_AUDIO_FORMAT_MP3
  | VIDEO => (pk_format k =? FLVDEMUX_VIDEO_FORMAT_VP6)
             || (pk_format k =? FLVDEMUX_VIDEO_FORMAT_VP6_ALPHA)
  end.

Definition pk_body (k : Packet) : list Z := pk_head k :: pk_extra k ++ pk_data k.

(** MP3 data follow the first byte, VP6 data have one more byte before them. *)
Definition packet_ok (k : Packet) : Prop :=
  is_i32 (pk_time k) /\ bytes (pk_body k) /\ alen (pk_body k) < 16777216 /\
  (supported k = true -> alen (pk_extra k) = match pk_pad k with AUDIO => 0 | VIDEO => 1 end).

Definition pk_type (k : Packet) : Z :=
  match pk_pad k with AUDIO => FLV_TAG_TYPE_AUDIO | VIDEO => FLV_TAG_TYPE_VIDEO end.

Definition tag_bytes (k : Packet) : list Z :=
  prefix_bytes (pk_type k) (alen (pk_body k)) (pk_time k) ++ pk_body k
  ++ be32 (11 + alen (pk_body k)).

Definition flv_file (audio video : bool) (ks : list Packet) : list Z :=
  header_bytes audio video 9 ++ be32 0 ++ concat (map tag_bytes ks).

(** ** What comes out *)

(** Of a buffer that was pushed: its pad, data, time, number, and whether it needs an
    earlier one. *)
Definition Pushed : Type := pad * list Z * Z * Z * bool.

Definition seen (p : pad) (b : OutBuffer) : Pushed :=
  (p, o_data b, o_timestamp b, o_offset b, o_delta b).

Fixpoint pushed (tr : list event) : list Pushed :=
  match tr with
  | [] => []
  | PushBuffer p b :: tr => pushed tr ++ [seen p b]
  | _ :: tr => pushed tr
  end.

(** What should come out of packets, when [na] and [nv] have come out before. *)
Fixpoint played (na nv : Z) (ks : list Packet) : list Pushed :=
  match ks with
  | [] => []
  | k :: ks =>
      if supported k then
        match pk_pad k with
        | AUDIO => (AUDIO, pk_data k, u64 (pk_time k * GST_MSECOND), na, false)
                   :: played (u32 (na + 1)) nv ks
        | VIDEO => (VIDEO, pk_data k, u64 (pk_time k * GST_MSECOND), nv,
                    negb ((pk_head k .& 240) >> 4 =? FLV_VIDEO_FRAME_KEY))
                   :: played na (u32 (nv + 1)) ks
        end
      else played na nv ks
  end.

(** The rest of the pipeline takes all that it is given. *)
Definition accepting (pads : Pads) : Prop :=
  (forall tr p c, pad_set_caps pads tr p c = true) /\
  (forall tr p, pad_set_active pads tr p = true) /\
  (forall tr p, element_add_pad pads tr p = true) /\
  (forall tr p n, 0 <= n -> pad_alloc_buffer pads tr p n = GST_FLOW_OK) /\
  (forall tr p b, pad_push pads tr p b = GST_FLOW_OK).

(** The frame rate of the metadata can be put into the capabilities. *)
Definition framerate_ok (md : FlvMetadata) : Prop :=
  nonzero (md_framerate md) = true ->
  is_Some (to_gint (double_mul (md_framerate md) (double_of_Z 100))).

(** ** Reading the blocks of such a file *)

Lemma read_bytes_mid l1 l2 l3 : read_bytes (l1 ++ l2 ++ l3) (alen l1) (alen l2) = Some l2.
Proof.
  unfold read_bytes, alen. rewrite !length_app. rewrite (proj2 (Z.leb_le 0 _)) by lia.
  rewrite (proj2 (Z.leb_le _ _)) by lia. simpl. f_equal.
  by rewrite !Nat2Z.id, drop_app_length, take_app_length.
Qed.

Lemma high_bits b : is_byte b -> 0 <= (b .& 240) >> 4 < 16.
Proof.
  unfold is_byte. intros. rewrite Z.shiftr_land, Z.shiftr_div_pow2 by lia.
  change (240 >> 4) with (Z.ones 4). rewrite Z.land_ones by lia. zlia.
Qed.

Lemma low_bits b : 0 <= b .& 15 < 16.
Proof. change 15 with (Z.ones 4). rewrite Z.land_ones by lia. zlia. Qed.

(** The body of a tag of a file, with what follows it in the block. *)
Definition body_block (k : Packet) : list Z := pk_body k ++ be32 (11 + alen (pk_body k)).

Lemma body_block_len k : alen (body_block k) = alen (pk_body k) + 4.
Proof. unfold body_block, alen. rewrite length_app. simpl. lia. Qed.

Lemma body_block_bytes k : packet_ok k -> bytes (body_block k).
Proof. intros (_ & Hb & _). apply Forall_app. split; [done|apply be32_bytes]. Qed.

Section Read.
Variables (p : FlvParser) (k : Packet).
Hypothesis Hk : packet_ok k.
Hypothesis Hnext : next_block_size p = alen (pk_body k) + 4.

Lemma head_byte : is_byte (pk_head k).
Proof using Hk. destruct Hk as (_ & Hb & _). apply list.Forall_cons in Hb. apply Hb. Qed.

(** The data of the packet are found at the offset that the parser tells. *)
Lemma body_data n m :
  n = 1 + alen (pk_extra k) -> m = u64 (next_block_size p - FLV_TAG_SUFFIX_SIZE - n) ->
  m = alen (pk_data k) /\ read_bytes (body_block k) n m = Some (pk_data k).
Proof using Hk Hnext.
  intros -> ->. rewrite Hnext. unfold FLV_TAG_SUFFIX_SIZE. destruct Hk as (_ & _ & Hlen & _).
  assert (alen (pk_body k) = 1 + alen (pk_extra k) + alen (pk_data k)) as Hb
    by (unfold pk_body, alen; simpl; rewrite length_app; lia).
  assert (0 <= alen (pk_extra k) /\ 0 <= alen (pk_data k)) by (unfold alen; lia).
  rewrite u64_id by (unfold is_u64; lia).
  replace (alen (pk_body k) + 4 - 4 - (1 + alen (pk_extra k))) with (alen (pk_data k)) by lia.
  split; [done|]. unfold body_block, pk_body.
  change (pk_head k :: pk_extra k ++ pk_data k) with ((pk_head k :: pk_extra k) ++ pk_data k).
  rewrite <- app_assoc. replace (1 + alen (pk_extra k)) with (alen (pk_head k :: pk_extra k))
    by (unfold alen; simpl; lia).
  apply read_bytes_mid.
Qed.

(** What the parser gives for the body of an audio tag. *)
Lemma read_audio_body t :
  state p = FLV_PARSER_EXPECT_AUDIO_TAG_BODY -> pk_pad k = AUDIO ->
  exists tag, flv_parser_read_audio_tag p (body_block k) (alen (pk_body k) + 4) t =
      Some (FLV_PARSER_OK, advance p (next_block_size p) 11 FLV_PARSER_EXPECT_TAG_PREFIX, tag) /\
    sound_format tag = pk_format k /\
    (supported k = true -> audio_packet_size tag = alen (pk_data k) /\
       read_bytes (body_block k) (audio_packet_offset tag) (audio_packet_size tag) = Some (pk_data k)).
Proof using Hk Hnext.
  intros Hs Hpad. pose proof Hk as (_ & _ & _ & Hextra). unfold supported, pk_format in *.
  rewrite Hpad in *. unfold flv_parser_read_audio_tag.
  rewrite bool_decide_eq_false_2 by auto. rewrite <- Hnext, Z.ltb_irrefl.
  change (ld (body_block k) 0) with (Some (pk_head k)). cbn [mbind option_bind].
  destruct (ld_in flv_audio_format_data_size ((pk_head k .& 240) >> 4)) as [ds Hds].
  { apply high_bits, head_byte. }
  rewrite Hds. cbn [mbind option_bind]. eexists. split; [done|]. cbn [sound_format audio_packet_size audio_packet_offset].
  split; [done|]. intros Hsup. apply body_data; [|done]. rewrite (Hextra Hsup).
  apply Z.eqb_eq in Hsup. rewrite Hsup in Hds. by injection Hds as <-.
Qed.

Lemma read_video_body t :
  state p = FLV_PARSER_EXPECT_VIDEO_TAG_BODY -> pk_pad k = VIDEO ->
  exists tag, flv_parser_read_video_tag p (body_block k) (alen (pk_body k) + 4) t =
      Some (FLV_PARSER_OK, advance p (next_block_size p) 11 FLV_PARSER_EXPECT_TAG_PREFIX, tag) /\
    codec_id tag = pk_format k /\ frame_type tag = (pk_head k .& 240) >> 4 /\
    (supported k = true -> video_packet_size tag = alen (pk_data k) /\
       read_bytes (body_block k) (video_packet_offset tag) (video_packet_size tag) = Some (pk_data k)).
Proof using Hk Hnext.
  intros Hs Hpad. pose proof Hk as (_ & _ & _ & Hextra). unfold supported, pk_format in *.
  rewrite Hpad in *. unfold flv_parser_read_video_tag.
  rewrite bool_decide_eq_false_2 by auto. rewrite <- Hnext, Z.ltb_irrefl.
  change (ld (body_block k) 0) with (Some (pk_head k)). cbn [mbind option_bind].
  destruct (ld_in flv_video_codec_data_size (pk_head k .& 15)) as [ds Hds]; [apply low_bits|].
  rewrite Hds. cbn [mbind option_bind]. eexists. split; [done|].
  cbn [codec_id frame_type video_packet_size video_packet_offset].
  split; [done|]. split; [done|]. intros Hsup. apply body_data; [|done]. rewrite (Hextra Hsup).
  apply orb_true_iff in Hsup as [Hsup|Hsup]; apply Z.eqb_eq in Hsup; rewrite Hsup in Hds;
    by injection Hds as <-.
Qed.
End Read.

Section Play.
Context (pads : Pads) (utf8 : list Z -> bool) (junk : FlvKeyframe).
Hypothesis Hchecks : g_checks pads = true.
Hypothesis Haccept : accepting pads.

(** [m] ends without a fault. *)
Abbreviation does := (ends (fun _ => False)).

(** Nothing was pushed, and what the packets depend on stays. *)
Definition calm (d d' : FlvDemux) : Prop :=
  pushed (d_trace d') = pushed (d_trace d) /\ d_parser d' = d_parser d /\
  d_metadata d' = d_metadata d /\ d_current_timestamp d' = d_current_timestamp d /\
  d_audio_offset d' = d_audio_offset d /\ d_video_offset d' = d_video_offset d.

#[local] Instance calm_refl : Reflexive calm.
Proof. by repeat split. Qed.
#[local] Instance calm_trans : Transitive calm.
Proof.
  intros d1 d2 d3 (? & ? & ? & ? & ? & ?) (? & ? & ? & ? & ? & ?). repeat split; congruence.
Qed.

Ltac calm_tac := solve [done | repeat split; dsimpl; done].

Lemma does_calm {A} (m : D A) d d0 (Q : A -> FlvDemux -> Prop) R :
  does m d (fun a d' => R a /\ calm d d') -> calm d0 d ->
  (forall a d', R a -> calm d0 d' -> Q a d') -> does m d Q.
Proof using Type.
  intros Hm Hd HQ. eapply drun_conseq; [exact Hm|]. intros a d' [Ha ?]. apply HQ; [done|].
  by etransitivity.
Qed.

Lemma queue_codec_calm tag name b d : does (queue_codec tag name b) d (fun _ d' => True /\ calm d d').
Proof using Type. unfold queue_codec. druns; (split; [done|calm_tac]). Qed.

Lemma negotiate_audio_calm f r b s d :
  does (flv_demux_negotiate_audio_caps pads f r b s) d (fun ok d' => ok = true /\ calm d d').
Proof using Haccept.
  unfold flv_demux_negotiate_audio_caps, gst_pad_set_caps. do 6 drun1.
  rewrite (proj1 Haccept). do 6 drun1.
  eapply (does_calm _ _ d); [apply queue_codec_calm|calm_tac|]. intros. by apply drun_ret.
Qed.

Lemma negotiate_video_calm c d :
  framerate_ok (d_metadata d) ->
  does (flv_demux_negotiate_video_caps pads c) d (fun ok d' => ok = true /\ calm d d').
Proof using Haccept.
  intros Hfr. unfold flv_demux_negotiate_video_caps, gst_pad_set_caps.
  drun1. drun1. drun1. eapply (drun_conseq _ _ (fun _ d' => d' = d)).
  { drun1; [|by druns]. drun1. destruct Hfr as [z ->]; [done|]. by druns. }
  intros fr ? ->. do 6 drun1. rewrite (proj1 Haccept). do 6 drun1.
  eapply (does_calm _ _ d); [apply queue_codec_calm|calm_tac|]. intros. by apply drun_ret.
Qed.

Lemma make_pad_calm p neg set last d :
  (forall d', calm d d' -> does neg d' (fun ok d'' => ok = true /\ calm d' d'')) ->
  (forall b d', calm d' (set b d')) ->
  does (make_pad pads p neg set last) d (fun ok d' => ok = true /\ calm d d').
Proof using Haccept.
  intros Hn Hs. destruct Haccept as (_ & Hact & Hadd & _). unfold make_pad. drun1. drun1. drun1.
  eapply (does_calm _ _ d); [by apply Hn|done|]. intros ? d' -> Hd'.
  cbn [negb]. do 2 drun1. rewrite Hact, Hadd. cbn [negb]. drun1. drun1. drun1. drun1.
  druns; (split; [done|]); (etransitivity; [exact Hd'|]); calm_tac.
Qed.

Lemma add_entry_calm t p d : does (add_index_entry t p) d (fun _ d' => True /\ calm d d').
Proof using Type. unfold add_index_entry. drun1. split; [done|]. calm_tac. Qed.

(** The members after the parser was moved. *)
Lemma calm_parser p d0 d :
  calm (put_parser p d0) d ->
  pushed (d_trace d) = pushed (d_trace d0) /\ d_parser d = p /\
  d_metadata d = d_metadata d0 /\ d_current_timestamp d = d_current_timestamp d0 /\
  d_audio_offset d = d_audio_offset d0 /\ d_video_offset d = d_video_offset d0.
Proof using Type. done. Qed.

(** A block was parsed, and [out] came out. *)
Definition outcome (d : FlvDemux) (p : FlvParser) (out : list Pushed) (na nv : Z)
    (r : GstFlowReturn) (d' : FlvDemux) : Prop :=
  r = GST_FLOW_OK /\ d_parser d' = p /\ d_metadata d' = d_metadata d /\
  d_audio_offset d' = na /\ d_video_offset d' = nv /\
  pushed (d_trace d') = pushed (d_trace d) ++ out.

Lemma outcome_calm d0 d p na nv :
  calm (put_parser p d0) d -> d_audio_offset d0 = na -> d_video_offset d0 = nv ->
  outcome d0 p [] na nv GST_FLOW_OK d.
Proof using Type.
  intros (H1 & H2 & H3 & H4 & H5 & H6)%calm_parser <- <-. unfold outcome.
  rewrite app_nil_r. repeat split; congruence.
Qed.

Lemma push_audio_out data tag d0 p d l :
  read_bytes data (audio_packet_offset tag) (audio_packet_size tag) = Some l ->
  calm (put_parser p d0) d ->
  does (push_audio pads data tag) d
    (outcome d0 p [(AUDIO, l, d_current_timestamp d0, d_audio_offset d0, false)]
       (u32 (d_audio_offset d0 + 1)) (d_video_offset d0)).
Proof using Haccept.
  intros Hl (H1 & H2 & H3 & H4 & H5 & H6)%calm_parser. destruct Haccept as (_ & _ & _ & _ & Hpush).
  unfold push_audio, push_segment, gst_pad_push, add_index_entry. rewrite Hl.
  druns; rewrite Hpush; repeat split; dsimpl; cbn [pushed]; unfold seen; cbn [o_data o_timestamp o_offset o_delta];
    by rewrite ?H1, ?H2, ?H3, ?H4, ?H5, ?H6.
Qed.

Lemma push_video_out data tag d0 p d l :
  read_bytes data (video_packet_offset tag) (video_packet_size tag) = Some l ->
  calm (put_parser p d0) d ->
  does (push_video pads data tag) d
    (outcome d0 p [(VIDEO, l, d_current_timestamp d0, d_video_offset d0,
                    negb (frame_type tag =? FLV_VIDEO_FRAME_KEY))]
       (d_audio_offset d0) (u32 (d_video_offset d0 + 1))).
Proof using Haccept.
  intros Hl (H1 & H2 & H3 & H4 & H5 & H6)%calm_parser. destruct Haccept as (_ & _ & _ & _ & Hpush).
  unfold push_video, push_segment, gst_pad_push, add_index_entry. rewrite Hl.
  druns; rewrite Hpush; repeat split; dsimpl; cbn [pushed]; unfold seen; cbn [o_data o_timestamp o_offset o_delta];
    by rewrite ?H1, ?H2, ?H3, ?H4, ?H5, ?H6.
Qed.

(** What comes out of one packet. *)
Definition out_of (k : Packet) (ts na nv : Z) : list Pushed :=
  if supported k then
    match pk_pad k with
    | AUDIO => [(AUDIO, pk_data k, ts, na, false)]
    | VIDEO => [(VIDEO, pk_data k, ts, nv, negb ((pk_head k .& 240) >> 4 =? FLV_VIDEO_FRAME_KEY))]
    end
  else [].

(** The number of the next packet of a stream, after one packet. *)
Definition count (p : pad) (k : Packet) (n : Z) : Z :=
  if supported k && bool_decide (pk_pad k = p) then u32 (n + 1) else n.

Lemma alloc_accepts p n d (set : FlvDemux -> FlvDemux) (push : D GstFlowReturn) Q :
  0 <= n < 2147483648 -> does push d Q ->
  does (result ← gst_pad_alloc_buffer pads p (i32 n);
        if negb (flow_ok result) then
          when (bool_decide (result = GST_FLOW_NOT_LINKED)) (update set);; mret result
        else push) d Q.
Proof using Hchecks Haccept.
  intros Hn Hp. destruct Haccept as (_ & _ & _ & Halloc & _).
  rewrite i32_id by (unfold is_i32; lia). unfold gst_pad_alloc_buffer. rewrite Hchecks.
  rewrite (proj2 (Z.ltb_ge n 0)) by lia. cbn [andb]. drun1. drun1. drun1. drun1.
  by rewrite Halloc by lia.
Qed.

Section Tag.
Variables (d : FlvDemux) (k : Packet).
Hypothesis Hk : packet_ok k.
Hypothesis Hnext : next_block_size (d_parser d) = alen (pk_body k) + 4.
Hypothesis Hfr : framerate_ok (d_metadata d).

(** The result of the whole tag. *)
Definition tag_outcome : GstFlowReturn -> FlvDemux -> Prop :=
  outcome d (advance (d_parser d) (next_block_size (d_parser d)) 11 FLV_PARSER_EXPECT_TAG_PREFIX)
    (out_of k (d_current_timestamp d) (d_audio_offset d) (d_video_offset d))
    (count AUDIO k (d_audio_offset d)) (count VIDEO k (d_video_offset d)).

Lemma data_size : 0 <= alen (pk_data k) < 2147483648.
Proof using Hk.
  destruct Hk as (_ & _ & Hl & _). unfold pk_body, alen in *. simpl in Hl. rewrite length_app in Hl. lia.
Qed.

Lemma unsupported_outcome d' :
  supported k = false ->
  calm (put_parser (advance (d_parser d) (next_block_size (d_parser d)) 11
                      FLV_PARSER_EXPECT_TAG_PREFIX) d) d' ->
  tag_outcome GST_FLOW_OK d'.
Proof using Type.
  intros Hs Hc. unfold tag_outcome, out_of, count. rewrite Hs. by apply outcome_calm.
Qed.

Lemma audio_tag_plays :
  state (d_parser d) = FLV_PARSER_EXPECT_AUDIO_TAG_BODY -> pk_pad k = AUDIO ->
  does (flv_demux_parse_audio_tag pads (body_block k) (alen (pk_body k) + 4)) d tag_outcome.
Proof using Hk Hnext Hchecks Haccept.
  intros Hs Hpad. destruct (read_audio_body (d_parser d) k Hk Hnext (mkAudioTag 0 0 false false 0 0))
    as (tag & Hread & Hfmt & Hdata); [done..|].
  unfold flv_demux_parse_audio_tag. drun1. drun1. rewrite Hread. do 4 drun1.
  rewrite bool_decide_eq_false_2 by auto. do 4 drun1. set (p' := advance _ _ _ _).
  drun1. eapply (does_calm _ _ (put_parser p' d) _ (fun ok => ok = true)); [|calm_tac|].
  { drun1; [by drun1|]. apply make_pad_calm; [intros; apply negotiate_audio_calm|intros; calm_tac]. }
  intros ? d1 -> Hd1. cbn [negb]. rewrite Hfmt.
  assert (supported k = (pk_format k =? FLVDEMUX_AUDIO_FORMAT_MP3)) as Hsup
    by (unfold supported; by rewrite Hpad).
  drun1.
  { druns; apply unsupported_outcome; try (rewrite Hsup; by destruct (_ =? _)); fold p';
      (etransitivity; [exact Hd1|]); calm_tac. }
  apply negb_false_iff in Heqb. rewrite <- Hsup in Heqb. destruct (Hdata Heqb) as [Hsize Hget].
  drun1. drun1. drun1. eapply (does_calm _ _ (put_parser p' d) _ (fun _ => True)); [|exact Hd1|].
  { drun1; drun1; [drun1|by drun1]. eapply drun_conseq; [apply negotiate_audio_calm|].
    intros ? ? [_ ?]. by apply drun_ret. }
  intros ? d2 _ Hd2. rewrite Hsize. apply alloc_accepts; [apply data_size|].
  eapply drun_conseq; [apply (push_audio_out _ _ d p'); [|exact Hd2]|].
  { by rewrite Hsize in *. }
  unfold tag_outcome, out_of, count. rewrite Heqb, Hpad. intros r d3 H. exact H.
Qed.

Lemma video_tag_plays :
  state (d_parser d) = FLV_PARSER_EXPECT_VIDEO_TAG_BODY -> pk_pad k = VIDEO ->
  does (flv_demux_parse_video_tag pads (body_block k) (alen (pk_body k) + 4)) d tag_outcome.
Proof using Hk Hnext Hchecks Haccept Hfr.
  intros Hs Hpad. destruct (read_video_body (d_parser d) k Hk Hnext (mkVideoTag 0 0 0 0))
    as (tag & Hread & Hfmt & Hframe & Hdata); [done..|].
  unfold flv_demux_parse_video_tag. drun1. drun1. rewrite Hread. do 4 drun1.
  rewrite bool_decide_eq_false_2 by auto. do 4 drun1. set (p' := advance _ _ _ _).
  assert (forall d', calm (put_parser p' d) d' -> framerate_ok (d_metadata d')) as Hfr'.
  { intros d' (_ & _ & H & _)%calm_parser. by rewrite H. }
  drun1. eapply (does_calm _ _ (put_parser p' d) _ (fun ok => ok = true)); [|calm_tac|].
  { drun1; [by drun1|]. apply make_pad_calm; [|intros; calm_tac].
    intros d' Hd'. apply negotiate_video_calm, Hfr'. etransitivity; [|exact Hd']. calm_tac. }
  intros ? d1 -> Hd1. cbn [negb]. rewrite Hfmt.
  assert (supported k = (pk_format k =? FLVDEMUX_VIDEO_FORMAT_VP6)
     || (pk_format k =? FLVDEMUX_VIDEO_FORMAT_VP6_ALPHA)) as Hsup
    by (unfold supported; by rewrite Hpad).
  rewrite <- negb_orb, <- Hsup. drun1.
  { apply negb_true_iff in Heqb. druns; apply unsupported_outcome; try done; fold p';
      (etransitivity; [exact Hd1|]); calm_tac. }
  apply negb_false_iff in Heqb. destruct (Hdata Heqb) as [Hsize Hget].
  drun1. drun1. drun1. eapply (does_calm _ _ (put_parser p' d) _ (fun _ => True)); [|exact Hd1|].
  { drun1; drun1; [drun1|by drun1]. eapply drun_conseq; [by apply negotiate_video_calm, Hfr'|].
    intros ? ? [_ ?]. by apply drun_ret. }
  intros ? d2 _ Hd2. drun1. drun1. drun1.
  eapply (does_calm _ _ (put_parser p' d) _ (fun _ => True)); [|exact Hd2|].
  { druns; (split; [done|calm_tac]). }
  intros ? d3 _ Hd3. rewrite Hsize. apply alloc_accepts; [apply data_size|].
  eapply drun_conseq; [apply (push_video_out _ _ d p'); [|exact Hd3]|].
  { by rewrite Hsize in *. }
  unfold tag_outcome, out_of, count. rewrite Heqb, Hpad, Hframe. intros r d4 H. exact H.
Qed.
End Tag.

(** ** Blocks and tags *)

Abbreviation parse := (flv_demux_parse_next_block pads utf8 junk).
Abbreviation drain := (drain pads utf8 junk).

(** A block that can be parsed is drained. *)
Lemma drain_block f b rest r d (Q : GstFlowReturn -> FlvDemux -> Prop) :
  next_block_size (d_parser d) = alen b -> does (parse b (alen b)) d Q ->
  (forall r' d', Q r' d' -> r' = GST_FLOW_OK) ->
  exists d', Q GST_FLOW_OK d' /\ drain (S f) (b ++ rest) r d = drain f rest GST_FLOW_OK d'.
Proof using Type.
  intros Hn Hp HQ. rewrite drain_step, Hn.
  rewrite (proj2 (Z.leb_le _ _)) by (unfold alen; rewrite length_app; lia).
  replace (Z.to_nat (alen b)) with (length b) by (unfold alen; lia).
  rewrite take_app_length, drop_app_length. unfold ends in Hp.
  destruct (parse b (alen b) d) as [[r' d']|]; [|done]. specialize (HQ _ _ Hp) as ->.
  by exists d'.
Qed.

(** A function for the expected block, which succeeds. *)
Lemma parse_ok d (m : D GstFlowReturn) (Q : GstFlowReturn -> FlvDemux -> Prop) :
  does m d Q -> (forall r' d', Q r' d' -> r' = GST_FLOW_OK) ->
  does (result ← m; when (bool_decide (result = GST_FLOW_ERROR)) (emit ErrorMessage);; mret result) d Q.
Proof using Type.
  intros Hm HQ. apply drun_bind. eapply drun_conseq; [exact Hm|]. intros r d' Hr.
  by specialize (HQ _ _ Hr) as ->.
Qed.

(** Between tags. *)
Definition between (d : FlvDemux) : Prop :=
  state (d_parser d) = FLV_PARSER_EXPECT_TAG_PREFIX /\ next_block_size (d_parser d) = 11.

(** The prefix of a tag sets the time and the state for the body. *)
Definition prefix_outcome (d : FlvDemux) (k : Packet) (r : GstFlowReturn) (d' : FlvDemux) : Prop :=
  r = GST_FLOW_OK /\ body_state (pk_type k) = Some (state (d_parser d')) /\
  next_block_size (d_parser d') = alen (pk_body k) + 4 /\
  d_current_timestamp d' = u64 (pk_time k * GST_MSECOND) /\
  d_metadata d' = d_metadata d /\ d_audio_offset d' = d_audio_offset d /\
  d_video_offset d' = d_video_offset d /\ d_trace d' = d_trace d.

Lemma prefix_plays d k :
  packet_ok k -> between d ->
  does (parse (prefix_bytes (pk_type k) (alen (pk_body k)) (pk_time k)) 11) d (prefix_outcome d k).
Proof using Type.
  intros (Ht & _ & Hl & _) [Hs Hn]. unfold flv_demux_parse_next_block. drun1. drun1. rewrite Hs.
  apply parse_ok; [|by intros ? ? []]. unfold parse_prefix_block. drun1. drun1.
  assert (exists st, body_state (pk_type k) = Some st) as [st Hst]
    by (unfold pk_type; destruct (pk_pad k); eexists; reflexivity).
  rewrite (read_prefix_bytes _ _ 11 (pk_type k) (alen (pk_body k)) (pk_time k) st)
    by (done || (unfold alen in *; lia) || apply holds_all).
  do 4 drun1. rewrite bool_decide_eq_true_2 by done. druns. by repeat split.
Qed.

Lemma body_plays d k :
  packet_ok k -> body_state (pk_type k) = Some (state (d_parser d)) ->
  next_block_size (d_parser d) = alen (pk_body k) + 4 -> framerate_ok (d_metadata d) ->
  does (parse (body_block k) (alen (pk_body k) + 4)) d (tag_outcome d k).
Proof using Hchecks Haccept.
  intros Hk Hst Hn Hfr. unfold flv_demux_parse_next_block. drun1. drun1.
  unfold pk_type in Hst. destruct (pk_pad k) eqn:Hpad; injection Hst as Hst; rewrite <- Hst;
    (apply parse_ok; [|by intros ? ? []]).
  - by apply audio_tag_plays.
  - by apply video_tag_plays.
Qed.

Lemma drain_tag f k rest r d :
  packet_ok k -> between d -> framerate_ok (d_metadata d) ->
  exists d', drain (S (S f)) (tag_bytes k ++ rest) r d = drain f rest GST_FLOW_OK d' /\
    between d' /\ d_metadata d' = d_metadata d /\
    d_audio_offset d' = count AUDIO k (d_audio_offset d) /\
    d_video_offset d' = count VIDEO k (d_video_offset d) /\
    pushed (d_trace d') = pushed (d_trace d)
      ++ out_of k (u64 (pk_time k * GST_MSECOND)) (d_audio_offset d) (d_video_offset d).
Proof using Hchecks Haccept.
  intros Hk Hb Hfr. unfold tag_bytes. rewrite <- !app_assoc.
  destruct (drain_block (S f) (prefix_bytes (pk_type k) (alen (pk_body k)) (pk_time k))
    (pk_body k ++ be32 (11 + alen (pk_body k)) ++ rest) r d (prefix_outcome d k))
    as (d1 & (_ & Hst & Hn & Hts & Hmd & Hna & Hnv & Htr) & ->).
  { apply Hb. }
  { by apply prefix_plays. }
  { by intros ? ? []. }
  assert (pk_body k ++ be32 (11 + alen (pk_body k)) ++ rest = body_block k ++ rest) as ->
    by (unfold body_block; by rewrite <- app_assoc).
  destruct (drain_block f (body_block k) rest GST_FLOW_OK d1 (tag_outcome d1 k))
    as (d2 & (_ & Hp & Hmd2 & Hna2 & Hnv2 & Hout) & ->).
  { by rewrite body_block_len. }
  { rewrite body_block_len. apply body_plays; [done..|]. by rewrite Hmd. }
  { by intros ? ? []. }
  exists d2. rewrite Hts, Htr, Hna, Hnv in *. split; [done|]. split; [unfold between; by rewrite Hp|].
  repeat split; done || congruence.
Qed.

Lemma drain_tags f ks rest r d :
  Forall packet_ok ks -> between d -> framerate_ok (d_metadata d) ->
  exists r' d', drain (2 * length ks + f) (concat (map tag_bytes ks) ++ rest) r d = drain f rest r' d' /\
    (ks <> [] \/ r = GST_FLOW_OK -> r' = GST_FLOW_OK) /\ between d' /\
    pushed (d_trace d') = pushed (d_trace d) ++ played (d_audio_offset d) (d_video_offset d) ks.
Proof using Hchecks Haccept.
  revert r d. induction ks as [|k ks IH]; intros r d Hks Hb Hfr.
  { exists r, d. rewrite app_nil_r. split; [done|]. split; [by intros []|done]. }
  apply list.Forall_cons in Hks as [Hk Hks]. cbn [map concat]. rewrite <- app_assoc.
  destruct (drain_tag (2 * length ks + f) k (concat (map tag_bytes ks) ++ rest) r d)
    as (d1 & Hd1 & Hb1 & Hmd1 & Hna & Hnv & Hout); [done..|].
  destruct (IH GST_FLOW_OK d1) as (r2 & d2 & Hd2 & Hr2 & Hb2 & Hout2); [done..|by rewrite Hmd1|].
  exists r2, d2. cbn [length]. replace (2 * S (length ks) + f)%nat with (S (S (2 * length ks + f))) by lia.
  split; [by rewrite Hd1|]. split; [intros _; apply Hr2; by right|]. split; [done|].
  rewrite Hout2, Hout, Hna, Hnv, <- app_assoc. f_equal. cbn [played]. unfold out_of, count.
  by destruct (supported k), (pk_pad k).
Qed.

(** ** The whole file *)

Definition header_outcome (d : FlvDemux) (r : GstFlowReturn) (d' : FlvDemux) : Prop :=
  r = GST_FLOW_OK /\ state (d_parser d') = FLV_PARSER_EXPECT_SKIP_BLOCK /\
  next_block_size (d_parser d') = 4 /\ calm (put_parser (d_parser d') d) d'.

Definition skip_outcome (d : FlvDemux) (r : GstFlowReturn) (d' : FlvDemux) : Prop :=
  r = GST_FLOW_OK /\ between d' /\ calm (put_parser (d_parser d') d) d'.

Lemma header_plays audio video d :
  state (d_parser d) = FLV_PARSER_EXPECT_HEADER ->
  does (parse (header_bytes audio video 9) 9) d (header_outcome d).
Proof using Type.
  intros Hs. unfold flv_demux_parse_next_block. drun1. drun1. rewrite Hs.
  apply parse_ok; [|by intros ? ? []]. unfold parse_header_block. drun1. drun1.
  rewrite (read_header_bytes _ _ 9 audio video 9) by (done || lia || apply holds_all).
  do 4 drun1. rewrite bool_decide_eq_true_2 by done. druns. by repeat split.
Qed.

Lemma skip_plays l d :
  state (d_parser d) = FLV_PARSER_EXPECT_SKIP_BLOCK -> next_block_size (d_parser d) = alen l ->
  does (parse l (alen l)) d (skip_outcome d).
Proof using Type.
  intros Hs Hn. unfold flv_demux_parse_next_block. drun1. drun1. rewrite Hs.
  apply parse_ok; [|by intros ? ? []]. unfold parse_skip_block, flv_parser_skip. drun1. drun1.
  rewrite bool_decide_eq_false_2 by auto. rewrite Hn, Z.ltb_irrefl. druns. by repeat split.
Qed.

Lemma drain_file audio video ks f d :
  Forall packet_ok ks -> state (d_parser d) = FLV_PARSER_EXPECT_HEADER ->
  next_block_size (d_parser d) = 9 -> framerate_ok (d_metadata d) ->
  exists d', drain (2 + (2 * length ks + f)) (flv_file audio video ks) GST_FLOW_OK d =
      Done (GST_FLOW_OK, [], d') /\
    pushed (d_trace d') = pushed (d_trace d) ++ played (d_audio_offset d) (d_video_offset d) ks.
Proof using Hchecks Haccept.
  intros Hks Hs Hn Hfr. unfold flv_file.
  destruct (drain_block (S (2 * length ks + f)) (header_bytes audio video 9)
    (be32 0 ++ concat (map tag_bytes ks)) GST_FLOW_OK d (header_outcome d)) as (d1 & (_ & Hs1 & Hn1 & H1) & Hd1); [done|by apply header_plays|by intros ? ? []|].
  destruct (drain_block (2 * length ks + f) (be32 0) (concat (map tag_bytes ks))
    GST_FLOW_OK d1 (skip_outcome d1)) as (d2 & (_ & Hb2 & H2) & Hd2); [exact Hn1|by apply skip_plays|by intros ? ? []|].
  apply calm_parser in H1 as (Ht1 & _ & Hm1 & _ & Ha1 & Hv1).
  apply calm_parser in H2 as (Ht2 & _ & Hm2 & _ & Ha2 & Hv2).
  destruct (drain_tags f ks [] GST_FLOW_OK d2) as (r3 & d3 & Hd3 & Hr3 & Hb3 & Hout);
    [done..|by rewrite Hm2, Hm1|].
  rewrite app_nil_r in Hd3. exists d3. split.
  - cbn [Nat.add]. rewrite Hd1, Hd2, Hd3, drain_step. destruct Hb3 as [_ ->].
    rewrite Hr3 by (by right). done.
  - rewrite Hout, Ht2, Ht1, Ha2, Ha1, Hv2, Hv1. done.
Qed.

Lemma tag_bytes_bytes k : packet_ok k -> bytes (tag_bytes k).
Proof using Type.
  intros (_ & Hb & _). unfold tag_bytes, prefix_bytes. apply Forall_app. split.
  - constructor; [unfold pk_type, is_byte, FLV_TAG_TYPE_AUDIO, FLV_TAG_TYPE_VIDEO; destruct (pk_pad k); cbn; lia|].
    apply Forall_app. split; [apply be24_bytes|]. apply Forall_app.
    split; [apply ts32_bytes|apply be24_bytes].
  - apply Forall_app. split; [done|apply be32_bytes].
Qed.

Lemma flv_file_bytes audio video ks : Forall packet_ok ks -> bytes (flv_file audio video ks).
Proof using Type.
  intros Hks. unfold flv_file, header_bytes. apply Forall_app. split.
  { apply Forall_app. split; [|apply be32_bytes]. unfold is_byte. repeat constructor; try lia;
      destruct audio, video; cbn; lia. }
  apply Forall_app. split; [apply be32_bytes|]. induction Hks; [constructor|].
  cbn [map concat]. apply Forall_app. split; [by apply tag_bytes_bytes|done].
Qed.

(** A new element that was set to play: it is paused from being ready. *)
Definition started (registry : Registry) : FlvDemux :=
  put_last_file_position 0 (put_current_timestamp 0 (put_need_parser_flush true
    (flv_demux_init registry))).

Lemma started_changes registry :
  flv_demux_change_state true (flv_demux_init registry) = Done (tt, started registry).
Proof using Type. done. Qed.

Lemma started_ok registry : demux_ok (started registry).
Proof using Type. split; [left; done|constructor]. Qed.

(** C5. A file that is written of packets of audio and video and pushed to a new
    element, in buffers of any sizes, plays: the element takes all the bytes, without
    an error, and pushes exactly the packets in encodings that it supports, in their
    order, each with its data, its time, its number in its stream, and the mark of
    frames that need an earlier one. *)
Theorem demux_roundtrip {Q} `{ByteQueue Q} (q : Q) registry audio video ks bufs buf t :
  Forall packet_ok ks -> q_ok q -> Forall (fun b => is_u64 b.2) bufs ->
  joined ((buf, t, 0) :: bufs) = flv_file audio video ks ->
  q_load q + alen (flv_file audio video ks) < 2147483648 ->
  exists q' d', feed pads utf8 junk q ((buf, t, 0) :: bufs) (started registry)
                  = Done (GST_FLOW_OK, q', d') /\
    q_bytes q' = [] /\ pushed (d_trace d') = played 0 0 ks.
Proof using Hchecks Haccept.
  intros Hks Hq Hos Hj Hload.
  pose proof (feed_outcome pads utf8 junk Hchecks bufs buf t 0 q (started registry)
    (started_ok registry) Hq) as Hout.
  rewrite Hj in Hout. change (waiting q (started registry)) with (@nil Z) in Hout.
  rewrite app_nil_l in Hout.
  assert (demux_ok (flushed 0 (started registry))) as Hok.
  { apply flushed_ok; [unfold is_u64; lia|apply started_ok]. }
  pose proof (flv_file_bytes audio video ks Hks) as Hb.
  specialize (Hout ltac:(unfold is_u64; lia) Hos Hb Hload). unfold drain_all in Hout.
  destruct (drain_file audio video ks (S (length (flv_file audio video ks)))
    (flushed 0 (started registry))) as (d' & Hdrain & Hp); [done..|].
  rewrite (drain_fuel _ _ _ Hchecks _ (2 + (2 * length ks + S (length (flv_file audio video ks)))))
    in Hout by (done || lia).
  rewrite Hdrain in Hout.
  destruct (feed _ _ _ _ _ _) as [[[r q'] d'']|]; [|done]. destruct Hout as (-> & -> & Hq').
  exists q', d'. split; [done|]. split; [by apply Hq'|done].
Qed.
End Play.
