(* ===== verification/FlvSeek.v ===== *)
(** * Seeking (flvdemux.c)

    A seek goes to the last key frame of the index that is not after the time; in pull
    mode the file is indexed up to the time first, where the index is too coarse. *)

From S2P Require Import Prelude.
From S2P Require Import Mem.
From S2P Require Import FlvDrain.
From S2P Require Import FlvPlay.
From Stdlib Require Import SpecFloat.

Open Scope Z_scope.

(** A parser at a tag. *)
Definition at_tag (pos : Z) : FlvParser :=
  mkParser FLV_PARSER_EXPECT_TAG_PREFIX pos 0 FLV_TAG_PREFIX_SIZE.

Section Seek.
Context (pads : Pads).

(** ** Indexing *)

(** The packets for which the index has entries: key frames, and audio of a file
    without video. *)
Definition indexed (has_video : bool) (k : Packet) : bool :=
  match pk_pad k with
  | VIDEO => (pk_head k .& 240) >> 4 =? 1
  | AUDIO => negb has_video
  end.

Definition pk_clock (k : Packet) : Z := u64 (pk_time k * GST_MSECOND).

(** The index with the packets from [pos] on, up to the first one that is not before
    [indexTo]; [t] is the time of the packet before. *)
Fixpoint index_packets (has_video : bool) (pos t indexTo : Z) (ks : list Packet)
    (l : list FlvKeyframe) : list FlvKeyframe :=
  if t <? indexTo then
    match ks with
    | [] => l
    | k :: ks =>
        index_packets has_video (pos + alen (tag_bytes k)) (pk_clock k) indexTo ks
          (if indexed has_video k then flv_demux_index_add_entry l (pk_clock k) pos else l)
    end
  else l.

Lemma tag_bytes_len k : alen (tag_bytes k) = alen (pk_body k) + 15.
Proof using Type.
  unfold tag_bytes, alen. rewrite !length_app. change (length (prefix_bytes _ _ _)) with 11%nat.
  change (length (be32 _)) with 4%nat. lia.
Qed.

Section Index.
Variable file : list Z.
Hypothesis Hlen : alen file < 18446744073709551616.
Hypothesis Hpull : forall tr off n, 0 <= off -> 0 <= n -> off + n <= alen file ->
  pad_pull_range pads tr off n = (GST_FLOW_OK, take (Z.to_nat n) (drop (Z.to_nat off) file)).

(** The first bytes of a tag, with the byte behind its prefix. *)
Lemma tag_start k rest :
  take 12 (tag_bytes k ++ rest) =
  prefix_bytes (pk_type k) (alen (pk_body k)) (pk_time k) ++ [pk_head k].
Proof using Type. done. Qed.

Lemma holds_start l1 l2 : holds (l1 ++ l2) 0 l1.
Proof using Type. apply (proj1 (holds_app _ _ l1 l2)). apply holds_all. Qed.

(** A round of the loop, on a tag of the file. *)
Lemma indexing_round f k rest pos t indexTo d :
  packet_ok k -> 0 <= pos -> drop (Z.to_nat pos) file = tag_bytes k ++ rest -> t < indexTo ->
  indexing_loop pads (S f) (at_tag pos) t indexTo d =
  indexing_loop pads f (at_tag (pos + alen (tag_bytes k))) (pk_clock k) indexTo
    (if indexed (d_has_video d) k
     then put_keyframes (flv_demux_index_add_entry (d_keyframes d) (pk_clock k) pos) d else d).
Proof using Hlen Hpull.
  intros Hk Hpos Hfile Ht. pose proof Hk as (Htime & _ & Hl & _).
  assert (pos + alen (tag_bytes k ++ rest) = alen file \/ alen file < pos) as Hsize.
  { rewrite <- Hfile. unfold alen. rewrite length_drop. lia. }
  rewrite tag_bytes_len in *. assert (1 <= alen (pk_body k)) by (unfold pk_body, alen; simpl; lia).
  assert (alen (tag_bytes k ++ rest) = alen (pk_body k) + 15 + alen rest) as Hall
    by (rewrite <- tag_bytes_len; unfold alen; rewrite length_app; lia).
  assert (0 <= alen rest) by (unfold alen; lia).
  assert (pos <= alen file) as Hin.
  { destruct (Z.le_gt_cases pos (alen file)) as [|Hgt]; [done|].
    rewrite drop_ge in Hfile by (unfold alen in *; lia). rewrite <- Hfile in Hall.
    unfold alen in Hall at 1. simpl in Hall. lia. }
  cbn [indexing_loop]. rewrite (proj2 (Z.ltb_lt _ _) Ht).
  unfold gst_pad_pull_range, mbind, D_bind, gets. cbn [file_position next_block_size at_tag].
  rewrite u32_id by (unfold is_u32, FLV_TAG_PREFIX_SIZE; lia).
  rewrite Hpull by (unfold FLV_TAG_PREFIX_SIZE; lia). rewrite Hfile.
  change (Z.to_nat (FLV_TAG_PREFIX_SIZE + 1)) with 12%nat. rewrite tag_start.
  change (flow_ok GST_FLOW_OK) with true. cbn [negb mret D_ret].
  assert (exists st, body_state (pk_type k) = Some st) as [st Hst]
    by (unfold pk_type; destruct (pk_pad k); eexists; reflexivity).
  rewrite (read_prefix_bytes _ _ _ (pk_type k) (alen (pk_body k)) (pk_time k) st)
    by (done || lia || apply holds_start).
  unfold demand. rewrite bool_decide_eq_false_2 by auto.
  cbn [advance file_position next_block_size parsed_block_size flv_parser_seek snd timestamp].
  change (flow_ok GST_FLOW_OK) with true. cbn [negb]. cbv iota. change (file_position (at_tag pos)) with pos.
  rewrite !(u64_id (pos + 11)) by (unfold is_u64; lia).
  rewrite u64_id by (unfold is_u64; lia).
  replace (pos + 11 + (alen (pk_body k) + 4)) with (pos + (alen (pk_body k) + 15)) by lia.
  unfold index_tag, pk_type, indexed, pk_clock. cbn [tag_type timestamp].
  destruct (pk_pad k) eqn:Hpad.
  - change (FLV_TAG_TYPE_AUDIO =? FLV_TAG_TYPE_VIDEO) with false. cbv iota.
    unfold mbind, D_bind, gets, when, add_index_entry, update.
    change (FLV_TAG_TYPE_AUDIO =? FLV_TAG_TYPE_AUDIO) with true. cbn [andb].
    by destruct (d_has_video d).
  - change (FLV_TAG_TYPE_VIDEO =? FLV_TAG_TYPE_VIDEO) with true. cbv iota.
    change (ld (prefix_bytes FLV_TAG_TYPE_VIDEO (alen (pk_body k)) (pk_time k) ++ [pk_head k]) 11)
      with (Some (pk_head k)).
    unfold mbind, D_bind, demand, when, add_index_entry, update.
    by destruct (_ =? 1).
Qed.

Lemma indexing_packets ks f rest pos t indexTo d :
  Forall packet_ok ks -> 0 <= pos ->
  drop (Z.to_nat pos) file = concat (map tag_bytes ks) ++ rest ->
  t < indexTo -> Exists (fun k => indexTo <= pk_clock k) ks -> (length ks <= f)%nat ->
  indexing_loop pads f (at_tag pos) t indexTo d =
  Done (true, put_keyframes (index_packets (d_has_video d) pos t indexTo ks (d_keyframes d)) d).
Proof using Hlen Hpull.
  revert f pos t d. induction ks as [|k ks IH]; intros f pos t d Hks Hpos Hfile Ht Hex Hf.
  { by apply List.Exists_nil in Hex. }
  apply list.Forall_cons in Hks as [Hk Hks]. cbn [length] in Hf. destruct f as [|f]; [lia|].
  cbn [map concat] in Hfile. rewrite <- app_assoc in Hfile.
  rewrite (indexing_round f k (concat (map tag_bytes ks) ++ rest)) by done.
  cbn [index_packets]. rewrite (proj2 (Z.ltb_lt _ _) Ht).
  set (d1 := if indexed _ _ then _ else d).
  assert (d_has_video d1 = d_has_video d) as Hv by (unfold d1; by destruct (indexed _ _)).
  assert ((if indexed (d_has_video d) k
           then flv_demux_index_add_entry (d_keyframes d) (pk_clock k) pos else d_keyframes d)
          = d_keyframes d1) as Hkf by (unfold d1; by destruct (indexed _ _)).
  assert (forall l, put_keyframes l d1 = put_keyframes l d) as Hput
    by (intros; unfold d1; by destruct (indexed _ _)).
  assert (0 <= alen (tag_bytes k)) by (unfold alen; lia).
  destruct (Z.lt_ge_cases (pk_clock k) indexTo) as [Hlt|Hge].
  - apply List.Exists_cons in Hex as [?|Hex]; [lia|]. rewrite Hkf, <- Hput, <- Hv.
    apply IH; [done|lia| |done..|lia].
    rewrite Z2Nat.inj_add by lia. rewrite <- drop_drop, Hfile. unfold alen. rewrite Nat2Z.id.
    by rewrite drop_app_length.
  - destruct f; cbn [indexing_loop]; rewrite (proj2 (Z.ltb_ge _ _) Hge);
      destruct ks; cbn [index_packets]; rewrite (proj2 (Z.ltb_ge _ _) Hge);
      rewrite Hkf, <- Hput; by destruct d1.
Qed.

Lemma index_packets_ok v pos t indexTo ks l :
  index_ok l -> index_ok (index_packets v pos t indexTo ks l).
Proof using Type.
  revert pos t l. induction ks as [|k ks IH]; intros pos t l Hl; cbn [index_packets];
    destruct (t <? indexTo); try done.
  apply IH. destruct (indexed v k); [by apply index_add_ok|done].
Qed.

End Index.

(** Without an entry to start at, nothing is indexed, whatever the variable holds that
    the loop compares: the temporary parser expects a header, not a tag. *)
Lemma indexing_without_entry fuel garbage indexFrom indexTo d :
  flv_demux_index_lookup (d_keyframes d) indexFrom = Some None ->
  exists b, flv_demux_do_indexing_pull pads (S fuel) garbage indexFrom indexTo d = Done (b, d).
Proof using Type.
  intros Hlook. unfold flv_demux_do_indexing_pull, index_lookup, mbind, D_bind, gets, demand.
  rewrite Hlook. cbn [indexing_loop]. destruct (garbage <? indexTo); [|by eexists].
  unfold gst_pad_pull_range, mbind, D_bind, gets. cbn [file_position next_block_size].
  destruct (pad_pull_range _ _ _ _) as [r block]. cbn.
  destruct (flow_ok r); cbn; eexists; reflexivity.
Qed.

(** ** Seeks *)

(** A seek that the element takes: in time, forwards, with all data flushed. *)
Definition accepted (k : SeekEvent) : Prop :=
  k_format k = GST_FORMAT_TIME /\ SFleb (k_rate k) (S754_zero false) = false /\
  truth (k_flags k .& GST_SEEK_FLAG_FLUSH) = true.

(** Where a seek to a time goes: to the last entry that is not after it, or to the
    beginning of the file if the time is before the first entry or after the last. *)
Definition goes_to (l : list FlvKeyframe) (t : Z) (entry : Z * Z) : Prop :=
  (exists e, is_last_until l t e /\ entry = (time e, fileposition e)) \/
  (Forall (fun e => t < time e) l \/ Forall (fun e => time e < t) l) /\ entry = (0, 0).

Lemma find_keyframe_goes l t :
  index_ok l ->
  exists entry, goes_to l t entry /\
    forall d, d_keyframes d = l -> find_keyframe t d = Done (entry, d).
Proof using Type.
  intros Hok. destruct (lookup_ok l t Hok) as (o & Hlook & Ho).
  exists (match o with Some e => (time e, fileposition e) | None => (0, 0) end). split.
  - unfold goes_to. destruct o as [e|]; [left|by right]. exists e. split; [apply Ho|done].
  - intros d Hd. unfold find_keyframe, index_lookup, mbind, D_bind, gets, demand. by rewrite Hd, Hlook.
Qed.

Lemma adjust_rate b t s : s_rate (adjust_segment b t s) = s_rate s.
Proof using Type. by destruct b. Qed.

(** The segment of the seek starts at the key frame, when only key frames are wanted. *)
Definition moved_segment (k : SeekEvent) (entry : Z * Z) (s : GstSegment) : GstSegment :=
  adjust_segment (truth (k_flags k .& GST_SEEK_FLAG_KEY_UNIT)) (fst entry) s.

(** The result of a seek to [entry] in push mode. *)
Definition pushed_seek (d : FlvDemux) (k : SeekEvent) (s : GstSegment) (entry : Z * Z)
    (res : bool) (d' : FlvDemux) : Prop :=
  let request := SeekBytes (s_rate s) (snd entry) in
  res = pad_push_event pads (d_trace d) request /\ request ∈ d_trace d' /\
  d_need_parser_flush d' = true /\ d_keyframes d' = d_keyframes d /\ d_parser d' = d_parser d /\
  if res then d_segment d' = moved_segment k entry s /\
              d_audio_discont d' = true /\ d_video_discont d' = true
  else d_segment d' = d_segment d /\ d_audio_discont d' = d_audio_discont d /\
       d_video_discont d' = d_video_discont d.


(** The result of a seek to [entry] in pull mode. *)
Definition pulled_seek (d : FlvDemux) (k : SeekEvent) (s : GstSegment) (entry : Z * Z)
    (d' : FlvDemux) : Prop :=
  d_parser d' = (if snd entry =? 0 then flv_parser_reset (d_parser d) else at_tag (snd entry)) /\
  d_segment d' = moved_segment k entry s /\ d_audio_discont d' = true /\
  d_video_discont d' = true /\ d_keyframes d' = d_keyframes d /\ head (d_trace d') = Some StartTask.

End Seek.
