(* ===== verification/FlvDemuxRuns.v ===== *)
(** * Concrete runs of the demultiplexer (flvdemux.c)

    A small file with audio and video, pushed in small buffers over the adapter of
    GStreamer and pulled, and seeks in it. *)

From S2P Require Import Prelude.
From S2P Require Import Mem.
From S2P Require Import GstAdapter.
From S2P Require Import FlvScript.
From S2P Require Import FlvDrain.
From S2P Require Import FlvPlay.
From S2P Require Import FlvSeek.
From stdpp Require Import gmap.
From Stdlib Require Import SpecFloat.

Open Scope Z_scope.

(** ** A file and a pipeline *)

(** A key frame, an MP3 packet, a packet of an unknown encoding, and frames at six and
    at nine seconds, the first of them a key frame. *)
Definition demo_packets : list Packet :=
  [mkPacket VIDEO 0 20 [0] [1; 2; 3]; mkPacket AUDIO 10 47 [] [9; 8];
   mkPacket VIDEO 20 34 [] [7]; mkPacket VIDEO 6000 20 [0] [4]; mkPacket VIDEO 9000 36 [0] [5; 6]].

Lemma demo_packets_ok : Forall packet_ok demo_packets.
Proof.
  unfold demo_packets. repeat apply Forall_cons_2; [..|apply Forall_nil_2].
  all: split; [unfold is_i32; cbn; lia|].
  all: split; [unfold bytes, is_byte; apply (bool_decide_unpack _); by vm_compute|].
  all: by vm_compute.
Qed.

Definition demo_file : list Z := flv_file true true demo_packets.

Lemma demo_file_bytes : bytes demo_file.
Proof. apply flv_file_bytes, demo_packets_ok. Qed.

(** All is accepted, and the file can be read. *)
Definition demo_pads : Pads := {|
  pad_set_caps _ _ _ := true;
  pad_set_active _ _ := true;
  element_add_pad _ _ := true;
  pad_alloc_buffer _ _ _ := GST_FLOW_OK;
  pad_push _ _ _ := GST_FLOW_OK;
  pad_pull_range _ off n :=
    if off + n <=? alen demo_file
    then (GST_FLOW_OK, take (Z.to_nat n) (drop (Z.to_nat off) demo_file))
    else (GST_FLOW_UNEXPECTED, []);
  pad_push_event _ _ := true;
  pad_start_task _ := true;
  pad_stop_task _ := true;
  g_checks := true |}.

Lemma demo_pull tr off n : 0 <= off -> 0 <= n -> off + n <= alen demo_file ->
  pad_pull_range demo_pads tr off n =
  (GST_FLOW_OK, take (Z.to_nat n) (drop (Z.to_nat off) demo_file)).
Proof. intros. cbn [pad_pull_range demo_pads]. by rewrite (proj2 (Z.leb_le _ _)). Qed.

Lemma demo_accepting : accepting demo_pads.
Proof. by repeat split. Qed.

Definition no_junk : FlvKeyframe := mkKeyframe 0 0.
Definition any_utf8 (l : list Z) : bool := true.
Definition no_span (b1 b2 : GstBuffer) : bool := false.
#[export] Instance demo_queue : ByteQueue GstAdapter := adapter_queue no_span.

(** The file in buffers of seven bytes. *)
Fixpoint cut (fuel : nat) (offset : Z) (l : list Z) : list (list Z * Z * Z) :=
  match fuel with
  | O => []
  | S fuel => (take 7 l, 0, offset) :: cut fuel (offset + 7) (drop 7 l)
  end.

Definition demo_rest : list (list Z * Z * Z) := cut 18 7 (drop 7 demo_file).

Lemma demo_joined : joined ((take 7 demo_file, 0, 0) :: demo_rest) = demo_file.
Proof. vm_compute. reflexivity. Qed.

Lemma demo_offsets : Forall (fun b => is_u64 b.2) demo_rest.
Proof. unfold is_u64. repeat (apply Forall_cons_2; [vm_compute; done|]). apply Forall_nil_2. Qed.

Definition demo_started : FlvDemux := started ∅.

(** ** The theorems on this file *)

Lemma push_refines_drain_witness :
  same_outcome
    (feed demo_pads any_utf8 no_junk gst_adapter_new ((take 7 demo_file, 0, 0) :: demo_rest) demo_started)
    (drain_all demo_pads any_utf8 no_junk demo_file (flushed 0 demo_started)).
Proof.
  pose proof (push_refines_drain demo_pads any_utf8 no_junk eq_refl demo_rest (take 7 demo_file) 0 0
    gst_adapter_new demo_started (started_ok ∅) (adapter_new_ok) ltac:(unfold is_u64; lia) demo_offsets) as H.
  rewrite demo_joined in H. apply H.
  - exact demo_file_bytes.
  - vm_compute. reflexivity.
Defined.


Lemma demux_roundtrip_witness :
  exists q' d', feed demo_pads any_utf8 no_junk gst_adapter_new
      ((take 7 demo_file, 0, 0) :: demo_rest) demo_started = Done (GST_FLOW_OK, q', d') /\
    adapter_bytes q' = [] /\
    pushed (d_trace d') =
      [(VIDEO, [1; 2; 3], 0, 0, false); (AUDIO, [9; 8], 10000000, 0, false);
       (VIDEO, [4], 6000000000, 1, false); (VIDEO, [5; 6], 9000000000, 2, true)].
Proof.
  apply (demux_roundtrip demo_pads any_utf8 no_junk eq_refl demo_accepting (H := demo_queue) gst_adapter_new ∅ true true
    demo_packets demo_rest (take 7 demo_file) 0 demo_packets_ok adapter_new_ok demo_offsets demo_joined).
  vm_compute. reflexivity.
Defined.

(** A parser that is at the beginning and needs no flush. *)
Definition demo_ready : FlvDemux := flushed 0 demo_started.

(** ** Seeks *)

(** The element has parsed the first frame; then it has parsed the file. *)
Definition demo_begun : FlvDemux :=
  put_has_video true (put_keyframes [mkKeyframe 0 13] demo_ready).
Definition demo_indexed : FlvDemux :=
  put_has_video true (put_keyframes [mkKeyframe 0 13; mkKeyframe 6000000000 68] demo_ready).

(** A seek to a key frame, with a flush. *)
Definition demo_seek (t : Z) : SeekEvent :=
  mkSeek (double_of_Z 1) GST_FORMAT_TIME 5 GST_SEEK_TYPE_SET t GST_SEEK_TYPE_NONE 0.

Lemma demo_indexed_ok : index_ok (d_keyframes demo_indexed).
Proof. repeat constructor; unfold before; cbn; lia. Qed.




(** ** What goes wrong *)

(** A seek to eight seconds, in a file with key frames at zero and six seconds: the
    file is indexed up to the frame at nine seconds, so that the index has the key frame
    at six seconds, but a time after the last entry is not found in it, and playing
    restarts at the beginning of the file. *)
Lemma seek_restarts :
  exists d', flv_demux_seek_pull demo_pads 5 0 (demo_seek 8000000000) demo_begun = Done (true, d') /\
    d_keyframes d' = [mkKeyframe 0 13; mkKeyframe 6000000000 68] /\
    state (d_parser d') = FLV_PARSER_EXPECT_HEADER /\ file_position (d_parser d') = 0 /\
    s_start (d_segment d') = 0.
Proof. eexists. vm_compute. repeat split. Qed.

(** A tag without a body ends the playing with an error: the size of its packet is
    negative. *)
Lemma empty_tag_fails :
  exists q d', flv_demux_chain demo_pads any_utf8 no_junk gst_adapter_new
      (header_bytes true false 9 ++ be32 0 ++ prefix_bytes 8 0 0 ++ [47; 0; 0; 11]) 0 0 demo_started
    = Done (GST_FLOW_ERROR, q, d') /\ head (d_trace d') = Some ErrorMessage.
Proof. eexists _, _. vm_compute. split; reflexivity. Qed.

(** A file that ends behind the prefix of a video tag: indexing it reads the byte behind
    the block that it has got. *)
Definition short_file : list Z := header_bytes true true 9 ++ be32 0 ++ prefix_bytes 9 10 0.

Definition short_pads : Pads := {|
  pad_set_caps _ _ _ := true;
  pad_set_active _ _ := true;
  element_add_pad _ _ := true;
  pad_alloc_buffer _ _ _ := GST_FLOW_OK;
  pad_push _ _ _ := GST_FLOW_OK;
  pad_pull_range _ off n := (GST_FLOW_OK, take (Z.to_nat n) (drop (Z.to_nat off) short_file));
  pad_push_event _ _ := true;
  pad_start_task _ := true;
  pad_stop_task _ := true;
  g_checks := true |}.

Lemma indexing_reads_behind_block :
  flv_demux_do_indexing_pull short_pads 5 0 0 8000000000 demo_begun = Fault ReadOutside.
Proof. vm_compute. reflexivity. Qed.
