(* ===== verification/PbFlv.v ===== *)
(** * A film that is downloaded

    The demultiplexer behind the buffer of a download: what the buffer promises in both
    modes is what the demultiplexer relies on, so that a film comes to the same whether
    its buffers are pushed as they arrive or its blocks are pulled. *)

From S2P Require Import Prelude.
From S2P Require Import Mem.
From S2P Require Import Bytes.
From S2P Require Import FlvParser.
From S2P Require Import FlvMetadata.
From S2P Require Import ByteQueue.
From S2P Require Import FlvDrain.
From S2P Require Import ProgressBuffer.
From S2P Require Import PbFlow.
From S2P Require Import PbLive.
From S2P Require Import PbPull.

Open Scope Z_scope.

(** ** Blocks that are pulled *)

Section Pulls.
Context {C : Type} `{ByteCache C} (env : Env) (F : list Z).
Abbreviation PB := (ProgressBuffer (C := C)).
Context (HF : alen F < 4611686018427387904).

(** Requests that were made before. *)
Fixpoint requests (rs : list (Z * Z)) : ST PB unit :=
  match rs with
  | [] => mret tt
  | (p, m) :: rs => progress_buffer_getrange env p m;; requests rs
  end.

Definition fair (r : Z * Z) : Prop := 0 <= r.1 /\ 0 < r.2 /\ r.1 + r.2 < 4611686018427387904.

(** The whole content has been received. *)
Definition complete (src : option Z) (b : PB) : Prop :=
  pulling F src b /\ received b = alen F /\ expected b = alen F.

Lemma request_complete src b p m :
  complete src b -> fair (p, m) ->
  runs (progress_buffer_getrange env p m) b (fun r b' => complete src b' /\
    (p + m <= alen F -> r = (GST_FLOW_OK, Some (mkRead (bytes_at F p m) p)))).
Proof using HF.
  intros (Hq & Hr & He) (Hp & Hm & Hpm). cbn in *. destruct (Z.le_gt_cases (p + m) (alen F)).
  - eapply runs_mono; [apply (getrange_arrived env F ltac:(lia) src); [done|done|done|by rewrite Hr]|].
    intros r b' (-> & Hq' & Hr' & He'). split; [|done]. split; [done|]. split; congruence.
  - eapply runs_mono; [apply (getrange_beyond env); [done|done|done|by rewrite He; lia]|].
    intros r b' (-> & ->). split; [done|]. lia.
Qed.

Lemma requests_complete rs src b :
  complete src b -> Forall fair rs -> runs (requests rs) b (fun _ => complete src).
Proof using HF.
  intros Hc Hrs. revert b Hc. induction Hrs as [|[p m] rs Hf _ IH]; intros b Hc; cbn [requests]; prun; [done|].
  eapply runs_mono; [by apply request_complete|]. intros r b' [Hc' _]. by apply IH.
Qed.

(** What a pull gives, after earlier requests. *)
Definition buffer_pull (b : PB) (rs : list (Z * Z)) (off n : Z) : GstFlowReturn * list Z :=
  match (requests rs;; progress_buffer_getrange env off n) b with
  | Done ((r, Some buf), _) => (r, r_data buf)
  | Done ((r, None), _) => (r, [])
  | Fault _ => (GST_FLOW_ERROR, [])
  end.

Lemma buffer_pull_ok src b rs off n :
  complete src b -> Forall fair rs -> 0 <= off -> 0 < n -> off + n <= alen F ->
  buffer_pull b rs off n = (GST_FLOW_OK, take (Z.to_nat n) (drop (Z.to_nat off) F)).
Proof using HF.
  intros Hc Hrs Ho Hn Hle.
  assert (runs (requests rs;; progress_buffer_getrange env off n) b
    (fun r _ => r = (GST_FLOW_OK, Some (mkRead (bytes_at F off n) off)))) as (r & b' & E & ->).
  { prun. eapply runs_mono; [by apply requests_complete|]. intros u b1 Hc1.
    eapply runs_mono; [apply (request_complete src); [done|]|]; [|intros r b' [_ Hr]; by apply Hr].
    unfold fair. cbn. lia. }
  unfold buffer_pull. by rewrite E.
Qed.
End Pulls.

(** The pads of a demultiplexer that pulls from the buffer; [hist] is any history of
    requests for what the demultiplexer has done. *)
Definition pulls_from {C} `{ByteCache C} (env : Env) (b : ProgressBuffer (C := C))
    (hist : list event -> list (Z * Z)) (pads : Pads) : Pads :=
  mkPads (pad_set_caps pads) (pad_set_active pads) (element_add_pad pads) (pad_alloc_buffer pads)
    (pad_push pads) (fun tr off n => buffer_pull env b (hist tr) off n) (pad_push_event pads)
    (pad_start_task pads) (pad_stop_task pads) (g_checks pads).

(** ** Buffers that are pushed *)

Definition GST_CLOCK_TIME_NONE : Z := 18446744073709551615.

(** The buffers that went downstream, as the demultiplexer gets them; they have no
    timestamps. *)
Definition buffer_of (e : pb_event) : option (list Z * Z * Z) :=
  match e with PushData off l => Some (l, GST_CLOCK_TIME_NONE, off) | _ => None end.
Definition buffers (ds : list pb_event) : list (list Z * Z * Z) := omap buffer_of (rev ds).

Lemma buffers_snoc e ds b : buffer_of e = Some b -> buffers (e :: ds) = buffers ds ++ [b].
Proof. intros He. unfold buffers. cbn [rev]. rewrite omap_app. cbn. by rewrite He. Qed.

Lemma buffers_joined ds : Forall is_data ds -> joined (buffers ds) = pushed ds.
Proof.
  induction 1 as [|[] ds He _ IH]; [done|done|done|done|done|done| |done..].
  rewrite (buffers_snoc _ _ (data, GST_CLOCK_TIME_NONE, offset)) by done. unfold joined in *. rewrite map_app, concat_app, IH.
  cbn. by rewrite app_nil_r.
Qed.

Lemma buffers_offsets F ds :
  alen F < 9223372036854775808 -> faithful F ds -> Forall is_data ds ->
  Forall (fun b => is_u64 b.2) (buffers ds).
Proof.
  intros HF Hx Hd. induction Hd as [|[] ds He Hds IH]; [constructor|done|done|done|done|done| |done..].
  cbn in Hx. destruct Hx as (Hoff & [H0 _] & Hx). rewrite (buffers_snoc _ _ (data, GST_CLOCK_TIME_NONE, offset)) by done.
  apply Forall_app_2; [by apply IH|]. constructor; [|constructor]. cbn.
  assert (flow_pos ds <= alen F) as Hle; [|unfold is_u64; lia].
  pose proof (data_pushed F ds Hx Hds) as Hp. destruct (faithful_pushed F ds Hx) as [Hfl _].
  assert (alen (pushed ds) <= alen F) by (rewrite Hp; unfold alen; rewrite length_take; lia).
  assert (segment_pos ds = 0) as E; [|lia]. clear - Hds. by induction Hds as [|[] ds ? ? IH].
Qed.

Section Film.
Context {C : Type} `{ByteCache C} (env : Env) (seekable : bool) (F : list Z).
Context (HF : alen F < 2147483648) (Hbytes : bytes F).
Context (n : NewSegmentEvent) (Hn : first_segment F n) (Hcreate : env_create env [] = true).
(** The buffer in push mode. *)
Context (Hseek : forall tr rate p, env_push_event env tr (SeekSource rate p) = seekable).
Context (Haccept : forall tr off l, env_push env tr off l = GST_FLOW_OK).
Context (Hpush : forall tr, env_activated env tr <> Some true) (Hlinked : forall tr, env_linked env tr = true).
(** Another buffer, in pull mode. *)
Context (env' : Env) (Hcreate' : env_create env' [] = true) (Hpull : forall tr, env_activated env' tr = Some true).
Context (pads : Pads) (utf8 : list Z -> bool) (junk : FlvKeyframe) (Hchecks : g_checks pads = true).

(** C6. A film comes to the same in both modes: when a film has been downloaded, in any
    interleaving with the task, into a buffer that pushes, and, in any deliveries, into
    one that is pulled from, then a demultiplexer that is given the buffers which the
    first pushes, and one whose task pulls blocks from the second, whatever was
    requested from it before, reach the same state, or stop with the same error. *)
Theorem download_modes_agree steps src b k ks src2 b2 hist {Q} `{ByteQueue Q} (q : Q) d :
  Forall plain_step steps -> download env F n steps = Done (src, b) ->
  s_last_stop (b_sink_segment b) = alen F ->
  pull_download env' F n (k :: ks) = Done (src2, b2) -> received b2 = alen F ->
  (forall tr, Forall fair (hist tr)) ->
  demux_ok d -> parser_ok (d_parser d) -> file_position (d_parser d) = 0 ->
  d_need_parser_flush d = false -> q_ok q -> q_bytes q = [] -> q_load q + alen F < 2147483648 ->
  let pads' := pulls_from env' b2 hist pads in
  exists b' ds, play env F (replicate (2 * length F + 3) TaskRuns) src b = Done (src, b') /\
    downstream (b_trace b') = PushEvent EosEvent :: ds /\
    exists j, match feed pads' utf8 junk q (buffers ds) d with
              | Done (r, _, d') => if flow_ok r then rounds pads' utf8 junk j d = Done (true, d')
                                   else rounds pads' utf8 junk j d = stop_task r d'
              | Fault f => rounds pads' utf8 junk j d = Fault f
              end.
Proof using HF Hbytes Hn Hcreate Hseek Haccept Hpush Hlinked Hcreate' Hpull Hchecks.
  intros Hs Hd Hlast Hd2 Hrec Hhist Hdem Hok Hpos Hfl Hq Hempty Hload pads'.
  assert (alen F < 9223372036854775808) as HF' by lia.
  destruct (download_outcome env seekable F HF' Hseek n Hn Hcreate Haccept Hpush Hlinked steps src b Hs Hd Hlast)
    as (b' & E & _ & ds & Eds & Hds & Hp & Hx).
  exists b', ds. split; [done|]. split; [done|].
  destruct (pull_download_ok env' F HF' n Hn Hcreate' Hpull k ks) as (src1 & b1 & E1 & Hq1 & _).
  rewrite Hd2 in E1. injection E1 as <- <-.
  assert (complete F src2 b2) as Hc.
  { split; [done|]. split; [done|]. destruct (q_held _ _ _ Hq1) as (c & _ & _ & _ & _ & _ & Hle & _).
    unfold received, expected in *. lia. }
  assert (joined (buffers ds) = F) as Hj by (rewrite buffers_joined; done).
  pose proof (buffers_offsets F ds HF' Hx Hds) as Hoffs.
  destruct (buffers ds) as [|[[l t] o] bufs]; [destruct Hn as (_ & _ & _ & _ & _ & Hz); by rewrite <- Hj in Hz|].
  pose proof (Forall_inv Hoffs) as Ho. pose proof (Forall_inv_tail Hoffs) as Hos. cbn in Ho.
  apply (push_pull_agree pads' utf8 junk Hchecks F Hbytes ltac:(lia)); try done.
  intros tr off m H1 H2 H3. by apply (buffer_pull_ok env' F ltac:(lia) src2).
Qed.
End Film.
