(* ===== verification/PbFlvRuns.v ===== *)
(** * A film that is downloaded: a run *)

From S2P Require Import Prelude.
From S2P Require Import Mem.
From S2P Require Import FlvMetadata.
From S2P Require Import FlvDrain.
From S2P Require Import FlvPlay.
From S2P Require Import GstAdapter.
From S2P Require Import FlvDemuxRuns.
From S2P Require Import ProgressBuffer.
From S2P Require Import PbFlow.
From S2P Require Import PbLive.
From S2P Require Import PbPull.
From S2P Require Import PbRuns.
From S2P Require Import PbFlv.

Open Scope Z_scope.

(** The film of [FlvDemuxRuns]; one byte has been requested before each pull. *)
Definition film_segment : NewSegmentEvent := mkNewSegment true one GST_FORMAT_BYTES 0 (alen demo_file) 0.

Lemma film_first : first_segment demo_file film_segment.
Proof. by repeat split. Qed.

Definition film_steps : list pb_step := [SourceData 30; TaskRuns; TaskRuns; TaskRuns; SourceData 1000; SourceEos].

Definition film_pushing : ProgressBuffer (C := Cache) :=
  match download (H := demo_cache) (demo_env false true) demo_file film_segment film_steps with
  | Done (_, b) => b
  | Fault _ => progress_buffer_init
  end.

Definition film_pulled : ProgressBuffer (C := Cache) :=
  match pull_download (H := demo_cache) (demo_env true true) demo_file film_segment [50; 1000]%nat with
  | Done (_, b) => b
  | Fault _ => progress_buffer_init
  end.

Definition film_hist (tr : list event) : list (Z * Z) := [(0, 1)].

Definition film_pads : Pads := pulls_from (H := demo_cache) (demo_env true true) film_pulled film_hist demo_pads.

Lemma download_modes_agree_witness :
  exists b' ds, play (H := demo_cache) (demo_env false true) demo_file
      (replicate (2 * length demo_file + 3) TaskRuns) None film_pushing = Done (None, b') /\
    downstream (b_trace b') = PushEvent EosEvent :: ds /\
    exists j, match feed film_pads any_utf8 no_junk gst_adapter_new (buffers ds) demo_ready with
              | Done (r, _, d') => if flow_ok r then rounds film_pads any_utf8 no_junk j demo_ready = Done (true, d')
                                   else rounds film_pads any_utf8 no_junk j demo_ready = stop_task r d'
              | Fault f => rounds film_pads any_utf8 no_junk j demo_ready = Fault f
              end.
Proof.
  apply (download_modes_agree (H := demo_cache) (demo_env false true) true demo_file eq_refl demo_file_bytes
    film_segment film_first eq_refl (fun _ _ _ => eq_refl) (fun _ _ _ => eq_refl) ltac:(done) (fun _ => eq_refl)
    (demo_env true true) eq_refl (fun _ => eq_refl) demo_pads any_utf8 no_junk eq_refl
    film_steps None film_pushing 50 [1000%nat] (Some (alen demo_file)) film_pulled film_hist (H0 := demo_queue)).
  - by repeat constructor.
  - vm_compute. reflexivity.
  - vm_compute. reflexivity.
  - vm_compute. reflexivity.
  - vm_compute. reflexivity.
  - intros tr. repeat constructor; cbn; lia.
  - apply flushed_ok; [unfold is_u64; lia|apply started_ok].
  - by vm_compute.
  - reflexivity.
  - reflexivity.
  - exact adapter_new_ok.
  - reflexivity.
  - vm_compute. reflexivity.
Defined.

(** The task that pulls from the buffer plays the packets of the film, and stops at its end. *)
Example film_plays :
  match rounds film_pads any_utf8 no_junk 40 demo_ready with
  | Done (go, d') => go = false /\ FlvPlay.pushed (d_trace d') =
      [(VIDEO, [1; 2; 3], 0, 0, false); (AUDIO, [9; 8], 10000000, 0, false);
       (VIDEO, [4], 6000000000, 1, false); (VIDEO, [5; 6], 9000000000, 2, true)]
  | Fault _ => False
  end.
Proof. vm_compute. split; reflexivity. Qed.
