(* ===== verification/Sse2.v ===== *)
(** * The instructions for vectors of SSE2

    The registers of 128 bits and the intrinsics (emmintrin.h) that ColorConverter.c uses.
    A register is the list of its sixteen bytes, the lowest first; an operation on lanes of
    16 bits combines pairs of bytes and takes the results apart again. *)

From S2P Require Import Prelude.
From S2P Require Import Mem.

Open Scope Z_scope.

Abbreviation m128i := (list Z).

(** ** Lanes *)

Definition u16 (z : Z) : Z := z mod 65536.
Definition s16 (w : Z) : Z := if w <? 32768 then w else w - 65536.

Definition word (lo hi : Z) : Z := lo + 256 * hi.
Definition lo8 (w : Z) : Z := w mod 256.
Definition hi8 (w : Z) : Z := w / 256.

Fixpoint words (r : m128i) : list Z :=
  match r with
  | lo :: hi :: r => word lo hi :: words r
  | _ => []
  end.

Fixpoint of_words (l : list Z) : m128i :=
  match l with
  | [] => []
  | w :: l => lo8 w :: hi8 w :: of_words l
  end.

Definition lanes16 (f : Z -> Z -> Z) (a b : m128i) : m128i := of_words (zip_with f (words a) (words b)).

(** [n] lanes of [k] bytes of each in turn. *)
Fixpoint interleave (n k : nat) (a b : m128i) : m128i :=
  match n with
  | O => []
  | S n => take k a ++ take k b ++ interleave n k (drop k a) (drop k b)
  end.

(** Saturation to a byte. *)
Definition sat8 (z : Z) : Z := if z <? 0 then 0 else if 255 <? z then 255 else z.

(** ** Intrinsics *)

Definition _mm_setzero_si128 : m128i := replicate 16 0.
Definition _mm_set1_epi8 (b : Z) : m128i := replicate 16 (lo8 b).
Definition _mm_set1_epi16 (w : Z) : m128i := of_words (replicate 8 (u16 w)).

Definition _mm_add_epi16 : m128i -> m128i -> m128i := lanes16 (fun x y => u16 (x + y)).
Definition _mm_sub_epi16 : m128i -> m128i -> m128i := lanes16 (fun x y => u16 (x - y)).
Definition _mm_mulhi_epu16 : m128i -> m128i -> m128i := lanes16 (fun x y => u16 ((x * y) >> 16)).
Definition _mm_mullo_epi16 : m128i -> m128i -> m128i := lanes16 (fun x y => u16 (x * y)).
Definition _mm_srai_epi16 (a : m128i) (n : Z) : m128i := of_words (map (fun x => u16 (s16 x >> n)) (words a)).
Definition _mm_srli_epi16 (a : m128i) (n : Z) : m128i := of_words (map (fun x => u16 (x >> n)) (words a)).
Definition _mm_packus_epi16 (a b : m128i) : m128i := map (fun x => sat8 (s16 x)) (words a ++ words b).

Definition _mm_unpacklo_epi8 (a b : m128i) : m128i := interleave 8 1 a b.
Definition _mm_unpackhi_epi8 (a b : m128i) : m128i := interleave 8 1 (drop 8 a) (drop 8 b).
Definition _mm_unpacklo_epi16 (a b : m128i) : m128i := interleave 4 2 a b.
Definition _mm_unpackhi_epi16 (a b : m128i) : m128i := interleave 4 2 (drop 8 a) (drop 8 b).
Definition _mm_unpacklo_epi32 (a b : m128i) : m128i := interleave 2 4 a b.
Definition _mm_unpackhi_epi32 (a b : m128i) : m128i := interleave 2 4 (drop 8 a) (drop 8 b).
Definition _mm_unpacklo_epi64 (a b : m128i) : m128i := interleave 1 8 a b.
Definition _mm_unpackhi_epi64 (a b : m128i) : m128i := interleave 1 8 (drop 8 a) (drop 8 b).
Definition _mm_srli_si128 (a : m128i) (n : nat) : m128i := drop n a ++ replicate n 0.

(** An [int] to the lowest lane of 32 bits. *)
Definition _mm_cvtsi32_si128 (i : Z) : m128i :=
  let u := u32 i in
  [u mod 256; u / 256 mod 256; u / 65536 mod 256; u / 16777216] ++ replicate 12 0.

(** ** Memory *)

(** [n] bytes of an array; [None] outside it. *)
Definition load_bytes (a : list Z) (i n : Z) : option (list Z) :=
  if (0 <=? i) && (i + n <=? alen a) then Some (take (Z.to_nat n) (drop (Z.to_nat i) a)) else None.

Definition store_bytes (a : list Z) (i : Z) (l : list Z) : option (list Z) :=
  if (0 <=? i) && (i + alen l <=? alen a)
  then Some (take (Z.to_nat i) a ++ l ++ drop (Z.to_nat (i + alen l)) a) else None.

(** The instructions that fault for an address that is not a multiple of 16; [at_] is the
    address of the array. *)
Definition aligned (at_ i : Z) : bool := (at_ + i) mod 16 =? 0.

Definition _mm_loadu_si128 (a : list Z) (i : Z) : option m128i := load_bytes a i 16.
Definition _mm_load_si128 (at_ : Z) (a : list Z) (i : Z) : option m128i :=
  if aligned at_ i then load_bytes a i 16 else None.
Definition _mm_loadl_epi64 (a : list Z) (i : Z) : option m128i :=
  l ← load_bytes a i 8; Some (l ++ replicate 8 0).
Definition _mm_store_si128 (at_ : Z) (a : list Z) (i : Z) (r : m128i) : option (list Z) :=
  if aligned at_ i then store_bytes a i r else None.
Definition _mm_storel_epi64 (a : list Z) (i : Z) (r : m128i) : option (list Z) := store_bytes a i (take 8 r).

(** Numbers of C in memory, the lowest byte first. *)
Definition load_u8 (a : list Z) (i : Z) : option Z := ld a i.
Definition le2 (b0 b1 : Z) : Z := b0 + 256 * b1.
Definition le4 (b0 b1 b2 b3 : Z) : Z := i32 (b0 + 256 * b1 + 65536 * b2 + 16777216 * b3).
Definition load_u16 (a : list Z) (i : Z) : option Z :=
  b0 ← ld a i; b1 ← ld a (i + 1); Some (le2 b0 b1).
Definition load_i32 (a : list Z) (i : Z) : option Z :=
  b0 ← ld a i; b1 ← ld a (i + 1); b2 ← ld a (i + 2); b3 ← ld a (i + 3); Some (le4 b0 b1 b2 b3).

(** ** Lemmas *)

Lemma word_u16 x : word (lo8 (u16 x)) (hi8 (u16 x)) = u16 x.
Proof. unfold word, lo8, hi8. pose proof (Z.div_mod (u16 x) 256). lia. Qed.

(** The bytes of an array from [i] on, as a function of the offset. *)
Definition byte_at (a : list Z) (i : Z) : Z := default 0 (ld a i).
Definition run (n : nat) (f : Z -> Z) : list Z := map (fun k => f (Z.of_nat k)) (seq 0 n).

Lemma load_run a i n : 0 <= i -> 0 <= n -> i + n <= alen a ->
  load_bytes a i n = Some (run (Z.to_nat n) (fun k => byte_at a (i + k))).
Proof.
  intros Hi Hn Hle. unfold load_bytes. zcase; try lia. f_equal. apply list_eq. intros j. unfold run, alen in *.
  rewrite list_lookup_fmap. destruct (decide (j < Z.to_nat n)%nat).
  - rewrite lookup_take_lt, lookup_drop, lookup_seq_lt by lia. cbn. unfold byte_at, ld.
    rewrite (proj2 (Z.leb_le _ _)) by lia. replace (Z.to_nat (i + Z.of_nat j)) with (Z.to_nat i + j)%nat by lia.
    destruct (lookup_lt_is_Some_2 a (Z.to_nat i + j)) as [v Hv]; [lia|]. by rewrite Hv.
  - rewrite lookup_take_ge, lookup_seq_ge by lia. done.
Qed.

Lemma ld_at a i : 0 <= i < alen a -> ld a i = Some (byte_at a i).
Proof. intros Hi. unfold byte_at. by destruct (ld_in a i Hi) as [v ->]. Qed.

Lemma byte_at_byte a i : Forall is_byte a -> is_byte (byte_at a i).
Proof.
  intros Ha. unfold byte_at, ld. zcase; [|unfold is_byte; cbn; lia].
  destruct (a !! Z.to_nat i) eqn:E; [|unfold is_byte; cbn; lia]. by eapply Forall_lookup_1 in E.
Qed.

(** A store rewrites a row of bytes. *)
Lemma store_row a i l : 0 <= i -> i + alen l <= alen a ->
  store_bytes a i l = Some (row i (alen l) (fun k _ => default 0 (l !! Z.to_nat k)) a).
Proof.
  intros Hi Hle. unfold store_bytes. zcase; try lia. f_equal. apply list_eq. intros j. rewrite lookup_row.
  unfold alen in *. zcase.
  - rewrite lookup_app_r, length_take by (rewrite length_take; lia).
    rewrite lookup_app_l by lia. replace (j - Z.to_nat i `min` length a)%nat with (Z.to_nat (Z.of_nat j - i)) by lia.
    destruct (lookup_lt_is_Some_2 l (Z.to_nat (Z.of_nat j - i))) as [v ->]; [lia|].
    by destruct (lookup_lt_is_Some_2 a j) as [v' ->]; [lia|].
  - rewrite lookup_app_l, lookup_take_lt by (rewrite ?length_take; lia). by destruct (a !! j).
  - rewrite lookup_app_r, length_take by (rewrite length_take; lia). rewrite lookup_app_r, lookup_drop by lia.
    replace (Z.to_nat (i + Z.of_nat (length l)) + (j - Z.to_nat i `min` length a - length l))%nat with j by lia.
    by destruct (a !! j).
  - lia.
Qed.

Lemma store_aligned at_ d i r : (at_ + i) mod 16 = 0 -> _mm_store_si128 at_ d i r = store_bytes d i r.
Proof. intros E. unfold _mm_store_si128, aligned. by rewrite E. Qed.

(** The bytes of a number are those that it was read from. *)
Lemma u32_le4 b0 b1 b2 b3 : is_byte b0 -> is_byte b1 -> is_byte b2 -> is_byte b3 ->
  u32 (le4 b0 b1 b2 b3) = b0 + 256 * b1 + 65536 * b2 + 16777216 * b3.
Proof. unfold is_byte, u32, le4, i32. intros. zlia. Qed.

Lemma u32_le2 b0 b1 : is_byte b0 -> is_byte b1 -> u32 (le2 b0 b1) = b0 + 256 * b1.
Proof. unfold is_byte, u32, le2. intros. zlia. Qed.

(** Two numbers of 16 bits in one of 32. *)
Lemma le2_pair b0 b1 c0 c1 : is_byte b0 -> is_byte b1 -> is_byte c0 -> is_byte c1 ->
  i32 ((le2 b0 b1 .& 65535) .| (le2 c0 c1 << 16)) = le4 b0 b1 c0 c1.
Proof.
  intros. unfold le2, le4, is_byte in *. change 65535 with (Z.ones 16). rewrite Z.land_ones by lia.
  rewrite (Z.mod_small _ (2 ^ 16)) by (change (2 ^ 16) with 65536; lia). f_equal.
  rewrite Z.lor_comm, Z.shiftl_mul_pow2, lor_add_low by (change (2 ^ 16) with 65536; lia). change (2 ^ 16) with 65536. lia.
Qed.
