(* ===== verification/ColorSse2.v ===== *)
(** * Conversion of pictures with SSE2 (ColorConverter.c)

    Pictures of a film come as planes of luma (Y) and of chroma (Cb, Cr; called u and v), of
    half the width and height, and of alpha.  The functions convert two rows at a time, in
    blocks of 16, 8, 4 and 2 columns.

    A definition such as [ARGB32_16] is what a block computes in registers: the values that
    are loaded are its parameters ([r_u] a register, [i_u] a number), and its result the
    registers that are stored in turn to the first and to the second row.  [block16] and the
    loops around it, which the four functions share, load, store and move the pointers.
    The product that is stored in [x_y2] in the blocks of 4 columns, which nothing reads, is
    left out. *)

From S2P Require Import Prelude.
From S2P Require Import Mem.
From S2P Require Import Sse2.

Open Scope Z_scope.

(** ** Constants *)

Definition x_c0 : m128i := _mm_set1_epi16 0x2543.
Definition x_c1 : m128i := _mm_set1_epi16 0x4097.
Definition ic1 : Z := 0x4097.
Definition x_c4 : m128i := _mm_set1_epi16 0xc8b.
Definition ic4 : Z := 0xc8b.
Definition x_c5 : m128i := _mm_set1_epi16 0x1a06.
Definition ic5 : Z := 0x1a06.
Definition x_c8 : m128i := _mm_set1_epi16 0x3317.
Definition ic8 : Z := 0x3317.
Definition x_coff0 : m128i := _mm_set1_epi16 0xdd60.
Definition icoff0 : Z := i32 0xffffdd60.
Definition x_coff1 : m128i := _mm_set1_epi16 0x10f4.
Definition icoff1 : Z := 0x10f4.
Definition x_coff2 : m128i := _mm_set1_epi16 0xe420.
Definition icoff2 : Z := i32 0xffffe420.
Definition x_zero : m128i := _mm_setzero_si128.
Definition x_one : m128i := _mm_set1_epi16 0x0001.
Definition x_aa : m128i := _mm_set1_epi8 0xff.

(** ** Blocks *)

(** The macro, whose other arguments are scratch registers. *)
Definition PREMULTIPLY_ALPHA (cc aa : m128i) : m128i :=
  let x_temp := _mm_unpacklo_epi8 cc x_zero in
  let x_temp1 := _mm_unpacklo_epi8 aa x_zero in
  let x_temp1 := _mm_add_epi16 x_temp1 x_one in
  let tt := _mm_mullo_epi16 x_temp x_temp1 in
  let tt := _mm_srli_epi16 tt 8 in
  let x_temp := _mm_unpackhi_epi8 cc x_zero in
  let x_temp1 := _mm_unpackhi_epi8 aa x_zero in
  let x_temp1 := _mm_add_epi16 x_temp1 x_one in
  let x_temp1 := _mm_mullo_epi16 x_temp x_temp1 in
  let x_temp1 := _mm_srli_epi16 x_temp1 8 in
  _mm_packus_epi16 tt x_temp1.

Definition ARGB32_16 (r_u r_v r_y1 r_y2 r_a1 r_a2 : m128i) : list (m128i * m128i) :=
  let x_temp := r_u in
  let x_u := _mm_unpacklo_epi8 x_zero x_temp in
  let x_temp := r_v in
  let x_v := _mm_unpacklo_epi8 x_zero x_temp in
  let x_temp := r_y1 in
  let x_temp1 := r_y2 in
  let x_out := _mm_unpacklo_epi16 x_temp x_temp1 in
  let x_y1 := _mm_unpacklo_epi8 x_zero x_out in
  let x_y2 := _mm_unpackhi_epi8 x_zero x_out in
  let x_out := _mm_unpackhi_epi16 x_temp x_temp1 in
  let x_y3 := _mm_unpacklo_epi8 x_zero x_out in
  let x_y4 := _mm_unpackhi_epi8 x_zero x_out in
  let x_temp := r_a1 in
  let x_temp1 := r_a2 in
  let x_a1 := _mm_unpacklo_epi16 x_temp x_temp1 in
  let x_a2 := _mm_unpackhi_epi16 x_temp x_temp1 in
  let x_u0 := _mm_mulhi_epu16 x_u x_c1 in
  let x_b := _mm_add_epi16 x_u0 x_coff0 in
  let x_u1 := _mm_mulhi_epu16 x_u x_c4 in
  let x_v1 := _mm_mulhi_epu16 x_v x_c5 in
  let x_temp := _mm_add_epi16 x_u1 x_v1 in
  let x_g := _mm_sub_epi16 x_coff1 x_temp in
  let x_v2 := _mm_mulhi_epu16 x_v x_c8 in
  let x_r := _mm_add_epi16 x_v2 x_coff2 in
  let x_y1 := _mm_mulhi_epu16 x_y1 x_c0 in
  let x_y2 := _mm_mulhi_epu16 x_y2 x_c0 in
  let x_y3 := _mm_mulhi_epu16 x_y3 x_c0 in
  let x_y4 := _mm_mulhi_epu16 x_y4 x_c0 in
  let x_bak := _mm_unpacklo_epi16 x_b x_b in
  let x_temp := _mm_unpacklo_epi32 x_bak x_bak in
  let x_b1 := _mm_add_epi16 x_y1 x_temp in
  let x_temp := _mm_unpackhi_epi32 x_bak x_bak in
  let x_b2 := _mm_add_epi16 x_y2 x_temp in
  let x_bak := _mm_unpackhi_epi16 x_b x_b in
  let x_temp := _mm_unpacklo_epi32 x_bak x_bak in
  let x_b3 := _mm_add_epi16 x_y3 x_temp in
  let x_temp := _mm_unpackhi_epi32 x_bak x_bak in
  let x_b4 := _mm_add_epi16 x_y4 x_temp in
  let x_bak := _mm_unpacklo_epi16 x_g x_g in
  let x_temp := _mm_unpacklo_epi32 x_bak x_bak in
  let x_g1 := _mm_add_epi16 x_y1 x_temp in
  let x_temp := _mm_unpackhi_epi32 x_bak x_bak in
  let x_g2 := _mm_add_epi16 x_y2 x_temp in
  let x_bak := _mm_unpackhi_epi16 x_g x_g in
  let x_temp := _mm_unpacklo_epi32 x_bak x_bak in
  let x_g3 := _mm_add_epi16 x_y3 x_temp in
  let x_temp := _mm_unpackhi_epi32 x_bak x_bak in
  let x_g4 := _mm_add_epi16 x_y4 x_temp in
  let x_bak := _mm_unpacklo_epi16 x_r x_r in
  let x_temp := _mm_unpacklo_epi32 x_bak x_bak in
  let x_r1 := _mm_add_epi16 x_y1 x_temp in
  let x_temp := _mm_unpackhi_epi32 x_bak x_bak in
  let x_r2 := _mm_add_epi16 x_y2 x_temp in
  let x_bak := _mm_unpackhi_epi16 x_r x_r in
  let x_temp := _mm_unpacklo_epi32 x_bak x_bak in
  let x_r3 := _mm_add_epi16 x_y3 x_temp in
  let x_temp := _mm_unpackhi_epi32 x_bak x_bak in
  let x_r4 := _mm_add_epi16 x_y4 x_temp in
  let x_b1 := _mm_srai_epi16 x_b1 5 in
  let x_b2 := _mm_srai_epi16 x_b2 5 in
  let x_b3 := _mm_srai_epi16 x_b3 5 in
  let x_b4 := _mm_srai_epi16 x_b4 5 in
  let x_g1 := _mm_srai_epi16 x_g1 5 in
  let x_g2 := _mm_srai_epi16 x_g2 5 in
  let x_g3 := _mm_srai_epi16 x_g3 5 in
  let x_g4 := _mm_srai_epi16 x_g4 5 in
  let x_r1 := _mm_srai_epi16 x_r1 5 in
  let x_r2 := _mm_srai_epi16 x_r2 5 in
  let x_r3 := _mm_srai_epi16 x_r3 5 in
  let x_r4 := _mm_srai_epi16 x_r4 5 in
  let x_b := _mm_packus_epi16 x_b1 x_b2 in
  let x_b1 := _mm_packus_epi16 x_b3 x_b4 in
  let x_r := _mm_packus_epi16 x_r1 x_r2 in
  let x_r1 := _mm_packus_epi16 x_r3 x_r4 in
  let x_g := _mm_packus_epi16 x_g1 x_g2 in
  let x_g1 := _mm_packus_epi16 x_g3 x_g4 in
  let x_arl := _mm_unpacklo_epi8 x_a1 x_r in
  let x_arh := _mm_unpackhi_epi8 x_a1 x_r in
  let x_gbl := _mm_unpacklo_epi8 x_g x_b in
  let x_gbh := _mm_unpackhi_epi8 x_g x_b in
  let x_argbl := _mm_unpacklo_epi16 x_arl x_gbl in
  let x_argbh := _mm_unpackhi_epi16 x_arl x_gbl in
  let x_temp := _mm_unpacklo_epi64 x_argbl x_argbh in
  let x_temp1 := _mm_unpackhi_epi64 x_argbl x_argbh in
  let out1 := x_temp in
  let out2 := x_temp1 in
  let x_argbl := _mm_unpacklo_epi16 x_arh x_gbh in
  let x_argbh := _mm_unpackhi_epi16 x_arh x_gbh in
  let x_temp := _mm_unpacklo_epi64 x_argbl x_argbh in
  let x_temp1 := _mm_unpackhi_epi64 x_argbl x_argbh in
  let out3 := x_temp in
  let out4 := x_temp1 in
  let x_arl := _mm_unpacklo_epi8 x_a2 x_r1 in
  let x_arh := _mm_unpackhi_epi8 x_a2 x_r1 in
  let x_gbl := _mm_unpacklo_epi8 x_g1 x_b1 in
  let x_gbh := _mm_unpackhi_epi8 x_g1 x_b1 in
  let x_argbl := _mm_unpacklo_epi16 x_arl x_gbl in
  let x_argbh := _mm_unpackhi_epi16 x_arl x_gbl in
  let x_temp := _mm_unpacklo_epi64 x_argbl x_argbh in
  let x_temp1 := _mm_unpackhi_epi64 x_argbl x_argbh in
  let out5 := x_temp in
  let out6 := x_temp1 in
  let x_argbl := _mm_unpacklo_epi16 x_arh x_gbh in
  let x_argbh := _mm_unpackhi_epi16 x_arh x_gbh in
  let x_temp := _mm_unpacklo_epi64 x_argbl x_argbh in
  let x_temp1 := _mm_unpackhi_epi64 x_argbl x_argbh in
  let out7 := x_temp in
  let out8 := x_temp1 in
  [(out1, out2); (out3, out4); (out5, out6); (out7, out8)].

Definition ARGB32_8 (i_u i_v : Z) (r_y1 r_y2 r_a1 r_a2 : m128i) : list (m128i * m128i) :=
  let iTemp := i_u in
  let x_temp := _mm_cvtsi32_si128 iTemp in
  let x_u := _mm_unpacklo_epi8 x_zero x_temp in
  let iTemp := i_v in
  let x_temp := _mm_cvtsi32_si128 iTemp in
  let x_v := _mm_unpacklo_epi8 x_zero x_temp in
  let x_temp := r_y1 in
  let x_temp1 := r_y2 in
  let x_out := _mm_unpacklo_epi16 x_temp x_temp1 in
  let x_y1 := _mm_unpacklo_epi8 x_zero x_out in
  let x_y2 := _mm_unpackhi_epi8 x_zero x_out in
  let x_temp := r_a1 in
  let x_temp1 := r_a2 in
  let x_a1 := _mm_unpacklo_epi16 x_temp x_temp1 in
  let x_u0 := _mm_mulhi_epu16 x_u x_c1 in
  let x_b := _mm_add_epi16 x_u0 x_coff0 in
  let x_u1 := _mm_mulhi_epu16 x_u x_c4 in
  let x_v1 := _mm_mulhi_epu16 x_v x_c5 in
  let x_temp := _mm_add_epi16 x_u1 x_v1 in
  let x_g := _mm_sub_epi16 x_coff1 x_temp in
  let x_v2 := _mm_mulhi_epu16 x_v x_c8 in
  let x_r := _mm_add_epi16 x_v2 x_coff2 in
  let x_y1 := _mm_mulhi_epu16 x_y1 x_c0 in
  let x_y2 := _mm_mulhi_epu16 x_y2 x_c0 in
  let x_bak := _mm_unpacklo_epi16 x_b x_b in
  let x_temp := _mm_unpacklo_epi32 x_bak x_bak in
  let x_b1 := _mm_add_epi16 x_y1 x_temp in
  let x_temp := _mm_unpackhi_epi32 x_bak x_bak in
  let x_b2 := _mm_add_epi16 x_y2 x_temp in
  let x_bak := _mm_unpacklo_epi16 x_g x_g in
  let x_temp := _mm_unpacklo_epi32 x_bak x_bak in
  let x_g1 := _mm_add_epi16 x_y1 x_temp in
  let x_temp := _mm_unpackhi_epi32 x_bak x_bak in
  let x_g2 := _mm_add_epi16 x_y2 x_temp in
  let x_bak := _mm_unpacklo_epi16 x_r x_r in
  let x_temp := _mm_unpacklo_epi32 x_bak x_bak in
  let x_r1 := _mm_add_epi16 x_y1 x_temp in
  let x_temp := _mm_unpackhi_epi32 x_bak x_bak in
  let x_r2 := _mm_add_epi16 x_y2 x_temp in
  let x_b1 := _mm_srai_epi16 x_b1 5 in
  let x_b2 := _mm_srai_epi16 x_b2 5 in
  let x_g1 := _mm_srai_epi16 x_g1 5 in
  let x_g2 := _mm_srai_epi16 x_g2 5 in
  let x_r1 := _mm_srai_epi16 x_r1 5 in
  let x_r2 := _mm_srai_epi16 x_r2 5 in
  let x_b := _mm_packus_epi16 x_b1 x_b2 in
  let x_r := _mm_packus_epi16 x_r1 x_r2 in
  let x_g := _mm_packus_epi16 x_g1 x_g2 in
  let x_arl := _mm_unpacklo_epi8 x_a1 x_r in
  let x_arh := _mm_unpackhi_epi8 x_a1 x_r in
  let x_gbl := _mm_unpacklo_epi8 x_g x_b in
  let x_gbh := _mm_unpackhi_epi8 x_g x_b in
  let x_argbl := _mm_unpacklo_epi16 x_arl x_gbl in
  let x_argbh := _mm_unpackhi_epi16 x_arl x_gbl in
  let x_temp := _mm_unpacklo_epi64 x_argbl x_argbh in
  let x_temp1 := _mm_unpackhi_epi64 x_argbl x_argbh in
  let out1 := x_temp in
  let out2 := x_temp1 in
  let x_argbl := _mm_unpacklo_epi16 x_arh x_gbh in
  let x_argbh := _mm_unpackhi_epi16 x_arh x_gbh in
  let x_temp := _mm_unpacklo_epi64 x_argbl x_argbh in
  let x_temp1 := _mm_unpackhi_epi64 x_argbl x_argbh in
  let out3 := x_temp in
  let out4 := x_temp1 in
  [(out1, out2); (out3, out4)].

Definition ARGB32_4 (i_u i_v i_y1 i_y2 i_a1 i_a2 : Z) : list (m128i * m128i) :=
  let iTemp := i_u in
  let x_temp := _mm_cvtsi32_si128 iTemp in
  let x_u := _mm_unpacklo_epi8 x_zero x_temp in
  let iTemp := i_v in
  let x_temp := _mm_cvtsi32_si128 iTemp in
  let x_v := _mm_unpacklo_epi8 x_zero x_temp in
  let iTemp := i_y1 in
  let x_temp := _mm_cvtsi32_si128 iTemp in
  let iTemp := i_y2 in
  let x_temp1 := _mm_cvtsi32_si128 iTemp in
  let x_out := _mm_unpacklo_epi16 x_temp x_temp1 in
  let x_y1 := _mm_unpacklo_epi8 x_zero x_out in
  let iTemp := i_a1 in
  let x_temp := _mm_cvtsi32_si128 iTemp in
  let iTemp := i_a2 in
  let x_temp1 := _mm_cvtsi32_si128 iTemp in
  let x_a1 := _mm_unpacklo_epi16 x_temp x_temp1 in
  let x_u0 := _mm_mulhi_epu16 x_u x_c1 in
  let x_b := _mm_add_epi16 x_u0 x_coff0 in
  let x_u1 := _mm_mulhi_epu16 x_u x_c4 in
  let x_v1 := _mm_mulhi_epu16 x_v x_c5 in
  let x_temp := _mm_add_epi16 x_u1 x_v1 in
  let x_g := _mm_sub_epi16 x_coff1 x_temp in
  let x_v2 := _mm_mulhi_epu16 x_v x_c8 in
  let x_r := _mm_add_epi16 x_v2 x_coff2 in
  let x_y1 := _mm_mulhi_epu16 x_y1 x_c0 in
  let x_bak := _mm_unpacklo_epi16 x_b x_b in
  let x_temp := _mm_unpacklo_epi32 x_bak x_bak in
  let x_b1 := _mm_add_epi16 x_y1 x_temp in
  let x_bak := _mm_unpacklo_epi16 x_g x_g in
  let x_temp := _mm_unpacklo_epi32 x_bak x_bak in
  let x_g1 := _mm_add_epi16 x_y1 x_temp in
  let x_bak := _mm_unpacklo_epi16 x_r x_r in
  let x_temp := _mm_unpacklo_epi32 x_bak x_bak in
  let x_r1 := _mm_add_epi16 x_y1 x_temp in
  let x_b1 := _mm_srai_epi16 x_b1 5 in
  let x_g1 := _mm_srai_epi16 x_g1 5 in
  let x_r1 := _mm_srai_epi16 x_r1 5 in
  let x_b := _mm_packus_epi16 x_b1 x_zero in
  let x_r := _mm_packus_epi16 x_r1 x_zero in
  let x_g := _mm_packus_epi16 x_g1 x_zero in
  let x_arl := _mm_unpacklo_epi8 x_a1 x_r in
  let x_gbl := _mm_unpacklo_epi8 x_g x_b in
  let x_argbl := _mm_unpacklo_epi16 x_arl x_gbl in
  let x_argbh := _mm_unpackhi_epi16 x_arl x_gbl in
  let x_temp := _mm_unpacklo_epi64 x_argbl x_argbh in
  let x_temp1 := _mm_unpackhi_epi64 x_argbl x_argbh in
  let out1 := x_temp in
  let out2 := x_temp1 in
  [(out1, out2)].

Definition ARGB32_2 (i_u i_v i_y1 i_y2 i_a1 i_a2 : Z) : list (m128i * m128i) :=
  let iu := i_u in
  let iv := i_v in
  let iTemp := i32 ((i_y1 .& 65535) .| (i_y2 << 16)) in
  let x_temp := _mm_cvtsi32_si128 iTemp in
  let x_y1 := _mm_unpacklo_epi8 x_zero x_temp in
  let iTemp := i32 ((i_a1 .& 65535) .| (i_a2 << 16)) in
  let x_a1 := _mm_cvtsi32_si128 iTemp in
  let iu0 := (iu * ic1) >> 8 in
  let ib := icoff0 + iu0 in
  let iu1 := (iu * ic4) >> 8 in
  let iv1 := (iv * ic5) >> 8 in
  let iTemp := iu1 + iv1 in
  let ig := icoff1 - iTemp in
  let iv2 := (iv * ic8) >> 8 in
  let ir := iv2 + icoff2 in
  let x_y1 := _mm_mulhi_epu16 x_y1 x_c0 in
  let x_temp := _mm_set1_epi16 ib in
  let x_b1 := _mm_add_epi16 x_y1 x_temp in
  let x_temp := _mm_set1_epi16 ig in
  let x_g1 := _mm_add_epi16 x_y1 x_temp in
  let x_temp := _mm_set1_epi16 ir in
  let x_r1 := _mm_add_epi16 x_y1 x_temp in
  let x_b1 := _mm_srai_epi16 x_b1 5 in
  let x_g1 := _mm_srai_epi16 x_g1 5 in
  let x_r1 := _mm_srai_epi16 x_r1 5 in
  let x_b := _mm_packus_epi16 x_b1 x_zero in
  let x_r := _mm_packus_epi16 x_r1 x_zero in
  let x_g := _mm_packus_epi16 x_g1 x_zero in
  let x_arl := _mm_unpacklo_epi8 x_a1 x_r in
  let x_gbl := _mm_unpacklo_epi8 x_g x_b in
  let x_argbl := _mm_unpacklo_epi16 x_arl x_gbl in
  let out1 := x_argbl in
  let out2 := _mm_srli_si128 x_argbl 8 in
  [(out1, out2)].

Definition ARGB32_no_alpha_16 (r_u r_v r_y1 r_y2 : m128i) : list (m128i * m128i) :=
  let x_temp := r_u in
  let x_u := _mm_unpacklo_epi8 x_zero x_temp in
  let x_temp := r_v in
  let x_v := _mm_unpacklo_epi8 x_zero x_temp in
  let x_temp := r_y1 in
  let x_temp1 := r_y2 in
  let x_out := _mm_unpacklo_epi16 x_temp x_temp1 in
  let x_y1 := _mm_unpacklo_epi8 x_zero x_out in
  let x_y2 := _mm_unpackhi_epi8 x_zero x_out in
  let x_out := _mm_unpackhi_epi16 x_temp x_temp1 in
  let x_y3 := _mm_unpacklo_epi8 x_zero x_out in
  let x_y4 := _mm_unpackhi_epi8 x_zero x_out in
  let x_u0 := _mm_mulhi_epu16 x_u x_c1 in
  let x_b := _mm_add_epi16 x_u0 x_coff0 in
  let x_u1 := _mm_mulhi_epu16 x_u x_c4 in
  let x_v1 := _mm_mulhi_epu16 x_v x_c5 in
  let x_temp := _mm_add_epi16 x_u1 x_v1 in
  let x_g := _mm_sub_epi16 x_coff1 x_temp in
  let x_v2 := _mm_mulhi_epu16 x_v x_c8 in
  let x_r := _mm_add_epi16 x_v2 x_coff2 in
  let x_y1 := _mm_mulhi_epu16 x_y1 x_c0 in
  let x_y2 := _mm_mulhi_epu16 x_y2 x_c0 in
  let x_y3 := _mm_mulhi_epu16 x_y3 x_c0 in
  let x_y4 := _mm_mulhi_epu16 x_y4 x_c0 in
  let x_bak := _mm_unpacklo_epi16 x_b x_b in
  let x_temp := _mm_unpacklo_epi32 x_bak x_bak in
  let x_b1 := _mm_add_epi16 x_y1 x_temp in
  let x_temp := _mm_unpackhi_epi32 x_bak x_bak in
  let x_b2 := _mm_add_epi16 x_y2 x_temp in
  let x_bak := _mm_unpackhi_epi16 x_b x_b in
  let x_temp := _mm_unpacklo_epi32 x_bak x_bak in
  let x_b3 := _mm_add_epi16 x_y3 x_temp in
  let x_temp := _mm_unpackhi_epi32 x_bak x_bak in
  let x_b4 := _mm_add_epi16 x_y4 x_temp in
  let x_bak := _mm_unpacklo_epi16 x_g x_g in
  let x_temp := _mm_unpacklo_epi32 x_bak x_bak in
  let x_g1 := _mm_add_epi16 x_y1 x_temp in
  let x_temp := _mm_unpackhi_epi32 x_bak x_bak in
  let x_g2 := _mm_add_epi16 x_y2 x_temp in
  let x_bak := _mm_unpackhi_epi16 x_g x_g in
  let x_temp := _mm_unpacklo_epi32 x_bak x_bak in
  let x_g3 := _mm_add_epi16 x_y3 x_temp in
  let x_temp := _mm_unpackhi_epi32 x_bak x_bak in
  let x_g4 := _mm_add_epi16 x_y4 x_temp in
  let x_bak := _mm_unpacklo_epi16 x_r x_r in
  let x_temp := _mm_unpacklo_epi32 x_bak x_bak in
  let x_r1 := _mm_add_epi16 x_y1 x_temp in
  let x_temp := _mm_unpackhi_epi32 x_bak x_bak in
  let x_r2 := _mm_add_epi16 x_y2 x_temp in
  let x_bak := _mm_unpackhi_epi16 x_r x_r in
  let x_temp := _mm_unpacklo_epi32 x_bak x_bak in
  let x_r3 := _mm_add_epi16 x_y3 x_temp in
  let x_temp := _mm_unpackhi_epi32 x_bak x_bak in
  let x_r4 := _mm_add_epi16 x_y4 x_temp in
  let x_b1 := _mm_srai_epi16 x_b1 5 in
  let x_b2 := _mm_srai_epi16 x_b2 5 in
  let x_b3 := _mm_srai_epi16 x_b3 5 in
  let x_b4 := _mm_srai_epi16 x_b4 5 in
  let x_g1 := _mm_srai_epi16 x_g1 5 in
  let x_g2 := _mm_srai_epi16 x_g2 5 in
  let x_g3 := _mm_srai_epi16 x_g3 5 in
  let x_g4 := _mm_srai_epi16 x_g4 5 in
  let x_r1 := _mm_srai_epi16 x_r1 5 in
  let x_r2 := _mm_srai_epi16 x_r2 5 in
  let x_r3 := _mm_srai_epi16 x_r3 5 in
  let x_r4 := _mm_srai_epi16 x_r4 5 in
  let x_b := _mm_packus_epi16 x_b1 x_b2 in
  let x_b1 := _mm_packus_epi16 x_b3 x_b4 in
  let x_r := _mm_packus_epi16 x_r1 x_r2 in
  let x_r1 := _mm_packus_epi16 x_r3 x_r4 in
  let x_g := _mm_packus_epi16 x_g1 x_g2 in
  let x_g1 := _mm_packus_epi16 x_g3 x_g4 in
  let x_arl := _mm_unpacklo_epi8 x_aa x_r in
  let x_arh := _mm_unpackhi_epi8 x_aa x_r in
  let x_gbl := _mm_unpacklo_epi8 x_g x_b in
  let x_gbh := _mm_unpackhi_epi8 x_g x_b in
  let x_argbl := _mm_unpacklo_epi16 x_arl x_gbl in
  let x_argbh := _mm_unpackhi_epi16 x_arl x_gbl in
  let x_temp := _mm_unpacklo_epi64 x_argbl x_argbh in
  let x_temp1 := _mm_unpackhi_epi64 x_argbl x_argbh in
  let out1 := x_temp in
  let out2 := x_temp1 in
  let x_argbl := _mm_unpacklo_epi16 x_arh x_gbh in
  let x_argbh := _mm_unpackhi_epi16 x_arh x_gbh in
  let x_temp := _mm_unpacklo_epi64 x_argbl x_argbh in
  let x_temp1 := _mm_unpackhi_epi64 x_argbl x_argbh in
  let out3 := x_temp in
  let out4 := x_temp1 in
  let x_arl := _mm_unpacklo_epi8 x_aa x_r1 in
  let x_arh := _mm_unpackhi_epi8 x_aa x_r1 in
  let x_gbl := _mm_unpacklo_epi8 x_g1 x_b1 in
  let x_gbh := _mm_unpackhi_epi8 x_g1 x_b1 in
  let x_argbl := _mm_unpacklo_epi16 x_arl x_gbl in
  let x_argbh := _mm_unpackhi_epi16 x_arl x_gbl in
  let x_temp := _mm_unpacklo_epi64 x_argbl x_argbh in
  let x_temp1 := _mm_unpackhi_epi64 x_argbl x_argbh in
  let out5 := x_temp in
  let out6 := x_temp1 in
  let x_argbl := _mm_unpacklo_epi16 x_arh x_gbh in
  let x_argbh := _mm_unpackhi_epi16 x_arh x_gbh in
  let x_temp := _mm_unpacklo_epi64 x_argbl x_argbh in
  let x_temp1 := _mm_unpackhi_epi64 x_argbl x_argbh in
  let out7 := x_temp in
  let out8 := x_temp1 in
  [(out1, out2); (out3, out4); (out5, out6); (out7, out8)].

Definition ARGB32_no_alpha_8 (i_u i_v : Z) (r_y1 r_y2 : m128i) : list (m128i * m128i) :=
  let iTemp := i_u in
  let x_temp := _mm_cvtsi32_si128 iTemp in
  let x_u := _mm_unpacklo_epi8 x_zero x_temp in
  let iTemp := i_v in
  let x_temp := _mm_cvtsi32_si128 iTemp in
  let x_v := _mm_unpacklo_epi8 x_zero x_temp in
  let x_temp := r_y1 in
  let x_temp1 := r_y2 in
  let x_out := _mm_unpacklo_epi16 x_temp x_temp1 in
  let x_y1 := _mm_unpacklo_epi8 x_zero x_out in
  let x_y2 := _mm_unpackhi_epi8 x_zero x_out in
  let x_u0 := _mm_mulhi_epu16 x_u x_c1 in
  let x_b := _mm_add_epi16 x_u0 x_coff0 in
  let x_u1 := _mm_mulhi_epu16 x_u x_c4 in
  let x_v1 := _mm_mulhi_epu16 x_v x_c5 in
  let x_temp := _mm_add_epi16 x_u1 x_v1 in
  let x_g := _mm_sub_epi16 x_coff1 x_temp in
  let x_v2 := _mm_mulhi_epu16 x_v x_c8 in
  let x_r := _mm_add_epi16 x_v2 x_coff2 in
  let x_y1 := _mm_mulhi_epu16 x_y1 x_c0 in
  let x_y2 := _mm_mulhi_epu16 x_y2 x_c0 in
  let x_bak := _mm_unpacklo_epi16 x_b x_b in
  let x_temp := _mm_unpacklo_epi32 x_bak x_bak in
  let x_b1 := _mm_add_epi16 x_y1 x_temp in
  let x_temp := _mm_unpackhi_epi32 x_bak x_bak in
  let x_b2 := _mm_add_epi16 x_y2 x_temp in
  let x_bak := _mm_unpacklo_epi16 x_g x_g in
  let x_temp := _mm_unpacklo_epi32 x_bak x_bak in
  let x_g1 := _mm_add_epi16 x_y1 x_temp in
  let x_temp := _mm_unpackhi_epi32 x_bak x_bak in
  let x_g2 := _mm_add_epi16 x_y2 x_temp in
  let x_bak := _mm_unpacklo_epi16 x_r x_r in
  let x_temp := _mm_unpacklo_epi32 x_bak x_bak in
  let x_r1 := _mm_add_epi16 x_y1 x_temp in
  let x_temp := _mm_unpackhi_epi32 x_bak x_bak in
  let x_r2 := _mm_add_epi16 x_y2 x_temp in
  let x_b1 := _mm_srai_epi16 x_b1 5 in
  let x_b2 := _mm_srai_epi16 x_b2 5 in
  let x_g1 := _mm_srai_epi16 x_g1 5 in
  let x_g2 := _mm_srai_epi16 x_g2 5 in
  let x_r1 := _mm_srai_epi16 x_r1 5 in
  let x_r2 := _mm_srai_epi16 x_r2 5 in
  let x_b := _mm_packus_epi16 x_b1 x_b2 in
  let x_r := _mm_packus_epi16 x_r1 x_r2 in
  let x_g := _mm_packus_epi16 x_g1 x_g2 in
  let x_arl := _mm_unpacklo_epi8 x_aa x_r in
  let x_arh := _mm_unpackhi_epi8 x_aa x_r in
  let x_gbl := _mm_unpacklo_epi8 x_g x_b in
  let x_gbh := _mm_unpackhi_epi8 x_g x_b in
  let x_argbl := _mm_unpacklo_epi16 x_arl x_gbl in
  let x_argbh := _mm_unpackhi_epi16 x_arl x_gbl in
  let x_temp := _mm_unpacklo_epi64 x_argbl x_argbh in
  let x_temp1 := _mm_unpackhi_epi64 x_argbl x_argbh in
  let out1 := x_temp in
  let out2 := x_temp1 in
  let x_argbl := _mm_unpacklo_epi16 x_arh x_gbh in
  let x_argbh := _mm_unpackhi_epi16 x_arh x_gbh in
  let x_temp := _mm_unpacklo_epi64 x_argbl x_argbh in
  let x_temp1 := _mm_unpackhi_epi64 x_argbl x_argbh in
  let out3 := x_temp in
  let out4 := x_temp1 in
  [(out1, out2); (out3, out4)].

Definition ARGB32_no_alpha_4 (i_u i_v i_y1 i_y2 : Z) : list (m128i * m128i) :=
  let iTemp := i_u in
  let x_temp := _mm_cvtsi32_si128 iTemp in
  let x_u := _mm_unpacklo_epi8 x_zero x_temp in
  let iTemp := i_v in
  let x_temp := _mm_cvtsi32_si128 iTemp in
  let x_v := _mm_unpacklo_epi8 x_zero x_temp in
  let iTemp := i_y1 in
  let x_temp := _mm_cvtsi32_si128 iTemp in
  let iTemp := i_y2 in
  let x_temp1 := _mm_cvtsi32_si128 iTemp in
  let x_out := _mm_unpacklo_epi16 x_temp x_temp1 in
  let x_y1 := _mm_unpacklo_epi8 x_zero x_out in
  let x_u0 := _mm_mulhi_epu16 x_u x_c1 in
  let x_b := _mm_add_epi16 x_u0 x_coff0 in
  let x_u1 := _mm_mulhi_epu16 x_u x_c4 in
  let x_v1 := _mm_mulhi_epu16 x_v x_c5 in
  let x_temp := _mm_add_epi16 x_u1 x_v1 in
  let x_g := _mm_sub_epi16 x_coff1 x_temp in
  let x_v2 := _mm_mulhi_epu16 x_v x_c8 in
  let x_r := _mm_add_epi16 x_v2 x_coff2 in
  let x_y1 := _mm_mulhi_epu16 x_y1 x_c0 in
  let x_bak := _mm_unpacklo_epi16 x_b x_b in
  let x_temp := _mm_unpacklo_epi32 x_bak x_bak in
  let x_b1 := _mm_add_epi16 x_y1 x_temp in
  let x_bak := _mm_unpacklo_epi16 x_g x_g in
  let x_temp := _mm_unpacklo_epi32 x_bak x_bak in
  let x_g1 := _mm_add_epi16 x_y1 x_temp in
  let x_bak := _mm_unpacklo_epi16 x_r x_r in
  let x_temp := _mm_unpacklo_epi32 x_bak x_bak in
  let x_r1 := _mm_add_epi16 x_y1 x_temp in
  let x_b1 := _mm_srai_epi16 x_b1 5 in
  let x_g1 := _mm_srai_epi16 x_g1 5 in
  let x_r1 := _mm_srai_epi16 x_r1 5 in
  let x_b := _mm_packus_epi16 x_b1 x_zero in
  let x_r := _mm_packus_epi16 x_r1 x_zero in
  let x_g := _mm_packus_epi16 x_g1 x_zero in
  let x_arl := _mm_unpacklo_epi8 x_aa x_r in
  let x_gbl := _mm_unpacklo_epi8 x_g x_b in
  let x_argbl := _mm_unpacklo_epi16 x_arl x_gbl in
  let x_argbh := _mm_unpackhi_epi16 x_arl x_gbl in
  let x_temp := _mm_unpacklo_epi64 x_argbl x_argbh in
  let x_temp1 := _mm_unpackhi_epi64 x_argbl x_argbh in
  let out1 := x_temp in
  let out2 := x_temp1 in
  [(out1, out2)].

Definition ARGB32_no_alpha_2 (i_u i_v i_y1 i_y2 : Z) : list (m128i * m128i) :=
  let iu := i_u in
  let iv := i_v in
  let iTemp := i32 ((i_y1 .& 65535) .| (i_y2 << 16)) in
  let x_temp := _mm_cvtsi32_si128 iTemp in
  let x_y1 := _mm_unpacklo_epi8 x_zero x_temp in
  let iu0 := (iu * ic1) >> 8 in
  let ib := icoff0 + iu0 in
  let iu1 := (iu * ic4) >> 8 in
  let iv1 := (iv * ic5) >> 8 in
  let iTemp := iu1 + iv1 in
  let ig := icoff1 - iTemp in
  let iv2 := (iv * ic8) >> 8 in
  let ir := iv2 + icoff2 in
  let x_y1 := _mm_mulhi_epu16 x_y1 x_c0 in
  let x_temp := _mm_set1_epi16 ib in
  let x_b1 := _mm_add_epi16 x_y1 x_temp in
  let x_temp := _mm_set1_epi16 ig in
  let x_g1 := _mm_add_epi16 x_y1 x_temp in
  let x_temp := _mm_set1_epi16 ir in
  let x_r1 := _mm_add_epi16 x_y1 x_temp in
  let x_b1 := _mm_srai_epi16 x_b1 5 in
  let x_g1 := _mm_srai_epi16 x_g1 5 in
  let x_r1 := _mm_srai_epi16 x_r1 5 in
  let x_b := _mm_packus_epi16 x_b1 x_zero in
  let x_r := _mm_packus_epi16 x_r1 x_zero in
  let x_g := _mm_packus_epi16 x_g1 x_zero in
  let x_arl := _mm_unpacklo_epi8 x_aa x_r in
  let x_gbl := _mm_unpacklo_epi8 x_g x_b in
  let x_argbl := _mm_unpacklo_epi16 x_arl x_gbl in
  let out1 := x_argbl in
  let out2 := _mm_srli_si128 x_argbl 8 in
  [(out1, out2)].

Definition BGRA32_16 (r_u r_v r_y1 r_y2 r_a1 r_a2 : m128i) : list (m128i * m128i) :=
  let x_temp := r_u in
  let x_u := _mm_unpacklo_epi8 x_zero x_temp in
  let x_temp := r_v in
  let x_v := _mm_unpacklo_epi8 x_zero x_temp in
  let x_temp := r_y1 in
  let x_temp1 := r_y2 in
  let x_out := _mm_unpacklo_epi16 x_temp x_temp1 in
  let x_y1 := _mm_unpacklo_epi8 x_zero x_out in
  let x_y2 := _mm_unpackhi_epi8 x_zero x_out in
  let x_out := _mm_unpackhi_epi16 x_temp x_temp1 in
  let x_y3 := _mm_unpacklo_epi8 x_zero x_out in
  let x_y4 := _mm_unpackhi_epi8 x_zero x_out in
  let x_temp := r_a1 in
  let x_temp1 := r_a2 in
  let x_a1 := _mm_unpacklo_epi16 x_temp x_temp1 in
  let x_a2 := _mm_unpackhi_epi16 x_temp x_temp1 in
  let x_u0 := _mm_mulhi_epu16 x_u x_c1 in
  let x_b := _mm_add_epi16 x_u0 x_coff0 in
  let x_u1 := _mm_mulhi_epu16 x_u x_c4 in
  let x_v1 := _mm_mulhi_epu16 x_v x_c5 in
  let x_temp := _mm_add_epi16 x_u1 x_v1 in
  let x_g := _mm_sub_epi16 x_coff1 x_temp in
  let x_v2 := _mm_mulhi_epu16 x_v x_c8 in
  let x_r := _mm_add_epi16 x_v2 x_coff2 in
  let x_y1 := _mm_mulhi_epu16 x_y1 x_c0 in
  let x_y2 := _mm_mulhi_epu16 x_y2 x_c0 in
  let x_y3 := _mm_mulhi_epu16 x_y3 x_c0 in
  let x_y4 := _mm_mulhi_epu16 x_y4 x_c0 in
  let x_bak := _mm_unpacklo_epi16 x_b x_b in
  let x_temp := _mm_unpacklo_epi32 x_bak x_bak in
  let x_b1 := _mm_add_epi16 x_y1 x_temp in
  let x_temp := _mm_unpackhi_epi32 x_bak x_bak in
  let x_b2 := _mm_add_epi16 x_y2 x_temp in
  let x_bak := _mm_unpackhi_epi16 x_b x_b in
  let x_temp := _mm_unpacklo_epi32 x_bak x_bak in
  let x_b3 := _mm_add_epi16 x_y3 x_temp in
  let x_temp := _mm_unpackhi_epi32 x_bak x_bak in
  let x_b4 := _mm_add_epi16 x_y4 x_temp in
  let x_bak := _mm_unpacklo_epi16 x_g x_g in
  let x_temp := _mm_unpacklo_epi32 x_bak x_bak in
  let x_g1 := _mm_add_epi16 x_y1 x_temp in
  let x_temp := _mm_unpackhi_epi32 x_bak x_bak in
  let x_g2 := _mm_add_epi16 x_y2 x_temp in
  let x_bak := _mm_unpackhi_epi16 x_g x_g in
  let x_temp := _mm_unpacklo_epi32 x_bak x_bak in
  let x_g3 := _mm_add_epi16 x_y3 x_temp in
  let x_temp := _mm_unpackhi_epi32 x_bak x_bak in
  let x_g4 := _mm_add_epi16 x_y4 x_temp in
  let x_bak := _mm_unpacklo_epi16 x_r x_r in
  let x_temp := _mm_unpacklo_epi32 x_bak x_bak in
  let x_r1 := _mm_add_epi16 x_y1 x_temp in
  let x_temp := _mm_unpackhi_epi32 x_bak x_bak in
  let x_r2 := _mm_add_epi16 x_y2 x_temp in
  let x_bak := _mm_unpackhi_epi16 x_r x_r in
  let x_temp := _mm_unpacklo_epi32 x_bak x_bak in
  let x_r3 := _mm_add_epi16 x_y3 x_temp in
  let x_temp := _mm_unpackhi_epi32 x_bak x_bak in
  let x_r4 := _mm_add_epi16 x_y4 x_temp in
  let x_b1 := _mm_srai_epi16 x_b1 5 in
  let x_b2 := _mm_srai_epi16 x_b2 5 in
  let x_b3 := _mm_srai_epi16 x_b3 5 in
  let x_b4 := _mm_srai_epi16 x_b4 5 in
  let x_g1 := _mm_srai_epi16 x_g1 5 in
  let x_g2 := _mm_srai_epi16 x_g2 5 in
  let x_g3 := _mm_srai_epi16 x_g3 5 in
  let x_g4 := _mm_srai_epi16 x_g4 5 in
  let x_r1 := _mm_srai_epi16 x_r1 5 in
  let x_r2 := _mm_srai_epi16 x_r2 5 in
  let x_r3 := _mm_srai_epi16 x_r3 5 in
  let x_r4 := _mm_srai_epi16 x_r4 5 in
  let x_b := _mm_packus_epi16 x_b1 x_b2 in
  let x_b := PREMULTIPLY_ALPHA x_b x_a1 in
  let x_b1 := _mm_packus_epi16 x_b3 x_b4 in
  let x_b1 := PREMULTIPLY_ALPHA x_b1 x_a2 in
  let x_r := _mm_packus_epi16 x_r1 x_r2 in
  let x_r := PREMULTIPLY_ALPHA x_r x_a1 in
  let x_r1 := _mm_packus_epi16 x_r3 x_r4 in
  let x_r1 := PREMULTIPLY_ALPHA x_r1 x_a2 in
  let x_g := _mm_packus_epi16 x_g1 x_g2 in
  let x_g := PREMULTIPLY_ALPHA x_g x_a1 in
  let x_g1 := _mm_packus_epi16 x_g3 x_g4 in
  let x_g1 := PREMULTIPLY_ALPHA x_g1 x_a2 in
  let x_bgl := _mm_unpacklo_epi8 x_b x_g in
  let x_bgh := _mm_unpackhi_epi8 x_b x_g in
  let x_ral := _mm_unpacklo_epi8 x_r x_a1 in
  let x_rah := _mm_unpackhi_epi8 x_r x_a1 in
  let x_bgral := _mm_unpacklo_epi16 x_bgl x_ral in
  let x_bgrah := _mm_unpackhi_epi16 x_bgl x_ral in
  let x_temp := _mm_unpacklo_epi64 x_bgral x_bgrah in
  let x_temp1 := _mm_unpackhi_epi64 x_bgral x_bgrah in
  let out1 := x_temp in
  let out2 := x_temp1 in
  let x_bgral := _mm_unpacklo_epi16 x_bgh x_rah in
  let x_bgrah := _mm_unpackhi_epi16 x_bgh x_rah in
  let x_temp := _mm_unpacklo_epi64 x_bgral x_bgrah in
  let x_temp1 := _mm_unpackhi_epi64 x_bgral x_bgrah in
  let out3 := x_temp in
  let out4 := x_temp1 in
  let x_bgl := _mm_unpacklo_epi8 x_b1 x_g1 in
  let x_bgh := _mm_unpackhi_epi8 x_b1 x_g1 in
  let x_ral := _mm_unpacklo_epi8 x_r1 x_a2 in
  let x_rah := _mm_unpackhi_epi8 x_r1 x_a2 in
  let x_bgral := _mm_unpacklo_epi16 x_bgl x_ral in
  let x_bgrah := _mm_unpackhi_epi16 x_bgl x_ral in
  let x_temp := _mm_unpacklo_epi64 x_bgral x_bgrah in
  let x_temp1 := _mm_unpackhi_epi64 x_bgral x_bgrah in
  let out5 := x_temp in
  let out6 := x_temp1 in
  let x_bgral := _mm_unpacklo_epi16 x_bgh x_rah in
  let x_bgrah := _mm_unpackhi_epi16 x_bgh x_rah in
  let x_temp := _mm_unpacklo_epi64 x_bgral x_bgrah in
  let x_temp1 := _mm_unpackhi_epi64 x_bgral x_bgrah in
  let out7 := x_temp in
  let out8 := x_temp1 in
  [(out1, out2); (out3, out4); (out5, out6); (out7, out8)].

Definition BGRA32_8 (i_u i_v : Z) (r_y1 r_y2 r_a1 r_a2 : m128i) : list (m128i * m128i) :=
  let iTemp := i_u in
  let x_temp := _mm_cvtsi32_si128 iTemp in
  let x_u := _mm_unpacklo_epi8 x_zero x_temp in
  let iTemp := i_v in
  let x_temp := _mm_cvtsi32_si128 iTemp in
  let x_v := _mm_unpacklo_epi8 x_zero x_temp in
  let x_temp := r_y1 in
  let x_temp1 := r_y2 in
  let x_out := _mm_unpacklo_epi16 x_temp x_temp1 in
  let x_y1 := _mm_unpacklo_epi8 x_zero x_out in
  let x_y2 := _mm_unpackhi_epi8 x_zero x_out in
  let x_temp := r_a1 in
  let x_temp1 := r_a2 in
  let x_a1 := _mm_unpacklo_epi16 x_temp x_temp1 in
  let x_u0 := _mm_mulhi_epu16 x_u x_c1 in
  let x_b := _mm_add_epi16 x_u0 x_coff0 in
  let x_u1 := _mm_mulhi_epu16 x_u x_c4 in
  let x_v1 := _mm_mulhi_epu16 x_v x_c5 in
  let x_temp := _mm_add_epi16 x_u1 x_v1 in
  let x_g := _mm_sub_epi16 x_coff1 x_temp in
  let x_v2 := _mm_mulhi_epu16 x_v x_c8 in
  let x_r := _mm_add_epi16 x_v2 x_coff2 in
  let x_y1 := _mm_mulhi_epu16 x_y1 x_c0 in
  let x_y2 := _mm_mulhi_epu16 x_y2 x_c0 in
  let x_bak := _mm_unpacklo_epi16 x_b x_b in
  let x_temp := _mm_unpacklo_epi32 x_bak x_bak in
  let x_b1 := _mm_add_epi16 x_y1 x_temp in
  let x_temp := _mm_unpackhi_epi32 x_bak x_bak in
  let x_b2 := _mm_add_epi16 x_y2 x_temp in
  let x_bak := _mm_unpacklo_epi16 x_g x_g in
  let x_temp := _mm_unpacklo_epi32 x_bak x_bak in
  let x_g1 := _mm_add_epi16 x_y1 x_temp in
  let x_temp := _mm_unpackhi_epi32 x_bak x_bak in
  let x_g2 := _mm_add_epi16 x_y2 x_temp in
  let x_bak := _mm_unpacklo_epi16 x_r x_r in
  let x_temp := _mm_unpacklo_epi32 x_bak x_bak in
  let x_r1 := _mm_add_epi16 x_y1 x_temp in
  let x_temp := _mm_unpackhi_epi32 x_bak x_bak in
  let x_r2 := _mm_add_epi16 x_y2 x_temp in
  let x_b1 := _mm_srai_epi16 x_b1 5 in
  let x_b2 := _mm_srai_epi16 x_b2 5 in
  let x_g1 := _mm_srai_epi16 x_g1 5 in
  let x_g2 := _mm_srai_epi16 x_g2 5 in
  let x_r1 := _mm_srai_epi16 x_r1 5 in
  let x_r2 := _mm_srai_epi16 x_r2 5 in
  let x_b := _mm_packus_epi16 x_b1 x_b2 in
  let x_b := PREMULTIPLY_ALPHA x_b x_a1 in
  let x_r := _mm_packus_epi16 x_r1 x_r2 in
  let x_r := PREMULTIPLY_ALPHA x_r x_a1 in
  let x_g := _mm_packus_epi16 x_g1 x_g2 in
  let x_g := PREMULTIPLY_ALPHA x_g x_a1 in
  let x_bgl := _mm_unpacklo_epi8 x_b x_g in
  let x_bgh := _mm_unpackhi_epi8 x_b x_g in
  let x_ral := _mm_unpacklo_epi8 x_r x_a1 in
  let x_rah := _mm_unpackhi_epi8 x_r x_a1 in
  let x_bgral := _mm_unpacklo_epi16 x_bgl x_ral in
  let x_bgrah := _mm_unpackhi_epi16 x_bgl x_ral in
  let x_temp := _mm_unpacklo_epi64 x_bgral x_bgrah in
  let x_temp1 := _mm_unpackhi_epi64 x_bgral x_bgrah in
  let out1 := x_temp in
  let out2 := x_temp1 in
  let x_bgral := _mm_unpacklo_epi16 x_bgh x_rah in
  let x_bgrah := _mm_unpackhi_epi16 x_bgh x_rah in
  let x_temp := _mm_unpacklo_epi64 x_bgral x_bgrah in
  let x_temp1 := _mm_unpackhi_epi64 x_bgral x_bgrah in
  let out3 := x_temp in
  let out4 := x_temp1 in
  [(out1, out2); (out3, out4)].

Definition BGRA32_4 (i_u i_v i_y1 i_y2 i_a1 i_a2 : Z) : list (m128i * m128i) :=
  let iTemp := i_u in
  let x_temp := _mm_cvtsi32_si128 iTemp in
  let x_u := _mm_unpacklo_epi8 x_zero x_temp in
  let iTemp := i_v in
  let x_temp := _mm_cvtsi32_si128 iTemp in
  let x_v := _mm_unpacklo_epi8 x_zero x_temp in
  let iTemp := i_y1 in
  let x_temp := _mm_cvtsi32_si128 iTemp in
  let iTemp := i_y2 in
  let x_temp1 := _mm_cvtsi32_si128 iTemp in
  let x_out := _mm_unpacklo_epi16 x_temp x_temp1 in
  let x_y1 := _mm_unpacklo_epi8 x_zero x_out in
  let iTemp := i_a1 in
  let x_temp := _mm_cvtsi32_si128 iTemp in
  let iTemp := i_a2 in
  let x_temp1 := _mm_cvtsi32_si128 iTemp in
  let x_a1 := _mm_unpacklo_epi16 x_temp x_temp1 in
  let x_u0 := _mm_mulhi_epu16 x_u x_c1 in
  let x_b := _mm_add_epi16 x_u0 x_coff0 in
  let x_u1 := _mm_mulhi_epu16 x_u x_c4 in
  let x_v1 := _mm_mulhi_epu16 x_v x_c5 in
  let x_temp := _mm_add_epi16 x_u1 x_v1 in
  let x_g := _mm_sub_epi16 x_coff1 x_temp in
  let x_v2 := _mm_mulhi_epu16 x_v x_c8 in
  let x_r := _mm_add_epi16 x_v2 x_coff2 in
  let x_y1 := _mm_mulhi_epu16 x_y1 x_c0 in
  let x_bak := _mm_unpacklo_epi16 x_b x_b in
  let x_temp := _mm_unpacklo_epi32 x_bak x_bak in
  let x_b1 := _mm_add_epi16 x_y1 x_temp in
  let x_bak := _mm_unpacklo_epi16 x_g x_g in
  let x_temp := _mm_unpacklo_epi32 x_bak x_bak in
  let x_g1 := _mm_add_epi16 x_y1 x_temp in
  let x_bak := _mm_unpacklo_epi16 x_r x_r in
  let x_temp := _mm_unpacklo_epi32 x_bak x_bak in
  let x_r1 := _mm_add_epi16 x_y1 x_temp in
  let x_b1 := _mm_srai_epi16 x_b1 5 in
  let x_g1 := _mm_srai_epi16 x_g1 5 in
  let x_r1 := _mm_srai_epi16 x_r1 5 in
  let x_b := _mm_packus_epi16 x_b1 x_zero in
  let x_b := PREMULTIPLY_ALPHA x_b x_a1 in
  let x_r := _mm_packus_epi16 x_r1 x_zero in
  let x_r := PREMULTIPLY_ALPHA x_r x_a1 in
  let x_g := _mm_packus_epi16 x_g1 x_zero in
  let x_g := PREMULTIPLY_ALPHA x_g x_a1 in
  let x_bgl := _mm_unpacklo_epi8 x_b x_g in
  let x_ral := _mm_unpacklo_epi8 x_r x_a1 in
  let x_bgral := _mm_unpacklo_epi16 x_bgl x_ral in
  let x_bgrah := _mm_unpackhi_epi16 x_bgl x_ral in
  let x_temp := _mm_unpacklo_epi64 x_bgral x_bgrah in
  let x_temp1 := _mm_unpackhi_epi64 x_bgral x_bgrah in
  let out1 := x_temp in
  let out2 := x_temp1 in
  [(out1, out2)].

Definition BGRA32_2 (i_u i_v i_y1 i_y2 i_a1 i_a2 : Z) : list (m128i * m128i) :=
  let iu := i_u in
  let iv := i_v in
  let iTemp := i32 ((i_y1 .& 65535) .| (i_y2 << 16)) in
  let x_temp := _mm_cvtsi32_si128 iTemp in
  let x_y1 := _mm_unpacklo_epi8 x_zero x_temp in
  let iTemp := i32 ((i_a1 .& 65535) .| (i_a2 << 16)) in
  let x_a1 := _mm_cvtsi32_si128 iTemp in
  let iu0 := (iu * ic1) >> 8 in
  let ib := icoff0 + iu0 in
  let iu1 := (iu * ic4) >> 8 in
  let iv1 := (iv * ic5) >> 8 in
  let iTemp := iu1 + iv1 in
  let ig := icoff1 - iTemp in
  let iv2 := (iv * ic8) >> 8 in
  let ir := iv2 + icoff2 in
  let x_y1 := _mm_mulhi_epu16 x_y1 x_c0 in
  let x_temp := _mm_set1_epi16 ib in
  let x_b1 := _mm_add_epi16 x_y1 x_temp in
  let x_temp := _mm_set1_epi16 ig in
  let x_g1 := _mm_add_epi16 x_y1 x_temp in
  let x_temp := _mm_set1_epi16 ir in
  let x_r1 := _mm_add_epi16 x_y1 x_temp in
  let x_b1 := _mm_srai_epi16 x_b1 5 in
  let x_g1 := _mm_srai_epi16 x_g1 5 in
  let x_r1 := _mm_srai_epi16 x_r1 5 in
  let x_b := _mm_packus_epi16 x_b1 x_zero in
  let x_b := PREMULTIPLY_ALPHA x_b x_a1 in
  let x_r := _mm_packus_epi16 x_r1 x_zero in
  let x_r := PREMULTIPLY_ALPHA x_r x_a1 in
  let x_g := _mm_packus_epi16 x_g1 x_zero in
  let x_g := PREMULTIPLY_ALPHA x_g x_a1 in
  let x_bgl := _mm_unpacklo_epi8 x_b x_g in
  let x_ral := _mm_unpacklo_epi8 x_r x_a1 in
  let x_bgral := _mm_unpacklo_epi16 x_bgl x_ral in
  let out1 := x_bgral in
  let out2 := _mm_srli_si128 x_bgral 8 in
  [(out1, out2)].

Definition BGRA32_no_alpha_16 (r_u r_v r_y1 r_y2 : m128i) : list (m128i * m128i) :=
  let x_temp := r_u in
  let x_u := _mm_unpacklo_epi8 x_zero x_temp in
  let x_temp := r_v in
  let x_v := _mm_unpacklo_epi8 x_zero x_temp in
  let x_temp := r_y1 in
  let x_temp1 := r_y2 in
  let x_out := _mm_unpacklo_epi16 x_temp x_temp1 in
  let x_y1 := _mm_unpacklo_epi8 x_zero x_out in
  let x_y2 := _mm_unpackhi_epi8 x_zero x_out in
  let x_out := _mm_unpackhi_epi16 x_temp x_temp1 in
  let x_y3 := _mm_unpacklo_epi8 x_zero x_out in
  let x_y4 := _mm_unpackhi_epi8 x_zero x_out in
  let x_u0 := _mm_mulhi_epu16 x_u x_c1 in
  let x_b := _mm_add_epi16 x_u0 x_coff0 in
  let x_u1 := _mm_mulhi_epu16 x_u x_c4 in
  let x_v1 := _mm_mulhi_epu16 x_v x_c5 in
  let x_temp := _mm_add_epi16 x_u1 x_v1 in
  let x_g := _mm_sub_epi16 x_coff1 x_temp in
  let x_v2 := _mm_mulhi_epu16 x_v x_c8 in
  let x_r := _mm_add_epi16 x_v2 x_coff2 in
  let x_y1 := _mm_mulhi_epu16 x_y1 x_c0 in
  let x_y2 := _mm_mulhi_epu16 x_y2 x_c0 in
  let x_y3 := _mm_mulhi_epu16 x_y3 x_c0 in
  let x_y4 := _mm_mulhi_epu16 x_y4 x_c0 in
  let x_bak := _mm_unpacklo_epi16 x_b x_b in
  let x_temp := _mm_unpacklo_epi32 x_bak x_bak in
  let x_b1 := _mm_add_epi16 x_y1 x_temp in
  let x_temp := _mm_unpackhi_epi32 x_bak x_bak in
  let x_b2 := _mm_add_epi16 x_y2 x_temp in
  let x_bak := _mm_unpackhi_epi16 x_b x_b in
  let x_temp := _mm_unpacklo_epi32 x_bak x_bak in
  let x_b3 := _mm_add_epi16 x_y3 x_temp in
  let x_temp := _mm_unpackhi_epi32 x_bak x_bak in
  let x_b4 := _mm_add_epi16 x_y4 x_temp in
  let x_bak := _mm_unpacklo_epi16 x_g x_g in
  let x_temp := _mm_unpacklo_epi32 x_bak x_bak in
  let x_g1 := _mm_add_epi16 x_y1 x_temp in
  let x_temp := _mm_unpackhi_epi32 x_bak x_bak in
  let x_g2 := _mm_add_epi16 x_y2 x_temp in
  let x_bak := _mm_unpackhi_epi16 x_g x_g in
  let x_temp := _mm_unpacklo_epi32 x_bak x_bak in
  let x_g3 := _mm_add_epi16 x_y3 x_temp in
  let x_temp := _mm_unpackhi_epi32 x_bak x_bak in
  let x_g4 := _mm_add_epi16 x_y4 x_temp in
  let x_bak := _mm_unpacklo_epi16 x_r x_r in
  let x_temp := _mm_unpacklo_epi32 x_bak x_bak in
  let x_r1 := _mm_add_epi16 x_y1 x_temp in
  let x_temp := _mm_unpackhi_epi32 x_bak x_bak in
  let x_r2 := _mm_add_epi16 x_y2 x_temp in
  let x_bak := _mm_unpackhi_epi16 x_r x_r in
  let x_temp := _mm_unpacklo_epi32 x_bak x_bak in
  let x_r3 := _mm_add_epi16 x_y3 x_temp in
  let x_temp := _mm_unpackhi_epi32 x_bak x_bak in
  let x_r4 := _mm_add_epi16 x_y4 x_temp in
  let x_b1 := _mm_srai_epi16 x_b1 5 in
  let x_b2 := _mm_srai_epi16 x_b2 5 in
  let x_b3 := _mm_srai_epi16 x_b3 5 in
  let x_b4 := _mm_srai_epi16 x_b4 5 in
  let x_g1 := _mm_srai_epi16 x_g1 5 in
  let x_g2 := _mm_srai_epi16 x_g2 5 in
  let x_g3 := _mm_srai_epi16 x_g3 5 in
  let x_g4 := _mm_srai_epi16 x_g4 5 in
  let x_r1 := _mm_srai_epi16 x_r1 5 in
  let x_r2 := _mm_srai_epi16 x_r2 5 in
  let x_r3 := _mm_srai_epi16 x_r3 5 in
  let x_r4 := _mm_srai_epi16 x_r4 5 in
  let x_b := _mm_packus_epi16 x_b1 x_b2 in
  let x_b1 := _mm_packus_epi16 x_b3 x_b4 in
  let x_r := _mm_packus_epi16 x_r1 x_r2 in
  let x_r1 := _mm_packus_epi16 x_r3 x_r4 in
  let x_g := _mm_packus_epi16 x_g1 x_g2 in
  let x_g1 := _mm_packus_epi16 x_g3 x_g4 in
  let x_bgl := _mm_unpacklo_epi8 x_b x_g in
  let x_bgh := _mm_unpackhi_epi8 x_b x_g in
  let x_ral := _mm_unpacklo_epi8 x_r x_aa in
  let x_rah := _mm_unpackhi_epi8 x_r x_aa in
  let x_bgral := _mm_unpacklo_epi16 x_bgl x_ral in
  let x_bgrah := _mm_unpackhi_epi16 x_bgl x_ral in
  let x_temp := _mm_unpacklo_epi64 x_bgral x_bgrah in
  let x_temp1 := _mm_unpackhi_epi64 x_bgral x_bgrah in
  let out1 := x_temp in
  let out2 := x_temp1 in
  let x_bgral := _mm_unpacklo_epi16 x_bgh x_rah in
  let x_bgrah := _mm_unpackhi_epi16 x_bgh x_rah in
  let x_temp := _mm_unpacklo_epi64 x_bgral x_bgrah in
  let x_temp1 := _mm_unpackhi_epi64 x_bgral x_bgrah in
  let out3 := x_temp in
  let out4 := x_temp1 in
  let x_bgl := _mm_unpacklo_epi8 x_b1 x_g1 in
  let x_bgh := _mm_unpackhi_epi8 x_b1 x_g1 in
  let x_ral := _mm_unpacklo_epi8 x_r1 x_aa in
  let x_rah := _mm_unpackhi_epi8 x_r1 x_aa in
  let x_bgral := _mm_unpacklo_epi16 x_bgl x_ral in
  let x_bgrah := _mm_unpackhi_epi16 x_bgl x_ral in
  let x_temp := _mm_unpacklo_epi64 x_bgral x_bgrah in
  let x_temp1 := _mm_unpackhi_epi64 x_bgral x_bgrah in
  let out5 := x_temp in
  let out6 := x_temp1 in
  let x_bgral := _mm_unpacklo_epi16 x_bgh x_rah in
  let x_bgrah := _mm_unpackhi_epi16 x_bgh x_rah in
  let x_temp := _mm_unpacklo_epi64 x_bgral x_bgrah in
  let x_temp1 := _mm_unpackhi_epi64 x_bgral x_bgrah in
  let out7 := x_temp in
  let out8 := x_temp1 in
  [(out1, out2); (out3, out4); (out5, out6); (out7, out8)].

Definition BGRA32_no_alpha_8 (i_u i_v : Z) (r_y1 r_y2 : m128i) : list (m128i * m128i) :=
  let iTemp := i_u in
  let x_temp := _mm_cvtsi32_si128 iTemp in
  let x_u := _mm_unpacklo_epi8 x_zero x_temp in
  let iTemp := i_v in
  let x_temp := _mm_cvtsi32_si128 iTemp in
  let x_v := _mm_unpacklo_epi8 x_zero x_temp in
  let x_temp := r_y1 in
  let x_temp1 := r_y2 in
  let x_out := _mm_unpacklo_epi16 x_temp x_temp1 in
  let x_y1 := _mm_unpacklo_epi8 x_zero x_out in
  let x_y2 := _mm_unpackhi_epi8 x_zero x_out in
  let x_u0 := _mm_mulhi_epu16 x_u x_c1 in
  let x_b := _mm_add_epi16 x_u0 x_coff0 in
  let x_u1 := _mm_mulhi_epu16 x_u x_c4 in
  let x_v1 := _mm_mulhi_epu16 x_v x_c5 in
  let x_temp := _mm_add_epi16 x_u1 x_v1 in
  let x_g := _mm_sub_epi16 x_coff1 x_temp in
  let x_v2 := _mm_mulhi_epu16 x_v x_c8 in
  let x_r := _mm_add_epi16 x_v2 x_coff2 in
  let x_y1 := _mm_mulhi_epu16 x_y1 x_c0 in
  let x_y2 := _mm_mulhi_epu16 x_y2 x_c0 in
  let x_bak := _mm_unpacklo_epi16 x_b x_b in
  let x_temp := _mm_unpacklo_epi32 x_bak x_bak in
  let x_b1 := _mm_add_epi16 x_y1 x_temp in
  let x_temp := _mm_unpackhi_epi32 x_bak x_bak in
  let x_b2 := _mm_add_epi16 x_y2 x_temp in
  let x_bak := _mm_unpacklo_epi16 x_g x_g in
  let x_temp := _mm_unpacklo_epi32 x_bak x_bak in
  let x_g1 := _mm_add_epi16 x_y1 x_temp in
  let x_temp := _mm_unpackhi_epi32 x_bak x_bak in
  let x_g2 := _mm_add_epi16 x_y2 x_temp in
  let x_bak := _mm_unpacklo_epi16 x_r x_r in
  let x_temp := _mm_unpacklo_epi32 x_bak x_bak in
  let x_r1 := _mm_add_epi16 x_y1 x_temp in
  let x_temp := _mm_unpackhi_epi32 x_bak x_bak in
  let x_r2 := _mm_add_epi16 x_y2 x_temp in
  let x_b1 := _mm_srai_epi16 x_b1 5 in
  let x_b2 := _mm_srai_epi16 x_b2 5 in
  let x_g1 := _mm_srai_epi16 x_g1 5 in
  let x_g2 := _mm_srai_epi16 x_g2 5 in
  let x_r1 := _mm_srai_epi16 x_r1 5 in
  let x_r2 := _mm_srai_epi16 x_r2 5 in
  let x_b := _mm_packus_epi16 x_b1 x_b2 in
  let x_r := _mm_packus_epi16 x_r1 x_r2 in
  let x_g := _mm_packus_epi16 x_g1 x_g2 in
  let x_bgl := _mm_unpacklo_epi8 x_b x_g in
  let x_bgh := _mm_unpackhi_epi8 x_b x_g in
  let x_ral := _mm_unpacklo_epi8 x_r x_aa in
  let x_rah := _mm_unpackhi_epi8 x_r x_aa in
  let x_bgral := _mm_unpacklo_epi16 x_bgl x_ral in
  let x_bgrah := _mm_unpackhi_epi16 x_bgl x_ral in
  let x_temp := _mm_unpacklo_epi64 x_bgral x_bgrah in
  let x_temp1 := _mm_unpackhi_epi64 x_bgral x_bgrah in
  let out1 := x_temp in
  let out2 := x_temp1 in
  let x_bgral := _mm_unpacklo_epi16 x_bgh x_rah in
  let x_bgrah := _mm_unpackhi_epi16 x_bgh x_rah in
  let x_temp := _mm_unpacklo_epi64 x_bgral x_bgrah in
  let x_temp1 := _mm_unpackhi_epi64 x_bgral x_bgrah in
  let out3 := x_temp in
  let out4 := x_temp1 in
  [(out1, out2); (out3, out4)].

Definition BGRA32_no_alpha_4 (i_u i_v i_y1 i_y2 : Z) : list (m128i * m128i) :=
  let iTemp := i_u in
  let x_temp := _mm_cvtsi32_si128 iTemp in
  let x_u := _mm_unpacklo_epi8 x_zero x_temp in
  let iTemp := i_v in
  let x_temp := _mm_cvtsi32_si128 iTemp in
  let x_v := _mm_unpacklo_epi8 x_zero x_temp in
  let iTemp := i_y1 in
  let x_temp := _mm_cvtsi32_si128 iTemp in
  let iTemp := i_y2 in
  let x_temp1 := _mm_cvtsi32_si128 iTemp in
  let x_out := _mm_unpacklo_epi16 x_temp x_temp1 in
  let x_y1 := _mm_unpacklo_epi8 x_zero x_out in
  let x_u0 := _mm_mulhi_epu16 x_u x_c1 in
  let x_b := _mm_add_epi16 x_u0 x_coff0 in
  let x_u1 := _mm_mulhi_epu16 x_u x_c4 in
  let x_v1 := _mm_mulhi_epu16 x_v x_c5 in
  let x_temp := _mm_add_epi16 x_u1 x_v1 in
  let x_g := _mm_sub_epi16 x_coff1 x_temp in
  let x_v2 := _mm_mulhi_epu16 x_v x_c8 in
  let x_r := _mm_add_epi16 x_v2 x_coff2 in
  let x_y1 := _mm_mulhi_epu16 x_y1 x_c0 in
  let x_bak := _mm_unpacklo_epi16 x_b x_b in
  let x_temp := _mm_unpacklo_epi32 x_bak x_bak in
  let x_b1 := _mm_add_epi16 x_y1 x_temp in
  let x_bak := _mm_unpacklo_epi16 x_g x_g in
  let x_temp := _mm_unpacklo_epi32 x_bak x_bak in
  let x_g1 := _mm_add_epi16 x_y1 x_temp in
  let x_bak := _mm_unpacklo_epi16 x_r x_r in
  let x_temp := _mm_unpacklo_epi32 x_bak x_bak in
  let x_r1 := _mm_add_epi16 x_y1 x_temp in
  let x_b1 := _mm_srai_epi16 x_b1 5 in
  let x_g1 := _mm_srai_epi16 x_g1 5 in
  let x_r1 := _mm_srai_epi16 x_r1 5 in
  let x_b := _mm_packus_epi16 x_b1 x_zero in
  let x_r := _mm_packus_epi16 x_r1 x_zero in
  let x_g := _mm_packus_epi16 x_g1 x_zero in
  let x_bgl := _mm_unpacklo_epi8 x_b x_g in
  let x_ral := _mm_unpacklo_epi8 x_r x_aa in
  let x_bgral := _mm_unpacklo_epi16 x_bgl x_ral in
  let x_bgrah := _mm_unpackhi_epi16 x_bgl x_ral in
  let x_temp := _mm_unpacklo_epi64 x_bgral x_bgrah in
  let x_temp1 := _mm_unpackhi_epi64 x_bgral x_bgrah in
  let out1 := x_temp in
  let out2 := x_temp1 in
  [(out1, out2)].

Definition BGRA32_no_alpha_2 (i_u i_v i_y1 i_y2 : Z) : list (m128i * m128i) :=
  let iu := i_u in
  let iv := i_v in
  let iTemp := i32 ((i_y1 .& 65535) .| (i_y2 << 16)) in
  let x_temp := _mm_cvtsi32_si128 iTemp in
  let x_y1 := _mm_unpacklo_epi8 x_zero x_temp in
  let iu0 := (iu * ic1) >> 8 in
  let ib := icoff0 + iu0 in
  let iu1 := (iu * ic4) >> 8 in
  let iv1 := (iv * ic5) >> 8 in
  let iTemp := iu1 + iv1 in
  let ig := icoff1 - iTemp in
  let iv2 := (iv * ic8) >> 8 in
  let ir := iv2 + icoff2 in
  let x_y1 := _mm_mulhi_epu16 x_y1 x_c0 in
  let x_temp := _mm_set1_epi16 ib in
  let x_b1 := _mm_add_epi16 x_y1 x_temp in
  let x_temp := _mm_set1_epi16 ig in
  let x_g1 := _mm_add_epi16 x_y1 x_temp in
  let x_temp := _mm_set1_epi16 ir in
  let x_r1 := _mm_add_epi16 x_y1 x_temp in
  let x_b1 := _mm_srai_epi16 x_b1 5 in
  let x_g1 := _mm_srai_epi16 x_g1 5 in
  let x_r1 := _mm_srai_epi16 x_r1 5 in
  let x_b := _mm_packus_epi16 x_b1 x_zero in
  let x_r := _mm_packus_epi16 x_r1 x_zero in
  let x_g := _mm_packus_epi16 x_g1 x_zero in
  let x_bgl := _mm_unpacklo_epi8 x_b x_g in
  let x_ral := _mm_unpacklo_epi8 x_r x_aa in
  let x_bgral := _mm_unpacklo_epi16 x_bgl x_ral in
  let out1 := x_bgral in
  let out2 := _mm_srli_si128 x_bgral 8 in
  [(out1, out2)].

(** ** Rows and pictures *)

(** The blocks of a function. *)
Record Kernels := mkKernels {
  k16 : m128i -> m128i -> m128i -> m128i -> m128i -> m128i -> list (m128i * m128i);
  k8 : Z -> Z -> m128i -> m128i -> m128i -> m128i -> list (m128i * m128i);
  k4 : Z -> Z -> Z -> Z -> Z -> Z -> list (m128i * m128i);
  k2 : Z -> Z -> Z -> Z -> Z -> Z -> list (m128i * m128i);
}.

(** A plane: its bytes, the address of the first and the distance of rows. *)
Record Plane := mkPlane {
  pl_bytes : list Z;
  pl_at : Z;
  pl_stride : Z;
}.

(** The variables of the loop over the columns; a pointer is an offset in its array. *)
Record Row := mkRow {
  r_dst : list Z;
  iW : Z;
  pm_u : Z;
  pm_v : Z;
  px_y1 : Z;
  px_y2 : Z;
  px_a1 : Z;
  px_a2 : Z;
  pd1 : Z;
  pd2 : Z;
}.

(** The pointers to the rows. *)
Record Rows := mkRows {
  s_dst : list Z;
  pY1 : Z;
  pY2 : Z;
  pU : Z;
  pV : Z;
  pA1 : Z;
  pA2 : Z;
  pD1 : Z;
  pD2 : Z;
}.

Section Convert.
Context (K : Kernels) (dst_at dst_stride width height : Z) (y v u : Plane) (a : option Plane).

Definition unaligned (p : Plane) : bool := truth (pl_at p mod 16) || truth (pl_stride p mod 16).

(** The choice of the instruction that loads a register. *)
Definition load_si128 (p : Plane) (i : Z) : option m128i :=
  if unaligned y || unaligned u || unaligned v || match a with Some a => unaligned a | None => false end
  then _mm_loadu_si128 (pl_bytes p) i else _mm_load_si128 (pl_at p) (pl_bytes p) i.

(** What is loaded of the alpha plane; the functions without one have no such loads. *)
Definition of_alpha {A} (load : Plane -> option A) (none : A) : option A :=
  match a with Some a => load a | None => Some none end.

(** [SAVE_ARGB1] to both rows. *)
Fixpoint save_pairs (l : list (m128i * m128i)) (d : list Z) (p1 p2 : Z) : option (list Z * Z * Z) :=
  match l with
  | [] => Some (d, p1, p2)
  | (r1, r2) :: l =>
      d ← _mm_store_si128 dst_at d p1 r1;
      d ← _mm_store_si128 dst_at d p2 r2;
      save_pairs l d (p1 + 16) (p2 + 16)
  end.

(** The columns go on by [n]. *)
Definition advance (n : Z) (s : Row) (dp : list Z * Z * Z) : Row :=
  let '(d, p1, p2) := dp in
  mkRow d (iW s + n) (pm_u s + n / 2) (pm_v s + n / 2) (px_y1 s + n) (px_y2 s + n)
    (px_a1 s + n) (px_a2 s + n) p1 p2.

Definition block16 (s : Row) : option Row :=
  r_u ← _mm_loadl_epi64 (pl_bytes u) (pm_u s);
  r_v ← _mm_loadl_epi64 (pl_bytes v) (pm_v s);
  r_y1 ← load_si128 y (px_y1 s);
  r_y2 ← load_si128 y (px_y2 s);
  r_a1 ← of_alpha (fun a => load_si128 a (px_a1 s)) [];
  r_a2 ← of_alpha (fun a => load_si128 a (px_a2 s)) [];
  dp ← save_pairs (k16 K r_u r_v r_y1 r_y2 r_a1 r_a2) (r_dst s) (pd1 s) (pd2 s);
  Some (advance 16 s dp).

Definition block8 (s : Row) : option Row :=
  i_u ← load_i32 (pl_bytes u) (pm_u s);
  i_v ← load_i32 (pl_bytes v) (pm_v s);
  r_y1 ← _mm_loadl_epi64 (pl_bytes y) (px_y1 s);
  r_y2 ← _mm_loadl_epi64 (pl_bytes y) (px_y2 s);
  r_a1 ← of_alpha (fun a => _mm_loadl_epi64 (pl_bytes a) (px_a1 s)) [];
  r_a2 ← of_alpha (fun a => _mm_loadl_epi64 (pl_bytes a) (px_a2 s)) [];
  dp ← save_pairs (k8 K i_u i_v r_y1 r_y2 r_a1 r_a2) (r_dst s) (pd1 s) (pd2 s);
  Some (advance 8 s dp).

Definition block4 (s : Row) : option Row :=
  i_u ← load_u16 (pl_bytes u) (pm_u s);
  i_v ← load_u16 (pl_bytes v) (pm_v s);
  i_y1 ← load_i32 (pl_bytes y) (px_y1 s);
  i_y2 ← load_i32 (pl_bytes y) (px_y2 s);
  i_a1 ← of_alpha (fun a => load_i32 (pl_bytes a) (px_a1 s)) 0;
  i_a2 ← of_alpha (fun a => load_i32 (pl_bytes a) (px_a2 s)) 0;
  dp ← save_pairs (k4 K i_u i_v i_y1 i_y2 i_a1 i_a2) (r_dst s) (pd1 s) (pd2 s);
  Some (advance 4 s dp).

(** The last two columns, stored by [_mm_storel_epi64] and [_mm_storeh_epi64]. *)
Definition block2 (s : Row) : option (list Z) :=
  i_u ← load_u8 (pl_bytes u) (pm_u s);
  i_v ← load_u8 (pl_bytes v) (pm_v s);
  i_y1 ← load_u16 (pl_bytes y) (px_y1 s);
  i_y2 ← load_u16 (pl_bytes y) (px_y2 s);
  i_a1 ← of_alpha (fun a => load_u16 (pl_bytes a) (px_a1 s)) 0;
  i_a2 ← of_alpha (fun a => load_u16 (pl_bytes a) (px_a2 s)) 0;
  match k2 K i_u i_v i_y1 i_y2 i_a1 i_a2 with
  | (r1, r2) :: _ =>
      d ← _mm_storel_epi64 (r_dst s) (pd1 s) r1;
      _mm_storel_epi64 d (pd2 s) r2
  | [] => None
  end.

(** [if (iW <= width - n)]. *)
Definition room (n : Z) (s : Row) : bool := iW s <=? i32 (width - n).

Definition convert_row (r : Rows) : option (list Z) :=
  s ← while_ (Z.to_nat width) (room 16) block16
        (mkRow (s_dst r) 0 (pU r) (pV r) (pY1 r) (pY2 r) (pA1 r) (pA2 r) (pD1 r) (pD2 r));
  s ← (if room 8 s then block8 s else Some s);
  s ← (if room 4 s then block4 s else Some s);
  if room 2 s then block2 s else Some (r_dst s).

Definition stride_of (p : option Plane) : Z := from_option pl_stride 0 p.

Definition next_rows (r : Rows) : option Rows :=
  d ← convert_row r;
  Some (mkRows d (pY1 r + i32 (2 * pl_stride y)) (pY2 r + i32 (2 * pl_stride y)) (pU r + pl_stride u)
    (pV r + pl_stride v) (pA1 r + i32 (2 * stride_of a)) (pA2 r + i32 (2 * stride_of a))
    (pD1 r + i32 (2 * dst_stride)) (pD2 r + i32 (2 * dst_stride))).

(** The whole function; the first component is its result. *)
Definition convert (d : list Z) : option (Z * list Z) :=
  r ← for_ (Z.to_nat (height >> 1)) next_rows
        (mkRows d 0 (pl_stride y) 0 0 0 (stride_of a) 0 dst_stride);
  Some (0, s_dst r).
End Convert.

(** ** The four functions *)

Definition ARGB32_kernels : Kernels := mkKernels ARGB32_16 ARGB32_8 ARGB32_4 ARGB32_2.
Definition ARGB32_no_alpha_kernels : Kernels := mkKernels
  (fun u v y1 y2 _ _ => ARGB32_no_alpha_16 u v y1 y2) (fun u v y1 y2 _ _ => ARGB32_no_alpha_8 u v y1 y2)
  (fun u v y1 y2 _ _ => ARGB32_no_alpha_4 u v y1 y2) (fun u v y1 y2 _ _ => ARGB32_no_alpha_2 u v y1 y2).
Definition BGRA32_kernels : Kernels := mkKernels BGRA32_16 BGRA32_8 BGRA32_4 BGRA32_2.
Definition BGRA32_no_alpha_kernels : Kernels := mkKernels
  (fun u v y1 y2 _ _ => BGRA32_no_alpha_16 u v y1 y2) (fun u v y1 y2 _ _ => BGRA32_no_alpha_8 u v y1 y2)
  (fun u v y1 y2 _ _ => BGRA32_no_alpha_4 u v y1 y2) (fun u v y1 y2 _ _ => BGRA32_no_alpha_2 u v y1 y2).

(** [argb] is the array of the picture and [argb_at] its address. *)
Definition ColorConvert_YCbCr420p_to_ARGB32 (argb : list Z) (argb_at argb_stride width height : Z)
    (y v u a : Plane) : option (Z * list Z) :=
  convert ARGB32_kernels argb_at argb_stride width height y v u (Some a) argb.
Definition ColorConvert_YCbCr420p_to_ARGB32_no_alpha (argb : list Z) (argb_at argb_stride width height : Z)
    (y v u : Plane) : option (Z * list Z) :=
  convert ARGB32_no_alpha_kernels argb_at argb_stride width height y v u None argb.
Definition ColorConvert_YCbCr420p_to_BGRA32 (bgra : list Z) (bgra_at bgra_stride width height : Z)
    (y v u a : Plane) : option (Z * list Z) :=
  convert BGRA32_kernels bgra_at bgra_stride width height y v u (Some a) bgra.
Definition ColorConvert_YCbCr420p_to_BGRA32_no_alpha (bgra : list Z) (bgra_at bgra_stride width height : Z)
    (y v u : Plane) : option (Z * list Z) :=
  convert BGRA32_no_alpha_kernels bgra_at bgra_stride width height y v u None bgra.
