(* ===== verification/ColorC.v ===== *)
(** * Conversion of pictures without SSE2 (ColorConverter.c)

    The tables and the functions in plain C, which are compiled for processors without SSE2;
    the conversion of packed pictures is plain C everywhere. *)

From S2P Require Import Prelude.
From S2P Require Import Mem.
From S2P Require Import Sse2.
From S2P Require Import ColorSse2.

Open Scope Z_scope.

(** ** Tables *)

Definition color_tClip : list Z :=
  [0; 0; 0; 0; 0; 0; 0; 0; 0; 0; 0; 0; 0; 0; 0; 0; 0; 0; 0; 0; 0; 0; 0; 0; 0; 0; 0; 0; 0; 0; 0;
   0; 0; 0; 0; 0; 0; 0; 0; 0; 0; 0; 0; 0; 0; 0; 0; 0; 0; 0; 0; 0; 0; 0; 0; 0; 0; 0; 0; 0; 0; 0;
   0; 0; 0; 0; 0; 0; 0; 0; 0; 0; 0; 0; 0; 0; 0; 0; 0; 0; 0; 0; 0; 0; 0; 0; 0; 0; 0; 0; 0; 0; 0;
   0; 0; 0; 0; 0; 0; 0; 0; 0; 0; 0; 0; 0; 0; 0; 0; 0; 0; 0; 0; 0; 0; 0; 0; 0; 0; 0; 0; 0; 0; 0;
   0; 0; 0; 0; 0; 0; 0; 0; 0; 0; 0; 0; 0; 0; 0; 0; 0; 0; 0; 0; 0; 0; 0; 0; 0; 0; 0; 0; 0; 0; 0;
   0; 0; 0; 0; 0; 0; 0; 0; 0; 0; 0; 0; 0; 0; 0; 0; 0; 0; 0; 0; 0; 0; 0; 0; 0; 0; 0; 0; 0; 0; 0;
   0; 0; 0; 0; 0; 0; 0; 0; 0; 0; 0; 0; 0; 0; 0; 0; 0; 0; 0; 0; 0; 0; 0; 0; 0; 0; 0; 0; 0; 0; 0;
   0; 0; 0; 0; 0; 0; 0; 0; 0; 0; 0; 0; 0; 0; 0; 0; 0; 0; 0; 0; 0; 0; 0; 0; 0; 0; 0; 0; 0; 0; 0;
   0; 0; 0; 0; 0; 0; 0; 0; 0; 0; 0; 0; 0; 0; 0; 0; 0; 0; 0; 0; 0; 0; 0; 0; 0; 0; 0; 0; 0; 0; 0;
   0; 0; 0; 0; 0; 0; 0; 0; 0; 0; 0; 0; 0; 0; 0; 0; 0; 0; 0; 0; 0; 0; 0; 0; 0; 0; 0; 0; 0; 0; 0;
   0; 0; 0; 0; 0; 0; 0; 0; 0; 0; 0; 0; 0; 0; 0; 0; 0; 0; 0; 0; 0; 0; 0; 0; 0; 0; 0; 0; 0; 0; 0;
   0; 0; 0; 0; 0; 0; 0; 0; 0; 0; 0; 0; 0; 0; 0; 0; 0; 0; 0; 0; 0; 0; 0; 0; 0; 0; 0; 0; 0; 0; 0;
   0; 0; 0; 0; 0; 0; 0; 0; 0; 0; 0; 0; 0; 0; 0; 0; 0; 0; 0; 0; 0; 0; 0; 0; 0; 0; 0; 0; 0; 0; 0;
   0; 0; 0; 0; 0; 0; 0; 0; 0; 0; 0; 0; 0; 0; 0; 0; 0; 0; 0; 0; 0; 0; 0; 0; 0; 0; 0; 0; 0; 0; 0;
   0; 0; 0; 0; 0; 0; 0; 0; 0; 0; 0; 0; 0; 0; 0; 0; 0; 0; 0; 0; 0; 0; 0; 0; 0; 0; 0; 0; 0; 0; 0;
   0; 0; 0; 0; 0; 0; 0; 0; 0; 0; 0; 0; 0; 0; 0; 0; 0; 0; 0; 0; 0; 0; 0; 0; 0; 0; 0; 0; 0; 0; 0;
   0; 0; 0; 0; 0; 0; 0; 0; 0; 0; 0; 0; 0; 0; 0; 0; 0; 0; 0; 0; 0; 0; 0; 0; 0; 0; 0; 0; 0; 0; 0;
   0; 0; 0; 0; 0; 0; 0; 0; 0; 0; 0; 0; 0; 0; 0; 0; 0; 0; 0; 0; 0; 0; 0; 0; 0; 0; 0; 0; 0; 0; 0;
   0; 0; 0; 0; 0; 0; 0; 0; 0; 0; 0; 0; 0; 0; 0; 0; 0; 0; 0; 0; 1; 1; 2; 2; 3; 3; 4; 4; 5; 5; 6;
   6; 7; 7; 8; 8; 9; 9; 10; 10; 11; 11; 12; 12; 13; 13; 14; 14; 15; 15; 16; 16; 17; 17; 18; 18;
   19; 19; 20; 20; 21; 21; 22; 22; 23; 23; 24; 24; 25; 25; 26; 26; 27; 27; 28; 28; 29; 29; 30;
   30; 31; 31; 32; 32; 33; 33; 34; 34; 35; 35; 36; 36; 37; 37; 38; 38; 39; 39; 40; 40; 41; 41;
   42; 42; 43; 43; 44; 44; 45; 45; 46; 46; 47; 47; 48; 48; 49; 49; 50; 50; 51; 51; 52; 52; 53;
   53; 54; 54; 55; 55; 56; 56; 57; 57; 58; 58; 59; 59; 60; 60; 61; 61; 62; 62; 63; 63; 64; 64;
   65; 65; 66; 66; 67; 67; 68; 68; 69; 69; 70; 70; 71; 71; 72; 72; 73; 73; 74; 74; 75; 75; 76;
   76; 77; 77; 78; 78; 79; 79; 80; 80; 81; 81; 82; 82; 83; 83; 84; 84; 85; 85; 86; 86; 87; 87;
   88; 88; 89; 89; 90; 90; 91; 91; 92; 92; 93; 93; 94; 94; 95; 95; 96; 96; 97; 97; 98; 98; 99;
   99; 100; 100; 101; 101; 102; 102; 103; 103; 104; 104; 105; 105; 106; 106; 107; 107; 108; 108;
   109; 109; 110; 110; 111; 111; 112; 112; 113; 113; 114; 114; 115; 115; 116; 116; 117; 117; 118;
   118; 119; 119; 120; 120; 121; 121; 122; 122; 123; 123; 124; 124; 125; 125; 126; 126; 127; 127;
   128; 128; 129; 129; 130; 130; 131; 131; 132; 132; 133; 133; 134; 134; 135; 135; 136; 136; 137;
   137; 138; 138; 139; 139; 140; 140; 141; 141; 142; 142; 143; 143; 144; 144; 145; 145; 146; 146;
   147; 147; 148; 148; 149; 149; 150; 150; 151; 151; 152; 152; 153; 153; 154; 154; 155; 155; 156;
   156; 157; 157; 158; 158; 159; 159; 160; 160; 161; 161; 162; 162; 163; 163; 164; 164; 165; 165;
   166; 166; 167; 167; 168; 168; 169; 169; 170; 170; 171; 171; 172; 172; 173; 173; 174; 174; 175;
   175; 176; 176; 177; 177; 178; 178; 179; 179; 180; 180; 181; 181; 182; 182; 183; 183; 184; 184;
   185; 185; 186; 186; 187; 187; 188; 188; 189; 189; 190; 190; 191; 191; 192; 192; 193; 193; 194;
   194; 195; 195; 196; 196; 197; 197; 198; 198; 199; 199; 200; 200; 201; 201; 202; 202; 203; 203;
   204; 204; 205; 205; 206; 206; 207; 207; 208; 208; 209; 209; 210; 210; 211; 211; 212; 212; 213;
   213; 214; 214; 215; 215; 216; 216; 217; 217; 218; 218; 219; 219; 220; 220; 221; 221; 222; 222;
   223; 223; 224; 224; 225; 225; 226; 226; 227; 227; 228; 228; 229; 229; 230; 230; 231; 231; 232;
   232; 233; 233; 234; 234; 235; 235; 236; 236; 237; 237; 238; 238; 239; 239; 240; 240; 241; 241;
   242; 242; 243; 243; 244; 244; 245; 245; 246; 246; 247; 247; 248; 248; 249; 249; 250; 250; 251;
   251; 252; 252; 253; 253; 254; 254; 255; 255; 255; 255; 255; 255; 255; 255; 255; 255; 255; 255;
   255; 255; 255; 255; 255; 255; 255; 255; 255; 255; 255; 255; 255; 255; 255; 255; 255; 255; 255;
   255; 255; 255; 255; 255; 255; 255; 255; 255; 255; 255; 255; 255; 255; 255; 255; 255; 255; 255;
   255; 255; 255; 255; 255; 255; 255; 255; 255; 255; 255; 255; 255; 255; 255; 255; 255; 255; 255;
   255; 255; 255; 255; 255; 255; 255; 255; 255; 255; 255; 255; 255; 255; 255; 255; 255; 255; 255;
   255; 255; 255; 255; 255; 255; 255; 255; 255; 255; 255; 255; 255; 255; 255; 255; 255; 255; 255;
   255; 255; 255; 255; 255; 255; 255; 255; 255; 255; 255; 255; 255; 255; 255; 255; 255; 255; 255;
   255; 255; 255; 255; 255; 255; 255; 255; 255; 255; 255; 255; 255; 255; 255; 255; 255; 255; 255;
   255; 255; 255; 255; 255; 255; 255; 255; 255; 255; 255; 255; 255; 255; 255; 255; 255; 255; 255;
   255; 255; 255; 255; 255; 255; 255; 255; 255; 255; 255; 255; 255; 255; 255; 255; 255; 255; 255;
   255; 255; 255; 255; 255; 255; 255; 255; 255; 255; 255; 255; 255; 255; 255; 255; 255; 255; 255;
   255; 255; 255; 255; 255; 255; 255; 255; 255; 255; 255; 255; 255; 255; 255; 255; 255; 255; 255;
   255; 255; 255; 255; 255; 255; 255; 255; 255; 255; 255; 255; 255; 255; 255; 255; 255; 255; 255;
   255; 255; 255; 255; 255; 255; 255; 255; 255; 255; 255; 255; 255; 255; 255; 255; 255; 255; 255;
   255; 255; 255; 255; 255; 255; 255; 255; 255; 255; 255; 255; 255; 255; 255; 255; 255; 255; 255;
   255; 255; 255; 255; 255; 255; 255; 255; 255; 255; 255; 255; 255; 255; 255; 255; 255; 255; 255;
   255; 255; 255; 255; 255; 255; 255; 255; 255; 255; 255; 255; 255; 255; 255; 255; 255; 255; 255;
   255; 255; 255; 255; 255; 255; 255; 255; 255; 255; 255; 255; 255; 255; 255; 255; 255; 255; 255;
   255; 255; 255; 255; 255; 255; 255; 255; 255; 255; 255; 255; 255; 255; 255; 255; 255; 255; 255;
   255; 255; 255; 255; 255; 255; 255; 255; 255; 255; 255; 255; 255; 255; 255; 255; 255; 255; 255;
   255; 255; 255; 255; 255; 255; 255; 255; 255; 255; 255; 255; 255; 255; 255; 255; 255; 255; 255;
   255; 255; 255; 255; 255; 255; 255; 255; 255; 255; 255; 255; 255; 255; 255; 255; 255; 255; 255;
   255; 255; 255; 255; 255; 255; 255; 255; 255; 255; 255; 255; 255; 255; 255; 255; 255; 255; 255;
   255; 255; 255; 255; 255; 255; 255; 255; 255; 255; 255; 255; 255; 255; 255; 255; 255; 255; 255;
   255; 255; 255; 255; 255; 255; 255; 255; 255; 255; 255; 255; 255; 255; 255; 255; 255; 255; 255;
   255; 255; 255; 255; 255; 255; 255; 255; 255; 255; 255; 255; 255; 255; 255; 255; 255; 255; 255;
   255; 255; 255; 255; 255; 255; 255; 255; 255; 255; 255; 255; 255; 255; 255; 255; 255; 255; 255;
   255; 255; 255; 255; 255; 255; 255; 255; 255; 255; 255; 255; 255; 255; 255; 255; 255; 255; 255;
   255; 255; 255; 255; 255; 255; 255; 255; 255; 255; 255; 255; 255; 255; 255; 255; 255; 255; 255;
   255; 255; 255; 255; 255; 255; 255; 255; 255; 255; 255; 255; 255; 255; 255; 255; 255; 255; 255;
   255; 255; 255; 255; 255; 255; 255; 255; 255; 255; 255; 255; 255; 255; 255].

Definition color_tYY : list Z :=
  [0; 2; 5; 7; 9; 12; 14; 16; 19; 21; 23; 26; 28; 30; 33; 35; 37; 40; 42; 44; 47; 49; 51; 54; 56;
   58; 61; 63; 65; 68; 70; 72; 75; 77; 79; 82; 84; 86; 88; 91; 93; 95; 98; 100; 102; 105; 107;
   109; 112; 114; 116; 119; 121; 123; 126; 128; 130; 133; 135; 137; 140; 142; 144; 147; 149; 151;
   154; 156; 158; 161; 163; 165; 168; 170; 172; 175; 177; 179; 182; 184; 186; 189; 191; 193; 196;
   198; 200; 203; 205; 207; 210; 212; 214; 217; 219; 221; 224; 226; 228; 231; 233; 235; 238; 240;
   242; 245; 247; 249; 252; 254; 256; 258; 261; 263; 265; 268; 270; 272; 275; 277; 279; 282; 284;
   286; 289; 291; 293; 296; 298; 300; 303; 305; 307; 310; 312; 314; 317; 319; 321; 324; 326; 328;
   331; 333; 335; 338; 340; 342; 345; 347; 349; 352; 354; 356; 359; 361; 363; 366; 368; 370; 373;
   375; 377; 380; 382; 384; 387; 389; 391; 394; 396; 398; 401; 403; 405; 408; 410; 412; 415; 417;
   419; 422; 424; 426; 428; 431; 433; 435; 438; 440; 442; 445; 447; 449; 452; 454; 456; 459; 461;
   463; 466; 468; 470; 473; 475; 477; 480; 482; 484; 487; 489; 491; 494; 496; 498; 501; 503; 505;
   508; 510; 512; 515; 517; 519; 522; 524; 526; 529; 531; 533; 536; 538; 540; 543; 545; 547; 550;
   552; 554; 557; 559; 561; 564; 566; 568; 571; 573; 575; 578; 580; 582; 585; 587; 589; 592; 594].

Definition color_tRV : list Z :=
  [0; 3; 6; 10; 13; 16; 19; 22; 26; 29; 32; 35; 38; 42; 45; 48; 51; 54; 57; 61; 64; 67; 70; 73;
   77; 80; 83; 86; 89; 93; 96; 99; 102; 105; 109; 112; 115; 118; 121; 125; 128; 131; 134; 137;
   141; 144; 147; 150; 153; 156; 160; 163; 166; 169; 172; 176; 179; 182; 185; 188; 192; 195; 198;
   201; 204; 208; 211; 214; 217; 220; 224; 227; 230; 233; 236; 239; 243; 246; 249; 252; 255; 259;
   262; 265; 268; 271; 275; 278; 281; 284; 287; 291; 294; 297; 300; 303; 307; 310; 313; 316; 319;
   323; 326; 329; 332; 335; 338; 342; 345; 348; 351; 354; 358; 361; 364; 367; 370; 374; 377; 380;
   383; 386; 390; 393; 396; 399; 402; 406; 409; 412; 415; 418; 422; 425; 428; 431; 434; 437; 441;
   444; 447; 450; 453; 457; 460; 463; 466; 469; 473; 476; 479; 482; 485; 489; 492; 495; 498; 501;
   505; 508; 511; 514; 517; 520; 524; 527; 530; 533; 536; 540; 543; 546; 549; 552; 556; 559; 562;
   565; 568; 572; 575; 578; 581; 584; 588; 591; 594; 597; 600; 604; 607; 610; 613; 616; 619; 623;
   626; 629; 632; 635; 639; 642; 645; 648; 651; 655; 658; 661; 664; 667; 671; 674; 677; 680; 683;
   687; 690; 693; 696; 699; 703; 706; 709; 712; 715; 718; 722; 725; 728; 731; 734; 738; 741; 744;
   747; 750; 754; 757; 760; 763; 766; 770; 773; 776; 779; 782; 786; 789; 792; 795; 798; 801; 805;
   808; 811; 814].

Definition color_tGU : list Z :=
  [271; 270; 270; 269; 268; 267; 267; 266; 265; 264; 263; 263; 262; 261; 260; 260; 259; 258; 257;
   256; 256; 255; 254; 253; 252; 252; 251; 250; 249; 249; 248; 247; 246; 245; 245; 244; 243; 242;
   241; 241; 240; 239; 238; 238; 237; 236; 235; 234; 234; 233; 232; 231; 231; 230; 229; 228; 227;
   227; 226; 225; 224; 223; 223; 222; 221; 220; 220; 219; 218; 217; 216; 216; 215; 214; 213; 212;
   212; 211; 210; 209; 209; 208; 207; 206; 205; 205; 204; 203; 202; 201; 201; 200; 199; 198; 198;
   197; 196; 195; 194; 194; 193; 192; 191; 191; 190; 189; 188; 187; 187; 186; 185; 184; 183; 183;
   182; 181; 180; 180; 179; 178; 177; 176; 176; 175; 174; 173; 172; 172; 171; 170; 169; 169; 168;
   167; 166; 165; 165; 164; 163; 162; 162; 161; 160; 159; 158; 158; 157; 156; 155; 154; 154; 153;
   152; 151; 151; 150; 149; 148; 147; 147; 146; 145; 144; 143; 143; 142; 141; 140; 140; 139; 138;
   137; 136; 136; 135; 134; 133; 133; 132; 131; 130; 129; 129; 128; 127; 126; 125; 125; 124; 123;
   122; 122; 121; 120; 119; 118; 118; 117; 116; 115; 114; 114; 113; 112; 111; 111; 110; 109; 108;
   107; 107; 106; 105; 104; 103; 103; 102; 101; 100; 100; 99; 98; 97; 96; 96; 95; 94; 93; 93; 92;
   91; 90; 89; 89; 88; 87; 86; 85; 85; 84; 83; 82; 82; 81; 80; 79; 78; 78; 77; 76; 75; 74; 74;
   73; 72; 71].

Definition color_tGV : list Z :=
  [0; 2; 3; 5; 7; 8; 10; 11; 13; 15; 16; 18; 20; 21; 23; 24; 26; 28; 29; 31; 33; 34; 36; 37; 39;
   41; 42; 44; 46; 47; 49; 50; 52; 54; 55; 57; 59; 60; 62; 63; 65; 67; 68; 70; 72; 73; 75; 76;
   78; 80; 81; 83; 85; 86; 88; 89; 91; 93; 94; 96; 98; 99; 101; 102; 104; 106; 107; 109; 111;
   112; 114; 115; 117; 119; 120; 122; 124; 125; 127; 128; 130; 132; 133; 135; 137; 138; 140; 141;
   143; 145; 146; 148; 150; 151; 153; 155; 156; 158; 159; 161; 163; 164; 166; 168; 169; 171; 172;
   174; 176; 177; 179; 181; 182; 184; 185; 187; 189; 190; 192; 194; 195; 197; 198; 200; 202; 203;
   205; 207; 208; 210; 211; 213; 215; 216; 218; 220; 221; 223; 224; 226; 228; 229; 231; 233; 234;
   236; 237; 239; 241; 242; 244; 246; 247; 249; 250; 252; 254; 255; 257; 259; 260; 262; 263; 265;
   267; 268; 270; 272; 273; 275; 276; 278; 280; 281; 283; 285; 286; 288; 289; 291; 293; 294; 296;
   298; 299; 301; 303; 304; 306; 307; 309; 311; 312; 314; 316; 317; 319; 320; 322; 324; 325; 327;
   329; 330; 332; 333; 335; 337; 338; 340; 342; 343; 345; 346; 348; 350; 351; 353; 355; 356; 358;
   359; 361; 363; 364; 366; 368; 369; 371; 372; 374; 376; 377; 379; 381; 382; 384; 385; 387; 389;
   390; 392; 394; 395; 397; 398; 400; 402; 403; 405; 407; 408; 410; 411; 413; 415].

Definition color_tBU : list Z :=
  [0; 4; 8; 12; 16; 20; 24; 28; 32; 36; 40; 44; 48; 52; 57; 61; 65; 69; 73; 77; 81; 85; 89; 93;
   97; 101; 105; 109; 113; 117; 121; 125; 129; 133; 137; 141; 145; 149; 153; 157; 161; 166; 170;
   174; 178; 182; 186; 190; 194; 198; 202; 206; 210; 214; 218; 222; 226; 230; 234; 238; 242; 246;
   250; 254; 258; 262; 266; 270; 275; 279; 283; 287; 291; 295; 299; 303; 307; 311; 315; 319; 323;
   327; 331; 335; 339; 343; 347; 351; 355; 359; 363; 367; 371; 375; 379; 383; 388; 392; 396; 400;
   404; 408; 412; 416; 420; 424; 428; 432; 436; 440; 444; 448; 452; 456; 460; 464; 468; 472; 476;
   480; 484; 488; 492; 497; 501; 505; 509; 513; 517; 521; 525; 529; 533; 537; 541; 545; 549; 553;
   557; 561; 565; 569; 573; 577; 581; 585; 589; 593; 597; 601; 606; 610; 614; 618; 622; 626; 630;
   634; 638; 642; 646; 650; 654; 658; 662; 666; 670; 674; 678; 682; 686; 690; 694; 698; 702; 706;
   710; 715; 719; 723; 727; 731; 735; 739; 743; 747; 751; 755; 759; 763; 767; 771; 775; 779; 783;
   787; 791; 795; 799; 803; 807; 811; 815; 819; 824; 828; 832; 836; 840; 844; 848; 852; 856; 860;
   864; 868; 872; 876; 880; 884; 888; 892; 896; 900; 904; 908; 912; 916; 920; 924; 928; 933; 937;
   941; 945; 949; 953; 957; 961; 965; 969; 973; 977; 981; 985; 989; 993; 997; 1001; 1005; 1009;
   1013; 1017; 1021; 1025; 1029].

(** ** Pixels *)

(** [TCLAMP_U8(val, d[i])]: the table has its zero at 288 * 2. *)
Definition TCLAMP_U8 (val : Z) (d : list Z) (i : Z) : option (list Z) :=
  c ← ld color_tClip (288 * 2 + val); st d i c.

Definition SCLAMP_U8_value (s : Z) : Z :=
  let v := s in
  let mask := (v - 0x1fe) >> 31 in
  (((u32 v >> 1) .| Z.lnot mask) .& Z.lnot (v >> 31)) mod 256.

Definition SCLAMP_U8 (s : Z) (d : list Z) (i : Z) : option (list Z) := st d i (SCLAMP_U8_value s).

Definition BBi : Z := 554.
Definition RRi : Z := 446.

(** The part of chroma in red, green and blue. *)
Definition chroma (sf1 sf2 : Z) : option (Z * Z * Z) :=
  rv ← ld color_tRV sf2;
  gu ← ld color_tGU sf1;
  gv ← ld color_tGV sf2;
  bu ← ld color_tBU sf1;
  Some (rv - RRi, gu - gv, bu - BBi).

(** The colours of two by two pixels. *)
Definition put_colours (sf1 sf2 sf01 sf03 sf02 sf04 : Z) (d : list Z) (da1 da2 : Z) : option (list Z) :=
  '(sfr, sfg, sfb) ← chroma sf1 sf2;
  sf01 ← ld color_tYY sf01;
  sf03 ← ld color_tYY sf03;
  sf02 ← ld color_tYY sf02;
  sf04 ← ld color_tYY sf04;
  d ← TCLAMP_U8 (sf01 + sfr) d (da1 + 2);
  d ← TCLAMP_U8 (sf01 + sfg) d (da1 + 1);
  d ← SCLAMP_U8 (sf01 + sfb) d (da1 + 0);
  d ← TCLAMP_U8 (sf03 + sfr) d (da1 + 6);
  d ← TCLAMP_U8 (sf03 + sfg) d (da1 + 5);
  d ← SCLAMP_U8 (sf03 + sfb) d (da1 + 4);
  d ← TCLAMP_U8 (sf02 + sfr) d (da2 + 2);
  d ← TCLAMP_U8 (sf02 + sfg) d (da2 + 1);
  d ← SCLAMP_U8 (sf02 + sfb) d (da2 + 0);
  d ← TCLAMP_U8 (sf04 + sfr) d (da2 + 6);
  d ← SCLAMP_U8 (sf04 + sfg) d (da2 + 5);
  TCLAMP_U8 (sf04 + sfb) d (da2 + 4).

(** The alpha of two by two pixels, from its plane or opaque. *)
Definition put_alpha (a : option Plane) (d : list Z) (da1 da2 a_col1 a_col2 : Z) : option (list Z) :=
  match a with
  | Some a =>
      a0 ← ld (pl_bytes a) a_col1; d ← st d (da1 + 3) a0;
      a1 ← ld (pl_bytes a) (a_col1 + 1); d ← st d (da1 + 7) a1;
      a2 ← ld (pl_bytes a) a_col2; d ← st d (da2 + 3) a2;
      a3 ← ld (pl_bytes a) (a_col2 + 1); st d (da2 + 7) a3
  | None =>
      d ← st d (da2 + 7) 0xff; d ← st d (da2 + 3) 0xff; d ← st d (da1 + 7) 0xff; st d (da1 + 3) 0xff
  end.

(** ** Pictures in planes *)

(** The variables of the loop over the columns. *)
Record Columns := mkColumns {
  c_dst : list Z;
  say1 : Z;
  say2 : Z;
  sau : Z;
  sav : Z;
  da1 : Z;
  da2 : Z;
  a_col1 : Z;
  a_col2 : Z;
}.

Section Planar.
Context (bgra_stride width height : Z) (y v u : Plane) (a : option Plane).

Definition next_columns (s : Columns) : option Columns :=
  sf1 ← ld (pl_bytes u) (sau s);
  sf2 ← ld (pl_bytes v) (sav s);
  sf01 ← ld (pl_bytes y) (say1 s);
  sf03 ← ld (pl_bytes y) (say1 s + 1);
  sf02 ← ld (pl_bytes y) (say2 s);
  sf04 ← ld (pl_bytes y) (say2 s + 1);
  d ← put_colours sf1 sf2 sf01 sf03 sf02 sf04 (c_dst s) (da1 s) (da2 s);
  d ← put_alpha a d (da1 s) (da2 s) (a_col1 s) (a_col2 s);
  Some (mkColumns d (say1 s + 2) (say2 s + 2) (sau s + 1) (sav s + 1) (da1 s + 8) (da2 s + 8)
    (a_col1 s + 2) (a_col2 s + 2)).

(** The pointers to the rows are those of [Rows]. *)
Definition next_lines_c (r : Rows) : option Rows :=
  s ← for_ (Z.to_nat (width >> 1)) next_columns
        (mkColumns (s_dst r) (pY1 r) (pY2 r) (pU r) (pV r) (pD1 r) (pD2 r) (pA1 r) (pA2 r));
  Some (mkRows (c_dst s) (pY1 r + i32 (2 * pl_stride y)) (pY2 r + i32 (2 * pl_stride y)) (pU r + pl_stride u)
    (pV r + pl_stride v) (pA1 r + i32 (stride_of a << 1)) (pA2 r + i32 (stride_of a << 1))
    (pD1 r + i32 (2 * bgra_stride)) (pD2 r + i32 (2 * bgra_stride))).

Definition convert_c (d : list Z) : option (Z * list Z) :=
  if (width <=? 0) || (height <=? 0) then Some (1, d) else
  if truth ((width .| height) .& 1) then Some (1, d) else
  r ← for_ (Z.to_nat (height >> 1)) next_lines_c
        (mkRows d 0 (pl_stride y) 0 0 0 (stride_of a) 0 bgra_stride);
  Some (0, s_dst r).
End Planar.

(** A null pointer is [None]; [a] is not tested. *)
Definition c_YCbCr420p_to_BGRA32 (bgra : option (list Z)) (bgra_stride width height : Z)
    (y v u : option Plane) (a : Plane) : option (Z * option (list Z)) :=
  match bgra, y, u, v with
  | Some d, Some y, Some u, Some v =>
      '(r, d) ← convert_c bgra_stride width height y v u (Some a) d; Some (r, Some d)
  | _, _, _, _ => Some (1, bgra)
  end.

Definition c_YCbCr420p_to_BGRA32_no_alpha (bgra : option (list Z)) (bgra_stride width height : Z)
    (y v u : option Plane) : option (Z * option (list Z)) :=
  match bgra, y, u, v with
  | Some d, Some y, Some u, Some v =>
      '(r, d) ← convert_c bgra_stride width height y v u None d; Some (r, Some d)
  | _, _, _, _ => Some (1, bgra)
  end.

(** Not implemented. *)
Definition c_YCbCr420p_to_ARGB32 (argb : option (list Z)) : option (Z * option (list Z)) := Some (1, argb).
Definition c_YCbCr420p_to_ARGB32_no_alpha (argb : option (list Z)) : option (Z * option (list Z)) := Some (1, argb).
Definition ColorConvert_YCbCr422p_to_ARGB32_no_alpha (argb : option (list Z)) : option (Z * option (list Z)) :=
  Some (1, argb).

(** ** Packed pictures *)

Record Packed := mkPacked {
  p_dst : list Z;
  p_y : Z;
  p_u : Z;
  p_v : Z;
  p_d : Z;
}.

Section PackedPictures.
Context (bgra_stride width height : Z) (y v u : list Z) (y_stride uv_stride : Z).

Definition next_pair (s : Packed) : option Packed :=
  sf1 ← ld u (p_u s);
  sf2 ← ld v (p_v s);
  sf01 ← ld y (p_y s);
  sf03 ← ld y (p_y s + 2);
  '(sfr, sfg, sfb) ← chroma sf1 sf2;
  sf01 ← ld color_tYY sf01;
  sf03 ← ld color_tYY sf03;
  d ← TCLAMP_U8 (sf01 + sfr) (p_dst s) (p_d s + 2);
  d ← TCLAMP_U8 (sf01 + sfg) d (p_d s + 1);
  d ← SCLAMP_U8 (sf01 + sfb) d (p_d s + 0);
  d ← TCLAMP_U8 (sf03 + sfr) d (p_d s + 6);
  d ← TCLAMP_U8 (sf03 + sfg) d (p_d s + 5);
  d ← SCLAMP_U8 (sf03 + sfb) d (p_d s + 4);
  d ← st d (p_d s + 7) 0xff;
  d ← st d (p_d s + 3) 0xff;
  Some (mkPacked d (p_y s + 4) (p_u s + 4) (p_v s + 4) (p_d s + 8)).

Definition next_line_packed (s : Packed) : option Packed :=
  r ← for_ (Z.to_nat (width >> 1)) next_pair s;
  Some (mkPacked (p_dst r) (p_y s + y_stride) (p_u s + uv_stride) (p_v s + uv_stride) (p_d s + bgra_stride)).

Definition convert_packed (d : list Z) : option (Z * list Z) :=
  if (width <=? 0) || (height <=? 0) then Some (1, d) else
  if truth (width .& 1) then Some (1, d) else
  s ← for_ (Z.to_nat height) next_line_packed (mkPacked d 0 0 0 0);
  Some (0, p_dst s).
End PackedPictures.

Definition ColorConvert_YCbCr422p_to_BGRA32_no_alpha (bgra : option (list Z)) (bgra_stride width height : Z)
    (y v u : option (list Z)) (y_stride uv_stride : Z) : option (Z * option (list Z)) :=
  match bgra, y, u, v with
  | Some d, Some y, Some u, Some v =>
      '(r, d) ← convert_packed bgra_stride width height y v u y_stride uv_stride d; Some (r, Some d)
  | _, _, _, _ => Some (1, bgra)
  end.
