(* ===== verification/ColorBlocks.v ===== *)
(** * What a block of the conversion computes

    The colour of a pixel by the arithmetic of the registers, the same without wrap-around,
    and, for each of the blocks of the four functions, that it gives the pixels. *)

From S2P Require Import Prelude.
From S2P Require Import Mem.
From S2P Require Import Sse2.
From S2P Require Import ColorSse2.

Open Scope Z_scope.

(** ** The colour of a pixel *)

(** ITU-R BT.601 in multiples of 1/32, each product rounded down. *)
Definition luma (y : Z) : Z := y * 9539 / 256.
Definition ycc_r (y v : Z) : Z := sat8 ((luma y + (v * 13079 / 256 - 7136)) / 32).
Definition ycc_g (y u v : Z) : Z := sat8 ((luma y + (4340 - (u * 3211 / 256 + v * 6662 / 256))) / 32).
Definition ycc_b (y u : Z) : Z := sat8 ((luma y + (u * 16535 / 256 - 8864)) / 32).

(** A channel weighted by alpha. *)
Definition premultiplied (c a : Z) : Z := c * (a + 1) / 256.

(** The bytes of a pixel, in each of the formats. *)
Definition argb (y u v a : Z) : list Z := [a; ycc_r y v; ycc_g y u v; ycc_b y u].
Definition argb_opaque (y u v _a : Z) : list Z := [255; ycc_r y v; ycc_g y u v; ycc_b y u].
Definition bgra (y u v a : Z) : list Z :=
  [premultiplied (ycc_b y u) a; premultiplied (ycc_g y u v) a; premultiplied (ycc_r y v) a; a].
Definition bgra_opaque (y u v _a : Z) : list Z := [ycc_b y u; ycc_g y u v; ycc_r y v; 255].

(** ** The arithmetic of the registers *)

(** A channel of a pixel: the product for luma and the part [c] of chroma. *)
Definition reg_channel (y c : Z) : Z :=
  sat8 (s16 (u16 (s16 (u16 (u16 ((word 0 y * u16 0x2543) >> 16) + c)) >> 5))).
Definition reg_b (u : Z) : Z := u16 (u16 ((word 0 u * u16 0x4097) >> 16) + u16 0xdd60).
Definition reg_g (u v : Z) : Z :=
  u16 (u16 0x10f4 - u16 (u16 ((word 0 u * u16 0xc8b) >> 16) + u16 ((word 0 v * u16 0x1a06) >> 16))).
Definition reg_r (v : Z) : Z := u16 (u16 ((word 0 v * u16 0x3317) >> 16) + u16 0xe420).
Definition reg_premultiplied (c a : Z) : Z :=
  sat8 (s16 (u16 (u16 (word c 0 * u16 (word a 0 + u16 0x0001)) >> 8))).

Lemma mulhi_byte b k : is_byte b -> 0 <= k < 65536 -> u16 ((word 0 b * u16 k) >> 16) = b * k / 256.
Proof.
  unfold is_byte. intros. unfold word, u16. rewrite (Z.mod_small k) by lia. rewrite Z.shiftr_div_pow2 by lia.
  change (2 ^ 16) with (256 * 256). rewrite <- Z.div_div by lia.
  replace ((0 + 256 * b) * k) with (b * k * 256) by lia. rewrite Z.div_mul by lia.
  apply Z.mod_small. split; [apply Z.div_pos; nia|]. apply Z.div_lt_upper_bound; nia.
Qed.

(** A sum that fits in 16 bits with a sign. *)
Lemma channel_fits y c c' :
  is_byte y -> u16 c = u16 c' -> -16384 <= c' < 16384 -> reg_channel y (u16 c) = sat8 ((luma y + c') / 32).
Proof.
  intros Hy -> Hc. unfold reg_channel. rewrite mulhi_byte by (done || lia). fold (luma y).
  assert (0 <= luma y < 9502) as Hl by (unfold luma, is_byte in *; zlia).
  assert (s16 (u16 (luma y + u16 c')) = luma y + c') as ->.
  { unfold s16, u16. rewrite Zplus_mod_idemp_r. zcase; zlia. }
  rewrite Z.shiftr_div_pow2 by lia. change (2 ^ 5) with 32. f_equal.
  set (w := (luma y + c') / 32). assert (-1024 <= w < 1024) by (unfold w; zlia).
  clearbody w. unfold s16, u16. zcase; zlia.
Qed.

Lemma reg_b_ok y u : is_byte y -> is_byte u -> reg_channel y (reg_b u) = ycc_b y u.
Proof.
  intros Hy Hu. unfold reg_b. rewrite mulhi_byte by (done || lia).
  apply channel_fits; [done| |unfold is_byte in *; zlia].
  unfold u16. rewrite Zplus_mod_idemp_r. change 0xdd60 with (65536 - 8864). zlia.
Qed.

Lemma reg_r_ok y v : is_byte y -> is_byte v -> reg_channel y (reg_r v) = ycc_r y v.
Proof.
  intros Hy Hv. unfold reg_r. rewrite mulhi_byte by (done || lia).
  apply channel_fits; [done| |unfold is_byte in *; zlia].
  unfold u16. rewrite Zplus_mod_idemp_r. change 0xe420 with (65536 - 7136). zlia.
Qed.

Lemma reg_g_ok y u v : is_byte y -> is_byte u -> is_byte v -> reg_channel y (reg_g u v) = ycc_g y u v.
Proof.
  intros Hy Hu Hv. unfold reg_g. rewrite !mulhi_byte by (done || lia).
  apply channel_fits; [done| |unfold is_byte in *; zlia].
  unfold u16. by rewrite Zminus_mod_idemp_r, Zminus_mod_idemp_l.
Qed.

Lemma ycc_byte z : is_byte (sat8 z).
Proof. unfold sat8, is_byte. zcase; lia. Qed.

Lemma reg_premultiplied_ok c a : is_byte c -> is_byte a -> reg_premultiplied c a = premultiplied c a.
Proof.
  unfold is_byte. intros Hc Ha. unfold reg_premultiplied, premultiplied, word.
  assert (u16 (a + 256 * 0 + u16 1) = a + 1) as -> by (unfold u16; zlia).
  assert (u16 ((c + 256 * 0) * (a + 1)) = c * (a + 1)) as ->.
  { unfold u16. rewrite Z.mul_0_r, Z.add_0_r. apply Z.mod_small. nia. }
  rewrite Z.shiftr_div_pow2 by lia. change (2 ^ 8) with 256.
  assert (0 <= c * (a + 1) / 256 < 256). { split; [apply Z.div_pos; nia|apply Z.div_lt_upper_bound; nia]. }
  set (w := c * (a + 1) / 256) in *. clearbody w. unfold s16, u16. rewrite Z.mod_small by lia.
  rewrite (proj2 (Z.ltb_lt w 32768)) by lia. unfold sat8. zcase; lia.
Qed.

(** The products with numbers of C. *)
Lemma scalar_b u : is_byte u -> u16 (icoff0 + ((u * ic1) >> 8)) = reg_b u.
Proof.
  intros Hu. unfold reg_b. rewrite mulhi_byte by (done || lia). rewrite Z.shiftr_div_pow2 by lia.
  unfold ic1, u16. rewrite Zplus_mod_idemp_r. change icoff0 with (0xdd60 - 65536). change (2 ^ 8) with 256. zlia.
Qed.

Lemma scalar_r v : is_byte v -> u16 (((v * ic8) >> 8) + icoff2) = reg_r v.
Proof.
  intros Hv. unfold reg_r. rewrite mulhi_byte by (done || lia). rewrite Z.shiftr_div_pow2 by lia.
  unfold ic8, u16. rewrite Zplus_mod_idemp_r. change icoff2 with (0xe420 - 65536). change (2 ^ 8) with 256. zlia.
Qed.

Lemma scalar_g u v : is_byte u -> is_byte v ->
  u16 (icoff1 - (((u * ic4) >> 8) + ((v * ic5) >> 8))) = reg_g u v.
Proof.
  intros Hu Hv. unfold reg_g. rewrite !mulhi_byte by (done || lia). rewrite !Z.shiftr_div_pow2 by lia.
  unfold u16. rewrite Zminus_mod_idemp_r, Zminus_mod_idemp_l. done.
Qed.

(** ** Blocks *)

(** Pixel [i] of a row, given by the bytes of the planes; chroma is shared by two pixels. *)
Definition pixels (fmt : Z -> Z -> Z -> Z -> list Z) (y u v a : Z -> Z) (i : Z) : list Z :=
  fmt (y i) (u (i / 2)) (v (i / 2)) (a i).

(** Four pixels in a register. *)
Definition quad (p : Z -> list Z) (k : Z) : m128i := p k ++ p (k + 1) ++ p (k + 2) ++ p (k + 3).

Definition quads (p1 p2 : Z -> list Z) (ks : list Z) : list (m128i * m128i) :=
  map (fun k => (quad p1 k, quad p2 k)) ks.

Definition half (f : Z -> Z) : m128i := run 8 f ++ replicate 8 0.
Definition four (f : Z -> Z) : Z := le4 (f 0) (f 1) (f 2) (f 3).
Definition two (f : Z -> Z) : Z := le2 (f 0) (f 1).

(** What the blocks of a function promise to the loops: given the bytes of the planes they
    compute the pixels in the format.  [has] tells whether the function has an alpha plane. *)
Class Computes (K : Kernels) (fmt : Z -> Z -> Z -> Z -> list Z) (has : bool) : Prop := {
  computes16 u v y1 y2 a1 a2 :
    (forall i, is_byte (u i)) -> (forall i, is_byte (v i)) -> (forall i, is_byte (y1 i)) ->
    (forall i, is_byte (y2 i)) -> (forall i, is_byte (a1 i)) -> (forall i, is_byte (a2 i)) ->
    k16 K (half u) (half v) (run 16 y1) (run 16 y2) (if has then run 16 a1 else []) (if has then run 16 a2 else []) =
    quads (pixels fmt y1 u v a1) (pixels fmt y2 u v a2) [0; 4; 8; 12];
  computes8 u v y1 y2 a1 a2 :
    (forall i, is_byte (u i)) -> (forall i, is_byte (v i)) -> (forall i, is_byte (y1 i)) ->
    (forall i, is_byte (y2 i)) -> (forall i, is_byte (a1 i)) -> (forall i, is_byte (a2 i)) ->
    k8 K (four u) (four v) (half y1) (half y2) (if has then half a1 else []) (if has then half a2 else []) =
    quads (pixels fmt y1 u v a1) (pixels fmt y2 u v a2) [0; 4];
  computes4 u v y1 y2 a1 a2 :
    (forall i, is_byte (u i)) -> (forall i, is_byte (v i)) -> (forall i, is_byte (y1 i)) ->
    (forall i, is_byte (y2 i)) -> (forall i, is_byte (a1 i)) -> (forall i, is_byte (a2 i)) ->
    k4 K (two u) (two v) (four y1) (four y2) (if has then four a1 else 0) (if has then four a2 else 0) =
    quads (pixels fmt y1 u v a1) (pixels fmt y2 u v a2) [0];
  computes2 u v y1 y2 a1 a2 :
    (forall i, is_byte (u i)) -> (forall i, is_byte (v i)) -> (forall i, is_byte (y1 i)) ->
    (forall i, is_byte (y2 i)) -> (forall i, is_byte (a1 i)) -> (forall i, is_byte (a2 i)) ->
    exists r1 r2,
      k2 K (u 0) (v 0) (two y1) (two y2) (if has then two a1 else 0) (if has then two a2 else 0) = [(r1, r2)] /\
      take 8 r1 = pixels fmt y1 u v a1 0 ++ pixels fmt y1 u v a1 1 /\
      take 8 r2 = pixels fmt y2 u v a2 0 ++ pixels fmt y2 u v a2 1;
  computes_four y u v a : length (fmt y u v a) = 4%nat;
}.

(** The registers as lists of expressions for their bytes. *)
Ltac run_lanes :=
  cbv [quads quad half run map seq replicate _mm_setzero_si128 _mm_set1_epi8 _mm_set1_epi16 lanes16 of_words words
    zip_with interleave take drop app _mm_add_epi16 _mm_sub_epi16 _mm_mulhi_epu16 _mm_mullo_epi16 _mm_srai_epi16
    _mm_srli_epi16 _mm_packus_epi16 _mm_unpacklo_epi8 _mm_unpackhi_epi8 _mm_unpacklo_epi16 _mm_unpackhi_epi16
    _mm_unpacklo_epi32 _mm_unpackhi_epi32 _mm_unpacklo_epi64 _mm_unpackhi_epi64 _mm_srli_si128 _mm_cvtsi32_si128
    PREMULTIPLY_ALPHA x_c0 x_c1 x_c4 x_c5 x_c8 x_coff0 x_coff1 x_coff2 x_zero x_one x_aa
    pixels argb argb_opaque bgra bgra_opaque Z.of_nat Pos.of_succ_nat Pos.succ].

Lemma le4_byte0 b0 b1 b2 b3 : is_byte b0 -> is_byte b1 -> is_byte b2 -> is_byte b3 -> u32 (le4 b0 b1 b2 b3) mod 256 = b0.
Proof. intros. rewrite u32_le4 by done. unfold is_byte in *. zlia. Qed.
Lemma le4_byte1 b0 b1 b2 b3 : is_byte b0 -> is_byte b1 -> is_byte b2 -> is_byte b3 ->
  u32 (le4 b0 b1 b2 b3) / 256 mod 256 = b1.
Proof. intros. rewrite u32_le4 by done. unfold is_byte in *. zlia. Qed.
Lemma le4_byte2 b0 b1 b2 b3 : is_byte b0 -> is_byte b1 -> is_byte b2 -> is_byte b3 ->
  u32 (le4 b0 b1 b2 b3) / 65536 mod 256 = b2.
Proof. intros. rewrite u32_le4 by done. unfold is_byte in *. zlia. Qed.
Lemma le4_byte3 b0 b1 b2 b3 : is_byte b0 -> is_byte b1 -> is_byte b2 -> is_byte b3 ->
  u32 (le4 b0 b1 b2 b3) / 16777216 = b3.
Proof. intros. rewrite u32_le4 by done. unfold is_byte in *. zlia. Qed.
Lemma le2_byte0 b0 b1 : is_byte b0 -> is_byte b1 -> u32 (le2 b0 b1) mod 256 = b0.
Proof. intros. rewrite u32_le2 by done. unfold is_byte in *. zlia. Qed.
Lemma le2_byte1 b0 b1 : is_byte b0 -> is_byte b1 -> u32 (le2 b0 b1) / 256 mod 256 = b1.
Proof. intros. rewrite u32_le2 by done. unfold is_byte in *. zlia. Qed.

(** Bytes that are put together again. *)
Ltac collapse :=
  unfold four, two;
  rewrite ?word_u16, ?le2_pair, ?le4_byte0, ?le4_byte1, ?le4_byte2, ?le4_byte3, ?le2_byte0, ?le2_byte1,
    ?scalar_b, ?scalar_r, ?scalar_g by auto.

(** One byte of a register. *)
Ltac channel :=
  lazymatch goal with
  | |- context [ycc_b ?y ?u] => rewrite <- (reg_b_ok y u) by auto
  | |- context [ycc_g ?y ?u ?v] => rewrite <- (reg_g_ok y u v) by auto
  | |- context [ycc_r ?y ?v] => rewrite <- (reg_r_ok y v) by auto
  | |- _ => idtac
  end.
Ltac lane :=
  lazymatch goal with
  | |- _ = premultiplied ?c ?a => rewrite <- (reg_premultiplied_ok c a) by (apply ycc_byte || auto); channel
  | |- _ => collapse; channel
  end; unfold reg_premultiplied, reg_channel, reg_b, reg_g, reg_r; reflexivity.

Ltac bytes_of_lanes :=
  run_lanes;
  repeat match goal with
  | |- cons _ _ = cons _ _ => apply (f_equal2 cons)
  | |- pair _ _ = pair _ _ => apply (f_equal2 pair)
  end.

Ltac by_lanes := bytes_of_lanes; lane.

(** The colours before and after they are weighted by alpha are simplified first: the bytes
    of a lane repeat its expression, which grows with the number of operations. *)
Ltac by_weighted_lanes :=
  cbv zeta;
  repeat match goal with
  | |- context [PREMULTIPLY_ALPHA (_mm_packus_epi16 ?a ?b) ?x] =>
      eassert (_mm_packus_epi16 a b = _) as -> by (run_lanes; collapse; reflexivity)
  end;
  repeat match goal with
  | |- context [PREMULTIPLY_ALPHA ?l ?x] =>
      eassert (PREMULTIPLY_ALPHA l x = _) as -> by (run_lanes; collapse; reflexivity)
  end;
  bytes_of_lanes; lane.

#[export] Instance ARGB32_computes : Computes ARGB32_kernels argb true.
Proof.
  split; intros; cbn [k16 k8 k4 k2 ARGB32_kernels].
  - unfold ARGB32_16. by_lanes.
  - unfold ARGB32_8. by_lanes.
  - unfold ARGB32_4. by_lanes.
  - unfold ARGB32_2. do 2 eexists. split; [reflexivity|]. split; by_lanes.
  - done.
Qed.

#[export] Instance ARGB32_no_alpha_computes : Computes ARGB32_no_alpha_kernels argb_opaque false.
Proof.
  split; intros; cbn [k16 k8 k4 k2 ARGB32_no_alpha_kernels].
  - unfold ARGB32_no_alpha_16. by_lanes.
  - unfold ARGB32_no_alpha_8. by_lanes.
  - unfold ARGB32_no_alpha_4. by_lanes.
  - unfold ARGB32_no_alpha_2. do 2 eexists. split; [reflexivity|]. split; by_lanes.
  - done.
Qed.

#[export] Instance BGRA32_computes : Computes BGRA32_kernels bgra true.
Proof.
  split; intros; cbn [k16 k8 k4 k2 BGRA32_kernels].
  - unfold BGRA32_16. by_weighted_lanes.
  - unfold BGRA32_8. by_weighted_lanes.
  - unfold BGRA32_4. by_weighted_lanes.
  - unfold BGRA32_2. do 2 eexists. split; [reflexivity|]. split; by_weighted_lanes.
  - done.
Qed.

#[export] Instance BGRA32_no_alpha_computes : Computes BGRA32_no_alpha_kernels bgra_opaque false.
Proof.
  split; intros; cbn [k16 k8 k4 k2 BGRA32_no_alpha_kernels].
  - unfold BGRA32_no_alpha_16. by_lanes.
  - unfold BGRA32_no_alpha_8. by_lanes.
  - unfold BGRA32_no_alpha_4. by_lanes.
  - unfold BGRA32_no_alpha_2. do 2 eexists. split; [reflexivity|]. split; by_lanes.
  - done.
Qed.
