(* ===== verification/ColorPicture.v ===== *)
(** * Conversion of a picture with SSE2

    The loops over the rows and columns, for any blocks that compute the pixels of a format:
    the picture is the one that is defined pixel by pixel, and nothing else is changed. *)

From S2P Require Import Prelude.
From S2P Require Import Mem.
From S2P Require Import Sse2.
From S2P Require Import ColorSse2.
From S2P Require Import ColorBlocks.

Open Scope Z_scope.

(** Byte [k] of a row of pixels. *)
Definition row_byte (p : Z -> list Z) (k : Z) : Z := default 0 (p (k / 4) !! Z.to_nat (k mod 4)).

(** ** Stores of pixels *)

Lemma quad_length p k : (forall i, length (p i) = 4%nat) -> length (quad p k) = 16%nat.
Proof. intros Hp. unfold quad. by rewrite !length_app, !Hp. Qed.

Lemma quad_byte p c m :
  (forall i, length (p i) = 4%nat) -> 0 <= m < 16 ->
  default 0 (quad p c !! Z.to_nat m) = row_byte (fun i => p (c + i)) m.
Proof.
  intros Hp Hm. unfold row_byte, quad.
  assert (m / 4 = 0 \/ m / 4 = 1 \/ m / 4 = 2 \/ m / 4 = 3) as Hq by zlia.
  pose proof (Z.div_mod m 4). pose proof (Z.mod_pos_bound m 4).
  assert (0 <= m mod 4 < 4) by lia. set (q := m mod 4) in *.
  destruct Hq as [E|[E|[E|E]]]; rewrite E, ?Z.add_0_r;
    repeat (rewrite lookup_app_r by (rewrite ?Hp; lia)); rewrite ?Hp;
    try (rewrite lookup_app_l by (rewrite ?Hp; lia)); do 2 f_equal; lia.
Qed.

(** Two pixels. *)
Lemma pair_byte (q : Z -> list Z) m : (forall i, length (q i) = 4%nat) -> 0 <= m < 8 ->
  default 0 ((q 0 ++ q 1) !! Z.to_nat m) = row_byte q m.
Proof.
  intros Hq Hm. unfold row_byte. assert (m / 4 = 0 \/ m / 4 = 1) as [E|E] by zlia; rewrite E.
  - rewrite lookup_app_l by (rewrite Hq; zlia). do 2 f_equal. zlia.
  - rewrite lookup_app_r by (rewrite Hq; zlia). rewrite Hq. do 2 f_equal. zlia.
Qed.

(** Two rows of the picture, [c] pixels of each. *)
Definition two_rows (o1 o2 : Z) (p1 p2 : Z -> list Z) (d : list Z) (c : Z) : list Z :=
  row o2 (4 * c) (fun k _ => row_byte p2 k) (row o1 (4 * c) (fun k _ => row_byte p1 k) d).

Lemma two_rows_length o1 o2 p1 p2 d c : alen (two_rows o1 o2 p1 p2 d c) = alen d.
Proof. unfold two_rows, alen. by rewrite !length_row. Qed.

Lemma row_byte_shift p c k : row_byte (fun i => p (c + i)) k = row_byte p (4 * c + k).
Proof.
  unfold row_byte. replace (4 * c + k) with (k + c * 4) by lia. rewrite Z.div_add, Z_mod_plus_full by lia.
  by replace (k / 4 + c) with (c + k / 4) by lia.
Qed.

(** Stores of some pixels to both rows. *)
Lemma two_rows_store o1 o2 p1 p2 d c n l1 l2 :
  0 <= c -> 0 <= n -> 0 <= o1 -> o1 + 4 * (c + n) <= o2 -> o2 + 4 * (c + n) <= alen d ->
  alen l1 = 4 * n -> alen l2 = 4 * n ->
  (forall m, 0 <= m < 4 * n -> default 0 (l1 !! Z.to_nat m) = row_byte p1 (4 * c + m)) ->
  (forall m, 0 <= m < 4 * n -> default 0 (l2 !! Z.to_nat m) = row_byte p2 (4 * c + m)) ->
  exists d1, store_bytes (two_rows o1 o2 p1 p2 d c) (o1 + 4 * c) l1 = Some d1 /\
    store_bytes d1 (o2 + 4 * c) l2 = Some (two_rows o1 o2 p1 p2 d (c + n)).
Proof.
  intros Hc Hn Ho1 Ho2 Hd Hl1 Hl2 H1 H2. rewrite store_row by (rewrite ?two_rows_length; lia).
  eexists. split; [done|].
  rewrite store_row by (unfold alen; rewrite ?length_row; fold (alen (two_rows o1 o2 p1 p2 d c));
    rewrite ?two_rows_length; fold (alen l2); lia).
  f_equal. unfold two_rows. rewrite Hl1, Hl2. apply list_eq. intros i. rewrite !lookup_row.
  destruct (d !! i) as [x|] eqn:E; [cbn|done]. f_equal.
  set (k1 := Z.of_nat i - o1) in *. set (k2 := Z.of_nat i - o2) in *.
  replace (Z.of_nat i - (o1 + 4 * c)) with (k1 - 4 * c) by lia.
  replace (Z.of_nat i - (o2 + 4 * c)) with (k2 - 4 * c) by lia.
  assert (forall k m, (0 <=? k) && (k <? m) = bool_decide (0 <= k < m)) as Hb
    by (intros k m; case_bool_decide; zcase; done || lia).
  rewrite !Hb. destruct (decide (0 <= k2 - 4 * c < 4 * n)) as [Hin2|Hout2].
  - rewrite (bool_decide_eq_true_2 (0 <= k2 - 4 * c < 4 * n)), (bool_decide_eq_true_2 (0 <= k2 < 4 * (c + n))) by lia.
    rewrite H2 by lia. f_equal. lia.
  - rewrite (bool_decide_eq_false_2 (0 <= k2 - 4 * c < 4 * n)) by done.
    rewrite (bool_decide_ext (0 <= k2 < 4 * (c + n)) (0 <= k2 < 4 * c)) by lia.
    destruct (decide (0 <= k2 < 4 * c)) as [Hk2|Hk2].
    { rewrite (bool_decide_eq_false_2 (0 <= k1 - 4 * c < 4 * n)) by lia. by rewrite !bool_decide_eq_true_2 by done. }
    rewrite (bool_decide_eq_false_2 (0 <= k2 < 4 * c)) by done.
    destruct (decide (0 <= k1 - 4 * c < 4 * n)) as [Hin1|Hout1].
    + rewrite (bool_decide_eq_true_2 (0 <= k1 - 4 * c < 4 * n)), (bool_decide_eq_true_2 (0 <= k1 < 4 * (c + n))) by lia.
      rewrite H1 by lia. f_equal. lia.
    + rewrite (bool_decide_eq_false_2 (0 <= k1 - 4 * c < 4 * n)) by done.
      by rewrite (bool_decide_ext (0 <= k1 < 4 * (c + n)) (0 <= k1 < 4 * c)) by lia.
Qed.

(** ** Two rows of a picture *)

Section Row.
#[local] Set Default Proof Using "All".
Context (K : Kernels) (fmt : Z -> Z -> Z -> Z -> list Z) (has : bool) `{HK : Computes K fmt has}.
Context (dst_at width : Z) (y v u : Plane) (a : option Plane).
Context (Hhas : has = match a with Some _ => true | None => false end).
Context (Hy : Forall is_byte (pl_bytes y)) (Hu : Forall is_byte (pl_bytes u)) (Hv : Forall is_byte (pl_bytes v)).
Context (Ha : Forall is_byte (from_option pl_bytes [] a)).

Definition alpha_at (i : Z) : Z := byte_at (from_option pl_bytes [] a) i.

(** Pixel [i] of a row that begins at these offsets of the planes. *)
Definition pixel_from (oy ou ov oa i : Z) : list Z :=
  pixels fmt (fun i => byte_at (pl_bytes y) (oy + i)) (fun i => byte_at (pl_bytes u) (ou + i))
    (fun i => byte_at (pl_bytes v) (ov + i)) (fun i => alpha_at (oa + i)) i.

Context (W py1 py2 pu pv pa1 pa2 pd1 pd2 : Z) (d : list Z).
Context (Hwidth : 0 <= width <= 2147483647) (HW : W = 2 * (width / 2)).
Context (Hpy1 : 0 <= py1 /\ py1 + W <= alen (pl_bytes y)) (Hpy2 : 0 <= py2 /\ py2 + W <= alen (pl_bytes y)).
Context (Hpu : 0 <= pu /\ pu + W / 2 <= alen (pl_bytes u)) (Hpv : 0 <= pv /\ pv + W / 2 <= alen (pl_bytes v)).
Context (Hpa1 : has = true -> 0 <= pa1 /\ pa1 + W <= alen (from_option pl_bytes [] a)).
Context (Hpa2 : has = true -> 0 <= pa2 /\ pa2 + W <= alen (from_option pl_bytes [] a)).
Context (Hpd1 : 0 <= pd1 /\ pd1 + 4 * W <= pd2) (Hpd2 : pd2 + 4 * W <= alen d).
Context (Hdst : (dst_at + pd1) mod 16 = 0 /\ (dst_at + pd2) mod 16 = 0).
(** The rows of the planes are aligned where the planes are. *)
Context (Haligned : forall p o, p = y /\ (o = py1 \/ o = py2) \/ a = Some p /\ (o = pa1 \/ o = pa2) ->
  unaligned p = false -> (pl_at p + o) mod 16 = 0).

Definition p1 : Z -> list Z := pixel_from py1 pu pv pa1.
Definition p2 : Z -> list Z := pixel_from py2 pu pv pa2.

(** The state of the loop at column [c]. *)
Definition at_column (c : Z) : ColorSse2.Row :=
  mkRow (two_rows pd1 pd2 p1 p2 d c) c (pu + c / 2) (pv + c / 2) (py1 + c) (py2 + c) (pa1 + c) (pa2 + c)
    (pd1 + 4 * c) (pd2 + 4 * c).

Lemma pixel_length oy ou ov oa i : length (pixel_from oy ou ov oa i) = 4%nat.
Proof. unfold pixel_from, pixels. apply (computes_four (K := K) (has := has)). Qed.

(** The pixels from an even column on. *)
Lemma pixel_shift oy ou ov oa c i : c mod 2 = 0 ->
  pixel_from (oy + c) (ou + c / 2) (ov + c / 2) (oa + c) i = pixel_from oy ou ov oa (c + i).
Proof.
  intros Hc. unfold pixel_from, pixels. replace ((c + i) / 2) with (c / 2 + i / 2) by (clear - Hc; zlia).
  by rewrite !Z.add_assoc.
Qed.

Lemma store_quads c ks :
  c mod 4 = 0 -> 0 <= c -> c + 4 * Z.of_nat (length ks) <= W ->
  ks = map (fun k => 4 * Z.of_nat k) (seq 0 (length ks)) ->
  save_pairs dst_at (quads (fun i => p1 (c + i)) (fun i => p2 (c + i)) ks) (two_rows pd1 pd2 p1 p2 d c)
    (pd1 + 4 * c) (pd2 + 4 * c) =
  Some (two_rows pd1 pd2 p1 p2 d (c + 4 * Z.of_nat (length ks)), pd1 + 4 * (c + 4 * Z.of_nat (length ks)),
    pd2 + 4 * (c + 4 * Z.of_nat (length ks))).
Proof.
  intros Hc Hc0 Hle Hks.
  enough (forall n b, c + 4 * Z.of_nat (b + n) <= W ->
    save_pairs dst_at (quads (fun i => p1 (c + i)) (fun i => p2 (c + i)) (map (fun k => 4 * Z.of_nat k) (seq b n)))
      (two_rows pd1 pd2 p1 p2 d (c + 4 * Z.of_nat b)) (pd1 + 4 * (c + 4 * Z.of_nat b)) (pd2 + 4 * (c + 4 * Z.of_nat b)) =
    Some (two_rows pd1 pd2 p1 p2 d (c + 4 * Z.of_nat (b + n)), pd1 + 4 * (c + 4 * Z.of_nat (b + n)),
      pd2 + 4 * (c + 4 * Z.of_nat (b + n)))) as Hgen.
  { specialize (Hgen (length ks) 0%nat). rewrite <- Hks in Hgen. cbn [Z.of_nat] in Hgen.
    rewrite Z.mul_0_r, Z.add_0_r in Hgen. by apply Hgen. }
  clear Hks Hle. induction n as [|n IH]; intros b Hb; cbn [seq map quads save_pairs].
  { by rewrite Nat.add_0_r. }
  set (cb := c + 4 * Z.of_nat b) in *.
  destruct (two_rows_store pd1 pd2 p1 p2 d cb 4 (quad (fun i => p1 (c + i)) (4 * Z.of_nat b))
    (quad (fun i => p2 (c + i)) (4 * Z.of_nat b))) as (d1 & E1 & E2); try lia.
  { unfold alen. rewrite quad_length; [done|intros; apply pixel_length]. }
  { unfold alen. rewrite quad_length; [done|intros; apply pixel_length]. }
  { intros m Hm. rewrite quad_byte by (intros; apply pixel_length || lia). rewrite <- (row_byte_shift p1 cb).
    unfold row_byte, cb. by rewrite Z.add_assoc. }
  { intros m Hm. rewrite quad_byte by (intros; apply pixel_length || lia). rewrite <- (row_byte_shift p2 cb).
    unfold row_byte, cb. by rewrite Z.add_assoc. }
  rewrite store_aligned, E1 by (unfold cb; zlia). cbn [mbind option_bind].
  rewrite store_aligned, E2 by (unfold cb; zlia). cbn [mbind option_bind].
  replace (pd1 + 4 * cb + 16) with (pd1 + 4 * (c + 4 * Z.of_nat (S b))) by lia.
  replace (pd2 + 4 * cb + 16) with (pd2 + 4 * (c + 4 * Z.of_nat (S b))) by lia.
  replace (cb + 4) with (c + 4 * Z.of_nat (S b)) by lia.
  replace (b + S n)%nat with (S b + n)%nat in * by lia. by apply IH.
Qed.

(** ** Loads *)

Lemma loadl_ok p i : 0 <= i -> i + 8 <= alen p -> _mm_loadl_epi64 p i = Some (half (fun k => byte_at p (i + k))).
Proof. intros. unfold _mm_loadl_epi64. by rewrite (load_run p i 8) by lia. Qed.

Lemma load_i32_ok p i : 0 <= i -> i + 4 <= alen p -> load_i32 p i = Some (four (fun k => byte_at p (i + k))).
Proof. intros. unfold load_i32, four. rewrite !ld_at by lia. cbn. by rewrite Z.add_0_r. Qed.

Lemma load_u16_ok p i : 0 <= i -> i + 2 <= alen p -> load_u16 p i = Some (two (fun k => byte_at p (i + k))).
Proof. intros. unfold load_u16, two. rewrite !ld_at by lia. cbn. by rewrite Z.add_0_r. Qed.

Lemma load_si128_ok p o c :
  p = y /\ (o = py1 \/ o = py2) \/ a = Some p /\ (o = pa1 \/ o = pa2) ->
  c mod 16 = 0 -> 0 <= o + c -> o + c + 16 <= alen (pl_bytes p) ->
  load_si128 y v u a p (o + c) = Some (run 16 (fun k => byte_at (pl_bytes p) (o + c + k))).
Proof.
  intros Hp Hc H0 Hle. unfold load_si128, _mm_loadu_si128, _mm_load_si128.
  rewrite (load_run _ (o + c) 16) by lia. destruct (_ || _) eqn:E; [done|].
  apply orb_false_elim in E as [[[E1 E2]%orb_false_elim E3]%orb_false_elim E4].
  assert (unaligned p = false) as Ep by (destruct Hp as [[-> _]|[-> _]]; [exact E1|exact E4]).
  unfold aligned. pose proof (Haligned p o Hp Ep). by rewrite (proj2 (Z.eqb_eq _ _)) by zlia.
Qed.

(** What is loaded of alpha: bytes of the plane, or what stands for them. *)
Lemma of_alpha_ok {A} (load : Plane -> option A) (none : A) (f : (Z -> Z) -> A) o c :
  (forall p, a = Some p -> load p = Some (f (fun k => byte_at (pl_bytes p) (o + c + k)))) ->
  of_alpha a load none = Some (if has then f (fun k => alpha_at (o + c + k)) else none).
Proof.
  intros Hload. unfold of_alpha, alpha_at. rewrite Hhas. destruct a as [p|]; [|done]. by apply Hload.
Qed.

(** ** Blocks *)

Lemma plane_byte p i : Forall is_byte (pl_bytes p) -> is_byte (byte_at (pl_bytes p) i).
Proof. apply byte_at_byte. Qed.
Lemma alpha_byte i : is_byte (alpha_at i).
Proof. by apply byte_at_byte. Qed.
#[local] Hint Resolve plane_byte alpha_byte Hy Hu Hv : core.

(** The pixels that a block computes from column [c] on. *)
Lemma block_pixels oy oa c : c mod 2 = 0 ->
  forall i, pixels fmt (fun k => byte_at (pl_bytes y) (oy + c + k)) (fun k => byte_at (pl_bytes u) (pu + c / 2 + k))
    (fun k => byte_at (pl_bytes v) (pv + c / 2 + k)) (fun k => alpha_at (oa + c + k)) i =
  pixel_from oy pu pv oa (c + i).
Proof. intros Hc i. by rewrite <- pixel_shift. Qed.

Lemma quads_ext q1 q2 q1' q2' ks : (forall i, q1 i = q1' i) -> (forall i, q2 i = q2' i) -> quads q1 q2 ks = quads q1' q2' ks.
Proof. intros H1 H2. unfold quads, quad. apply map_ext. intros k. by rewrite !H1, !H2. Qed.

Lemma stored c ks :
  c mod 4 = 0 -> 0 <= c -> c + 4 * Z.of_nat (length ks) <= W ->
  ks = map (fun k => 4 * Z.of_nat k) (seq 0 (length ks)) ->
  forall pairs, pairs = quads (fun i => p1 (c + i)) (fun i => p2 (c + i)) ks ->
  (dp ← save_pairs dst_at pairs (r_dst (at_column c)) (ColorSse2.pd1 (at_column c)) (ColorSse2.pd2 (at_column c));
   Some (advance (4 * Z.of_nat (length ks)) (at_column c) dp)) = Some (at_column (c + 4 * Z.of_nat (length ks))).
Proof.
  intros Hc Hc0 Hle Hks pairs ->. cbn [r_dst ColorSse2.pd1 ColorSse2.pd2 at_column].
  rewrite store_quads by done. cbn. unfold at_column. f_equal.
  set (n := 4 * Z.of_nat (length ks)) in *. assert ((c + n) / 2 = c / 2 + n / 2) as -> by (unfold n; clear - Hc; zlia).
  by rewrite !Z.add_assoc.
Qed.

(** What the loads of a block give. *)
Ltac loads :=
  cbn [ColorSse2.pm_u ColorSse2.pm_v ColorSse2.px_y1 ColorSse2.px_y2 ColorSse2.px_a1 ColorSse2.px_a2 at_column];
  repeat first
    [ rewrite loadl_ok by zlia | rewrite load_i32_ok by zlia | rewrite load_u16_ok by zlia
    | rewrite load_si128_ok by (tauto || zlia) ];
  cbn [mbind option_bind].

Lemma alpha_room p : a = Some p ->
  (0 <= pa1 /\ pa1 + W <= alen (pl_bytes p)) /\ (0 <= pa2 /\ pa2 + W <= alen (pl_bytes p)).
Proof.
  intros Ep. assert (has = true) as E by (by rewrite Hhas, Ep).
  pose proof (Hpa1 E) as H1. pose proof (Hpa2 E) as H2. rewrite Ep in H1, H2. done.
Qed.

Ltac alpha_loads f c :=
  rewrite (of_alpha_ok _ _ f pa2 c), (of_alpha_ok _ _ f pa1 c)
    by (intros ? Ep; destruct (alpha_room _ Ep);
        first [apply load_si128_ok | apply loadl_ok | apply load_i32_ok | apply load_u16_ok]; tauto || zlia);
  cbn [mbind option_bind].

Lemma block16_ok c : c mod 16 = 0 -> 0 <= c -> c + 16 <= W ->
  block16 K dst_at y v u a (at_column c) = Some (at_column (c + 16)).
Proof.
  intros Hc H0 Hle. unfold block16. loads. alpha_loads (run 16) c.
  apply (stored c [0; 4; 8; 12]); try done; [zlia|].
  rewrite computes16 by auto. apply quads_ext; intros i; apply block_pixels; zlia.
Qed.

Lemma block8_ok c : c mod 4 = 0 -> 0 <= c -> c + 8 <= W ->
  block8 K dst_at y v u a (at_column c) = Some (at_column (c + 8)).
Proof.
  intros Hc H0 Hle. unfold block8. loads. alpha_loads half c.
  apply (stored c [0; 4]); try done.
  rewrite computes8 by auto. apply quads_ext; intros i; apply block_pixels; zlia.
Qed.

Lemma block4_ok c : c mod 4 = 0 -> 0 <= c -> c + 4 <= W ->
  block4 K dst_at y v u a (at_column c) = Some (at_column (c + 4)).
Proof.
  intros Hc H0 Hle. unfold block4. loads. alpha_loads four c.
  apply (stored c [0]); try done.
  rewrite computes4 by auto. apply quads_ext; intros i; apply block_pixels; zlia.
Qed.

Lemma block2_ok c : c mod 2 = 0 -> 0 <= c -> c + 2 <= W ->
  block2 K y v u a (at_column c) = Some (two_rows pd1 pd2 p1 p2 d (c + 2)).
Proof.
  intros Hc H0 Hle. unfold block2. loads. alpha_loads two c. unfold load_u8. rewrite !ld_at by zlia. cbn [mbind option_bind].
  destruct (computes2 (K := K) (fmt := fmt) (has := has) (fun k => byte_at (pl_bytes u) (pu + c / 2 + k))
    (fun k => byte_at (pl_bytes v) (pv + c / 2 + k)) (fun k => byte_at (pl_bytes y) (py1 + c + k))
    (fun k => byte_at (pl_bytes y) (py2 + c + k)) (fun k => alpha_at (pa1 + c + k)) (fun k => alpha_at (pa2 + c + k)))
    as (r1 & r2 & E & E1 & E2); auto.
  rewrite !Z.add_0_r in E. rewrite E. unfold _mm_storel_epi64. rewrite E1, E2.
  rewrite !block_pixels by done. cbn [r_dst ColorSse2.pd1 ColorSse2.pd2 at_column].
  change (pixel_from py1 pu pv pa1) with p1. change (pixel_from py2 pu pv pa2) with p2.
  destruct (two_rows_store pd1 pd2 p1 p2 d c 2 (p1 (c + 0) ++ p1 (c + 1)) (p2 (c + 0) ++ p2 (c + 1)))
    as (d1 & F1 & F2); try lia.
  1,2: unfold alen; rewrite length_app; unfold p1, p2; rewrite !pixel_length; done.
  1,2: intros m Hm; rewrite (pair_byte (fun i => _ (c + i))) by (intros; apply pixel_length || lia); by rewrite row_byte_shift.
  rewrite F1. cbn [mbind option_bind]. exact F2.
Qed.

(** ** The loop over the columns *)

Lemma room_at n c : 0 <= n <= 16 -> room width n (at_column c) = (c + n <=? width).
Proof. intros Hn. unfold room. cbn. rewrite i32_id by (unfold is_i32; lia). zcase; done || lia. Qed.

Lemma convert_row_ok :
  convert_row K dst_at width y v u a (mkRows d py1 py2 pu pv pa1 pa2 pd1 pd2) =
  Some (two_rows pd1 pd2 p1 p2 d W).
Proof.
  unfold convert_row. cbn [s_dst pY1 pY2 pU pV pA1 pA2 pD1 pD2].
  assert (mkRow d 0 pu pv py1 py2 pa1 pa2 pd1 pd2 = at_column (16 * Z.of_nat 0)) as ->.
  { unfold at_column, two_rows. rewrite !row_0 by lia. change (16 * Z.of_nat 0 / 2) with 0.
    change (16 * Z.of_nat 0) with 0. by rewrite !Z.mul_0_r, !Z.add_0_r. }
  rewrite (while_eq (fun k => at_column (16 * Z.of_nat k)) (Z.to_nat (width / 16))).
  2: zlia.
  2: { intros k Hk. rewrite room_at by lia. split; [apply Z.leb_le; zlia|].
       rewrite block16_ok by zlia. do 2 f_equal. lia. }
  2: { rewrite room_at by lia. apply Z.leb_gt. zlia. }
  cbn [mbind option_bind]. rewrite Z2Nat.id by zlia. set (c := 16 * (width / 16)).
  assert (c mod 16 = 0 /\ 0 <= c /\ width - 16 < c <= width) as (Hc & Hc0 & Hcw) by (unfold c; zlia). clearbody c.
  assert (exists c', (if room width 8 (at_column c) then block8 K dst_at y v u a (at_column c) else Some (at_column c))
    = Some (at_column c') /\ c' mod 8 = 0 /\ 0 <= c' /\ width - 8 < c' <= width) as (c1 & -> & Hc1 & Hc10 & Hc1w).
  { rewrite room_at by lia. destruct (Z.leb_spec (c + 8) width).
    - exists (c + 8). rewrite block8_ok by zlia. split; [done|]. zlia.
    - exists c. split; [done|]. zlia. }
  cbn [mbind option_bind].
  assert (exists c', (if room width 4 (at_column c1) then block4 K dst_at y v u a (at_column c1) else Some (at_column c1))
    = Some (at_column c') /\ c' mod 4 = 0 /\ 0 <= c' /\ width - 4 < c' <= width) as (c2 & -> & Hc2 & Hc20 & Hc2w).
  { rewrite room_at by lia. destruct (Z.leb_spec (c1 + 4) width).
    - exists (c1 + 4). rewrite block4_ok by zlia. split; [done|]. zlia.
    - exists c1. split; [done|]. zlia. }
  cbn [mbind option_bind]. rewrite room_at by lia. destruct (Z.leb_spec (c2 + 2) width).
  - rewrite block2_ok by zlia. do 2 f_equal. zlia.
  - cbn [r_dst at_column]. do 2 f_equal. zlia.
Qed.
End Row.

(** ** Pictures *)

(** Pixel [i] of row [j] of the picture: chroma is shared by two by two pixels. *)
Definition pixel_at (fmt : Z -> Z -> Z -> Z -> list Z) (y v u : Plane) (a : option Plane) (j : Z) : Z -> list Z :=
  pixel_from fmt y v u a (j * pl_stride y) (j / 2 * pl_stride u) (j / 2 * pl_stride v) (j * stride_of a).

(** The array with the pixels of an even number of rows and columns. *)
Definition picture (fmt : Z -> Z -> Z -> Z -> list Z) (dst_stride width height : Z) (y v u : Plane) (a : option Plane)
    (d : list Z) : list Z :=
  raster 0 dst_stride 0 (4 * (2 * (width / 2))) (2 * (height / 2)) (fun j k _ => row_byte (pixel_at fmt y v u a j) k) d.

(** A plane has bytes for [rows] rows of [columns]. *)
Record plane_ok (p : Plane) (rows columns : Z) : Prop := {
  plane_bytes : Forall is_byte (pl_bytes p);
  plane_stride : 0 <= pl_stride p < 1073741824;
  plane_size : (rows - 1) * pl_stride p + columns <= alen (pl_bytes p);
}.

(** What the functions need of their arguments. *)
Record arguments_ok (d : list Z) (dst_stride width height : Z) (y v u : Plane) (a : option Plane) : Prop := {
  arg_width : 0 <= width <= 2147483647;
  arg_height : 0 <= height <= 2147483647;
  arg_y : plane_ok y (2 * (height / 2)) (2 * (width / 2));
  arg_u : plane_ok u (height / 2) (width / 2);
  arg_v : plane_ok v (height / 2) (width / 2);
  arg_a : match a with Some a => plane_ok a (2 * (height / 2)) (2 * (width / 2)) | None => True end;
  arg_positive : 0 < dst_stride;
  arg_stride : 4 * (2 * (width / 2)) <= dst_stride < 1073741824;
  arg_size : 2 * (height / 2) * dst_stride <= alen d;
}.

(** A row of a plane. *)
Lemma plane_row p rows columns j :
  plane_ok p rows columns -> 0 <= j < rows ->
  0 <= j * pl_stride p /\ j * pl_stride p + columns <= alen (pl_bytes p).
Proof. intros [_ Hs Hsz] Hj. nia. Qed.

Lemma mod16_row x s j : x mod 16 = 0 -> s mod 16 = 0 -> (x + j * s) mod 16 = 0.
Proof. intros E1 E2. by rewrite Zplus_mod, Zmult_mod, E1, E2, Z.mul_0_r. Qed.

Section Picture.
Context (K : Kernels) (fmt : Z -> Z -> Z -> Z -> list Z) (has : bool) `{HK : Computes K fmt has}.
Context (dst_at dst_stride width height : Z) (y v u : Plane) (a : option Plane) (d : list Z).
Context (Hhas : has = match a with Some _ => true | None => false end).
Context (Hok : arguments_ok d dst_stride width height y v u a).
(** The pixels are stored by an instruction that needs aligned addresses. *)
Context (Hdst : dst_at mod 16 = 0 /\ dst_stride mod 16 = 0).

(** The state after [k] pairs of rows. *)
Definition after_rows (k : nat) : Rows :=
  let j := 2 * Z.of_nat k in
  mkRows (raster 0 dst_stride 0 (4 * (2 * (width / 2))) j (fun j k _ => row_byte (pixel_at fmt y v u a j) k) d)
    (j * pl_stride y) ((j + 1) * pl_stride y) (Z.of_nat k * pl_stride u) (Z.of_nat k * pl_stride v)
    (j * stride_of a) ((j + 1) * stride_of a) (j * dst_stride) ((j + 1) * dst_stride).

Lemma alpha_ok : Forall is_byte (from_option pl_bytes [] a) /\ 0 <= stride_of a < 1073741824 /\
  (has = true -> forall j, 0 <= j < 2 * (height / 2) ->
    0 <= j * stride_of a /\ j * stride_of a + 2 * (width / 2) <= alen (from_option pl_bytes [] a)).
Proof using Hhas Hok.
  pose proof (arg_a _ _ _ _ _ _ _ _ Hok) as Ha. destruct a as [p|]; cbn; [|by rewrite Hhas].
  split; [apply Ha|]. split; [apply Ha|]. intros _ j Hj. by apply (plane_row p (2 * (height / 2))).
Qed.

(** A row of a plane is aligned where the plane is. *)
Lemma row_aligned p j : unaligned p = false -> (pl_at p + j * pl_stride p) mod 16 = 0.
Proof.
  unfold unaligned, truth. intros [E1%negb_false_iff%Z.eqb_eq E2%negb_false_iff%Z.eqb_eq]%orb_false_elim.
  by apply mod16_row.
Qed.

Lemma next_rows_ok k : (k < Z.to_nat (height / 2))%nat ->
  next_rows K dst_at dst_stride width y v u a (after_rows k) = Some (after_rows (S k)).
Proof using HK Hhas Hok Hdst.
  intros Hk. pose proof Hok as [Hw Hh Hy Hu Hv _ Hs0 Hs Hsz]. destruct alpha_ok as (Hab & Has & Har).
  pose proof (plane_stride _ _ _ Hy). assert (0 <= width / 2) by zlia. unfold next_rows, after_rows. set (j := 2 * Z.of_nat k).
  assert (0 <= j /\ j + 1 < 2 * (height / 2)) as [Hj0 Hj] by (unfold j; lia).
  assert ((dst_at + j * dst_stride) mod 16 = 0 /\ (dst_at + (j + 1) * dst_stride) mod 16 = 0) as Hal.
  { destruct Hdst. split; by apply mod16_row. }
  rewrite (convert_row_ok K fmt has dst_at width y v u a) with (W := 2 * (width / 2)).
  all: try done; try apply Hy; try apply Hu; try apply Hv; try lia.
  all: try (apply (plane_row y (2 * (height / 2)) (2 * (width / 2))); done || lia).
  all: try (rewrite (Z.mul_comm 2 (width / 2)), Z.div_mul by lia;
    apply (plane_row _ (height / 2) (width / 2)); [done|unfold j in *; lia]).
  all: try (intros E; apply Har; done || lia).
  2: { unfold alen. rewrite length_raster. fold (alen d).
       pose proof (Z.mul_le_mono_nonneg_r (j + 2) (2 * (height / 2)) dst_stride ltac:(lia) ltac:(lia)). lia. }
  2: { intros p o [[-> [-> | ->]]|[-> [-> | ->]]]; apply row_aligned. }
  cbn [mbind option_bind s_dst pY1 pY2 pU pV pA1 pA2 pD1 pD2]. rewrite !i32_id by (unfold is_i32; lia).
  f_equal. replace (2 * Z.of_nat (S k)) with (j + 1 + 1) by lia. f_equal; try lia.
  rewrite !raster_snoc by lia. unfold two_rows. rewrite !Z.add_0_r, !Z.add_0_l.
  assert (j / 2 = Z.of_nat k /\ (j + 1) / 2 = Z.of_nat k) as [E1 E2] by (unfold j; zlia).
  unfold pixel_at. by rewrite E1, E2.
Qed.

Lemma convert_ok :
  convert K dst_at dst_stride width height y v u a d = Some (0, picture fmt dst_stride width height y v u a d).
Proof using HK Hhas Hok Hdst.
  unfold convert. pose proof (arg_height _ _ _ _ _ _ _ _ Hok). rewrite Z.shiftr_div_pow2 by lia. change (2 ^ 1) with 2.
  assert (mkRows d 0 (pl_stride y) 0 0 0 (stride_of a) 0 dst_stride = after_rows 0) as ->.
  { unfold after_rows. rewrite raster_0 by lia. f_equal; lia. }
  rewrite (for_eq after_rows) by apply next_rows_ok. cbn [mbind option_bind after_rows s_dst]. unfold picture.
  by rewrite Z2Nat.id by zlia.
Qed.
End Picture.
