(* ===== verification/ColorPlain.v ===== *)
(** * Conversion of a picture without SSE2

    The tables are the formulas of their comments, and the functions in plain C give the
    picture that is defined pixel by pixel. *)

From S2P Require Import Prelude.
From S2P Require Import Mem.
From S2P Require Import Sse2.
From S2P Require Import ColorSse2.
From S2P Require Import ColorC.
From S2P Require Import ColorBlocks.
From S2P Require Import ColorPicture.

Open Scope Z_scope.

(** ** The tables *)

(** [(int) (x / 10000 + 0.49999999)] for the products of the comments. *)
Definition rounded (x : Z) : Z := (x * 10000 + 49999999) / 100000000.

Definition t_yy (i : Z) : Z := rounded (i * 11644 * 2).
Definition t_rv (i : Z) : Z := rounded (i * 15966 * 2).
Definition t_gu (i : Z) : Z := rounded (1356352 * 2 - i * 3920 * 2).
Definition t_gv (i : Z) : Z := rounded (i * 8132 * 2).
Definition t_bu (i : Z) : Z := rounded (i * 20184 * 2).

Lemma table_at (t : list Z) (f : Z -> Z) n i :
  t = map f (seqZ 0 n) -> 0 <= i < n -> ld t i = Some (f i).
Proof.
  intros -> Hi. unfold ld. rewrite (proj2 (Z.leb_le _ _)) by lia. rewrite list_lookup_fmap.
  rewrite lookup_seqZ_lt by lia. cbn. do 2 f_equal. lia.
Qed.

Lemma tYY_at i : is_byte i -> ld color_tYY i = Some (t_yy i).
Proof. intros Hi. apply (table_at _ _ 256); [by vm_compute|unfold is_byte in Hi; lia]. Qed.
Lemma tRV_at i : is_byte i -> ld color_tRV i = Some (t_rv i).
Proof. intros Hi. apply (table_at _ _ 256); [by vm_compute|unfold is_byte in Hi; lia]. Qed.
Lemma tGU_at i : is_byte i -> ld color_tGU i = Some (t_gu i).
Proof. intros Hi. apply (table_at _ _ 256); [by vm_compute|unfold is_byte in Hi; lia]. Qed.
Lemma tGV_at i : is_byte i -> ld color_tGV i = Some (t_gv i).
Proof. intros Hi. apply (table_at _ _ 256); [by vm_compute|unfold is_byte in Hi; lia]. Qed.
Lemma tBU_at i : is_byte i -> ld color_tBU i = Some (t_bu i).
Proof. intros Hi. apply (table_at _ _ 256); [by vm_compute|unfold is_byte in Hi; lia]. Qed.

Lemma tClip_at c : -576 <= c < 1088 -> ld color_tClip (288 * 2 + c) = Some (sat8 (c / 2)).
Proof.
  intros Hc. rewrite (table_at _ (fun i => sat8 ((i - 576) / 2)) 1664); [do 3 f_equal; lia|by vm_compute|lia].
Qed.

(** The macro that computes gives the same as the table. *)
Lemma SCLAMP_value c : -576 <= c < 1088 -> SCLAMP_U8_value c = sat8 (c / 2).
Proof.
  intros Hc. assert (Forall (fun c => SCLAMP_U8_value c = sat8 (c / 2)) (seqZ (-576) 1664)) as Hall.
  { apply Forall_forall. intros x Hx. apply (bool_decide_unpack _).
    revert x Hx. apply Forall_forall. apply (proj1 (forallb_True _ _)). by vm_compute. }
  rewrite Forall_forall in Hall. apply Hall. apply list_elem_of_In, elem_of_seqZ. lia.
Qed.

(** ** The colour of a pixel *)

Definition plain_r (y v : Z) : Z := sat8 ((t_yy y + (t_rv v - RRi)) / 2).
Definition plain_g (y u v : Z) : Z := sat8 ((t_yy y + (t_gu u - t_gv v)) / 2).
Definition plain_b (y u : Z) : Z := sat8 ((t_yy y + (t_bu u - BBi)) / 2).

(** Alpha is copied, and does not weight the colours. *)
Definition plain_bgra (y u v a : Z) : list Z := [plain_b y u; plain_g y u v; plain_r y v; a].
Definition plain_bgra_opaque (y u v _a : Z) : list Z := [plain_b y u; plain_g y u v; plain_r y v; 255].

Lemma rounded_bounds x : 0 <= x -> 0 <= rounded x <= x / 10000 + 1.
Proof. intros. unfold rounded. zlia. Qed.

(** The sums are in the table of saturation. *)
Lemma chroma_ok u v : is_byte u -> is_byte v ->
  chroma u v = Some (t_rv v - RRi, t_gu u - t_gv v, t_bu u - BBi) /\
  forall y, is_byte y -> (-576 <= t_yy y + (t_rv v - RRi) < 1088) /\
    (-576 <= t_yy y + (t_gu u - t_gv v) < 1088) /\ (-576 <= t_yy y + (t_bu u - BBi) < 1088).
Proof.
  intros Hu Hv. split.
  - unfold chroma. by rewrite tRV_at, tGU_at, tGV_at, tBU_at by done.
  - unfold is_byte, t_yy, t_rv, t_gu, t_gv, t_bu, RRi, BBi, rounded in *. intros y Hy. zlia.
Qed.

(** ** Stores in any order *)

Fixpoint sts (l : list (Z * Z)) (d : list Z) : option (list Z) :=
  match l with
  | [] => Some d
  | (i, x) :: l => d ← st d i x; sts l d
  end.

Lemma sts_ok l d :
  Forall (fun '(i, _) => 0 <= i < alen d) l -> NoDup l.*1 ->
  exists d', sts l d = Some d' /\ length d' = length d /\
    (forall i x, (i, x) ∈ l -> d' !! Z.to_nat i = Some x) /\
    (forall j, Z.of_nat j ∉ l.*1 -> d' !! j = d !! j).
Proof.
  revert d. induction l as [|[i x] l IH]; intros d Hin Hnd; cbn.
  { exists d. repeat split; auto. by intros ? ? ?%elem_of_nil. }
  inversion Hin as [|? ? Hi Hin']; subst. inversion Hnd as [|? ? Hni Hnd']; subst.
  rewrite st_in by done. cbn. destruct (IH (<[Z.to_nat i:=x]> d)) as (d' & E & Hl & Hset & Hkeep).
  { unfold alen. by rewrite length_insert. }
  { done. }
  exists d'. split; [done|]. rewrite length_insert in Hl. split; [done|]. split.
  - intros i' x' [[= -> ->]|Hin'']%elem_of_cons; [|by apply Hset].
    rewrite Hkeep by (by rewrite Z2Nat.id by lia). unfold alen in Hi. by rewrite list_lookup_insert_eq by lia.
  - intros j Hj. cbn in Hj. apply not_elem_of_cons in Hj as [Hne Hj]. rewrite Hkeep by done.
    by rewrite list_lookup_insert_ne by lia.
Qed.

(** Stores of the bytes of two pieces, in any order. *)
Lemma sts_bytes L d o1 o2 l1 l2 :
  (forall k x, l1 !! k = Some x -> (o1 + Z.of_nat k, x) ∈ L) ->
  (forall k x, l2 !! k = Some x -> (o2 + Z.of_nat k, x) ∈ L) ->
  Forall (fun '(i, _) => o1 <= i < o1 + alen l1 \/ o2 <= i < o2 + alen l2) L -> NoDup L.*1 ->
  0 <= o1 -> o1 + alen l1 <= o2 -> o2 + alen l2 <= alen d ->
  exists d1, store_bytes d o1 l1 = Some d1 /\ store_bytes d1 o2 l2 = sts L d.
Proof.
  intros H1 H2 HL Hnd Ho1 Ho2 Hd. rewrite store_row by (unfold alen in *; lia). eexists. split; [done|].
  rewrite store_row by (unfold alen in *; rewrite ?length_row; lia).
  destruct (sts_ok L d) as (d' & -> & Hlen & Hset & Hkeep); [|done|].
  { eapply List.Forall_impl; [|exact HL]. intros [i x]. unfold alen in *. lia. }
  f_equal. apply list_eq. intros j. rewrite !lookup_row. unfold alen in *.
  assert (forall k m, (0 <=? k) && (k <? m) = bool_decide (0 <= k < m)) as Hb
    by (intros k m; case_bool_decide; zcase; done || lia).
  rewrite !Hb. destruct (decide (0 <= Z.of_nat j - o2 < Z.of_nat (length l2))) as [Hin|Hout].
  - destruct (lookup_lt_is_Some_2 l2 (Z.to_nat (Z.of_nat j - o2))) as [x Hx]; [lia|].
    destruct (lookup_lt_is_Some_2 d j) as [x' Hx']; [lia|]. rewrite Hx'. cbn.
    rewrite bool_decide_eq_true_2, Hx by done. cbn. symmetry. rewrite <- (Hset _ _ (H2 _ _ Hx)). f_equal. lia.
  - rewrite (bool_decide_eq_false_2 (0 <= Z.of_nat j - o2 < _)) by done.
    destruct (decide (0 <= Z.of_nat j - o1 < Z.of_nat (length l1))) as [Hin1|Hout1].
    + destruct (lookup_lt_is_Some_2 l1 (Z.to_nat (Z.of_nat j - o1))) as [x Hx]; [lia|].
      destruct (lookup_lt_is_Some_2 d j) as [x' Hx']; [lia|]. rewrite Hx'. cbn.
      rewrite bool_decide_eq_true_2, Hx by done. cbn. symmetry. rewrite <- (Hset _ _ (H1 _ _ Hx)). f_equal. lia.
    + rewrite (bool_decide_eq_false_2 (0 <= Z.of_nat j - o1 < _)) by done. rewrite Hkeep; [by destruct (d !! j)|].
      intros ([i x] & E & Hi)%list_elem_of_fmap. cbn in E. rewrite List.Forall_forall in HL.
      specialize (HL _ (proj1 (list_elem_of_In _ _) Hi)). cbn in HL. lia.
Qed.

(** The conditions for a list of stores that is given. *)
Ltac explicit_stores :=
  first
  [ intros [|[|[|[|[|[|[|[|?]]]]]]]] ? [= <-]; cbn [Z.of_nat Pos.of_succ_nat Pos.succ];
    cbn [app]; rewrite ?Z.add_0_r, !elem_of_cons;
    by repeat first [left; reflexivity | right]
  | cbn [app]; repeat (apply List.Forall_cons || apply List.Forall_nil); unfold alen; cbv beta iota; cbn [length]; lia
  | unfold alen in *; cbn [length] in *; lia
  | cbn [app fmap list_fmap fst];
    repeat (apply NoDup_cons_2; [intros Hin; repeat (apply elem_of_cons in Hin as [Hin|Hin]; [lia|]);
      by apply elem_of_nil in Hin|]); apply NoDup_nil_2 ].

Lemma sts_app l l' d : sts (l ++ l') d = sts l d ≫= sts l'.
Proof. revert d. induction l as [|[i x] l IH]; intros d; cbn; [done|]. destruct (st d i x); [apply IH|done]. Qed.

Lemma bind_ext {A B} (m : option A) (f g : A -> option B) : (forall x, f x = g x) -> m ≫= f = m ≫= g.
Proof. intros Hfg. destruct m; cbn; auto. Qed.

Lemma TCLAMP_st c d i : -576 <= c < 1088 -> TCLAMP_U8 c d i = st d i (sat8 (c / 2)).
Proof. intros Hc. unfold TCLAMP_U8. by rewrite tClip_at. Qed.
Lemma SCLAMP_st c d i : -576 <= c < 1088 -> SCLAMP_U8 c d i = st d i (sat8 (c / 2)).
Proof. intros Hc. unfold SCLAMP_U8. by rewrite SCLAMP_value. Qed.

(** The first store of a sequence. *)
Ltac clamp_store :=
  match goal with
  | |- context [TCLAMP_U8 ?c ?d ?i] => is_var d; rewrite (TCLAMP_st c d i) by done
  | |- context [SCLAMP_U8 ?c ?d ?i] => is_var d; rewrite (SCLAMP_st c d i) by done
  end;
  match goal with |- context [st ?d ?i ?x] => is_var d; destruct (st d i x); [cbn [mbind option_bind]|done] end.

Ltac same_stores :=
  repeat match goal with |- context [st ?d ?i ?x] => is_var d; destruct (st d i x); [cbn [mbind option_bind]|done] end;
  done.

(** The colours of two by two pixels as stores. *)
Lemma colours_sts u v y0 y1 y2 y3 d o1 o2 :
  is_byte u -> is_byte v -> is_byte y0 -> is_byte y1 -> is_byte y2 -> is_byte y3 ->
  put_colours u v y0 y1 y2 y3 d o1 o2 =
  sts [(o1 + 2, plain_r y0 v); (o1 + 1, plain_g y0 u v); (o1 + 0, plain_b y0 u);
       (o1 + 6, plain_r y1 v); (o1 + 5, plain_g y1 u v); (o1 + 4, plain_b y1 u);
       (o2 + 2, plain_r y2 v); (o2 + 1, plain_g y2 u v); (o2 + 0, plain_b y2 u);
       (o2 + 6, plain_r y3 v); (o2 + 5, plain_g y3 u v); (o2 + 4, plain_b y3 u)] d.
Proof.
  intros Hu Hv H0 H1 H2 H3. destruct (chroma_ok u v Hu Hv) as [E Hb]. unfold put_colours. rewrite E.
  destruct (Hb y0 H0) as (? & ? & ?), (Hb y1 H1) as (? & ? & ?), (Hb y2 H2) as (? & ? & ?), (Hb y3 H3) as (? & ? & ?).
  cbn [mbind option_bind sts]. rewrite !tYY_at by done. cbn [mbind option_bind].
  unfold plain_r, plain_g, plain_b. repeat clamp_store.
  done.
Qed.

(** ** Two rows of a picture *)

Section PlainRows.
#[local] Set Default Proof Using "All".
Context (y v u : Plane) (a : option Plane).
Context (Hy : Forall is_byte (pl_bytes y)) (Hu : Forall is_byte (pl_bytes u)) (Hv : Forall is_byte (pl_bytes v)).
Context (width py1 py2 pu pv pa1 pa2 pd1 pd2 : Z) (d : list Z).
Context (Hwidth : 0 <= width).
Context (Hpy1 : 0 <= py1 /\ py1 + width <= alen (pl_bytes y)) (Hpy2 : 0 <= py2 /\ py2 + width <= alen (pl_bytes y)).
Context (Hpu : 0 <= pu /\ pu + width / 2 <= alen (pl_bytes u)) (Hpv : 0 <= pv /\ pv + width / 2 <= alen (pl_bytes v)).
Context (Hpa1 : forall p, a = Some p -> 0 <= pa1 /\ pa1 + width <= alen (pl_bytes p)).
Context (Hpa2 : forall p, a = Some p -> 0 <= pa2 /\ pa2 + width <= alen (pl_bytes p)).
Context (Hpd1 : 0 <= pd1 /\ pd1 + 4 * width <= pd2) (Hpd2 : pd2 + 4 * width <= alen d).

(** The format: the alpha plane or opaque. *)
Definition plain_format : Z -> Z -> Z -> Z -> list Z :=
  match a with Some _ => plain_bgra | None => plain_bgra_opaque end.
Abbreviation q1 := (pixel_from plain_format y v u a py1 pu pv pa1).
Abbreviation q2 := (pixel_from plain_format y v u a py2 pu pv pa2).

Definition at_pair (k : nat) : Columns :=
  let c := 2 * Z.of_nat k in
  mkColumns (two_rows pd1 pd2 q1 q2 d c) (py1 + c) (py2 + c) (pu + Z.of_nat k) (pv + Z.of_nat k)
    (pd1 + 4 * c) (pd2 + 4 * c) (pa1 + c) (pa2 + c).

Lemma pixel_length_plain oy oa i : length (pixel_from plain_format y v u a oy pu pv oa i) = 4%nat.
Proof. unfold pixel_from, pixels, plain_format. by destruct a. Qed.

(** The eight bytes of a pair of pixels. *)
Definition pair_bytes (oy oa k : Z) : list Z :=
  pixel_from plain_format y v u a oy pu pv oa (2 * k + 0) ++ pixel_from plain_format y v u a oy pu pv oa (2 * k + 1).

Lemma pair_bytes_at oy oa k m : 0 <= m < 8 ->
  default 0 (pair_bytes oy oa k !! Z.to_nat m) = row_byte (pixel_from plain_format y v u a oy pu pv oa) (4 * (2 * k) + m).
Proof.
  intros Hm. rewrite <- row_byte_shift.
  by apply (pair_byte (fun i => pixel_from plain_format y v u a oy pu pv oa (2 * k + i)));
    [intros; apply pixel_length_plain|].
Qed.

(** The two pairs of pixels of a step, as they are stored. *)
Lemma step_stores k (D : list Z) :
  0 <= k -> 2 * k + 2 <= width -> alen D = alen d ->
  let c := 2 * k in
  let o1 := pd1 + 4 * c in let o2 := pd2 + 4 * c in
  let U := byte_at (pl_bytes u) (pu + k) in let V := byte_at (pl_bytes v) (pv + k) in
  exists d1, store_bytes D o1 (pair_bytes py1 pa1 k) = Some d1 /\
    store_bytes d1 o2 (pair_bytes py2 pa2 k) =
    (put_colours U V (byte_at (pl_bytes y) (py1 + c)) (byte_at (pl_bytes y) (py1 + c + 1))
       (byte_at (pl_bytes y) (py2 + c)) (byte_at (pl_bytes y) (py2 + c + 1)) D o1 o2
     ≫= fun D => put_alpha a D o1 o2 (pa1 + c) (pa2 + c)).
Proof.
  intros Hk Hkw HD c o1 o2 U V. rewrite colours_sts by (by apply byte_at_byte). unfold pair_bytes, pixel_from, pixels.
  assert ((2 * k + 0) / 2 = k /\ (2 * k + 1) / 2 = k) as [-> ->] by zlia. rewrite !Z.add_assoc, !Z.add_0_r. fold c U V.
  assert (0 <= o1 /\ o1 + 8 <= o2 /\ o2 + 8 <= alen D) as Ho by (subst o1 o2 c; lia).
  unfold plain_format, put_alpha. destruct a as [p|] eqn:Ea; unfold plain_bgra, plain_bgra_opaque; cbn [app].
  - pose proof (Hpa1 p eq_refl). pose proof (Hpa2 p eq_refl). rewrite !ld_at by lia. cbn [mbind option_bind].
    match goal with |- exists d1, store_bytes D o1 ?l1 = _ /\ store_bytes _ o2 ?l2 = (sts ?L D ≫= _) =>
      assert (exists d1, store_bytes D o1 l1 = Some d1 /\ store_bytes d1 o2 l2 =
        sts (L ++ [(o1 + 3, byte_at (pl_bytes p) (pa1 + c)); (o1 + 7, byte_at (pl_bytes p) (pa1 + c + 1));
          (o2 + 3, byte_at (pl_bytes p) (pa2 + c)); (o2 + 7, byte_at (pl_bytes p) (pa2 + c + 1))]) D) as (d1 & E1 & E2) end.
    { clear - Ho. clearbody o1 o2. unfold alen in *. apply sts_bytes; explicit_stores. }
    exists d1. split; [exact E1|]. rewrite E2, sts_app. apply bind_ext. intros D'. cbn [mbind option_bind sts]. same_stores.
  - match goal with |- exists d1, store_bytes D o1 ?l1 = _ /\ store_bytes _ o2 ?l2 = (sts ?L D ≫= _) =>
      assert (exists d1, store_bytes D o1 l1 = Some d1 /\ store_bytes d1 o2 l2 =
        sts (L ++ [(o2 + 7, 255); (o2 + 3, 255); (o1 + 7, 255); (o1 + 3, 255)]) D) as (d1 & E1 & E2) end.
    { clear - Ho. clearbody o1 o2. unfold alen in *. apply sts_bytes; explicit_stores. }
    exists d1. split; [exact E1|]. rewrite E2, sts_app. apply bind_ext. intros D'. cbn [mbind option_bind sts]. same_stores.
Qed.

Lemma next_columns_ok k : 2 * Z.of_nat k + 2 <= width ->
  next_columns y v u a (at_pair k) = Some (at_pair (S k)).
Proof.
  intros Hk. unfold next_columns. cbn [c_dst say1 say2 sau sav da1 da2 a_col1 a_col2 at_pair].
  rewrite !ld_at by zlia. cbn [mbind option_bind].
  destruct (step_stores (Z.of_nat k) (two_rows pd1 pd2 q1 q2 d (2 * Z.of_nat k))) as (d1 & E1 & E2);
    [lia|lia|apply two_rows_length|].
  destruct (two_rows_store pd1 pd2 q1 q2 d (2 * Z.of_nat k) 2 (pair_bytes py1 pa1 (Z.of_nat k))
    (pair_bytes py2 pa2 (Z.of_nat k))) as (d1' & F1 & F2); try lia.
  1,2: unfold alen, pair_bytes; rewrite length_app, !pixel_length_plain; done.
  1,2: intros m Hm; apply pair_bytes_at; lia.
  rewrite F1 in E1. injection E1 as <-. rewrite F2 in E2.
  destruct (put_colours _ _ _ _ _ _ _ _ _) as [D|]; [|done]. cbn [mbind option_bind] in *. rewrite <- E2.
  cbn [mbind option_bind]. unfold at_pair. do 2 f_equal; try lia. f_equal. lia.
Qed.

Lemma columns_ok : width mod 2 = 0 ->
  for_ (Z.to_nat (width >> 1)) (next_columns y v u a) (mkColumns d py1 py2 pu pv pd1 pd2 pa1 pa2) =
  Some (at_pair (Z.to_nat (width / 2))).
Proof.
  intros He. rewrite Z.shiftr_div_pow2 by lia. change (2 ^ 1) with 2.
  assert (mkColumns d py1 py2 pu pv pd1 pd2 pa1 pa2 = at_pair 0) as ->.
  { unfold at_pair, two_rows. rewrite !row_0 by lia. f_equal; lia. }
  apply for_eq. intros k Hk. apply next_columns_ok. zlia.
Qed.
End PlainRows.

(** ** Pictures in planes *)

Section PlainPicture.
Context (dst_stride width height : Z) (y v u : Plane) (a : option Plane) (d : list Z).
Context (Hok : arguments_ok d dst_stride width height y v u a).
Context (Hpos : 0 < width /\ 0 < height) (Heven : width mod 2 = 0 /\ height mod 2 = 0).

Abbreviation state := (after_rows (plain_format a) dst_stride width y v u a d).

Lemma next_lines_ok k : (k < Z.to_nat (height / 2))%nat ->
  next_lines_c dst_stride width y v u a (state k) = Some (state (S k)).
Proof using Hok Hpos Heven.
  intros Hk. pose proof Hok as [Hw Hh Hy Hu Hv Ha Hs0 Hs Hsz].
  assert (2 * (width / 2) = width) as Ew by zlia. rewrite Ew in *.
  assert (0 <= stride_of a < 1073741824) as Has by (destruct a; [apply Ha|done]).
  pose proof (plane_stride _ _ _ Hy). unfold next_lines_c, after_rows. set (j := 2 * Z.of_nat k).
  assert (0 <= j /\ j + 1 < 2 * (height / 2)) as [Hj0 Hj] by (unfold j; lia).
  assert (forall p i, a = Some p -> 0 <= i < 2 * (height / 2) ->
    0 <= i * stride_of a /\ i * stride_of a + width <= alen (pl_bytes p)) as Har.
  { intros p i -> Hi. by apply (plane_row p (2 * (height / 2))). }
  cbn [s_dst pY1 pY2 pU pV pA1 pA2 pD1 pD2]. rewrite Ew, columns_ok.
  all: try done; try apply Hy; try apply Hu; try apply Hv; try lia.
  all: try (apply (plane_row y (2 * (height / 2)) width); done || lia).
  all: try (apply (plane_row _ (height / 2) (width / 2)); [done|unfold j in *; lia]).
  all: try (intros p Ep; apply (Har p); done || lia).
  2: { unfold alen. rewrite length_raster. fold (alen d).
       pose proof (Z.mul_le_mono_nonneg_r (j + 2) (2 * (height / 2)) dst_stride ltac:(lia) ltac:(lia)). lia. }
  cbn [mbind option_bind c_dst at_pair]. rewrite Z.shiftl_mul_pow2, !i32_id by (unfold is_i32; lia).
  f_equal. replace (2 * Z.of_nat (S k)) with (j + 1 + 1) by lia. f_equal; try lia.
  rewrite Z2Nat.id, Ew by zlia. rewrite !raster_snoc by lia. unfold two_rows. rewrite !Z.add_0_r, !Z.add_0_l.
  assert (j / 2 = Z.of_nat k /\ (j + 1) / 2 = Z.of_nat k) as [E1 E2] by (unfold j; zlia).
  unfold pixel_at. by rewrite E1, E2.
Qed.

Lemma convert_c_ok :
  convert_c dst_stride width height y v u a d = Some (0, picture (plain_format a) dst_stride width height y v u a d).
Proof using Hok Hpos Heven.
  unfold convert_c. rewrite !(proj2 (Z.leb_gt _ _)) by lia. cbn [orb].
  assert (((width .| height) .& 1) = 0) as ->.
  { change 1 with (Z.ones 1). rewrite Z.land_ones by lia. change (2 ^ 1) with 2.
    rewrite <- Z.bit0_mod, Z.lor_spec, !Z.bit0_eqb. destruct Heven as [-> ->]. done. }
  cbn [truth negb Z.eqb]. rewrite Z.shiftr_div_pow2 by lia. change (2 ^ 1) with 2.
  assert (mkRows d 0 (pl_stride y) 0 0 0 (stride_of a) 0 dst_stride = state 0) as ->.
  { unfold after_rows. rewrite raster_0 by lia. f_equal; lia. }
  rewrite (for_eq state) by apply next_lines_ok. cbn [mbind option_bind after_rows s_dst]. unfold picture.
  by rewrite Z2Nat.id by zlia.
Qed.
End PlainPicture.

(** ** Packed pictures *)

Lemma store_nothing d o : 0 <= o <= alen d -> store_bytes d o [] = Some d.
Proof. intros Ho. rewrite store_row by (unfold alen; cbn; unfold alen in Ho; lia). by rewrite row_0 by done. Qed.

(** Stores of some pixels to a row. *)
Lemma row_store o q d c n l :
  0 <= c -> 0 <= n -> 0 <= o -> o + 4 * (c + n) <= alen d -> alen l = 4 * n ->
  (forall m, 0 <= m < 4 * n -> default 0 (l !! Z.to_nat m) = row_byte q (4 * c + m)) ->
  store_bytes (row o (4 * c) (fun k _ => row_byte q k) d) (o + 4 * c) l =
  Some (row o (4 * (c + n)) (fun k _ => row_byte q k) d).
Proof.
  intros Hc Hn Ho Hd Hl Hm. rewrite store_row by (unfold alen in *; rewrite ?length_row; lia).
  rewrite row_app, Hl by (unfold alen; lia). f_equal. rewrite <- Z.mul_add_distr_l. apply row_ext. intros k x Hk.
  destruct (Z.ltb_spec k (4 * c)); [done|]. rewrite Hm by lia. f_equal. lia.
Qed.

Section PackedPicture.
#[local] Set Default Proof Using "All".
Context (dst_stride width height : Z) (y v u : list Z) (y_stride uv_stride : Z) (d : list Z).
Context (Hy : Forall is_byte y) (Hu : Forall is_byte u) (Hv : Forall is_byte v).
Context (Hpos : 0 < width /\ 0 < height) (Heven : width mod 2 = 0).
Context (Hys : 0 <= y_stride) (Huvs : 0 <= uv_stride).
Context (Hys' : (height - 1) * y_stride + 2 * width - 1 <= alen y).
Context (Hus' : (height - 1) * uv_stride + 2 * width - 3 <= alen u).
Context (Hvs' : (height - 1) * uv_stride + 2 * width - 3 <= alen v).
Context (Hds : 4 * width <= dst_stride) (Hd : height * dst_stride <= alen d).

(** Pixel [i] of row [j]: luma in every second byte, chroma in every fourth. *)
Definition packed_pixel (j i : Z) : list Z :=
  plain_bgra_opaque (byte_at y (j * y_stride + 2 * i)) (byte_at u (j * uv_stride + 4 * (i / 2)))
    (byte_at v (j * uv_stride + 4 * (i / 2))) 0.

Definition packed_state (j : Z) (D : list Z) (k : nat) : Packed :=
  mkPacked (row (j * dst_stride) (4 * (2 * Z.of_nat k)) (fun m _ => row_byte (packed_pixel j) m) D)
    (j * y_stride + 4 * Z.of_nat k) (j * uv_stride + 4 * Z.of_nat k) (j * uv_stride + 4 * Z.of_nat k)
    (j * dst_stride + 8 * Z.of_nat k).

Lemma next_pair_ok j D k :
  0 <= j < height -> alen D = alen d -> 2 * Z.of_nat k + 2 <= width ->
  next_pair y v u (packed_state j D k) = Some (packed_state j D (S k)).
Proof.
  intros Hj HD Hk. unfold next_pair. cbn [p_dst p_y p_u p_v p_d packed_state].
  assert (0 <= j * y_stride /\ 0 <= j * uv_stride /\ j * y_stride <= (height - 1) * y_stride /\
    j * uv_stride <= (height - 1) * uv_stride /\ 0 <= j * dst_stride /\ (j + 1) * dst_stride <= height * dst_stride) by nia.
  rewrite !ld_at by lia. cbn [mbind option_bind].
  set (U := byte_at u _). set (V := byte_at v _). set (Y0 := byte_at y (_ + 4 * Z.of_nat k)). set (Y1 := byte_at y (_ + 2)).
  assert (is_byte U /\ is_byte V /\ is_byte Y0 /\ is_byte Y1) as (HU & HV & H0 & H1)
    by (repeat split; by apply byte_at_byte).
  destruct (chroma_ok U V HU HV) as [E Hb]. rewrite E. cbn [mbind option_bind].
  destruct (Hb Y0 H0) as (? & ? & ?), (Hb Y1 H1) as (? & ? & ?). rewrite !tYY_at by done. cbn [mbind option_bind].
  set (D0 := row _ _ _ D). set (o := j * dst_stride + 8 * Z.of_nat k) in *.
  assert (alen D0 = alen d) as HD0 by (unfold D0, alen in *; by rewrite length_row).
  set (l := [plain_b Y0 U; plain_g Y0 U V; plain_r Y0 V; 255; plain_b Y1 U; plain_g Y1 U V; plain_r Y1 V; 255]).
  assert (store_bytes D0 o l = sts [(o + 2, plain_r Y0 V); (o + 1, plain_g Y0 U V); (o + 0, plain_b Y0 U);
    (o + 6, plain_r Y1 V); (o + 5, plain_g Y1 U V); (o + 4, plain_b Y1 U); (o + 7, 255); (o + 3, 255)] D0) as Es.
  { assert (0 <= o /\ o + 8 <= alen D0) as Ho by (unfold o; lia).
    match goal with |- _ = sts ?L _ =>
      assert (exists d1, store_bytes D0 o l = Some d1 /\ store_bytes d1 (o + 8) [] = sts L D0) as (d1 & E1 & E2) end.
    { clear - Ho. unfold l. clearbody o. apply sts_bytes; explicit_stores. }
    rewrite E1. rewrite <- E2. symmetry. apply store_nothing.
    rewrite store_row in E1 by (change (alen l) with 8; lia). injection E1 as <-.
    unfold alen in *. rewrite length_row. lia. }
  assert (store_bytes D0 o l = Some (row (j * dst_stride) (4 * (2 * Z.of_nat (S k))) (fun m _ => row_byte (packed_pixel j) m) D)) as Er.
  { replace (2 * Z.of_nat (S k)) with (2 * Z.of_nat k + 2) by lia. unfold D0, o.
    replace (8 * Z.of_nat k) with (4 * (2 * Z.of_nat k)) by lia. apply row_store; try lia; [done|].
    intros m Hm. rewrite <- row_byte_shift.
    assert (l = packed_pixel j (2 * Z.of_nat k + 0) ++ packed_pixel j (2 * Z.of_nat k + 1)) as ->.
    { unfold packed_pixel, l, plain_bgra_opaque.
      assert ((2 * Z.of_nat k + 0) / 2 = Z.of_nat k /\ (2 * Z.of_nat k + 1) / 2 = Z.of_nat k) as [-> ->] by zlia.
      replace (2 * (2 * Z.of_nat k + 0)) with (4 * Z.of_nat k) by lia.
      replace (j * y_stride + 2 * (2 * Z.of_nat k + 1)) with (j * y_stride + 4 * Z.of_nat k + 2) by lia. done. }
    by apply (pair_byte (fun i => packed_pixel j (2 * Z.of_nat k + i))). }
  rewrite Er in Es. unfold plain_r, plain_g, plain_b in Es. clearbody D0. clear Er l. revert Es. cbn [sts].
  repeat clamp_store.
  repeat match goal with |- context [st ?d ?i ?x] => is_var d; destruct (st d i x); [cbn [mbind option_bind]|done] end.
  intros [= <-]. unfold packed_state, o. do 2 f_equal; lia.
Qed.

Definition packed_picture (D : list Z) (h : Z) : list Z :=
  raster 0 dst_stride 0 (4 * width) h (fun j k _ => row_byte (packed_pixel j) k) D.

Lemma next_line_ok j :
  0 <= j < height ->
  next_line_packed dst_stride width y v u y_stride uv_stride
    (mkPacked (packed_picture d j) (j * y_stride) (j * uv_stride) (j * uv_stride) (j * dst_stride)) =
  Some (mkPacked (packed_picture d (j + 1)) ((j + 1) * y_stride) ((j + 1) * uv_stride) ((j + 1) * uv_stride)
    ((j + 1) * dst_stride)).
Proof.
  intros Hj. unfold next_line_packed. rewrite Z.shiftr_div_pow2 by lia. change (2 ^ 1) with 2.
  assert (mkPacked (packed_picture d j) (j * y_stride) (j * uv_stride) (j * uv_stride) (j * dst_stride) =
    packed_state j (packed_picture d j) 0) as E.
  { unfold packed_state. rewrite row_0 by lia. f_equal; lia. }
  rewrite E at 1. rewrite (for_eq (packed_state j (packed_picture d j))).
  2: { intros k Hk. apply next_pair_ok; [done| |zlia]. unfold packed_picture, alen. by rewrite length_raster. }
  cbn [mbind option_bind p_dst packed_state p_y p_u p_v p_d]. f_equal. f_equal; try lia.
  unfold packed_picture. rewrite raster_snoc by lia. rewrite Z.add_0_r, Z.add_0_l.
  replace (4 * (2 * Z.of_nat (Z.to_nat (width / 2)))) with (4 * width) by zlia. done.
Qed.

Lemma convert_packed_ok :
  convert_packed dst_stride width height y v u y_stride uv_stride d = Some (0, packed_picture d height).
Proof.
  unfold convert_packed. rewrite !(proj2 (Z.leb_gt _ _)) by lia. cbn [orb].
  assert ((width .& 1) = 0) as -> by (change 1 with (Z.ones 1); rewrite Z.land_ones by lia; exact Heven).
  cbn [truth negb Z.eqb].
  set (F k := mkPacked (packed_picture d (Z.of_nat k)) (Z.of_nat k * y_stride) (Z.of_nat k * uv_stride)
    (Z.of_nat k * uv_stride) (Z.of_nat k * dst_stride)).
  assert (mkPacked d 0 0 0 0 = F O) as -> by (unfold F, packed_picture; by rewrite raster_0 by lia).
  rewrite (for_eq F).
  2: { intros k Hk. unfold F. rewrite next_line_ok by lia. do 2 f_equal; f_equal; lia. }
  cbn [mbind option_bind F p_dst]. by rewrite Z2Nat.id by lia.
Qed.
End PackedPicture.
