(* ===== verification/ColorConvert.v ===== *)
(** * The conversion of pictures

    The theorems on ColorConverter.c: the functions with SSE2 and in plain C give the
    pictures that are defined pixel by pixel, and both come close to the exact colours. *)

From S2P Require Import Prelude.
From S2P Require Import Mem.
From S2P Require Import Sse2.
From S2P Require Import ColorSse2.
From S2P Require Import ColorC.
From S2P Require Import ColorBlocks.
From S2P Require Import ColorPicture.
From S2P Require Import ColorPlain.

Open Scope Z_scope.

(** ** Pictures *)

Lemma opaque_arguments d dst_stride width height y v u a :
  arguments_ok d dst_stride width height y v u a -> arguments_ok d dst_stride width height y v u None.
Proof. intros []. by split. Qed.

(** C11. The functions with SSE2, which take two rows at a time in blocks of 16, 8, 4 and 2
    columns, give the picture that is defined pixel by pixel: for planes that are large
    enough, of any addresses and distances of rows, and a picture that is aligned to 16
    bytes, no access is outside an array or not aligned, each of the pixels of an even number
    of rows and columns gets its colour in the order of the format, and no other byte is
    changed. *)
Theorem sse2_converts dst_at dst_stride width height y v u a d :
  arguments_ok d dst_stride width height y v u (Some a) -> dst_at mod 16 = 0 -> dst_stride mod 16 = 0 ->
  ColorConvert_YCbCr420p_to_ARGB32 d dst_at dst_stride width height y v u a =
    Some (0, picture argb dst_stride width height y v u (Some a) d) /\
  ColorConvert_YCbCr420p_to_ARGB32_no_alpha d dst_at dst_stride width height y v u =
    Some (0, picture argb_opaque dst_stride width height y v u None d) /\
  ColorConvert_YCbCr420p_to_BGRA32 d dst_at dst_stride width height y v u a =
    Some (0, picture bgra dst_stride width height y v u (Some a) d) /\
  ColorConvert_YCbCr420p_to_BGRA32_no_alpha d dst_at dst_stride width height y v u =
    Some (0, picture bgra_opaque dst_stride width height y v u None d).
Proof.
  intros Hok Hat Hs. pose proof (opaque_arguments _ _ _ _ _ _ _ _ Hok).
  split; [|split; [|split]]; by eapply (convert_ok _ _ _).
Qed.

(** C28. The functions in plain C, for processors without SSE2, give the picture that is
    defined pixel by pixel by the formulas of the tables; no index is outside the tables or an
    array.  They refuse, and leave the picture as it is, when a pointer is null or the size
    is zero or odd. *)
Theorem plain_converts dst_stride width height y v u a d :
  arguments_ok d dst_stride width height y v u (Some a) ->
  (0 < width /\ 0 < height -> width mod 2 = 0 /\ height mod 2 = 0 ->
    c_YCbCr420p_to_BGRA32 (Some d) dst_stride width height (Some y) (Some v) (Some u) a =
      Some (0, Some (picture plain_bgra dst_stride width height y v u (Some a) d)) /\
    c_YCbCr420p_to_BGRA32_no_alpha (Some d) dst_stride width height (Some y) (Some v) (Some u) =
      Some (0, Some (picture plain_bgra_opaque dst_stride width height y v u None d))) /\
  (width = 0 \/ height = 0 \/ width mod 2 = 1 \/ height mod 2 = 1 ->
    c_YCbCr420p_to_BGRA32 (Some d) dst_stride width height (Some y) (Some v) (Some u) a = Some (1, Some d) /\
    c_YCbCr420p_to_BGRA32_no_alpha (Some d) dst_stride width height (Some y) (Some v) (Some u) = Some (1, Some d)) /\
  (forall d' y' v' u', d' = None \/ y' = None \/ v' = None \/ u' = None ->
    c_YCbCr420p_to_BGRA32 d' dst_stride width height y' v' u' a = Some (1, d') /\
    c_YCbCr420p_to_BGRA32_no_alpha d' dst_stride width height y' v' u' = Some (1, d')).
Proof.
  intros Hok. pose proof (opaque_arguments _ _ _ _ _ _ _ _ Hok) as Hopaque. split; [|split].
  - intros Hpos Heven. unfold c_YCbCr420p_to_BGRA32, c_YCbCr420p_to_BGRA32_no_alpha.
    by rewrite !convert_c_ok by done.
  - intros Hbad. unfold c_YCbCr420p_to_BGRA32, c_YCbCr420p_to_BGRA32_no_alpha, convert_c.
    pose proof (arg_width _ _ _ _ _ _ _ _ Hok). pose proof (arg_height _ _ _ _ _ _ _ _ Hok).
    destruct ((width <=? 0) || (height <=? 0)) eqn:E; [done|].
    apply orb_false_elim in E as [?%Z.leb_gt ?%Z.leb_gt].
    assert (((width .| height) .& 1) = 1) as ->; [|done].
    change 1 with (Z.ones 1). rewrite Z.land_ones by lia. change (2 ^ 1) with 2.
    rewrite <- Z.bit0_mod, Z.lor_spec, !Z.bit0_eqb. destruct Hbad as [?|[?|[-> | ->]]]; [lia|lia|done|].
    by rewrite orb_comm.
  - intros d' y' v' u' Hnull. destruct d', y', u', v'; try done. by destruct Hnull as [|[|[|]]].
Qed.

(** What the conversion of packed pictures needs of its arguments. *)
Record packed_ok (d : list Z) (dst_stride width height : Z) (y v u : list Z) (y_stride uv_stride : Z) : Prop := {
  packed_bytes : Forall is_byte y /\ Forall is_byte v /\ Forall is_byte u;
  packed_strides : 0 <= y_stride /\ 0 <= uv_stride;
  packed_y : (height - 1) * y_stride + 2 * width - 1 <= alen y;
  packed_u : (height - 1) * uv_stride + 2 * width - 3 <= alen u;
  packed_v : (height - 1) * uv_stride + 2 * width - 3 <= alen v;
  packed_dst : 4 * width <= dst_stride /\ height * dst_stride <= alen d;
}.

(** Packed pictures, whose luma is in every second byte and chroma in every fourth, are
    converted pixel by pixel on every processor when their width is positive and even,
    whatever their height; a null pointer, no size or an odd width is refused. *)
Lemma packed_converts dst_stride width height y v u y_stride uv_stride d :
  packed_ok d dst_stride width height y v u y_stride uv_stride ->
  (0 < width /\ 0 < height -> width mod 2 = 0 ->
    ColorConvert_YCbCr422p_to_BGRA32_no_alpha (Some d) dst_stride width height (Some y) (Some v) (Some u) y_stride uv_stride =
      Some (0, Some (packed_picture dst_stride width y v u y_stride uv_stride d height))) /\
  (width <= 0 \/ height <= 0 \/ width mod 2 = 1 ->
    ColorConvert_YCbCr422p_to_BGRA32_no_alpha (Some d) dst_stride width height (Some y) (Some v) (Some u) y_stride uv_stride =
      Some (1, Some d)) /\
  (forall d' y' v' u', d' = None \/ y' = None \/ v' = None \/ u' = None ->
    ColorConvert_YCbCr422p_to_BGRA32_no_alpha d' dst_stride width height y' v' u' y_stride uv_stride = Some (1, d')).
Proof.
  intros [(Hy & Hv & Hu) [] ? ? ? []]. unfold ColorConvert_YCbCr422p_to_BGRA32_no_alpha. split; [|split].
  - intros Hpos Heven. by rewrite convert_packed_ok.
  - intros Hbad. unfold convert_packed. destruct ((width <=? 0) || (height <=? 0)) eqn:E; [done|].
    apply orb_false_elim in E as [?%Z.leb_gt ?%Z.leb_gt].
    change 1 with (Z.ones 1). rewrite Z.land_ones by lia. change (2 ^ 1) with 2.
    by assert (width mod 2 = 1) as -> by lia.
  - intros d' y' v' u' Hnull. destruct d', y', u', v'; try done. by destruct Hnull as [|[|[|]]].
Qed.

(** ** Accuracy *)

(** The exact colours of ITU-R BT.601, in 1/10000. *)
Definition exact_r (y v : Z) : Z := 11644 * y + 15966 * v - 2229952.
Definition exact_g (y u v : Z) : Z := 11644 * y - 3920 * u - 8132 * v + 1356352.
Definition exact_b (y u : Z) : Z := 11644 * y + 20184 * u - 2769856.

(** The distance of a channel from the exact colour, limited to what a channel can have. *)
Definition off_by (c e : Z) : Z := Z.abs (10000 * c - Z.max 0 (Z.min 2550000 e)).

Lemma sat8_near x e b : Z.abs (10000 * x - e) <= b -> off_by (sat8 x) e <= b.
Proof. unfold off_by, sat8. intros. zcase; lia. Qed.

Lemma sat8_diff x x' b : Z.abs (x - x') <= b -> Z.abs (sat8 x - sat8 x') <= b.
Proof. unfold sat8. intros. zcase; lia. Qed.

Lemma sse2_accurate y u v : is_byte y -> is_byte u -> is_byte v ->
  off_by (ycc_r y v) (exact_r y v) <= 10700 /\ off_by (ycc_g y u v) (exact_g y u v) <= 10700 /\
  off_by (ycc_b y u) (exact_b y u) <= 10700.
Proof.
  unfold is_byte. intros. split; [|split]; apply sat8_near; unfold exact_r, exact_g, exact_b, luma; zlia.
Qed.

Lemma plain_accurate y u v : is_byte y -> is_byte u -> is_byte v ->
  off_by (plain_r y v) (exact_r y v) <= 12500 /\ off_by (plain_g y u v) (exact_g y u v) <= 12500 /\
  off_by (plain_b y u) (exact_b y u) <= 12500.
Proof.
  unfold is_byte. intros. split; [|split]; apply sat8_near;
    unfold exact_r, exact_g, exact_b, t_yy, t_rv, t_gu, t_gv, t_bu, rounded, RRi, BBi; zlia.
Qed.

Lemma implementations_close y u v : is_byte y -> is_byte u -> is_byte v ->
  Z.abs (plain_r y v - ycc_r y v) <= 1 /\ Z.abs (plain_g y u v - ycc_g y u v) <= 1 /\
  Z.abs (plain_b y u - ycc_b y u) <= 1.
Proof.
  unfold is_byte. intros. split; [|split]; apply sat8_diff;
    unfold luma, t_yy, t_rv, t_gu, t_gv, t_bu, rounded, RRi, BBi; zlia.
Qed.

(** The bytes of the planes at a pixel. *)
Definition luma_at (y : Plane) (j i : Z) : Z := byte_at (pl_bytes y) (j * pl_stride y + i).
Definition chroma_at (p : Plane) (j i : Z) : Z := byte_at (pl_bytes p) (j / 2 * pl_stride p + i / 2).

Lemma row_byte_at p i c : 0 <= c < 4 -> row_byte p (4 * i + c) = default 0 (p i !! Z.to_nat c).
Proof. intros Hc. unfold row_byte. assert ((4 * i + c) / 4 = i /\ (4 * i + c) mod 4 = c) as [-> ->] by zlia. done. Qed.

(** Byte [c] of a pixel of a picture. *)
Lemma picture_byte fmt d dst_stride width height y v u a j i c :
  arguments_ok d dst_stride width height y v u a ->
  0 <= j < 2 * (height / 2) -> 0 <= i < 2 * (width / 2) -> 0 <= c < 4 ->
  byte_at (picture fmt dst_stride width height y v u a d) (j * dst_stride + (4 * i + c)) =
    default 0 (fmt (luma_at y j i) (chroma_at u j i) (chroma_at v j i) (alpha_at a (j * stride_of a + i)) !! Z.to_nat c).
Proof.
  intros Hok Hj Hi Hc. destruct Hok.
  destruct (ld_in d (j * dst_stride + (4 * i + c))) as [x Hx]; [nia|]. unfold byte_at at 1, picture.
  replace (j * dst_stride + (4 * i + c)) with (0 + j * dst_stride + 0 + (4 * i + c)) in * by lia.
  rewrite (lookup_raster_at _ _ _ _ _ _ _ _ _ x) by (done || lia). cbn [default from_option]. unfold id.
  by rewrite row_byte_at.
Qed.

(** Two pictures whose pixels are close are close everywhere. *)
Lemma pictures_close fmt fmt' d dst_stride width height y v u a b :
  arguments_ok d dst_stride width height y v u a -> 0 <= b ->
  (forall Y U V A c, is_byte Y -> is_byte U -> is_byte V ->
    Z.abs (default 0 (fmt Y U V A !! c) - default 0 (fmt' Y U V A !! c)) <= b) ->
  forall i, Z.abs (byte_at (picture fmt dst_stride width height y v u a d) i -
                   byte_at (picture fmt' dst_stride width height y v u a d) i) <= b.
Proof.
  intros Hok Hb Hclose i. unfold byte_at, ld. zcase; [|cbn; lia]. unfold picture. rewrite !lookup_raster.
  destruct (d !! Z.to_nat i); cbn [fmap option_fmap option_map default from_option]; [|cbn; lia]. unfold id.
  destruct (_ && _ && _ && _); [|lia]. unfold row_byte, pixel_at, pixel_from, pixels. destruct Hok as [_ _ [] [] [] _ _ _ _].
  by apply Hclose; apply byte_at_byte.
Qed.

Lemma opaque_close Y U V A c : is_byte Y -> is_byte U -> is_byte V ->
  Z.abs (default 0 (bgra_opaque Y U V A !! c) - default 0 (plain_bgra_opaque Y U V A !! c)) <= 1.
Proof.
  intros HY HU HV. destruct (implementations_close Y U V HY HU HV) as (? & ? & ?).
  destruct c as [|[|[|[|]]]]; cbn [bgra_opaque plain_bgra_opaque lookup list_lookup default from_option]; unfold id; lia.
Qed.

(** The channels of a pixel from [p] on in [d] are at most [b] from the exact colours. *)
Definition near (b : Z) (d : list Z) (p y u v : Z) : Prop :=
  off_by (byte_at d p) (exact_b y u) <= b /\ off_by (byte_at d (p + 1)) (exact_g y u v) <= b /\
  off_by (byte_at d (p + 2)) (exact_r y v) <= b /\ byte_at d (p + 3) = 255.

Lemma opaque_near fmt fb fg fr b d dst_stride width height y v u j i :
  arguments_ok d dst_stride width height y v u None ->
  (forall Y U V A, fmt Y U V A = [fb Y U; fg Y U V; fr Y V; 255]) ->
  (forall Y U V, is_byte Y -> is_byte U -> is_byte V ->
    off_by (fr Y V) (exact_r Y V) <= b /\ off_by (fg Y U V) (exact_g Y U V) <= b /\ off_by (fb Y U) (exact_b Y U) <= b) ->
  0 <= j < 2 * (height / 2) -> 0 <= i < 2 * (width / 2) ->
  near b (picture fmt dst_stride width height y v u None d) (j * dst_stride + 4 * i)
    (luma_at y j i) (chroma_at u j i) (chroma_at v j i).
Proof.
  intros Hok Hfmt Hacc Hj Hi. destruct (Hacc (luma_at y j i) (chroma_at u j i) (chroma_at v j i)) as (Hr & Hg & Hb).
  1-3: destruct Hok as [_ _ [] [] [] _ _ _ _]; by apply byte_at_byte.
  unfold near. replace (j * dst_stride + 4 * i) with (j * dst_stride + (4 * i + 0)) at 1 by lia. rewrite <- !Z.add_assoc.
  rewrite !(picture_byte fmt) by (done || lia). by rewrite Hfmt.
Qed.

(** C29. The colours are right, whichever build makes them: where both convert a picture
    without alpha, no byte of the two results differs by more than one level; each channel of
    each pixel differs from the exact colour by at most 1.07 levels of 255 with SSE2 and by at
    most 1.25 in plain C, and the pixels are opaque. *)
Theorem colours_accurate dst_at dst_stride width height y v u d :
  arguments_ok d dst_stride width height y v u None -> dst_at mod 16 = 0 -> dst_stride mod 16 = 0 ->
  0 < width /\ 0 < height -> width mod 2 = 0 /\ height mod 2 = 0 ->
  exists d1 d2,
    ColorConvert_YCbCr420p_to_BGRA32_no_alpha d dst_at dst_stride width height y v u = Some (0, d1) /\
    c_YCbCr420p_to_BGRA32_no_alpha (Some d) dst_stride width height (Some y) (Some v) (Some u) = Some (0, Some d2) /\
    (forall k, Z.abs (byte_at d1 k - byte_at d2 k) <= 1) /\
    forall j i, 0 <= j < height -> 0 <= i < width ->
      near 10700 d1 (j * dst_stride + 4 * i) (luma_at y j i) (chroma_at u j i) (chroma_at v j i) /\
      near 12500 d2 (j * dst_stride + 4 * i) (luma_at y j i) (chroma_at u j i) (chroma_at v j i).
Proof.
  intros Hok Hat Hs Hpos [Hw Hh].
  exists (picture bgra_opaque dst_stride width height y v u None d),
    (picture plain_bgra_opaque dst_stride width height y v u None d).
  split_and!.
  - by eapply (convert_ok _ _ _).
  - unfold c_YCbCr420p_to_BGRA32_no_alpha. by rewrite convert_c_ok.
  - by eapply pictures_close; eauto using opaque_close.
  - intros j i Hj Hi. assert (0 <= j < 2 * (height / 2) /\ 0 <= i < 2 * (width / 2)) as [] by zlia.
    split; eapply opaque_near; eauto using sse2_accurate, plain_accurate; done.
Qed.
