(* ===== verification/GstVideoFrame.v ===== *)
(** * Frames of a film (GstVideoFrame.cpp, VideoFrame.cpp)

    A frame keeps a buffer of GStreamer and what its caps say of it: the format, the sizes
    and where the planes are.  Java asks for a conversion when it can't show the format; the
    functions here allocate the new picture, call ColorConverter.c and make a frame of it. *)

From Stdlib Require Import String.
From S2P Require Import Prelude.
From S2P Require Import Mem.
From S2P Require Import Sse2.
From S2P Require Import ColorSse2.
From S2P Require Import ColorC.

Open Scope Z_scope.

Inductive FrameType : Type := UNKNOWN | ARGB | BGRA_PRE | YCbCr_420p | YCbCr_422.

#[export] Instance FrameType_eq_dec : EqDecision FrameType.
Proof. solve_decision. Defined.

(** ** Caps and buffers of GStreamer *)

(** The first structure of caps: a name and fields, each with a value of some type. *)
Inductive GValue : Type := GInt (z : Z) | GFourcc (z : Z).

Record GstStructure := mkStructure {
  str_name : string;
  str_fields : list (string * GValue);
}.

Fixpoint get_field (l : list (string * GValue)) (name : string) : option GValue :=
  match l with
  | [] => None
  | (n, v) :: l => if String.eqb n name then Some v else get_field l name
  end.

(** A field that is there is replaced, another is appended. *)
Fixpoint set_field (l : list (string * GValue)) (name : string) (v : GValue) : list (string * GValue) :=
  match l with
  | [] => [(name, v)]
  | (n, w) :: l => if String.eqb n name then (n, v) :: l else (n, w) :: set_field l name v
  end.

(** A field of another type is as one that is missing. *)
Definition gst_structure_get_int (str : GstStructure) (name : string) : option Z :=
  match get_field (str_fields str) name with Some (GInt z) => Some z | _ => None end.
Definition gst_structure_get_fourcc (str : GstStructure) (name : string) : option Z :=
  match get_field (str_fields str) name with Some (GFourcc z) => Some z | _ => None end.
Definition gst_structure_has_name (str : GstStructure) (name : string) : bool := String.eqb (str_name str) name.

(** [b_mem] is the memory from the address [b_at] on, and [b_size] what the buffer says of it. *)
Record Buffer := mkBuffer {
  b_mem : list Z;
  b_at : Z;
  b_size : Z;
  b_timestamp : Z;
  b_offset : Z;
  b_duration : Z;
  b_caps : option GstStructure;
}.

(** [GST_CLOCK_TIME_NONE] and [GST_BUFFER_OFFSET_NONE]. *)
Definition NONE : Z := 18446744073709551615.

Definition set_caps (caps : GstStructure) (b : Buffer) : Buffer :=
  mkBuffer (b_mem b) (b_at b) (b_size b) (b_timestamp b) (b_offset b) (b_duration b) (Some caps).
Definition set_mem (mem : list Z) (b : Buffer) : Buffer :=
  mkBuffer mem (b_at b) (b_size b) (b_timestamp b) (b_offset b) (b_duration b) (b_caps b).

(** The build and the allocators: a block has an address and some content. *)
Record Env := mkEnv {
  enable_simd_sse2 : bool;
  g_try_malloc : Z -> option (Z * list Z);
  gst_buffer_new : bool;
  gst_caps_new : bool;
}.

(** ** Frames *)

(** The fields of [CVideoFrame] and then those of [CGstVideoFrame], which declares a field
    [m_bHasAlpha] of its own; [m_dTime] is in nanoseconds, the code keeps it in seconds, and
    [m_pvData] is the memory of the buffer. *)
Record Frame := mkFrame {
  m_iWidth : Z;
  m_iHeight : Z;
  m_iEncodedWidth : Z;
  m_iEncodedHeight : Z;
  m_typeFrame : FrameType;
  base_bHasAlpha : bool;
  m_iPlaneCount : Z;
  m_piPlaneOffsets : Z * Z * Z * Z;
  m_piPlaneStrides : Z * Z * Z * Z;
  m_dTime : Z;
  m_ulSize : Z;
  m_ulFrameNumber : Z;
  m_bIsValid : bool;
  m_bHasAlpha : bool;
  m_uFormatFourCC : Z;
  m_pBuffer : option Buffer;
}.

Definition plane_entry (t : Z * Z * Z * Z) (i : Z) : Z :=
  let '(p0, p1, p2, p3) := t in
  if i =? 0 then p0 else if i =? 1 then p1 else if i =? 2 then p2 else p3.

Definition HasAlpha (f : Frame) : bool := base_bHasAlpha f.
Definition GetOffsetForPlane (f : Frame) (planeIndex : Z) : Z :=
  if (planeIndex <? 4) && (0 <=? planeIndex) then plane_entry (m_piPlaneOffsets f) planeIndex else 0.
Definition GetStrideForPlane (f : Frame) (planeIndex : Z) : Z :=
  if (planeIndex <? 4) && (0 <=? planeIndex) then plane_entry (m_piPlaneStrides f) planeIndex else 0.

(** [CVideoFrame::CVideoFrame]; the fields that it leaves keep what is in the memory. *)
Definition CVideoFrame_init (f : Frame) : Frame :=
  mkFrame 0 0 (m_iEncodedWidth f) (m_iEncodedHeight f) UNKNOWN false (m_iPlaneCount f) (m_piPlaneOffsets f)
    (m_piPlaneStrides f) 0 0 0 (m_bIsValid f) (m_bHasAlpha f) (m_uFormatFourCC f) (m_pBuffer f).

(** [GST_MAKE_FOURCC]. *)
Definition FOURCC_I420 : Z := 0x30323449.
Definition FOURCC_UYVY : Z := 0x59565955.

(** ** The formats of caps *)

(** What the name of the caps and the masks say: the type, whether there is alpha and whether
    the frame is valid.  The function returns at once when the masks are missing or wrong. *)
Inductive Format : Type :=
  | IsFormat (t : FrameType) (alpha valid : bool)
  | BadMasks.

Definition rgb_type (red_mask green_mask blue_mask : Z) : option FrameType :=
  if (0x00ff0000 =? red_mask) || (0x0000ff00 =? green_mask) || (0x000000ff =? blue_mask) then Some ARGB
  else if (0x0000ff00 =? red_mask) || (0x00ff0000 =? green_mask) || (0xff000000 =? u32 blue_mask) then Some BGRA_PRE
  else None.

Definition format_of (str : GstStructure) (fourcc : Z) : Format :=
  if gst_structure_has_name str "video/x-raw-yvua420p" then IsFormat YCbCr_420p true true
  else if gst_structure_has_name str "video/x-raw-ycbcr422" then IsFormat YCbCr_422 false true
  else if gst_structure_has_name str "video/x-raw-yuv" then
    IsFormat (if FOURCC_UYVY =? fourcc then YCbCr_422 else YCbCr_420p) false true
  else if gst_structure_has_name str "video/x-raw-rgb" then
    match gst_structure_get_int str "red_mask", gst_structure_get_int str "green_mask",
          gst_structure_get_int str "blue_mask" with
    | Some r, Some g, Some b =>
        match rgb_type r g b with Some t => IsFormat t true true | None => BadMasks end
    | _, _, _ => BadMasks
    end
  else IsFormat UNKNOWN false false.

(** ** The planes of caps *)

Section Planes.
Context (str : GstStructure).

Definition int_or (name : string) (z : Z) : Z := default z (gst_structure_get_int str name).

(** The offsets and strides of the planes. *)
Definition planes_of (t : FrameType) (alpha : bool) (fourcc encodedWidth encodedHeight : Z) :
    Z * (Z * Z * Z * Z) * (Z * Z * Z * Z) :=
  match t with
  | YCbCr_420p =>
      let s0 := int_or "stride-y" encodedWidth in
      let s1 := int_or "stride-v" (Z.quot encodedWidth 2) in
      let s2 := int_or "stride-u" s1 in
      let o0 := int_or "offset-y" 0 in
      let o1 := int_or "offset-v" (i32 (o0 + i32 (encodedHeight * s0))) in
      let o2 := int_or "offset-u" (i32 (o1 + i32 (Z.quot encodedHeight 2 * s1))) in
      let '(o1, o2) := if FOURCC_I420 =? fourcc then (o2, o1) else (o1, o2) in
      if alpha then
        let s3 := int_or "stride-a" s0 in
        let o3 := int_or "offset-a" (i32 (o2 + i32 (Z.quot encodedHeight 2 * s2))) in
        (4, (o0, o1, o2, o3), (s0, s1, s2, s3))
      else (3, (o0, o1, o2, 0), (s0, s1, s2, 0))
  | _ =>
      let s0 := int_or "line_stride"
        (match t with YCbCr_422 => i32 (encodedWidth * 2) | _ => i32 (encodedWidth * 4) end) in
      (1, (0, 0, 0, 0), (s0, 0, 0, 0))
  end.
End Planes.

Definition is_some (o : option Z) : bool := match o with Some _ => true | None => false end.

Definition SetFrameCaps (f : Frame) (newCaps : GstStructure) : Frame :=
  let fourcc := default (m_uFormatFourCC f) (gst_structure_get_fourcc newCaps "format") in
  match format_of newCaps fourcc with
  | BadMasks =>
      mkFrame (m_iWidth f) (m_iHeight f) (m_iEncodedWidth f) (m_iEncodedHeight f) (m_typeFrame f) (base_bHasAlpha f)
        (m_iPlaneCount f) (m_piPlaneOffsets f) (m_piPlaneStrides f) (m_dTime f) (m_ulSize f) (m_ulFrameNumber f)
        false (m_bHasAlpha f) fourcc (m_pBuffer f)
  | IsFormat t alpha valid =>
      let w := gst_structure_get_int newCaps "width" in
      let h := gst_structure_get_int newCaps "height" in
      let ew := int_or newCaps "encoded-width" (default 0 w) in
      let eh := int_or newCaps "encoded-height" (default 0 h) in
      let '(count, offsets, strides) := planes_of newCaps t alpha fourcc ew eh in
      mkFrame (default 0 w) (default 0 h) ew eh t (base_bHasAlpha f) count offsets strides (m_dTime f) (m_ulSize f)
        (m_ulFrameNumber f) (valid && is_some w && is_some h) alpha fourcc (set_caps newCaps <$> m_pBuffer f)
  end.

(** The constructor for a buffer: [raw] is the memory of the object; [None] when the buffer
    has no caps, whose structure the function would read. *)
Definition new_frame (raw : Frame) (buffer : Buffer) : option Frame :=
  caps ← b_caps buffer;
  let f := CVideoFrame_init raw in
  let valid := negb (b_timestamp buffer =? NONE) in
  Some (SetFrameCaps (mkFrame (m_iWidth f) (m_iHeight f) (m_iEncodedWidth f) (m_iEncodedHeight f) (m_typeFrame f)
    (base_bHasAlpha f) (m_iPlaneCount f) (m_piPlaneOffsets f) (m_piPlaneStrides f)
    (if valid then b_timestamp buffer else 0) (b_size buffer) (b_offset buffer) valid (m_bHasAlpha f)
    (m_uFormatFourCC f) (Some buffer)) caps).

(** ** Conversions *)

Definition swap_uint32 (x : Z) : Z :=
  u32 ((x .& 0x000000ff) << 24) .| u32 ((x .& 0x0000ff00) << 8) .|
  ((x .& 0x00ff0000) >> 8) .| ((x .& 0xff000000) >> 24).

(** The numbers of 32 bits in an array. *)
Definition load_u32 (a : list Z) (i : Z) : option Z := x ← load_i32 a i; Some (u32 x).
Definition store_u32 (a : list Z) (i x : Z) : option (list Z) :=
  store_bytes a i [x mod 256; x / 256 mod 256; x / 65536 mod 256; x / 16777216 mod 256].

(** The masks of alpha, red, green and blue; other types leave the variables as they are. *)
Definition masks_of (t : FrameType) : option (Z * Z * Z * Z) :=
  match t with
  | ARGB => Some (i32 0xFF000000, 0x00FF0000, 0x0000FF00, 0x000000FF)
  | BGRA_PRE => Some (0x000000FF, 0x0000FF00, 0x00FF0000, i32 0xFF000000)
  | _ => None
  end.

(** [None] when a variable is read that has no value. *)
Definition create_RGB_caps (type : FrameType) (width height encodedWidth encodedHeight stride : Z) :
    option GstStructure :=
  '(alpha_mask, red_mask, green_mask, blue_mask) ← masks_of type;
  Some (mkStructure "video/x-raw-rgb"
    [("bpp", GInt 32); ("depth", GInt 32); ("red_mask", GInt red_mask); ("green_mask", GInt green_mask);
     ("blue_mask", GInt blue_mask); ("alpha_mask", GInt alpha_mask); ("width", GInt width); ("height", GInt height);
     ("encoded-width", GInt encodedWidth); ("encoded-height", GInt encodedHeight); ("line_stride", GInt stride)]%string).

(** What a conversion gives: the frame, or a null pointer, and how many references to the new
    buffer are left. *)
Abbreviation Converted := (option Frame * Z)%type.

(** The state of the loops of [ConvertSwapRGB]; the pointers count numbers of 32 bits. *)
Record Swapping := mkSwapping {
  w_dst : list Z;
  xx : Z;
  dstData : Z;
  srcData : Z;
}.

Section Conversions.
Context (E : Env) (raw : Frame).

Definition alloc_aligned_buffer (size : Z) : option Buffer :=
  let alignedSize := size in
  let size := u32 (size + 16) in
  '(newData, mem) ← g_try_malloc E size;
  if gst_buffer_new E then
    let alignedData := (newData + 15) .& Z.lnot 15 in
    Some (mkBuffer (drop (Z.to_nat (alignedData - newData)) mem) alignedData alignedSize NONE NONE NONE None)
  else None.

(** The pointer to byte [off] of a buffer. *)
Definition pointer (b : Buffer) (off : Z) : option (list Z) :=
  if (0 <=? off) && (off <=? alen (b_mem b)) then Some (drop (Z.to_nat off) (b_mem b)) else None.

(** Plane [i] of a frame. *)
Definition plane_of (f : Frame) (b : Buffer) (i : Z) : option Plane :=
  let off := plane_entry (m_piPlaneOffsets f) i in
  l ← pointer b off; Some (mkPlane l (b_at b + off) (plane_entry (m_piPlaneStrides f) i)).

(** [ColorConvert_YCbCr420p_to_*] of the build. *)
Definition color_convert (destType : FrameType) (d : list Z) (at_ stride width height : Z) (y v u : Plane)
    (a : option Plane) : option (Z * list Z) :=
  let plain (r : option (Z * option (list Z))) := '(s, d') ← r; Some (s, default d d') in
  match destType, a with
  | ARGB, Some a => if enable_simd_sse2 E then ColorConvert_YCbCr420p_to_ARGB32 d at_ stride width height y v u a
                    else plain (c_YCbCr420p_to_ARGB32 (Some d))
  | ARGB, None => if enable_simd_sse2 E then ColorConvert_YCbCr420p_to_ARGB32_no_alpha d at_ stride width height y v u
                  else plain (c_YCbCr420p_to_ARGB32_no_alpha (Some d))
  | _, Some a => if enable_simd_sse2 E then ColorConvert_YCbCr420p_to_BGRA32 d at_ stride width height y v u a
                 else plain (c_YCbCr420p_to_BGRA32 (Some d) stride width height (Some y) (Some v) (Some u) a)
  | _, None => if enable_simd_sse2 E then ColorConvert_YCbCr420p_to_BGRA32_no_alpha d at_ stride width height y v u
               else plain (c_YCbCr420p_to_BGRA32_no_alpha (Some d) stride width height (Some y) (Some v) (Some u))
  end.

(** [destCaps] and the numbers of the buffer [b] that are copied. *)
Definition describe (caps : GstStructure) (b dest : Buffer) : Buffer :=
  mkBuffer (b_mem dest) (b_at dest) (b_size dest) (b_timestamp b) (b_offset b) (b_duration b) (Some caps).

(** The frame of the new buffer, which it refers to; the function drops its own reference. *)
Definition finish (status : Z) (dest : Buffer) : option Converted :=
  if status =? 0 then newFrame ← new_frame raw dest; Some (Some newFrame, 1) else Some (None, 1).

(** [((stride + 15) & ~15)] of the width of the frame. *)
Definition dest_stride (f : Frame) : Z := i32 (i32 (m_iEncodedWidth f * 4) + 15) .& Z.lnot 15.

Definition ConvertFromYCbCr420p (f : Frame) (b : Buffer) (destType : FrameType) : option Converted :=
  let '(u_index, v_index) := if FOURCC_I420 =? m_uFormatFourCC f then (1, 2) else (2, 1) in
  let stride := dest_stride f in
  match alloc_aligned_buffer (u32 (stride * m_iEncodedHeight f)) with
  | None => Some (None, 0)
  | Some destBuffer =>
      destCaps ← create_RGB_caps destType (m_iWidth f) (m_iHeight f) (m_iEncodedWidth f) (m_iEncodedHeight f) stride;
      if gst_caps_new E then
        let destBuffer := describe destCaps b destBuffer in
        y ← plane_of f b 0;
        v ← plane_of f b v_index;
        u ← plane_of f b u_index;
        a ← (if m_bHasAlpha f then a ← plane_of f b 3; Some (Some a) else Some None);
        '(status, d) ← color_convert destType (b_mem destBuffer) (b_at destBuffer) stride (m_iEncodedWidth f)
                         (m_iEncodedHeight f) y v u a;
        finish status (set_mem d destBuffer)
      else Some (None, 0)
  end.

Definition ConvertFromYCbCr422 (f : Frame) (b : Buffer) (destType : FrameType) : option Converted :=
  let stride := dest_stride f in
  if m_bHasAlpha f then Some (None, 0) else
  match alloc_aligned_buffer (u32 (stride * m_iEncodedHeight f)) with
  | None => Some (None, 0)
  | Some destBuffer =>
      destCaps ← create_RGB_caps destType (m_iWidth f) (m_iHeight f) (m_iEncodedWidth f) (m_iEncodedHeight f) stride;
      if gst_caps_new E then
        let destBuffer := describe destCaps b destBuffer in
        let offset := plane_entry (m_piPlaneOffsets f) 0 in
        let s := plane_entry (m_piPlaneStrides f) 0 in
        y ← pointer b (offset + 1);
        v ← pointer b (offset + 2);
        u ← pointer b offset;
        '(status, d) ← match destType with
                       | ARGB => ColorConvert_YCbCr422p_to_ARGB32_no_alpha (Some (b_mem destBuffer))
                       | _ => ColorConvert_YCbCr422p_to_BGRA32_no_alpha (Some (b_mem destBuffer)) stride
                                (m_iEncodedWidth f) (m_iEncodedHeight f) (Some y) (Some v) (Some u) s s
                       end;
        finish status (set_mem (default (b_mem destBuffer) d) destBuffer)
      else Some (None, 0)
  end.

(** [dstData[xx] = swap_uint32(srcData[xx])]. *)
Definition swap_at (src dst : list Z) (di si : Z) : option (list Z) :=
  x ← load_u32 src (4 * si); store_u32 dst (4 * di) (swap_uint32 x).

(** The loop over the whole buffer, and the loop over rows and columns. *)
Definition swap_next (src : list Z) (s : Swapping) : option Swapping :=
  d ← swap_at src (w_dst s) (dstData s) (srcData s);
  Some (mkSwapping d (xx s + 4) (dstData s + 1) (srcData s + 1)).
Definition swap_column (src : list Z) (s : Swapping) : option Swapping :=
  d ← swap_at src (w_dst s) (dstData s + xx s) (srcData s + xx s);
  Some (mkSwapping d (xx s + 1) (dstData s) (srcData s)).
Definition swap_row (f : Frame) (src : list Z) (s : Swapping) : option Swapping :=
  s ← for_ (Z.to_nat (m_iWidth f)) (swap_column src) (mkSwapping (w_dst s) 0 (dstData s) (srcData s));
  let stride := plane_entry (m_piPlaneStrides f) 0 in
  Some (mkSwapping (w_dst s) (xx s) (dstData s + stride) (srcData s + stride)).

Definition swap_all (f : Frame) (b : Buffer) (dst : list Z) : option (list Z) :=
  let start := mkSwapping dst 0 0 0 in
  s ← (if (plane_entry (m_piPlaneStrides f) 0 .& 3) =? 0
       then while_ (Z.to_nat (b_size b)) (fun s => u32 (xx s) <? b_size b) (swap_next (b_mem b)) start
       else for_ (Z.to_nat (m_iHeight f)) (swap_row f (b_mem b)) start);
  Some (w_dst s).

(** The caps of [ConvertSwapRGB]: a copy with other masks. *)
Definition set_masks (str : GstStructure) (masks : Z * Z * Z * Z) : GstStructure :=
  let '(alpha_mask, red_mask, green_mask, blue_mask) := masks in
  mkStructure (str_name str)
    (set_field (set_field (set_field (set_field (str_fields str) "red_mask" (GInt red_mask))
       "green_mask" (GInt green_mask)) "blue_mask" (GInt blue_mask)) "alpha_mask" (GInt alpha_mask))%string.

Definition ConvertSwapRGB (f : Frame) (b : Buffer) (destType : FrameType) : option Converted :=
  match alloc_aligned_buffer (b_size b) with
  | None => Some (None, 0)
  | Some destBuffer =>
      srcCaps ← b_caps b;
      match masks_of destType with
      | None => Some (None, 0)
      | Some masks =>
          let destBuffer := set_caps (set_masks srcCaps masks) destBuffer in
          d ← swap_all f b (b_mem destBuffer);
          finish 0 (set_mem d destBuffer)
      end
  end.

Definition ConvertToFormat (f : Frame) (type : FrameType) : option Converted :=
  if bool_decide (type = m_typeFrame f) then Some (Some f, 0) else
  match type with
  | YCbCr_422 | YCbCr_420p => Some (None, 0)
  | _ =>
      b ← m_pBuffer f;
      match m_typeFrame f with
      | ARGB | BGRA_PRE => ConvertSwapRGB f b type
      | YCbCr_420p => ConvertFromYCbCr420p f b type
      | YCbCr_422 => ConvertFromYCbCr422 f b type
      | UNKNOWN => Some (None, 0)
      end
  end.
End Conversions.
