(* ===== verification/VideoConvert.v ===== *)
(** * The conversion of frames

    A frame in planes is converted to one of pixels that Java can show: the caller of
    ColorConverter.c gives it what it needs, above all a picture aligned to 16 bytes, and
    describes the new frame rightly.  Swapping the bytes of pixels twice gives them back. *)

From Stdlib Require Import String.
From S2P Require Import Prelude.
From S2P Require Import Mem.
From S2P Require Import Sse2.
From S2P Require Import ColorSse2.
From S2P Require Import ColorC.
From S2P Require Import ColorBlocks.
From S2P Require Import ColorPicture.
From S2P Require Import ColorPlain.
From S2P Require Import GstVideoFrame.

Open Scope Z_scope.

(** ** Allocation *)

(** The allocators succeed: a block has the size that was asked for. *)
Record allocates (E : Env) : Prop := {
  malloc_ok : forall n, 0 < n < 4294967296 ->
    exists at_ l, g_try_malloc E n = Some (at_, l) /\ alen l = n /\ Forall is_byte l;
  buffer_new_ok : gst_buffer_new E = true;
  caps_new_ok : gst_caps_new E = true;
}.

Lemma round_down z : (z .& Z.lnot 15) = z / 16 * 16.
Proof.
  change 15 with (Z.ones 4). rewrite <- Z.ldiff_land, Z.ldiff_ones_r by lia.
  by rewrite Z.shiftl_mul_pow2, Z.shiftr_div_pow2 by lia.
Qed.

Lemma align_up x : x <= ((x + 15) .& Z.lnot 15) <= x + 15 /\ ((x + 15) .& Z.lnot 15) mod 16 = 0.
Proof. rewrite round_down, Z.mod_mul by lia. zlia. Qed.

Lemma alloc_ok E size : allocates E -> 0 <= size < 4294967280 ->
  exists dest, alloc_aligned_buffer E size = Some dest /\ b_at dest mod 16 = 0 /\ size <= alen (b_mem dest) /\
    b_size dest = size /\ b_timestamp dest = NONE /\ b_offset dest = NONE /\ Forall is_byte (b_mem dest).
Proof.
  intros HE Hs. destruct (malloc_ok _ HE (size + 16)) as (at_ & l & Hm & Hl & Hb); [lia|].
  unfold alloc_aligned_buffer, u32. rewrite Z.mod_small, Hm, (buffer_new_ok _ HE) by lia. cbn [mbind option_bind].
  destruct (align_up at_) as [Hr Ha]. eexists. split; [done|]. cbn [b_at b_mem b_size b_timestamp b_offset].
  split_and!; try done; [|by apply Forall_drop]. unfold alen in *. rewrite length_drop. lia.
Qed.

(** ** Caps of pictures *)

(** The frame of a picture of pixels in the buffer [b]. *)
Definition rgb_frame (raw : Frame) (t : FrameType) (w h ew eh stride : Z) (b : Buffer) : Frame :=
  mkFrame w h ew eh t false 1 (0, 0, 0, 0) (stride, 0, 0, 0) (if b_timestamp b =? NONE then 0 else b_timestamp b)
    (b_size b) (b_offset b) true true (m_uFormatFourCC raw) (Some b).

(** The caps that a conversion writes are read back. *)
Lemma rgb_caps_read raw t w h ew eh stride caps b :
  create_RGB_caps t w h ew eh stride = Some caps -> b_caps b = Some caps ->
  new_frame raw b = Some (rgb_frame raw t w h ew eh stride b).
Proof.
  intros Hc Hb. unfold new_frame. rewrite Hb. destruct b; cbn in Hb; subst.
  destruct t; cbn in Hc; try done; injection Hc as <-; cbn; unfold rgb_frame; cbn; repeat f_equal;
    by destruct (_ =? NONE).
Qed.

Lemma create_caps t w h ew eh stride : t = ARGB \/ t = BGRA_PRE ->
  exists caps, create_RGB_caps t w h ew eh stride = Some caps.
Proof. intros [-> | ->]; eexists; reflexivity. Qed.

(** ** Planes *)

(** What a frame in planes [y], [v], [u] and [a] needs for its conversion. *)
Record frame_ok (f : Frame) (b : Buffer) (y v u : Plane) (a : option Plane) : Prop := {
  frame_type : m_typeFrame f = YCbCr_420p;
  frame_buffer : m_pBuffer f = Some b;
  frame_width : 0 < m_iEncodedWidth f < 268435440;
  frame_height : 0 < m_iEncodedHeight f <= 2147483647;
  frame_size : dest_stride f * m_iEncodedHeight f < 4294967280;
  frame_y : plane_of f b 0 = Some y;
  frame_v : plane_of f b (if FOURCC_I420 =? m_uFormatFourCC f then 2 else 1) = Some v;
  frame_u : plane_of f b (if FOURCC_I420 =? m_uFormatFourCC f then 1 else 2) = Some u;
  frame_a : if m_bHasAlpha f then exists p, a = Some p /\ plane_of f b 3 = Some p else a = None;
  frame_y_ok : plane_ok y (2 * (m_iEncodedHeight f / 2)) (2 * (m_iEncodedWidth f / 2));
  frame_v_ok : plane_ok v (m_iEncodedHeight f / 2) (m_iEncodedWidth f / 2);
  frame_u_ok : plane_ok u (m_iEncodedHeight f / 2) (m_iEncodedWidth f / 2);
  frame_a_ok : match a with
               | Some a => plane_ok a (2 * (m_iEncodedHeight f / 2)) (2 * (m_iEncodedWidth f / 2))
               | None => True
               end;
}.

(** The pixels of a type in a build; [None] where the build refuses the conversion. *)
Definition pixel_format (simd : bool) (t : FrameType) (alpha : bool) (width height : Z) :
    option (Z -> Z -> Z -> Z -> list Z) :=
  match simd, t, alpha with
  | true, ARGB, true => Some argb
  | true, ARGB, false => Some argb_opaque
  | true, _, true => Some bgra
  | true, _, false => Some bgra_opaque
  | false, ARGB, _ => None
  | false, _, _ => if (width mod 2 =? 0) && (height mod 2 =? 0)
                   then Some (if alpha then plain_bgra else plain_bgra_opaque) else None
  end.

Lemma odd_size width height : 0 < width -> 0 < height ->
  truth ((width .| height) .& 1) = negb ((width mod 2 =? 0) && (height mod 2 =? 0)).
Proof.
  intros. unfold truth. change 1 with (Z.ones 1). rewrite Z.land_ones by lia. change (2 ^ 1) with 2.
  rewrite <- Z.bit0_mod, Z.lor_spec, !Z.bit0_eqb.
  pose proof (Z.mod_pos_bound width 2). pose proof (Z.mod_pos_bound height 2).
  assert (width mod 2 = 0 \/ width mod 2 = 1) as [-> | ->] by lia;
    assert (height mod 2 = 0 \/ height mod 2 = 1) as [-> | ->] by lia; done.
Qed.

Lemma convert_c_frame stride width height y v u a d fmt :
  arguments_ok d stride width height y v u a -> 0 < width -> 0 < height ->
  fmt = (match a with Some _ => plain_bgra | None => plain_bgra_opaque end) ->
  convert_c stride width height y v u a d =
    Some (if (width mod 2 =? 0) && (height mod 2 =? 0) then (0, picture fmt stride width height y v u a d) else (1, d)).
Proof.
  intros Hok Hw Hh ->. destruct ((width mod 2 =? 0) && (height mod 2 =? 0)) eqn:Eeven.
  - apply andb_true_iff in Eeven as [?%Z.eqb_eq ?%Z.eqb_eq]. destruct a; by apply convert_c_ok.
  - unfold convert_c. rewrite odd_size, Eeven by done. cbn [negb]. by destruct (_ || _).
Qed.

Lemma color_convert_ok E t d at_ stride width height y v u a :
  arguments_ok d stride width height y v u a -> 0 < width -> 0 < height -> t = ARGB \/ t = BGRA_PRE ->
  at_ mod 16 = 0 -> stride mod 16 = 0 ->
  color_convert E t d at_ stride width height y v u a =
    Some (match pixel_format (enable_simd_sse2 E) t (match a with Some _ => true | None => false end) width height with
          | Some fmt => (0, picture fmt stride width height y v u a d)
          | None => (1, d)
          end).
Proof.
  intros Hok Hw Hh Ht Hat Hs. unfold color_convert, pixel_format.
  destruct (enable_simd_sse2 E).
  - destruct Ht as [-> | ->], a; by eapply (convert_ok _ _ _).
  - destruct Ht as [-> | ->]; [by destruct a|].
    destruct a; unfold c_YCbCr420p_to_BGRA32, c_YCbCr420p_to_BGRA32_no_alpha;
      rewrite (convert_c_frame _ _ _ _ _ _ _ _ _ Hok Hw Hh eq_refl); by destruct (_ && _).
Qed.

Lemma dest_stride_ok f : 0 < m_iEncodedWidth f < 268435440 ->
  4 * m_iEncodedWidth f <= dest_stride f <= 4 * m_iEncodedWidth f + 15 /\ dest_stride f mod 16 = 0.
Proof.
  intros Hw. unfold dest_stride.
  rewrite (i32_id (_ * 4)), i32_id by (unfold is_i32; rewrite ?i32_id by (unfold is_i32; lia); lia).
  destruct (align_up (m_iEncodedWidth f * 4)) as [? ->]. rewrite round_down in *. zlia.
Qed.

(** The frame is enough for the functions that convert. *)
Lemma frame_arguments f b y v u a d : frame_ok f b y v u a -> dest_stride f * m_iEncodedHeight f <= alen d ->
  arguments_ok d (dest_stride f) (m_iEncodedWidth f) (m_iEncodedHeight f) y v u a.
Proof.
  intros Hf Hd. destruct Hf. destruct (dest_stride_ok f) as [? _]; [done|].
  split; try done; try lia; [zlia|]. assert (2 * (m_iEncodedHeight f / 2) <= m_iEncodedHeight f) by zlia. nia.
Qed.

(** The new buffer, whose picture was [d] before the conversion with [fmt]. *)
Definition picture_buffer (f : Frame) (b : Buffer) (y v u : Plane) (a : option Plane)
    (fmt : Z -> Z -> Z -> Z -> list Z) (caps : GstStructure) (dest : Buffer) : Buffer :=
  set_mem (picture fmt (dest_stride f) (m_iEncodedWidth f) (m_iEncodedHeight f) y v u a (b_mem dest))
    (describe caps b dest).

Lemma planar_converts E raw f b y v u a t :
  allocates E -> frame_ok f b y v u a -> t = ARGB \/ t = BGRA_PRE ->
  exists dest caps, b_at dest mod 16 = 0 /\ b_size dest = dest_stride f * m_iEncodedHeight f /\
    b_size dest <= alen (b_mem dest) /\
    create_RGB_caps t (m_iWidth f) (m_iHeight f) (m_iEncodedWidth f) (m_iEncodedHeight f) (dest_stride f) = Some caps /\
    ConvertFromYCbCr420p E raw f b t =
      Some (match pixel_format (enable_simd_sse2 E) t (m_bHasAlpha f) (m_iEncodedWidth f) (m_iEncodedHeight f) with
            | Some fmt => (Some (rgb_frame raw t (m_iWidth f) (m_iHeight f) (m_iEncodedWidth f) (m_iEncodedHeight f)
                             (dest_stride f) (picture_buffer f b y v u a fmt caps dest)), 1)
            | None => (None, 1)
            end).
Proof.
  intros HE Hf Ht. destruct (dest_stride_ok f (frame_width _ _ _ _ _ _ Hf)) as [Hs Hm].
  assert (0 <= dest_stride f * m_iEncodedHeight f < 4294967280) as Hbytes
    by (destruct Hf; split; [apply Z.mul_nonneg_nonneg; lia|done]).
  destruct (alloc_ok E (dest_stride f * m_iEncodedHeight f) HE) as (dest & Ed & Hat & Hlen & Hsize & _ & _ & _); [done|].
  destruct (create_caps t (m_iWidth f) (m_iHeight f) (m_iEncodedWidth f) (m_iEncodedHeight f) (dest_stride f) Ht) as [caps Hc].
  exists dest, caps. split_and!; try done; [lia|]. unfold ConvertFromYCbCr420p, u32. rewrite Z.mod_small, Ed by lia.
  pose proof (frame_arguments f b y v u a (b_mem dest) Hf Hlen) as Hok. destruct Hf.
  assert (exists o : option (option Plane), o = Some a /\
    (if m_bHasAlpha f then a ← plane_of f b 3; Some (Some a) else Some None) = o /\
    m_bHasAlpha f = match a with Some _ => true | None => false end) as (o & -> & Ea & Hh).
  { eexists. split; [done|]. destruct (m_bHasAlpha f); [|by subst]. destruct frame_a0 as (p & -> & Ep). by rewrite Ep. }
  rewrite Hc. cbn [mbind option_bind]. rewrite (caps_new_ok _ HE).
  set (I := FOURCC_I420 =? m_uFormatFourCC f) in *.
  replace (if I then (1, 2) else (2, 1)) with (if I then 1 else 2, if I then 2 else 1) by (by destruct I).
  rewrite frame_y0, frame_v0, frame_u0, Ea. cbn [mbind option_bind describe b_mem b_at].
  rewrite color_convert_ok by (done || lia). cbn [mbind option_bind]. rewrite Hh.
  destruct (pixel_format _ _ _ _ _); cbn [mbind option_bind]; [|done].
  unfold finish. cbn [Z.eqb]. by rewrite (rgb_caps_read raw _ _ _ _ _ _ _ _ Hc) by done.
Qed.


(** ** Where the planes are *)

(** The caps of a film without offsets and strides. *)
Definition plain_caps (fourcc w h : Z) : GstStructure :=
  mkStructure "video/x-raw-yuv" [("format", GFourcc fourcc); ("width", GInt w); ("height", GInt h)]%string.

Definition plane_from (b : Buffer) (off stride : Z) : Plane :=
  mkPlane (drop (Z.to_nat off) (b_mem b)) (b_at b + off) stride.

Lemma drop_plane_ok b off stride rows columns :
  Forall is_byte (b_mem b) -> 0 <= off -> 0 <= stride < 1073741824 -> off + (rows - 1) * stride + columns <= alen (b_mem b) ->
  off <= alen (b_mem b) -> plane_ok (plane_from b off stride) rows columns.
Proof.
  intros Hb Hoff Hs Hlen Hle. split; cbn [pl_bytes pl_stride plane_from]; [by apply Forall_drop|done|].
  unfold alen in *. rewrite length_drop. lia.
Qed.

(** Whatever the order of the chroma planes is said to be, the first is taken for [v]: the
    offsets are swapped for I420 when they are read, and swapped again when they are used. *)
Lemma default_frame_ok raw b fourcc w h :
  fourcc <> FOURCC_UYVY -> b_caps b = Some (plain_caps fourcc w h) ->
  Forall is_byte (b_mem b) -> w mod 2 = 0 -> h mod 2 = 0 -> 0 < w < 1073741824 -> 0 < h ->
  w * h + w * h / 2 <= alen (b_mem b) -> w * h + w * h / 2 <= 2147483647 -> (4 * w + 15) * h < 4294967280 -> w < 268435440 ->
  exists f, new_frame raw b = Some f /\
    frame_ok f b (plane_from b 0 w) (plane_from b (w * h) (w / 2)) (plane_from b (w * h + w / 2 * (h / 2)) (w / 2)) None.
Proof.
  intros Hfc Hcaps Hbytes Hw2 Hh2 Hw Hh Hlen Hmax Hsize Hw'.
  assert (w = 2 * (w / 2) /\ h = 2 * (h / 2)) as [Ew Eh] by zlia.
  assert (w * h = 4 * (w / 2 * (h / 2))) as Ewh by nia.
  set (q := w / 2 * (h / 2)) in *. assert (w * h / 2 = 2 * q) as Ehalf by (rewrite Ewh; zlia).
  assert (0 < q) by (apply Z.mul_pos_pos; lia).
  assert (new_frame raw b = Some (mkFrame w h w h YCbCr_420p false 3
    (if FOURCC_I420 =? fourcc then (0, w * h + q, w * h, 0) else (0, w * h, w * h + q, 0)) (w, w / 2, w / 2, 0)
    (if b_timestamp b =? NONE then 0 else b_timestamp b) (b_size b) (b_offset b) true false fourcc (Some b))) as Hnew.
  { unfold new_frame. rewrite Hcaps. cbn [mbind option_bind]. unfold SetFrameCaps.
    cbn -[FOURCC_UYVY FOURCC_I420 planes_of]. unfold format_of. cbn -[FOURCC_UYVY FOURCC_I420 planes_of].
    rewrite (proj2 (Z.eqb_neq _ _)) by congruence. unfold planes_of, int_or. cbn -[FOURCC_I420].
    rewrite !Z.quot_div_nonneg by lia. rewrite (Z.mul_comm h w), (Z.mul_comm (h / 2)). fold q.
    rewrite !(i32_id (w * h)), Z.add_0_l, !(i32_id (w * h)), !(i32_id q), i32_id by (unfold is_i32; lia).
    destruct b; cbn -[FOURCC_I420] in Hcaps |- *; subst. by destruct (FOURCC_I420 =? fourcc), (_ =? NONE). }
  eexists. split; [exact Hnew|].
  assert (forall f off stride i, plane_entry (m_piPlaneOffsets f) i = off -> plane_entry (m_piPlaneStrides f) i = stride ->
    0 <= off <= alen (b_mem b) -> plane_of f b i = Some (plane_from b off stride)) as Hplane.
  { intros f off stride i Ho Hs Hr. unfold plane_of, pointer. rewrite Ho, Hs. zcase; lia || done. }
  split; cbn [m_typeFrame m_pBuffer m_iEncodedWidth m_iEncodedHeight m_uFormatFourCC m_bHasAlpha]; try done; try lia; try nia.
  all: try (apply Hplane; [by destruct (FOURCC_I420 =? fourcc)|by destruct (FOURCC_I420 =? fourcc)|lia]).
  all: try (apply drop_plane_ok; try done; try lia; nia).
  match goal with |- dest_stride ?f * _ < _ => destruct (dest_stride_ok f) as [Hds _]; [cbn; lia|] end.
  cbn [m_iEncodedWidth] in Hds. nia.
Qed.
