(* ===== verification/VideoSwap.v ===== *)
(** * Swapping the bytes of pixels

    Between ARGB and BGRA the bytes of each pixel are in opposite order.  The conversion
    reverses them, keeps the rest of the caps, and undoes itself. *)

From Stdlib Require Import String.
From S2P Require Import Prelude.
From S2P Require Import Mem.
From S2P Require Import Sse2.
From S2P Require Import GstVideoFrame.
From S2P Require Import VideoConvert.

Open Scope Z_scope.

(** ** Pixels *)

Lemma land_shifted x k : 0 <= k -> (x .& (255 << k)) = ((x >> k) .& 255) << k.
Proof.
  intros Hk. apply Z.bits_inj'. intros n Hn. rewrite Z.land_spec, !Z.shiftl_spec by lia.
  destruct (Z.lt_ge_cases n k) as [Hlt|Hge].
  - rewrite !(Z.testbit_neg_r _ (n - k)) by lia. by rewrite andb_false_r.
  - rewrite Z.land_spec, Z.shiftr_spec by lia. by replace (n - k + k) with n by lia.
Qed.

Lemma land_byte x k : 0 <= k -> (x .& (255 << k)) = x / 2 ^ k mod 256 * 2 ^ k.
Proof.
  intros Hk. rewrite land_shifted, Z.shiftl_mul_pow2, Z.shiftr_div_pow2 by done.
  change 255 with (Z.ones 8). by rewrite Z.land_ones by lia.
Qed.

(** The number of the bytes in opposite order. *)
Lemma swap_value b0 b1 b2 b3 : is_byte b0 -> is_byte b1 -> is_byte b2 -> is_byte b3 ->
  swap_uint32 (b0 + 256 * b1 + 65536 * b2 + 16777216 * b3) = b3 + 256 * b2 + 65536 * b1 + 16777216 * b0.
Proof.
  unfold is_byte. intros H0 H1 H2 H3. unfold swap_uint32. set (x := b0 + _ + _ + _).
  change 0x000000ff with (255 << 0). change 0x0000ff00 with (255 << 8).
  change 0x00ff0000 with (255 << 16). change 0xff000000 with (255 << 24). rewrite !land_byte by lia.
  assert (x / 2 ^ 0 mod 256 = b0 /\ x / 2 ^ 8 mod 256 = b1 /\ x / 2 ^ 16 mod 256 = b2 /\ x / 2 ^ 24 mod 256 = b3)
    as (-> & -> & -> & ->) by (unfold x; cbn [Z.pow Z.pow_pos Pos.iter]; zlia).
  rewrite !Z.shiftl_mul_pow2, !Z.shiftr_div_pow2 by lia. unfold u32.
  replace (b0 * 2 ^ 0 * 2 ^ 24) with (b0 * 2 ^ 24) by lia. replace (b1 * 2 ^ 8 * 2 ^ 8) with (b1 * 2 ^ 16) by lia.
  replace (b2 * 2 ^ 16 / 2 ^ 8) with (b2 * 2 ^ 8) by (change (2 ^ 16) with (2 ^ 8 * 2 ^ 8); zlia).
  rewrite Z.div_mul by lia. rewrite !Z.mod_small by lia.
  rewrite (lor_add_low b0) by lia. replace (b0 * 2 ^ 24 + b1 * 2 ^ 16) with ((b0 * 2 ^ 8 + b1) * 2 ^ 16) by lia.
  rewrite lor_add_low by lia. replace (_ * 2 ^ 16 + b2 * 2 ^ 8) with (((b0 * 2 ^ 8 + b1) * 2 ^ 8 + b2) * 2 ^ 8) by lia.
  rewrite lor_add_low by lia. lia.
Qed.

(** The bytes of the first [n] of [d] from those of [src], each four in opposite order. *)
Definition swapped (src : list Z) (n : Z) (d : list Z) : list Z :=
  row 0 n (fun k _ => byte_at src (4 * (k / 4) + (3 - k mod 4))) d.

Lemma swap_at_ok src d k : Forall is_byte src -> 0 <= k -> 4 * k + 4 <= alen src -> 4 * k + 4 <= alen d ->
  swap_at src (swapped src (4 * k) d) k k = Some (swapped src (4 * (k + 1)) d).
Proof.
  intros Hsrc Hk Hs Hd. unfold swap_at, load_u32, load_i32. rewrite !ld_at by lia. cbn [mbind option_bind].
  pose proof (byte_at_byte src (4 * k) Hsrc) as H0. pose proof (byte_at_byte src (4 * k + 1) Hsrc) as H1.
  pose proof (byte_at_byte src (4 * k + 2) Hsrc) as H2. pose proof (byte_at_byte src (4 * k + 3) Hsrc) as H3.
  rewrite u32_le4, swap_value by done. unfold store_u32. set (l := [_; _; _; _]).
  assert (l = [byte_at src (4 * k + 3); byte_at src (4 * k + 2); byte_at src (4 * k + 1); byte_at src (4 * k)]) as ->.
  { unfold l, is_byte in *. f_equal; [|f_equal; [|f_equal; [|f_equal]]]; zlia. }
  rewrite store_row by (unfold swapped, alen in *; cbn; rewrite ?length_row; lia). f_equal. unfold swapped.
  change (alen _) with 4. replace (4 * k) with (0 + 4 * k) at 1 by lia. rewrite row_app by lia.
  replace (4 * (k + 1)) with (4 * k + 4) by lia. apply row_ext. intros j x Hj. destruct (Z.ltb_spec j (4 * k)); [done|].
  assert (j / 4 = k) as -> by zlia.
  assert (j mod 4 = j - 4 * k) as -> by zlia. clear x.
  assert (j - 4 * k = 0 \/ j - 4 * k = 1 \/ j - 4 * k = 2 \/ j - 4 * k = 3) as [E|[E|[E|E]]] by lia;
    rewrite E; match goal with |- context [Z.to_nat ?z] => let n := eval vm_compute in (Z.to_nat z) in change (Z.to_nat z) with n end;
    cbn [lookup list_lookup default from_option]; unfold id; f_equal; lia.
Qed.

Lemma swapped_length src n d : alen (swapped src n d) = alen d.
Proof. unfold swapped, alen. by rewrite length_row. Qed.

Lemma byte_at_swapped src n d i : 0 <= i < n -> n <= alen d ->
  byte_at (swapped src n d) i = byte_at src (4 * (i / 4) + (3 - i mod 4)).
Proof.
  intros Hi Hn. unfold byte_at at 1, ld, swapped. rewrite (proj2 (Z.leb_le _ _)), lookup_row by lia.
  destruct (lookup_lt_is_Some_2 d (Z.to_nat i)) as [x ->]; [unfold alen in *; lia|]. cbn.
  rewrite Z2Nat.id, Z.sub_0_r by lia. zcase; lia || done.
Qed.

Lemma swapped_bytes src n d : Forall is_byte src -> Forall is_byte d -> Forall is_byte (swapped src n d).
Proof.
  intros Hs Hd. apply Forall_lookup_2. intros i x. unfold swapped. rewrite lookup_row.
  destruct (d !! i) as [y|] eqn:E; [cbn|done]. intros [= <-]. zcase; try (by eapply Forall_lookup_1);
    by apply byte_at_byte.
Qed.

(** The loop over a whole buffer. *)
Lemma swap_all_ok f b d :
  Forall is_byte (b_mem b) -> (plane_entry (m_piPlaneStrides f) 0) mod 4 = 0 -> b_size b mod 4 = 0 ->
  0 <= b_size b < 4294967296 -> b_size b <= alen (b_mem b) -> b_size b <= alen d ->
  swap_all f b d = Some (swapped (b_mem b) (b_size b) d).
Proof.
  intros Hb Hstride Hmod Hsize Hm Hd. unfold swap_all.
  change 3 with (Z.ones 2). rewrite Z.land_ones by lia. change (2 ^ 2) with 4. rewrite Hstride. cbn [Z.eqb].
  set (F k := mkSwapping (swapped (b_mem b) (4 * Z.of_nat k) d) (4 * Z.of_nat k) (Z.of_nat k) (Z.of_nat k)).
  assert (mkSwapping d 0 0 0 = F O) as -> by (unfold F, swapped; by rewrite row_0 by lia).
  rewrite (while_eq F (Z.to_nat (b_size b / 4))).
  - cbn [mbind option_bind w_dst F]. do 2 f_equal. zlia.
  - zlia.
  - intros k Hk. cbn [xx F]. unfold u32. assert (4 * Z.of_nat k + 4 <= b_size b) by zlia.
    rewrite Z.mod_small by lia. split; [by apply Z.ltb_lt; lia|]. unfold swap_next. cbn [w_dst dstData srcData F xx].
    rewrite swap_at_ok by (done || lia). cbn [mbind option_bind]. unfold F. repeat f_equal; lia.
  - cbn [xx F]. apply Z.ltb_ge. unfold u32. rewrite Z.mod_small; zlia.
Qed.

(** ** Caps *)

Lemma get_set_field l n v m : get_field (set_field l n v) m = if String.eqb n m then Some v else get_field l m.
Proof.
  induction l as [|[n' w] l IH]; cbn; [done|]. destruct (String.eqb_spec n' n) as [->|Hne]; cbn.
  - by destruct (String.eqb n m).
  - destruct (String.eqb_spec n' m) as [->|]; [|done]. by rewrite (proj2 (String.eqb_neq _ _)) by congruence.
Qed.

(** Every field but the masks is the same. *)
Lemma set_masks_int str masks n :
  n ∉ ["red_mask"; "green_mask"; "blue_mask"; "alpha_mask"]%string ->
  gst_structure_get_int (set_masks str masks) n = gst_structure_get_int str n.
Proof.
  intros Hn. destruct masks as [[[al r] g] bl]. unfold gst_structure_get_int. cbn.
  rewrite !get_set_field.
  rewrite !(proj2 (String.eqb_neq _ _)) by (intros <-; apply Hn; rewrite !elem_of_cons; tauto). done.
Qed.

(** The masks of the caps are those of a type. *)
Definition has_masks (str : GstStructure) (t : FrameType) : Prop :=
  exists r g b, gst_structure_get_int str "red_mask" = Some r /\ gst_structure_get_int str "green_mask" = Some g /\
    gst_structure_get_int str "blue_mask" = Some b /\ rgb_type r g b = Some t.

Lemma format_masks str fourcc : str_name str = "video/x-raw-rgb"%string ->
  forall t, has_masks str t -> format_of str fourcc = IsFormat t true true.
Proof.
  intros Hn t (r & g & b & Hr & Hg & Hb & Ht). unfold format_of, gst_structure_has_name. rewrite Hn. cbn.
  by rewrite Hr, Hg, Hb, Ht.
Qed.

Lemma masks_format str fourcc t alpha valid :
  t = ARGB \/ t = BGRA_PRE -> format_of str fourcc = IsFormat t alpha valid ->
  str_name str = "video/x-raw-rgb"%string /\ has_masks str t.
Proof.
  intros Ht. unfold format_of, gst_structure_has_name.
  destruct (String.eqb _ _); [intros [= <-]; by destruct Ht|]. destruct (String.eqb _ _); [intros [= <-]; by destruct Ht|].
  destruct (String.eqb _ _); [destruct (_ =? _); intros [= <-]; by destruct Ht|].
  destruct (String.eqb_spec (str_name str) "video/x-raw-rgb"); [|intros [= <-]; by destruct Ht].
  unfold has_masks. destruct (gst_structure_get_int str "red_mask") as [r|], (gst_structure_get_int str "green_mask") as [g|],
    (gst_structure_get_int str "blue_mask") as [b|]; try done.
  destruct (rgb_type r g b) eqn:Er; [|done]. intros [= -> <- <-]. eauto 10.
Qed.

Lemma set_masks_has str t masks : masks_of t = Some masks -> has_masks (set_masks str masks) t.
Proof.
  destruct t; try done; intros [= <-]; unfold has_masks, gst_structure_get_int; cbn -[set_field]; rewrite !get_set_field;
    cbn; by eexists _, _, _.
Qed.

(** The frame of pixels that caps describe. *)
Definition caps_frame (raw : Frame) (caps : GstStructure) (b : Buffer) (t : FrameType) : Frame :=
  let w := gst_structure_get_int caps "width" in
  let h := gst_structure_get_int caps "height" in
  let ew := int_or caps "encoded-width" (default 0 w) in
  let eh := int_or caps "encoded-height" (default 0 h) in
  mkFrame (default 0 w) (default 0 h) ew eh t false 1 (0, 0, 0, 0) (int_or caps "line_stride" (i32 (ew * 4)), 0, 0, 0)
    (if b_timestamp b =? NONE then 0 else b_timestamp b) (b_size b) (b_offset b) (is_some w && is_some h) true
    (default (m_uFormatFourCC raw) (gst_structure_get_fourcc caps "format")) (Some b).

Lemma caps_frame_new raw caps b t : t = ARGB \/ t = BGRA_PRE -> b_caps b = Some caps ->
  str_name caps = "video/x-raw-rgb"%string -> has_masks caps t -> new_frame raw b = Some (caps_frame raw caps b t).
Proof.
  intros Ht Hb Hn Hm. unfold new_frame. rewrite Hb. cbn [mbind option_bind]. unfold SetFrameCaps.
  rewrite (format_masks _ _ Hn _ Hm). unfold caps_frame. destruct b; cbn in Hb |- *; subst.
  destruct Ht as [-> | ->]; cbn; by destruct (_ =? NONE).
Qed.

Lemma new_frame_caps raw caps b f : b_caps b = Some caps -> new_frame raw b = Some f ->
  m_typeFrame f = ARGB \/ m_typeFrame f = BGRA_PRE ->
  str_name caps = "video/x-raw-rgb"%string /\ has_masks caps (m_typeFrame f) /\ f = caps_frame raw caps b (m_typeFrame f).
Proof.
  intros Hb Hf Ht. assert (str_name caps = "video/x-raw-rgb"%string /\ has_masks caps (m_typeFrame f)) as [Hn Hm].
  { unfold new_frame in Hf. rewrite Hb in Hf. cbn [mbind option_bind] in Hf. injection Hf as <-. revert Ht.
    unfold SetFrameCaps. set (fc := default _ _). destruct (format_of caps fc) as [t alpha valid|] eqn:Ef; cbn.
    - destruct (planes_of _ _ _ _ _ _) as [[? ?] ?]. cbn. intros Ht. by eapply masks_format.
    - by intros []. }
  split_and!; try done. rewrite (caps_frame_new raw caps b _ Ht Hb Hn Hm) in Hf. by injection Hf.
Qed.

(** ** Frames *)

(** What the conversion needs of a frame of pixels. *)
Record rgb_ok (raw f : Frame) (b : Buffer) : Prop := {
  rgb_caps : exists caps, b_caps b = Some caps;
  rgb_frame_new : new_frame raw b = Some f;
  rgb_stride : plane_entry (m_piPlaneStrides f) 0 mod 4 = 0;
  rgb_pixels : b_size b mod 4 = 0;
  rgb_size : 0 <= b_size b < 4294967280;
  rgb_memory : b_size b <= alen (b_mem b);
  rgb_bytes : Forall is_byte (b_mem b);
}.

(** The same sizes, stride and validity. *)
Definition same_shape (f f' : Frame) : Prop :=
  m_iWidth f' = m_iWidth f /\ m_iHeight f' = m_iHeight f /\ m_iEncodedWidth f' = m_iEncodedWidth f /\
  m_iEncodedHeight f' = m_iEncodedHeight f /\ m_piPlaneStrides f' = m_piPlaneStrides f /\
  m_piPlaneOffsets f' = m_piPlaneOffsets f /\ m_bIsValid f' = m_bIsValid f /\ m_ulSize f' = m_ulSize f.

Lemma swap_once E raw raw' f b t :
  allocates E -> rgb_ok raw f b -> m_typeFrame f = ARGB \/ m_typeFrame f = BGRA_PRE -> t = ARGB \/ t = BGRA_PRE ->
  t <> m_typeFrame f ->
  exists f' b', ConvertToFormat E raw' f t = Some (Some f', 1) /\ m_pBuffer f' = Some b' /\ rgb_ok raw' f' b' /\
    m_typeFrame f' = t /\ same_shape f f' /\ b_size b' = b_size b /\
    forall i, 0 <= i < b_size b -> byte_at (b_mem b') i = byte_at (b_mem b) (4 * (i / 4) + (3 - i mod 4)).
Proof.
  intros HE [[caps Hcaps] Hnew Hstride Hmod Hsize Hmem Hbytes] Hf Ht Hne.
  destruct (new_frame_caps _ _ _ _ Hcaps Hnew Hf) as (Hname & Hm & Ef).
  destruct (alloc_ok E (b_size b) HE Hsize) as (dest & Ed & _ & Hlen & Hds & _ & _ & Hdb).
  destruct (masks_of t) as [masks|] eqn:Em; [|by destruct Ht as [-> | ->]].
  set (b' := set_mem (swapped (b_mem b) (b_size b) (b_mem dest)) (set_caps (set_masks caps masks) dest)).
  pose proof (set_masks_has caps t masks Em) as Hm'.
  assert (new_frame raw' b' = Some (caps_frame raw' (set_masks caps masks) b' t)) as Hnew'.
  { apply caps_frame_new; try done. by destruct masks as [[[? ?] ?] ?]. }
  set (f' := caps_frame raw' (set_masks caps masks) b' t) in *.
  assert (same_shape f f') as Hshape.
  { rewrite Ef. unfold same_shape, f', caps_frame, int_or. cbn -[set_masks].
    rewrite !set_masks_int by (by rewrite !elem_of_cons; intros [|[|[|[|[]%elem_of_nil]]]]). by rewrite Hds. }
  exists f', b'. split_and!; try done.
  - unfold ConvertToFormat. rewrite bool_decide_eq_false_2 by done.
    assert (m_pBuffer f = Some b) as -> by (by rewrite Ef).
    transitivity (ConvertSwapRGB E raw' f b t); [by destruct Ht as [-> | ->], Hf as [-> | ->]|].
    unfold ConvertSwapRGB. rewrite Ed, Hcaps. cbn [mbind option_bind]. rewrite Em. cbn [b_mem set_caps].
    rewrite swap_all_ok by (done || lia). cbn [mbind option_bind]. unfold finish. cbn [Z.eqb]. fold b'. by rewrite Hnew'.
  - split; [by eexists|done| | | | |].
    + destruct Hshape as (_ & _ & _ & _ & -> & _). done.
    + by cbn; rewrite Hds.
    + by cbn; rewrite Hds.
    + cbn. rewrite swapped_length. lia.
    + cbn. by apply swapped_bytes.
  - intros i Hi. cbn. by apply byte_at_swapped.
Qed.

(** C30. A frame of pixels whose rows are a multiple of four bytes is converted to the other
    order: every pixel has its bytes reversed, the sizes and the stride stay as they are, and
    converting the new frame back gives the first type and every byte of the first picture. *)
Theorem swap_twice E raw raw' raw'' f b t :
  allocates E -> rgb_ok raw f b -> m_typeFrame f = ARGB \/ m_typeFrame f = BGRA_PRE -> t = ARGB \/ t = BGRA_PRE ->
  t <> m_typeFrame f ->
  exists f' b' f'' b'',
    (ConvertToFormat E raw' f t = Some (Some f', 1) /\ m_pBuffer f' = Some b' /\ m_typeFrame f' = t /\ same_shape f f' /\
     forall i, 0 <= i < b_size b -> byte_at (b_mem b') i = byte_at (b_mem b) (4 * (i / 4) + (3 - i mod 4))) /\
    ConvertToFormat E raw'' f' (m_typeFrame f) = Some (Some f'', 1) /\ m_pBuffer f'' = Some b'' /\
    m_typeFrame f'' = m_typeFrame f /\ same_shape f f'' /\
    forall i, 0 <= i < b_size b -> byte_at (b_mem b'') i = byte_at (b_mem b) i.
Proof.
  intros HE Hok Hf Ht Hne. destruct (swap_once E raw raw' f b t) as (f' & b' & Hc & Hb & Hok' & Et & Hs & Hsize & Hbytes); try done.
  destruct (swap_once E raw' raw'' f' b' (m_typeFrame f)) as (f'' & b'' & Hc' & Hb' & _ & Et' & Hs' & Hsize' & Hbytes');
    rewrite ?Et; try done.
  exists f', b', f'', b''. split_and!; try done.
  - unfold same_shape in *. naive_solver congruence.
  - intros i Hi. rewrite Hbytes' by lia. rewrite Hbytes by (rewrite <- ?Hsize in *; destruct Hok'; zlia).
    f_equal. zlia.
Qed.
