(* ===== verification/ColorRuns.v ===== *)
(** * Runs of the conversions of pictures and frames

    Small pictures on which the theorems on ColorConverter.c and GstVideoFrame.cpp apply, and
    the cases in which the code does not do what it should. *)

From Stdlib Require Import String.
From S2P Require Import Prelude.
From S2P Require Import Mem.
From S2P Require Import Sse2.
From S2P Require Import ColorSse2.
From S2P Require Import ColorC.
From S2P Require Import ColorBlocks.
From S2P Require Import ColorPicture.
From S2P Require Import ColorPlain.
From S2P Require Import ColorConvert.
From S2P Require Import GstVideoFrame.
From S2P Require Import VideoConvert.
From S2P Require Import VideoSwap.

Open Scope Z_scope.

(** ** Pictures *)

(** Planes for a picture of 22 by 2 pixels: blocks of 16, 4 and 2 columns. *)
Definition ramp (n : nat) (f : Z -> Z) : list Z := map (fun i => f (Z.of_nat i) mod 256) (seq 0 n).
Definition film_y : Plane := mkPlane (ramp 44 (fun i => 16 + 5 * i)) 3 22.
Definition film_u : Plane := mkPlane (ramp 11 (fun i => 200 - 9 * i)) 47 11.
Definition film_v : Plane := mkPlane (ramp 11 (fun i => 90 + 11 * i)) 58 11.
Definition film_a : Plane := mkPlane (ramp 44 (fun i => 255 - i)) 69 22.
Definition film_dst : list Z := replicate 192 7.

Ltac planes_fit := split; [by repeat constructor|by vm_compute..].

Lemma film_arguments : arguments_ok film_dst 96 22 2 film_y film_v film_u (Some film_a).
Proof. split; try (by vm_compute); planes_fit. Qed.

Lemma sse2_converts_witness :
  exists d, ColorConvert_YCbCr420p_to_BGRA32 film_dst 160 96 22 2 film_y film_v film_u film_a = Some (0, d) /\
    d = picture bgra 96 22 2 film_y film_v film_u (Some film_a) film_dst.
Proof.
  eexists. split; [|reflexivity].
  exact (proj1 (proj2 (proj2 (sse2_converts 160 96 22 2 film_y film_v film_u film_a film_dst film_arguments eq_refl eq_refl)))).
Defined.

Lemma plain_converts_witness :
  exists d, c_YCbCr420p_to_BGRA32 (Some film_dst) 96 22 2 (Some film_y) (Some film_v) (Some film_u) film_a =
      Some (0, Some d) /\
    d = picture plain_bgra 96 22 2 film_y film_v film_u (Some film_a) film_dst.
Proof.
  eexists. split; [|reflexivity].
  exact (proj1 (proj1 (plain_converts 96 22 2 film_y film_v film_u film_a film_dst film_arguments)
    (conj eq_refl eq_refl) (conj eq_refl eq_refl))).
Defined.

Lemma colours_accurate_witness :
  exists d1 d2, ColorConvert_YCbCr420p_to_BGRA32_no_alpha film_dst 160 96 22 2 film_y film_v film_u = Some (0, d1) /\
    c_YCbCr420p_to_BGRA32_no_alpha (Some film_dst) 96 22 2 (Some film_y) (Some film_v) (Some film_u) = Some (0, Some d2) /\
    Z.abs (byte_at d1 100 - byte_at d2 100) <= 1.
Proof.
  destruct (colours_accurate 160 96 22 2 film_y film_v film_u film_dst
    (opaque_arguments _ _ _ _ _ _ _ _ film_arguments) eq_refl eq_refl (conj eq_refl eq_refl) (conj eq_refl eq_refl))
    as (d1 & d2 & H1 & H2 & Hclose & _).
  exists d1, d2. split; [exact H1|]. split; [exact H2|]. exact (Hclose 100).
Defined.

(** Black, white and the primary colours, as blue, green and red. *)
Example colours_of_films :
  map (fun '(y, u, v) => [ycc_b y u; ycc_g y u v; ycc_r y v])
    [(16, 128, 128); (235, 128, 128); (81, 90, 240); (145, 54, 34); (41, 240, 110)] =
  [[0; 0; 0]; [254; 255; 254]; [0; 0; 254]; [0; 255; 0]; [255; 0; 0]] /\
  map (fun '(y, u, v) => [plain_b y u; plain_g y u v; plain_r y v])
    [(16, 128, 128); (235, 128, 128); (81, 90, 240); (145, 54, 34); (41, 240, 110)] =
  [[0; 0; 0]; [255; 255; 255]; [0; 0; 254]; [1; 255; 0]; [255; 0; 0]].
Proof. vm_compute. split; reflexivity. Qed.

(** A packed picture of two pixels: U Y V Y. *)
Example packed_run :
  ColorConvert_YCbCr422p_to_BGRA32_no_alpha (Some (replicate 8 0)) 8 2 1
    (Some [81; 240; 235]) (Some [240; 235]) (Some [90; 81; 240; 235]) 4 4 =
  Some (0, Some [0; 0; 254; 255; 178; 179; 255; 255]).
Proof. vm_compute. reflexivity. Qed.

(** ** Where the builds differ *)

Definition grey : Plane := mkPlane (replicate 8 128) 0 4.
Definition neutral : Plane := mkPlane [128; 128] 0 2.
Definition half_alpha : Plane := mkPlane (replicate 8 127) 0 4.

(** The functions with SSE2 weight the colours by alpha, those in plain C do not, and the
    Java side takes both for colours that are weighted. *)
Example alpha_differs :
  ColorConvert_YCbCr420p_to_BGRA32 (replicate 32 0) 0 16 4 2 grey neutral neutral half_alpha =
    Some (0, concat (replicate 8 [65; 65; 65; 127])) /\
  c_YCbCr420p_to_BGRA32 (Some (replicate 32 0)) 16 4 2 (Some grey) (Some neutral) (Some neutral) half_alpha =
    Some (0, Some (concat (replicate 8 [130; 130; 130; 127]))).
Proof. vm_compute. split; reflexivity. Qed.

(** A picture that is not aligned to 16 bytes: with SSE2 the store faults. *)
Example unaligned_faults :
  ColorConvert_YCbCr420p_to_BGRA32_no_alpha (replicate 32 0) 8 16 4 2 grey neutral neutral = None /\
  c_YCbCr420p_to_BGRA32_no_alpha (Some (replicate 32 0)) 16 4 2 (Some grey) (Some neutral) (Some neutral) =
    Some (0, Some (concat (replicate 8 [130; 130; 130; 255]))).
Proof. vm_compute. split; reflexivity. Qed.

(** An odd width: with SSE2 the last column is left as it was and the result is success, in
    plain C the picture is refused. *)
Example odd_width :
  ColorConvert_YCbCr420p_to_BGRA32_no_alpha (replicate 32 0) 0 16 3 2 grey neutral neutral =
    Some (0, concat (replicate 2 ([130; 130; 130; 255; 130; 130; 130; 255] ++ replicate 8 0))) /\
  c_YCbCr420p_to_BGRA32_no_alpha (Some (replicate 32 0)) 16 3 2 (Some grey) (Some neutral) (Some neutral) =
    Some (1, Some (replicate 32 0)).
Proof. vm_compute. split; reflexivity. Qed.

(** ** Frames *)

(** Blocks are at an address that is not aligned. *)
Definition demo_env (simd : bool) : Env := mkEnv simd (fun n => Some (5, replicate (Z.to_nat n) 0)) true true.

Lemma demo_allocates simd : allocates (demo_env simd).
Proof.
  split; [|done..]. intros n Hn. eexists _, _. split; [done|]. unfold alen. rewrite length_replicate.
  split; [lia|]. apply Forall_replicate. unfold is_byte. lia.
Qed.

(** The memory of a new object. *)
Definition demo_raw : Frame := mkFrame 0 0 0 0 UNKNOWN false 0 (0, 0, 0, 0) (0, 0, 0, 0) 0 0 0 false false 0 None.

Definition the_frame (b : Buffer) : Frame := default demo_raw (new_frame demo_raw b).

(** A film of two by two pixels: the bytes of its chroma planes are 240 and 90. *)
Definition FOURCC_YV12 : Z := 0x32315659.
Definition small_film (fourcc timestamp : Z) : Buffer :=
  mkBuffer [81; 81; 81; 81; 240; 90] 1000 6 timestamp 3 40 (Some (plain_caps fourcc 2 2)).

Definition yv12_frame : Frame := the_frame (small_film FOURCC_YV12 40).

Lemma yv12_ok : frame_ok yv12_frame (small_film FOURCC_YV12 40)
  (mkPlane [81; 81; 81; 81; 240; 90] 1000 2) (mkPlane [240; 90] 1004 1) (mkPlane [90] 1005 1) None.
Proof. split; try (by vm_compute); planes_fit. Qed.


(** The picture is red: blue, green, red, alpha. *)
Definition picture_of (f : option (option Frame * Z)) : option (list Z) :=
  '(f, _) ← f; f ← f; b ← m_pBuffer f; Some (take (Z.to_nat (b_size b)) (b_mem b)).

Example yv12_is_red :
  picture_of (ConvertToFormat (demo_env true) demo_raw yv12_frame BGRA_PRE) =
    Some (concat (replicate 2 ([0; 0; 254; 255; 0; 0; 254; 255] ++ replicate 8 0))).
Proof. vm_compute. reflexivity. Qed.

(** In a film in I420 the first chroma plane is [u], and these bytes are a blue; the frame
    still takes the first for [v]. *)
Definition i420_frame : Frame := the_frame (small_film FOURCC_I420 40).

Example i420_is_red :
  (GetOffsetForPlane i420_frame 1 = 5 /\ GetOffsetForPlane i420_frame 2 = 4) /\
  picture_of (ConvertToFormat (demo_env true) demo_raw i420_frame BGRA_PRE) =
  picture_of (ConvertToFormat (demo_env true) demo_raw yv12_frame BGRA_PRE).
Proof. vm_compute. repeat split; reflexivity. Qed.

(** A conversion that the build refuses leaves a reference to the new buffer that nobody has:
    packed pictures to ARGB in every build, planes to ARGB without SSE2. *)
Lemma packed_argb_leaks E raw f b dest :
  alloc_aligned_buffer E (u32 (dest_stride f * m_iEncodedHeight f)) = Some dest -> gst_caps_new E = true ->
  m_bHasAlpha f = false -> 0 <= plane_entry (m_piPlaneOffsets f) 0 -> plane_entry (m_piPlaneOffsets f) 0 + 2 <= alen (b_mem b) ->
  ConvertFromYCbCr422 E raw f b ARGB = Some (None, 1).
Proof.
  intros Hd Hc Ha Ho Hlen. unfold ConvertFromYCbCr422. rewrite Ha, Hd. cbn [create_RGB_caps masks_of mbind option_bind].
  rewrite Hc. unfold pointer. rewrite !(proj2 (Z.leb_le _ _)) by lia. reflexivity.
Qed.

Example planes_argb_leaks : ConvertToFormat (demo_env false) demo_raw yv12_frame ARGB = Some (None, 1).
Proof. vm_compute. reflexivity. Qed.

(** A buffer without a time is not valid, but the caps make the frame valid. *)
Example no_time_is_valid : m_bIsValid (the_frame (small_film FOURCC_YV12 NONE)) = true.
Proof. vm_compute. reflexivity. Qed.

(** What Java asks is the field of the base class, which nothing sets. *)
Lemma never_has_alpha raw b f : new_frame raw b = Some f -> HasAlpha f = false.
Proof.
  unfold new_frame. destruct (b_caps b) as [caps|]; [|done]. intros [= <-]. unfold SetFrameCaps, HasAlpha.
  destruct (format_of _ _); [|done]. by destruct (planes_of _ _ _ _ _ _) as [[? ?] ?].
Qed.

(** A picture of 4 GB: the product of its sizes wraps to nothing, and 16 bytes are allocated. *)
Example huge_picture :
  let f := mkFrame 32768 32768 32768 32768 YCbCr_420p false 3 (0, 0, 0, 0) (0, 0, 0, 0) 0 0 0 true false 0 None in
  dest_stride f * m_iEncodedHeight f = 4294967296 /\
  (alen ∘ b_mem) <$> alloc_aligned_buffer (demo_env true) (u32 (dest_stride f * m_iEncodedHeight f)) = Some 5.
Proof. vm_compute. split; reflexivity. Qed.

(** ** Pixels *)

Definition pixel_caps (stride : Z) : GstStructure :=
  default (plain_caps 0 0 0) (create_RGB_caps ARGB 1 2 1 2 stride).
Definition pixel_buffer (stride size : Z) : Buffer :=
  mkBuffer (ramp (Z.to_nat size) (fun i => i)) 1000 size 40 3 40 (Some (pixel_caps stride)).
Definition argb_frame : Frame := the_frame (pixel_buffer 4 8).

Lemma argb_frame_ok : rgb_ok demo_raw argb_frame (pixel_buffer 4 8).
Proof. split; [by eexists|by vm_compute..|]. by repeat constructor. Qed.

Lemma swap_twice_witness :
  exists f' b' f'', ConvertToFormat (demo_env true) demo_raw argb_frame BGRA_PRE = Some (Some f', 1) /\
    m_pBuffer f' = Some b' /\ byte_at (b_mem b') 0 = 3 /\
    ConvertToFormat (demo_env true) demo_raw f' ARGB = Some (Some f'', 1).
Proof.
  destruct (swap_twice (demo_env true) demo_raw demo_raw demo_raw argb_frame (pixel_buffer 4 8) BGRA_PRE
    (demo_allocates true) argb_frame_ok (or_introl eq_refl) (or_intror eq_refl) ltac:(discriminate))
    as (f' & b' & f'' & b'' & (Hc & Hb & _ & _ & Hbytes) & Hc' & _).
  exists f', b', f''. split; [exact Hc|]. split; [exact Hb|]. split; [|exact Hc'].
  rewrite (Hbytes 0 ltac:(vm_compute; split; [discriminate|reflexivity])). vm_compute. reflexivity.
Defined.

(** The new frame has no time and no number: only the conversions from planes copy them. *)
Example swap_loses_time :
  (m_dTime argb_frame = 40 /\ m_ulFrameNumber argb_frame = 3) /\
  (f ← ConvertToFormat (demo_env true) demo_raw argb_frame BGRA_PRE;
   f ← f.1; Some (m_dTime f, m_ulFrameNumber f)) = Some (0, NONE).
Proof. vm_compute. repeat split; reflexivity. Qed.

(** Rows of five bytes: the second row is looked for at four times the stride, outside the
    picture. *)
Example odd_stride_faults :
  ConvertToFormat (demo_env true) demo_raw (the_frame (pixel_buffer 5 10)) BGRA_PRE = None.
Proof. vm_compute. reflexivity. Qed.
